(* ===== verification/_CoqProject ===== *)
-Q . S2P
Prelude.v
PyStr.v
PyFloat.v
PyRatio.v
PyDecimal.v
PyUuid.v
Schemas.v
Json.v
PyRepr.v
JsonText.v
Errors.v
Registry.v
Pricing.v
PyStats.v
PyNum.v
Deadline.v
Regex.v
Features.v
QualityFeatures.v
Policy.v
Routing.v
Predictor.v
Validation.v
Observability.v
Telemetry.v
Effects.v
Inference.v
GatewayConfig.v
Providers.v
Adaptive.v
AdaptiveConfig.v
Chat.v
RateLimit.v
Activity.v
Api.v
Bootstrap.v
Runtime.v
BenchmarkModels.v
BenchmarkRunner.v
Aggregation.v
SummarySpec.v
Normalization.v
SemanticJudge.v
Evaluators.v
DatasetValidation.v
Sandbox.v
EvaluationService.v
RoutingExport.v
RoutingAnalysis.v
MLFeatures.v
MLExperiment.v
ProductionPath.v
MLDiagnostics.v
PolicyValidation.v
Sklearn.v
PinAblation.v
Calibration.v
BenchmarkSplits.v
Retraining.v
PredictorBuild.v
BenchmarkProtocol.v
BenchmarkConstruction.v
FrozenValidation.v
ReasoningOracle.v
HybridValidation.v
HybridPlanning.v
CategoryDetector.v
PromptProjection.v
ExecutionReadiness.v
