(* ===== verification/Prelude.v ===== *)
(** * Adaptive LLM gateway: a verification development

    The program (package [adaptive_llm_gateway], under
    src/src/adaptive_llm_gateway/) is an inference gateway.  A request either
    names a model or asks for the cheapest model predicted to meet a quality
    threshold; model outputs may be validated against a contract, and a failed
    validation escalates to the next qualifying model.  Around this path stand
    admission control in Redis, one deadline for the whole request, adapters to
    an upstream HTTP gateway, telemetry and an activity log.  This library is a
    shallow embedding of that path in Rocq with the theorems that make it
    correct.

    ** How the files correspond to the source

    Language model: PyStr (strings as code points), PyFloat (binary64 through
    the Standard Library's SpecFloat, [sum] with compensation as in CPython
    3.12), PyDecimal (the decimal module's context arithmetic), PyNum
    ([float()] of numbers), PyUuid, Regex (backtracking semantics of the part of
    [re] that is used), Json (the scanner of the json module).  They are executable
    and carry the lemmas the components share.

    Data: Schemas (models/schemas.py), Errors (errors.py and the classes it
    extends, so [isinstance] and the order of [except] clauses are followed),
    Registry (registry/model_registry.py, providers/resolver.py).

    Cost and time: Pricing (pricing/calculator.py), Deadline
    (request_deadline.py).

    Routing: Features (routing/features.py), QualityFeatures
    (routing/quality_features.py), Policy (routing/policy.py), Routing
    (routing/service.py), Predictor (routing/predictor.py).  The predictor and
    the eligibility filter are classes, as the protocols of the source;
    Predictor gives the instance and Routing proves the facts for every
    implementation.

    Output validation: Validation (validation/contracts.py,
    validation/validator.py) over Json.

    Execution: Effects is the monad of the services: a world of telemetry rows,
    adapter calls and observations, and an environment [Env] whose readings
    (clocks, identifiers, adapters, writes) are oracles indexed by a tick, so
    every reading may differ.  Inference (application/service.py), Providers
    (providers/fake.py, providers/vercel.py), GatewayConfig
    (providers/gateway_config.py), Adaptive (application/adaptive.py),
    AdaptiveConfig (application/adaptive_config.py), Chat (application/chat.py),
    Observability (observability.py), Telemetry (telemetry/contracts.py).

    Boundary: RateLimit (rate_limit.py) with the Redis script as a function on
    a store whose commands are the class [Redis]; Activity (telemetry/query.py,
    persistence/repository.py); Api (api/limits.py, routes.py, schemas.py,
    app.py) whose limiter is a class with a contract that both limiters
    discharge; Bootstrap (bootstrap.py); Runtime (runtime.py, the lifespan in
    api/app.py, persistence/config.py and database.py): the settings read from
    the environment, the clients a process opens and closes, as functions of the
    body they surround, and the application state the routes find.

    Benchmarks: BenchmarkModels (benchmarks/models.py, features.py,
    protocol_audit.py) and BenchmarkRunner (benchmarks/runner.py) over an
    interface for its repository, with the file store behind it
    (benchmarks/repository.py) as a map from runs to directories; the runner
    uses Inference as the endpoints do.
    SummarySpec is the proposition specification of
    benchmarks/summarization_spec.py with its exact rational coverage.

    Evaluation: PyRepr ([repr] of floats, [Decimal] of a text) and JsonText
    ([json.dumps] and [json.loads] as values) complete the language model.
    Normalization (evaluation/normalization.py), Evaluators
    (evaluation/evaluators.py; Python's parser is the class [PythonAst]),
    DatasetValidation (benchmarks/validation.py, the rules of the datasets),
    Sandbox (evaluation/sandbox.py, host side), SemanticJudge
    (evaluation/hybrid_judge.py, judge.py), Aggregation (evaluation/models.py,
    aggregation.py) and EvaluationService (evaluation/service.py and the checks
    of repository.py), which composes them on the runs the runner stored.

    Routing data: RoutingExport (benchmarks/routing_export.py) turns an
    evaluated run, as EvaluationService loads it, into labelled rows;
    RoutingAnalysis (routing/analysis.py) applies the baseline policies to the
    frozen export and evaluates their decisions against the labels; PyStats is
    the part of [statistics] and [math.fsum] they use.
    The learned router, offline: MLFeatures (routing/ml_features.py) has the
    governed feature rows and the grouped folds, MLExperiment
    (routing/ml_experiment.py) the predictions out of fold, over an interface
    for the fitted pipelines of scikit-learn, and the selection from them.
    MLDiagnostics (routing/ml_diagnostics.py) ranks the predictions and compares
    them with the rules, PolicyValidation (routing/ml_policy_validation.py)
    routes by them, compares policies and measures them against the oracle.
    ProductionPath (routing/validate_production_path.py) runs the composed
    routing service against a direct evaluation of its artifact.
    Three studies stand on them: PinAblation (routing/provider_pin_ablation.py)
    drops the pinned provider from the features, Calibration
    (routing/calibration_analysis.py) judges the predictions as probabilities
    and routes them with the production policy at every threshold, Retraining
    (routing/phase9_retraining.py) trains on the routing benchmark with the
    canonical features of the gateway.  FrozenValidation
    (routing/phase9_dev_validation.py) measures the frozen predictor on the
    development split, and PredictorBuild (routing/train_predictor.py) builds the
    artifact that Predictor loads.  Sklearn states what they ask of numpy
    and scikit-learn, with the laws the theorems use and an instance of them.
    The routing benchmark (benchmarks/routing_benchmark_v1.py): BenchmarkSplits
    has the rules of a dataset, the split manifest, the pilot and the selection
    of a split, BenchmarkConstruction builds the dataset from authored families,
    BenchmarkProtocol loads the frozen execution protocols, ReasoningOracle
    computes the ground truth of the reasoning tasks.
    PromptProjection exports the prompts of a split for the category detector,
    and CategoryDetector (experiments/category_detector.py) has its rules, the
    metrics, the stages over an interface for scikit-learn and the effect of a
    detected category on the production routing.
    ExecutionReadiness (benchmarks/execution_readiness.py) has the pricing
    evidence and the dry runs over the loaded protocol.
    Studies of the judge: HybridValidation (evaluation/hybrid_validation.py)
    puts frozen cases to a judge, the live one or the fake of SemanticJudge, and
    reports; HybridPlanning (evaluation/hybrid_costs.py, hybrid_replay.py)
    prepares requests of stored summaries and estimates tokens and costs.
    PyRatio is the bound on quotients of counts these reports need.
    ** How a step is modelled

    Fallible code returns [result E A]; a Python exception is a value of
    [Errors.exn], and each [except] clause is a test with [isinstance] in the
    source's order.  Effectful code is a function of the world.  An [await] that
    may be cancelled by a timeout is an oracle that may answer with
    [TimeoutError].  Records hold the values pydantic stores after coercion and
    the [_validate] functions are the constraints and validators of the source.

    ** What the theorems show

    - Requests (Adaptive, Chat, Api, Inference): calls are bounded by the
      attempts and confined to the candidates; the order of escalation; a
      returned response met its contract; each inference leaves exactly one
      row; telemetry cannot change what the caller gets; admission precedes the
      paid call.
    - Routing (Policy, Routing, Predictor, QualityFeatures, Features): the
      choice is optimal and independent of the order of candidates, errors are
      exactly those documented, a predictor that answers for the wrong
      candidates is detected, bytes are unpickled only after their checksum
      matched.
    - Validation: a response passes exactly when it meets its contract, and the
      depth prescan agrees with the depth of the parsed value.
    - RateLimit: admitted weight never exceeds the capacity of a window, for
      every run of requests, and a refused client is
      admitted after its wait; every other answer of Redis turns the request away.
    - Pricing: the decimal context never rounds, so costs are exact for every
      count Python can print.
    - Providers: an HTTP answer gives a response or one of the listed errors.
    - Activity: cursors round-trip and pages read the whole log.
    - Process (Runtime): every client a process opens is closed once, the last
      first, whatever fails; a started process serves the state its settings
      determine and outlives a failed telemetry probe.
    - Benchmarks (BenchmarkRunner): storage sees the announced run, one result
      per pair in order and one closing status, paid calls are the planned ones,
      and an aborted run is closed as such.
    - Evaluation (EvaluationService, SemanticJudge, Sandbox, Evaluators,
      SummarySpec, Aggregation, Normalization): exactly the whole completed
      runs load, and the files the runner leaves of a completed run do; acceptance is earned
      by every deterministic check, verdict and threshold; a judge's rubric
      passes exactly when its rules are granted, and its result is the verdict on
      the answer that came back, with that answer's usage; coverage is exact; summaries
      account for every result once; nothing is saved unless all is evaluated.
    - Routing data (RoutingExport, RoutingAnalysis): rows are the evaluated run
      with labels exactly where the evaluation decided, every validated run can
      be exported, every policy can decide on the frozen data, the oracle is
      cheapest and bounds every policy, evaluations account for every decision,
      and offline and production projections of cost agree.
    - Datasets (DatasetValidation): a task that validates cannot make its
      evaluator fail on its metadata, whatever the response, and an accepted
      third version differs from the second in the approved limits only.
    - Learned routing, offline (MLFeatures, MLExperiment): folds exist for
      exactly the balanced data and partition it, every row is predicted once by
      a pipeline fitted on no row of its task, outcomes do not leak into predictions,
      and the offline selection is the choice of the production policy.
    - Comparing policies (MLDiagnostics, PolicyValidation): dominance is a strict
      order, so that whoever is dominated is dominated by an undominated point;
      rankings, comparisons and captured opportunity account for every request.
    - Studies (PinAblation, Calibration, Retraining): the canonical features of a
      training row are those the gateway serves; the ablated representation
      leaves the registry as it was, and both variants and the retrained
      predictor score each row out of fold; routing at a threshold meets it at
      the lowest cost; the frontier holds what nothing outclasses and is enough;
      reliability tables count every prediction once; five folds exist for
      exactly the balanced runs and partition them.
    - The artifact (PredictorBuild, ProductionPath, FrozenValidation): rows that
      pass the parity of training and serving give an artifact the loader
      accepts; the composed path never disagrees with its reference while the
      pipeline scores row by row, and reports on artifacts of the first format only; only the frozen predictor is unpickled, and
      its account by category covers every selection.
    - Routing benchmark (BenchmarkSplits, BenchmarkConstruction,
      BenchmarkProtocol, ReasoningOracle): the selections of the splits
      partition a validated dataset and final tasks are gated; built manifests
      keep families whole, constructed datasets are balanced and can be split,
      the pilot is training only; a loaded protocol fixes models, prices and
      output allowances; the oracle answers shortest distances and determined
      orderings, and always ends.
    - Category detector (CategoryDetector, PromptProjection): exported prompts
      are exactly the tasks of their split, whose manifest is the only file read, the metrics account for every
      record, the correction stays within its pair and gains what it reports, a
      right category changes no routing decision, no training record is scored by
      a pipeline that saw its family, and a freeze identifies its records.
    - Execution readiness (ExecutionReadiness): a ready pilot is the frozen one,
      in the train split, priced as reviewed and below its ceiling; a ready
      confirmation has the five cases at Gemini's allowance.
    - Studies of the judge (HybridValidation, HybridPlanning): live validation
      asks nothing without authorization, reports count every case once with
      rates in the unit interval, planned costs are the catalogue's, worst cases
      dominate, and a replay has exactly the successful summaries.
    ** Bounds and fuel

    Recursion is structural except in the JSON scanners, regular expressions,
    UTF-8 decoding and the search for the shortest text of a float, whose fuel
    is the length of the text or the number of decimal digits a binary64 can
    need; [Json.json_loads_fuel], [JsonText.fuel_is_enough] and
    [Regex.re_match_complete] show that it is enough for the scanners.  The validator's parser has
    a recursion room as a parameter, and the theorems hold from 32 nested
    containers on.  Reading the pages of a log takes at most as many requests as
    it has rows, and one when it is empty; running out of fuel is told apart.

    ** Not modelled

    Framework wiring (FastAPI routing and dependency injection),
    database sessions and SQL text other than the listing, the Prometheus text
    format, process entry points, pydantic's reading of a text as a number: they
    are I/O or code of libraries.  What the offline studies under routing/ and
    experiments/ ask of numpy and scikit-learn is an interface.
    Of the evaluation code: the harness that runs inside the sandbox container,
    the writing of files, the generation of the frozen specifications, and the writing of the proposed manifests
    (hybrid_artifacts.py).  A response
    that nests deeper than the recursion limit raises in the parser of the
    model; in CPython the flattening after it may be what raises, with the same
    exception at the same place.
    Of the routing studies: the files and reports they write, the reproduction
    of stored predictions, statistics over folds, and the study of bounded
    signals (bounded_features.py, phase9_bounded_improvement.py), whose patterns
    look behind and which refits estimators of scikit-learn; of the category detector, the metrics of scikit-learn and the files of its stages.
    Of the process: SQLAlchemy's tables, the framework's middleware wiring and the
    clients themselves, of which only creation, probe and closing are seen.
    Of the routing benchmark: the authored texts, the audits of content,
    duplicates and ground truth, the cost estimate and the written artifacts.
    [hashlib.sha256] and pydantic's reading of a mapping are parameters.
 *)
From Stdlib Require Export ZArith NArith Lia Bool String Ascii.
From stdpp Require Export base list option gmap sorting.

#[global] Set Default Goal Selector "!".

(** ** Outcomes of Python code

    A Python expression either returns a value or raises; [E] is the type of
    exceptions of the code at hand. *)

Inductive result (E A : Type) : Type :=
| Ok (a : A)
| Raise (e : E).
Arguments Ok {E A} _.
Arguments Raise {E A} _.

Definition result_bind {E A B : Type} (f : A -> result E B) (r : result E A) : result E B :=
  match r with
  | Ok a => f a
  | Raise e => Raise e
  end.

#[export] Instance result_ret {E} : MRet (result E) := fun A a => Ok a.
#[export] Instance result_mbind {E} : MBind (result E) := fun A B f r => result_bind f r.
#[export] Instance result_fmap {E} : FMap (result E) :=
  fun A B f r => result_bind (fun a => Ok (f a)) r.

#[export] Instance result_eq_dec {E A} `{EqDecision E} `{EqDecision A} :
  EqDecision (result E A).
Proof. solve_decision. Defined.

(** [if not c: raise e] *)
Definition guard_else {E : Type} (c : bool) (e : E) : result E unit :=
  if c then Ok tt else Raise e.

(** [xs = [f(x) for x in l]], left to right, stopping at the first exception. *)
Fixpoint result_map {E A B : Type} (f : A -> result E B) (l : list A) : result E (list B) :=
  match l with
  | [] => Ok []
  | x :: l' =>
      match f x with
      | Raise e => Raise e
      | Ok y =>
          match result_map f l' with
          | Raise e => Raise e
          | Ok ys => Ok (y :: ys)
          end
      end
  end.

(** [[x for x in l if p(x)]] *)
Fixpoint result_filter {E A : Type} (p : A -> result E bool) (l : list A) : result E (list A) :=
  match l with
  | [] => Ok []
  | x :: l' => b ← p x; r ← result_filter p l'; Ok (if (b : bool) then x :: r else r)
  end.

(** [any(p(x) for x in l)] *)
Fixpoint any_result {E A : Type} (p : A -> result E bool) (l : list A) : result E bool :=
  match l with [] => Ok false | x :: l' => b ← p x; if (b : bool) then Ok true else any_result p l' end.

(** [all(p(x) for x in l)] *)
Fixpoint all_result {E A : Type} (p : A -> result E bool) (l : list A) : result E bool :=
  match l with [] => Ok true | x :: l' => b ← p x; if (b : bool) then all_result p l' else Ok false end.

Definition is_ok {E A : Type} (r : result E A) : bool :=
  match r with Ok _ => true | Raise _ => false end.

(** ** Comparisons

    Python's [sorted]/[min] only use [<] on keys; a key type with a total
    three-way comparison is a [TotalCmp]. *)

Class TotalCmp {A : Type} (cmp : A -> A -> comparison) : Prop := {
  tc_refl : forall x, cmp x x = Eq;
  tc_opp : forall x y, cmp y x = CompOpp (cmp x y);
  tc_trans_lt : forall x y z, cmp x y = Lt -> cmp y z = Lt -> cmp x z = Lt;
  tc_eq_l : forall x y z, cmp x y = Eq -> cmp x z = cmp y z
}.

Arguments tc_refl {A} cmp {_} x.
Arguments tc_opp {A} cmp {_} x y.
Arguments tc_trans_lt {A} cmp {_} x y z _ _.
Arguments tc_eq_l {A} cmp {_} x y z _.

(** Lexicographic product, as the comparison of two Python tuples. *)
Definition lex_cmp {A : Type} (c1 c2 : A -> A -> comparison) (x y : A) : comparison :=
  match c1 x y with
  | Eq => c2 x y
  | c => c
  end.

Definition on_key {A B : Type} (k : A -> B) (cmp : B -> B -> comparison) (x y : A) : comparison :=
  cmp (k x) (k y).

Definition cmp_le {A : Type} (cmp : A -> A -> comparison) (x y : A) : bool :=
  match cmp x y with Gt => false | _ => true end.

Definition cmp_lt {A : Type} (cmp : A -> A -> comparison) (x y : A) : bool :=
  match cmp x y with Lt => true | _ => false end.

(** [min(x0, x1, ..., key=...)]: the first minimal element; a later element
    replaces the current one only when its key is strictly smaller. *)
Fixpoint min_from {A : Type} (lt : A -> A -> bool) (best : A) (l : list A) : A :=
  match l with
  | [] => best
  | x :: l' => min_from lt (if lt x best then x else best) l'
  end.

(** [sorted(l, key=...)]: stable insertion sort, [x] goes before the first
    element that is not smaller. *)
Fixpoint insert_sorted {A : Type} (le : A -> A -> bool) (x : A) (l : list A) : list A :=
  match l with
  | [] => [x]
  | y :: l' => if le x y then x :: y :: l' else y :: insert_sorted le x l'
  end.

Fixpoint py_sorted {A : Type} (le : A -> A -> bool) (l : list A) : list A :=
  match l with
  | [] => []
  | x :: l' => insert_sorted le x (py_sorted le l')
  end.

(** ** Python dictionaries

    A [dict] keeps insertion order; assigning to a present key keeps its
    place.  The library lemmas below are what the components use of it. *)
Section Dict.
Context {K V : Type} `{EqDecision K}.

Fixpoint dict_get (d : list (K * V)) (k : K) : option V :=
  match d with
  | [] => None
  | (k', v) :: d' => if decide (k = k') then Some v else dict_get d' k
  end.

Definition dict_mem (d : list (K * V)) (k : K) : bool :=
  match dict_get d k with Some _ => true | None => false end.

Fixpoint dict_set (d : list (K * V)) (k : K) (v : V) : list (K * V) :=
  match d with
  | [] => [(k, v)]
  | (k', v') :: d' => if decide (k = k') then (k', v) :: d' else (k', v') :: dict_set d' k v
  end.

Definition dict_keys (d : list (K * V)) : list K := d.*1.
Definition dict_values (d : list (K * V)) : list V := d.*2.
End Dict.

(** [{key(x): value(x) for x in l}] *)
Definition dict_of {K V A : Type} `{EqDecision K} (key : A -> K) (value : A -> V) (l : list A) : list (K * V) :=
  fold_left (fun d x => dict_set d (key x) (value x)) l [].

(** [len(set(l)) == len(l)] *)
Definition all_distinct {A : Type} `{EqDecision A} (l : list A) : bool :=
  Nat.eqb (length (remove_dups l)) (length l).

(** [set(a) == set(b)] *)
Definition same_elements {A : Type} `{EqDecision A} (a b : list A) : bool :=
  forallb (fun x => bool_decide (x ∈ b)) a && forallb (fun x => bool_decide (x ∈ a)) b.

(** [a <= set(b)] *)
Definition subset_of {A : Type} `{EqDecision A} (a b : list A) : bool :=
  forallb (fun x => bool_decide (x ∈ b)) a.

(** ** Automation *)

Create HintDb gateway.

(** Splits the matches of a hypothesis or the goal, discharging absurd cases. *)
Ltac case_all :=
  repeat match goal with
    | H : context [match ?x with _ => _ end] |- _ => destruct x eqn:?; try discriminate
    | |- context [match ?x with _ => _ end] => destruct x eqn:?; try discriminate
    end.

(** Inverts equations between outcomes. *)
Ltac inv_result :=
  repeat match goal with
    | H : Ok _ = Ok _ |- _ => injection H as H; subst
    | H : Raise _ = Raise _ |- _ => injection H as H; subst
    | H : Ok _ = Raise _ |- _ => discriminate H
    | H : Raise _ = Ok _ |- _ => discriminate H
    | H : (_, _) = (_, _) |- _ => injection H as H; subst
    | H : Some _ = Some _ |- _ => injection H as H; subst
    end.

(** Computes the binds of an outcome whose head is known. *)
Ltac rsimpl := cbn [mbind result_mbind result_bind mret result_ret fmap result_fmap].

Ltac rsimpl_in H := cbn [mbind result_mbind result_bind mret result_ret fmap result_fmap] in H.

(** Turns boolean tests into propositions. *)
Ltac bools :=
  repeat match goal with
    | H : _ && _ = true |- _ => apply andb_prop in H; destruct H
    | H : _ || _ = false |- _ => apply orb_false_elim in H; destruct H
    | H : negb _ = true |- _ => apply negb_true_iff in H
    | H : negb _ = false |- _ => apply negb_false_iff in H
    | H : bool_decide _ = true |- _ => apply bool_decide_eq_true in H
    | H : bool_decide _ = false |- _ => apply bool_decide_eq_false in H
    | H : (_ <=? _)%Z = true |- _ => apply Z.leb_le in H
    | H : (_ <=? _)%Z = false |- _ => apply Z.leb_gt in H
    | H : (_ <? _)%Z = true |- _ => apply Z.ltb_lt in H
    | H : (_ <? _)%Z = false |- _ => apply Z.ltb_ge in H
    | H : (_ =? _)%Z = true |- _ => apply Z.eqb_eq in H
    | H : (_ =? _)%Z = false |- _ => apply Z.eqb_neq in H
    | H : (_ =? _)%nat = true |- _ => apply Nat.eqb_eq in H
    | H : (_ =? _)%nat = false |- _ => apply Nat.eqb_neq in H
    | H : (_ <=? _)%nat = true |- _ => apply Nat.leb_le in H
    | H : (_ <=? _)%nat = false |- _ => apply Nat.leb_gt in H
    | H : (_ <? _)%nat = true |- _ => apply Nat.ltb_lt in H
    | H : (_ <? _)%nat = false |- _ => apply Nat.ltb_ge in H
    end.

(** [lia] with quotients and remainders. *)
Ltac dlia := zify; Z.to_euclidean_division_equations; lia.

(** ** Lemmas *)

Lemma result_map_ok {E A B} (f : A -> result E B) l ys :
  result_map f l = Ok ys -> Forall2 (fun x y => f x = Ok y) l ys.
Proof.
  revert ys. induction l as [|x l IH]; intros ys H; simpl in H; case_all; inv_result; auto.
Qed.

Lemma result_map_ext {E A B} (f g : A -> result E B) l :
  (forall x, x ∈ l -> f x = g x) -> result_map f l = result_map g l.
Proof.
  induction l as [|x l IH]; intros H; simpl; [done|].
  rewrite H, IH; set_solver.
Qed.

Lemma result_map_raise {E A B} (f : A -> result E B) l e :
  result_map f l = Raise e -> exists x, x ∈ l /\ f x = Raise e.
Proof.
  induction l as [|x l IH]; simpl; intros H; [done|].
  case_all; inv_result; [destruct IH as (z & ? & ?); [done|]; exists z | exists x];
    split; auto; set_solver.
Qed.

Lemma result_map_total {E A B} (f : A -> result E B) l :
  (forall x, x ∈ l -> exists y, f x = Ok y) -> exists ys, result_map f l = Ok ys.
Proof.
  induction l as [|x l IH]; intros H; simpl; [by eexists|].
  destruct (H x) as [y Hy]; [set_solver|].
  destruct IH as [ys Hys]; [set_solver|]. rewrite Hy, Hys. by eexists.
Qed.

Section TotalCmpFacts.
Context {A : Type} (cmp : A -> A -> comparison) `{!TotalCmp cmp}.

Lemma tc_eq_sym x y : cmp x y = Eq -> cmp y x = Eq.
Proof. intros H. by rewrite (tc_opp cmp x y), H. Qed.

Lemma tc_eq_r x y z : cmp y z = Eq -> cmp x y = cmp x z.
Proof.
  intros H. rewrite (tc_opp cmp y x), (tc_opp cmp z x). f_equal. by apply tc_eq_l.
Qed.

Lemma tc_lt_gt x y : cmp x y = Lt <-> cmp y x = Gt.
Proof. rewrite (tc_opp cmp x y). destruct (cmp x y); simpl; split; congruence. Qed.

Lemma cmp_le_refl x : cmp_le cmp x x = true.
Proof. unfold cmp_le. by rewrite tc_refl. Qed.

Lemma cmp_le_total x y : cmp_le cmp x y = true \/ cmp_le cmp y x = true.
Proof. unfold cmp_le. rewrite (tc_opp cmp x y). destruct (cmp x y); simpl; auto. Qed.

Lemma cmp_le_trans x y z :
  cmp_le cmp x y = true -> cmp_le cmp y z = true -> cmp_le cmp x z = true.
Proof.
  unfold cmp_le. intros H1 H2.
  destruct (cmp x y) eqn:Exy; [|destruct (cmp y z) eqn:Eyz| done]; try done.
  - by rewrite (tc_eq_l cmp x y z Exy).
  - by rewrite <- (tc_eq_r x y z Eyz), Exy.
  - by rewrite (tc_trans_lt cmp x y z).
Qed.

Lemma cmp_lt_not_le x y : cmp_lt cmp x y = negb (cmp_le cmp y x).
Proof. unfold cmp_le, cmp_lt. rewrite (tc_opp cmp x y). by destruct (cmp x y). Qed.

Lemma cmp_le_antisym x y :
  cmp_le cmp x y = true -> cmp_le cmp y x = true -> cmp x y = Eq.
Proof. unfold cmp_le. rewrite (tc_opp cmp x y). by destruct (cmp x y). Qed.
End TotalCmpFacts.

#[export] Instance total_cmp_lex {A} (c1 c2 : A -> A -> comparison) :
  TotalCmp c1 -> TotalCmp c2 -> TotalCmp (lex_cmp c1 c2).
Proof.
  intros T1 T2. unfold lex_cmp. split.
  - intros x. by rewrite !tc_refl.
  - intros x y. rewrite (tc_opp c1 x y), (tc_opp c2 x y). by destruct (c1 x y).
  - intros x y z Hxy Hyz.
    destruct (c1 x y) eqn:E1; try done.
    + rewrite (tc_eq_l c1 x y z E1). destruct (c1 y z); try done. by apply (tc_trans_lt c2 x y z).
    + destruct (c1 y z) eqn:E2; try done.
      * by rewrite <- (tc_eq_r c1 x y z E2), E1.
      * by rewrite (tc_trans_lt c1 x y z E1 E2).
  - intros x y z H. destruct (c1 x y) eqn:E1; try done.
    rewrite (tc_eq_l c1 x y z E1). destruct (c1 y z); try done. by apply tc_eq_l.
Qed.

#[export] Instance total_cmp_on_key {A B} (k : A -> B) (c : B -> B -> comparison) :
  TotalCmp c -> TotalCmp (on_key k c).
Proof.
  intros T. unfold on_key. split; intros.
  - apply tc_refl, _.
  - apply tc_opp, _.
  - by apply (tc_trans_lt c _ (k y)).
  - by apply tc_eq_l.
Qed.

#[export] Instance total_cmp_flip {A} (c : A -> A -> comparison) :
  TotalCmp c -> TotalCmp (fun x y => c y x) | 10.
Proof.
  intros T. split.
  - intros x. apply tc_refl, _.
  - intros x y. apply tc_opp, _.
  - intros x y z H1 H2. by apply (tc_trans_lt c z y x).
  - intros x y z H. symmetry. by apply (tc_eq_r c z y x).
Qed.

#[export] Instance total_cmp_N : TotalCmp N.compare.
Proof.
  split.
  - apply N.compare_refl.
  - intros x y. apply N.compare_antisym.
  - intros x y z. rewrite !N.compare_lt_iff. lia.
  - intros x y z H. apply N.compare_eq in H. by subst.
Qed.

#[export] Instance total_cmp_Z : TotalCmp Z.compare.
Proof.
  split.
  - apply Z.compare_refl.
  - intros x y. apply Z.compare_antisym.
  - intros x y z. rewrite !Z.compare_lt_iff. lia.
  - intros x y z H. apply Z.compare_eq in H. by subst.
Qed.

(** ** [min] and [sorted] *)

Lemma min_from_in {A} (lt : A -> A -> bool) b l :
  min_from lt b l = b \/ min_from lt b l ∈ l.
Proof.
  revert b. induction l as [|x l IH]; intros b; simpl; [by left|].
  destruct (IH (if lt x b then x else b)) as [->|H]; [|right; set_solver].
  destruct (lt x b); [right; set_solver|by left].
Qed.

Lemma min_from_le {A} (cmp : A -> A -> comparison) `{!TotalCmp cmp} b l :
  forall y, y ∈ b :: l -> cmp_le cmp (min_from (cmp_lt cmp) b l) y = true.
Proof.
  revert b. induction l as [|x l IH]; intros b y Hy; simpl.
  - apply list_elem_of_singleton in Hy as ->. by apply cmp_le_refl.
  - set (b' := if cmp_lt cmp x b then x else b).
    assert (Hb : cmp_le cmp b' b = true /\ cmp_le cmp b' x = true).
    { subst b'. rewrite (cmp_lt_not_le cmp). destruct (cmp_le cmp b x) eqn:E; simpl.
      - split; [by apply cmp_le_refl|done].
      - split; [|by apply cmp_le_refl].
        destruct (cmp_le_total cmp b x); congruence. }
    destruct Hb as [Hb Hx].
    apply elem_of_cons in Hy as [->|Hy].
    + apply (cmp_le_trans cmp _ b'); [apply (IH b' b'); set_solver|done].
    + apply elem_of_cons in Hy as [->|Hy].
      * apply (cmp_le_trans cmp _ b'); [apply (IH b' b'); set_solver|done].
      * apply IH. set_solver.
Qed.

Lemma min_from_lt_ext {A} (lt1 lt2 : A -> A -> bool) b l :
  (forall x y, x ∈ b :: l -> y ∈ b :: l -> lt1 x y = lt2 x y) ->
  min_from lt1 b l = min_from lt2 b l.
Proof.
  revert b. induction l as [|x l IH]; intros b H; simpl; [done|].
  rewrite (H x b) by set_solver. apply IH. intros y z Hy Hz. apply H.
  - destruct (lt2 x b); set_solver.
  - destruct (lt2 x b); set_solver.
Qed.

(** The minimum does not depend on the order when only equal elements tie. *)
Lemma min_from_perm {A} (cmp : A -> A -> comparison) `{!TotalCmp cmp} b l b' l' :
  b :: l ≡ₚ b' :: l' ->
  (forall x y, x ∈ b :: l -> y ∈ b :: l -> cmp x y = Eq -> x = y) ->
  min_from (cmp_lt cmp) b l = min_from (cmp_lt cmp) b' l'.
Proof.
  intros Hp Hinj.
  assert (In1 : min_from (cmp_lt cmp) b l ∈ b :: l).
  { destruct (min_from_in (cmp_lt cmp) b l) as [->|]; set_solver. }
  assert (In2 : min_from (cmp_lt cmp) b' l' ∈ b :: l).
  { rewrite Hp. destruct (min_from_in (cmp_lt cmp) b' l') as [->|]; set_solver. }
  apply Hinj; [done|done|].
  apply (cmp_le_antisym cmp); apply min_from_le; [done..|].
  by rewrite <- Hp.
Qed.

Lemma insert_sorted_perm {A} (le : A -> A -> bool) x l : insert_sorted le x l ≡ₚ x :: l.
Proof.
  induction l as [|y l IH]; simpl; [done|]. destruct (le x y); [done|].
  rewrite IH. by constructor.
Qed.

Lemma py_sorted_perm {A} (le : A -> A -> bool) l : py_sorted le l ≡ₚ l.
Proof. induction l as [|x l IH]; simpl; [done|]. by rewrite insert_sorted_perm, IH. Qed.

Lemma elem_of_py_sorted {A} (le : A -> A -> bool) l x : x ∈ py_sorted le l <-> x ∈ l.
Proof. by rewrite py_sorted_perm. Qed.

Lemma length_py_sorted {A} (le : A -> A -> bool) l : length (py_sorted le l) = length l.
Proof. by rewrite py_sorted_perm. Qed.

Lemma insert_sorted_sorted {A} (cmp : A -> A -> comparison) `{!TotalCmp cmp} x l :
  StronglySorted (fun a b => cmp_le cmp a b = true) l ->
  StronglySorted (fun a b => cmp_le cmp a b = true) (insert_sorted (cmp_le cmp) x l).
Proof.
  induction 1 as [|y l Hl IH Hy]; simpl; [repeat constructor|].
  destruct (cmp_le cmp x y) eqn:E.
  - constructor; [by constructor|]. constructor; [done|].
    eapply Forall_impl; [exact Hy|]. intros z Hz. by apply (cmp_le_trans cmp x y z).
  - constructor; [done|]. rewrite insert_sorted_perm. constructor; [|done].
    destruct (cmp_le_total cmp x y); congruence.
Qed.

Lemma py_sorted_sorted {A} (cmp : A -> A -> comparison) `{!TotalCmp cmp} l :
  StronglySorted (fun a b => cmp_le cmp a b = true) (py_sorted (cmp_le cmp) l).
Proof. induction l; simpl; [constructor|by apply insert_sorted_sorted]. Qed.

Lemma List_filter_perm {A} (f : A -> bool) l k : l ≡ₚ k -> List.filter f l ≡ₚ List.filter f k.
Proof.
  induction 1 as [|x l k H IH|x y l|l k m H1 IH1 H2 IH2]; simpl; [done| | |by rewrite IH1].
  - destruct (f x); [by constructor|done].
  - destruct (f x), (f y); try done. by constructor.
Qed.

Lemma List_filter_none {A} (f : A -> bool) l : (forall x, x ∈ l -> f x = false) -> List.filter f l = [].
Proof.
  induction l as [|x l IH]; intros H; [done|]. cbn [List.filter]. rewrite (H x) by set_solver. apply IH. set_solver.
Qed.

Lemma List_filter_all {A} (f : A -> bool) l : (forall x, x ∈ l -> f x = true) -> List.filter f l = l.
Proof.
  induction l as [|x l IH]; intros H; [done|]. cbn [List.filter]. rewrite (H x) by set_solver. f_equal. apply IH. set_solver.
Qed.

Lemma result_map_id {E A} (p : A -> result E A) l : (forall x, x ∈ l -> p x = Ok x) -> result_map p l = Ok l.
Proof.
  induction l as [|x l IH]; intros H; [done|]. cbn [result_map]. rewrite (H x) by set_solver. rsimpl.
  rewrite IH by set_solver. done.
Qed.

Lemma guard_ok {E} c (e : E) u : guard_else c e = Ok u -> c = true.
Proof. by destruct c. Qed.

Lemma bind_ok {E A B} (r : result E A) (f : A -> result E B) b :
  (x ← r; f x) = Ok b -> exists a, r = Ok a /\ f a = Ok b.
Proof. destruct r as [a|e]; [by exists a|done]. Qed.

Lemma result_filter_ok {E A} (p : A -> result E bool) l r x : result_filter p l = Ok r -> x ∈ r -> x ∈ l /\ p x = Ok true.
Proof.
  revert r. induction l as [|y l IH]; intros r H X; cbn [result_filter] in H.
  - inv_result. by apply elem_of_nil in X.
  - apply bind_ok in H as (b & P & H). apply bind_ok in H as (r' & F & H). inv_result.
    destruct b; [apply elem_of_cons in X as [->|X]; [split; [apply elem_of_cons; by left|done]|]|];
      (destruct (IH r' F X); split; [apply elem_of_cons; by right|done]).
Qed.

Lemma any_result_false {E A} (p : A -> result E bool) l : (forall x, x ∈ l -> p x = Ok false) -> any_result p l = Ok false.
Proof.
  intros H. induction l as [|x l IH]; [done|]. cbn [any_result]. rewrite (H x) by (apply elem_of_cons; by left). rsimpl.
  apply IH. intros y Y. apply H, elem_of_cons. by right.
Qed.

(** The filter decides every element, and keeps those for which it is true. *)
Lemma result_filter_decides {E A} (p : A -> result E bool) l r x : result_filter p l = Ok r -> x ∈ l ->
  exists b, p x = Ok b /\ (x ∈ r <-> b = true).
Proof.
  revert r. induction l as [|y l IH]; intros r H X; [by apply elem_of_nil in X|]. cbn [result_filter] in H.
  pose proof (H : result_filter p (y :: l) = Ok r) as F.
  apply bind_ok in H as (b & P & H). apply bind_ok in H as (r' & R & H).
  assert (W : forall z c, p z = Ok c -> z ∈ r -> c = true) by (intros z c Z Hz; apply (result_filter_ok _ _ _ _ F) in Hz as [_ Hz]; congruence).
  apply elem_of_cons in X as [->|X].
  - exists b. split; [done|]. split; [by apply W|]. intros ->. inv_result. apply elem_of_cons. by left.
  - destruct (IH r' R X) as (c & C & M). exists c. split; [done|]. split; [by apply W|]. intros T. apply M in T.
    inv_result. destruct b; [apply elem_of_cons; by right|done].
Qed.

Lemma any_result_some {E A} (p : A -> result E bool) l : any_result p l = Ok true -> exists x, x ∈ l /\ p x = Ok true.
Proof.
  induction l as [|y l IH]; intros H; [done|]. cbn [any_result] in H. apply bind_ok in H as ([|] & P & H).
  - exists y. split; [apply elem_of_cons; by left|done].
  - destruct (IH H) as (x & X & Q). exists x. split; [apply elem_of_cons; by right|done].
Qed.

Lemma any_result_none {E A} (p : A -> result E bool) l : any_result p l = Ok false -> forall x, x ∈ l -> p x = Ok false.
Proof.
  induction l as [|y l IH]; intros H x X; [by apply elem_of_nil in X|]. cbn [any_result] in H.
  apply bind_ok in H as ([|] & P & H); [discriminate|]. apply elem_of_cons in X as [->|X]; [done|by apply IH].
Qed.

Lemma all_result_true {E A} (p : A -> result E bool) (q : A -> bool) l : (forall x, x ∈ l -> p x = Ok (q x)) -> all_result p l = Ok (forallb q l).
Proof.
  induction l as [|x l IH]; intros H; [done|]. cbn [all_result forallb]. rewrite (H x) by (apply elem_of_cons; by left). rsimpl.
  destruct (q x); [|done]. apply IH. intros y Y. apply H, elem_of_cons. by right.
Qed.

Lemma filter_length_lt {A} (p q : A -> bool) l x : (forall y, p y = true -> q y = true) -> x ∈ l -> q x = true -> p x = false ->
  length (List.filter p l) < length (List.filter q l).
Proof.
  intros I. assert (W : forall l, length (List.filter p l) <= length (List.filter q l)).
  { clear l. induction l as [|y l IH]; [done|]. cbn [List.filter]. destruct (p y) eqn:P; [rewrite (I y P); cbn; lia|].
    destruct (q y); cbn; lia. }
  induction l as [|y l IH]; intros H Q P; [by apply elem_of_nil in H|]. cbn [List.filter].
  apply elem_of_cons in H as [->|H].
  - rewrite P, Q. cbn [length]. specialize (W l). lia.
  - specialize (IH H Q P). destruct (p y) eqn:Py; [rewrite (I y Py); cbn; lia|]. destruct (q y); cbn; lia.
Qed.

(** In a strict order, what is below some element is below a maximal one. *)
Lemma maximal_above {A} (above : A -> A -> bool) : (forall x y z, above x y = true -> above y z = true -> above x z = true) ->
  (forall x, above x x = false) -> forall (l : list A) x, (exists y, y ∈ l /\ above y x = true) ->
  exists y, y ∈ l /\ above y x = true /\ forall z, z ∈ l -> above z y = false.
Proof.
  intros T I l x. remember (length (List.filter (fun z => above z x) l)) as n eqn:En. revert x En.
  induction (lt_wf n) as [n _ IH]. intros x En (m & Hm & B).
  destruct (existsb (fun z => above z m) l) eqn:X.
  - apply existsb_exists in X as (k & Hk & Bk). apply list_elem_of_In in Hk.
    destruct (IH (length (List.filter (fun z => above z m) l))) with (x := m) as (t & Ht & Bt & U); [|done|by exists k|].
    + rewrite En. apply (filter_length_lt _ _ _ m); [|exact Hm|exact B|apply I]. intros y Hy. by apply (T _ m).
    + exists t. split; [done|]. split; [by apply (T _ m)|done].
  - exists m. do 2 (split; [done|]). intros k Hk. apply not_true_iff_false. intros Y. apply not_true_iff_false in X. apply X.
    apply existsb_exists. exists k. split; [by apply list_elem_of_In|done].
Qed.

(** Distinct keys determine the element. *)
Lemma NoDup_map_same {A B} (f : A -> B) l a b :
  NoDup (map f l) -> a ∈ l -> b ∈ l -> f a = f b -> a = b.
Proof.
  induction l as [|c l IH]; [by intros _ ?%elem_of_nil|]. cbn [map]. intros [Hn Hd]%NoDup_cons Ha Hb E.
  assert (Hin : forall x, x ∈ l -> f x <> f c).
  { intros x Hx Ec. apply Hn. rewrite <- Ec. by apply list_elem_of_In, in_map, list_elem_of_In. }
  apply elem_of_cons in Ha as [->|Ha], Hb as [->|Hb]; [done| | |by apply IH].
  - by destruct (Hin b Hb).
  - by destruct (Hin a Ha).
Qed.

(** Sorting forgets the order of the input when only equal elements tie. *)
Lemma strongly_sorted_unique {A} (cmp : A -> A -> comparison) `{!TotalCmp cmp} l1 l2 :
  StronglySorted (fun a b => cmp_le cmp a b = true) l1 ->
  StronglySorted (fun a b => cmp_le cmp a b = true) l2 ->
  l1 ≡ₚ l2 ->
  (forall x y, x ∈ l1 -> y ∈ l1 -> cmp x y = Eq -> x = y) -> l1 = l2.
Proof.
  intros S1. revert l2. induction S1 as [|x l1 S1 IH H1]; intros l2 S2 Hp Hinj.
  - by apply Permutation_nil in Hp.
  - destruct S2 as [|y l2 S2 H2]; [by apply Permutation_sym, Permutation_nil in Hp|].
    assert (x = y) as ->.
    { assert (Hx : x ∈ y :: l2) by (rewrite <- Hp; set_solver).
      assert (Hy : y ∈ x :: l1) by (rewrite Hp; set_solver).
      apply elem_of_cons in Hx as [->|Hx]; [done|].
      apply elem_of_cons in Hy as [->|Hy]; [done|].
      rewrite Forall_forall in H1, H2.
      apply Hinj; [set_solver..|]. apply (cmp_le_antisym cmp); auto. }
    f_equal. apply IH; [done|by apply Permutation_cons_inv in Hp|].
    intros ? ? ? ?. apply Hinj; set_solver.
Qed.

Lemma py_sorted_perm_eq {A} (cmp : A -> A -> comparison) `{!TotalCmp cmp} l1 l2 :
  l1 ≡ₚ l2 ->
  (forall x y, x ∈ l1 -> y ∈ l1 -> cmp x y = Eq -> x = y) ->
  py_sorted (cmp_le cmp) l1 = py_sorted (cmp_le cmp) l2.
Proof.
  intros Hp Hinj. apply (strongly_sorted_unique cmp); [by apply py_sorted_sorted..| |].
  - by rewrite !py_sorted_perm.
  - intros x y. rewrite !elem_of_py_sorted. apply Hinj.
Qed.

(** ** Dictionaries *)

Section DictFacts.
Context {K V : Type} `{EqDecision K}.
Implicit Types (d : list (K * V)) (k : K) (v : V).

Lemma dict_get_set d k v k' :
  dict_get (dict_set d k v) k' = if decide (k' = k) then Some v else dict_get d k'.
Proof.
  induction d as [|[k0 v0] d IH]; simpl.
  - by destruct (decide (k' = k)).
  - destruct (decide (k = k0)) as [->|Hne]; simpl.
    + by destruct (decide (k' = k0)).
    + rewrite IH. destruct (decide (k' = k0)) as [->|]; [|done].
      by destruct (decide (k0 = k)); subst.
Qed.

Lemma dict_mem_true d k : dict_mem d k = true <-> k ∈ dict_keys d.
Proof.
  unfold dict_mem, dict_keys.
  induction d as [|[k0 v0] d IH]; simpl; [set_solver|].
  destruct (decide (k = k0)) as [->|]; [set_solver|]. rewrite IH. set_solver.
Qed.

Lemma dict_mem_false d k : dict_mem d k = false <-> k ∉ dict_keys d.
Proof. rewrite <- dict_mem_true. by destruct (dict_mem d k). Qed.

Lemma dict_get_none d k : dict_get d k = None <-> k ∉ dict_keys d.
Proof.
  rewrite <- dict_mem_false. unfold dict_mem. by destruct (dict_get d k).
Qed.

Lemma dict_get_some_in d k v : dict_get d k = Some v -> (k, v) ∈ d.
Proof.
  induction d as [|[k0 v0] d IH]; simpl; [done|].
  destruct (decide (k = k0)) as [->|]; intros; simplify_eq; set_solver.
Qed.

Lemma dict_set_fresh d k v : k ∉ dict_keys d -> dict_set d k v = d ++ [(k, v)].
Proof.
  unfold dict_keys.
  induction d as [|[k0 v0] d IH]; simpl; intros H; [done|].
  destruct (decide (k = k0)) as [->|]; [set_solver|]. rewrite IH; set_solver.
Qed.

Lemma dict_get_nodup d k v : NoDup (dict_keys d) -> (k, v) ∈ d -> dict_get d k = Some v.
Proof.
  unfold dict_keys. induction d as [|[k0 v0] d IH]; simpl; intros Hnd Hin; [set_solver|].
  apply NoDup_cons in Hnd as [Hn Hnd]. apply elem_of_cons in Hin as [[= -> ->]|Hin].
  - by rewrite decide_True.
  - rewrite decide_False; [by apply IH|]. intros ->.
    apply Hn. by apply (list_elem_of_fmap_2 fst) in Hin.
Qed.

Lemma dict_keys_set_nodup d k v : NoDup (dict_keys d) -> NoDup (dict_keys (dict_set d k v)).
Proof.
  unfold dict_keys. induction d as [|[k0 v0] d IH]; simpl; intros Hnd.
  - repeat constructor. set_solver.
  - apply NoDup_cons in Hnd as [Hn Hnd]. destruct (decide (k = k0)) as [->|Hne]; simpl.
    + by constructor.
    + constructor; [|by apply IH]. intros Hin.
      apply list_elem_of_fmap in Hin as ([k1 v1] & E & Hin). simpl in E. subst k1.
      destruct (decide (k0 ∈ dict_keys d)) as [|Hnin]; [done|].
      assert (G : dict_get (dict_set d k v) k0 = None).
      { rewrite dict_get_set, decide_False by congruence. by apply dict_get_none. }
      apply dict_get_none in G. apply G. unfold dict_keys.
      by apply (list_elem_of_fmap_2 fst) in Hin.
Qed.
End DictFacts.

(** ** Distinctness and set equality *)

Lemma length_remove_dups_le {A} `{EqDecision A} (l : list A) : length (remove_dups l) <= length l.
Proof. induction l; simpl; [lia|]. case_decide; simpl; lia. Qed.

Lemma all_distinct_true {A} `{EqDecision A} (l : list A) : all_distinct l = true <-> NoDup l.
Proof.
  unfold all_distinct. rewrite Nat.eqb_eq.
  induction l as [|x l IH]; simpl; [split; [constructor|done]|].
  pose proof (length_remove_dups_le l).
  rewrite NoDup_cons, <- IH. case_decide; simpl; [split; [lia|tauto]|].
  split; [intros; split; [done|lia]|lia].
Qed.

Lemma all_distinct_false {A} `{EqDecision A} (l : list A) : all_distinct l = false <-> ~ NoDup l.
Proof. rewrite <- all_distinct_true. by destruct (all_distinct l). Qed.

Lemma subset_of_true {A} `{EqDecision A} (a b : list A) : subset_of a b = true <-> a ⊆ b.
Proof.
  unfold subset_of. rewrite forallb_forall. split; intros H x.
  - intros Hx. apply list_elem_of_In in Hx. specialize (H x Hx). by bools.
  - intros Hx. apply list_elem_of_In in Hx. apply bool_decide_eq_true. set_solver.
Qed.

Lemma same_elements_true {A} `{EqDecision A} (a b : list A) :
  same_elements a b = true <-> (forall x, x ∈ a <-> x ∈ b).
Proof.
  change (same_elements a b) with (subset_of a b && subset_of b a).
  rewrite andb_true_iff, !subset_of_true. set_solver.
Qed.

(** ** Dictionary comprehensions *)

Section DictOf.
Context {K V A : Type} `{EqDecision K} (key : A -> K) (value : A -> V).

Lemma dict_of_snoc l x : dict_of key value (l ++ [x]) = dict_set (dict_of key value l) (key x) (value x).
Proof. unfold dict_of. by rewrite fold_left_app. Qed.

Lemma dict_of_nodup l : NoDup (dict_keys (dict_of key value l)).
Proof. induction l as [|x l IH] using rev_ind; [constructor|]. rewrite dict_of_snoc. by apply dict_keys_set_nodup. Qed.

Lemma dict_of_mem l k : k ∈ dict_keys (dict_of key value l) <-> k ∈ map key l.
Proof.
  induction l as [|x l IH] using rev_ind; [done|]. rewrite dict_of_snoc, map_app, elem_of_app, <- IH.
  rewrite <- !dict_mem_true. unfold dict_mem. rewrite dict_get_set. cbn [map]. rewrite list_elem_of_singleton.
  case_decide; [by intuition|]. destruct (dict_get _ k); intuition congruence.
Qed.

Lemma dict_of_get l k v : dict_get (dict_of key value l) k = Some v -> exists x, x ∈ l /\ key x = k /\ value x = v.
Proof.
  induction l as [|x l IH] using rev_ind; [done|]. rewrite dict_of_snoc, dict_get_set. case_decide.
  - intros [= <-]. exists x. split; [apply elem_of_app; right; by apply list_elem_of_singleton|done].
  - intros Hg. destruct (IH Hg) as (y & Hy & ?). exists y. split; [apply elem_of_app; by left|done].
Qed.

Lemma dict_of_distinct l : NoDup (map key l) -> dict_of key value l = map (fun x => (key x, value x)) l.
Proof.
  induction l as [|x l IH] using rev_ind; [done|]. rewrite !map_app. intros H. apply NoDup_app in H as (H1 & H2 & _).
  rewrite dict_of_snoc, IH by done. apply dict_set_fresh. unfold dict_keys. intros Hk.
  rewrite <- list_fmap_compose in Hk. apply (H2 _ Hk). by apply list_elem_of_singleton.
Qed.

(** No key is lost exactly when the keys are distinct. *)
Lemma dict_of_length l : length (dict_of key value l) = length l <-> NoDup (map key l).
Proof.
  assert (P : dict_keys (dict_of key value l) ≡ₚ remove_dups (map key l)).
  { apply NoDup_Permutation; [apply dict_of_nodup|apply NoDup_remove_dups|].
    intros k. by rewrite dict_of_mem, elem_of_remove_dups. }
  apply Permutation_length in P. unfold dict_keys in P. rewrite length_fmap in P. rewrite P.
  rewrite <- (all_distinct_true (map key l)). unfold all_distinct. rewrite Nat.eqb_eq, length_map. done.
Qed.
End DictOf.

Lemma NoDup_fmap_inj_on {A B} (f : A -> B) (l : list A) x y :
  NoDup (f <$> l) -> x ∈ l -> y ∈ l -> f x = f y -> x = y.
Proof.
  induction l as [|z l IH]; simpl; intros Hnd Hx Hy E; [set_solver|].
  apply NoDup_cons in Hnd as [Hn Hnd].
  apply elem_of_cons in Hx as [->|Hx]; apply elem_of_cons in Hy as [->|Hy]; auto.
  - destruct Hn. rewrite E. by apply list_elem_of_fmap_2.
  - destruct Hn. rewrite <- E. by apply list_elem_of_fmap_2.
Qed.

#[export] Hint Resolve cmp_le_refl list_elem_of_fmap_2 : gateway.
