(* ===== verification/PyStr.v ===== *)
(** * Python strings

    A [str] is the list of its Unicode code points.  This file holds what the
    gateway uses of [str]: literals, [strip], [split], [join], [startswith],
    comparison, [str(int)] and the ASCII classes of the regular expressions.
    [UnicodeData] is the interface to the Unicode tables of CPython that are
    not listed here (alphanumeric characters, case folding). *)
From S2P Require Import Prelude.

Notation pystr := (list N) (only parsing).

(** Literals of the source are ASCII. *)
Definition py (s : string) : pystr := map N_of_ascii (list_ascii_of_string s).

(** ** Character classes *)

Definition in_range (lo hi c : N) : bool := (lo <=? c)%N && (c <=? hi)%N.

(** [str.isspace] on one character; also [\s] of [re] on [str] patterns. *)
Definition is_space (c : N) : bool :=
  in_range 9 13 c || in_range 28 32 c || (c =? 133)%N || (c =? 160)%N ||
  (c =? 5760)%N || in_range 8192 8202 c || (c =? 8232)%N || (c =? 8233)%N ||
  (c =? 8239)%N || (c =? 8287)%N || (c =? 12288)%N.

Definition is_ascii_digit (c : N) : bool := in_range 48 57 c.
Definition is_ascii_upper (c : N) : bool := in_range 65 90 c.
Definition is_ascii_lower (c : N) : bool := in_range 97 122 c.
Definition is_ascii_alnum (c : N) : bool :=
  is_ascii_digit c || is_ascii_upper c || is_ascii_lower c.
Definition ascii_lower (c : N) : N := if is_ascii_upper c then (c + 32)%N else c.

(** CPython's Unicode tables.  [u_alnum] is [str.isalnum] on one character,
    [u_casefold] is [str.casefold], [u_decimal] the value of a decimal digit
    outside ASCII, [u_digit] is [str.isdigit] and [u_printable]
    [str.isprintable] on one character; the laws are what the tables say on
    ASCII. *)
Class UnicodeData := {
  u_alnum : N -> bool;
  u_casefold : pystr -> pystr;
  u_decimal : N -> option N;
  u_digit : N -> bool;
  u_printable : N -> bool;
  u_alnum_ascii : forall c, (c < 128)%N -> u_alnum c = is_ascii_alnum c;
  u_casefold_ascii : forall s, Forall (fun c => (c < 128)%N) s -> u_casefold s = map ascii_lower s
}.

(** The tables restricted to ASCII, to run the definitions. *)
Definition ascii_tables : UnicodeData.
Proof.
  refine {| u_alnum := is_ascii_alnum; u_casefold := map ascii_lower; u_decimal := fun _ => None;
    u_digit := is_ascii_digit; u_printable := in_range 32 126 |}; done.
Defined.

(** [\w] of [re] on [str] patterns. *)
Definition is_word `{UnicodeData} (c : N) : bool := u_alnum c || (c =? 95)%N.

(** ** Operations *)

Fixpoint lstrip_by (p : N -> bool) (s : pystr) : pystr :=
  match s with
  | [] => []
  | c :: s' => if p c then lstrip_by p s' else s
  end.

Definition rstrip_by (p : N -> bool) (s : pystr) : pystr := rev (lstrip_by p (rev s)).

(** [str.strip()], [str.lstrip()], [str.rstrip()] *)
Definition lstrip (s : pystr) : pystr := lstrip_by is_space s.
Definition rstrip (s : pystr) : pystr := rstrip_by is_space s.
Definition strip (s : pystr) : pystr := rstrip (lstrip s).

(** [not s.strip()] *)
Definition is_blank (s : pystr) : bool := match strip s with [] => true | _ => false end.

(** [str.split()]: maximal runs of non-whitespace; [cur] is the current run. *)
Fixpoint split_ws_from (cur : pystr) (s : pystr) : list pystr :=
  match s with
  | [] => match cur with [] => [] | _ => [cur] end
  | c :: s' =>
      if is_space c
      then match cur with [] => split_ws_from [] s' | _ => cur :: split_ws_from [] s' end
      else split_ws_from (cur ++ [c]) s'
  end.

Definition split_ws (s : pystr) : list pystr := split_ws_from [] s.

(** [str.split(c)] for a one-character separator. *)
Fixpoint split_on_from (sep : N) (cur : pystr) (s : pystr) : list pystr :=
  match s with
  | [] => [cur]
  | c :: s' =>
      if (c =? sep)%N then cur :: split_on_from sep [] s' else split_on_from sep (cur ++ [c]) s'
  end.

Definition split_on (sep : N) (s : pystr) : list pystr := split_on_from sep [] s.

(** [sep.join(parts)] *)
Fixpoint join (sep : pystr) (parts : list pystr) : pystr :=
  match parts with
  | [] => []
  | [p] => p
  | p :: ps => p ++ sep ++ join sep ps
  end.

(** [s.startswith(p)] *)
Fixpoint startswith (s p : pystr) : bool :=
  match p, s with
  | [], _ => true
  | _ :: _, [] => false
  | a :: p', b :: s' => (a =? b)%N && startswith s' p'
  end.

(** Comparison of strings, code point by code point. *)
Fixpoint str_cmp (a b : pystr) : comparison :=
  match a, b with
  | [], [] => Eq
  | [], _ :: _ => Lt
  | _ :: _, [] => Gt
  | x :: a', y :: b' =>
      match (x ?= y)%N with
      | Eq => str_cmp a' b'
      | c => c
      end
  end.

(** [str(n)] for a natural number: [fuel] bounds the number of digits. *)
Fixpoint dec_digits (fuel : nat) (n : N) (acc : pystr) : pystr :=
  match fuel with
  | O => acc
  | S fuel' =>
      let acc' := (48 + n mod 10)%N :: acc in
      if (n <? 10)%N then acc' else dec_digits fuel' (n / 10)%N acc'
  end.

Definition N_to_str (n : N) : pystr := dec_digits (S (N.size_nat n)) n [].

Definition Z_to_str (z : Z) : pystr :=
  if (z <? 0)%Z then 45%N :: N_to_str (Z.to_N (- z)) else N_to_str (Z.to_N z).

(** The natural number written by a run of ASCII digits. *)
Definition digits_value (s : pystr) : N := fold_left (fun v c => (v * 10 + (c - 48))%N) s 0%N.

(** ** Lemmas *)

#[export] Instance total_cmp_str : TotalCmp str_cmp.
Proof.
  split.
  - intros x. induction x as [|c x IH]; simpl; [done|]. by rewrite N.compare_refl.
  - intros x. induction x as [|c x IH]; intros [|d y]; simpl; try done.
    rewrite (N.compare_antisym c d). destruct (c ?= d)%N; simpl; auto.
  - intros x. induction x as [|c x IH]; intros [|d y] [|e z]; simpl; try done.
    destruct (N.compare_spec c d); try done; destruct (N.compare_spec d e); try done;
      destruct (N.compare_spec c e); try done; try lia; intros; subst; eauto; lia.
  - intros x. induction x as [|c x IH]; intros [|d y] [|e z]; simpl; try done.
    destruct (N.compare_spec c d); try done; subst.
    destruct (d ?= e)%N; auto. 
Qed.

Lemma str_cmp_eq a b : str_cmp a b = Eq <-> a = b.
Proof.
  split; [|intros ->; apply (tc_refl str_cmp)].
  revert b. induction a as [|c a IH]; intros [|d b]; simpl; try done.
  destruct (N.compare_spec c d); try done. subst. intros. f_equal; auto.
Qed.

Lemma startswith_app s p : startswith s p = true <-> exists r, s = p ++ r.
Proof.
  revert s. induction p as [|a p IH]; intros s; simpl.
  - destruct s; (split; [by eexists|done]).
  - destruct s as [|b s]; [split; [done|by intros (? & ?)]|].
    simpl. rewrite andb_true_iff, N.eqb_eq, IH. split.
    + intros (-> & r & ->). by exists r.
    + intros (r & E). simplify_eq. split; eauto.
Qed.

Lemma lstrip_by_suffix p s : exists pre, s = pre ++ lstrip_by p s /\ forallb p pre = true.
Proof.
  induction s as [|c s IH]; simpl; [by exists []|].
  destruct (p c) eqn:E; [|by exists []].
  destruct IH as (pre & Hs & H). exists (c :: pre). simpl. rewrite E, H.
  split; [|done]. by f_equal.
Qed.

Lemma lstrip_by_nil p s : lstrip_by p s = [] <-> forallb p s = true.
Proof.
  induction s as [|c s IH]; simpl; [done|]. destruct (p c); simpl; [done|]. split; discriminate.
Qed.

Lemma forallb_rev {A} (p : A -> bool) l : forallb p (rev l) = forallb p l.
Proof.
  induction l as [|x l IH]; simpl; [done|].
  rewrite forallb_app, IH. simpl. rewrite andb_true_r. apply andb_comm.
Qed.

(** A string is blank exactly when all its characters are whitespace. *)
Lemma is_blank_spec s : is_blank s = true <-> forallb is_space s = true.
Proof.
  unfold is_blank, strip, rstrip, rstrip_by, lstrip.
  rewrite <- (lstrip_by_nil is_space s).
  destruct (lstrip_by_suffix is_space s) as (pre & Hs & Hpre).
  destruct (lstrip_by is_space s) as [|c r] eqn:E; [by simpl|].
  destruct (rev (lstrip_by is_space (rev (c :: r)))) eqn:E2; [|by split].
  split; [intros _; exfalso|done].
  apply (f_equal (@rev N)) in E2. rewrite rev_involutive in E2.
  apply lstrip_by_nil in E2. rewrite forallb_rev in E2.
  assert (lstrip_by is_space s = []) as H by (apply lstrip_by_nil; rewrite Hs, forallb_app, Hpre, E2; done).
  congruence.
Qed.

Lemma is_blank_nil s : is_blank s = false -> s <> [].
Proof. by intros H ->. Qed.

Lemma dec_digits_value fuel n acc :
  (n < 2 ^ N.of_nat fuel)%N ->
  fold_left (fun v c => (v * 10 + (c - 48))%N) (dec_digits fuel n acc) 0%N
  = fold_left (fun v c => (v * 10 + (c - 48))%N) acc n.
Proof.
  revert n acc. induction fuel as [|fuel IH]; intros n acc H.
  - simpl in *. by replace n with 0%N by lia.
  - rewrite Nat2N.inj_succ, N.pow_succ_r' in H. cbn [dec_digits]. destruct (N.ltb_spec n 10).
    + cbn [fold_left]. rewrite N.mod_small by done. f_equal. lia.
    + rewrite IH.
      * cbn [fold_left]. f_equal. dlia.
      * apply N.Div0.div_lt_upper_bound. lia.
Qed.

Lemma N_lt_pow2_size n : (n < 2 ^ N.of_nat (S (N.size_nat n)))%N.
Proof.
  assert (H : N.size n = N.of_nat (N.size_nat n)).
  { destruct n as [|p]; [done|]. cbn [N.size N.size_nat].
    induction p as [p IH|p IH|]; cbn [Pos.size Pos.size_nat]; [lia..|done]. }
  rewrite Nat2N.inj_succ, N.pow_succ_r', <- H. pose proof (N.size_gt n). lia.
Qed.

Lemma N_to_str_value n : digits_value (N_to_str n) = n.
Proof. unfold digits_value, N_to_str. rewrite dec_digits_value by apply N_lt_pow2_size. done. Qed.

Lemma dec_digits_ascii fuel n acc :
  forallb is_ascii_digit acc = true -> forallb is_ascii_digit (dec_digits fuel n acc) = true.
Proof.
  revert n acc. induction fuel as [|fuel IH]; intros n acc H; simpl; [done|].
  assert (Hd : is_ascii_digit (48 + n mod 10) = true).
  { unfold is_ascii_digit, in_range. apply andb_true_iff; split; apply N.leb_le; dlia. }
  destruct (n <? 10)%N; [|apply IH]; cbn [forallb]; by rewrite Hd, H.
Qed.

Lemma N_to_str_digits n : forallb is_ascii_digit (N_to_str n) = true.
Proof. by apply dec_digits_ascii. Qed.

Lemma dec_digits_S fuel n acc :
  dec_digits (S fuel) n acc =
  if (n <? 10)%N then (48 + n mod 10)%N :: acc
  else dec_digits fuel (n / 10)%N ((48 + n mod 10)%N :: acc).
Proof. done. Qed.

Lemma dec_digits_length fuel n acc :
  (length acc < length (dec_digits (S fuel) n acc))%nat /\
  ((n < 2 ^ N.of_nat (S fuel))%N ->
   (n < 10 ^ N.of_nat (length (dec_digits (S fuel) n acc) - length acc))%N).
Proof.
  revert n acc. induction fuel as [|fuel IH]; intros n acc; rewrite dec_digits_S.
  - destruct (N.ltb_spec n 10); cbn [length dec_digits]; (split; [lia|]); intros ?;
      replace (S (length acc) - length acc) with 1 by lia; simpl in *; lia.
  - destruct (IH (n / 10)%N ((48 + n mod 10)%N :: acc)) as [L1 L2]. cbn [length] in L1, L2.
    set (D := dec_digits (S fuel) (n / 10)%N _) in *.
    destruct (N.ltb_spec n 10); cbn [length].
    + split; [lia|]. intros _. by replace (S (length acc) - length acc) with 1 by lia.
    + split; [lia|]. intros Hn.
      assert (Hd : (n / 10 < 10 ^ N.of_nat (length D - S (length acc)))%N).
      { apply L2. rewrite (Nat2N.inj_succ (S fuel)), N.pow_succ_r' in Hn.
        apply N.Div0.div_lt_upper_bound. lia. }
      replace (length D - length acc) with (S (length D - S (length acc))) by lia.
      rewrite Nat2N.inj_succ, N.pow_succ_r'. dlia.
Qed.

(** [len(str(n))] digits suffice for [n]. *)
Lemma N_to_str_bound n : (n < 10 ^ N.of_nat (length (N_to_str n)))%N.
Proof.
  unfold N_to_str. destruct (dec_digits_length (N.size_nat n) n []) as [_ H].
  rewrite Nat.sub_0_r in H. apply H, N_lt_pow2_size.
Qed.

Lemma N_to_str_length_pos n : (0 < length (N_to_str n))%nat.
Proof. unfold N_to_str. by destruct (dec_digits_length (N.size_nat n) n []). Qed.

Lemma dec_digits_lower fuel n acc :
  (0 < n)%N ->
  (10 ^ N.of_nat (length (dec_digits (S fuel) n acc) - S (length acc)) <= n)%N.
Proof.
  revert n acc. induction fuel as [|fuel IH]; intros n acc Hn; rewrite dec_digits_S.
  - destruct (N.ltb_spec n 10); cbn [length dec_digits]; rewrite Nat.sub_diag; simpl; lia.
  - destruct (N.ltb_spec n 10); cbn [length].
    + rewrite Nat.sub_diag. simpl. lia.
    + specialize (IH (n / 10)%N ((48 + n mod 10)%N :: acc)). cbn [length] in IH.
      destruct (dec_digits_length fuel (n / 10)%N ((48 + n mod 10)%N :: acc)) as [L _].
      cbn [length] in L. set (D := dec_digits (S fuel) (n / 10)%N _) in *.
      assert (0 < n / 10)%N by dlia. specialize (IH H0).
      replace (length D - S (length acc)) with (S (length D - S (S (length acc)))) by lia.
      rewrite Nat2N.inj_succ, N.pow_succ_r'. dlia.
Qed.

(** The number of decimal digits of [n]; one for zero. *)
Definition ndigits (n : N) : nat := length (N_to_str n).

Lemma ndigits_pos n : (0 < ndigits n)%nat.
Proof. apply N_to_str_length_pos. Qed.

Lemma ndigits_bound n : (n < 10 ^ N.of_nat (ndigits n))%N.
Proof. apply N_to_str_bound. Qed.

Lemma ndigits_le n k : (0 < k)%nat -> (n < 10 ^ N.of_nat k)%N -> (ndigits n <= k)%nat.
Proof.
  intros Hk Hn. destruct (N.eq_0_gt_0_cases n) as [->|Hp]; [vm_compute; lia|].
  destruct (Nat.le_gt_cases (ndigits n) k) as [|Hlt]; [done|]. exfalso.
  pose proof (dec_digits_lower (N.size_nat n) n [] Hp) as L.
  change (dec_digits _ n []) with (N_to_str n) in L. cbn [length] in L. fold (ndigits n) in L.
  assert (10 ^ N.of_nat k <= 10 ^ N.of_nat (ndigits n - 1))%N by (apply N.pow_le_mono_r; lia).
  lia.
Qed.

Lemma ndigits_lower n : (0 < n)%N -> (10 ^ N.of_nat (ndigits n - 1) <= n)%N.
Proof. intros H. apply (dec_digits_lower (N.size_nat n) n [] H). Qed.

#[export] Hint Resolve N_to_str_digits ndigits_pos : gateway.

(** ** Safe tokens

    The fixed patterns of the gateway have the shape
    [[A-Za-z0-9][A-Za-z0-9...]{0,n}], matched against the whole string. *)

Definition token_match (extra : N -> bool) (n : nat) (s : pystr) : bool :=
  match s with
  | [] => false
  | c :: s' =>
      is_ascii_alnum c && Nat.leb (length s') n &&
      forallb (fun d => is_ascii_alnum d || extra d) s'
  end.

(** The class [[._:/-]] and the class [[._-]] of the patterns. *)
Definition in_chars (cs : pystr) (c : N) : bool := existsb (fun d => (c =? d)%N) cs.

(** ** Stripped texts and separated lists *)

Lemma lstrip_by_length p s : length (lstrip_by p s) <= length s.
Proof. induction s as [|c s IH]; [done|]. cbn [lstrip_by]. destruct (p c); cbn [length]; lia. Qed.

Lemma lstrip_by_cons p c s : lstrip_by p (c :: s) = c :: s <-> p c = false.
Proof.
  cbn [lstrip_by]. destruct (p c); [|done]. split; [|done]. intros H.
  pose proof (lstrip_by_length p s) as L. rewrite H in L. cbn [length] in L. lia.
Qed.

Lemma rstrip_by_snoc p c s : rstrip_by p (s ++ [c]) = s ++ [c] <-> p c = false.
Proof.
  unfold rstrip_by. rewrite rev_app_distr. cbn [rev app]. rewrite <- (lstrip_by_cons p c (rev s)). split; intros H.
  - apply (f_equal (@rev N)) in H. rewrite rev_involutive in H. by rewrite rev_app_distr in H.
  - rewrite H. cbn [rev]. by rewrite rev_involutive.
Qed.

Lemma rstrip_length s : length (rstrip s) <= length s.
Proof.
  unfold rstrip, rstrip_by. rewrite length_rev. etransitivity; [apply lstrip_by_length|]. by rewrite length_rev.
Qed.

Lemma lstrip_by_same_length p s : length (lstrip_by p s) = length s -> lstrip_by p s = s.
Proof.
  destruct s as [|c s]; [done|]. cbn [lstrip_by]. destruct (p c); [|done]. intros H.
  pose proof (lstrip_by_length p s). cbn [length] in H. lia.
Qed.

Lemma strip_fixed_iff s : strip s = s <-> lstrip s = s /\ rstrip s = s.
Proof.
  unfold strip. split; [|by intros [-> ->]]. intros H.
  assert (L : lstrip s = s).
  { apply lstrip_by_same_length. pose proof (rstrip_length (lstrip s)) as L1. rewrite H in L1.
    pose proof (lstrip_by_length is_space s). unfold lstrip in *. lia. }
  split; [done|]. by rewrite L in H.
Qed.

Lemma strip_fixed_first c s : strip (c :: s) = c :: s -> is_space c = false.
Proof. intros [L _]%strip_fixed_iff. by apply lstrip_by_cons in L. Qed.

Lemma strip_fixed_last c s : strip (s ++ [c]) = s ++ [c] -> is_space c = false.
Proof. intros [_ R]%strip_fixed_iff. by apply rstrip_by_snoc in R. Qed.

Lemma strip_app_fixed a m b : a <> [] -> b <> [] -> strip a = a -> strip b = b ->
  strip (a ++ m ++ b) = a ++ m ++ b.
Proof.
  intros Ha Hb Fa Fb. destruct a as [|x a]; [done|].
  destruct (exists_last Hb) as (b' & y & ->). apply strip_fixed_first in Fa. apply strip_fixed_last in Fb.
  apply strip_fixed_iff. split; [by apply lstrip_by_cons|].
  change ((x :: a) ++ m ++ b' ++ [y]) with (x :: (a ++ m ++ b' ++ [y])).
  rewrite !app_assoc, app_comm_cons. by apply rstrip_by_snoc.
Qed.

Lemma split_on_from_app sep cur p s : forallb (fun c => negb (c =? sep)%N) p = true ->
  split_on_from sep cur (p ++ s) = split_on_from sep (cur ++ p) s.
Proof.
  revert cur. induction p as [|c p IH]; intros cur H; [by rewrite app_nil_r|]. cbn [forallb] in H. bools.
  cbn [app split_on_from]. rewrite H, IH by done. by rewrite <- app_assoc.
Qed.

(** Splitting undoes joining when no part contains the separator. *)
Lemma split_on_join sep parts : parts <> [] ->
  Forall (fun p => forallb (fun c => negb (c =? sep)%N) p = true) parts ->
  split_on sep (join [sep] parts) = parts.
Proof.
  unfold split_on. intros Hne H. induction H as [|p parts Hp Hps IH]; [done|]. cbn [join].
  destruct parts as [|q parts].
  - rewrite <- (app_nil_r p), split_on_from_app by done. cbn [split_on_from app]. by rewrite app_nil_r.
  - rewrite split_on_from_app by done. cbn [app split_on_from]. rewrite N.eqb_refl. by rewrite IH.
Qed.
