(* ===== verification/PyFloat.v ===== *)
(** * Python floats

    A [float] is an IEEE-754 binary64 number in the executable specification
    of the Standard Library ([SpecFloat] at precision 53, exponent bound 1024):
    every operation rounds to nearest even exactly as CPython's does. *)
From Stdlib Require Export Floats.SpecFloat.
From S2P Require Import Prelude.

Notation float := spec_float (only parsing).

Definition prec64 : Z := 53.
Definition emax64 : Z := 1024.

Definition f_add (x y : float) : float := SFadd prec64 emax64 x y.
Definition f_sub (x y : float) : float := SFsub prec64 emax64 x y.
Definition f_mul (x y : float) : float := SFmul prec64 emax64 x y.
Definition f_div (x y : float) : float := SFdiv prec64 emax64 x y.
Definition f_neg (x : float) : float := SFopp x.

Definition f_zero : float := S754_zero false.

(** The float nearest to [z]; an infinity when it does not fit. *)
Definition f_of_Z (z : Z) : float := binary_normalize prec64 emax64 z 0 false.

(** The float nearest to [n / d], as decimal literals and [float(Decimal)]. *)
Definition f_of_ratio (n : Z) (d : positive) : float :=
  match n with
  | Z0 => S754_zero false
  | Zpos p =>
      let '(m, e, l) := SFdiv_core_binary prec64 emax64 (Zpos p) 0 (Zpos d) 0 in
      binary_round_aux prec64 emax64 false m e l
  | Zneg p =>
      let '(m, e, l) := SFdiv_core_binary prec64 emax64 (Zpos p) 0 (Zpos d) 0 in
      binary_round_aux prec64 emax64 true m e l
  end.

Definition f_one : float := f_of_Z 1.

(** [==], [<], [<=], [>=] between floats; all false on NaN. *)
Definition f_eqb (x y : float) : bool := SFeqb x y.
Definition f_ltb (x y : float) : bool := SFltb x y.
Definition f_leb (x y : float) : bool := SFleb x y.

Definition is_nan (x : float) : bool := match x with S754_nan => true | _ => false end.

(** [math.isfinite] *)
Definition f_isfinite (x : float) : bool :=
  match x with S754_zero _ | S754_finite _ _ _ => true | _ => false end.

(** [max(a, b)] and [min(a, b)]: the first argument unless the second is
    strictly greater, smaller. *)
Definition f_max (a b : float) : float := if f_ltb a b then b else a.
Definition f_min (a b : float) : float := if f_ltb b a then b else a.

(** [sum] of floats, as CPython 3.12 computes it: the running sum with the
    compensation of Neumaier, which is added at the end when it is finite. *)
Definition f_abs (x : float) : float := SFabs x.

Fixpoint sum_compensated (s c : float) (l : list float) : float :=
  match l with
  | [] => if negb (f_eqb c f_zero) && f_isfinite c then f_add s c else s
  | x :: r =>
      let t := f_add s x in
      let lost := if f_leb (f_abs x) (f_abs s) then f_add (f_sub s t) x else f_add (f_sub x t) s in
      sum_compensated t (f_add c lost) r
  end.

Definition f_sum (l : list float) : float := sum_compensated f_zero f_zero l.

(** Order of the non-NaN floats, by sign, exponent and mantissa. *)
Definition f_key (x : float) : Z * Z * Z :=
  match x with
  | S754_zero _ => (0, 0, 0)
  | S754_infinity s => (if s then -2 else 2, 0, 0)
  | S754_nan => (3, 0, 0)
  | S754_finite false m e => (1, e, Zpos m)
  | S754_finite true m e => (-1, - e, Zneg m)
  end%Z.

Definition f_cmp : float -> float -> comparison :=
  on_key f_key (lex_cmp (on_key (fun k => k.1.1) Z.compare)
                  (lex_cmp (on_key (fun k => k.1.2) Z.compare) (on_key snd Z.compare))).

#[export] Instance float_eq_dec : EqDecision float.
Proof. intros x y. unfold Decision. repeat decide equality. Defined.

(** ** Order *)

#[export] Instance total_cmp_float : TotalCmp f_cmp.
Proof. apply _. Qed.

Lemma SFcompare_f_cmp x y :
  is_nan x = false -> is_nan y = false -> SFcompare x y = Some (f_cmp x y).
Proof.
  unfold f_cmp, on_key, lex_cmp.
  destruct x as [sx|sx| |sx mx ex], y as [sy|sy| |sy my ey]; try discriminate; intros _ _;
    try destruct sx; try destruct sy; simpl; try done; f_equal.
  - rewrite Z.compare_opp, (Z.compare_antisym ex ey). by destruct (ex ?= ey)%Z.
Qed.

Lemma f_eqb_cmp x y : is_nan x = false -> is_nan y = false ->
  f_eqb x y = match f_cmp x y with Eq => true | _ => false end.
Proof. intros. unfold f_eqb, SFeqb. by rewrite SFcompare_f_cmp. Qed.

Lemma f_ltb_cmp x y : is_nan x = false -> is_nan y = false -> f_ltb x y = cmp_lt f_cmp x y.
Proof. intros. unfold f_ltb, SFltb, cmp_lt. by rewrite SFcompare_f_cmp. Qed.

Lemma f_leb_cmp x y : is_nan x = false -> is_nan y = false -> f_leb x y = cmp_le f_cmp x y.
Proof. intros. unfold f_leb, SFleb, cmp_le. rewrite SFcompare_f_cmp by done. by destruct f_cmp. Qed.

Lemma f_leb_not_nan x y : f_leb x y = true -> is_nan x = false /\ is_nan y = false.
Proof. destruct x, y; by unfold f_leb, SFleb. Qed.

Lemma f_ltb_not_nan x y : f_ltb x y = true -> is_nan x = false /\ is_nan y = false.
Proof. destruct x, y; by unfold f_ltb, SFltb. Qed.

Lemma f_leb_trans x y z : f_leb x y = true -> f_leb y z = true -> f_leb x z = true.
Proof.
  intros H1 H2. destruct (f_leb_not_nan _ _ H1), (f_leb_not_nan _ _ H2).
  rewrite f_leb_cmp in H1, H2 by done. rewrite f_leb_cmp by done. by apply (cmp_le_trans f_cmp x y z).
Qed.

Lemma f_leb_refl x : is_nan x = false -> f_leb x x = true.
Proof. intros. rewrite f_leb_cmp by done. apply (cmp_le_refl f_cmp). Qed.

Lemma f_ltb_nleb x y : is_nan x = false -> is_nan y = false -> f_ltb x y = negb (f_leb y x).
Proof. intros. rewrite f_ltb_cmp, f_leb_cmp by done. by apply (cmp_lt_not_le f_cmp). Qed.

Lemma f_ltb_leb x y : f_ltb x y = true -> f_leb x y = true.
Proof. unfold f_ltb, f_leb, SFltb, SFleb. by destruct (SFcompare x y) as [[]|]. Qed.

Lemma f_leb_total x y : is_nan x = false -> is_nan y = false -> f_leb x y = true \/ f_leb y x = true.
Proof. intros. rewrite !f_leb_cmp by done. by apply (cmp_le_total f_cmp). Qed.

Lemma f_lt_le_trans x y z : f_ltb x y = true -> f_leb y z = true -> f_ltb x z = true.
Proof.
  intros H1 H2. destruct (f_ltb_not_nan _ _ H1), (f_leb_not_nan _ _ H2).
  destruct (f_ltb x z) eqn:E; [done|]. rewrite f_ltb_nleb in E, H1 by done.
  apply negb_false_iff in E. by rewrite (f_leb_trans y z x) in H1.
Qed.

Lemma f_isfinite_not_nan x : f_isfinite x = true -> is_nan x = false.
Proof. by destruct x. Qed.

Lemma f_min_le_l a b : is_nan a = false -> is_nan b = false -> f_leb (f_min a b) a = true.
Proof.
  intros. unfold f_min. destruct (f_ltb b a) eqn:E; [by apply f_ltb_leb|by apply f_leb_refl].
Qed.

Lemma f_min_le_r a b : is_nan a = false -> is_nan b = false -> f_leb (f_min a b) b = true.
Proof.
  intros. unfold f_min. destruct (f_ltb b a) eqn:E; [by apply f_leb_refl|].
  rewrite f_ltb_nleb in E by done. by apply negb_false_iff in E.
Qed.

(** Negation reverses the order. *)
Lemma f_cmp_neg x y : is_nan x = false -> is_nan y = false ->
  f_cmp (f_neg x) (f_neg y) = f_cmp y x.
Proof.
  unfold f_cmp, on_key, lex_cmp.
  destruct x as [sx|sx| |sx mx ex], y as [sy|sy| |sy my ey]; try discriminate; intros _ _;
    try destruct sx; try destruct sy; cbn -[Z.compare]; try done.
  - change (Z.neg mx) with (- Zpos mx)%Z. change (Z.neg my) with (- Zpos my)%Z.
    by rewrite !Z.compare_opp.
  - change (Z.neg mx) with (- Zpos mx)%Z. change (Z.neg my) with (- Zpos my)%Z.
    by rewrite !Z.compare_opp.
Qed.

#[export] Hint Resolve f_isfinite_not_nan f_leb_refl f_ltb_leb : gateway.
