(* ===== verification/PyRatio.v ===== *)
(** * Quotients of counts

    A true division of two integers is the nearest binary64 value.  Rounding to
    the nearest keeps a quotient of at most one at most one: the proof follows
    the shifts of the division, which leave a mantissa below a power of two, or
    that power with nothing lost. *)
From S2P Require Import Prelude PyStr PyFloat.

(** Below [2 ^ j], or [2 ^ j] itself with nothing shifted out. *)
Definition within_power (j : Z) (x : shr_record) : Prop :=
  (0 <= shr_m x)%Z /\
  ((shr_m x < 2 ^ j)%Z \/ shr_m x = (2 ^ j)%Z /\ shr_r x = false /\ shr_s x = false).

Lemma shr_1_within j x : (0 < j)%Z -> within_power j x -> within_power (j - 1) (shr_1 x).
Proof.
  intros Hj. destruct x as [m r s]. unfold within_power. cbn [shr_m shr_r shr_s].
  assert (P : (2 ^ j = 2 * 2 ^ (j - 1))%Z) by (rewrite <- Z.pow_succ_r by lia; f_equal; lia).
  assert (Q : (0 < 2 ^ (j - 1))%Z) by (apply Z.pow_pos_nonneg; lia). rewrite P.
  intros [H0 H]. destruct m as [|[p|p|]|p]; cbn [shr_1 shr_m shr_r shr_s]; try lia.
  split; [lia|]. destruct H as [H|(H & -> & ->)]; [left; lia|]. right. split; [lia|done].
Qed.

Lemma shr_within_iter n : forall j x, (Zpos n <= j)%Z -> within_power j x ->
  within_power (j - Zpos n) (iter_pos shr_1 n x).
Proof.
  induction n as [n IH|n IH|]; intros j x Hj H; cbn [iter_pos].
  - change (Z.pos n~1) with (2 * Zpos n + 1)%Z in *. replace (j - (2 * Zpos n + 1))%Z with (j - 1 - Zpos n - Zpos n)%Z by lia.
    apply IH; [lia|]. apply IH; [lia|]. apply shr_1_within; [lia|done].
  - change (Z.pos n~0) with (2 * Zpos n)%Z in *. replace (j - 2 * Zpos n)%Z with (j - Zpos n - Zpos n)%Z by lia. apply IH; [lia|]. apply IH; [lia|done].
  - apply shr_1_within; [lia|done].
Qed.

Lemma Zdigits2_log2 m : (0 < m)%Z -> Zdigits2 m = (Z.log2 m + 1)%Z.
Proof.
  destruct m as [|p|p]; [lia| |lia]. intros _. cbn [Zdigits2].
  induction p as [p IH|p IH|]; cbn [digits2_pos]; [| |done].
  - rewrite Pos2Z.inj_succ, IH. change (Z.pos p~1) with (2 * Zpos p + 1)%Z. rewrite Z.log2_succ_double by lia. lia.
  - rewrite Pos2Z.inj_succ, IH. change (Z.pos p~0) with (2 * Zpos p)%Z. rewrite Z.log2_double by lia. lia.
Qed.

Lemma Zdigits2_bound m j : (0 <= m <= 2 ^ j)%Z -> (0 <= j)%Z -> (Zdigits2 m <= j + 1)%Z.
Proof.
  intros [H0 H] Hj. destruct (Z.eq_dec m 0%Z) as [->|N]; [cbn; lia|]. rewrite Zdigits2_log2 by lia.
  pose proof (Z.log2_le_mono m (2 ^ j)%Z H) as L. rewrite Z.log2_pow2 in L by lia. lia.
Qed.

(** One rounding shift of a value of at most one at exponent [- j]. *)
Lemma shr_fexp_within m l j : (52 <= j)%Z -> within_power j (shr_record_of_loc m l) ->
  exists j' x, shr_fexp prec64 emax64 m (- j) l = (x, (- j')%Z) /\ (52 <= j')%Z /\ within_power j' x.
Proof.
  intros Hj H. assert (Hm : (0 <= m <= 2 ^ j)%Z).
  { destruct H as [H0 H]. destruct l as [|[]]; cbn [shr_record_of_loc shr_m] in *; lia. }
  pose proof (Zdigits2_bound m j Hm ltac:(lia)) as D.
  unfold shr_fexp, shr, fexp, emin, prec64, emax64.
  destruct (_ - - j)%Z as [|n|n] eqn:E.
  - exists j, (shr_record_of_loc m l). split; [done|]. split; [lia|done].
  - exists (j - Zpos n)%Z, (iter_pos shr_1 n (shr_record_of_loc m l)).
    split; [f_equal; lia|]. split; [lia|]. apply shr_within_iter; [lia|done].
  - exists j, (shr_record_of_loc m l). split; [done|]. split; [lia|done].
Qed.

Lemma round_within j x : (0 <= j)%Z -> within_power j x ->
  within_power j (shr_record_of_loc (round_nearest_even (shr_m x) (loc_of_shr_record x)) loc_Exact).
Proof.
  intros Hj. destruct x as [m r s]. unfold within_power. cbn [shr_m shr_r shr_s].
  pose proof (Z.pow_pos_nonneg 2%Z j ltac:(lia) Hj) as P. intros [H0 [H|(H & -> & ->)]].
  - assert (R : (m <= round_nearest_even m (loc_of_shr_record (Build_shr_record m r s)) <= m + 1)%Z).
    { destruct r, s; cbn [loc_of_shr_record round_nearest_even]; try lia. destruct (Z.even m); lia. }
    cbn [shr_record_of_loc shr_m shr_r shr_s]. split; [lia|]. set (k := round_nearest_even _ _) in *.
    destruct (Z.eq_dec k (2 ^ j)%Z) as [->|N]; [by right|left; lia].
  - cbn [loc_of_shr_record round_nearest_even shr_record_of_loc shr_m shr_r shr_s]. split; [lia|by right].
Qed.

Definition in_unit (f : float) : Prop := f_isfinite f = true /\ f_leb f_zero f = true /\ f_leb f f_one = true.

Lemma f_one_float : f_one = S754_finite false 4503599627370496 (-52).
Proof. vm_compute. reflexivity. Qed.

Lemma pow_52 : (2 ^ 52)%Z = Zpos 4503599627370496.
Proof. vm_compute. reflexivity. Qed.

Lemma SFleb_finite m n e1 e2 : (e1 < e2)%Z \/ e1 = e2 /\ (Zpos m <= Zpos n)%Z ->
  SFleb (S754_finite false m e1) (S754_finite false n e2) = true.
Proof.
  unfold SFleb, SFcompare. intros [H|[-> H]].
  - by rewrite (proj2 (Z.compare_lt_iff e1 e2) H).
  - rewrite Z.compare_refl. pose proof (Pos.compare_spec m n) as C. unfold Pos.compare in C.
    destruct C as [C|C|C]; [done|done|lia].
Qed.

Lemma finite_in_unit m j : (52 <= j)%Z -> (Zpos m <= 2 ^ j)%Z -> in_unit (S754_finite false m (- j)).
Proof.
  intros Hj Hm. split; [done|]. split; [done|]. unfold f_leb. rewrite f_one_float. apply SFleb_finite.
  destruct (Z.eq_dec j 52%Z) as [->|N]; [right|left; lia]. rewrite pow_52 in Hm. split; [done|].
  exact Hm.
Qed.

Lemma round_aux_in_unit m l j : (52 <= j)%Z -> within_power j (shr_record_of_loc m l) ->
  in_unit (binary_round_aux prec64 emax64 false m (- j) l).
Proof.
  intros Hj H. unfold binary_round_aux.
  destruct (shr_fexp_within m l j Hj H) as (j1 & x1 & -> & J1 & W1).
  apply round_within in W1; [|lia].
  destruct (shr_fexp_within _ loc_Exact j1 J1 W1) as (j2 & x2 & -> & J2 & [P2 W2]).
  destruct (shr_m x2) as [|p|p]; [done| |lia].
  rewrite (proj2 (Z.leb_le (- j2) (emax64 - prec64))) by (unfold emax64, prec64; lia).
  apply finite_in_unit; [done|]. lia.
Qed.

(** A count over a total that is not smaller is a float of the unit interval. *)
Lemma ratio_in_unit n d : (0 <= n <= Zpos d)%Z -> in_unit (f_of_ratio n d).
Proof.
  intros [H0 H]. destruct n as [|n|n]; [done| |lia]. unfold f_of_ratio, SFdiv_core_binary.
  pose proof (Zdigits2_log2 (Zpos n) ltac:(lia)) as Dn. pose proof (Zdigits2_log2 (Zpos d) ltac:(lia)) as Dd.
  pose proof (Z.log2_le_mono _ _ H) as L. pose proof (Z.log2_nonneg (Zpos n)).
  rewrite Dn, Dd. unfold fexp, emin.
  set (j := (- Z.min (Z.max (Z.log2 (Z.pos n) + 1 + 0 - (Z.log2 (Z.pos d) + 1 + 0) - prec64) (3 - emax64 - prec64)) (0 - 0))%Z).
  assert (J : (53 <= j)%Z) by (unfold j, prec64, emax64; lia).
  replace (Z.min _ (0 - 0))%Z with (- j)%Z by (unfold j; lia).
  replace (0 - 0 - - j)%Z with j by lia. destruct j as [|k|k] eqn:Ej; [lia| |lia]. rewrite <- Ej in *. clear Ej k.
  rewrite Z.shiftl_mul_pow2 by lia. pose proof (Z.pow_pos_nonneg 2%Z j ltac:(lia) ltac:(lia)) as P.
  pose proof (Z_div_mod (Zpos n * 2 ^ j) (Zpos d) ltac:(lia)) as E.
  destruct (Z.div_eucl (Zpos n * 2 ^ j) (Zpos d)) as [q r]. destruct E as [E R].
  apply round_aux_in_unit; [lia|]. split.
  - destruct (new_location _ _) as [|[]]; cbn [shr_record_of_loc shr_m]; nia.
  - destruct (Z.lt_ge_cases q (2 ^ j)) as [Lt|Ge].
    + left. by destruct (new_location _ _) as [|[]]; cbn [shr_record_of_loc shr_m].
    + right. assert (q = 2 ^ j /\ r = 0)%Z as [-> ->] by nia. unfold new_location, new_location_even, new_location_odd.
      by destruct (Z.even _); cbn.
Qed.
