(* ===== verification/PyDecimal.v ===== *)
(** * Python decimals

    Finite [decimal.Decimal] numbers and the operations of the General Decimal
    Arithmetic the gateway uses: [+], [*], [/], comparison, under a context
    with a precision, ROUND_HALF_EVEN, [Emax] and [Emin], and the default
    traps (overflow and division by zero raise, inexact results round).
    The last part shows when a sum, product or quotient by a power of ten is
    exact. *)
From S2P Require Import Prelude PyStr.

Record decimal := mk_decimal { d_neg : bool; d_coef : N; d_exp : Z }.

#[export] Instance decimal_eq_dec : EqDecision decimal.
Proof. solve_decision. Defined.

Inductive decimal_exn := DecOverflow | DecDivisionByZero | DecInvalidOperation.

#[export] Instance decimal_exn_eq_dec : EqDecision decimal_exn.
Proof. solve_decision. Defined.

(** [context.Emax], [context.Emin] of every context of the program. *)
Definition Emax : Z := 999999.
Definition Emin : Z := -999999.
Definition default_prec : nat := 28.

Definition Etiny (prec : nat) : Z := (Emin - Z.of_nat prec + 1)%Z.
Definition Etop (prec : nat) : Z := (Emax - Z.of_nat prec + 1)%Z.

Definition pow10 (k : Z) : N := (10 ^ Z.to_N k)%N.

(** The signed coefficient. *)
Definition d_int (d : decimal) : Z := if d_neg d then (- Z.of_N (d_coef d))%Z else Z.of_N (d_coef d).

Definition d_zero : decimal := mk_decimal false 0 0.

(** [Decimal(int)] *)
Definition d_of_Z (z : Z) : decimal := mk_decimal (z <? 0)%Z (Z.abs_N z) 0.

(** Division of the coefficient by [10^k], to nearest, ties to even. *)
Definition round_half_even (coef : N) (k : Z) : N :=
  let p := pow10 k in
  let q := (coef / p)%N in
  let r := (coef mod p)%N in
  match (2 * r ?= p)%N with
  | Lt => q
  | Gt => (q + 1)%N
  | Eq => if N.even q then q else (q + 1)%N
  end.

(** Rounds a result to the context ([Decimal._fix]). *)
Definition d_fix (prec : nat) (d : decimal) : result decimal_exn decimal :=
  if (d_coef d =? 0)%N then
    Ok (mk_decimal (d_neg d) 0 (Z.min (Z.max (d_exp d) (Etiny prec)) Emax))
  else
    let exp_min0 := (Z.of_nat (ndigits (d_coef d)) + d_exp d - Z.of_nat prec)%Z in
    if (Etop prec <? exp_min0)%Z then Raise DecOverflow
    else
      let exp_min := Z.max exp_min0 (Etiny prec) in
      if (d_exp d <? exp_min)%Z then
        let coef := round_half_even (d_coef d) (exp_min - d_exp d) in
        let '(coef, exp_min) :=
          if Nat.ltb prec (ndigits coef) then ((coef / 10)%N, (exp_min + 1)%Z) else (coef, exp_min) in
        if (Etop prec <? exp_min)%Z then Raise DecOverflow
        else Ok (mk_decimal (d_neg d) coef exp_min)
      else Ok d.

(** The coefficient of [d] at a smaller exponent [e]. *)
Definition d_scaled (d : decimal) (e : Z) : Z := (d_int d * Z.of_N (pow10 (d_exp d - e)))%Z.

(** The sum before rounding. *)
Definition d_add_exact (a b : decimal) : decimal :=
  let e := Z.min (d_exp a) (d_exp b) in
  let s := (d_scaled a e + d_scaled b e)%Z in
  mk_decimal (if (s =? 0)%Z then d_neg a && d_neg b else (s <? 0)%Z) (Z.abs_N s) e.

Definition d_add (prec : nat) (a b : decimal) : result decimal_exn decimal :=
  d_fix prec (d_add_exact a b).

Definition d_mul_exact (a b : decimal) : decimal :=
  mk_decimal (xorb (d_neg a) (d_neg b)) (d_coef a * d_coef b) (d_exp a + d_exp b).

Definition d_mul (prec : nat) (a b : decimal) : result decimal_exn decimal :=
  d_fix prec (d_mul_exact a b).

(** [while exp < ideal_exp and coeff % 10 == 0: coeff //= 10; exp += 1] *)
Fixpoint strip_zeros (fuel : nat) (coef : N) (exp ideal : Z) : N * Z :=
  match fuel with
  | O => (coef, exp)
  | S fuel' =>
      if (exp <? ideal)%Z && (coef mod 10 =? 0)%N
      then strip_zeros fuel' (coef / 10)%N (exp + 1)%Z ideal
      else (coef, exp)
  end.

(** [Decimal.__truediv__]; the loop runs at most [ideal - exp] times. *)
Definition d_div (prec : nat) (a b : decimal) : result decimal_exn decimal :=
  if (d_coef b =? 0)%N then
    Raise (if (d_coef a =? 0)%N then DecInvalidOperation else DecDivisionByZero)
  else
    let sign := xorb (d_neg a) (d_neg b) in
    let ideal := (d_exp a - d_exp b)%Z in
    if (d_coef a =? 0)%N then d_fix prec (mk_decimal sign 0 ideal)
    else
      let shift := (Z.of_nat (ndigits (d_coef b)) - Z.of_nat (ndigits (d_coef a))
                    + Z.of_nat prec + 1)%Z in
      let exp := (ideal - shift)%Z in
      let n := (if (0 <=? shift)%Z then d_coef a * pow10 shift else d_coef a)%N in
      let m := (if (0 <=? shift)%Z then d_coef b else d_coef b * pow10 (- shift))%N in
      let q := (n / m)%N in
      if (n mod m =? 0)%N then
        let '(q', e') := strip_zeros (Z.to_nat (ideal - exp)) q exp ideal in
        d_fix prec (mk_decimal sign q' e')
      else d_fix prec (mk_decimal sign (if (q mod 5 =? 0)%N then (q + 1)%N else q) exp).

(** Numerical comparison; [==], [<], [>=] of decimals. *)
Definition d_cmp (a b : decimal) : comparison :=
  let e := Z.min (d_exp a) (d_exp b) in (d_scaled a e ?= d_scaled b e)%Z.

Definition d_eqb (a b : decimal) : bool := match d_cmp a b with Eq => true | _ => false end.
Definition d_ltb (a b : decimal) : bool := cmp_lt d_cmp a b.
Definition d_leb (a b : decimal) : bool := cmp_le d_cmp a b.

(** [value >= 0] *)
Definition d_nonneg (d : decimal) : bool := (0 <=? d_int d)%Z.

(** [str(d)]: scientific notation when the exponent is positive or the value
    small. *)
Definition d_str (d : decimal) : pystr :=
  let digits := N_to_str (d_coef d) in
  let n := Z.of_nat (length digits) in
  let left := (d_exp d + n)%Z in
  let dotplace := if (d_exp d <=? 0)%Z && (-6 <? left)%Z then left else 1%Z in
  let zeros k := repeat 48%N (Z.to_nat k) in
  let body :=
    if (dotplace <=? 0)%Z then py "0." ++ zeros (- dotplace)%Z ++ digits
    else if (n <=? dotplace)%Z then digits ++ zeros (dotplace - n)%Z
    else firstn (Z.to_nat dotplace) digits ++ py "." ++ skipn (Z.to_nat dotplace) digits in
  (if d_neg d then py "-" else []) ++ body ++
  (if (left =? dotplace)%Z then []
   else py "E" ++ (if (left <? dotplace)%Z then [] else py "+") ++ Z_to_str (left - dotplace)%Z).

(** [sum(l, start=Decimal(0))] in a context. *)
Fixpoint d_sum_from (prec : nat) (acc : decimal) (l : list decimal) : result decimal_exn decimal :=
  match l with
  | [] => Ok acc
  | d :: l' =>
      match d_add prec acc d with
      | Ok acc' => d_sum_from prec acc' l'
      | Raise e => Raise e
      end
  end.

Definition d_sum (prec : nat) (l : list decimal) : result decimal_exn decimal :=
  d_sum_from prec d_zero l.

(** ** Comparison *)

Lemma pow10_pos k : (0 < pow10 k)%N.
Proof. unfold pow10. apply N.neq_0_lt_0, N.pow_nonzero. done. Qed.

Lemma pow10_add j k : (0 <= j)%Z -> (0 <= k)%Z -> pow10 (j + k) = (pow10 j * pow10 k)%N.
Proof. intros. unfold pow10. rewrite Z2N.inj_add by done. apply N.pow_add_r. Qed.

Lemma d_scaled_shift d e e' : (e' <= e <= d_exp d)%Z ->
  d_scaled d e' = (d_scaled d e * Z.of_N (pow10 (e - e')))%Z.
Proof.
  intros H. unfold d_scaled. replace (d_exp d - e')%Z with (d_exp d - e + (e - e'))%Z by lia.
  rewrite pow10_add by lia. lia.
Qed.

(** Two decimals compare as their coefficients at any common exponent. *)
Lemma d_cmp_at a b e : (e <= d_exp a)%Z -> (e <= d_exp b)%Z ->
  d_cmp a b = (d_scaled a e ?= d_scaled b e)%Z.
Proof.
  intros Ha Hb. unfold d_cmp. set (m := Z.min _ _).
  rewrite (d_scaled_shift a m e), (d_scaled_shift b m e) by lia.
  pose proof (pow10_pos (m - e)).
  rewrite <- !(Z.mul_comm (Z.of_N (pow10 (m - e)))).
  apply Zmult_compare_compat_l. lia.
Qed.

#[export] Instance total_cmp_decimal : TotalCmp d_cmp.
Proof.
  split.
  - intros x. unfold d_cmp. apply Z.compare_refl.
  - intros x y. unfold d_cmp. rewrite (Z.min_comm (d_exp y)). apply Z.compare_antisym.
  - intros x y z. set (m := Z.min (d_exp x) (Z.min (d_exp y) (d_exp z))).
    rewrite (d_cmp_at x y m), (d_cmp_at y z m), (d_cmp_at x z m) by lia.
    rewrite !Z.compare_lt_iff. lia.
  - intros x y z. set (m := Z.min (d_exp x) (Z.min (d_exp y) (d_exp z))).
    rewrite (d_cmp_at x y m), (d_cmp_at y z m), (d_cmp_at x z m) by lia.
    intros E. apply Z.compare_eq in E. by rewrite E.
Qed.

Lemma d_eqb_eq_at a b e : (e <= d_exp a)%Z -> (e <= d_exp b)%Z ->
  d_eqb a b = true <-> d_scaled a e = d_scaled b e.
Proof.
  intros Ha Hb. unfold d_eqb. rewrite (d_cmp_at a b e) by done.
  rewrite <- Z.compare_eq_iff. by destruct (_ ?= _)%Z.
Qed.

Lemma d_nonneg_int d : d_nonneg d = true <-> (0 <= d_int d)%Z.
Proof. apply Z.leb_le. Qed.

(** ** Exactness *)

(** A nonzero result that fits the precision and the exponent range, or a
    zero in range, is returned unchanged. *)
Lemma d_fix_id prec d :
  (ndigits (d_coef d) <= prec)%nat -> (Etiny prec <= d_exp d)%Z ->
  (d_exp d + Z.of_nat (ndigits (d_coef d)) - 1 <= Emax)%Z -> d_fix prec d = Ok d.
Proof.
  intros Hn Ht Ha. unfold d_fix. pose proof (ndigits_pos (d_coef d)).
  destruct (N.eqb_spec (d_coef d) 0) as [E|E].
  - f_equal. destruct d as [s c e]; simpl in *. f_equal; [done|lia].
  - unfold Etop. destruct (Z.ltb_spec (Emax - Z.of_nat prec + 1)
      (Z.of_nat (ndigits (d_coef d)) + d_exp d - Z.of_nat prec)); [lia|].
    destruct (Z.ltb_spec (d_exp d)
      (Z.max (Z.of_nat (ndigits (d_coef d)) + d_exp d - Z.of_nat prec) (Etiny prec))); [lia|done].
Qed.

Lemma ndigits_mul a b : (ndigits (a * b) <= ndigits a + ndigits b)%nat.
Proof.
  apply ndigits_le; [pose proof (ndigits_pos a); lia|].
  rewrite Nat2N.inj_add, N.pow_add_r. pose proof (ndigits_bound a). pose proof (ndigits_bound b). nia.
Qed.

Lemma ndigits_pow10 a k : (0 <= k)%Z -> (ndigits (a * pow10 k) <= ndigits a + Z.to_nat k)%nat.
Proof.
  intros Hk. apply ndigits_le; [pose proof (ndigits_pos a); lia|].
  rewrite Nat2N.inj_add, N.pow_add_r. unfold pow10. rewrite Z_nat_N.
  pose proof (ndigits_bound a).
  assert (0 < 10 ^ Z.to_N k)%N by (apply N.neq_0_lt_0, N.pow_nonzero; done). nia.
Qed.

Lemma ndigits_add a b : (ndigits (a + b) <= S (Nat.max (ndigits a) (ndigits b)))%nat.
Proof.
  apply ndigits_le; [lia|]. rewrite Nat2N.inj_succ, N.pow_succ_r'.
  pose proof (ndigits_bound a) as Ha. pose proof (ndigits_bound b) as Hb.
  assert (10 ^ N.of_nat (ndigits a) <= 10 ^ N.of_nat (Nat.max (ndigits a) (ndigits b)))%N
    by (apply N.pow_le_mono_r; lia).
  assert (10 ^ N.of_nat (ndigits b) <= 10 ^ N.of_nat (Nat.max (ndigits a) (ndigits b)))%N
    by (apply N.pow_le_mono_r; lia).
  lia.
Qed.

Lemma ndigits_mono a b : (a <= b)%N -> (ndigits a <= ndigits b)%nat.
Proof.
  intros H. apply ndigits_le; [apply ndigits_pos|].
  eapply N.le_lt_trans; [exact H|apply ndigits_bound].
Qed.

Lemma strip_zeros_spec fuel coef exp ideal q e :
  (0 < coef)%N -> (exp <= ideal)%Z -> (Z.to_nat (ideal - exp) <= fuel)%nat ->
  strip_zeros fuel coef exp ideal = (q, e) ->
  (exp <= e <= ideal)%Z /\ coef = (q * pow10 (e - exp))%N /\ (e = ideal \/ (q mod 10 <> 0)%N).
Proof.
  revert coef exp. induction fuel as [|fuel IH]; intros coef exp Hc He Hf H; simpl in H.
  - inv_result. assert (e = ideal) as -> by lia. rewrite Z.sub_diag. unfold pow10. simpl.
    split; [lia|]. split; [lia|by left].
  - destruct (Z.ltb_spec exp ideal) as [Hlt|]; simpl in H.
    + destruct (N.eqb_spec (coef mod 10) 0) as [Hm|Hm].
      * apply IH in H as (H1 & H2 & H3); [|dlia|lia|lia].
        split; [lia|]. split; [|done].
        replace (e - exp)%Z with (e - (exp + 1) + 1)%Z by lia.
        rewrite pow10_add by lia. change (pow10 1) with 10%N. dlia.
      * inv_result. rewrite Z.sub_diag. unfold pow10. simpl. split; [lia|]. split; [lia|by right].
    + inv_result. assert (e = ideal) as -> by lia. rewrite Z.sub_diag. unfold pow10. simpl.
      split; [lia|]. split; [lia|by left].
Qed.

Lemma strip_zeros_fuel coef exp ideal :
  exists q e, strip_zeros (Z.to_nat (ideal - exp)) coef exp ideal = (q, e).
Proof. destruct (strip_zeros _ _ _ _) as [q e]. by exists q, e. Qed.

Lemma ndigits_pow10_1 k : (0 <= k)%Z -> ndigits (pow10 k) = S (Z.to_nat k).
Proof.
  intros Hk. apply Nat.le_antisymm.
  - apply ndigits_le; [lia|]. unfold pow10. apply N.pow_lt_mono_r; lia.
  - destruct (Nat.le_gt_cases (S (Z.to_nat k)) (ndigits (pow10 k))) as [|Hlt]; [done|].
    pose proof (ndigits_bound (pow10 k)) as H. unfold pow10 in H at 1.
    assert (10 ^ N.of_nat (ndigits (pow10 k)) <= 10 ^ Z.to_N k)%N by (apply N.pow_le_mono_r; lia).
    lia.
Qed.

Lemma ndigits_pow10_ge q k :
  (0 < q)%N -> (0 <= k)%Z -> (ndigits q + Z.to_nat k <= ndigits (q * pow10 k))%nat.
Proof.
  intros Hq Hk. apply ndigits_lower in Hq.
  destruct (Nat.le_gt_cases (ndigits q + Z.to_nat k) (ndigits (q * pow10 k))) as [|Hlt]; [done|exfalso].
  pose proof (ndigits_bound (q * pow10 k)) as Hb. unfold pow10 in Hb, Hlt.
  assert (10 ^ N.of_nat (ndigits (q * 10 ^ Z.to_N k)) <= 10 ^ (N.of_nat (ndigits q - 1) + Z.to_N k))%N as Hm
    by (apply N.pow_le_mono_r; [done|]; pose proof (ndigits_pos q); lia).
  rewrite N.pow_add_r in Hm. nia.
Qed.

(** Dividing by [10^k] only moves the point when the dividend fits. *)
Lemma d_div_pow10 prec s c e k :
  (0 <= k)%Z -> (0 < c)%N -> (ndigits c <= prec)%nat ->
  (Etiny prec <= e - k)%Z -> (e + Z.of_nat (ndigits c) - 1 <= Emax)%Z ->
  exists r, d_div prec (mk_decimal s c e) (mk_decimal false (pow10 k) 0) = Ok r /\
            d_neg r = s /\ (e - k <= d_exp r <= e)%Z /\
            c = (d_coef r * pow10 (d_exp r - (e - k)))%N.
Proof.
  intros Hk Hc Hn Ht Ha. unfold d_div. cbn [d_coef d_neg d_exp].
  pose proof (pow10_pos k) as Hp.
  rewrite (proj2 (N.eqb_neq _ _)) by lia. rewrite (proj2 (N.eqb_neq c 0)) by lia.
  rewrite ndigits_pow10_1 by done. rewrite Z.sub_0_r, xorb_false_r.
  set (sh := (Z.of_nat (S (Z.to_nat k)) - Z.of_nat (ndigits c) + Z.of_nat prec + 1)%Z).
  assert (Hsh : (k < sh)%Z) by lia.
  rewrite (proj2 (Z.leb_le 0 sh)) by lia.
  assert (Hq : (c * pow10 sh = c * pow10 (sh - k) * pow10 k)%N).
  { rewrite <- N.mul_assoc, <- pow10_add by lia. do 2 f_equal. lia. }
  rewrite Hq, N.Div0.mod_mul, N.eqb_refl, N.div_mul by lia.
  set (exp := (e - sh)%Z).
  destruct (strip_zeros_fuel (c * pow10 (sh - k)) exp e) as (q & e' & Hz). rewrite Hz.
  pose proof (pow10_pos (sh - k)).
  apply strip_zeros_spec in Hz as (He & Hcq & Hend); [|nia|lia|lia].
  assert (Hlow : (e - k <= e')%Z).
  { destruct Hend as [->|Hnz]; [lia|]. apply Z.nlt_ge. intros Hlt. apply Hnz.
    replace (sh - k)%Z with (sh - k - (e' - exp) - 1 + 1 + (e' - exp))%Z in Hcq by lia.
    rewrite !pow10_add in Hcq by lia. change (pow10 1) with 10%N in Hcq.
    pose proof (pow10_pos (e' - exp)).
    assert (q = c * pow10 (sh - k - (e' - exp) - 1) * 10)%N as -> by nia.
    apply N.Div0.mod_mul. }
  assert (Hval : c = (q * pow10 (e' - (e - k)))%N).
  { replace (e' - exp)%Z with (e' - (e - k) + (sh - k))%Z in Hcq by lia.
    rewrite pow10_add in Hcq by lia. nia. }
  assert (Hqn : (ndigits q <= ndigits c)%nat).
  { apply ndigits_mono. pose proof (pow10_pos (e' - (e - k))). nia. }
  exists (mk_decimal s q e'). cbn [d_neg d_exp d_coef].
  split; [|split; [done|split; [lia|done]]].
  apply d_fix_id; cbn [d_coef d_exp]; [lia|lia|].
  pose proof (ndigits_pow10_ge q (e' - (e - k))) as Hg. rewrite <- Hval in Hg.
  assert (0 < q)%N by nia. lia.
Qed.
