(* ===== verification/PyUuid.v ===== *)
(** * UUIDs

    A [uuid.UUID] is its 128-bit integer; [str] writes 32 hexadecimal digits in
    groups, and the constructor reads them back. *)
From S2P Require Import Prelude PyStr.

Notation uuid := N (only parsing).

Definition hex_char (n : N) : N := if (n <? 10)%N then (48 + n)%N else (87 + n)%N.

(** The [n] lowest hexadecimal digits of [v], most significant first. *)
Fixpoint hex_digits (n : nat) (v : N) (acc : pystr) : pystr :=
  match n with
  | O => acc
  | S n' => hex_digits n' (v / 16)%N (hex_char (v mod 16)%N :: acc)
  end.

(** [uuid.hex] and [str(uuid)] *)
Definition uuid_hex (u : uuid) : pystr := hex_digits 32 u [].

Definition uuid_str (u : uuid) : pystr :=
  let h := uuid_hex u in
  join (py "-") [firstn 8 h; firstn 4 (skipn 8 h); firstn 4 (skipn 12 h); firstn 4 (skipn 16 h); skipn 20 h].

Definition hex_value (c : N) : option N :=
  if is_ascii_digit c then Some (c - 48)%N
  else if in_range 97 102 c then Some (c - 87)%N
  else if in_range 65 70 c then Some (c - 55)%N
  else None.

(** [int(s, 16)] of hexadecimal digits. *)
Definition hex_int (s : pystr) : option N :=
  fold_left (fun v c => match v, hex_value c with
                        | Some v, Some d => Some (v * 16 + d)%N
                        | _, _ => None
                        end) s (Some 0%N).

(** [uuid.UUID(s)] on a string of 32 hexadecimal digits and dashes; the other
    spellings of the constructor (braces, prefixes, signs) are not used. *)
Definition uuid_parse (s : pystr) : option uuid :=
  let h := List.filter (fun c => negb (c =? 45)%N) s in
  if Nat.eqb (length h) 32 then hex_int h else None.

(** ** Round trip *)

Lemma hex_char_value n : (n < 16)%N -> hex_value (hex_char n) = Some n.
Proof.
  intros H. unfold hex_char, hex_value, is_ascii_digit, in_range.
  destruct (N.ltb_spec n 10).
  - replace ((48 <=? 48 + n) && (48 + n <=? 57))%N with true; [f_equal; lia|].
    symmetry. apply andb_true_iff; split; apply N.leb_le; lia.
  - replace ((48 <=? 87 + n) && (87 + n <=? 57))%N with false.
    2: { symmetry. apply andb_false_iff. right. apply N.leb_gt. lia. }
    replace ((97 <=? 87 + n) && (87 + n <=? 102))%N with true; [f_equal; lia|].
    symmetry. apply andb_true_iff; split; apply N.leb_le; lia.
Qed.

Lemma hex_char_not_dash n : (n < 16)%N -> hex_char n <> 45%N.
Proof. intros H. unfold hex_char. destruct (N.ltb_spec n 10); lia. Qed.

Lemma hex_digits_length n v acc : length (hex_digits n v acc) = (n + length acc)%nat.
Proof. revert v acc. induction n as [|n IH]; intros v acc; simpl; [done|]. rewrite IH. simpl. lia. Qed.

Lemma hex_digits_no_dash n v acc : Forall (fun c => c <> 45%N) acc ->
  Forall (fun c => c <> 45%N) (hex_digits n v acc).
Proof.
  revert v acc. induction n as [|n IH]; intros v acc H; simpl; [done|]. apply IH.
  constructor; [apply hex_char_not_dash; dlia|done].
Qed.

Definition hex_fold (v : option N) (s : pystr) : option N :=
  fold_left (fun v c => match v, hex_value c with
                        | Some v, Some d => Some (v * 16 + d)%N
                        | _, _ => None
                        end) s v.

Lemma hex_digits_value n v acc :
  hex_fold (Some 0%N) (hex_digits n v acc) = hex_fold (Some (v mod 16 ^ N.of_nat n)%N) acc.
Proof.
  revert v acc. induction n as [|n IH]; intros v acc.
  - simpl. by rewrite N.mod_1_r.
  - cbn [hex_digits]. rewrite IH. unfold hex_fold. cbn [fold_left].
    rewrite hex_char_value by dlia. f_equal. f_equal.
    rewrite Nat2N.inj_succ, N.pow_succ_r', N.Div0.mod_mul_r. lia.
Qed.

Lemma filter_no_dash s : Forall (fun c => c <> 45%N) s -> List.filter (fun c => negb (c =? 45)%N) s = s.
Proof.
  induction 1 as [|c s Hc _ IH]; simpl; [done|]. apply N.eqb_neq in Hc. rewrite Hc. simpl. by rewrite IH.
Qed.

Lemma uuid_str_digits u : List.filter (fun c => negb (c =? 45)%N) (uuid_str u) = uuid_hex u.
Proof.
  unfold uuid_str. set (h := uuid_hex u).
  assert (Hd : Forall (fun c => c <> 45%N) h) by (by apply hex_digits_no_dash).
  cbn [join]. rewrite !List.filter_app. change (List.filter (fun c => negb (c =? 45)%N) (py "-")) with (@nil N).
  rewrite !filter_no_dash by (repeat first [apply Forall_take | apply Forall_drop]; done).
  cbn [app].
  assert (D : forall n k, take k (drop n h) ++ drop (n + k) h = drop n h).
  { intros n k. rewrite <- drop_drop. apply take_drop. }
  pose proof (D 16 4) as D1. pose proof (D 12 4) as D2. pose proof (D 8 4) as D3.
  cbn [Nat.add] in D1, D2, D3. rewrite D1, D2, D3. apply take_drop.
Qed.

Lemma uuid_roundtrip u : (u < 2 ^ 128)%N -> uuid_parse (uuid_str u) = Some u.
Proof.
  intros H. unfold uuid_parse. rewrite uuid_str_digits. unfold uuid_hex at 1.
  rewrite hex_digits_length. cbn [length Nat.add Nat.eqb].
  change (hex_int (uuid_hex u)) with (hex_fold (Some 0%N) (hex_digits 32 u [])).
  rewrite hex_digits_value. cbn [hex_fold fold_left]. f_equal. apply N.mod_small.
  change (16 ^ N.of_nat 32)%N with (2 ^ 128)%N. done.
Qed.

Lemma uuid_str_inj u v : (u < 2 ^ 128)%N -> (v < 2 ^ 128)%N -> uuid_str u = uuid_str v -> u = v.
Proof.
  intros Hu Hv E. apply uuid_roundtrip in Hu, Hv. rewrite E in Hu. congruence.
Qed.

Lemma hex_digits_ascii n v acc : Forall (fun c => (c < 103)%N) acc -> Forall (fun c => (c < 103)%N) (hex_digits n v acc).
Proof.
  revert v acc. induction n as [|n IH]; intros v acc H; simpl; [done|]. apply IH. constructor; [|done].
  unfold hex_char. destruct (N.ltb_spec (v mod 16) 10); dlia.
Qed.

(** The text of a UUID is 36 ASCII characters. *)
Lemma uuid_str_shape u : Forall (fun c => (c < 128)%N) (uuid_str u) /\ length (uuid_str u) = 36.
Proof.
  unfold uuid_str. set (h := uuid_hex u).
  assert (Ha : Forall (fun c => (c < 128)%N) h).
  { eapply Forall_impl; [by apply hex_digits_ascii|]. cbv beta. lia. }
  assert (Hl : length h = 32) by (unfold h, uuid_hex; rewrite hex_digits_length; done).
  cbn [join]. split.
  - repeat (apply Forall_app; split); try (by repeat constructor);
      repeat first [apply Forall_take | apply Forall_drop]; done.
  - rewrite !length_app, !length_take, !length_drop, Hl. done.
Qed.

Lemma hex_digits_roundtrip n v : (v < 16 ^ N.of_nat n)%N -> hex_int (hex_digits n v []) = Some v.
Proof.
  intros H. change (hex_int (hex_digits n v [])) with (hex_fold (Some 0%N) (hex_digits n v [])).
  rewrite hex_digits_value. cbn [hex_fold fold_left]. f_equal. by apply N.mod_small.
Qed.
