(* ===== verification/Schemas.v ===== *)
(** * Domain data ([models/schemas.py])

    The validated, immutable configuration and inference data.  A record holds
    the values pydantic stores after its own coercions; the [*_validate]
    functions are the field constraints and validators written in the source,
    in the order they run, raising the message of the source. *)
From S2P Require Import Prelude PyStr PyFloat PyDecimal.

(** [Identifier]: stripped by pydantic, [min_length=1] checked here. *)
Definition Identifier_ok (s : pystr) : bool := match s with [] => false | _ => true end.

(** [Money]: a finite decimal, [ge=0]. *)
Definition Money_ok (d : decimal) : bool := d_nonneg d.

(** [TokenCount] and [PositiveTokenCount] *)
Definition TokenCount_ok (n : Z) : bool := (0 <=? n)%Z.
Definition PositiveTokenCount_ok (n : Z) : bool := (0 <? n)%Z.

Inductive ReasoningBehavior := RB_UNSUPPORTED | RB_PROVIDER_DEFAULT | RB_ADAPTIVE.

Inductive ReasoningEffort := RE_NONE | RE_MINIMAL | RE_LOW | RE_MEDIUM | RE_HIGH | RE_XHIGH.

Inductive ReasoningControlMechanism := GATEWAY_SHARED | GOOGLE_PROVIDER_NATIVE.

Inductive OutputTokenAccounting := VISIBLE_ONLY | REASONING_AND_VISIBLE.

Inductive TerminationReason :=
| TR_COMPLETE | TR_LENGTH | TR_TOOL_CALL | TR_CONTENT_FILTER | TR_OTHER | TR_UNKNOWN.

#[export] Instance ReasoningBehavior_eq_dec : EqDecision ReasoningBehavior.
Proof. solve_decision. Defined.
#[export] Instance ReasoningEffort_eq_dec : EqDecision ReasoningEffort.
Proof. solve_decision. Defined.
#[export] Instance ReasoningControlMechanism_eq_dec : EqDecision ReasoningControlMechanism.
Proof. solve_decision. Defined.
#[export] Instance OutputTokenAccounting_eq_dec : EqDecision OutputTokenAccounting.
Proof. solve_decision. Defined.
#[export] Instance TerminationReason_eq_dec : EqDecision TerminationReason.
Proof. solve_decision. Defined.

(** The [.value] of the string enumerations. *)
Definition ReasoningEffort_value (e : ReasoningEffort) : pystr :=
  match e with
  | RE_NONE => py "none" | RE_MINIMAL => py "minimal" | RE_LOW => py "low"
  | RE_MEDIUM => py "medium" | RE_HIGH => py "high" | RE_XHIGH => py "xhigh"
  end.

Definition TerminationReason_value (t : TerminationReason) : pystr :=
  match t with
  | TR_COMPLETE => py "complete" | TR_LENGTH => py "length" | TR_TOOL_CALL => py "tool_call"
  | TR_CONTENT_FILTER => py "content_filter" | TR_OTHER => py "other" | TR_UNKNOWN => py "unknown"
  end.

Record ModelCapabilities := mk_ModelCapabilities {
  supports_temperature : bool;
  supports_structured_output : bool;
  reasoning : ReasoningBehavior;
  output_token_accounting : OutputTokenAccounting
}.

(** [ModelCapabilities()] *)
Definition default_capabilities : ModelCapabilities :=
  mk_ModelCapabilities true false RB_UNSUPPORTED VISIBLE_ONLY.

Record CategoryOutputTokenAllowance := mk_CategoryOutputTokenAllowance {
  al_category : pystr;
  al_max_output_tokens : Z
}.

Record OutputTokenPolicy := mk_OutputTokenPolicy {
  category_overrides : list CategoryOutputTokenAllowance;
  reasoning_headroom_tokens : Z;
  expected_reasoning_tokens : Z
}.

Definition default_output_token_policy : OutputTokenPolicy := mk_OutputTokenPolicy [] 0 0.

Record ModelConfig := mk_ModelConfig {
  model_id : pystr;
  provider : pystr;
  provider_model_name : pystr;
  input_cost_per_1m_tokens : decimal;
  output_cost_per_1m_tokens : decimal;
  context_window : Z;
  enabled : bool;
  capabilities : ModelCapabilities;
  reasoning_effort : option ReasoningEffort;
  reasoning_control : ReasoningControlMechanism;
  output_token_policy : OutputTokenPolicy
}.

Record InferenceRequest := mk_InferenceRequest {
  prompt : pystr;
  system_prompt : option pystr;
  rq_max_output_tokens : Z;
  temperature : float
}.

Record InferenceResponse := mk_InferenceResponse {
  text : pystr;
  rs_model_id : pystr;
  rs_provider : pystr;
  input_tokens : Z;
  output_tokens : Z;
  latency_ms : float;
  estimated_cost_usd : decimal;
  termination_reason : TerminationReason;
  provider_termination_reason : option pystr
}.

#[export] Instance ModelCapabilities_eq_dec : EqDecision ModelCapabilities.
Proof. solve_decision. Defined.
#[export] Instance CategoryOutputTokenAllowance_eq_dec : EqDecision CategoryOutputTokenAllowance.
Proof. solve_decision. Defined.
#[export] Instance OutputTokenPolicy_eq_dec : EqDecision OutputTokenPolicy.
Proof. solve_decision. Defined.
#[export] Instance ModelConfig_eq_dec : EqDecision ModelConfig.
Proof. solve_decision. Defined.
#[export] Instance InferenceRequest_eq_dec : EqDecision InferenceRequest.
Proof. solve_decision. Defined.
#[export] Instance InferenceResponse_eq_dec : EqDecision InferenceResponse.
Proof. solve_decision. Defined.

(** A field constraint of pydantic that does not hold. *)
Definition field_error : pystr := py "field constraint".

Definition check (c : bool) (msg : pystr) : result pystr unit := guard_else c msg.

(** [OutputTokenPolicy.category_overrides_are_unique] and the bounds of its fields. *)
Definition OutputTokenPolicy_validate (p : OutputTokenPolicy) : result pystr unit :=
  _ ← check (forallb (fun a => Identifier_ok (al_category a) &&
                               PositiveTokenCount_ok (al_max_output_tokens a))
               (category_overrides p)) field_error;
  _ ← check ((0 <=? reasoning_headroom_tokens p)%Z && (reasoning_headroom_tokens p <=? 1024)%Z)
        field_error;
  _ ← check ((0 <=? expected_reasoning_tokens p)%Z && (expected_reasoning_tokens p <=? 1024)%Z)
        field_error;
  _ ← check (all_distinct (map al_category (category_overrides p)))
        (py "output-token category overrides must be unique");
  check (expected_reasoning_tokens p <=? reasoning_headroom_tokens p)%Z
        (py "expected reasoning tokens cannot exceed bounded headroom").

(** [ModelConfig.reject_unsupported_reasoning_effort] *)
Definition reject_unsupported_reasoning_effort (m : ModelConfig) : result pystr unit :=
  _ ← check (negb (bool_decide (reasoning_effort m <> None) &&
                   bool_decide (reasoning (capabilities m) = RB_UNSUPPORTED)))
        (py "explicit reasoning effort requires reasoning support");
  _ ← match reasoning_control m with
      | GOOGLE_PROVIDER_NATIVE =>
          _ ← check (startswith (provider_model_name m) (py "google/"))
                (py "Google provider-native reasoning requires a Google model");
          check (negb (bool_decide (reasoning_effort m = None) ||
                       bool_decide (reasoning_effort m = Some RE_NONE)))
                (py "Google provider-native reasoning requires an effective effort")
      | GATEWAY_SHARED => Ok tt
      end;
  check (negb (bool_decide (output_token_accounting (capabilities m) = VISIBLE_ONLY) &&
               negb (reasoning_headroom_tokens (output_token_policy m) =? 0)%Z))
        (py "visible-only output accounting cannot reserve reasoning headroom").

(** Construction of a [ModelConfig]: fields first, then the model validator. *)
Definition ModelConfig_validate (m : ModelConfig) : result pystr unit :=
  _ ← check (Identifier_ok (model_id m) && Identifier_ok (provider m) &&
             Identifier_ok (provider_model_name m)) field_error;
  _ ← check (Money_ok (input_cost_per_1m_tokens m) && Money_ok (output_cost_per_1m_tokens m))
        field_error;
  _ ← check (PositiveTokenCount_ok (context_window m)) field_error;
  _ ← OutputTokenPolicy_validate (output_token_policy m);
  reject_unsupported_reasoning_effort m.

(** [ModelConfig.provider_output_allowance] *)
Definition provider_output_allowance (m : ModelConfig) (visible_output_tokens : Z)
    (category : pystr) : result pystr Z :=
  _ ← check (0 <? visible_output_tokens)%Z
        (py "visible output requirement must be a positive integer");
  let matching :=
    map al_max_output_tokens
      (List.filter (fun a => bool_decide (al_category a = category))
         (category_overrides (output_token_policy m))) in
  _ ← check (Nat.leb (length matching) 1)
        (py "output-token policy contains duplicate category overrides");
  let visible_requirement := match matching with x :: _ => x | [] => visible_output_tokens end in
  Ok (match output_token_accounting (capabilities m) with
      | REASONING_AND_VISIBLE =>
          (visible_requirement + reasoning_headroom_tokens (output_token_policy m))%Z
      | VISIBLE_ONLY => visible_requirement
      end).

(** [InferenceRequest.reject_blank_text] *)
Definition reject_blank_text (value : option pystr) : result pystr unit :=
  match value with
  | None => Ok tt
  | Some s => check (negb (is_blank s)) (py "prompt text must contain non-whitespace characters")
  end.

(** [ge=0, le=2, allow_inf_nan=False] *)
Definition temperature_ok (t : float) : bool :=
  f_isfinite t && f_leb f_zero t && f_leb t (f_of_Z 2).

Definition InferenceRequest_validate (r : InferenceRequest) : result pystr unit :=
  _ ← check (Identifier_ok (prompt r)) field_error;
  _ ← reject_blank_text (Some (prompt r));
  _ ← reject_blank_text (system_prompt r);
  _ ← check (PositiveTokenCount_ok (rq_max_output_tokens r)) field_error;
  check (temperature_ok (temperature r)) field_error.

(** [pattern=r"^[A-Za-z0-9][A-Za-z0-9._:/-]{0,63}$"] *)
Definition safe_punct : N -> bool := in_chars (py "._:/-").
Definition termination_pattern (s : pystr) : bool := token_match safe_punct 63 s.

(** [Field(ge=0, allow_inf_nan=False)] on a float *)
Definition nonneg_finite (f : float) : bool := f_isfinite f && f_leb f_zero f.

Definition InferenceResponse_validate (r : InferenceResponse) : result pystr unit :=
  _ ← check (Identifier_ok (rs_model_id r) && Identifier_ok (rs_provider r)) field_error;
  _ ← check (TokenCount_ok (input_tokens r) && TokenCount_ok (output_tokens r)) field_error;
  _ ← check (nonneg_finite (latency_ms r)) field_error;
  _ ← check (Money_ok (estimated_cost_usd r)) field_error;
  check (match provider_termination_reason r with
         | None => true
         | Some s => termination_pattern s
         end) field_error.

(** ** Lemmas *)

Lemma check_ok c msg u : check c msg = Ok u -> c = true.
Proof. by destruct c. Qed.

Lemma bind_raise {E A B} (r : result E A) (f : A -> result E B) e :
  (x ← r; f x) = Raise e -> r = Raise e \/ exists a, r = Ok a /\ f a = Raise e.
Proof. destruct r as [a|e']; [right; by exists a|left]. simpl in *. by inv_result. Qed.

(** Splits a sequence of checks that succeeded. *)
Ltac inv_checks :=
  repeat match goal with
    | H : (_ ← _; _) = Ok _ |- _ => apply bind_ok in H; destruct H as (? & ? & H)
    | H : check _ _ = Ok _ |- _ => apply check_ok in H
    | H : guard_else _ _ = Ok _ |- _ => apply guard_ok in H
    end.

Lemma override_validated p a : OutputTokenPolicy_validate p = Ok tt ->
  a ∈ category_overrides p -> (0 < al_max_output_tokens a)%Z.
Proof.
  unfold OutputTokenPolicy_validate. intros H Ha. inv_checks.
  apply list_elem_of_In in Ha.
  rewrite forallb_forall in H0. specialize (H0 a Ha). bools. by apply Z.ltb_lt.
Qed.

Lemma filter_category_unique (l : list CategoryOutputTokenAllowance) c :
  NoDup (map al_category l) ->
  (length (List.filter (fun a => bool_decide (al_category a = c)) l) <= 1)%nat.
Proof.
  induction l as [|a l IH]; simpl; [lia|]. intros [Hn Hd]%NoDup_cons.
  case_bool_decide as E; simpl; [|auto].
  assert (List.filter (fun a => bool_decide (al_category a = c)) l = []) as ->; [|simpl; lia].
  destruct (List.filter _ l) as [|b r] eqn:Ef; [done|]. exfalso. apply Hn.
  assert (Hb : In b (List.filter (fun a => bool_decide (al_category a = c)) l)) by (rewrite Ef; by left).
  apply filter_In in Hb as [Hb Hc]. bools. rewrite E, <- Hc.
  apply list_elem_of_In, in_map, Hb.
Qed.
