(* ===== verification/Json.v ===== *)
(** * JSON text as the response validator parses it

    [json.loads(text, object_pairs_hook=_pairs, parse_constant=_constant,
    parse_int=Decimal, parse_float=Decimal)] of [validation/validator.py]: the
    scanner of CPython's [json] package, with numbers kept as decimals,
    repeated keys and the constants NaN and Infinity refused.  Nested
    containers recurse; [room] is the number of nested containers the
    interpreter's stack still has room for. *)
From S2P Require Import Prelude PyStr PyFloat PyDecimal Schemas.

(** A JSON value as Python holds it: what [response.json()] and pydantic's
    [JsonValue] give. *)
Inductive pyjson :=
| PJNull | PJBool (b : bool) | PJInt (z : Z) | PJFloat (f : float) | PJStr (s : pystr)
| PJArr (l : list pyjson) | PJObj (l : list (list N * pyjson)).

Inductive json :=
| JNull
| JBool (b : bool)
| JStr (s : pystr)
| JNum (d : decimal)
| JArr (l : list json)
| JObj (l : list (list N * json)).

Inductive json_error := JValueError | JArithmeticError | JRecursionError | JFuel.

#[export] Instance json_error_eq_dec : EqDecision json_error.
Proof. solve_decision. Defined.

Definition QUOTE : N := 34.
Definition BACKSLASH : N := 92.

(** The whitespace of JSON. *)
Definition jws (c : N) : bool := in_chars [32; 9; 10; 13]%N c.

Fixpoint skip_ws (s : pystr) : pystr :=
  match s with
  | c :: s' => if jws c then skip_ws s' else s
  | [] => []
  end.

(** ** Strings *)

Definition hex_digit (c : N) : option N :=
  if is_ascii_digit c then Some (c - 48)%N
  else if in_range 97 102 c then Some (c - 87)%N
  else if in_range 65 70 c then Some (c - 55)%N
  else None.

Definition hex4 (a b c d : N) : option N :=
  match hex_digit a, hex_digit b, hex_digit c, hex_digit d with
  | Some x, Some y, Some z, Some w => Some (((x * 16 + y) * 16 + z) * 16 + w)%N
  | _, _, _, _ => None
  end.

Definition simple_escape (e : N) : option N :=
  if in_chars (py "/\" ++ [QUOTE]) e then Some e
  else if (e =? 98)%N then Some 8%N
  else if (e =? 102)%N then Some 12%N
  else if (e =? 110)%N then Some 10%N
  else if (e =? 114)%N then Some 13%N
  else if (e =? 116)%N then Some 9%N
  else None.

Definition join_surrogates (hi lo : N) : N := (65536 + (hi - 55296) * 1024 + (lo - 56320))%N.

(** The string after its opening quote; [acc] holds the characters read, last
    first.  A high surrogate takes a following low surrogate with it. *)
Fixpoint scan_string (s acc : pystr) {struct s} : result json_error (pystr * pystr) :=
  match s with
  | [] => Raise JValueError
  | c :: s1 =>
      if (c =? QUOTE)%N then Ok (rev acc, s1)
      else if (c =? BACKSLASH)%N then
        match s1 with
        | [] => Raise JValueError
        | e :: s2 =>
            if (e =? 117)%N then
              match s2 with
              | h1 :: h2 :: h3 :: h4 :: s3 =>
                  match hex4 h1 h2 h3 h4 with
                  | None => Raise JValueError
                  | Some u =>
                      match s3 with
                      | b :: x :: l1 :: l2 :: l3 :: l4 :: s4 =>
                          if in_range 55296 56319 u && (b =? BACKSLASH)%N && (x =? 117)%N then
                            match hex4 l1 l2 l3 l4 with
                            | None => Raise JValueError
                            | Some v =>
                                if in_range 56320 57343 v
                                then scan_string s4 (join_surrogates u v :: acc)
                                else scan_string s3 (u :: acc)
                            end
                          else scan_string s3 (u :: acc)
                      | _ => scan_string s3 (u :: acc)
                      end
                  end
              | _ => Raise JValueError
              end
            else
              match simple_escape e with
              | Some d => scan_string s2 (d :: acc)
              | None => Raise JValueError
              end
        end
      else if (c <=? 31)%N then Raise JValueError
      else scan_string s1 (c :: acc)
  end.

(** ** Numbers *)

(** The digits at the front of [s]. *)
Fixpoint take_digits (s : pystr) : pystr * pystr :=
  match s with
  | c :: s' => if is_ascii_digit c then let '(d, r) := take_digits s' in (c :: d, r) else ([], s)
  | [] => ([], [])
  end.

(** [(\.[0-9]+)?] and [([eE][-+]?[0-9]+)?]; the value of an absent exponent is 0. *)
Definition take_fraction (s : pystr) : pystr * pystr :=
  match s with
  | c :: s1 =>
      if (c =? 46)%N then
        match take_digits s1 with
        | ([], _) => ([], s)
        | (d, r) => (d, r)
        end
      else ([], s)
  | [] => ([], s)
  end.

Definition take_exponent (s : pystr) : Z * pystr :=
  match s with
  | c :: s1 =>
      if in_chars (py "eE") c then
        let '(neg, s2) := match s1 with
                          | d :: s2 => if (d =? 45)%N then (true, s2)
                                       else if (d =? 43)%N then (false, s2) else (false, s1)
                          | [] => (false, s1)
                          end in
        match take_digits s2 with
        | ([], _) => (0%Z, s)
        | (d, r) => (if neg then (- Z.of_N (digits_value d))%Z else Z.of_N (digits_value d), r)
        end
      else (0%Z, s)
  | [] => (0%Z, s)
  end.

(** [Decimal(text)] is exact or raises [InvalidOperation]: the limits of the
    largest context of the C implementation. *)
Definition MAX_EMAX : Z := 999999999999999999.
Definition MIN_ETINY : Z := -1999999999999999997.

Definition new_decimal (neg : bool) (coef : N) (exp : Z) : result json_error decimal :=
  let adjusted := if (coef =? 0)%N then exp else (exp + Z.of_nat (ndigits coef) - 1)%Z in
  if (MIN_ETINY <=? exp)%Z && (adjusted <=? MAX_EMAX)%Z then Ok (mk_decimal neg coef exp)
  else Raise JArithmeticError.

Definition parse_number (s : pystr) : result json_error (json * pystr) :=
  let '(neg, s1) := match s with
                    | c :: s1 => if (c =? 45)%N then (true, s1) else (false, s)
                    | [] => (false, s)
                    end in
  match s1 with
  | [] => Raise JValueError
  | c :: s2 =>
      if negb (is_ascii_digit c) then Raise JValueError
      else
        let '(ds, s3) := if (c =? 48)%N then ([c], s2) else take_digits s1 in
        let '(frac, s4) := take_fraction s3 in
        let '(e, s5) := take_exponent s4 in
        d ← new_decimal neg (digits_value (ds ++ frac)) (e - Z.of_nat (length frac));
        Ok (JNum d, s5)
  end.

(** ** Values *)

(** [_pairs]: a repeated key is refused. *)
Definition pairs (items : list (list N * json)) : result json_error json :=
  if all_distinct (map fst items) then Ok (JObj items) else Raise JValueError.

Fixpoint parse_value (fuel room : nat) (s : pystr) {struct fuel} : result json_error (json * pystr) :=
  match fuel with
  | O => Raise JFuel
  | S n =>
      match s with
      | [] => Raise JValueError
      | c :: s1 =>
          if (c =? QUOTE)%N then kr ← scan_string s1 []; Ok (JStr kr.1, kr.2)
          else if (c =? 123)%N then
            match room with
            | O => Raise JRecursionError
            | S room' =>
                match skip_ws s1 with
                | [] => Raise JValueError
                | d :: s2 =>
                    if (d =? 125)%N then Ok (JObj [], s2) else parse_members n room' (d :: s2) []
                end
            end
          else if (c =? 91)%N then
            match room with
            | O => Raise JRecursionError
            | S room' =>
                match skip_ws s1 with
                | [] => Raise JValueError
                | d :: s2 =>
                    if (d =? 93)%N then Ok (JArr [], s2) else parse_elements n room' (d :: s2) []
                end
            end
          else if startswith s (py "null") then Ok (JNull, skipn 4 s)
          else if startswith s (py "true") then Ok (JBool true, skipn 4 s)
          else if startswith s (py "false") then Ok (JBool false, skipn 5 s)
          else if startswith s (py "NaN") || startswith s (py "Infinity") || startswith s (py "-Infinity")
               then Raise JValueError
          else parse_number s
      end
  end
with parse_elements (fuel room : nat) (s : pystr) (acc : list json) {struct fuel} :
    result json_error (json * pystr) :=
  match fuel with
  | O => Raise JFuel
  | S n =>
      vr ← parse_value n room s;
      match skip_ws vr.2 with
      | [] => Raise JValueError
      | d :: r =>
          if (d =? 93)%N then Ok (JArr (rev (vr.1 :: acc)), r)
          else if (d =? 44)%N then parse_elements n room (skip_ws r) (vr.1 :: acc)
          else Raise JValueError
      end
  end
with parse_members (fuel room : nat) (s : pystr) (acc : list (list N * json)) {struct fuel} :
    result json_error (json * pystr) :=
  match fuel with
  | O => Raise JFuel
  | S n =>
      match s with
      | [] => Raise JValueError
      | c :: s1 =>
          if negb (c =? QUOTE)%N then Raise JValueError
          else
            kr ← scan_string s1 [];
            match skip_ws kr.2 with
            | [] => Raise JValueError
            | d :: r1 =>
                if negb (d =? 58)%N then Raise JValueError
                else
                  vr ← parse_value n room (skip_ws r1);
                  match skip_ws vr.2 with
                  | [] => Raise JValueError
                  | d :: r2 =>
                      if (d =? 125)%N then o ← pairs (rev ((kr.1, vr.1) :: acc)); Ok (o, r2)
                      else if (d =? 44)%N then parse_members n room (skip_ws r2) ((kr.1, vr.1) :: acc)
                      else Raise JValueError
                  end
            end
      end
  end.

(** Two steps per character are enough. *)
Definition json_fuel (s : pystr) : nat := 2 * length s + 2.

Definition json_loads (room : nat) (text : pystr) : result json_error json :=
  if startswith text [65279%N] then Raise JValueError
  else
    vr ← parse_value (json_fuel text) room (skip_ws text);
    match skip_ws vr.2 with
    | [] => Ok vr.1
    | _ => Raise JValueError
    end.

(** Nesting of containers. *)
Fixpoint depth (v : json) : nat :=
  match v with
  | JArr l => S (fold_right (fun x n => Nat.max (depth x) n) 0 l)
  | JObj l => S (fold_right (fun kx n => Nat.max (depth kx.2) n) 0 l)
  | _ => 0
  end.

(** ** What the scanners consume *)

(** Outside strings, every token other than a bracket or a string is made of
    plain characters. *)
Definition plain (c : N) : bool := negb (in_chars ([QUOTE; BACKSLASH] ++ py "[{]}") c).

Inductive string_piece : pystr -> Prop :=
| SP_char c : c <> QUOTE -> c <> BACKSLASH -> string_piece [c]
| SP_escape e hs : Forall (fun h => h <> QUOTE /\ h <> BACKSLASH) hs ->
    string_piece (BACKSLASH :: e :: hs).

Lemma hex_digit_plain c x : hex_digit c = Some x -> c <> QUOTE /\ c <> BACKSLASH.
Proof.
  unfold hex_digit. intros H. split; intros ->; vm_compute in H; discriminate.
Qed.

Lemma hex4_plain a b c d x : hex4 a b c d = Some x ->
  Forall (fun h => h <> QUOTE /\ h <> BACKSLASH) [a; b; c; d].
Proof.
  unfold hex4. intros H.
  destruct (hex_digit a) eqn:Ea, (hex_digit b) eqn:Eb, (hex_digit c) eqn:Ec, (hex_digit d) eqn:Ed;
    try discriminate.
  repeat constructor; by eapply hex_digit_plain.
Qed.

Lemma scan_string_pieces s acc v r : scan_string s acc = Ok (v, r) ->
  exists ps, Forall string_piece ps /\ s = concat ps ++ QUOTE :: r.
Proof.
  remember (length s) as n eqn:Hn. revert s Hn acc.
  induction (lt_wf n) as [n _ IH]. intros s Hn acc H.
  assert (Step : forall ps s' acc', s = concat ps ++ s' -> Forall string_piece ps ->
    (length s' < n)%nat -> scan_string s' acc' = Ok (v, r) ->
    exists ps, Forall string_piece ps /\ s = concat ps ++ QUOTE :: r).
  { intros ps s' acc' -> Hps Hl H'. destruct (IH _ Hl s' eq_refl _ H') as (qs & Hq & ->).
    exists (ps ++ qs). split; [by apply Forall_app|]. by rewrite concat_app, <- app_assoc. }
  destruct s as [|c s1]; [discriminate|]. cbn [scan_string] in H. simpl in Hn.
  destruct (N.eqb_spec c QUOTE) as [->|Hq]; [inv_result; by exists []|].
  destruct (N.eqb_spec c BACKSLASH) as [->|Hb].
  - destruct s1 as [|e s2]; [discriminate|]. simpl in Hn. destruct (e =? 117)%N.
    + destruct s2 as [|h1 [|h2 [|h3 [|h4 s3]]]]; try discriminate. simpl in Hn.
      destruct (hex4 h1 h2 h3 h4) as [u|] eqn:E4; [|discriminate].
      apply hex4_plain in E4 as P4.
      assert (One : scan_string s3 (u :: acc) = Ok (v, r) ->
        exists ps, Forall string_piece ps /\ BACKSLASH :: e :: h1 :: h2 :: h3 :: h4 :: s3 = concat ps ++ QUOTE :: r).
      { apply (Step [[BACKSLASH; e; h1; h2; h3; h4]]); [done| |lia].
        constructor; [by constructor|constructor]. }
      destruct s3 as [|b [|x [|l1 [|l2 [|l3 [|l4 s4]]]]]]; try (by apply One).
      destruct (in_range 55296 56319 u && (b =? BACKSLASH)%N && (x =? 117)%N) eqn:Eu; [|by apply One].
      destruct (hex4 l1 l2 l3 l4) as [w|] eqn:El; [|discriminate].
      destruct (in_range 56320 57343 w); [|by apply One].
      bools. apply N.eqb_eq in H2 as ->. apply hex4_plain in El.
      apply (Step [[BACKSLASH; e; h1; h2; h3; h4]; [BACKSLASH; x; l1; l2; l3; l4]] s4
        (join_surrogates u w :: acc) eq_refl); [|simpl in Hn; lia|done].
      constructor; [by constructor|]. constructor; [by constructor|constructor].
    + destruct (simple_escape e) as [d|]; [|discriminate].
      apply (Step [[BACKSLASH; e]] s2 (d :: acc)); [done| |lia|done]. by repeat constructor.
  - destruct (c <=? 31)%N; [discriminate|].
    apply (Step [[c]] s1 (c :: acc)); [done| |lia|done]. constructor; [by constructor|constructor].
Qed.

Lemma skip_ws_split s : exists ws, s = ws ++ skip_ws s /\ Forall (fun c => plain c = true) ws.
Proof.
  induction s as [|c s IH]; [by exists []|]. simpl. destruct (jws c) eqn:E; [|by exists []].
  destruct IH as (ws & Hs & Hw). exists (c :: ws). split; [simpl; by f_equal|].
  constructor; [|done]. unfold jws, in_chars in E. simpl in E.
  repeat (apply orb_true_iff in E as [E|E]); try discriminate; apply N.eqb_eq in E as ->; by vm_compute.
Qed.

Lemma skip_ws_length s : (length (skip_ws s) <= length s)%nat.
Proof. destruct (skip_ws_split s) as (ws & E & _). rewrite E at 2. rewrite length_app. lia. Qed.

Lemma digit_plain c : is_ascii_digit c = true -> plain c = true.
Proof.
  unfold is_ascii_digit, in_range, plain, in_chars. intros H. bools. apply N.leb_le in H, H0.
  apply negb_true_iff. cbn [existsb app py map list_ascii_of_string].
  repeat (apply orb_false_iff; split); try done; apply N.eqb_neq; vm_compute N_of_ascii; unfold QUOTE, BACKSLASH; lia.
Qed.

Definition consumes (s r : pystr) : Prop :=
  exists tok, s = tok ++ r /\ Forall (fun c => plain c = true) tok.

Lemma consumes_refl s : consumes s s.
Proof. by exists []. Qed.

Lemma consumes_trans s r t : consumes s r -> consumes r t -> consumes s t.
Proof.
  intros (a & -> & Ha) (b & -> & Hb). exists (a ++ b). rewrite app_assoc. split; [done|by apply Forall_app].
Qed.

Lemma consumes_cons c s : plain c = true -> consumes (c :: s) s.
Proof. intros. exists [c]. split; [done|by constructor]. Qed.

Lemma consumes_length s r : consumes s r -> (length r <= length s)%nat.
Proof. intros (t & -> & _). rewrite length_app. lia. Qed.

Lemma take_digits_consumes s d r : take_digits s = (d, r) -> consumes s r.
Proof.
  revert d. induction s as [|c s IH]; simpl; intros d H; [inv_result; apply consumes_refl|].
  destruct (is_ascii_digit c) eqn:E; [|inv_result; apply consumes_refl].
  destruct (take_digits s) as [d' r'] eqn:Ed. inv_result.
  eapply consumes_trans; [apply consumes_cons; by apply digit_plain|by eapply IH].
Qed.

Lemma take_fraction_consumes s d r : take_fraction s = (d, r) -> consumes s r.
Proof.
  unfold take_fraction. destruct s as [|c s]; [intros; inv_result; apply consumes_refl|].
  destruct (N.eqb_spec c 46) as [->|]; [|intros; inv_result; apply consumes_refl].
  destruct (take_digits s) as [[|d0 ds] r'] eqn:E; intros; inv_result; [apply consumes_refl|].
  eapply consumes_trans; [by apply (consumes_cons 46%N)|by eapply take_digits_consumes].
Qed.

Lemma in_chars_plain cs c : in_chars cs c = true -> forallb plain cs = true -> plain c = true.
Proof.
  unfold in_chars. rewrite existsb_exists, forallb_forall. intros (d & Hd & ->%N.eqb_eq) H. by apply H.
Qed.

Lemma take_exponent_consumes s e r : take_exponent s = (e, r) -> consumes s r.
Proof.
  unfold take_exponent. destruct s as [|c s]; [intros; inv_result; apply consumes_refl|].
  destruct (in_chars (py "eE") c) eqn:Ec; [|intros; inv_result; apply consumes_refl].
  apply in_chars_plain in Ec; [|by vm_compute].
  destruct (match s with [] => _ | _ => _ end) as [neg s2] eqn:Es.
  assert (Hs : consumes s s2).
  { destruct s as [|d s']; [inv_result; apply consumes_refl|].
    destruct (N.eqb_spec d 45) as [->|]; [inv_result; by apply consumes_cons|].
    destruct (N.eqb_spec d 43) as [->|]; [inv_result; by apply consumes_cons|].
    inv_result. apply consumes_refl. }
  destruct (take_digits s2) as [[|d ds] r'] eqn:E; intros; inv_result; [apply consumes_refl|].
  eapply consumes_trans; [by apply consumes_cons|].
  eapply consumes_trans; [exact Hs|by eapply take_digits_consumes].
Qed.

Lemma parse_number_consumes s v r : parse_number s = Ok (v, r) ->
  (length r < length s)%nat /\ consumes s r /\ exists d, v = JNum d.
Proof.
  unfold parse_number. intros H.
  destruct (match s with [] => _ | _ => _ end) as [neg s1] eqn:Es.
  assert (Hs : consumes s s1).
  { destruct s as [|d s']; [inv_result; apply consumes_refl|].
    destruct (N.eqb_spec d 45) as [->|]; inv_result; [by apply consumes_cons|apply consumes_refl]. }
  destruct s1 as [|c s2]; [discriminate|].
  destruct (is_ascii_digit c) eqn:Ec; cbn [negb] in H; [|discriminate].
  destruct (if (c =? 48)%N then _ else _) as [ds s3] eqn:E3.
  destruct (take_fraction s3) as [frac s4] eqn:E4. destruct (take_exponent s4) as [e s5] eqn:E5.
  apply bind_ok in H as (d & _ & H). inv_result.
  assert (H3 : consumes s2 s3).
  { destruct (c =? 48)%N; [inv_result; apply consumes_refl|]. simpl in E3. rewrite Ec in E3.
    destruct (take_digits s2) as [d' r'] eqn:Ed. inv_result. by eapply take_digits_consumes. }
  assert (H5 : consumes s2 r).
  { eapply consumes_trans; [exact H3|]. eapply consumes_trans; [by eapply take_fraction_consumes|].
    by eapply take_exponent_consumes. }
  split; [|split; [|by eexists]].
  - apply consumes_length in Hs, H5. simpl in Hs. lia.
  - eapply consumes_trans; [exact Hs|]. eapply consumes_trans; [by apply consumes_cons, digit_plain|done].
Qed.

Lemma parse_number_raise s e : parse_number s = Raise e -> e = JValueError \/ e = JArithmeticError.
Proof.
  unfold parse_number, new_decimal. intros H.
  destruct (match s with [] => _ | _ => _ end) as [neg s1].
  destruct s1 as [|c s2]; [inv_result; auto|]. destruct (negb _); [inv_result; auto|].
  destruct (if (c =? 48)%N then _ else _) as [ds s3].
  destruct (take_fraction s3) as [frac s4]. destruct (take_exponent s4) as [e' s5].
  cbn [mbind result_mbind] in H. apply bind_raise in H as [H|(d & _ & H)]; [|discriminate].
  destruct (_ && _); inv_result. auto.
Qed.

Lemma scan_string_shorter s acc v r : scan_string s acc = Ok (v, r) -> (length r < length s)%nat.
Proof. intros H. apply scan_string_pieces in H as (ps & _ & ->). rewrite length_app. simpl. lia. Qed.

Lemma scan_string_raise s acc e : scan_string s acc = Raise e -> e = JValueError.
Proof.
  remember (length s) as n eqn:Hn. revert s Hn acc.
  induction (lt_wf n) as [n _ IH]. intros s Hn acc H.
  destruct s as [|c s1]; cbn [scan_string] in H; [by inv_result|]. simpl in Hn.
  destruct (c =? QUOTE)%N; [discriminate|].
  destruct (c =? BACKSLASH)%N.
  - destruct s1 as [|x s2]; [by inv_result|]. simpl in Hn.
    destruct (x =? 117)%N.
    + destruct s2 as [|h1 [|h2 [|h3 [|h4 s3]]]]; try by inv_result. simpl in Hn.
      destruct (hex4 h1 h2 h3 h4); [|by inv_result].
      destruct s3 as [|b [|y [|l1 [|l2 [|l3 [|l4 s4]]]]]];
        try (eapply IH; [|reflexivity|exact H]; simpl in *; lia).
      destruct (_ && _); [|eapply IH; [|reflexivity|exact H]; simpl in *; lia].
      destruct (hex4 l1 l2 l3 l4); [|by inv_result].
      destruct (in_range _ _ _); (eapply IH; [|reflexivity|exact H]; simpl in *; lia).
    + destruct (simple_escape x); [|by inv_result]. eapply IH; [|reflexivity|exact H]. lia.
  - destruct (c <=? 31)%N; [by inv_result|]. eapply IH; [|reflexivity|exact H]. lia.
Qed.

Lemma startswith_skipn s p : startswith s p = true ->
  s = p ++ skipn (length p) s.
Proof. rewrite startswith_app. intros (r & ->). by rewrite drop_app_length. Qed.

(** ** Termination, nesting and the room of the stack *)

Lemma depth_arr l n : Forall (fun x => (depth x <= n)%nat) l -> (depth (JArr l) <= S n)%nat.
Proof. intros H. cbn [depth]. apply le_n_S. induction H; simpl; lia. Qed.

Lemma depth_obj l n : Forall (fun kx : list N * json => (depth kx.2 <= n)%nat) l -> (depth (JObj l) <= S n)%nat.
Proof. intros H. cbn [depth]. apply le_n_S. induction H; simpl; lia. Qed.

(** What a run of a parser on [s] promises, [need] being the fuel that is
    enough, [good] what holds of its result and [again] its run with more room. *)
Definition run_ok (fuel need : nat) (s : pystr) (good : json -> Prop)
    (again : nat -> result json_error (json * pystr)) (room : nat)
    (out : result json_error (json * pystr)) : Prop :=
  match out with
  | Ok (v, r) => (length r < length s)%nat /\ good v /\ forall room', (room <= room')%nat -> again room' = out
  | Raise JFuel => (fuel < need)%nat
  | Raise JRecursionError => True
  | Raise e => forall room', (room <= room')%nat -> again room' = out
  end.

Lemma run_ok_error fuel need s good again room e :
  e = JValueError \/ e = JArithmeticError ->
  (forall room', (room <= room')%nat -> again room' = Raise e) ->
  run_ok fuel need s good again room (Raise e).
Proof. intros [-> | ->] H; exact H. Qed.

(** Runs after a prefix: a run on a suffix is a run of the whole. *)
Lemma run_ok_weaken fuel need fuel' need' s s' good good' again again' room room2 out :
  run_ok fuel need s good again room out ->
  (forall v, good v -> good' v) -> (length s <= length s')%nat ->
  (need' <= fuel' -> need <= fuel)%nat ->
  (forall k, (room2 <= k)%nat -> exists k', (room <= k')%nat /\ again' k = again k') ->
  run_ok fuel' need' s' good' again' room2 out.
Proof.
  intros H Hg Hl Hn Ha.
  assert (A : (forall room', (room <= room')%nat -> again room' = out) ->
              forall room', (room2 <= room')%nat -> again' room' = out).
  { intros A k Hk. destruct (Ha k Hk) as (k' & Hk' & ->). auto. }
  destruct out as [[v r]|[]]; cbn [run_ok] in *; auto; [|lia].
  destruct H as (H1 & H2 & H3). split; [lia|]. auto.
Qed.

(** The rest of a container after one of its values. *)
Lemma run_ok_bind fuel need fuel' need' s s' good good' again room room2 out k ag :
  run_ok fuel need s good again room out ->
  (length s <= length s')%nat -> (need' <= fuel' -> need <= fuel)%nat ->
  (forall j, (room2 <= j)%nat -> exists j', (room <= j')%nat /\ ag j = (vr ← again j'; k j vr)) ->
  (forall v r, out = Ok (v, r) -> (length r < length s)%nat -> good v ->
     run_ok fuel' need' s' good' (fun j => k j (v, r)) room2 (k room2 (v, r))) ->
  run_ok fuel' need' s' good' ag room2 (vr ← out; k room2 vr).
Proof.
  intros H Hl Hn Ha Hk.
  destruct out as [[v r]|e].
  - cbn [run_ok] in H. destruct H as (H1 & H2 & H3). specialize (Hk v r eq_refl H1 H2). rsimpl.
    assert (A : forall j, (room2 <= j)%nat -> ag j = k j (v, r)).
    { intros j Hj. destruct (Ha j Hj) as (j' & Hj' & ->). by rewrite H3. }
    destruct (k room2 (v, r)) as [[w q]|[]] eqn:E; cbn [run_ok] in *; auto;
      try (intros j Hj; rewrite A by done; by apply Hk).
    destruct Hk as (Q1 & Q2 & Q3). split; [done|]. split; [done|].
    intros j Hj. rewrite A by done. by apply Q3.
  - rsimpl. destruct e; cbn [run_ok] in *; auto; try lia;
      intros j Hj; destruct (Ha j Hj) as (j' & Hj' & ->); by rewrite H.
Qed.

Definition value_ok (fuel room : nat) (s : pystr) : Prop :=
  run_ok fuel (2 * length s + 1) s (fun v => (depth v <= room)%nat)
    (fun k => parse_value fuel k s) room (parse_value fuel room s).

Definition elements_ok (fuel room : nat) (s : pystr) : Prop := forall acc,
  Forall (fun x => (depth x <= room)%nat) acc ->
  run_ok fuel (2 * length s + 2) s (fun v => (depth v <= S room)%nat)
    (fun k => parse_elements fuel k s acc) room (parse_elements fuel room s acc).

Definition members_ok (fuel room : nat) (s : pystr) : Prop := forall acc,
  Forall (fun kx : list N * json => (depth kx.2 <= room)%nat) acc ->
  run_ok fuel (2 * length s + 2) s (fun v => (depth v <= S room)%nat)
    (fun k => parse_members fuel k s acc) room (parse_members fuel room s acc).

Ltac plain_error := apply run_ok_error; [auto|done].

Lemma elements_step n room s :
  value_ok n room s -> (forall s', (length s' < length s)%nat -> elements_ok n room s') ->
  elements_ok (S n) room s.
Proof.
  intros Hv He acc Hacc. cbn [parse_elements].
  eapply (run_ok_bind n (2 * length s + 1) _ _ s s _ _ _ room room _
    (fun room vr => match skip_ws vr.2 with
      | [] => Raise JValueError
      | d :: r => if (d =? 93)%N then Ok (JArr (rev (vr.1 :: acc)), r)
                  else if (d =? 44)%N then parse_elements n room (skip_ws r) (vr.1 :: acc)
                  else Raise JValueError end)); [exact Hv|lia|lia| |].
  { intros j Hj. exists j. split; [done|]. done. }
  intros v r _ Hl Hd. cbn [fst snd]. pose proof (skip_ws_length r) as Hw.
  destruct (skip_ws r) as [|d r'] eqn:Er; [plain_error|]. simpl in Hw.
  destruct (d =? 93)%N.
  - cbn [run_ok]. split; [lia|]. split; [|done]. apply depth_arr, Forall_rev. by constructor.
  - destruct (d =? 44)%N; [|plain_error]. pose proof (skip_ws_length r').
    eapply run_ok_weaken; [apply (He (skip_ws r')); [lia|by constructor]|auto|lia|lia|].
    intros k Hk. by exists k.
Qed.

Lemma pairs_run fuel need s r room l : (length r < length s)%nat ->
  Forall (fun kx : list N * json => (depth kx.2 <= room)%nat) l ->
  run_ok fuel need s (fun v => (depth v <= S room)%nat)
    (fun _ => o ← pairs l; Ok (o, r)) room (o ← pairs l; Ok (o, r)).
Proof.
  intros Hl H. unfold pairs. destruct (all_distinct _); rsimpl; [|plain_error].
  cbn [run_ok]. split; [done|]. split; [by apply depth_obj|done].
Qed.

Lemma members_step n room s :
  (forall s', (length s' < length s)%nat -> value_ok n room s') ->
  (forall s', (length s' < length s)%nat -> members_ok n room s') ->
  members_ok (S n) room s.
Proof.
  intros Hv He acc Hacc. cbn [parse_members].
  destruct s as [|c s1]; [plain_error|]. destruct (negb (c =? QUOTE)%N); [plain_error|].
  destruct (scan_string s1 []) as [[key r0]|e] eqn:Es; rsimpl.
  2: { apply scan_string_raise in Es as ->. plain_error. }
  apply scan_string_shorter in Es. cbn [fst snd]. pose proof (skip_ws_length r0) as Hw.
  destruct (skip_ws r0) as [|d r1] eqn:Er0; [plain_error|]. simpl in Hw.
  destruct (negb (d =? 58)%N); [plain_error|]. pose proof (skip_ws_length r1) as Hw1.
  eapply (run_ok_bind n (2 * length (skip_ws r1) + 1) _ _ (skip_ws r1) (c :: s1) _ _ _ room room _
    (fun room vr => match skip_ws vr.2 with
      | [] => Raise JValueError
      | d :: r2 => if (d =? 125)%N then o ← pairs (rev ((key, vr.1) :: acc)); Ok (o, r2)
                  else if (d =? 44)%N then parse_members n room (skip_ws r2) ((key, vr.1) :: acc)
                  else Raise JValueError end)); [apply Hv; simpl; lia|simpl; lia|simpl; lia| |].
  { intros j Hj. exists j. split; [done|]. done. }
  intros v r _ Hl Hd. cbn [fst snd]. pose proof (skip_ws_length r) as Hw2.
  destruct (skip_ws r) as [|d2 r2] eqn:Er; [plain_error|]. simpl in Hw2.
  destruct (d2 =? 125)%N.
  - apply pairs_run; [simpl; lia|]. apply Forall_rev. by constructor.
  - destruct (d2 =? 44)%N; [|plain_error]. pose proof (skip_ws_length r2).
    eapply run_ok_weaken; [apply (He (skip_ws r2)); [simpl; lia|by constructor]|auto|simpl; lia|simpl; lia|].
    intros k Hk. by exists k.
Qed.

Lemma literal_run fuel room s p v : startswith s p = true -> (0 < length p)%nat ->
  (depth v <= room)%nat ->
  run_ok fuel (2 * length s + 1) s (fun v => (depth v <= room)%nat)
    (fun _ => Ok (v, skipn (length p) s)) room (Ok (v, skipn (length p) s)).
Proof.
  intros Hs Hp Hd. apply startswith_skipn in Hs. cbn [run_ok]. split; [|done].
  apply (f_equal length) in Hs. rewrite length_app in Hs. lia.
Qed.

Lemma value_step n room s :
  (forall room' s', room = S room' -> (length s' < length s)%nat ->
     elements_ok n room' s' /\ members_ok n room' s') ->
  value_ok (S n) room s.
Proof.
  intros Hc. unfold value_ok. cbn [parse_value].
  destruct s as [|c s1]; [plain_error|].
  destruct (c =? QUOTE)%N.
  { destruct (scan_string s1 []) as [[key r0]|e] eqn:Es; rsimpl.
    - apply scan_string_shorter in Es. cbn [run_ok fst snd]. split; [simpl; lia|]. split; [simpl; lia|done].
    - apply scan_string_raise in Es as ->. plain_error. }
  pose proof (skip_ws_length s1) as Hw.
  destruct (c =? 123)%N.
  { destruct room as [|room']; [done|].
    assert (R : forall k, (S room' <= k)%nat -> exists k', k = S k' /\ (room' <= k')%nat).
    { intros [|k] Hk; [lia|]. exists k. split; [done|lia]. }
    destruct (skip_ws s1) as [|d s2] eqn:E.
    { apply run_ok_error; [auto|]. intros k Hk. by destruct (R k Hk) as (k' & -> & _). }
    simpl in Hw. destruct (d =? 125)%N.
    { cbn [run_ok]. split; [simpl; lia|]. split; [simpl; lia|]. intros k Hk. by destruct (R k Hk) as (k' & -> & _). }
    destruct (Hc room' (d :: s2) eq_refl) as [_ Hm]; [simpl; lia|].
    eapply run_ok_weaken; [apply (Hm []); constructor|auto|simpl; lia|simpl; lia|].
    intros k Hk. destruct (R k Hk) as (k' & -> & Hk'). by exists k'. }
  destruct (c =? 91)%N.
  { destruct room as [|room']; [done|].
    assert (R : forall k, (S room' <= k)%nat -> exists k', k = S k' /\ (room' <= k')%nat).
    { intros [|k] Hk; [lia|]. exists k. split; [done|lia]. }
    destruct (skip_ws s1) as [|d s2] eqn:E.
    { apply run_ok_error; [auto|]. intros k Hk. by destruct (R k Hk) as (k' & -> & _). }
    simpl in Hw. destruct (d =? 93)%N.
    { cbn [run_ok]. split; [simpl; lia|]. split; [simpl; lia|]. intros k Hk. by destruct (R k Hk) as (k' & -> & _). }
    destruct (Hc room' (d :: s2) eq_refl) as [Hm _]; [simpl; lia|].
    eapply run_ok_weaken; [apply (Hm []); constructor|auto|simpl; lia|simpl; lia|].
    intros k Hk. destruct (R k Hk) as (k' & -> & Hk'). by exists k'. }
  destruct (startswith _ (py "null")) eqn:E1; [apply (literal_run _ _ _ (py "null")); simpl; auto; lia|].
  destruct (startswith _ (py "true")) eqn:E2; [apply (literal_run _ _ _ (py "true")); simpl; auto; lia|].
  destruct (startswith _ (py "false")) eqn:E3; [apply (literal_run _ _ _ (py "false")); simpl; auto; lia|].
  destruct (_ || _ || _); [plain_error|].
  destruct (parse_number (c :: s1)) as [[v r]|e] eqn:E.
  - apply parse_number_consumes in E as (Hl & _ & d & ->). cbn [run_ok]. split; [done|]. split; [simpl; lia|done].
  - apply parse_number_raise in E. apply run_ok_error; [auto|done].
Qed.

Lemma parse_ok fuel :
  (forall room s, value_ok fuel room s) /\ (forall room s, elements_ok fuel room s) /\
  (forall room s, members_ok fuel room s).
Proof.
  induction fuel as [|n (IHv & IHe & IHm)].
  - split; [|split]; intros room s; [|intros acc _..]; cbn [parse_value parse_elements parse_members run_ok]; unfold value_ok; cbn; lia.
  - split; [|split]; intros room s.
    + apply value_step. auto.
    + apply elements_step; auto.
    + apply members_step; auto.
Qed.

(** Parsing with its fuel always terminates. *)
Lemma json_loads_fuel room text : json_loads room text <> Raise JFuel.
Proof.
  unfold json_loads. destruct (startswith _ _); [done|].
  pose proof (proj1 (parse_ok (json_fuel text)) room (skip_ws text)) as H. unfold value_ok in H.
  pose proof (skip_ws_length text). unfold json_fuel in *.
  destruct (parse_value _ room (skip_ws text)) as [[v r]|[]]; rsimpl; cbn [run_ok] in H; try done; [|lia].
  cbn [fst snd]. by destruct (skip_ws r).
Qed.

(** A value that was read nests no deeper than the room, and the outcome does
    not depend on the room unless it ran out. *)
Lemma json_loads_room room room' text : (room <= room')%nat ->
  json_loads room text <> Raise JRecursionError -> json_loads room' text = json_loads room text.
Proof.
  intros Hr. unfold json_loads. destruct (startswith _ _); [done|].
  pose proof (proj1 (parse_ok (json_fuel text)) room (skip_ws text)) as H. unfold value_ok in H.
  pose proof (skip_ws_length text) as L. unfold json_fuel in *.
  destruct (parse_value _ room (skip_ws text)) as [[v r]|e]; rsimpl; cbn [run_ok] in H.
  - intros _. destruct H as (_ & _ & H). by rewrite (H _ Hr).
  - destruct e; intros Hne; try done; try (by rewrite (H _ Hr)). lia.
Qed.

Lemma json_loads_depth room text v : json_loads room text = Ok v -> (depth v <= room)%nat.
Proof.
  unfold json_loads. destruct (startswith _ _); [done|].
  pose proof (proj1 (parse_ok (json_fuel text)) room (skip_ws text)) as H. unfold value_ok in H.
  destruct (parse_value _ room (skip_ws text)) as [[w r]|e]; rsimpl; [|done].
  destruct H as (_ & H & _). cbn [fst snd]. destruct (skip_ws r); [|done]. intros. by inv_result.
Qed.
