(* ===== verification/PyRepr.v ===== *)
(** * Numbers and their text

    [Decimal(s)] of a string, [repr] of a float (which is its [str]), and that
    [Decimal(str(d))] gives back [d]. *)
From S2P Require Import Prelude PyStr PyFloat PyDecimal Json.

(** ** [Decimal(s)] *)

(** Underscores are dropped, decimal digits of other scripts become ASCII. *)
Fixpoint ascii_number `{UnicodeData} (s : pystr) : option pystr :=
  match s with
  | [] => Some []
  | c :: s' =>
      if (c =? 95)%N then ascii_number s'
      else
        r ← ascii_number s';
        if (0 <? c)%N && (c <=? 127)%N then Some (c :: r)
        else if is_space c then Some (32%N :: r)
        else d ← u_decimal c; Some ((48 + d)%N :: r)
  end.

Definition take_sign (s : pystr) : bool * pystr :=
  match s with
  | c :: r => if (c =? 45)%N then (true, r) else if (c =? 43)%N then (false, r) else (false, s)
  | [] => (false, s)
  end.

Definition take_point (s : pystr) : pystr * pystr :=
  match s with
  | c :: r => if (c =? 46)%N then take_digits r else ([], s)
  | [] => ([], s)
  end.

(** A finite decimal literal. *)
Definition decimal_literal (s : pystr) : option decimal :=
  let '(neg, s1) := take_sign s in
  let '(ds, s2) := take_digits s1 in
  let '(frac, s3) := take_point s2 in
  let '(e, s4) := take_exponent s3 in
  match ds ++ frac, s4 with
  | [], _ | _, _ :: _ => None
  | coef, [] =>
      match new_decimal neg (digits_value coef) (e - Z.of_nat (length frac)) with
      | Ok d => Some d
      | Raise _ => None
      end
  end.

(** [Decimal(s)] when it is finite; [None] stands for an exception, an infinity
    or a NaN. *)
Definition decimal_of_str `{UnicodeData} (s : pystr) : option decimal :=
  t ← ascii_number (strip s); decimal_literal t.

(** ** [repr(f)] *)

(** [n * 10^k] as a float. *)
Definition f_of_decade (n : Z) (k : Z) : float :=
  if (0 <=? k)%Z then f_of_ratio (n * Z.of_N (pow10 k)) 1
  else f_of_ratio n (Z.to_pos (Z.of_N (pow10 (- k)))).

(** The candidates with [k] as exponent of the last digit: the multiples of
    [10^k] around [num / den], the nearer first. *)
Definition repr_candidates (num den : Z) (k : Z) : list Z :=
  let '(a, b) := if (0 <=? k)%Z then (num, den * Z.of_N (pow10 k))%Z
                 else (num * Z.of_N (pow10 (- k)), den)%Z in
  let q := (a / b)%Z in
  let r := (a - q * b)%Z in
  match (2 * r ?= b)%Z with
  | Lt => [q; q + 1]
  | Gt => [q + 1; q]
  | Eq => if Z.even q then [q; q + 1] else [q + 1; q]
  end%Z.

(** The shortest digits that read back as [f], from [k] down. *)
Fixpoint repr_search (fuel : nat) (f : float) (num den : Z) (k : Z) : option (Z * Z) :=
  match fuel with
  | O => None
  | S fuel' =>
      match List.find (fun n => f_eqb (f_of_decade n k) f) (repr_candidates num den k) with
      | Some n => Some (n, k)
      | None => repr_search fuel' f num den (k - 1)
      end
  end.

(** The decimal exponent of the first digit of [num / den], or one more. *)
Definition decade_of (num den : Z) : Z :=
  (Z.of_nat (ndigits (Z.to_N num)) - Z.of_nat (ndigits (Z.to_N den)))%Z.

Definition float_digits (m : positive) (e : Z) : option (Z * Z) :=
  let num := if (0 <=? e)%Z then (Z.pos m * 2 ^ e)%Z else Z.pos m in
  let den := if (0 <=? e)%Z then 1%Z else (2 ^ (- e))%Z in
  repr_search 19 (S754_finite false m e) num den (decade_of num den).

(** [repr] writes up to sixteen integer digits before it uses an exponent. *)
Definition digits_repr (n k : Z) : pystr :=
  let digits := N_to_str (Z.to_N n) in
  let nd := Z.of_nat (length digits) in
  let decpt := (nd + k)%Z in
  let zeros j := repeat 48%N (Z.to_nat j) in
  if (-4 <? decpt)%Z && (decpt <=? 16)%Z then
    if (decpt <=? 0)%Z then py "0." ++ zeros (- decpt)%Z ++ digits
    else if (nd <=? decpt)%Z then digits ++ zeros (decpt - nd)%Z ++ py ".0"
    else firstn (Z.to_nat decpt) digits ++ py "." ++ skipn (Z.to_nat decpt) digits
  else
    let x := (decpt - 1)%Z in
    firstn 1 digits ++ (match skipn 1 digits with [] => [] | r => py "." ++ r end) ++ py "e" ++
    (if (x <? 0)%Z then py "-" else py "+") ++
    (if (Z.abs x <? 10)%Z then py "0" else []) ++ N_to_str (Z.abs_N x).

Definition float_repr (f : float) : pystr :=
  match f with
  | S754_nan => py "nan"
  | S754_infinity s => (if s then py "-" else []) ++ py "inf"
  | S754_zero s => (if s then py "-" else []) ++ py "0.0"
  | S754_finite s m e =>
      (if s then py "-" else []) ++
      match float_digits m e with Some (n, k) => digits_repr n k | None => [] end
  end.

Example repr_tenth : float_repr (f_of_ratio 1 10) = py "0.1".
Proof. vm_compute. reflexivity. Qed.
Example repr_third : float_repr (f_of_ratio 1 3) = py "0.3333333333333333".
Proof. vm_compute. reflexivity. Qed.
Example repr_large : float_repr (f_of_decade 1 16) = py "1e+16".
Proof. vm_compute. reflexivity. Qed.
Example repr_hundred : float_repr (f_of_Z 100) = py "100.0".
Proof. vm_compute. reflexivity. Qed.
Example repr_small : float_repr (f_of_ratio (-5) 100000) = py "-5e-05".
Proof. vm_compute. reflexivity. Qed.
(** A power of two, whose nearest sixteen digits do not read back. *)
Example repr_power : float_repr (f_of_ratio 1 (2 ^ 44)) = py "5.684341886080802e-14".
Proof. vm_compute. reflexivity. Qed.
Example repr_least : float_repr (S754_finite false 1 (-1074)) = py "5e-324".
Proof. vm_compute. reflexivity. Qed.

(** ** [Decimal(str(d)) == d] *)

Definition number_char (c : N) : bool := is_ascii_digit c || in_chars (py "+-.E") c.

Lemma number_char_plain c : number_char c = true ->
  (c =? 95)%N = false /\ ((0 <? c)%N && (c <=? 127)%N) = true /\ is_space c = false.
Proof.
  intros H. assert (D : (48 <= c <= 57 \/ c = 43 \/ c = 45 \/ c = 46 \/ c = 69)%N).
  { revert H. unfold number_char, is_ascii_digit, in_range, in_chars. cbn [existsb py]. cbn -[N.eqb N.leb].
    intros H. rewrite !orb_true_iff, andb_true_iff, !N.leb_le, !N.eqb_eq in H. intuition lia. }
  clear H. split; [apply N.eqb_neq; lia|]. split; [apply andb_true_iff; rewrite N.ltb_lt, N.leb_le; lia|].
  unfold is_space, in_range. apply not_true_iff_false. rewrite !orb_true_iff, !andb_true_iff, !N.leb_le, !N.eqb_eq. lia.
Qed.

Lemma ascii_number_id `{UnicodeData} s : forallb number_char s = true -> ascii_number s = Some s.
Proof.
  induction s as [|c s IH]; [done|]. cbn [forallb ascii_number]. intros Hs. bools.
  destruct (number_char_plain c) as (E1 & E2 & _); [done|]. rewrite E1, IH by done. cbn. by rewrite E2.
Qed.

Lemma lstrip_id s : forallb number_char s = true -> lstrip_by is_space s = s.
Proof.
  destruct s as [|c s]; [done|]. cbn. intros Hs. bools. by destruct (number_char_plain c) as (_ & _ & ->).
Qed.

Lemma strip_id s : forallb number_char s = true -> strip s = s.
Proof.
  intros Hs. unfold strip, lstrip, rstrip, rstrip_by. rewrite (lstrip_id s) by done.
  rewrite lstrip_id, rev_involutive; [done|]. by rewrite forallb_rev.
Qed.

(** *** Reading the parts *)

Definition no_digit (s : pystr) : Prop := match s with c :: _ => is_ascii_digit c = false | [] => True end.

Lemma take_digits_app ds s : forallb is_ascii_digit ds = true -> no_digit s -> take_digits (ds ++ s) = (ds, s).
Proof.
  intros Hd Hs. induction ds as [|c ds IH]; cbn [app take_digits].
  - destruct s as [|c s]; [done|]. cbn [take_digits]. cbn in Hs. by rewrite Hs.
  - cbn in Hd. bools. rewrite H. by rewrite IH.
Qed.

Lemma digits_value_zeros n ds : digits_value (repeat 48%N n ++ ds) = digits_value ds.
Proof. unfold digits_value. rewrite fold_left_app. f_equal. induction n as [|n IH]; [done|]. exact IH. Qed.

(** What an exponent of [str] looks like. *)
Definition exponent_text (x : Z) : pystr :=
  py "E" ++ (if (x <? 0)%Z then [] else py "+") ++ Z_to_str x.

Lemma take_exponent_text x : take_exponent (exponent_text x) = (x, []).
Proof.
  unfold exponent_text, take_exponent, Z_to_str. change (py "E") with [69%N]. cbn [app].
  replace (in_chars (py "eE") 69) with true by done. destruct (x <? 0)%Z eqn:E; bools.
  - change (py "-") with [45%N]. cbn [app]. cbn [N.eqb Pos.eqb].
    pose proof (take_digits_app (N_to_str (Z.to_N (- x))) [] (N_to_str_digits _) I) as T.
    rewrite app_nil_r in T. rewrite T.
    pose proof (N_to_str_length_pos (Z.to_N (- x))) as L. pose proof (N_to_str_value (Z.to_N (- x))) as V.
    destruct (N_to_str (Z.to_N (- x))) as [|c r]; [cbn in L; lia|]. rewrite V. f_equal. lia.
  - change (py "+") with [43%N]. cbn [app]. cbn [N.eqb Pos.eqb].
    pose proof (take_digits_app (N_to_str (Z.to_N x)) [] (N_to_str_digits _) I) as T.
    rewrite app_nil_r in T. rewrite T.
    pose proof (N_to_str_length_pos (Z.to_N x)) as L. pose proof (N_to_str_value (Z.to_N x)) as V.
    destruct (N_to_str (Z.to_N x)) as [|c r]; [cbn in L; lia|]. rewrite V. f_equal. lia.
Qed.

(** The text of a literal with a non-empty integer part. *)
Definition literal_text (neg : bool) (ip : pystr) (fp : option pystr) (x : Z) : pystr :=
  (if neg then py "-" else []) ++ ip ++ (match fp with Some f => py "." ++ f | None => [] end) ++
  (if (x =? 0)%Z then [] else exponent_text x).

Lemma exponent_part x : take_exponent (if (x =? 0)%Z then [] else exponent_text x) = (x, []).
Proof. destruct (x =? 0)%Z eqn:E; [bools; by subst x|apply take_exponent_text]. Qed.

Lemma exponent_no_digit x : no_digit (if (x =? 0)%Z then [] else exponent_text x).
Proof. by destruct (x =? 0)%Z. Qed.

Lemma decimal_literal_text neg ip fp x :
  forallb is_ascii_digit ip = true -> forallb is_ascii_digit (default [] fp) = true -> ip <> [] ->
  decimal_literal (literal_text neg ip fp x) =
  match new_decimal neg (digits_value (ip ++ default [] fp)) (x - Z.of_nat (length (default [] fp))) with
  | Ok d => Some d
  | Raise _ => None
  end.
Proof.
  intros Hi Hf Hn. unfold decimal_literal, literal_text.
  set (rest := (match fp with Some f => py "." ++ f | None => [] end) ++ (if (x =? 0)%Z then [] else exponent_text x)).
  assert (S : take_sign ((if neg then py "-" else []) ++ ip ++ rest) = (neg, ip ++ rest)).
  { destruct neg; [done|]. destruct ip as [|c ip]; [done|]. cbn in Hi. bools. cbn.
    unfold is_ascii_digit, in_range in H. rewrite andb_true_iff, !N.leb_le in H.
    replace (c =? 45)%N with false by (symmetry; apply N.eqb_neq; lia).
    by replace (c =? 43)%N with false by (symmetry; apply N.eqb_neq; lia). }
  rewrite S. cbv beta iota zeta. rewrite take_digits_app; [|done|].
  2: { subst rest. destruct fp; [done|apply exponent_no_digit]. }
  assert (P : take_point rest = (default [] fp, if (x =? 0)%Z then [] else exponent_text x)).
  { subst rest. destruct fp as [f|].
    - change (py ".") with [46%N]. cbn [app take_point]. cbn [N.eqb Pos.eqb].
      apply take_digits_app; [done|apply exponent_no_digit].
    - cbn [app default]. by destruct (x =? 0)%Z. }
  rewrite P. cbv beta iota zeta. rewrite exponent_part. cbv beta iota zeta.
  destruct (ip ++ default [] fp) as [|c l] eqn:E; [|done]. by apply app_eq_nil in E as [-> _].
Qed.

(** [str(d)] in the shape of a literal. *)
Lemma d_str_literal d : exists ip fp x, d_str d = literal_text (d_neg d) ip fp x /\
  forallb is_ascii_digit ip = true /\ forallb is_ascii_digit (default [] fp) = true /\ ip <> [] /\
  digits_value (ip ++ default [] fp) = d_coef d /\ (x - Z.of_nat (length (default [] fp)) = d_exp d)%Z.
Proof.
  unfold d_str. set (digits := N_to_str (d_coef d)). set (n := Z.of_nat (length digits)).
  set (left := (d_exp d + n)%Z).
  set (dot := if (d_exp d <=? 0)%Z && (-6 <? left)%Z then left else 1%Z).
  pose proof (N_to_str_digits (d_coef d)) as Hd. pose proof (N_to_str_value (d_coef d)) as Hv.
  pose proof (N_to_str_length_pos (d_coef d)) as Hl. fold digits in Hd, Hv, Hl. fold digits.
  assert (X : (if (left =? dot)%Z then [] else py "E" ++ (if (left <? dot)%Z then [] else py "+") ++ Z_to_str (left - dot)) =
              (if (left - dot =? 0)%Z then [] else exponent_text (left - dot))).
  { unfold exponent_text. replace (left - dot =? 0)%Z with (left =? dot)%Z by lia.
    by replace (left - dot <? 0)%Z with (left <? dot)%Z by lia. }
  rewrite X. clear X. cbv zeta. fold dot.
  assert (Hz : forall k, forallb is_ascii_digit (repeat 48%N k) = true) by (induction k; done).
  destruct (dot <=? 0)%Z eqn:E1; [|destruct (n <=? dot)%Z eqn:E2]; bools.
  - assert (dot = left) by (subst dot; destruct (_ && _); lia).
    exists [48%N], (Some (repeat 48%N (Z.to_nat (- dot)) ++ digits)), (left - dot)%Z.
    split; [done|]. cbn [from_option id]. split; [done|]. split; [rewrite forallb_app, Hz; exact Hd|]. split; [done|].
    split; [rewrite <- Hv; exact (digits_value_zeros (S (Z.to_nat (- dot))) digits)|].
    rewrite length_app, repeat_length. subst n. lia.
  - assert (Z.to_nat (dot - n) = 0%nat) as ->.
    { subst dot. destruct ((d_exp d <=? 0)%Z && _) eqn:E; bools; lia. }
    exists digits, None, (left - dot)%Z. cbn [from_option id length repeat].
    split; [unfold literal_text; by rewrite app_nil_r|].
    split; [done|]. split; [done|]. split; [by destruct digits; [cbn in Hl; lia|]|].
    rewrite app_nil_r. split; [done|]. subst dot left n. destruct ((d_exp d <=? 0)%Z && _) eqn:E; bools; lia.
  - exists (firstn (Z.to_nat dot) digits), (Some (skipn (Z.to_nat dot) digits)), (left - dot)%Z. cbn [from_option id].
    rewrite <- (firstn_skipn (Z.to_nat dot) digits) in Hd. rewrite forallb_app in Hd. bools.
    split; [unfold literal_text; by rewrite <- !app_assoc|]. split; [done|]. split; [done|].
    split. { intros F. apply (f_equal length) in F. rewrite length_firstn in F. change (length (@nil N)) with 0%nat in F. lia. }
    rewrite firstn_skipn. split; [done|]. rewrite length_skipn. subst left n. lia.
Qed.

(** A finite value of the decimal type: its exponent is within the limits. *)
Definition d_in_range (d : decimal) : bool :=
  is_ok (new_decimal (d_neg d) (d_coef d) (d_exp d)).

Lemma d_str_number_chars d : forallb number_char (d_str d) = true.
Proof.
  destruct (d_str_literal d) as (ip & fp & x & -> & Hi & Hf & _).
  assert (D : forall s, forallb is_ascii_digit s = true -> forallb number_char s = true).
  { intros s. rewrite !forallb_forall. intros H c Hc. unfold number_char. by rewrite H. }
  assert (Hx : forallb number_char (if (x =? 0)%Z then [] else exponent_text x) = true).
  { destruct (x =? 0)%Z; [done|]. unfold exponent_text, Z_to_str. pose proof (fun n => D _ (N_to_str_digits n)) as DN.
    destruct (x <? 0)%Z; rewrite !forallb_app; [cbn [forallb]|]; by rewrite DN. }
  unfold literal_text. rewrite !forallb_app, Hx, (D ip Hi).
  destruct (d_neg d), fp as [f|]; rewrite ?forallb_app; cbn [from_option id] in Hf; by rewrite ?(D f Hf).
Qed.

(** Decimals survive their text: [Decimal(str(d))] is [d], sign, coefficient
    and exponent, for every finite decimal that the implementation can hold. *)
Theorem decimal_text_roundtrip `{UnicodeData} d :
  d_in_range d = true -> decimal_of_str (d_str d) = Some d.
Proof.
  intros Hr. unfold decimal_of_str. rewrite strip_id, ascii_number_id by apply d_str_number_chars.
  cbn [mbind option_bind]. destruct (d_str_literal d) as (ip & fp & x & -> & Hi & Hf & Hn & Hv & He).
  rewrite decimal_literal_text by done. rewrite Hv, He. unfold d_in_range, new_decimal in *.
  destruct (_ && _); [by destruct d|discriminate Hr].
Qed.

Lemma decimal_text_roundtrip_witness :
  d_in_range (mk_decimal true 120 (-9)) = true /\
  @decimal_of_str ascii_tables (py "-1.20E-7") = Some (mk_decimal true 120 (-9)).
Proof.
  split; [vm_compute; reflexivity|].
  exact (@decimal_text_roundtrip ascii_tables (mk_decimal true 120 (-9)) eq_refl).
Defined.
