(* ===== verification/JsonText.v ===== *)
(** * JSON text

    [json.loads] with its default hooks and [json.dumps] with
    [ensure_ascii=False, sort_keys=True, separators=(",", ":")], on the values
    Python holds; reading what was written gives the value with sorted keys. *)
From S2P Require Import Prelude PyStr PyFloat PyDecimal Json PyRepr.

(** ** [json.dumps] *)

(** [str] and [int] refuse integers of more than 4300 digits. *)
Definition MAX_STR_DIGITS : nat := 4300.

Definition int_writable (z : Z) : bool := Nat.leb (ndigits (Z.abs_N z)) MAX_STR_DIGITS.

Fixpoint json_writable (v : pyjson) : bool :=
  match v with
  | PJInt z => int_writable z
  | PJArr l => forallb json_writable l
  | PJObj l => forallb (fun kv => json_writable kv.2) l
  | _ => true
  end.

Definition hex_char (d : N) : N := if (d <? 10)%N then (48 + d)%N else (87 + d)%N.

Definition escape_char (c : N) : pystr :=
  if (c =? QUOTE)%N then [BACKSLASH; QUOTE]
  else if (c =? BACKSLASH)%N then [BACKSLASH; BACKSLASH]
  else if (c =? 8)%N then [BACKSLASH; 98%N]
  else if (c =? 12)%N then [BACKSLASH; 102%N]
  else if (c =? 10)%N then [BACKSLASH; 110%N]
  else if (c =? 13)%N then [BACKSLASH; 114%N]
  else if (c =? 9)%N then [BACKSLASH; 116%N]
  else if (c <=? 31)%N then [BACKSLASH; 117%N; 48%N; 48%N; hex_char (c / 16); hex_char (c mod 16)]
  else [c].

Definition json_string (s : pystr) : pystr := QUOTE :: List.concat (map escape_char s) ++ [QUOTE].

Definition json_float (f : float) : pystr :=
  match f with
  | S754_nan => py "NaN"
  | S754_infinity s => (if s then py "-" else []) ++ py "Infinity"
  | _ => float_repr f
  end.

Definition key_le {A : Type} (a b : list N * A) : bool := cmp_le (on_key fst str_cmp) a b.

Fixpoint json_text (v : pyjson) : pystr :=
  match v with
  | PJNull => py "null"
  | PJBool true => py "true"
  | PJBool false => py "false"
  | PJInt z => Z_to_str z
  | PJFloat f => json_float f
  | PJStr s => json_string s
  | PJArr l => py "[" ++ join (py ",") (map json_text l) ++ py "]"
  | PJObj l =>
      py "{" ++
      join (py ",") (map (fun kt => json_string kt.1 ++ py ":" ++ kt.2)
                       (py_sorted key_le (map (fun kv => (kv.1, json_text kv.2)) l))) ++
      py "}"
  end.

Definition json_dumps (v : pyjson) : option pystr := if json_writable v then Some (json_text v) else None.

(** ** [json.loads] *)

(** A number: an integer unless it has a fraction or an exponent.  The limit on
    the digits raises a [ValueError] that is no [JSONDecodeError]; it is told
    apart as [JArithmeticError]. *)
Definition read_number (s : pystr) : result json_error (pyjson * pystr) :=
  let '(neg, s1) := match s with
                    | c :: s1 => if (c =? 45)%N then (true, s1) else (false, s)
                    | [] => (false, s)
                    end in
  match s1 with
  | [] => Raise JValueError
  | c :: s2 =>
      if negb (is_ascii_digit c) then Raise JValueError
      else
        let '(ds, s3) := if (c =? 48)%N then ([c], s2) else take_digits s1 in
        let '(frac, s4) := take_fraction s3 in
        let '(e, s5) := take_exponent s4 in
        if Nat.eqb (length s5) (length s3) then
          if Nat.leb (length ds) MAX_STR_DIGITS
          then Ok (PJInt (if neg then - Z.of_N (digits_value ds) else Z.of_N (digits_value ds))%Z, s5)
          else Raise JArithmeticError
        else
          let f := f_of_decade (Z.of_N (digits_value (ds ++ frac))) (e - Z.of_nat (length frac)) in
          Ok (PJFloat (if neg then f_neg f else f), s5)
  end.

Definition nan_literal (s : pystr) : option (pyjson * pystr) :=
  if startswith s (py "NaN") then Some (PJFloat S754_nan, skipn 3 s)
  else if startswith s (py "Infinity") then Some (PJFloat (S754_infinity false), skipn 8 s)
  else if startswith s (py "-Infinity") then Some (PJFloat (S754_infinity true), skipn 9 s)
  else None.

Fixpoint read_value (fuel room : nat) (s : pystr) {struct fuel} : result json_error (pyjson * pystr) :=
  match fuel with
  | O => Raise JFuel
  | S n =>
      match s with
      | [] => Raise JValueError
      | c :: s1 =>
          if (c =? QUOTE)%N then kr ← scan_string s1 []; Ok (PJStr kr.1, kr.2)
          else if (c =? 123)%N then
            match room with
            | O => Raise JRecursionError
            | S room' =>
                match skip_ws s1 with
                | [] => Raise JValueError
                | d :: s2 =>
                    if (d =? 125)%N then Ok (PJObj [], s2) else read_members n room' (d :: s2) []
                end
            end
          else if (c =? 91)%N then
            match room with
            | O => Raise JRecursionError
            | S room' =>
                match skip_ws s1 with
                | [] => Raise JValueError
                | d :: s2 =>
                    if (d =? 93)%N then Ok (PJArr [], s2) else read_elements n room' (d :: s2) []
                end
            end
          else if startswith s (py "null") then Ok (PJNull, skipn 4 s)
          else if startswith s (py "true") then Ok (PJBool true, skipn 4 s)
          else if startswith s (py "false") then Ok (PJBool false, skipn 5 s)
          else match nan_literal s with Some vr => Ok vr | None => read_number s end
      end
  end
with read_elements (fuel room : nat) (s : pystr) (acc : list pyjson) {struct fuel} :
    result json_error (pyjson * pystr) :=
  match fuel with
  | O => Raise JFuel
  | S n =>
      vr ← read_value n room s;
      match skip_ws vr.2 with
      | [] => Raise JValueError
      | d :: r =>
          if (d =? 93)%N then Ok (PJArr (rev (vr.1 :: acc)), r)
          else if (d =? 44)%N then read_elements n room (skip_ws r) (vr.1 :: acc)
          else Raise JValueError
      end
  end
with read_members (fuel room : nat) (s : pystr) (acc : list (list N * pyjson)) {struct fuel} :
    result json_error (pyjson * pystr) :=
  match fuel with
  | O => Raise JFuel
  | S n =>
      match s with
      | [] => Raise JValueError
      | c :: s1 =>
          if negb (c =? QUOTE)%N then Raise JValueError
          else
            kr ← scan_string s1 [];
            match skip_ws kr.2 with
            | [] => Raise JValueError
            | d :: r1 =>
                if negb (d =? 58)%N then Raise JValueError
                else
                  vr ← read_value n room (skip_ws r1);
                  match skip_ws vr.2 with
                  | [] => Raise JValueError
                  | d :: r2 =>
                      if (d =? 125)%N then Ok (PJObj (dict_of fst snd (rev ((kr.1, vr.1) :: acc))), r2)
                      else if (d =? 44)%N then read_members n room (skip_ws r2) ((kr.1, vr.1) :: acc)
                      else Raise JValueError
                  end
            end
      end
  end.

(** [room] is the recursion limit that is left. *)
Definition py_loads (room : nat) (text : pystr) : result json_error pyjson :=
  if startswith text [65279%N] then Raise JValueError
  else
    vr ← read_value (json_fuel text) room (skip_ws text);
    match skip_ws vr.2 with
    | [] => Ok vr.1
    | _ => Raise JValueError
    end.

(** ** Reading back *)

(** The value with its objects sorted by key. *)
Fixpoint sorted_keys (v : pyjson) : pyjson :=
  match v with
  | PJArr l => PJArr (map sorted_keys l)
  | PJObj l => PJObj (py_sorted key_le (map (fun kv => (kv.1, sorted_keys kv.2)) l))
  | _ => v
  end.

(** Values without floats, whose dictionaries have distinct keys. *)
Fixpoint plain_json (v : pyjson) : bool :=
  match v with
  | PJFloat _ => false
  | PJArr l => forallb plain_json l
  | PJObj l => all_distinct (map fst l) && forallb (fun kv => plain_json kv.2) l
  | _ => true
  end.

Fixpoint nesting (v : pyjson) : nat :=
  match v with
  | PJArr l => S (fold_right (fun x n => Nat.max (nesting x) n) 0 l)
  | PJObj l => S (fold_right (fun kv n => Nat.max (nesting kv.2) n) 0 l)
  | _ => 0
  end.

Section Induction.
Context (P : pyjson -> Prop).
Context (Hnull : P PJNull) (Hbool : forall b, P (PJBool b)) (Hint : forall z, P (PJInt z))
  (Hfloat : forall f, P (PJFloat f)) (Hstr : forall s, P (PJStr s))
  (Harr : forall l, Forall P l -> P (PJArr l)) (Hobj : forall l, Forall (fun kv => P kv.2) l -> P (PJObj l)).

Fixpoint pyjson_nested_ind (v : pyjson) : P v :=
  match v with
  | PJNull => Hnull | PJBool b => Hbool b | PJInt z => Hint z | PJFloat f => Hfloat f | PJStr s => Hstr s
  | PJArr l => Harr l ((fix go l := match l return Forall P l with
                                    | [] => Forall_nil_2 _
                                    | x :: r => Forall_cons_2 _ x r (pyjson_nested_ind x) (go r)
                                    end) l)
  | PJObj l => Hobj l ((fix go l := match l return Forall (fun kv => P kv.2) l with
                                    | [] => Forall_nil_2 _
                                    | x :: r => Forall_cons_2 _ x r (pyjson_nested_ind x.2) (go r)
                                    end) l)
  end.
End Induction.

(** *** Strings *)

Lemma scan_simple e d tl acc : (e =? 117)%N = false -> simple_escape e = Some d ->
  scan_string (BACKSLASH :: e :: tl) acc = scan_string tl (d :: acc).
Proof.
  intros E S. cbn [scan_string]. change (BACKSLASH =? QUOTE)%N with false.
  change (BACKSLASH =? BACKSLASH)%N with true. cbv iota. by rewrite E, S.
Qed.

Ltac simple_case E IH :=
  apply N.eqb_eq in E; subst; cbn [app]; erewrite scan_simple by (vm_compute; reflexivity);
  rewrite IH; cbn [rev]; by rewrite <- app_assoc.

Lemma scan_escaped s rest acc :
  scan_string (List.concat (map escape_char s) ++ QUOTE :: rest) acc = Ok (rev acc ++ s, rest).
Proof.
  revert acc. induction s as [|c s IH]; intros acc; [cbn; by rewrite app_nil_r|].
  cbn [map List.concat]. rewrite <- app_assoc. set (tl := List.concat (map escape_char s) ++ QUOTE :: rest) in *.
  clearbody tl. unfold escape_char.
  destruct (c =? QUOTE)%N eqn:E1; [simple_case E1 IH|].
  destruct (c =? BACKSLASH)%N eqn:E2; [simple_case E2 IH|].
  destruct (c =? 8)%N eqn:E3; [simple_case E3 IH|]. destruct (c =? 12)%N eqn:E4; [simple_case E4 IH|].
  destruct (c =? 10)%N eqn:E5; [simple_case E5 IH|]. destruct (c =? 13)%N eqn:E6; [simple_case E6 IH|].
  destruct (c =? 9)%N eqn:E7; [simple_case E7 IH|].
  destruct (c <=? 31)%N eqn:E8.
  2: { cbn [app scan_string]. rewrite E1, E2, E8, IH. cbn [rev]. by rewrite <- app_assoc. }
  assert (H4 : hex4 48 48 (hex_char (c / 16)) (hex_char (c mod 16)) = Some c).
  { apply N.leb_le in E8. clear -E8.
    assert (K : List.In c (map N.of_nat (seq 0 32))).
    { apply in_map_iff. exists (N.to_nat c). split; [lia|]. apply in_seq. lia. }
    refine (proj1 (List.Forall_forall (fun c => hex4 48 48 (hex_char (c / 16)) (hex_char (c mod 16)) = Some c) _) _ c K).
    vm_compute (map _ _). repeat (constructor; [vm_compute; reflexivity|]). constructor. }
  assert (R : scan_string tl (c :: acc) = Ok (rev acc ++ c :: s, rest)).
  { rewrite IH. cbn [rev]. by rewrite <- app_assoc. }
  cbn [app scan_string]. change (BACKSLASH =? QUOTE)%N with false. change (BACKSLASH =? BACKSLASH)%N with true.
  change (117 =? 117)%N with true. cbv iota. rewrite H4.
  assert (U : in_range 55296 56319 c = false).
  { apply N.leb_le in E8. unfold in_range. apply andb_false_iff. left. apply N.leb_gt. lia. }
  rewrite U. cbn [andb]. destruct tl as [|x1 [|x2 [|x3 [|x4 [|x5 [|x6 x7]]]]]]; exact R.
Qed.

(** *** Integers *)

Lemma digits_value_bound s : forallb is_ascii_digit s = true -> (digits_value s < 10 ^ N.of_nat (length s))%N.
Proof.
  induction s as [|c s IH] using rev_ind; [done|]. rewrite forallb_app. cbn [forallb]. intros H.
  apply andb_true_iff in H as [Hs Hc]. rewrite andb_true_r in Hc.
  unfold digits_value. rewrite fold_left_app. cbn [fold_left]. change (fold_left _ s 0%N) with (digits_value s).
  specialize (IH Hs). rewrite length_app, Nat.add_1_r, Nat2N.inj_succ, N.pow_succ_r'.
  unfold is_ascii_digit, in_range in Hc. rewrite andb_true_iff, !N.leb_le in Hc. lia.
Qed.

(** No leading zero. *)
Lemma N_to_str_head n r : N_to_str n = 48%N :: r -> r = [].
Proof.
  intros E. destruct (N.eq_0_gt_0_cases n) as [->|Hp]; [vm_compute in E; congruence|].
  destruct r as [|d r]; [done|]. exfalso.
  pose proof (dec_digits_lower (N.size_nat n) n [] Hp) as L. change (dec_digits _ n []) with (N_to_str n) in L.
  rewrite E in L. cbn [length] in L.
  pose proof (N_to_str_value n) as V. rewrite E in V. pose proof (N_to_str_digits n) as D. rewrite E in D.
  cbn [forallb] in D. change (is_ascii_digit 48) with true in D. cbn [andb] in D.
  pose proof (digits_value_bound (d :: r) D) as B. change (digits_value (48%N :: d :: r)) with (digits_value (d :: r)) in V.
  rewrite V in B. cbn [length] in B. replace (S (S (length r)) - 1)%nat with (S (length r)) in L by lia. lia.
Qed.

(** What may follow a value. *)
Definition stop (s : pystr) : Prop :=
  match s with [] => True | c :: _ => c = 44%N \/ c = 93%N \/ c = 125%N end.

Lemma stop_number s : stop s -> no_digit s /\ take_fraction s = ([], s) /\ take_exponent s = (0%Z, s).
Proof. destruct s as [|c s]; [done|]. by intros [-> |[-> | ->]]. Qed.

Lemma skip_ws_stop s : stop s -> skip_ws s = s.
Proof. destruct s as [|c s]; [done|]. by intros [-> |[-> | ->]]. Qed.

Lemma read_digits n rest : stop rest -> exists c r, N_to_str n ++ rest = c :: r /\ is_ascii_digit c = true /\
  (if (c =? 48)%N then ([c], r) else take_digits (N_to_str n ++ rest)) = (N_to_str n, rest).
Proof.
  intros Hs. destruct (stop_number rest Hs) as (Hd & _ & _).
  pose proof (N_to_str_digits n) as D. pose proof (N_to_str_length_pos n) as L.
  pose proof (take_digits_app _ rest D Hd) as T. rewrite T.
  destruct (N_to_str n) as [|c ds] eqn:E; [cbn in L; lia|]. exists c, (ds ++ rest). split; [done|].
  cbn [forallb] in D. apply andb_true_iff in D as [Dc _]. split; [done|].
  destruct (c =? 48)%N eqn:E0; [|done]. apply N.eqb_eq in E0. subst c. apply N_to_str_head in E as ->. done.
Qed.

Lemma read_int z rest : int_writable z = true -> stop rest ->
  read_number (Z_to_str z ++ rest) = Ok (PJInt z, rest).
Proof.
  intros Hw Hs. destruct (stop_number rest Hs) as (Hd & Hf & He). unfold int_writable, ndigits in Hw.
  unfold read_number, Z_to_str. destruct (z <? 0)%Z eqn:Ez; bools.
  - cbn [app]. change (45 =? 45)%N with true. cbv beta iota zeta.
    destruct (read_digits (Z.to_N (- z)) rest Hs) as (c & r & E & Dc & T). rewrite E in *. rewrite Dc. cbn [negb].
    rewrite T. cbv beta iota zeta. rewrite Hf. cbv beta iota zeta. rewrite He. cbv beta iota zeta.
    rewrite Nat.eqb_refl. replace (Z.to_N (- z)) with (Z.abs_N z) by lia.
    rewrite (proj2 (Nat.leb_le _ _) Hw), N_to_str_value. do 3 f_equal. lia.
  - destruct (read_digits (Z.to_N z) rest Hs) as (c & r & E & Dc & T). rewrite E in *.
    assert (Hc : (c =? 45)%N = false).
    { unfold is_ascii_digit, in_range in Dc. rewrite andb_true_iff, !N.leb_le in Dc. apply N.eqb_neq. lia. }
    rewrite Hc. cbv beta iota zeta. rewrite Dc. cbn [negb].
    rewrite T. cbv beta iota zeta. rewrite Hf. cbv beta iota zeta. rewrite He. cbv beta iota zeta.
    rewrite Nat.eqb_refl. replace (Z.to_N z) with (Z.abs_N z) by lia.
    rewrite (proj2 (Nat.leb_le _ _) Hw), N_to_str_value. do 3 f_equal. lia.
Qed.

(** *** Values *)

Definition reads (v : pyjson) : Prop := forall fuel room rest,
  length (json_text v) <= fuel -> nesting v <= room -> stop rest ->
  read_value fuel room (json_text v ++ rest) = Ok (sorted_keys v, rest).

Lemma read_value_other c s n room : (c =? QUOTE)%N = false -> (c =? 123)%N = false -> (c =? 91)%N = false ->
  startswith (c :: s) (py "null") = false -> startswith (c :: s) (py "true") = false ->
  startswith (c :: s) (py "false") = false -> nan_literal (c :: s) = None ->
  read_value (S n) room (c :: s) = read_number (c :: s).
Proof. intros E1 E2 E3 E4 E5 E6 E7. cbn [read_value]. by rewrite E1, E2, E3, E4, E5, E6, E7. Qed.

Lemma digit_range c : is_ascii_digit c = true -> (48 <= c <= 57)%N.
Proof. unfold is_ascii_digit, in_range. by rewrite andb_true_iff, !N.leb_le. Qed.

Lemma startswith_head c s d p : c <> d -> startswith (c :: s) (d :: p) = false.
Proof. intros H. cbn [startswith]. by rewrite (proj2 (N.eqb_neq d c)) by congruence. Qed.

Lemma nan_literal_digit c s : is_ascii_digit c = true -> nan_literal (c :: s) = None /\ nan_literal (45%N :: c :: s) = None.
Proof.
  intros H. apply digit_range in H. unfold nan_literal. change (py "NaN") with [78; 97; 78]%N.
  change (py "Infinity") with (73%N :: py "nfinity"). change (py "-Infinity") with (45%N :: 73%N :: py "nfinity").
  rewrite !startswith_head by lia. split; [done|]. cbn [startswith]. change (45 =? 45)%N with true. cbn [andb].
  by rewrite (proj2 (N.eqb_neq 73 c)) by lia.
Qed.

Lemma reads_int z : int_writable z = true -> reads (PJInt z).
Proof.
  intros Hw fuel room rest Hf _ Hs. cbn [json_text sorted_keys] in *.
  rewrite <- (read_int z rest Hw Hs). unfold Z_to_str in *.
  assert (K : forall p, exists c r, N_to_str p ++ rest = c :: r /\ is_ascii_digit c = true).
  { intros p. destruct (read_digits p rest Hs) as (c & r & E & D & _). by exists c, r. }
  destruct (z <? 0)%Z.
  - cbn [app length] in *. destruct fuel as [|n]; [lia|]. destruct (K (Z.to_N (- z))) as (c & r & -> & D).
    apply read_value_other; try done. by apply nan_literal_digit.
  - destruct (K (Z.to_N z)) as (c & r & E & D). rewrite E. pose proof (N_to_str_length_pos (Z.to_N z)).
    destruct fuel as [|n]; [lia|]. pose proof (digit_range c D).
    assert (N : forall d, (d < 48 \/ 57 < d)%N -> (c =? d)%N = false) by (intros d Hd; apply N.eqb_neq; lia).
    apply read_value_other; try (apply N; vm_compute; auto; fail);
      [..|by apply nan_literal_digit].
    all: cbn [startswith py map list_ascii_of_string]; (rewrite N.eqb_sym, N by (vm_compute; auto)); done.
Qed.

Lemma reads_str s : reads (PJStr s).
Proof.
  intros fuel room rest Hf _ Hs. cbn [json_text sorted_keys] in *. unfold json_string in *.
  cbn [length app] in *. destruct fuel as [|n]; [lia|]. cbn [read_value].
  change (QUOTE =? QUOTE)%N with true. cbv iota. rewrite <- app_assoc. cbn [app].
  by rewrite scan_escaped.
Qed.

Lemma startswith_own p rest : startswith (p ++ rest) p = true.
Proof. apply startswith_app. by exists rest. Qed.

Lemma reads_literals : reads PJNull /\ forall b, reads (PJBool b).
Proof.
  assert (N : forall c s, c <> 110%N -> startswith (c :: s) (py "null") = false) by (intros; by apply startswith_head).
  assert (T : forall c s, c <> 116%N -> startswith (c :: s) (py "true") = false) by (intros; by apply startswith_head).
  split; [|intros []]; intros [|n] room rest Hf _ Hs; try (cbn in Hf; lia); cbn [json_text sorted_keys];
    pose proof (fun p => startswith_own (py p) rest) as O.
  - specialize (O "null"%string). change (py "null" ++ rest) with (110 :: 117 :: 108 :: 108 :: rest)%N in *.
    cbn [read_value]. by rewrite O.
  - specialize (O "true"%string). change (py "true" ++ rest) with (116 :: 114 :: 117 :: 101 :: rest)%N in *.
    cbn [read_value]. rewrite N, O by done. done.
  - specialize (O "false"%string). change (py "false" ++ rest) with (102 :: 97 :: 108 :: 115 :: 101 :: rest)%N in *.
    cbn [read_value]. rewrite N, T, O by done. done.
Qed.

(** The first character of a text is neither white space nor a bracket that closes. *)
Lemma text_first v : plain_json v = true ->
  exists c r, json_text v = c :: r /\ jws c = false /\ c <> 93%N /\ (c < 128)%N.
Proof.
  destruct v as [|[]|z|f|s|l|l]; intros H; try discriminate H; try (by eexists _, _).
  cbn [json_text]. unfold Z_to_str. destruct (z <? 0)%Z; [by eexists _, _|].
  pose proof (N_to_str_digits (Z.to_N z)) as D. pose proof (N_to_str_length_pos (Z.to_N z)) as L.
  destruct (N_to_str (Z.to_N z)) as [|c r]; [cbn in L; lia|]. cbn [forallb] in D. apply andb_true_iff in D as [D _].
  apply digit_range in D. exists c, r. split; [done|]. split; [|split; lia]. unfold jws, in_chars. cbn [existsb].
  rewrite !orb_false_iff, !N.eqb_neq. repeat split; lia.
Qed.

Lemma text_head v x : plain_json v = true -> skip_ws (json_text v ++ x) = json_text v ++ x /\ 0 < length (json_text v).
Proof.
  intros H. destruct (text_first v H) as (c & r & -> & J & _). cbn [app skip_ws length]. rewrite J. split; [done|lia].
Qed.

(** *** Containers *)

Lemma join_cons_length sep p ps : length (join sep (p :: ps)) =
  length p + match ps with [] => 0 | _ => length sep + length (join sep ps) end.
Proof. destruct ps; cbn [join]; rewrite ?length_app; lia. Qed.

Lemma dict_of_id {V : Type} (l : list (list N * V)) : NoDup (map fst l) -> dict_of fst snd l = l.
Proof. intros H. rewrite dict_of_distinct by done. rewrite <- (map_id l) at 2. by apply map_ext; intros []. Qed.

Definition element_ok (room : nat) (v : pyjson) : Prop := reads v /\ plain_json v = true /\ nesting v <= room.

Lemma read_elements_text l : forall fuel room acc rest,
  l <> [] -> Forall (element_ok room) l -> length (join (py ",") (map json_text l)) + 1 <= fuel ->
  read_elements fuel room (join (py ",") (map json_text l) ++ 93%N :: rest) acc =
  Ok (PJArr (rev acc ++ map sorted_keys l), rest).
Proof.
  induction l as [|v l IH]; intros fuel room acc rest Hn Hl Hf; [done|].
  apply Forall_cons in Hl as [(Rv & Pv & Nv) Hl]. destruct fuel as [|n]; [lia|]. cbn [map] in *.
  rewrite join_cons_length in Hf. destruct (text_head v [] Pv) as [_ Lv].
  cbn [read_elements]. destruct l as [|v' l'].
  - cbn [map join]. rewrite Rv by (lia || done || (right; by left)). cbn [mbind result_mbind result_bind snd fst].
    cbn [skip_ws]. change (jws 93) with false. cbv iota. change (93 =? 93)%N with true. cbv iota. by cbn [rev map].
  - change (join (py ",") (json_text v :: map json_text (v' :: l'))) with
      (json_text v ++ py "," ++ join (py ",") (map json_text (v' :: l'))).
    rewrite <- !app_assoc. change (py "," ++ ?x) with (44%N :: x). rewrite Rv by (lia || done || by left).
    cbn [mbind result_mbind result_bind snd fst].
    rewrite (skip_ws_stop (44%N :: _)) by (by left). change (44 =? 93)%N with false. change (44 =? 44)%N with true. cbv iota.
    assert (H : skip_ws (join (py ",") (map json_text (v' :: l')) ++ 93%N :: rest) =
                join (py ",") (map json_text (v' :: l')) ++ 93%N :: rest).
    { apply Forall_cons in Hl as [(_ & Pv' & _) _]. cbn [map]. destruct l'; cbn [map join];
        rewrite <- ?app_assoc; by apply text_head. }
    rewrite H. change (length (py ",")) with 1 in Hf. cbn [map] in Hf. rewrite IH; [|done|done|cbn [map]; lia].
    cbn [rev map]. by rewrite <- app_assoc.
Qed.

Definition member_text (kv : list N * pyjson) : pystr := json_string kv.1 ++ py ":" ++ json_text kv.2.

Lemma json_string_read k x acc : exists s, json_string k ++ x = QUOTE :: s /\ scan_string s acc = Ok (rev acc ++ k, x).
Proof.
  exists (List.concat (map escape_char k) ++ QUOTE :: x). split; [|apply scan_escaped].
  unfold json_string. cbn [app]. by rewrite <- app_assoc.
Qed.

Lemma read_members_text l : forall fuel room acc rest,
  l <> [] -> Forall (fun kv => element_ok room kv.2) l -> length (join (py ",") (map member_text l)) + 1 <= fuel ->
  read_members fuel room (join (py ",") (map member_text l) ++ 125%N :: rest) acc =
  Ok (PJObj (dict_of fst snd (rev acc ++ map (fun kv => (kv.1, sorted_keys kv.2)) l)), rest).
Proof.
  induction l as [|[k v] l IH]; intros fuel room acc rest Hn Hl Hf; [done|].
  apply Forall_cons in Hl as [(Rv & Pv & Nv) Hl]. cbn [snd] in *. destruct fuel as [|n]; [lia|]. cbn [map] in *.
  rewrite join_cons_length in Hf. unfold member_text at 1 in Hf. cbn [fst snd] in Hf. rewrite !length_app in Hf.
  destruct (text_head v [] Pv) as [_ Lv]. change (length (py ":")) with 1 in Hf.
  assert (Step : forall tl, stop tl -> read_members (S n) room (member_text (k, v) ++ tl) acc =
    match tl with
    | [] => Raise JValueError
    | d :: r2 =>
        if (d =? 125)%N then Ok (PJObj (dict_of fst snd (rev ((k, sorted_keys v) :: acc))), r2)
        else if (d =? 44)%N then read_members n room (skip_ws r2) ((k, sorted_keys v) :: acc)
        else Raise JValueError
    end).
  { intros tl Ht. unfold member_text. cbn [fst snd]. rewrite <- !app_assoc. change (py ":" ++ ?x) with (58%N :: x).
    destruct (json_string_read k (58%N :: json_text v ++ tl) []) as (s & E & S). rewrite E. cbn [read_members].
    change (QUOTE =? QUOTE)%N with true. cbn [negb]. rewrite S. cbn [mbind result_mbind result_bind snd fst rev app].
    cbn [skip_ws]. change (jws 58) with false. cbv iota. change (58 =? 58)%N with true. cbn [negb].
    rewrite (proj1 (text_head v tl Pv)), Rv by (lia || done).
    cbn [mbind result_mbind result_bind snd fst]. by rewrite (skip_ws_stop tl Ht). }
  destruct l as [|kv' l'].
  - cbn [map join]. rewrite Step by (right; by right). done.
  - change (join (py ",") (member_text (k, v) :: map member_text (kv' :: l'))) with
      (member_text (k, v) ++ py "," ++ join (py ",") (map member_text (kv' :: l'))).
    rewrite <- !app_assoc. change (py "," ++ ?x) with (44%N :: x). rewrite Step by (by left).
    change (44 =? 125)%N with false. change (44 =? 44)%N with true. cbv iota.
    assert (H : forall x, skip_ws (join (py ",") (map member_text (kv' :: l')) ++ x) =
                join (py ",") (map member_text (kv' :: l')) ++ x) by (intros x; by destruct l').
    rewrite H. change (length (py ",")) with 1 in Hf. cbn [map] in Hf. rewrite IH; [|done|done|cbn [map]; lia].
    cbn [rev map fst snd]. by rewrite <- app_assoc.
Qed.

(** *** The round trip *)

Lemma py_sorted_map {A B} (f : A -> B) (leA : A -> A -> bool) (leB : B -> B -> bool) l :
  (forall x y, leB (f x) (f y) = leA x y) -> py_sorted leB (map f l) = map f (py_sorted leA l).
Proof.
  intros H. induction l as [|x l IH]; [done|]. cbn [map py_sorted]. rewrite IH. generalize (py_sorted leA l).
  intros k. induction k as [|y k IHk]; [done|]. cbn [map insert_sorted]. rewrite H.
  destruct (leA x y); [done|]. cbn [map]. by rewrite IHk.
Qed.

Lemma nesting_arr l v : v ∈ l -> nesting v < nesting (PJArr l).
Proof. intros H. cbn [nesting]. induction H; cbn [fold_right]; lia. Qed.

Lemma nesting_obj (l : list (list N * pyjson)) kv : kv ∈ l -> nesting kv.2 < nesting (PJObj l).
Proof. intros H. cbn [nesting]. induction H; cbn [fold_right]; lia. Qed.

Lemma reads_arr l : Forall (fun v => reads v /\ plain_json v = true) l -> reads (PJArr l).
Proof.
  intros Hl fuel room rest Hf Hr Hs. cbn [json_text sorted_keys] in *.
  change (py "[" ++ ?x) with (91%N :: x) in *. change (py "]") with [93%N] in *.
  cbn [length] in Hf. rewrite length_app in Hf. cbn [length] in Hf.
  destruct fuel as [|n]; [lia|]. destruct room as [|room]; [cbn in Hr; lia|]. cbn [app]. rewrite <- app_assoc. cbn [app].
  cbn [read_value]. change (91 =? QUOTE)%N with false. change (91 =? 123)%N with false. change (91 =? 91)%N with true.
  cbv iota. destruct l as [|v l]; [done|].
  assert (Hl' : Forall (element_ok room) (v :: l)).
  { rewrite Forall_forall in *. intros x Hx. destruct (Hl x Hx). repeat split; auto.
    pose proof (nesting_arr (v :: l) x Hx). lia. }
  pose proof (read_elements_text (v :: l) n room [] rest ltac:(done) Hl' ltac:(lia)) as R.
  apply Forall_cons in Hl as [[_ Pv] _]. destruct (text_first v Pv) as (c & s & E & J & Hc & _).
  assert (X : exists s', join (py ",") (map json_text (v :: l)) ++ 93%N :: rest = c :: s').
  { cbn [map]. destruct (map json_text l); cbn [join]; rewrite E; by eexists. }
  destruct X as (s' & X). rewrite X in *. cbn [skip_ws]. rewrite J, (proj2 (N.eqb_neq c 93) Hc). exact R.
Qed.

Lemma reads_obj l : NoDup (map fst l) -> Forall (fun kv => reads kv.2 /\ plain_json kv.2 = true) l -> reads (PJObj l).
Proof.
  intros Hd Hl fuel room rest Hf Hr Hs. cbn [json_text sorted_keys] in *.
  set (k := py_sorted key_le l).
  assert (Pk : k ≡ₚ l) by apply py_sorted_perm.
  assert (T : forall (g : pyjson -> pystr) , map (fun kt : list N * pystr => json_string kt.1 ++ py ":" ++ kt.2)
    (py_sorted key_le (map (fun kv => (kv.1, g kv.2)) l)) = map (fun kv => json_string kv.1 ++ py ":" ++ g kv.2) k).
  { intros g. rewrite (py_sorted_map _ key_le) by done. by rewrite map_map. }
  rewrite T in *. change (map (fun kv => json_string kv.1 ++ py ":" ++ json_text kv.2) k) with (map member_text k) in *.
  rewrite (py_sorted_map _ key_le) by done. fold k.
  change (py "{" ++ ?x) with (123%N :: x) in *. change (py "}") with [125%N] in *.
  cbn [length] in Hf. rewrite length_app in Hf. cbn [length] in Hf.
  destruct fuel as [|n]; [lia|]. destruct room as [|room]; [cbn in Hr; lia|]. cbn [app]. rewrite <- app_assoc. cbn [app].
  cbn [read_value]. change (123 =? QUOTE)%N with false. change (123 =? 123)%N with true. cbv iota.
  destruct (decide (k = [])) as [-> |Hk]; [done|].
  assert (Hl' : Forall (fun kv => element_ok room kv.2) k).
  { rewrite Forall_forall in *. intros x Hx. rewrite Pk in Hx. destruct (Hl x Hx). repeat split; auto.
    pose proof (nesting_obj l x Hx). lia. }
  pose proof (read_members_text k n room [] rest Hk Hl' ltac:(lia)) as R. cbn [rev app] in R.
  rewrite dict_of_id in R.
  2: { rewrite map_map. cbn [fst]. by rewrite Pk. }
  assert (X : exists s', join (py ",") (map member_text k) ++ 125%N :: rest = QUOTE :: s').
  { destruct k as [|kv [|kv' k']]; [done|..]; by eexists. }
  destruct X as (s' & X). rewrite X in *. exact R.
Qed.

Lemma plain_reads v : plain_json v = true -> json_writable v = true -> reads v.
Proof.
  induction v as [|b|z|f|s|l IH|l IH] using pyjson_nested_ind; intros Hp Hw.
  - apply reads_literals. - apply reads_literals. - by apply reads_int. - discriminate Hp. - apply reads_str.
  - cbn in Hp, Hw. apply reads_arr. rewrite forallb_forall in Hp, Hw. rewrite Forall_forall in *. intros x Hx.
    assert (List.In x l) by by apply list_elem_of_In. auto.
  - cbn in Hp, Hw. apply andb_true_iff in Hp as [Hd Hp]. apply reads_obj; [by apply all_distinct_true|].
    rewrite forallb_forall in Hp, Hw. rewrite Forall_forall in *. intros x Hx.
    assert (List.In x l) by by apply list_elem_of_In. auto.
Qed.

(** Written JSON reads back: for a value without floats, with distinct keys
    in its objects, and nested less deep than the recursion allows,
    [json.loads(json.dumps(v))] succeeds and is [v] with its keys sorted, at
    every level, whatever characters its strings hold. *)
Theorem json_roundtrip v room text :
  plain_json v = true -> nesting v <= room -> json_dumps v = Some text ->
  startswith text [65279%N] = false /\ py_loads room text = Ok (sorted_keys v).
Proof.
  unfold json_dumps. intros Hp Hr Hd. destruct (json_writable v) eqn:Hw; [|discriminate]. injection Hd as <-.
  pose proof (plain_reads v Hp Hw (json_fuel (json_text v)) room []) as R. rewrite app_nil_r in R.
  assert (H : startswith (json_text v) [65279%N] = false).
  { destruct (text_first v Hp) as (c & r & -> & _ & _ & Hc). apply startswith_head. lia. }
  split; [exact H|]. unfold py_loads. rewrite H.
  pose proof (proj1 (text_head v [] Hp)) as K. rewrite app_nil_r in K. rewrite K.
  rewrite R by (unfold json_fuel; (lia || done)). done.
Qed.

Lemma json_roundtrip_witness :
  let v := PJObj [(py "b", PJArr [PJInt (-12); PJStr [34; 10; 92; 7; 233]%N]); (py "a", PJObj [(py "n", PJNull)])] in
  exists text, json_dumps v = Some text /\ py_loads 10 text =
    Ok (PJObj [(py "a", PJObj [(py "n", PJNull)]); (py "b", PJArr [PJInt (-12); PJStr [34; 10; 92; 7; 233]%N])]).
Proof.
  intros v. exists (json_text v). split; [vm_compute; reflexivity|].
  rewrite (proj2 (json_roundtrip v 10 (json_text v) eq_refl ltac:(vm_compute; lia) ltac:(vm_compute; reflexivity))).
  vm_compute. reflexivity.
Defined.

(** ** The fuel is enough *)

(** A run that does not stop for lack of fuel and consumes what it reads. *)
Definition advances {A : Type} (s : pystr) (r : result json_error (A * pystr)) : Prop :=
  match r with Ok (_, t) => length t < length s | Raise e => e <> JFuel end.

Lemma take_digits_length s d r : take_digits s = (d, r) -> length s = length d + length r.
Proof.
  revert d r. induction s as [|c s IH]; intros d r H; cbn [take_digits] in H; [by injection H as <- <-|].
  destruct (is_ascii_digit c); [|by injection H as <- <-].
  destruct (take_digits s) as [d' r'] eqn:E. injection H as <- <-. cbn [length]. by rewrite (IH d' r').
Qed.

Lemma read_number_advances s : advances s (read_number s).
Proof.
  unfold read_number. destruct s as [|c0 s0]; [done|].
  set (neg := if (c0 =? 45)%N then (true, s0) else (false, c0 :: s0)).
  assert (L : length neg.2 <= S (length s0)) by (subst neg; destruct (c0 =? 45)%N; cbn; lia).
  destruct neg as [b s1]. cbn [snd] in L. destruct s1 as [|c s2]; [done|].
  destruct (is_ascii_digit c) eqn:D; cbn [negb]; [|done].
  set (p := if (c =? 48)%N then ([c], s2) else take_digits (c :: s2)).
  assert (P : length p.2 <= length s2).
  { subst p. destruct (c =? 48)%N; [done|]. cbn [take_digits]. rewrite D.
    destruct (take_digits s2) as [d r] eqn:T. apply take_digits_length in T. cbn [snd]. lia. }
  destruct p as [ds s3]. cbn [snd] in P. destruct (take_fraction s3) as [frac s4] eqn:F.
  apply take_fraction_consumes, consumes_length in F.
  destruct (take_exponent s4) as [e s5] eqn:X. apply take_exponent_consumes, consumes_length in X.
  cbn [length] in *. repeat case_match; cbn [advances length]; try done; lia.
Qed.

Lemma advances_weaken {A} s s' (r : result json_error (A * pystr)) :
  advances s r -> length s <= length s' -> advances s' r.
Proof. destruct r as [[v t]|e]; cbn [advances]; [lia|done]. Qed.

Definition fuel_enough (n : nat) : Prop :=
  (forall room s, 2 * length s + 1 <= n -> advances s (read_value n room s)) /\
  (forall room s acc, 2 * length s + 2 <= n -> advances s (read_elements n room s acc)) /\
  (forall room s acc, 2 * length s + 2 <= n -> advances s (read_members n room s acc)).

Lemma advances_skip (s : pystr) k : k <= length s -> 0 < k -> length (skipn k s) < length s.
Proof. intros. rewrite length_skipn. lia. Qed.

Lemma startswith_length (s p : pystr) : startswith s p = true -> length p <= length s.
Proof. intros H. apply startswith_app in H as (r & ->). rewrite length_app. lia. Qed.

Lemma nan_literal_advances s v t : nan_literal s = Some (v, t) -> length t < length s.
Proof.
  unfold nan_literal. intros H.
  destruct (startswith s (py "NaN")) eqn:E1; [injection H as <- <-; apply startswith_length in E1; apply advances_skip; [exact E1|lia]|].
  destruct (startswith s (py "Infinity")) eqn:E2; [injection H as <- <-; apply startswith_length in E2; apply advances_skip; [exact E2|lia]|].
  destruct (startswith s (py "-Infinity")) eqn:E3; [injection H as <- <-; apply startswith_length in E3; apply advances_skip; [exact E3|lia]|done].
Qed.

Lemma fuel_value n : fuel_enough n -> forall room s, 2 * length s + 1 <= S n -> advances s (read_value (S n) room s).
Proof.
  intros (_ & He & Hm) room s Hn. destruct s as [|c s1]; [done|]. cbn [read_value]. cbn [length] in Hn.
  destruct (c =? QUOTE)%N.
  { destruct (scan_string s1 []) as [[v t]|e] eqn:E; cbn [mbind result_mbind result_bind advances length fst snd].
    - apply scan_string_shorter in E. lia.
    - apply scan_string_raise in E. by subst e. }
  destruct (c =? 123)%N.
  { destruct room as [|room]; [done|]. pose proof (skip_ws_length s1) as L.
    destruct (skip_ws s1) as [|d s2]; [done|]. cbn [length] in L. destruct (d =? 125)%N; [cbn [advances length]; lia|].
    eapply advances_weaken; [apply Hm|]; cbn [length]; lia. }
  destruct (c =? 91)%N.
  { destruct room as [|room]; [done|]. pose proof (skip_ws_length s1) as L.
    destruct (skip_ws s1) as [|d s2]; [done|]. cbn [length] in L. destruct (d =? 93)%N; [cbn [advances length]; lia|].
    eapply advances_weaken; [apply He|]; cbn [length]; lia. }
  destruct (startswith _ (py "null")) eqn:E1; [apply startswith_length in E1; apply advances_skip; [exact E1|lia]|].
  destruct (startswith _ (py "true")) eqn:E2; [apply startswith_length in E2; apply advances_skip; [exact E2|lia]|].
  destruct (startswith _ (py "false")) eqn:E3; [apply startswith_length in E3; apply advances_skip; [exact E3|lia]|].
  destruct (nan_literal _) as [[v t]|] eqn:E4; [by apply nan_literal_advances in E4|apply read_number_advances].
Qed.

Lemma fuel_elements n : fuel_enough n ->
  forall room s acc, 2 * length s + 2 <= S n -> advances s (read_elements (S n) room s acc).
Proof.
  intros (Hv & He & _) room s acc Hn. cbn [read_elements]. specialize (Hv room s ltac:(lia)).
  destruct (read_value n room s) as [[v t]|e]; cbn [mbind result_mbind result_bind snd fst]; [|done].
  cbn [advances] in Hv. pose proof (skip_ws_length t) as L. destruct (skip_ws t) as [|d r]; [done|]. cbn [length] in L.
  destruct (d =? 93)%N; [cbn [advances]; lia|]. destruct (d =? 44)%N; [|done]. pose proof (skip_ws_length r).
  eapply advances_weaken; [apply He|]; lia.
Qed.

Lemma fuel_members n : fuel_enough n ->
  forall room s acc, 2 * length s + 2 <= S n -> advances s (read_members (S n) room s acc).
Proof.
  intros (Hv & _ & Hm) room s acc Hn. cbn [read_members]. destruct s as [|c s1]; [done|]. cbn [length] in Hn.
  destruct (c =? QUOTE)%N; cbn [negb]; [|done].
  destruct (scan_string s1 []) as [[k t]|e] eqn:E; cbn [mbind result_mbind result_bind snd fst].
  2: { apply scan_string_raise in E. by subst e. }
  apply scan_string_shorter in E. pose proof (skip_ws_length t) as L. destruct (skip_ws t) as [|d r1]; [done|].
  cbn [length] in L. destruct (d =? 58)%N; cbn [negb]; [|done]. pose proof (skip_ws_length r1) as L1.
  specialize (Hv room (skip_ws r1) ltac:(lia)).
  destruct (read_value n room (skip_ws r1)) as [[v u]|e]; [|done]. cbn [advances] in Hv.
  cbn [mbind result_mbind result_bind snd fst].
  pose proof (skip_ws_length u) as L2. destruct (skip_ws u) as [|d' r2]; [done|]. cbn [length] in L2.
  destruct (d' =? 125)%N; [cbn [advances length]; lia|]. destruct (d' =? 44)%N; [|done].
  pose proof (skip_ws_length r2). eapply advances_weaken; [apply Hm|]; cbn [length]; lia.
Qed.

Lemma fuel_is_enough n : fuel_enough n.
Proof.
  induction n as [|n IH]; [repeat split; intros; lia|].
  repeat split; intros; [by apply fuel_value|by apply fuel_elements|by apply fuel_members].
Qed.

(** ** What is read is nested no deeper than the limit *)

Definition within (room : nat) (r : result json_error (pyjson * pystr)) : Prop :=
  match r with Ok (v, _) => nesting v <= room | Raise _ => True end.

Lemma nesting_arr_le n l : Forall (fun v => nesting v <= n) l -> nesting (PJArr l) <= S n.
Proof. intros F. cbn [nesting]. apply le_n_S. induction F; cbn [fold_right]; lia. Qed.

Lemma nesting_obj_le n (l : list (list N * pyjson)) : Forall (fun kv => nesting kv.2 <= n) l -> nesting (PJObj l) <= S n.
Proof. intros F. cbn [nesting]. apply le_n_S. induction F; cbn [fold_right]; lia. Qed.

Lemma nesting_dict_of n (l : list (list N * pyjson)) :
  Forall (fun kv => nesting kv.2 <= n) l -> Forall (fun kv => nesting kv.2 <= n) (dict_of fst snd l).
Proof.
  intros F. apply Forall_forall. intros [k v] H. apply dict_get_nodup in H; [|apply dict_of_nodup].
  apply dict_of_get in H as (x & Hx & _ & <-). rewrite Forall_forall in F. exact (F x Hx).
Qed.

Definition shallow (n : nat) : Prop :=
  (forall room s, within room (read_value n room s)) /\
  (forall room s acc, Forall (fun v => nesting v <= room) acc -> within (S room) (read_elements n room s acc)) /\
  (forall room s (acc : list (list N * pyjson)), Forall (fun kv => nesting kv.2 <= room) acc ->
     within (S room) (read_members n room s acc)).

Lemma read_number_flat s : within 0 (read_number s).
Proof. unfold read_number. repeat case_match; cbn; try done; lia. Qed.

Lemma nan_literal_flat s v t : nan_literal s = Some (v, t) -> nesting v = 0.
Proof. intros X. unfold nan_literal in X. repeat case_match; by simplify_eq. Qed.

Lemma within_le n m r : within n r -> n <= m -> within m r.
Proof. destruct r as [[v t]|e]; cbn; [lia|done]. Qed.

Lemma shallow_value n : shallow n -> forall room s, within room (read_value (S n) room s).
Proof.
  intros (_ & He & Hm) room s. destruct s as [|c s1]; [done|]. cbn [read_value].
  destruct (c =? QUOTE)%N; [destruct (scan_string s1 []) as [[]|]; cbn; [lia|done]|].
  destruct (c =? 123)%N.
  { destruct room as [|room]; [done|]. destruct (skip_ws s1); [done|]. destruct (_ =? 125)%N; [cbn; lia|]. by apply Hm. }
  destruct (c =? 91)%N.
  { destruct room as [|room]; [done|]. destruct (skip_ws s1); [done|]. destruct (_ =? 93)%N; [cbn; lia|]. by apply He. }
  destruct (startswith _ (py "null")); [cbn; lia|]. destruct (startswith _ (py "true")); [cbn; lia|].
  destruct (startswith _ (py "false")); [cbn; lia|]. destruct (nan_literal _) as [[v t]|] eqn:E4.
  - apply nan_literal_flat in E4. cbn. lia.
  - eapply within_le; [apply read_number_flat|lia].
Qed.

Lemma shallow_elements n : shallow n -> forall room s acc, Forall (fun v => nesting v <= room) acc ->
  within (S room) (read_elements (S n) room s acc).
Proof.
  intros (Hv & He & _) room s acc F. cbn [read_elements]. specialize (Hv room s).
  destruct (read_value n room s) as [[v t]|e]; [|done]. cbn [mbind result_mbind result_bind fst snd]. cbn [within] in Hv.
  destruct (skip_ws t) as [|d r]; [done|]. destruct (d =? 93)%N.
  - cbn [within]. apply nesting_arr_le. apply Forall_rev. by constructor.
  - destruct (d =? 44)%N; [|done]. apply He. by constructor.
Qed.

Lemma shallow_members n : shallow n -> forall room s (acc : list (list N * pyjson)),
  Forall (fun kv => nesting kv.2 <= room) acc -> within (S room) (read_members (S n) room s acc).
Proof.
  intros (Hv & _ & Hm) room s acc F. cbn [read_members]. destruct s as [|c s1]; [done|].
  destruct (c =? QUOTE)%N; cbn [negb]; [|done]. destruct (scan_string s1 []) as [[k t]|e]; [|done].
  cbn [mbind result_mbind result_bind fst snd]. destruct (skip_ws t) as [|d r1]; [done|].
  destruct (d =? 58)%N; cbn [negb]; [|done]. specialize (Hv room (skip_ws r1)).
  destruct (read_value n room (skip_ws r1)) as [[v u]|e]; [|done]. cbn [mbind result_mbind result_bind fst snd]. cbn [within] in Hv.
  destruct (skip_ws u) as [|d' r2]; [done|]. destruct (d' =? 125)%N.
  - cbn [within]. apply nesting_obj_le, nesting_dict_of, Forall_rev. by constructor.
  - destruct (d' =? 44)%N; [|done]. apply Hm. by constructor.
Qed.

Lemma read_shallow n : shallow n.
Proof.
  induction n as [|n IH]; [by repeat split|].
  repeat split; intros; [by apply shallow_value|by apply shallow_elements|by apply shallow_members].
Qed.

(** [json.loads] always answers: on every text, whatever the recursion limit, the
    model returns a value, nested no deeper than the limit, or one of Python's
    exceptions ([ValueError] or [RecursionError]); it never stops for lack of
    fuel. *)
Lemma py_loads_total room text :
  match py_loads room text with
  | Ok v => nesting v <= room
  | Raise e => e = JValueError \/ e = JRecursionError \/ e = JArithmeticError
  end.
Proof.
  assert (H : match py_loads room text with Ok v => nesting v <= room | Raise e => e <> JFuel end).
  { unfold py_loads. destruct (startswith text _); [done|]. pose proof (skip_ws_length text).
    pose proof (proj1 (fuel_is_enough (json_fuel text)) room (skip_ws text) ltac:(unfold json_fuel; lia)) as A.
    pose proof (proj1 (read_shallow (json_fuel text)) room (skip_ws text)) as B.
    destruct (read_value _ _ _) as [[v t]|e]; cbn [advances within mbind result_mbind result_bind snd fst] in *; [|exact A].
    by destruct (skip_ws t). }
  destruct (py_loads room text) as [v|[]]; first [done|congruence|auto].
Qed.
