(* ===== verification/Errors.v ===== *)
(** * Errors ([errors.py] and the exceptions of the other modules)

    [exn_class] lists the exception classes the gateway raises or catches and
    [bases] their direct base classes, so that [isinstance] and the order of
    [except] clauses can be followed.  [exn] is an exception instance: most
    carry nothing but a fixed message. *)
From S2P Require Import Prelude PyStr PyFloat PyDecimal Schemas.

Inductive GatewayErrorCategory :=
| NOT_CONFIGURED | AUTHENTICATION | INVALID_MODEL | INVALID_REQUEST | CONTEXT_LIMIT | RATE_LIMIT
| TIMEOUT | UPSTREAM | MALFORMED_RESPONSE | MISSING_USAGE | EMPTY_RESPONSE | OUTPUT_BUDGET_EXHAUSTION.

#[export] Instance GatewayErrorCategory_eq_dec : EqDecision GatewayErrorCategory.
Proof. solve_decision. Defined.

Definition GatewayErrorCategory_value (c : GatewayErrorCategory) : pystr :=
  match c with
  | NOT_CONFIGURED => py "gateway_not_configured"
  | AUTHENTICATION => py "gateway_authentication"
  | INVALID_MODEL => py "gateway_invalid_model"
  | INVALID_REQUEST => py "gateway_invalid_request"
  | CONTEXT_LIMIT => py "context_limit_exceeded"
  | RATE_LIMIT => py "gateway_rate_limit"
  | TIMEOUT => py "gateway_timeout"
  | UPSTREAM => py "gateway_upstream"
  | MALFORMED_RESPONSE => py "gateway_malformed_response"
  | MISSING_USAGE => py "gateway_missing_usage"
  | EMPTY_RESPONSE => py "gateway_empty_response"
  | OUTPUT_BUDGET_EXHAUSTION => py "output_budget_exhaustion"
  end.

(** Values of a diagnostics dictionary. *)
Inductive diag_value :=
| DStr (s : pystr) | DInt (z : Z) | DFloat (f : float) | DBool (b : bool)
| DDecimal (d : decimal) (* printed with [str] *).

#[export] Instance diag_value_eq_dec : EqDecision diag_value.
Proof. solve_decision. Defined.

Notation diagnostics := (list (list N * diag_value)) (only parsing).

Inductive exn_class :=
| C_BaseException | C_Exception | C_CancelledError
| C_ValueError | C_TypeError | C_LookupError | C_KeyError | C_IndexError | C_RuntimeError | C_RecursionError
| C_AssertionError | C_AttributeError | C_OSError | C_TimeoutError | C_FileNotFoundError
| C_ArithmeticError | C_OverflowError | C_ValidationError | C_PermissionError
| C_RedisError | C_HttpTimeoutException | C_HttpRequestError | C_UnicodeError
| C_ModelDisabledError | C_ContextLimitError | C_ProviderUnavailableError | C_ProviderFailureError
| C_AdaptiveRoutingUnavailableError | C_InferenceDeadlineExceededError | C_RateLimitExceededError
| C_RateLimitUnavailableError | C_GatewayError | C_CompletionRejectedError
| C_ResponseValidationError | C_EvaluationNotFoundError | C_EvaluationArtifactError
| C_RoutingPolicyError | C_NoEligibleCandidatesError | C_InvalidQualityThresholdError
| C_RequestLimitExceededError | C_InvalidActivityCursorError | C_DuplicateCandidatePredictionError
| C_QualityPredictorError | C_PredictorInputCompatibilityError | C_MissingRoutingCategoryError
| C_UnsupportedPredictorCandidateError | C_PredictorArtifactError | C_PredictorArtifactNotFoundError
| C_CorruptPredictorArtifactError | C_IncompatibleArtifactFormatError
| C_IncompatiblePredictorFormulationError | C_IncompatibleFeatureSchemaError
| C_IncompatibleCategoryTaxonomyError | C_PredictorArtifactChecksumError
| C_DuplicateModelError | C_ModelNotFoundError | C_TelemetryUnavailableError | C_StopIteration.

#[export] Instance exn_class_eq_dec : EqDecision exn_class.
Proof. solve_decision. Defined.

(** The base classes of each class statement. *)
Definition bases (c : exn_class) : list exn_class :=
  match c with
  | C_BaseException => []
  | C_Exception | C_CancelledError => [C_BaseException]
  | C_ValueError | C_TypeError | C_LookupError | C_RuntimeError | C_AssertionError | C_AttributeError | C_OSError
  | C_ArithmeticError | C_RedisError | C_StopIteration => [C_Exception]
  | C_KeyError | C_IndexError => [C_LookupError]
  | C_TimeoutError | C_FileNotFoundError | C_PermissionError => [C_OSError]
  | C_OverflowError => [C_ArithmeticError]
  | C_ValidationError | C_UnicodeError => [C_ValueError]
  | C_HttpTimeoutException => [C_HttpRequestError]
  | C_HttpRequestError => [C_Exception]
  | C_ModelDisabledError | C_ContextLimitError => [C_ValueError]
  | C_ProviderUnavailableError | C_ProviderFailureError | C_AdaptiveRoutingUnavailableError
  | C_InferenceDeadlineExceededError | C_RateLimitExceededError | C_RateLimitUnavailableError
  | C_ResponseValidationError | C_QualityPredictorError | C_TelemetryUnavailableError | C_RecursionError =>
      [C_RuntimeError]
  | C_GatewayError => [C_ProviderFailureError]
  | C_CompletionRejectedError => [C_GatewayError]
  | C_EvaluationNotFoundError => [C_FileNotFoundError]
  | C_EvaluationArtifactError | C_RoutingPolicyError | C_RequestLimitExceededError
  | C_InvalidActivityCursorError | C_DuplicateModelError => [C_ValueError]
  | C_NoEligibleCandidatesError | C_InvalidQualityThresholdError
  | C_DuplicateCandidatePredictionError => [C_RoutingPolicyError]
  | C_PredictorInputCompatibilityError => [C_QualityPredictorError; C_ValueError]
  | C_MissingRoutingCategoryError | C_UnsupportedPredictorCandidateError =>
      [C_PredictorInputCompatibilityError]
  | C_PredictorArtifactError => [C_QualityPredictorError]
  | C_PredictorArtifactNotFoundError => [C_PredictorArtifactError; C_FileNotFoundError]
  | C_CorruptPredictorArtifactError | C_IncompatibleArtifactFormatError
  | C_IncompatiblePredictorFormulationError | C_IncompatibleFeatureSchemaError
  | C_IncompatibleCategoryTaxonomyError | C_PredictorArtifactChecksumError =>
      [C_PredictorArtifactError]
  | C_ModelNotFoundError => [C_KeyError]
  end.

(** [issubclass]: the hierarchy is at most seven classes deep. *)
Fixpoint subclass_fuel (fuel : nat) (c d : exn_class) : bool :=
  bool_decide (c = d) ||
  match fuel with
  | O => false
  | S fuel' => existsb (fun b => subclass_fuel fuel' b d) (bases c)
  end.

Definition subclass (c d : exn_class) : bool := subclass_fuel 8 c d.

(** Exception instances.  [Exn c] is an instance of [c] without state that the
    program reads. *)
Inductive exn :=
| Exn (c : exn_class)
| RateLimitExceededError (retry_after_seconds : Z) (scope : pystr)
| RequestLimitExceededError (message : pystr)
| GatewayError (category : GatewayErrorCategory) (diag : diagnostics)
| CompletionRejectedError (category : GatewayErrorCategory) (completion : InferenceResponse)
    (diag : diagnostics).

#[export] Instance exn_eq_dec : EqDecision exn.
Proof. solve_decision. Defined.

Definition class_of (e : exn) : exn_class :=
  match e with
  | Exn c => c
  | RateLimitExceededError _ _ => C_RateLimitExceededError
  | RequestLimitExceededError _ => C_RequestLimitExceededError
  | GatewayError _ _ => C_GatewayError
  | CompletionRejectedError _ _ _ => C_CompletionRejectedError
  end.

Definition isinstance (e : exn) (c : exn_class) : bool := subclass (class_of e) c.

(** The constructor of [CompletionRejectedError] accepts two categories. *)
Definition mk_CompletionRejectedError (c : GatewayErrorCategory) (completion : InferenceResponse)
    (diag : diagnostics) : exn :=
  if bool_decide (c = EMPTY_RESPONSE) || bool_decide (c = OUTPUT_BUDGET_EXHAUSTION)
  then CompletionRejectedError c completion diag
  else Exn C_ValueError.

(** [exc.category] and [exc.completion] where they exist. *)
Definition gateway_category (e : exn) : option GatewayErrorCategory :=
  match e with
  | GatewayError c _ | CompletionRejectedError c _ _ => Some c
  | _ => None
  end.

Definition rejected_completion (e : exn) : option InferenceResponse :=
  match e with CompletionRejectedError _ r _ => Some r | _ => None end.

(** A failing pydantic validator surfaces as [ValidationError]. *)
Definition validated {A : Type} (r : result pystr A) : result exn A :=
  match r with Ok a => Ok a | Raise _ => Raise (Exn C_ValidationError) end.

(** A [ValueError] raised directly with its message. *)
Definition value_error {A : Type} (r : result pystr A) : result exn A :=
  match r with Ok a => Ok a | Raise _ => Raise (Exn C_ValueError) end.

Definition decimal_error {A : Type} (r : result decimal_exn A) : result exn A :=
  match r with Ok a => Ok a | Raise _ => Raise (Exn C_ArithmeticError) end.

(** Exceptions caught by [except Exception]. *)
Definition is_exception (e : exn) : bool := isinstance e C_Exception.

(** ** Lemmas *)

Lemma subclass_refl c : subclass c c = true.
Proof. unfold subclass. cbn [subclass_fuel]. rewrite bool_decide_eq_true_2; done. Qed.

(** Every class but [CancelledError] (and [BaseException]) is an [Exception]. *)
Lemma is_exception_spec e :
  is_exception e = false <-> class_of e = C_CancelledError \/ class_of e = C_BaseException.
Proof. unfold is_exception, isinstance. destruct (class_of e); vm_compute; intuition discriminate. Qed.

Lemma validated_ok {A} (r : result pystr A) a : validated r = Ok a -> r = Ok a.
Proof. destruct r; simpl; intros; by inv_result. Qed.

Lemma rejected_is_gateway e r : rejected_completion e = Some r -> isinstance e C_GatewayError = true.
Proof. destruct e; simpl; try discriminate. intros _. by vm_compute. Qed.
