(* ===== verification/Registry.v ===== *)
(** * Model registry and provider resolver
    ([registry/model_registry.py], [providers/resolver.py]) *)
From S2P Require Import Prelude PyStr PyDecimal Schemas Errors.

(** ** [ModelRegistry]: a dictionary from model identifier to configuration *)
Module ModelRegistry.

Record t := mk { models : list (list N * ModelConfig) }.

(** [__init__] *)
Definition empty : t := mk [].

Definition register (r : t) (m : ModelConfig) : result exn t :=
  if dict_mem (models r) (model_id m) then Raise (Exn C_DuplicateModelError)
  else Ok (mk (dict_set (models r) (model_id m) m)).

Definition get (r : t) (id : pystr) : result exn ModelConfig :=
  match dict_get (models r) id with
  | Some m => Ok m
  | None => Raise (Exn C_ModelNotFoundError)
  end.

Definition list_models (r : t) : list ModelConfig := dict_values (models r).

Definition list_enabled_models (r : t) : list ModelConfig :=
  List.filter enabled (dict_values (models r)).

(** Registration of a sequence of models, as the composition root does. *)
Fixpoint register_all (r : t) (ms : list ModelConfig) : result exn t :=
  match ms with
  | [] => Ok r
  | m :: ms' => r' ← register r m; register_all r' ms'
  end.

(** Keys are the identifiers of the stored models, without repetition. *)
Definition wf (r : t) : Prop :=
  NoDup (dict_keys (models r)) /\ Forall (fun km => km.1 = model_id km.2) (models r).

Lemma wf_empty : wf empty.
Proof. split; constructor. Qed.

Lemma register_wf r m r' : wf r -> register r m = Ok r' -> wf r'.
Proof.
  unfold register. intros [Hn Hf] H. destruct (dict_mem _ _) eqn:E; inv_result.
  apply dict_mem_false in E. split; simpl.
  - by apply dict_keys_set_nodup.
  - rewrite dict_set_fresh by done. apply Forall_app. by repeat constructor.
Qed.

Lemma register_all_wf ms : forall r r', wf r -> register_all r ms = Ok r' -> wf r'.
Proof.
  induction ms as [|m ms IH]; intros r r' Hr H; [by injection H as <-|].
  apply bind_ok in H as (r1 & H1 & H2). apply (IH r1); [by apply (register_wf r m)|done].
Qed.

Lemma register_appends r m r' : register r m = Ok r' -> list_models r' = list_models r ++ [m].
Proof.
  unfold register, list_models, dict_values. intros H. destruct (dict_mem _ _) eqn:E; inv_result.
  apply dict_mem_false in E. simpl. by rewrite dict_set_fresh, fmap_app.
Qed.

Lemma get_register r m r' id : register r m = Ok r' ->
  get r' id = if decide (id = model_id m) then Ok m else get r id.
Proof.
  unfold register, get. intros H. destruct (dict_mem _ _) eqn:E; inv_result. simpl.
  rewrite dict_get_set. by destruct (decide (id = model_id m)).
Qed.

Lemma get_in r id m : wf r -> get r id = Ok m <-> m ∈ list_models r /\ model_id m = id.
Proof.
  unfold get, list_models, dict_values. intros [Hn Hf]. split.
  - intros H. destruct (dict_get (models r) id) as [m'|] eqn:E; inv_result.
    apply dict_get_some_in in E. split; [by apply (list_elem_of_fmap_2 snd) in E|].
    rewrite Forall_forall in Hf. by specialize (Hf _ E).
  - intros [H <-]. apply list_elem_of_fmap in H as ([k m'] & -> & Hin).
    rewrite Forall_forall in Hf. specialize (Hf _ Hin) as Hk. simpl in *. subst k.
    by rewrite (dict_get_nodup _ _ m').
Qed.

End ModelRegistry.

(** ** [ProviderResolver]: a dictionary from provider name to adapter factory *)
Module ProviderResolver.
Section Factories.
(** An adapter factory takes a model; [F] is the type of factories. *)
Context {F : Type}.

Record t := mk { factories : list (list N * F) }.

Definition empty : t := mk [].

Definition register (r : t) (provider : pystr) (factory : F) : result exn t :=
  let provider := strip provider in
  match provider with
  | [] => Raise (Exn C_ValueError)
  | _ =>
      if dict_mem (factories r) provider then Raise (Exn C_ValueError)
      else Ok (mk (dict_set (factories r) provider factory))
  end.

Definition supports (r : t) (provider : pystr) : bool := dict_mem (factories r) provider.

(** The factory [resolve] applies; applying it is the caller's effect. *)
Definition resolve (r : t) (m : ModelConfig) : result exn F :=
  match dict_get (factories r) (provider m) with
  | Some f => Ok f
  | None => Raise (Exn C_ProviderUnavailableError)
  end.

Lemma supports_resolve r m :
  supports r (provider m) = true <-> exists f, resolve r m = Ok f.
Proof.
  unfold supports, resolve, dict_mem.
  destruct (dict_get _ _) as [f|]; split; try done; [intros; by exists f|intros [? ?]; discriminate].
Qed.

Lemma resolve_raise r m e : resolve r m = Raise e -> e = Exn C_ProviderUnavailableError.
Proof. unfold resolve. intros H. case_all. by inv_result. Qed.

Lemma register_supports r p f r' q : register r p f = Ok r' ->
  supports r' q = supports r q || bool_decide (q = strip p).
Proof.
  unfold register, supports, dict_mem. intros H. destruct (strip p) as [|c s] eqn:Ep; [done|].
  destruct (dict_get (factories r) _) eqn:E; inv_result. simpl. rewrite dict_get_set.
  case_decide as D; [rewrite (bool_decide_eq_true_2 _ D)|rewrite (bool_decide_eq_false_2 _ D)].
  - by rewrite orb_true_r.
  - by rewrite orb_false_r.
Qed.
End Factories.
Arguments t : clear implicits.
End ProviderResolver.
