(* ===== verification/Pricing.v ===== *)
(** * Pricing ([pricing/calculator.py])

    The cost of a call in decimal arithmetic under the context precision the
    code computes, and the proof that this precision never rounds. *)
From S2P Require Import Prelude PyStr PyFloat PyDecimal Schemas Errors.

(** [str(n)] of an integer and of no more digits than CPython converts by
    default, [sys.int_info.default_max_str_digits]. *)
Definition MAX_STR_DIGITS : Z := 4300.

Definition printable (n : Z) : bool := (Z.of_nat (length (N_to_str (Z.abs_N n))) <=? MAX_STR_DIGITS)%Z.

Definition str_of_int (n : Z) : result exn pystr :=
  _ ← guard_else (printable n) (Exn C_ValueError); Ok (Z_to_str n).

(** The digits that rates and counts reserve, from the texts of the counts. *)
Definition digits_for (m : ModelConfig) (input_text output_text : pystr) : Z :=
  let rate_digits r := (Z.of_nat (ndigits (d_coef r)) + Z.abs (d_exp r))%Z in
  (rate_digits (input_cost_per_1m_tokens m) + rate_digits (output_cost_per_1m_tokens m)
   + Z.of_nat (Nat.max (length input_text) (length output_text))
   + 10)%Z.

(** [required_digits] *)
Definition required_digits (m : ModelConfig) (input_tokens output_tokens : Z) : result exn Z :=
  i ← str_of_int input_tokens;
  o ← str_of_int output_tokens;
  Ok (digits_for m i o).

(** The largest precision a context takes, [decimal.MAX_PREC]. *)
Definition MAX_PREC : Z := 999999999999999999.

(** [calculate_cost]; the token counts are integers. *)
Definition calculate_cost (input_tokens output_tokens : Z) (m : ModelConfig) : result exn decimal :=
  _ ← guard_else (0 <=? input_tokens)%Z (Exn C_ValueError);
  _ ← guard_else (0 <=? output_tokens)%Z (Exn C_ValueError);
  required ← required_digits m input_tokens output_tokens;
  _ ← guard_else (required <=? MAX_PREC)%Z (Exn C_ValueError);
  let prec := Nat.max 28 (Z.to_nat required) in
  decimal_error
    (a ← d_mul prec (input_cost_per_1m_tokens m) (d_of_Z input_tokens);
     b ← d_mul prec (output_cost_per_1m_tokens m) (d_of_Z output_tokens);
     s ← d_add prec a b;
     d_div prec s (d_of_Z 1000000)).

(** [calculate_projected_cost] *)
Definition calculate_projected_cost (approximate_input_tokens effective_max_output_tokens : Z)
    (m : ModelConfig) : result exn decimal :=
  calculate_cost approximate_input_tokens effective_max_output_tokens m.

(** The number [i * in_price + o * out_price] in units of [10^e]; [e + 6] is
    below the exponents of both prices. *)
Definition cost_units (m : ModelConfig) (i o : Z) (e : Z) : Z :=
  (i * d_scaled (input_cost_per_1m_tokens m) (e + 6) +
   o * d_scaled (output_cost_per_1m_tokens m) (e + 6))%Z.

(** ** Exactness *)

(** The digits reserved for two counts, whatever their length. *)
Definition reserved_digits (m : ModelConfig) (i o : Z) : Z := digits_for m (Z_to_str i) (Z_to_str o).

Definition rates_ok (m : ModelConfig) : Prop :=
  (0 <= d_int (input_cost_per_1m_tokens m))%Z /\ (0 <= d_int (output_cost_per_1m_tokens m))%Z.

Lemma ndigits_of_Z z : (0 <= z)%Z -> ndigits (d_coef (d_of_Z z)) = length (Z_to_str z).
Proof.
  intros H. unfold d_of_Z, Z_to_str, ndigits. simpl.
  destruct (Z.ltb_spec z 0); [lia|]. do 2 f_equal. lia.
Qed.

Lemma d_int_of_Z z : d_int (d_of_Z z) = z.
Proof. unfold d_int, d_of_Z. simpl. destruct (Z.ltb_spec z 0); lia. Qed.

Lemma d_int_mul_exact a b : d_int (d_mul_exact a b) = (d_int a * d_int b)%Z.
Proof. unfold d_int, d_mul_exact. simpl. destruct (d_neg a), (d_neg b); simpl; lia. Qed.

Lemma d_int_add_exact a b :
  d_int (d_add_exact a b) =
  (d_scaled a (Z.min (d_exp a) (d_exp b)) + d_scaled b (Z.min (d_exp a) (d_exp b)))%Z.
Proof.
  unfold d_int, d_add_exact. cbn [d_neg d_coef]. set (s := (_ + _)%Z).
  destruct (Z.eqb_spec s 0) as [->|]; [by destruct (d_neg a && d_neg b)|].
  destruct (Z.ltb_spec s 0); lia.
Qed.

(** The precision suffices for the product of a rate and a count. *)
Lemma d_mul_fits prec r n :
  (0 <= n)%Z ->
  (Z.of_nat (ndigits (d_coef r)) + Z.abs (d_exp r) + Z.of_nat (length (Z_to_str n)) + 1 <= Z.of_nat prec)%Z ->
  (Z.of_nat prec <= Emax)%Z ->
  d_mul prec r (d_of_Z n) = Ok (d_mul_exact r (d_of_Z n)).
Proof.
  intros Hn Hp He. unfold d_mul. pose proof (ndigits_mul (d_coef r) (d_coef (d_of_Z n))) as Hd.
  rewrite ndigits_of_Z in Hd by done.
  apply d_fix_id; cbn [d_mul_exact d_coef d_exp d_of_Z]; cbn [d_of_Z d_coef] in Hd;
    unfold Etiny, Emin in *; lia.
Qed.

(** ... and for the sum of two such products. *)
Lemma ndigits_add_exact a b :
  (Z.of_nat (ndigits (d_coef (d_add_exact a b))) <=
   1 + Z.max (Z.of_nat (ndigits (d_coef a)) + (d_exp a - Z.min (d_exp a) (d_exp b)))
             (Z.of_nat (ndigits (d_coef b)) + (d_exp b - Z.min (d_exp a) (d_exp b))))%Z.
Proof.
  cbn [d_add_exact d_coef]. set (m := Z.min (d_exp a) (d_exp b)).
  assert (L : (Z.abs_N (d_scaled a m + d_scaled b m) <=
               d_coef a * pow10 (d_exp a - m) + d_coef b * pow10 (d_exp b - m))%N).
  { unfold d_scaled, d_int. destruct (d_neg a), (d_neg b); lia. }
  apply ndigits_mono in L. pose proof (ndigits_add (d_coef a * pow10 (d_exp a - m))
    (d_coef b * pow10 (d_exp b - m))).
  pose proof (ndigits_pow10 (d_coef a) (d_exp a - m)).
  pose proof (ndigits_pow10 (d_coef b) (d_exp b - m)). lia.
Qed.

Lemma d_add_fits prec a b :
  (1 + Z.of_nat (Nat.max (ndigits (d_coef a)) (ndigits (d_coef b)))
   + Z.abs (d_exp a) + Z.abs (d_exp b) <= Z.of_nat prec)%Z ->
  (Z.of_nat prec <= Emax)%Z ->
  d_add prec a b = Ok (d_add_exact a b).
Proof.
  intros Hp He. unfold d_add. pose proof (ndigits_add_exact a b) as Hd.
  apply d_fix_id; [lia|cbn [d_add_exact d_exp]; unfold Etiny, Emin in *; lia|].
  revert Hd. cbn [d_add_exact d_exp]. lia.
Qed.

(** Division by one million moves the point by six places. *)
Lemma d_div_million prec s :
  (Z.of_nat (ndigits (d_coef s)) <= Z.of_nat prec)%Z -> (Z.of_nat prec <= Emax)%Z ->
  (0 <= d_int s)%Z -> (Z.abs (d_exp s) + 6 <= Z.of_nat prec)%Z ->
  (d_exp s + Z.of_nat (ndigits (d_coef s)) - 1 <= Emax)%Z ->
  exists r, d_div prec s (d_of_Z 1000000) = Ok r /\ (0 <= d_int r)%Z /\
    forall e, (e + 6 <= d_exp s)%Z -> (e <= d_exp r)%Z /\ d_scaled r e = d_scaled s (e + 6).
Proof.
  intros Hn He Hs Hx Ha. destruct s as [sg c x]; cbn [d_coef d_exp] in *.
  destruct (N.eq_0_gt_0_cases c) as [->|Hc].
  - exists (mk_decimal sg 0 x). split; [|split].
    + unfold d_div. cbn [d_coef d_neg d_exp d_of_Z].
      change (Z.abs_N 1000000 =? 0)%N with false. cbv iota. rewrite N.eqb_refl, Z.sub_0_r.
      change (1000000 <? 0)%Z with false. rewrite xorb_false_r.
      apply d_fix_id; cbn [d_coef d_exp]; unfold Etiny, Emin in *; lia.
    + unfold d_int. simpl. by destruct sg.
    + intros e Hle. cbn [d_exp]. split; [lia|]. unfold d_scaled, d_int. simpl. by destruct sg.
  - assert (sg = false) as -> by (destruct sg; [unfold d_int in Hs; simpl in Hs; lia|done]).
    change (d_of_Z 1000000) with (mk_decimal false (pow10 6) 0).
    destruct (d_div_pow10 prec false c x 6) as (r & Hr & Hsg & Hre & Hval);
      [lia|lia|lia|unfold Etiny, Emin in *; lia|lia|].
    exists r. split; [done|]. split; [unfold d_int; rewrite Hsg; lia|].
    intros e Hle. split; [lia|]. unfold d_scaled, d_int. rewrite Hsg. cbn [d_neg d_coef d_exp].
    rewrite Hval. replace (d_exp r - e)%Z with (d_exp r - (x - 6) + (x - (e + 6)))%Z by lia.
    rewrite pow10_add by lia. lia.
Qed.

(** The cost of counts at the rates [ri] and [ro], in a precision [prec]. *)
Definition cost_in (prec : nat) (ri ro : decimal) (i o : Z) : result decimal_exn decimal :=
  a ← d_mul prec ri (d_of_Z i);
  b ← d_mul prec ro (d_of_Z o);
  s ← d_add prec a b;
  d_div prec s (d_of_Z 1000000).

(** A precision with room for the digits of rates and counts never rounds. *)
Lemma cost_in_exact prec i o m :
  rates_ok m -> (0 <= i)%Z -> (0 <= o)%Z -> (reserved_digits m i o <= Z.of_nat prec <= Emax)%Z ->
  exists c, cost_in prec (input_cost_per_1m_tokens m) (output_cost_per_1m_tokens m) i o = Ok c /\ (0 <= d_int c)%Z /\
    forall e, (e + 6 <= d_exp (input_cost_per_1m_tokens m))%Z ->
              (e + 6 <= d_exp (output_cost_per_1m_tokens m))%Z ->
              (e <= d_exp c)%Z /\ d_scaled c e = cost_units m i o e.
Proof.
  intros [Hri Hro] Hi Ho Hp. unfold cost_in.
  set (R := reserved_digits m i o) in *.
  set (ri := input_cost_per_1m_tokens m) in *. set (ro := output_cost_per_1m_tokens m) in *.
  assert (HRd : R = (Z.of_nat (ndigits (d_coef ri)) + Z.abs (d_exp ri) +
    (Z.of_nat (ndigits (d_coef ro)) + Z.abs (d_exp ro)) +
    Z.of_nat (Nat.max (length (Z_to_str i)) (length (Z_to_str o))) + 10)%Z) by done.
  clearbody R.
  rewrite (d_mul_fits prec ri i) by lia. rewrite (d_mul_fits prec ro o) by lia. cbn -[d_add d_div d_of_Z].
  set (a := d_mul_exact ri (d_of_Z i)). set (b := d_mul_exact ro (d_of_Z o)).
  pose proof (ndigits_mul (d_coef ri) (d_coef (d_of_Z i))) as Ha. rewrite ndigits_of_Z in Ha by done.
  pose proof (ndigits_mul (d_coef ro) (d_coef (d_of_Z o))) as Hb. rewrite ndigits_of_Z in Hb by done.
  assert (Ea : d_exp a = d_exp ri) by (cbn; lia). assert (Eb : d_exp b = d_exp ro) by (cbn; lia).
  assert (Ia : d_int a = (d_int ri * i)%Z) by (unfold a; by rewrite d_int_mul_exact, d_int_of_Z).
  assert (Ib : d_int b = (d_int ro * o)%Z) by (unfold b; by rewrite d_int_mul_exact, d_int_of_Z).
  change (d_coef ri * d_coef (d_of_Z i))%N with (d_coef a) in Ha.
  change (d_coef ro * d_coef (d_of_Z o))%N with (d_coef b) in Hb.
  clearbody a b.
  rewrite (d_add_fits prec a b) by lia. cbn -[d_div d_of_Z d_add_exact].
  pose proof (ndigits_add_exact a b) as Hs. pose proof (d_int_add_exact a b) as Is.
  assert (Es : d_exp (d_add_exact a b) = Z.min (d_exp ri) (d_exp ro)) by (cbn; lia).
  set (s := d_add_exact a b) in *. clearbody s. rewrite Ea, Eb in *.
  destruct (d_div_million prec s) as (r & Hr & Hpos & Hval); [lia|lia| |lia|lia|].
  { rewrite Is. unfold d_scaled. nia. }
  exists r. rewrite Hr. split; [done|]. split; [done|]. intros e H1 H2.
  destruct (Hval e) as [Hle Hsc]; [lia|]. split; [done|]. rewrite Hsc. unfold cost_units. fold ri ro.
  unfold d_scaled at 1. rewrite Is, Es. unfold d_scaled. rewrite Ea, Eb, Ia, Ib.
  set (mn := Z.min _ _) in *.
  replace (d_exp ri - (e + 6))%Z with (d_exp ri - mn + (mn - (e + 6)))%Z by lia.
  replace (d_exp ro - (e + 6))%Z with (d_exp ro - mn + (mn - (e + 6)))%Z by lia.
  rewrite !pow10_add by lia. lia.
Qed.

Lemma printable_text n : (0 <= n)%Z -> printable n = (Z.of_nat (length (Z_to_str n)) <=? MAX_STR_DIGITS)%Z.
Proof. intros H. unfold printable, Z_to_str. rewrite (proj2 (Z.ltb_ge n 0) H). by rewrite Zabs2N.abs_N_nonneg. Qed.

(** A count with few reserved digits is printable. *)
Lemma reserved_printable m i o : (0 <= i)%Z -> (0 <= o)%Z -> (reserved_digits m i o <= MAX_STR_DIGITS)%Z ->
  printable i = true /\ printable o = true.
Proof. intros Hi Ho. rewrite !printable_text by done. unfold reserved_digits, digits_for, MAX_STR_DIGITS. split; apply Z.leb_le; lia. Qed.

Lemma required_digits_of m i o : required_digits m i o =
  if printable i && printable o then Ok (reserved_digits m i o) else Raise (Exn C_ValueError).
Proof. unfold required_digits, str_of_int. destruct (printable i); cbn [guard_else]; rsimpl; [|done]. by destruct (printable o). Qed.

Lemma calculate_cost_steps i o m :
  rates_ok m -> (0 <= i)%Z -> (0 <= o)%Z -> printable i = true -> printable o = true -> (reserved_digits m i o <= Emax)%Z ->
  exists c, calculate_cost i o m = Ok c /\ (0 <= d_int c)%Z /\
    forall e, (e + 6 <= d_exp (input_cost_per_1m_tokens m))%Z ->
              (e + 6 <= d_exp (output_cost_per_1m_tokens m))%Z ->
              (e <= d_exp c)%Z /\ d_scaled c e = cost_units m i o e.
Proof.
  intros Hm Hi Ho Pi Po HR. destruct (cost_in_exact (Nat.max 28 (Z.to_nat (reserved_digits m i o))) i o m Hm Hi Ho)
    as (c & Hc & Hp); [unfold Emax in *; lia|]. exists c. split; [|exact Hp].
  unfold calculate_cost. rewrite required_digits_of, Pi, Po. unfold guard_else. rewrite !(proj2 (Z.leb_le 0 _)) by done. cbn [andb]. rsimpl.
  rewrite (proj2 (Z.leb_le _ MAX_PREC)) by (unfold MAX_PREC, Emax in *; lia). rsimpl. cbv zeta.
  unfold cost_in in Hc. rewrite Hc. done.
Qed.

(** What it returns was computed from printable counts. *)
Lemma calculate_cost_printable i o m c : calculate_cost i o m = Ok c -> printable i = true /\ printable o = true.
Proof.
  unfold calculate_cost. rewrite required_digits_of. intros H. apply bind_ok in H as (? & _ & H). apply bind_ok in H as (? & _ & H).
  apply bind_ok in H as (r & R & _). by destruct (printable i), (printable o).
Qed.

(** C37. [calculate_cost] never rounds: while the digits it reserves stay below the
    exponent range of decimal contexts, it returns a nonnegative decimal equal to
    [(input_tokens * input_price + output_tokens * output_price) / 10^6] to the
    last digit for exactly the nonnegative counts of at most 4300 digits, which
    is what [str] converts; for all others it raises [ValueError]. *)
Theorem calculate_cost_exact i o m :
  rates_ok m -> (reserved_digits m i o <= Emax)%Z ->
  if (0 <=? i)%Z && (0 <=? o)%Z && printable i && printable o
  then exists c, calculate_cost i o m = Ok c /\ Money_ok c = true /\
         forall e, (e + 6 <= d_exp (input_cost_per_1m_tokens m))%Z ->
                   (e + 6 <= d_exp (output_cost_per_1m_tokens m))%Z ->
                   (e <= d_exp c)%Z /\ d_scaled c e = cost_units m i o e
  else calculate_cost i o m = Raise (Exn C_ValueError).
Proof.
  intros Hr HR. destruct (Z.leb_spec 0 i) as [Hi|Hi]; cbn [andb].
  2: { unfold calculate_cost. by rewrite (proj2 (Z.leb_gt 0 i)). }
  destruct (Z.leb_spec 0 o) as [Ho|Ho]; cbn [andb].
  2: { unfold calculate_cost. by rewrite (proj2 (Z.leb_le 0 i)), (proj2 (Z.leb_gt 0 o)). }
  destruct (printable i && printable o) eqn:P.
  - apply andb_prop in P as [Pi Po]. destruct (calculate_cost_steps i o m Hr Hi Ho Pi Po HR) as (c & Hc & Hp & Hv).
    exists c. repeat split; try done; [by apply d_nonneg_int|by apply Hv..].
  - unfold calculate_cost. by rewrite required_digits_of, P, !(proj2 (Z.leb_le 0 _)).
Qed.

Definition example_model : ModelConfig :=
  mk_ModelConfig (py "fake-small") (py "fake") (py "echo-v1")
    (mk_decimal false 15 (-2)) (mk_decimal false 60 (-2)) 4096 true
    default_capabilities None GATEWAY_SHARED default_output_token_policy.

Lemma calculate_cost_exact_witness :
  (exists c, calculate_cost 3 2 example_model = Ok c /\ Money_ok c = true /\
    forall e, (e + 6 <= -2)%Z -> (e + 6 <= -2)%Z ->
      (e <= d_exp c)%Z /\ d_scaled c e = cost_units example_model 3 2 e) /\
  calculate_cost (-1) 2 example_model = Raise (Exn C_ValueError).
Proof.
  assert (R : rates_ok example_model) by (split; vm_compute; discriminate).
  split; [apply (calculate_cost_exact 3 2 example_model R); vm_compute; discriminate|].
  apply (calculate_cost_exact (-1) 2 example_model R). vm_compute. discriminate.
Defined.

(** Costs are monotone in both token counts: the comparison of projected
    costs never inverts the comparison of the token counts they come from. *)
Theorem calculate_cost_monotone i o i' o' m c c' :
  rates_ok m -> (0 <= i <= i')%Z -> (0 <= o <= o')%Z ->
  (reserved_digits m i o <= Emax)%Z -> (reserved_digits m i' o' <= Emax)%Z ->
  calculate_cost i o m = Ok c -> calculate_cost i' o' m = Ok c' -> d_leb c c' = true.
Proof.
  intros Hr [Hi Hii] [Ho Hoo] HR HR' Hc Hc'.
  destruct (calculate_cost_printable _ _ _ _ Hc) as [Pi Po]. destruct (calculate_cost_printable _ _ _ _ Hc') as [Pi' Po'].
  destruct (calculate_cost_steps i o m Hr Hi Ho Pi Po HR) as (x & Hx & _ & Hv).
  destruct (calculate_cost_steps i' o' m Hr ltac:(lia) ltac:(lia) Pi' Po' HR') as (x' & Hx' & _ & Hv').
  rewrite Hc in Hx. rewrite Hc' in Hx'. inv_result.
  set (e := (Z.min (d_exp (input_cost_per_1m_tokens m)) (d_exp (output_cost_per_1m_tokens m)) - 6)%Z).
  destruct (Hv e) as [He Hs]; [lia..|]. destruct (Hv' e) as [He' Hs']; [lia..|].
  unfold d_leb, cmp_le. rewrite (d_cmp_at x x' e), Hs, Hs' by lia.
  destruct Hr as [H1 H2]. unfold cost_units, d_scaled.
  match goal with |- context [(?a ?= ?b)%Z] => destruct (Z.compare_spec a b) as [|Hlt|Hlt]; try done end.
  exfalso. revert Hlt. apply Z.nlt_ge.
  apply Z.add_le_mono; apply Z.mul_le_mono_nonneg_r; lia || apply Z.mul_nonneg_nonneg; lia.
Qed.

Lemma calculate_cost_monotone_witness :
  exists c c', calculate_cost 3 2 example_model = Ok c /\
    calculate_cost 4 2 example_model = Ok c' /\ d_leb c c' = true.
Proof.
  eexists _, _. split; [vm_compute; reflexivity|]. split; [vm_compute; reflexivity|].
  eapply (calculate_cost_monotone 3 2 4 2 example_model);
    [split; vm_compute; discriminate|lia|lia|vm_compute; discriminate..| |]; vm_compute; reflexivity.
Defined.
