(* ===== verification/PyStats.v ===== *)
(** * Statistics of the standard library ([math.fsum], [statistics])

    Python's exact sum of floats and what the offline studies compute from
    lists of floats: mean, median and interpolated percentiles. *)
From S2P Require Import Prelude PyStr PyFloat PyDecimal Schemas Errors.

(** A finite float in units of [2 ^ -1074]. *)
Definition f_units (f : float) : Z :=
  match f with
  | S754_finite s m e => (if s then Zneg m else Zpos m) * 2 ^ (e + 1074)
  | _ => 0
  end%Z.

(** [math.fsum]: the rounding of the exact sum; of floats that are not finite,
    their sum.  The sums here are of numbers that are not negative, for which
    an intermediate overflow is an overflow of the sum. *)
Definition fsum (l : list float) : result exn float :=
  match List.filter (fun f => negb (f_isfinite f)) l with
  | [] =>
      let s := binary_normalize prec64 emax64 (foldr Z.add 0%Z (map f_units l)) (-1074) false in
      if f_isfinite s then Ok s else Raise (Exn C_OverflowError)
  | odd =>
      if is_nan (fold_left f_add (List.filter (fun f => negb (is_nan f)) odd) f_zero) then Raise (Exn C_ValueError)
      else Ok (fold_left f_add odd f_zero)
  end.

Definition f_length {A : Type} (l : list A) : float := f_of_Z (Z.of_nat (length l)).

(** [statistics.fmean]; a [StatisticsError] is a [ValueError]. *)
Definition fmean (l : list float) : result exn float :=
  match l with
  | [] => Raise (Exn C_ValueError)
  | _ => s ← fsum l; Ok (f_div s (f_length l))
  end.

Definition item_at (l : list float) (i : Z) : result exn float :=
  match l !! Z.to_nat i with Some f => Ok f | None => Raise (Exn C_IndexError) end.

(** [statistics.median] *)
Definition median (l : list float) : result exn float :=
  let ordered := py_sorted f_leb l in
  let n := Z.of_nat (length l) in
  if (n =? 0)%Z then Raise (Exn C_ValueError)
  else if Z.odd n then item_at ordered (n / 2)
  else
    a ← item_at ordered (n / 2 - 1);
    b ← item_at ordered (n / 2);
    Ok (f_div (f_add a b) (f_of_Z 2)).

(** [math.floor] and [math.ceil] of a finite float. *)
Definition f_floor (f : float) : Z :=
  match f with
  | S754_finite s m e =>
      let n := if s then Zneg m else Zpos m in
      if (0 <=? e)%Z then (n * 2 ^ e)%Z else (n / 2 ^ (- e))%Z
  | _ => 0%Z
  end.
Definition f_ceil (f : float) : Z := (- f_floor (f_neg f))%Z.

(** ** What they return *)

Lemma median_total l : l <> [] -> exists m, median l = Ok m.
Proof.
  intros H. unfold median. destruct (Z.eqb_spec (Z.of_nat (length l)) 0) as [E|E]; [by destruct l|].
  assert (G : forall i, (0 <= i < Z.of_nat (length l))%Z -> exists f, item_at (py_sorted f_leb l) i = Ok f).
  { intros i Hi. unfold item_at. destruct (lookup_lt_is_Some_2 (py_sorted f_leb l) (Z.to_nat i)) as [f Hf].
    { rewrite length_py_sorted. lia. }
    rewrite Hf. by exists f. }
  assert (D : (0 <= Z.of_nat (length l) / 2 < Z.of_nat (length l))%Z) by dlia.
  destruct (Z.odd _) eqn:O; [by apply G|].
  destruct (G (Z.of_nat (length l) / 2 - 1)%Z) as [a Ha].
  { pose proof (Z.bit0_odd (Z.of_nat (length l))). assert (Z.of_nat (length l) <> 1%Z) by (intros X; by rewrite X in O). dlia. }
  destruct (G (Z.of_nat (length l) / 2)%Z D) as [b Hb]. rewrite Ha, Hb. by eexists.
Qed.

(** [fsum] is exact where a running sum is not. *)
Example fsum_exact : fsum [f_of_ratio 1 10; f_of_ratio 1 10; f_of_ratio 1 10; f_of_ratio 1 10; f_of_ratio 1 10;
  f_of_ratio 1 10; f_of_ratio 1 10; f_of_ratio 1 10; f_of_ratio 1 10; f_of_ratio 1 10] = Ok f_one.
Proof. vm_compute. reflexivity. Qed.
