(* ===== verification/PyNum.v ===== *)
(** * Numbers at input boundaries

    A value of type [int | float | Decimal] (or anything else) reaching a
    conversion with [float()]. *)
From S2P Require Import Prelude PyStr PyFloat PyDecimal Schemas Errors.

Inductive pynum :=
| PyBool (b : bool)
| PyInt (z : Z)
| PyFloat (f : float)
| PyDecimal (d : decimal)
| PyNonNumber.

(** [float(Decimal)]: the nearest float. *)
Definition f_of_decimal (d : decimal) : float :=
  if (d_coef d =? 0)%N then S754_zero (d_neg d)
  else f_of_ratio (d_int d * Z.of_N (pow10 (Z.max 0 (d_exp d))))
         (Z.to_pos (Z.of_N (pow10 (Z.max 0 (- d_exp d))))).

(** [float(int)] raises [OverflowError] when no finite float is near. *)
Definition f_of_int (z : Z) : result exn float :=
  let f := f_of_Z z in
  if f_isfinite f then Ok f else Raise (Exn C_OverflowError).

Definition py_float (v : pynum) : result exn float :=
  match v with
  | PyBool b => Ok (if b then f_one else f_zero)
  | PyInt z => f_of_int z
  | PyFloat f => Ok f
  | PyDecimal d => Ok (f_of_decimal d)
  | PyNonNumber => Raise (Exn C_TypeError)
  end.
