(* ===== verification/Deadline.v ===== *)
(** * Request deadline ([request_deadline.py])

    A deadline is the end point measured on a monotonic clock; every operation
    takes the clock reading it makes. *)
From S2P Require Import Prelude PyStr PyFloat PyDecimal Schemas Errors PyNum.

(** [InferenceDeadlineSettings]: [gt=0, le=300, allow_inf_nan=False] *)
Definition InferenceDeadlineSettings_ok (seconds : float) : bool :=
  f_isfinite seconds && f_ltb f_zero seconds && f_leb seconds (f_of_Z 300).

Record RequestDeadline := mk_RequestDeadline { expires_at : float }.

(** [RequestDeadline.__init__], reading the clock at [now]. *)
Definition new_RequestDeadline (total_seconds : pynum) (now : float) : result exn RequestDeadline :=
  match total_seconds with
  | PyInt _ | PyFloat _ =>
      seconds ← py_float total_seconds;
      if negb (f_isfinite seconds) || f_leb seconds f_zero then Raise (Exn C_ValueError)
      else Ok (mk_RequestDeadline (f_add now seconds))
  | _ => Raise (Exn C_ValueError)
  end.

Definition remaining_seconds (d : RequestDeadline) (now : float) : float :=
  f_max f_zero (f_sub (expires_at d) now).

Definition expired (d : RequestDeadline) (now : float) : bool :=
  f_leb (remaining_seconds d now) f_zero.

Definition constrain_timeout (d : RequestDeadline) (now : float) (max_timeout : float) : option float :=
  let remaining := remaining_seconds d now in
  if f_leb remaining f_zero then None else Some (f_min remaining max_timeout).

(** ** Lemmas *)

Lemma remaining_not_nan d now : is_nan (remaining_seconds d now) = false.
Proof.
  unfold remaining_seconds, f_max. destruct (f_ltb f_zero _) eqn:E; [|done].
  by apply f_ltb_not_nan in E as [].
Qed.

Lemma remaining_nonneg d now : f_leb f_zero (remaining_seconds d now) = true.
Proof.
  unfold remaining_seconds, f_max. destruct (f_ltb f_zero _) eqn:E; [by apply f_ltb_leb|done].
Qed.

Lemma not_expired_positive d now : expired d now = false ->
  f_ltb f_zero (remaining_seconds d now) = true.
Proof.
  unfold expired. intros H. rewrite f_ltb_nleb by (done || apply remaining_not_nan). by rewrite H.
Qed.

(** A timeout granted against the deadline is positive, at most the requested
    maximum and at most the remaining time; none is granted exactly when the
    deadline has expired. *)
Theorem constrain_timeout_bounds d now mx :
  f_ltb f_zero mx = true ->
  match constrain_timeout d now mx with
  | None => expired d now = true
  | Some t => expired d now = false /\ f_ltb f_zero t = true /\
              f_leb t mx = true /\ f_leb t (remaining_seconds d now) = true
  end.
Proof.
  intros Hm. destruct (f_ltb_not_nan _ _ Hm) as [_ Hn].
  unfold constrain_timeout. pose proof (not_expired_positive d now) as Hp.
  pose proof (remaining_not_nan d now) as Hr.
  fold (expired d now). destruct (expired d now) eqn:E; [done|].
  split; [done|]. split.
  - unfold f_min. destruct (f_ltb mx _); auto.
  - split; [by apply f_min_le_r|by apply f_min_le_l].
Qed.

Lemma constrain_timeout_bounds_witness :
  let d := mk_RequestDeadline (f_of_Z 60) in
  constrain_timeout d (f_of_Z 1) (f_of_Z 2) = Some (f_of_Z 2) /\
  match constrain_timeout d (f_of_Z 1) (f_of_Z 2) with
  | None => expired d (f_of_Z 1) = true
  | Some t => expired d (f_of_Z 1) = false /\ f_ltb f_zero t = true /\
              f_leb t (f_of_Z 2) = true /\ f_leb t (remaining_seconds d (f_of_Z 1)) = true
  end.
Proof.
  split; [vm_compute; reflexivity|].
  exact (constrain_timeout_bounds (mk_RequestDeadline (f_of_Z 60)) (f_of_Z 1) (f_of_Z 2) eq_refl).
Defined.
