(* ===== verification/Regex.v ===== *)
(** * Regular expressions

    The part of [re] the gateway's frozen patterns use, with the backtracking
    semantics of CPython: [re_match r z] is the list of positions where a match
    of [r] from [z] can end, in the order the engine tries them, so its head is
    what [re] reports.  A position is the text before it, reversed, and the
    text after it. *)
From S2P Require Import Prelude PyStr.

Notation position := (list N * list N)%type (only parsing).

Inductive regex :=
| RChar (p : N -> bool)
| REps
| RBoundary
| RAhead (p : pystr -> bool)
| RSeq (r1 r2 : regex)
| RAlt (r1 r2 : regex)
| RStar (r : regex).

Section Matching.
Context `{UnicodeData}.

(** [\b]: exactly one of the neighbouring characters is a word character. *)
Definition at_boundary (z : position) : bool :=
  let side (s : pystr) := match s with [] => false | c :: _ => is_word c end in
  xorb (side z.1) (side z.2).

Definition advanced (z z' : position) : bool := Nat.ltb (length z'.2) (length z.2).

(** Greedy iteration: another round first, then stopping here.  A round that
    consumes nothing is not repeated; [n] bounds the rounds. *)
Fixpoint star_ends (m : position -> list position) (n : nat) (z : position) : list position :=
  match n with
  | O => [z]
  | S n' => flat_map (star_ends m n') (List.filter (advanced z) (m z)) ++ [z]
  end.

Fixpoint re_match (r : regex) (z : position) : list position :=
  match r with
  | RChar p =>
      match z.2 with
      | c :: s => if p c then [(c :: z.1, s)] else []
      | [] => []
      end
  | REps => [z]
  | RBoundary => if at_boundary z then [z] else []
  | RAhead p => if p z.2 then [z] else []
  | RSeq r1 r2 => flat_map (re_match r2) (re_match r1 z)
  | RAlt r1 r2 => re_match r1 z ++ re_match r2 z
  | RStar r' => star_ends (re_match r') (length z.2) z
  end.

(** [pattern.findall(text)]: scanning left to right, resuming after each
    match; the result is the list of end positions.  [fuel] bounds the
    positions tried. *)
Fixpoint findall_from (fuel : nat) (r : regex) (z : position) : list position :=
  match fuel with
  | O => []
  | S fuel' =>
      match re_match r z with
      | z' :: _ =>
          z' :: (if advanced z z' then findall_from fuel' r z'
                 else match z'.2 with
                      | c :: s => findall_from fuel' r (c :: z'.1, s)
                      | [] => []
                      end)
      | [] =>
          match z.2 with
          | c :: s => findall_from fuel' r (c :: z.1, s)
          | [] => []
          end
      end
  end.

Definition findall (r : regex) (text : pystr) : list position :=
  findall_from (S (length text)) r ([], text).

(** [len(pattern.findall(text))] *)
Definition count_matches (r : regex) (text : pystr) : nat := length (findall r text).

(** [bool(pattern.search(text))] *)
Definition search (r : regex) (text : pystr) : bool :=
  match findall r text with [] => false | _ => true end.

(** The language of a pattern in context, as a relation on positions. *)
Inductive re_in : regex -> position -> position -> Prop :=
| in_char p b c s : p c = true -> re_in (RChar p) (b, c :: s) (c :: b, s)
| in_eps z : re_in REps z z
| in_boundary z : at_boundary z = true -> re_in RBoundary z z
| in_ahead p z : p z.2 = true -> re_in (RAhead p) z z
| in_seq r1 r2 z1 z2 z3 : re_in r1 z1 z2 -> re_in r2 z2 z3 -> re_in (RSeq r1 r2) z1 z3
| in_alt_l r1 r2 z z' : re_in r1 z z' -> re_in (RAlt r1 r2) z z'
| in_alt_r r1 r2 z z' : re_in r2 z z' -> re_in (RAlt r1 r2) z z'
| in_star_nil r z : re_in (RStar r) z z
| in_star_cons r z1 z2 z3 :
    re_in r z1 z2 -> advanced z1 z2 = true -> re_in (RStar r) z2 z3 -> re_in (RStar r) z1 z3.
End Matching.

(** ** Literals *)

(** Case-insensitive match of an ASCII literal character ([re.I] on [str]):
    besides the two cases of a letter, the characters Unicode folds to it. *)
Definition ci_char (l c : N) : bool :=
  (ascii_lower c =? ascii_lower l)%N ||
  ((ascii_lower l =? 105)%N && ((c =? 304)%N || (c =? 305)%N)) ||
  ((ascii_lower l =? 115)%N && (c =? 383)%N) ||
  ((ascii_lower l =? 107)%N && (c =? 8490)%N).

Fixpoint ci_literal (s : pystr) : regex :=
  match s with
  | [] => REps
  | c :: s' => RSeq (RChar (ci_char c)) (ci_literal s')
  end.

Fixpoint alternatives (rs : list regex) : regex :=
  match rs with
  | [] => RChar (fun _ => false)
  | [r] => r
  | r :: rs' => RAlt r (alternatives rs')
  end.

Fixpoint sequence (rs : list regex) : regex :=
  match rs with
  | [] => REps
  | r :: rs' => RSeq r (sequence rs')
  end.

(** [$]: the end, or before a final newline. *)
Definition at_end (s : pystr) : bool :=
  match s with [] => true | [c] => (c =? 10)%N | _ => false end.

Definition REnd : regex := RAhead at_end.

(** [r?] *)
Definition ROpt (r : regex) : regex := RAlt r REps.

(** [r+] *)
Definition RPlus (r : regex) : regex := RSeq r (RStar r).

(** ** Correctness *)

Section Facts.
Context `{UnicodeData}.

Definition zip_text (z : position) : pystr := rev z.1 ++ z.2.

Lemma star_ends_sound m (P : position -> position -> Prop) n z z' :
  (forall z, P z z) ->
  (forall z1 z2 z3, z2 ∈ m z1 -> advanced z1 z2 = true -> P z2 z3 -> P z1 z3) ->
  z' ∈ star_ends m n z -> P z z'.
Proof.
  intros Hn Hc. revert z. induction n as [|n IH]; intros z Hz; simpl in Hz.
  - apply list_elem_of_singleton in Hz as ->. apply Hn.
  - apply elem_of_app in Hz as [Hz|Hz]; [|apply list_elem_of_singleton in Hz as ->; apply Hn].
    apply list_elem_of_In, in_flat_map in Hz as (z2 & H2 & Hz).
    apply filter_In in H2 as [H2 Hadv]. apply list_elem_of_In in H2, Hz. eauto.
Qed.

Lemma star_ends_complete m n z1 z2 z' :
  z2 ∈ m z1 -> advanced z1 z2 = true -> length z1.2 <= S n ->
  z' ∈ star_ends m n z2 -> z' ∈ star_ends m (S n) z1.
Proof.
  intros H2 Ha Hl Hz. simpl. apply elem_of_app; left. apply list_elem_of_In, in_flat_map.
  exists z2. split; [|by apply list_elem_of_In].
  apply filter_In. split; [by apply list_elem_of_In|done].
Qed.

Lemma star_ends_more m n n' z z' :
  length z.2 <= n -> n <= n' -> z' ∈ star_ends m n z <-> z' ∈ star_ends m n' z.
Proof.
  revert n' z. induction n as [|n IH]; intros n' z Hl Hn.
  - destruct n' as [|n']; [done|]. simpl.
    replace (List.filter (advanced z) (m z)) with (@nil position).
    + by simpl.
    + symmetry. destruct (List.filter _ _) as [|a l] eqn:E; [done|].
      assert (Ha : In a (List.filter (advanced z) (m z))) by (rewrite E; by left).
      apply filter_In in Ha as [_ Ha]. unfold advanced in Ha. bools. lia.
  - destruct n' as [|n']; [lia|]. simpl. rewrite !elem_of_app.
    enough (E : forall y, y ∈ List.filter (advanced z) (m z) ->
                 (z' ∈ star_ends m n y <-> z' ∈ star_ends m n' y)).
    { assert (forall f g : position -> list position,
        (forall y, y ∈ List.filter (advanced z) (m z) -> (z' ∈ f y <-> z' ∈ g y)) ->
        z' ∈ flat_map f (List.filter (advanced z) (m z)) ->
        z' ∈ flat_map g (List.filter (advanced z) (m z))) as G.
      { intros f g Hfg Hf. apply list_elem_of_In, in_flat_map in Hf as (y & Hy & Hf).
        apply list_elem_of_In, in_flat_map. exists y. split; [done|].
        apply list_elem_of_In, Hfg; by apply list_elem_of_In. }
      split; (intros [Hf|Hf]; [left|by right]); eapply G; try exact Hf; intros y Hy;
        rewrite (E y Hy); done. }
    intros y Hy. apply list_elem_of_In, filter_In in Hy as [_ Hy]. unfold advanced in Hy.
    bools. apply IH; lia.
Qed.

Lemma re_match_sound r z z' : z' ∈ re_match r z -> re_in r z z'.
Proof.
  revert z z'. induction r as [p| | |p|r1 IH1 r2 IH2|r1 IH1 r2 IH2|r IH]; intros z z' Hz; simpl in Hz.
  - destruct z as [b [|c s]]; simpl in Hz; [set_solver|]. destruct (p c) eqn:E; [|set_solver].
    apply list_elem_of_singleton in Hz as ->. by constructor.
  - apply list_elem_of_singleton in Hz as ->. constructor.
  - destruct (at_boundary z) eqn:E; [|set_solver].
    apply list_elem_of_singleton in Hz as ->. by constructor.
  - destruct (p z.2) eqn:E; [|set_solver].
    apply list_elem_of_singleton in Hz as ->. by constructor.
  - apply list_elem_of_In, in_flat_map in Hz as (y & Hy & Hz).
    apply list_elem_of_In in Hy, Hz. econstructor; eauto.
  - apply elem_of_app in Hz as [Hz|Hz]; [apply in_alt_l|apply in_alt_r]; auto.
  - eapply (star_ends_sound (re_match r) (re_in (RStar r))); [apply in_star_nil| |exact Hz].
    intros. eapply in_star_cons; eauto.
Qed.

Lemma re_match_complete r z z' : re_in r z z' -> z' ∈ re_match r z.
Proof.
  induction 1 as [p b c s Hp|z|z Hb|p z Hp|r1 r2 z1 z2 z3 _ IH1 _ IH2|r1 r2 z z' _ IH|r1 r2 z z' _ IH
    |r z|r z1 z2 z3 _ IH1 Ha _ IH2]; simpl.
  - rewrite Hp. set_solver.
  - set_solver.
  - rewrite Hb. set_solver.
  - rewrite Hp. set_solver.
  - apply list_elem_of_In, in_flat_map. exists z2. split; by apply list_elem_of_In.
  - set_solver.
  - set_solver.
  - destruct (length z.2); simpl; set_solver.
  - simpl in IH2. unfold advanced in Ha. bools.
    destruct (length z1.2) as [|n] eqn:El; [lia|].
    apply (star_ends_complete (re_match r) n z1 z2);
      [done|apply Nat.ltb_lt; lia|lia|].
    apply (star_ends_more (re_match r) (length z2.2) n); [lia|lia|done].
Qed.
End Facts.

#[export] Hint Constructors re_in : gateway.
