(* ===== verification/Features.v ===== *)
(** * Routing request features ([routing/features.py])

    The request-visible features the router may use: the category taxonomy, the
    feature record with its two model validators, the frozen text indicators,
    the production extractor, and the governance tables. *)
From S2P Require Import Prelude PyStr PyFloat PyDecimal Schemas Errors Regex.

Definition ROUTING_CATEGORY_TAXONOMY_VERSION : pystr := py "phase7-v1".

Inductive RoutingCategory :=
| CLASSIFICATION | CODING | EXTRACTION | STRUCTURED_JSON | QA | REASONING | SUMMARIZATION.

#[export] Instance RoutingCategory_eq_dec : EqDecision RoutingCategory.
Proof. solve_decision. Defined.

Definition RoutingCategory_value (c : RoutingCategory) : pystr :=
  match c with
  | CLASSIFICATION => py "classification" | CODING => py "coding" | EXTRACTION => py "extraction"
  | STRUCTURED_JSON => py "structured_json" | QA => py "qa" | REASONING => py "reasoning"
  | SUMMARIZATION => py "summarization"
  end.

Definition all_categories : list RoutingCategory :=
  [CLASSIFICATION; CODING; EXTRACTION; STRUCTURED_JSON; QA; REASONING; SUMMARIZATION].

(** [RoutingCategory(value)] raises [ValueError] outside the taxonomy. *)
Definition RoutingCategory_of (s : pystr) : result exn RoutingCategory :=
  match List.find (fun c => bool_decide (RoutingCategory_value c = s)) all_categories with
  | Some c => Ok c
  | None => Raise (Exn C_ValueError)
  end.

Inductive CategoryProvenance := PV_CLIENT_HINT | PV_INFERRED | PV_ABSENT.

#[export] Instance CategoryProvenance_eq_dec : EqDecision CategoryProvenance.
Proof. solve_decision. Defined.

Inductive FeatureSource :=
| FS_REQUEST_CONTENT | FS_REQUEST_CONFIGURATION | FS_CLIENT_HINT | FS_DERIVED_METADATA.

Inductive LeakageStatus := PRE_GENERATION_ALLOWED | POST_GENERATION_FORBIDDEN.

#[export] Instance LeakageStatus_eq_dec : EqDecision LeakageStatus.
Proof. solve_decision. Defined.

Inductive FeatureCompatibilityStatus :=
| FCS_EXACT_MATCH | FCS_COMPATIBLE_WITH_DOCUMENTED_DIFFERENCE
| FCS_NOT_AVAILABLE_IN_PRODUCTION | FCS_EXPERIMENT_ONLY.

#[export] Instance FeatureCompatibilityStatus_eq_dec : EqDecision FeatureCompatibilityStatus.
Proof. solve_decision. Defined.

Record RoutingRequestFeatures := mk_RoutingRequestFeatures {
  rf_category : option RoutingCategory;
  rf_category_provenance : CategoryProvenance;
  rf_prompt_characters : Z;
  rf_system_prompt_characters : Z;
  rf_message_count : Z;
  rf_system_prompt_present : bool;
  rf_approximate_input_tokens : Z;
  rf_contains_code : bool;
  rf_requests_structured_output : bool;
  rf_max_output_tokens : Z;
  rf_constraint_indicator_count : Z;
  rf_reasoning_indicator_count : Z
}.

(** The keyword arguments of the constructor; [None] is an absent key, for
    [raw_category] also the value [None]. *)
Record RawRoutingFeatures := mk_RawRoutingFeatures {
  raw_category : option pystr;
  raw_category_provenance : option CategoryProvenance;
  raw_prompt_characters : Z;
  raw_system_prompt_characters : Z;
  raw_message_count : option Z;
  raw_system_prompt_present : option bool;
  raw_approximate_input_tokens : Z;
  raw_contains_code : bool;
  raw_requests_structured_output : bool;
  raw_max_output_tokens : Z;
  raw_constraint_indicator_count : Z;
  raw_reasoning_indicator_count : Z
}.

(** [supply_compatible_metadata_defaults]: strips the category and fills the
    keys that were not given. *)
Definition supply_compatible_metadata_defaults (data : RawRoutingFeatures) : RawRoutingFeatures :=
  let category := strip <$> raw_category data in
  let system_characters := raw_system_prompt_characters data in
  mk_RawRoutingFeatures
    category
    (Some (match raw_category_provenance data with
           | Some p => p
           | None => match category with Some _ => PV_CLIENT_HINT | None => PV_ABSENT end
           end))
    (raw_prompt_characters data)
    (raw_system_prompt_characters data)
    (Some (match raw_message_count data with
           | Some n => n
           | None => if (system_characters =? 0)%Z then 1 else 2
           end)%Z)
    (Some (match raw_system_prompt_present data with
           | Some b => b
           | None => negb (system_characters =? 0)%Z
           end))
    (raw_approximate_input_tokens data)
    (raw_contains_code data)
    (raw_requests_structured_output data)
    (raw_max_output_tokens data)
    (raw_constraint_indicator_count data)
    (raw_reasoning_indicator_count data).

(** [metadata_is_consistent] *)
Definition metadata_is_consistent (f : RoutingRequestFeatures) : result pystr unit :=
  _ ← check (Bool.eqb (bool_decide (rf_category f = None))
                      (bool_decide (rf_category_provenance f = PV_ABSENT)))
        (py "absent category and category provenance must agree");
  _ ← check (negb (negb (bool_decide (rf_category f = None)) &&
                   bool_decide (rf_category_provenance f = PV_ABSENT)))
        (py "a category requires non-absent provenance");
  _ ← check (Bool.eqb (rf_system_prompt_present f) (0 <? rf_system_prompt_characters f)%Z)
        (py "system prompt presence must match its character count");
  check (rf_message_count f =? (if rf_system_prompt_present f then 2 else 1))%Z
        (py "message count must represent user plus optional system prompt").

(** The constraints of the fields. *)
Definition routing_fields_ok (f : RoutingRequestFeatures) : bool :=
  (0 <=? rf_prompt_characters f)%Z && (0 <=? rf_system_prompt_characters f)%Z &&
  ((1 <=? rf_message_count f)%Z && (rf_message_count f <=? 2)%Z) &&
  (0 <=? rf_approximate_input_tokens f)%Z && (0 <? rf_max_output_tokens f)%Z &&
  (0 <=? rf_constraint_indicator_count f)%Z && (0 <=? rf_reasoning_indicator_count f)%Z.

(** [RoutingRequestFeatures(...)]: the "before" validator, the fields, the
    "after" validator. *)
Definition new_RoutingRequestFeatures (raw : RawRoutingFeatures) :
    result exn RoutingRequestFeatures :=
  let data := supply_compatible_metadata_defaults raw in
  category ← match raw_category data with
             | None => Ok None
             | Some s =>
                 match RoutingCategory_of s with
                 | Ok c => Ok (Some c)
                 | Raise _ => Raise (Exn C_ValidationError)
                 end
             end;
  let f := mk_RoutingRequestFeatures category
             (default PV_ABSENT (raw_category_provenance data))
             (raw_prompt_characters data) (raw_system_prompt_characters data)
             (default 1%Z (raw_message_count data))
             (default false (raw_system_prompt_present data))
             (raw_approximate_input_tokens data) (raw_contains_code data)
             (raw_requests_structured_output data) (raw_max_output_tokens data)
             (raw_constraint_indicator_count data) (raw_reasoning_indicator_count data) in
  _ ← validated (check (routing_fields_ok f) field_error);
  _ ← validated (metadata_is_consistent f);
  Ok f.

(** ** Text indicators *)

(** [" ".join(part for part in (request.system_prompt, request.prompt) if part)] *)
Definition request_text (r : InferenceRequest) : pystr :=
  join (py " ")
    (List.filter (fun p => match p with [] => false | _ => true end)
       [default [] (system_prompt r); prompt r]).

Definition approximate_input_tokens (r : InferenceRequest) : Z :=
  Z.of_nat (length (split_ws (request_text r))).

Section Indicators.
Context `{UnicodeData}.

(** [\s+], [\s*], [\w+] *)
Definition spaces1 : regex := RPlus (RChar is_space).
Definition spaces0 : regex := RStar (RChar is_space).
Definition word1 : regex := RPlus (RChar is_word).
Definition keyword (s : string) : regex := ci_literal (py s).

(** [_CONSTRAINTS] *)
Definition CONSTRAINTS : regex :=
  sequence [RBoundary;
    alternatives (map keyword
      ["must"; "only"; "exactly"; "exclude"; "include"; "return"; "output"; "do not";
       "at most"; "no more than"]%string);
    RBoundary].

(** [_REASONING] *)
Definition REASONING_WORDS : regex :=
  sequence [RBoundary;
    alternatives (map keyword
      ["infer"; "determine"; "deduce"; "calculate"; "after"; "before"; "unless"; "if";
       "therefore"]%string);
    RBoundary].

(** [_CODE] *)
Definition CODE : regex :=
  alternatives [
    keyword "```";
    sequence [RBoundary; keyword "python code"; RBoundary];
    sequence [RBoundary; keyword "def"; spaces1; word1; spaces0; keyword "("];
    sequence [RBoundary; keyword "defin"; alternatives [keyword "e"; keyword "ing"];
              spaces1; word1; spaces0; keyword "("];
    sequence [RBoundary; keyword "function"; spaces1; word1; spaces0; keyword "("];
    sequence [RBoundary; keyword "class"; spaces1; word1]].

Definition text_contains_code (text : pystr) : bool := search CODE text.

Definition constraint_indicator_count (text : pystr) : Z :=
  Z.of_nat (count_matches CONSTRAINTS text).

Definition reasoning_indicator_count (text : pystr) : Z :=
  Z.of_nat (count_matches REASONING_WORDS text).

(** [ProductionRequestFeatureExtractor.extract]; the hint is a string (the
    enumeration members are strings too) or [None]. *)
Definition extract (r : InferenceRequest) (category_hint : option pystr)
    (structured_output_required : bool) : result exn RoutingRequestFeatures :=
  let normalized_hint := strip <$> category_hint in
  category ← match normalized_hint with
             | None => Ok None
             | Some s => c ← RoutingCategory_of s; Ok (Some c)
             end;
  let provenance := match category with None => PV_ABSENT | Some _ => PV_CLIENT_HINT end in
  let text := request_text r in
  let system_present := match system_prompt r with Some _ => true | None => false end in
  new_RoutingRequestFeatures
    (mk_RawRoutingFeatures
       (RoutingCategory_value <$> category)
       (Some provenance)
       (Z.of_nat (length (prompt r)))
       (Z.of_nat (length (default [] (system_prompt r))))
       (Some (if system_present then 2 else 1)%Z)
       (Some system_present)
       (approximate_input_tokens r)
       (text_contains_code text)
       structured_output_required
       (rq_max_output_tokens r)
       (constraint_indicator_count text)
       (reasoning_indicator_count text)).
End Indicators.

(** ** Governance tables *)

Record FeatureGovernanceEntry := mk_FeatureGovernanceEntry {
  fg_name : pystr;
  fg_value_type : pystr;
  fg_source : FeatureSource;
  fg_extraction_semantics : pystr;
  fg_required : bool;
  fg_client_controlled : bool;
  fg_directly_derived : bool;
  fg_leakage_status : LeakageStatus
}.

Record TrainingServingAuditEntry := mk_TrainingServingAuditEntry {
  ts_feature_name : pystr;
  ts_status : FeatureCompatibilityStatus;
  ts_production_semantics : pystr;
  ts_difference : option pystr
}.

Definition PRODUCTION_FEATURE_GOVERNANCE : list FeatureGovernanceEntry :=
  [ mk_FeatureGovernanceEntry (py "category") (py "RoutingCategory | None") FS_CLIENT_HINT
      (py "Validated advisory hint; None is explicit absence.") false true false PRE_GENERATION_ALLOWED;
    mk_FeatureGovernanceEntry (py "category_provenance") (py "CategoryProvenance") FS_DERIVED_METADATA
      (py "CLIENT_HINT when supplied; otherwise ABSENT.") true false true PRE_GENERATION_ALLOWED;
    mk_FeatureGovernanceEntry (py "prompt_characters") (py "int") FS_REQUEST_CONTENT
      (py "Python character length of the user prompt.") true true true PRE_GENERATION_ALLOWED;
    mk_FeatureGovernanceEntry (py "system_prompt_characters") (py "int") FS_REQUEST_CONTENT
      (py "Character length of system prompt, or zero.") true true true PRE_GENERATION_ALLOWED;
    mk_FeatureGovernanceEntry (py "message_count") (py "int") FS_REQUEST_CONTENT
      (py "One user message plus one when a system prompt exists.") true true true PRE_GENERATION_ALLOWED;
    mk_FeatureGovernanceEntry (py "system_prompt_present") (py "bool") FS_REQUEST_CONTENT
      (py "True exactly when a system prompt exists.") true true true PRE_GENERATION_ALLOWED;
    mk_FeatureGovernanceEntry (py "approximate_input_tokens") (py "int") FS_REQUEST_CONTENT
      (py "Whitespace-token count over system and user text.") true true true PRE_GENERATION_ALLOWED;
    mk_FeatureGovernanceEntry (py "contains_code") (py "bool") FS_REQUEST_CONTENT
      (py "Frozen Phase 7 regular-expression indicator.") true true true PRE_GENERATION_ALLOWED;
    mk_FeatureGovernanceEntry (py "requests_structured_output") (py "bool") FS_REQUEST_CONFIGURATION
      (py "Explicit internal structured-output requirement only.") true true true PRE_GENERATION_ALLOWED;
    mk_FeatureGovernanceEntry (py "max_output_tokens") (py "int") FS_REQUEST_CONFIGURATION
      (py "Requested base output-token allowance.") true true false PRE_GENERATION_ALLOWED;
    mk_FeatureGovernanceEntry (py "constraint_indicator_count") (py "int") FS_REQUEST_CONTENT
      (py "Count from the frozen Phase 7 constraint vocabulary.") true true true PRE_GENERATION_ALLOWED;
    mk_FeatureGovernanceEntry (py "reasoning_indicator_count") (py "int") FS_REQUEST_CONTENT
      (py "Count from the frozen Phase 7 reasoning vocabulary.") true true true PRE_GENERATION_ALLOWED ].

Definition FORBIDDEN_ROUTING_FEATURES : list pystr :=
  map py
  [ "acceptable"; "analysis_difficulty"; "benchmark_label"; "candidate_cost_usd"; "error_category"; "estimated_cost_usd"; "evaluation_call_made"; "evaluation_cost_usd"; "evaluation_input_tokens"; "evaluation_latency_ms"; "evaluation_output_tokens"; "evaluation_status"; "evaluator_name"; "evaluator_version"; "generated_at"; "ground_truth"; "input_tokens"; "label_status"; "latency_ms"; "missing_label_reason"; "output_tokens"; "provider_error_category"; "provider_outcome"; "quality_score"; "realized_cost_usd"; "reasoning_tokens"; "response_text"; "success" ]%string.

Definition ACCEPTED_INTERACTION_FEATURES : list pystr :=
  map py
  [ "category"; "candidate_id"; "upstream_provider_pin"; "reasoning_effort"; "prompt_characters"; "approximate_input_tokens"; "requested_max_output_tokens"; "constraint_indicator_count"; "reasoning_indicator_count"; "configured_input_cost_per_1m_tokens"; "configured_output_cost_per_1m_tokens"; "context_window"; "effective_max_output_tokens"; "contains_code"; "requests_structured_output"; "supports_temperature"; "category_candidate" ]%string.

Definition TRAINING_SERVING_SKEW_AUDIT : list TrainingServingAuditEntry :=
  [ mk_TrainingServingAuditEntry (py "category") FCS_COMPATIBLE_WITH_DOCUMENTED_DIFFERENCE
      (py "Optional controlled enum with explicit absence and provenance.") (Some (py "Phase 7 always had a category and used json; production uses structured_json. Phase 8C must map or retrain."));
    mk_TrainingServingAuditEntry (py "candidate_id") FCS_EXACT_MATCH
      (py "ModelConfig.model_id.") None;
    mk_TrainingServingAuditEntry (py "upstream_provider_pin") FCS_EXPERIMENT_ONLY
      (py "No generic registry field exists.") (Some (py "Frozen benchmark protocol recorded an upstream pin behind the gateway."));
    mk_TrainingServingAuditEntry (py "reasoning_effort") FCS_COMPATIBLE_WITH_DOCUMENTED_DIFFERENCE
      (py "ModelConfig.reasoning_effort enum or None.") (Some (py "Phase 7 normalized None to the string none."));
    mk_TrainingServingAuditEntry (py "prompt_characters") FCS_EXACT_MATCH
      (py "Length of the user prompt.") None;
    mk_TrainingServingAuditEntry (py "approximate_input_tokens") FCS_EXACT_MATCH
      (py "Whitespace count over optional system plus user text.") None;
    mk_TrainingServingAuditEntry (py "requested_max_output_tokens") FCS_EXACT_MATCH
      (py "RoutingRequestFeatures.max_output_tokens.") None;
    mk_TrainingServingAuditEntry (py "constraint_indicator_count") FCS_EXACT_MATCH
      (py "Shared frozen Phase 7 regular expression.") None;
    mk_TrainingServingAuditEntry (py "reasoning_indicator_count") FCS_EXACT_MATCH
      (py "Shared frozen Phase 7 regular expression.") None;
    mk_TrainingServingAuditEntry (py "configured_input_cost_per_1m_tokens") FCS_EXACT_MATCH
      (py "ModelConfig input Decimal price.") None;
    mk_TrainingServingAuditEntry (py "configured_output_cost_per_1m_tokens") FCS_EXACT_MATCH
      (py "ModelConfig output Decimal price.") None;
    mk_TrainingServingAuditEntry (py "context_window") FCS_EXACT_MATCH
      (py "ModelConfig context window.") None;
    mk_TrainingServingAuditEntry (py "effective_max_output_tokens") FCS_NOT_AVAILABLE_IN_PRODUCTION
      (py "No production candidate-budget resolver exists yet.") (Some (py "Phase 7 used task-candidate protocol overrides."));
    mk_TrainingServingAuditEntry (py "contains_code") FCS_EXACT_MATCH
      (py "Shared frozen Phase 7 regular expression.") None;
    mk_TrainingServingAuditEntry (py "requests_structured_output") FCS_COMPATIBLE_WITH_DOCUMENTED_DIFFERENCE
      (py "Explicit internal extractor configuration.") (Some (py "Phase 7 read explicit BenchmarkTask expected_output_type."));
    mk_TrainingServingAuditEntry (py "supports_temperature") FCS_EXACT_MATCH
      (py "ModelConfig capability flag.") None;
    mk_TrainingServingAuditEntry (py "category_candidate") FCS_COMPATIBLE_WITH_DOCUMENTED_DIFFERENCE
      (py "Future derived interaction of controlled category and model ID.") (Some (py "Inherits category absence and structured_json mapping requirements.")) ].

(** The fields of [RoutingRequestFeatures], as [model_fields] lists them. *)
Definition routing_feature_fields : list pystr :=
  map py
  [ "category"; "category_provenance"; "prompt_characters"; "system_prompt_characters";
    "message_count"; "system_prompt_present"; "approximate_input_tokens"; "contains_code";
    "requests_structured_output"; "max_output_tokens"; "constraint_indicator_count";
    "reasoning_indicator_count" ]%string.

(** ** The extractor *)

Lemma RoutingCategory_of_value c : RoutingCategory_of (RoutingCategory_value c) = Ok c.
Proof. destruct c; vm_compute; reflexivity. Qed.

Lemma RoutingCategory_of_ok s c : RoutingCategory_of s = Ok c -> s = RoutingCategory_value c.
Proof.
  unfold RoutingCategory_of. intros H. case_all. inv_result.
  match goal with E : List.find _ _ = _ |- _ => apply List.find_some in E as [_ E] end. by bools.
Qed.

Lemma RoutingCategory_of_raise s e : RoutingCategory_of s = Raise e -> e = Exn C_ValueError.
Proof. unfold RoutingCategory_of. intros H. case_all. by inv_result. Qed.

Lemma RoutingCategory_value_strip c : strip (RoutingCategory_value c) = RoutingCategory_value c.
Proof. destruct c; vm_compute; reflexivity. Qed.

(** The optional system prompt of a validated request is not empty. *)
Lemma system_prompt_length r : InferenceRequest_validate r = Ok tt ->
  (0 <? Z.of_nat (length (default [] (system_prompt r))))%Z =
  match system_prompt r with Some _ => true | None => false end.
Proof.
  unfold InferenceRequest_validate. intros H. inv_checks.
  destruct (system_prompt r) as [[|c s]|]; simpl in *; inv_checks; done.
Qed.

(** The record [extract] builds for a category. *)
Definition extracted `{UnicodeData} (r : InferenceRequest) (category : option RoutingCategory)
    (structured : bool) : RoutingRequestFeatures :=
  let system_present := match system_prompt r with Some _ => true | None => false end in
  mk_RoutingRequestFeatures category
    (match category with None => PV_ABSENT | Some _ => PV_CLIENT_HINT end)
    (Z.of_nat (length (prompt r))) (Z.of_nat (length (default [] (system_prompt r))))
    (if system_present then 2 else 1)%Z system_present
    (approximate_input_tokens r) (text_contains_code (request_text r)) structured
    (rq_max_output_tokens r) (constraint_indicator_count (request_text r))
    (reasoning_indicator_count (request_text r)).

Lemma extracted_consistent `{UnicodeData} r category structured :
  InferenceRequest_validate r = Ok tt ->
  routing_fields_ok (extracted r category structured) = true /\
  metadata_is_consistent (extracted r category structured) = Ok tt.
Proof.
  intros Hv. pose proof (system_prompt_length r Hv) as Hs.
  unfold InferenceRequest_validate in Hv. inv_checks. split.
  - unfold routing_fields_ok, extracted, approximate_input_tokens, constraint_indicator_count,
      reasoning_indicator_count. simpl.
    repeat (apply andb_true_iff; split); try (apply Z.leb_le; lia); try done;
      destruct (system_prompt r); done.
  - unfold metadata_is_consistent, extracted. cbn -[Z.ltb Z.eqb]. rewrite Hs.
    by destruct category, (system_prompt r).
Qed.

(** On a validated request the extractor depends on the category hint alone to
    succeed: without a hint, or with one of the taxonomy (up to surrounding
    whitespace), it returns the request's own counts with the provenance of
    the hint, a record that satisfies every field bound and the metadata
    consistency rules; any other hint raises [ValueError] and nothing else. *)
Theorem extract_spec `{UnicodeData} r hint structured :
  InferenceRequest_validate r = Ok tt ->
  match extract r hint structured with
  | Ok f =>
      f = extracted r (rf_category f) structured /\
      (strip <$> hint) = (RoutingCategory_value <$> rf_category f) /\
      routing_fields_ok f = true /\ metadata_is_consistent f = Ok tt
  | Raise e =>
      e = Exn C_ValueError /\
      exists h, hint = Some h /\ forall c, strip h <> RoutingCategory_value c
  end.
Proof.
  intros Hv.
  assert (Step : forall category, new_RoutingRequestFeatures
    (mk_RawRoutingFeatures (RoutingCategory_value <$> category)
       (Some (match category with None => PV_ABSENT | Some _ => PV_CLIENT_HINT end))
       (Z.of_nat (length (prompt r))) (Z.of_nat (length (default [] (system_prompt r))))
       (Some (if match system_prompt r with Some _ => true | None => false end then 2 else 1)%Z)
       (Some (match system_prompt r with Some _ => true | None => false end))
       (approximate_input_tokens r) (text_contains_code (request_text r)) structured
       (rq_max_output_tokens r) (constraint_indicator_count (request_text r))
       (reasoning_indicator_count (request_text r))) = Ok (extracted r category structured)).
  { intros category. destruct (extracted_consistent r category structured Hv) as [Hf Hm].
    unfold new_RoutingRequestFeatures, supply_compatible_metadata_defaults.
    destruct category as [c|]; cbn -[extracted routing_fields_ok metadata_is_consistent strip RoutingCategory_of];
      [rewrite RoutingCategory_value_strip, RoutingCategory_of_value|];
      cbn -[extracted routing_fields_ok metadata_is_consistent];
      [change (mk_RoutingRequestFeatures _ _ _ _ _ _ _ _ _ _ _ _) with (extracted r (Some c) structured)
      |change (mk_RoutingRequestFeatures _ _ _ _ _ _ _ _ _ _ _ _) with (extracted r None structured)];
      by rewrite Hf, Hm. }
  unfold extract. destruct hint as [h|].
  - cbn [fmap option_fmap option_map]. destruct (RoutingCategory_of (strip h)) as [c|e] eqn:E.
    + unfold mbind, result_mbind. cbn [result_bind]. cbv zeta. rewrite (Step (Some c)). cbn [rf_category extracted fmap option_fmap option_map].
      apply RoutingCategory_of_ok in E. rewrite E. split; [done|]. split; [done|]. by apply extracted_consistent.
    + cbn. apply RoutingCategory_of_raise in E as He. split; [done|]. exists h. split; [done|].
      intros c Hc. rewrite Hc, RoutingCategory_of_value in E. done.
  - unfold mbind, result_mbind. cbn [fmap option_fmap option_map result_bind]. cbv zeta.
    specialize (Step None). cbn [fmap option_fmap option_map] in Step. rewrite Step.
    split; [done|]. split; [done|]. by apply extracted_consistent.
Qed.

#[local] Existing Instance ascii_tables.

Definition example_request : InferenceRequest :=
  mk_InferenceRequest (py "Return exactly one word if you can") None 16 f_zero.

Lemma extract_spec_witness :
  InferenceRequest_validate example_request = Ok tt /\
  match extract example_request (Some (py " qa ")) false with
  | Ok f => routing_fields_ok f = true /\ rf_category f = Some QA /\
            rf_constraint_indicator_count f = 2%Z /\ rf_reasoning_indicator_count f = 1%Z
  | Raise _ => False
  end.
Proof.
  split; [reflexivity|].
  pose proof (extract_spec example_request (Some (py " qa ")) false eq_refl) as H.
  assert (exists f, extract example_request (Some (py " qa ")) false = Ok f /\
    rf_category f = Some QA /\ rf_constraint_indicator_count f = 2%Z /\
    rf_reasoning_indicator_count f = 1%Z) as (f & E & Hf).
  { eexists. vm_compute. repeat split. }
  rewrite E in H |- *. split; [apply H|exact Hf].
Defined.

(** The governance table documents every field of the feature record exactly
    once, allows nothing observed after generation and shares no name with
    the forbidden features; the training/serving audit covers the accepted
    interaction features exactly once, none of them forbidden. *)
Theorem governance_tables_sound :
  map fg_name PRODUCTION_FEATURE_GOVERNANCE = routing_feature_fields /\
  NoDup (map fg_name PRODUCTION_FEATURE_GOVERNANCE) /\
  Forall (fun e => fg_leakage_status e = PRE_GENERATION_ALLOWED) PRODUCTION_FEATURE_GOVERNANCE /\
  (forall n, n ∈ FORBIDDEN_ROUTING_FEATURES ->
     n ∉ map fg_name PRODUCTION_FEATURE_GOVERNANCE /\ n ∉ ACCEPTED_INTERACTION_FEATURES) /\
  NoDup (map ts_feature_name TRAINING_SERVING_SKEW_AUDIT) /\
  (forall n, n ∈ map ts_feature_name TRAINING_SERVING_SKEW_AUDIT <-> n ∈ ACCEPTED_INTERACTION_FEATURES).
Proof.
  split; [reflexivity|]. split; [by apply all_distinct_true|].
  split; [repeat constructor|]. split; [|split].
  - intros n Hn.
    assert (H : forallb (fun n => bool_decide (n ∉ map fg_name PRODUCTION_FEATURE_GOVERNANCE) &&
      bool_decide (n ∉ ACCEPTED_INTERACTION_FEATURES)) FORBIDDEN_ROUTING_FEATURES = true) by
      (vm_compute; reflexivity).
    apply list_elem_of_In in Hn. rewrite forallb_forall in H. specialize (H n Hn). bools. done.
  - by apply all_distinct_true.
  - by apply same_elements_true.
Qed.
