(* ===== verification/QualityFeatures.v ===== *)
(** * Canonical quality features ([routing/quality_features.py])

    The one input contract of the quality predictor, shared by training and
    serving: canonical categories and reasoning efforts, the configured output
    allowance of a candidate, the adapter from production requests, and the
    ordered matrix row handed to the classifier. *)
From S2P Require Import Prelude PyStr PyFloat PyDecimal Schemas Errors PyNum Regex Features.

Definition CANONICAL_QUALITY_FEATURE_SCHEMA_VERSION : pystr := py "1.0.0".
Definition QUALITY_PREPROCESSING_ID : pystr := py "interaction-no-provider-pin-column-transformer-v1".
Definition PREDICTOR_FORMULATION_ID : pystr := py "INTERACTION_NO_PROVIDER_PIN".
Definition PREDICTOR_FORMULATION_VERSION : pystr := py "1.0.0".
Definition INTERACTION_FEATURE : pystr := py "category_candidate".

Definition CANONICAL_CATEGORICAL_FEATURES : list pystr :=
  [py "category"; py "candidate_id"; py "reasoning_effort"; INTERACTION_FEATURE].

Definition CANONICAL_NUMERIC_FEATURES : list pystr :=
  map py
  [ "prompt_characters"; "approximate_input_tokens"; "requested_max_output_tokens";
    "constraint_indicator_count"; "reasoning_indicator_count";
    "configured_input_cost_per_1m_tokens"; "configured_output_cost_per_1m_tokens";
    "context_window"; "effective_max_output_tokens" ]%string.

Definition CANONICAL_BOOLEAN_FEATURES : list pystr :=
  map py ["contains_code"; "requests_structured_output"; "supports_temperature"]%string.

Definition CANONICAL_PREDICTIVE_FEATURES : list pystr :=
  CANONICAL_CATEGORICAL_FEATURES ++ CANONICAL_NUMERIC_FEATURES ++ CANONICAL_BOOLEAN_FEATURES.

Definition FORBIDDEN_CANONICAL_FEATURES : list pystr :=
  map py
  [ "acceptable"; "analysis_difficulty"; "candidate_cost_usd"; "category_provenance"; "evaluator_outcome"; "generated_response"; "ground_truth"; "input_tokens"; "latency_ms"; "output_tokens"; "provider_error_category"; "provider_outcome"; "provider_payload"; "quality_score"; "realized_cost_usd"; "reasoning_tokens"; "response_text"; "upstream_provider_pin" ]%string.

Record CanonicalQualityFeatures := mk_CanonicalQualityFeatures {
  cq_schema_version : pystr;
  cq_category : RoutingCategory;
  cq_candidate_id : pystr;
  cq_reasoning_effort : ReasoningEffort;
  cq_prompt_characters : float;
  cq_approximate_input_tokens : float;
  cq_requested_max_output_tokens : float;
  cq_constraint_indicator_count : float;
  cq_reasoning_indicator_count : float;
  cq_configured_input_cost_per_1m_tokens : float;
  cq_configured_output_cost_per_1m_tokens : float;
  cq_context_window : float;
  cq_effective_max_output_tokens : float;
  cq_contains_code : bool;
  cq_requests_structured_output : bool;
  cq_supports_temperature : bool
}.

(** [Field(gt=0, allow_inf_nan=False)] *)
Definition positive_finite (f : float) : bool := f_isfinite f && f_ltb f_zero f.

Definition CanonicalQualityFeatures_validate (c : CanonicalQualityFeatures) : result pystr unit :=
  check (Identifier_ok (cq_candidate_id c) &&
         nonneg_finite (cq_prompt_characters c) && nonneg_finite (cq_approximate_input_tokens c) &&
         positive_finite (cq_requested_max_output_tokens c) &&
         nonneg_finite (cq_constraint_indicator_count c) &&
         nonneg_finite (cq_reasoning_indicator_count c) &&
         nonneg_finite (cq_configured_input_cost_per_1m_tokens c) &&
         nonneg_finite (cq_configured_output_cost_per_1m_tokens c) &&
         positive_finite (cq_context_window c) && positive_finite (cq_effective_max_output_tokens c))
        field_error.

(** [f"{self.category.value}::{self.candidate_id}"] *)
Definition category_candidate (c : CanonicalQualityFeatures) : pystr :=
  RoutingCategory_value (cq_category c) ++ py "::" ++ cq_candidate_id c.

(** [canonicalize_category] of a string; a [RoutingCategory] member goes by its
    value, which it leaves unchanged. *)
Definition canonicalize_category (value : pystr) : result exn RoutingCategory :=
  let normalized := strip value in
  let normalized :=
    if bool_decide (normalized = py "json") then RoutingCategory_value STRUCTURED_JSON else normalized in
  RoutingCategory_of normalized.

(** [canonicalize_reasoning_effort] of a configured effort. *)
Definition canonicalize_reasoning_effort (value : option ReasoningEffort) : ReasoningEffort :=
  match value with None => RE_NONE | Some e => e end.

Definition resolve_effective_output_allowance (f : RoutingRequestFeatures) (candidate : ModelConfig) :
    result exn Z :=
  match rf_category f with
  | None => Raise (Exn C_MissingRoutingCategoryError)
  | Some c =>
      category ← canonicalize_category (RoutingCategory_value c);
      canonical ← result_map
        (fun item => c' ← canonicalize_category (al_category item); Ok (c', al_max_output_tokens item))
        (category_overrides (output_token_policy candidate));
      let matching := map snd (List.filter (fun p => bool_decide (p.1 = category)) canonical) in
      if Nat.ltb 1 (length matching) then Raise (Exn C_ValueError)
      else Ok (match matching with x :: _ => x | [] => rf_max_output_tokens f end)
  end.

Definition canonical_from_production (f : RoutingRequestFeatures) (candidate : ModelConfig) :
    result exn CanonicalQualityFeatures :=
  match rf_category f with
  | None => Raise (Exn C_MissingRoutingCategoryError)
  | Some c =>
      category ← canonicalize_category (RoutingCategory_value c);
      prompt_characters ← f_of_int (rf_prompt_characters f);
      approximate ← f_of_int (rf_approximate_input_tokens f);
      requested ← f_of_int (rf_max_output_tokens f);
      constraints ← f_of_int (rf_constraint_indicator_count f);
      reasonings ← f_of_int (rf_reasoning_indicator_count f);
      window ← f_of_int (context_window candidate);
      allowance ← resolve_effective_output_allowance f candidate;
      effective ← f_of_int allowance;
      let c := mk_CanonicalQualityFeatures CANONICAL_QUALITY_FEATURE_SCHEMA_VERSION category
        (model_id candidate) (canonicalize_reasoning_effort (Schemas.reasoning_effort candidate))
        prompt_characters approximate requested constraints reasonings
        (f_of_decimal (input_cost_per_1m_tokens candidate))
        (f_of_decimal (output_cost_per_1m_tokens candidate))
        window effective
        (rf_contains_code f) (rf_requests_structured_output f)
        (supports_temperature (capabilities candidate)) in
      _ ← validated (CanonicalQualityFeatures_validate c);
      Ok c
  end.

(** ** The classifier's row *)

Inductive cell := CStr (s : pystr) | CNum (f : float) | CBool (b : bool).

(** [row.model_dump(exclude={"schema_version"})] with the enumerations replaced
    by their values and the interaction added. *)
Definition row_values (c : CanonicalQualityFeatures) : list (list N * cell) :=
  let values :=
    [ (py "category", CStr (RoutingCategory_value (cq_category c)));
      (py "candidate_id", CStr (cq_candidate_id c));
      (py "reasoning_effort", CStr (ReasoningEffort_value (cq_reasoning_effort c)));
      (py "prompt_characters", CNum (cq_prompt_characters c));
      (py "approximate_input_tokens", CNum (cq_approximate_input_tokens c));
      (py "requested_max_output_tokens", CNum (cq_requested_max_output_tokens c));
      (py "constraint_indicator_count", CNum (cq_constraint_indicator_count c));
      (py "reasoning_indicator_count", CNum (cq_reasoning_indicator_count c));
      (py "configured_input_cost_per_1m_tokens", CNum (cq_configured_input_cost_per_1m_tokens c));
      (py "configured_output_cost_per_1m_tokens", CNum (cq_configured_output_cost_per_1m_tokens c));
      (py "context_window", CNum (cq_context_window c));
      (py "effective_max_output_tokens", CNum (cq_effective_max_output_tokens c));
      (py "contains_code", CBool (cq_contains_code c));
      (py "requests_structured_output", CBool (cq_requests_structured_output c));
      (py "supports_temperature", CBool (cq_supports_temperature c)) ] in
  dict_set values INTERACTION_FEATURE (CStr (category_candidate c)).

Definition canonical_feature_row (c : CanonicalQualityFeatures) : result exn (list cell) :=
  result_map (fun name => match dict_get (row_values c) name with
                          | Some v => Ok v
                          | None => Raise (Exn C_KeyError)
                          end) CANONICAL_PREDICTIVE_FEATURES.

Definition canonical_feature_matrix (rows : list CanonicalQualityFeatures) :
    result exn (list (list cell)) := result_map canonical_feature_row rows.

(** ** The skew audit *)

Inductive CanonicalCompatibilityStatus := CCS_EXACT_MATCH | CCS_CANONICALIZED_MATCH | CCS_UNRESOLVED.

#[export] Instance CanonicalCompatibilityStatus_eq_dec : EqDecision CanonicalCompatibilityStatus.
Proof. solve_decision. Defined.

Record CanonicalSkewAuditEntry := mk_CanonicalSkewAuditEntry {
  cs_feature_name : pystr;
  cs_status : CanonicalCompatibilityStatus;
  cs_resolution : pystr
}.

Definition CANONICAL_TRAINING_SERVING_AUDIT : list CanonicalSkewAuditEntry :=
  [ mk_CanonicalSkewAuditEntry (py "category") CCS_CANONICALIZED_MATCH
      (py "Training json maps to structured_json; production categories are already canonical.");
    mk_CanonicalSkewAuditEntry (py "candidate_id") CCS_EXACT_MATCH
      (py "Training internal ID and production ModelConfig.model_id are identical.");
    mk_CanonicalSkewAuditEntry (py "reasoning_effort") CCS_CANONICALIZED_MATCH
      (py "Training strings and production enum/None normalize to ReasoningEffort.");
    mk_CanonicalSkewAuditEntry INTERACTION_FEATURE CCS_CANONICALIZED_MATCH
      (py "One shared vectorizer derives canonical category::candidate identity.");
    mk_CanonicalSkewAuditEntry (py "prompt_characters") CCS_EXACT_MATCH
      (py "Both adapters use the governed user-prompt character count.");
    mk_CanonicalSkewAuditEntry (py "approximate_input_tokens") CCS_EXACT_MATCH
      (py "Both adapters use the shared whitespace estimate.");
    mk_CanonicalSkewAuditEntry (py "requested_max_output_tokens") CCS_EXACT_MATCH
      (py "Both adapters use the explicit request allowance.");
    mk_CanonicalSkewAuditEntry (py "constraint_indicator_count") CCS_EXACT_MATCH
      (py "Both adapters use the shared frozen vocabulary count.");
    mk_CanonicalSkewAuditEntry (py "reasoning_indicator_count") CCS_EXACT_MATCH
      (py "Both adapters use the shared frozen vocabulary count.");
    mk_CanonicalSkewAuditEntry (py "configured_input_cost_per_1m_tokens") CCS_EXACT_MATCH
      (py "Both adapters use configured candidate input price.");
    mk_CanonicalSkewAuditEntry (py "configured_output_cost_per_1m_tokens") CCS_EXACT_MATCH
      (py "Both adapters use configured candidate output price.");
    mk_CanonicalSkewAuditEntry (py "context_window") CCS_EXACT_MATCH
      (py "Both adapters use configured candidate context window.");
    mk_CanonicalSkewAuditEntry (py "effective_max_output_tokens") CCS_CANONICALIZED_MATCH
      (py "Typed category allowance policy reproduces frozen configured overrides.");
    mk_CanonicalSkewAuditEntry (py "contains_code") CCS_EXACT_MATCH
      (py "Both adapters use the governed request indicator.");
    mk_CanonicalSkewAuditEntry (py "requests_structured_output") CCS_CANONICALIZED_MATCH
      (py "Benchmark configuration and explicit production requirement map to one boolean.");
    mk_CanonicalSkewAuditEntry (py "supports_temperature") CCS_EXACT_MATCH
      (py "Both adapters use typed candidate capability configuration.") ].

Definition CanonicalCompatibilityStatus_value (s : CanonicalCompatibilityStatus) : pystr :=
  match s with
  | CCS_EXACT_MATCH => py "EXACT_MATCH"
  | CCS_CANONICALIZED_MATCH => py "CANONICALIZED_MATCH"
  | CCS_UNRESOLVED => py "UNRESOLVED"
  end.

(** [validate_canonical_skew_audit], on the table it reads. *)
Definition validate_canonical_skew_audit (audit : list CanonicalSkewAuditEntry) :
    result exn (list (list N * nat)) :=
  let names := map cs_feature_name audit in
  _ ← guard_else (all_distinct names && same_elements names CANONICAL_PREDICTIVE_FEATURES)
        (Exn C_ValueError);
  let count s := length (List.filter (fun e => bool_decide (cs_status e = s)) audit) in
  let counts := map (fun s => (CanonicalCompatibilityStatus_value s, count s))
                  [CCS_EXACT_MATCH; CCS_CANONICALIZED_MATCH; CCS_UNRESOLVED] in
  _ ← guard_else (Nat.eqb (count CCS_UNRESOLVED) 0) (Exn C_ValueError);
  Ok counts.

(** ** Canonicalisation *)

Lemma canonicalize_category_value c : canonicalize_category (RoutingCategory_value c) = Ok c.
Proof. destruct c; vm_compute; reflexivity. Qed.

Lemma canonicalize_category_raise s e : canonicalize_category s = Raise e -> e = Exn C_ValueError.
Proof. apply RoutingCategory_of_raise. Qed.

Lemma RoutingCategory_value_inj c c' : RoutingCategory_value c = RoutingCategory_value c' -> c = c'.
Proof. destruct c, c'; try done; vm_compute; discriminate. Qed.

Lemma ReasoningEffort_value_inj e e' : ReasoningEffort_value e = ReasoningEffort_value e' -> e = e'.
Proof. destruct e, e'; try done; vm_compute; discriminate. Qed.

(** The category name has no colon, so the interaction splits one way only. *)
Lemma category_candidate_split c c' :
  category_candidate c = category_candidate c' ->
  cq_category c = cq_category c' /\ cq_candidate_id c = cq_candidate_id c'.
Proof.
  unfold category_candidate.
  destruct (cq_category c), (cq_category c'); vm_compute; intros H; try discriminate H;
    by simplify_eq.
Qed.

(** The classifier's row is total and lossless: building it never raises, it has
    one cell per predictive feature in their fixed order, and two feature
    records with the same row agree on every field but the schema version;
    the interaction cell alone already determines category and candidate. *)
Theorem feature_row_lossless c c' :
  exists r, canonical_feature_row c = Ok r /\
    length r = length CANONICAL_PREDICTIVE_FEATURES /\
    (forall k name, CANONICAL_PREDICTIVE_FEATURES !! k = Some name ->
       r !! k = dict_get (row_values c) name) /\
    (canonical_feature_row c' = Ok r ->
       cq_schema_version c = cq_schema_version c' -> c = c') /\
    (nth_error r 3 = Some (CStr (category_candidate c')) ->
       cq_category c = cq_category c' /\ cq_candidate_id c = cq_candidate_id c').
Proof.
  assert (E : forall x, canonical_feature_row x = Ok
    [ CStr (RoutingCategory_value (cq_category x)); CStr (cq_candidate_id x);
      CStr (ReasoningEffort_value (cq_reasoning_effort x)); CStr (category_candidate x);
      CNum (cq_prompt_characters x); CNum (cq_approximate_input_tokens x);
      CNum (cq_requested_max_output_tokens x); CNum (cq_constraint_indicator_count x);
      CNum (cq_reasoning_indicator_count x); CNum (cq_configured_input_cost_per_1m_tokens x);
      CNum (cq_configured_output_cost_per_1m_tokens x); CNum (cq_context_window x);
      CNum (cq_effective_max_output_tokens x); CBool (cq_contains_code x);
      CBool (cq_requests_structured_output x); CBool (cq_supports_temperature x) ]) by (intros; reflexivity).
  eexists. split; [apply E|]. split; [reflexivity|]. split; [|split].
  - intros k name Hk. do 16 (destruct k as [|k]; [injection Hk as <-; reflexivity|]). discriminate.
  - rewrite E. intros H Hv. injection H; intros.
    repeat match goal with
      | H : RoutingCategory_value _ = _ |- _ => apply RoutingCategory_value_inj in H
      | H : ReasoningEffort_value _ = _ |- _ => apply ReasoningEffort_value_inj in H
      end.
    clear E. destruct c, c'. cbn [cq_schema_version cq_category cq_candidate_id cq_reasoning_effort
      cq_prompt_characters cq_approximate_input_tokens cq_requested_max_output_tokens
      cq_constraint_indicator_count cq_reasoning_indicator_count
      cq_configured_input_cost_per_1m_tokens cq_configured_output_cost_per_1m_tokens cq_context_window
      cq_effective_max_output_tokens cq_contains_code cq_requests_structured_output
      cq_supports_temperature] in *. by subst.
  - intros H. cbn [nth_error] in H. injection H as H. by apply category_candidate_split.
Qed.

(** The audit of the canonical features passes: it covers every predictive
    feature exactly once, nothing is unresolved and none is forbidden. *)
Theorem canonical_audit_passes :
  validate_canonical_skew_audit CANONICAL_TRAINING_SERVING_AUDIT =
    Ok [(py "EXACT_MATCH", 11); (py "CANONICALIZED_MATCH", 5); (py "UNRESOLVED", 0)] /\
  NoDup CANONICAL_PREDICTIVE_FEATURES /\
  (forall n, n ∈ CANONICAL_PREDICTIVE_FEATURES -> n ∉ FORBIDDEN_CANONICAL_FEATURES).
Proof.
  split; [vm_compute; reflexivity|]. split; [by apply all_distinct_true|].
  intros n Hn. apply list_elem_of_In in Hn.
  assert (H : forallb (fun n => bool_decide (n ∉ FORBIDDEN_CANONICAL_FEATURES))
                CANONICAL_PREDICTIVE_FEATURES = true) by (vm_compute; reflexivity).
  rewrite forallb_forall in H. specialize (H n Hn). by bools.
Qed.

(** ** The output allowance *)

Lemma canonical_overrides l out :
  result_map (fun item => c' ← canonicalize_category (al_category item);
                          Ok (c', al_max_output_tokens item)) l = Ok out ->
  Forall2 (fun a p => canonicalize_category (al_category a) = Ok p.1 /\
                      p.2 = al_max_output_tokens a) l out.
Proof.
  intros H. apply result_map_ok in H. eapply Forall2_impl; [exact H|].
  intros a p Hp. apply bind_ok in Hp as (c' & Hc & Hp). by inv_result.
Qed.

Lemma Forall2_in_r {A B} (P : A -> B -> Prop) l k y :
  Forall2 P l k -> y ∈ k -> exists x, x ∈ l /\ P x y.
Proof. intros H. induction H; set_solver. Qed.

Lemma Forall2_in_l {A B} (P : A -> B -> Prop) l k x :
  Forall2 P l k -> x ∈ l -> exists y, y ∈ k /\ P x y.
Proof. intros H. induction H; set_solver. Qed.

(** Two canonical matches come from two entries of the policy. *)
Lemma two_matches l out c :
  Forall2 (fun a p => canonicalize_category (al_category a) = Ok p.1 /\
                      p.2 = al_max_output_tokens a) l out ->
  NoDup (map al_category l) ->
  (1 < length (map snd (List.filter (fun p => bool_decide (p.1 = c)) out)))%nat ->
  exists a b, a ∈ l /\ b ∈ l /\ al_category a <> al_category b /\
    canonicalize_category (al_category a) = Ok c /\ canonicalize_category (al_category b) = Ok c.
Proof.
  rewrite length_map. induction 1 as [|a [c' n] l out [Ha _] Hr IH]; simpl; [lia|].
  intros [Hn Hd]%NoDup_cons. case_bool_decide as E; simpl in *.
  - intros Hlen. subst c'.
    destruct (List.filter (fun p => bool_decide (p.1 = c)) out) as [|q r] eqn:Ef; simpl in *; [lia|].
    assert (Hq : In q (List.filter (fun p => bool_decide (p.1 = c)) out)) by (rewrite Ef; by left).
    apply filter_In in Hq as [Hq Hc]. bools. apply list_elem_of_In in Hq.
    destruct (Forall2_in_r _ _ _ _ Hr Hq) as (b & Hb & Hbc & _). subst c.
    exists a, b. repeat split; try done; [set_solver..|].
    intros E. apply Hn. rewrite E. apply list_elem_of_In, in_map. by apply list_elem_of_In.
  - intros Hlen. destruct (IH Hd Hlen) as (x & y & ? & ? & ?). exists x, y. set_solver.
Qed.

(** On a validated policy the configured allowance is resolved without regard
    to the candidate: the override whose canonical category is the request's
    when there is one, else the requested maximum.  It raises [ValueError]
    exactly when an override's category is outside the taxonomy or when two
    differently spelled overrides have the request's canonical category. *)
Theorem resolve_allowance_spec f m c :
  rf_category f = Some c -> OutputTokenPolicy_validate (output_token_policy m) = Ok tt ->
  let overrides := category_overrides (output_token_policy m) in
  match resolve_effective_output_allowance f m with
  | Ok n =>
      (exists a, a ∈ overrides /\ canonicalize_category (al_category a) = Ok c /\
                 n = al_max_output_tokens a /\ (0 < n)%Z) \/
      (n = rf_max_output_tokens f /\
       forall a, a ∈ overrides -> canonicalize_category (al_category a) <> Ok c)
  | Raise e =>
      e = Exn C_ValueError /\
      ((exists a e', a ∈ overrides /\ canonicalize_category (al_category a) = Raise e') \/
       (exists a b, a ∈ overrides /\ b ∈ overrides /\ al_category a <> al_category b /\
          canonicalize_category (al_category a) = Ok c /\
          canonicalize_category (al_category b) = Ok c))
  end.
Proof.
  intros Hc Hv overrides. unfold resolve_effective_output_allowance.
  rewrite Hc, canonicalize_category_value. rsimpl. fold overrides.
  assert (Hnd : NoDup (map al_category overrides)).
  { unfold OutputTokenPolicy_validate in Hv. inv_checks. by apply all_distinct_true. }
  destruct (result_map _ overrides) as [out|e] eqn:E; rsimpl; cbv zeta.
  - apply canonical_overrides in E. destruct (Nat.ltb_spec 1 (length (map snd
      (List.filter (fun p => bool_decide (p.1 = c)) out)))) as [L|L].
    + split; [done|]. right. by apply (two_matches _ out).
    + destruct (List.filter _ out) as [|p r] eqn:Ef; simpl.
      * right. split; [done|]. intros a Ha Hca.
        destruct (Forall2_in_l _ _ _ _ E Ha) as (p & Hp & Hpc & _).
        apply (in_nil (a := p)). rewrite <- Ef. apply filter_In.
        split; [by apply list_elem_of_In|]. apply bool_decide_eq_true. congruence.
      * left. assert (Hp : In p (p :: r)) by (by left). rewrite <- Ef in Hp.
        apply filter_In in Hp as [Hp Hpc]. bools. apply list_elem_of_In in Hp.
        destruct (Forall2_in_r _ _ _ _ E Hp) as (a & Ha & Hac & Hn).
        exists a. rewrite Hn, <- Hpc. repeat split; try done. by apply (override_validated _ _ Hv).
  - apply result_map_raise in E as (a & Ha & E).
    destruct (canonicalize_category (al_category a)) as [c'|e'] eqn:Ea; [done|].
    cbn in E. injection E as ->. split; [by apply (canonicalize_category_raise (al_category a))|].
    left. by exists a, e.
Qed.

Definition policy_with (overrides : list (string * Z)) : OutputTokenPolicy :=
  mk_OutputTokenPolicy (map (fun o => mk_CategoryOutputTokenAllowance (py o.1) o.2) overrides) 0 0.

Definition model_with (p : OutputTokenPolicy) : ModelConfig :=
  mk_ModelConfig (py "m") (py "p") (py "vendor/m") (mk_decimal false 15 (-2)) (mk_decimal false 60 (-2))
    4096 true default_capabilities None GATEWAY_SHARED p.

Definition json_features : RoutingRequestFeatures :=
  mk_RoutingRequestFeatures (Some STRUCTURED_JSON) PV_CLIENT_HINT 10 0 1 false 2 false false 64 0 0.

Lemma resolve_allowance_spec_witness :
  let m := model_with (policy_with [("json", 300%Z); ("qa", 20%Z)]%string) in
  OutputTokenPolicy_validate (output_token_policy m) = Ok tt /\
  resolve_effective_output_allowance json_features m = Ok 300%Z /\
  exists a, a ∈ category_overrides (output_token_policy m) /\
    canonicalize_category (al_category a) = Ok STRUCTURED_JSON /\
    300%Z = al_max_output_tokens a /\ (0 < 300)%Z.
Proof.
  intros m. split; [reflexivity|].
  assert (E : resolve_effective_output_allowance json_features m = Ok 300%Z) by (vm_compute; reflexivity).
  split; [exact E|].
  pose proof (resolve_allowance_spec json_features m STRUCTURED_JSON eq_refl eq_refl) as H.
  cbv zeta in H. rewrite E in H. destruct H as [H|[H _]]; [exact H|discriminate H].
Defined.

(** A validated model whose policy spells one canonical category twice: routing
    to it raises although construction accepted it. *)
Lemma canonical_duplicate_accepted :
  let m := model_with (policy_with [("json", 300%Z); ("structured_json", 200%Z)]%string) in
  ModelConfig_validate m = Ok tt /\
  resolve_effective_output_allowance json_features m = Raise (Exn C_ValueError).
Proof. split; vm_compute; reflexivity. Qed.
