(* ===== verification/Policy.v ===== *)
(** * Cost-aware routing policy ([routing/policy.py])

    The quality threshold contract and the choice of a candidate: the cheapest
    one that meets the threshold, or the most acceptable one when none does. *)
From S2P Require Import Prelude PyStr PyFloat PyDecimal Schemas Errors PyNum.

(** [Probability] *)
Definition Probability_ok (f : float) : bool :=
  f_isfinite f && f_leb f_zero f && f_leb f f_one.

Definition validated_probability (value : pynum) : result exn float :=
  match value with
  | PyBool _ | PyNonNumber => Raise (Exn C_ValueError)
  | _ =>
      result ← py_float value;
      if negb (f_isfinite result) || negb (f_leb f_zero result && f_leb result f_one)
      then Raise (Exn C_ValueError) else Ok result
  end.

(** [validate_quality_threshold]; only [ValueError] is translated. *)
Definition validate_quality_threshold (value : pynum) : result exn float :=
  match validated_probability value with
  | Ok f => Ok f
  | Raise e => if isinstance e C_ValueError then Raise (Exn C_InvalidQualityThresholdError) else Raise e
  end.

Record ModelAcceptabilityPrediction := mk_ModelAcceptabilityPrediction {
  mp_model_id : pystr;
  mp_predicted_acceptability : float
}.

(** Construction from a raw value: the "before" validator, then the field. *)
Definition new_ModelAcceptabilityPrediction (model_id : pystr) (value : pynum) :
    result exn ModelAcceptabilityPrediction :=
  match validated_probability value with
  | Raise e => if isinstance e C_ValueError then Raise (Exn C_ValidationError) else Raise e
  | Ok p =>
      _ ← validated (check (Identifier_ok model_id && Probability_ok p) field_error);
      Ok (mk_ModelAcceptabilityPrediction model_id p)
  end.

Record CandidatePrediction := mk_CandidatePrediction {
  cp_model_id : pystr;
  cp_predicted_acceptability : float;
  cp_projected_cost_usd : decimal
}.

#[export] Instance CandidatePrediction_eq_dec : EqDecision CandidatePrediction.
Proof. solve_decision. Defined.

Definition CandidatePrediction_ok (c : CandidatePrediction) : bool :=
  Identifier_ok (cp_model_id c) && Probability_ok (cp_predicted_acceptability c) &&
  Money_ok (cp_projected_cost_usd c).

Inductive RoutingDecisionReason := QUALITY_THRESHOLD_MET | NO_MODEL_MET_THRESHOLD_FALLBACK.

#[export] Instance RoutingDecisionReason_eq_dec : EqDecision RoutingDecisionReason.
Proof. solve_decision. Defined.

Definition RoutingDecisionReason_value (r : RoutingDecisionReason) : pystr :=
  match r with
  | QUALITY_THRESHOLD_MET => py "quality_threshold_met"
  | NO_MODEL_MET_THRESHOLD_FALLBACK => py "no_model_met_threshold_fallback"
  end.

Record RoutingDecision := mk_RoutingDecision {
  selected_model_id : pystr;
  selected_predicted_acceptability : float;
  selected_projected_cost_usd : decimal;
  quality_threshold : float;
  threshold_satisfied : bool;
  fallback_used : bool;
  eligible_candidate_count : Z;
  qualifying_candidate_count : Z;
  reason : RoutingDecisionReason
}.

Definition RoutingDecision_ok (d : RoutingDecision) : bool :=
  Identifier_ok (selected_model_id d) && Probability_ok (selected_predicted_acceptability d) &&
  Money_ok (selected_projected_cost_usd d) && Probability_ok (quality_threshold d) &&
  (0 <? eligible_candidate_count d)%Z && (0 <=? qualifying_candidate_count d)%Z.

(** [candidate.predicted_acceptability >= threshold] *)
Definition qualifies (threshold : float) (c : CandidatePrediction) : bool :=
  f_leb threshold (cp_predicted_acceptability c).

(** [<] on the tuples [(projected_cost_usd, model_id)]: the first components
    that are not equal decide. *)
Definition cost_key_lt (a b : CandidatePrediction) : bool :=
  if d_eqb (cp_projected_cost_usd a) (cp_projected_cost_usd b)
  then cmp_lt str_cmp (cp_model_id a) (cp_model_id b)
  else d_ltb (cp_projected_cost_usd a) (cp_projected_cost_usd b).

(** [<] on [(-predicted_acceptability, projected_cost_usd, model_id)] *)
Definition fallback_key_lt (a b : CandidatePrediction) : bool :=
  let ka := f_neg (cp_predicted_acceptability a) in
  let kb := f_neg (cp_predicted_acceptability b) in
  if f_eqb ka kb then cost_key_lt a b else f_ltb ka kb.

(** [CostAwareRoutingPolicy.route] *)
Definition route (candidates : list CandidatePrediction) (threshold : pynum) :
    result exn RoutingDecision :=
  match candidates with
  | [] => Raise (Exn C_NoEligibleCandidatesError)
  | c0 :: cs =>
      threshold ← validate_quality_threshold threshold;
      _ ← guard_else (all_distinct (map cp_model_id candidates))
            (Exn C_DuplicateCandidatePredictionError);
      let qualifying := List.filter (qualifies threshold) candidates in
      let '(selected, reason, fallback) :=
        match qualifying with
        | q :: qs => (min_from cost_key_lt q qs, QUALITY_THRESHOLD_MET, false)
        | [] => (min_from fallback_key_lt c0 cs, NO_MODEL_MET_THRESHOLD_FALLBACK, true)
        end in
      let d := mk_RoutingDecision (cp_model_id selected) (cp_predicted_acceptability selected)
                 (cp_projected_cost_usd selected) threshold (negb fallback) fallback
                 (Z.of_nat (length candidates)) (Z.of_nat (length qualifying)) reason in
      _ ← validated (check (RoutingDecision_ok d) field_error);
      Ok d
  end.

(** ** The orders of the two [min] calls *)

Definition cost_cmp : CandidatePrediction -> CandidatePrediction -> comparison :=
  lex_cmp (on_key cp_projected_cost_usd d_cmp) (on_key cp_model_id str_cmp).

Definition fallback_cmp : CandidatePrediction -> CandidatePrediction -> comparison :=
  lex_cmp (on_key cp_predicted_acceptability (fun x y => f_cmp y x)) cost_cmp.

#[export] Instance total_cmp_cost : TotalCmp cost_cmp := _.
#[export] Instance total_cmp_fallback : TotalCmp fallback_cmp := _.

Lemma Probability_ok_not_nan f : Probability_ok f = true -> is_nan f = false.
Proof. unfold Probability_ok. intros. bools. by apply f_isfinite_not_nan. Qed.

Lemma CandidatePrediction_not_nan c :
  CandidatePrediction_ok c = true -> is_nan (cp_predicted_acceptability c) = false.
Proof. unfold CandidatePrediction_ok. intros. bools. by apply Probability_ok_not_nan. Qed.

Lemma cost_key_lt_cmp a b : cost_key_lt a b = cmp_lt cost_cmp a b.
Proof.
  unfold cost_key_lt, d_eqb, d_ltb, cmp_lt, cost_cmp, lex_cmp, on_key.
  by destruct (d_cmp (cp_projected_cost_usd a) (cp_projected_cost_usd b)).
Qed.

Lemma is_nan_neg f : is_nan (f_neg f) = is_nan f.
Proof. by destruct f. Qed.

Lemma fallback_key_lt_cmp a b :
  CandidatePrediction_ok a = true -> CandidatePrediction_ok b = true ->
  fallback_key_lt a b = cmp_lt fallback_cmp a b.
Proof.
  intros Ha%CandidatePrediction_not_nan Hb%CandidatePrediction_not_nan.
  unfold fallback_key_lt. rewrite f_eqb_cmp, f_ltb_cmp by (by rewrite is_nan_neg).
  unfold cmp_lt at 1. rewrite f_cmp_neg by done. rewrite cost_key_lt_cmp.
  unfold cmp_lt, fallback_cmp, lex_cmp, on_key. by destruct (f_cmp _ _).
Qed.

(** Candidates with distinct identifiers never tie. *)
Lemma cost_cmp_eq_id a b : cost_cmp a b = Eq -> cp_model_id a = cp_model_id b.
Proof.
  unfold cost_cmp, lex_cmp, on_key. destruct (d_cmp _ _); [|done..]. by apply str_cmp_eq.
Qed.

Lemma fallback_cmp_eq_id a b : fallback_cmp a b = Eq -> cp_model_id a = cp_model_id b.
Proof.
  unfold fallback_cmp, lex_cmp, on_key. destruct (f_cmp _ _); [|done..]. by apply cost_cmp_eq_id.
Qed.

Lemma candidates_ok_in cs c :
  forallb CandidatePrediction_ok cs = true -> c ∈ cs -> CandidatePrediction_ok c = true.
Proof. rewrite forallb_forall. intros H Hc. by apply H, list_elem_of_In. Qed.

(** The element both [min] calls select, with the order made explicit. *)
Definition select (threshold : float) (c0 : CandidatePrediction) (cs : list CandidatePrediction) :
    CandidatePrediction :=
  match List.filter (qualifies threshold) (c0 :: cs) with
  | q :: qs => min_from (cmp_lt cost_cmp) q qs
  | [] => min_from (cmp_lt fallback_cmp) c0 cs
  end.

Lemma select_in t c0 cs : select t c0 cs ∈ c0 :: cs.
Proof.
  unfold select. destruct (List.filter (qualifies t) (c0 :: cs)) as [|q qs] eqn:E.
  - destruct (min_from_in (cmp_lt fallback_cmp) c0 cs) as [->|H]; set_solver.
  - assert (H : min_from (cmp_lt cost_cmp) q qs ∈ q :: qs).
    { destruct (min_from_in (cmp_lt cost_cmp) q qs) as [->|H]; set_solver. }
    rewrite <- E in H. apply list_elem_of_In, filter_In in H as [H _]. by apply list_elem_of_In.
Qed.

Lemma validated_probability_spec v :
  validated_probability v =
  match v with
  | PyBool _ | PyNonNumber => Raise (Exn C_ValueError)
  | _ => f ← py_float v; if Probability_ok f then Ok f else Raise (Exn C_ValueError)
  end.
Proof.
  unfold validated_probability, Probability_ok.
  destruct v; try done; destruct (py_float _) as [g|e]; rsimpl; try done;
    by destruct (f_isfinite g), (f_leb f_zero g), (f_leb g f_one).
Qed.

Lemma validated_probability_ok v t : validated_probability v = Ok t -> Probability_ok t = true.
Proof.
  unfold validated_probability, Probability_ok. intros H.
  destruct v; try discriminate; apply bind_ok in H as (g & _ & H);
    destruct (f_isfinite g) eqn:E1, (f_leb f_zero g) eqn:E2, (f_leb g f_one) eqn:E3; try discriminate;
    simpl in H; inv_result; by rewrite E1, E2, E3.
Qed.

Lemma validate_quality_threshold_ok v t : validate_quality_threshold v = Ok t -> Probability_ok t = true.
Proof.
  unfold validate_quality_threshold. destruct (validated_probability v) as [g|e] eqn:E.
  - intros. inv_result. by apply (validated_probability_ok v).
  - by destruct (isinstance e C_ValueError).
Qed.

(** The decision [route] reaches on checked input. *)
Definition decision_of (t : float) (c0 : CandidatePrediction) (cs : list CandidatePrediction) :
    RoutingDecision :=
  let qualifying := List.filter (qualifies t) (c0 :: cs) in
  let met := match qualifying with [] => false | _ => true end in
  let s := select t c0 cs in
  mk_RoutingDecision (cp_model_id s) (cp_predicted_acceptability s) (cp_projected_cost_usd s) t met
    (negb met) (Z.of_nat (length (c0 :: cs))) (Z.of_nat (length qualifying))
    (if met then QUALITY_THRESHOLD_MET else NO_MODEL_MET_THRESHOLD_FALLBACK).

Lemma decision_of_ok t c0 cs :
  Probability_ok t = true -> forallb CandidatePrediction_ok (c0 :: cs) = true ->
  RoutingDecision_ok (decision_of t c0 cs) = true.
Proof.
  intros Ht Hc. pose proof (candidates_ok_in _ _ Hc (select_in t c0 cs)) as Hs.
  unfold CandidatePrediction_ok in Hs. bools.
  unfold RoutingDecision_ok, decision_of.
  cbn [selected_model_id selected_predicted_acceptability selected_projected_cost_usd
       quality_threshold eligible_candidate_count qualifying_candidate_count].
  rewrite H, H0, H1, Ht. cbn [andb].
  apply andb_true_iff. split; [apply Z.ltb_lt; simpl; lia|apply Z.leb_le; lia].
Qed.

(** [route] on valid candidates: the guards in order, then the decision. *)
Lemma route_steps c0 cs v :
  forallb CandidatePrediction_ok (c0 :: cs) = true ->
  route (c0 :: cs) v =
    (t ← validate_quality_threshold v;
     if all_distinct (map cp_model_id (c0 :: cs)) then Ok (decision_of t c0 cs)
     else Raise (Exn C_DuplicateCandidatePredictionError)).
Proof.
  intros Hc. unfold route. destruct (validate_quality_threshold v) as [t|e] eqn:Et; rsimpl; [|done].
  apply validate_quality_threshold_ok in Et.
  unfold guard_else. destruct (all_distinct _); rsimpl; [|done]. cbv zeta.
  pose proof (decision_of_ok t c0 cs Et Hc) as Hd.
  unfold decision_of, select in *. destruct (List.filter (qualifies t) (c0 :: cs)) as [|q qs] eqn:Ef.
  - rewrite (min_from_lt_ext fallback_key_lt (cmp_lt fallback_cmp)).
    + cbn [negb] in *. by rewrite Hd.
    + intros x y Hx Hy. apply fallback_key_lt_cmp; by apply (candidates_ok_in _ _ Hc).
  - rewrite (min_from_lt_ext cost_key_lt (cmp_lt cost_cmp)) by (intros; apply cost_key_lt_cmp).
    cbn [negb] in *. by rewrite Hd.
Qed.

(** ** Properties *)

(** [a] is at most [b] for the policy: cheaper, or as cheap and first by name. *)
Definition cheaper_or_first (a b : CandidatePrediction) : Prop :=
  d_ltb (cp_projected_cost_usd a) (cp_projected_cost_usd b) = true \/
  (d_eqb (cp_projected_cost_usd a) (cp_projected_cost_usd b) = true /\
   str_cmp (cp_model_id a) (cp_model_id b) <> Gt).

Lemma cost_cmp_le a b : cmp_le cost_cmp a b = true <-> cheaper_or_first a b.
Proof.
  unfold cmp_le, cost_cmp, lex_cmp, on_key, cheaper_or_first, d_ltb, d_eqb, cmp_lt.
  destruct (d_cmp _ _), (str_cmp _ _); intuition congruence.
Qed.

Lemma fallback_cmp_le a b :
  CandidatePrediction_ok a = true -> CandidatePrediction_ok b = true ->
  cmp_le fallback_cmp a b = true ->
  f_leb (cp_predicted_acceptability b) (cp_predicted_acceptability a) = true /\
  (f_eqb (cp_predicted_acceptability b) (cp_predicted_acceptability a) = true ->
   cheaper_or_first a b).
Proof.
  intros Ha%CandidatePrediction_not_nan Hb%CandidatePrediction_not_nan.
  rewrite f_leb_cmp, f_eqb_cmp, <- cost_cmp_le by done.
  unfold cmp_le at 1 2, fallback_cmp, lex_cmp, on_key.
  destruct (f_cmp _ _); intuition congruence.
Qed.

Lemma select_spec t c0 cs :
  let q := List.filter (qualifies t) (c0 :: cs) in
  match q with
  | [] => forall c, c ∈ c0 :: cs -> cmp_le fallback_cmp (select t c0 cs) c = true
  | _ => qualifies t (select t c0 cs) = true /\
         forall c, c ∈ c0 :: cs -> qualifies t c = true -> cmp_le cost_cmp (select t c0 cs) c = true
  end.
Proof.
  unfold select. cbv zeta. destruct (List.filter (qualifies t) (c0 :: cs)) as [|q qs] eqn:E.
  - intros c Hc. by apply (min_from_le fallback_cmp).
  - assert (Hf : forall c, c ∈ q :: qs <-> (c ∈ c0 :: cs /\ qualifies t c = true)).
    { intros c. rewrite <- E, !list_elem_of_In. apply filter_In. }
    split.
    + destruct (min_from_in (cmp_lt cost_cmp) q qs) as [->|H]; apply Hf; set_solver.
    + intros c Hc Hq. apply (min_from_le cost_cmp). by apply Hf.
Qed.

(** C4. [route] is optimal: on valid candidates with distinct identifiers and an
    accepted threshold it returns one of the candidates.  When some candidate
    meets the threshold the selected one meets it and no qualifying candidate
    is cheaper (ties go to the first identifier); when none does, it is the
    most acceptable candidate, ties going to the cheaper, then to the first
    identifier, and the decision says so. *)
Theorem route_optimal cs v t :
  cs <> [] -> forallb CandidatePrediction_ok cs = true -> NoDup (map cp_model_id cs) ->
  validate_quality_threshold v = Ok t ->
  exists d s, route cs v = Ok d /\ s ∈ cs /\
    selected_model_id d = cp_model_id s /\
    selected_predicted_acceptability d = cp_predicted_acceptability s /\
    selected_projected_cost_usd d = cp_projected_cost_usd s /\ quality_threshold d = t /\
    (if threshold_satisfied d
     then reason d = QUALITY_THRESHOLD_MET /\ fallback_used d = false /\ f_leb t (cp_predicted_acceptability s) = true /\
          forall c, c ∈ cs -> f_leb t (cp_predicted_acceptability c) = true -> cheaper_or_first s c
     else reason d = NO_MODEL_MET_THRESHOLD_FALLBACK /\ fallback_used d = true /\
          forall c, c ∈ cs -> f_leb t (cp_predicted_acceptability c) = false /\
            f_leb (cp_predicted_acceptability c) (cp_predicted_acceptability s) = true /\
            (f_eqb (cp_predicted_acceptability c) (cp_predicted_acceptability s) = true ->
             cheaper_or_first s c)).
Proof.
  intros Hne Hok Hnd Ht. destruct cs as [|c0 cs]; [done|].
  exists (decision_of t c0 cs), (select t c0 cs).
  rewrite route_steps, Ht by done. rsimpl. rewrite (proj2 (all_distinct_true _) Hnd).
  split; [done|]. split; [apply select_in|]. do 4 (split; [done|]).
  pose proof (select_spec t c0 cs) as S. cbv zeta in S.
  unfold decision_of. cbn [threshold_satisfied reason fallback_used].
  destruct (List.filter (qualifies t) (c0 :: cs)) as [|q qs] eqn:E.
  - do 2 (split; [done|]). intros c Hc. split.
    + destruct (qualifies t c) eqn:Q; [|done].
      assert (In c []) as Hi; [|by apply in_nil in Hi].
      rewrite <- E. apply filter_In. split; [by apply list_elem_of_In|done].
    + apply fallback_cmp_le; [apply (candidates_ok_in (c0 :: cs)); [done|apply select_in]| |by apply S].
      by apply (candidates_ok_in (c0 :: cs)).
  - destruct S as [Sq S]. do 3 (split; [done|]). intros c Hc Hq. apply cost_cmp_le. by apply S.
Qed.

Definition example_candidates : list CandidatePrediction :=
  [ mk_CandidatePrediction (py "large") (f_of_ratio 95 100) (mk_decimal false 9 (-3));
    mk_CandidatePrediction (py "b-small") (f_of_ratio 80 100) (mk_decimal false 10 (-4));
    mk_CandidatePrediction (py "a-small") (f_of_ratio 80 100) (mk_decimal false 1 (-3)) ].

Lemma route_optimal_witness :
  exists d s, route example_candidates (PyFloat (f_of_ratio 3 4)) = Ok d /\ s ∈ example_candidates /\
    selected_model_id d = cp_model_id s /\ cp_model_id s = py "a-small".
Proof.
  destruct (route_optimal example_candidates (PyFloat (f_of_ratio 3 4)) (f_of_ratio 3 4))
    as (d & s & Hr & Hs & Hid & _).
  - discriminate.
  - vm_compute. reflexivity.
  - apply all_distinct_true. vm_compute. reflexivity.
  - vm_compute. reflexivity.
  - exists d, s. split; [exact Hr|]. split; [exact Hs|]. split; [exact Hid|].
    rewrite <- Hid. assert (E : selected_model_id <$> route example_candidates (PyFloat (f_of_ratio 3 4))
      = Ok (py "a-small")) by (vm_compute; reflexivity).
    rewrite Hr in E. cbn in E. injection E as E. exact E.
Defined.

(* The guards of [route] fire in their order and nothing else raises: no
    candidates, then an unacceptable threshold with the error of
    [validate_quality_threshold], then a repeated identifier; otherwise a
    decision is returned, with a selected identifier among the candidates and
    counts that describe the input. *)
Theorem route_outcomes cs v :
  forallb CandidatePrediction_ok cs = true ->
  match route cs v with
  | Ok d =>
      cs <> [] /\ validate_quality_threshold v = Ok (quality_threshold d) /\
      NoDup (map cp_model_id cs) /\ RoutingDecision_ok d = true /\
      selected_model_id d ∈ map cp_model_id cs /\
      eligible_candidate_count d = Z.of_nat (length cs) /\
      qualifying_candidate_count d = Z.of_nat (length (List.filter (qualifies (quality_threshold d)) cs)) /\
      fallback_used d = (qualifying_candidate_count d =? 0)%Z
  | Raise e =>
      (cs = [] /\ e = Exn C_NoEligibleCandidatesError) \/
      (cs <> [] /\ validate_quality_threshold v = Raise e) \/
      (cs <> [] /\ is_ok (validate_quality_threshold v) = true /\ ~ NoDup (map cp_model_id cs) /\
       e = Exn C_DuplicateCandidatePredictionError)
  end.
Proof.
  intros Hok. destruct cs as [|c0 cs]; [by left|]. rewrite route_steps by done.
  destruct (validate_quality_threshold v) as [t|e] eqn:Et; rsimpl; [|right; by left].
  destruct (all_distinct _) eqn:Ed.
  - apply validate_quality_threshold_ok in Et as Hp. apply all_distinct_true in Ed.
    split; [done|]. do 2 (split; [done|]). split; [by apply decision_of_ok|]. split.
    + unfold decision_of. cbn [selected_model_id]. apply list_elem_of_In, in_map, list_elem_of_In, select_in.
    + unfold decision_of. cbn [eligible_candidate_count qualifying_candidate_count fallback_used quality_threshold].
      do 2 (split; [done|]). by destruct (List.filter (qualifies t) (c0 :: cs)).
  - right; right. apply all_distinct_false in Ed. done.
Qed.

Lemma route_outcomes_witness :
  forallb CandidatePrediction_ok example_candidates = true /\
  match route example_candidates (PyFloat (f_of_Z 1)) with
  | Ok d => RoutingDecision_ok d = true /\ fallback_used d = true /\
            selected_model_id d = py "large"
  | Raise _ => False
  end.
Proof.
  split; [vm_compute; reflexivity|].
  pose proof (route_outcomes example_candidates (PyFloat (f_of_Z 1)) eq_refl) as H.
  destruct (route example_candidates (PyFloat (f_of_Z 1))) as [d|e] eqn:E;
    [|vm_compute in E; discriminate].
  destruct H as (_ & _ & _ & H & _). split; [exact H|].
  vm_compute in E. injection E as <-. split; reflexivity.
Defined.

(** The decision does not depend on the order in which candidates are listed. *)
Theorem route_permutation cs cs' v :
  forallb CandidatePrediction_ok cs = true -> cs ≡ₚ cs' -> route cs v = route cs' v.
Proof.
  intros Hok Hp.
  assert (Hok' : forallb CandidatePrediction_ok cs' = true).
  { apply forallb_forall. intros c Hc. apply (candidates_ok_in cs); [done|].
    rewrite Hp. by apply list_elem_of_In. }
  destruct cs as [|c0 cs], cs' as [|c0' cs']; try done.
  { by apply Permutation_nil_cons in Hp. }
  { by apply Permutation_sym, Permutation_nil_cons in Hp. }
  rewrite !route_steps by done. destruct (validate_quality_threshold v) as [t|e]; rsimpl; [|done].
  assert (Hids : map cp_model_id (c0 :: cs) ≡ₚ map cp_model_id (c0' :: cs')) by (by apply Permutation_map).
  destruct (all_distinct (map cp_model_id (c0 :: cs))) eqn:Ed.
  2: { replace (all_distinct (map cp_model_id (c0' :: cs'))) with false; [done|].
       symmetry. apply all_distinct_false. rewrite <- Hids. by apply all_distinct_false. }
  apply all_distinct_true in Ed. rewrite (proj2 (all_distinct_true _)) by (by rewrite <- Hids).
  assert (Hf : List.filter (qualifies t) (c0 :: cs) ≡ₚ List.filter (qualifies t) (c0' :: cs')).
  { by apply List_filter_perm. }
  assert (Inj : forall x y, x ∈ c0 :: cs -> y ∈ c0 :: cs -> cp_model_id x = cp_model_id y -> x = y).
  { intros x y. by apply (NoDup_fmap_inj_on cp_model_id). }
  assert (Hs : select t c0 cs = select t c0' cs').
  { unfold select. destruct (List.filter (qualifies t) (c0 :: cs)) as [|q qs] eqn:E,
      (List.filter (qualifies t) (c0' :: cs')) as [|q' qs'] eqn:E'; try done.
    - apply (min_from_perm fallback_cmp); [done|]. intros x y Hx Hy Hc%fallback_cmp_eq_id. auto.
    - by apply Permutation_nil_cons in Hf.
    - by apply Permutation_sym, Permutation_nil_cons in Hf.
    - apply (min_from_perm cost_cmp); [done|]. intros x y Hx Hy Hc%cost_cmp_eq_id.
      rewrite <- E in Hx, Hy. apply list_elem_of_In, filter_In in Hx as [Hx _], Hy as [Hy _].
      apply Inj; [by apply list_elem_of_In..|done]. }
  unfold decision_of. rewrite Hs. rewrite (Permutation_length Hp), (Permutation_length Hf).
  destruct (List.filter (qualifies t) (c0 :: cs)), (List.filter (qualifies t) (c0' :: cs')); try done;
    apply Permutation_length in Hf; discriminate.
Qed.

Lemma route_permutation_witness :
  forallb CandidatePrediction_ok example_candidates = true /\
  example_candidates ≡ₚ rev example_candidates /\
  route example_candidates (PyInt 1) = route (rev example_candidates) (PyInt 1).
Proof.
  assert (P : example_candidates ≡ₚ rev example_candidates) by apply Permutation_rev.
  split; [vm_compute; reflexivity|]. split; [exact P|].
  apply route_permutation; [vm_compute; reflexivity|exact P].
Defined.

(** The threshold contract: an accepted value is the float of a number that is
    not a boolean and lies in [0, 1]; everything else is rejected with
    [InvalidQualityThresholdError], except an integer too large for a float,
    whose [OverflowError] is not translated. *)
Theorem quality_threshold_contract v :
  match validate_quality_threshold v with
  | Ok f => py_float v = Ok f /\ Probability_ok f = true /\ (forall b, v <> PyBool b)
  | Raise e =>
      (e = Exn C_InvalidQualityThresholdError /\
       ((exists b, v = PyBool b) \/ v = PyNonNumber \/
        exists f, py_float v = Ok f /\ Probability_ok f = false)) \/
      (exists z, v = PyInt z /\ e = Exn C_OverflowError /\ f_isfinite (f_of_Z z) = false)
  end.
Proof.
  unfold validate_quality_threshold. rewrite validated_probability_spec.
  destruct v as [b|z|f|d|]; [left; split; [done|left; by exists b]| | | |left; split; [done|by right; left]].
  - cbn [py_float]. unfold f_of_int. destruct (f_isfinite (f_of_Z z)) eqn:Ez; rsimpl.
    + destruct (Probability_ok (f_of_Z z)) eqn:P; [done|].
      left. split; [done|]. right; right. by exists (f_of_Z z).
    + right. by exists z.
  - cbn [py_float]. rsimpl. destruct (Probability_ok f) eqn:P; [done|].
    left. split; [done|]. right; right. by exists f.
  - cbn [py_float]. rsimpl. destruct (Probability_ok (f_of_decimal d)) eqn:P; [done|].
    left. split; [done|]. right; right. by exists (f_of_decimal d).
Qed.

(** The error that escapes. *)
Lemma threshold_overflow_escapes :
  validate_quality_threshold (PyInt (10 ^ 400)) = Raise (Exn C_OverflowError).
Proof. vm_compute. reflexivity. Qed.
