(* ===== verification/Routing.v ===== *)
(** * Routing decision service ([routing/service.py])

    Features are extracted, the eligible candidates predicted in one pass and
    priced, and the choice delegated to the policy.  The predictor and the
    eligibility filter are protocols of the source: any implementation may
    stand behind them, so the service checks what the predictor returns. *)
From S2P Require Import Prelude PyStr PyFloat PyDecimal Schemas Errors Pricing PyNum Regex Features QualityFeatures Policy.

(** [QualityPredictor.predict] and [CandidateEligibilityFilter.eligible_candidates] *)
Class QualityPredictor := {
  predict : RoutingRequestFeatures -> list ModelConfig -> result exn (list ModelAcceptabilityPrediction)
}.

Class CandidateEligibilityFilter := {
  eligible_candidates : RoutingRequestFeatures -> list ModelConfig -> result exn (list ModelConfig)
}.

(** [RoutingCandidateSnapshot]: a priced prediction and whether it qualifies. *)
Record RoutingCandidateSnapshot := mk_RoutingCandidateSnapshot {
  sn_candidate : CandidatePrediction;
  sn_qualifies : bool
}.

Record RoutingResult := mk_RoutingResult {
  rr_decision : RoutingDecision;
  rr_candidates : list RoutingCandidateSnapshot
}.

Section Service.
Context {P : QualityPredictor} (eligibility_filter : option CandidateEligibilityFilter).

(** [sorted(id for id, count in Counter(ids).items() if count > 1)] is empty *)
Definition no_duplicates (ids : list pystr) : bool := all_distinct ids.

(** [{p.model_id: p for p in predictions}[id].predicted_acceptability] *)
Definition prediction_for (predictions : list ModelAcceptabilityPrediction) (id : pystr) :
    result exn float :=
  let by_id := fold_left (fun d p => dict_set d (mp_model_id p) (mp_predicted_acceptability p))
                 predictions [] in
  match dict_get by_id id with
  | Some p => Ok p
  | None => Raise (Exn C_KeyError)
  end.

(** Construction of [CandidatePrediction] with its field constraints. *)
Definition new_CandidatePrediction (id : pystr) (acceptability : float) (cost : decimal) :
    result exn CandidatePrediction :=
  let c := mk_CandidatePrediction id acceptability cost in
  _ ← validated (check (CandidatePrediction_ok c) field_error);
  Ok c.

Definition price_candidate (f : RoutingRequestFeatures)
    (predictions : list ModelAcceptabilityPrediction) (m : ModelConfig) :
    result exn CandidatePrediction :=
  acceptability ← prediction_for predictions (model_id m);
  allowance ← resolve_effective_output_allowance f m;
  cost ← calculate_projected_cost (rf_approximate_input_tokens f) allowance m;
  new_CandidatePrediction (model_id m) acceptability cost.

Definition snapshot_of (d : RoutingDecision) (c : CandidatePrediction) : RoutingCandidateSnapshot :=
  mk_RoutingCandidateSnapshot c (qualifies (quality_threshold d) c).

(** The checks on what the predictor returned. *)
Definition check_predictions (eligible_ids predicted_ids : list pystr) : result exn unit :=
  _ ← guard_else (no_duplicates predicted_ids) (Exn C_DuplicateCandidatePredictionError);
  guard_else (same_elements predicted_ids eligible_ids &&
              Nat.eqb (length predicted_ids) (length eligible_ids))
    (Exn C_PredictorInputCompatibilityError).

Definition route_features_with_snapshot (f : RoutingRequestFeatures) (candidates : list ModelConfig)
    (threshold : pynum) : result exn RoutingResult :=
  eligible ← match eligibility_filter with
             | None => Ok candidates
             | Some flt => @eligible_candidates flt f candidates
             end;
  let eligible_ids := map model_id eligible in
  _ ← guard_else (no_duplicates eligible_ids) (Exn C_DuplicateCandidatePredictionError);
  predictions ← predict f eligible;
  _ ← check_predictions eligible_ids (map mp_model_id predictions);
  priced ← result_map (price_candidate f predictions) eligible;
  decision ← Policy.route priced threshold;
  Ok (mk_RoutingResult decision (map (snapshot_of decision) priced)).

Definition route_features (f : RoutingRequestFeatures) (candidates : list ModelConfig)
    (threshold : pynum) : result exn RoutingDecision :=
  r ← route_features_with_snapshot f candidates threshold; Ok (rr_decision r).

Context {UD : UnicodeData}.

Definition route_with_snapshot (r : InferenceRequest) (candidates : list ModelConfig)
    (threshold : pynum) (category_hint : option pystr) (structured_output_required : bool) :
    result exn RoutingResult :=
  f ← extract r category_hint structured_output_required;
  route_features_with_snapshot f candidates threshold.

Definition route (r : InferenceRequest) (candidates : list ModelConfig) (threshold : pynum)
    (category_hint : option pystr) (structured_output_required : bool) : result exn RoutingDecision :=
  res ← route_with_snapshot r candidates threshold category_hint structured_output_required;
  Ok (rr_decision res).

(** ** Lemmas *)

Lemma prediction_for_unique predictions id p :
  prediction_for predictions id = Ok p ->
  NoDup (map mp_model_id predictions) ->
  mk_ModelAcceptabilityPrediction id p ∈ predictions.
Proof.
  unfold prediction_for.
  assert (G : forall ps d, NoDup (map mp_model_id ps) ->
    dict_get (fold_left (fun d p => dict_set d (mp_model_id p) (mp_predicted_acceptability p)) ps d) id
      = Some p ->
    mk_ModelAcceptabilityPrediction id p ∈ ps \/ dict_get d id = Some p).
  { induction ps as [|q ps IH]; intros d Hnd Hg; [by right|]. simpl in Hg, Hnd.
    apply NoDup_cons in Hnd as [_ Hnd].
    destruct (IH _ Hnd Hg) as [Hin|Hd]; [left; set_solver|].
    rewrite dict_get_set in Hd. case_decide as D; [|by right].
    left. simplify_eq. destruct q; simpl. set_solver. }
  intros Hg Hnd. destruct (dict_get _ id) as [p'|] eqn:E; [|done]. inv_result.
  destruct (G predictions [] Hnd E) as [|Hx]; [done|discriminate].
Qed.

Lemma price_candidate_ok f ps m c :
  price_candidate f ps m = Ok c ->
  cp_model_id c = model_id m /\ CandidatePrediction_ok c = true /\
  prediction_for ps (model_id m) = Ok (cp_predicted_acceptability c) /\
  exists a, resolve_effective_output_allowance f m = Ok a /\
    calculate_projected_cost (rf_approximate_input_tokens f) a m = Ok (cp_projected_cost_usd c).
Proof.
  unfold price_candidate, new_CandidatePrediction. intros H.
  apply bind_ok in H as (p & Hp & H). apply bind_ok in H as (a & Ha & H).
  apply bind_ok in H as (k & Hk & H). apply bind_ok in H as (u & Hu & H).
  apply validated_ok, check_ok in Hu. inv_result. rewrite Hp. eauto 6.
Qed.

Lemma price_candidates_ok f ps el priced :
  Forall2 (fun m c => price_candidate f ps m = Ok c) el priced ->
  map cp_model_id priced = map model_id el /\ forallb CandidatePrediction_ok priced = true.
Proof.
  induction 1 as [|m c el priced Hm Hf [IH1 IH2]]; [done|].
  apply price_candidate_ok in Hm as (Hid & Hok & _). cbn [map forallb]. by rewrite Hid, IH1, Hok.
Qed.

Lemma check_predictions_ok es ps u : check_predictions es ps = Ok u ->
  NoDup ps /\ (forall x, x ∈ ps <-> x ∈ es) /\ length ps = length es.
Proof.
  unfold check_predictions, no_duplicates. intros H. inv_checks. bools.
  split; [by apply all_distinct_true|]. split; [by apply same_elements_true|done].
Qed.

Lemma check_predictions_raise es ps e : check_predictions es ps = Raise e ->
  e = Exn C_DuplicateCandidatePredictionError \/ e = Exn C_PredictorInputCompatibilityError.
Proof.
  unfold check_predictions, guard_else. destruct (no_duplicates ps); rsimpl; [|intros; inv_result; auto].
  destruct (_ && _); intros; inv_result; auto.
Qed.

(** The priced candidates of a successful run. *)
Lemma route_features_ok f cs v res : route_features_with_snapshot f cs v = Ok res ->
  exists eligible predictions priced,
    match eligibility_filter with
    | None => eligible = cs
    | Some flt => @eligible_candidates flt f cs = Ok eligible
    end /\
    NoDup (map model_id eligible) /\ predict f eligible = Ok predictions /\
    check_predictions (map model_id eligible) (map mp_model_id predictions) = Ok tt /\
    Forall2 (fun m c => price_candidate f predictions m = Ok c) eligible priced /\
    Policy.route priced v = Ok (rr_decision res) /\
    rr_candidates res = map (snapshot_of (rr_decision res)) priced.
Proof.
  unfold route_features_with_snapshot. intros H.
  apply bind_ok in H as (el & Hel & H). apply bind_ok in H as (u & Hu & H). apply guard_ok in Hu.
  apply bind_ok in H as (ps & Hps & H). apply bind_ok in H as ([] & Hc & H).
  apply bind_ok in H as (priced & Hpr & H). apply bind_ok in H as (d & Hd & H). inv_result.
  exists el, ps, priced. apply result_map_ok in Hpr.
  repeat split; try done; [by destruct eligibility_filter; inv_result|by apply all_distinct_true].
Qed.
End Service.

(** A predictor that answers for exactly the candidates it was given. *)
Class CorrespondingPredictor (P : QualityPredictor) : Prop := {
  predict_corresponds : forall f cs ps, predict f cs = Ok ps ->
    map mp_model_id ps = map model_id cs
}.

Lemma check_predictions_same ids : NoDup ids -> check_predictions ids ids = Ok tt.
Proof.
  intros H. unfold check_predictions, no_duplicates. rewrite (proj2 (all_distinct_true _) H).
  rewrite (proj2 (same_elements_true ids ids)) by done. by rewrite Nat.eqb_refl.
Qed.

(** For such a predictor the checks on its output are never the reason to raise. *)
Lemma corresponding_predictor_routes {P : QualityPredictor} `{!CorrespondingPredictor P} flt f cs v :
  route_features_with_snapshot flt f cs v =
  (eligible ← match flt with None => Ok cs | Some g => @eligible_candidates g f cs end;
   _ ← guard_else (no_duplicates (map model_id eligible)) (Exn C_DuplicateCandidatePredictionError);
   predictions ← predict f eligible;
   priced ← result_map (price_candidate f predictions) eligible;
   decision ← Policy.route priced v;
   Ok (mk_RoutingResult decision (map (snapshot_of decision) priced))).
Proof.
  unfold route_features_with_snapshot. destruct (match flt with None => _ | Some _ => _ end) as [el|e]; rsimpl; [|done].
  cbv zeta. unfold no_duplicates. destruct (all_distinct (map model_id el)) eqn:Ed; cbn [guard_else]; rsimpl; [|done].
  destruct (predict f el) as [ps|e] eqn:Ep; rsimpl; [|done].
  rewrite (predict_corresponds _ _ _ Ep), check_predictions_same by (by apply all_distinct_true). done.
Qed.

(** A routing result is faithful to its inputs: its candidates are the eligible
    models, once each and in order; each carries the predictor's own
    acceptability, the projected cost of its own model at its own configured
    allowance, and the right qualification flag; the decision is the policy's
    choice over exactly these candidates, so the selected one is among them. *)
Theorem route_features_faithful `{P : QualityPredictor} flt f cs v res :
  route_features_with_snapshot flt f cs v = Ok res ->
  exists eligible predictions,
    match flt with
    | None => eligible = cs
    | Some g => @eligible_candidates g f cs = Ok eligible
    end /\
    NoDup (map model_id eligible) /\ predict f eligible = Ok predictions /\
    Forall2 (fun m s =>
      let c := sn_candidate s in
      cp_model_id c = model_id m /\ CandidatePrediction_ok c = true /\
      mk_ModelAcceptabilityPrediction (model_id m) (cp_predicted_acceptability c) ∈ predictions /\
      (exists a, resolve_effective_output_allowance f m = Ok a /\
         calculate_projected_cost (rf_approximate_input_tokens f) a m = Ok (cp_projected_cost_usd c)) /\
      sn_qualifies s = qualifies (quality_threshold (rr_decision res)) c)
      eligible (rr_candidates res) /\
    Policy.route (map sn_candidate (rr_candidates res)) v = Ok (rr_decision res) /\
    selected_model_id (rr_decision res) ∈ map model_id eligible.
Proof.
  intros H. apply route_features_ok in H as (el & ps & priced & Hel & Hnd & Hps & Hc & Hf & Hr & Hs).
  apply check_predictions_ok in Hc as (Hnp & _ & _).
  assert (Hm : map sn_candidate (rr_candidates res) = priced).
  { rewrite Hs, map_map. clear. induction priced as [|c l IH]; [done|]; cbn [map]. by rewrite IH. }
  destruct (price_candidates_ok _ _ _ _ Hf) as [Hids Hok].
  exists el, ps. do 3 (split; [done|]). split; [|split].
  - rewrite Hs. clear -Hf Hnp. induction Hf as [|m c el priced Hm Hf IH]; [constructor|].
    constructor; [|done]. apply price_candidate_ok in Hm as (Hid & Hok & Hp & Ha).
    cbn [snapshot_of sn_candidate sn_qualifies]. repeat split; try done. by apply prediction_for_unique.
  - by rewrite Hm.
  - rewrite <- Hids. destruct priced as [|c0 priced]; [discriminate|].
    rewrite route_steps in Hr by done. destruct (validate_quality_threshold v) as [t|e]; [|done].
    cbn -[map] in Hr. destruct (all_distinct _); [|done]. injection Hr as <-.
    unfold decision_of. cbn [selected_model_id].
    apply list_elem_of_In, in_map, list_elem_of_In, select_in.
Qed.

(** A predictor that answers for anything but exactly the eligible candidates
    never reaches the policy: a repeated identifier, a missing one or an
    unknown one raises, whatever the rest of the input. *)
Theorem predictor_mismatch_detected `{P : QualityPredictor} f cs v predictions :
  predict f cs = Ok predictions -> NoDup (map model_id cs) ->
  ~ (map mp_model_id predictions ≡ₚ map model_id cs) ->
  exists e, route_features_with_snapshot None f cs v = Raise e /\
    (e = Exn C_DuplicateCandidatePredictionError \/ e = Exn C_PredictorInputCompatibilityError).
Proof.
  intros Hp Hnd Hne. unfold route_features_with_snapshot, no_duplicates. rsimpl. cbv zeta.
  rewrite (proj2 (all_distinct_true _) Hnd). cbn [guard_else]. rsimpl. rewrite Hp. rsimpl.
  destruct (check_predictions _ _) as [u|e] eqn:E; rsimpl.
  - destruct Hne. apply check_predictions_ok in E as (Hn & Hs & _). by apply NoDup_Permutation.
  - exists e. split; [done|]. by apply check_predictions_raise in E.
Qed.

(** A predictor that answers 0.9 for every candidate, and one that forgets the
    first candidate. *)
Definition uniform_predictor : QualityPredictor :=
  {| predict := fun _ ms => Ok (map (fun m => mk_ModelAcceptabilityPrediction (model_id m) (f_of_ratio 9 10)) ms) |}.

Definition forgetful_predictor : QualityPredictor :=
  {| predict := fun _ ms =>
       Ok (map (fun m => mk_ModelAcceptabilityPrediction (model_id m) (f_of_ratio 9 10)) (tail ms)) |}.

Definition two_models : list ModelConfig :=
  [example_model; model_with default_output_token_policy].

Lemma route_features_faithful_witness :
  exists res, @route_features_with_snapshot uniform_predictor None json_features two_models (PyFloat (f_of_ratio 1 2))
    = Ok res /\ selected_model_id (rr_decision res) ∈ map model_id two_models.
Proof.
  destruct (@route_features_with_snapshot uniform_predictor None json_features two_models
    (PyFloat (f_of_ratio 1 2))) as [res|e] eqn:E; [|vm_compute in E; discriminate].
  exists res. split; [reflexivity|].
  pose proof (route_features_faithful None _ _ _ _ E) as H.
  destruct H as (el & ps & -> & _ & _ & _ & _ & H). exact H.
Defined.

Lemma predictor_mismatch_detected_witness :
  exists e, @route_features_with_snapshot forgetful_predictor None json_features two_models (PyInt 1) = Raise e /\
    (e = Exn C_DuplicateCandidatePredictionError \/ e = Exn C_PredictorInputCompatibilityError).
Proof.
  apply (predictor_mismatch_detected json_features two_models (PyInt 1)
    [mk_ModelAcceptabilityPrediction (py "m") (f_of_ratio 9 10)]).
  - reflexivity.
  - apply all_distinct_true. vm_compute. reflexivity.
  - intros H. apply Permutation_length in H. discriminate H.
Defined.
