(* ===== verification/Predictor.v ===== *)
(** * Quality predictor ([routing/predictor.py])

    The governance checks on artifact metadata, the loading of a pickled
    pipeline with the trace of what it reads and decodes, and batch prediction.
    The runtime versions, SHA-256, pickle and the sklearn pipeline are the
    parameters of [PredictorRuntime]. *)
From S2P Require Import Prelude PyStr PyFloat PyDecimal Schemas Errors Pricing PyNum Regex Features QualityFeatures Policy Routing.

Definition ARTIFACT_FORMAT_VERSION : pystr := py "1.0.0".
Definition ARTIFACT_METADATA_FILENAME : pystr := py "metadata.json".
Definition ARTIFACT_MODEL_FILENAME : pystr := py "predictor.pkl".
Definition PRODUCTION_ARTIFACT_FORMAT_VERSION : pystr := py "routellm-production-router-v1".
Definition PRODUCTION_PREDICTOR_SHA256 : pystr :=
  py "502db83a54c4072c9741a8e4c406498ad88ec97e03bce1ddaf3e0a1b0001c0aa".
Definition PRODUCTION_PROTOCOL_VERSION : pystr := py "1.7.0".
Definition PRODUCTION_PROTOCOL_SHA256 : pystr :=
  py "b4cde3954a8ccd1b54684dcb62da303e7bc806248306464ae536b9ff717a0bd8".
Definition PRODUCTION_SPLIT_SHA256 : pystr :=
  py "98c639be29da4e11fdf48073d74e83805f16fdfb72b0102b5f5543213ab4960b".
Definition PRODUCTION_TRAINING_DATASET_SHA256 : pystr :=
  py "1a9cadc2d557eacb4a7dce450100cdb495a2659c2862845ce9894cf0a7791005".
Definition PRODUCTION_SOURCE_RUN_ID : pystr := py "cc28470f-55ed-4a2f-a6ee-8d25cf93ecd2".
Definition PRODUCTION_QUALITY_THRESHOLD : float := f_of_ratio 80 100.
Definition FOUNDATION_V3_SHA256 : pystr :=
  py "64eda8e7388233f645906412a2524982ebfb9c848c42ee24a468ba04c31d16e6".
Definition FOUNDATION_V3_PROTOCOL_SHA256 : pystr :=
  py "973c46e2dfd7c5739f623ff1c7f2378dc3e77c80e5815e23c975816700d4b861".
Definition PHASE_8C0_FORMULATION_EVIDENCE : pystr := py "PHASE_8C_0_PROVIDER_PIN_ABLATION".
Definition FOUNDATION_V3_CANDIDATE_IDS : list pystr :=
  map py ["candidate-claude-sonnet-5"; "candidate-gemini-3-flash"; "candidate-gpt-6-luna";
          "candidate-nemotron-3.5-lightning"]%string.

Record QualityPredictorArtifactMetadata := mk_QualityPredictorArtifactMetadata {
  qa_artifact_format_version : pystr;
  qa_predictor_formulation_id : pystr;
  qa_predictor_formulation_version : pystr;
  qa_canonical_feature_schema_version : pystr;
  qa_category_taxonomy_version : pystr;
  qa_training_dataset_name : pystr;
  qa_training_dataset_version : pystr;
  qa_training_dataset_sha256 : pystr;
  qa_foundation_v3_protocol_sha256 : pystr;
  qa_formulation_evidence : pystr;
  qa_valid_training_rows : Z;
  qa_missing_label_rows : Z;
  qa_known_candidate_ids : list pystr;
  qa_known_categories : list RoutingCategory;
  qa_sklearn_version : pystr;
  qa_python_version : pystr;
  qa_preprocessing_id : pystr;
  qa_build_entrypoint : pystr;
  qa_model_filename : pystr;
  qa_model_sha256 : pystr
}.

Record ProductionRuntimeCompatibility := mk_ProductionRuntimeCompatibility {
  rc_python_major_minor : pystr;
  rc_scikit_learn_version : pystr
}.

Record ProductionDeploymentApproval := mk_ProductionDeploymentApproval {
  da_decision : pystr;
  da_phase : pystr;
  da_statement : pystr
}.

Record SourceValidationMetadata := mk_SourceValidationMetadata {
  sv_artifact_format_version : pystr;
  sv_deployment_status : pystr;
  sv_missing_label_rows : Z;
  sv_source_run_id : pystr;
  sv_split_sha256 : pystr;
  sv_training_dataset_sha256 : pystr;
  sv_valid_training_rows : Z
}.

Record ProductionQualityPredictorArtifactMetadata := mk_ProductionQualityPredictorArtifactMetadata {
  pa_approved_quality_threshold : float;
  pa_artifact_format_version : pystr;
  pa_canonical_feature_schema_version : pystr;
  pa_deployment_approval : ProductionDeploymentApproval;
  pa_known_candidate_ids : list pystr;
  pa_known_categories : list RoutingCategory;
  pa_model_filename : pystr;
  pa_predictor_formulation_id : pystr;
  pa_predictor_formulation_version : pystr;
  pa_predictor_sha256 : pystr;
  pa_preprocessing_id : pystr;
  pa_protocol_sha256 : pystr;
  pa_protocol_version : pystr;
  pa_runtime_compatibility : ProductionRuntimeCompatibility;
  pa_source_validation_metadata : SourceValidationMetadata
}.

Inductive artifact_metadata :=
| LegacyMetadata (m : QualityPredictorArtifactMetadata)
| ProductionMetadata (m : ProductionQualityPredictorArtifactMetadata).

(** What the code takes from its platform and from third-party packages. *)
Class PredictorRuntime := {
  Pipeline : Type;
  sklearn_version : pystr;
  platform_python_version : pystr;
  sha256_hexdigest : list N -> pystr;
  (** [pickle.loads], and whether the object is a [Pipeline] with its two steps. *)
  pickle_loads : list N -> result exn (option Pipeline);
  pipeline_dumps : Pipeline -> list N;
  (** [pipeline.predict_proba(matrix)], one row of class probabilities per input row. *)
  predict_proba : Pipeline -> list (list cell) -> result exn (list (list float))
}.

Section Predictor.
Context {R : PredictorRuntime}.

Definition str_eqb (a b : pystr) : bool := bool_decide (a = b).

(** [version.split(".")[:2]] *)
Definition major_minor (version : pystr) : list pystr := firstn 2 (split_on 46 version).

Definition is_hex_lower (c : N) : bool := in_chars (py "0123456789abcdef") c.

Definition expected_metadata (model_sha256 : pystr) (known_candidate_ids : list pystr)
    (known_categories : list RoutingCategory) (valid_training_rows missing_label_rows : Z) :
    QualityPredictorArtifactMetadata :=
  mk_QualityPredictorArtifactMetadata ARTIFACT_FORMAT_VERSION PREDICTOR_FORMULATION_ID
    PREDICTOR_FORMULATION_VERSION CANONICAL_QUALITY_FEATURE_SCHEMA_VERSION
    ROUTING_CATEGORY_TAXONOMY_VERSION (py "routellm-foundation-v3") (py "3.0.0")
    FOUNDATION_V3_SHA256 FOUNDATION_V3_PROTOCOL_SHA256 PHASE_8C0_FORMULATION_EVIDENCE
    valid_training_rows missing_label_rows known_candidate_ids known_categories
    sklearn_version platform_python_version QUALITY_PREPROCESSING_ID
    (py "python -m adaptive_llm_gateway.routing.train_predictor")
    ARTIFACT_MODEL_FILENAME model_sha256.

(** [_validate_metadata] *)
Definition validate_metadata (m : QualityPredictorArtifactMetadata) : result exn unit :=
  _ ← guard_else (str_eqb (qa_artifact_format_version m) ARTIFACT_FORMAT_VERSION)
        (Exn C_IncompatibleArtifactFormatError);
  _ ← guard_else (str_eqb (qa_predictor_formulation_id m) PREDICTOR_FORMULATION_ID &&
                  str_eqb (qa_predictor_formulation_version m) PREDICTOR_FORMULATION_VERSION)
        (Exn C_IncompatiblePredictorFormulationError);
  _ ← guard_else (str_eqb (qa_canonical_feature_schema_version m)
                          CANONICAL_QUALITY_FEATURE_SCHEMA_VERSION)
        (Exn C_IncompatibleFeatureSchemaError);
  _ ← guard_else (str_eqb (qa_category_taxonomy_version m) ROUTING_CATEGORY_TAXONOMY_VERSION)
        (Exn C_IncompatibleCategoryTaxonomyError);
  _ ← guard_else (str_eqb (qa_training_dataset_sha256 m) FOUNDATION_V3_SHA256 &&
                  str_eqb (qa_foundation_v3_protocol_sha256 m) FOUNDATION_V3_PROTOCOL_SHA256 &&
                  str_eqb (qa_formulation_evidence m) PHASE_8C0_FORMULATION_EVIDENCE &&
                  str_eqb (qa_preprocessing_id m) QUALITY_PREPROCESSING_ID)
        (Exn C_CorruptPredictorArtifactError);
  _ ← guard_else (bool_decide (qa_known_candidate_ids m = FOUNDATION_V3_CANDIDATE_IDS))
        (Exn C_CorruptPredictorArtifactError);
  _ ← guard_else (same_elements (qa_known_categories m) all_categories)
        (Exn C_CorruptPredictorArtifactError);
  _ ← guard_else (str_eqb (qa_training_dataset_name m) (py "routellm-foundation-v3") &&
                  str_eqb (qa_training_dataset_version m) (py "3.0.0") &&
                  (qa_valid_training_rows m =? 216)%Z && (qa_missing_label_rows m =? 8)%Z &&
                  str_eqb (qa_model_filename m) ARTIFACT_MODEL_FILENAME &&
                  Nat.eqb (length (qa_model_sha256 m)) 64 &&
                  forallb is_hex_lower (qa_model_sha256 m))
        (Exn C_CorruptPredictorArtifactError);
  _ ← guard_else (str_eqb (qa_sklearn_version m) sklearn_version)
        (Exn C_IncompatibleArtifactFormatError);
  guard_else (bool_decide (major_minor (qa_python_version m) = major_minor platform_python_version))
    (Exn C_IncompatibleArtifactFormatError).

(** [_validate_production_metadata] *)
Definition validate_production_metadata (m : ProductionQualityPredictorArtifactMetadata) :
    result exn unit :=
  let source := pa_source_validation_metadata m in
  let approval := pa_deployment_approval m in
  let runtime := pa_runtime_compatibility m in
  _ ← guard_else (str_eqb (pa_artifact_format_version m) PRODUCTION_ARTIFACT_FORMAT_VERSION)
        (Exn C_IncompatibleArtifactFormatError);
  _ ← guard_else (str_eqb (pa_predictor_sha256 m) PRODUCTION_PREDICTOR_SHA256)
        (Exn C_PredictorArtifactChecksumError);
  _ ← guard_else (str_eqb (pa_canonical_feature_schema_version m)
                          CANONICAL_QUALITY_FEATURE_SCHEMA_VERSION)
        (Exn C_IncompatibleFeatureSchemaError);
  _ ← guard_else (str_eqb (pa_predictor_formulation_id m) PREDICTOR_FORMULATION_ID &&
                  str_eqb (pa_predictor_formulation_version m) PREDICTOR_FORMULATION_VERSION &&
                  str_eqb (pa_preprocessing_id m) QUALITY_PREPROCESSING_ID)
        (Exn C_IncompatiblePredictorFormulationError);
  _ ← guard_else (bool_decide (pa_known_candidate_ids m = FOUNDATION_V3_CANDIDATE_IDS))
        (Exn C_CorruptPredictorArtifactError);
  _ ← guard_else (same_elements (pa_known_categories m) all_categories)
        (Exn C_IncompatibleCategoryTaxonomyError);
  _ ← guard_else (f_eqb (pa_approved_quality_threshold m) PRODUCTION_QUALITY_THRESHOLD &&
                  str_eqb (pa_model_filename m) ARTIFACT_MODEL_FILENAME &&
                  str_eqb (pa_protocol_version m) PRODUCTION_PROTOCOL_VERSION &&
                  str_eqb (pa_protocol_sha256 m) PRODUCTION_PROTOCOL_SHA256)
        (Exn C_CorruptPredictorArtifactError);
  _ ← guard_else (str_eqb (da_decision approval) (py "APPROVED_FROZEN_PRODUCTION_ROUTER") &&
                  str_eqb (da_phase approval) (py "12.1B") &&
                  negb (str_eqb (da_statement approval) []))
        (Exn C_CorruptPredictorArtifactError);
  _ ← guard_else (str_eqb (sv_artifact_format_version source) (py "phase9-dev-candidate-v1") &&
                  str_eqb (sv_deployment_status source) (py "DEV_VALIDATION_CANDIDATE_NOT_DEPLOYED") &&
                  str_eqb (sv_split_sha256 source) PRODUCTION_SPLIT_SHA256 &&
                  str_eqb (sv_training_dataset_sha256 source) PRODUCTION_TRAINING_DATASET_SHA256 &&
                  str_eqb (sv_source_run_id source) PRODUCTION_SOURCE_RUN_ID &&
                  (sv_valid_training_rows source =? 557)%Z && (sv_missing_label_rows source =? 3)%Z)
        (Exn C_CorruptPredictorArtifactError);
  _ ← guard_else (str_eqb (rc_scikit_learn_version runtime) sklearn_version)
        (Exn C_IncompatibleArtifactFormatError);
  guard_else (str_eqb (rc_python_major_minor runtime)
                      (join (py ".") (major_minor platform_python_version)))
    (Exn C_IncompatibleArtifactFormatError).

Definition validate_any (m : artifact_metadata) : result exn unit :=
  match m with
  | LegacyMetadata m => validate_metadata m
  | ProductionMetadata m => validate_production_metadata m
  end.

Definition expected_checksum (m : artifact_metadata) : pystr :=
  match m with
  | LegacyMetadata m => qa_model_sha256 m
  | ProductionMetadata m => pa_predictor_sha256 m
  end.

Definition metadata_model_filename (m : artifact_metadata) : pystr :=
  match m with
  | LegacyMetadata m => qa_model_filename m
  | ProductionMetadata m => pa_model_filename m
  end.

Definition metadata_candidates (m : artifact_metadata) : list pystr :=
  match m with
  | LegacyMetadata m => qa_known_candidate_ids m
  | ProductionMetadata m => pa_known_candidate_ids m
  end.

Definition metadata_categories (m : artifact_metadata) : list RoutingCategory :=
  match m with
  | LegacyMetadata m => qa_known_categories m
  | ProductionMetadata m => pa_known_categories m
  end.

(** ** Loading *)

(** The artifact directory: [metadata_json] is the outcome of reading the
    metadata file, parsing it and choosing the schema by its
    [artifact_format_version] ([None]: not an object). *)
Record artifact_directory := mk_artifact_directory {
  ad_is_file : pystr -> bool;
  ad_metadata : result exn (option (result exn artifact_metadata));
  ad_read_bytes : pystr -> result exn (list N)
}.

(** What loading does to the outside, in order. *)
Inductive load_event := EvReadBytes (file : pystr) | EvUnpickle (bytes : list N).

Definition load_trusted_quality_artifact (d : artifact_directory) :
    list load_event * result exn (Pipeline * artifact_metadata) :=
  if negb (ad_is_file d ARTIFACT_METADATA_FILENAME) then ([], Raise (Exn C_PredictorArtifactNotFoundError))
  else
    let attempt :=
      raw ← ad_metadata d;
      match raw with
      | None => Raise (Exn C_TypeError)
      | Some parsed => m ← parsed; _ ← validate_any m; Ok m
      end in
    match attempt with
    | Raise e =>
        ([], if isinstance e C_OSError || isinstance e C_UnicodeError || isinstance e C_ValidationError ||
                isinstance e C_TypeError || isinstance e C_ValueError
             then Raise (Exn C_CorruptPredictorArtifactError) else Raise e)
    | Ok m =>
        let model_path := metadata_model_filename m in
        if negb (ad_is_file d model_path) then ([], Raise (Exn C_PredictorArtifactNotFoundError))
        else
          match ad_read_bytes d model_path with
          | Raise e =>
              ([EvReadBytes model_path],
               if isinstance e C_OSError then Raise (Exn C_CorruptPredictorArtifactError) else Raise e)
          | Ok bytes =>
              if negb (str_eqb (sha256_hexdigest bytes) (expected_checksum m))
              then ([EvReadBytes model_path], Raise (Exn C_PredictorArtifactChecksumError))
              else
                ([EvReadBytes model_path; EvUnpickle bytes],
                 match pickle_loads bytes with
                 | Raise e => if is_exception e then Raise (Exn C_CorruptPredictorArtifactError) else Raise e
                 | Ok None => Raise (Exn C_CorruptPredictorArtifactError)
                 | Ok (Some p) => Ok (p, m)
                 end)
          end
    end.

(** [write_trusted_quality_artifact]: the bytes of the two files. *)
Definition written_artifact (p : Pipeline) (known_candidate_ids : list pystr)
    (known_categories : list RoutingCategory) (valid_training_rows missing_label_rows : Z) :
    list N * QualityPredictorArtifactMetadata :=
  let model_bytes := pipeline_dumps p in
  (model_bytes, expected_metadata (sha256_hexdigest model_bytes) known_candidate_ids known_categories
                  valid_training_rows missing_label_rows).

(** ** [SklearnQualityPredictor] *)

Record SklearnQualityPredictor := mk_SklearnQualityPredictor {
  sk_pipeline : Pipeline;
  sk_metadata : artifact_metadata
}.

Definition new_SklearnQualityPredictor (p : Pipeline) (m : artifact_metadata) :
    result exn SklearnQualityPredictor :=
  _ ← validate_any m; Ok (mk_SklearnQualityPredictor p m).

(** [predict_proba(...)[:, 1]] *)
Definition second_column (rows : list (list float)) : result exn (list float) :=
  result_map (fun row => match nth_error row 1 with
                         | Some p => Ok p
                         | None => Raise (Exn C_IndexError)
                         end) rows.

Definition sklearn_predict (s : SklearnQualityPredictor) (f : RoutingRequestFeatures)
    (candidates : list ModelConfig) : result exn (list ModelAcceptabilityPrediction) :=
  match rf_category f with
  | None => Raise (Exn C_MissingRoutingCategoryError)
  | Some c =>
      _ ← guard_else (bool_decide (c ∈ metadata_categories (sk_metadata s)))
            (Exn C_PredictorInputCompatibilityError);
      let candidate_ids := map model_id candidates in
      _ ← guard_else (all_distinct candidate_ids) (Exn C_PredictorInputCompatibilityError);
      _ ← guard_else (subset_of candidate_ids (metadata_candidates (sk_metadata s)))
            (Exn C_UnsupportedPredictorCandidateError);
      canonical ← result_map (canonical_from_production f) candidates;
      match canonical with
      | [] => Ok []
      | _ =>
          matrix ← canonical_feature_matrix canonical;
          rows ← predict_proba (sk_pipeline s) matrix;
          probabilities ← second_column rows;
          result_map (fun cp => new_ModelAcceptabilityPrediction (model_id cp.1) (PyFloat cp.2))
            (zip candidates probabilities)
      end
  end.

#[export] Instance sklearn_quality_predictor (s : SklearnQualityPredictor) : QualityPredictor :=
  {| predict := sklearn_predict s |}.
End Predictor.

(** ** Lemmas *)

Lemma str_eqb_true a b : str_eqb a b = true <-> a = b.
Proof. apply bool_decide_eq_true. Qed.

Lemma str_eqb_refl a : str_eqb a a = true.
Proof. by apply str_eqb_true. Qed.

#[export] Hint Rewrite str_eqb_refl : gateway.

Section PredictorFacts.
Context {R : PredictorRuntime}.

Lemma validate_metadata_filename m : validate_any m = Ok tt ->
  metadata_model_filename m = ARTIFACT_MODEL_FILENAME.
Proof.
  destruct m as [m|m]; cbn [validate_any metadata_model_filename]; intros H;
    unfold validate_metadata, validate_production_metadata in H; inv_checks; bools;
    by repeat match goal with E : str_eqb _ _ = true |- _ => apply str_eqb_true in E end.
Qed.

Lemma validate_production_checksum m : validate_production_metadata m = Ok tt ->
  pa_predictor_sha256 m = PRODUCTION_PREDICTOR_SHA256.
Proof. unfold validate_production_metadata. intros H. inv_checks. by apply str_eqb_true. Qed.

Lemma validate_any_error m e : validate_any m = Raise e -> isinstance e C_PredictorArtifactError = true.
Proof.
  destruct m as [m|m]; cbn [validate_any]; intros H;
    unfold validate_metadata, validate_production_metadata in H; cbv zeta in H;
    repeat (apply bind_raise in H as [H|([] & _ & H)]);
    unfold guard_else in H; match type of H with (if ?b then _ else _) = _ => destruct b end;
    inv_result; by vm_compute.
Qed.

Lemma second_column_length rows ps : second_column rows = Ok ps -> length ps = length rows.
Proof. intros H%result_map_ok%Forall2_length. done. Qed.

Lemma new_prediction_id id v p : new_ModelAcceptabilityPrediction id v = Ok p ->
  mp_model_id p = id /\ Probability_ok (mp_predicted_acceptability p) = true.
Proof.
  unfold new_ModelAcceptabilityPrediction. destruct (validated_probability v) as [q|e] eqn:E.
  - intros H. apply bind_ok in H as (u & _ & H). inv_result. split; [done|].
    by apply (validated_probability_ok v).
  - by destruct (isinstance e C_ValueError).
Qed.

Lemma zip_predictions cs qs ps :
  length cs = length qs ->
  result_map (fun cp => new_ModelAcceptabilityPrediction (model_id cp.1) (PyFloat cp.2)) (zip cs qs) = Ok ps ->
  map mp_model_id ps = map model_id cs /\
  Forall (fun p => Probability_ok (mp_predicted_acceptability p) = true) ps.
Proof.
  intros Hl H%result_map_ok. revert qs Hl ps H.
  induction cs as [|c cs IH]; intros [|q qs] Hl ps H; try discriminate.
  - by inversion H.
  - simpl in H. inversion H as [|? p ? ps' Hp Hr]; subst. apply new_prediction_id in Hp as [Hid Hok].
    destruct (IH qs ltac:(simpl in Hl; lia) ps' Hr) as [Hm Hf]. simpl in *.
    rewrite Hid, Hm. split; [done|by constructor].
Qed.

(** [predict_proba] returns one row per input row. *)
Definition row_per_input (s : SklearnQualityPredictor) : Prop :=
  forall matrix rows, predict_proba (sk_pipeline s) matrix = Ok rows -> length rows = length matrix.

Lemma sklearn_predict_ok s f cs ps : row_per_input s -> sklearn_predict s f cs = Ok ps ->
  map mp_model_id ps = map model_id cs /\
  Forall (fun p => Probability_ok (mp_predicted_acceptability p) = true) ps /\
  NoDup (map model_id cs) /\ map model_id cs ⊆ metadata_candidates (sk_metadata s).
Proof.
  intros Hrows H. unfold sklearn_predict in H. destruct (rf_category f) as [c|]; [|done].
  apply bind_ok in H as (u1 & _ & H). apply bind_ok in H as (u2 & Hd%guard_ok & H).
  apply bind_ok in H as (u3 & Hs%guard_ok & H). apply bind_ok in H as (canonical & Hc & H).
  apply all_distinct_true in Hd. apply subset_of_true in Hs.
  apply result_map_ok, Forall2_length in Hc. destruct canonical as [|x xs].
  - destruct cs; [|discriminate]. inv_result. by repeat split.
  - apply bind_ok in H as (matrix & Hm & H). apply bind_ok in H as (rows & Hr & H).
    apply bind_ok in H as (probs & Hp%second_column_length & H).
    apply result_map_ok, Forall2_length in Hm. apply Hrows in Hr.
    destruct (zip_predictions cs probs ps) as [Hids Hf]; [congruence|done|]. done.
Qed.
End PredictorFacts.

(** ** Properties *)

(** C36. Bytes reach the unpickler only after governance: if loading decodes
    anything, it decodes exactly once, the bytes of the model file of this
    directory, after validating the metadata and after their SHA-256 matched
    the recorded one - for production metadata the one pinned in the source. *)
Theorem unpickle_only_verified `{R : PredictorRuntime} d tr r b :
  load_trusted_quality_artifact d = (tr, r) -> EvUnpickle b ∈ tr ->
  exists m, ad_metadata d = Ok (Some (Ok m)) /\ validate_any m = Ok tt /\
    tr = [EvReadBytes ARTIFACT_MODEL_FILENAME; EvUnpickle b] /\
    ad_read_bytes d ARTIFACT_MODEL_FILENAME = Ok b /\ sha256_hexdigest b = expected_checksum m /\
    (forall pm, m = ProductionMetadata pm -> sha256_hexdigest b = PRODUCTION_PREDICTOR_SHA256).
Proof.
  unfold load_trusted_quality_artifact. intros H Hin.
  destruct (negb (ad_is_file d _)); [inv_result; set_solver|].
  destruct (raw ← ad_metadata d; _) as [m|e] eqn:E; [|inv_result; set_solver].
  apply bind_ok in E as ([parsed|] & Hraw & E); [|discriminate].
  apply bind_ok in E as (m' & Hp & E). apply bind_ok in E as ([] & Hv & E). inv_result.
  exists m. apply validate_metadata_filename in Hv as Hfile. rewrite Hfile in H.
  destruct (negb (ad_is_file d ARTIFACT_MODEL_FILENAME)); [inv_result; set_solver|].
  destruct (ad_read_bytes d ARTIFACT_MODEL_FILENAME) as [bytes|e] eqn:Eb; [|inv_result; set_solver].
  destruct (str_eqb _ _) eqn:Es; cbn [negb] in H; [|inv_result; set_solver].
  apply str_eqb_true in Es. injection H as <- _.
  assert (b = bytes) as -> by set_solver.
  repeat split; try done. intros pm ->. rewrite Es. by apply validate_production_checksum.
Qed.

(** Loading fails only with artifact errors: when the file system raises
    [OSError]s and decoding errors, the JSON and schema checks [ValueError]s
    or [TypeError]s, and the unpickler ordinary exceptions, every failure is a
    [PredictorArtifactError]. *)
Theorem load_fails_with_artifact_errors `{R : PredictorRuntime} d tr e :
  (forall e', ad_metadata d = Raise e' ->
     isinstance e' C_OSError = true \/ isinstance e' C_ValueError = true) ->
  (forall e', ad_metadata d = Ok (Some (Raise e')) -> isinstance e' C_ValueError = true) ->
  (forall f e', ad_read_bytes d f = Raise e' -> isinstance e' C_OSError = true) ->
  (forall b e', pickle_loads b = Raise e' -> is_exception e' = true) ->
  load_trusted_quality_artifact d = (tr, Raise e) -> isinstance e C_PredictorArtifactError = true.
Proof.
  intros Hm Hp Hr Hk H. unfold load_trusted_quality_artifact in H.
  destruct (negb (ad_is_file d _)); [inv_result; by vm_compute|].
  assert (Corrupt : isinstance (Exn C_CorruptPredictorArtifactError) C_PredictorArtifactError = true)
    by (by vm_compute).
  destruct (raw ← ad_metadata d; _) as [m|e1] eqn:E.
  - destruct (negb (ad_is_file d _)); [inv_result; by vm_compute|].
    destruct (ad_read_bytes d _) as [bytes|e2] eqn:Eb.
    + destruct (negb _); [inv_result; by vm_compute|].
      destruct (pickle_loads bytes) as [[p|]|e3] eqn:Ek; [discriminate|inv_result; done|].
      rewrite (Hk _ _ Ek) in H. by inv_result.
    + rewrite (Hr _ _ Eb) in H. by inv_result.
  - destruct (isinstance e1 C_OSError || isinstance e1 C_UnicodeError || isinstance e1 C_ValidationError ||
      isinstance e1 C_TypeError || isinstance e1 C_ValueError) eqn:Ei; [by inv_result|].
    inv_result. bools.
    apply bind_raise in E as [E|([parsed|] & Hraw & E)].
    + destruct (Hm _ E); congruence.
    + destruct parsed as [m|e2]; rsimpl; cbn in E.
      * apply bind_raise in E as [E|(u & _ & E)]; [by apply (validate_any_error m)|discriminate].
      * inv_result. specialize (Hp _ Hraw). congruence.
    + injection E as <-.
      match goal with X : isinstance _ C_TypeError = false |- _ => by vm_compute in X end.
Qed.

(** The sklearn predictor keeps the promise of the routing interface. *)
Lemma sklearn_corresponding `{R : PredictorRuntime} s :
  row_per_input s -> CorrespondingPredictor (sklearn_quality_predictor s).
Proof.
  intros Hr. split. intros f cs ps H. by apply (sklearn_predict_ok s f cs ps).
Qed.

(** Routing with the sklearn predictor refines the service without its defensive
    checks: while the pipeline returns one row per input, the predictions
    correspond to the eligible candidates, so the checks on the predictor's
    output never raise and the result is the one computed without them. *)
Theorem sklearn_routing_refines `{R : PredictorRuntime} s flt f cs v :
  row_per_input s ->
  @route_features_with_snapshot (sklearn_quality_predictor s) flt f cs v =
  (eligible ← match flt with None => Ok cs | Some g => @eligible_candidates g f cs end;
   _ ← guard_else (no_duplicates (map model_id eligible)) (Exn C_DuplicateCandidatePredictionError);
   predictions ← sklearn_predict s f eligible;
   priced ← result_map (price_candidate f predictions) eligible;
   decision ← Policy.route priced v;
   Ok (mk_RoutingResult decision (map (snapshot_of decision) priced))).
Proof.
  intros Hr. pose proof (sklearn_corresponding s Hr) as Hc.
  exact (@corresponding_predictor_routes (sklearn_quality_predictor s) Hc flt f cs v).
Qed.

(** An artifact written by the build loads back as the same pipeline with the
    metadata that was written, when it records the frozen candidates, the
    whole taxonomy in any order and the 216 + 8 training rows; with any other row counts
    the build still writes it and loading refuses it as corrupt. *)
Theorem written_artifact_loads `{R : PredictorRuntime} p categories valid missing d :
  same_elements categories all_categories = true ->
  let '(bytes, md) := written_artifact p FOUNDATION_V3_CANDIDATE_IDS categories valid missing in
  length (sha256_hexdigest bytes) = 64%nat -> forallb is_hex_lower (sha256_hexdigest bytes) = true ->
  pickle_loads bytes = Ok (Some p) ->
  ad_is_file d ARTIFACT_METADATA_FILENAME = true -> ad_is_file d ARTIFACT_MODEL_FILENAME = true ->
  ad_metadata d = Ok (Some (Ok (LegacyMetadata md))) ->
  ad_read_bytes d ARTIFACT_MODEL_FILENAME = Ok bytes ->
  snd (load_trusted_quality_artifact d) =
    if (valid =? 216)%Z && (missing =? 8)%Z then Ok (p, LegacyMetadata md)
    else Raise (Exn C_CorruptPredictorArtifactError).
Proof.
  intros Hc. cbn [written_artifact]. intros Hl Hh Hp H1 H2 Hm Hb.
  unfold load_trusted_quality_artifact. rewrite H1. cbn [negb]. rewrite Hm. rsimpl.
  cbn [validate_any metadata_model_filename expected_checksum].
  unfold validate_metadata, expected_metadata.
  cbn [qa_artifact_format_version qa_predictor_formulation_id qa_predictor_formulation_version
    qa_canonical_feature_schema_version qa_category_taxonomy_version qa_training_dataset_name
    qa_training_dataset_version qa_training_dataset_sha256 qa_foundation_v3_protocol_sha256
    qa_formulation_evidence qa_valid_training_rows qa_missing_label_rows qa_known_candidate_ids
    qa_known_categories qa_sklearn_version qa_python_version qa_preprocessing_id
    qa_model_filename qa_model_sha256].
  rewrite !str_eqb_refl, Hl, Hh, !bool_decide_eq_true_2 by done.
  rewrite Hc.
  cbn [andb guard_else Nat.eqb]. rsimpl. rewrite !andb_true_r.
  destruct ((valid =? 216)%Z && (missing =? 8)%Z); cbn [guard_else]; rsimpl.
  - cbn [metadata_model_filename expected_checksum qa_model_filename qa_model_sha256].
    rewrite H2. cbn [negb]. rewrite Hb, str_eqb_refl. cbn [negb snd]. by rewrite Hp.
  - by vm_compute.
Qed.

(** A runtime to run the definitions on: the digest is always the pinned one
    and every byte string decodes to a pipeline answering 0.9. *)
Definition example_runtime : PredictorRuntime :=
  {| Pipeline := unit; sklearn_version := py "1.5.2"; platform_python_version := py "3.12.4";
     sha256_hexdigest := fun _ => PRODUCTION_PREDICTOR_SHA256;
     pickle_loads := fun _ => Ok (Some tt); pipeline_dumps := fun _ => [1%N];
     predict_proba := fun _ rows => Ok (map (fun _ => [f_of_ratio 1 10; f_of_ratio 9 10]) rows) |}.

Definition production_metadata : ProductionQualityPredictorArtifactMetadata :=
  mk_ProductionQualityPredictorArtifactMetadata PRODUCTION_QUALITY_THRESHOLD
    PRODUCTION_ARTIFACT_FORMAT_VERSION CANONICAL_QUALITY_FEATURE_SCHEMA_VERSION
    (mk_ProductionDeploymentApproval (py "APPROVED_FROZEN_PRODUCTION_ROUTER") (py "12.1B") (py "approved"))
    FOUNDATION_V3_CANDIDATE_IDS all_categories ARTIFACT_MODEL_FILENAME PREDICTOR_FORMULATION_ID
    PREDICTOR_FORMULATION_VERSION PRODUCTION_PREDICTOR_SHA256 QUALITY_PREPROCESSING_ID
    PRODUCTION_PROTOCOL_SHA256 PRODUCTION_PROTOCOL_VERSION
    (mk_ProductionRuntimeCompatibility (py "3.12") (py "1.5.2"))
    (mk_SourceValidationMetadata (py "phase9-dev-candidate-v1")
       (py "DEV_VALIDATION_CANDIDATE_NOT_DEPLOYED") 3 PRODUCTION_SOURCE_RUN_ID PRODUCTION_SPLIT_SHA256
       PRODUCTION_TRAINING_DATASET_SHA256 557).

Definition production_directory : artifact_directory :=
  mk_artifact_directory (fun _ => true) (Ok (Some (Ok (ProductionMetadata production_metadata))))
    (fun _ => Ok [1%N]).

Lemma unpickle_only_verified_witness :
  exists m, ad_metadata production_directory = Ok (Some (Ok m)) /\
    @validate_any example_runtime m = Ok tt /\
    @sha256_hexdigest example_runtime [1%N] = PRODUCTION_PREDICTOR_SHA256.
Proof.
  destruct (@load_trusted_quality_artifact example_runtime production_directory) as [tr r] eqn:E.
  assert (Hin : EvUnpickle [1%N] ∈ tr).
  { vm_compute in E. injection E as <- _. right. left. }
  destruct (@unpickle_only_verified example_runtime _ _ _ _ E Hin) as (m & H1 & H2 & _ & _ & _ & H3).
  exists m. split; [exact H1|]. split; [exact H2|].
  apply (H3 production_metadata). injection H1 as <-. reflexivity.
Defined.

Definition missing_model_directory : artifact_directory :=
  mk_artifact_directory (fun f => bool_decide (f = ARTIFACT_METADATA_FILENAME))
    (Ok (Some (Ok (ProductionMetadata production_metadata)))) (fun _ => Raise (Exn C_OSError)).

Lemma load_fails_with_artifact_errors_witness :
  @load_trusted_quality_artifact example_runtime missing_model_directory =
    ([], Raise (Exn C_PredictorArtifactNotFoundError)) /\
  isinstance (Exn C_PredictorArtifactNotFoundError) C_PredictorArtifactError = true.
Proof.
  assert (E : @load_trusted_quality_artifact example_runtime missing_model_directory =
    ([], Raise (Exn C_PredictorArtifactNotFoundError))) by (vm_compute; reflexivity).
  split; [exact E|].
  refine (load_fails_with_artifact_errors _ _ _ _ _ _ _ E); try discriminate.
  intros f e' H. injection H as <-. vm_compute. reflexivity.
Defined.

Lemma sklearn_routing_refines_witness :
  row_per_input (R := example_runtime) (@mk_SklearnQualityPredictor example_runtime tt (ProductionMetadata production_metadata)) /\
  @route_features_with_snapshot
    (@sklearn_quality_predictor example_runtime
       (@mk_SklearnQualityPredictor example_runtime tt (ProductionMetadata production_metadata)))
    None json_features [] (PyInt 1) = Raise (Exn C_NoEligibleCandidatesError).
Proof.
  assert (Hr : row_per_input (R := example_runtime)
    (@mk_SklearnQualityPredictor example_runtime tt (ProductionMetadata production_metadata))).
  { intros m rows H. injection H as <-. apply length_map. }
  split; [exact Hr|].
  rewrite (@sklearn_routing_refines example_runtime _ None json_features [] (PyInt 1) Hr).
  vm_compute. reflexivity.
Defined.

Lemma written_artifact_loads_witness :
  snd (@load_trusted_quality_artifact example_runtime
    (mk_artifact_directory (fun _ => true)
       (Ok (Some (Ok (LegacyMetadata (snd (@written_artifact example_runtime tt FOUNDATION_V3_CANDIDATE_IDS
          all_categories 216 8)))))) (fun _ => Ok [1%N]))) =
  Ok (tt, LegacyMetadata (snd (@written_artifact example_runtime tt FOUNDATION_V3_CANDIDATE_IDS
          all_categories 216 8))).
Proof.
  apply (@written_artifact_loads example_runtime tt all_categories 216 8
    (mk_artifact_directory (fun _ => true)
       (Ok (Some (Ok (LegacyMetadata (snd (@written_artifact example_runtime tt FOUNDATION_V3_CANDIDATE_IDS
          all_categories 216 8)))))) (fun _ => Ok [1%N]))); try reflexivity; vm_compute; reflexivity.
Defined.
