(* ===== verification/Validation.v ===== *)
(** * Response validation ([validation/contracts.py], [validation/validator.py])

    Output contracts and the deterministic validator: the depth prescan, the
    type checks on the parsed value, and the result with its codes.  The main
    theorem says that a response passes exactly when it meets its contract. *)
From S2P Require Import Prelude PyStr PyFloat PyDecimal Schemas Errors Json.

Definition MAX_INPUT_CHARACTERS : Z := 262144.
Definition MAX_JSON_DEPTH : Z := 32.
Definition MAX_CONSTRAINTS : nat := 64.
Definition MAX_FAILURES : nat := 16.
Definition VALIDATOR_VERSION : pystr := py "deterministic-v1".

(** [Name]: 1 to 128 characters. *)
Definition Name_ok (s : pystr) : bool := Nat.leb 1 (length s) && Nat.leb (length s) 128.

Inductive JsonType := T_object | T_array | T_string | T_number | T_integer | T_boolean | T_null.

Inductive ContractFormat := FMT_text | FMT_json | FMT_label.

#[export] Instance JsonType_eq_dec : EqDecision JsonType.
Proof. solve_decision. Defined.
#[export] Instance ContractFormat_eq_dec : EqDecision ContractFormat.
Proof. solve_decision. Defined.

Record ValidationContract := mk_ValidationContract {
  format : ContractFormat;
  min_characters : option Z;
  root_type : option JsonType;
  required_fields : list pystr;
  field_types : list (list N * JsonType);
  allowed_labels : list pystr
}.

Definition nonempty {A : Type} (l : list A) : bool := match l with [] => false | _ => true end.

(** [compatible_constraints] *)
Definition compatible_constraints (c : ValidationContract) : result pystr unit :=
  _ ← check (negb (negb (bool_decide (format c = FMT_json)) &&
                   (bool_decide (root_type c <> None) || nonempty (required_fields c) ||
                    nonempty (field_types c))))
        (py "JSON constraints require JSON format");
  _ ← check (negb ((nonempty (required_fields c) || nonempty (field_types c)) &&
                   negb (bool_decide (root_type c = None) || bool_decide (root_type c = Some T_object))))
        (py "field constraints require an object root");
  _ ← (if bool_decide (format c = FMT_label) then
         _ ← check (nonempty (allowed_labels c)) (py "label format requires allowed labels");
         _ ← check (negb (existsb (fun l => negb (bool_decide (l = strip l)) || is_blank l) (allowed_labels c)))
               (py "labels must not contain surrounding whitespace");
         check (match min_characters c with
                | None => true
                | Some n => negb (existsb (fun l => (Z.of_nat (length l) <? n)%Z) (allowed_labels c))
                end) (py "minimum length excludes an allowed label")
       else check (negb (nonempty (allowed_labels c))) (py "allowed labels require label format"));
  check (all_distinct (required_fields c) && all_distinct (allowed_labels c))
    (py "duplicate constraints are not allowed").

(** Construction: the fields, then the model validator. *)
Definition ValidationContract_validate (c : ValidationContract) : result pystr unit :=
  _ ← check (match min_characters c with
             | None => true
             | Some n => (1 <=? n)%Z && (n <=? MAX_INPUT_CHARACTERS)%Z
             end) field_error;
  _ ← check (forallb Name_ok (required_fields c) && Nat.leb (length (required_fields c)) MAX_CONSTRAINTS)
        field_error;
  _ ← check (forallb Name_ok (dict_keys (field_types c)) && all_distinct (dict_keys (field_types c)) &&
             Nat.leb (length (field_types c)) MAX_CONSTRAINTS) field_error;
  _ ← check (forallb Name_ok (allowed_labels c) && Nat.leb (length (allowed_labels c)) MAX_CONSTRAINTS)
        field_error;
  compatible_constraints c.

Inductive ValidationStatus := PASSED | FAILED | NOT_RUN | ERROR.

Inductive ValidationFailureCode :=
| VF_EMPTY_RESPONSE | VF_MINIMUM_CHARACTERS | VF_INVALID_JSON | VF_ROOT_TYPE | VF_MISSING_FIELD
| VF_FIELD_TYPE | VF_LABEL_NOT_ALLOWED | VF_OUTPUT_TRUNCATED | VF_INPUT_SIZE_LIMIT
| VF_JSON_DEPTH_LIMIT | VF_VALIDATOR_ERROR.

#[export] Instance ValidationStatus_eq_dec : EqDecision ValidationStatus.
Proof. solve_decision. Defined.
#[export] Instance ValidationFailureCode_eq_dec : EqDecision ValidationFailureCode.
Proof. solve_decision. Defined.

Definition ValidationStatus_value (s : ValidationStatus) : pystr :=
  match s with
  | PASSED => py "passed" | FAILED => py "failed" | NOT_RUN => py "not_run" | ERROR => py "error"
  end.

Definition ValidationFailureCode_value (c : ValidationFailureCode) : pystr :=
  match c with
  | VF_EMPTY_RESPONSE => py "empty_response" | VF_MINIMUM_CHARACTERS => py "minimum_characters"
  | VF_INVALID_JSON => py "invalid_json" | VF_ROOT_TYPE => py "root_type"
  | VF_MISSING_FIELD => py "missing_field" | VF_FIELD_TYPE => py "field_type"
  | VF_LABEL_NOT_ALLOWED => py "label_not_allowed" | VF_OUTPUT_TRUNCATED => py "output_truncated"
  | VF_INPUT_SIZE_LIMIT => py "input_size_limit" | VF_JSON_DEPTH_LIMIT => py "json_depth_limit"
  | VF_VALIDATOR_ERROR => py "validator_error"
  end.

Record ValidationFailure := mk_ValidationFailure {
  vf_code : ValidationFailureCode;
  vf_recoverable_by_escalation : bool
}.

Record ValidationResult := mk_ValidationResult {
  vr_status : ValidationStatus;
  vr_failures : list ValidationFailure;
  vr_validator_version : pystr;
  vr_duration_ms : float
}.

(** [consistent_status] *)
Definition consistent_status (r : ValidationResult) : result pystr unit :=
  let is_error f := bool_decide (vf_code f = VF_VALIDATOR_ERROR) in
  _ ← check (Bool.eqb (bool_decide (vr_status r = FAILED) || bool_decide (vr_status r = ERROR))
                      (nonempty (vr_failures r)))
        (py "validation status and failures disagree");
  _ ← check (negb (bool_decide (vr_status r = ERROR) && existsb (fun f => negb (is_error f)) (vr_failures r)))
        (py "validation errors require a controlled internal error");
  check (negb (negb (bool_decide (vr_status r = ERROR)) && existsb is_error (vr_failures r)))
    (py "internal errors require error status").

Definition ValidationResult_validate (r : ValidationResult) : result pystr unit :=
  _ ← check (Nat.leb (length (vr_failures r)) MAX_FAILURES && nonneg_finite (vr_duration_ms r)) field_error;
  consistent_status r.

(** ** The validator *)

(** The loop of [_too_deep] from a depth and a quoting state. *)
Fixpoint too_deep_from (depth : Z) (quoted escaped : bool) (text : pystr) : bool :=
  match text with
  | [] => false
  | c :: rest =>
      if quoted then
        if escaped then too_deep_from depth true false rest
        else if (c =? BACKSLASH)%N then too_deep_from depth true true rest
        else if (c =? QUOTE)%N then too_deep_from depth false false rest
        else too_deep_from depth true false rest
      else if (c =? QUOTE)%N then too_deep_from depth true escaped rest
      else if in_chars (py "[{") c then
        if (MAX_JSON_DEPTH <? depth + 1)%Z then true
        else too_deep_from (depth + 1) false escaped rest
      else if in_chars (py "]}") c then too_deep_from (depth - 1) false escaped rest
      else too_deep_from depth false escaped rest
  end.

Definition too_deep (text : pystr) : bool := too_deep_from 0 false false text.

(** [Decimal.to_integral_value()]: to nearest, ties to even. *)
Definition to_integral_value (d : decimal) : decimal :=
  if (0 <=? d_exp d)%Z then d
  else mk_decimal (d_neg d) (round_half_even (d_coef d) (- d_exp d)) 0.

(** [_matches] *)
Definition matches (value : json) (expected : JsonType) : bool :=
  match expected, value with
  | T_object, JObj _ | T_array, JArr _ | T_string, JStr _ | T_number, JNum _ | T_boolean, JBool _
  | T_null, JNull => true
  | T_integer, JNum d => d_eqb d (to_integral_value d)
  | _, _ => false
  end.

Section Validator.
(** Nested calls the interpreter's stack has room for when [json.loads] runs. *)
Context (room : nat).

Definition field_codes (c : ValidationContract) (value : json) : list ValidationFailureCode :=
  match value with
  | JObj fields =>
      concat (map (fun key => if dict_mem fields key then [] else [VF_MISSING_FIELD]) (required_fields c)) ++
      concat (map (fun kt => match dict_get fields kt.1 with
                             | Some v => if matches v kt.2 then [] else [VF_FIELD_TYPE]
                             | None => []
                             end) (field_types c))
  | _ => []
  end.

Definition effective_root (c : ValidationContract) : option JsonType :=
  match root_type c with
  | Some t => Some t
  | None => if nonempty (required_fields c) || nonempty (field_types c) then Some T_object else None
  end.

(** [_check]; all errors of the parser are caught by its [except] clause. *)
Definition check_response (response : InferenceResponse) (contract : option ValidationContract) :
    result exn (list ValidationFailureCode) :=
  match contract with
  | None => Raise (Exn C_AssertionError)
  | Some c =>
      let codes := if bool_decide (termination_reason response = TR_LENGTH)
                   then [VF_OUTPUT_TRUNCATED] else [] in
      if (MAX_INPUT_CHARACTERS <? Z.of_nat (length (text response)))%Z
      then Ok (codes ++ [VF_INPUT_SIZE_LIMIT])
      else
        let t := strip (text response) in
        match t with
        | [] => Ok (codes ++ [VF_EMPTY_RESPONSE])
        | _ =>
            let codes := codes ++ match min_characters c with
                                  | Some n => if (Z.of_nat (length t) <? n)%Z
                                              then [VF_MINIMUM_CHARACTERS] else []
                                  | None => []
                                  end in
            let codes := codes ++ (if bool_decide (format c = FMT_label) &&
                                      negb (bool_decide (t ∈ allowed_labels c))
                                   then [VF_LABEL_NOT_ALLOWED] else []) in
            if negb (bool_decide (format c = FMT_json)) then Ok codes
            else if too_deep t then Ok (codes ++ [VF_JSON_DEPTH_LIMIT])
            else
              match json_loads room (text response) with
              | Raise _ => Ok (codes ++ [VF_INVALID_JSON])
              | Ok value =>
                  match effective_root c with
                  | Some rt => if matches value rt then Ok (codes ++ field_codes c value)
                               else Ok (codes ++ [VF_ROOT_TYPE])
                  | None => Ok (codes ++ field_codes c value)
                  end
              end
        end
  end.

(** [DeterministicResponseValidator.validate], reading the clock at [started]
    and [finished]. *)
Definition validate (response : InferenceResponse) (contract : option ValidationContract)
    (started finished : float) : result exn ValidationResult :=
  match contract with
  | None => Ok (mk_ValidationResult NOT_RUN [] VALIDATOR_VERSION f_zero)
  | Some _ =>
      let '(codes, status) :=
        match check_response response contract with
        | Ok codes => (codes, if nonempty codes then FAILED else PASSED)
        | Raise _ => ([VF_VALIDATOR_ERROR], ERROR)
        end in
      let r := mk_ValidationResult status
                 (map (fun code => mk_ValidationFailure code
                                     (negb (bool_decide (code = VF_VALIDATOR_ERROR))))
                    (firstn MAX_FAILURES codes))
                 VALIDATOR_VERSION (f_mul (f_sub finished started) (f_of_Z 1000)) in
      _ ← validated (ValidationResult_validate r);
      Ok r
  end.
End Validator.

(** ** The prescan bounds the parser *)

Lemma scan_plain k tok r : Forall (fun c => plain c = true) tok ->
  too_deep_from k false false (tok ++ r) = too_deep_from k false false r.
Proof.
  induction 1 as [|c tok Hc _ IH]; [done|]. cbn [app too_deep_from].
  unfold plain, in_chars in Hc. cbn [existsb app py map list_ascii_of_string] in Hc.
  apply negb_true_iff in Hc. bools.
  rewrite H. unfold in_chars. cbn [existsb py map list_ascii_of_string].
  repeat match goal with E : (c =? _)%N = false |- _ => rewrite E; clear E end. exact IH.
Qed.

Lemma scan_piece k p r : string_piece p ->
  too_deep_from k true false (p ++ r) = too_deep_from k true false r.
Proof.
  intros [c H1 H2|e hs H]; cbn [app too_deep_from].
  - by rewrite (proj2 (N.eqb_neq c BACKSLASH) H2), (proj2 (N.eqb_neq c QUOTE) H1).
  - rewrite N.eqb_refl. induction H as [|h hs [H1 H2] _ IH]; cbn [app too_deep_from]; [done|].
    by rewrite (proj2 (N.eqb_neq h BACKSLASH) H2), (proj2 (N.eqb_neq h QUOTE) H1).
Qed.

Lemma scan_string_scan k s acc v r : scan_string s acc = Ok (v, r) ->
  too_deep_from k true false s = too_deep_from k false false r.
Proof.
  intros H. apply scan_string_pieces in H as (ps & Hp & ->).
  induction Hp as [|p ps Hp _ IH]; cbn [concat app].
  - cbn [too_deep_from]. by rewrite N.eqb_refl.
  - by rewrite <- app_assoc, scan_piece.
Qed.

Lemma scan_consumes k s r : consumes s r -> too_deep_from k false false s = too_deep_from k false false r.
Proof. intros (tok & -> & H). by apply scan_plain. Qed.

Lemma scan_skip_ws k s : too_deep_from k false false (skip_ws s) = too_deep_from k false false s.
Proof.
  destruct (skip_ws_split s) as (ws & E & H). rewrite E at 2. by rewrite scan_plain.
Qed.

(** A run that started unquoted at nesting [k] and left it at [k']. *)
Definition scanned (k' : Z) (out : result json_error (json * pystr)) : Prop :=
  match out with
  | Ok (_, r) => too_deep_from k' false false r = false
  | Raise e => e <> JRecursionError
  end.

Lemma scanned_bind k k' out f : scanned k out ->
  (forall v r, out = Ok (v, r) -> too_deep_from k false false r = false -> scanned k' (f (v, r))) ->
  scanned k' (vr ← out; f vr).
Proof. intros H Hf. destruct out as [[v r]|e]; rsimpl; [by apply Hf|exact H]. Qed.

(** Reading one of the closing or separating characters. *)
Lemma scan_close k c r : in_chars (py "]}") c = true ->
  too_deep_from k false false (c :: r) = too_deep_from (k - 1) false false r.
Proof.
  unfold in_chars. cbn [existsb py map list_ascii_of_string]. intros H.
  repeat (apply orb_true_iff in H as [H|H]); try discriminate; apply N.eqb_eq in H as ->; done.
Qed.

Lemma scan_separator k c r : in_chars (py ":,") c = true ->
  too_deep_from k false false (c :: r) = too_deep_from k false false r.
Proof.
  unfold in_chars. cbn [existsb py map list_ascii_of_string]. intros H.
  repeat (apply orb_true_iff in H as [H|H]); try discriminate; apply N.eqb_eq in H as ->; done.
Qed.

Lemma scan_open k c r : in_chars (py "[{") c = true ->
  too_deep_from k false false (c :: r) = false ->
  (k + 1 <= MAX_JSON_DEPTH)%Z /\ too_deep_from (k + 1) false false r = false.
Proof.
  unfold in_chars. cbn [existsb py map list_ascii_of_string]. intros H.
  assert (E : too_deep_from k false false (c :: r) =
    if (MAX_JSON_DEPTH <? k + 1)%Z then true else too_deep_from (k + 1) false false r).
  { repeat (apply orb_true_iff in H as [H|H]); try discriminate; apply N.eqb_eq in H as ->; done. }
  rewrite E. destruct (Z.ltb_spec MAX_JSON_DEPTH (k + 1)); [done|]. intros. split; [lia|done].
Qed.

Definition value_scans (n : nat) : Prop := forall room k s,
  too_deep_from k false false s = false -> (MAX_JSON_DEPTH <= Z.of_nat room + k)%Z ->
  scanned k (parse_value n room s).

Definition elements_scan (n : nat) : Prop := forall room k s acc,
  too_deep_from k false false s = false -> (MAX_JSON_DEPTH <= Z.of_nat room + k)%Z ->
  scanned (k - 1) (parse_elements n room s acc).

Definition members_scan (n : nat) : Prop := forall room k s acc,
  too_deep_from k false false s = false -> (MAX_JSON_DEPTH <= Z.of_nat room + k)%Z ->
  scanned (k - 1) (parse_members n room s acc).

Lemma elements_scan_step n : value_scans n -> elements_scan n -> elements_scan (S n).
Proof.
  intros Hv He room k s acc Hs Hr. cbn [parse_elements].
  eapply scanned_bind; [by apply (Hv room k s)|]. intros v r _ Hq. cbn [fst snd].
  rewrite <- scan_skip_ws in Hq. destruct (skip_ws r) as [|d r'] eqn:E; [done|].
  destruct (N.eqb_spec d 93) as [->|].
  - rewrite scan_close in Hq by done. exact Hq.
  - destruct (N.eqb_spec d 44) as [->|]; [|done]. rewrite scan_separator in Hq by done.
    apply He; [by rewrite scan_skip_ws|done].
Qed.

Lemma members_scan_step n : value_scans n -> members_scan n -> members_scan (S n).
Proof.
  intros Hv He room k s acc Hs Hr. cbn [parse_members].
  destruct s as [|c s1]; [done|]. destruct (N.eqb_spec c QUOTE) as [->|]; cbn [negb]; [|done].
  destruct (scan_string s1 []) as [[key r0]|e] eqn:Es; rsimpl.
  2: { by apply scan_string_raise in Es as ->. }
  cbn [too_deep_from] in Hs. rewrite N.eqb_refl, (scan_string_scan _ _ _ _ _ Es) in Hs.
  cbn [fst snd]. rewrite <- scan_skip_ws in Hs. destruct (skip_ws r0) as [|d r1] eqn:Er; [done|].
  destruct (N.eqb_spec d 58) as [->|]; cbn [negb]; [|done]. rewrite scan_separator in Hs by done.
  eapply scanned_bind; [apply (Hv room k); [by rewrite scan_skip_ws|done]|].
  intros v r _ Hq. cbn [fst snd]. rewrite <- scan_skip_ws in Hq.
  destruct (skip_ws r) as [|d2 r2] eqn:E2; [done|].
  destruct (N.eqb_spec d2 125) as [->|].
  - rewrite scan_close in Hq by done. unfold pairs. by destruct (all_distinct _).
  - destruct (N.eqb_spec d2 44) as [->|]; [|done]. rewrite scan_separator in Hq by done.
    apply He; [by rewrite scan_skip_ws|done].
Qed.

Lemma scan_literal k s p v : startswith s p = true -> forallb plain p = true ->
  too_deep_from k false false s = false -> scanned k (Ok (v, skipn (length p) s)).
Proof.
  intros Hs Hp Hk. apply startswith_skipn in Hs. cbn [scanned]. rewrite Hs in Hk.
  rewrite scan_plain in Hk; [done|]. apply Forall_forall. rewrite forallb_forall in Hp.
  intros x Hx. by apply Hp, list_elem_of_In.
Qed.

Lemma container_scan n room k s1 c empty close
    (parse : nat -> nat -> pystr -> result json_error (json * pystr)) :
  in_chars (py "[{") c = true -> in_chars (py "]}") close = true ->
  (forall room' d s2, skip_ws s1 = d :: s2 -> room = S room' ->
     too_deep_from (k + 1) false false (d :: s2) = false ->
     (MAX_JSON_DEPTH <= Z.of_nat room' + (k + 1))%Z -> scanned k (parse n room' (d :: s2))) ->
  too_deep_from k false false (c :: s1) = false -> (MAX_JSON_DEPTH <= Z.of_nat room + k)%Z ->
  scanned k match room with
            | O => Raise JRecursionError
            | S room' =>
                match skip_ws s1 with
                | [] => Raise JValueError
                | d :: s2 => if (d =? close)%N then Ok (empty, s2) else parse n room' (d :: s2)
                end
            end.
Proof.
  intros Hc Hcl Hp Hs Hr. apply scan_open in Hs as [Hk Hs]; [|done].
  destruct room as [|room']; [lia|]. rewrite <- scan_skip_ws in Hs.
  destruct (skip_ws s1) as [|d s2] eqn:E; [done|].
  destruct (N.eqb_spec d close) as [->|].
  - rewrite scan_close in Hs by done. cbn [scanned]. by replace (k + 1 - 1)%Z with k in Hs by lia.
  - apply Hp; [done|done|done|lia].
Qed.

Lemma value_scan_step n : elements_scan n -> members_scan n -> value_scans (S n).
Proof.
  intros He Hm room k s Hs Hr. cbn [parse_value]. destruct s as [|c s1]; [done|].
  destruct (N.eqb_spec c QUOTE) as [->|].
  { destruct (scan_string s1 []) as [[key r0]|e] eqn:Es; rsimpl.
    - cbn [too_deep_from] in Hs. rewrite N.eqb_refl, (scan_string_scan _ _ _ _ _ Es) in Hs. exact Hs.
    - by apply scan_string_raise in Es as ->. }
  destruct (N.eqb_spec c 123) as [->|].
  { apply (container_scan n room k s1 123 (JObj []) 125 (fun n room s => parse_members n room s [])); try done.
    intros room' d s2 _ _ Hd Hr'. replace k with (k + 1 - 1)%Z by lia. by apply Hm. }
  destruct (N.eqb_spec c 91) as [->|].
  { apply (container_scan n room k s1 91 (JArr []) 93 (fun n room s => parse_elements n room s [])); try done.
    intros room' d s2 _ _ Hd Hr'. replace k with (k + 1 - 1)%Z by lia. by apply He. }
  destruct (startswith _ (py "null")) eqn:E1; [by apply (scan_literal k _ (py "null"))|].
  destruct (startswith _ (py "true")) eqn:E2; [by apply (scan_literal k _ (py "true"))|].
  destruct (startswith _ (py "false")) eqn:E3; [by apply (scan_literal k _ (py "false"))|].
  destruct (_ || _ || _); [done|].
  destruct (parse_number (c :: s1)) as [[v r]|e] eqn:E.
  - apply parse_number_consumes in E as (_ & Hc & _). cbn [scanned]. by rewrite <- (scan_consumes k (c :: s1)).
  - apply parse_number_raise in E as [-> | ->]; done.
Qed.

Lemma parse_scans n : value_scans n /\ elements_scan n /\ members_scan n.
Proof.
  induction n as [|n (IHv & IHe & IHm)]; [done|].
  auto using value_scan_step, elements_scan_step, members_scan_step.
Qed.

(** Whitespace around the text does not change the prescan. *)
Lemma space_plain c : is_space c = true -> plain c = true.
Proof.
  unfold is_space, plain, in_range, in_chars. intros H. apply negb_true_iff.
  cbn [existsb app py map list_ascii_of_string].
  repeat (apply orb_false_iff; split); try done; apply N.eqb_neq; vm_compute N_of_ascii;
    unfold QUOTE, BACKSLASH; intros ->; vm_compute in H; discriminate.
Qed.

Lemma scan_tail k q e x post : Forall (fun c => plain c = true) post ->
  too_deep_from k q e x = false -> too_deep_from k q e (x ++ post) = false.
Proof.
  intros Hp. revert k q e. induction x as [|c x IH]; intros k q e H; cbn [app].
  - clear H. revert k q e. induction Hp as [|c post Hc _ IH]; intros k q e; [done|]. cbn [too_deep_from].
    destruct q; [destruct e; [done|]; by repeat case_match|].
    unfold plain, in_chars in Hc. cbn [existsb app py map list_ascii_of_string] in Hc.
    apply negb_true_iff in Hc. bools. rewrite H.
    unfold in_chars. cbn [existsb py map list_ascii_of_string].
    repeat match goal with E : (c =? _)%N = false |- _ => rewrite E; clear E end. apply IH.
  - cbn [too_deep_from] in *.
    destruct q; [destruct e; [by apply IH|]; repeat case_match; by apply IH|].
    repeat case_match; try done; by apply IH.
Qed.

Lemma strip_split s : exists pre post, s = pre ++ strip s ++ post /\
  forallb is_space pre = true /\ forallb is_space post = true.
Proof.
  unfold strip, rstrip, rstrip_by, lstrip. destruct (lstrip_by_suffix is_space s) as (pre & Hs & Hpre).
  destruct (lstrip_by_suffix is_space (rev (lstrip_by is_space s))) as (post & Hr & Hpost).
  exists pre, (rev post). split; [|split; [done|by rewrite forallb_rev]].
  rewrite Hs at 1. f_equal. rewrite <- (rev_involutive (lstrip_by is_space s)) at 1.
  rewrite Hr at 1. by rewrite rev_app_distr.
Qed.

Lemma forallb_plain l : forallb is_space l = true -> Forall (fun c => plain c = true) l.
Proof.
  rewrite forallb_forall. intros H. apply Forall_forall. intros x Hx.
  by apply space_plain, H, list_elem_of_In.
Qed.

Lemma too_deep_strip s : too_deep (strip s) = false -> too_deep s = false.
Proof.
  destruct (strip_split s) as (pre & post & E & Hpre & Hpost). unfold too_deep. intros H.
  rewrite E, scan_plain by (by apply forallb_plain). apply scan_tail; [by apply forallb_plain|done].
Qed.

Lemma json_loads_no_recursion room text :
  too_deep (strip text) = false -> (MAX_JSON_DEPTH <= Z.of_nat room)%Z ->
  json_loads room text <> Raise JRecursionError.
Proof.
  intros H%too_deep_strip Hr. unfold json_loads. destruct (startswith _ _); [done|].
  unfold too_deep in H. rewrite <- scan_skip_ws in H.
  pose proof (proj1 (parse_scans (json_fuel text)) room 0%Z (skip_ws text) H ltac:(lia)) as S.
  destruct (parse_value _ _ _) as [[v r]|e]; rsimpl; cbn [fst snd]; [by destruct (skip_ws r)|].
  cbn [scanned] in S. congruence.
Qed.

(** ** The prescan lets every shallow value through *)

Definition value_same (n : nat) : Prop := forall room k s v r,
  parse_value n room s = Ok (v, r) -> (Z.of_nat room + k <= MAX_JSON_DEPTH)%Z ->
  too_deep_from k false false s = too_deep_from k false false r.

Definition elements_same (n : nat) : Prop := forall room k s acc v r,
  parse_elements n room s acc = Ok (v, r) -> (Z.of_nat room + k <= MAX_JSON_DEPTH)%Z ->
  too_deep_from k false false s = too_deep_from (k - 1) false false r.

Definition members_same (n : nat) : Prop := forall room k s acc v r,
  parse_members n room s acc = Ok (v, r) -> (Z.of_nat room + k <= MAX_JSON_DEPTH)%Z ->
  too_deep_from k false false s = too_deep_from (k - 1) false false r.

Lemma elements_same_step n : value_same n -> elements_same n -> elements_same (S n).
Proof.
  intros Hv He room k s acc v r H Hr. cbn [parse_elements] in H.
  apply bind_ok in H as ([w q] & Hw & H). rewrite (Hv _ _ _ _ _ Hw Hr). cbn [fst snd] in H.
  rewrite <- scan_skip_ws. destruct (skip_ws q) as [|d r']; [discriminate|].
  destruct (N.eqb_spec d 93) as [->|]; [inv_result; by rewrite scan_close|].
  destruct (N.eqb_spec d 44) as [->|]; [|discriminate].
  rewrite scan_separator, <- scan_skip_ws by done. by eapply He.
Qed.

Lemma members_same_step n : value_same n -> members_same n -> members_same (S n).
Proof.
  intros Hv He room k s acc v r H Hr. cbn [parse_members] in H.
  destruct s as [|c s1]; [discriminate|]. destruct (N.eqb_spec c QUOTE) as [->|]; cbn [negb] in H; [|discriminate].
  apply bind_ok in H as ([key r0] & Es & H). cbn [fst snd] in H.
  cbn [too_deep_from]. rewrite N.eqb_refl, (scan_string_scan _ _ _ _ _ Es), <- scan_skip_ws.
  destruct (skip_ws r0) as [|d r1]; [discriminate|].
  destruct (N.eqb_spec d 58) as [->|]; cbn [negb] in H; [|discriminate].
  rewrite scan_separator, <- scan_skip_ws by done.
  apply bind_ok in H as ([w q] & Hw & H). rewrite (Hv _ _ _ _ _ Hw Hr). cbn [fst snd] in H.
  rewrite <- scan_skip_ws. destruct (skip_ws q) as [|d2 r2]; [discriminate|].
  destruct (N.eqb_spec d2 125) as [->|].
  { apply bind_ok in H as (o & _ & H). inv_result. by rewrite scan_close. }
  destruct (N.eqb_spec d2 44) as [->|]; [|discriminate].
  rewrite scan_separator, <- scan_skip_ws by done. by eapply He.
Qed.

Lemma scan_open_ok k c r : in_chars (py "[{") c = true -> (k + 1 <= MAX_JSON_DEPTH)%Z ->
  too_deep_from k false false (c :: r) = too_deep_from (k + 1) false false r.
Proof.
  unfold in_chars. cbn [existsb py map list_ascii_of_string]. intros H Hk.
  assert (E : too_deep_from k false false (c :: r) =
    if (MAX_JSON_DEPTH <? k + 1)%Z then true else too_deep_from (k + 1) false false r).
  { repeat (apply orb_true_iff in H as [H|H]); try discriminate; apply N.eqb_eq in H as ->; done. }
  rewrite E. by destruct (Z.ltb_spec MAX_JSON_DEPTH (k + 1)); [lia|].
Qed.

Lemma same_literal k s p : startswith s p = true -> forallb plain p = true ->
  too_deep_from k false false s = too_deep_from k false false (skipn (length p) s).
Proof.
  intros Hs Hp. apply startswith_skipn in Hs. rewrite Hs at 1. apply scan_plain.
  apply Forall_forall. rewrite forallb_forall in Hp. intros x Hx. by apply Hp, list_elem_of_In.
Qed.

Lemma value_same_step n : elements_same n -> members_same n -> value_same (S n).
Proof.
  intros He Hm room k s v r H Hr. cbn [parse_value] in H. destruct s as [|c s1]; [discriminate|].
  destruct (N.eqb_spec c QUOTE) as [->|].
  { apply bind_ok in H as ([key r0] & Es & H). inv_result. cbn [too_deep_from fst snd].
    by rewrite N.eqb_refl, (scan_string_scan _ _ _ _ _ Es). }
  destruct (N.eqb_spec c 123) as [->|].
  { destruct room as [|room']; [discriminate|]. rewrite scan_open_ok, <- scan_skip_ws by (done || lia).
    destruct (skip_ws s1) as [|d s2]; [discriminate|].
    replace k with (k + 1 - 1)%Z at 2 by lia. destruct (N.eqb_spec d 125) as [->|].
    - inv_result. by rewrite scan_close.
    - apply (Hm _ _ _ _ _ _ H). lia. }
  destruct (N.eqb_spec c 91) as [->|].
  { destruct room as [|room']; [discriminate|]. rewrite scan_open_ok, <- scan_skip_ws by (done || lia).
    destruct (skip_ws s1) as [|d s2]; [discriminate|].
    replace k with (k + 1 - 1)%Z at 2 by lia. destruct (N.eqb_spec d 93) as [->|].
    - inv_result. by rewrite scan_close.
    - apply (He _ _ _ _ _ _ H). lia. }
  destruct (startswith _ (py "null")) eqn:E1; [inv_result; exact (same_literal k (c :: s1) (py "null") E1 eq_refl)|].
  destruct (startswith _ (py "true")) eqn:E2; [inv_result; exact (same_literal k (c :: s1) (py "true") E2 eq_refl)|].
  destruct (startswith _ (py "false")) eqn:E3; [inv_result; exact (same_literal k (c :: s1) (py "false") E3 eq_refl)|].
  destruct (_ || _ || _); [discriminate|].
  apply parse_number_consumes in H as (_ & Hc & _). by apply scan_consumes.
Qed.

Lemma parse_same n : value_same n /\ elements_same n /\ members_same n.
Proof.
  induction n as [|n (IHv & IHe & IHm)]; [done|].
  auto using value_same_step, elements_same_step, members_same_step.
Qed.

Lemma scan_prefix k q e x post : too_deep_from k q e (x ++ post) = false -> too_deep_from k q e x = false.
Proof.
  revert k q e. induction x as [|c x IH]; intros k q e; [done|]. cbn [app too_deep_from].
  destruct q; [destruct e; [apply IH|]; repeat case_match; apply IH|].
  repeat case_match; try done; apply IH.
Qed.

Lemma shallow_not_too_deep room text v :
  json_loads room text = Ok v -> (Z.of_nat room <= MAX_JSON_DEPTH)%Z -> too_deep (strip text) = false.
Proof.
  unfold json_loads. destruct (startswith _ _); [discriminate|]. intros H Hr.
  apply bind_ok in H as ([w r] & Hw & H). cbn [fst snd] in H.
  pose proof (proj1 (parse_same (json_fuel text)) _ 0%Z _ _ _ Hw ltac:(lia)) as S.
  rewrite scan_skip_ws in S. rewrite <- (scan_skip_ws 0 r) in S. destruct (skip_ws r); [|discriminate].
  cbn [too_deep_from] in S. destruct (strip_split text) as (pre & post & E & Hpre & _).
  rewrite E, scan_plain in S by (by apply forallb_plain). by apply scan_prefix in S.
Qed.

(** ** What a contract promises *)

(** A response meets a contract; the JSON part says that the text is one JSON
    value nested at most 32 deep with the declared shape. *)
Definition meets (c : ValidationContract) (r : InferenceResponse) : Prop :=
  termination_reason r <> TR_LENGTH /\
  (Z.of_nat (length (text r)) <= MAX_INPUT_CHARACTERS)%Z /\
  strip (text r) <> [] /\
  (forall n, min_characters c = Some n -> (n <= Z.of_nat (length (strip (text r))))%Z) /\
  (format c = FMT_label -> strip (text r) ∈ allowed_labels c) /\
  (format c = FMT_json ->
   exists v, json_loads (Z.to_nat MAX_JSON_DEPTH) (text r) = Ok v /\
     (forall t, effective_root c = Some t -> matches v t = true) /\
     (forall fields, v = JObj fields ->
        (forall key, key ∈ required_fields c -> key ∈ dict_keys fields) /\
        (forall key t w, (key, t) ∈ field_types c -> dict_get fields key = Some w -> matches w t = true))).

Lemma concat_map_nil {A B} (f : A -> list B) l : concat (map f l) = [] <-> forall x, x ∈ l -> f x = [].
Proof.
  induction l as [|x l IH]; simpl; [split; [set_solver|done]|]. split.
  - intros [H1 H2]%app_nil. intros y [->|Hy]%elem_of_cons; [done|]. by apply IH.
  - intros H. rewrite H by set_solver. apply IH. set_solver.
Qed.

Lemma field_codes_nil c v : field_codes c v = [] <->
  forall fields, v = JObj fields ->
    (forall key, key ∈ required_fields c -> key ∈ dict_keys fields) /\
    (forall key t w, (key, t) ∈ field_types c -> dict_get fields key = Some w -> matches w t = true).
Proof.
  unfold field_codes. destruct v as [| | | | |fields]; try (split; [intros _ fields E; discriminate E|done]).
  split.
  - intros [H1 H2]%app_nil fields' E. injection E as <-. rewrite concat_map_nil in H1; rewrite concat_map_nil in H2. split.
    + intros key Hk. specialize (H1 key Hk). cbv beta in H1. destruct (dict_mem fields key) eqn:E; [|done].
      by apply dict_mem_true.
    + intros key t w Hk Hw. specialize (H2 _ Hk). cbn [fst snd] in H2. rewrite Hw in H2.
      by destruct (matches w t).
  - intros H. destruct (H fields eq_refl) as [H1 H2]. apply app_nil. rewrite !concat_map_nil. split.
    + intros key Hk. by rewrite (proj2 (dict_mem_true fields key) (H1 key Hk)).
    + intros [key t] Hk. cbn [fst snd]. destruct (dict_get fields key) as [w|] eqn:E; [|done].
      by rewrite (H2 key t w Hk E).
Qed.

Lemma codes_no_error c v : VF_VALIDATOR_ERROR ∉ field_codes c v.
Proof.
  unfold field_codes. destruct v; try set_solver.
  intros [H|H]%elem_of_app; apply list_elem_of_In, in_concat in H as (l' & Hl & Hin);
    apply in_map_iff in Hl as (x & <- & _).
  - destruct (dict_mem _ _); simpl in Hin; intuition discriminate.
  - destruct (dict_get _ _) as [w|]; [destruct (matches w x.2)|]; simpl in Hin; intuition discriminate.
Qed.

(** The codes of [_check] once a contract is there. *)
Lemma check_response_codes room r c : exists codes,
  check_response room r (Some c) = Ok codes /\ VF_VALIDATOR_ERROR ∉ codes /\
  (VF_OUTPUT_TRUNCATED ∈ codes <-> termination_reason r = TR_LENGTH).
Proof.
  unfold check_response. set (base := if bool_decide (termination_reason r = TR_LENGTH) then _ else _).
  assert (Hb : VF_VALIDATOR_ERROR ∉ base /\ (VF_OUTPUT_TRUNCATED ∈ base <-> termination_reason r = TR_LENGTH)).
  { subst base. case_bool_decide; set_solver. }
  assert (Ext : forall l, VF_VALIDATOR_ERROR ∉ l -> VF_OUTPUT_TRUNCATED ∉ l ->
    VF_VALIDATOR_ERROR ∉ base ++ l /\ (VF_OUTPUT_TRUNCATED ∈ base ++ l <-> termination_reason r = TR_LENGTH)).
  { intros l H1 H2. rewrite !elem_of_app. tauto. }
  assert (Fld : forall v, VF_OUTPUT_TRUNCATED ∉ field_codes c v).
  { intros v. unfold field_codes. destruct v; try set_solver.
    intros [H|H]%elem_of_app; apply list_elem_of_In, in_concat in H as (l' & Hl & Hin);
      apply in_map_iff in Hl as (x & <- & _).
    - destruct (dict_mem _ _); simpl in Hin; intuition discriminate.
    - destruct (dict_get _ _) as [w|]; [destruct (matches w x.2)|]; simpl in Hin; intuition discriminate. }
  destruct (_ <? _)%Z; [eexists; split; [done|]; apply Ext; set_solver|].
  destruct (strip (text r)) as [|ch rest]; [eexists; split; [done|]; apply Ext; set_solver|].
  set (m1 := match min_characters c with Some n => _ | None => _ end).
  set (m2 := if bool_decide (format c = FMT_label) && _ then _ else _). cbv zeta.
  assert (M1 : VF_VALIDATOR_ERROR ∉ m1 /\ VF_OUTPUT_TRUNCATED ∉ m1).
  { subst m1. destruct (min_characters c); [destruct (_ <? _)%Z|]; set_solver. }
  assert (M2 : VF_VALIDATOR_ERROR ∉ m2 /\ VF_OUTPUT_TRUNCATED ∉ m2) by (subst m2; destruct (_ && _); set_solver).
  clearbody m1 m2. pose proof (codes_no_error c) as Fe.
  assert (Fin : forall l, VF_VALIDATOR_ERROR ∉ l -> VF_OUTPUT_TRUNCATED ∉ l -> exists codes,
    Ok (((base ++ m1) ++ m2) ++ l) = Ok (E := exn) codes /\ VF_VALIDATOR_ERROR ∉ codes /\
    (VF_OUTPUT_TRUNCATED ∈ codes <-> termination_reason r = TR_LENGTH)).
  { intros l H1 H2. eexists. split; [done|]. rewrite <- !app_assoc. apply Ext; set_solver. }
  destruct (negb _); [destruct (Fin []) as (x & E & H); [set_solver..|]; rewrite app_nil_r in E; by exists x|].
  destruct (too_deep _); [apply Fin; set_solver|].
  destruct (json_loads room (text r)) as [v|e]; [|apply Fin; set_solver].
  destruct (effective_root c) as [rt|]; [destruct (matches v rt)|]; apply Fin; set_solver.
Qed.

Definition enough_room (room : nat) : Prop := (MAX_JSON_DEPTH <= Z.of_nat room)%Z.

Lemma json_loads_at_limit room text v : enough_room room ->
  json_loads (Z.to_nat MAX_JSON_DEPTH) text = Ok v <->
  too_deep (strip text) = false /\ json_loads room text = Ok v.
Proof.
  unfold enough_room. intros Hr. split.
  - intros H. split; [by apply (shallow_not_too_deep _ _ _ H)|].
    rewrite (json_loads_room (Z.to_nat MAX_JSON_DEPTH) room); [done|lia|by rewrite H].
  - intros [Hd H]. rewrite <- H. symmetry. apply json_loads_room; [lia|].
    apply json_loads_no_recursion; [done|lia].
Qed.

(** The constraints other than those on JSON. *)
Lemma check_response_nil room r c : enough_room room ->
  check_response room r (Some c) = Ok [] <-> meets c r.
Proof.
  intros Hroom. unfold check_response, meets.
  destruct (decide (termination_reason r = TR_LENGTH)) as [Ht|Ht].
  { rewrite bool_decide_eq_true_2 by done. split; [|tauto]. intros H. exfalso. revert H.
    repeat case_match; intros Hnil; try discriminate Hnil; injection Hnil; discriminate. }
  rewrite bool_decide_eq_false_2 by done. cbn [app].
  destruct (Z.ltb_spec MAX_INPUT_CHARACTERS (Z.of_nat (length (text r)))) as [Hlen|Hlen]; [split; [done|lia]|].
  destruct (strip (text r)) as [|ch rest] eqn:Es; [split; [done|tauto]|]. cbv zeta.
  set (t := ch :: rest) in *. assert (Hne : t <> []) by done. clearbody t.
  destruct (match min_characters c with Some n => _ | None => _ end) as [|m ms] eqn:Em.
  2: { split; [intros H0; exfalso; revert H0; repeat case_match; discriminate|].
       intros (_ & _ & _ & Hm & _). destruct (min_characters c) as [n|]; [|discriminate].
       specialize (Hm n eq_refl). destruct (Z.ltb_spec (Z.of_nat (length t)) n); [lia|discriminate]. }
  assert (Hmin : forall n, min_characters c = Some n -> (n <= Z.of_nat (length t))%Z).
  { intros n E. rewrite E in Em. destruct (Z.ltb_spec (Z.of_nat (length t)) n); [discriminate|lia]. }
  cbn [app]. destruct (decide (format c = FMT_label)) as [Hl|Hl].
  - rewrite (bool_decide_eq_true_2 _ Hl), (bool_decide_eq_false_2 (format c = FMT_json)) by congruence.
    cbn [andb negb]. case_bool_decide as Hin; cbn [negb].
    + split; [|done]. intros _. do 5 (split; [done|]). intros. congruence.
    + split; [done|]. intros (_ & _ & _ & _ & H1 & _). destruct Hin. by apply H1.
  - rewrite (bool_decide_eq_false_2 _ Hl). cbn [andb app].
    destruct (decide (format c = FMT_json)) as [Hj|Hj].
    + rewrite (bool_decide_eq_true_2 _ Hj). cbn [negb].
      assert (K : (exists v, json_loads (Z.to_nat MAX_JSON_DEPTH) (text r) = Ok v /\
        (forall t, effective_root c = Some t -> matches v t = true) /\ field_codes c v = []) <->
        meets c r).
      { unfold meets. rewrite Es. setoid_rewrite field_codes_nil. split.
        - intros Hv. do 5 (split; [done || (intros; congruence)|]). done.
        - intros (_ & _ & _ & _ & _ & Hv). by apply Hv. }
      unfold meets in K. rewrite Es in K. rewrite <- K. clear K.
      setoid_rewrite (fun v => json_loads_at_limit room (text r) v Hroom). rewrite Es.
      destruct (too_deep t) eqn:Ed; [split; [done|by intros (v & [? _] & _)]|].
      destruct (json_loads room (text r)) as [v|e] eqn:Ev.
      * split.
        -- intros H0. exists v. split; [done|].
           destruct (effective_root c) as [rt|]; [destruct (matches v rt) eqn:Em'|];
             cbn [app] in H0; try discriminate; injection H0 as H0; (split; [|done]); intros; by simplify_eq.
        -- intros (w & [_ Hw] & Hr & Hf). inv_result. rewrite Hf.
           destruct (effective_root c) as [rt|]; [|done]. by rewrite (Hr rt eq_refl).
      * split; [done|]. intros (w & [_ Hw] & _). discriminate.
    + rewrite (bool_decide_eq_false_2 _ Hj). cbn [negb]. split; [|done]. intros _.
      do 5 (split; [done|]). intros. congruence.
Qed.

(** The clock readings give a duration the result type accepts. *)
Definition clock_ok (started finished : float) : bool :=
  nonneg_finite (f_mul (f_sub finished started) (f_of_Z 1000)).

Lemma validate_steps room r c started finished codes :
  check_response room r (Some c) = Ok codes -> VF_VALIDATOR_ERROR ∉ codes ->
  clock_ok started finished = true ->
  validate room r (Some c) started finished =
    Ok (mk_ValidationResult (if nonempty codes then FAILED else PASSED)
          (map (fun code => mk_ValidationFailure code true) (firstn MAX_FAILURES codes))
          VALIDATOR_VERSION (f_mul (f_sub finished started) (f_of_Z 1000))).
Proof.
  intros Hc He Hk. unfold validate. rewrite Hc.
  assert (Em : map (fun code => mk_ValidationFailure code (negb (bool_decide (code = VF_VALIDATOR_ERROR))))
                 (firstn MAX_FAILURES codes) =
               map (fun code => mk_ValidationFailure code true) (firstn MAX_FAILURES codes)).
  { apply map_ext_in. intros code Hin. rewrite bool_decide_eq_false_2; [done|]. intros ->.
    apply He. apply list_elem_of_In in Hin. apply elem_of_take in Hin as (i & Hi & _). by apply list_elem_of_lookup_2 in Hi. }
  rewrite Em. set (res := mk_ValidationResult _ _ _ _).
  assert (Hv : ValidationResult_validate res = Ok tt); [|by rewrite Hv].
  assert (Hx : existsb (fun f => bool_decide (vf_code f = VF_VALIDATOR_ERROR)) (vr_failures res) = false).
  { cbn [vr_failures res]. apply not_true_iff_false. intros (f & Hf & E)%existsb_exists.
    apply in_map_iff in Hf as (code & <- & Hin). bools. simpl in E. subst code.
    apply list_elem_of_In, elem_of_take in Hin as (i & Hi & _). by apply list_elem_of_lookup_2 in Hi. }
  assert (Hl : Nat.leb (length (vr_failures res)) MAX_FAILURES = true).
  { apply Nat.leb_le. cbn [vr_failures res]. rewrite length_map, length_take. lia. }
  unfold ValidationResult_validate, consistent_status. rewrite Hl, Hx. subst res.
  cbn [vr_duration_ms vr_status vr_failures]. unfold clock_ok in Hk. rewrite Hk.
  destruct codes as [|code codes]; cbn [nonempty firstn map MAX_FAILURES]; [done|].
  by rewrite andb_false_r.
Qed.

Lemma validate_passed room r c started finished res : enough_room room ->
  validate room r (Some c) started finished = Ok res -> vr_status res = PASSED -> meets c r.
Proof.
  intros Hr H Hp. apply (check_response_nil room); [done|]. revert H. unfold validate.
  destruct (check_response room r (Some c)) as [codes|e]; intros (u & _ & H)%bind_ok; injection H as <-; [|done].
  by destruct codes.
Qed.

(** C8. With a contract the validator decides exactly the contract: it always
    returns a result, which is [PASSED] when the response meets the contract
    and [FAILED] otherwise, never [ERROR] or [NOT_RUN]; a failure carries
    between one and sixteen codes, none of them the internal error and all
    recoverable. *)
Theorem validate_decides_contract room r c started finished :
  enough_room room -> clock_ok started finished = true ->
  exists res, validate room r (Some c) started finished = Ok res /\
    (vr_status res = PASSED <-> meets c r) /\
    (vr_status res = FAILED <-> ~ meets c r) /\
    (vr_status res = PASSED \/ vr_status res = FAILED) /\
    (vr_status res = PASSED -> vr_failures res = []) /\
    (vr_status res = FAILED -> (1 <= length (vr_failures res) <= MAX_FAILURES)%nat) /\
    (forall f, f ∈ vr_failures res -> vf_code f <> VF_VALIDATOR_ERROR /\ vf_recoverable_by_escalation f = true) /\
    ValidationResult_validate res = Ok tt.
Proof.
  intros Hroom Hk. destruct (check_response_codes room r c) as (codes & Hc & He & _).
  pose proof (check_response_nil room r c Hroom) as Hn. rewrite Hc in Hn.
  pose proof (validate_steps _ _ _ _ _ _ Hc He Hk) as Hv. eexists. split; [exact Hv|].
  assert (V : ValidationResult_validate (mk_ValidationResult (if nonempty codes then FAILED else PASSED)
    (map (fun code => mk_ValidationFailure code true) (firstn MAX_FAILURES codes))
    VALIDATOR_VERSION (f_mul (f_sub finished started) (f_of_Z 1000))) = Ok tt).
  { clear Hn. unfold validate in Hv. rewrite Hc in Hv. apply bind_ok in Hv as ([] & Hx & Hv).
    apply validated_ok in Hx. by injection Hv as <-. }
  cbn [vr_status vr_failures]. assert (D : codes = [] <-> meets c r).
  { rewrite <- Hn. split; [by intros ->|intros E; by injection E]. }
  assert (F : forall f, f ∈ map (fun code => mk_ValidationFailure code true) (firstn MAX_FAILURES codes) ->
    vf_code f <> VF_VALIDATOR_ERROR /\ vf_recoverable_by_escalation f = true).
  { intros f (code & <- & Hin)%list_elem_of_In%in_map_iff. split; [|done]. simpl. intros ->.
    apply list_elem_of_In, elem_of_take in Hin as (i & Hi & _). by apply list_elem_of_lookup_2 in Hi. }
  destruct codes as [|code codes]; cbn [nonempty] in *.
  - assert (Hm : meets c r) by (by apply D). split; [done|]. split; [split; [discriminate|done]|].
    split; [by left|]. split; [done|]. split; [discriminate|]. split; [exact F|exact V].
  - assert (Hm : ~ meets c r) by (rewrite <- D; done).
    split; [split; [discriminate|done]|]. split; [done|]. split; [by right|]. split; [done|].
    split; [|split; [exact F|exact V]]. intros _. rewrite length_map, length_take. unfold MAX_FAILURES. cbn [length]. lia.
Qed.

Definition json_contract : ValidationContract :=
  mk_ValidationContract FMT_json None None [py "a"] [(py "a", T_integer)] [].

Definition response_with (t : pystr) (reason : TerminationReason) : InferenceResponse :=
  mk_InferenceResponse t (py "m") (py "p") 1 1 f_zero d_zero reason None.

(** [{"a": [QUOTE]x[QUOTE]}] needs a quote character, so texts are built from code points. *)
Definition quoted (s : string) : pystr := QUOTE :: py s ++ [QUOTE].

Definition json_text : pystr := py "{" ++ quoted "a" ++ py ": 12.0 }".

Lemma validate_decides_contract_witness :
  enough_room 40 /\ clock_ok (f_of_Z 1) (f_of_Z 2) = true /\
  exists res, validate 40 (response_with json_text TR_COMPLETE) (Some json_contract) (f_of_Z 1) (f_of_Z 2) = Ok res /\
    vr_status res = PASSED /\ meets json_contract (response_with json_text TR_COMPLETE).
Proof.
  assert (Hr : enough_room 40) by (unfold enough_room, MAX_JSON_DEPTH; lia).
  assert (Hk : clock_ok (f_of_Z 1) (f_of_Z 2) = true) by (vm_compute; reflexivity).
  split; [exact Hr|]. split; [exact Hk|].
  destruct (validate_decides_contract 40 (response_with json_text TR_COMPLETE) json_contract _ _ Hr Hk)
    as (res & Hv & Hp & _).
  exists res. split; [exact Hv|].
  assert (E : vr_status <$> validate 40 (response_with json_text TR_COMPLETE) (Some json_contract)
    (f_of_Z 1) (f_of_Z 2) = Ok PASSED) by (vm_compute; reflexivity).
  rewrite Hv in E. cbn in E. injection E as E. split; [exact E|apply Hp; exact E].
Defined.

(* The depth prescan is exact: with room for 32 nested containers the parser
    never exhausts the stack on a text the prescan accepts, and the texts that
    are JSON nested at most 32 deep are precisely those that the prescan
    accepts and that parse. *)
Theorem prescan_exact room text :
  enough_room room ->
  (too_deep (strip text) = false -> json_loads room text <> Raise JRecursionError) /\
  (forall v, json_loads (Z.to_nat MAX_JSON_DEPTH) text = Ok v <->
     too_deep (strip text) = false /\ json_loads room text = Ok v) /\
  (forall v, too_deep (strip text) = false -> json_loads room text = Ok v ->
     (Z.of_nat (depth v) <= MAX_JSON_DEPTH)%Z).
Proof.
  intros Hr. split; [by intros; apply json_loads_no_recursion|].
  split; [by intros; apply json_loads_at_limit|]. intros v Hd H.
  assert (E : json_loads (Z.to_nat MAX_JSON_DEPTH) text = Ok v) by (by apply (json_loads_at_limit room)).
  apply json_loads_depth in E. unfold MAX_JSON_DEPTH in *. lia.
Qed.

Lemma prescan_exact_witness :
  enough_room 40 /\ too_deep (strip json_text) = false /\
  json_loads 40 json_text = Ok (JObj [(py "a", JNum (mk_decimal false 120 (-1)))]) /\
  json_loads 40 json_text <> Raise JRecursionError.
Proof.
  assert (Hr : enough_room 40) by (unfold enough_room, MAX_JSON_DEPTH; lia).
  split; [exact Hr|]. split; [vm_compute; reflexivity|]. split; [vm_compute; reflexivity|].
  apply (proj1 (prescan_exact 40 json_text Hr)). vm_compute. reflexivity.
Defined.

(** A validated contract on labels can be met: every label it allows, returned
    complete and as it is, passes. *)
Theorem allowed_labels_pass room c l r started finished :
  enough_room room -> clock_ok started finished = true ->
  ValidationContract_validate c = Ok tt -> format c = FMT_label -> l ∈ allowed_labels c ->
  text r = l -> termination_reason r <> TR_LENGTH ->
  exists res, validate room r (Some c) started finished = Ok res /\ vr_status res = PASSED.
Proof.
  intros Hroom Hk Hv Hf Hl Ht Hr.
  assert (Hm : meets c r).
  { unfold ValidationContract_validate, compatible_constraints in Hv. rewrite Hf in Hv.
    rewrite (bool_decide_eq_true_2 (FMT_label = FMT_label)) in Hv by done.
    inv_checks. bools.
    assert (Hn : Name_ok l = true).
    { match goal with X : forallb Name_ok (allowed_labels c) = true |- _ =>
        rewrite forallb_forall in X; by apply X, list_elem_of_In end. }
    assert (Hs : l = strip l /\ is_blank l = false).
    { match goal with X : existsb (fun l => negb (bool_decide (l = strip l)) || is_blank l) _ = false |- _ =>
        assert (negb (bool_decide (l = strip l)) || is_blank l = false) as Y;
        [destruct (negb (bool_decide (l = strip l)) || is_blank l) eqn:E; [|done];
         rewrite <- X; symmetry; apply existsb_exists; exists l; split; [by apply list_elem_of_In|done]|] end.
      bools. done. }
    destruct Hs as [Hs Hb]. unfold Name_ok in Hn. bools.
    unfold meets. rewrite Ht, <- Hs. split; [done|]. split; [unfold MAX_INPUT_CHARACTERS; lia|].
    split; [by apply is_blank_nil|]. split; [|split; [done|congruence]].
    intros n En. rewrite En in *. bools.
    destruct (Z.ltb_spec (Z.of_nat (length l)) n) as [Hlt|]; [|done]. exfalso.
    match goal with X : existsb (fun l => (Z.of_nat (length l) <? n)%Z) _ = false |- _ =>
      rewrite <- not_true_iff_false in X; apply X, existsb_exists; exists l end.
    split; [by apply list_elem_of_In|by apply Z.ltb_lt]. }
  destruct (check_response_codes room r c) as (codes & Hc & He & _).
  assert (codes = []) as ->.
  { apply (check_response_nil room) in Hm; [|done]. rewrite Hc in Hm. by injection Hm. }
  eexists. split; [by apply (validate_steps _ _ _ _ _ [])|done].
Qed.

Definition label_contract : ValidationContract :=
  mk_ValidationContract FMT_label (Some 2%Z) None [] [] [py "yes"; py "no"].

Lemma allowed_labels_pass_witness :
  ValidationContract_validate label_contract = Ok tt /\
  exists res, validate 32 (response_with (py "no") TR_COMPLETE) (Some label_contract) (f_of_Z 1) (f_of_Z 2)
    = Ok res /\ vr_status res = PASSED.
Proof.
  split; [vm_compute; reflexivity|].
  apply (allowed_labels_pass 32 label_contract (py "no")).
  - unfold enough_room, MAX_JSON_DEPTH. lia.
  - vm_compute. reflexivity.
  - vm_compute. reflexivity.
  - reflexivity.
  - right. left.
  - reflexivity.
  - discriminate.
Defined.
