(* ===== verification/Observability.v ===== *)
(** * Metrics and structured events ([observability.py])

    Every recording method is a function on the log of what was handed to the
    metrics client and to the logger.  The recording methods swallow the errors
    of the client ([_safe]), so none of them raises. *)
From S2P Require Import Prelude PyStr PyFloat PyDecimal Schemas Errors PyNum.

(** [_SAFE_LOG_FIELDS] *)
Definition SAFE_LOG_FIELDS : list pystr :=
  map py
  [ "request_id"; "route"; "method"; "status_code"; "model"; "provider"; "attempt_number";
    "routing_fallback"; "escalated"; "recovered"; "validation_outcome"; "provider_error_category";
    "latency_ms"; "estimated_cost_usd"; "terminal_outcome"; "scope"; "record_type"; "outcome";
    "dependency" ]%string.

(** Values of a log field; [LNone] is [None], [LDecimal] prints with [str]. *)
Inductive log_value :=
| LStr (s : pystr) | LInt (z : Z) | LFloat (f : float) | LBool (b : bool)
| LDecimal (d : decimal) | LNow | LNone.

#[export] Instance log_value_eq_dec : EqDecision log_value.
Proof. solve_decision. Defined.

Notation payload := (list (list N * log_value)) (only parsing).
Notation labels := (list (list N * list N)) (only parsing).

Inductive metric_op :=
| MInc (metric : pystr) (ls : labels) (amount : float)
| MDec (metric : pystr) (ls : labels)
| MObserve (metric : pystr) (ls : labels) (value : float).

Record obs := mk_obs { metrics : list metric_op; events : list payload }.

Definition no_obs : obs := mk_obs [] [].

Record ObservabilitySettings := mk_ObservabilitySettings {
  metrics_enabled : bool;
  metrics_bearer_token : option pystr
}.

(** The token has at least 32 characters; [require_token_when_enabled]. *)
Definition ObservabilitySettings_validate (s : ObservabilitySettings) : result pystr unit :=
  _ ← check (match metrics_bearer_token s with
             | Some t => Nat.leb 32 (length t)
             | None => true
             end) field_error;
  check (negb (metrics_enabled s && bool_decide (metrics_bearer_token s = None)))
    (py "METRICS_BEARER_TOKEN is required when METRICS_ENABLED is true").

(** ** [JsonEventLogger.emit] *)

Definition by_key (a b : list N * log_value) : comparison := str_cmp a.1 b.1.

Definition emit_payload (event level : pystr) (fields : payload) : payload :=
  let base := [(py "timestamp", LNow); (py "level", LStr level); (py "event", LStr event)] in
  py_sorted (cmp_le by_key)
    (fold_left (fun d kv =>
       if negb (bool_decide (kv.1 ∈ SAFE_LOG_FIELDS)) || bool_decide (kv.2 = LNone) then d
       else dict_set d kv.1 kv.2) fields base).

Definition emit (event level : pystr) (fields : payload) (o : obs) : obs :=
  mk_obs (metrics o) (events o ++ [emit_payload event level fields]).

Definition record (op : metric_op) (o : obs) : obs := mk_obs (metrics o ++ [op]) (events o).

Definition bool_str (b : bool) : pystr := if b then py "true" else py "false".

Definition log_cost (c : option decimal) : log_value :=
  match c with Some d => LDecimal d | None => LNone end.

(** ** The recording methods *)

Definition http_started (route : pystr) (o : obs) : obs :=
  record (MInc (py "routellm_http_requests_in_progress") [(py "route", route)] f_one) o.

Definition http_finished (route method status_class outcome : pystr) (duration : float) (o : obs) : obs :=
  let o := record (MInc (py "routellm_http_requests_total")
             [(py "route", route); (py "method", method); (py "status_class", status_class);
              (py "outcome", outcome)] f_one) o in
  let o := record (MObserve (py "routellm_http_request_duration_seconds")
             [(py "route", route); (py "method", method); (py "status_class", status_class)] duration) o in
  record (MDec (py "routellm_http_requests_in_progress") [(py "route", route)]) o.

Definition provider_attempt (provider model outcome error_category : pystr) (duration : float)
    (request_mode : pystr) (cost : option decimal) (request_id : pystr) (o : obs) : obs :=
  let o := record (MInc (py "routellm_provider_attempts_total")
             [(py "provider", provider); (py "model", model); (py "outcome", outcome);
              (py "error_category", error_category)] f_one) o in
  let o := record (MObserve (py "routellm_provider_attempt_duration_seconds")
             [(py "provider", provider); (py "model", model); (py "outcome", outcome)] duration) o in
  let o := match cost with
           | Some d => record (MInc (py "routellm_estimated_cost_usd_total")
                         [(py "request_mode", request_mode); (py "model", model)] (f_of_decimal d)) o
           | None => o
           end in
  emit (py "provider_attempt_completed") (py "info")
    [(py "request_id", LStr request_id); (py "provider", LStr provider); (py "model", LStr model);
     (py "outcome", LStr outcome); (py "provider_error_category", LStr error_category);
     (py "latency_ms", LFloat (f_mul duration (f_of_Z 1000))); (py "estimated_cost_usd", log_cost cost)] o.

Definition routing_decision (selected_model reason : pystr) (o : obs) : obs :=
  record (MInc (py "routellm_routing_decisions_total")
    [(py "selected_model", selected_model); (py "reason", reason)] f_one) o.

Definition validation_failure (model reason : pystr) (attempt : Z) (o : obs) : obs :=
  record (MInc (py "routellm_validation_failures_total")
    [(py "model", model); (py "reason", reason); (py "attempt", Z_to_str attempt)] f_one) o.

Definition adaptive_request (terminal_outcome : pystr) (escalated recovered : bool) (attempts : Z)
    (request_id validation_outcome : pystr) (o : obs) : obs :=
  let o := record (MInc (py "routellm_adaptive_requests_total")
             [(py "terminal_outcome", terminal_outcome); (py "escalated", bool_str escalated);
              (py "recovered", bool_str recovered)] f_one) o in
  let o := record (MObserve (py "routellm_adaptive_attempts") [(py "terminal_outcome", terminal_outcome)]
             (f_of_Z attempts)) o in
  emit (py "adaptive_execution_completed") (py "info")
    [(py "request_id", LStr request_id); (py "attempt_number", LInt attempts);
     (py "escalated", LBool escalated); (py "recovered", LBool recovered);
     (py "validation_outcome", LStr validation_outcome); (py "terminal_outcome", LStr terminal_outcome)] o.

Definition telemetry_write (record_type outcome : pystr) (duration : option float) (o : obs) : obs :=
  let ls := [(py "record_type", record_type); (py "outcome", outcome)] in
  let o := record (MInc (py "routellm_telemetry_writes_total") ls f_one) o in
  match duration with
  | Some d => record (MObserve (py "routellm_telemetry_write_duration_seconds") ls d) o
  | None => o
  end.

Definition rate_limit_rejection (scope route : pystr) (o : obs) : obs :=
  emit (py "rate_limit_rejected") (py "info") [(py "scope", LStr scope); (py "route", LStr route)]
    (record (MInc (py "routellm_rate_limit_rejections_total") [(py "scope", scope); (py "route", route)] f_one) o).

(** The warning that a telemetry write failed, as three services emit it. *)
Definition telemetry_write_failed (request_id record_type : pystr) (duration : float) (o : obs) : obs :=
  emit (py "telemetry_write_failed") (py "warning")
    [(py "request_id", LStr request_id); (py "record_type", LStr record_type); (py "outcome", LStr (py "failure"));
     (py "latency_ms", LFloat (f_mul duration (f_of_Z 1000)))] o.

(** ** Lemmas *)

#[export] Instance total_cmp_by_key : TotalCmp by_key.
Proof. exact (total_cmp_on_key fst str_cmp _). Qed.

Definition BASE_LOG_FIELDS : list pystr := map py ["timestamp"; "level"; "event"]%string.

Definition add_field (d : payload) (kv : list N * log_value) : payload :=
  if negb (bool_decide (kv.1 ∈ SAFE_LOG_FIELDS)) || bool_decide (kv.2 = LNone) then d
  else dict_set d kv.1 kv.2.

Lemma add_field_get d kv k :
  dict_get (add_field d kv) k =
  if decide (k = kv.1 /\ kv.1 ∈ SAFE_LOG_FIELDS /\ kv.2 <> LNone) then Some kv.2 else dict_get d k.
Proof.
  unfold add_field. destruct (decide (kv.1 ∈ SAFE_LOG_FIELDS)) as [Hs|Hs].
  - rewrite (bool_decide_eq_true_2 _ Hs). cbn [negb orb].
    case_bool_decide as Hn; [by rewrite decide_False by tauto|].
    rewrite dict_get_set. destruct (decide (k = kv.1)); [by rewrite decide_True|by rewrite decide_False by tauto].
  - rewrite (bool_decide_eq_false_2 _ Hs). cbn [negb orb]. by rewrite decide_False by tauto.
Qed.

Lemma add_fields_nodup fields d : NoDup (dict_keys d) -> NoDup (dict_keys (fold_left add_field fields d)).
Proof.
  revert d. induction fields as [|kv fields IH]; intros d Hd; [done|]. simpl. apply IH.
  unfold add_field. destruct (_ || _); [done|by apply dict_keys_set_nodup].
Qed.

Lemma add_fields_get fields d k : NoDup (map fst fields) ->
  dict_get (fold_left add_field fields d) k =
  match dict_get fields k with
  | Some v => if decide (k ∈ SAFE_LOG_FIELDS /\ v <> LNone) then Some v else dict_get d k
  | None => dict_get d k
  end.
Proof.
  revert d. induction fields as [|[k0 v0] fields IH]; intros d Hd; [done|].
  simpl in Hd. apply NoDup_cons in Hd as [Hn Hd]. cbn [fold_left dict_get]. rewrite IH by done.
  rewrite add_field_get. cbn [fst snd].
  destruct (decide (k = k0)) as [->|Hne].
  - assert (E : dict_get fields k0 = None) by (apply dict_get_none; exact Hn). rewrite E.
    destruct (decide (k0 ∈ SAFE_LOG_FIELDS /\ v0 <> LNone));
      [by rewrite decide_True by tauto|by rewrite decide_False by tauto].
  - rewrite (decide_False (P := k = k0 /\ _)) by tauto. done.
Qed.

(** Logged payloads are allowlisted: a payload has each key once, in order, and
    only the three base keys or approved ones; an approved field that is not
    [None] is logged with its value, and any other field leaves no trace. *)
Theorem emit_payload_allowlisted event level fields k v :
  NoDup (map fst fields) ->
  let p := emit_payload event level fields in
  NoDup (dict_keys p) /\ StronglySorted (fun a b => cmp_le by_key a b = true) p /\
  ((k, v) ∈ p ->
     (k ∈ SAFE_LOG_FIELDS /\ (k, v) ∈ fields /\ v <> LNone) \/ k ∈ BASE_LOG_FIELDS) /\
  (k ∈ SAFE_LOG_FIELDS -> v <> LNone -> (k, v) ∈ fields -> (k, v) ∈ p).
Proof.
  intros Hf p.
  set (base := [(py "timestamp", LNow); (py "level", LStr level); (py "event", LStr event)]).
  assert (Hb : NoDup (dict_keys base)) by (by apply all_distinct_true).
  assert (Hp : p ≡ₚ fold_left add_field fields base) by (unfold p, emit_payload; apply py_sorted_perm).
  assert (Hk : NoDup (dict_keys (fold_left add_field fields base))) by (by apply add_fields_nodup).
  split; [unfold dict_keys in *; by rewrite Hp|]. split; [apply py_sorted_sorted, _|]. rewrite Hp. split.
  - intros Hin. apply (dict_get_nodup _ _ _ Hk) in Hin. rewrite add_fields_get in Hin by done.
    destruct (dict_get fields k) as [v'|] eqn:E.
    + case_decide as D; [left|right].
      * inv_result. apply dict_get_some_in in E. tauto.
      * apply dict_get_some_in, (list_elem_of_fmap_2 fst) in Hin. exact Hin.
    + right. apply dict_get_some_in, (list_elem_of_fmap_2 fst) in Hin. exact Hin.
  - intros Hs Hv Hin. apply dict_get_some_in. rewrite add_fields_get by done.
    rewrite (dict_get_nodup fields k v) by done. by rewrite decide_True.
Qed.

Lemma emit_payload_allowlisted_witness :
  let fields := [(py "model", LStr (py "m")); (py "prompt", LStr (py "secret"))] in
  NoDup (map fst fields) /\
  (forall v, (py "prompt", v) ∉ emit_payload (py "e") (py "info") fields).
Proof.
  intros fields. assert (Hn : NoDup (map fst fields)) by (by apply all_distinct_true).
  split; [exact Hn|]. intros v Hin.
  destruct (emit_payload_allowlisted (py "e") (py "info") fields (py "prompt") v Hn) as (_ & _ & H & _).
  destruct (H Hin) as [[Hs _]|Hs].
  - apply (bool_decide_eq_true_2 (py "prompt" ∈ SAFE_LOG_FIELDS)) in Hs. vm_compute in Hs. discriminate Hs.
  - apply (bool_decide_eq_true_2 (py "prompt" ∈ BASE_LOG_FIELDS)) in Hs. vm_compute in Hs. discriminate Hs.
Defined.
