(* ===== verification/Telemetry.v ===== *)
(** * Telemetry contracts ([telemetry/contracts.py])

    The rows the services write: one per inference, one per validated adaptive
    execution, one per chat.  Identifiers and creation times are taken from the
    environment when a row is built ([uuid4()], [now(utc)] in microseconds). *)
From S2P Require Import Prelude PyStr PyFloat PyDecimal Schemas Errors Json Validation PyUuid.

Record TelemetryEvent := mk_TelemetryEvent {
  te_request_id : pystr;
  te_model_id : pystr;
  te_provider : pystr;
  te_success : bool;
  te_latency_ms : float;
  te_max_output_tokens : Z;
  te_temperature : float;
  te_prompt_characters : Z;
  te_system_prompt_characters : Z;
  te_input_tokens : option Z;
  te_output_tokens : option Z;
  te_estimated_cost_usd : option decimal;
  te_error_category : option pystr;
  te_id : uuid;
  te_created_at : Z
}.

Record ValidationTelemetry := mk_ValidationTelemetry {
  vt_status : ValidationStatus;
  vt_failure_codes : list ValidationFailureCode;
  vt_validator_version : pystr;
  vt_duration_ms : float
}.

(** [max_length=16], the literal version and [ge=0, allow_inf_nan=False] *)
Definition ValidationTelemetry_ok (t : ValidationTelemetry) : bool :=
  Nat.leb (length (vt_failure_codes t)) MAX_FAILURES &&
  bool_decide (vt_validator_version t = VALIDATOR_VERSION) && nonneg_finite (vt_duration_ms t).

(** [ValidationTelemetry.from_result] *)
Definition from_result (r : ValidationResult) : result exn ValidationTelemetry :=
  let t := mk_ValidationTelemetry (vr_status r) (map vf_code (vr_failures r)) (vr_validator_version r)
             (vr_duration_ms r) in
  _ ← validated (check (ValidationTelemetry_ok t) field_error);
  Ok t.

Inductive AdaptiveTerminalOutcome :=
| AO_RETURNED | AO_VALIDATION_FAILED | AO_PROVIDER_FAILURE | AO_DEADLINE_EXCEEDED.

#[export] Instance AdaptiveTerminalOutcome_eq_dec : EqDecision AdaptiveTerminalOutcome.
Proof. solve_decision. Defined.

Definition AdaptiveTerminalOutcome_value (o : AdaptiveTerminalOutcome) : pystr :=
  match o with
  | AO_RETURNED => py "returned" | AO_VALIDATION_FAILED => py "validation_failed"
  | AO_PROVIDER_FAILURE => py "provider_failure" | AO_DEADLINE_EXCEEDED => py "deadline_exceeded"
  end.

Record AdaptiveExecutionTelemetry := mk_AdaptiveExecutionTelemetry {
  ax_id : uuid;
  ax_request_id : pystr;
  ax_initial_routed_model_id : pystr;
  ax_returned_model_id : option pystr;
  ax_attempt_count : Z;
  ax_escalated : bool;
  ax_validation_outcome : ValidationStatus;
  ax_terminal_outcome : AdaptiveTerminalOutcome;
  ax_cumulative_known_cost_usd : decimal;
  ax_cost_complete : bool;
  ax_cumulative_latency_ms : float;
  ax_validator_version : option pystr;
  ax_validation_duration_ms : float;
  ax_failure_codes : list ValidationFailureCode;
  ax_created_at : Z
}.

Definition AdaptiveExecutionTelemetry_ok (e : AdaptiveExecutionTelemetry) : bool :=
  (Nat.leb 1 (length (ax_request_id e)) && Nat.leb (length (ax_request_id e)) 128) &&
  Nat.leb 1 (length (ax_initial_routed_model_id e)) &&
  match ax_returned_model_id e with Some m => Nat.leb 1 (length m) | None => true end &&
  ((0 <? ax_attempt_count e)%Z && (ax_attempt_count e <=? 3)%Z) &&
  d_nonneg (ax_cumulative_known_cost_usd e) && nonneg_finite (ax_cumulative_latency_ms e) &&
  match ax_validator_version e with Some v => Nat.leb (length v) 64 | None => true end &&
  nonneg_finite (ax_validation_duration_ms e) && Nat.leb (length (ax_failure_codes e)) MAX_FAILURES.

Inductive ChatExecutionMode := CM_DIRECT | CM_ADAPTIVE.

Inductive ChatActivityOutcome :=
| CO_RETURNED | CO_PROVIDER_FAILURE | CO_VALIDATION_FAILED | CO_DEADLINE_EXCEEDED.

#[export] Instance ChatExecutionMode_eq_dec : EqDecision ChatExecutionMode.
Proof. solve_decision. Defined.
#[export] Instance ChatActivityOutcome_eq_dec : EqDecision ChatActivityOutcome.
Proof. solve_decision. Defined.

Record ChatActivityRecord := mk_ChatActivityRecord {
  ca_id : uuid;
  ca_request_id : pystr;
  ca_execution_mode : ChatExecutionMode;
  ca_category : option pystr;
  ca_category_source_manual : bool;
  ca_initial_model_id : option pystr;
  ca_final_model_id : option pystr;
  ca_provider : option pystr;
  ca_routing_threshold_satisfied : option bool;
  ca_routing_fallback_used : option bool;
  ca_attempt_count : option Z;
  ca_escalated : option bool;
  ca_validation_outcome : option pystr;
  ca_outcome : ChatActivityOutcome;
  ca_error_category : option pystr;
  ca_input_tokens : option Z;
  ca_output_tokens : option Z;
  ca_latency_ms : option float;
  ca_estimated_cost_usd : option decimal;
  ca_cost_complete : bool;
  ca_created_at : Z
}.

Definition opt_ok {A : Type} (p : A -> bool) (o : option A) : bool :=
  match o with Some a => p a | None => true end.

Definition ChatActivityRecord_ok (c : ChatActivityRecord) : bool :=
  (Nat.leb 1 (length (ca_request_id c)) && Nat.leb (length (ca_request_id c)) 128) &&
  opt_ok (fun s => Nat.leb (length s) 64) (ca_category c) &&
  opt_ok Identifier_ok (ca_initial_model_id c) && opt_ok Identifier_ok (ca_final_model_id c) &&
  opt_ok Identifier_ok (ca_provider c) &&
  opt_ok (fun n => (0 <? n)%Z && (n <=? 3)%Z) (ca_attempt_count c) &&
  opt_ok (fun s => Nat.leb (length s) 32) (ca_validation_outcome c) &&
  opt_ok (fun s => Nat.leb (length s) 64) (ca_error_category c) &&
  opt_ok (fun n => (0 <=? n)%Z) (ca_input_tokens c) && opt_ok (fun n => (0 <=? n)%Z) (ca_output_tokens c) &&
  opt_ok nonneg_finite (ca_latency_ms c) && opt_ok d_nonneg (ca_estimated_cost_usd c).

Inductive telemetry_row :=
| RowInference (e : TelemetryEvent)
| RowAdaptive (e : AdaptiveExecutionTelemetry)
| RowChat (e : ChatActivityRecord).
