(* ===== verification/Effects.v ===== *)
(** * Effects

    The services read clocks, create identifiers, call adapters, write
    telemetry and record observations.  [world] is what they leave behind;
    [Env] is what they find: every reading is an oracle indexed by a tick that
    advances at each reading, so nothing is assumed about it.  [M] is the
    state and exception monad the asynchronous methods are translated to. *)
From S2P Require Import Prelude PyStr PyFloat PyDecimal Schemas Errors Deadline Validation Observability PyUuid Telemetry.

(** What an adapter method returns: a response or some other object. *)
Inductive provider_result := PR_response (r : InferenceResponse) | PR_other.

(** An adapter of [providers/base.py]; [generate_with_timeout] is optional. *)
Record adapter := mk_adapter {
  ad_generate : nat -> InferenceRequest -> result exn provider_result;
  ad_generate_with_timeout : option (nat -> InferenceRequest -> float -> result exn provider_result)
}.

(** A factory of the resolver; building an adapter may raise. *)
Definition factory : Type := ModelConfig -> result exn adapter.

(** One call of an adapter: the configured model and the request. *)
Record provider_call := mk_provider_call {
  pc_model_id : pystr;
  pc_request : InferenceRequest
}.

Class Env := {
  monotonic : nat -> float;
  perf_counter : nat -> float;
  loop_time : nat -> float;
  uuid4 : nat -> uuid;
  utc_now : nat -> Z;
  telemetry_record : nat -> telemetry_row -> result exn unit
}.

Record world := mk_world {
  w_tick : nat;
  w_calls : list provider_call;
  w_writes : list (telemetry_row * bool);
  w_obs : obs
}.

Definition initial_world : world := mk_world 0 [] [] no_obs.

Definition M (A : Type) : Type := world -> result exn A * world.

#[export] Instance M_ret : MRet M := fun A a w => (Ok a, w).
#[export] Instance M_bind : MBind M := fun A B f m w =>
  match m w with
  | (Ok a, w') => f a w'
  | (Raise e, w') => (Raise e, w')
  end.

Definition raise {A : Type} (e : exn) : M A := fun w => (Raise e, w).

(** A computation without effects. *)
Definition lift {A : Type} (r : result exn A) : M A := fun w => (r, w).

(** [try: m; except ... as e: h e] for the exceptions of interest. *)
Definition catch {A : Type} (m : M A) (h : exn -> M A) : M A := fun w =>
  match m w with
  | (Ok a, w') => (Ok a, w')
  | (Raise e, w') => h e w'
  end.

(** The outcome of [m] as a value; nothing is lost. *)
Definition outcome {A : Type} (m : M A) : M (result exn A) := fun w =>
  let '(r, w') := m w in (Ok r, w').

Section Readings.
Context {E : Env}.

Definition tick : M nat := fun w =>
  (Ok (w_tick w), mk_world (S (w_tick w)) (w_calls w) (w_writes w) (w_obs w)).

Definition read_monotonic : M float := t ← tick; mret (monotonic t).
Definition read_perf : M float := t ← tick; mret (perf_counter t).
Definition read_loop_time : M float := t ← tick; mret (loop_time t).
Definition read_uuid : M uuid := t ← tick; mret (uuid4 t).
Definition read_now : M Z := t ← tick; mret (utc_now t).

Definition observe (f : obs -> obs) : M unit := fun w =>
  (Ok tt, mk_world (w_tick w) (w_calls w) (w_writes w) (f (w_obs w))).

(** A write of a telemetry row and whether it succeeded. *)
Definition write_row (row : telemetry_row) : M unit := fun w =>
  let r := telemetry_record (w_tick w) row in
  (r, mk_world (S (w_tick w)) (w_calls w) (w_writes w ++ [(row, is_ok r)]) (w_obs w)).

(** A call of an adapter method. *)
Definition call_adapter (m : ModelConfig) (rq : InferenceRequest)
    (f : nat -> result exn provider_result) : M provider_result := fun w =>
  (f (w_tick w), mk_world (S (w_tick w)) (w_calls w ++ [mk_provider_call (model_id m) rq])
                   (w_writes w) (w_obs w)).

(** [deadline.expired()] and [deadline.constrain_timeout(t)] on the clock. *)
Definition deadline_expired (d : RequestDeadline) : M bool :=
  now ← read_monotonic; mret (expired d now).

Definition deadline_remaining (d : RequestDeadline) : M float :=
  now ← read_monotonic; mret (remaining_seconds d now).

Definition deadline_constrain (d : RequestDeadline) (t : float) : M (option float) :=
  now ← read_monotonic; mret (constrain_timeout d now t).
End Readings.

(** ** Reasoning

    [post m w Q]: running [m] in [w] ends with an outcome and a world in [Q]. *)
Definition post {A : Type} (m : M A) (w : world) (Q : result exn A -> world -> Prop) : Prop :=
  Q (m w).1 (m w).2.

Lemma post_mono {A} (m : M A) w (Q Q' : result exn A -> world -> Prop) :
  post m w Q -> (forall r w', Q r w' -> Q' r w') -> post m w Q'.
Proof. unfold post. auto. Qed.

Lemma post_ret {A} (a : A) w (Q : result exn A -> world -> Prop) : Q (Ok a) w -> post (mret a) w Q.
Proof. done. Qed.

Lemma post_raise {A} e w (Q : result exn A -> world -> Prop) : Q (Raise e) w -> post (raise e) w Q.
Proof. done. Qed.

Lemma post_lift {A} (r : result exn A) w (Q : result exn A -> world -> Prop) : Q r w -> post (lift r) w Q.
Proof. done. Qed.

Lemma post_bind {A B} (m : M A) (f : A -> M B) w (Q : result exn B -> world -> Prop) :
  post m w (fun r w' => match r with
                        | Ok a => post (f a) w' Q
                        | Raise e => Q (Raise e) w'
                        end) ->
  post (x ← m; f x) w Q.
Proof. unfold post, mbind, M_bind. destruct (m w) as [[a|e] w']; auto. Qed.

Lemma post_mret {A B} (a : A) (f : A -> M B) w (Q : result exn B -> world -> Prop) :
  post (f a) w Q -> post (x ← mret a; f x) w Q.
Proof. done. Qed.

Lemma post_catch {A} (m : M A) h w (Q : result exn A -> world -> Prop) :
  post m w (fun r w' => match r with
                        | Ok a => Q (Ok a) w'
                        | Raise e => post (h e) w' Q
                        end) ->
  post (catch m h) w Q.
Proof. unfold post, catch. destruct (m w) as [[a|e] w']; auto. Qed.

Lemma post_outcome {A} (m : M A) w (Q : result exn (result exn A) -> world -> Prop) :
  post m w (fun r w' => Q (Ok r) w') -> post (outcome m) w Q.
Proof. unfold post, outcome. by destruct (m w) as [r w']. Qed.

(** The parts of the world that only telemetry and the clocks leave alone. *)
Definition same_calls (w w' : world) : Prop := w_calls w' = w_calls w.
Definition same_writes (w w' : world) : Prop := w_writes w' = w_writes w.
Definition quiet (w w' : world) : Prop := same_calls w w' /\ same_writes w w'.

Lemma quiet_refl w : quiet w w.
Proof. done. Qed.

Lemma quiet_trans w1 w2 w3 : quiet w1 w2 -> quiet w2 w3 -> quiet w1 w3.
Proof. unfold quiet, same_calls, same_writes. intuition congruence. Qed.

#[export] Hint Resolve quiet_refl : gateway.

Section QuietReadings.
Context {E : Env}.

(** A reading never raises and changes neither calls nor writes. *)
Definition reading {A : Type} (m : M A) : Prop :=
  forall w, exists a w', m w = (Ok a, w') /\ quiet w w'.

Lemma reading_bind {A B} (m : M A) (f : A -> M B) :
  reading m -> (forall a, reading (f a)) -> reading (x ← m; f x).
Proof.
  intros Hm Hf w. destruct (Hm w) as (a & w1 & E1 & Q1). destruct (Hf a w1) as (b & w2 & E2 & Q2).
  exists b, w2. unfold mbind, M_bind. rewrite E1, E2. split; [done|by apply (quiet_trans w w1)].
Qed.

Lemma reading_ret {A} (a : A) : reading (mret a).
Proof. intros w. by exists a, w. Qed.

Lemma reading_tick : reading tick.
Proof. intros w. by eexists _, _. Qed.

Lemma reading_observe f : reading (observe f).
Proof. intros w. by eexists _, _. Qed.

Lemma reading_tick_ret {A} (f : nat -> A) : reading (t ← tick; mret (f t)).
Proof. apply reading_bind; [apply reading_tick|intros; apply reading_ret]. Qed.

Lemma reading_monotonic : reading read_monotonic.
Proof. apply reading_tick_ret. Qed.
Lemma reading_perf : reading read_perf.
Proof. apply reading_tick_ret. Qed.
Lemma reading_loop_time : reading read_loop_time.
Proof. apply reading_tick_ret. Qed.
Lemma reading_uuid : reading read_uuid.
Proof. apply reading_tick_ret. Qed.
Lemma reading_now : reading read_now.
Proof. apply reading_tick_ret. Qed.
Lemma reading_expired d : reading (deadline_expired d).
Proof. apply reading_bind; [apply reading_monotonic|intros; apply reading_ret]. Qed.
Lemma reading_remaining d : reading (deadline_remaining d).
Proof. apply reading_bind; [apply reading_monotonic|intros; apply reading_ret]. Qed.
Lemma reading_constrain d t : reading (deadline_constrain d t).
Proof. apply reading_bind; [apply reading_monotonic|intros; apply reading_ret]. Qed.

Lemma post_reading {A B} (m : M A) (f : A -> M B) w (Q : result exn B -> world -> Prop) :
  reading m -> (forall a w', quiet w w' -> post (f a) w' Q) -> post (x ← m; f x) w Q.
Proof.
  intros Hm H. apply post_bind. unfold post at 1. destruct (Hm w) as (a & w' & E1 & Q1). rewrite E1. cbn [fst snd]. by apply H.
Qed.
End QuietReadings.

Create HintDb readings.
#[export] Hint Resolve reading_bind reading_ret reading_tick reading_observe reading_monotonic reading_perf
  reading_loop_time reading_uuid reading_now reading_expired reading_remaining reading_constrain : readings.

(** Runs the next reading of a sequence, keeping that the world stayed quiet. *)
Ltac read_step :=
  apply post_reading; [solve [eauto with readings]|intros].

(** A reading that is used for its value. *)
Lemma post_tick {E : Env} {A B} (g : nat -> A) (f : A -> M B) w (Q : result exn B -> world -> Prop) :
  (forall w', quiet w w' -> w_tick w' = S (w_tick w) -> post (f (g (w_tick w))) w' Q) ->
  post (x ← (t ← tick; mret (g t)); f x) w Q.
Proof. intros H. apply post_bind, post_bind. unfold post at 1. cbn [tick fst snd]. apply post_ret. by apply H. Qed.

(** ** Time moves forward *)

Section Forward.
Context {E : Env}.

Definition forward {A : Type} (m : M A) : Prop := forall w, (w_tick w <= w_tick (m w).2)%nat.

Lemma post_forward {A} (m : M A) w (Q : result exn A -> world -> Prop) : post m w Q -> forward m ->
  post m w (fun r w' => Q r w' /\ (w_tick w <= w_tick w')%nat).
Proof. intros H F. split; [exact H|apply F]. Qed.

Lemma forward_bind {A B} (m : M A) (f : A -> M B) : forward m -> (forall a, forward (f a)) -> forward (x ← m; f x).
Proof.
  intros Hm Hf w. specialize (Hm w). unfold mbind, M_bind. destruct (m w) as [[a|e] w1]; [|done].
  specialize (Hf a w1). cbn [snd] in Hm. lia.
Qed.

Lemma forward_catch {A} (m : M A) h : forward m -> (forall e, forward (h e)) -> forward (catch m h).
Proof.
  intros Hm Hh w. specialize (Hm w). unfold catch. destruct (m w) as [[a|e] w1]; [done|].
  specialize (Hh e w1). cbn [snd] in Hm. lia.
Qed.

Lemma forward_outcome {A} (m : M A) : forward m -> forward (outcome m).
Proof. intros Hm w. specialize (Hm w). unfold outcome. by destruct (m w). Qed.

Lemma forward_ret {A} (a : A) : forward (mret a).
Proof. intros w. done. Qed.
Lemma forward_raise {A} e : forward (raise (A := A) e).
Proof. intros w. done. Qed.
Lemma forward_tick : forward tick.
Proof. intros w. cbn. lia. Qed.
Lemma forward_observe f : forward (observe f).
Proof. intros w. done. Qed.
Lemma forward_call m rq f : forward (call_adapter m rq f).
Proof. intros w. cbn. lia. Qed.
End Forward.

Create HintDb forward.
#[export] Hint Resolve forward_bind forward_catch forward_outcome forward_ret forward_raise forward_tick forward_observe
  forward_call : forward.

(** ** Which rows a computation writes *)

Section Writes.
Context {E : Env} (P : telemetry_row -> Prop).

(** [w'] has the rows of [w] and then only rows of [P]. *)
Definition extends (w w' : world) : Prop :=
  exists l, w_writes w' = w_writes w ++ l /\ Forall (fun p => P p.1) l.

Definition writes_only {A : Type} (m : M A) : Prop := forall w, post m w (fun _ w' => extends w w').

Lemma extends_refl w w' : same_writes w w' -> extends w w'.
Proof. intros H. exists []. by rewrite app_nil_r. Qed.

Lemma extends_trans w1 w2 w3 : extends w1 w2 -> extends w2 w3 -> extends w1 w3.
Proof.
  intros (l & Hl & Fl) (k & Hk & Fk). exists (l ++ k). split; [by rewrite Hk, Hl, app_assoc|].
  by apply Forall_app.
Qed.

Lemma writes_bind {A B} (m : M A) (f : A -> M B) :
  writes_only m -> (forall a, writes_only (f a)) -> writes_only (x ← m; f x).
Proof.
  intros Hm Hf w. apply post_bind. eapply post_mono; [apply Hm|]. intros [a|e] w1 H1; [|done].
  eapply post_mono; [apply Hf|]. intros r w2 H2. by apply (extends_trans w w1).
Qed.

Lemma writes_outcome {A} (m : M A) : writes_only m -> writes_only (outcome m).
Proof. intros H w. apply post_outcome. apply H. Qed.

Lemma writes_reading {A} (m : M A) : reading m -> writes_only m.
Proof.
  intros H w. destruct (H w) as (a & w' & Em & _ & Q). unfold post. rewrite Em. by apply extends_refl.
Qed.

Lemma writes_ret {A} (a : A) : writes_only (mret a).
Proof. intros w. by apply extends_refl. Qed.
Lemma writes_raise {A} e : writes_only (raise (A := A) e).
Proof. intros w. by apply extends_refl. Qed.
Lemma writes_lift {A} (r : result exn A) : writes_only (lift r).
Proof. intros w. by apply extends_refl. Qed.
Lemma writes_observe f : writes_only (observe f).
Proof. intros w. by apply extends_refl. Qed.

Lemma writes_row row : P row -> writes_only (write_row row).
Proof. intros H w. eexists. split; [reflexivity|]. by repeat constructor. Qed.
End Writes.

Create HintDb writes.
#[export] Hint Resolve writes_bind writes_outcome writes_ret writes_raise writes_lift writes_observe : writes.
#[export] Hint Resolve reading_loop_time reading_perf reading_expired reading_uuid reading_now reading_tick
  reading_monotonic reading_constrain : writes.

(** An environment where time stands still and every write succeeds. *)
Definition still_env : Env :=
  {| monotonic := fun _ => f_zero; perf_counter := fun _ => f_zero; loop_time := fun _ => f_zero;
     uuid4 := N.of_nat; utc_now := Z.of_nat; telemetry_record := fun _ _ => Ok tt |}.
