(* ===== verification/Inference.v ===== *)
(** * Inference service ([application/service.py])

    One inference attempt on an explicitly chosen model: lookup, adapter call
    under the deadline, translation of adapter failures, the provider metrics
    and exactly one telemetry row, written on a best-effort basis. *)
From S2P Require Import Prelude PyStr PyFloat PyDecimal Schemas Errors Registry PyNum Deadline Validation Observability PyUuid Telemetry Effects.

(** A telemetry repository; [None] methods are absent ([getattr(..., None)]). *)
Record telemetry_repository := mk_telemetry_repository {
  tr_adaptive : bool;
  tr_chat : bool
}.

Record InferenceService := mk_InferenceService {
  sv_registry : ModelRegistry.t;
  sv_resolver : ProviderResolver.t factory;
  sv_telemetry : option telemetry_repository;
  sv_telemetry_timeout : float;
  sv_inference_deadline_seconds : float
}.

(** [InferenceService.__init__] *)
Definition new_InferenceService (registry : ModelRegistry.t) (resolver : ProviderResolver.t factory)
    (telemetry : option telemetry_repository) (telemetry_timeout deadline_seconds : float) :
    result exn InferenceService :=
  if f_leb deadline_seconds f_zero then Raise (Exn C_ValueError)
  else Ok (mk_InferenceService registry resolver telemetry telemetry_timeout deadline_seconds).

(** [list_models] *)
Definition list_models (s : InferenceService) : list ModelConfig :=
  List.filter (fun m => ProviderResolver.supports (sv_resolver s) (provider m))
    (ModelRegistry.list_enabled_models (sv_registry s)).

Definition EXPLICIT : pystr := py "explicit".
Definition ADAPTIVE : pystr := py "adaptive".

(** The exceptions of the two [except] clauses. *)
Definition reported (e : exn) : bool :=
  isinstance e C_ContextLimitError || isinstance e C_InferenceDeadlineExceededError ||
  isinstance e C_ModelDisabledError || isinstance e C_ProviderUnavailableError ||
  isinstance e C_ProviderFailureError.

(** The category of [generate]: the first class of its dictionary, or the
    gateway's own. *)
Definition telemetry_category (e : exn) : pystr :=
  match gateway_category e with
  | Some c => GatewayErrorCategory_value c
  | None =>
      if isinstance e C_ContextLimitError then py "context_limit_exceeded"
      else if isinstance e C_ModelDisabledError then py "model_disabled"
      else if isinstance e C_ProviderUnavailableError then py "provider_unavailable"
      else if isinstance e C_ProviderFailureError then py "provider_failure"
      else py "inference_deadline_exceeded"
  end.

(** The category of [_generate]. *)
Definition attempt_category (e : exn) : pystr :=
  match gateway_category e with
  | Some c => GatewayErrorCategory_value c
  | None =>
      if isinstance e C_InferenceDeadlineExceededError then py "inference_deadline_exceeded"
      else if isinstance e C_ContextLimitError then py "context_limit_exceeded"
      else if isinstance e C_ModelDisabledError then py "model_disabled"
      else if isinstance e C_ProviderUnavailableError then py "provider_unavailable"
      else py "provider_failure"
  end.

(** The shape that [_record], [_record_execution] and the chat service share: a
    write of one row within the remaining time, on a best-effort basis.
    [configured] says that the repository has the method, [clock] is the clock
    that measures the write. *)
Definition best_effort_write {E : Env} (configured : bool) (max_timeout : float) (clock : M float)
    (record_type request_id : pystr) (row : telemetry_row) (d : RequestDeadline) : M unit :=
  if configured then
    timeout ← deadline_constrain d max_timeout;
    match timeout with
    | None => observe (telemetry_write record_type (py "skipped_deadline") None)
    | Some _ =>
        started ← clock;
        r ← outcome (write_row row);
        match r with
        | Ok _ =>
            now ← clock;
            observe (telemetry_write record_type (py "success") (Some (f_sub now started)))
        | Raise e =>
            if is_exception e then
              now ← clock;
              let duration := f_sub now started in
              _ ← observe (telemetry_write record_type (py "failure") (Some duration));
              observe (telemetry_write_failed request_id record_type duration)
            else raise e
        end
    end
  else observe (telemetry_write record_type (py "skipped_unconfigured") None).

Section Service.
Context {E : Env} (s : InferenceService).

(** [new_deadline] *)
Definition new_deadline : M RequestDeadline :=
  now ← read_monotonic; lift (new_RequestDeadline (PyFloat (sv_inference_deadline_seconds s)) now).

(** [deadline or self.new_deadline()] *)
Definition deadline_or_new (d : option RequestDeadline) : M RequestDeadline :=
  match d with Some d => mret d | None => new_deadline end.

(** [_record] *)
Definition record_inference (event : TelemetryEvent) (d : RequestDeadline) : M unit :=
  best_effort_write (match sv_telemetry s with Some _ => true | None => false end)
    (sv_telemetry_timeout s) read_perf (py "inference") (te_request_id event) (RowInference event) d.

(** The adapter method that is called: with the timeout when it has one. *)
Definition adapter_method (a : adapter) (request : InferenceRequest) (timeout : float) :
    nat -> result exn provider_result :=
  match ad_generate_with_timeout a with
  | None => fun t => ad_generate a t request
  | Some f => fun t => f t request timeout
  end.

(** The body of the [try] of [_generate]. *)
Definition attempt (m : ModelConfig) (a : adapter) (request : InferenceRequest) (d : RequestDeadline) :
    M InferenceResponse :=
  timeout ← deadline_remaining d;
  if f_leb timeout f_zero then raise (Exn C_InferenceDeadlineExceededError)
  else
    response ← catch (call_adapter m request (adapter_method a request timeout))
      (fun e =>
         if isinstance e C_TimeoutError then
           late ← deadline_expired d;
           if (late : bool) then raise (Exn C_InferenceDeadlineExceededError) else raise e
         else raise e);
    match response with
    | PR_other => raise (Exn C_TypeError)
    | PR_response r =>
        if negb (bool_decide (rs_model_id r = model_id m)) || negb (bool_decide (rs_provider r = provider m))
        then raise (Exn C_ValueError) else mret r
    end.

(** The metrics of an attempt that ended with [e]. *)
Definition attempt_failed (m : ModelConfig) (request_mode request_id : pystr) (started now : float)
    (e : exn) : obs -> obs :=
  let duration := f_sub now started in
  if isinstance e C_CancelledError then
    provider_attempt (provider m) (model_id m) (py "cancelled") (py "cancelled") duration request_mode
      None request_id
  else if reported e then
    provider_attempt (provider m) (model_id m)
      (match rejected_completion e with Some _ => py "rejected" | None => py "error" end)
      (attempt_category e) duration request_mode (estimated_cost_usd <$> rejected_completion e) request_id
  else
    provider_attempt (provider m) (model_id m) (py "error") (py "provider_failure") duration request_mode
      None request_id.

(** What [_generate] raises for an exception of the attempt. *)
Definition attempt_error (e : exn) : exn :=
  if isinstance e C_CancelledError || reported e then e
  else if is_exception e then Exn C_ProviderFailureError
  else e.

(** What resolving raises: the two errors of its own, anything else translated. *)
Definition resolve_error (e : exn) : exn :=
  if isinstance e C_ProviderUnavailableError || isinstance e C_ProviderFailureError then e
  else if is_exception e then Exn C_ProviderFailureError
  else e.

(** [self.resolver.resolve(model)]: the factory is looked up and applied. *)
Definition resolve_adapter (m : ModelConfig) : result exn adapter :=
  f ← ProviderResolver.resolve (sv_resolver s) m; f m.

(** [_generate] *)
Definition generate_inner (m : ModelConfig) (request : InferenceRequest) (d : RequestDeadline)
    (request_id request_mode : pystr) : M InferenceResponse :=
  if negb (enabled m) then raise (Exn C_ModelDisabledError)
  else
    match resolve_adapter m with
    | Raise e => raise (resolve_error e)
    | Ok a =>
        started ← read_perf;
        r ← outcome (attempt m a request d);
        match r with
        | Ok response =>
            now ← read_perf;
            _ ← observe (provider_attempt (provider m) (model_id m) (py "success") (py "none")
                           (f_sub now started) request_mode (Some (estimated_cost_usd response)) request_id);
            mret response
        | Raise e =>
            if is_exception e || isinstance e C_CancelledError then
              now ← read_perf;
              _ ← observe (attempt_failed m request_mode request_id started now e);
              raise (attempt_error e)
            else raise e
        end
    end.

(** The row of a failed and of a successful inference. *)
Definition failure_event (m : ModelConfig) (request : InferenceRequest) (request_id : pystr) (e : exn)
    (elapsed : float) (id : uuid) (now : Z) : TelemetryEvent :=
  let completion := rejected_completion e in
  mk_TelemetryEvent request_id (model_id m) (provider m) false
    (match completion with Some r => latency_ms r | None => f_mul elapsed (f_of_Z 1000) end)
    (rq_max_output_tokens request) (temperature request) (Z.of_nat (length (prompt request)))
    (Z.of_nat (length (default [] (system_prompt request))))
    (input_tokens <$> completion) (output_tokens <$> completion) (estimated_cost_usd <$> completion)
    (Some (telemetry_category e)) id now.

Definition success_event (request : InferenceRequest) (request_id : pystr) (r : InferenceResponse)
    (id : uuid) (now : Z) : TelemetryEvent :=
  mk_TelemetryEvent request_id (rs_model_id r) (rs_provider r) true (latency_ms r)
    (rq_max_output_tokens request) (temperature request) (Z.of_nat (length (prompt request)))
    (Z.of_nat (length (default [] (system_prompt request))))
    (Some (input_tokens r)) (Some (output_tokens r)) (Some (estimated_cost_usd r)) None id now.

(** [generate] *)
Definition generate (model_id : pystr) (request : InferenceRequest) (request_id : option pystr)
    (deadline : option RequestDeadline) (request_mode : pystr) : M InferenceResponse :=
  if negb (bool_decide (request_mode = EXPLICIT) || bool_decide (request_mode = ADAPTIVE))
  then raise (Exn C_ValueError)
  else
    d ← deadline_or_new deadline;
    late ← deadline_expired d;
    if (late : bool) then raise (Exn C_InferenceDeadlineExceededError)
    else
      m ← lift (ModelRegistry.get (sv_registry s) model_id);
      correlation_id ← match request_id with
                       | Some r => mret r
                       | None => u ← read_uuid; mret (uuid_str u)
                       end;
      started ← read_perf;
      r ← outcome (generate_inner m request d correlation_id request_mode);
      match r with
      | Raise e =>
          if reported e then
            elapsed ← match rejected_completion e with
                      | Some _ => mret f_zero
                      | None => now ← read_perf; mret (f_sub now started)
                      end;
            id ← read_uuid;
            created ← read_now;
            _ ← record_inference (failure_event m request correlation_id e elapsed id created) d;
            raise e
          else raise e
      | Ok response =>
          id ← read_uuid;
          created ← read_now;
          _ ← record_inference (success_event request correlation_id response id created) d;
          mret response
      end.
End Service.

(** ** Specifications of the parts *)

Section Facts.
Context {E : Env} (s : InferenceService).

(** Telemetry writes are not cancelled: they fail with ordinary exceptions. *)
Definition polite_telemetry : Prop :=
  forall t row e, telemetry_record t row = Raise e -> is_exception e = true.

(** What recording a row does: nothing, or one write of exactly that row. *)
Definition wrote (row : telemetry_row) (w w' : world) : Prop :=
  same_calls w w' /\ (same_writes w w' \/ exists ok, w_writes w' = w_writes w ++ [(row, ok)]).

Lemma post_write_row {A} row (f : result exn unit -> M A) w (Q : result exn A -> world -> Prop) :
  (forall r w', same_calls w w' -> w_writes w' = w_writes w ++ [(row, is_ok r)] ->
     (forall e, r = Raise e -> exists t, telemetry_record t row = Raise e) -> post (f r) w' Q) ->
  post (r ← outcome (write_row row); f r) w Q.
Proof.
  intros H. apply post_bind, post_outcome. unfold post at 1. cbn [write_row fst snd]. apply H; try done.
  intros e He. by exists (w_tick w).
Qed.

Lemma quiet_wrote row w w1 w2 : quiet w w1 -> wrote row w1 w2 -> wrote row w w2.
Proof.
  unfold quiet, wrote, same_calls, same_writes. intros [C W] [C' [W'|(ok & W')]]; (split; [congruence|]).
  - left. congruence.
  - right. exists ok. congruence.
Qed.

Lemma wrote_quiet row w w1 w2 : wrote row w w1 -> quiet w1 w2 -> wrote row w w2.
Proof.
  unfold quiet, wrote, same_calls, same_writes. intros [C [W|(ok & W)]] [C' W']; (split; [congruence|]).
  - left. congruence.
  - right. exists ok. congruence.
Qed.

Lemma observe_post f w (Q : result exn unit -> world -> Prop) :
  (forall w', quiet w w' -> Q (Ok tt) w') -> post (observe f) w Q.
Proof. intros H. apply H. done. Qed.

Lemma best_effort_write_spec configured mx clock rt rid row d w : reading clock ->
  post (best_effort_write configured mx clock rt rid row d) w (fun r w' =>
    wrote row w w' /\
    (r = Ok tt \/ exists t e, r = Raise e /\ is_exception e = false /\ telemetry_record t row = Raise e)).
Proof.
  intros Hc. unfold best_effort_write. destruct configured.
  2: { apply observe_post. intros w' Q. split; [|by left]. by apply (quiet_wrote _ w w'); [|split; [|left]]. }
  read_step. destruct a as [t|].
  2: { apply observe_post. intros w2 Q. split; [|by left].
       by apply (quiet_wrote _ w w2); [apply (quiet_trans w w')|split; [|left]]. }
  read_step. apply post_write_row. intros r w1 C W Hr.
  assert (Hw : wrote row w w1).
  { apply (quiet_wrote _ w w'0); [by apply (quiet_trans w w')|]. split; [done|right; by eexists]. }
  destruct r as [u|e].
  - read_step. apply observe_post. intros w3 Q3. split; [|by left].
    apply (wrote_quiet _ w w1); [done|]. by apply (quiet_trans w1 w'1).
  - destruct (is_exception e) eqn:Ee.
    + read_step. read_step. apply observe_post. intros w4 Q4. split; [|by left].
      apply (wrote_quiet _ w w1); [done|]. apply (quiet_trans w1 w'1); [done|by apply (quiet_trans w'1 w'2)].
    + apply post_raise. split; [done|]. right. destruct (Hr e eq_refl) as (t0 & Ht). by exists t0, e.
Qed.

Lemma record_inference_spec event d w :
  post (record_inference s event d) w (fun r w' =>
    wrote (RowInference event) w w' /\
    (r = Ok tt \/ exists t e, r = Raise e /\ is_exception e = false /\
                    telemetry_record t (RowInference event) = Raise e)).
Proof. apply best_effort_write_spec, reading_perf. Qed.

Lemma record_inference_polite event d w : polite_telemetry ->
  (record_inference s event d w).1 = Ok tt.
Proof.
  intros Hp. destruct (record_inference_spec event d w) as [_ [H|(t & e & H & He & Ht)]]; [done|].
  apply Hp in Ht. congruence.
Qed.

(** An attempt calls its adapter at most once. *)
Lemma attempt_spec m a rq d w :
  post (attempt m a rq d) w (fun r w' =>
    same_writes w w' /\
    match r with
    | Ok resp => w_calls w' = w_calls w ++ [mk_provider_call (model_id m) rq] /\
                 rs_model_id resp = model_id m /\ rs_provider resp = provider m
    | Raise e => same_calls w w' \/ w_calls w' = w_calls w ++ [mk_provider_call (model_id m) rq]
    end).
Proof.
  unfold attempt. apply post_reading; [apply reading_remaining|]. intros timeout w1 [C1 W1].
  destruct (f_leb timeout f_zero); [apply post_raise; split; [done|by left]|].
  apply post_bind, post_catch. unfold post at 1, call_adapter. cbn [fst snd].
  set (w2 := mk_world _ _ _ _).
  assert (C2 : w_calls w2 = w_calls w ++ [mk_provider_call (model_id m) rq]) by (cbn; by rewrite C1).
  assert (W2 : same_writes w w2) by done. clearbody w2.
  destruct (adapter_method a rq timeout (w_tick w1)) as [[r|]|e].
  - destruct (bool_decide (rs_model_id r = model_id m)) eqn:E1, (bool_decide (rs_provider r = provider m)) eqn:E2;
      cbn [negb orb]; try (apply post_raise; split; [done|by right]).
    bools. apply post_ret. done.
  - apply post_raise. split; [done|by right].
  - destruct (isinstance e C_TimeoutError); [|apply post_raise; split; [done|by right]].
    apply post_reading; [apply reading_expired|]. intros late w3 [C3 W3].
    assert (same_writes w w3 /\ w_calls w3 = w_calls w2) as [W4 C4].
    { split; [unfold same_writes in *; congruence|done]. }
    destruct late; apply post_raise; (split; [done|right; congruence]).
Qed.

(** Exceptions a caller of [_generate] sees. *)
Definition translated (e : exn) : Prop := reported e = true \/ is_exception e = false.

Lemma attempt_error_translated e : translated (attempt_error e).
Proof.
  unfold attempt_error, translated. destruct (isinstance e C_CancelledError) eqn:Ec; cbn [orb].
  - right. destruct e; try discriminate. destruct c; try discriminate; by vm_compute.
  - destruct (reported e) eqn:Er; [by left|]. destruct (is_exception e) eqn:Ee; [left; by vm_compute|by right].
Qed.

Lemma resolve_error_translated e : translated (resolve_error e).
Proof.
  unfold resolve_error, translated. destruct (isinstance e C_ProviderUnavailableError) eqn:E1; cbn [orb].
  - left. unfold reported. rewrite E1. by rewrite !orb_true_r.
  - destruct (isinstance e C_ProviderFailureError) eqn:E2.
    + left. unfold reported. rewrite E2. by rewrite !orb_true_r.
    + destruct (is_exception e) eqn:Ee; [left; by vm_compute|by right].
Qed.

Lemma generate_inner_spec m rq d rid mode w :
  post (generate_inner s m rq d rid mode) w (fun r w' =>
    same_writes w w' /\
    match r with
    | Ok resp => w_calls w' = w_calls w ++ [mk_provider_call (model_id m) rq] /\
                 rs_model_id resp = model_id m /\ rs_provider resp = provider m /\ enabled m = true
    | Raise e => translated e /\
                 (same_calls w w' \/ w_calls w' = w_calls w ++ [mk_provider_call (model_id m) rq])
    end).
Proof.
  unfold generate_inner. destruct (enabled m); cbn [negb].
  2: { apply post_raise. split; [done|]. split; [left; by vm_compute|by left]. }
  destruct (resolve_adapter s m) as [a|e].
  2: { apply post_raise. split; [done|]. split; [apply resolve_error_translated|by left]. }
  apply post_reading; [apply reading_perf|]. intros started w1 [C1 W1].
  apply post_bind, post_outcome. eapply post_mono; [apply attempt_spec|]. intros r w2 [W2 H]. cbv beta iota.
  unfold same_writes, same_calls in *.
  destruct r as [resp|e].
  - destruct H as (C2 & Hm & Hp).
    apply post_reading; [apply reading_perf|]. intros now w3 [C3 W3].
    apply post_reading; [apply reading_observe|]. intros u w4 [C4 W4]. apply post_ret.
    unfold same_writes, same_calls in *. repeat split; congruence.
  - assert (Hc : w_calls w2 = w_calls w \/ w_calls w2 = w_calls w ++ [mk_provider_call (model_id m) rq])
      by (destruct H; [left|right]; congruence).
    destruct (is_exception e || isinstance e C_CancelledError) eqn:Ee.
    + apply post_reading; [apply reading_perf|]. intros now w3 [C3 W3].
      apply post_reading; [apply reading_observe|]. intros u w4 [C4 W4]. apply post_raise.
      unfold same_writes, same_calls in *. split; [congruence|]. split; [apply attempt_error_translated|].
      destruct Hc; [left|right]; congruence.
    + apply post_raise. bools. split; [congruence|]. split; [by right|done].
Qed.
End Facts.

Section GenerateFacts.
Context {E : Env} (s : InferenceService).

(** At most one row was written, and it is one of [rows]. *)
Definition wrote_one (rows : telemetry_row -> Prop) (w w' : world) : Prop :=
  same_writes w w' \/ exists row ok, rows row /\ w_writes w' = w_writes w ++ [(row, ok)].

Lemma record_then {A} event d w0 w (out : result exn A) (Q : result exn A -> world -> Prop) :
  same_writes w0 w ->
  (forall r w', (r = out \/ exists e, r = Raise e /\ is_exception e = false /\
                   exists t row, telemetry_record t row = Raise e) ->
     same_calls w w' -> wrote_one (eq (RowInference event)) w0 w' -> Q r w') ->
  post (_ ← record_inference s event d; lift out) w Q.
Proof.
  intros W H. apply post_bind. eapply post_mono; [apply record_inference_spec|].
  intros r w' [[C W'] Hr]. cbv beta iota.
  assert (Ho : wrote_one (eq (RowInference event)) w0 w').
  { unfold wrote_one, same_writes in *. destruct W' as [W'|(ok & W')]; [left; congruence|right].
    exists (RowInference event), ok. split; [done|congruence]. }
  destruct Hr as [->|(t & e & -> & He & Ht)].
  - apply post_lift. apply H; auto.
  - apply H; auto. right. exists e. eauto.
Qed.

Lemma lift_ret {A} (a : A) : lift (Ok a) = mret a.
Proof. done. Qed.
Lemma lift_raise {A} e : lift (Raise e) = raise (A := A) e.
Proof. done. Qed.

(** ** What a row must say *)

(** The request's own figures. *)
Definition request_recorded (rid : pystr) (rq : InferenceRequest) (ev : TelemetryEvent) : Prop :=
  te_request_id ev = rid /\ te_max_output_tokens ev = rq_max_output_tokens rq /\ te_temperature ev = temperature rq /\
  te_prompt_characters ev = Z.of_nat (length (prompt rq)) /\
  te_system_prompt_characters ev = match system_prompt rq with Some p => Z.of_nat (length p) | None => 0%Z end.

(** Tokens and cost: those of a completion, or none. *)
Definition usage_recorded (completion : option InferenceResponse) (ev : TelemetryEvent) : Prop :=
  match completion with
  | Some c => te_input_tokens ev = Some (input_tokens c) /\ te_output_tokens ev = Some (output_tokens c) /\
              te_estimated_cost_usd ev = Some (estimated_cost_usd c)
  | None => te_input_tokens ev = None /\ te_output_tokens ev = None /\ te_estimated_cost_usd ev = None
  end.

(** The name of an error: the gateway's category, or the one of its class. *)
Definition error_named (e : exn) (c : pystr) : Prop :=
  match gateway_category e with
  | Some g => c = GatewayErrorCategory_value g
  | None =>
      (isinstance e C_ContextLimitError = true /\ c = py "context_limit_exceeded") \/
      (isinstance e C_ModelDisabledError = true /\ c = py "model_disabled") \/
      (isinstance e C_ProviderUnavailableError = true /\ c = py "provider_unavailable") \/
      (isinstance e C_ProviderFailureError = true /\ c = py "provider_failure") \/
      (isinstance e C_InferenceDeadlineExceededError = true /\ c = py "inference_deadline_exceeded")
  end.

(** The row of an outcome, field by field. *)
Definition describes (m : ModelConfig) (rq : InferenceRequest) (rid : pystr)
    (r : result exn InferenceResponse) (row : telemetry_row) : Prop :=
  exists ev, row = RowInference ev /\ request_recorded rid rq ev /\
    (exists t, te_id ev = uuid4 t) /\ (exists t, te_created_at ev = utc_now t) /\
    match r with
    | Ok resp =>
        te_success ev = true /\ te_model_id ev = rs_model_id resp /\ te_provider ev = rs_provider resp /\
        te_latency_ms ev = latency_ms resp /\ usage_recorded (Some resp) ev /\ te_error_category ev = None
    | Raise e =>
        te_success ev = false /\ te_model_id ev = model_id m /\ te_provider ev = provider m /\
        match rejected_completion e with
        | Some c => te_latency_ms ev = latency_ms c
        | None => exists started ended, (started < ended)%nat /\
            te_latency_ms ev = f_mul (f_sub (perf_counter ended) (perf_counter started)) (f_of_Z 1000)
        end /\
        usage_recorded (rejected_completion e) ev /\ exists c, te_error_category ev = Some c /\ error_named e c
    end.

Lemma success_described m rq rid resp i t : describes m rq rid (Ok resp) (RowInference (success_event rq rid resp (uuid4 i) (utc_now t))).
Proof.
  eexists. split; [reflexivity|]. split; [repeat split; cbn; by destruct (system_prompt rq)|].
  split; [by eexists|]. split; [by eexists|]. done.
Qed.

Lemma reported_named e : reported e = true -> error_named e (telemetry_category e).
Proof.
  unfold error_named, telemetry_category, reported. destruct (gateway_category e); [done|].
  destruct (isinstance e C_ContextLimitError); [by left|]. destruct (isinstance e C_ModelDisabledError); [by right; left|].
  destruct (isinstance e C_ProviderUnavailableError); [by right; right; left|].
  destruct (isinstance e C_ProviderFailureError); [by right; right; right; left|].
  cbn [orb]. rewrite !orb_false_r. intros ->. by right; right; right; right.
Qed.

Lemma failure_described m rq rid e elapsed i t : reported e = true ->
  (rejected_completion e = None -> exists started ended, (started < ended)%nat /\
     elapsed = f_sub (perf_counter ended) (perf_counter started)) ->
  describes m rq rid (Raise e) (RowInference (failure_event m rq rid e elapsed (uuid4 i) (utc_now t))).
Proof.
  intros R L. eexists. split; [reflexivity|]. split; [repeat split; cbn; by destruct (system_prompt rq)|].
  split; [by eexists|]. split; [by eexists|]. split; [done|]. split; [done|]. split; [done|].
  split; [|split; [unfold usage_recorded, failure_event; cbn; by destruct (rejected_completion e)|]].
  - unfold failure_event. cbn [te_latency_ms]. destruct (rejected_completion e) as [c|]; [done|].
    destruct (L eq_refl) as (a & b & Hab & ->). by exists a, b.
  - eexists. split; [reflexivity|]. by apply reported_named.
Qed.

Lemma forward_generate_inner m rq d rid mode : forward (generate_inner s m rq d rid mode).
Proof.
  unfold generate_inner, attempt, read_perf, deadline_remaining, deadline_expired, read_monotonic.
  destruct (negb _); [auto with forward|]. destruct (resolve_adapter s m) as [a|e]; [|auto with forward].
  apply forward_bind; [auto with forward|]. intros started. apply forward_bind; [apply forward_outcome, forward_bind; [auto with forward|]|].
  - intros timeout. destruct (f_leb _ _); [auto with forward|]. apply forward_bind; [apply forward_catch; [auto with forward|]|].
    + intros e. destruct (isinstance e _); [|auto with forward]. apply forward_bind; [auto with forward|]. intros late. destruct late; auto with forward.
    + intros [x|]; [|auto with forward]. destruct (_ || _); auto with forward.
  - intros [x|e]; [auto with forward|]. destruct (_ || _); auto with forward.
Qed.

(** The outcomes of [generate] with a deadline and a request identifier. *)
Definition generate_outcome (id : pystr) (rq : InferenceRequest) (rid : pystr)
    (w : world) (r : result exn InferenceResponse) (w' : world) : Prop :=
  (exists e, r = Raise e /\ quiet w w' /\
     (e = Exn C_InferenceDeadlineExceededError \/ ModelRegistry.get (sv_registry s) id = Raise e)) \/
  (exists m, ModelRegistry.get (sv_registry s) id = Ok m /\
     (same_calls w w' \/ w_calls w' = w_calls w ++ [mk_provider_call (model_id m) rq]) /\
     wrote_one (fun row => exists r', describes m rq rid r' row /\ (polite_telemetry -> r' = r)) w w' /\
     match r with
     | Ok resp => w_calls w' = w_calls w ++ [mk_provider_call (model_id m) rq] /\ enabled m = true /\
                  rs_model_id resp = model_id m /\ rs_provider resp = provider m
     | Raise e => translated e
     end).

Lemma wrote_one_mono (P Q : telemetry_row -> Prop) w w' :
  (forall row, P row -> Q row) -> wrote_one P w w' -> wrote_one Q w w'.
Proof. intros H [W|(row & ok & Hp & W)]; [by left|right]. exists row, ok. auto. Qed.

Lemma post_elapsed {B} started e (f : float -> M B) w (Q : result exn B -> world -> Prop) :
  (forall x w', quiet w w' -> (rejected_completion e = None -> x = f_sub (perf_counter (w_tick w)) started) -> post (f x) w' Q) ->
  post (x ← match rejected_completion e with
            | Some _ => mret f_zero
            | None => now ← read_perf; mret (f_sub now started)
            end; f x) w Q.
Proof.
  intros H. destruct (rejected_completion e) as [c|].
  - apply post_mret. by apply H.
  - apply post_bind, post_tick. intros w' Qw _. apply post_ret. by apply H.
Qed.

Lemma generate_spec id rq rid d mode w :
  mode = EXPLICIT \/ mode = ADAPTIVE ->
  post (generate s id rq (Some rid) (Some d) mode) w (generate_outcome id rq rid w).
Proof.
  intros Hm. unfold generate.
  replace (negb _) with false.
  2: { destruct Hm as [-> | ->]; by vm_compute. }
  cbn [deadline_or_new]. apply post_mret.
  apply post_reading; [apply reading_expired|]. intros late w1 Q1.
  destruct late; [apply post_raise; left; eexists; split; [done|]; split; [done|by left]|].
  apply post_bind, post_lift. destruct (ModelRegistry.get (sv_registry s) id) as [m|e] eqn:Eg.
  2: { left. exists e. split; [done|]. split; [done|by right]. }
  apply post_mret. apply post_tick. intros w2 Q2 T2. set (started := perf_counter (w_tick w1)).
  apply post_bind, post_outcome. eapply post_mono; [apply post_forward; [apply generate_inner_spec|apply forward_generate_inner]|].
  intros r w3 [[W3 H3] T3]. cbv beta iota.
  assert (Q12 : quiet w w2) by (by apply (quiet_trans w w1)). destruct Q12 as [C2 W2].
  unfold generate_outcome. destruct r as [resp|e].
  - destruct H3 as (C3 & H3).
    apply post_tick. intros w4 [C4 W4] T4. apply post_tick. intros w5 [C5 W5] T5.
    change (mret resp) with (lift (A := InferenceResponse) (Ok resp)).
    apply (record_then _ _ w). { unfold same_writes in *. congruence. }
    intros r' w6 Hr C6 Wr. right. exists m. split; [done|].
    assert (Cc : w_calls w6 = w_calls w ++ [mk_provider_call (model_id m) rq]).
    { unfold same_calls in *. congruence. }
    split; [by right|]. split.
    + eapply wrote_one_mono; [|exact Wr]. intros row <-. exists (Ok resp).
      split; [apply success_described|]. intros Hp. destruct Hr as [->|(e & -> & He & t0 & row & Ht)]; [done|].
      apply Hp in Ht. congruence.
    + destruct Hr as [->|(e & -> & He & _)]; [split; [done|]; by destruct H3 as (? & ? & ?)|by right].
  - destruct H3 as (He & C3).
    assert (Cx : w_calls w3 = w_calls w \/ w_calls w3 = w_calls w ++ [mk_provider_call (model_id m) rq]).
    { unfold same_calls in *. destruct C3; [left|right]; congruence. }
    destruct (reported e) eqn:Er.
    2: { apply post_raise. right. exists m. split; [done|]. split; [done|]. split; [|done].
         left. unfold same_writes in *. congruence. }
    apply post_elapsed. intros elapsed w3' [C3' W3'] El.
    apply post_tick. intros w4 [C4 W4] T4. apply post_tick. intros w5 [C5 W5] T5.
    change (raise e) with (lift (A := InferenceResponse) (Raise e)).
    apply (record_then _ _ w). { unfold same_writes in *. congruence. }
    intros r' w6 Hr C6 Wr. right. exists m. split; [done|].
    split; [unfold same_calls in *; destruct Cx; [left|right]; congruence|]. split.
    + eapply wrote_one_mono; [|exact Wr]. intros row <-. exists (Raise e).
      split; [apply failure_described; [done|]|]; [intros N; exists (w_tick w1), (w_tick w3); split; [lia|by apply El]|]. intros Hp.
      destruct Hr as [->|(e' & -> & He' & t0 & row & Ht)]; [done|]. apply Hp in Ht. congruence.
    + destruct Hr as [->|(e' & -> & He' & _)]; [done|by right].
Qed.
End GenerateFacts.

(** C7. An inference in either mode, with a request identifier and a deadline, over
    telemetry whose writes fail with ordinary exceptions if at all, ends in one of
    three ways, with at most one adapter call and at most one telemetry row: it
    raises before anything happened (expired deadline, unknown model); it returns
    a response, after exactly one call, whose model and provider are those of the
    enabled registered model; or it raises an error of the gateway's own
    vocabulary, or one that is no [Exception], whatever the adapter raised.  A row
    written has the request's figures and describes the outcome: success with the
    response's model, latency, tokens and cost, or failure with the configured
    model, the name of the error, the rejected completion's latency, tokens and
    cost, and without a completion the time measured and no tokens or cost. *)
Theorem generate_faithful `{E : Env} s id rq rid d mode w :
  mode = EXPLICIT \/ mode = ADAPTIVE -> polite_telemetry ->
  let r := (generate s id rq (Some rid) (Some d) mode w).1 in
  let w' := (generate s id rq (Some rid) (Some d) mode w).2 in
  (exists e, r = Raise e /\ quiet w w' /\
     (e = Exn C_InferenceDeadlineExceededError \/ ModelRegistry.get (sv_registry s) id = Raise e)) \/
  (exists m, ModelRegistry.get (sv_registry s) id = Ok m /\
     (same_calls w w' \/ w_calls w' = w_calls w ++ [mk_provider_call (model_id m) rq]) /\
     wrote_one (describes m rq rid r) w w' /\
     match r with
     | Ok resp => w_calls w' = w_calls w ++ [mk_provider_call (model_id m) rq] /\ enabled m = true /\
                  rs_model_id resp = model_id m /\ rs_provider resp = provider m
     | Raise e => translated e
     end).
Proof.
  intros Hm Hp r w'. destruct (generate_spec s id rq rid d mode w Hm) as [H|(m & Hg & Hc & Hw & Hr)];
    [by left|right]. exists m. split; [done|]. split; [done|]. split; [|done].
  eapply wrote_one_mono; [|exact Hw]. intros row (r' & Hd & Hr').
  specialize (Hr' Hp). subst r'. exact Hd.
Qed.

(** Telemetry never changes what the caller gets: with writes that fail in any
    ordinary way, or with no repository at all, an inference has the same
    outcome. *)
Theorem telemetry_does_not_matter `{E : Env} s id rq rid d mode w :
  polite_telemetry ->
  (generate s id rq rid d mode w).1 =
  (generate (mk_InferenceService (sv_registry s) (sv_resolver s) None (sv_telemetry_timeout s)
               (sv_inference_deadline_seconds s)) id rq rid d mode w).1.
Proof.
  intros Hp. set (s' := mk_InferenceService _ _ None _ _).
  assert (R : forall A ev dl (out : result exn A) w1,
    ((_ ← record_inference s ev dl; lift out) w1).1 = out).
  { intros A ev dl out w1. unfold mbind, M_bind. pose proof (record_inference_polite s ev dl w1 Hp) as H.
    destruct (record_inference s ev dl w1) as [r w2]. simpl in H. by subst r. }
  assert (R' : forall A ev dl (out : result exn A) w1,
    ((_ ← record_inference s' ev dl; lift out) w1).1 = out) by done.
  assert (Bind : forall A B (m : M A) (f g : A -> M B) w1,
    (forall a w2, (f a w2).1 = (g a w2).1) -> ((x ← m; f x) w1).1 = ((x ← m; g x) w1).1).
  { intros A B m f g w1 H. unfold mbind, M_bind. destruct (m w1) as [[a|e] w2]; auto. }
  unfold generate. destruct (negb _); [done|].
  apply Bind. intros dl w1. apply Bind. intros [] w2; [done|]. apply Bind. intros m w3.
  apply Bind. intros cid w4. apply Bind. intros started w5. apply Bind. intros [resp|e] w6.
  - apply Bind. intros u w7. apply Bind. intros t w8.
    transitivity (Ok (E := exn) resp); [apply (R _ _ _ (Ok resp))|symmetry; apply (R' _ _ _ (Ok resp))].
  - destruct (reported e); [|done]. apply Bind. intros el w7. apply Bind. intros u w8.
    apply Bind. intros t w9. 
    transitivity (Raise (A := InferenceResponse) e);
      [apply (R _ _ _ (Raise e))|symmetry; apply (R' _ _ _ (Raise e))].
Qed.

(** ** A concrete environment *)

(** Time passes one second per reading; every write fails. *)
Definition example_env : Env :=
  {| monotonic := fun t => f_of_Z (Z.of_nat t); perf_counter := fun t => f_of_Z (Z.of_nat t);
     loop_time := fun t => f_of_Z (Z.of_nat t); uuid4 := fun t => N.of_nat t; utc_now := Z.of_nat;
     telemetry_record := fun _ _ => Raise (Exn C_RuntimeError) |}.

Definition echo_response (m : ModelConfig) (rq : InferenceRequest) : InferenceResponse :=
  mk_InferenceResponse (prompt rq) (model_id m) (provider m) 3 2 (f_of_Z 5) (mk_decimal false 1 (-6))
    TR_COMPLETE None.

Definition echo_factory : factory := fun m =>
  Ok (mk_adapter (fun _ rq => Ok (PR_response (echo_response m rq))) None).

Definition example_service (ms : list ModelConfig) : InferenceService :=
  mk_InferenceService
    (match ModelRegistry.register_all ModelRegistry.empty ms with Ok r => r | Raise _ => ModelRegistry.empty end)
    (ProviderResolver.mk [(py "fake", echo_factory); (py "p", echo_factory)])
    (Some (mk_telemetry_repository true true)) (f_of_Z 2) (f_of_Z 60).

Definition example_prompt : InferenceRequest := mk_InferenceRequest (py "hello") None 16 f_zero.

Definition example_deadline : RequestDeadline := mk_RequestDeadline (f_of_Z 60).

Lemma example_polite : @polite_telemetry example_env.
Proof. intros t row e H. injection H as <-. vm_compute. reflexivity. Qed.

Definition example_small : ModelConfig :=
  mk_ModelConfig (py "fake-small") (py "fake") (py "echo-v1")
    (mk_decimal false 15 (-2)) (mk_decimal false 60 (-2)) 4096 true
    default_capabilities None GATEWAY_SHARED default_output_token_policy.

Lemma generate_faithful_witness :
  exists w', (@generate example_env (example_service [example_small]) (py "fake-small") example_prompt
    (Some (py "r1")) (Some example_deadline) EXPLICIT initial_world) =
    (Ok (echo_response example_small example_prompt), w') /\
  w_calls w' = [mk_provider_call (py "fake-small") example_prompt].
Proof.
  pose proof (@generate_faithful example_env (example_service [example_small]) (py "fake-small") example_prompt
    (py "r1") example_deadline EXPLICIT initial_world (or_introl eq_refl) example_polite) as H.
  cbv zeta in H.
  destruct (@generate example_env (example_service [example_small]) (py "fake-small") example_prompt
    (Some (py "r1")) (Some example_deadline) EXPLICIT initial_world) as [r w'] eqn:E.
  exists w'. assert (Er : r = Ok (echo_response example_small example_prompt)).
  { apply (f_equal fst) in E. cbn [fst] in E. rewrite <- E. vm_compute. reflexivity. }
  subst r. split; [reflexivity|]. cbn [fst snd] in H.
  destruct H as [(e & He & _)|(m & Hg & _ & _ & Hc & _)]; [discriminate He|].
  rewrite Hc. assert (Hm : m = example_small).
  { assert (G : ModelRegistry.get (sv_registry (example_service [example_small])) (py "fake-small")
      = Ok example_small) by (vm_compute; reflexivity). rewrite G in Hg. injection Hg as <-. reflexivity. }
  subst m. reflexivity.
Defined.

Lemma telemetry_does_not_matter_witness :
  @polite_telemetry example_env /\
  (@generate example_env (example_service [example_small]) (py "fake-small") example_prompt
    (Some (py "r1")) None EXPLICIT initial_world).1 = Ok (echo_response example_small example_prompt).
Proof.
  split; [exact example_polite|].
  rewrite (@telemetry_does_not_matter example_env (example_service [example_small]) (py "fake-small")
    example_prompt (Some (py "r1")) None EXPLICIT initial_world example_polite).
  vm_compute. reflexivity.
Defined.
