(* ===== verification/GatewayConfig.v ===== *)
(** * Gateway settings and model portfolio ([providers/gateway_config.py])

    The reviewed models of the gateway and the hard allowlist that pins each to
    one upstream provider. *)
From S2P Require Import Prelude PyStr PyFloat PyDecimal Schemas Errors Registry Pricing PyNum Regex Features QualityFeatures Policy Routing Predictor.

Record GatewaySettings := mk_GatewaySettings {
  gs_api_key : option pystr;
  gs_timeout_seconds : float
}.

(** [gt=0, le=300, allow_inf_nan=False] *)
Definition GatewaySettings_ok (s : GatewaySettings) : bool :=
  f_isfinite (gs_timeout_seconds s) && f_ltb f_zero (gs_timeout_seconds s) &&
  f_leb (gs_timeout_seconds s) (f_of_Z 300).

(** [from_environment]: the key is stripped, an empty one is no key; the timeout
    is what pydantic reads from the text. *)
Definition gateway_settings (raw_key : pystr) (timeout_seconds : float) : result exn GatewaySettings :=
  let key := strip raw_key in
  let s := mk_GatewaySettings (match key with [] => None | _ => Some key end) timeout_seconds in
  _ ← validated (check (GatewaySettings_ok s) field_error);
  Ok s.

Definition PRICING_SOURCE : pystr := py "https://ai-gateway.vercel.sh/v1/models".
Definition PRICING_VERIFIED : pystr := py "2026-09-24".
Definition CATALOG_VERIFIED_AT : pystr := py "2026-09-24T03:06:54Z".

(** A price in cents, as the decimal literals with two places are written. *)
Definition cents (c : N) : decimal := mk_decimal false c (-2).

Definition structured (temperature : bool) (r : ReasoningBehavior) : ModelCapabilities :=
  mk_ModelCapabilities temperature true r VISIBLE_ONLY.

Definition vercel_model (id name : string) (input output : N) (window : Z) (caps : ModelCapabilities)
    (effort : option ReasoningEffort) (policy : OutputTokenPolicy) : ModelConfig :=
  mk_ModelConfig (py id) (py "vercel") (py name) (cents input) (cents output) window true caps effort
    GATEWAY_SHARED policy.

Definition LEGACY_MODELS : list ModelConfig :=
  [ vercel_model "gateway-nano" "openai/gpt-4.1-nano" 10 40 1047576 (structured true RB_UNSUPPORTED)
      None default_output_token_policy;
    vercel_model "gateway-mini" "openai/gpt-4.1-mini" 40 160 1047576 (structured true RB_UNSUPPORTED)
      None default_output_token_policy;
    vercel_model "gateway-sonnet" "anthropic/claude-sonnet-4.6" 300 1500 1000000
      (structured true RB_PROVIDER_DEFAULT) None default_output_token_policy ].

Definition CANDIDATE_MODELS : list ModelConfig :=
  [ vercel_model "candidate-nemotron-3.5-lightning" "nvidia/nemotron-3.5-lightning" 5 15 262144
      (structured true RB_PROVIDER_DEFAULT) (Some RE_NONE) default_output_token_policy;
    vercel_model "candidate-gpt-6-luna" "openai/gpt-6-luna" 10 50 1050000
      (structured true RB_PROVIDER_DEFAULT) (Some RE_LOW) default_output_token_policy;
    vercel_model "candidate-gemini-3-flash" "google/gemini-3-flash" 50 300 1000000
      (structured true RB_PROVIDER_DEFAULT) (Some RE_LOW) (policy_with [("reasoning", 256%Z)]%string);
    vercel_model "candidate-claude-sonnet-5" "anthropic/claude-sonnet-5" 200 1000 1000000
      (structured false RB_PROVIDER_DEFAULT) (Some RE_LOW) default_output_token_policy ].

Definition JUDGE_SELECTION_MODELS : list ModelConfig :=
  [ vercel_model "judge-opus-5.5" "anthropic/claude-opus-5.5" 400 2000 1000000
      (mk_ModelCapabilities false false RB_ADAPTIVE VISIBLE_ONLY) None default_output_token_policy;
    vercel_model "judge-gpt-6-astra" "openai/gpt-6-astra" 1000 5000 1050000
      (structured false RB_PROVIDER_DEFAULT) None default_output_token_policy;
    vercel_model "judge-fable-5.1" "anthropic/claude-fable-5.1" 1000 5000 1000000
      (structured true RB_PROVIDER_DEFAULT) None default_output_token_policy ].

Definition REAL_MODELS : list ModelConfig := LEGACY_MODELS ++ CANDIDATE_MODELS.
Definition SEMANTIC_JUDGE_MODELS : list ModelConfig := REAL_MODELS ++ JUDGE_SELECTION_MODELS.

Definition UPSTREAM_PROVIDERS : list (list N * list N) :=
  map (fun p => (py p.1, py p.2))
  [ ("openai/gpt-4.1-nano", "openai"); ("openai/gpt-4.1-mini", "openai");
    ("anthropic/claude-sonnet-4.6", "anthropic"); ("nvidia/nemotron-3.5-lightning", "runinfra");
    ("openai/gpt-6-luna", "openai"); ("google/gemini-3-flash", "google");
    ("anthropic/claude-sonnet-5", "anthropic"); ("anthropic/claude-opus-5.5", "anthropic");
    ("openai/gpt-6-astra", "openai"); ("anthropic/claude-fable-5.1", "anthropic") ]%string.

(** The portfolio is sound: every model passes its own validation and is pinned
    to an upstream provider, the models register without a clash, the routing
    candidates are exactly those of the frozen predictor, and for every
    category each of them has an output allowance. *)
Theorem portfolio_sound :
  Forall (fun m => ModelConfig_validate m = Ok tt /\ dict_mem UPSTREAM_PROVIDERS (provider_model_name m) = true)
    SEMANTIC_JUDGE_MODELS /\
  (exists r, ModelRegistry.register_all ModelRegistry.empty SEMANTIC_JUDGE_MODELS = Ok r /\
     ModelRegistry.list_enabled_models r = SEMANTIC_JUDGE_MODELS) /\
  (forall id, id ∈ map model_id CANDIDATE_MODELS <-> id ∈ FOUNDATION_V3_CANDIDATE_IDS) /\
  (forall m f c, m ∈ CANDIDATE_MODELS -> rf_category f = Some c ->
     exists n, resolve_effective_output_allowance f m = Ok n /\
       (n = rf_max_output_tokens f \/ (c = REASONING /\ n = 256%Z))).
Proof.
  split; [repeat constructor; vm_compute; reflexivity|].
  split; [eexists; split; vm_compute; reflexivity|].
  split; [by apply same_elements_true|].
  intros m f c Hm Hc.
  assert (P : output_token_policy m = default_output_token_policy \/
              output_token_policy m = policy_with [("reasoning", 256%Z)]%string).
  { unfold CANDIDATE_MODELS in Hm. repeat (apply elem_of_cons in Hm as [->|Hm]; [by auto|]). set_solver. }
  unfold resolve_effective_output_allowance. rewrite Hc, canonicalize_category_value. rsimpl.
  destruct P as [-> | ->].
  - exists (rf_max_output_tokens f). split; [done|by left].
  - destruct c; (eexists; split; [vm_compute; reflexivity|by (left + (right; split; [reflexivity|reflexivity]))]).
Qed.
