(* ===== verification/Providers.v ===== *)
(** * Provider adapters ([providers/fake.py], [providers/vercel.py])

    The offline echo adapter and the HTTP adapter.  Posting to the gateway is a
    parameter ([HttpClient]); everything the adapter does before and after it,
    payload, error mapping, decoding of the completion, is modelled. *)
From S2P Require Import Prelude PyStr PyFloat PyDecimal Schemas Errors Registry Pricing PyNum Deadline Observability PyUuid Telemetry Json Effects GatewayConfig.

(** ** [FakeProvider] *)

Module FakeProvider.

(** [__init__] *)
Definition new (m : ModelConfig) : result exn ModelConfig :=
  if bool_decide (provider m = py "fake") then Ok m else Raise (Exn C_ValueError).

Definition generate (m : ModelConfig) (rq : InferenceRequest) : result exn InferenceResponse :=
  _ ← guard_else (enabled m) (Exn C_ModelDisabledError);
  let words := split_ws (prompt rq) in
  let input_tokens := Z.of_nat (length words + length (split_ws (default [] (system_prompt rq)))) in
  _ ← guard_else (input_tokens + rq_max_output_tokens rq <=? context_window m)%Z (Exn C_ContextLimitError);
  let output_words := firstn (Z.to_nat (rq_max_output_tokens rq)) words in
  let output_tokens := Z.of_nat (length output_words) in
  cost ← calculate_cost input_tokens output_tokens m;
  let r := mk_InferenceResponse (join (py " ") output_words) (model_id m) (provider m) input_tokens
             output_tokens f_zero cost TR_COMPLETE (Some (py "synthetic_stop")) in
  _ ← validated (InferenceResponse_validate r);
  Ok r.

(** The factory; the inherited [generate_with_timeout] calls [generate]. *)
Definition fake_factory : factory := fun m =>
  m' ← new m;
  Ok (mk_adapter (fun _ rq => r ← generate m' rq; Ok (PR_response r))
        (Some (fun _ rq _ => r ← generate m' rq; Ok (PR_response r)))).

End FakeProvider.

(** ** [VercelGatewayProvider] *)

(** [response.json()]: the value of the body, or what reading it raises,
    [ValueError] for a body that is no JSON and [RecursionError] for one that
    nests too deeply. *)
Inductive json_body := JsonValue (v : pyjson) | JsonInvalid | JsonTooDeep.

Definition read_json (b : json_body) : result exn pyjson :=
  match b with
  | JsonValue v => Ok v
  | JsonInvalid => Raise (Exn C_ValueError)
  | JsonTooDeep => Raise (Exn C_RecursionError)
  end.

(** [httpx.Response]; [hr_elapsed] is the difference of the two [perf_counter]
    readings. *)
Record http_response := mk_http_response {
  hr_status : Z;
  hr_headers : pystr -> option pystr;
  hr_json : json_body;
  hr_elapsed : float
}.

Inductive payload_value :=
| PVStr (s : pystr) | PVInt (z : Z) | PVFloat (f : float) | PVBool (b : bool)
| PVMessages (l : list (list N * list N)) | PVObj (l : list (list N * payload_value))
| PVStrs (l : list pystr).

Record http_post_request := mk_http_post_request {
  hp_payload : list (list N * payload_value);
  hp_authorization : pystr;
  hp_timeout : float
}.

(** [client.post(ENDPOINT, ...)] at a tick. *)
Class HttpClient := { http_post : nat -> http_post_request -> result exn http_response }.

Module Vercel.
Section Adapter.
Context {C : HttpClient} (model : ModelConfig) (settings : GatewaySettings).

(** [_safe_value] on a JSON value or a header. *)
Definition safe_str (s : pystr) : option pystr := if token_match safe_punct 255 s then Some s else None.

Definition safe_value (v : option pyjson) : option pystr :=
  match v with Some (PJStr s) => safe_str s | _ => None end.

(** Truth of a JSON value; [a or b]. *)
Definition truthy (v : option pyjson) : bool :=
  match v with
  | None | Some PJNull => false
  | Some (PJBool b) => b
  | Some (PJInt z) => negb (z =? 0)%Z
  | Some (PJFloat f) => negb (f_eqb f f_zero)
  | Some (PJStr s) => negb (bool_decide (s = []))
  | Some (PJArr l) => match l with [] => false | _ => true end
  | Some (PJObj l) => match l with [] => false | _ => true end
  end.

Definition py_or (a b : option pyjson) : option pyjson := if truthy a then a else b.

Definition is_one_of (s : pystr) (l : list string) : bool := bool_decide (s ∈ map py l).

(** [_termination]; a safe value is ASCII, so [casefold] lowers letters. *)
Definition termination (choice : pyjson) : TerminationReason * option pystr :=
  match choice with
  | PJObj o =>
      let raw := safe_value (py_or (py_or (dict_get o (py "finish_reason")) (dict_get o (py "finishReason")))
                               (dict_get o (py "stop_reason"))) in
      let raw := match raw with Some s => if Nat.ltb 64 (length s) then None else Some s | None => None end in
      match raw with
      | None => (TR_UNKNOWN, None)
      | Some s =>
          let n := map ascii_lower s in
          if is_one_of n ["stop"; "end_turn"; "end"; "complete"; "completed"]%string then (TR_COMPLETE, raw)
          else if is_one_of n ["length"; "max_tokens"; "max_output_tokens"; "token_limit"]%string
               then (TR_LENGTH, raw)
          else if is_one_of n ["tool_call"; "tool_calls"; "function_call"]%string then (TR_TOOL_CALL, raw)
          else if is_one_of n ["content_filter"; "content_filtered"; "safety"; "blocked"]%string
               then (TR_CONTENT_FILTER, raw)
          else (TR_OTHER, raw)
      end
  | _ => (TR_UNKNOWN, None)
  end.

Definition set_if (d : list (list N * diag_value)) (k : string) (v : option pystr) :
    list (list N * diag_value) :=
  match v with Some s => dict_set d (py k) (DStr s) | None => d end.

(** [_response_identifiers] *)
Definition response_identifiers (r : http_response) : list (list N * diag_value) :=
  let header h := match hr_headers r (py h) with Some s => safe_str s | None => None end in
  let d := [(py "http_status", DInt (hr_status r))] in
  let d := set_if d "vercel_request_id" (header "x-vercel-id"%string) in
  let d := set_if d "request_id" (header "x-request-id"%string) in
  set_if d "trace_id" (header "traceparent"%string).

Definition obj_get (v : option pyjson) (k : string) : option pyjson :=
  match v with Some (PJObj o) => dict_get o (py k) | _ => None end.

(** The first nested object with a safe code. *)
Fixpoint upstream_code (error : pyjson) (keys : list string) : option pystr :=
  match keys with
  | [] => None
  | k :: keys' =>
      match obj_get (Some error) k with
      | Some (PJObj nested) =>
          match safe_value (py_or (dict_get nested (py "code")) (dict_get nested (py "type"))) with
          | Some s => Some s
          | None => upstream_code error keys'
          end
      | _ => upstream_code error keys'
      end
  end.

(** [_error_diagnostics] *)
Definition error_diagnostics (r : http_response) (body : option pyjson) : list (list N * diag_value) :=
  let d := response_identifiers r in
  match obj_get body "error" with
  | Some (PJObj error) =>
      let d := set_if d "gateway_error_code" (safe_value (dict_get error (py "code"))) in
      let d := set_if d "gateway_error_type" (safe_value (dict_get error (py "type"))) in
      set_if d "upstream_error_code"
        (upstream_code (PJObj error) ["provider_error"; "providerError"; "cause"]%string)
  | _ => d
  end.

(** A count reported by the gateway. *)
Definition token_count (v : option pyjson) : option Z :=
  match v with Some (PJInt z) => if (0 <=? z)%Z then Some z else None | _ => None end.

(** [_completion_diagnostics] *)
Definition completion_diagnostics (r : http_response) (choice message usage : pyjson)
    (output_token_limit input_tokens output_tokens : Z) (latency : float) (cost : decimal)
    (content_empty : bool) : list (list N * diag_value) :=
  let d := response_identifiers r in
  let '(t, provider_t) := termination choice in
  let d := dict_set d (py "termination_reason") (DStr (TerminationReason_value t)) in
  let d := set_if d "provider_termination_reason" provider_t in
  let d := set_if d "finish_reason" provider_t in
  let d := dict_set d (py "content_empty") (DBool content_empty) in
  let d := dict_set d (py "output_token_limit") (DInt output_token_limit) in
  let d := dict_set d (py "input_tokens") (DInt input_tokens) in
  let d := dict_set d (py "output_tokens") (DInt output_tokens) in
  let d := dict_set d (py "adapter_latency_ms") (DFloat latency) in
  let d := dict_set d (py "estimated_cost_usd") (DDecimal cost) in
  let d := match token_count (obj_get (Some usage) "completion_tokens") with
           | Some n => dict_set d (py "completion_tokens") (DInt n) | None => d end in
  let d := match token_count (obj_get (obj_get (Some usage) "completion_tokens_details") "reasoning_tokens") with
           | Some n => dict_set d (py "reasoning_tokens") (DInt n) | None => d end in
  match message with
  | PJObj m =>
      dict_set d (py "reasoning_field_present")
        (DBool (existsb (fun k => truthy (dict_get m (py k)))
                  ["reasoning"; "reasoning_content"; "reasoning_details"]%string))
  | _ => d
  end.

(** [__init__]; the client is supplied by the composition root. *)
Definition new : result exn unit :=
  guard_else (bool_decide (provider model = py "vercel") && dict_mem UPSTREAM_PROVIDERS (provider_model_name model))
    (GatewayError INVALID_MODEL []).

(** The request body; a validated configuration with the native control has an
    effort. *)
Definition payload (rq : InferenceRequest) (upstream : pystr) : list (list N * payload_value) :=
  let messages := (match system_prompt rq with Some p => [(py "system", p)] | None => [] end) ++
                  [(py "user", prompt rq)] in
  let gateway := (py "gateway", PVObj [(py "only", PVStrs [upstream])]) in
  let native := bool_decide (reasoning_control model = GOOGLE_PROVIDER_NATIVE) in
  let options := match native, reasoning_effort model with
                 | true, Some e =>
                     [gateway; (py "google", PVObj [(py "thinkingConfig",
                        PVObj [(py "thinkingLevel", PVStr (ReasoningEffort_value e))])])]
                 | _, _ => [gateway]
                 end in
  [(py "model", PVStr (provider_model_name model)); (py "messages", PVMessages messages);
   (py "stream", PVBool false); (py "max_tokens", PVInt (rq_max_output_tokens rq));
   (py "providerOptions", PVObj options)] ++
  (if supports_temperature (capabilities model) then [(py "temperature", PVFloat (temperature rq))] else []) ++
  (match native, reasoning_effort model with
   | false, Some e => [(py "reasoning", PVObj [(py "effort", PVStr (ReasoningEffort_value e))])]
   | _, _ => []
   end).

(** The category of an error status. *)
Definition status_category (status : Z) : GatewayErrorCategory :=
  if (status =? 401)%Z || (status =? 403)%Z then AUTHENTICATION
  else if (status =? 404)%Z then INVALID_MODEL
  else if (status =? 429)%Z then RATE_LIMIT
  else if (status =? 408)%Z || (status =? 504)%Z then TIMEOUT
  else UPSTREAM.

(** [None] where reading raises a [ValueError]. *)
Definition error_body (r : http_response) : result exn (option pyjson) :=
  match read_json (hr_json r) with
  | Ok b => Ok (Some b)
  | Raise e => if isinstance e C_ValueError then Ok None else Raise e
  end.

(** What is raised for a response that is no success. *)
Definition reported_error (r : http_response) (body : option pyjson) : exn :=
  let d := error_diagnostics r body in
  let category :=
    if (hr_status r =? 400)%Z || (hr_status r =? 422)%Z then
      match dict_get d (py "gateway_error_code") with
      | Some (DStr code) =>
          if is_one_of code ["model_not_found"; "invalid_model"]%string then INVALID_MODEL
          else if is_one_of code ["context_length_exceeded"; "context_window_exceeded"]%string then CONTEXT_LIMIT
          else INVALID_REQUEST
      | _ => INVALID_REQUEST
      end
    else status_category (hr_status r) in
  GatewayError category d.

Definition error_response (r : http_response) : exn :=
  match error_body r with Ok body => reported_error r body | Raise e => e end.

(** [v[k]] and [v[0]] of JSON values, with the exceptions of Python. *)
Definition subscript (v : pyjson) (k : string) : result exn pyjson :=
  match v with
  | PJObj o => match dict_get o (py k) with Some x => Ok x | None => Raise (Exn C_KeyError) end
  | _ => Raise (Exn C_TypeError)
  end.

Definition first_item (v : pyjson) : result exn pyjson :=
  match v with
  | PJArr (x :: _) => Ok x
  | PJArr [] => Raise (Exn C_IndexError)
  | PJStr (c :: _) => Ok (PJStr [c])
  | PJStr [] => Raise (Exn C_IndexError)
  | PJObj _ => Raise (Exn C_KeyError)
  | _ => Raise (Exn C_TypeError)
  end.

Definition decode_completion (rq : InferenceRequest) (r : http_response) : result exn InferenceResponse :=
  let latency := f_mul (hr_elapsed r) (f_of_Z 1000) in
  body ← read_json (hr_json r);
  choices ← subscript body "choices";
  choice ← first_item choices;
  message ← subscript choice "message";
  content ← subscript message "content";
  text ← match content with PJStr s => Ok s | _ => Raise (Exn C_ValueError) end;
  let usage := default PJNull (obj_get (Some body) "usage") in
  _ ← guard_else (match usage with
                  | PJObj u => dict_mem u (py "prompt_tokens") && dict_mem u (py "completion_tokens")
                  | _ => false
                  end) (GatewayError MISSING_USAGE (response_identifiers r));
  inputs ← match token_count (obj_get (Some usage) "prompt_tokens") with
           | Some n => Ok n | None => Raise (Exn C_ValueError) end;
  outputs ← match token_count (obj_get (Some usage) "completion_tokens") with
            | Some n => Ok n | None => Raise (Exn C_ValueError) end;
  cost ← calculate_cost inputs outputs model;
  let '(t, provider_t) := termination choice in
  let completion := mk_InferenceResponse text (model_id model) (provider model) inputs outputs latency cost
                      t provider_t in
  _ ← validated (InferenceResponse_validate completion);
  let diagnostics empty := completion_diagnostics r choice message usage (rq_max_output_tokens rq)
                             inputs outputs latency cost empty in
  if is_blank text then Raise (mk_CompletionRejectedError EMPTY_RESPONSE completion (diagnostics true))
  else if bool_decide (t = TR_LENGTH)
  then Raise (mk_CompletionRejectedError OUTPUT_BUDGET_EXHAUSTION completion (diagnostics false))
  else Ok completion.

(** The [except] clauses around the decoding. *)
Definition decode_error (r : http_response) (e : exn) : exn :=
  if isinstance e C_GatewayError then e
  else if isinstance e C_KeyError || isinstance e C_IndexError || isinstance e C_TypeError ||
          isinstance e C_ValueError || isinstance e C_ValidationError
  then GatewayError MALFORMED_RESPONSE (response_identifiers r)
  else e.

Definition is_success (r : http_response) : bool := (200 <=? hr_status r)%Z && (hr_status r <=? 299)%Z.

Definition generate_with_timeout (t : nat) (rq : InferenceRequest) (timeout_seconds : float) :
    result exn InferenceResponse :=
  _ ← guard_else (enabled model) (Exn C_ModelDisabledError);
  key ← match gs_api_key settings with
        | Some k => if is_blank k then Raise (GatewayError NOT_CONFIGURED []) else Ok k
        | None => Raise (GatewayError NOT_CONFIGURED [])
        end;
  upstream ← match dict_get UPSTREAM_PROVIDERS (provider_model_name model) with
             | Some u => Ok u
             | None => Raise (Exn C_KeyError)
             end;
  let effective_timeout := f_min (gs_timeout_seconds settings) timeout_seconds in
  match http_post t (mk_http_post_request (payload rq upstream) (py "Bearer " ++ key) effective_timeout) with
  | Raise e =>
      Raise (if isinstance e C_HttpTimeoutException || isinstance e C_TimeoutError
             then GatewayError TIMEOUT []
             else if isinstance e C_HttpRequestError then GatewayError UPSTREAM []
             else e)
  | Ok r =>
      if negb (is_success r) then Raise (error_response r)
      else match decode_completion rq r with
           | Ok c => Ok c
           | Raise e => Raise (decode_error r e)
           end
  end.

Definition generate (t : nat) (rq : InferenceRequest) : result exn InferenceResponse :=
  generate_with_timeout t rq (gs_timeout_seconds settings).
End Adapter.

(** The factory the composition root registers. *)
Definition vercel_factory {C : HttpClient} (settings : GatewaySettings) : factory := fun m =>
_ ← new m;
Ok (mk_adapter (fun t rq => r ← generate m settings t rq; Ok (PR_response r))
      (Some (fun t rq timeout => r ← generate_with_timeout m settings t rq timeout; Ok (PR_response r)))).
End Vercel.

(** ** Diagnostics hold safe tokens only *)

Definition safe_entry (kv : list N * diag_value) : Prop :=
  match kv.2 with DStr s => token_match safe_punct 255 s = true | _ => True end.

Definition safe_diag (d : list (list N * diag_value)) : Prop := Forall safe_entry d.

Lemma dict_set_safe d k v : safe_entry (k, v) -> safe_diag d -> safe_diag (dict_set d k v).
Proof.
  intros Hv. induction 1 as [|[k0 v0] d H0 H IH]; simpl; [by repeat constructor|].
  destruct (decide (k = k0)) as [->|]; by constructor.
Qed.

Lemma set_if_safe d k v : (forall s, v = Some s -> token_match safe_punct 255 s = true) ->
  safe_diag d -> safe_diag (Vercel.set_if d k v).
Proof. destruct v as [s|]; simpl; [|done]. intros H. by apply dict_set_safe, H. Qed.

Lemma safe_str_ok s t : Vercel.safe_str s = Some t -> token_match safe_punct 255 t = true.
Proof. unfold Vercel.safe_str. destruct (token_match safe_punct 255 s) eqn:E; [|done]. intros [= <-]. done. Qed.

Lemma safe_value_ok v t : Vercel.safe_value v = Some t -> token_match safe_punct 255 t = true.
Proof. destruct v as [[]|]; try done. apply safe_str_ok. Qed.

Lemma upstream_code_ok error keys t : Vercel.upstream_code error keys = Some t -> token_match safe_punct 255 t = true.
Proof.
  induction keys as [|k keys IH]; [done|]. cbn [Vercel.upstream_code].
  destruct (Vercel.obj_get (Some error) k) as [[]|]; try exact IH.
  destruct (Vercel.safe_value _) eqn:E; [|exact IH]. intros [= <-]. by apply safe_value_ok in E.
Qed.

Lemma termination_safe choice t s : Vercel.termination choice = (t, Some s) -> token_match safe_punct 255 s = true.
Proof.
  destruct choice; try done. cbn [Vercel.termination].
  destruct (Vercel.safe_value _) as [raw|] eqn:E; [|done]. apply safe_value_ok in E.
  destruct (Nat.ltb 64 (length raw)); [done|].
  repeat case_match; intros; simplify_eq; done.
Qed.

Lemma response_identifiers_safe r : safe_diag (Vercel.response_identifiers r).
Proof.
  unfold Vercel.response_identifiers.
  repeat (apply set_if_safe; [intros s; destruct (hr_headers r _); [apply safe_str_ok|done]|]).
  by repeat constructor.
Qed.

Lemma error_diagnostics_safe r b : safe_diag (Vercel.error_diagnostics r b).
Proof.
  unfold Vercel.error_diagnostics. destruct (Vercel.obj_get b "error") as [[]|];
    try apply response_identifiers_safe.
  apply set_if_safe; [apply upstream_code_ok|].
  apply set_if_safe; [intros s; apply safe_value_ok|].
  apply set_if_safe; [intros s; apply safe_value_ok|]. apply response_identifiers_safe.
Qed.

Lemma completion_diagnostics_safe r choice message usage limit i o lat cost empty :
  safe_diag (Vercel.completion_diagnostics r choice message usage limit i o lat cost empty).
Proof.
  unfold Vercel.completion_diagnostics. destruct (Vercel.termination choice) as [t pt] eqn:Et.
  assert (Hp : forall s, pt = Some s -> token_match safe_punct 255 s = true).
  { intros s ->. by apply (termination_safe choice t). }
  assert (Opt : forall (o : option Z) k d, safe_diag d ->
    safe_diag match o with Some n => dict_set d k (DInt n) | None => d end).
  { intros [n|] k d; [by apply dict_set_safe|done]. }
  cbv zeta. destruct message;
    repeat first [ apply response_identifiers_safe | apply Opt | apply set_if_safe; [exact Hp|]
                 | apply dict_set_safe; [solve [exact I | by destruct t]|] ].
Qed.

Definition error_diag (e : exn) : list (list N * diag_value) :=
  match e with GatewayError _ d | CompletionRejectedError _ _ d => d | _ => [] end.

(** The outcomes of decoding: a checked completion, or an error with safe
    diagnostics whose rejected completion is checked too. *)
Definition completion_ok (m : ModelConfig) (c : InferenceResponse) : Prop :=
  rs_model_id c = model_id m /\ rs_provider c = provider m /\ InferenceResponse_validate c = Ok tt /\
  (0 <= input_tokens c)%Z /\ (0 <= output_tokens c)%Z /\
  calculate_cost (input_tokens c) (output_tokens c) m = Ok (estimated_cost_usd c).

Definition rejection_ok (m : ModelConfig) (e : exn) : Prop :=
  forall c, rejected_completion e = Some c ->
    completion_ok m c /\
    ((gateway_category e = Some EMPTY_RESPONSE /\ is_blank (text c) = true) \/
     (gateway_category e = Some OUTPUT_BUDGET_EXHAUSTION /\ is_blank (text c) = false /\
      termination_reason c = TR_LENGTH)).

Lemma token_count_nonneg v n : Vercel.token_count v = Some n -> (0 <= n)%Z.
Proof.
  destruct v as [[]|]; try done. cbn [Vercel.token_count]. destruct (Z.leb_spec 0 z); [|done]. congruence.
Qed.

(** An error raised while a value is looked up or checked. *)
Definition decoding_error (e : exn) : Prop :=
  e ∈ [Exn C_ValueError; Exn C_KeyError; Exn C_TypeError; Exn C_IndexError; Exn C_ValidationError].

Lemma subscript_raise v k e : Vercel.subscript v k = Raise e -> decoding_error e.
Proof.
  unfold Vercel.subscript, decoding_error. destruct v; try (intros; inv_result; set_solver).
  destruct (dict_get _ _); intros; inv_result; set_solver.
Qed.

Lemma first_item_raise v e : Vercel.first_item v = Raise e -> decoding_error e.
Proof.
  unfold Vercel.first_item, decoding_error. destruct v as [| | | |[]|[]|];
    intros; inv_result; set_solver.
Qed.

Lemma calculate_cost_raise i o m e : calculate_cost i o m = Raise e -> decoding_error e \/ e = Exn C_ArithmeticError.
Proof.
  unfold calculate_cost. rewrite required_digits_of. unfold guard_else, decoding_error.
  destruct (0 <=? i)%Z; rsimpl; [|intros; inv_result; left; set_solver].
  destruct (0 <=? o)%Z; rsimpl; [|intros; inv_result; left; set_solver].
  destruct (printable i && printable o); rsimpl; [|intros; inv_result; left; set_solver].
  destruct (_ <=? MAX_PREC)%Z; rsimpl; [|intros; inv_result; left; set_solver].
  intros H. unfold decimal_error in H. case_all. inv_result. by right.
Qed.

Lemma read_or_too_deep r : hr_json r = JsonTooDeep \/ hr_json r <> JsonTooDeep.
Proof. destruct (hr_json r); [right|right|left]; done. Qed.

(** Decoding a body that was read. *)
Lemma decode_completion_spec m rq r : hr_json r <> JsonTooDeep ->
  match Vercel.decode_completion m rq r with
  | Ok c => completion_ok m c /\ is_blank (text c) = false /\ termination_reason c <> TR_LENGTH
  | Raise e => decoding_error e \/ (e = Exn C_ArithmeticError /\ exists i o, calculate_cost i o m = Raise e) \/
               (isinstance e C_GatewayError = true /\ safe_diag (error_diag e) /\ rejection_ok m e)
  end.
Proof.
  intros Deep.
  assert (Err : forall e, decoding_error e -> decoding_error e \/ (e = Exn C_ArithmeticError /\ exists i o, calculate_cost i o m = Raise e) \/
    (isinstance e C_GatewayError = true /\
    safe_diag (error_diag e) /\ rejection_ok m e)) by (intros; by left).
  unfold Vercel.decode_completion.
  destruct (hr_json r) as [body| |]; cbn [read_json]; rsimpl; [|apply Err; unfold decoding_error; set_solver|done].
  destruct (Vercel.subscript body _) as [choices|e] eqn:E1; rsimpl; [|by eapply Err, subscript_raise].
  destruct (Vercel.first_item choices) as [choice|e] eqn:E2; rsimpl; [|by eapply Err, first_item_raise].
  destruct (Vercel.subscript choice _) as [message|e] eqn:E3; rsimpl; [|by eapply Err, subscript_raise].
  destruct (Vercel.subscript message _) as [content|e] eqn:E4; rsimpl; [|by eapply Err, subscript_raise].
  destruct (match content with PJStr s => _ | _ => _ end) as [txt|e] eqn:E5; rsimpl.
  2: { apply Err. destruct content; inv_result; unfold decoding_error; set_solver. }
  cbv zeta. set (usage := default PJNull _).
  unfold guard_else. destruct (match usage with PJObj u => _ | _ => _ end); rsimpl.
  2: { right; right. split; [by vm_compute|]. split; [apply response_identifiers_safe|done]. }
  destruct (Vercel.token_count (Vercel.obj_get (Some usage) "prompt_tokens")) as [i|] eqn:Ei; rsimpl;
    [|apply Err; unfold decoding_error; set_solver].
  destruct (Vercel.token_count (Vercel.obj_get (Some usage) "completion_tokens")) as [o|] eqn:Eo; rsimpl;
    [|apply Err; unfold decoding_error; set_solver].
  destruct (calculate_cost i o m) as [cost|e] eqn:Ec; rsimpl;
    [|destruct (calculate_cost_raise _ _ _ _ Ec) as [D|D]; [by apply Err|right; left; eauto]].
  destruct (Vercel.termination choice) as [t pt].
  set (c := mk_InferenceResponse _ _ _ _ _ _ _ _ _).
  destruct (InferenceResponse_validate c) as [[]|msg] eqn:Ev; cbn [validated]; rsimpl;
    [|apply Err; unfold decoding_error; set_solver].
  assert (Hc : completion_ok m c).
  { repeat split; try done; by eapply token_count_nonneg. }
  destruct (is_blank txt) eqn:Eb.
  - right; right. split; [by vm_compute|]. split; [apply completion_diagnostics_safe|].
    intros c' [= <-]. split; [done|]. by left.
  - destruct (decide (t = TR_LENGTH)) as [->|Ht].
    + rewrite bool_decide_eq_true_2 by done. right; right. split; [by vm_compute|].
      split; [apply completion_diagnostics_safe|]. intros c' [= <-]. split; [done|]. by right.
    + by rewrite bool_decide_eq_false_2.
Qed.

(** C38. The HTTP adapter has no other outcomes than these: a checked completion of
    its own model that is neither blank nor cut off, with the cost of its
    reported tokens; [ModelDisabledError] for a disabled model; a gateway
    error, which carries a completion only for a blank text or an exhausted
    output budget; what the HTTP client raised when it was neither a timeout
    nor a request error; [RecursionError] for a response whose body nests too
    deeply to be read; or an arithmetic error of the cost of a response it
    decoded. *)
Theorem vercel_outcomes `{C : HttpClient} m settings t rq timeout :
  Vercel.new m = Ok tt ->
  match Vercel.generate_with_timeout m settings t rq timeout with
  | Ok c => enabled m = true /\ completion_ok m c /\ is_blank (text c) = false /\
            termination_reason c <> TR_LENGTH
  | Raise e =>
      (e = Exn C_ModelDisabledError /\ enabled m = false) \/
      (isinstance e C_GatewayError = true /\ rejection_ok m e) \/
      (e = Exn C_ArithmeticError /\ enabled m = true /\ exists post r i o, http_post t post = Ok r /\ Vercel.is_success r = true /\
         calculate_cost i o m = Raise e) \/
      (e = Exn C_RecursionError /\ exists post r, http_post t post = Ok r /\ hr_json r = JsonTooDeep) \/
      (exists post, http_post t post = Raise e /\ isinstance e C_TimeoutError = false /\
         isinstance e C_HttpRequestError = false)
  end.
Proof.
  unfold Vercel.new. intros [_ Hup]%guard_ok%andb_prop.
  unfold Vercel.generate_with_timeout, guard_else.
  destruct (enabled m) eqn:En; rsimpl; [|by left].
  assert (Gw : forall cat, rejection_ok m (GatewayError cat [])) by done.
  destruct (gs_api_key settings) as [key|]; rsimpl; [|right; left; by split; [vm_compute|]].
  destruct (is_blank key); rsimpl; [right; left; by split; [vm_compute|]|].
  unfold dict_mem in Hup. destruct (dict_get UPSTREAM_PROVIDERS _) as [up|]; [|done]. rsimpl. cbv zeta.
  destruct (http_post t _) as [r|e] eqn:Eh.
  - destruct (read_or_too_deep r) as [Td|Td].
    { destruct (Vercel.is_success r); cbn [negb]; [unfold Vercel.decode_completion|unfold Vercel.error_response, Vercel.error_body];
        rewrite Td; right; right; right; left; by eauto. }
    destruct (Vercel.is_success r) eqn:Su; cbn [negb].
    2: { right; left. unfold Vercel.error_response, Vercel.error_body. by destruct (hr_json r). }
    pose proof (decode_completion_spec m rq r Td) as D.
    destruct (Vercel.decode_completion m rq r) as [c|e]; [by destruct D|].
    destruct D as [D|[(-> & i & o & Hc)|(D & _ & Hr)]]; unfold Vercel.decode_error.
    + unfold decoding_error in D.
      repeat (apply elem_of_cons in D as [->|D]; [right; left; by split; [vm_compute|]|]). set_solver.
    + right; right; left. split; [done|]. split; [done|]. do 4 eexists. split; [exact Eh|]. split; [exact Su|exact Hc].
    + rewrite D. right; left. done.
  - destruct (isinstance e C_HttpTimeoutException || isinstance e C_TimeoutError) eqn:E1;
      [right; left; by split; [vm_compute|]|].
    destruct (isinstance e C_HttpRequestError) eqn:E2; [right; left; by split; [vm_compute|]|].
    right; right; right; right. bools. by eexists.
Qed.

(** A client that always answers with one response. *)
Definition fixed_client (r : http_response) : HttpClient := {| http_post := fun _ _ => Ok r |}.

Definition gateway_body (content finish : string) : pyjson :=
  PJObj [(py "choices", PJArr [PJObj [(py "message", PJObj [(py "content", PJStr (py content))]);
                                      (py "finish_reason", PJStr (py finish))]]);
         (py "usage", PJObj [(py "prompt_tokens", PJInt 12); (py "completion_tokens", PJInt 3)])].

Definition http_ok (content finish : string) : http_response :=
  mk_http_response 200 (fun _ => None) (JsonValue (gateway_body content finish)) (f_of_ratio 1 4).

Definition nano : ModelConfig :=
  vercel_model "gateway-nano" "openai/gpt-4.1-nano" 10 40 1047576 (structured true RB_UNSUPPORTED)
    None default_output_token_policy.

Definition example_settings : GatewaySettings := mk_GatewaySettings (Some (py "key")) (f_of_Z 60).

Lemma vercel_outcomes_witness :
  Vercel.new nano = Ok tt /\
  exists c d, @Vercel.generate_with_timeout (fixed_client (http_ok "cut" "length")) nano example_settings 0
    (mk_InferenceRequest (py "hi") None 16 f_zero) (f_of_Z 5) =
    Raise (CompletionRejectedError OUTPUT_BUDGET_EXHAUSTION c d) /\ completion_ok nano c.
Proof.
  assert (Hn : Vercel.new nano = Ok tt) by (vm_compute; reflexivity). split; [exact Hn|].
  pose proof (@vercel_outcomes (fixed_client (http_ok "cut" "length")) nano example_settings 0
    (mk_InferenceRequest (py "hi") None 16 f_zero) (f_of_Z 5) Hn) as H.
  destruct (@Vercel.generate_with_timeout (fixed_client (http_ok "cut" "length")) nano example_settings 0
    (mk_InferenceRequest (py "hi") None 16 f_zero) (f_of_Z 5)) as [c|e] eqn:E; [vm_compute in E; discriminate|].
  vm_compute in E. injection E as <-.
  destruct H as [[H _]|[[_ H]|[[H _]|[[H _]|(p & H & _)]]]]; try discriminate H.
  eexists _, _. split; [reflexivity|]. apply (proj1 (H _ eq_refl)).
Defined.

(* No free text of the gateway or of the completion escapes in the diagnostics
    of an adapter error: every string in them is a short token of letters,
    digits and [._:/-]. *)
Theorem vercel_diagnostics_safe `{C : HttpClient} m settings t rq timeout e k s :
  (forall post e', http_post t post = Raise e' -> error_diag e' = []) ->
  Vercel.generate_with_timeout m settings t rq timeout = Raise e ->
  (k, DStr s) ∈ error_diag e -> token_match safe_punct 255 s = true.
Proof.
  intros Hhttp H Hin.
  assert (S : safe_diag (error_diag e)).
  { unfold Vercel.generate_with_timeout, guard_else in H.
    destruct (enabled m); rsimpl_in H; [|inv_result; constructor].
    destruct (gs_api_key settings) as [key|]; rsimpl_in H; [|inv_result; constructor].
    destruct (is_blank key); rsimpl_in H; [inv_result; constructor|].
    destruct (dict_get UPSTREAM_PROVIDERS _) as [up|]; rsimpl_in H; [|inv_result; constructor].
    cbv zeta in H. destruct (http_post t _) as [r|e'] eqn:Eh.
    - destruct (Vercel.is_success r); cbn [negb] in H.
      2: { inv_result. unfold Vercel.error_response, Vercel.error_body.
           destruct (hr_json r); [apply error_diagnostics_safe..|constructor]. }
      destruct (read_or_too_deep r) as [Td|Td].
      { unfold Vercel.decode_completion in H. rewrite Td in H. rsimpl_in H. injection H as <-. constructor. }
      pose proof (decode_completion_spec m rq r Td) as D.
      destruct (Vercel.decode_completion m rq r) as [c|e']; [discriminate|]. inv_result.
      unfold Vercel.decode_error. destruct (isinstance e' C_GatewayError) eqn:Eg.
      + destruct D as [D|[(-> & _)|(_ & D & _)]]; [|by vm_compute in Eg|done].
        unfold decoding_error in D. repeat (apply elem_of_cons in D as [->|D]; [by vm_compute in Eg|]). set_solver.
      + destruct (_ || _); [apply response_identifiers_safe|]. destruct D as [D|[(-> & _)|(D & _)]]; [|constructor|congruence].
        unfold decoding_error in D. repeat (apply elem_of_cons in D as [->|D]; [constructor|]). set_solver.
    - inv_result. destruct (_ || _); [constructor|]. destruct (isinstance e' C_HttpRequestError); [constructor|].
      rewrite (Hhttp _ _ Eh). constructor. }
  unfold safe_diag in S. rewrite Forall_forall in S. exact (S _ Hin).
Qed.

Lemma vercel_diagnostics_safe_witness :
  exists e, @Vercel.generate_with_timeout (fixed_client (http_ok "  " "stop")) nano example_settings 0
    (mk_InferenceRequest (py "hi") None 16 f_zero) (f_of_Z 5) = Raise e /\
  (forall k s, (k, DStr s) ∈ error_diag e -> token_match safe_punct 255 s = true).
Proof.
  destruct (@Vercel.generate_with_timeout (fixed_client (http_ok "  " "stop")) nano example_settings 0
    (mk_InferenceRequest (py "hi") None 16 f_zero) (f_of_Z 5)) as [c|e] eqn:E; [vm_compute in E; discriminate|].
  exists e. split; [reflexivity|]. intros k s Hin.
  refine (@vercel_diagnostics_safe (fixed_client (http_ok "  " "stop")) _ _ _ _ _ _ k s _ E Hin).
  intros post e' H. discriminate H.
Defined.

(** ** The echo adapter *)

Lemma firstn_length_le {A} (l : list A) n : (0 <= n)%Z ->
  (Z.of_nat (length (firstn (Z.to_nat n) l)) <= n)%Z.
Proof. intros H. rewrite length_take. lia. Qed.

(** The echo adapter keeps its contract: on an enabled model within its window
    and with valid prices it returns at most the requested number of the
    prompt's words, counts them as output, charges their cost, and its
    response satisfies every field constraint; outside the window it raises
    [ContextLimitError]. *)
Theorem fake_generate_spec m rq :
  enabled m = true -> Identifier_ok (model_id m) = true -> Identifier_ok (provider m) = true ->
  rates_ok m -> (0 < rq_max_output_tokens rq)%Z -> 
  let i := Z.of_nat (length (split_ws (prompt rq)) + length (split_ws (default [] (system_prompt rq)))) in
  let o := Z.of_nat (length (firstn (Z.to_nat (rq_max_output_tokens rq)) (split_ws (prompt rq)))) in
  printable i = true -> printable o = true -> (reserved_digits m i o <= Emax)%Z ->
  match FakeProvider.generate m rq with
  | Ok r =>
      (i + rq_max_output_tokens rq <= context_window m)%Z /\
      rs_model_id r = model_id m /\ rs_provider r = provider m /\
      input_tokens r = i /\ output_tokens r = o /\ (o <= rq_max_output_tokens rq)%Z /\
      calculate_cost i o m = Ok (estimated_cost_usd r) /\ InferenceResponse_validate r = Ok tt
  | Raise e => e = Exn C_ContextLimitError /\ (context_window m < i + rq_max_output_tokens rq)%Z
  end.
Proof.
  intros He Hm Hp Hr Hx i o Pi Po Hd. unfold FakeProvider.generate. rewrite He. cbn [guard_else]. rsimpl. cbv zeta.
  fold i. fold o.
  destruct (Z.leb_spec (i + rq_max_output_tokens rq) (context_window m)) as [L|L]; cbn [guard_else]; rsimpl; [|done].
  destruct (calculate_cost_steps i o m Hr) as (c & Hc & Hcp & _); [lia|lia|done..|].
  rewrite Hc. rsimpl. set (r := mk_InferenceResponse _ _ _ _ _ _ _ _ _).
  assert (Hv : InferenceResponse_validate r = Ok tt).
  { unfold InferenceResponse_validate, r. cbn [rs_model_id rs_provider input_tokens output_tokens latency_ms
      estimated_cost_usd provider_termination_reason]. rewrite Hm, Hp. unfold TokenCount_ok, Money_ok.
    rewrite !(proj2 (Z.leb_le 0 _)) by lia. rewrite (proj2 (d_nonneg_int c)) by done. by vm_compute. }
  rewrite Hv. cbn [validated]. rsimpl. repeat split; try done. apply firstn_length_le. lia.
Qed.

Lemma fake_generate_spec_witness :
  exists r, FakeProvider.generate example_model (mk_InferenceRequest (py "a b  c d") None 2 f_zero) = Ok r /\
    text r = py "a b" /\ output_tokens r = 2%Z /\ InferenceResponse_validate r = Ok tt.
Proof.
  pose proof (fake_generate_spec example_model (mk_InferenceRequest (py "a b  c d") None 2 f_zero)
    eq_refl eq_refl eq_refl) as H.
  destruct (FakeProvider.generate example_model (mk_InferenceRequest (py "a b  c d") None 2 f_zero))
    as [r|e] eqn:E; [|vm_compute in E; discriminate].
  exists r. split; [reflexivity|].
  assert (Hr : rates_ok example_model) by (unfold rates_ok; vm_compute; split; discriminate).
  specialize (H Hr eq_refl). cbv zeta in H.
  destruct H as (_ & _ & _ & _ & _ & _ & _ & Hv); [vm_compute; reflexivity..|vm_compute; discriminate|].
  split; [|split; [|exact Hv]]; vm_compute in E; injection E as <-; reflexivity.
Defined.
