(* ===== verification/Adaptive.v ===== *)
(** * Adaptive inference service ([application/adaptive.py])

    Route once, then try the selected candidate and, while its output fails
    validation, the other qualifying candidates in order of projected cost, up
    to three attempts in all.  Attempts go through the inference service; the
    validator is the protocol of [validation/contracts.py]. *)
From S2P Require Import Prelude PyStr PyFloat PyDecimal Schemas Errors Registry Pricing PyNum Deadline Json Validation Observability PyUuid Telemetry Effects Regex Features QualityFeatures Policy Routing Predictor Inference.

(** [ResponseValidator.validate] at a tick. *)
Class ResponseValidator := {
  rv_validate : nat -> InferenceResponse -> option ValidationContract -> result exn ValidationResult
}.

(** [DeterministicResponseValidator], reading the clock at its start and end. *)
Definition deterministic_validator (room : nat) (started finished : nat -> float) : ResponseValidator :=
  {| rv_validate := fun t r c => validate room r c (started t) (finished t) |}.

Record AdaptiveAttempt := mk_AdaptiveAttempt {
  aa_attempt_number : Z;
  aa_model_id : pystr;
  aa_validation : ValidationTelemetry;
  aa_latency_ms : option float;
  aa_estimated_cost_usd : option decimal
}.

Definition AdaptiveAttempt_ok (a : AdaptiveAttempt) : bool :=
  (0 <? aa_attempt_number a)%Z && Identifier_ok (aa_model_id a) &&
  opt_ok nonneg_finite (aa_latency_ms a) && opt_ok Money_ok (aa_estimated_cost_usd a).

Record AdaptiveExecution := mk_AdaptiveExecution {
  ae_attempts : list AdaptiveAttempt;
  ae_escalated : bool;
  ae_validation_outcome : ValidationStatus;
  ae_total_estimated_cost_usd : option decimal;
  ae_total_latency_ms : float
}.

Definition AdaptiveExecution_ok (e : AdaptiveExecution) : bool :=
  opt_ok Money_ok (ae_total_estimated_cost_usd e) && nonneg_finite (ae_total_latency_ms e).

Record AdaptiveInferenceResult := mk_AdaptiveInferenceResult {
  ai_response : InferenceResponse;
  ai_routing_decision : RoutingDecision;
  ai_execution : option AdaptiveExecution
}.

(** ** Accounting of attempts *)

(** [_total_cost]: unknown as soon as one cost is. *)
Definition total_cost (attempts : list AdaptiveAttempt) : result exn (option decimal) :=
  if existsb (fun a => bool_decide (aa_estimated_cost_usd a = None)) attempts then Ok None
  else s ← decimal_error (d_sum default_prec (omap aa_estimated_cost_usd attempts)); Ok (Some s).

(** [_known_cost] *)
Definition known_cost (attempts : list AdaptiveAttempt) : result exn decimal :=
  decimal_error (d_sum default_prec (omap aa_estimated_cost_usd attempts)).

(** [sum(item.latency_ms or 0 for item in attempts)] *)
Definition total_latency (attempts : list AdaptiveAttempt) : float :=
  f_sum (map (fun a => default f_zero (aa_latency_ms a)) attempts).

Definition validation_duration (attempts : list AdaptiveAttempt) : float :=
  f_sum (map (fun a => vt_duration_ms (aa_validation a)) attempts).

(** [_execution] *)
Definition execution_of (attempts : list AdaptiveAttempt) (status : ValidationStatus) :
    result exn AdaptiveExecution :=
  cost ← total_cost attempts;
  let e := mk_AdaptiveExecution attempts (Nat.ltb 1 (length attempts)) status cost (total_latency attempts) in
  _ ← validated (check (AdaptiveExecution_ok e) field_error);
  Ok e.

(** The candidates in the order of escalation: [sorted(key=(cost, id))] keeps
    the first of two equal keys first. *)
Definition cost_key_le (a b : CandidatePrediction) : bool := negb (cost_key_lt b a).

Definition eligible_escalations (routing : RoutingResult) : list CandidatePrediction :=
  py_sorted cost_key_le
    (map sn_candidate
       (List.filter (fun sn => sn_qualifies sn &&
            negb (bool_decide (cp_model_id (sn_candidate sn) = selected_model_id (rr_decision routing))))
          (rr_candidates routing))).

(** [model_ids] of [_generate_validated] *)
Definition attempt_order (max_attempts : nat) (routing : RoutingResult) : list pystr :=
  firstn max_attempts
    (selected_model_id (rr_decision routing) ::
     (if fallback_used (rr_decision routing) then [] else map cp_model_id (eligible_escalations routing))).

Section Service.
Context {E : Env} {V : ResponseValidator} {P : QualityPredictor} {UD : UnicodeData}.
Context (flt : option CandidateEligibilityFilter) (s : InferenceService) (max_validation_attempts : nat).

(** [AdaptiveInferenceService.__init__] *)
Definition max_attempts_ok : bool := Nat.leb 1 max_validation_attempts && Nat.leb max_validation_attempts 3.

(** [_record_execution] *)
Definition record_execution (event : AdaptiveExecutionTelemetry) (d : RequestDeadline) : M unit :=
  best_effort_write (match sv_telemetry s with Some repo => tr_adaptive repo | None => false end)
    (sv_telemetry_timeout s) read_loop_time (py "adaptive") (ax_request_id event) (RowAdaptive event) d.

(** [validate_response] *)
Definition validate_response (r : InferenceResponse) (c : option ValidationContract) : M ValidationResult :=
  t ← tick; lift (rv_validate t r c).

(** What stays fixed during one validated execution. *)
Record execution_context := mk_execution_context {
  ec_id : uuid;
  ec_request_id : pystr;
  ec_request : InferenceRequest;
  ec_validation : ValidationContract;
  ec_decision : RoutingDecision;
  ec_deadline : RequestDeadline;
  ec_total : nat
}.

(** A summary row; [created_at] is read when it is built. *)
Definition execution_event (x : execution_context) (returned : option pystr) (count : nat)
    (validation : ValidationStatus) (terminal : AdaptiveTerminalOutcome) (attempts : list AdaptiveAttempt)
    (complete : bool) (latency : float) (version : option pystr) (codes : list ValidationFailureCode) :
    M AdaptiveExecutionTelemetry :=
  known ← lift (known_cost attempts);
  now ← read_now;
  let e := mk_AdaptiveExecutionTelemetry (ec_id x) (ec_request_id x) (selected_model_id (ec_decision x))
             returned (Z.of_nat count) (Nat.ltb 1 count) validation terminal known complete latency version
             (validation_duration attempts) codes now in
  _ ← lift (validated (check (AdaptiveExecutionTelemetry_ok e) field_error));
  mret e.

Definition last_validation (attempts : list AdaptiveAttempt) : option ValidationTelemetry :=
  aa_validation <$> last attempts.

Definition terminal_of (e : exn) : AdaptiveTerminalOutcome :=
  if isinstance e C_InferenceDeadlineExceededError then AO_DEADLINE_EXCEEDED else AO_PROVIDER_FAILURE.

(** The [except Exception] clause of an attempt. *)
Definition attempt_raised (x : execution_context) (attempt_number : nat) (attempts : list AdaptiveAttempt)
    (e : exn) : M AdaptiveInferenceResult :=
  let status := match last_validation attempts with Some v => vt_status v | None => NOT_RUN end in
  event ← execution_event x None attempt_number status (terminal_of e) attempts false
            (total_latency attempts) (vt_validator_version <$> last_validation attempts) [];
  _ ← record_execution event (ec_deadline x);
  _ ← observe (adaptive_request (AdaptiveTerminalOutcome_value (terminal_of e)) (Nat.ltb 1 attempt_number) false
                 (Z.of_nat attempt_number) (ec_request_id x) (ValidationStatus_value status));
  raise e.

(** The attempt passed: record, report, return. *)
Definition attempt_passed (x : execution_context) (attempts : list AdaptiveAttempt)
    (response : InferenceResponse) (res : ValidationResult) : M AdaptiveInferenceResult :=
  ex ← lift (execution_of attempts (vr_status res));
  event ← execution_event x (Some (rs_model_id response)) (length attempts) (vr_status res) AO_RETURNED attempts
            (negb (bool_decide (ae_total_estimated_cost_usd ex = None))) (ae_total_latency_ms ex)
            (Some (vr_validator_version res)) [];
  _ ← record_execution event (ec_deadline x);
  let recovered := Nat.ltb 1 (length attempts) &&
                   existsb (fun a => bool_decide (vt_status (aa_validation a) = FAILED)) (removelast attempts) in
  _ ← observe (adaptive_request (AdaptiveTerminalOutcome_value AO_RETURNED) (Nat.ltb 1 (length attempts))
                 recovered (Z.of_nat (length attempts)) (ec_request_id x) (ValidationStatus_value (vr_status res)));
  mret (mk_AdaptiveInferenceResult response (ec_decision x) (Some ex)).

(** No further attempt: record, report, raise. *)
Definition attempts_exhausted (x : execution_context) (attempts : list AdaptiveAttempt)
    (res : ValidationResult) : M AdaptiveInferenceResult :=
  ex ← lift (execution_of attempts (vr_status res));
  event ← execution_event x None (length attempts) (vr_status res) AO_VALIDATION_FAILED attempts
            (negb (bool_decide (ae_total_estimated_cost_usd ex = None))) (ae_total_latency_ms ex)
            (Some (vr_validator_version res)) (map vf_code (vr_failures res));
  _ ← record_execution event (ec_deadline x);
  _ ← observe (adaptive_request (AdaptiveTerminalOutcome_value AO_VALIDATION_FAILED)
                 (Nat.ltb 1 (length attempts)) false (Z.of_nat (length attempts)) (ec_request_id x)
                 (ValidationStatus_value (vr_status res)));
  raise (Exn C_ResponseValidationError).

(** [recoverable] *)
Definition recoverable (res : ValidationResult) : bool :=
  bool_decide (vr_status res = FAILED) && nonempty (vr_failures res) &&
  forallb vf_recoverable_by_escalation (vr_failures res).

(** [if deadline.expired(): raise InferenceDeadlineExceededError] *)
Definition check_deadline (d : RequestDeadline) : M unit :=
  late ← deadline_expired d;
  if (late : bool) then raise (Exn C_InferenceDeadlineExceededError) else mret tt.

(** The counters of the failures of one attempt. *)
Fixpoint observe_failures (model_id : pystr) (attempt_number : nat) (fs : list ValidationFailure) : M unit :=
  match fs with
  | [] => mret tt
  | f :: fs' =>
      _ ← observe (validation_failure model_id (ValidationFailureCode_value (vf_code f))
                     (Z.of_nat attempt_number));
      observe_failures model_id attempt_number fs'
  end.

Definition new_attempt (attempt_number : nat) (model_id : pystr) (res : ValidationResult)
    (response : InferenceResponse) : result exn AdaptiveAttempt :=
  vt ← from_result res;
  let a := mk_AdaptiveAttempt (Z.of_nat attempt_number) model_id vt (Some (latency_ms response))
             (Some (estimated_cost_usd response)) in
  _ ← validated (check (AdaptiveAttempt_ok a) field_error);
  Ok a.

(** The loop of [_generate_validated] from an attempt number on. *)
Fixpoint attempt_loop (x : execution_context) (attempt_number : nat) (model_ids : list pystr)
    (attempts : list AdaptiveAttempt) : M AdaptiveInferenceResult :=
  match model_ids with
  | [] => raise (Exn C_AssertionError)
  | model_id :: rest =>
      _ ← check_deadline (ec_deadline x);
      r ← outcome (generate s model_id (ec_request x) (Some (ec_request_id x)) (Some (ec_deadline x)) ADAPTIVE);
      match (match r with
             | Ok response => inl response
             | Raise e => match rejected_completion e with Some c => inl c | None => inr e end
             end) with
      | inr e => if is_exception e then attempt_raised x attempt_number attempts e else raise e
      | inl response =>
          _ ← check_deadline (ec_deadline x);
          res ← validate_response response (Some (ec_validation x));
          _ ← check_deadline (ec_deadline x);
          _ ← observe_failures model_id attempt_number (vr_failures res);
          a ← lift (new_attempt attempt_number model_id res response);
          let attempts := attempts ++ [a] in
          if bool_decide (vr_status res = PASSED) then attempt_passed x attempts response res
          else if negb (recoverable res) || Nat.eqb attempt_number (ec_total x)
          then attempts_exhausted x attempts res
          else attempt_loop x (S attempt_number) rest attempts
      end
  end.

(** [request_id or str(uuid4())]: an empty identifier counts as absent. *)
Definition correlation (request_id : option pystr) : M pystr :=
  match request_id with
  | Some (c :: r) => mret (c :: r)
  | _ => u ← read_uuid; mret (uuid_str u)
  end.

(** [_generate_validated] *)
Definition generate_validated (request : InferenceRequest) (validation : ValidationContract)
    (routing : RoutingResult) (request_id : option pystr) (d : RequestDeadline) : M AdaptiveInferenceResult :=
  execution_id ← read_uuid;
  correlation_id ← correlation request_id;
  let model_ids := attempt_order max_validation_attempts routing in
  attempt_loop (mk_execution_context execution_id correlation_id request validation (rr_decision routing) d
                  (length model_ids)) 1 model_ids [].

(** [_resolve_candidates] *)
Definition resolve_candidates (ids : list pystr) : result exn (list ModelConfig) :=
  result_map (fun id =>
    m ← ModelRegistry.get (sv_registry s) id;
    _ ← guard_else (enabled m) (Exn C_ModelDisabledError);
    _ ← guard_else (ProviderResolver.supports (sv_resolver s) (provider m)) (Exn C_ProviderUnavailableError);
    Ok m) ids.

(** The path without validation: one attempt. *)
Definition generate_unvalidated (request : InferenceRequest) (decision : RoutingDecision)
    (request_id : option pystr) (d : RequestDeadline) : M AdaptiveInferenceResult :=
  correlation_id ← correlation request_id;
  r ← outcome (generate s (selected_model_id decision) request (Some correlation_id) (Some d) ADAPTIVE);
  match r with
  | Raise e =>
      if is_exception e then
        _ ← observe (adaptive_request (AdaptiveTerminalOutcome_value (terminal_of e)) false false 1
                       correlation_id (ValidationStatus_value NOT_RUN));
        raise e
      else raise e
  | Ok response =>
      _ ← observe (adaptive_request (AdaptiveTerminalOutcome_value AO_RETURNED) false false 1 correlation_id
                     (ValidationStatus_value NOT_RUN));
      mret (mk_AdaptiveInferenceResult response decision None)
  end.

(** [AdaptiveInferenceService.generate] *)
Definition adaptive_generate (request : InferenceRequest) (category : option pystr) (threshold : pynum)
    (candidate_model_ids : list pystr) (validation : option ValidationContract)
    (structured_output_required : bool) (request_id : option pystr) (deadline : option RequestDeadline) :
    M AdaptiveInferenceResult :=
  d ← deadline_or_new s deadline;
  _ ← check_deadline d;
  candidates ← lift (resolve_candidates candidate_model_ids);
  routing ← lift (route_with_snapshot flt request candidates threshold category structured_output_required);
  let decision := rr_decision routing in
  _ ← observe (routing_decision (selected_model_id decision) (RoutingDecisionReason_value (reason decision)));
  match validation with
  | None => generate_unvalidated request decision request_id d
  | Some c => generate_validated request c routing request_id d
  end.
End Service.

(** [from_trusted_artifact]: loads a predictor; configured candidates must be
    resolvable and known to the artifact. *)
Definition from_trusted_artifact `{R : PredictorRuntime} (s : InferenceService) (d : artifact_directory)
    (candidate_model_ids : option (list pystr)) : result exn SklearnQualityPredictor :=
  pm ← snd (load_trusted_quality_artifact d);
  predictor ← new_SklearnQualityPredictor pm.1 pm.2;
  match candidate_model_ids with
  | None => Ok predictor
  | Some ids =>
      candidates ← resolve_candidates s ids;
      if subset_of (map model_id candidates) (metadata_candidates (sk_metadata predictor)) then Ok predictor
      else Raise (Exn C_UnsupportedPredictorCandidateError)
  end.

(** ** Steps that call no adapter *)

Section CallFree.
Context {E : Env}.

Definition call_free {A : Type} (m : M A) : Prop := forall w, post m w (fun _ w' => same_calls w w').

Lemma call_free_bind {A B} (m : M A) (f : A -> M B) :
  call_free m -> (forall a, call_free (f a)) -> call_free (x ← m; f x).
Proof.
  intros Hm Hf w. apply post_bind. eapply post_mono; [apply Hm|]. intros [a|e] w1 C; cbv beta iota; [|done].
  eapply post_mono; [apply Hf|]. intros r w2 C2. unfold same_calls in *. congruence.
Qed.

Lemma call_free_reading {A} (m : M A) : reading m -> call_free m.
Proof. intros H w. destruct (H w) as (a & w' & Em & Q & _). unfold post. by rewrite Em. Qed.

Lemma call_free_lift {A} (r : result exn A) : call_free (lift r).
Proof. by intros w. Qed.
Lemma call_free_ret {A} (a : A) : call_free (mret a).
Proof. by intros w. Qed.
Lemma call_free_raise {A} e : call_free (raise (A := A) e).
Proof. by intros w. Qed.
Lemma call_free_observe f : call_free (observe f).
Proof. by intros w. Qed.

Lemma call_free_best_effort configured mx clock rt rid row d : reading clock ->
  call_free (best_effort_write configured mx clock rt rid row d).
Proof.
  intros Hc w. eapply post_mono; [by apply best_effort_write_spec|]. by intros r w' [[C _] _].
Qed.

Lemma post_call_free {A B} (m : M A) (f : A -> M B) w (Q : result exn B -> world -> Prop) :
  call_free m -> (forall e w', same_calls w w' -> Q (Raise e) w') ->
  (forall a w', same_calls w w' -> post (f a) w' Q) -> post (x ← m; f x) w Q.
Proof.
  intros Hm He Hf. apply post_bind. eapply post_mono; [apply Hm|]. intros [a|e] w1 C; cbv beta iota; auto.
Qed.
End CallFree.

Create HintDb calls.
#[export] Hint Resolve call_free_bind call_free_lift call_free_ret call_free_raise call_free_observe
  call_free_best_effort reading_loop_time reading_perf : calls.

Section Facts.
Context {E : Env} {V : ResponseValidator} (s : InferenceService).

Lemma call_free_check_deadline d : call_free (check_deadline d).
Proof.
  apply call_free_bind; [apply call_free_reading, reading_expired|]. intros []; auto with calls.
Qed.

Lemma call_free_validate r c : call_free (validate_response r c).
Proof. apply call_free_bind; [apply call_free_reading, reading_tick|]. auto with calls. Qed.

Lemma call_free_failures id n fs : call_free (observe_failures id n fs).
Proof. induction fs; simpl; auto with calls. Qed.

Lemma call_free_event x returned count v t attempts c l ver codes :
  call_free (execution_event x returned count v t attempts c l ver codes).
Proof.
  apply call_free_bind; [auto with calls|]. intros k.
  apply call_free_bind; [apply call_free_reading, reading_now|]. auto with calls.
Qed.

Lemma call_free_record e d : call_free (record_execution s e d).
Proof. apply call_free_best_effort, reading_loop_time. Qed.

(** A sequence that ends in [raise] returns nothing. *)
Definition never_returns {A : Type} (m : M A) : Prop :=
  forall w, post m w (fun r w' => same_calls w w' /\ is_ok r = false).

Lemma never_returns_bind {A B} (m : M A) (f : A -> M B) :
  call_free m -> (forall a, never_returns (f a)) -> never_returns (x ← m; f x).
Proof.
  intros Hm Hf w. apply post_call_free; [done|done|]. intros a w' C.
  eapply post_mono; [apply Hf|]. intros r w2 [C2 H]. unfold same_calls in *. split; [congruence|done].
Qed.

Lemma never_returns_raise {A} e : never_returns (raise (A := A) e).
Proof. by intros w. Qed.

Lemma attempt_raised_spec x n attempts e : never_returns (attempt_raised s x n attempts e).
Proof.
  unfold attempt_raised. apply never_returns_bind; [apply call_free_event|]. intros ev.
  apply never_returns_bind; [apply call_free_record|]. intros _.
  apply never_returns_bind; [auto with calls|]. intros _. apply never_returns_raise.
Qed.

Lemma attempts_exhausted_spec x attempts res : never_returns (attempts_exhausted s x attempts res).
Proof.
  unfold attempts_exhausted. apply never_returns_bind; [auto with calls|]. intros ex.
  apply never_returns_bind; [apply call_free_event|]. intros ev.
  apply never_returns_bind; [apply call_free_record|]. intros _.
  apply never_returns_bind; [auto with calls|]. intros _. apply never_returns_raise.
Qed.

Lemma attempt_passed_spec x attempts response res w :
  post (attempt_passed s x attempts response res) w (fun r w' =>
    same_calls w w' /\
    forall out, r = Ok out -> exists ex, execution_of attempts (vr_status res) = Ok ex /\
      out = mk_AdaptiveInferenceResult response (ec_decision x) (Some ex)).
Proof.
  unfold attempt_passed. apply post_bind, post_lift.
  destruct (execution_of attempts (vr_status res)) as [ex|e]; [|done].
  apply post_call_free; [apply call_free_event|done|]. intros ev w1 C1.
  apply post_call_free; [apply call_free_record|intros; split; [unfold same_calls in *; congruence|done]|].
  intros [] w2 C2. apply post_call_free; [auto with calls|intros; split; [unfold same_calls in *; congruence|done]|].
  intros [] w3 C3. apply post_ret. split; [unfold same_calls in *; congruence|].
  intros out Ho. injection Ho as <-. by exists ex.
Qed.

(** Where the response of an attempt came from. *)
Definition from_attempt (id : pystr) (rq : InferenceRequest) (resp : InferenceResponse) : Prop :=
  rs_model_id resp = id \/
  exists rid d w e, (generate s id rq (Some rid) (Some d) ADAPTIVE w).1 = Raise e /\
    rejected_completion e = Some resp.

(** An attempt reports the latency and the cost of the response it validated. *)
Definition attempt_of (rq : InferenceRequest) (a : AdaptiveAttempt) (resp : InferenceResponse) : Prop :=
  aa_latency_ms a = Some (latency_ms resp) /\ aa_estimated_cost_usd a = Some (estimated_cost_usd resp) /\
  from_attempt (aa_model_id a) rq resp.

(** A result of the loop: the attempts it added, all but the last failed, the
    last passed on the returned response. *)
Definition loop_returns (x : execution_context) (n : nat) (ids : list pystr) (attempts : list AdaptiveAttempt)
    (out : AdaptiveInferenceResult) : Prop :=
  exists pre a ex t vr resps,
    out = mk_AdaptiveInferenceResult (ai_response out) (ec_decision x) (Some ex) /\
    execution_of (attempts ++ pre ++ [a]) PASSED = Ok ex /\
    map aa_model_id (pre ++ [a]) `prefix_of` ids /\
    map aa_attempt_number (pre ++ [a]) = map Z.of_nat (seq n (length (pre ++ [a]))) /\
    Forall (fun b => vt_status (aa_validation b) = FAILED) pre /\
    vt_status (aa_validation a) = PASSED /\
    Forall2 (attempt_of (ec_request x)) pre resps /\ attempt_of (ec_request x) a (ai_response out) /\
    rv_validate t (ai_response out) (Some (ec_validation x)) = Ok vr /\ vr_status vr = PASSED.

Lemma new_attempt_ok n id res resp a : new_attempt n id res resp = Ok a ->
  aa_attempt_number a = Z.of_nat n /\ aa_model_id a = id /\ vt_status (aa_validation a) = vr_status res /\
  aa_latency_ms a = Some (latency_ms resp) /\ aa_estimated_cost_usd a = Some (estimated_cost_usd resp).
Proof.
  unfold new_attempt, from_result. intros H. apply bind_ok in H as (vt & Hvt & H).
  apply bind_ok in Hvt as (u1 & _ & Hvt). apply bind_ok in H as (u2 & _ & H). inv_result. done.
Qed.

Definition loop_post (x : execution_context) (n : nat) (ids : list pystr) (attempts : list AdaptiveAttempt)
    (w : world) (r : result exn AdaptiveInferenceResult) (w' : world) : Prop :=
  (exists l, w_calls w' = w_calls w ++ l /\ sublist (map pc_model_id l) ids /\
     Forall (fun c => pc_request c = ec_request x) l) /\
  (forall out, r = Ok out -> loop_returns x n ids attempts out).

Lemma loop_post_calls x n ids attempts w1 w2 r w' : same_calls w1 w2 ->
  loop_post x n ids attempts w2 r w' -> loop_post x n ids attempts w1 r w'.
Proof. unfold loop_post, same_calls. intros C [(l & Hl & H) Hr]. split; [|done]. exists l. split; [congruence|done]. Qed.

Lemma loop_post_raise x n ids attempts w e w' : same_calls w w' -> loop_post x n ids attempts w (Raise e) w'.
Proof.
  intros C. split; [|done]. exists []. rewrite app_nil_r. split; [done|]. split; [apply sublist_nil_l|constructor].
Qed.

(** After the first call: what is left runs on the remaining candidates. *)
Lemma loop_post_cons x n id ids attempts b c w1 w2 r w' :
  w_calls w2 = w_calls w1 ++ c -> (c = [] \/ c = [mk_provider_call id (ec_request x)]) ->
  aa_model_id b = id -> aa_attempt_number b = Z.of_nat n -> vt_status (aa_validation b) = FAILED ->
  (exists resp, attempt_of (ec_request x) b resp) -> loop_post x (S n) ids (attempts ++ [b]) w2 r w' -> loop_post x n (id :: ids) attempts w1 r w'.
Proof.
  intros Hc Hcc Hid Hn Hf (resp & Hb) [(l & Hl & Hs & Hrq) Hr]. split.
  - exists (c ++ l). rewrite Hl, Hc, app_assoc. split; [done|]. rewrite map_app.
    destruct Hcc as [-> | ->]; cbn [map app pc_model_id].
    + split; [by apply sublist_cons|done].
    + split; [by apply sublist_skip|by constructor].
  - intros out Ho. destruct (Hr out Ho) as (pre & a & ex & t & vr & resps & H1 & H2 & H3 & H4 & H5 & H6 & H7 & H8).
    exists (b :: pre), a, ex, t, vr, (resp :: resps). split; [done|]. split; [by rewrite <- app_assoc in H2|].
    cbn [app map]. rewrite Hid, Hn. split; [by apply prefix_cons|].
    split; [cbn [length seq map]; by rewrite H4|]. split; [by constructor|]. split; [done|]. split; [by constructor|done].
Qed.

(** The first call of an attempt and what it may have returned. *)
Definition attempt_call (id : pystr) (rq : InferenceRequest) (w w' : world) : Prop :=
  exists c, w_calls w' = w_calls w ++ c /\ (c = [] \/ c = [mk_provider_call id rq]).

Lemma generate_attempt_call id rq rid d mode w : ModelRegistry.wf (sv_registry s) ->
  mode = EXPLICIT \/ mode = ADAPTIVE ->
  post (generate s id rq (Some rid) (Some d) mode) w (fun r w' =>
    attempt_call id rq w w' /\ forall resp, r = Ok resp -> rs_model_id resp = id).
Proof.
  intros Hwf Hm. eapply post_mono; [by apply generate_spec|]. intros r w' [(e & -> & [C _] & _)|(m & Hg & Hc & _ & Hr)].
  - split; [|done]. exists []. rewrite app_nil_r. split; [done|by left].
  - apply ModelRegistry.get_in in Hg as [_ <-]; [|done]. split.
    + destruct Hc as [C|C]; [exists []; rewrite app_nil_r; split; [done|by left]|].
      eexists. split; [exact C|by right].
    + intros resp ->. by destruct Hr as (_ & _ & -> & _).
Qed.

Lemma loop_post_quiet_cons x n id ids attempts w w2 e : attempt_call id (ec_request x) w w2 ->
  loop_post x n (id :: ids) attempts w (Raise e) w2.
Proof.
  intros (c & Hc & Hcc). split; [|done]. exists c. split; [done|].
  destruct Hcc as [-> | ->]; cbn [map pc_model_id]; (split; [|by repeat constructor]).
  - apply sublist_nil_l.
  - apply sublist_skip, sublist_nil_l.
Qed.

Lemma attempt_call_then id rq w w1 w2 : same_calls w1 w2 -> attempt_call id rq w w1 -> attempt_call id rq w w2.
Proof. unfold same_calls. intros C (c & Hc & H). exists c. split; [congruence|done]. Qed.

Lemma attempt_loop_spec x n ids attempts w : ModelRegistry.wf (sv_registry s) ->
  post (attempt_loop s x n ids attempts) w (loop_post x n ids attempts w).
Proof.
  intros Hwf. revert n attempts w. induction ids as [|id ids IH]; intros n attempts w.
  { apply post_raise. by apply loop_post_raise. }
  cbn [attempt_loop]. apply post_call_free; [apply call_free_check_deadline|intros; by apply loop_post_raise|].
  intros [] w1 C1. apply post_bind, post_outcome.
  pose proof (generate_attempt_call id (ec_request x) (ec_request_id x) (ec_deadline x) ADAPTIVE w1 Hwf
    (or_intror eq_refl)) as Hg.
  unfold post in Hg |- * at 1.
  destruct (generate s id (ec_request x) (Some (ec_request_id x)) (Some (ec_deadline x)) ADAPTIVE w1)
    as [r w2] eqn:Eg. cbn [fst snd] in *. destruct Hg as [Hcall Hmodel].
  assert (Hcw : attempt_call id (ec_request x) w w2).
  { destruct Hcall as (c & Hc & H). exists c. unfold same_calls in C1. split; [congruence|done]. }
  clear Hcall C1. destruct (match r with Ok _ => _ | Raise _ => _ end) as [resp|e] eqn:Er.
  2: { destruct (is_exception e); [|apply post_raise; by apply loop_post_quiet_cons].
       eapply post_mono; [apply attempt_raised_spec|]. intros [out|e'] w3 [C Hr]; [done|].
       apply loop_post_quiet_cons. by apply (attempt_call_then _ _ _ w2). }
  assert (Hfrom : from_attempt id (ec_request x) resp).
  { destruct r as [resp'|e]; [left; injection Er as <-; by apply Hmodel|].
    destruct (rejected_completion e) as [c|] eqn:Ec; [|done]. injection Er as <-. right.
    exists (ec_request_id x), (ec_deadline x), w1, e. by rewrite Eg. }
  clear Er Hmodel Eg.
  assert (Hraise : forall e w', same_calls w2 w' -> loop_post x n (id :: ids) attempts w (Raise e) w').
  { intros e w' C. apply loop_post_quiet_cons. by apply (attempt_call_then _ _ _ w2). }
  apply post_call_free; [apply call_free_check_deadline|done|]. intros [] w3 C3.
  unfold validate_response. apply post_bind, post_bind. unfold post at 1. cbn [tick fst snd].
  set (w4 := mk_world _ _ _ _). assert (C4 : same_calls w2 w4) by (unfold same_calls in *; done).
  apply post_lift. destruct (rv_validate (w_tick w3) resp (Some (ec_validation x))) as [res|e] eqn:Ev; [|by apply Hraise].
  clearbody w4. assert (Htr : forall w5 w6, same_calls w2 w5 -> same_calls w5 w6 -> same_calls w2 w6)
    by (unfold same_calls; congruence).
  apply post_call_free; [apply call_free_check_deadline|intros; apply Hraise; by eapply Htr|]. intros [] w5 C5.
  apply post_call_free; [apply call_free_failures|intros; apply Hraise; eauto|]. intros [] w6 C6.
  apply post_bind, post_lift. destruct (new_attempt n id res resp) as [a|e] eqn:Ea; [|apply Hraise; eauto].
  apply new_attempt_ok in Ea as (An & Aid & As & Al & Ac). cbv zeta.
  assert (Hof : attempt_of (ec_request x) a resp) by (unfold attempt_of; by rewrite Aid).
  assert (C : same_calls w2 w6) by eauto. clear C3 C4 C5 C6.
  destruct (bool_decide (vr_status res = PASSED)) eqn:Ep; bools.
  - eapply post_mono; [apply attempt_passed_spec|]. intros [out|e'] w7 [C7 Hr]; [|apply Hraise; eauto].
    destruct (Hr out eq_refl) as (ex & Hex & ->). split.
    + destruct (Hraise (Exn C_ValueError) w7) as [H _]; [eauto|]. exact H.
    + intros out Ho. injection Ho as <-. exists [], a, ex, (w_tick w3), res, []. cbn [app map length seq ai_response].
      rewrite Ep in Hex. rewrite Aid, An, As, Ep. split; [done|]. split; [done|].
      split; [by apply prefix_cons, prefix_nil|]. do 2 (split; [done|]). auto 7.
  - destruct (negb (recoverable res) || Nat.eqb n (ec_total x)) eqn:Erec.
    + eapply post_mono; [apply attempts_exhausted_spec|]. intros [out|e'] w7 [C7 Hr]; [done|]. apply Hraise; eauto.
    + apply orb_false_iff in Erec as [Erec _]. apply negb_false_iff in Erec. unfold recoverable in Erec. bools.
      eapply post_mono; [apply IH|]. intros r' w7 Hl.
      destruct Hcw as (c & Hc & Hcc).
      eapply (loop_post_cons x n id ids attempts a c w w6); [|done|done|done|congruence|by eexists|done].
      unfold same_calls in C. congruence.
Qed.
End Facts.

(** ** The order of escalation *)

Lemma py_sorted_ext {A} (le le' : A -> A -> bool) l :
  (forall a b, le a b = le' a b) -> py_sorted le l = py_sorted le' l.
Proof.
  intros H. induction l as [|x l IH]; [done|]. cbn [py_sorted]. rewrite IH. generalize (py_sorted le' l).
  intros k. induction k as [|y k IHk]; [done|]. cbn [insert_sorted]. rewrite H. by destruct (le' x y); [|rewrite IHk].
Qed.

Lemma cost_key_le_cmp a b : cost_key_le a b = cmp_le cost_cmp a b.
Proof.
  unfold cost_key_le. by rewrite cost_key_lt_cmp, (cmp_lt_not_le cost_cmp), negb_involutive.
Qed.

(** The candidates of a routing result and the policy's choice among them. *)
Lemma routing_decided {P : QualityPredictor} flt f cs v routing :
  route_features_with_snapshot flt f cs v = Ok routing ->
  exists t c0 priced,
    rr_decision routing = decision_of t c0 priced /\
    rr_candidates routing = map (snapshot_of (rr_decision routing)) (c0 :: priced) /\
    NoDup (map cp_model_id (c0 :: priced)).
Proof.
  intros H. apply route_features_ok in H as (el & ps & priced & _ & Hnd & _ & _ & Hf & Hr & Hs).
  apply price_candidates_ok in Hf as [Hids Hok]. rewrite <- Hids in Hnd.
  destruct priced as [|c0 priced]; [discriminate|]. rewrite route_steps in Hr by done.
  apply bind_ok in Hr as (t & _ & Hr). destruct (all_distinct _); [|done]. injection Hr as Hr.
  by exists t, c0, priced.
Qed.

Lemma NoDup_map_subset (l k : list CandidatePrediction) :
  NoDup (map cp_model_id l) -> NoDup k -> (forall x, x ∈ k -> x ∈ l) -> NoDup (map cp_model_id k).
Proof.
  intros Hl Hk Hs. induction Hk as [|x k Hx Hk IH]; [constructor|]. cbn [map]. apply NoDup_cons. split.
  - intros (y & Ey & Hy)%list_elem_of_In%in_map_iff. apply Hx.
    rewrite (NoDup_map_same cp_model_id l x y); [by apply list_elem_of_In|done| | |done].
    + apply Hs, elem_of_cons. by left.
    + apply Hs, elem_of_cons. right. by apply list_elem_of_In.
  - apply IH. intros y Hy. apply Hs, elem_of_cons. by right.
Qed.

(** The escalation candidates of a routing result: the qualifying ones but the
    selected, sorted by cost. *)
Lemma eligible_escalations_spec routing t c0 priced :
  rr_decision routing = decision_of t c0 priced ->
  rr_candidates routing = map (snapshot_of (rr_decision routing)) (c0 :: priced) ->
  NoDup (map cp_model_id (c0 :: priced)) ->
  let s := select t c0 priced in
  (forall c, c ∈ eligible_escalations routing <-> (c ∈ c0 :: priced /\ qualifies t c = true /\ c <> s)) /\
  NoDup (eligible_escalations routing) /\
  StronglySorted (fun a b => cmp_le cost_cmp a b = true) (eligible_escalations routing).
Proof.
  intros Hd Hc Hnd s. unfold eligible_escalations.
  rewrite (py_sorted_ext _ (cmp_le cost_cmp)) by apply cost_key_le_cmp.
  set (k := map sn_candidate _).
  assert (Hk : k = List.filter (fun c => qualifies t c && negb (bool_decide (cp_model_id c = cp_model_id s)))
                     (c0 :: priced)).
  { unfold k. rewrite Hc, Hd. clear. generalize (c0 :: priced) as l. subst s.
    set (q := fun sn => _). set (d := decision_of _ _ _).
    induction l as [|c l IH]; [done|]. cbn [map List.filter].
    change (q (snapshot_of d c)) with (qualifies t c && negb (bool_decide (cp_model_id c = cp_model_id (select t c0 priced)))).
    destruct (qualifies t c && _); cbn [map sn_candidate snapshot_of]; by rewrite IH. }
  assert (Hin : forall c, c ∈ k <-> (c ∈ c0 :: priced /\ qualifies t c = true /\ c <> s)).
  { intros c. rewrite Hk, !list_elem_of_In, filter_In, andb_true_iff, negb_true_iff, bool_decide_eq_false.
    rewrite <- !list_elem_of_In. split; [intros (Hin & Hq & Hne); split; [done|]; split; [done|congruence]|].
    intros (Hin & Hq & Hne). split; [done|]. split; [done|]. intros E. apply Hne.
    apply (NoDup_map_same cp_model_id (c0 :: priced)); [done|done|apply select_in|done]. }
  split; [|split].
  - intros c. by rewrite elem_of_py_sorted.
  - rewrite py_sorted_perm, Hk. apply NoDup_ListNoDup, List.NoDup_filter.
    by apply (NoDup_map_inv cp_model_id), NoDup_ListNoDup.
  - apply (py_sorted_sorted cost_cmp).
Qed.

Lemma decision_fallback t c0 priced :
  fallback_used (decision_of t c0 priced) = false ->
  qualifies t (select t c0 priced) = true /\
  forall c, c ∈ c0 :: priced -> qualifies t c = true -> cmp_le cost_cmp (select t c0 priced) c = true.
Proof.
  unfold decision_of. cbn [fallback_used]. intros H. pose proof (select_spec t c0 priced) as S. cbv zeta in S.
  by destruct (List.filter (qualifies t) (c0 :: priced)).
Qed.

Lemma escalation_spec {P : QualityPredictor} flt f cs v routing max :
  route_features_with_snapshot flt f cs v = Ok routing ->
  exists s rest,
    attempt_order max routing = firstn max (map cp_model_id (s :: rest)) /\
    cp_model_id s = selected_model_id (rr_decision routing) /\
    s ∈ map sn_candidate (rr_candidates routing) /\
    NoDup (map cp_model_id (s :: rest)) /\
    (if fallback_used (rr_decision routing) then rest = []
     else StronglySorted cheaper_or_first (s :: rest) /\
          forall c, c ∈ s :: rest <->
            exists sn, sn ∈ rr_candidates routing /\ sn_candidate sn = c /\ sn_qualifies sn = true).
Proof.
  intros H. apply routing_decided in H as (t & c0 & priced & Hd & Hc & Hnd).
  pose proof (eligible_escalations_spec routing t c0 priced Hd Hc Hnd) as (Hin & Hnr & Hsort).
  set (s := select t c0 priced) in *. set (rest := if fallback_used (rr_decision routing) then [] else eligible_escalations routing).
  assert (Hsin : s ∈ c0 :: priced) by apply select_in.
  assert (Hr : forall c, c ∈ rest -> c ∈ c0 :: priced /\ qualifies t c = true /\ c <> s).
  { intros c. unfold rest. destruct (fallback_used _); [by intros ?%elem_of_nil|apply Hin]. }
  assert (Hsel : cp_model_id s = selected_model_id (rr_decision routing)) by by rewrite Hd.
  exists s, rest. split; [unfold attempt_order, rest; rewrite <- Hsel; by destruct (fallback_used _)|].
  split; [done|]. split.
  { rewrite Hc, map_map. cbn [sn_candidate snapshot_of]. by rewrite map_id. }
  split.
  { apply (NoDup_map_subset (c0 :: priced)); [done| |].
    - apply NoDup_cons. split; [intros (_ & _ & Hs)%Hr; by apply Hs|]. unfold rest. destruct (fallback_used _); [constructor|done].
    - intros c [->|Hx]%elem_of_cons; [done|]. by apply Hr. }
  unfold rest in *. destruct (fallback_used (rr_decision routing)) eqn:Ef; [done|].
  rewrite Hd in Ef. apply decision_fallback in Ef as [Hq Hmin]. split.
  - assert (S : StronglySorted (fun a b => cmp_le cost_cmp a b = true) (s :: eligible_escalations routing)).
    { constructor; [done|]. apply Forall_forall. intros c (Hx & Hqc & _)%Hr. by apply Hmin. }
    clear -S. induction S as [|a l S IH F]; constructor; [done|]. eapply Forall_impl; [exact F|].
    intros b. apply cost_cmp_le.
  - intros c. rewrite elem_of_cons, Hin, Hc. setoid_rewrite list_elem_of_In. setoid_rewrite in_map_iff.
    setoid_rewrite <- list_elem_of_In. rewrite Hd. split.
    + intros [->|(Hx & Hqc & _)].
      * exists (snapshot_of (decision_of t c0 priced) s). split; [by exists s|]. by split.
      * exists (snapshot_of (decision_of t c0 priced) c). split; [by exists c|]. by split.
    + intros (sn & (c' & <- & Hx) & <- & Hqc). cbn [sn_candidate snapshot_of sn_qualifies] in *.
      destruct (decide (c' = s)) as [->|]; [by left|]. right. done.
Qed.


(** C11. The order in which models are tried: the policy's choice first; when it met
    the threshold, then exactly the other qualifying candidates, each once, from
    the cheapest projected cost up with ties by identifier; when the choice was
    a fallback, no other model.  The list is cut at the number of attempts. *)
Theorem escalation_order {P : QualityPredictor} flt f cs v routing max :
  route_features_with_snapshot flt f cs v = Ok routing ->
  exists s rest,
    attempt_order max routing = firstn max (map cp_model_id (s :: rest)) /\
    cp_model_id s = selected_model_id (rr_decision routing) /\
    s ∈ map sn_candidate (rr_candidates routing) /\
    NoDup (map cp_model_id (s :: rest)) /\
    (if fallback_used (rr_decision routing) then rest = []
     else StronglySorted cheaper_or_first (s :: rest) /\
          forall c, c ∈ s :: rest <->
            exists sn, sn ∈ rr_candidates routing /\ sn_candidate sn = c /\ sn_qualifies sn = true).
Proof. apply escalation_spec. Qed.

(** ** Whole requests *)

Lemma execution_of_ok attempts status ex : execution_of attempts status = Ok ex ->
  ae_attempts ex = attempts /\ ae_escalated ex = Nat.ltb 1 (length attempts) /\
  ae_validation_outcome ex = status /\ total_cost attempts = Ok (ae_total_estimated_cost_usd ex) /\
  ae_total_latency_ms ex = total_latency attempts.
Proof.
  unfold execution_of. intros H. apply bind_ok in H as (c & Hc & H). apply bind_ok in H as (u & _ & H).
  by inv_result.
Qed.

Lemma attempt_order_length max routing : length (attempt_order max routing) <= max.
Proof. unfold attempt_order. rewrite length_take. lia. Qed.

Section Requests.
Context {E : Env} {V : ResponseValidator} {P : QualityPredictor} {UD : UnicodeData}.
Context (flt : option CandidateEligibilityFilter) (s : InferenceService) (max : nat).
Context (Hwf : ModelRegistry.wf (sv_registry s)).

Lemma correlation_spec request_id : call_free (correlation request_id).
Proof.
  destruct request_id as [[|c r]|]; [|apply call_free_ret|];
    (apply call_free_bind; [apply call_free_reading, reading_uuid|auto with calls]).
Qed.

(** What every validated execution guarantees, whatever the adapters do. *)
Definition execution_post (request : InferenceRequest) (c : ValidationContract) (routing : RoutingResult)
    (w : world) (r : result exn AdaptiveInferenceResult) (w' : world) : Prop :=
  (exists l, w_calls w' = w_calls w ++ l /\ sublist (map pc_model_id l) (attempt_order max routing) /\
     Forall (fun p => pc_request p = request) l) /\
  (forall out, r = Ok out -> exists pre a ex t vr resps,
     out = mk_AdaptiveInferenceResult (ai_response out) (rr_decision routing) (Some ex) /\
     ae_attempts ex = pre ++ [a] /\
     map aa_model_id (pre ++ [a]) `prefix_of` attempt_order max routing /\
     map aa_attempt_number (pre ++ [a]) = map Z.of_nat (seq 1 (length (pre ++ [a]))) /\
     Forall (fun b => vt_status (aa_validation b) = FAILED) pre /\
     vt_status (aa_validation a) = PASSED /\ ae_validation_outcome ex = PASSED /\
     ae_escalated ex = nonempty pre /\
     Forall2 (attempt_of s request) (pre ++ [a]) (resps ++ [ai_response out]) /\
     (exists total, d_sum default_prec (map estimated_cost_usd (resps ++ [ai_response out])) = Ok total /\
        ae_total_estimated_cost_usd ex = Some total) /\
     ae_total_latency_ms ex = f_sum (map latency_ms (resps ++ [ai_response out])) /\
     rv_validate t (ai_response out) (Some c) = Ok vr /\ vr_status vr = PASSED).

Lemma total_latency_of request attempts resps : Forall2 (attempt_of s request) attempts resps ->
  total_latency attempts = f_sum (map latency_ms resps).
Proof. intros H. unfold total_latency. f_equal. induction H as [|a resp l k (L & _) _ IH]; [done|]. cbn [map]. by rewrite L, IH. Qed.

Lemma total_cost_of request attempts resps c : Forall2 (attempt_of s request) attempts resps ->
  total_cost attempts = Ok c -> exists total, d_sum default_prec (map estimated_cost_usd resps) = Ok total /\ c = Some total.
Proof.
  intros H. unfold total_cost.
  assert (Es : existsb (fun a => bool_decide (aa_estimated_cost_usd a = None)) attempts = false /\
              omap aa_estimated_cost_usd attempts = map estimated_cost_usd resps).
  { induction H as [|a resp l k (_ & C & _) _ [IH1 IH2]]; [done|]. cbn. rewrite C. split; [by rewrite IH1|by f_equal]. }
  destruct Es as [-> ->]. intros T. apply bind_ok in T as (total & T & [= <-]). exists total. split; [|done].
  unfold decimal_error in T. by destruct (d_sum _ _); inv_result.
Qed.

Lemma generate_validated_spec request c routing request_id d w :
  post (generate_validated s max request c routing request_id d) w (execution_post request c routing w).
Proof.
  assert (Hr : forall e w', same_calls w w' -> execution_post request c routing w (Raise e) w').
  { intros e w' C. split; [|done]. exists []. rewrite app_nil_r. split; [done|].
    split; [apply sublist_nil_l|constructor]. }
  unfold generate_validated. apply post_call_free; [apply call_free_reading, reading_uuid|done|].
  intros u w1 C1. apply post_call_free; [apply correlation_spec| |].
  { intros e w2 C2. apply Hr. unfold same_calls in *. congruence. }
  intros cid w2 C2. cbv zeta. eapply post_mono; [by apply attempt_loop_spec|]. intros r w' [Hc Ho]. split.
  { destruct Hc as (l & Hl & H). exists l. unfold same_calls in *. split; [congruence|exact H]. }
  intros out Hout. destruct (Ho out Hout) as (pre & a & ex & t & vr & resps & H1 & H2 & H3 & H4 & H5 & H6 & H7 & H8 & H9 & H10).
  apply execution_of_ok in H2 as (A1 & A2 & A3 & A4 & A5). cbn [app ec_validation ec_decision ec_request] in *.
  assert (Hesc : ae_escalated ex = nonempty pre).
  { rewrite A2, length_app. destruct pre; [done|]. cbn [length nonempty]. apply Nat.ltb_lt. lia. }
  assert (F : Forall2 (attempt_of s request) (pre ++ [a]) (resps ++ [ai_response out])) by (apply Forall2_app; [done|constructor; [done|constructor]]).
  rewrite (total_latency_of request _ _ F) in A5. apply (total_cost_of request _ _ _ F) in A4 as (total & A4 & A6).
  exists pre, a, ex, t, vr, resps. repeat (split; [solve [eauto]|]). done.
Qed.

(** The unvalidated path calls only the selected model. *)
Lemma generate_unvalidated_spec request decision request_id d w :
  post (generate_unvalidated s request decision request_id d) w (fun r w' =>
    attempt_call (selected_model_id decision) request w w' /\
    forall out, r = Ok out -> exists resp, out = mk_AdaptiveInferenceResult resp decision None /\
      rs_model_id resp = selected_model_id decision).
Proof.
  unfold generate_unvalidated. apply post_call_free; [apply correlation_spec| |].
  { intros e w' C. split; [|done]. exists []. rewrite app_nil_r. split; [done|by left]. }
  intros cid w1 C1. apply post_bind, post_outcome. eapply post_mono; [apply generate_attempt_call; auto|].
  intros r w2 [(c & Hc & Hcc) Hm]. cbv beta iota.
  assert (Hcw : forall w', same_calls w2 w' -> attempt_call (selected_model_id decision) request w w').
  { intros w' C. exists c. unfold same_calls in *. split; [congruence|done]. }
  destruct r as [resp|e].
  - apply post_call_free; [auto with calls|by intros; split; [apply Hcw|]|]. intros [] w3 C3. apply post_ret. split; [by apply Hcw|].
    intros out Ho. injection Ho as <-. exists resp. split; [done|by apply Hm].
  - destruct (is_exception e); [|apply post_raise; split; [by apply Hcw|done]].
    apply post_call_free; [auto with calls|by intros; split; [apply Hcw|]|]. intros [] w3 C3.
    apply post_raise. split; [by apply Hcw|done].
Qed.
End Requests.


(** The models of a request, resolved. *)
Lemma resolve_candidates_ok s ids ms : ModelRegistry.wf (sv_registry s) ->
  resolve_candidates s ids = Ok ms ->
  map model_id ms = ids /\
  Forall (fun m => m ∈ ModelRegistry.list_models (sv_registry s) /\ enabled m = true /\
                   ProviderResolver.supports (sv_resolver s) (provider m) = true) ms.
Proof.
  intros Hwf H. apply result_map_ok in H. induction H as [|id m ids ms Hm _ [IH1 IH2]]; [done|].
  apply bind_ok in Hm as (m' & Hg & Hm). apply bind_ok in Hm as (u & Hen & Hm).
  apply bind_ok in Hm as (u' & Hs & Hm). apply guard_ok in Hen. apply guard_ok in Hs. inv_result.
  apply ModelRegistry.get_in in Hg as [Hin <-]; [|done]. split; [done|]. by constructor.
Qed.

(** A filter that only removes candidates. *)
Definition narrowing (flt : option CandidateEligibilityFilter) : Prop :=
  match flt with
  | None => True
  | Some g => forall f cs el, @eligible_candidates g f cs = Ok el -> forall m, m ∈ el -> m ∈ cs
  end.

Lemma routed_ids {P : QualityPredictor} flt f cs v routing : narrowing flt ->
  route_features_with_snapshot flt f cs v = Ok routing ->
  forall c, c ∈ map sn_candidate (rr_candidates routing) -> cp_model_id c ∈ map model_id cs.
Proof.
  intros Hn H c Hc. apply route_features_ok in H as (el & ps & priced & Hel & _ & _ & _ & Hf & _ & Hs).
  rewrite Hs, map_map in Hc. cbn [sn_candidate snapshot_of] in Hc. rewrite map_id in Hc.
  apply price_candidates_ok in Hf as [Hids _].
  assert (Hi : cp_model_id c ∈ map model_id el).
  { rewrite <- Hids. by apply list_elem_of_In, in_map, list_elem_of_In. }
  apply list_elem_of_In, in_map_iff in Hi as (m & <- & Hm). apply list_elem_of_In, in_map, list_elem_of_In.
  apply list_elem_of_In in Hm. destruct flt as [g|]; [by apply (Hn _ _ _ Hel)|by subst].
Qed.

Lemma attempt_order_ids {P : QualityPredictor} flt f cs v routing max : narrowing flt ->
  route_features_with_snapshot flt f cs v = Ok routing ->
  NoDup (attempt_order max routing) /\
  (forall id, id ∈ attempt_order max routing -> id ∈ map model_id cs) /\
  selected_model_id (rr_decision routing) ∈ map model_id cs.
Proof.
  intros Hn H. pose proof (routed_ids flt f cs v routing Hn H) as Hids.
  apply (escalation_spec flt f cs v routing max) in H as (c & rest & -> & Hsel & Hin & Hnd & Hrest).
  assert (Hc : forall x, x ∈ c :: rest -> x ∈ map sn_candidate (rr_candidates routing)).
  { intros x Hx. destruct (fallback_used _).
    - subst rest. by apply list_elem_of_singleton in Hx as ->.
    - apply Hrest in Hx as (sn & Hsn & <- & _). by apply list_elem_of_In, in_map, list_elem_of_In. }
  split; [|split].
  - eapply sublist_NoDup; [exact Hnd|]. apply sublist_take.
  - intros id (i & Hi & _)%elem_of_take. apply list_elem_of_lookup_2 in Hi.
    apply list_elem_of_In, in_map_iff in Hi as (x & <- & Hx). by apply Hids, Hc, list_elem_of_In.
  - rewrite <- Hsel. by apply Hids.
Qed.

Section WholeRequest.
Context {E : Env} {V : ResponseValidator} {P : QualityPredictor} {UD : UnicodeData}.
Context (flt : option CandidateEligibilityFilter) (s : InferenceService) (max : nat).
Context (Hwf : ModelRegistry.wf (sv_registry s)) (Hmax : max_attempts_ok max = true) (Hflt : narrowing flt).

(** The calls of a request: few, distinct, to its own candidates. *)
Definition calls_bounded (bound : nat) (ids : list pystr) (request : InferenceRequest) (w w' : world) : Prop :=
  exists l, w_calls w' = w_calls w ++ l /\ (length l <= bound)%nat /\ NoDup (map pc_model_id l) /\
    Forall (fun p => pc_model_id p ∈ ids /\ pc_request p = request) l.

Lemma no_calls_bounded bound ids rq w w' : same_calls w w' -> calls_bounded bound ids rq w w'.
Proof.
  intros C. exists []. rewrite app_nil_r. split; [done|]. split; [apply Nat.le_0_l|].
  split; constructor.
Qed.

Lemma sublist_calls bound (ids : list pystr) rq l order : sublist (map pc_model_id l) order -> NoDup order ->
  (length order <= bound)%nat -> (forall id, id ∈ order -> id ∈ ids) ->
  Forall (fun p => pc_request p = rq) l ->
  (length l <= bound)%nat /\ NoDup (map pc_model_id l) /\
  Forall (fun p => pc_model_id p ∈ ids /\ pc_request p = rq) l.
Proof.
  intros Hs Hnd Hlen Hids Hrq. split; [|split].
  - apply sublist_length in Hs. rewrite length_map in Hs. lia.
  - by eapply sublist_NoDup.
  - rewrite Forall_forall in Hrq |- *. intros p Hp. split; [|by apply Hrq].
    apply Hids. eapply sublist_subseteq; [exact Hs|]. by apply list_elem_of_In, in_map, list_elem_of_In.
Qed.

(** What a returned result says: the decision is the routing of the request's
    own candidates; under a contract the validator passed the response. *)
Definition returns_routed (request : InferenceRequest) (category : option pystr) (threshold : pynum)
    (ids : list pystr) (validation : option ValidationContract) (structured : bool)
    (out : AdaptiveInferenceResult) : Prop :=
  exists candidates routing,
    resolve_candidates s ids = Ok candidates /\
    route_with_snapshot flt request candidates threshold category structured = Ok routing /\
    ai_routing_decision out = rr_decision routing /\
    match validation with
    | None => ai_execution out = None /\
              rs_model_id (ai_response out) = selected_model_id (rr_decision routing)
    | Some c => exists t vr, rv_validate t (ai_response out) (Some c) = Ok vr /\ vr_status vr = PASSED
    end.

Lemma adaptive_generate_post request category threshold ids validation structured rid d w :
  post (adaptive_generate flt s max request category threshold ids validation structured rid d) w
    (fun r w' =>
       calls_bounded (match validation with None => 1 | Some _ => 3 end) ids request w w' /\
       forall out, r = Ok out -> returns_routed request category threshold ids validation structured out).
Proof.
  set (Q := fun (r : result exn AdaptiveInferenceResult) (w' : world) => _).
  assert (Hq : forall e w', same_calls w w' -> Q (Raise e) w') by (intros e w' C; split; [by apply no_calls_bounded|done]).
  unfold adaptive_generate. apply post_call_free; [|done|].
  { destruct d; [apply call_free_ret|]. apply call_free_bind; [apply call_free_reading, reading_monotonic|].
    auto with calls. }
  intros dl w1 C1. apply post_call_free; [apply call_free_check_deadline| |].
  { intros e w2 C2. apply Hq. unfold same_calls in *. congruence. }
  intros [] w2 C2. apply post_bind, post_lift.
  assert (C : same_calls w w2) by (unfold same_calls in *; congruence).
  destruct (resolve_candidates s ids) as [candidates|e] eqn:Ec; [|by apply Hq].
  apply post_bind, post_lift.
  destruct (route_with_snapshot flt request candidates threshold category structured) as [routing|e] eqn:Er;
    [|by apply Hq].
  cbv zeta. apply post_call_free; [auto with calls| |].
  { intros e w3 C3. apply Hq. unfold same_calls in *. congruence. }
  intros [] w3 C3. assert (C' : w_calls w3 = w_calls w) by (unfold same_calls in *; congruence).
  pose proof (resolve_candidates_ok s ids candidates Hwf Ec) as [Hids _].
  pose proof Er as Er'. apply bind_ok in Er' as (f & _ & Er').
  destruct (attempt_order_ids flt f candidates threshold routing max Hflt Er') as (Hnd & Hin & Hsel).
  rewrite Hids in Hin, Hsel. unfold Q, calls_bounded. rewrite <- C'. destruct validation as [c|].
  - eapply post_mono; [by apply generate_validated_spec|]. intros r w' [(l & Hl & Hs & Hrq) Ho]. split.
    + exists l. split; [done|]. eapply sublist_calls; try done.
      pose proof (attempt_order_length max routing). unfold max_attempts_ok in Hmax. bools. lia.
    + intros out Hout. destruct (Ho out Hout) as (pre & a & ex & t & vr & resps & -> & _ & _ & _ & _ & _ & _ & _ & _ & _ & _ & Hv & Hp).
      exists candidates, routing. do 3 (split; [done|]). by exists t, vr.
  - eapply post_mono; [by apply generate_unvalidated_spec|]. intros r w' [(l & Hl & Hll) Ho]. split.
    + exists l. split; [done|]. destruct Hll as [-> | ->]; cbn [length map pc_model_id]; (split; [lia|]).
      * split; constructor.
      * split; [apply NoDup_singleton|]. by repeat constructor.
    + intros out Hout. destruct (Ho out Hout) as (resp & -> & Hm). by exists candidates, routing.
Qed.
End WholeRequest.

(** C2. An adaptive request stays within its budget and its candidates: it calls at
    most three adapters under a contract and at most one without, never a model
    twice and never one the caller did not list, always with the unchanged
    request.  What it returns carries the routing decision on exactly those
    candidates and, under a contract, a response the validator passed; without
    one, the response of the selected model. *)
Theorem adaptive_request_bounded {E : Env} {V : ResponseValidator} {P : QualityPredictor} {UD : UnicodeData}
    flt s max request category threshold ids validation structured rid d w :
  ModelRegistry.wf (sv_registry s) -> max_attempts_ok max = true -> narrowing flt ->
  let r := (adaptive_generate flt s max request category threshold ids validation structured rid d w).1 in
  let w' := (adaptive_generate flt s max request category threshold ids validation structured rid d w).2 in
  calls_bounded (match validation with None => 1 | Some _ => 3 end) ids request w w' /\
  forall out, r = Ok out -> returns_routed flt s request category threshold ids validation structured out.
Proof. intros Hwf Hmax Hflt. by apply adaptive_generate_post. Qed.

(** C1. Under the deterministic validator, whatever models and adapters do, what an
    adaptive request with a contract returns meets the contract. *)
Theorem returned_response_meets_contract {E : Env} {P : QualityPredictor} {UD : UnicodeData}
    room started finished flt s max request category threshold ids c structured rid d w out :
  ModelRegistry.wf (sv_registry s) -> max_attempts_ok max = true -> narrowing flt -> enough_room room ->
  (@adaptive_generate E (deterministic_validator room started finished) P UD flt s max request category threshold
     ids (Some c) structured rid d w).1 = Ok out ->
  meets c (ai_response out).
Proof.
  intros Hwf Hmax Hflt Hroom H.
  destruct (@adaptive_generate_post E (deterministic_validator room started finished) P UD flt s max Hwf Hmax Hflt
    request category threshold ids (Some c) structured rid d w) as [_ Ho].
  destruct (Ho out H) as (cs & routing & _ & _ & _ & t & vr & Hv & Hp).
  by apply (validate_passed room (ai_response out) c (started t) (finished t) vr).
Qed.

(** ** A concrete escalation: the cheaper model answers in prose, the dearer one
    with the object the contract asks for. *)

Definition priced_model (id : string) (cents_in : N) : ModelConfig :=
  mk_ModelConfig (py id) (py "p") (py "name") (mk_decimal false cents_in (-2)) (mk_decimal false 60 (-2)) 4096 true
    default_capabilities None GATEWAY_SHARED default_output_token_policy.

Definition fixed_factory : factory := fun m =>
  Ok (mk_adapter (fun _ _ => Ok (PR_response
    (mk_InferenceResponse (if bool_decide (model_id m = py "cheap") then py "no json" else json_text)
       (model_id m) (provider m) 3 2 (f_of_Z 5) (mk_decimal false 1 (-6)) TR_COMPLETE None))) None).

Definition two_priced : list ModelConfig := [priced_model "dear" 50; priced_model "cheap" 10].

Definition escalating_registry : ModelRegistry.t :=
  match ModelRegistry.register_all ModelRegistry.empty two_priced with
  | Ok r => r
  | Raise _ => ModelRegistry.empty
  end.

Definition escalating_service : InferenceService :=
  mk_InferenceService escalating_registry (ProviderResolver.mk [(py "p", fixed_factory)])
    (Some (mk_telemetry_repository true true)) (f_of_Z 2) (f_of_Z 60).

Lemma escalating_registry_wf : ModelRegistry.wf escalating_registry.
Proof. apply (ModelRegistry.register_all_wf two_priced ModelRegistry.empty); [apply ModelRegistry.wf_empty|reflexivity]. Qed.

Lemma narrowing_none : narrowing None.
Proof. exact I. Qed.

Definition example_validator : ResponseValidator :=
  deterministic_validator 40 (fun _ => f_zero) (fun _ => f_one).

#[local] Notation example_adaptive contract :=
  (@adaptive_generate still_env example_validator uniform_predictor ascii_tables None escalating_service 3
    example_prompt (Some (py "qa")) (PyFloat (f_of_ratio 1 2)) [py "dear"; py "cheap"] contract false
    (Some (py "r1")) (Some example_deadline)).

Example escalates :
  (let '(r, w) := example_adaptive (Some json_contract) initial_world in
   (match r with Ok out => Some (rs_model_id (ai_response out), text (ai_response out)) | Raise _ => None end,
    map pc_model_id (w_calls w))) =
  (Some (py "dear", json_text), [py "cheap"; py "dear"]).
Proof. vm_compute. reflexivity. Qed.

Definition escalating_routing : RoutingResult :=
  match @route_with_snapshot uniform_predictor None ascii_tables example_prompt two_priced
          (PyFloat (f_of_ratio 1 2)) (Some (py "qa")) false with
  | Ok r => r
  | Raise _ => mk_RoutingResult (decision_of f_zero (mk_CandidatePrediction [] f_zero d_zero) []) []
  end.

Lemma escalation_order_witness :
  attempt_order 3 escalating_routing = [py "cheap"; py "dear"] /\
  exists s, s ∈ map sn_candidate (rr_candidates escalating_routing) /\
    cp_model_id s = selected_model_id (rr_decision escalating_routing).
Proof.
  split; [vm_compute; reflexivity|].
  destruct (extract (H := ascii_tables) example_prompt (Some (py "qa")) false) as [f|e] eqn:Ef;
    [|vm_compute in Ef; discriminate].
  destruct (escalation_order (P := uniform_predictor) None f two_priced (PyFloat (f_of_ratio 1 2))
    escalating_routing 3) as (s & rest & _ & Hs & Hin & _).
  - vm_compute in Ef. injection Ef as <-. vm_compute. reflexivity.
  - exists s. split; [exact Hin|exact Hs].
Defined.

Definition escalating_run :=
  @generate_validated still_env example_validator escalating_service 3 example_prompt json_contract
    escalating_routing (Some (py "r1")) example_deadline initial_world.


Lemma adaptive_request_bounded_witness :
  exists out, (example_adaptive (Some json_contract) initial_world).1 = Ok out /\
    exists candidates, resolve_candidates escalating_service [py "dear"; py "cheap"] = Ok candidates.
Proof.
  destruct (example_adaptive (Some json_contract) initial_world).1 as [out|e] eqn:Er;
    [|vm_compute in Er; discriminate].
  exists out. split; [reflexivity|].
  destruct (@adaptive_request_bounded still_env example_validator uniform_predictor ascii_tables None
    escalating_service 3 example_prompt (Some (py "qa")) (PyFloat (f_of_ratio 1 2)) [py "dear"; py "cheap"]
    (Some json_contract) false (Some (py "r1")) (Some example_deadline) initial_world
    escalating_registry_wf eq_refl narrowing_none) as [_ H].
  destruct (H out Er) as (cs & _ & Hc & _). exists cs. exact Hc.
Defined.

Lemma returned_response_meets_contract_witness :
  exists out, (example_adaptive (Some json_contract) initial_world).1 = Ok out /\
    meets json_contract (ai_response out).
Proof.
  destruct (example_adaptive (Some json_contract) initial_world).1 as [out|e] eqn:Er;
    [|vm_compute in Er; discriminate].
  exists out. split; [reflexivity|].
  apply (@returned_response_meets_contract still_env uniform_predictor ascii_tables 40 (fun _ => f_zero)
    (fun _ => f_one) None escalating_service 3 example_prompt (Some (py "qa")) (PyFloat (f_of_ratio 1 2))
    [py "dear"; py "cheap"] json_contract false (Some (py "r1")) (Some example_deadline) initial_world out
    escalating_registry_wf eq_refl narrowing_none); [|exact Er].
  unfold enough_room, MAX_JSON_DEPTH. lia.
Defined.
