(* ===== verification/AdaptiveConfig.v ===== *)
(** * Configuration of adaptive inference ([application/adaptive_config.py])

    The process configuration is all or nothing: an artifact directory and the
    candidate models it may route to.  A configured runtime is built once, from
    a trusted artifact that knows every candidate. *)
From S2P Require Import Prelude PyStr PyFloat PyDecimal Schemas Errors Registry Pricing PyNum Deadline Json Validation Observability PyUuid Telemetry Effects Regex Features QualityFeatures Policy Routing Predictor Inference GatewayConfig Adaptive.

(** A path is kept as the text it was made from. *)
Record AdaptiveRoutingConfig := mk_AdaptiveRoutingConfig {
  artifact_path : option pystr;
  candidate_model_ids : list pystr
}.

Definition config_enabled (c : AdaptiveRoutingConfig) : bool :=
  match artifact_path c with Some _ => true | None => false end.

(** [validate_complete_configuration], after the fields: an identifier is
    stripped and not empty. *)
Definition validate_complete_configuration (c : AdaptiveRoutingConfig) : result pystr unit :=
  _ ← check (forallb Identifier_ok (candidate_model_ids c)) field_error;
  match artifact_path c, candidate_model_ids c with
  | None, [] => Ok tt
  | Some _, _ :: _ =>
      check (all_distinct (candidate_model_ids c)) (py "adaptive candidate model IDs must be unique")
  | _, _ => Raise (py "adaptive routing requires both an artifact path and candidate models")
  end.

Definition new_AdaptiveRoutingConfig (path : option pystr) (ids : list pystr) : result exn AdaptiveRoutingConfig :=
  let c := mk_AdaptiveRoutingConfig path (map strip ids) in
  _ ← validated (validate_complete_configuration c);
  Ok c.

Definition COMMA : N := 44.

(** [from_environment]: the values of the two variables, empty when unset. *)
Definition from_environment (artifact candidates : pystr) : result exn AdaptiveRoutingConfig :=
  let artifact := strip artifact in
  let candidates := strip candidates in
  match artifact, candidates with
  | [], [] => new_AdaptiveRoutingConfig None []
  | [], _ :: _ | _ :: _, [] => Raise (Exn C_ValueError)
  | _ :: _, _ :: _ =>
      let normalized := map strip (split_on COMMA candidates) in
      if existsb (fun p => match p with [] => true | _ => false end) normalized then Raise (Exn C_ValueError)
      else new_AdaptiveRoutingConfig (Some artifact) normalized
  end.

(** [AdaptiveInferenceService]: its collaborators and its attempt limit. *)
Record AdaptiveInferenceService := mk_AdaptiveInferenceService {
  as_inference : InferenceService;
  as_predictor : QualityPredictor;
  as_filter : option CandidateEligibilityFilter;
  as_validator : ResponseValidator;
  as_max_attempts : nat
}.

Definition new_AdaptiveInferenceService (s : InferenceService) (p : QualityPredictor)
    (f : option CandidateEligibilityFilter) (v : ResponseValidator) (max : nat) :
    result exn AdaptiveInferenceService :=
  _ ← guard_else (max_attempts_ok max) (Exn C_ValueError);
  Ok (mk_AdaptiveInferenceService s p f v max).

Definition adaptive_service_generate {E : Env} {UD : UnicodeData} (a : AdaptiveInferenceService)
    (request : InferenceRequest) (category : option pystr) (threshold : pynum) (ids : list pystr)
    (validation : option ValidationContract) (request_id : option pystr) (deadline : option RequestDeadline) :
    M AdaptiveInferenceResult :=
  @adaptive_generate E (as_validator a) (as_predictor a) UD (as_filter a) (as_inference a) (as_max_attempts a)
    request category threshold ids validation false request_id deadline.

Record AdaptiveRuntime := mk_AdaptiveRuntime {
  rt_service : AdaptiveInferenceService;
  rt_candidate_model_ids : list pystr;
  rt_approved_quality_threshold : float
}.

(** [getattr(metadata, "approved_quality_threshold", 0.80)] *)
Definition approved_threshold (m : artifact_metadata) : float :=
  match m with
  | LegacyMetadata _ => f_of_ratio 80 100
  | ProductionMetadata p => pa_approved_quality_threshold p
  end.

Section Build.
Context {R : PredictorRuntime}.
(** The file system under an artifact path, and the default validator. *)
Context (read_directory : pystr -> artifact_directory) (v : ResponseValidator).

(** [build_adaptive_runtime] *)
Definition build_adaptive_runtime (s : InferenceService) (c : AdaptiveRoutingConfig) :
    result exn (option AdaptiveRuntime) :=
  match artifact_path c with
  | None => Ok None
  | Some path =>
      predictor ← from_trusted_artifact s (read_directory path) (Some (candidate_model_ids c));
      service ← new_AdaptiveInferenceService s (sklearn_quality_predictor predictor) None v 3;
      Ok (Some (mk_AdaptiveRuntime service (candidate_model_ids c)
                  (approved_threshold (sk_metadata predictor))))
  end.
End Build.

(** ** Lemmas *)

Lemma new_config_ok path ids c : new_AdaptiveRoutingConfig path ids = Ok c ->
  c = mk_AdaptiveRoutingConfig path (map strip ids) /\ validate_complete_configuration c = Ok tt.
Proof.
  unfold new_AdaptiveRoutingConfig. cbv zeta. intros ([] & Hv & H)%bind_ok. apply validated_ok in Hv.
  by injection H as <-.
Qed.

(** A valid configuration is complete. *)
Lemma complete_configuration c : validate_complete_configuration c = Ok tt ->
  NoDup (candidate_model_ids c) /\ Forall (fun id => id <> []) (candidate_model_ids c) /\
  (artifact_path c = None <-> candidate_model_ids c = []).
Proof.
  unfold validate_complete_configuration. intros (u & Hf & H)%bind_ok. apply check_ok in Hf.
  assert (F : Forall (fun id => id <> []) (candidate_model_ids c)).
  { apply Forall_forall. intros id Hid. rewrite forallb_forall in Hf. apply list_elem_of_In, Hf in Hid. by destruct id. }
  split; [|split; [done|]]; destruct (artifact_path c), (candidate_model_ids c) eqn:E; try discriminate.
  - apply check_ok in H. by apply all_distinct_true.
  - constructor.
  - done.
  - done.
Qed.

Lemma map_fixed {A} (f : A -> A) l : Forall (fun x => f x = x) l -> map f l = l.
Proof. induction 1 as [|x l Hx _ IH]; [done|]. cbn [map]. by rewrite Hx, IH. Qed.

(** A comma-separated list of stripped names is its own [strip]. *)
Lemma strip_join ids : ids <> [] -> Forall (fun id => id <> [] /\ strip id = id) ids ->
  strip (join [COMMA] ids) = join [COMMA] ids /\ join [COMMA] ids <> [].
Proof.
  intros Hne H. induction H as [|id ids [Hid Hs] H IH]; [done|]. destruct ids as [|id' ids]; [by split|].
  destruct IH as [IH1 IH2]; [done|].
  change (join [COMMA] (id :: id' :: ids)) with (id ++ [COMMA] ++ join [COMMA] (id' :: ids)).
  split; [by apply strip_app_fixed|]. by destruct id.
Qed.

(** What a built runtime rests on. *)
Lemma from_trusted_artifact_ok {R : PredictorRuntime} s d ids p :
  from_trusted_artifact s d (Some ids) = Ok p ->
  validate_any (sk_metadata p) = Ok tt /\
  (load_trusted_quality_artifact d).2 = Ok (sk_pipeline p, sk_metadata p) /\
  exists ms, resolve_candidates s ids = Ok ms /\
    subset_of (map model_id ms) (metadata_candidates (sk_metadata p)) = true.
Proof.
  unfold from_trusted_artifact, new_SklearnQualityPredictor. intros H.
  apply bind_ok in H as ([pl m] & Hl & H). apply bind_ok in H as (p' & Hp & H).
  apply bind_ok in Hp as ([] & Hv & Hp). cbn [fst snd] in *. injection Hp as <-.
  apply bind_ok in H as (ms & Hr & H). cbn [sk_metadata] in H.
  destruct (subset_of _ _) eqn:Es; [|discriminate]. injection H as <-. cbn [sk_metadata sk_pipeline].
  split; [done|]. split; [done|]. by exists ms.
Qed.

(** ** Properties *)

(** The environment configures adaptive routing all or nothing: a result is
    either the disabled configuration, and then both variables are blank, or
    names the artifact and a non-empty list of distinct, stripped, non-empty
    model identifiers; and every such configuration is what its own text, the
    identifiers joined by commas, configures. *)
Theorem environment_configuration artifact candidates :
  (forall c, from_environment artifact candidates = Ok c ->
     (if config_enabled c
      then artifact_path c = Some (strip artifact) /\ candidate_model_ids c <> []
      else is_blank artifact = true /\ is_blank candidates = true /\ candidate_model_ids c = []) /\
     NoDup (candidate_model_ids c) /\ Forall (fun id => id <> []) (candidate_model_ids c)) /\
  (forall path ids, path <> [] -> strip path = path -> ids <> [] -> NoDup ids ->
     Forall (fun id => (id <> [] /\ strip id = id) /\ forallb (fun ch => negb (ch =? COMMA)%N) id = true) ids ->
     from_environment path (join [COMMA] ids) = Ok (mk_AdaptiveRoutingConfig (Some path) ids)).
Proof.
  split.
  - intros c H. unfold from_environment, is_blank in *.
    destruct (strip artifact) as [|a ar]; destruct (strip candidates) as [|b br]; try discriminate.
    + apply new_config_ok in H as [-> H]. apply complete_configuration in H as (Hn & Hf & _). done.
    + destruct (existsb _ _); [discriminate|]. apply new_config_ok in H as [-> H].
      apply complete_configuration in H as (Hn & Hf & He). cbn [config_enabled artifact_path] in *.
      split; [|done]. split; [done|]. intros E. by apply He in E.
  - intros path ids Hp Hsp Hne Hnd Hids.
    assert (H1 : Forall (fun id => id <> [] /\ strip id = id) ids) by (eapply Forall_impl; [exact Hids|]; naive_solver).
    assert (H2 : Forall (fun id => forallb (fun ch => negb (ch =? COMMA)%N) id = true) ids)
      by (eapply Forall_impl; [exact Hids|]; naive_solver).
    assert (Hm : map strip ids = ids) by (apply map_fixed; eapply Forall_impl; [exact H1|]; naive_solver).
    destruct (strip_join ids Hne H1) as [Hs Hj]. unfold from_environment. rewrite Hsp, Hs.
    destruct path as [|p path]; [done|]. destruct (join [COMMA] ids) as [|j jr] eqn:Ej; [done|].
    rewrite <- Ej, split_on_join, Hm by done.
    assert (He : existsb (fun p => match p with [] => true | _ => false end) ids = false).
    { apply not_true_iff_false. intros (id & Hin & Hid)%existsb_exists. rewrite Forall_forall in H1.
      apply list_elem_of_In, H1 in Hin as [? _]. by destruct id. }
    rewrite He. unfold new_AdaptiveRoutingConfig. rewrite Hm.
    assert (Hv : validate_complete_configuration (mk_AdaptiveRoutingConfig (Some (p :: path)) ids) = Ok tt).
    { unfold validate_complete_configuration. cbn [candidate_model_ids artifact_path].
      assert (Hi : forallb Identifier_ok ids = true).
      { apply forallb_forall. intros id Hin. rewrite Forall_forall in H1.
        apply list_elem_of_In, H1 in Hin as [? _]. by destruct id. }
      rewrite Hi. cbn [check]. rsimpl. destruct ids as [|i ids]; [done|]. unfold check.
      by rewrite (proj2 (all_distinct_true _) Hnd). }
    cbv zeta. rewrite Hv. done.
Qed.

(* A runtime that gets built is trusted: its artifact was loaded and its
    metadata validated, every configured candidate is a registered, enabled
    model with an adapter and known to the artifact, at most three attempts are
    made, no filter widens the candidates, and the quality threshold is the
    artifact's approved one. *)
Theorem runtime_is_trusted {R : PredictorRuntime} read_directory v s c rt :
  ModelRegistry.wf (sv_registry s) ->
  build_adaptive_runtime read_directory v s c = Ok (Some rt) ->
  exists path p,
    artifact_path c = Some path /\
    (load_trusted_quality_artifact (read_directory path)).2 = Ok (sk_pipeline p, sk_metadata p) /\
    validate_any (sk_metadata p) = Ok tt /\
    as_predictor (rt_service rt) = sklearn_quality_predictor p /\ as_inference (rt_service rt) = s /\
    max_attempts_ok (as_max_attempts (rt_service rt)) = true /\ narrowing (as_filter (rt_service rt)) /\
    rt_candidate_model_ids rt = candidate_model_ids c /\
    rt_approved_quality_threshold rt = approved_threshold (sk_metadata p) /\
    Forall (fun id => id ∈ metadata_candidates (sk_metadata p) /\
              exists m, m ∈ ModelRegistry.list_models (sv_registry s) /\ model_id m = id /\
                enabled m = true /\ ProviderResolver.supports (sv_resolver s) (provider m) = true)
      (rt_candidate_model_ids rt).
Proof.
  intros Hwf. unfold build_adaptive_runtime. destruct (artifact_path c) as [path|]; [|discriminate].
  intros (p & Hp & H)%bind_ok. apply bind_ok in H as (sv & Hsv & H). injection H as <-.
  unfold new_AdaptiveInferenceService in Hsv. apply bind_ok in Hsv as (u & Hm & Hsv). injection Hsv as <-.
  apply from_trusted_artifact_ok in Hp as (Hv & Hl & ms & Hr & Hs). exists path, p.
  do 8 (split; [done|]). split; [done|]. cbn [rt_candidate_model_ids].
  apply resolve_candidates_ok in Hr as [<- Hr]; [|done]. apply Forall_forall. intros id Hid. split.
  - rewrite subset_of_true in Hs. by apply Hs.
  - apply list_elem_of_In, in_map_iff in Hid as (m & <- & Hin). rewrite Forall_forall in Hr.
    exists m. by apply list_elem_of_In, Hr in Hin as (? & ? & ?).
Qed.

Definition two_ids : list pystr := [py "candidate-gpt-6-luna"; py "candidate-gemini-3-flash"].

Lemma environment_configuration_witness :
  from_environment (py " /srv/artifact ") (join [COMMA] two_ids) =
    Ok (mk_AdaptiveRoutingConfig (Some (py "/srv/artifact")) two_ids) /\
  NoDup two_ids /\
  from_environment (py "/srv/artifact") (join [COMMA] two_ids) =
    Ok (mk_AdaptiveRoutingConfig (Some (py "/srv/artifact")) two_ids).
Proof.
  assert (E : from_environment (py " /srv/artifact ") (join [COMMA] two_ids) =
    Ok (mk_AdaptiveRoutingConfig (Some (py "/srv/artifact")) two_ids)) by (vm_compute; reflexivity).
  destruct (environment_configuration (py " /srv/artifact ") (join [COMMA] two_ids)) as [H1 H2].
  split; [exact E|]. destruct (H1 _ E) as (_ & Hn & _). split; [exact Hn|].
  apply H2; [discriminate|reflexivity|discriminate|exact Hn|].
  repeat constructor; try discriminate; vm_compute; reflexivity.
Defined.

Definition portfolio_registry : ModelRegistry.t :=
  match ModelRegistry.register_all ModelRegistry.empty CANDIDATE_MODELS with
  | Ok r => r
  | Raise _ => ModelRegistry.empty
  end.

Definition portfolio_service : InferenceService :=
  mk_InferenceService portfolio_registry (ProviderResolver.mk [(py "vercel", fixed_factory)]) None (f_of_Z 2)
    (f_of_Z 60).

Lemma portfolio_registry_wf : ModelRegistry.wf (sv_registry portfolio_service).
Proof. apply (ModelRegistry.register_all_wf CANDIDATE_MODELS ModelRegistry.empty); [apply ModelRegistry.wf_empty|reflexivity]. Qed.

Lemma runtime_is_trusted_witness :
  exists rt, @build_adaptive_runtime example_runtime (fun _ => production_directory) example_validator
    portfolio_service (mk_AdaptiveRoutingConfig (Some (py "/srv/artifact")) two_ids) = Ok (Some rt) /\
  rt_candidate_model_ids rt = two_ids.
Proof.
  assert (B : match @build_adaptive_runtime example_runtime (fun _ => production_directory) example_validator
    portfolio_service (mk_AdaptiveRoutingConfig (Some (py "/srv/artifact")) two_ids) with
    | Ok (Some _) => true | _ => false end = true) by (vm_compute; reflexivity).
  destruct (@build_adaptive_runtime example_runtime (fun _ => production_directory) example_validator
    portfolio_service (mk_AdaptiveRoutingConfig (Some (py "/srv/artifact")) two_ids)) as [[rt|]|e] eqn:E;
    [|discriminate B..]. clear B.
  exists rt. split; [reflexivity|].
  destruct (@runtime_is_trusted example_runtime (fun _ => production_directory) example_validator
    portfolio_service (mk_AdaptiveRoutingConfig (Some (py "/srv/artifact")) two_ids) rt
    portfolio_registry_wf E) as (path & p & _ & _ & _ & _ & _ & _ & _ & H & _).
  exact H.
Defined.
