(* ===== verification/Chat.v ===== *)
(** * Chat orchestration ([application/chat.py])

    The service behind the chat endpoint: direct inference on the default model
    or adaptive inference, and one activity row per chat. *)
From S2P Require Import Prelude PyStr PyFloat PyDecimal Schemas Errors Registry Pricing PyNum Deadline Json Validation Observability PyUuid Telemetry Effects Regex Features QualityFeatures Policy Routing Predictor Inference Adaptive AdaptiveConfig.

Inductive ChatRoutingMode := RM_AUTO | RM_MANUAL.

#[export] Instance ChatRoutingMode_eq_dec : EqDecision ChatRoutingMode.
Proof. solve_decision. Defined.

(** [ChatConfiguration.from_environment] *)
Definition chat_configuration (raw : pystr) : result exn pystr :=
  match strip raw with
  | [] => Raise (Exn C_ValueError)
  | model_id => Ok model_id
  end.

(** [category_source] is [MANUAL] exactly in adaptive mode. *)
Record ChatOrchestrationResult := mk_ChatOrchestrationResult {
  cr_response : InferenceResponse;
  cr_execution_mode : ChatExecutionMode;
  cr_category : option RoutingCategory;
  cr_category_source_manual : bool;
  cr_routing_decision : option RoutingDecision;
  cr_execution : option AdaptiveExecution
}.

Record ChatOrchestrationService := mk_ChatOrchestrationService {
  co_inference_service : InferenceService;
  co_default_model_id : pystr;
  co_adaptive_runtime : option AdaptiveRuntime
}.

Definition ChatActivityOutcome_value (o : ChatActivityOutcome) : pystr :=
  match o with
  | CO_RETURNED => py "returned" | CO_PROVIDER_FAILURE => py "provider_failure"
  | CO_VALIDATION_FAILED => py "validation_failed" | CO_DEADLINE_EXCEEDED => py "deadline_exceeded"
  end.

(** [_failure_outcome] *)
Definition failure_outcome (e : exn) : ChatActivityOutcome :=
  if isinstance e C_ResponseValidationError then CO_VALIDATION_FAILED
  else if isinstance e C_InferenceDeadlineExceededError then CO_DEADLINE_EXCEEDED
  else CO_PROVIDER_FAILURE.

Definition ValidationStatus_text (e : AdaptiveExecution) : pystr := ValidationStatus_value (ae_validation_outcome e).

Section Records.
Context (request_id : pystr) (id : uuid) (now : Z).

Definition direct_failure (default_model provider_name : pystr) (e : exn) : ChatActivityRecord :=
  mk_ChatActivityRecord id request_id CM_DIRECT None false (Some default_model) None (Some provider_name) None None
    None None None (failure_outcome e) (Some (ChatActivityOutcome_value (failure_outcome e))) None None None None
    false now.

Definition direct_success (r : InferenceResponse) : ChatActivityRecord :=
  mk_ChatActivityRecord id request_id CM_DIRECT None false None (Some (rs_model_id r)) (Some (rs_provider r)) None
    None (Some 1%Z) (Some false) None CO_RETURNED None (Some (input_tokens r)) (Some (output_tokens r))
    (Some (latency_ms r)) (Some (estimated_cost_usd r)) true now.

Definition adaptive_failure (category : option RoutingCategory) (e : exn) : ChatActivityRecord :=
  mk_ChatActivityRecord id request_id CM_ADAPTIVE (RoutingCategory_value <$> category) true None None None None None
    None None None (failure_outcome e) (Some (ChatActivityOutcome_value (failure_outcome e))) None None None None
    false now.

Definition activity_cost (r : AdaptiveInferenceResult) : option decimal :=
  match ai_execution r with
  | Some e => ae_total_estimated_cost_usd e
  | None => Some (estimated_cost_usd (ai_response r))
  end.

Definition activity_latency (r : AdaptiveInferenceResult) : float :=
  match ai_execution r with
  | Some e => ae_total_latency_ms e
  | None => latency_ms (ai_response r)
  end.

Definition adaptive_success (category : option RoutingCategory) (r : AdaptiveInferenceResult) :
    ChatActivityRecord :=
  let d := ai_routing_decision r in
  let response := ai_response r in
  mk_ChatActivityRecord id request_id CM_ADAPTIVE (RoutingCategory_value <$> category) true
    (Some (selected_model_id d)) (Some (rs_model_id response)) (Some (rs_provider response))
    (Some (threshold_satisfied d)) (Some (fallback_used d))
    (Some (match ai_execution r with Some e => Z.of_nat (length (ae_attempts e)) | None => 1%Z end))
    (Some (match ai_execution r with Some e => ae_escalated e | None => false end))
    (ValidationStatus_text <$> ai_execution r) CO_RETURNED None (Some (input_tokens response))
    (Some (output_tokens response)) (Some (activity_latency r)) (activity_cost r)
    (match activity_cost r with Some _ => true | None => false end) now.
End Records.

Section Chat.
Context {E : Env} {UD : UnicodeData} (c : ChatOrchestrationService).

(** A record with its defaults [uuid4] and [now], validated. *)
Definition new_activity (f : uuid -> Z -> ChatActivityRecord) : M ChatActivityRecord :=
  id ← read_uuid;
  now ← read_now;
  _ ← lift (validated (check (ChatActivityRecord_ok (f id now)) field_error));
  mret (f id now).

(** [_record_activity]: silent when there is no repository or no time. *)
Definition record_activity (event : ChatActivityRecord) (d : RequestDeadline) : M unit :=
  match sv_telemetry (co_inference_service c) with
  | Some repo =>
      if tr_chat repo then
        timeout ← deadline_constrain d (sv_telemetry_timeout (co_inference_service c));
        match timeout with
        | None => mret tt
        | Some _ =>
            started ← read_perf;
            r ← outcome (write_row (RowChat event));
            match r with
            | Ok _ =>
                now ← read_perf;
                observe (telemetry_write (py "chat_activity") (py "success") (Some (f_sub now started)))
            | Raise e =>
                if is_exception e then
                  now ← read_perf;
                  let duration := f_sub now started in
                  _ ← observe (telemetry_write (py "chat_activity") (py "failure") (Some duration));
                  observe (telemetry_write_failed (ca_request_id event) (py "chat_activity") duration)
                else raise e
            end
        end
      else mret tt
  | None => mret tt
  end.

Definition record_new (f : uuid -> Z -> ChatActivityRecord) (d : RequestDeadline) : M unit :=
  event ← new_activity f; record_activity event d.

(** The two [except] clauses. *)
Definition direct_reported (e : exn) : bool :=
  isinstance e C_ProviderFailureError || isinstance e C_ProviderUnavailableError ||
  isinstance e C_InferenceDeadlineExceededError.

Definition adaptive_reported (e : exn) : bool := direct_reported e || isinstance e C_ResponseValidationError.

(** The [AUTO] branch of [generate]. *)
Definition chat_direct (request : InferenceRequest) (request_id : pystr) (d : RequestDeadline) :
    M ChatOrchestrationResult :=
  r ← outcome (generate (co_inference_service c) (co_default_model_id c) request (Some request_id) (Some d) EXPLICIT);
  match r with
  | Raise e =>
      if direct_reported e then
        m ← lift (ModelRegistry.get (sv_registry (co_inference_service c)) (co_default_model_id c));
        _ ← record_new (fun id now => direct_failure request_id id now (co_default_model_id c) (provider m) e) d;
        raise e
      else raise e
  | Ok response =>
      _ ← record_new (fun id now => direct_success request_id id now response) d;
      mret (mk_ChatOrchestrationResult response CM_DIRECT None false None None)
  end.

(** The rest of [generate]. *)
Definition chat_adaptive (request : InferenceRequest) (category : option RoutingCategory)
    (validation : option ValidationContract) (request_id : pystr) (d : RequestDeadline) :
    M ChatOrchestrationResult :=
  match co_adaptive_runtime c with
  | None => raise (Exn C_AdaptiveRoutingUnavailableError)
  | Some rt =>
      r ← outcome (adaptive_service_generate (rt_service rt) request (RoutingCategory_value <$> category)
                     (PyFloat (rt_approved_quality_threshold rt)) (rt_candidate_model_ids rt) validation
                     (Some request_id) (Some d));
      match r with
      | Raise e =>
          if adaptive_reported e then
            _ ← record_new (fun id now => adaptive_failure request_id id now category e) d;
            raise e
          else raise e
      | Ok res =>
          _ ← record_new (fun id now => adaptive_success request_id id now category res) d;
          mret (mk_ChatOrchestrationResult (ai_response res) CM_ADAPTIVE category true
                  (Some (ai_routing_decision res)) (ai_execution res))
      end
  end.

(** [ChatOrchestrationService.generate] *)
Definition chat_generate (request : InferenceRequest) (mode : ChatRoutingMode)
    (category : option RoutingCategory) (validation : option ValidationContract) (request_id : pystr)
    (d : RequestDeadline) : M ChatOrchestrationResult :=
  match mode with
  | RM_AUTO => chat_direct request request_id d
  | RM_MANUAL => chat_adaptive request category validation request_id d
  end.
End Chat.

(** [build_chat_orchestration_service] *)
Definition build_chat_orchestration_service (s : InferenceService) (default_model_id : pystr)
    (rt : option AdaptiveRuntime) : result exn ChatOrchestrationService :=
  match ModelRegistry.get (sv_registry s) default_model_id with
  | Raise e => if isinstance e C_ModelNotFoundError then Raise (Exn C_ValueError) else Raise e
  | Ok m =>
      if negb (enabled m) then Raise (Exn C_ValueError)
      else Ok (mk_ChatOrchestrationService s (model_id m) rt)
  end.

(** ** The rows of the services a chat uses *)

(** Rows below the chat: of an inference or an adaptive execution of [rid]. *)
Definition correlated (rid : pystr) (row : telemetry_row) : Prop :=
  match row with
  | RowInference e => te_request_id e = rid
  | RowAdaptive e => ax_request_id e = rid
  | RowChat _ => False
  end.

Section Correlated.
Context {E : Env} (rid : pystr).

Lemma extends_one (rows : telemetry_row -> Prop) w w' : (forall row, rows row -> correlated rid row) ->
  wrote_one rows w w' -> extends (correlated rid) w w'.
Proof.
  intros H [W|(row & ok & Hr & W)]; [by apply extends_refl|]. exists [(row, ok)]. split; [done|].
  constructor; [by apply H|constructor].
Qed.

Lemma best_effort_writes configured mx clock rt r row d : reading clock -> correlated rid row ->
  writes_only (correlated rid) (best_effort_write configured mx clock rt r row d).
Proof.
  intros Hc Hr w. eapply post_mono; [by apply best_effort_write_spec|]. intros u w' [[_ [W|(ok & W)]] _].
  - by apply extends_refl.
  - exists [(row, ok)]. split; [done|]. by repeat constructor.
Qed.

Lemma generate_writes s id rq d mode : mode = EXPLICIT \/ mode = ADAPTIVE ->
  writes_only (correlated rid) (generate s id rq (Some rid) (Some d) mode).
Proof.
  intros Hm w. eapply post_mono; [by apply generate_spec|].
  intros r w' [(e & _ & [_ W] & _)|(m & _ & _ & W & _)]; [by apply extends_refl|].
  eapply extends_one; [|exact W]. intros row (r' & Hd & _).
  by destruct Hd as (ev & -> & (Hrid & _) & _).
Qed.

Lemma check_deadline_writes P d : writes_only P (check_deadline d).
Proof.
  apply writes_bind; [apply writes_reading, reading_expired|]. intros []; auto with writes.
Qed.

Lemma failures_writes P id n fs : writes_only P (observe_failures id n fs).
Proof. induction fs; cbn [observe_failures]; auto with writes. Qed.

Lemma record_execution_writes s e d : ax_request_id e = rid ->
  writes_only (correlated rid) (record_execution s e d).
Proof. intros H. by apply best_effort_writes; [apply reading_loop_time|]. Qed.

(** A summary row of [x] is recorded under the request of [x]. *)
Lemma event_then_writes s x {A} returned count v t attempts cc l ver codes
    (f : unit -> M A) :
  ec_request_id x = rid -> (forall u, writes_only (correlated rid) (f u)) ->
  writes_only (correlated rid)
    (ev ← execution_event x returned count v t attempts cc l ver codes;
     u ← record_execution s ev (ec_deadline x); f u).
Proof.
  intros Hx Hf w. unfold execution_event. apply post_bind, post_bind, post_lift.
  destruct (known_cost attempts) as [k|e]; [|by apply extends_refl].
  apply post_reading; [apply reading_now|]. intros now w1 [_ Q1]. cbv zeta.
  set (ev := mk_AdaptiveExecutionTelemetry _ _ _ _ _ _ _ _ _ _ _ _ _ _ _).
  apply post_bind, post_lift. destruct (validated _) as [u|e]; [|by apply extends_refl].
  apply post_ret. eapply post_mono.
  { apply (writes_bind (correlated rid) (record_execution s ev (ec_deadline x)) f); [|done].
    by apply record_execution_writes. }
  intros r w2 H. by apply (extends_trans _ w w1); [apply extends_refl|].
Qed.

Lemma attempt_loop_writes {V : ResponseValidator} s x ids : ec_request_id x = rid -> forall n attempts,
  writes_only (correlated rid) (attempt_loop s x n ids attempts).
Proof.
  intros Hx. induction ids as [|id ids IH]; intros n attempts; cbn [attempt_loop]; [auto with writes|].
  apply writes_bind; [apply check_deadline_writes|]. intros _.
  apply writes_bind. { apply writes_outcome. rewrite Hx. apply generate_writes. by right. }
  intros r. destruct (match r with Ok _ => _ | Raise _ => _ end) as [resp|e].
  2: { destruct (is_exception e); [|auto with writes]. unfold attempt_raised.
       apply event_then_writes; [done|]. auto with writes. }
  apply writes_bind; [apply check_deadline_writes|]. intros _.
  apply writes_bind. { apply writes_bind; [apply writes_reading, reading_tick|auto with writes]. }
  intros res. apply writes_bind; [apply check_deadline_writes|]. intros _.
  apply writes_bind; [apply failures_writes|]. intros _. apply writes_bind; [auto with writes|]. intros a.
  cbv zeta. destruct (bool_decide _).
  { apply writes_bind; [auto with writes|]. intros ex. apply event_then_writes; auto with writes. }
  destruct (_ || _); [|apply IH].
  apply writes_bind; [auto with writes|]. intros ex. apply event_then_writes; auto with writes.
Qed.

Lemma adaptive_generate_writes {V : ResponseValidator} {P : QualityPredictor} {UD : UnicodeData}
    flt s max request category threshold ids validation structured d : rid <> [] ->
  writes_only (correlated rid)
    (adaptive_generate flt s max request category threshold ids validation structured (Some rid) (Some d)).
Proof.
  intros Hrid. assert (Hc : correlation (Some rid) = mret rid) by by destruct rid.
  unfold adaptive_generate, deadline_or_new. apply writes_bind; [auto with writes|]. intros d'.
  apply writes_bind; [apply check_deadline_writes|]. intros _.
  apply writes_bind; [auto with writes|]. intros cs. apply writes_bind; [auto with writes|]. intros routing.
  cbv zeta. apply writes_bind; [auto with writes|]. intros _. destruct validation as [c|].
  - unfold generate_validated. apply writes_bind; [apply writes_reading, reading_uuid|]. intros u.
    rewrite Hc. intros w. apply post_mret. revert w. by apply attempt_loop_writes.
  - unfold generate_unvalidated. rewrite Hc. intros w. apply post_mret. revert w.
    apply writes_bind; [apply writes_outcome, generate_writes; by right|]. intros [resp|e]; [auto with writes|].
    destruct (is_exception e); auto with writes.
Qed.
End Correlated.

(** ** The chat itself *)

Section ChatFacts.
Context {E : Env} {UD : UnicodeData} (c : ChatOrchestrationService).

(** Recording an activity writes at most its row and fails only by cancellation. *)
Lemma record_activity_spec event d w :
  post (record_activity c event d) w (fun r w' =>
    wrote (RowChat event) w w' /\ (polite_telemetry -> r = Ok tt)).
Proof.
  unfold record_activity.
  assert (Hret : post (mret tt) w (fun r w' => wrote (RowChat event) w w' /\ (polite_telemetry -> r = Ok tt))).
  { apply post_ret. split; [|done]. split; [done|by left]. }
  destruct (sv_telemetry (co_inference_service c)) as [repo|]; [|done]. destruct (tr_chat repo); [|done].
  clear Hret. apply post_reading; [apply reading_constrain|]. intros [t|] w1 Q1.
  2: { apply post_ret. split; [|done]. destruct Q1 as [C W]. split; [done|by left]. }
  apply post_reading; [apply reading_perf|]. intros started w2 Q2. apply post_write_row. intros r w3 C3 W3 Hr.
  assert (Hw : wrote (RowChat event) w w3).
  { apply (quiet_wrote _ w w2); [by apply (quiet_trans w w1)|]. split; [done|right; by eexists]. }
  destruct r as [u|e].
  - apply post_reading; [apply reading_perf|]. intros now w4 Q4. apply observe_post. intros w5 Q5.
    split; [|done]. apply (wrote_quiet _ w w3); [done|by apply (quiet_trans w3 w4)].
  - destruct (is_exception e) eqn:Ee.
    + apply post_reading; [apply reading_perf|]. intros now w4 Q4.
      apply post_reading; [apply reading_observe|]. intros [] w5 Q5. apply observe_post. intros w6 Q6.
      split; [|done]. apply (wrote_quiet _ w w3); [done|].
      by apply (quiet_trans w3 w4); [|apply (quiet_trans w4 w5)].
    + apply post_raise. split; [done|]. intros Hp. destruct (Hr e eq_refl) as (t0 & Ht). apply Hp in Ht. congruence.
Qed.

(** The chat row of [f] or none, and no adapter call. *)
Definition chat_row (f : uuid -> Z -> ChatActivityRecord) (w w' : world) : Prop :=
  w_calls w' = w_calls w /\
  (w_writes w' = w_writes w \/
   exists id now ok, w_writes w' = w_writes w ++ [(RowChat (f id now), ok)] /\ ChatActivityRecord_ok (f id now) = true).

Lemma record_new_spec f d w :
  post (record_new c f d) w (fun r w' => chat_row f w w' /\ (polite_telemetry -> r = Ok tt \/ same_writes w w')).
Proof.
  unfold record_new, new_activity. apply post_bind.
  apply post_reading; [apply reading_uuid|]. intros id w1 [C1 W1].
  apply post_reading; [apply reading_now|]. intros now w2 [C2 W2].
  unfold same_calls, same_writes in *. apply post_bind, post_lift.
  destruct (ChatActivityRecord_ok (f id now)) eqn:Eo; cbn [check validated].
  2: { split; [split; [congruence|left; congruence]|]. intros _. right. congruence. }
  apply post_ret. cbv beta iota. eapply post_mono; [apply record_activity_spec|].
  intros r w3 [[C3 W3] Hr]. unfold same_calls, same_writes in *. split.
  - split; [congruence|]. destruct W3 as [W3|(ok & W3)]; [left; congruence|right].
    exists id, now, ok. split; [congruence|done].
  - intros Hp. left. by apply Hr.
Qed.
End ChatFacts.

(** ** What an activity row must say *)

(** The request and the way it took. *)
Definition chat_identified (rid : pystr) (mode : ChatRoutingMode) (category : option RoutingCategory)
    (ev : ChatActivityRecord) : Prop :=
  ca_request_id ev = rid /\
  match mode with
  | RM_AUTO => ca_execution_mode ev = CM_DIRECT /\ ca_category ev = None /\ ca_category_source_manual ev = false
  | RM_MANUAL =>
      ca_execution_mode ev = CM_ADAPTIVE /\ ca_category_source_manual ev = true /\
      ca_category ev = match category with Some k => Some (RoutingCategory_value k) | None => None end
  end.

(** Of an answer: its model, provider and tokens. *)
Definition answer_recorded (resp : InferenceResponse) (ev : ChatActivityRecord) : Prop :=
  ca_outcome ev = CO_RETURNED /\ ca_error_category ev = None /\
  ca_final_model_id ev = Some (rs_model_id resp) /\ ca_provider ev = Some (rs_provider resp) /\
  ca_input_tokens ev = Some (input_tokens resp) /\ ca_output_tokens ev = Some (output_tokens resp).

(** Attempts, cost and latency: the totals of a validated execution, otherwise
    those of the one response. *)
Definition totals_recorded (resp : InferenceResponse) (execution : option AdaptiveExecution) (ev : ChatActivityRecord) : Prop :=
  match execution with
  | Some ex =>
      ca_attempt_count ev = Some (Z.of_nat (length (ae_attempts ex))) /\ ca_escalated ev = Some (ae_escalated ex) /\
      ca_validation_outcome ev = Some (ValidationStatus_value (ae_validation_outcome ex)) /\
      ca_latency_ms ev = Some (ae_total_latency_ms ex) /\ ca_estimated_cost_usd ev = ae_total_estimated_cost_usd ex /\
      (ca_cost_complete ev = true <-> ae_total_estimated_cost_usd ex <> None)
  | None =>
      ca_attempt_count ev = Some 1%Z /\ ca_escalated ev = Some false /\ ca_validation_outcome ev = None /\
      ca_latency_ms ev = Some (latency_ms resp) /\ ca_estimated_cost_usd ev = Some (estimated_cost_usd resp) /\
      ca_cost_complete ev = true
  end.

(** The routing of a manual chat. *)
Definition routing_recorded (d : option RoutingDecision) (ev : ChatActivityRecord) : Prop :=
  match d with
  | Some d => ca_initial_model_id ev = Some (selected_model_id d) /\
              ca_routing_threshold_satisfied ev = Some (threshold_satisfied d) /\
              ca_routing_fallback_used ev = Some (fallback_used d)
  | None => ca_initial_model_id ev = None /\ ca_routing_threshold_satisfied ev = None /\ ca_routing_fallback_used ev = None
  end.

(** Of an error: its class, and neither usage nor an answer. *)
Definition error_recorded (e : exn) (ev : ChatActivityRecord) : Prop :=
  ((isinstance e C_ResponseValidationError = true /\ ca_outcome ev = CO_VALIDATION_FAILED /\
      ca_error_category ev = Some (py "validation_failed")) \/
   (isinstance e C_InferenceDeadlineExceededError = true /\ ca_outcome ev = CO_DEADLINE_EXCEEDED /\
      ca_error_category ev = Some (py "deadline_exceeded")) \/
   (isinstance e C_ResponseValidationError = false /\ isinstance e C_InferenceDeadlineExceededError = false /\
      ca_outcome ev = CO_PROVIDER_FAILURE /\ ca_error_category ev = Some (py "provider_failure"))) /\
  ca_final_model_id ev = None /\ ca_input_tokens ev = None /\ ca_output_tokens ev = None /\ ca_latency_ms ev = None /\
  ca_estimated_cost_usd ev = None /\ ca_cost_complete ev = false /\ ca_attempt_count ev = None.

(** The activity row that goes with an outcome. *)
Definition activity_of (c : ChatOrchestrationService) (rid : pystr) (mode : ChatRoutingMode)
    (category : option RoutingCategory) (r : result exn ChatOrchestrationResult) (ev : ChatActivityRecord) : Prop :=
  ChatActivityRecord_ok ev = true /\ chat_identified rid mode category ev /\
  match r with
  | Ok out =>
      answer_recorded (cr_response out) ev /\ totals_recorded (cr_response out) (cr_execution out) ev /\
      routing_recorded (cr_routing_decision out) ev /\
      match mode with
      | RM_AUTO => cr_routing_decision out = None /\ cr_execution out = None
      | RM_MANUAL => exists d, cr_routing_decision out = Some d
      end
  | Raise e =>
      error_recorded e ev /\
      match mode with
      | RM_AUTO =>
          exists m, ModelRegistry.get (sv_registry (co_inference_service c)) (co_default_model_id c) = Ok m /\
            ca_initial_model_id ev = Some (co_default_model_id c) /\ ca_provider ev = Some (provider m)
      | RM_MANUAL => ca_initial_model_id ev = None /\ ca_provider ev = None
      end
  end.

Lemma direct_success_recorded c rid category id now resp :
  ChatActivityRecord_ok (direct_success rid id now resp) = true ->
  activity_of c rid RM_AUTO category (Ok (mk_ChatOrchestrationResult resp CM_DIRECT None false None None)) (direct_success rid id now resp).
Proof. intros Hok. split; [done|]. by repeat split. Qed.

Lemma adaptive_success_recorded c rid category id now res :
  ChatActivityRecord_ok (adaptive_success rid id now category res) = true ->
  activity_of c rid RM_MANUAL category
    (Ok (mk_ChatOrchestrationResult (ai_response res) CM_ADAPTIVE category true (Some (ai_routing_decision res)) (ai_execution res)))
    (adaptive_success rid id now category res).
Proof.
  intros Hok. split; [done|]. split; [by repeat split|]. split; [by repeat split|]. split; [|by split; [repeat split|eexists]].
  unfold totals_recorded, adaptive_success, activity_cost, activity_latency. cbn.
  destruct (ai_execution res) as [ex|]; [|by repeat split]. repeat split; by destruct (ae_total_estimated_cost_usd ex).
Qed.

Lemma failure_recorded e f : ca_outcome f = failure_outcome e ->
  ca_error_category f = Some (ChatActivityOutcome_value (failure_outcome e)) ->
  ca_final_model_id f = None /\ ca_input_tokens f = None /\ ca_output_tokens f = None /\ ca_latency_ms f = None /\
  ca_estimated_cost_usd f = None /\ ca_cost_complete f = false /\ ca_attempt_count f = None -> error_recorded e f.
Proof.
  intros Ho Hc Hn. split; [|exact Hn]. rewrite Ho, Hc. unfold failure_outcome.
  destruct (isinstance e C_ResponseValidationError); [by left|].
  destruct (isinstance e C_InferenceDeadlineExceededError); [by right; left|by right; right].
Qed.

Lemma direct_failure_recorded c rid category id now m e :
  ModelRegistry.get (sv_registry (co_inference_service c)) (co_default_model_id c) = Ok m ->
  ChatActivityRecord_ok (direct_failure rid id now (co_default_model_id c) (provider m) e) = true ->
  activity_of c rid RM_AUTO category (Raise e) (direct_failure rid id now (co_default_model_id c) (provider m) e).
Proof. intros Hm Hok. split; [done|]. split; [by repeat split|]. split; [by apply failure_recorded|by exists m]. Qed.

Lemma adaptive_failure_recorded c rid category id now e :
  ChatActivityRecord_ok (adaptive_failure rid id now category e) = true ->
  activity_of c rid RM_MANUAL category (Raise e) (adaptive_failure rid id now category e).
Proof. intros Hok. split; [done|]. split; [by repeat split|]. split; [by apply failure_recorded|done]. Qed.

(** The rows of a chat: those of the services below, then perhaps its own. *)
Definition chat_rows (c : ChatOrchestrationService) (rid : pystr) (mode : ChatRoutingMode)
    (category : option RoutingCategory) (w : world) (r : result exn ChatOrchestrationResult) (w' : world) : Prop :=
  exists l, Forall (fun p => correlated rid p.1) l /\
    (w_writes w' = w_writes w ++ l \/
     exists ev ok, w_writes w' = w_writes w ++ l ++ [(RowChat ev, ok)] /\ activity_of c rid mode category r ev).

Section ChatRows.
Context {E : Env} {UD : UnicodeData} (c : ChatOrchestrationService) (rid : pystr).

Lemma chat_rows_none mode category w r w' : extends (correlated rid) w w' -> chat_rows c rid mode category w r w'.
Proof. intros (l & Hl & Hf). exists l. split; [done|by left]. Qed.

(** After the services: the row of [f], then the outcome. *)
Lemma record_then_rows mode category f d (out : result exn ChatOrchestrationResult) w0 w :
  polite_telemetry -> extends (correlated rid) w0 w ->
  (forall id now, ChatActivityRecord_ok (f id now) = true -> activity_of c rid mode category out (f id now)) ->
  post (_ ← record_new c f d; lift out) w (chat_rows c rid mode category w0).
Proof.
  intros Hp (l & Hl & Hf) Ha. apply post_bind. eapply post_mono; [apply record_new_spec|].
  intros r w' [[_ W] Hr]. specialize (Hr Hp). destruct r as [u|e].
  - apply post_lift. exists l. split; [done|]. destruct W as [W|(id & now & ok & W & Hok)]; [left; congruence|right].
    exists (f id now), ok. split; [rewrite W, Hl; by rewrite app_assoc|]. by apply Ha.
  - destruct Hr as [?|Hr]; [done|]. exists l. split; [done|left]. unfold same_writes in Hr. congruence.
Qed.

Lemma chat_generate_rows request mode category validation d w : polite_telemetry -> rid <> [] ->
  post (chat_generate c request mode category validation rid d) w (chat_rows c rid mode category w).
Proof.
  intros Hp Hrid. destruct mode; cbn [chat_generate].
  - unfold chat_direct. apply post_bind, post_outcome.
    eapply post_mono; [apply (generate_writes rid); by left|]. intros r w1 H1. cbv beta iota. destruct r as [resp|e].
    + change (mret ?x) with (lift (A := ChatOrchestrationResult) (Ok x)). apply record_then_rows; [done|done|].
      intros id now Hok. by apply direct_success_recorded.
    + destruct (direct_reported e); [|by apply post_raise, chat_rows_none].
      apply post_bind, post_lift. destruct (ModelRegistry.get _ _) as [m|e'] eqn:Eg; [|by apply chat_rows_none].
      change (raise e) with (lift (A := ChatOrchestrationResult) (Raise e)). apply record_then_rows; [done|done|].
      intros id now Hok. by apply direct_failure_recorded.
  - unfold chat_adaptive. destruct (co_adaptive_runtime c) as [rt|].
    2: { apply post_raise, chat_rows_none. by apply extends_refl. }
    apply post_bind, post_outcome. eapply post_mono; [by apply adaptive_generate_writes|].
    intros r w1 H1. cbv beta iota. destruct r as [res|e].
    + change (mret ?x) with (lift (A := ChatOrchestrationResult) (Ok x)). apply record_then_rows; [done|done|].
      intros id now Hok. by apply adaptive_success_recorded.
    + destruct (adaptive_reported e); [|by apply post_raise, chat_rows_none].
      change (raise e) with (lift (A := ChatOrchestrationResult) (Raise e)). apply record_then_rows; [done|done|].
      intros id now Hok. by apply adaptive_failure_recorded.
Qed.
End ChatRows.

(** C15. The activity log tells the truth: whatever happens during a chat with a
    request identifier, over telemetry whose writes fail with ordinary exceptions
    if at all, the rows written below it all carry the chat's request identifier,
    at most one chat row follows them, last, and it describes the outcome the
    caller got.  For an answer that is its model, provider and tokens, the routing
    that was done, and attempts, latency and cost: the totals over all attempts
    of a validated execution, otherwise those of the response.  For an error it
    is its class, without tokens, latency or cost. *)
Theorem chat_activity_faithful {E : Env} {UD : UnicodeData} c request mode category validation rid d w :
  polite_telemetry -> rid <> [] ->
  chat_rows c rid mode category w (chat_generate c request mode category validation rid d w).1
    (chat_generate c request mode category validation rid d w).2.
Proof. intros Hp Hr. by apply chat_generate_rows. Qed.

(** A runtime as [build_adaptive_runtime] makes it, over the chat's own service. *)
Definition runtime_ok (c : ChatOrchestrationService) (rt : AdaptiveRuntime) : Prop :=
  as_inference (rt_service rt) = co_inference_service c /\
  max_attempts_ok (as_max_attempts (rt_service rt)) = true /\ narrowing (as_filter (rt_service rt)).

Section ChatModes.
Context {E : Env} {UD : UnicodeData} (c : ChatOrchestrationService).
Context (Hwf : ModelRegistry.wf (sv_registry (co_inference_service c))).

Lemma chat_direct_post request rid d w :
  post (chat_direct c request rid d) w (fun r w' =>
    attempt_call (co_default_model_id c) request w w' /\
    forall out, r = Ok out -> rs_model_id (cr_response out) = co_default_model_id c /\
      out = mk_ChatOrchestrationResult (cr_response out) CM_DIRECT None false None None).
Proof.
  unfold chat_direct. apply post_bind, post_outcome.
  eapply post_mono; [apply generate_attempt_call; auto|]. intros r w1 [(k & Hk & Hkk) Hm]. cbv beta iota.
  assert (Hc : forall f w2, chat_row f w1 w2 -> attempt_call (co_default_model_id c) request w w2).
  { intros f w2 [C _]. exists k. split; [congruence|done]. }
  destruct r as [resp|e].
  - apply post_bind. eapply post_mono; [apply record_new_spec|].
    intros [u|e] w2 [H2 _]; [|by split; [apply (Hc _ _ H2)|]].
    apply post_ret. split; [by apply (Hc _ _ H2)|]. intros out Ho. injection Ho as <-. split; [by apply Hm|done].
  - assert (Hc1 : attempt_call (co_default_model_id c) request w w1) by by exists k.
    destruct (direct_reported e); [|by apply post_raise].
    apply post_bind, post_lift. destruct (ModelRegistry.get _ _) as [m|e']; [|done].
    apply post_bind. eapply post_mono; [apply record_new_spec|].
    intros [u|e'] w2 [H2 _]; split; try done; by apply (Hc _ _ H2).
Qed.

(** The result of a manual chat, made from an adaptive result. *)
Definition adaptive_answer (rt : AdaptiveRuntime) (request : InferenceRequest) (category : option RoutingCategory)
    (validation : option ValidationContract) (out : ChatOrchestrationResult) : Prop :=
  exists res,
    @returns_routed (as_validator (rt_service rt)) (as_predictor (rt_service rt)) UD
      (as_filter (rt_service rt)) (as_inference (rt_service rt)) request (RoutingCategory_value <$> category)
      (PyFloat (rt_approved_quality_threshold rt)) (rt_candidate_model_ids rt) validation false res /\
    out = mk_ChatOrchestrationResult (ai_response res) CM_ADAPTIVE category true
            (Some (ai_routing_decision res)) (ai_execution res).

Lemma chat_adaptive_post rt request category validation rid d w :
  co_adaptive_runtime c = Some rt -> runtime_ok c rt ->
  post (chat_adaptive c request category validation rid d) w (fun r w' =>
    calls_bounded 3 (rt_candidate_model_ids rt) request w w' /\
    forall out, r = Ok out -> adaptive_answer rt request category validation out).
Proof.
  intros Hrt (Hi & Hmax & Hn). unfold chat_adaptive. rewrite Hrt.
  apply post_bind, post_outcome. eapply post_mono; [apply adaptive_generate_post; by rewrite ?Hi|].
  intros r w1 [(l & Hl & Hlen & Hl') Ho]. cbv beta iota.
  assert (Hc : forall w2, w_calls w2 = w_calls w1 -> calls_bounded 3 (rt_candidate_model_ids rt) request w w2).
  { intros w2 C. exists l. split; [congruence|]. split; [|done]. destruct validation; lia. }
  destruct r as [res|e].
  - apply post_bind. eapply post_mono; [apply record_new_spec|].
    intros [u|e] w2 [[C2 _] _]; [|by split; [apply Hc|]].
    apply post_ret. split; [by apply Hc|]. intros out Hout. injection Hout as <-. exists res. split; [by apply Ho|done].
  - destruct (adaptive_reported e); [|by apply post_raise; split; [apply Hc|]].
    apply post_bind. eapply post_mono; [apply record_new_spec|].
    intros [u|e'] w2 [[C2 _] _]; split; try done; by apply Hc.
Qed.
End ChatModes.

(** A chat goes exactly the way its mode says.  Automatic: at most one call, of
    the configured default model with the request as it is, and the answer is
    that model's.  Manual: without a runtime it is refused before anything
    happens; with one, at most three calls, only of the runtime's candidates,
    and the answer is the adaptive result at the approved threshold and the
    caller's category. *)
Theorem chat_follows_mode {E : Env} {UD : UnicodeData} c request mode category validation rid d w :
  ModelRegistry.wf (sv_registry (co_inference_service c)) ->
  let r := (chat_generate c request mode category validation rid d w).1 in
  let w' := (chat_generate c request mode category validation rid d w).2 in
  match mode, co_adaptive_runtime c with
  | RM_AUTO, _ =>
      attempt_call (co_default_model_id c) request w w' /\
      forall out, r = Ok out -> rs_model_id (cr_response out) = co_default_model_id c /\
        out = mk_ChatOrchestrationResult (cr_response out) CM_DIRECT None false None None
  | RM_MANUAL, None => r = Raise (Exn C_AdaptiveRoutingUnavailableError) /\ w' = w
  | RM_MANUAL, Some rt =>
      runtime_ok c rt ->
      calls_bounded 3 (rt_candidate_model_ids rt) request w w' /\
      forall out, r = Ok out -> adaptive_answer rt request category validation out
  end.
Proof.
  intros Hwf r w'. subst r w'. destruct mode; cbn [chat_generate]; [by apply chat_direct_post|].
  destruct (co_adaptive_runtime c) as [rt|] eqn:Hrt; [intros Hok; by apply chat_adaptive_post|].
  unfold chat_adaptive. by rewrite Hrt.
Qed.

(** ** A concrete chat *)

Definition example_runtime_of (s : InferenceService) : AdaptiveRuntime :=
  mk_AdaptiveRuntime (mk_AdaptiveInferenceService s uniform_predictor None example_validator 3)
    [py "dear"; py "cheap"] (f_of_ratio 80 100).

Definition example_chat : ChatOrchestrationService :=
  mk_ChatOrchestrationService escalating_service (py "cheap") (Some (example_runtime_of escalating_service)).

#[local] Notation example_run :=
  (@chat_generate still_env ascii_tables example_chat example_prompt RM_MANUAL (Some QA) (Some json_contract)
     (py "r1") example_deadline initial_world).

(** An escalated chat writes its two attempts, the execution and the chat. *)
Example chat_row_kinds :
  map (fun p => match p.1 with RowInference _ => 0 | RowAdaptive _ => 1 | RowChat _ => 2 end)
    (w_writes example_run.2) = [0; 0; 1; 2].
Proof. vm_compute. reflexivity. Qed.

Lemma still_env_polite : @polite_telemetry still_env.
Proof. intros t row e H. discriminate H. Qed.

Lemma chat_activity_faithful_witness :
  @polite_telemetry still_env /\
  chat_rows example_chat (py "r1") RM_MANUAL (Some QA) initial_world example_run.1 example_run.2.
Proof.
  split; [exact still_env_polite|].
  apply (@chat_activity_faithful still_env ascii_tables example_chat example_prompt RM_MANUAL (Some QA)
    (Some json_contract) (py "r1") example_deadline initial_world still_env_polite).
  discriminate.
Defined.

Lemma chat_follows_mode_witness :
  runtime_ok example_chat (example_runtime_of escalating_service) /\
  calls_bounded 3 [py "dear"; py "cheap"] example_prompt initial_world example_run.2.
Proof.
  assert (Hok : runtime_ok example_chat (example_runtime_of escalating_service)) by (split; [|split]; done).
  split; [exact Hok|].
  destruct (@chat_follows_mode still_env ascii_tables example_chat example_prompt RM_MANUAL (Some QA)
    (Some json_contract) (py "r1") example_deadline initial_world escalating_registry_wf Hok) as [H _].
  exact H.
Defined.
