(* ===== verification/RateLimit.v ===== *)
(** * Admission control ([rate_limit.py])

    A fixed-window limiter over two counters in Redis, one per client and one
    for the deployment, decided by one script.  The commands the script calls
    are an interface with the behaviour Redis documents for them; the script,
    the settings and the interpretation of its reply are the source's. *)
From stdpp Require Import gmap.
From S2P Require Import Prelude PyStr PyFloat PyDecimal Schemas Errors PyNum Deadline Validation Observability PyUuid Telemetry Effects.

(** ** Settings *)

Record RateLimitSettings := mk_RateLimitSettings {
  rl_required : bool;
  redis_url : option pystr;
  hmac_secret : option pystr;
  redis_timeout_seconds : float;
  client_capacity : Z;
  client_window_seconds : Z;
  global_capacity : Z;
  global_window_seconds : Z;
  explicit_weight : Z;
  adaptive_weight : Z
}.

(** What the module takes from other packages: [urlsplit] (scheme and host),
    [hmac.new(..., sha256).hexdigest()] and [ip_address(...).compressed]. *)
Class AdmissionRuntime := {
  url_parts : pystr -> pystr * option pystr;
  hmac_sha256_hex : pystr -> pystr -> pystr;
  ip_compressed : pystr -> option pystr
}.

Definition in_bounds (hi n : Z) : bool := ((0 <? n)%Z && (n <=? hi)%Z).

Section Settings.
Context {R : AdmissionRuntime} {UD : UnicodeData}.

(** The fields' bounds, then [validate_required_settings]. *)
Definition RateLimitSettings_validate (s : RateLimitSettings) : result pystr unit :=
  _ ← check (f_isfinite (redis_timeout_seconds s) && f_ltb f_zero (redis_timeout_seconds s) &&
             f_leb (redis_timeout_seconds s) (f_of_Z 5) &&
             in_bounds 1000000 (client_capacity s) && in_bounds 86400 (client_window_seconds s) &&
             in_bounds 10000000 (global_capacity s) && in_bounds 86400 (global_window_seconds s) &&
             in_bounds 1000000 (explicit_weight s) && in_bounds 1000000 (adaptive_weight s)) field_error;
  _ ← check (negb (rl_required s) ||
             match redis_url s, hmac_secret s with Some _, Some _ => true | _, _ => false end)
        (py "REDIS_URL and RATE_LIMIT_HMAC_SECRET are required when rate limiting is required");
  _ ← check (match redis_url s with
             | Some u => let '(scheme, host) := url_parts u in
                 (bool_decide (scheme = py "redis") || bool_decide (scheme = py "rediss")) &&
                 match host with Some (_ :: _) => true | _ => false end
             | None => true
             end) (py "REDIS_URL must be a redis:// or rediss:// URL with a host");
  _ ← check (match hmac_secret s with Some k => Nat.leb 32 (length k) | None => true end)
        (py "RATE_LIMIT_HMAC_SECRET must contain at least 32 characters");
  _ ← check (explicit_weight s <=? Z.min (client_capacity s) (global_capacity s))%Z
        (py "explicit weight must fit both configured capacities");
  check (adaptive_weight s <=? Z.min (client_capacity s) (global_capacity s))%Z
    (py "adaptive weight must fit both configured capacities").

Definition normalize_client_identity (identity : pystr) : pystr :=
  let value := strip identity in
  match value with
  | [] => py "unknown"
  | _ => match ip_compressed value with Some a => a | None => u_casefold value end
  end.

Definition client_identity_digest (secret identity : pystr) : pystr :=
  hmac_sha256_hex secret (normalize_client_identity identity).
End Settings.

(** ** The commands of Redis the script uses

    [rd_view] is what a key holds at a time: a number and, unless the key is
    persistent, the millisecond after which it is gone. *)
Class Redis := {
  rd_store : Type;
  rd_view : rd_store -> Z -> pystr -> option (Z * option Z);
  rd_get : rd_store -> Z -> pystr -> option Z;
  rd_pttl : rd_store -> Z -> pystr -> Z;
  rd_incrby : rd_store -> Z -> pystr -> Z -> Z * rd_store;
  rd_pexpire : rd_store -> Z -> pystr -> Z -> rd_store
}.

(** A key at a later time: it is gone once its time has passed. *)
Definition aged (v : option (Z * option Z)) (now : Z) : option (Z * option Z) :=
  match v with
  | Some (n, Some e) => if (now <=? e)%Z then v else None
  | _ => v
  end.

(** The documented behaviour of [GET], [PTTL], [INCRBY] and [PEXPIRE] on
    integers in range, and of expiry. *)
Class RedisLaws (R : Redis) : Prop := {
  rd_get_view : forall s t k, rd_get s t k = fst <$> rd_view s t k;
  rd_pttl_view : forall s t k, rd_pttl s t k =
    match rd_view s t k with
    | None => (-2)%Z
    | Some (_, None) => (-1)%Z
    | Some (_, Some e) => (e - t)%Z
    end;
  rd_incrby_view : forall s t k n,
    let old := default 0%Z (fst <$> rd_view s t k) in
    (Z.abs (old + n) < 2 ^ 63)%Z ->
    (rd_incrby s t k n).1 = (old + n)%Z /\
    rd_view (rd_incrby s t k n).2 t k = Some ((old + n)%Z, rd_view s t k ≫= snd);
  rd_incrby_other : forall s t k n k' t', k' <> k -> rd_view (rd_incrby s t k n).2 t' k' = rd_view s t' k';
  rd_pexpire_view : forall s t k ms, (0 < ms)%Z ->
    rd_view (rd_pexpire s t k ms) t k = (fun v => (v.1, Some (t + ms)%Z)) <$> rd_view s t k;
  rd_pexpire_other : forall s t k ms k' t', k' <> k -> rd_view (rd_pexpire s t k ms) t' k' = rd_view s t' k';
  rd_view_ages : forall s t t' k, (t <= t')%Z -> rd_view s t' k = aged (rd_view s t k) t'
}.

(** ** [_ADMIT_SCRIPT] *)

(** What the script returns: the four and the three element tables. *)
Inductive script_reply :=
| Granted (client_left global_left : Z)
| Blocked (retry_ms scope : Z).

(** [if ttl < 1 then ttl = window end] *)
Definition live_ttl (ttl window : Z) : Z := if (ttl <? 1)%Z then window else ttl.

Section Script.
Context {R : Redis}.
Context (client_key global_key : pystr) (weight client_capacity client_window_ms global_capacity global_window_ms : Z).

(** [INCRBY], then [PEXPIRE] when the key does not expire. *)
Definition consume (s : rd_store) (now : Z) (key : pystr) (window_ms : Z) : Z * rd_store :=
  let '(new, s1) := rd_incrby s now key weight in
  (new, if (rd_pttl s1 now key <? 0)%Z then rd_pexpire s1 now key window_ms else s1).

Definition admit_script (s : rd_store) (now : Z) : script_reply * rd_store :=
  let client_used := default 0%Z (rd_get s now client_key) in
  let global_used := default 0%Z (rd_get s now global_key) in
  let client_blocked := (client_capacity <? client_used + weight)%Z in
  let global_blocked := (global_capacity <? global_used + weight)%Z in
  if client_blocked || global_blocked then
    let '(retry_ms, scope) :=
      if client_blocked then (live_ttl (rd_pttl s now client_key) client_window_ms, 1%Z) else (0%Z, 0%Z) in
    let '(retry_ms, scope) :=
      if global_blocked then
        let ttl := live_ttl (rd_pttl s now global_key) global_window_ms in
        (if (retry_ms <? ttl)%Z then ttl else retry_ms, if (scope =? 1)%Z then 3%Z else 2%Z)
      else (retry_ms, scope) in
    (Blocked retry_ms scope, s)
  else
    let '(new_client, s1) := consume s now client_key client_window_ms in
    let '(new_global, s2) := consume s1 now global_key global_window_ms in
    (Granted (client_capacity - new_client) (global_capacity - new_global), s2).
End Script.

(** ** [RedisRateLimiter] *)

Inductive InferenceKind := IK_EXPLICIT | IK_ADAPTIVE.

#[export] Instance InferenceKind_eq_dec : EqDecision InferenceKind.
Proof. solve_decision. Defined.

Definition KEY_PREFIX : pystr := py "routellm:rate:{admission}".
Definition client_key_of (digest : pystr) : pystr := KEY_PREFIX ++ py ":client:" ++ digest.
Definition global_key : pystr := KEY_PREFIX ++ py ":global".

Definition weight_of (s : RateLimitSettings) (k : InferenceKind) : Z :=
  match k with IK_EXPLICIT => explicit_weight s | IK_ADAPTIVE => adaptive_weight s end.

Definition route_of (k : InferenceKind) : pystr :=
  match k with IK_EXPLICIT => py "/v1/inference" | IK_ADAPTIVE => py "/v1/inference/adaptive" end.

(** [math.ceil] of a finite float. *)
Definition f_ceil (x : float) : Z :=
  match x with
  | S754_finite s m e =>
      let v := if s then Z.neg m else Z.pos m in
      if (0 <=? e)%Z then (v * 2 ^ e)%Z else (- ((- v) / 2 ^ (- e)))%Z
  | _ => 0%Z
  end.

(** [max(1, math.ceil(retry_ms / 1000))]: the quotient of two integers is a
    float, correctly rounded, and raises when it is out of range. *)
Definition retry_after_seconds_of (retry_ms : Z) : result exn Z :=
  let q := f_of_ratio retry_ms 1000 in
  if f_isfinite q then Ok (Z.max 1 (f_ceil q)) else Raise (Exn C_OverflowError).

(** [RedisRateLimiter.__init__] *)
Definition new_RedisRateLimiter (s : RateLimitSettings) : result exn pystr :=
  match hmac_secret s with
  | Some secret => if rl_required s then Ok secret else Raise (Exn C_ValueError)
  | None => Raise (Exn C_ValueError)
  end.

Section Limiter.
Context {E : Env} {AR : AdmissionRuntime} {UD : UnicodeData} (s : RateLimitSettings) (secret : pystr).
(** The objects the client library returns, and [int(...)] on them. *)
Context {item : Type} (py_int : item -> result exn Z).

(** A reply: a list or tuple, or something else. *)
Definition reply : Type := option (list item).

(** [except (TypeError, ValueError, OverflowError): unavailable] *)
Definition int_or_unavailable (r : result exn Z) : result exn Z :=
  match r with
  | Ok z => Ok z
  | Raise e => if isinstance e C_TypeError || isinstance e C_ValueError || isinstance e C_OverflowError
               then Raise (Exn C_RateLimitUnavailableError) else Raise e
  end.

Definition scope_name (code : Z) : option pystr :=
  if (code =? 1)%Z then Some (py "client") else if (code =? 2)%Z then Some (py "global")
  else if (code =? 3)%Z then Some (py "both") else None.

(** What [admit] makes of a reply: nothing to do, or the rejection. *)
Definition interpret (r : reply) : result exn (option (Z * pystr)) :=
  match r with
  | Some (a :: b :: rest) =>
      admitted ← int_or_unavailable (py_int a);
      retry_ms ← int_or_unavailable (py_int b);
      if negb ((admitted =? 0)%Z || (admitted =? 1)%Z) then Raise (Exn C_RateLimitUnavailableError)
      else if (admitted =? 0)%Z then
        code ← match rest with
               | [] => Raise (Exn C_RateLimitUnavailableError)
               | c :: _ => int_or_unavailable (py_int c)
               end;
        match scope_name code with
        | None => Raise (Exn C_RateLimitUnavailableError)
        | Some scope => after ← retry_after_seconds_of retry_ms; Ok (Some (after, scope))
        end
      else Ok None
  | _ => Raise (Exn C_RateLimitUnavailableError)
  end.

(** [client.eval(_ADMIT_SCRIPT, 2, *keys, ...)] at a tick. *)
Context (eval_script : nat -> pystr -> pystr -> Z -> result exn reply).

(** [RedisRateLimiter.admit] *)
Definition admit_request (client_identity : pystr) (kind : InferenceKind) (d : RequestDeadline) : M unit :=
  timeout ← deadline_constrain d (redis_timeout_seconds s);
  match timeout with
  | None => raise (Exn C_InferenceDeadlineExceededError)
  | Some _ =>
      let digest := client_identity_digest secret client_identity in
      t ← tick;
      match eval_script t (client_key_of digest) global_key (weight_of s kind) with
      | Raise e =>
          if isinstance e C_TimeoutError then
            late ← deadline_expired d;
            raise (if (late : bool) then Exn C_InferenceDeadlineExceededError else Exn C_RateLimitUnavailableError)
          else if isinstance e C_RedisError then raise (Exn C_RateLimitUnavailableError)
          else raise e
      | Ok r =>
          out ← lift (interpret r);
          match out with
          | None => mret tt
          | Some (after, scope) =>
              _ ← observe (rate_limit_rejection scope (route_of kind));
              raise (RateLimitExceededError after scope)
          end
      end
  end.

(** [RedisRateLimiter.ready]: the outcome of [bool(await ping())]. *)
Definition limiter_ready (ping : result exn bool) : result exn bool :=
  match ping with
  | Ok b => Ok b
  | Raise e => if isinstance e C_TimeoutError || isinstance e C_RedisError then Ok false else Raise e
  end.
End Limiter.

(** [DisabledRateLimiter.admit] *)
Definition disabled_admit {E : Env} (d : RequestDeadline) : M unit :=
  late ← deadline_expired d;
  if (late : bool) then raise (Exn C_InferenceDeadlineExceededError) else mret tt.

(** [create_redis_client]: the address that is connected to. *)
Definition redis_address (s : RateLimitSettings) : result exn pystr :=
  match redis_url s with Some u => Ok u | None => Raise (Exn C_ValueError) end.

(** The reply the script's own tables become. *)
Definition script_items (r : script_reply) : list Z :=
  match r with
  | Granted c g => [1; 0; c; g]%Z
  | Blocked ms scope => [0; ms; scope]%Z
  end.

(** ** The script against the documented commands *)

Section ScriptFacts.
Context {R : Redis} {L : RedisLaws R}.

Definition used (s : rd_store) (t : Z) (k : pystr) : Z := default 0%Z (fst <$> rd_view s t k).

Lemma used_get s t k : default 0%Z (rd_get s t k) = used s t k.
Proof. unfold used. by rewrite rd_get_view. Qed.

Lemma view_fresh s t k n e : rd_view s t k = Some (n, Some e) -> (t <= e)%Z.
Proof.
  intros H. pose proof (rd_view_ages s t t k ltac:(lia)) as A. rewrite H in A. cbn [aged] in A.
  destruct (Z.leb_spec t e); [done|discriminate].
Qed.

(** The expiry of a key after it was consumed from. *)
Definition expiry_after (v : option (Z * option Z)) (t window : Z) : Z :=
  match v with Some (_, Some e) => e | _ => (t + window)%Z end.

Lemma consume_spec w s t k window : (0 < window)%Z -> (Z.abs (used s t k + w) < 2 ^ 63)%Z ->
  (consume w s t k window).1 = (used s t k + w)%Z /\
  rd_view (consume w s t k window).2 t k = Some ((used s t k + w)%Z, Some (expiry_after (rd_view s t k) t window)) /\
  (forall k' t', k' <> k -> rd_view (consume w s t k window).2 t' k' = rd_view s t' k').
Proof.
  intros Hw Hr. destruct (rd_incrby_view s t k w Hr) as [Hn Hv].
  pose proof (fun k' t' => rd_incrby_other s t k w k' t') as Ho. unfold consume, used in *.
  destruct (rd_incrby s t k w) as [new s1]. cbn [fst snd] in *. split; [done|].
  rewrite rd_pttl_view, Hv. destruct (rd_view s t k) as [[n [e|]]|] eqn:Ev; cbn [option_bind mbind fst snd expiry_after].
  - apply view_fresh in Ev. destruct (Z.ltb_spec (e - t) 0); [lia|]. split; [exact Hv|done].
  - change (-1 <? 0)%Z with true. cbv iota. rewrite rd_pexpire_view, Hv by done. split; [done|].
    intros k' t' Hk. rewrite rd_pexpire_other by done. by apply Ho.
  - change (-1 <? 0)%Z with true. cbv iota. rewrite rd_pexpire_view, Hv by done. split; [done|].
    intros k' t' Hk. rewrite rd_pexpire_other by done. by apply Ho.
Qed.
End ScriptFacts.

Section Decision.
Context {R : Redis} {L : RedisLaws R}.
Context (ck gk : pystr) (w cc cw gc gw : Z).
Context (Hk : ck <> gk) (Hw : (0 < w)%Z) (Hcw : (0 < cw)%Z) (Hgw : (0 < gw)%Z).
Context (Hcc : (cc < 2 ^ 63)%Z) (Hgc : (gc < 2 ^ 63)%Z).

Definition fits (s : rd_store) (t : Z) : bool :=
  (used s t ck + w <=? cc)%Z && (used s t gk + w <=? gc)%Z.

(** A refusal changes nothing. *)
Lemma script_refuses s t : fits s t = false ->
  exists ms scope, admit_script ck gk w cc cw gc gw s t = (Blocked ms scope, s) /\
    scope = (if (used s t gk + w <=? gc)%Z then 1 else if (used s t ck + w <=? cc)%Z then 2 else 3)%Z /\
    ms = Z.max (if (used s t ck + w <=? cc)%Z then 0 else live_ttl (rd_pttl s t ck) cw)
               (if (used s t gk + w <=? gc)%Z then 0 else live_ttl (rd_pttl s t gk) gw).
Proof.
  unfold fits, admit_script. intros H. rewrite !used_get. cbv zeta. rewrite !Z.ltb_antisym.
  assert (Hl : forall x y, (0 < y)%Z -> (0 <= live_ttl x y)%Z).
  { intros x y Hy. unfold live_ttl. destruct (Z.ltb_spec x 1); lia. }
  pose proof (Hl (rd_pttl s t ck) cw Hcw) as L1. pose proof (Hl (rd_pttl s t gk) gw Hgw) as L2.
  destruct (used s t ck + w <=? cc)%Z, (used s t gk + w <=? gc)%Z; try discriminate H; cbn [negb orb];
    (eexists _, _; split; [reflexivity|]; split; [reflexivity|]).
  - destruct (Z.ltb_spec 0 (live_ttl (rd_pttl s t gk) gw)); lia.
  - lia.
  - destruct (Z.ltb_spec (live_ttl (rd_pttl s t ck) cw) (live_ttl (rd_pttl s t gk) gw)); lia.
Qed.

(** An admission consumes from both counters and from nothing else. *)
Lemma script_admits s t : (0 <= used s t ck)%Z -> (0 <= used s t gk)%Z -> fits s t = true ->
  exists s', admit_script ck gk w cc cw gc gw s t =
    (Granted (cc - (used s t ck + w)) (gc - (used s t gk + w)), s') /\
    rd_view s' t ck = Some ((used s t ck + w)%Z, Some (expiry_after (rd_view s t ck) t cw)) /\
    rd_view s' t gk = Some ((used s t gk + w)%Z, Some (expiry_after (rd_view s t gk) t gw)) /\
    (forall k t', k <> ck -> k <> gk -> rd_view s' t' k = rd_view s t' k).
Proof.
  unfold fits, admit_script. intros H1 H2 H. rewrite !used_get. cbv zeta. rewrite !Z.ltb_antisym. bools.
  rewrite (proj2 (Z.leb_le _ _) H), (proj2 (Z.leb_le _ _) H0). cbn [negb orb].
  destruct (consume_spec w s t ck cw Hcw) as (C1 & C2 & C3); [lia|].
  destruct (consume w s t ck cw) as [nc s1]. cbn [fst snd] in *.
  assert (U : used s1 t gk = used s t gk) by (unfold used; by rewrite C3 by congruence).
  destruct (consume_spec w s1 t gk gw Hgw) as (G1 & G2 & G3); [rewrite U; lia|].
  destruct (consume w s1 t gk gw) as [ng s2]. cbn [fst snd] in *. exists s2.
  rewrite C1, G1, U. split; [done|]. split; [by rewrite G3|].
  rewrite G2, U, C3 by congruence. split; [done|]. intros k t' Hkc Hkg. rewrite G3, C3 by done. done.
Qed.
End Decision.

(** ** Sequences of admissions *)

(** One evaluation of the script: its time, client key and weight. *)
Record admission := mk_admission { am_time : Z; am_client : pystr; am_weight : Z }.

Section Runs.
Context {R : Redis} {L : RedisLaws R}.
Context (gk : pystr) (cc cw gc gw : Z).

Definition admitted (r : script_reply) : bool := match r with Granted _ _ => true | Blocked _ _ => false end.

(** The store after a sequence, with the decision on each. *)
Fixpoint run (s : rd_store) (l : list admission) : list (admission * bool) * rd_store :=
  match l with
  | [] => ([], s)
  | a :: l' =>
      let '(r, s1) := admit_script (am_client a) gk (am_weight a) cc cw gc gw s (am_time a) in
      let '(out, s2) := run s1 l' in
      ((a, admitted r) :: out, s2)
  end.

(** The weight admitted on a counter: a client's or the deployment's. *)
Definition admitted_weight (k : pystr) (out : list (admission * bool)) : Z :=
  foldr (fun p n => ((if p.2 && (bool_decide (am_client p.1 = k) || bool_decide (gk = k))
                      then am_weight p.1 else 0) + n)%Z) 0%Z out.

Definition capacity_of (k : pystr) : Z := if bool_decide (gk = k) then gc else cc.
Definition window_of (k : pystr) : Z := if bool_decide (gk = k) then gw else cw.

(** Times in order within an interval, valid weights, clients' own keys. *)
Fixpoint ordered (t0 t_end : Z) (l : list admission) : Prop :=
  match l with
  | [] => True
  | a :: l' => (t0 <= am_time a <= t_end)%Z /\ (0 < am_weight a)%Z /\ am_client a <> gk /\
               ordered (am_time a) t_end l'
  end.

(** What may still be admitted on [k] until [t_end], seen from a view of it. *)
Definition allowance (k : pystr) (t_end : Z) (v : option (Z * option Z)) : Z :=
  match v with
  | None => capacity_of k
  | Some (n, Some e) => (capacity_of k - n + if e <? t_end then capacity_of k else 0)%Z
  | Some (n, None) => (capacity_of k - n)%Z
  end.

(** Counters between nothing and the capacity. *)
Definition counted (k : pystr) (v : option (Z * option Z)) : Prop :=
  match v with Some (n, _) => (0 <= n <= capacity_of k)%Z | None => True end.

Context (Hcw : (0 < cw)%Z) (Hgw : (0 < gw)%Z) (Hcc : (0 <= cc < 2 ^ 63)%Z) (Hgc : (0 <= gc < 2 ^ 63)%Z).

Lemma capacity_nonneg k : (0 <= capacity_of k)%Z.
Proof. unfold capacity_of. case_bool_decide; lia. Qed.

Lemma aged_allowance k t t_end v : (t <= t_end)%Z -> counted k v ->
  (allowance k t_end (aged v t) <= allowance k t_end v)%Z /\ counted k (aged v t).
Proof.
  intros Ht. pose proof (capacity_nonneg k). unfold allowance, counted, aged.
  destruct v as [[n [e|]]|]; try lia. destruct (Z.leb_spec t e) as [Hl|Hl]; [lia|].
  destruct (Z.ltb_spec e t_end); lia.
Qed.

Lemma counted_used k s t : counted k (rd_view s t k) -> (0 <= used s t k)%Z.
Proof. unfold used, counted. destruct (rd_view s t k) as [[n e]|]; cbn; lia. Qed.

(** Consuming from a counter spends the allowance. *)
Lemma consumed_allowance k t t_end w v : (0 < w)%Z -> (t_end <= t + window_of k)%Z -> counted k v ->
  (default 0 (fst <$> v) + w <= capacity_of k)%Z ->
  let v' := Some ((default 0 (fst <$> v) + w)%Z, Some (expiry_after v t (window_of k))) in
  (w + allowance k t_end v' <= allowance k t_end v)%Z /\ counted k v'.
Proof.
  intros Hw Ht Hc Hf. unfold allowance, counted, expiry_after in *.
  destruct v as [[n [e|]]|]; cbn [fmap option_fmap option_map fst default from_option id] in *.
  - destruct (Z.ltb_spec e t_end); lia.
  - destruct (Z.ltb_spec (t + window_of k) t_end); lia.
  - destruct (Z.ltb_spec (t + window_of k) t_end); lia.
Qed.

(** The keys of the limiter. *)
Context (K : pystr -> Prop) (Hgk : K gk).

Definition all_counted (s : rd_store) (t : Z) : Prop := forall k, K k -> counted k (rd_view s t k).

(** One admission: every counter stays within its capacity, and the allowance
    of [k] pays for what is admitted on it. *)
Lemma admission_step s t t_end a k :
  (t <= am_time a <= t_end)%Z -> (0 < am_weight a)%Z -> am_client a <> gk -> K (am_client a) ->
  all_counted s t -> K k -> (t_end <= t + window_of k)%Z ->
  let '(r, s1) := admit_script (am_client a) gk (am_weight a) cc cw gc gw s (am_time a) in
  all_counted s1 (am_time a) /\
  ((if admitted r && (bool_decide (am_client a = k) || bool_decide (gk = k)) then am_weight a else 0) +
   allowance k t_end (rd_view s1 (am_time a) k) <= allowance k t_end (rd_view s t k))%Z.
Proof.
  intros Ht Hw Hk Hca Hc Htr Hwin.
  assert (Hc1 : forall k', K k' ->
    (allowance k' t_end (rd_view s (am_time a) k') <= allowance k' t_end (rd_view s t k'))%Z /\
    counted k' (rd_view s (am_time a) k')).
  { intros k' Hk'. rewrite (rd_view_ages s t (am_time a)) by lia. apply aged_allowance; [lia|by apply Hc]. }
  destruct (fits (am_client a) gk (am_weight a) cc gc s (am_time a)) eqn:Ef.
  2: { destruct (script_refuses (am_client a) gk (am_weight a) cc cw gc gw Hcw Hgw s (am_time a) Ef)
         as (ms & sc & -> & _). cbn [admitted andb]. split; [intros k' Hk'; by apply Hc1|].
       destruct (Hc1 k Htr). lia. }
  destruct (script_admits (am_client a) gk (am_weight a) cc cw gc gw Hk Hw Hcw Hgw ltac:(lia) ltac:(lia)
    s (am_time a)) as (s1 & -> & V1 & V2 & V3); [by apply counted_used, Hc1|by apply counted_used, Hc1|done|].
  cbn [admitted andb]. unfold fits in Ef. apply andb_true_iff in Ef as [Ef1%Z.leb_le Ef2%Z.leb_le].
  assert (Cc : capacity_of (am_client a) = cc /\ window_of (am_client a) = cw).
  { unfold capacity_of, window_of. by rewrite !bool_decide_eq_false_2 by congruence. }
  assert (Cg : capacity_of gk = gc /\ window_of gk = gw).
  { unfold capacity_of, window_of. by rewrite !bool_decide_eq_true_2. }
  destruct Cc as [Cc Wc], Cg as [Cg Wg].
  assert (Hs : forall k', K k' -> k' = am_client a \/ k' = gk -> (t_end <= am_time a + window_of k')%Z ->
    (am_weight a + allowance k' t_end (rd_view s1 (am_time a) k') <= allowance k' t_end (rd_view s (am_time a) k'))%Z).
  { intros k' Hk' [-> | ->] Hwk.
    - rewrite V1. rewrite <- Wc. apply consumed_allowance; [done|done|by apply Hc1|]. by rewrite Cc.
    - rewrite V2. rewrite <- Wg. apply consumed_allowance; [done|done|by apply Hc1|]. by rewrite Cg. }
  split.
  - intros k' Hk'. destruct (decide (k' = am_client a)) as [->|Hn1].
    + rewrite V1. unfold counted. pose proof (counted_used _ _ _ (proj2 (Hc1 _ Hca))). rewrite Cc. lia.
    + destruct (decide (k' = gk)) as [->|Hn2]; [|rewrite V3 by done; by apply Hc1].
      rewrite V2. unfold counted. pose proof (counted_used _ _ _ (proj2 (Hc1 _ Hgk))). rewrite Cg. lia.
  - destruct (Hc1 k Htr) as [Hle _]. destruct (bool_decide (am_client a = k)) eqn:E1; bools; cbn [orb].
    + specialize (Hs k Htr (or_introl (eq_sym E1)) ltac:(lia)). lia.
    + destruct (bool_decide (gk = k)) eqn:E2; bools.
      * specialize (Hs k Htr (or_intror (eq_sym E2)) ltac:(lia)). lia.
      * rewrite V3 by congruence. lia.
Qed.

Lemma ordered_weaken t t' t_end l : (t' <= t)%Z -> ordered t t_end l -> ordered t' t_end l.
Proof. destruct l as [|a l]; cbn [ordered]; [done|]. intros. intuition lia. Qed.

Lemma run_weight l : forall s t0 t t_end k, (t0 <= t)%Z -> ordered t t_end l -> Forall (fun a => K (am_client a)) l ->
  all_counted s t -> K k -> (t_end <= t0 + window_of k)%Z ->
  (admitted_weight k (run s l).1 <= allowance k t_end (rd_view s t k))%Z.
Proof.
  induction l as [|a l IH]; intros s t0 t t_end k Ht0 Ho Hf Hc Hk Hwin.
  - cbn. pose proof (capacity_nonneg k). specialize (Hc k Hk). unfold allowance, counted in *.
    destruct (rd_view s t k) as [[n [e|]]|]; try lia. destruct (Z.ltb_spec e t_end); lia.
  - destruct Ho as (Ht & Hw & Hcl & Ho). apply Forall_cons in Hf as [Hka Hf]. cbn [run].
    pose proof (admission_step s t t_end a k Ht Hw Hcl Hka Hc Hk) as S.
    destruct (admit_script _ _ _ _ _ _ _ s (am_time a)) as [r s1].
    destruct S as [Hc1 S]; [lia|].
    specialize (IH s1 t0 (am_time a) t_end k ltac:(lia) Ho Hf Hc1 Hk Hwin).
    destruct (run s1 l) as [out s2]. cbn [fst] in *. cbn [admitted_weight foldr fst snd].
    fold (admitted_weight k out). lia.
Qed.

Lemma all_counted_later s t t' : (t <= t')%Z -> all_counted s t -> all_counted s t'.
Proof.
  intros Ht H k Hk. rewrite (rd_view_ages s t t') by done.
  exact (proj2 (aged_allowance k t' t' (rd_view s t k) (Z.le_refl t') (H k Hk))).
Qed.

(** No sequence of admissions takes a counter past its capacity. *)
Lemma run_counted l : forall s t t_end, (t <= t_end)%Z -> ordered t t_end l ->
  Forall (fun a => K (am_client a)) l -> all_counted s t -> all_counted (run s l).2 t_end.
Proof.
  induction l as [|a l IH]; intros s t t_end Hle Ho Hf Hc; [by apply (all_counted_later s t)|].
  destruct Ho as (Ht & Hw & Hcl & Ho). apply Forall_cons in Hf as [Hka Hf]. cbn [run].
  apply (all_counted_later s t (am_time a)) in Hc; [|lia].
  assert (W : (0 < window_of gk)%Z) by (unfold window_of; case_bool_decide; lia).
  pose proof (admission_step s (am_time a) (am_time a) a gk ltac:(lia) Hw Hcl Hka Hc Hgk) as S.
  destruct (admit_script _ _ _ _ _ _ _ s (am_time a)) as [r s1]. destruct S as [Hc1 _]; [lia|].
  specialize (IH s1 (am_time a) t_end ltac:(lia) Ho Hf Hc1). by destruct (run s1 l).
Qed.
End Runs.

(** ** Properties *)

Lemma client_key_not_global digest : client_key_of digest <> global_key.
Proof. unfold client_key_of, global_key. intros H. apply app_inv_head in H. discriminate H. Qed.

(** The keys the limiter uses. *)
Definition limiter_key (k : pystr) : Prop := k = global_key \/ exists digest, k = client_key_of digest.

Lemma settings_bounds {AR : AdmissionRuntime} s : RateLimitSettings_validate s = Ok tt ->
  (0 < client_capacity s <= 1000000)%Z /\ (0 < client_window_seconds s <= 86400)%Z /\
  (0 < global_capacity s <= 10000000)%Z /\ (0 < global_window_seconds s <= 86400)%Z /\
  (0 < explicit_weight s <= Z.min (client_capacity s) (global_capacity s))%Z /\
  (0 < adaptive_weight s <= Z.min (client_capacity s) (global_capacity s))%Z /\
  (rl_required s = true -> is_Some (redis_url s) /\ is_Some (hmac_secret s)).
Proof.
  unfold RateLimitSettings_validate. intros H.
  apply bind_ok in H as (u1 & H1 & H). apply check_ok in H1. apply bind_ok in H as (u2 & H2 & H). apply check_ok in H2.
  apply bind_ok in H as (u3 & _ & H). apply bind_ok in H as (u4 & _ & H).
  apply bind_ok in H as (u5 & H5 & H). apply check_ok in H5. apply check_ok in H. unfold in_bounds in H1. bools.
  repeat (split; [lia|]). intros Hreq. rewrite Hreq in H2. cbn [negb orb] in H2. destruct (redis_url s), (hmac_secret s); try discriminate; by split.
Qed.

(** A request the service makes of the limiter: a client key and a kind. *)
Definition service_admission (s : RateLimitSettings) (a : admission) : Prop :=
  exists digest kind, am_client a = client_key_of digest /\ am_weight a = weight_of s kind.

Fixpoint in_order (t0 t_end : Z) (l : list admission) : Prop :=
  match l with
  | [] => True
  | a :: l' => (t0 <= am_time a <= t_end)%Z /\ in_order (am_time a) t_end l'
  end.

Section Bounds.
Context {R : Redis} {L : RedisLaws R} {AR : AdmissionRuntime} (s : RateLimitSettings).

Definition limiter_run : rd_store -> list admission -> list (admission * bool) * rd_store :=
  run global_key (client_capacity s) (client_window_seconds s * 1000) (global_capacity s)
    (global_window_seconds s * 1000).

(** Weight admitted for a key by a run, its capacity and its window. *)
Definition weight_on (k : pystr) (out : list (admission * bool)) : Z := admitted_weight global_key k out.
Definition key_capacity (k : pystr) : Z := capacity_of global_key (client_capacity s) (global_capacity s) k.
Definition key_window_ms (k : pystr) : Z :=
  window_of global_key (client_window_seconds s * 1000) (global_window_seconds s * 1000) k.

Context (Hs : RateLimitSettings_validate s = Ok tt).

Lemma service_ordered l : forall t0 t_end, in_order t0 t_end l -> Forall (service_admission s) l ->
  ordered global_key t0 t_end l /\ Forall (fun a => limiter_key (am_client a)) l.
Proof.
  destruct (settings_bounds s Hs) as (_ & _ & _ & _ & B1 & B2 & _).
  induction l as [|a l IH]; intros t0 t_end Ho Hf; [by split|].
  destruct Ho as [Ht Ho]. apply Forall_cons in Hf as [(digest & kind & Hc & Hw) Hf].
  destruct (IH _ _ Ho Hf) as [H1 H2]. split.
  - split; [done|]. split; [rewrite Hw; destruct kind; cbn [weight_of]; lia|]. split; [|done].
    rewrite Hc. apply client_key_not_global.
  - constructor; [|done]. right. by exists digest.
Qed.
End Bounds.

(** C5. The limiter holds its limits.  Starting from a store without its counters,
    after any history of admissions and at any later moment, the weight
    admitted within one window length of that moment is at most twice the
    capacity, for every client and for the deployment as a whole; and at most
    the capacity when nothing was admitted before.  (A fixed window bounds any
    interval by two windows.) *)
Theorem admission_window_bound {R : Redis} {L : RedisLaws R} {AR : AdmissionRuntime} s store t_start t0 t_end
    history l k :
  RateLimitSettings_validate s = Ok tt ->
  (forall k, limiter_key k -> rd_view store t_start k = None) ->
  (t_start <= t0)%Z -> in_order t_start t0 history -> in_order t0 t_end l ->
  Forall (service_admission s) history -> Forall (service_admission s) l ->
  limiter_key k -> (t_end <= t0 + key_window_ms s k)%Z ->
  let out := (limiter_run s (limiter_run s store history).2 l).1 in
  (weight_on k out <= 2 * key_capacity s k)%Z /\ (history = [] -> (weight_on k out <= key_capacity s k)%Z).
Proof.
  intros Hs Hfresh Ht Ho1 Ho2 Hf1 Hf2 Hk Hwin. pose proof (settings_bounds s Hs) as (B1 & B2 & B3 & B4 & _).
  destruct (service_ordered s Hs _ _ _ Ho1 Hf1) as [O1 K1]. destruct (service_ordered s Hs _ _ _ Ho2 Hf2) as [O2 K2].
  assert (Hc : all_counted global_key (client_capacity s) (global_capacity s) limiter_key store t_start).
  { intros k' Hk'. by rewrite (Hfresh k' Hk'). }
  assert (Hg : limiter_key global_key) by by left. unfold limiter_run, weight_on, key_capacity, key_window_ms in *.
  assert (Hc' : all_counted global_key (client_capacity s) (global_capacity s) limiter_key
    (run global_key (client_capacity s) (client_window_seconds s * 1000) (global_capacity s)
       (global_window_seconds s * 1000) store history).2 t0) by (apply (run_counted) with (t := t_start); try done; lia).
  cbv zeta. split.
  - etransitivity; [apply (run_weight) with (K := limiter_key) (t0 := t0) (t := t0) (t_end := t_end); try done; lia|].
    specialize (Hc' k Hk). unfold allowance, counted in *.
    pose proof (capacity_nonneg global_key (client_capacity s) (global_capacity s) ltac:(lia) ltac:(lia) k).
    destruct (rd_view _ t0 k) as [[n [e|]]|]; try lia. destruct (Z.ltb_spec e t_end); lia.
  - intros ->. cbn [run snd] in *.
    etransitivity; [apply (run_weight) with (K := limiter_key) (t0 := t0) (t := t0) (t_end := t_end); try done; lia|].
    rewrite (rd_view_ages store t_start t0 k Ht), (Hfresh k Hk). cbn [aged allowance]. lia.
Qed.

(* The script decides exactly and atomically.  It admits when the weight fits
    both counters, and then consumes it from both, starting a window where none
    runs and never extending one; otherwise it changes nothing and reports which
    limit was hit, with a time to wait that is positive and at most the longer
    window.  No other key is touched. *)
Theorem admit_script_exact {R : Redis} {L : RedisLaws R} {AR : AdmissionRuntime} s digest kind store t :
  RateLimitSettings_validate s = Ok tt ->
  let ck := client_key_of digest in
  let w := weight_of s kind in
  let cw := (client_window_seconds s * 1000)%Z in
  let gw := (global_window_seconds s * 1000)%Z in
  (0 <= used store t ck)%Z -> (0 <= used store t global_key)%Z ->
  (rd_pttl store t ck <= cw)%Z -> (rd_pttl store t global_key <= gw)%Z ->
  match admit_script ck global_key w (client_capacity s) cw (global_capacity s) gw store t with
  | (Granted left_c left_g, store') =>
      (used store t ck + w <= client_capacity s)%Z /\ (used store t global_key + w <= global_capacity s)%Z /\
      left_c = (client_capacity s - used store' t ck)%Z /\ left_g = (global_capacity s - used store' t global_key)%Z /\
      rd_view store' t ck = Some ((used store t ck + w)%Z, Some (expiry_after (rd_view store t ck) t cw)) /\
      rd_view store' t global_key =
        Some ((used store t global_key + w)%Z, Some (expiry_after (rd_view store t global_key) t gw)) /\
      (forall k t', k <> ck -> k <> global_key -> rd_view store' t' k = rd_view store t' k)
  | (Blocked retry_ms scope, store') =>
      store' = store /\ (1 <= retry_ms <= Z.max cw gw)%Z /\
      (scope = 1%Z <-> (client_capacity s < used store t ck + w)%Z /\
                       (used store t global_key + w <= global_capacity s)%Z) /\
      (scope = 2%Z <-> (used store t ck + w <= client_capacity s)%Z /\
                       (global_capacity s < used store t global_key + w)%Z) /\
      (scope = 3%Z <-> (client_capacity s < used store t ck + w)%Z /\
                       (global_capacity s < used store t global_key + w)%Z)
  end.
Proof.
  intros Hs ck w cw gw Hu1 Hu2 Hp1 Hp2. pose proof (settings_bounds s Hs) as (B1 & B2 & B3 & B4 & B5 & B6 & _).
  assert (Hw : (0 < w)%Z) by (destruct kind; cbn; lia).
  assert (Hk : ck <> global_key) by apply client_key_not_global.
  destruct (fits ck global_key w (client_capacity s) (global_capacity s) store t) eqn:Ef.
  - destruct (script_admits ck global_key w (client_capacity s) cw (global_capacity s) gw Hk Hw ltac:(lia) ltac:(lia)
      ltac:(lia) ltac:(lia) store t Hu1 Hu2 Ef) as (store' & -> & V1 & V2 & V3).
    unfold fits in Ef. apply andb_true_iff in Ef as [E1%Z.leb_le E2%Z.leb_le].
    split; [done|]. split; [done|]. unfold used at 2 4. rewrite V1, V2. cbn [fmap option_fmap option_map fst default from_option].
    by split; [|split].
  - destruct (script_refuses ck global_key w (client_capacity s) cw (global_capacity s) gw ltac:(lia) ltac:(lia)
      store t Ef) as (ms & scope & -> & -> & ->).
    split; [done|]. assert (Hl : forall x y, (0 < y)%Z -> (x <= y)%Z -> (1 <= live_ttl x y <= y)%Z).
    { intros x y Hy Hx. unfold live_ttl. destruct (Z.ltb_spec x 1); lia. }
    pose proof (Hl _ cw ltac:(lia) Hp1). pose proof (Hl _ gw ltac:(lia) Hp2). unfold fits in Ef.
    destruct (Z.leb_spec (used store t ck + w) (client_capacity s)),
      (Z.leb_spec (used store t global_key + w) (global_capacity s)); try discriminate Ef; lia.
Qed.

(** ** A refusal ends *)

(** A counter that will be gone. *)
Definition expiring (v : option (Z * option Z)) : Prop := match v with Some (_, None) => False | _ => True end.

Section Waiting.
Context {R : Redis} {L : RedisLaws R}.
Context (gk : pystr) (cc cw gc gw : Z).
Context (Hcw : (0 < cw)%Z) (Hgw : (0 < gw)%Z) (Hcc : (0 <= cc < 2 ^ 63)%Z) (Hgc : (0 <= gc < 2 ^ 63)%Z).
Context (K : pystr -> Prop) (Hgk : K gk).

(** Counters within their capacity that expire. *)
Definition settled (s : rd_store) (t : Z) : Prop :=
  forall k, K k -> counted gk cc gc k (rd_view s t k) /\ expiring (rd_view s t k).

Lemma aged_expiring v t : expiring v -> expiring (aged v t).
Proof. destruct v as [[n [e|]]|]; cbn; [|done|done]. by destruct (t <=? e)%Z. Qed.

Lemma settled_later s t t' : (t <= t')%Z -> settled s t -> settled s t'.
Proof.
  intros Ht H k Hk. rewrite (rd_view_ages s t t') by done. destruct (H k Hk) as [C X].
  split; [|by apply aged_expiring].
  exact (proj2 (aged_allowance gk cc gc Hcc Hgc k t' t' (rd_view s t k) (Z.le_refl t') C)).
Qed.

Lemma settled_step s t a : (t <= am_time a)%Z -> (0 < am_weight a)%Z -> am_client a <> gk -> K (am_client a) ->
  settled s t -> settled (admit_script (am_client a) gk (am_weight a) cc cw gc gw s (am_time a)).2 (am_time a).
Proof.
  intros Ht Hw Hk Hca H. apply (settled_later s t (am_time a) Ht) in H.
  destruct (fits (am_client a) gk (am_weight a) cc gc s (am_time a)) eqn:Ef.
  2: { destruct (script_refuses (am_client a) gk (am_weight a) cc cw gc gw Hcw Hgw s (am_time a) Ef) as (ms & sc & -> & _).
       exact H. }
  destruct (H _ Hca) as [Cc _]. destruct (H _ Hgk) as [Cg _].
  destruct (script_admits (am_client a) gk (am_weight a) cc cw gc gw Hk Hw Hcw Hgw ltac:(lia) ltac:(lia)
    s (am_time a)) as (s1 & -> & V1 & V2 & V3); [by apply (counted_used gk cc gc)..|done|].
  unfold fits in Ef. apply andb_true_iff in Ef as [E1%Z.leb_le E2%Z.leb_le]. cbn [snd].
  apply counted_used in Cc, Cg. intros k Hkk. destruct (decide (k = am_client a)) as [->|N1].
  { rewrite V1. split; [|done]. unfold counted, capacity_of. rewrite bool_decide_eq_false_2 by congruence. lia. }
  destruct (decide (k = gk)) as [->|N2]; [|rewrite V3 by done; by apply H].
  rewrite V2. split; [|done]. unfold counted, capacity_of. rewrite bool_decide_eq_true_2 by done. lia.
Qed.

Lemma settled_run l : forall s t t_end, (t <= t_end)%Z -> ordered gk t t_end l -> Forall (fun a => K (am_client a)) l ->
  settled s t -> settled (run gk cc cw gc gw s l).2 t_end.
Proof.
  induction l as [|a l IH]; intros s t t_end Hle Ho Hf H; [by apply (settled_later s t)|].
  destruct Ho as (Ht & Hw & Hcl & Ho). apply Forall_cons in Hf as [Hka Hf]. cbn [run].
  pose proof (settled_step s t a ltac:(lia) Hw Hcl Hka H) as S.
  destruct (admit_script _ _ _ _ _ _ _ s (am_time a)) as [r s1]. cbn [snd] in S.
  specialize (IH s1 (am_time a) t_end ltac:(lia) Ho Hf S). by destruct (run gk cc cw gc gw s1 l).
Qed.

(** Requests that are refused leave the store alone. *)
Lemma refusals_change_nothing l : forall s, Forall (fun p => p.2 = false) (run gk cc cw gc gw s l).1 ->
  (run gk cc cw gc gw s l).2 = s.
Proof.
  induction l as [|a l IH]; intros s F; [done|]. cbn [run] in *.
  assert (A : admitted (admit_script (am_client a) gk (am_weight a) cc cw gc gw s (am_time a)).1 = false ->
    (admit_script (am_client a) gk (am_weight a) cc cw gc gw s (am_time a)).2 = s).
  { unfold admit_script. cbv zeta. destruct (_ || _); [by repeat case_match|].
    destruct (consume _ s _ _ _) as [nc s1]. by destruct (consume _ s1 _ _ _) as [ng s2]. }
  destruct (admit_script _ _ _ _ _ _ _ s (am_time a)) as [r s1]. cbn [fst snd] in A.
  specialize (IH s1). destruct (run gk cc cw gc gw s1 l) as [out s2]. cbn [fst snd] in *.
  apply Forall_cons in F as [F1 F]. cbn [snd] in F1. rewrite <- (A F1). by apply IH.
Qed.

(** A counter that blocks is gone after the wait; one that does not block still
    fits. *)
Lemma counter_recovers s t t' k w cap window ms : settled s t -> K k -> (t <= t')%Z -> (0 < window)%Z -> (w <= cap)%Z ->
  ((used s t k + w <=? cap)%Z = false -> (live_ttl (rd_pttl s t k) window <= ms)%Z) -> (t + ms < t')%Z ->
  (0 <= ms)%Z -> (used s t' k + w <= cap)%Z.
Proof.
  intros S Hk Ht Hwin Hw Hb Hms H0. destruct (S k Hk) as [C X]. apply counted_used in C.
  unfold used in *. rewrite rd_pttl_view in Hb. rewrite (rd_view_ages s t t' k Ht).
  destruct (rd_view s t k) as [[n [e|]]|] eqn:V; cbn [aged fmap option_fmap option_map fst default from_option id] in *; [|done|lia].
  apply view_fresh in V. destruct (Z.leb_spec t' e) as [Hle|Hgt]; cbn [fmap option_fmap option_map fst default from_option id]; [|lia].
  destruct (Z.leb_spec (n + w) cap) as [Hf|Hf]; [exact Hf|]. specialize (Hb eq_refl). unfold live_ttl in Hb.
  destruct (Z.ltb_spec (e - t) 1); lia.
Qed.
End Waiting.

(** C6. A refusal ends.  After any history of admissions from a store without
    counters, a client that was refused with a time to wait is admitted as soon
    as more than that time has passed, whatever other requests were refused in
    between: no counter outlives its window, and refusals do not prolong it. *)
Theorem refused_then_admitted {R : Redis} {L : RedisLaws R} {AR : AdmissionRuntime} s store t_start history
    between digest kind t t' retry_ms scope store1 :
  RateLimitSettings_validate s = Ok tt ->
  (forall k, limiter_key k -> rd_view store t_start k = None) ->
  (t_start <= t)%Z -> in_order t_start t history -> Forall (service_admission s) history ->
  let ask := admit_script (client_key_of digest) global_key (weight_of s kind) (client_capacity s)
                 (client_window_seconds s * 1000) (global_capacity s) (global_window_seconds s * 1000) in
  ask (limiter_run s store history).2 t = (Blocked retry_ms scope, store1) ->
  Forall (fun p => p.2 = false) (limiter_run s store1 between).1 ->
  (t + retry_ms < t')%Z ->
  exists left_c left_g store2, ask (limiter_run s store1 between).2 t' = (Granted left_c left_g, store2).
Proof.
  intros Hs Hfresh Ht Ho Hf ask Hb Hno Hlate. pose proof (settings_bounds s Hs) as (B1 & B2 & B3 & B4 & B5 & B6 & _).
  destruct (service_ordered s Hs _ _ _ Ho Hf) as [O1 K1]. assert (Hg : limiter_key global_key) by by left.
  assert (Hk : limiter_key (client_key_of digest)) by (right; by exists digest).
  assert (Hw : (0 < weight_of s kind)%Z /\ (weight_of s kind <= client_capacity s)%Z /\
    (weight_of s kind <= global_capacity s)%Z) by (destruct kind; cbn [weight_of]; lia). destruct Hw as (Hw & Hwc & Hwg).
  assert (S0 : settled global_key (client_capacity s) (global_capacity s) limiter_key store t_start).
  { intros k Hkk. by rewrite (Hfresh k Hkk). }
  unfold limiter_run in *. set (cw := (client_window_seconds s * 1000)%Z) in *. set (gw := (global_window_seconds s * 1000)%Z) in *.
  assert (Hcw : (0 < cw)%Z) by (subst cw; lia). assert (Hgw : (0 < gw)%Z) by (subst gw; lia).
  pose proof (settled_run global_key (client_capacity s) cw (global_capacity s) gw Hcw Hgw ltac:(lia) ltac:(lia)
    limiter_key Hg history store t_start t Ht O1 K1 S0) as S.
  set (st := (run global_key (client_capacity s) cw (global_capacity s) gw store history).2) in *.
  pose proof (counted_used _ _ _ _ _ _ (proj1 (S _ Hk))) as U1. pose proof (counted_used _ _ _ _ _ _ (proj1 (S _ Hg))) as U2.
  destruct (fits (client_key_of digest) global_key (weight_of s kind) (client_capacity s) (global_capacity s) st t) eqn:Ef.
  { destruct (script_admits (client_key_of digest) global_key (weight_of s kind) (client_capacity s) cw (global_capacity s) gw
      (client_key_not_global digest) Hw Hcw Hgw ltac:(lia) ltac:(lia) st t U1 U2 Ef) as (x & E & _).
    unfold ask in Hb. rewrite E in Hb. discriminate Hb. }
  destruct (script_refuses (client_key_of digest) global_key (weight_of s kind) (client_capacity s) cw (global_capacity s) gw
    Hcw Hgw st t Ef) as (ms & sc & E & _ & M).
  unfold ask in Hb. rewrite E in Hb. injection Hb as -> <- <-.
  rewrite (refusals_change_nothing global_key (client_capacity s) cw (global_capacity s) gw between st Hno).
  assert (P : forall x y, (0 < y)%Z -> (0 < live_ttl x y)%Z) by (intros x y Hy; unfold live_ttl; destruct (Z.ltb_spec x 1); lia).
  pose proof (P (rd_pttl st t (client_key_of digest)) cw Hcw). pose proof (P (rd_pttl st t global_key) gw Hgw).
  assert (M0 : (0 <= retry_ms)%Z) by (rewrite M; destruct (_ <=? _)%Z, (_ <=? _)%Z; lia).
  assert (F : fits (client_key_of digest) global_key (weight_of s kind) (client_capacity s) (global_capacity s) st t' = true).
  { unfold fits. apply andb_true_iff. split; apply Z.leb_le.
    - apply (counter_recovers global_key (client_capacity s) (global_capacity s) limiter_key st t t' _ _ _ cw retry_ms S Hk);
        try lia. intros X. rewrite X in M. destruct (_ <=? _)%Z in M; lia.
    - apply (counter_recovers global_key (client_capacity s) (global_capacity s) limiter_key st t t' _ _ _ gw retry_ms S Hg);
        try lia. intros X. rewrite X in M. destruct (_ <=? _)%Z in M; lia. }
  assert (S' : settled global_key (client_capacity s) (global_capacity s) limiter_key st t').
  { apply (settled_later global_key (client_capacity s) (global_capacity s) ltac:(lia) ltac:(lia) limiter_key st t); [lia|done]. }
  destruct (script_admits (client_key_of digest) global_key (weight_of s kind) (client_capacity s) cw (global_capacity s) gw
    (client_key_not_global digest) Hw Hcw Hgw ltac:(lia) ltac:(lia) st t'
    (counted_used _ _ _ _ _ _ (proj1 (S' _ Hk))) (counted_used _ _ _ _ _ _ (proj1 (S' _ Hg))) F) as (x & G & _).
  unfold ask. rewrite G. by eexists _, _, _.
Qed.

Section Outcomes.
Context {E : Env} {AR : AdmissionRuntime} {UD : UnicodeData} (s : RateLimitSettings) (secret : pystr).
Context {item : Type} (py_int : item -> result exn Z).
Context (eval_script : nat -> pystr -> pystr -> Z -> result exn (reply (item := item))).

(** The errors of [int], and those of the client and of the timeout. *)
Definition int_errors : Prop := forall i e, py_int i = Raise e ->
  isinstance e C_TypeError || isinstance e C_ValueError || isinstance e C_OverflowError = true.
Definition client_errors : Prop := forall t ck gk w e, eval_script t ck gk w = Raise e ->
  isinstance e C_TimeoutError || isinstance e C_RedisError = true.

(** A reply that refuses: no admission, a wait and a scope. *)
Definition refuses (rep : reply (item := item)) (ms : Z) (scope : pystr) : Prop :=
  exists a b c rest code, rep = Some (a :: b :: c :: rest) /\ py_int a = Ok 0%Z /\ py_int b = Ok ms /\ py_int c = Ok code /\
    ((code = 1%Z /\ scope = py "client") \/ (code = 2%Z /\ scope = py "global") \/ (code = 3%Z /\ scope = py "both")).

(** A reply that admits. *)
Definition admits (rep : reply (item := item)) : Prop :=
  exists a b rest ms, rep = Some (a :: b :: rest) /\ py_int a = Ok 1%Z /\ py_int b = Ok ms.

(** What a refusal with a wait raises; [ms / 1000] is out of range for waits that
    no float holds. *)
Definition refusal_error (ms : Z) (scope : pystr) (e : exn) : Prop :=
  if f_isfinite (f_of_ratio ms 1000)
  then exists after, e = RateLimitExceededError after scope /\ (1 <= after)%Z /\ after = Z.max 1 (f_ceil (f_of_ratio ms 1000))
  else e = Exn C_OverflowError.

(** The ways a request is turned away, by a limiter with the replies [answers]. *)
Definition turned_away (answers : reply (item := item) -> Prop) (e : exn) : Prop :=
  e = Exn C_InferenceDeadlineExceededError \/ e = Exn C_RateLimitUnavailableError \/
  exists rep ms scope, answers rep /\ refuses rep ms scope /\ refusal_error ms scope e.

Lemma int_or_unavailable_raise i e : int_errors ->
  int_or_unavailable (py_int i) = Raise e -> e = Exn C_RateLimitUnavailableError.
Proof.
  intros Hi. unfold int_or_unavailable. destruct (py_int i) as [z|e'] eqn:Ei; [done|].
  rewrite (Hi i e' Ei). intros H. by injection H.
Qed.

Lemma retry_after_spec ms scope :
  match retry_after_seconds_of ms with
  | Ok after => refusal_error ms scope (RateLimitExceededError after scope)
  | Raise e => refusal_error ms scope e
  end.
Proof.
  unfold retry_after_seconds_of, refusal_error. destruct (f_isfinite _); [|done]. eexists. split; [done|]. split; [lia|done].
Qed.

Lemma scope_name_in code n : scope_name code = Some n ->
  (code = 1%Z /\ n = py "client") \/ (code = 2%Z /\ n = py "global") \/ (code = 3%Z /\ n = py "both").
Proof.
  unfold scope_name. destruct (Z.eqb_spec code 1) as [->|_]; [intros H; injection H as <-; auto|].
  destruct (Z.eqb_spec code 2) as [->|_]; [intros H; injection H as <-; auto|].
  destruct (Z.eqb_spec code 3) as [->|_]; [intros H; injection H as <-; auto|done].
Qed.

Lemma int_or_unavailable_ok i z : int_or_unavailable (py_int i) = Ok z -> py_int i = Ok z.
Proof. unfold int_or_unavailable. destruct (py_int i) as [x|e]; [done|]. by destruct (_ || _). Qed.

Lemma interpret_outcomes r : int_errors ->
  match interpret py_int r with
  | Ok None => admits r
  | Ok (Some (after, scope)) => turned_away (eq r) (RateLimitExceededError after scope)
  | Raise e => turned_away (eq r) e
  end.
Proof.
  intros Hi. assert (Hu : turned_away (eq r) (Exn C_RateLimitUnavailableError)) by (right; by left).
  unfold interpret. destruct r as [[|a [|b rest]]|]; try done.
  destruct (int_or_unavailable (py_int a)) as [n|e] eqn:Ea; rsimpl; [|by apply int_or_unavailable_raise in Ea as ->].
  destruct (int_or_unavailable (py_int b)) as [ms|e] eqn:Eb; rsimpl; [|by apply int_or_unavailable_raise in Eb as ->].
  apply int_or_unavailable_ok in Ea, Eb.
  destruct (Z.eqb_spec n 0) as [->|Nz]; cbn [orb negb].
  2: { destruct (Z.eqb_spec n 1) as [->|_]; cbn [negb]; [by exists a, b, rest, ms|done]. }
  destruct rest as [|c rest]; rsimpl; [done|].
  destruct (int_or_unavailable (py_int c)) as [code|e] eqn:Ec; rsimpl; [|by apply int_or_unavailable_raise in Ec as ->].
  apply int_or_unavailable_ok in Ec.
  destruct (scope_name code) as [scope|] eqn:Es; [|done]. apply scope_name_in in Es.
  assert (Rf : refuses (Some (a :: b :: c :: rest)) ms scope) by (exists a, b, c, rest, code; done).
  pose proof (retry_after_spec ms scope) as Hr. destruct (retry_after_seconds_of ms) as [after|e]; rsimpl;
    right; right; by eexists _, ms, scope.
Qed.

Lemma turned_away_mono (P Q : reply (item := item) -> Prop) e : (forall rep, P rep -> Q rep) -> turned_away P e -> turned_away Q e.
Proof. intros H [?|[?|(rep & ms & scope & A & R)]]; [by left|by right; left|]. right; right. exists rep, ms, scope. auto. Qed.

(** What the client answered when it was asked about an identity. *)
Definition answered (identity : pystr) (kind : InferenceKind) (rep : reply (item := item)) : Prop :=
  exists t, eval_script t (client_key_of (client_identity_digest secret identity)) global_key (weight_of s kind) = Ok rep.

Lemma admit_post identity kind d w : int_errors -> client_errors ->
  post (admit_request s secret py_int eval_script identity kind d) w (fun r w' =>
    quiet w w' /\
    match r with
    | Ok _ => exists rep, answered identity kind rep /\ admits rep
    | Raise e => turned_away (answered identity kind) e
    end).
Proof.
  intros Hi Hce. unfold admit_request. apply post_reading; [apply reading_constrain|].
  intros [t|] w1 Q1; [|apply post_raise; split; [done|by left]].
  cbv zeta. apply post_reading; [apply reading_tick|]. intros n w2 Q2.
  assert (Q : quiet w w2) by (by apply (quiet_trans w w1)). clear Q1 Q2.
  destruct (eval_script _ _ _ _) as [rep|e] eqn:Ev.
  - apply post_bind, post_lift. pose proof (interpret_outcomes rep Hi) as Ho.
    assert (An : answered identity kind rep) by by exists n.
    assert (Hx : forall e, turned_away (eq rep) e -> turned_away (answered identity kind) e).
    { intros e. apply turned_away_mono. by intros ? <-. }
    destruct (interpret py_int rep) as [[[after scope]|]|e] eqn:Er;
      [|split; [done|by exists rep]|split; [done|by apply Hx]].
    apply post_reading; [apply reading_observe|]. intros u w3 Q3. apply post_raise.
    split; [by apply (quiet_trans w w2)|by apply Hx].
  - apply Hce in Ev. destruct (isinstance e C_TimeoutError).
    + apply post_reading; [apply reading_expired|]. intros late w3 Q3. apply post_raise.
      split; [by apply (quiet_trans w w2)|]. destruct late; [by left|right; by left].
    + cbn [orb] in Ev. rewrite Ev. apply post_raise. split; [done|right; by left].
Qed.

(** The script's own replies. *)
Lemma interpret_script rep items : Forall2 (fun i z => py_int i = Ok z) items (script_items rep) ->
  interpret py_int (Some items) =
  match rep with
  | Granted _ _ => Ok None
  | Blocked ms scope =>
      match scope_name scope with
      | Some name => after ← retry_after_seconds_of ms; Ok (Some (after, name))
      | None => Raise (Exn C_RateLimitUnavailableError)
      end
  end.
Proof.
  destruct rep as [cl gl|ms scope]; cbn [script_items]; intros Hf;
    repeat (apply Forall2_cons_inv_r in Hf as (? & ? & ? & Hf & ->)); apply Forall2_nil_inv_r in Hf as ->;
    unfold interpret; rewrite H, H0; cbn [int_or_unavailable]; rsimpl; [done|].
  rewrite H1. cbn [int_or_unavailable]. rsimpl. done.
Qed.
End Outcomes.


(** ** A store made of a finite map *)

Definition map_view (m : gmap (list N) (Z * option Z)) (now : Z) (k : pystr) : option (Z * option Z) :=
  aged (m !! k) now.

Lemma map_view_empty now k : map_view ∅ now k = None.
Proof. unfold map_view. by rewrite lookup_empty. Qed.

Lemma map_view_fresh m now k n e : map_view m now k = Some (n, Some e) -> (now <= e)%Z.
Proof.
  unfold map_view, aged. destruct (m !! k) as [[n' [e'|]]|]; try discriminate.
  destruct (Z.leb_spec now e'); [|discriminate]. intros H'. by injection H' as <- <-.
Qed.

Lemma map_view_ages m t t' k : (t <= t')%Z -> map_view m t' k = aged (map_view m t k) t'.
Proof.
  intros Ht. unfold map_view. destruct (m !! k) as [[v [e|]]|]; [|done|done].
  cbn [aged]. destruct (Z.leb_spec t e); cbn [aged]; [done|]. destruct (Z.leb_spec t' e); [lia|done].
Qed.

#[export] Instance map_redis : Redis :=
  {| rd_store := gmap (list N) (Z * option Z);
     rd_view := map_view;
     rd_get := fun m now k => fst <$> map_view m now k;
     rd_pttl := fun m now k =>
       match map_view m now k with
       | None => (-2)%Z | Some (_, None) => (-1)%Z | Some (_, Some e) => (e - now)%Z
       end;
     rd_incrby := fun m now k n =>
       let v := map_view m now k in
       let new := (default 0 (fst <$> v) + n)%Z in
       (new, <[k := (new, v ≫= snd)]> m);
     rd_pexpire := fun m now k ms =>
       match map_view m now k with
       | Some (n, _) => <[k := (n, Some (now + ms)%Z)]> m
       | None => m
       end |}.

#[export] Instance map_redis_laws : RedisLaws map_redis.
Proof.
  split; try done.
  - intros m t k n old _. split; [done|]. cbn [rd_incrby rd_view map_redis snd]. unfold map_view at 1.
    rewrite lookup_insert_eq. unfold old. cbn [rd_view map_redis].
    destruct (map_view m t k) as [[v [e|]]|] eqn:Ev; cbn; try reflexivity.
    apply map_view_fresh in Ev. by rewrite (proj2 (Z.leb_le t e) Ev).
  - intros m t k n k' t' Hk. cbn [rd_incrby rd_view map_redis snd]. unfold map_view. by rewrite lookup_insert_ne.
  - intros m t k ms Hms. cbn [rd_pexpire rd_view map_redis].
    destruct (map_view m t k) as [[v e]|] eqn:Ev; [|by rewrite Ev].
    unfold map_view at 1. rewrite lookup_insert_eq. cbn [aged]. destruct (Z.leb_spec t (t + ms)); [done|lia].
  - intros m t k ms k' t' Hk. cbn [rd_pexpire rd_view map_redis].
    destruct (map_view m t k) as [[v e]|]; [|done]. unfold map_view. by rewrite lookup_insert_ne.
  - intros m t t' k Ht. by apply map_view_ages.
Qed.

Definition development_runtime : AdmissionRuntime :=
  {| url_parts := fun _ => (py "redis", Some (py "host")); hmac_sha256_hex := fun _ m => m;
     ip_compressed := fun _ => None |}.

Definition small_settings : RateLimitSettings :=
  mk_RateLimitSettings true (Some (py "redis://host")) (Some (py "0123456789abcdef0123456789abcdef"))
    (f_of_ratio 1 4) 3 1 100 60 1 2.

Definition no_keys : gmap (list N) (Z * option Z) := ∅.

Definition burst (t : Z) : list admission :=
  map (fun w => mk_admission t (client_key_of (py "a")) w) [2; 2; 1; 1]%Z.

(** Two bursts around a window's end admit twice the capacity, never more. *)
Example two_windows :
  let out := (limiter_run (R := map_redis) small_settings (limiter_run (R := map_redis) small_settings no_keys (burst 0)).2 (burst 1001)).1 in
  (map snd out, weight_on (client_key_of (py "a")) out) = ([true; false; true; false], 3%Z).
Proof. vm_compute. reflexivity. Qed.

Lemma small_settings_ok : @RateLimitSettings_validate development_runtime small_settings = Ok tt.
Proof. vm_compute. reflexivity. Qed.

Lemma burst_service t : Forall (service_admission small_settings) (burst t).
Proof. repeat constructor; exists (py "a"); solve [by exists IK_ADAPTIVE|by exists IK_EXPLICIT]. Qed.

Lemma admission_window_bound_witness :
  (forall k, limiter_key k -> @rd_view map_redis no_keys 0 k = None) /\
  (weight_on (client_key_of (py "a"))
     (limiter_run (R := map_redis) small_settings
        (limiter_run (R := map_redis) small_settings no_keys (burst 0)).2 (burst 1001)).1 <= 6)%Z.
Proof.
  assert (Hf : forall k, limiter_key k -> @rd_view map_redis ∅ 0 k = None).
  { intros k _. exact (map_view_empty 0 k). }
  split; [exact Hf|].
  apply (@admission_window_bound map_redis map_redis_laws development_runtime small_settings no_keys 0 1001 2000
    (burst 0) (burst 1001) (client_key_of (py "a")) small_settings_ok Hf); try apply burst_service.
  - lia.
  - cbn. lia.
  - cbn. lia.
  - right. exists (py "a"). reflexivity.
  - vm_compute. discriminate.
Defined.

Lemma refused_then_admitted_witness : exists left_c left_g store2,
  let ask := admit_script (R := map_redis) (client_key_of (py "a")) global_key 2 3 1000 100 60000 in
  let after := (limiter_run (R := map_redis) small_settings no_keys (burst 0)).2 in
  ask after 300%Z = (Blocked 700 1, after) /\ ask after 1001%Z = (Granted left_c left_g, store2).
Proof.
  assert (Hf : forall k, limiter_key k -> rd_view (Redis := map_redis) no_keys 0 k = None)
    by (intros k _; apply map_view_empty).
  pose proof (@refused_then_admitted map_redis map_redis_laws development_runtime small_settings no_keys 0 (burst 0) []
    (py "a") IK_ADAPTIVE 300 1001 700 1 (limiter_run (R := map_redis) small_settings no_keys (burst 0)).2
    small_settings_ok Hf ltac:(lia) ltac:(cbn; lia) (burst_service 0)) as H. cbv zeta in H.
  change (weight_of small_settings IK_ADAPTIVE) with 2%Z in H.
  change (client_capacity small_settings) with 3%Z in H. change (global_capacity small_settings) with 100%Z in H.
  change (client_window_seconds small_settings * 1000)%Z with 1000%Z in H.
  change (global_window_seconds small_settings * 1000)%Z with 60000%Z in H.
  assert (E : admit_script (R := map_redis) (client_key_of (py "a")) global_key 2 3 1000 100 60000
    (limiter_run (R := map_redis) small_settings no_keys (burst 0)).2 300 =
    (Blocked 700 1, (limiter_run (R := map_redis) small_settings no_keys (burst 0)).2)) by (vm_compute; reflexivity).
  destruct (H E) as (lc & lg & s2 & G); [constructor|lia|]. exists lc, lg, s2. split; [exact E|exact G].
Defined.

Definition half_used : gmap (list N) (Z * option Z) := {[ client_key_of (py "a") := (2, Some 500) ]}%Z.

Lemma admit_script_exact_witness :
  exists ms, admit_script (R := map_redis) (client_key_of (py "a")) global_key 2 3 1000 100 60000 half_used 100 =
    (Blocked ms 1, half_used) /\ (1 <= ms <= 60000)%Z.
Proof.
  pose proof (@admit_script_exact map_redis map_redis_laws development_runtime small_settings (py "a") IK_ADAPTIVE
    half_used 100 small_settings_ok) as H. cbv zeta in H.
  assert (E : admit_script (R := map_redis) (client_key_of (py "a")) global_key 2 3 1000 100 60000 half_used 100 =
    (Blocked 400 1, half_used)) by (vm_compute; reflexivity).
  change (weight_of small_settings IK_ADAPTIVE) with 2%Z in H.
  change (client_capacity small_settings) with 3%Z in H. change (global_capacity small_settings) with 100%Z in H.
  change (client_window_seconds small_settings * 1000)%Z with 1000%Z in H.
  change (global_window_seconds small_settings * 1000)%Z with 60000%Z in H.
  rewrite E in H. exists 400%Z. split; [exact E|].
  destruct H as (_ & Hm & _); [vm_compute; discriminate..|]. exact Hm.
Defined.

