(* ===== verification/Activity.v ===== *)
(** * The activity log ([telemetry/query.py], [persistence/repository.py])

    Chats are listed newest first, a page at a time; a cursor is the position
    of the last row of a page, encoded as URL-safe base64.  The table is the
    list of its rows; the query is read as SQL defines it. *)
From S2P Require Import Prelude PyStr PyFloat PyDecimal Schemas Errors Json Validation PyUuid Telemetry.

(** ** [base64] *)

Definition PAD : N := 61.

(** The URL-safe alphabet, and the values [urlsafe_b64decode] gives to
    characters: both alphabets are understood, others are skipped. *)
Definition b64_char (v : N) : N :=
  if (v <? 26)%N then (65 + v)%N else if (v <? 52)%N then (71 + v)%N
  else if (v <? 62)%N then (v - 4)%N else if (v =? 62)%N then 45%N else 95%N.

Definition b64_value (c : N) : option N :=
  if is_ascii_upper c then Some (c - 65)%N else if is_ascii_lower c then Some (c - 71)%N
  else if is_ascii_digit c then Some (c + 4)%N
  else if (c =? 45)%N || (c =? 43)%N then Some 62%N
  else if (c =? 95)%N || (c =? 47)%N then Some 63%N else None.

(** [urlsafe_b64encode] *)
Fixpoint b64_encode (bs : list N) : pystr :=
  match bs with
  | a :: b :: c :: r =>
      b64_char (a / 4) :: b64_char (a mod 4 * 16 + b / 16) :: b64_char (b mod 16 * 4 + c / 64) ::
      b64_char (c mod 64) :: b64_encode r
  | [a; b] => [b64_char (a / 4); b64_char (a mod 4 * 16 + b / 16); b64_char (b mod 16 * 4); PAD]
  | [a] => [b64_char (a / 4); b64_char (a mod 4 * 16); PAD; PAD]
  | [] => []
  end%N.

(** [binascii.a2b_base64], not strict: [q] characters of the current group were
    read, [left] holds their bits, [pads] padding characters follow them.
    [None] is [binascii.Error]. *)
Fixpoint b64_decode_from (q left : N) (pads : N) (s : pystr) : option (list N) :=
  match s with
  | [] => if (q =? 0)%N then Some [] else None
  | c :: s' =>
      if (c =? PAD)%N then
        if (2 <=? q)%N then
          if (4 <=? q + (pads + 1))%N then Some [] else b64_decode_from q left (pads + 1) s'
        else b64_decode_from q left pads s'
      else
        match b64_value c with
        | None => b64_decode_from q left pads s'
        | Some v =>
            if (q =? 0)%N then b64_decode_from 1 v 0 s'
            else if (q =? 1)%N then cons (left * 4 + v / 16)%N <$> b64_decode_from 2 (v mod 16) 0 s'
            else if (q =? 2)%N then cons (left * 16 + v / 4)%N <$> b64_decode_from 3 (v mod 4) 0 s'
            else cons (left * 64 + v)%N <$> b64_decode_from 0 0 0 s'
        end
  end.

(** [base64.urlsafe_b64decode] of a text: it must be ASCII. *)
Definition urlsafe_b64decode (s : pystr) : option (list N) :=
  if forallb (fun c => (c <? 128)%N) s then b64_decode_from 0 0 0 s else None.

(** ** [bytes.decode("utf-8")], strict *)

Definition is_cont (b : N) : bool := in_range 128 191 b.

Fixpoint utf8_decode (fuel : nat) (bs : list N) : option pystr :=
  match fuel with
  | O => match bs with [] => Some [] | _ => None end
  | S fuel' =>
      match bs with
      | [] => Some []
      | a :: r =>
          if (a <? 128)%N then cons a <$> utf8_decode fuel' r
          else if in_range 194 223 a then
            match r with
            | b :: r' => if is_cont b then cons ((a - 192) * 64 + (b - 128))%N <$> utf8_decode fuel' r' else None
            | _ => None
            end
          else if in_range 224 239 a then
            match r with
            | b :: c :: r' =>
                if is_cont b && is_cont c && negb ((a =? 224) && (b <? 160))%N && negb ((a =? 237) && (159 <? b))%N
                then cons ((a - 224) * 4096 + (b - 128) * 64 + (c - 128))%N <$> utf8_decode fuel' r' else None
            | _ => None
            end
          else if in_range 240 244 a then
            match r with
            | b :: c :: d :: r' =>
                if is_cont b && is_cont c && is_cont d && negb ((a =? 240) && (b <? 144))%N &&
                   negb ((a =? 244) && (143 <? b))%N
                then cons ((a - 240) * 262144 + (b - 128) * 4096 + (c - 128) * 64 + (d - 128))%N <$>
                       utf8_decode fuel' r' else None
            | _ => None
            end
          else None
      end
  end.

(** ** Times and identifiers as text

    Moments are microseconds in UTC.  [datetime.fromisoformat] also tells
    whether the text carries an offset; it and [UUID(...)] accept more than the
    texts the program writes, so only their round trips are stated. *)
Class ActivityText := {
  isoformat : Z -> pystr;
  fromisoformat : pystr -> option (Z * bool);
  uuid_of_text : pystr -> option uuid
}.

(** The years 1 to 9999. *)
Definition moment_ok (t : Z) : Prop := (-62135596800000000 <= t < 253402300800000000)%Z.

Class ActivityTextLaws (T : ActivityText) : Prop := {
  fromisoformat_isoformat : forall t, moment_ok t -> fromisoformat (isoformat t) = Some (t, true);
  isoformat_ascii : forall t, moment_ok t -> Forall (fun c => (c < 128)%N /\ c <> 124%N) (isoformat t);
  isoformat_short : forall t, moment_ok t -> (length (isoformat t) <= 64)%nat;
  uuid_of_text_str : forall u, (u < 2 ^ 128)%N -> uuid_of_text (uuid_str u) = Some u
}.

Definition BAR : N := 124.

(** [decoded.split("|", 1)], when it gives two parts. *)
Fixpoint split_first (s : pystr) : option (pystr * pystr) :=
  match s with
  | [] => None
  | c :: s' => if (c =? BAR)%N then Some ([], s') else (fun p => (c :: p.1, p.2)) <$> split_first s'
  end.

Section Cursor.
Context {T : ActivityText}.

Definition encode_activity_cursor (created_at : Z) (row_id : uuid) : pystr :=
  rstrip_by (fun c => (c =? PAD)%N) (b64_encode (isoformat created_at ++ [BAR] ++ uuid_str row_id)).

(** [-len(cursor) % 4] *)
Definition padding (cursor : pystr) : pystr := repeat PAD ((4 - length cursor mod 4) mod 4).

Definition cursor_error : exn := Exn C_InvalidActivityCursorError.

Definition option_or {A : Type} (o : option A) (e : exn) : result exn A :=
  match o with Some a => Ok a | None => Raise e end.

Definition decode_activity_cursor (cursor : pystr) : result exn (Z * uuid) :=
  if Nat.eqb (length cursor) 0 || Nat.ltb 256 (length cursor) then Raise cursor_error
  else
    bs ← option_or (urlsafe_b64decode (cursor ++ padding cursor)) cursor_error;
    decoded ← option_or (utf8_decode (length bs) bs) cursor_error;
    parts ← option_or (split_first decoded) cursor_error;
    moment ← option_or (fromisoformat parts.1) cursor_error;
    row_id ← option_or (uuid_of_text parts.2) cursor_error;
    if (moment.2 : bool) then Ok (moment.1, row_id) else Raise cursor_error.
End Cursor.

(** ** The table *)

(** Newest first, then by identifier: [ORDER BY created_at DESC, id DESC]. *)
Definition row_key_cmp : ChatActivityRecord -> ChatActivityRecord -> comparison :=
  lex_cmp (on_key ca_created_at (fun x y => Z.compare y x)) (on_key ca_id (fun x y => N.compare y x)).

#[export] Instance total_cmp_row : TotalCmp row_key_cmp := _.

(** [WHERE created_at < t OR (created_at = t AND id < i)] *)
Definition older (t : Z) (i : uuid) (r : ChatActivityRecord) : bool :=
  (ca_created_at r <? t)%Z || ((ca_created_at r =? t)%Z && (ca_id r <? i)%N).

(** [PostgresTelemetryRepository.list_chat_activity] *)
Definition list_chat_activity (rows : list ChatActivityRecord) (limit : nat) (before : option (Z * uuid)) :
    result exn (list ChatActivityRecord * bool) :=
  let matching := match before with Some (t, i) => List.filter (older t i) rows | None => rows end in
  let selected := firstn (limit + 1) (py_sorted (cmp_le row_key_cmp) matching) in
  items ← result_map (fun r => _ ← validated (check (ChatActivityRecord_ok r) field_error); Ok r)
            (firstn limit selected);
  Ok (items, Nat.ltb limit (length selected)).

Record ChatActivityPage := mk_ChatActivityPage {
  pg_items : list ChatActivityRecord;
  pg_next_cursor : option pystr
}.

Section Query.
Context {T : ActivityText}.
(** The repository's listing; [None]: no repository that can list. *)
Context (repository : option (nat -> option (Z * uuid) -> result exn (list ChatActivityRecord * bool))).

(** [ChatActivityQueryService.page] *)
Definition activity_page (limit : nat) (cursor : option pystr) : result exn ChatActivityPage :=
  match repository with
  | None => Raise (Exn C_TelemetryUnavailableError)
  | Some lst =>
      before ← match cursor with
               | None => Ok None
               | Some c => p ← decode_activity_cursor c; Ok (Some p)
               end;
      match lst limit before with
      | Raise e =>
          if isinstance e C_InvalidActivityCursorError then Raise e
          else if is_exception e then Raise (Exn C_TelemetryUnavailableError) else Raise e
      | Ok (items, has_more) =>
          Ok (mk_ChatActivityPage items
                (if (has_more : bool)
                 then (fun r => encode_activity_cursor (ca_created_at r) (ca_id r)) <$> last items
                 else None))
      end
  end.

(** A reader that follows the cursors: the pages from [cursor] on, or [None] when
    there is still a next page after [fuel] of them. *)
Fixpoint read_all (fuel limit : nat) (cursor : option pystr) : result exn (option (list (list ChatActivityRecord))) :=
  match fuel with
  | O => Ok None
  | S fuel' =>
      page ← activity_page limit cursor;
      match pg_next_cursor page with
      | None => Ok (Some [pg_items page])
      | Some c => rest ← read_all fuel' limit (Some c); Ok (cons (pg_items page) <$> rest)
      end
  end.
End Query.

(** [TelemetryQueryService.summary] *)
Definition query_summary {A : Type} (repository : option (result exn A)) : result exn A :=
  match repository with
  | None => Raise (Exn C_TelemetryUnavailableError)
  | Some (Ok a) => Ok a
  | Some (Raise e) => if is_exception e then Raise (Exn C_TelemetryUnavailableError) else Raise e
  end.

(** ** Base64 round trip *)

Lemma b64_char_value v : (v < 64)%N -> b64_value (b64_char v) = Some v /\ b64_char v <> PAD /\ (b64_char v < 128)%N.
Proof.
  intros H. unfold b64_char, b64_value, PAD, is_ascii_upper, is_ascii_lower, is_ascii_digit, in_range.
  assert (E : forall a b, (a <=? b)%N = true \/ (a <=? b)%N = false) by (intros a b; destruct (a <=? b)%N; auto).
  destruct (N.ltb_spec v 26); [|destruct (N.ltb_spec v 52); [|destruct (N.ltb_spec v 62)]].
  - rewrite (proj2 (N.leb_le 65 (65 + v))), (proj2 (N.leb_le (65 + v) 90)) by lia.
    cbn [andb]. split; [f_equal; lia|lia].
  - rewrite (proj2 (N.leb_gt (71 + v) 90)), andb_false_r by lia.
    rewrite (proj2 (N.leb_le 97 (71 + v))), (proj2 (N.leb_le (71 + v) 122)) by lia.
    cbn [andb]. split; [f_equal; lia|lia].
  - rewrite (proj2 (N.leb_gt 65 (v - 4))), (proj2 (N.leb_gt 97 (v - 4))) by lia.
    rewrite (proj2 (N.leb_le 48 (v - 4))), (proj2 (N.leb_le (v - 4) 57)) by lia.
    cbn [andb]. split; [f_equal; lia|lia].
  - assert (Hv : v = 62%N \/ v = 63%N) by lia. by destruct Hv as [-> | ->].
Qed.

(** One character of a group. *)
Lemma b64_step q left v s : (v < 64)%N ->
  b64_decode_from q left 0 (b64_char v :: s) =
  (if (q =? 0)%N then b64_decode_from 1 v 0 s
   else if (q =? 1)%N then cons (left * 4 + v / 16)%N <$> b64_decode_from 2 (v mod 16) 0 s
   else if (q =? 2)%N then cons (left * 16 + v / 4)%N <$> b64_decode_from 3 (v mod 4) 0 s
   else cons (left * 64 + v)%N <$> b64_decode_from 0 0 0 s).
Proof.
  intros H. destruct (b64_char_value v H) as (Hv & Hp & _). cbn [b64_decode_from].
  rewrite (proj2 (N.eqb_neq _ _) Hp), Hv. done.
Qed.

(** Induction by groups of three. *)
Lemma bytes_ind (P : list N -> Prop) :
  P [] -> (forall a, P [a]) -> (forall a b, P [a; b]) -> (forall a b c r, P r -> P (a :: b :: c :: r)) ->
  forall bs, P bs.
Proof.
  intros H0 H1 H2 H3 bs. cut (P bs /\ (forall a, P (a :: bs)) /\ forall a b, P (a :: b :: bs)); [tauto|].
  induction bs as [|c bs (I1 & I2 & I3)]; [auto|]. split; [exact (I2 c)|]. split; [exact (fun a => I3 a c)|]. intros a b. by apply H3.
Qed.

Lemma two_digits hi lo k : (lo < k)%N -> ((hi * k + lo) / k = hi /\ (hi * k + lo) mod k = lo)%N.
Proof. intros H. split; [symmetry; apply (N.div_unique _ _ _ lo); lia|symmetry; apply (N.mod_unique _ _ hi); lia]. Qed.

Lemma two_digits_exact hi k : (0 < k)%N -> (hi * k / k = hi)%N.
Proof. intros H. by apply N.div_mul, N.neq_0_lt_0. Qed.

Lemma recompose a k : (a / k * k + a mod k = a)%N.
Proof. rewrite N.mul_comm. symmetry. apply N.div_mod'. Qed.

Lemma b64_roundtrip bs : Forall (fun b => (b < 256)%N) bs -> b64_decode_from 0 0 0 (b64_encode bs) = Some bs.
Proof.
  induction bs as [|a|a b|a b c r IH] using bytes_ind; intros H; [done| | |];
    repeat (apply Forall_cons in H as [? H]); cbn [b64_encode]; rewrite !b64_step by dlia;
    cbn [N.eqb Pos.eqb].
  - change (b64_decode_from 2 ?x 0 [PAD; PAD]) with (Some (@nil N)). cbn [fmap option_fmap option_map].
    by rewrite two_digits_exact, recompose.
  - change (b64_decode_from 3 ?x 0 [PAD]) with (Some (@nil N)). cbn [fmap option_fmap option_map].
    destruct (two_digits (a mod 4) (b / 16) 16 ltac:(dlia)) as [-> ->].
    by rewrite two_digits_exact, !recompose.
  - rewrite IH by done. cbn [fmap option_fmap option_map].
    destruct (two_digits (a mod 4) (b / 16) 16 ltac:(dlia)) as [-> ->].
    destruct (two_digits (b mod 16) (c / 64) 4 ltac:(dlia)) as [-> ->]. by rewrite !recompose.
Qed.

(** An encoding is data characters and then at most two of padding, to a
    multiple of four. *)
Lemma b64_shape bs : Forall (fun b => (b < 256)%N) bs -> exists data n,
  b64_encode bs = data ++ repeat PAD n /\ (n <= 2)%nat /\ (length data + n) mod 4 = 0 /\
  Forall (fun c => c <> PAD /\ (c < 128)%N) data /\ (3 * (length data + n) = 4 * (length bs + n))%nat.
Proof.
  assert (C : forall v, (v < 64)%N -> b64_char v <> PAD /\ (b64_char v < 128)%N) by (intros v Hv; by apply b64_char_value).
  induction bs as [|a|a b|a b c r IH] using bytes_ind; intros H.
  - exists [], 0. split; [done|]. split; [lia|]. split; [done|]. split; [constructor|done].
  - exists [b64_char (a / 4); b64_char (a mod 4 * 16)]%N, 2. repeat (apply Forall_cons in H as [? H]).
    split; [done|]. split; [lia|]. split; [done|]. split; [|cbn; lia]. repeat constructor; apply C; dlia.
  - exists [b64_char (a / 4); b64_char (a mod 4 * 16 + b / 16); b64_char (b mod 16 * 4)]%N, 1.
    repeat (apply Forall_cons in H as [? H]).
    split; [done|]. split; [lia|]. split; [done|]. split; [|cbn; lia]. repeat constructor; apply C; dlia.
  - repeat (apply Forall_cons in H as [? H]). destruct (IH H) as (data & n & He & Hn & Hm & Hd & Hl).
    exists (b64_char (a / 4) :: b64_char (a mod 4 * 16 + b / 16) :: b64_char (b mod 16 * 4 + c / 64) ::
            b64_char (c mod 64) :: data)%N, n.
    cbn [b64_encode app length]. rewrite He. split; [done|]. split; [done|]. split.
    { replace (S (S (S (S (length data)))) + n)%nat with (length data + n + 1 * 4)%nat by lia. by rewrite Nat.Div0.mod_add. }
    split; [|lia]. repeat (constructor; [apply C; dlia|]). done.
Qed.

Lemma rstrip_pad data n : Forall (fun c => c <> PAD /\ (c < 128)%N) data ->
  rstrip_by (fun c => (c =? PAD)%N) (data ++ repeat PAD n) = data.
Proof.
  intros H. unfold rstrip_by. rewrite rev_app_distr, rev_repeat.
  assert (L : lstrip_by (fun c => (c =? PAD)%N) (repeat PAD n ++ rev data) = rev data).
  { induction n as [|n IH]; [|exact IH]. cbn [repeat app]. destruct (rev data) as [|c r] eqn:E; [done|].
    apply lstrip_by_cons. apply N.eqb_neq. rewrite Forall_forall in H. apply H.
    apply list_elem_of_In, in_rev. rewrite E. by left. }
  rewrite L. apply rev_involutive.
Qed.

(** Stripping the padding loses nothing. *)
Lemma repadded bs : Forall (fun b => (b < 256)%N) bs ->
  let cursor := rstrip_by (fun c => (c =? PAD)%N) (b64_encode bs) in
  cursor ++ padding cursor = b64_encode bs /\ Forall (fun c => (c < 128)%N) cursor /\
  (3 * length cursor <= 4 * (length bs + 2))%nat /\ (bs <> [] -> length cursor <> 0).
Proof.
  intros H. destruct (b64_shape bs H) as (data & n & He & Hn & Hm & Hd & Hl). cbv zeta.
  rewrite He, (rstrip_pad data n Hd). split.
  - unfold padding. do 2 f_equal.
    pose proof (Nat.mod_upper_bound (length data) 4 ltac:(lia)) as Hu.
    rewrite (Nat.div_mod_eq (length data) 4) in Hm.
    replace (4 * (length data / 4) + length data mod 4 + n)%nat
      with (length data mod 4 + n + length data / 4 * 4)%nat in Hm by lia.
    rewrite Nat.Div0.mod_add in Hm.
    set (m := length data mod 4) in *. clearbody m.
    destruct m as [|[|[|[|m]]]]; [| | | |lia]; destruct n as [|[|[|n]]]; try lia; try done.
  - split; [eapply Forall_impl; [exact Hd|]; naive_solver|]. split; [lia|]. intros Hne Hz.
    apply nil_length_inv in Hz as ->. cbn [app length] in *. destruct bs; [done|]. cbn [length] in Hl. lia.
Qed.

Lemma utf8_ascii fuel s : (length s <= fuel)%nat -> Forall (fun c => (c < 128)%N) s -> utf8_decode fuel s = Some s.
Proof.
  revert s. induction fuel as [|fuel IH]; intros [|c s] Hl H; try done; [cbn in Hl; lia|].
  apply Forall_cons in H as [Hc H]. cbn [utf8_decode]. apply N.ltb_lt in Hc. rewrite Hc.
  rewrite IH by (done || (cbn in Hl; lia)). done.
Qed.

Lemma split_first_app a b : Forall (fun c => c <> BAR) a -> split_first (a ++ BAR :: b) = Some (a, b).
Proof.
  induction 1 as [|c a Hc _ IH]; [done|]. cbn [app split_first]. apply N.eqb_neq in Hc. by rewrite Hc, IH.
Qed.

(** ** Cursors *)

Section CursorFacts.
Context {T : ActivityText} {TL : ActivityTextLaws T}.

Lemma cursor_roundtrip_short t u : moment_ok t -> (u < 2 ^ 128)%N ->
  decode_activity_cursor (encode_activity_cursor t u) = Ok (t, u) /\
  (1 <= length (encode_activity_cursor t u) <= 256)%nat.
Proof.
  intros Ht Hu. unfold encode_activity_cursor, decode_activity_cursor.
  set (bs := isoformat t ++ [BAR] ++ uuid_str u).
  destruct (uuid_str_shape u) as [Hua Hul]. pose proof (isoformat_ascii t Ht) as Hia. pose proof (isoformat_short t Ht) as His.
  assert (Ha : Forall (fun c => (c < 128)%N) bs).
  { unfold bs. apply Forall_app. split; [eapply Forall_impl; [exact Hia|]; naive_solver|].
    by constructor. }
  assert (Hb : Forall (fun c => (c < 256)%N) bs) by (eapply Forall_impl; [exact Ha|]; cbv beta; lia).
  assert (Hbl : (length bs <= 101)%nat) by (unfold bs; rewrite !length_app, Hul; cbn [length]; lia).
  assert (Hne : bs <> []) by (unfold bs; by destruct (isoformat t)).
  destruct (repadded bs Hb) as (Hp & Hpa & Hpl & Hnz). set (cursor := rstrip_by _ _) in *.
  split; [|specialize (Hnz Hne); lia].
  rewrite (proj2 (Nat.eqb_neq _ _) (Hnz Hne)). cbn [orb].
  replace (256 <? length cursor)%nat with false by (symmetry; apply Nat.ltb_ge; lia).
  unfold urlsafe_b64decode.
  assert (Hall : forallb (fun c => (c <? 128)%N) (cursor ++ padding cursor) = true).
  { rewrite forallb_app. apply andb_true_iff. split; apply forallb_forall; intros c Hc; apply N.ltb_lt.
    - rewrite Forall_forall in Hpa. by apply Hpa, list_elem_of_In.
    - apply repeat_spec in Hc as ->. done. }
  rewrite Hall, Hp, b64_roundtrip by done. cbn [option_or]. rsimpl.
  rewrite utf8_ascii by done. cbn [option_or]. rsimpl. unfold bs. cbn [app].
  rewrite split_first_app by (eapply Forall_impl; [exact Hia|]; naive_solver). cbn [option_or]. rsimpl. cbn [fst snd].
  rewrite fromisoformat_isoformat by done. cbn [option_or]. rsimpl. cbn [fst snd].
  rewrite uuid_of_text_str by done. done.
Qed.

Lemma cursor_roundtrip t u : moment_ok t -> (u < 2 ^ 128)%N ->
  decode_activity_cursor (encode_activity_cursor t u) = Ok (t, u).
Proof. intros Ht Hu. by apply cursor_roundtrip_short. Qed.

(** Decoding a cursor has one error. *)
Lemma decode_raises c e : decode_activity_cursor c = Raise e -> e = cursor_error.
Proof.
  unfold decode_activity_cursor, option_or. intros H.
  destruct (_ || _); [by injection H|]. destruct (urlsafe_b64decode _) as [bs|]; rsimpl_in H; [|by injection H].
  destruct (utf8_decode _ _) as [s|]; rsimpl_in H; [|by injection H].
  destruct (split_first s) as [p|]; rsimpl_in H; [|by injection H].
  destruct (fromisoformat _) as [m|]; rsimpl_in H; [|by injection H].
  destruct (uuid_of_text _) as [u|]; rsimpl_in H; [|by injection H].
  destruct m.2; [discriminate|by injection H].
Qed.
End CursorFacts.

(** ** Pages *)

Lemma older_cmp x y : older (ca_created_at x) (ca_id x) y = cmp_lt row_key_cmp x y.
Proof.
  unfold older, cmp_lt, row_key_cmp, lex_cmp, on_key.
  destruct (Z.compare_spec (ca_created_at y) (ca_created_at x)) as [E|E|E].
  - rewrite E, Z.ltb_irrefl, Z.eqb_refl. cbn [orb andb].
    destruct (N.compare_spec (ca_id y) (ca_id x)); [apply N.ltb_ge; lia|by apply N.ltb_lt|apply N.ltb_ge; lia].
  - by rewrite (proj2 (Z.ltb_lt _ _) E).
  - rewrite (proj2 (Z.ltb_ge _ _)), (proj2 (Z.eqb_neq _ _)) by lia. done.
Qed.

Lemma row_key_eq x y : row_key_cmp x y = Eq -> ca_id x = ca_id y.
Proof.
  unfold row_key_cmp, lex_cmp, on_key. destruct (ca_created_at y ?= ca_created_at x)%Z; try done.
  by intros ->%N.compare_eq.
Qed.

Section Table.
(** A table: valid rows, a primary key. *)
Context (rows : list ChatActivityRecord).
Context (Hnd : NoDup (map ca_id rows)) (Hvalid : Forall (fun r => ChatActivityRecord_ok r = true) rows).

Definition newest_first : list ChatActivityRecord := py_sorted (cmp_le row_key_cmp) rows.

Lemma same_key_same_row x y : x ∈ rows -> y ∈ rows -> row_key_cmp x y = Eq -> x = y.
Proof.
  intros Hx Hy E%row_key_eq. by apply (NoDup_map_same ca_id rows).
Qed.

Lemma newest_first_perm : newest_first ≡ₚ rows.
Proof. apply py_sorted_perm. Qed.

(** The rows older than one of the sorted table are those after it. *)
Lemma older_rows A x B : newest_first = A ++ x :: B ->
  py_sorted (cmp_le row_key_cmp) (List.filter (older (ca_created_at x) (ca_id x)) rows) = B.
Proof.
  intros HS. assert (Hin : forall y, y ∈ A ++ x :: B -> y ∈ rows) by (intros y; by rewrite <- HS, newest_first_perm).
  pose proof (py_sorted_sorted row_key_cmp rows) as S. fold newest_first in S. rewrite HS in S.
  assert (Hd : NoDup (A ++ x :: B)).
  { rewrite <- HS, newest_first_perm. by apply NoDup_ListNoDup, (NoDup_map_inv ca_id), NoDup_ListNoDup. }
  apply StronglySorted_app in S as (SAB & SA & S2). apply StronglySorted_inv in S2 as [SB SxB].
  apply NoDup_app in Hd as (_ & HAB & HdB). apply NoDup_cons in HdB as [HxB _].
  apply (strongly_sorted_unique row_key_cmp); [apply (py_sorted_sorted row_key_cmp)|done| |].
  - rewrite py_sorted_perm, (List_filter_perm _ _ _ (Permutation_sym newest_first_perm)), HS.
    rewrite List.filter_app. cbn [List.filter].
    rewrite older_cmp. unfold cmp_lt at 1. rewrite (tc_refl row_key_cmp).
    rewrite List_filter_none, List_filter_all; [done| |].
    + intros y Hy. rewrite older_cmp. unfold cmp_lt. rewrite Forall_forall in SxB. specialize (SxB y Hy).
      unfold cmp_le in SxB. destruct (row_key_cmp x y) eqn:E; [|done|done].
      assert (x = y) as -> by (apply same_key_same_row; [apply Hin|apply Hin|done]; set_solver). done.
    + intros y Hy. rewrite older_cmp. unfold cmp_lt. specialize (SAB y x Hy ltac:(set_solver)).
      unfold cmp_le in SAB. rewrite (tc_opp row_key_cmp y x). by destruct (row_key_cmp y x).
  - intros y z. rewrite !elem_of_py_sorted. intros Hy Hz. apply same_key_same_row.
    + apply list_elem_of_In, filter_In in Hy as [Hy _]. by apply list_elem_of_In.
    + apply list_elem_of_In, filter_In in Hz as [Hz _]. by apply list_elem_of_In.
Qed.

(** What a listing selects from, in order. *)
Definition listing (before : option (Z * uuid)) : list ChatActivityRecord :=
  py_sorted (cmp_le row_key_cmp)
    (match before with Some (t, i) => List.filter (older t i) rows | None => rows end).

Lemma listing_valid before r : r ∈ listing before -> ChatActivityRecord_ok r = true.
Proof.
  unfold listing. rewrite elem_of_py_sorted. rewrite Forall_forall in Hvalid. destruct before as [[t i]|]; [|apply Hvalid].
  intros H. apply list_elem_of_In, filter_In in H as [H _]. by apply Hvalid, list_elem_of_In.
Qed.

Lemma list_chat_activity_spec limit before :
  list_chat_activity rows limit before =
    Ok (firstn limit (listing before), Nat.ltb limit (length (listing before))).
Proof.
  unfold list_chat_activity. cbv zeta. fold (listing before).
  rewrite firstn_firstn, Nat.min_l by lia. rewrite result_map_id.
  - rsimpl. do 2 f_equal. rewrite length_take.
    destruct (Nat.ltb_spec limit (length (listing before))), (Nat.ltb_spec limit ((limit + 1) `min` length (listing before)));
      (done || lia).
  - intros r Hr. apply elem_of_take in Hr as (n & Hr & _). apply list_elem_of_lookup_2 in Hr.
    by rewrite (listing_valid _ _ Hr).
Qed.
End Table.

(** C40. The cursor of a row is a text the query parameter admits (1 to 256
    characters) and decodes to exactly that row's position, so distinct
    positions have distinct cursors; whatever text a client sends instead,
    decoding either gives a position or raises the one cursor error. *)
Theorem activity_cursor_contract {T : ActivityText} {TL : ActivityTextLaws T} t u t' u' sent e :
  moment_ok t -> (u < 2 ^ 128)%N -> moment_ok t' -> (u' < 2 ^ 128)%N ->
  decode_activity_cursor (encode_activity_cursor t u) = Ok (t, u) /\
  (1 <= length (encode_activity_cursor t u) <= 256)%nat /\
  (encode_activity_cursor t u = encode_activity_cursor t' u' -> (t, u) = (t', u')) /\
  (decode_activity_cursor sent = Raise e -> e = cursor_error).
Proof.
  intros Ht Hu Ht' Hu'. destruct (cursor_roundtrip_short t u Ht Hu) as [Hr Hl]. split; [done|]. split; [done|]. split.
  - intros He. rewrite He, (cursor_roundtrip t' u') in Hr by done. congruence.
  - apply decode_raises.
Qed.

(** C16. Following the cursors reads the whole log, each row once, newest first:
    whatever the page size, a reader reaches a page without a next cursor, after
    as many pages as there are rows at most (one for an empty log); no page is
    longer than the page size, and together they are the table sorted by time
    and identifier. *)
Theorem pages_cover_the_log {T : ActivityText} {TL : ActivityTextLaws T} rows limit fuel :
  NoDup (map ca_id rows) -> Forall (fun r => ChatActivityRecord_ok r = true) rows ->
  Forall (fun r => (ca_id r < 2 ^ 128)%N /\ moment_ok (ca_created_at r)) rows -> (1 <= limit)%nat ->
  (Nat.max 1 (length rows) <= fuel)%nat ->
  (exists pages, read_all (Some (list_chat_activity rows)) fuel limit None = Ok (Some pages) /\
     concat pages = newest_first rows /\ (length pages <= Nat.max 1 (length rows))%nat /\
     Forall (fun page => (length page <= limit)%nat) pages) /\
  newest_first rows ≡ₚ rows /\
  StronglySorted (fun a b => cmp_le row_key_cmp a b = true) (newest_first rows).
Proof.
  intros Hnd Hv Hid Hl Hfuel. split; [|split; [apply newest_first_perm|apply (py_sorted_sorted row_key_cmp)]].
  assert (G : forall n A B cursor before,
    newest_first rows = A ++ B -> (Nat.max 1 (length B) <= n)%nat -> listing rows before = B ->
    match cursor, before with
    | None, None => True
    | Some c, Some p => decode_activity_cursor c = Ok p
    | _, _ => False
    end ->
    exists pages, read_all (Some (list_chat_activity rows)) n limit cursor = Ok (Some pages) /\ concat pages = B /\
      (length pages <= Nat.max 1 (length B))%nat /\ Forall (fun page => (length page <= limit)%nat) pages).
  { induction n as [|n IH]; intros A B cursor before HS Hf HB Hc; [lia|]. cbn [read_all].
    assert (Hp : activity_page (Some (list_chat_activity rows)) limit cursor =
      Ok (mk_ChatActivityPage (firstn limit B)
        (if Nat.ltb limit (length B)
         then (fun r => encode_activity_cursor (ca_created_at r) (ca_id r)) <$> last (firstn limit B) else None))).
    { unfold activity_page. destruct cursor as [c|], before as [p|]; try done; [rewrite Hc|]; rsimpl;
        by rewrite (list_chat_activity_spec rows Hv), HB. }
    rewrite Hp. rsimpl. cbn [pg_next_cursor pg_items].
    assert (Hpl : (length (firstn limit B) <= limit)%nat) by (rewrite length_take; lia).
    destruct (Nat.ltb_spec limit (length B)) as [Hlt|Hge].
    2: { exists [firstn limit B]. split; [done|]. cbn [concat length]. rewrite app_nil_r, take_ge by lia.
         split; [done|]. split; [lia|]. constructor; [lia|constructor]. }
    assert (Hne : firstn limit B <> []) by (destruct B, limit; (done || (cbn in *; lia))).
    destruct (exists_last Hne) as (C & z & HC). rewrite HC, last_snoc. cbn [fmap option_fmap option_map].
    assert (Hz : newest_first rows = (A ++ C) ++ z :: skipn limit B).
    { rewrite HS, <- (take_drop limit B) at 1. by rewrite HC, <- !app_assoc. }
    assert (Hzr : z ∈ rows) by (rewrite <- (newest_first_perm rows), Hz; set_solver).
    destruct (IH ((A ++ C) ++ [z]) (skipn limit B) (Some (encode_activity_cursor (ca_created_at z) (ca_id z)))
      (Some (ca_created_at z, ca_id z))) as (pages & -> & Hcat & Hlen & Hall).
    - by rewrite <- app_assoc.
    - rewrite length_drop. lia.
    - by apply older_rows with (A := A ++ C).
    - rewrite Forall_forall in Hid. destruct (Hid z Hzr). by apply cursor_roundtrip.
    - exists ((C ++ [z]) :: pages). rewrite length_drop in Hlen. split; [done|]. cbn [concat length]. rewrite Hcat, <- HC.
      split; [apply take_drop|]. split; [lia|by constructor]. }
  destruct (G fuel [] (newest_first rows) None None) as (pages & H); [done| |done|done|].
  - by rewrite newest_first_perm.
  - exists pages. by rewrite newest_first_perm in H at 2.
Qed.

(** ** A concrete text of moments: sixteen hexadecimal digits *)

Definition EPOCH_SHIFT : Z := 62135596800000000.

Definition hex_text : ActivityText :=
  {| isoformat := fun t => hex_digits 16 (Z.to_N (t + EPOCH_SHIFT)) [];
     fromisoformat := fun s => (fun n => ((Z.of_N n - EPOCH_SHIFT)%Z, true)) <$> hex_int s;
     uuid_of_text := uuid_parse |}.

#[export] Instance hex_text_laws : ActivityTextLaws hex_text.
Proof.
  assert (B : forall t, moment_ok t -> (Z.to_N (t + EPOCH_SHIFT) < 16 ^ N.of_nat 16)%N).
  { intros t Ht. unfold moment_ok, EPOCH_SHIFT in *. change (16 ^ N.of_nat 16)%N with 18446744073709551616%N. lia. }
  split; cbn [isoformat fromisoformat uuid_of_text hex_text].
  - intros t Ht. rewrite hex_digits_roundtrip by (by apply B). cbn [fmap option_fmap option_map]. do 2 f_equal.
    unfold moment_ok, EPOCH_SHIFT in *. lia.
  - intros t _. eapply Forall_impl; [by apply hex_digits_ascii|]. cbv beta. lia.
  - intros t _. rewrite hex_digits_length. cbn [length]. lia.
  - apply uuid_roundtrip.
Qed.

Definition chat_at (id : uuid) (t : Z) : ChatActivityRecord :=
  mk_ChatActivityRecord id (py "r") CM_DIRECT None false None None None None None None None None CO_RETURNED None
    None None None None true t.

Definition three_chats : list ChatActivityRecord := [chat_at 7 100; chat_at 9 200; chat_at 8 100].

Lemma pages_cover_the_log_witness :
  @read_all hex_text (Some (list_chat_activity three_chats)) 3 1 None =
    Ok (Some [[chat_at 9 200]; [chat_at 8 100]; [chat_at 7 100]]) /\ newest_first three_chats ≡ₚ three_chats.
Proof.
  split; [vm_compute; reflexivity|].
  destruct (@pages_cover_the_log hex_text hex_text_laws three_chats 1 3) as (_ & Hp & _).
  - apply all_distinct_true. reflexivity.
  - repeat constructor.
  - repeat constructor; unfold moment_ok; cbn; lia.
  - lia.
  - cbn. lia.
  - exact Hp.
Defined.

(** A cursor that is not base64 of anything: one character. *)
Lemma activity_cursor_contract_witness :
  @decode_activity_cursor hex_text (@encode_activity_cursor hex_text 100 7) = Ok (100%Z, 7%N) /\
  @decode_activity_cursor hex_text (py "A") = Raise cursor_error.
Proof.
  assert (M : moment_ok 100) by (unfold moment_ok; lia).
  split; [|vm_compute; reflexivity].
  apply (@activity_cursor_contract hex_text hex_text_laws 100 7 100 7 (py "A") cursor_error); (exact M || reflexivity).
Defined.
