(* ===== verification/Api.v ===== *)
(** * HTTP interface ([api/limits.py], [api/routes.py], [api/app.py])

    Request bounds, the endpoints in the order the routes perform their steps,
    the translation of exceptions to responses and the correlation middleware.
    A request body arrives parsed and validated by the framework; a response is
    its status, code and the headers the application sets. *)
From S2P Require Import Prelude PyStr PyFloat PyDecimal Schemas Errors Registry Pricing PyNum Deadline Json Validation Observability PyUuid Telemetry Effects Regex Features QualityFeatures Policy Routing Predictor Inference Adaptive AdaptiveConfig Chat RateLimit.

(** ** Request bounds *)

Record RequestLimitSettings := mk_RequestLimitSettings {
  max_prompt_characters : Z;
  limit_max_output_tokens : Z
}.

Definition RequestLimitSettings_ok (s : RequestLimitSettings) : bool :=
  in_bounds 100000 (max_prompt_characters s) && in_bounds 8192 (limit_max_output_tokens s).

(** [RequestLimitSettings.validate_request] *)
Definition validate_request (s : RequestLimitSettings) (r : InferenceRequest) : result exn unit :=
  let total_characters := Z.of_nat (length (prompt r) + length (default [] (system_prompt r))) in
  if (max_prompt_characters s <? total_characters)%Z
  then Raise (RequestLimitExceededError (py "prompt_limit_exceeded"))
  else if (limit_max_output_tokens s <? rq_max_output_tokens r)%Z
  then Raise (RequestLimitExceededError (py "output_limit_exceeded"))
  else Ok tt.

(** ** Limiters

    [InferenceRateLimiter] is a protocol; its contract is what the routes rely
    on: admission has no effect but observations, and refuses with errors the
    interface maps, or with the [OverflowError] of a wait out of range. *)
Class InferenceRateLimiter := {
  lm_admit : pystr -> InferenceKind -> RequestDeadline -> M unit;
  lm_ready : result exn bool
}.

Definition refusal (e : exn) : Prop :=
  e = Exn C_InferenceDeadlineExceededError \/ e = Exn C_RateLimitUnavailableError \/
  (exists after scope, e = RateLimitExceededError after scope /\ (1 <= after)%Z) \/ e = Exn C_OverflowError.

Class LimiterContract (L : InferenceRateLimiter) : Prop := {
  lm_admit_spec : forall identity kind d w,
    post (lm_admit identity kind d) w (fun r w' =>
      quiet w w' /\ match r with Ok _ => True | Raise e => refusal e end)
}.

Definition DisabledRateLimiter {E : Env} : InferenceRateLimiter :=
  {| lm_admit := fun _ _ d => disabled_admit d; lm_ready := Ok true |}.

#[export] Instance disabled_limiter_contract {E : Env} : LimiterContract DisabledRateLimiter.
Proof.
  split. intros identity kind d w. cbn [lm_admit DisabledRateLimiter]. unfold disabled_admit.
  apply post_reading; [apply reading_expired|]. intros [] w1 Q; [apply post_raise; split; [done|by left]|by apply post_ret].
Qed.

Section Redis.
Context {E : Env} {AR : AdmissionRuntime} {UD : UnicodeData} (s : RateLimitSettings) (secret : pystr).
Context {item : Type} (py_int : item -> result exn Z).
Context (eval_script : nat -> pystr -> pystr -> Z -> result exn (reply (item := item))) (ping : result exn bool).

Definition RedisRateLimiter : InferenceRateLimiter :=
  {| lm_admit := admit_request s secret py_int eval_script; lm_ready := limiter_ready ping |}.

Lemma redis_limiter_contract : int_errors py_int -> client_errors eval_script -> LimiterContract RedisRateLimiter.
Proof.
  intros Hi Hc. split. intros identity kind d w. cbn [lm_admit RedisRateLimiter].
  eapply post_mono; [by apply admit_post|]. intros [u|e] w' [Q H]; split; try done.
  destruct H as [->|[->|(rep & ms & scope & _ & _ & H)]]; [by left|by right; left|]. unfold refusal_error in H.
  destruct (f_isfinite _); [|by right; right; right]. destruct H as (after & -> & L & _). right; right; left. by exists after, scope.
Qed.
End Redis.

(** ** Endpoints *)

Section Endpoints.
Context {E : Env} {UD : UnicodeData} {L : InferenceRateLimiter}.
Context (s : InferenceService) (limits : RequestLimitSettings).

(** [inference]: bounds, deadline, admission, then the paid call. *)
Definition inference_endpoint (model_id : pystr) (request : InferenceRequest) (client request_id : pystr) :
    M InferenceResponse :=
  _ ← lift (validate_request limits request);
  d ← new_deadline s;
  _ ← lm_admit client IK_EXPLICIT d;
  generate s model_id request (Some request_id) (Some d) EXPLICIT.

(** [adaptive_inference], on the configured runtime. *)
Definition adaptive_endpoint (runtime : option AdaptiveRuntime) (request : InferenceRequest)
    (category : RoutingCategory) (quality_threshold : option float) (validation : option ValidationContract)
    (client request_id : pystr) : M AdaptiveInferenceResult :=
  match runtime with
  | None => raise (Exn C_AdaptiveRoutingUnavailableError)
  | Some rt =>
      _ ← lift (validate_request limits request);
      let approved := rt_approved_quality_threshold rt in
      _ ← lift (guard_else (match quality_threshold with Some q => f_eqb q approved | None => true end)
                  (Exn C_InvalidQualityThresholdError));
      d ← new_deadline s;
      _ ← lm_admit client IK_ADAPTIVE d;
      adaptive_service_generate (rt_service rt) request (Some (RoutingCategory_value category)) (PyFloat approved)
        (rt_candidate_model_ids rt) validation (Some request_id) (Some d)
  end.

(** [ChatPayload.validate_mode_specific_fields] *)
Definition chat_payload_ok (mode : ChatRoutingMode) (category : option RoutingCategory)
    (validation : option ValidationContract) : bool :=
  match mode, category, validation with
  | RM_AUTO, None, None | RM_MANUAL, Some _, _ => true
  | _, _, _ => false
  end.

(** [chat_inference] *)
Definition chat_endpoint (chat : option ChatOrchestrationService) (request : InferenceRequest)
    (mode : ChatRoutingMode) (category : option RoutingCategory) (validation : option ValidationContract)
    (client request_id : pystr) : M ChatOrchestrationResult :=
  match chat with
  | None => raise (Exn C_AdaptiveRoutingUnavailableError)
  | Some c =>
      _ ← lift (validate_request limits request);
      d ← new_deadline s;
      _ ← lm_admit client (match mode with RM_AUTO => IK_EXPLICIT | RM_MANUAL => IK_ADAPTIVE end) d;
      chat_generate c request mode category validation request_id d
  end.
End Endpoints.

(** [ready]: the first dependency that is missing, if any. *)
Definition readiness (initialized : bool) (models : result exn (list ModelConfig)) (adaptive_required : bool)
    (runtime : option AdaptiveRuntime) (limiter_ready : result exn bool) : option pystr :=
  let providers_available := match models with Ok (_ :: _) => true | _ => false end in
  let adaptive_available := negb adaptive_required || match runtime with Some _ => true | None => false end in
  let redis_available := match limiter_ready with Ok b => b | Raise _ => false end in
  if initialized && providers_available && adaptive_available && redis_available then None
  else Some (if negb initialized then py "initialization"
             else if negb providers_available then py "provider_registry"
             else if negb adaptive_available then py "adaptive_routing" else py "redis").

Definition BEARER : pystr := py "Bearer ".

(** [prometheus_metrics]: the status; [compare_digest] on texts refuses
    characters outside ASCII with [TypeError]. *)
Definition metrics_status (settings : ObservabilitySettings) (authorization : pystr) : result exn Z :=
  if negb (metrics_enabled settings) then Ok 404%Z
  else match metrics_bearer_token settings with
       | None => Ok 404%Z
       | Some expected =>
           let candidate := if startswith authorization BEARER then skipn 7 authorization else [] in
           if negb (forallb (fun c => (c <? 128)%N) candidate && forallb (fun c => (c <? 128)%N) expected)
           then Raise (Exn C_TypeError)
           else Ok (if bool_decide (candidate = expected) then 200 else 401)%Z
       end.

(** ** Errors as responses *)

(** The classes of [_ERRORS], in order, with their status and code. *)
Definition ERRORS : list (exn_class * (Z * pystr)) :=
  map (fun p => (p.1.1, (p.1.2, py p.2)))
  [ (C_InferenceDeadlineExceededError, 504%Z, "inference_deadline_exceeded");
    (C_RateLimitExceededError, 429%Z, "rate_limit_exceeded");
    (C_RateLimitUnavailableError, 503%Z, "rate_limit_unavailable");
    (C_ResponseValidationError, 502%Z, "response_validation_failed");
    (C_AdaptiveRoutingUnavailableError, 503%Z, "adaptive_routing_unavailable");
    (C_PredictorArtifactError, 503%Z, "adaptive_routing_unavailable");
    (C_UnsupportedPredictorCandidateError, 503%Z, "adaptive_routing_unavailable");
    (C_NoEligibleCandidatesError, 503%Z, "adaptive_routing_unavailable");
    (C_InvalidQualityThresholdError, 422%Z, "invalid_adaptive_request");
    (C_RequestLimitExceededError, 422%Z, "invalid_request");
    (C_InvalidActivityCursorError, 422%Z, "invalid_activity_cursor");
    (C_MissingRoutingCategoryError, 422%Z, "invalid_adaptive_request");
    (C_EvaluationNotFoundError, 404%Z, "evaluation_not_found");
    (C_EvaluationArtifactError, 422%Z, "evaluation_artifact_invalid");
    (C_TelemetryUnavailableError, 503%Z, "telemetry_unavailable");
    (C_ModelNotFoundError, 404%Z, "model_not_found");
    (C_ModelDisabledError, 403%Z, "model_disabled");
    (C_ContextLimitError, 422%Z, "context_limit_exceeded");
    (C_ProviderUnavailableError, 503%Z, "provider_unavailable");
    (C_ProviderFailureError, 502%Z, "provider_failure") ]%string.

Record http_error := mk_http_error { he_status : Z; he_code : pystr; he_retry_after : option Z }.

Definition gateway_status (c : GatewayErrorCategory) : Z :=
  match c with
  | NOT_CONFIGURED => 503 | RATE_LIMIT => 429 | TIMEOUT => 504 | CONTEXT_LIMIT => 422 | INVALID_REQUEST => 422
  | _ => 502
  end%Z.

Definition internal_error : http_error := mk_http_error 500 (py "internal_error") None.

Definition retry_after_of (e : exn) : option Z :=
  match e with RateLimitExceededError after _ => Some after | _ => None end.

(** [application_error] *)
Definition application_error (e : exn) : http_error :=
  match gateway_category e with
  | Some c => mk_http_error (gateway_status c) (GatewayErrorCategory_value c) None
  | None =>
      match find (fun p => isinstance e p.1) ERRORS with
      | Some (_, (status, code)) => mk_http_error status code (retry_after_of e)
      | None => internal_error
      end
  end.

(** The handler an exception of a route reaches: the one registered for a class
    it is an instance of, else [unexpected_error]; what is not an [Exception]
    is not handled. *)
Definition handle (e : exn) : option http_error :=
  if existsb (fun p => isinstance e p.1) ERRORS then Some (application_error e)
  else if is_exception e then Some internal_error else None.

(** ** Correlation *)

(** [_REQUEST_ID.fullmatch] *)
Definition request_id_ok (s : pystr) : bool := token_match (in_chars (py "._-")) 127 s.

(** The middleware: the identifier the request gets, or the refusal. *)
Definition correlate (supplied : list pystr) (fresh : uuid) : pystr * option http_error :=
  match supplied with
  | [] => (uuid_str fresh, None)
  | [s] => if request_id_ok s then (s, None)
           else (uuid_str fresh, Some (mk_http_error 400 (py "invalid_request_id") None))
  | _ => (uuid_str fresh, Some (mk_http_error 400 (py "invalid_request_id") None))
  end.

(** Status class and outcome of the completed request. *)
Definition completion_labels (status : Z) : pystr * pystr :=
  (Z_to_str (status / 100) ++ py "xx",
   if (status <? 400)%Z then py "success" else if (status <? 500)%Z then py "client_error" else py "server_error").

(** ** Lemmas *)

(** The statuses the inference route declares for errors. *)
Definition DECLARED_STATUSES : list Z := [400; 403; 404; 422; 429; 502; 503; 504]%Z.

Definition declared (e : exn) : Prop := exists h, handle e = Some h /\ he_status h ∈ DECLARED_STATUSES.

Lemma declared_dec e h : handle e = Some h -> bool_decide (he_status h ∈ DECLARED_STATUSES) = true -> declared e.
Proof. intros H1 H2. exists h. split; [done|]. by apply bool_decide_eq_true in H2. Qed.

Lemma handle_gateway c d : handle (GatewayError c d) =
  Some (mk_http_error (gateway_status c) (GatewayErrorCategory_value c) None).
Proof. done. Qed.

Lemma handle_rejected c r d : handle (CompletionRejectedError c r d) =
  Some (mk_http_error (gateway_status c) (GatewayErrorCategory_value c) None).
Proof. done. Qed.

Lemma gateway_status_declared c : gateway_status c ∈ DECLARED_STATUSES.
Proof. apply (bool_decide_eq_true_1 (gateway_status c ∈ DECLARED_STATUSES)). by destruct c. Qed.

Lemma reported_declared e : reported e = true -> declared e.
Proof.
  destruct e as [c|after scope|m|c d|c r d]; intros H.
  - destruct c; try discriminate H; (eapply declared_dec; [reflexivity|vm_compute; reflexivity]).
  - discriminate H.
  - discriminate H.
  - exists (mk_http_error (gateway_status c) (GatewayErrorCategory_value c) None).
    split; [apply handle_gateway|apply gateway_status_declared].
  - exists (mk_http_error (gateway_status c) (GatewayErrorCategory_value c) None).
    split; [apply handle_rejected|apply gateway_status_declared].
Qed.

Lemma refusal_declared e : refusal e -> declared e \/ e = Exn C_OverflowError.
Proof.
  intros [->|[->|[(after & scope & -> & _)|H]]]; [left|left|left|by right];
    (eapply declared_dec; [reflexivity|vm_compute; reflexivity]).
Qed.

Lemma validate_request_raise l r e : validate_request l r = Raise e -> declared e.
Proof.
  unfold validate_request. destruct (_ <? _)%Z; [|destruct (_ <? _)%Z; [|done]]; intros H; injection H as <-;
    (eapply declared_dec; [reflexivity|vm_compute; reflexivity]).
Qed.

Lemma new_deadline_ok {E : Env} s w : InferenceDeadlineSettings_ok (sv_inference_deadline_seconds s) = true ->
  exists d w1, quiet w w1 /\ new_deadline s w = (Ok d, w1).
Proof.
  intros H. unfold InferenceDeadlineSettings_ok in H. apply andb_true_iff in H as [H _].
  apply andb_true_iff in H as [Hf Hp]. unfold new_deadline, mbind, M_bind.
  destruct (reading_monotonic w) as (now & w1 & -> & Q). unfold lift, new_RequestDeadline. cbn [py_float]. rsimpl. rewrite Hf.
  destruct (f_ltb_not_nan _ _ Hp) as [N1 N2]. rewrite f_ltb_nleb in Hp by done.
  apply negb_true_iff in Hp. rewrite Hp. by eexists _, w1.
Qed.

Lemma no_attempt id rq w w' : w_calls w' = w_calls w -> attempt_call id rq w w'.
Proof. intros C. exists []. rewrite app_nil_r. split; [done|by left]. Qed.

(** The service behind the route. *)
Lemma generate_outcomes {E : Env} s id rq rid d w : ModelRegistry.wf (sv_registry s) ->
  let run := generate s id rq (Some rid) (Some d) EXPLICIT w in
  attempt_call id rq w run.2 /\
  match run.1 with
  | Ok resp => rs_model_id resp = id /\ w_calls run.2 = w_calls w ++ [mk_provider_call id rq]
  | Raise e => declared e \/ is_exception e = false
  end.
Proof.
  intros Hwf. change (post (generate s id rq (Some rid) (Some d) EXPLICIT) w (fun r w' => attempt_call id rq w w' /\
    match r with
    | Ok resp => rs_model_id resp = id /\ w_calls w' = w_calls w ++ [mk_provider_call id rq]
    | Raise e => declared e \/ is_exception e = false
    end)).
  eapply post_mono; [apply generate_spec; by left|].
  intros r w3 [(e & -> & [C3 _] & Hx)|(m & Hg & Hc & _ & Hr)]; unfold same_calls in *.
  - split; [by apply no_attempt|]. left. destruct Hx as [->|Hx].
    + eapply declared_dec; [reflexivity|vm_compute; reflexivity].
    + unfold ModelRegistry.get in Hx. destruct (dict_get _ _); [discriminate|]. injection Hx as <-.
      eapply declared_dec; [reflexivity|vm_compute; reflexivity].
  - apply ModelRegistry.get_in in Hg as [_ <-]; [|done]. split.
    + destruct Hc as [Hc|Hc]; [by apply no_attempt|]. eexists. split; [exact Hc|by right].
    + destruct r as [resp|e].
      * destruct Hr as (Hc' & _ & Hm & _). done.
      * destruct Hr as [Hr|Hr]; [left; by apply reported_declared|by right].
Qed.

(** Identifiers are safe tokens. *)
Lemma hex_char_alnum n : (n < 16)%N -> is_ascii_alnum (hex_char n) = true.
Proof.
  intros H. unfold hex_char, is_ascii_alnum, is_ascii_digit, is_ascii_upper, is_ascii_lower, in_range.
  destruct (N.ltb_spec n 10).
  - rewrite (proj2 (N.leb_le 48 (48 + n))), (proj2 (N.leb_le (48 + n) 57)) by lia. by rewrite ?orb_true_r.
  - rewrite (proj2 (N.leb_le 97 (87 + n))), (proj2 (N.leb_le (87 + n) 122)) by lia. by rewrite ?orb_true_r.
Qed.

Lemma hex_digits_alnum n v acc : Forall (fun c => is_ascii_alnum c = true) acc ->
  Forall (fun c => is_ascii_alnum c = true) (hex_digits n v acc).
Proof.
  revert v acc. induction n as [|n IH]; intros v acc H; simpl; [done|]. apply IH. constructor; [|done].
  apply hex_char_alnum. dlia.
Qed.

Lemma uuid_str_token u : request_id_ok (uuid_str u) = true.
Proof.
  destruct (uuid_str_shape u) as [_ Hl].
  assert (Hf : Forall (fun c => is_ascii_alnum c || in_chars (py "._-") c = true) (uuid_str u)).
  { unfold uuid_str. set (h := uuid_hex u).
    assert (Ha : Forall (fun c => is_ascii_alnum c || in_chars (py "._-") c = true) h).
    { eapply Forall_impl; [by apply hex_digits_alnum|]. cbv beta. by intros c ->. }
    cbn [join]. repeat (apply Forall_app; split); try (by repeat constructor);
      repeat first [apply Forall_take | apply Forall_drop]; done. }
  assert (Hh : exists c r, uuid_str u = c :: r /\ is_ascii_alnum c = true).
  { unfold uuid_str. cbn [join]. set (h := uuid_hex u).
    assert (Ha : Forall (fun c => is_ascii_alnum c = true) h) by (by apply hex_digits_alnum).
    destruct h as [|c h'] eqn:Eh.
    { assert (L : length h = 32) by (unfold h, uuid_hex; rewrite hex_digits_length; done). rewrite Eh in L. discriminate L. }
    apply Forall_cons in Ha as [Hc _]. by eexists _, _. }
  destruct Hh as (c & r & E & Hc). rewrite E in *. unfold request_id_ok, token_match.
  rewrite Hc. cbn [length] in Hl. rewrite (proj2 (Nat.leb_le (length r) 127)) by lia. cbn [andb].
  apply Forall_cons in Hf as [_ Hf]. apply forallb_forall. intros x Hx. rewrite Forall_forall in Hf.
  by apply Hf, list_elem_of_In.
Qed.

(** ** Properties *)

(* Every request runs under a safe correlation identifier: the single well-formed
    one the client supplied, as it is, or a fresh one; a malformed or repeated
    header is refused.  Whatever is chosen is 1 to 128 characters of the safe
    alphabet, so the records that carry it accept it. *)
Theorem correlation_is_safe supplied fresh :
  let '(id, refused) := correlate supplied fresh in
  request_id_ok id = true /\ (1 <= length id <= 128)%nat /\
  (refused = None <-> supplied = [] \/ exists s, supplied = [s] /\ request_id_ok s = true) /\
  (forall s, supplied = [s] -> request_id_ok s = true -> id = s) /\
  (refused <> None -> refused = Some (mk_http_error 400 (py "invalid_request_id") None)).
Proof.
  assert (Hlen : forall id, request_id_ok id = true -> (1 <= length id <= 128)%nat).
  { intros [|c r] H; [discriminate H|]. unfold request_id_ok, token_match in H. bools.
    cbn [length]. lia. }
  destruct (correlate supplied fresh) as [id refused] eqn:E.
  assert (Hid : request_id_ok id = true).
  { unfold correlate in E. destruct supplied as [|s [|s' l]]; [injection E as <- _; apply uuid_str_token| |
      injection E as <- _; apply uuid_str_token].
    destruct (request_id_ok s) eqn:Es; injection E as <- _; [done|apply uuid_str_token]. }
  split; [done|]. split; [by apply Hlen|]. unfold correlate in E.
  destruct supplied as [|s [|s' l]].
  - injection E as <- <-. split; [split; [by left|done]|]. split; [done|done].
  - destruct (request_id_ok s) eqn:Es; injection E as <- <-.
    + split; [split; [right; by exists s|done]|]. split; [intros s0 H; by injection H|done].
    + split; [split; [done|intros [?|(s0 & H & Hs)]; [done|congruence]]|].
      split; [intros s0 H Hs; congruence|done].
  - injection E as <- <-. split; [split; [done|by intros [?|(s0 & H & _)]]|]. split; [by intros s0 H|done].
Qed.

(** C10. The explicit inference route does what it declares, over a service with a
    well-formed registry and a valid deadline setting, and a limiter that keeps
    its contract.  A request out of bounds is refused before anything happens.
    Within bounds the limiter is asked, under the deadline of the request, before
    anything is called: if it refuses, its error is the outcome and nothing is
    called; whatever is called is called after it admitted.  At most one call is
    made, of the named model; an answer is that model's; and every exception
    becomes one of the declared statuses, never an internal error, except the
    [OverflowError] a limiter raises for a wait no float holds and what is no
    [Exception]. *)
Theorem inference_route_contract {E : Env} {L : InferenceRateLimiter} {LC : LimiterContract L}
    s limits model_id request client rid w :
  ModelRegistry.wf (sv_registry s) -> InferenceDeadlineSettings_ok (sv_inference_deadline_seconds s) = true ->
  let r := (inference_endpoint s limits model_id request client rid w).1 in
  let w' := (inference_endpoint s limits model_id request client rid w).2 in
  attempt_call model_id request w w' /\
  (validate_request limits request <> Ok tt -> w' = w) /\
  (validate_request limits request = Ok tt -> exists d w1, quiet w w1 /\ new_deadline s w = (Ok d, w1) /\
     forall e, (lm_admit client IK_EXPLICIT d w1).1 = Raise e -> r = Raise e /\ w_calls w' = w_calls w) /\
  (w_calls w' <> w_calls w -> exists d w1 w2, quiet w w1 /\ quiet w1 w2 /\ new_deadline s w = (Ok d, w1) /\
     lm_admit client IK_EXPLICIT d w1 = (Ok tt, w2) /\ w_calls w' = w_calls w2 ++ [mk_provider_call model_id request]) /\
  match r with
  | Ok resp => rs_model_id resp = model_id /\ w_calls w' = w_calls w ++ [mk_provider_call model_id request]
  | Raise e => declared e \/ is_exception e = false \/
      (e = Exn C_OverflowError /\ exists d w1, quiet w w1 /\ (lm_admit client IK_EXPLICIT d w1).1 = Raise e)
  end.
Proof.
  intros Hwf Hd r w'.
  destruct (validate_request limits request) as [[]|e] eqn:Ev.
  2: { unfold r, w', inference_endpoint. rewrite Ev. cbn. split; [by apply no_attempt|]. split; [done|]. split; [done|].
       split; [done|]. left. by apply (validate_request_raise _ _ _ Ev). }
  destruct (new_deadline_ok s w Hd) as (d & w1 & Q1 & Ed). pose proof (lm_admit_spec client IK_EXPLICIT d w1) as Ha.
  unfold post in Ha. destruct (lm_admit client IK_EXPLICIT d w1) as [[[]|e] w2] eqn:El; cbn [fst snd] in Ha; destruct Ha as [Q2 He].
  - assert (Hrun : inference_endpoint s limits model_id request client rid w =
                   generate s model_id request (Some rid) (Some d) EXPLICIT w2).
    { unfold inference_endpoint, mbind, M_bind, lift. rewrite Ev. by rewrite Ed, El. }
    pose proof (generate_outcomes s model_id request rid d w2 Hwf) as G. unfold r, w'. rewrite Hrun.
    destruct G as [G1 G2]. pose proof (quiet_trans _ _ _ Q1 Q2) as [C _]. unfold same_calls in C.
    split; [unfold attempt_call; by rewrite <- C|]. split; [done|].
    split; [intros _; exists d, w1; split; [done|]; split; [done|]; by rewrite El|]. split.
    + intros Hc. exists d, w1, w2. do 4 (split; [done|]).
      destruct G1 as (l & Hl & [-> | ->]); [rewrite app_nil_r in Hl; congruence|done].
    + destruct (generate _ _ _ _ _ _ _).1; [by rewrite <- C|]. destruct G2 as [G2|G2]; [by left|by right; left].
  - assert (Hrun : inference_endpoint s limits model_id request client rid w = (Raise e, w2)).
    { unfold inference_endpoint, mbind, M_bind, lift. rewrite Ev. by rewrite Ed, El. }
    unfold r, w'. rewrite Hrun. cbn [fst snd]. pose proof (quiet_trans _ _ _ Q1 Q2) as [C _]. unfold same_calls in C.
    split; [by apply no_attempt|]. split; [done|].
    split; [intros _; exists d, w1; split; [done|]; split; [done|]; rewrite El; by intros ? [= ->]|]. split; [done|].
    destruct (refusal_declared e He) as [D|D]; [by left|]. right; right. split; [done|]. exists d, w1. by rewrite El.
Qed.

(** The scrape endpoint answers a token outside ASCII with an error, not 401. *)
Lemma metrics_token_not_ascii expected c rest :
  (128 <= c)%N ->
  metrics_status (mk_ObservabilitySettings true (Some expected)) (BEARER ++ c :: rest) = Raise (Exn C_TypeError) /\
  handle (Exn C_TypeError) = Some internal_error.
Proof.
  intros Hc. split; [|by vm_compute]. unfold metrics_status. cbn [metrics_enabled metrics_bearer_token negb].
  assert (Hs : startswith (BEARER ++ c :: rest) BEARER = true) by reflexivity. rewrite Hs.
  change (skipn 7 (BEARER ++ c :: rest)) with (c :: rest). cbn [forallb].
  rewrite (proj2 (N.ltb_ge c 128) Hc). done.
Qed.

(** ** Concrete requests *)

Lemma correlation_is_safe_witness :
  correlate [py "trace-1"] 7 = (py "trace-1", None) /\ request_id_ok (correlate [py "-x"] 7).1 = true.
Proof.
  split; [vm_compute; reflexivity|].
  pose proof (correlation_is_safe [py "-x"] 7) as H.
  destruct (correlate [py "-x"] 7) as [id refused]. destruct H as [H _]. exact H.
Defined.

Definition small_limits : RequestLimitSettings := mk_RequestLimitSettings 100 64.

Lemma inference_route_contract_witness :
  exists resp w', @inference_endpoint still_env (DisabledRateLimiter (E := still_env)) escalating_service small_limits
    (py "cheap") example_prompt (py "peer") (py "r1") initial_world = (Ok resp, w') /\
  rs_model_id resp = py "cheap" /\ w_calls w' = [mk_provider_call (py "cheap") example_prompt].
Proof.
  pose proof (@inference_route_contract still_env (DisabledRateLimiter (E := still_env)) disabled_limiter_contract
    escalating_service small_limits (py "cheap") example_prompt (py "peer") (py "r1") initial_world
    escalating_registry_wf) as H.
  cbv zeta in H.
  destruct (@inference_endpoint still_env (DisabledRateLimiter (E := still_env)) escalating_service small_limits
    (py "cheap") example_prompt (py "peer") (py "r1") initial_world) as [[resp|e] w'] eqn:E.
  - exists resp, w'. split; [reflexivity|]. destruct H as (_ & _ & _ & _ & H); [vm_compute; reflexivity|]. exact H.
  - apply (f_equal (fun p => is_ok p.1)) in E. vm_compute in E. discriminate E.
Defined.
