(* ===== verification/Bootstrap.v ===== *)
(** * Composition ([bootstrap.py], [runtime.py])

    The services a process is composed of: the offline development service and
    the real models that credentials add to it. *)
From S2P Require Import Prelude PyStr PyFloat PyDecimal Schemas Errors Registry Pricing PyNum Deadline Json Validation Observability PyUuid Telemetry Effects Regex Features QualityFeatures Policy Routing Predictor Inference GatewayConfig.

Definition development_model (id : string) (input output : N) (window : Z) : ModelConfig :=
  mk_ModelConfig (py id) (py "fake") (py "echo-v1") (cents input) (cents output) window true
    default_capabilities None GATEWAY_SHARED default_output_token_policy.

Definition DEVELOPMENT_MODELS : list ModelConfig :=
  [development_model "fake-small" 15 60 4096; development_model "fake-large" 100 300 16384].

Section Bootstrap.
(** [FakeProvider] and the Vercel adapter over one client, as factories. *)
Context (fake vercel : factory).

(** [create_development_service] *)
Definition create_development_service (deadline_seconds : float) : result exn InferenceService :=
  registry ← ModelRegistry.register_all ModelRegistry.empty DEVELOPMENT_MODELS;
  resolver ← ProviderResolver.register ProviderResolver.empty (py "fake") fake;
  new_InferenceService registry resolver None (f_of_Z 2) deadline_seconds.

(** [configure_gateway]: without credentials the service stays as it is. *)
Definition configure_gateway (s : InferenceService) (settings : GatewaySettings) : result exn InferenceService :=
  match gs_api_key settings with
  | None => Ok s
  | Some _ =>
      registry ← ModelRegistry.register_all (sv_registry s) REAL_MODELS;
      resolver ← ProviderResolver.register (sv_resolver s) (py "vercel") vercel;
      Ok (mk_InferenceService registry resolver (sv_telemetry s) (sv_telemetry_timeout s)
            (sv_inference_deadline_seconds s))
  end.
End Bootstrap.

(** With a positive deadline the development service is built; with credentials
    it offers, besides its own, every real model, and its registry stays sound. *)
Lemma composition_offers_models fake vercel deadline_seconds settings :
  f_leb deadline_seconds f_zero = false ->
  exists s s', create_development_service fake deadline_seconds = Ok s /\
    configure_gateway vercel s settings = Ok s' /\ ModelRegistry.wf (sv_registry s') /\
    list_models s' = DEVELOPMENT_MODELS ++ match gs_api_key settings with Some _ => REAL_MODELS | None => [] end.
Proof.
  intros Hd. unfold create_development_service.
  destruct (ModelRegistry.register_all ModelRegistry.empty DEVELOPMENT_MODELS) as [reg|e] eqn:Er;
    [|vm_compute in Er; discriminate].
  assert (Hw : ModelRegistry.wf reg) by (by apply (ModelRegistry.register_all_wf _ _ _ ModelRegistry.wf_empty Er)).
  rsimpl.
  change (ProviderResolver.register ProviderResolver.empty (py "fake") fake)
    with (Ok (E := exn) (ProviderResolver.mk [(py "fake", fake)])). rsimpl.
  unfold new_InferenceService. rewrite Hd.
  exists (mk_InferenceService reg (ProviderResolver.mk [(py "fake", fake)]) None (f_of_Z 2) deadline_seconds).
  assert (Hl : ModelRegistry.list_enabled_models reg = DEVELOPMENT_MODELS) by (vm_compute in Er; injection Er as <-; reflexivity).
  unfold configure_gateway. destruct (gs_api_key settings) as [key|].
  - cbn [sv_registry sv_resolver sv_telemetry sv_telemetry_timeout sv_inference_deadline_seconds].
    destruct (ModelRegistry.register_all reg REAL_MODELS) as [reg'|e] eqn:Er'.
    2: { exfalso. vm_compute in Er. injection Er as <-. vm_compute in Er'. discriminate. }
    rsimpl.
    change (ProviderResolver.register (ProviderResolver.mk [(py "fake", fake)]) (py "vercel") vercel)
      with (Ok (E := exn) (ProviderResolver.mk [(py "fake", fake); (py "vercel", vercel)])). rsimpl.
    exists (mk_InferenceService reg' (ProviderResolver.mk [(py "fake", fake); (py "vercel", vercel)]) None (f_of_Z 2)
              deadline_seconds).
    split; [reflexivity|]. split; [reflexivity|].
    split; [by apply (ModelRegistry.register_all_wf _ _ _ Hw Er')|].
    vm_compute in Er. injection Er as <-. vm_compute in Er'. injection Er' as <-. vm_compute. reflexivity.
  - eexists. split; [reflexivity|]. split; [reflexivity|]. split; [done|].
    rewrite app_nil_r. unfold list_models. cbn [sv_registry sv_resolver]. rewrite Hl. reflexivity.
Qed.
