(* ===== verification/Runtime.v ===== *)
(** * Process runtime ([runtime.py], the lifespan of [api/app.py], [persistence/])

    What a process holds while it serves: the settings it reads from its
    environment, the clients it opens, in which order it closes them and the
    application state the routes find.  An asynchronous context manager is a
    function of the body it surrounds; every opening, probe and closing has an
    outcome given by an oracle, so a failure is considered at each. *)
From stdpp Require Import list sorting.
From S2P Require Import Prelude PyStr PyFloat PyDecimal Schemas Errors Registry Pricing PyNum Deadline Json Validation Observability PyUuid Telemetry Effects Regex Features QualityFeatures Policy Routing Predictor Inference GatewayConfig Adaptive AdaptiveConfig Chat RateLimit Activity Api Bootstrap.

(** ** Settings from the environment *)

(** The parts of a parsed URL that [validate_url] reads. *)
Record database_url_parts := mk_database_url_parts {
  du_drivername : pystr;
  du_host : option pystr;
  du_database : option pystr;
  du_username : option pystr;
  du_port : option Z
}.

(** [os.environ], what pydantic reads from a text for a float, an integer and a
    boolean field, and [make_url] of SQLAlchemy. *)
Class ProcessEnvironment := {
  environ : pystr -> option pystr;
  float_of_text : pystr -> option float;
  int_of_text : pystr -> option Z;
  bool_of_text : pystr -> option bool;
  make_url : pystr -> result exn database_url_parts
}.

Record DatabaseSettings := mk_DatabaseSettings {
  database_url : option pystr;
  telemetry_timeout_seconds : float
}.

Section Settings.
Context {PE : ProcessEnvironment} {AR : AdmissionRuntime} {UD : UnicodeData}.

(** [os.environ.get(name, default)] *)
Definition env_or (name default : string) : pystr :=
  match environ (py name) with Some v => v | None => py default end.

(** [os.environ.get(name) or None] *)
Definition env_nonempty (name : string) : option pystr :=
  match environ (py name) with Some (_ :: _) as v => v | _ => None end.

(** A field that pydantic cannot read from its text. *)
Definition field_of {A : Type} (read : pystr -> option A) (text : pystr) : result exn A :=
  match read text with Some a => Ok a | None => Raise (Exn C_ValidationError) end.

Definition present (o : option pystr) : bool := match o with Some (_ :: _) => true | _ => false end.

(** [DatabaseSettings.validate_url] *)
Definition url_accepted (value : option pystr) : bool :=
  match value with
  | None => true
  | Some text =>
      match make_url text with
      | Raise _ => false
      | Ok url =>
          bool_decide (du_drivername url = py "postgresql+asyncpg") && present (du_host url) &&
          present (du_database url) && present (du_username url) &&
          match du_port url with Some p => (1 <=? p)%Z && (p <=? 65535)%Z | None => true end
      end
  end.

Definition DatabaseSettings_ok (s : DatabaseSettings) : bool :=
  url_accepted (database_url s) && f_isfinite (telemetry_timeout_seconds s) &&
  f_ltb f_zero (telemetry_timeout_seconds s) && f_leb (telemetry_timeout_seconds s) (f_of_Z 30).

Definition database_settings : result exn DatabaseSettings :=
  timeout ← field_of float_of_text (env_or "TELEMETRY_TIMEOUT_SECONDS" "2");
  let s := mk_DatabaseSettings (environ (py "DATABASE_URL")) timeout in
  _ ← guard_else (DatabaseSettings_ok s) (Exn C_ValidationError);
  Ok s.

Definition gateway_settings_from_environment : result exn GatewaySettings :=
  timeout ← field_of float_of_text (env_or "AI_GATEWAY_TIMEOUT_SECONDS" "60");
  gateway_settings (env_or "AI_GATEWAY_API_KEY" "") timeout.

Definition inference_deadline_settings : result exn float :=
  seconds ← field_of float_of_text (env_or "INFERENCE_DEADLINE_SECONDS" "60");
  _ ← guard_else (InferenceDeadlineSettings_ok seconds) (Exn C_ValidationError);
  Ok seconds.

(** [RateLimitSettings.from_environment] *)
Definition rate_limit_settings : result exn RateLimitSettings :=
  required ← field_of bool_of_text (env_or "RATE_LIMIT_REQUIRED" "false");
  timeout ← field_of float_of_text (env_or "REDIS_TIMEOUT_SECONDS" "0.25");
  client_cap ← field_of int_of_text (env_or "RATE_LIMIT_CLIENT_CAPACITY" "10");
  client_window ← field_of int_of_text (env_or "RATE_LIMIT_CLIENT_WINDOW_SECONDS" "60");
  global_cap ← field_of int_of_text (env_or "RATE_LIMIT_GLOBAL_CAPACITY" "100");
  global_window ← field_of int_of_text (env_or "RATE_LIMIT_GLOBAL_WINDOW_SECONDS" "60");
  explicit ← field_of int_of_text (env_or "RATE_LIMIT_EXPLICIT_WEIGHT" "1");
  adaptive ← field_of int_of_text (env_or "RATE_LIMIT_ADAPTIVE_WEIGHT" "2");
  let s := mk_RateLimitSettings required (env_nonempty "REDIS_URL") (env_nonempty "RATE_LIMIT_HMAC_SECRET")
             timeout client_cap client_window global_cap global_window explicit adaptive in
  _ ← validated (RateLimitSettings_validate s);
  Ok s.

Definition adaptive_routing_config : result exn AdaptiveRoutingConfig :=
  from_environment (env_or "ROUTELLM_ADAPTIVE_ARTIFACT_PATH" "") (env_or "ROUTELLM_ADAPTIVE_CANDIDATES" "").

Definition default_model_setting : result exn pystr :=
  chat_configuration (env_or "ROUTELLM_DEFAULT_MODEL_ID" "").
End Settings.

(** ** The process *)

Inductive resource := R_http | R_database | R_redis.

#[export] Instance resource_eq_dec : EqDecision resource.
Proof. solve_decision. Defined.

(** [app.state], as far as the lifespan writes it. *)
Record app_state := mk_app_state {
  ap_inference_service : InferenceService;
  ap_adaptive_runtime : option AdaptiveRuntime;
  ap_adaptive_required : bool;
  ap_chat_service : option ChatOrchestrationService;
  ap_rate_limiter : InferenceRateLimiter;
  ap_initialized : bool
}.

Inductive lifecycle_event :=
| Opened (r : resource)
| Closed (r : resource)
| Probed (answered : bool)
| Served (state : app_state).

(** [pr_database] is the local variable of [application_service]. *)
Record process := mk_process {
  pr_app : app_state;
  pr_database : bool;
  pr_log : list lifecycle_event;
  pr_obs : obs
}.

Definition L (A : Type) : Type := process -> result exn A * process.

#[export] Instance L_ret : MRet L := fun A a p => (Ok a, p).
#[export] Instance L_bind : MBind L := fun A B f m p =>
  match m p with
  | (Ok a, p') => f a p'
  | (Raise e, p') => (Raise e, p')
  end.

Definition lift_L {A : Type} (r : result exn A) : L A := fun p => (r, p).

Definition log_event (e : lifecycle_event) : L unit := fun p =>
  (Ok tt, mk_process (pr_app p) (pr_database p) (pr_log p ++ [e]) (pr_obs p)).

Definition observe_L (f : obs -> obs) : L unit := fun p =>
  (Ok tt, mk_process (pr_app p) (pr_database p) (pr_log p) (f (pr_obs p))).

Definition set_app (f : app_state -> app_state) : L unit := fun p =>
  (Ok tt, mk_process (f (pr_app p)) (pr_database p) (pr_log p) (pr_obs p)).

Definition set_database (b : bool) : L unit := fun p =>
  (Ok tt, mk_process (pr_app p) b (pr_log p) (pr_obs p)).

(** [try: m finally: f]: an exception of [f] replaces the outcome. *)
Definition try_finally {A : Type} (m : L A) (f : L unit) : L A := fun p =>
  let '(r, p') := m p in
  match f p' with
  | (Ok _, p'') => (r, p'')
  | (Raise e, p'') => (Raise e, p'')
  end.

(** [try: m except Exception: h] *)
Definition except_exception {A : Type} (m h : L A) : L A := fun p =>
  match m p with
  | (Raise e, p') => if is_exception e then h p' else (Raise e, p')
  | ok => ok
  end.

Definition initialized (b : bool) (a : app_state) : app_state :=
  mk_app_state (ap_inference_service a) (ap_adaptive_runtime a) (ap_adaptive_required a) (ap_chat_service a)
    (ap_rate_limiter a) b.

(** What the process meets: whether each client can be created and closed, how
    the telemetry probe ends within its timeout, and how serving ends. *)
Class ProcessOutcomes := {
  open_outcome : resource -> result exn unit;
  close_outcome : resource -> result exn unit;
  probe_outcome : result exn unit;
  serve_outcome : result exn unit
}.

Section Runtime.
Context {PE : ProcessEnvironment} {AR : AdmissionRuntime} {UD : UnicodeData} {E : Env} {R : PredictorRuntime}.
Context {PO : ProcessOutcomes}.
Context (fake vercel : factory) (read_directory : pystr -> artifact_directory) (validator : ResponseValidator).
Context {item : Type} (py_int : item -> result exn Z).
Context (eval_script : nat -> pystr -> pystr -> Z -> result exn (reply (item := item))) (ping : result exn bool).

(** The creation of a client: nothing is open when it raises. *)
Definition open_resource (r : resource) : L unit :=
  _ ← lift_L (open_outcome r);
  log_event (Opened r).

(** [await client.aclose()], which may raise afterwards. *)
Definition close_resource (r : resource) : L unit :=
  _ ← log_event (Closed r);
  lift_L (close_outcome r).

(** The summary query under its timeout. *)
Definition probe_database : L unit :=
  _ ← log_event (Probed (is_ok probe_outcome));
  lift_L probe_outcome.

(** [rate_limiter_service] *)
Definition rate_limiter_service {A : Type} (body : InferenceRateLimiter -> L A) : L A :=
  settings ← lift_L rate_limit_settings;
  if negb (rl_required settings) then body DisabledRateLimiter
  else
    _ ← lift_L (redis_address settings);
    _ ← open_resource R_redis;
    try_finally
      (secret ← lift_L (new_RedisRateLimiter settings);
       body (RedisRateLimiter settings secret py_int eval_script ping))
      (close_resource R_redis).

(** [PostgresTelemetryRepository] records every kind of row. *)
Definition postgres_repository : telemetry_repository := mk_telemetry_repository true true.

Definition with_telemetry (s : InferenceService) (timeout : float) : InferenceService :=
  mk_InferenceService (sv_registry s) (sv_resolver s) (Some postgres_repository) timeout
    (sv_inference_deadline_seconds s).

Definition telemetry_disabled : obs -> obs :=
  emit (py "telemetry_disabled") (py "warning")
    [(py "dependency", LStr (py "postgresql")); (py "outcome", LStr (py "disabled"))].

Definition telemetry_startup_probe_failed : obs -> obs :=
  emit (py "telemetry_startup_probe_failed") (py "warning")
    [(py "dependency", LStr (py "postgresql")); (py "outcome", LStr (py "unavailable"))].

(** [Database.__init__], the assignment of [database] and the probe. *)
Definition connect_telemetry (settings : DatabaseSettings) (s : InferenceService) : L InferenceService :=
  match database_url settings with
  | None => _ ← observe_L telemetry_disabled; mret s
  | Some _ =>
      _ ← open_resource R_database;
      _ ← set_database true;
      _ ← except_exception probe_database (observe_L telemetry_startup_probe_failed);
      mret (with_telemetry s (telemetry_timeout_seconds settings))
  end.

(** The [finally] of [application_service]. *)
Definition release_clients : L unit :=
  try_finally
    (fun p => if pr_database p then close_resource R_database p else (Ok tt, p))
    (close_resource R_http).

(** [application_service] *)
Definition application_service {A : Type} (body : InferenceService -> L A) : L A :=
  db ← lift_L database_settings;
  gateway ← lift_L gateway_settings_from_environment;
  deadline ← lift_L inference_deadline_settings;
  _ ← open_resource R_http;
  s ← lift_L (create_development_service fake deadline);
  s ← lift_L (configure_gateway vercel s gateway);
  _ ← set_database false;
  try_finally (s ← connect_telemetry db s; body s) release_clients.

(** The [yield] of the lifespan: requests are served from the state. *)
Definition serve : L unit := fun p =>
  (_ ← log_event (Served (pr_app p)); lift_L serve_outcome) p.

Definition serve_initialized : L unit :=
  _ ← set_app (initialized true);
  try_finally serve (set_app (initialized false)).

(** The body of the lifespan over the configured collaborators. *)
Definition configure_and_serve (s : InferenceService) (limiter : InferenceRateLimiter) : L unit :=
  _ ← set_app (fun a => mk_app_state s (ap_adaptive_runtime a) (ap_adaptive_required a) (ap_chat_service a)
                          limiter (ap_initialized a));
  config ← lift_L adaptive_routing_config;
  _ ← set_app (fun a => mk_app_state (ap_inference_service a) (ap_adaptive_runtime a) (config_enabled config)
                          (ap_chat_service a) (ap_rate_limiter a) (ap_initialized a));
  runtime ← lift_L (build_adaptive_runtime read_directory validator s config);
  _ ← set_app (fun a => mk_app_state (ap_inference_service a) runtime (ap_adaptive_required a)
                          (ap_chat_service a) (ap_rate_limiter a) (ap_initialized a));
  model_id ← lift_L default_model_setting;
  chat ← lift_L (build_chat_orchestration_service s model_id runtime);
  _ ← set_app (fun a => mk_app_state (ap_inference_service a) (ap_adaptive_runtime a) (ap_adaptive_required a)
                          (Some chat) (ap_rate_limiter a) (ap_initialized a));
  serve_initialized.

(** [lifespan] of [create_app]; an injected service is served as it is. *)
Definition lifespan (service : option InferenceService) : L unit :=
  match service with
  | Some _ => serve_initialized
  | None => application_service (fun s => rate_limiter_service (configure_and_serve s))
  end.

(** The state [create_app] leaves before the lifespan starts. *)
Definition new_app_state (service : option InferenceService) (runtime : option AdaptiveRuntime)
    (limiter : option InferenceRateLimiter) (default_model_id : option pystr) : result exn app_state :=
  s ← match service with Some s => Ok s | None => create_development_service fake (f_of_Z 60) end;
  chat ← match default_model_id with
         | None => Ok None
         | Some id =>
             _ ← guard_else (Identifier_ok (strip id)) (Exn C_ValidationError);
             Some <$> build_chat_orchestration_service s (strip id) runtime
         end;
  Ok (mk_app_state s runtime (match runtime with Some _ => true | None => false end) chat
        (default DisabledRateLimiter limiter) false).

(** [create_app] and the lifespan of the application it returns. *)
Definition run_application (service : option InferenceService) (runtime : option AdaptiveRuntime)
    (limiter : option InferenceRateLimiter) (default_model_id : option pystr) : result exn (result exn unit * process) :=
  state ← new_app_state service runtime limiter default_model_id;
  Ok (lifespan service (mk_process state false [] no_obs)).
End Runtime.

(** [get_adaptive_runtime] and [get_chat_service] *)
Definition get_adaptive_runtime (a : app_state) : result exn AdaptiveRuntime :=
  match ap_adaptive_runtime a with
  | Some rt => Ok rt
  | None => Raise (Exn C_AdaptiveRoutingUnavailableError)
  end.

Definition get_chat_service (a : app_state) : result exn ChatOrchestrationService :=
  match ap_chat_service a with
  | Some c => Ok c
  | None => Raise (Exn C_AdaptiveRoutingUnavailableError)
  end.

(** [ready] on the state of the application. *)
Definition app_readiness (a : app_state) : option pystr :=
  readiness (ap_initialized a) (Ok (list_models (ap_inference_service a))) (ap_adaptive_required a)
    (ap_adaptive_runtime a) (@lm_ready (ap_rate_limiter a)).

(** ** Resources as a stack

    [run_stack held l]: the resources held after the events [l], the last opened
    first, where only the last opened one may be closed. *)
Fixpoint run_stack (held : list resource) (l : list lifecycle_event) : option (list resource) :=
  match l with
  | [] => Some held
  | Opened r :: l' => run_stack (r :: held) l'
  | Closed r :: l' =>
      match held with
      | r' :: held' => if bool_decide (r = r') then run_stack held' l' else None
      | [] => None
      end
  | (Probed _ | Served _) :: l' => run_stack held l'
  end.

Inductive milestone := Opening (r : resource) | Serving.

Definition milestones (l : list lifecycle_event) : list milestone :=
  omap (fun e => match e with
                 | Opened r => Some (Opening r)
                 | Served _ => Some Serving
                 | Closed _ | Probed _ => None
                 end) l.

(** The resources are those held before. *)
Definition balanced (l : list lifecycle_event) : Prop := forall held, run_stack held l = Some held.

Lemma run_stack_app held l k : run_stack held (l ++ k) = (h ← run_stack held l; run_stack h k).
Proof.
  revert held. induction l as [|[r|r|b|a] l IH]; intros held; [done|apply IH| |apply IH|apply IH].
  destruct held as [|r' held]; [done|]. cbn [run_stack app]. case_bool_decide; [apply IH|done].
Qed.

Lemma balanced_nil : balanced [].
Proof. done. Qed.

Lemma balanced_lifecycle_app l k : balanced l -> balanced k -> balanced (l ++ k).
Proof. intros Hl Hk held. rewrite run_stack_app, Hl. simpl. apply Hk. Qed.

Lemma balanced_neutral e l : match e with Probed _ | Served _ => True | _ => False end ->
  balanced l -> balanced (e :: l).
Proof. intros He Hl held. destruct e; try done; apply Hl. Qed.

Lemma balanced_bracket r l : balanced l -> balanced (Opened r :: l ++ [Closed r]).
Proof.
  intros Hl held. cbn [run_stack]. rewrite run_stack_app, Hl. simpl. by rewrite bool_decide_eq_true_2.
Qed.

Lemma milestones_app l k : milestones (l ++ k) = milestones l ++ milestones k.
Proof. unfold milestones. apply omap_app. Qed.

(** [bounded ms m]: [m] holds what it held before when it ends, passes a part of
    the milestones [ms] in their order, and leaves an application that was not
    initialized uninitialized. *)
Record ran (ms : list milestone) (p p' : process) : Prop := mk_ran {
  ran_log : exists l, pr_log p' = pr_log p ++ l /\ balanced l /\ milestones l `sublist_of` ms;
  ran_initialized : ap_initialized (pr_app p) = false -> ap_initialized (pr_app p') = false;
  ran_database : pr_database p' = pr_database p
}.

(** The same, whatever became of the local variable. *)
Definition ended (ms : list milestone) (p p' : process) : Prop :=
  (exists l, pr_log p' = pr_log p ++ l /\ balanced l /\ milestones l `sublist_of` ms) /\
  (ap_initialized (pr_app p) = false -> ap_initialized (pr_app p') = false).

Definition bounded {A : Type} (ms : list milestone) (m : L A) : Prop := forall p, ran ms p (m p).2.

Lemma ran_refl p : ran [] p p.
Proof. split; [|done|done]. exists []. by rewrite app_nil_r. Qed.

Lemma ran_trans ms1 ms2 p1 p2 p3 : ran ms1 p1 p2 -> ran ms2 p2 p3 -> ran (ms1 ++ ms2) p1 p3.
Proof.
  intros [(l & El & Bl & Sl) I1 D1] [(k & Ek & Bk & Sk) I2 D2]. split; [|auto|congruence].
  exists (l ++ k). rewrite Ek, El, app_assoc, milestones_app. split; [done|].
  split; [by apply balanced_lifecycle_app|by apply sublist_app].
Qed.

Lemma ran_weaken ms ms' p p' : ran ms p p' -> ms `sublist_of` ms' -> ran ms' p p'.
Proof. intros [(l & El & Bl & Sl) I D] H. split; [|done|done]. exists l. split_and!; [done|done|by etrans]. Qed.

Lemma ran_short ms ms' p p' : ran ms p p' -> ran (ms ++ ms') p p'.
Proof. intros H. apply (ran_weaken ms); [done|]. by apply sublist_inserts_r. Qed.

Lemma bounded_bind {A B} ms1 ms2 (m : L A) (f : A -> L B) :
  bounded ms1 m -> (forall a, bounded ms2 (f a)) -> bounded (ms1 ++ ms2) (x ← m; f x).
Proof.
  intros Hm Hf p. specialize (Hm p). unfold mbind, L_bind. destruct (m p) as [[a|e] p1]; cbn [snd] in *.
  - apply (ran_trans _ _ p p1); [done|apply Hf].
  - by apply ran_short.
Qed.

Lemma bounded_lift {A} (r : result exn A) : bounded [] (lift_L r).
Proof. intros p. apply ran_refl. Qed.

Lemma bounded_ret {A} (a : A) : bounded [] (mret a : L A).
Proof. intros p. apply ran_refl. Qed.

(** A step that neither opens, serves nor closes. *)
Lemma bounded_silent {A B} ms (m : L A) (f : A -> L B) :
  bounded [] m -> (forall a, bounded ms (f a)) -> bounded ms (x ← m; f x).
Proof. intros Hm Hf. by apply (bounded_bind [] ms). Qed.

Lemma bounded_set_app f :
  (forall a, ap_initialized a = false -> ap_initialized (f a) = false) -> bounded [] (set_app f).
Proof. intros H p. split; [exists []; by rewrite app_nil_r|apply H|done]. Qed.

Create HintDb lifecycle.
#[export] Hint Resolve bounded_lift bounded_ret ran_refl bounded_silent bounded_set_app : lifecycle.

Lemma milestones_bracket r l : milestones (Opened r :: l ++ [Closed r]) = Opening r :: milestones l.
Proof.
  change (milestones (Opened r :: l ++ [Closed r])) with (Opening r :: milestones (l ++ [Closed r])).
  by rewrite milestones_app, app_nil_r.
Qed.

(** Opening, using and closing one resource. *)
Lemma bracket_ran {PO : ProcessOutcomes} {A} ms r (m : L A) :
  bounded ms m -> bounded (Opening r :: ms) (_ ← open_resource r; try_finally m (close_resource r)).
Proof.
  intros Hm p. unfold open_resource, mbind, L_bind, lift_L.
  destruct (open_outcome r) as [[]|e]; cbn [snd]; [|apply (ran_short []), ran_refl].
  unfold log_event at 1. unfold try_finally.
  specialize (Hm (mk_process (pr_app p) (pr_database p) (pr_log p ++ [Opened r]) (pr_obs p))).
  destruct (m _) as [res p1]. cbn [snd] in Hm. destruct Hm as [(l & El & Bl & Sl) I D]. cbn in El, I, D.
  assert (Hc : ran (Opening r :: ms) p (close_resource r p1).2).
  { unfold close_resource, mbind, L_bind, log_event, lift_L. cbn [snd]. split; cbn; [|done|done].
    exists (Opened r :: l ++ [Closed r]). rewrite El. split; [by rewrite <- !app_assoc|].
    split; [by apply balanced_bracket|].
    rewrite milestones_bracket. by apply sublist_skip. }
  destruct (close_resource r p1) as [[u|e] p2]; exact Hc.
Qed.

Section Lifespan.
Context {PE : ProcessEnvironment} {AR : AdmissionRuntime} {UD : UnicodeData} {E : Env} {R : PredictorRuntime}.
Context {PO : ProcessOutcomes}.
Context (fake vercel : factory) (read_directory : pystr -> artifact_directory) (validator : ResponseValidator).
Context {item : Type} (py_int : item -> result exn Z).
Context (eval_script : nat -> pystr -> pystr -> Z -> result exn (reply (item := item))) (ping : result exn bool).

(** A deadline read from the environment is one the service accepts. *)
Lemma deadline_positive deadline : inference_deadline_settings = Ok deadline -> f_leb deadline f_zero = false.
Proof.
  unfold inference_deadline_settings. intros (seconds & _ & ([] & Hg & H)%bind_ok)%bind_ok.
  injection H as <-. apply guard_ok in Hg. unfold InferenceDeadlineSettings_ok in Hg.
  apply andb_prop in Hg as [[_ Hlt]%andb_prop _]. destruct (f_ltb_not_nan _ _ Hlt).
  rewrite f_ltb_nleb in Hlt by done. by apply negb_true_iff in Hlt.
Qed.

Lemma rate_limiter_bounded {A} ms (body : InferenceRateLimiter -> L A) :
  (forall l, bounded ms (body l)) -> bounded (Opening R_redis :: ms) (rate_limiter_service py_int eval_script ping body).
Proof.
  intros Hb. apply bounded_silent; [apply bounded_lift|]. intros settings.
  destruct (negb (rl_required settings)).
  - intros p. apply (ran_weaken ms); [apply Hb|]. by apply sublist_cons.
  - apply bounded_silent; [apply bounded_lift|]. intros _. apply bracket_ran.
    apply bounded_silent; [apply bounded_lift|]. intros secret. apply Hb.
Qed.

Lemma serve_bounded : bounded [Serving] (serve_initialized (PO := PO)).
Proof.
  intros p. unfold serve_initialized, mbind, L_bind, set_app at 1, try_finally, serve, log_event, lift_L, mbind, L_bind, set_app.
  cbn. split; [|done|done]. cbn. eexists. split; [reflexivity|]. split; [done|]. cbn. done.
Qed.

Lemma configure_and_serve_bounded s l :
  bounded [Serving] (configure_and_serve read_directory validator s l).
Proof.
  unfold configure_and_serve.
  repeat (apply bounded_silent; [solve [eauto with lifecycle]|]; intros ?). apply serve_bounded.
Qed.

(** The clients of [application_service] are closed in reverse, whatever fails. *)
Lemma release_clients_log p : exists r, release_clients (PO := PO) p =
  (r, mk_process (pr_app p) (pr_database p)
        (pr_log p ++ (if pr_database p then [Closed R_database] else []) ++ [Closed R_http]) (pr_obs p)).
Proof.
  unfold release_clients, try_finally, close_resource, mbind, L_bind, log_event, lift_L.
  destruct (pr_database p) eqn:Ed; cbn [pr_app pr_database pr_log pr_obs].
  - destruct (close_outcome R_http) as [[]|e]; eexists; rewrite <- app_assoc; reflexivity.
  - destruct (close_outcome R_http) as [[]|e]; eexists; cbn; rewrite ?Ed; reflexivity.
Qed.

(** What the [try] of [application_service] leaves: the database is held
    exactly when its variable is set. *)
Lemma connected_ran {A} ms db s (body : InferenceService -> L A) p :
  (forall s, bounded ms (body s)) -> pr_database p = false ->
  let p' := ((s ← connect_telemetry db s; body s) p).2 in
  exists l, pr_log p' = pr_log p ++ (if pr_database p' then Opened R_database :: l else l) /\
    balanced l /\ milestones l `sublist_of` ms /\
    (ap_initialized (pr_app p) = false -> ap_initialized (pr_app p') = false).
Proof.
  intros Hb Hp. unfold connect_telemetry. cbv zeta.
  destruct (database_url db) as [url|]; unfold mbind, L_bind, mret, L_ret, observe_L, open_resource, mbind, L_bind, lift_L.
  - destruct (open_outcome R_database) as [[]|e]; cbn [snd];
      [|exists []; rewrite Hp, app_nil_r; split_and!; [done|apply balanced_nil|apply sublist_nil_l|done]].
    unfold log_event, set_database, except_exception, probe_database, mbind, L_bind, log_event, lift_L.
    cbn [pr_app pr_log pr_database pr_obs snd].
    assert (Hrun : forall p1 s', pr_database p1 = true -> pr_app p1 = pr_app p ->
      pr_log p1 = (pr_log p ++ [Opened R_database]) ++ [Probed (is_ok probe_outcome)] ->
      let p' := (body s' p1).2 in exists l, pr_log p' = pr_log p ++ (if pr_database p' then Opened R_database :: l else l) /\
        balanced l /\ milestones l `sublist_of` ms /\
        (ap_initialized (pr_app p) = false -> ap_initialized (pr_app p') = false)).
    { intros p1 s' H1 Ha Hl. destruct (Hb s' p1) as [(l & El & Bl & Sl) I D]. cbv zeta.
      exists (Probed (is_ok probe_outcome) :: l). rewrite D, H1, El, Hl, <- Ha. split; [by rewrite <- !app_assoc|].
      split; [by apply balanced_neutral|]. by split. }
    destruct probe_outcome as [[]|e];
      [|destruct (is_exception e)]; try (eapply (Hrun (mk_process _ _ _ _)); reflexivity).
    cbn [pr_app pr_log pr_database pr_obs snd is_ok]. exists [Probed false]. split; [by rewrite <- !app_assoc|]. split_and!; [done|apply sublist_nil_l|done].
  - destruct (Hb s (mk_process (pr_app p) (pr_database p) (pr_log p) (telemetry_disabled (pr_obs p))))
      as [(l & El & Bl & Sl) I D]. cbn in *.
    exists l. cbn [snd]. rewrite D. destruct (pr_database p); [done|]. exact (conj El (conj Bl (conj Sl I))).
Qed.

(** The [finally] after that [try] ends the use of both clients. *)
Lemma released_ended ms p p2 l :
  pr_log p2 = (pr_log p ++ [Opened R_http]) ++ (if pr_database p2 then Opened R_database :: l else l) ->
  balanced l -> milestones l `sublist_of` ms ->
  (ap_initialized (pr_app p) = false -> ap_initialized (pr_app p2) = false) ->
  ended (Opening R_http :: Opening R_database :: ms) p
    (release_clients (PO := PO) p2).2.
Proof.
  intros El Bl Sl Il. destruct (release_clients_log p2) as [r ->]. cbn [snd]. split; [|exact Il].
  set (k := if pr_database p2 then Opened R_database :: l ++ [Closed R_database] else l).
  assert (Hk : balanced k /\ milestones k `sublist_of` (Opening R_database :: ms)).
  { unfold k. destruct (pr_database p2); [|split; [done|by apply sublist_cons]].
    split; [by apply balanced_bracket|]. rewrite milestones_bracket. by apply sublist_skip. }
  destruct Hk as [Bk Sk]. exists (Opened R_http :: k ++ [Closed R_http]). cbn [pr_log].
  split_and!; [|by apply balanced_bracket|rewrite milestones_bracket; by apply sublist_skip].
  rewrite El. unfold k. destruct (pr_database p2); cbn [app]; by rewrite <- ?app_assoc.
Qed.

(** However [application_service] ends, every client it opened is closed. *)
Lemma application_ran {A} ms (body : InferenceService -> L A) p :
  (forall s, bounded ms (body s)) ->
  ended (Opening R_http :: Opening R_database :: ms) p (application_service fake vercel body p).2.
Proof.
  intros Hb. unfold application_service.
  assert (Hnone : ended (Opening R_http :: Opening R_database :: ms) p p).
  { split; [|done]. exists []. rewrite app_nil_r. split_and!; [done|apply balanced_nil|apply sublist_nil_l]. }
  unfold mbind at 1, L_bind at 1, lift_L at 1. destruct database_settings as [db|e]; [|exact Hnone].
  unfold mbind at 1, L_bind at 1, lift_L at 1. destruct gateway_settings_from_environment as [gateway|e]; [|exact Hnone].
  unfold mbind at 1, L_bind at 1, lift_L at 1.
  destruct inference_deadline_settings as [deadline|e] eqn:Edl; [|exact Hnone].
  unfold mbind at 1, L_bind at 1, open_resource, mbind at 1, L_bind at 1, lift_L at 1.
  destruct (open_outcome R_http) as [[]|e]; [|exact Hnone].
  destruct (composition_offers_models fake vercel deadline gateway) as (s & s' & -> & Ec & _);
    [by apply deadline_positive|].
  unfold log_event at 1, mbind at 1, L_bind at 1, lift_L at 1. unfold mbind at 1, L_bind at 1. rewrite Ec.
  unfold lift_L at 1, mbind at 1, L_bind at 1, set_database at 1. cbn [pr_app pr_log pr_obs].
  unfold try_finally at 1.
  set (p1 := mk_process (pr_app p) false (pr_log p ++ [Opened R_http]) (pr_obs p)).
  destruct (connected_ran ms db s' body p1 Hb eq_refl) as (l & El & Bl & Sl & Il).
  destruct ((s0 ← connect_telemetry db s'; body s0) p1) as [res p2]. cbn [snd] in El, Il.
  pose proof (released_ended ms p p2 l El Bl Sl Il) as Hr.
  by destruct (release_clients p2) as [[[]|e] p3].
Qed.

(** ** Startup as a function of the settings

    [startup]: the state that is served, or the first exception of the settings
    and of the composition, when every client can be created. *)
Definition composed_service (db : DatabaseSettings) (gateway : GatewaySettings) (deadline : float) :
    result exn InferenceService :=
  s ← create_development_service fake deadline;
  s ← configure_gateway vercel s gateway;
  Ok (match database_url db with
      | Some _ => with_telemetry s (telemetry_timeout_seconds db)
      | None => s
      end).

Lemma composed_from db gateway deadline : inference_deadline_settings = Ok deadline ->
  exists s s', create_development_service fake deadline = Ok s /\
    configure_gateway vercel s gateway = Ok s' /\
    composed_service db gateway deadline =
      Ok (match database_url db with
          | Some _ => with_telemetry s' (telemetry_timeout_seconds db)
          | None => s'
          end) /\
    list_models s' = DEVELOPMENT_MODELS ++ match gs_api_key gateway with Some _ => REAL_MODELS | None => [] end.
Proof.
  intros Ed. destruct (composition_offers_models fake vercel deadline gateway) as (s & s' & E1 & E2 & _ & Hl);
    [by apply deadline_positive|].
  exists s, s'. split_and!; [done|done| |done]. unfold composed_service. rewrite E1. rsimpl.
  rewrite E2. by rsimpl.
Qed.

Lemma composed_without_telemetry deadline gateway s s' :
  create_development_service fake deadline = Ok s -> configure_gateway vercel s gateway = Ok s' ->
  sv_telemetry s' = None.
Proof.
  unfold create_development_service, configure_gateway, new_InferenceService.
  intros (reg & _ & (res & _ & H)%bind_ok)%bind_ok. destruct (f_leb deadline f_zero); [done|]. injection H as <-.
  destruct (gs_api_key gateway); [|by intros [= <-]].
  intros (reg' & _ & (res' & _ & H)%bind_ok)%bind_ok. by injection H as <-.
Qed.

Definition limiter_of (settings : RateLimitSettings) : result exn InferenceRateLimiter :=
  if negb (rl_required settings) then Ok DisabledRateLimiter
  else
    _ ← redis_address settings;
    secret ← new_RedisRateLimiter settings;
    Ok (RedisRateLimiter settings secret py_int eval_script ping).

Definition configured_state (s : InferenceService) (limiter : InferenceRateLimiter) : result exn app_state :=
  config ← adaptive_routing_config;
  runtime ← build_adaptive_runtime read_directory validator s config;
  model_id ← default_model_setting;
  chat ← build_chat_orchestration_service s model_id runtime;
  Ok (mk_app_state s runtime (config_enabled config) (Some chat) limiter true).

Definition startup : result exn app_state :=
  db ← database_settings;
  gateway ← gateway_settings_from_environment;
  deadline ← inference_deadline_settings;
  s ← composed_service db gateway deadline;
  settings ← rate_limit_settings;
  limiter ← limiter_of settings;
  configured_state s limiter.

Definition served (l : list lifecycle_event) : list app_state :=
  omap (fun e => match e with Served a => Some a | _ => None end) l.

Lemma served_app l k : served (l ++ k) = served l ++ served k.
Proof. apply omap_app. Qed.

(** Every client is created and closed; the probe may fail but not be cancelled. *)
Record clients_work : Prop := {
  cw_open : forall r, open_outcome r = Ok tt;
  cw_close : forall r, close_outcome r = Ok tt;
  cw_probe : match probe_outcome with Raise e => is_exception e = true | Ok _ => True end
}.

Definition serving (spec : result exn app_state) : list app_state :=
  match spec with Ok a => [a] | Raise _ => [] end.

(** [runs m spec]: [m] serves the state of [spec] and ends as serving it ends,
    or raises the exception of [spec] and serves nothing. *)
Definition runs (m : L unit) (spec : result exn app_state) : Prop :=
  forall p, (m p).1 = (_ ← spec; serve_outcome) /\ served (pr_log (m p).2) = served (pr_log p) ++ serving spec.

(** A step that succeeds and serves nothing. *)
Definition passes {A : Type} (m : L A) (a : A) : Prop :=
  forall p, (m p).1 = Ok a /\ served (pr_log (m p).2) = served (pr_log p).

Lemma runs_lift {A} (r : result exn A) f spec :
  (forall a, r = Ok a -> runs (f a) (spec a)) -> runs (x ← lift_L r; f x) (x ← r; spec x).
Proof.
  intros H p. unfold mbind at 1 3, L_bind, lift_L. destruct r as [a|e]; [by apply H|].
  cbn. by rewrite app_nil_r.
Qed.

Lemma runs_after {A} (m : L A) a f spec : passes m a -> runs (f a) spec -> runs (x ← m; f x) spec.
Proof.
  intros Hm Hf p. destruct (Hm p) as [H1 H2]. unfold mbind at 1 3, L_bind.
  destruct (m p) as [r p1]. cbn [fst snd] in H1, H2. subst r. rewrite <- H2. apply Hf.
Qed.

Lemma runs_finally m f u spec : passes f u -> runs m spec -> runs (try_finally m f) spec.
Proof.
  intros Hf Hm p. destruct (Hm p) as [H1 H2]. unfold try_finally. destruct (m p) as [r p1].
  destruct (Hf p1) as [H3 H4]. destruct (f p1) as [r2 p2]. cbn [fst snd] in *. subst r2. cbn [fst snd].
  by rewrite H4.
Qed.

Lemma passes_bind {A B} (m : L A) (f : A -> L B) a b : passes m a -> passes (f a) b -> passes (x ← m; f x) b.
Proof.
  intros Hm Hf p. destruct (Hm p) as [H1 H2]. unfold mbind, L_bind. destruct (m p) as [r p1].
  cbn [fst snd] in H1, H2. subst r. rewrite <- H2. apply Hf.
Qed.

Lemma passes_ret {A} (a : A) : passes (mret a) a.
Proof. by intros p. Qed.
Lemma passes_set_database b : passes (set_database b) tt.
Proof. by intros p. Qed.
Lemma passes_observe g : passes (observe_L g) tt.
Proof. by intros p. Qed.

Lemma passes_open r : clients_work -> passes (open_resource r) tt.
Proof.
  intros C p. unfold open_resource, mbind, L_bind, lift_L, log_event. rewrite (cw_open C). cbn.
  by rewrite served_app, app_nil_r.
Qed.

Lemma passes_close r : clients_work -> passes (close_resource r) tt.
Proof.
  intros C p. unfold close_resource, mbind, L_bind, lift_L, log_event. rewrite (cw_close C). cbn.
  by rewrite served_app, app_nil_r.
Qed.

Lemma passes_release : clients_work -> passes release_clients tt.
Proof.
  intros C p. destruct (release_clients_log p) as [r Er].
  assert (Hr : (release_clients (PO := PO) p).1 = Ok tt).
  { unfold release_clients, try_finally, close_resource, mbind, L_bind, log_event, lift_L. rewrite !(cw_close C).
    by destruct (pr_database p). }
  split; [done|]. rewrite Er. cbn [snd pr_log]. rewrite !served_app.
  by destruct (pr_database p); cbn; rewrite ?app_nil_r.
Qed.

(** A probe that fails is logged and tolerated. *)
Lemma passes_probe : clients_work ->
  passes (except_exception probe_database (observe_L telemetry_startup_probe_failed)) tt.
Proof.
  intros C p. pose proof (cw_probe C) as Hp.
  unfold except_exception, probe_database, mbind, L_bind, log_event, lift_L.
  destruct probe_outcome as [[]|e]; [|rewrite Hp]; cbn [fst snd observe_L pr_log];
    by rewrite served_app, app_nil_r.
Qed.

Lemma passes_connect db s : clients_work ->
  passes (connect_telemetry db s)
    (match database_url db with Some _ => with_telemetry s (telemetry_timeout_seconds db) | None => s end).
Proof.
  intros C. unfold connect_telemetry. destruct (database_url db).
  - apply passes_bind with tt; [by apply passes_open|]. apply passes_bind with tt; [apply passes_set_database|].
    apply passes_bind with tt; [by apply passes_probe|apply passes_ret].
  - apply passes_bind with tt; [apply passes_observe|apply passes_ret].
Qed.

(** [x ← lift_L r; f x] in one process. *)
Lemma bind_lift {A B} (r : result exn A) (f : A -> L B) p :
  (x ← lift_L r; f x) p = match r with Ok a => f a p | Raise e => (Raise e, p) end.
Proof. by destruct r. Qed.

Lemma bind_app {B} g (f : unit -> L B) p :
  (x ← set_app g; f x) p = f tt (mk_process (g (pr_app p)) (pr_database p) (pr_log p) (pr_obs p)).
Proof. done. Qed.

Lemma bind_log {B} ev (f : unit -> L B) p :
  (x ← log_event ev; f x) p = f tt (mk_process (pr_app p) (pr_database p) (pr_log p ++ [ev]) (pr_obs p)).
Proof. done. Qed.

Lemma runs_configure s l : runs (configure_and_serve read_directory validator s l) (configured_state s l).
Proof.
  intros p. unfold configure_and_serve, configured_state. rewrite bind_app, bind_lift.
  destruct adaptive_routing_config as [config|e]; [|split; [reflexivity|symmetry; apply app_nil_r]]; rsimpl.
  rewrite bind_app, bind_lift.
  destruct build_adaptive_runtime as [runtime|e]; [|split; [reflexivity|symmetry; apply app_nil_r]]; rsimpl.
  rewrite bind_app, bind_lift.
  destruct default_model_setting as [model_id|e]; [|split; [reflexivity|symmetry; apply app_nil_r]]; rsimpl.
  rewrite bind_lift.
  destruct build_chat_orchestration_service as [chat|e]; [|split; [reflexivity|symmetry; apply app_nil_r]].
  rewrite bind_app. unfold serve_initialized. rewrite bind_app.
  unfold try_finally, serve. rewrite bind_log. unfold lift_L, set_app.
  split; [reflexivity|]. cbn [snd pr_log serving]. apply served_app.
Qed.

Lemma runs_limiter body spec : clients_work ->
  (forall l, runs (body l) (spec l)) ->
  runs (rate_limiter_service py_int eval_script ping body)
    (settings ← rate_limit_settings; limiter ← limiter_of settings; spec limiter).
Proof.
  intros C Hb. apply runs_lift. intros settings _. unfold limiter_of.
  destruct (negb (rl_required settings)); [apply Hb|].
  destruct (redis_address settings) as [address|e] eqn:Ea;
    [|intros p; unfold mbind at 1 3, L_bind, lift_L; cbn; by rewrite app_nil_r].
  apply runs_after with address; [by intros p|]. apply runs_after with tt; [by apply passes_open|].
  apply runs_finally with tt; [by apply passes_close|].
  destruct (new_RedisRateLimiter settings) as [secret|e] eqn:Es.
  - apply runs_after with secret; [by intros p|]. apply Hb.
  - intros p. cbn. by rewrite app_nil_r.
Qed.

(** When every client can be created and closed, the lifespan is [startup]. *)
Lemma runs_lifespan : clients_work ->
  runs (lifespan fake vercel read_directory validator py_int eval_script ping None) startup.
Proof.
  intros C. unfold lifespan, application_service, startup.
  apply runs_lift. intros db _. apply runs_lift. intros gateway _. apply runs_lift. intros deadline Ed.
  apply runs_after with tt; [by apply passes_open|].
  destruct (composed_from db gateway deadline Ed) as (s & s' & E1 & E2 & -> & _). rewrite E1.
  apply runs_after with s; [by intros p|]. rewrite E2.
  apply runs_after with s'; [by intros p|].
  apply runs_after with tt; [apply passes_set_database|].
  apply runs_finally with tt; [by apply passes_release|].
  eapply runs_after; [by apply passes_connect|].
  apply runs_limiter; [done|]. intros l. apply runs_configure.
Qed.

(** The state a started process serves. *)
Lemma startup_state a : startup = Ok a ->
  ap_initialized a = true /\ is_Some (ap_chat_service a) /\
  (ap_adaptive_required a = true <-> is_Some (ap_adaptive_runtime a)) /\
  exists gateway, gateway_settings_from_environment = Ok gateway /\
    list_models (ap_inference_service a) =
      DEVELOPMENT_MODELS ++ match gs_api_key gateway with Some _ => REAL_MODELS | None => [] end /\
    exists db, database_settings = Ok db /\
      sv_telemetry (ap_inference_service a) =
        match database_url db with Some _ => Some postgres_repository | None => None end.
Proof.
  unfold startup. intros (db & Edb & (gateway & Eg & (deadline & Ed & (s & Es & (rl & _ & (l & _ & H)%bind_ok)%bind_ok)%bind_ok)%bind_ok)%bind_ok)%bind_ok.
  unfold configured_state in H.
  apply bind_ok in H as (config & _ & (runtime & Er & (id & _ & (chat & _ & H)%bind_ok)%bind_ok)%bind_ok).
  injection H as <-. cbn [ap_initialized ap_chat_service ap_adaptive_required ap_adaptive_runtime ap_inference_service].
  split_and!; [done|done| |].
  - unfold build_adaptive_runtime, config_enabled in *. destruct (artifact_path config).
    + apply bind_ok in Er as (q & _ & (as_ & _ & Er)%bind_ok). injection Er as <-. by split.
    + injection Er as <-. split; [done|by intros [? ?]].
  - exists gateway. split; [done|]. destruct (composed_from db gateway deadline Ed) as (s1 & s2 & E1 & E2 & E3 & <-).
    rewrite E3 in Es. injection Es as <-. split; [by destruct (database_url db)|]. exists db. split; [done|].
    destruct (database_url db); [done|]. by apply (composed_without_telemetry deadline gateway s1).
Qed.

(** C12. Whatever fails while a process starts, serves or stops, each client it
    opened is closed exactly once, the last opened first; a client is opened and
    requests are served at most once, requests after every opening; and when it
    has stopped the application reports that it is not initialized. *)
Theorem lifespan_releases service runtime limiter default_model_id r p' :
  run_application fake vercel read_directory validator py_int eval_script ping service runtime limiter default_model_id
    = Ok (r, p') ->
  run_stack [] (pr_log p') = Some [] /\
  milestones (pr_log p') `sublist_of` [Opening R_http; Opening R_database; Opening R_redis; Serving] /\
  app_readiness (pr_app p') = Some (py "initialization").
Proof.
  unfold run_application. intros (state & Es & H)%bind_ok. injection H as Hl.
  assert (Hi : ap_initialized state = false).
  { unfold new_app_state in Es. apply bind_ok in Es as (s & _ & (chat & _ & Es)%bind_ok). by injection Es as <-. }
  set (p := mk_process state false [] no_obs) in Hl.
  assert (He : ended [Opening R_http; Opening R_database; Opening R_redis; Serving] p p').
  { replace p' with (r, p').2 by done. rewrite <- Hl. unfold lifespan. destruct service as [s|].
    - destruct (serve_bounded p) as [(l & El & Bl & Sl) I _]. split; [|exact I]. exists l. split_and!; [done|done|].
      etrans; [exact Sl|]. by apply (sublist_inserts_l [_; _; _]).
    - apply (application_ran [Opening R_redis; Serving]). intros s. apply rate_limiter_bounded. intros l.
      apply configure_and_serve_bounded. }
  destruct He as [(l & El & Bl & Sl) I]. cbn [app pr_log p] in El. rewrite El.
  split_and!; [apply Bl|done|]. unfold app_readiness, readiness. by rewrite (I Hi).
Qed.

(** C14. When the clients can be created and closed and the telemetry probe
    answers or fails within its timeout, a process without an injected service
    serves exactly the state its settings determine and ends as serving ends, or
    raises the first error of its settings and serves nothing.  A served state
    is initialized, offers the development models and, with credentials, every
    reviewed model, records telemetry exactly when a database is configured, has
    a runtime exactly when adaptive routing is required, and is ready exactly
    when its limiter is. *)
Theorem startup_is_settings state o :
  clients_work ->
  let '(r, p') := lifespan fake vercel read_directory validator py_int eval_script ping None
                    (mk_process state false [] o) in
  match startup with
  | Raise e => r = Raise e /\ served (pr_log p') = []
  | Ok a =>
      r = serve_outcome /\ served (pr_log p') = [a] /\ ap_initialized a = true /\ is_Some (ap_chat_service a) /\
      (ap_adaptive_required a = true <-> is_Some (ap_adaptive_runtime a)) /\
      (exists gateway, gateway_settings_from_environment = Ok gateway /\
        list_models (ap_inference_service a) =
          DEVELOPMENT_MODELS ++ match gs_api_key gateway with Some _ => REAL_MODELS | None => [] end) /\
      (exists db, database_settings = Ok db /\
        sv_telemetry (ap_inference_service a) =
          match database_url db with Some _ => Some postgres_repository | None => None end) /\
      (app_readiness a = None <-> @lm_ready (ap_rate_limiter a) = Ok true)
  end.
Proof.
  intros C. destruct (runs_lifespan C (mk_process state false [] o)) as [H1 H2].
  destruct (lifespan _ _ _ _ _ _ _ _ _) as [r p']. cbn [fst snd pr_log] in H1, H2. change (served []) with (@nil app_state) in H2.
  destruct startup as [a|e] eqn:Ea; [|by split].
  destruct (startup_state a Ea) as (Hi & Hc & Hr & gateway & Hg & Hm & Ht).
  split_and!; [done..|by exists gateway|done|].
  unfold app_readiness, readiness. rewrite Hi, Hm. cbn [app DEVELOPMENT_MODELS andb negb].
  assert (Hreq : (negb (ap_adaptive_required a) || match ap_adaptive_runtime a with Some _ => true | None => false end) = true).
  { destruct (ap_adaptive_required a); [|done]. by destruct (proj1 Hr eq_refl) as [rt ->]. }
  rewrite Hreq. destruct lm_ready as [[]|e]; cbn; split; intros; congruence.
Qed.
End Lifespan.

(** ** Witnesses *)

(** A database, a required limiter and credentials; every text is read as the
    value it is meant to be. *)
Definition example_process_environment : ProcessEnvironment :=
  {| environ := fun k => dict_get
       [(py "DATABASE_URL", py "postgresql+asyncpg://u@h/d"); (py "RATE_LIMIT_REQUIRED", py "true");
        (py "REDIS_URL", py "redis://host"); (py "RATE_LIMIT_HMAC_SECRET", py "0123456789abcdef0123456789abcdef");
        (py "AI_GATEWAY_API_KEY", py "key"); (py "ROUTELLM_DEFAULT_MODEL_ID", py "candidate-gpt-6-luna")] k;
     float_of_text := fun t => Some (if bool_decide (t = py "0.25") then f_of_ratio 1 4 else
                                     if bool_decide (t = py "2") then f_of_Z 2 else f_of_Z 60);
     int_of_text := fun t => if bool_decide (t = py "1") then Some 1%Z else
                             if bool_decide (t = py "2") then Some 2%Z else
                             if bool_decide (t = py "10") then Some 10%Z else
                             if bool_decide (t = py "60") then Some 60%Z else
                             if bool_decide (t = py "100") then Some 100%Z else None;
     bool_of_text := fun t => if bool_decide (t = py "true") then Some true else
                              if bool_decide (t = py "false") then Some false else None;
     make_url := fun _ => Ok (mk_database_url_parts (py "postgresql+asyncpg") (Some (py "h")) (Some (py "d"))
                                (Some (py "u")) None) |}.

(** The probe fails, serving is cancelled and closing the limiter's client fails. *)
Definition failing_outcomes : ProcessOutcomes :=
  {| open_outcome := fun _ => Ok tt;
     close_outcome := fun r => if bool_decide (r = R_redis) then Raise (Exn C_RedisError) else Ok tt;
     probe_outcome := Raise (Exn C_TimeoutError);
     serve_outcome := Raise (Exn C_CancelledError) |}.

Definition example_process (PO : ProcessOutcomes) : result exn (result exn unit * process) :=
  @run_application example_process_environment development_runtime ascii_tables still_env example_runtime PO
    echo_factory echo_factory (fun _ => production_directory) example_validator Z (fun z => Ok z)
    (fun _ _ _ _ => Ok None) (Ok true) None None None None.

Definition event_name (e : lifecycle_event) : option (resource * bool) :=
  match e with Opened r => Some (r, true) | Closed r => Some (r, false) | _ => None end.

Lemma lifespan_releases_witness : exists r p',
  example_process failing_outcomes = Ok (r, p') /\ r = Raise (Exn C_RedisError) /\
  omap event_name (pr_log p') =
    [(R_http, true); (R_database, true); (R_redis, true); (R_redis, false); (R_database, false); (R_http, false)] /\
  app_readiness (pr_app p') = Some (py "initialization").
Proof.
  assert (B : match example_process failing_outcomes with
    | Ok (r, p') => (bool_decide (r = Raise (Exn C_RedisError)), omap event_name (pr_log p'))
    | Raise _ => (false, []) end = (true, [(R_http, true); (R_database, true); (R_redis, true);
      (R_redis, false); (R_database, false); (R_http, false)])) by (vm_compute; reflexivity).
  destruct (example_process failing_outcomes) as [[r p']|e] eqn:E; [|discriminate B].
  apply pair_equal_spec in B as [B1 B2]. exists r, p'. split; [reflexivity|].
  split; [exact (bool_decide_eq_true_1 _ B1)|]. split; [exact B2|].
  exact (proj2 (proj2 (@lifespan_releases example_process_environment development_runtime ascii_tables still_env
    example_runtime failing_outcomes echo_factory echo_factory (fun _ => production_directory) example_validator Z
    (fun z => Ok z) (fun _ _ _ _ => Ok None) (Ok true) None None None None r p' E))).
Defined.

(** The probe fails and nothing else does. *)
Definition working_outcomes : ProcessOutcomes :=
  {| open_outcome := fun _ => Ok tt; close_outcome := fun _ => Ok tt;
     probe_outcome := Raise (Exn C_TimeoutError); serve_outcome := Ok tt |}.

Definition example_startup : result exn app_state :=
  @startup example_process_environment development_runtime ascii_tables still_env example_runtime
    echo_factory echo_factory (fun _ => production_directory) example_validator Z (fun z => Ok z)
    (fun _ _ _ _ => Ok None) (Ok true).

Definition example_lifespan (state : app_state) : result exn unit * process :=
  @lifespan example_process_environment development_runtime ascii_tables still_env example_runtime working_outcomes
    echo_factory echo_factory (fun _ => production_directory) example_validator Z (fun z => Ok z)
    (fun _ _ _ _ => Ok None) (Ok true) None (mk_process state false [] no_obs).

Lemma startup_is_settings_witness : exists a,
  example_startup = Ok a /\ (example_lifespan a).1 = Ok tt /\ served (pr_log (example_lifespan a).2) = [a].
Proof.
  assert (B : is_ok example_startup = true) by (vm_compute; reflexivity).
  destruct example_startup as [a|e] eqn:Ea; [|discriminate B]. clear B. exists a. split; [reflexivity|].
  assert (C : @clients_work working_outcomes) by (split; [reflexivity|reflexivity|vm_compute; reflexivity]).
  pose proof (@startup_is_settings example_process_environment development_runtime ascii_tables still_env
    example_runtime working_outcomes echo_factory echo_factory (fun _ => production_directory) example_validator Z
    (fun z => Ok z) (fun _ _ _ _ => Ok None) (Ok true) a no_obs C) as H.
  unfold example_startup in Ea. rewrite Ea in H. unfold example_lifespan.
  destruct (@lifespan example_process_environment _ _ _ _ _ _ _ _ _ _ _ _ _ _ _) as [r p'].
  destruct H as (H1 & H2 & _). by split.
Defined.
