(* ===== verification/BenchmarkModels.v ===== *)
(** * Benchmark data ([benchmarks/models.py], [benchmarks/features.py],
    [benchmarks/protocol_audit.py])

    Tasks, datasets, runs and results of the controlled benchmark, the request
    features frozen with a run, and the recognition of exhausted output
    budgets. *)
From S2P Require Import Prelude PyStr PyFloat PyDecimal PyUuid Schemas Errors Json Regex Features.

Definition py_dict : Type := list (list N * pyjson).

(** ** Tasks *)

Inductive BenchmarkCategory :=
| BC_QA | BC_SUMMARIZATION | BC_EXTRACTION | BC_CLASSIFICATION | BC_JSON | BC_REASONING | BC_CODING.

#[export] Instance BenchmarkCategory_eq_dec : EqDecision BenchmarkCategory.
Proof. solve_decision. Defined.

Definition BenchmarkCategory_value (c : BenchmarkCategory) : pystr :=
  match c with
  | BC_QA => py "qa" | BC_SUMMARIZATION => py "summarization" | BC_EXTRACTION => py "extraction"
  | BC_CLASSIFICATION => py "classification" | BC_JSON => py "json" | BC_REASONING => py "reasoning"
  | BC_CODING => py "coding"
  end.

Inductive ExpectedOutputType := EO_text | EO_json | EO_code.

Inductive SourceType := ST_human_authored | ST_deterministic_generator | ST_controlled_programmatic_construction.

Record BenchmarkTask := mk_BenchmarkTask {
  bt_prompt : pystr;
  bt_system_prompt : option pystr;
  bt_max_output_tokens : Z;
  bt_temperature : float;
  task_id : pystr;
  bt_category : BenchmarkCategory;
  expected_output_type : ExpectedOutputType;
  evaluation_metadata : py_dict;
  acceptable_threshold : option float;
  tags : list pystr;
  task_family_id : option pystr;
  source_type : option SourceType;
  source_id : option pystr;
  generation_seed : option Z;
  evaluator_type : option pystr;
  family_variant : option pystr
}.

(** [^[a-z0-9][a-z0-9_-]*$] *)
Definition slug (s : pystr) : bool :=
  match s with
  | [] => false
  | c :: r =>
      (is_ascii_lower c || is_ascii_digit c) &&
      forallb (fun d => is_ascii_lower d || is_ascii_digit d || in_chars (py "_-") d) r
  end.

(** [Field(ge=0, le=1, allow_inf_nan=False)] *)
Definition unit_interval (f : float) : bool := f_isfinite f && f_leb f_zero f && f_leb f f_one.

Definition opt_all {A : Type} (p : A -> bool) (o : option A) : bool :=
  match o with Some a => p a | None => true end.

(** [to_request] keeps the fields of [InferenceRequest]. *)
Definition task_request (t : BenchmarkTask) : InferenceRequest :=
  mk_InferenceRequest (bt_prompt t) (bt_system_prompt t) (bt_max_output_tokens t) (bt_temperature t).

Definition BenchmarkTask_validate (t : BenchmarkTask) : result pystr unit :=
  _ ← InferenceRequest_validate (task_request t);
  _ ← check (slug (task_id t)) field_error;
  _ ← check (opt_all unit_interval (acceptable_threshold t)) field_error;
  _ ← check (opt_all slug (task_family_id t)) field_error;
  _ ← check (opt_all Identifier_ok (source_id t)) field_error;
  _ ← check (opt_all (fun n => 0 <=? n)%Z (generation_seed t)) field_error;
  check (opt_all Identifier_ok (evaluator_type t) && opt_all Identifier_ok (family_variant t)) field_error.

Definition to_request (t : BenchmarkTask) : result exn InferenceRequest :=
  _ ← validated (InferenceRequest_validate (task_request t)); Ok (task_request t).

Inductive Difficulty := DF_easy | DF_medium | DF_hard.

(** [difficulty]: a metadata value that cannot be hashed is refused. *)
Definition difficulty (t : BenchmarkTask) : result exn (option Difficulty) :=
  match dict_get (evaluation_metadata t) (py "difficulty") with
  | Some (PJArr _) | Some (PJObj _) => Raise (Exn C_TypeError)
  | Some (PJStr s) =>
      Ok (if bool_decide (s = py "easy") then Some DF_easy
          else if bool_decide (s = py "medium") then Some DF_medium
          else if bool_decide (s = py "hard") then Some DF_hard else None)
  | _ => Ok None
  end.

(** ** Datasets, runs, results *)

(** [ds_sha256] is the property [sha256]: the digest of the file the dataset was
    read from, or of its canonical dump. *)
Record BenchmarkDataset := mk_BenchmarkDataset {
  ds_name : pystr;
  ds_version : pystr;
  tasks : list BenchmarkTask;
  ds_sha256 : pystr
}.

Definition BenchmarkDataset_validate (d : BenchmarkDataset) : result pystr unit :=
  _ ← check (Nat.leb 1 (length (ds_name d)) && Nat.leb 1 (length (ds_version d))) field_error;
  _ ← check (Nat.leb 1 (length (tasks d))) field_error;
  check (all_distinct (map task_id (tasks d))) (py "Dataset task IDs must be unique").

(** The features frozen with a run. *)
Record RequestFeatures := mk_RequestFeatures {
  qf_category : option pystr;
  qf_prompt_characters : Z;
  qf_system_prompt_characters : Z;
  qf_approximate_input_tokens : Z;
  qf_contains_code : bool;
  qf_requests_structured_output : bool;
  qf_max_output_tokens : Z;
  qf_constraint_indicator_count : Z;
  qf_reasoning_indicator_count : Z
}.

Definition RequestFeatures_ok (f : RequestFeatures) : bool :=
  (0 <=? qf_prompt_characters f)%Z && (0 <=? qf_system_prompt_characters f)%Z &&
  (0 <=? qf_approximate_input_tokens f)%Z && (0 <? qf_max_output_tokens f)%Z &&
  (0 <=? qf_constraint_indicator_count f)%Z && (0 <=? qf_reasoning_indicator_count f)%Z.

(** [extract_request_features] on a task, whose category and output type the
    [getattr] calls find. *)
Definition extract_request_features `{UnicodeData} (t : BenchmarkTask) : result exn RequestFeatures :=
  let r := task_request t in
  let text := request_text r in
  let f := mk_RequestFeatures
    (Some (BenchmarkCategory_value (bt_category t)))
    (Z.of_nat (length (prompt r)))
    (Z.of_nat (length (default [] (system_prompt r))))
    (approximate_input_tokens r)
    (text_contains_code text)
    (match expected_output_type t with EO_json | EO_code => true | EO_text => false end)
    (rq_max_output_tokens r)
    (constraint_indicator_count text)
    (reasoning_indicator_count text) in
  _ ← validated (check (RequestFeatures_ok f) field_error);
  Ok f.

Record BenchmarkResult := mk_BenchmarkResult {
  br_result_id : uuid;
  br_run_id : uuid;
  br_request_id : pystr;
  br_task_id : pystr;
  br_model_id : pystr;
  br_created_at : Z;
  br_success : bool;
  br_response : option InferenceResponse;
  br_error_category : option pystr;
  br_error_details : py_dict;
  br_latency_ms : float
}.

Definition is_some {A : Type} (o : option A) : bool := match o with Some _ => true | None => false end.

(** [consistent_outcome] *)
Definition consistent_outcome (r : BenchmarkResult) : result pystr unit :=
  _ ← check (Bool.eqb (br_success r) (is_some (br_response r)) &&
             Bool.eqb (br_success r) (negb (is_some (br_error_category r))))
        (py "Result must contain either a response or a failure category");
  _ ← check (opt_all (fun x => bool_decide (rs_model_id x = br_model_id r)) (br_response r))
        (py "Response model must match the selected model");
  check (negb (br_success r && match br_error_details r with [] => false | _ => true end))
    (py "Successful results cannot contain provider error details").

Definition BenchmarkResult_validate (r : BenchmarkResult) : result pystr unit :=
  _ ← check (nonneg_finite (br_latency_ms r)) field_error;
  consistent_outcome r.

(** ** Exhausted output budgets *)

(** [a == b] of JSON scalars where [b] is an integer. *)
Definition equals_int (v : option pyjson) (n : Z) : bool :=
  match v with
  | Some (PJInt z) => (z =? n)%Z
  | Some (PJFloat f) => f_eqb f (f_of_Z n)
  | Some (PJBool b) => ((if b then 1 else 0) =? n)%Z
  | _ => false
  end.

Definition equals_str (v : option pyjson) (s : pystr) : bool :=
  match v with Some (PJStr t) => bool_decide (t = s) | _ => false end.

Definition is_true (v : option pyjson) : bool := match v with Some (PJBool b) => b | _ => false end.

(** [is_output_budget_exhaustion]: only integers count as token counts. *)
Definition is_output_budget_exhaustion (details : py_dict) : bool :=
  let get k := dict_get details (py k) in
  equals_int (get "http_status"%string) 200 && is_true (get "content_empty"%string) &&
  (equals_str (get "termination_reason"%string) (py "length") ||
   equals_str (get "finish_reason"%string) (py "length")) &&
  match get "output_token_limit"%string, get "output_tokens"%string, get "reasoning_tokens"%string with
  | Some (PJInt limit), Some (PJInt output), Some (PJInt reasoning) =>
      (0 <? limit)%Z && (Z.max 0 (limit - 4) <=? output)%Z && (reasoning =? output)%Z
  | _, _, _ => false
  end.

Definition or_null (v : option pyjson) : pyjson := default PJNull v.

(** [output_budget_diagnostic] *)
Definition output_budget_diagnostic (details : py_dict) : py_dict :=
  let exhausted := is_output_budget_exhaustion details in
  let get k := dict_get details (py k) in
  [ (py "classification", PJStr (if exhausted then py "OUTPUT_BUDGET_EXHAUSTION" else py "OTHER_FAILURE"));
    (py "requested_budget", or_null (get "output_token_limit"%string));
    (py "effective_budget", or_null (get "output_token_limit"%string));
    (py "reasoning_tokens", or_null (get "reasoning_tokens"%string));
    (py "total_output_tokens", or_null (get "output_tokens"%string));
    (py "visible_tokens", if is_true (get "content_empty"%string) then PJInt 0 else PJNull);
    (py "finish_reason", or_null (get "finish_reason"%string));
    (py "normalized_outcome", if exhausted then PJStr (py "gateway_empty_response") else PJNull) ].

(** [s.count(sub)] of a non-empty [sub]: occurrences that do not overlap. *)
Fixpoint count_from (fuel : nat) (sub s : pystr) : nat :=
  match fuel, s with
  | S fuel', c :: s' =>
      if startswith s sub then S (count_from fuel' sub (skipn (length sub) s)) else count_from fuel' sub s'
  | _, _ => 0
  end.
Definition str_count (sub s : pystr) : nat := count_from (length s) sub s.

Definition endswith (s suffix : pystr) : bool := startswith (rev s) (rev suffix).

Definition ends_with_any (s : pystr) (l : list string) : bool := existsb (fun x => endswith s (py x)) l.

Definition DOUBLE_QUOTE : pystr := [34%N].
Definition NEWLINE : N := 10.

(** [visible_response_appears_truncated] *)
Definition visible_response_appears_truncated (text : pystr) : bool :=
  let value := rstrip text in
  match last value with
  | None => true
  | Some c =>
      Nat.odd (str_count (py "```") value) ||
      ends_with_any value ["len"; "cl"; "14:0"]%string ||
      in_chars (py "([{,:=+-*/\") c ||
      (existsb (fun d => (d =? NEWLINE)%N) value &&
       negb (ends_with_any value ["."; "!"; "?"; "]"; ")"; "}"; "'"]%string || endswith value DOUBLE_QUOTE))
  end.

(** [response_output_budget_exhaustion] *)
Definition response_output_budget_exhaustion (r : InferenceResponse) (output_token_limit : Z) : bool :=
  match termination_reason r with
  | TR_LENGTH => true
  | TR_UNKNOWN =>
      (Z.max 1 (output_token_limit - 8) <=? output_tokens r)%Z && visible_response_appears_truncated (text r)
  | _ => false
  end.
