(* ===== verification/BenchmarkRunner.v ===== *)
(** * Benchmark runner ([benchmarks/runner.py], [benchmarks/repository.py])

    A run selects tasks and models, freezes what it will do, and then makes one
    call per task and model, in that order, storing each result before the next
    call.  It goes through the inference service, on an instance of its own
    without telemetry.  Storage is an environment whose operations may fail;
    [bench] is the world of the services and the log of what was stored. *)
From S2P Require Import Prelude PyStr PyFloat PyDecimal PyUuid Schemas Errors Registry PyNum Deadline Json Regex Features Validation Observability Telemetry Effects Inference GatewayConfig BenchmarkModels.

(** ** The run *)

(** One entry of [frozen_model_configuration]. *)
Record FrozenModel := mk_FrozenModel {
  fm_upstream_model_slug : pystr;
  fm_upstream_provider_pin : option pystr;
  fm_service_tier : pystr;
  fm_region : pystr;
  fm_input_cost_per_1m_tokens : pystr;
  fm_output_cost_per_1m_tokens : pystr;
  fm_capabilities : ModelCapabilities;
  fm_reasoning_effort : option pystr;
  fm_reasoning_control : ReasoningControlMechanism;
  fm_output_token_policy : OutputTokenPolicy
}.

(** [configuration]: the caller's entries, then the runner's. *)
Record BenchmarkConfiguration := mk_BenchmarkConfiguration {
  bc_caller : py_dict;
  bc_runner_version : pystr;
  bc_execution : pystr;
  bc_pricing : list pystr;
  bc_upstream_allowlists : list (list N * list N);
  bc_request_feature_schema_version : pystr;
  bc_request_features : list (list N * RequestFeatures);
  bc_task_visible_output_requirements : list (list N * Z);
  bc_effective_max_output_tokens : list (list N * list (list N * Z));
  bc_output_token_overrides : list (list N * list (list N * Z));
  bc_model_configuration_override : bool;
  bc_frozen_model_configuration : list (list N * FrozenModel)
}.

Record BenchmarkRun := mk_BenchmarkRun {
  rn_run_id : uuid;
  rn_created_at : Z;
  rn_dataset : BenchmarkDataset;
  rn_dataset_sha256 : pystr;
  rn_selected_task_ids : list pystr;
  rn_models : list ModelConfig;
  rn_configuration : BenchmarkConfiguration
}.

(** [BenchmarkRepository] *)
Class BenchmarkRepository := {
  repo_start : nat -> BenchmarkRun -> result exn unit;
  repo_record : nat -> BenchmarkResult -> result exn unit;
  repo_finish : nat -> uuid -> pystr -> result exn unit
}.

Inductive repo_op :=
| OpStart (r : BenchmarkRun)
| OpRecord (r : BenchmarkResult)
| OpFinish (run_id : uuid) (status : pystr).

Record bench := mk_bench { b_world : world; b_log : list (repo_op * bool) }.

Definition BM (A : Type) : Type := bench -> result exn A * bench.

#[export] Instance BM_ret : MRet BM := fun A a b => (Ok a, b).
#[export] Instance BM_bind : MBind BM := fun A B f m b =>
  match m b with
  | (Ok a, b') => f a b'
  | (Raise e, b') => (Raise e, b')
  end.

(** A step of the services. *)
Definition in_world {A : Type} (m : M A) : BM A := fun b =>
  let '(r, w) := m (b_world b) in (r, mk_bench w (b_log b)).

Definition b_raise {A : Type} (e : exn) : BM A := in_world (raise e).

Definition b_outcome {A : Type} (m : BM A) : BM (result exn A) := fun b =>
  let '(r, b') := m b in (Ok r, b').

Section Storage.
Context {E : Env} {R : BenchmarkRepository}.

(** A storage operation, logged with its success. *)
Definition store (op : repo_op) : BM unit := fun b =>
  let t := w_tick (b_world b) in
  let r := match op with
           | OpStart run => repo_start t run
           | OpRecord res => repo_record t res
           | OpFinish id status => repo_finish t id status
           end in
  (r, mk_bench (tick (b_world b)).2 (b_log b ++ [(op, is_ok r)])).
End Storage.

(** ** The runner *)

Record BenchmarkRunner := mk_BenchmarkRunner {
  br_model_configurations : list (list N * ModelConfig);
  br_base_registry : ModelRegistry.t;
  br_service : InferenceService;
  br_configuration : py_dict;
  br_output_token_overrides : list (list N * list (list N * Z))
}.

Definition empty_str (s : pystr) : bool := match s with [] => true | _ => false end.

(** One entry of the overrides: a model and its positive limits by task. *)
Definition override_ok (o : list N * list (list N * Z)) : bool :=
  negb (empty_str o.1) && nonempty o.2 && forallb (fun l => negb (empty_str l.1) && (0 <? l.2)%Z) o.2.

(** [self.model_configurations.get(model.model_id, model)] *)
Definition configured (configs : list (list N * ModelConfig)) (m : ModelConfig) : ModelConfig :=
  default m (dict_get configs (model_id m)).

(** [BenchmarkRunner.__init__] *)
Definition new_BenchmarkRunner (s : InferenceService) (configuration : py_dict)
    (overrides : list (list N * list (list N * Z))) (configs : list (list N * ModelConfig)) :
    result exn BenchmarkRunner :=
  registry ← ModelRegistry.register_all ModelRegistry.empty
               (map (configured configs) (ModelRegistry.list_models (sv_registry s)));
  service ← new_InferenceService registry (sv_resolver s) None (f_of_Z 2) (f_of_Z 60);
  _ ← guard_else (forallb override_ok overrides) (Exn C_ValueError);
  Ok (mk_BenchmarkRunner configs (sv_registry s) service configuration overrides).

(** The comparison of a registered model with its execution configuration. *)
Definition same_identity (registered m : ModelConfig) : bool :=
  bool_decide (model_id m = model_id registered) && bool_decide (provider m = provider registered) &&
  bool_decide (provider_model_name m = provider_model_name registered) &&
  d_eqb (input_cost_per_1m_tokens m) (input_cost_per_1m_tokens registered) &&
  d_eqb (output_cost_per_1m_tokens m) (output_cost_per_1m_tokens registered).

Section Runner.
Context {E : Env} {R : BenchmarkRepository} {UD : UnicodeData}.
Context (b : BenchmarkRunner).

Definition check_model (p : ModelConfig * ModelConfig) : result exn unit :=
  let '(registered, m) := p in
  _ ← guard_else (same_identity registered m) (Exn C_ValueError);
  _ ← guard_else (enabled m) (Exn C_ModelDisabledError);
  guard_else (ProviderResolver.supports (sv_resolver (br_service b)) (provider m)) (Exn C_ProviderUnavailableError).

(** The guards of [run] up to the models. *)
Definition select_models (model_ids : list pystr) (limit : option Z) : result exn (list ModelConfig) :=
  _ ← guard_else (nonempty model_ids && all_distinct model_ids) (Exn C_ValueError);
  _ ← guard_else (match limit with Some n => (0 <? n)%Z | None => true end) (Exn C_ValueError);
  registered ← result_map (ModelRegistry.get (br_base_registry b)) model_ids;
  let models := map (configured (br_model_configurations b)) registered in
  _ ← guard_else (subset_of (map fst (br_model_configurations b)) model_ids) (Exn C_ValueError);
  _ ← result_map check_model (zip registered models);
  Ok models.

(** [dataset.tasks[:limit]] *)
Definition select_tasks (d : BenchmarkDataset) (limit : option Z) : list BenchmarkTask :=
  match limit with Some n => firstn (Z.to_nat n) (tasks d) | None => tasks d end.

Definition check_overrides (d : BenchmarkDataset) : result exn unit :=
  let registered_ids := map model_id (ModelRegistry.list_models (sv_registry (br_service b))) in
  guard_else (subset_of (map fst (br_output_token_overrides b)) registered_ids &&
              subset_of (List.concat (map (fun o => map fst o.2) (br_output_token_overrides b)))
                (map task_id (tasks d)))
    (Exn C_ValueError).

(** The visible limit of a task for a model, with its override. *)
Definition visible_limit (t : BenchmarkTask) (m : ModelConfig) : Z :=
  default (bt_max_output_tokens t)
    (o ← dict_get (br_output_token_overrides b) (model_id m); dict_get o (task_id t)).

(** [effective_output_limits] *)
Definition effective_limits (ts : list BenchmarkTask) (ms : list ModelConfig) :
    result exn (list (list N * list (list N * Z))) :=
  result_map (fun t =>
    limits ← result_map (fun m =>
        n ← value_error (provider_output_allowance m (visible_limit t m) (BenchmarkCategory_value (bt_category t)));
        Ok (model_id m, n)) ms;
    Ok (task_id t, limits)) ts.

(** [effective_output_limits[task_id][model_id]] *)
Definition limit_of (limits : list (list N * list (list N * Z))) (t : BenchmarkTask) (m : ModelConfig) :
    result exn Z :=
  match (l ← dict_get limits (task_id t); dict_get l (model_id m)) with
  | Some n => Ok n
  | None => Raise (Exn C_KeyError)
  end.

Definition freeze_model (m : ModelConfig) : FrozenModel :=
  mk_FrozenModel (provider_model_name m) (dict_get UPSTREAM_PROVIDERS (provider_model_name m))
    (py "standard") (py "provider_default") (d_str (input_cost_per_1m_tokens m))
    (d_str (output_cost_per_1m_tokens m)) (capabilities m) (ReasoningEffort_value <$> reasoning_effort m)
    (reasoning_control m) (output_token_policy m).

Definition new_configuration (ts : list BenchmarkTask) (ms : list ModelConfig)
    (features : list (list N * RequestFeatures)) (limits : list (list N * list (list N * Z))) :
    BenchmarkConfiguration :=
  mk_BenchmarkConfiguration (br_configuration b) (py "1") (py "sequential-task-then-model")
    [PRICING_SOURCE; PRICING_VERIFIED; CATALOG_VERIFIED_AT] UPSTREAM_PROVIDERS (py "1.0.0") features
    (map (fun t => (task_id t, bt_max_output_tokens t)) ts) limits (br_output_token_overrides b)
    (nonempty (br_model_configurations b)) (map (fun m => (model_id m, freeze_model m)) ms).

(** ** One call *)

(** The exceptions that become results. *)
Definition bench_reported (e : exn) : bool :=
  isinstance e C_ContextLimitError || isinstance e C_ModelDisabledError ||
  isinstance e C_ProviderUnavailableError || isinstance e C_ProviderFailureError.

Definition bench_category (e : exn) : pystr :=
  match gateway_category e with
  | Some c => GatewayErrorCategory_value c
  | None =>
      if isinstance e C_ContextLimitError then py "context_limit_exceeded"
      else if isinstance e C_ModelDisabledError then py "model_disabled"
      else if isinstance e C_ProviderUnavailableError then py "provider_unavailable"
      else py "provider_failure"
  end.

Definition diag_json (v : diag_value) : pyjson :=
  match v with
  | DStr s => PJStr s | DInt z => PJInt z | DFloat f => PJFloat f | DBool x => PJBool x
  | DDecimal d => PJStr (d_str d)
  end.

Definition diagnostics_of (e : exn) : py_dict :=
  match e with
  | GatewayError _ d | CompletionRejectedError _ _ d => map (fun kv => (kv.1, diag_json kv.2)) d
  | _ => []
  end.

Definition exhaustion_details (r : InferenceResponse) (limit : Z) : py_dict :=
  [ (py "termination_reason", PJStr (TerminationReason_value (termination_reason r)));
    (py "provider_termination_reason", or_null (PJStr <$> provider_termination_reason r));
    (py "output_token_limit", PJInt limit); (py "output_tokens", PJInt (output_tokens r));
    (py "estimated_cost_usd", PJStr (d_str (estimated_cost_usd r))); (py "fallback_heuristic", PJBool true) ].

(** [BenchmarkResult(...)], with its generated fields. *)
Definition new_result (f : uuid -> Z -> BenchmarkResult) : M BenchmarkResult :=
  id ← read_uuid;
  now ← read_now;
  let r := f id now in
  _ ← lift (validated (BenchmarkResult_validate r));
  mret r.

Definition with_limit (rq : InferenceRequest) (n : Z) : InferenceRequest :=
  mk_InferenceRequest (prompt rq) (system_prompt rq) n (temperature rq).

(** The body of the inner loop before [record]. *)
Definition run_one (run_id : uuid) (limits : list (list N * list (list N * Z)))
    (t : BenchmarkTask) (m : ModelConfig) : M BenchmarkResult :=
  started ← read_perf;
  u ← read_uuid;
  let request_id := uuid_str u in
  r ← outcome
    (rq ← lift (to_request t);
     limit ← lift (limit_of limits t m);
     let request := with_limit rq limit in
     response ← generate (br_service b) (model_id m) request (Some request_id) None EXPLICIT;
     if response_output_budget_exhaustion response (rq_max_output_tokens request) then
       new_result (fun id now => mk_BenchmarkResult id run_id request_id (task_id t) (model_id m) now false None
                     (Some (py "output_budget_exhaustion"))
                     (exhaustion_details response (rq_max_output_tokens request)) (latency_ms response))
     else
       new_result (fun id now => mk_BenchmarkResult id run_id request_id (task_id t) (model_id m) now true
                     (Some response) None [] (latency_ms response)));
  match r with
  | Ok res => mret res
  | Raise e =>
      if bench_reported e then
        now ← read_perf;
        new_result (fun id created => mk_BenchmarkResult id run_id request_id (task_id t) (model_id m) created false
                      None (Some (bench_category e)) (diagnostics_of e)
                      (f_mul (f_sub now started) (f_of_Z 1000)))
      else raise e
  end.

(** The two loops. *)
Fixpoint run_pairs (run_id : uuid) (limits : list (list N * list (list N * Z)))
    (pairs : list (BenchmarkTask * ModelConfig)) : BM unit :=
  match pairs with
  | [] => mret tt
  | (t, m) :: rest =>
      res ← in_world (run_one run_id limits t m);
      _ ← store (OpRecord res);
      run_pairs run_id limits rest
  end.

(** What [run] decides before it touches storage. *)
Definition prepare (d : BenchmarkDataset) (model_ids : list pystr) (limit : option Z) :
    M (list BenchmarkTask * list ModelConfig * list (list N * list (list N * Z)) * BenchmarkRun) :=
  ms ← lift (select_models model_ids limit);
  let ts := select_tasks d limit in
  _ ← lift (check_overrides d);
  limits ← lift (effective_limits ts ms);
  features ← lift (result_map (fun t => f ← extract_request_features t; Ok (task_id t, f)) ts);
  run_id ← read_uuid;
  now ← read_now;
  mret (ts, ms, limits,
        mk_BenchmarkRun run_id now d (ds_sha256 d) (map task_id ts) ms (new_configuration ts ms features limits)).

(** [BenchmarkRunner.run] *)
Definition run (d : BenchmarkDataset) (model_ids : list pystr) (limit : option Z) : BM BenchmarkRun :=
  p ← in_world (prepare d model_ids limit);
  let '(ts, ms, limits, r) := p in
  _ ← store (OpStart r);
  out ← b_outcome
    (_ ← run_pairs (rn_run_id r) limits (list_prod ts ms);
     store (OpFinish (rn_run_id r) (py "completed")));
  match out with
  | Ok _ => mret r
  | Raise e =>
      _ ← store (OpFinish (rn_run_id r) (py "aborted"));
      b_raise e
  end.
End Runner.

(** ** The file store ([FileBenchmarkRepository])

    A directory per run, named by its identifier.  A file holds the record that
    is read back from its text. *)
Record run_directory := mk_run_directory {
  fd_manifest : BenchmarkRun;
  fd_status : pyjson;
  fd_results : list (uuid * BenchmarkResult)
}.

Definition file_store : Type := list (uuid * run_directory).

(** Writing a file of a run; there is none without its directory. *)
Definition in_directory (fs : file_store) (run_id : uuid) (f : run_directory -> run_directory) : result exn file_store :=
  match dict_get fs run_id with
  | Some d => Ok (dict_set fs run_id (f d))
  | None => Raise (Exn C_FileNotFoundError)
  end.

Definition status_running : pyjson := PJObj [(py "status", PJStr (py "running"))].

Definition status_finished (status finished_at : pystr) : pyjson :=
  PJObj [(py "status", PJStr status); (py "finished_at", PJStr finished_at)].

(** [_start], [record] and [finish]; a directory that exists is [FileExistsError],
    an [OSError]. *)
Definition file_step (finished_at : pystr) (fs : file_store) (op : repo_op) : result exn file_store :=
  match op with
  | OpStart r =>
      if dict_mem fs (rn_run_id r) then Raise (Exn C_OSError)
      else Ok (dict_set fs (rn_run_id r) (mk_run_directory r status_running []))
  | OpRecord r =>
      in_directory fs (br_run_id r)
        (fun d => mk_run_directory (fd_manifest d) (fd_status d) (dict_set (fd_results d) (br_result_id r) r))
  | OpFinish run_id status =>
      in_directory fs run_id (fun d => mk_run_directory (fd_manifest d) (status_finished status finished_at) (fd_results d))
  end.

Fixpoint file_steps (finished_at : pystr) (fs : file_store) (ops : list repo_op) : result exn file_store :=
  match ops with
  | [] => Ok fs
  | op :: ops => fs' ← file_step finished_at fs op; file_steps finished_at fs' ops
  end.

Lemma file_steps_app finished_at fs ops ops' :
  file_steps finished_at fs (ops ++ ops') = (fs' ← file_steps finished_at fs ops; file_steps finished_at fs' ops').
Proof. revert fs. induction ops as [|op ops IH]; intros fs; [done|]. cbn [app file_steps]. destruct (file_step _ _ _); [apply IH|done]. Qed.

(** Where a store keeps a run: its directory, and the others as they were. *)
Definition keeps_run (fs : file_store) (run_id : uuid) (d : run_directory) (fs' : file_store) : Prop :=
  forall id, dict_get fs' id = if decide (id = run_id) then Some d else dict_get fs id.

Lemma keeps_step fs run_id d fs1 f : keeps_run fs run_id d fs1 ->
  exists fs2, in_directory fs1 run_id f = Ok fs2 /\ keeps_run fs run_id (f d) fs2.
Proof.
  intros K. unfold in_directory. rewrite (K run_id), decide_True by done. eexists. split; [done|].
  intros id. rewrite dict_get_set, K. by destruct (decide (id = run_id)).
Qed.

(** Results with distinct identifiers are all kept, in the order they were recorded. *)
Lemma file_records finished_at fs run_id rs : forall d fs1, keeps_run fs run_id d fs1 ->
  Forall (fun r => br_run_id r = run_id) rs -> NoDup (map fst (fd_results d) ++ map br_result_id rs) ->
  exists fs2, file_steps finished_at fs1 (map OpRecord rs) = Ok fs2 /\
    keeps_run fs run_id (mk_run_directory (fd_manifest d) (fd_status d) (fd_results d ++ map (fun r => (br_result_id r, r)) rs)) fs2.
Proof.
  induction rs as [|r rs IH]; intros d fs1 K F N.
  - exists fs1. split; [done|]. cbn. rewrite app_nil_r. by destruct d.
  - apply Forall_cons in F as [<- F]. cbn [map file_steps file_step].
    destruct (keeps_step fs _ d fs1 (fun d => mk_run_directory (fd_manifest d) (fd_status d) (dict_set (fd_results d) (br_result_id r) r)) K)
      as (fs2 & -> & K2). rsimpl.
    assert (Fr : dict_set (fd_results d) (br_result_id r) r = fd_results d ++ [(br_result_id r, r)]).
    { apply dict_set_fresh. intros H. apply NoDup_app in N as (_ & N & _). apply (N _ H). cbn [map]. apply elem_of_cons. by left. }
    rewrite Fr in K2. destruct (IH _ _ K2 F) as (fs3 & S & K3).
    + cbn [fd_results]. by rewrite map_app, <- app_assoc.
    + exists fs3. split; [exact S|]. cbn [fd_manifest fd_status fd_results] in K3. by rewrite <- app_assoc in K3.
Qed.

(** A whole run in a store that does not have it yet. *)
Lemma file_run finished_at fs r rs status : dict_get fs (rn_run_id r) = None ->
  Forall (fun x => br_run_id x = rn_run_id r) rs -> NoDup (map br_result_id rs) ->
  exists fs', file_steps finished_at fs (OpStart r :: map OpRecord rs ++ [OpFinish (rn_run_id r) status]) = Ok fs' /\
    keeps_run fs (rn_run_id r) (mk_run_directory r (status_finished status finished_at) (map (fun x => (br_result_id x, x)) rs)) fs'.
Proof.
  intros Nw F N. cbn [file_steps file_step]. unfold dict_mem. rewrite Nw. rsimpl.
  assert (K : keeps_run fs (rn_run_id r) (mk_run_directory r status_running []) (dict_set fs (rn_run_id r) (mk_run_directory r status_running []))).
  { intros id. apply dict_get_set. }
  destruct (file_records finished_at fs (rn_run_id r) rs _ _ K F N) as (fs2 & S & K2). rewrite file_steps_app, S. rsimpl.
  cbn [file_steps file_step]. destruct (keeps_step fs _ _ fs2
    (fun d => mk_run_directory (fd_manifest d) (status_finished status finished_at) (fd_results d)) K2) as (fs3 & -> & K3).
  rsimpl. by exists fs3.
Qed.

(** ** Reasoning on runs *)

Definition bpost {A : Type} (m : BM A) (b : bench) (Q : result exn A -> bench -> Prop) : Prop :=
  Q (m b).1 (m b).2.

Lemma bpost_mono {A} (m : BM A) b (Q Q' : result exn A -> bench -> Prop) :
  bpost m b Q -> (forall r b', Q r b' -> Q' r b') -> bpost m b Q'.
Proof. unfold bpost. auto. Qed.

Lemma bpost_ret {A} (a : A) b (Q : result exn A -> bench -> Prop) : Q (Ok a) b -> bpost (mret a) b Q.
Proof. done. Qed.

Lemma bpost_bind {A B} (m : BM A) (f : A -> BM B) b (Q : result exn B -> bench -> Prop) :
  bpost m b (fun r b' => match r with
                         | Ok a => bpost (f a) b' Q
                         | Raise e => Q (Raise e) b'
                         end) ->
  bpost (x ← m; f x) b Q.
Proof. unfold bpost, mbind, BM_bind. destruct (m b) as [[a|e] b']; auto. Qed.

Lemma bpost_outcome {A} (m : BM A) b (Q : result exn (result exn A) -> bench -> Prop) :
  bpost m b (fun r b' => Q (Ok r) b') -> bpost (b_outcome m) b Q.
Proof. unfold bpost, b_outcome. by destruct (m b). Qed.

Lemma bpost_in_world {A} (m : M A) b (Q : result exn A -> bench -> Prop) :
  post m (b_world b) (fun r w => Q r (mk_bench w (b_log b))) -> bpost (in_world m) b Q.
Proof. unfold bpost, in_world, post. by destruct (m (b_world b)). Qed.

Section StoreFacts.
Context {E : Env} {R : BenchmarkRepository}.

Lemma bpost_store op b (Q : result exn unit -> bench -> Prop) :
  (forall r b', quiet (b_world b) (b_world b') -> b_log b' = b_log b ++ [(op, is_ok r)] -> Q r b') ->
  bpost (store op) b Q.
Proof. intros H. unfold bpost, store. cbn [fst snd]. by apply H. Qed.
End StoreFacts.

(** ** Inference without telemetry and without a given deadline *)

Section Isolated.
Context {E : Env} (s : InferenceService).

Lemma generate_own_deadline id rq rid w :
  generate s id rq (Some rid) None EXPLICIT w =
  (d ← new_deadline s; generate s id rq (Some rid) (Some d) EXPLICIT) w.
Proof.
  unfold generate. replace (negb _) with false by by vm_compute.
  unfold deadline_or_new, mbind, M_bind. by destruct (new_deadline s w) as [[d|e] w'].
Qed.

Lemma new_deadline_quiet w : post (new_deadline s) w (fun _ w' => quiet w w').
Proof.
  unfold new_deadline. apply post_reading; [apply reading_monotonic|]. intros now w' Q. by apply post_lift.
Qed.

Definition no_row (row : telemetry_row) : Prop := False.

Lemma extends_none w w' : extends no_row w w' -> same_writes w w'.
Proof. intros ([|x l] & Hw & Hl); [by rewrite app_nil_r in Hw|by inversion Hl]. Qed.

Lemma generate_inner_writes m rq d rid mode : writes_only no_row (generate_inner s m rq d rid mode).
Proof.
  intros w. eapply post_mono; [apply generate_inner_spec|]. intros r w' [W _]. by apply extends_refl.
Qed.

Lemma record_inference_writes event d : sv_telemetry s = None -> writes_only no_row (record_inference s event d).
Proof. intros H w. unfold record_inference. rewrite H. by apply extends_refl. Qed.

Lemma reading_writes {A} (m : M A) : reading m -> writes_only no_row m.
Proof. apply writes_reading. Qed.

Lemma service_generate_writes id rq rid d : sv_telemetry s = None ->
  writes_only no_row (generate s id rq (Some rid) (Some d) EXPLICIT).
Proof.
  intros H. unfold generate. destruct (negb _); [apply writes_raise|].
  apply writes_bind; [apply writes_ret|intros d'].
  apply writes_bind; [apply reading_writes, reading_expired|intros []; [apply writes_raise|]].
  apply writes_bind; [apply writes_lift|intros m]. apply writes_bind; [apply writes_ret|intros cid].
  apply writes_bind; [apply reading_writes, reading_perf|intros started].
  apply writes_bind; [apply writes_outcome, generate_inner_writes|intros [resp|e]].
  2: { destruct (reported e); [|apply writes_raise]. apply writes_bind.
       { destruct (rejected_completion e); [apply writes_ret|].
         apply writes_bind; [apply reading_writes, reading_perf|intros; apply writes_ret]. }
       intros elapsed. do 2 (apply writes_bind; [apply reading_writes; auto with readings|intros ?]).
       apply writes_bind; [by apply record_inference_writes|intros; apply writes_raise]. }
  do 2 (apply writes_bind; [apply reading_writes; auto with readings|intros ?]).
  apply writes_bind; [by apply record_inference_writes|intros; apply writes_ret].
Qed.

(** An inference of a service without telemetry, on a deadline of its own. *)
Lemma generate_isolated id rq rid w : sv_telemetry s = None -> ModelRegistry.wf (sv_registry s) ->
  post (generate s id rq (Some rid) None EXPLICIT) w (fun r w' =>
    same_writes w w' /\
    match r with
    | Ok resp => w_calls w' = w_calls w ++ [mk_provider_call id rq] /\ rs_model_id resp = id
    | Raise _ => same_calls w w' \/ w_calls w' = w_calls w ++ [mk_provider_call id rq]
    end).
Proof.
  intros Hs Hwf. unfold post. rewrite generate_own_deadline.
  match goal with |- ?G => change (post (d ← new_deadline s; generate s id rq (Some rid) (Some d) EXPLICIT) w
    (fun r w' => same_writes w w' /\
      match r with
      | Ok resp => w_calls w' = w_calls w ++ [mk_provider_call id rq] /\ rs_model_id resp = id
      | Raise _ => same_calls w w' \/ w_calls w' = w_calls w ++ [mk_provider_call id rq]
      end)) end.
  apply post_bind. eapply post_mono; [apply new_deadline_quiet|]. intros [d|e] w1 [C1 W1].
  2: { split; [done|by left]. }
  pose proof (extends_none _ _ (service_generate_writes id rq rid d Hs w1)) as W2.
  pose proof (generate_spec s id rq rid d EXPLICIT w1 (or_introl eq_refl)) as G. unfold post in *.
  destruct (generate s id rq (Some rid) (Some d) EXPLICIT w1) as [r w2]. cbn [fst snd] in *.
  unfold same_writes, same_calls, quiet in *. split; [congruence|].
  destruct G as [(e & -> & [Q _] & _)|(m & Hg & Hc & _ & Hr)].
  - left. unfold same_calls in Q. congruence.
  - apply (ModelRegistry.get_in _ _ _ Hwf) in Hg as [_ <-].
    unfold same_calls in Hc. rewrite C1 in Hc.
    destruct r as [resp|e]; [|exact Hc]. destruct Hr as (C2 & _ & Hm & _). rewrite C1 in C2. done.
Qed.
End Isolated.

(** ** One call of a run *)

(** What one pair of task and model leaves: the calls it made and its result. *)
Record step := mk_step { sp_calls : list provider_call; sp_result : BenchmarkResult }.

(** The call planned for a pair. *)
Definition planned (limits : list (list N * list (list N * Z))) (p : BenchmarkTask * ModelConfig)
    (c : provider_call) : Prop :=
  exists n, limit_of limits p.1 p.2 = Ok n /\
            c = mk_provider_call (model_id p.2) (with_limit (task_request p.1) n).

Definition at_most_planned (limits : list (list N * list (list N * Z))) (p : BenchmarkTask * ModelConfig)
    (cs : list provider_call) : Prop :=
  cs = [] \/ exists c, planned limits p c /\ cs = [c].

Definition step_ok (run_id : uuid) (limits : list (list N * list (list N * Z)))
    (p : BenchmarkTask * ModelConfig) (x : step) : Prop :=
  at_most_planned limits p (sp_calls x) /\
  br_run_id (sp_result x) = run_id /\ br_task_id (sp_result x) = task_id p.1 /\
  br_model_id (sp_result x) = model_id p.2 /\ BenchmarkResult_validate (sp_result x) = Ok tt /\
  (br_success (sp_result x) = true -> sp_calls x <> []).

Section OneCall.
Context {E : Env} {R : BenchmarkRepository} {UD : UnicodeData}.
Context (b : BenchmarkRunner) (isolated : sv_telemetry (br_service b) = None)
  (wf : ModelRegistry.wf (sv_registry (br_service b))).

Lemma new_result_spec f w :
  post (new_result f) w (fun r w' => quiet w w' /\
    match r with
    | Ok x => (exists id now, x = f id now) /\ BenchmarkResult_validate x = Ok tt
    | Raise e => e = Exn C_ValidationError
    end).
Proof.
  unfold new_result. apply post_reading; [apply reading_uuid|]. intros id w1 Q1.
  apply post_reading; [apply reading_now|]. intros now w2 Q2. apply post_bind, post_lift.
  assert (Q : quiet w w2) by (by apply (quiet_trans w w1)).
  destruct (BenchmarkResult_validate (f id now)) as [[]|m] eqn:V; cbn [validated]; [|done].
  apply post_ret. eauto.
Qed.

(** What [run_one] leaves behind. *)
Definition one_call (run_id : uuid) (limits : list (list N * list (list N * Z)))
    (p : BenchmarkTask * ModelConfig) (w : world) (r : result exn BenchmarkResult) (w' : world) : Prop :=
  same_writes w w' /\ exists cs, w_calls w' = w_calls w ++ cs /\ at_most_planned limits p cs /\
  match r with Ok x => step_ok run_id limits p (mk_step cs x) | Raise _ => True end.

Lemma one_call_raise run_id limits p w e : one_call run_id limits p w (Raise e) w.
Proof. split; [done|]. exists []. rewrite app_nil_r. split; [done|]. split; [by left|done]. Qed.

Lemma one_call_after run_id limits p w1 w2 r w3 :
  quiet w1 w2 -> one_call run_id limits p w2 r w3 -> one_call run_id limits p w1 r w3.
Proof.
  intros [C W] (W' & cs & C' & H). unfold one_call, same_writes, same_calls in *. split; [congruence|].
  exists cs. split; [congruence|done].
Qed.

(** A result built after the calls [cs], on a failure or on a success. *)
Lemma new_result_call run_id limits t m rid created success response category details latency w0 w cs :
  same_writes w0 w -> w_calls w = w_calls w0 ++ cs -> at_most_planned limits (t, m) cs ->
  (success = true -> cs <> []) ->
  post (new_result (fun id now => mk_BenchmarkResult id run_id rid (task_id t) (model_id m) (created now)
                      success response category details latency)) w (one_call run_id limits (t, m) w0).
Proof.
  intros W C P S. eapply post_mono; [apply new_result_spec|]. intros r w' [[C' W'] H].
  unfold one_call, same_writes, same_calls in *. split; [congruence|]. exists cs. split; [congruence|].
  split; [done|]. destruct r as [x|e]; [|done]. destruct H as [(id & now & ->) V]. by repeat split.
Qed.

Lemma run_one_spec run_id limits t m w :
  post (run_one b run_id limits t m) w (one_call run_id limits (t, m) w).
Proof.
  unfold run_one. apply post_reading; [apply reading_perf|]. intros started w1 Q1.
  apply post_reading; [apply reading_uuid|]. intros u w2 Q2.
  eapply post_mono; [|intros r w'; apply one_call_after; by apply (quiet_trans w w1)].
  apply post_bind, post_outcome. clear w w1 Q1 Q2.
  eapply (post_mono _ _ (one_call run_id limits (t, m) w2)).
  - apply post_bind, post_lift. unfold to_request.
    destruct (InferenceRequest_validate (task_request t)) as [[]|e]; cbn [validated mbind];
      [|apply one_call_raise]. apply post_bind, post_lift.
    destruct (limit_of limits t m) as [n|e] eqn:En; [|apply one_call_raise].
    apply post_bind. eapply post_mono; [apply (generate_isolated _ _ _ _ _ isolated wf)|].
    intros r w3 [W3 H3]. destruct r as [resp|e].
    + destruct H3 as [C3 _].
      assert (P : at_most_planned limits (t, m) [mk_provider_call (model_id m) (with_limit (task_request t) n)]).
      { right. eexists. split; [|reflexivity]. by exists n. }
      destruct (response_output_budget_exhaustion _ _);
        by apply (new_result_call run_id limits t m _ (fun now => now) _ _ _ _ _ _ _ _ W3 C3 P).
    + split; [done|]. destruct H3 as [C3|C3].
      * exists []. rewrite app_nil_r. split; [done|]. split; [by left|done].
      * eexists. split; [exact C3|]. split; [|done]. right. eexists. split; [|reflexivity]. by exists n.
  - intros [x|e] w3 H3; [by apply post_ret|]. destruct H3 as (W3 & cs & C3 & P & _).
    destruct (bench_reported e).
    + apply post_reading; [apply reading_perf|]. intros now w4 [C4 W4].
      apply (new_result_call run_id limits t m _ (fun now => now) _ _ _ _ _ _ _ cs);
        unfold same_writes, same_calls in *; congruence || done.
    + apply post_raise. split; [done|]. by exists cs.
Qed.

(** ** The loops *)

Definition records (steps : list step) : list (repo_op * bool) :=
  map (fun x => (OpRecord (sp_result x), true)) steps.

Definition paid_calls (steps : list step) : list provider_call := List.concat (map sp_calls steps).

(** The loops stopped at a pair: everything before it is stored, and the call of
    that pair, if it was made, is the only one without a stored result. *)
Definition stopped (run_id : uuid) (limits : list (list N * list (list N * Z)))
    (pairs : list (BenchmarkTask * ModelConfig)) (log : list (repo_op * bool)) (calls : list provider_call) : Prop :=
  exists before p after steps extra failed,
    pairs = before ++ p :: after /\ Forall2 (step_ok run_id limits) before steps /\
    at_most_planned limits p extra /\ calls = paid_calls steps ++ extra /\
    log = records steps ++ failed /\ (failed = [] \/ exists x, failed = [(OpRecord x, false)]).

Definition stored_all (run_id : uuid) (limits : list (list N * list (list N * Z)))
    (pairs : list (BenchmarkTask * ModelConfig)) (log : list (repo_op * bool)) (calls : list provider_call) : Prop :=
  exists steps, Forall2 (step_ok run_id limits) pairs steps /\ calls = paid_calls steps /\ log = records steps.

Lemma stored_cons run_id limits p pairs x log calls :
  step_ok run_id limits p x -> stored_all run_id limits pairs log calls ->
  stored_all run_id limits (p :: pairs) ((OpRecord (sp_result x), true) :: log) (sp_calls x ++ calls).
Proof.
  intros Hx (steps & F & -> & ->). exists (x :: steps). split; [by constructor|]. done.
Qed.

Lemma stopped_cons run_id limits p pairs x log calls :
  step_ok run_id limits p x -> stopped run_id limits pairs log calls ->
  stopped run_id limits (p :: pairs) ((OpRecord (sp_result x), true) :: log) (sp_calls x ++ calls).
Proof.
  intros Hx (before & q & after & steps & extra & failed & -> & F & P & -> & -> & Hf).
  exists (p :: before), q, after, (x :: steps), extra, failed. split; [done|]. split; [by constructor|].
  split; [done|]. split; [unfold paid_calls; cbn; by rewrite app_assoc|]. done.
Qed.

Lemma run_pairs_spec run_id limits pairs : forall c,
  bpost (run_pairs b run_id limits pairs) c (fun r c' =>
    same_writes (b_world c) (b_world c') /\
    exists log calls, b_log c' = b_log c ++ log /\ w_calls (b_world c') = w_calls (b_world c) ++ calls /\
      match r with
      | Ok _ => stored_all run_id limits pairs log calls
      | Raise _ => stopped run_id limits pairs log calls
      end).
Proof.
  induction pairs as [|[t m] pairs IH]; intros c.
  { apply bpost_ret. split; [done|]. exists [], []. rewrite !app_nil_r. split; [done|]. split; [done|].
    by exists []. }
  cbn [run_pairs]. apply bpost_bind, bpost_in_world. eapply post_mono; [apply run_one_spec|].
  intros r w1 (W1 & cs & C1 & P & Hr). destruct r as [x|e].
  2: { split; [done|]. exists [], cs. rewrite app_nil_r. split; [done|]. split; [done|].
       exists [], (t, m), pairs, [], cs, []. repeat split; auto. }
  apply bpost_bind, bpost_store. intros r c2 [C2 W2] L2. cbn [b_world b_log] in *.
  unfold same_writes, same_calls in *. destruct r as [[]|e]; cbn [is_ok] in L2.
  2: { split; [congruence|]. exists [(OpRecord x, false)], cs. split; [done|]. split; [congruence|].
       exists [], (t, m), pairs, [], cs, [(OpRecord x, false)]. split; [done|]. repeat split; auto.
       right. by exists x. }
  eapply bpost_mono; [apply IH|]. intros r c3 (W3 & log & calls & L3 & C3 & Hr3). split; [congruence|].
  exists ((OpRecord x, true) :: log), (cs ++ calls).
  split; [by rewrite L3, L2, <- app_assoc|]. split; [by rewrite C3, C2, C1, app_assoc|].
  destruct r as [[]|e]; [by apply (stored_cons _ _ _ _ (mk_step cs x))|
                         by apply (stopped_cons _ _ _ _ (mk_step cs x))].
Qed.
End OneCall.

(** ** The protocol *)

Section Protocol.
Context {E : Env} {R : BenchmarkRepository} {UD : UnicodeData}.

(** The execution configuration of a requested model: same identity and prices
    as the registered one, enabled and with an adapter. *)
Definition execution_of (s : InferenceService) (id : pystr) (m : ModelConfig) : Prop :=
  exists registered, ModelRegistry.get (sv_registry s) id = Ok registered /\
    same_identity registered m = true /\ enabled m = true /\
    ProviderResolver.supports (sv_resolver s) (provider m) = true.

Lemma new_runner_ok s conf over configs b : new_BenchmarkRunner s conf over configs = Ok b ->
  br_base_registry b = sv_registry s /\ sv_resolver (br_service b) = sv_resolver s /\
  sv_telemetry (br_service b) = None /\ ModelRegistry.wf (sv_registry (br_service b)).
Proof.
  unfold new_BenchmarkRunner. intros H. apply bind_ok in H as (reg & Hreg & H).
  apply bind_ok in H as (sv & Hs & H). apply bind_ok in H as (u & _ & H). inv_result.
  unfold new_InferenceService in Hs. case_all. inv_result. cbn.
  repeat split; eapply ModelRegistry.register_all_wf; eauto using ModelRegistry.wf_empty.
Qed.

Lemma check_model_ok b reg m : check_model b (reg, m) = Ok tt ->
  same_identity reg m = true /\ enabled m = true /\
  ProviderResolver.supports (sv_resolver (br_service b)) (provider m) = true.
Proof.
  unfold check_model, guard_else. destruct (same_identity reg m); [|discriminate].
  destruct (enabled m); [|discriminate]. destruct (ProviderResolver.supports _ _); [done|discriminate].
Qed.

Lemma select_models_ok s b ids limit ms :
  br_base_registry b = sv_registry s -> sv_resolver (br_service b) = sv_resolver s ->
  select_models b ids limit = Ok ms -> Forall2 (execution_of s) ids ms /\ NoDup ids.
Proof.
  intros Hb Hr H. unfold select_models in H. apply bind_ok in H as ([] & H0 & H).
  apply bind_ok in H as ([] & _ & H). apply bind_ok in H as (reg & Hreg & H).
  apply bind_ok in H as ([] & _ & H). apply bind_ok in H as (us & Hc & H). injection H as <-.
  split.
  2: { unfold guard_else in H0. case_all. bools. by apply all_distinct_true. }
  apply result_map_ok in Hreg. apply result_map_ok in Hc. rewrite Hb in Hreg. clear H0. revert us Hc.
  induction Hreg as [|id r ids regs Hg _ IH]; intros us Hc; [constructor|].
  cbn [map zip] in Hc. inversion Hc as [|? [] ? us' H1 H2]; subst. constructor; [|by apply (IH us')].
  apply check_model_ok in H1. rewrite Hr in H1. by exists r.
Qed.

(** What [start] is given: the run that was asked for. *)
Definition announced (s : InferenceService) (d : BenchmarkDataset) (ids : list pystr) (limit : option Z)
    (r : BenchmarkRun) : Prop :=
  rn_dataset r = d /\ rn_selected_task_ids r = map task_id (select_tasks d limit) /\
  NoDup ids /\ Forall2 (execution_of s) ids (rn_models r).

Lemma prepare_spec s b d ids limit w :
  br_base_registry b = sv_registry s -> sv_resolver (br_service b) = sv_resolver s ->
  post (prepare b d ids limit) w (fun r w' => quiet w w' /\
    match r with
    | Ok (ts, ms, limits, run) => ts = select_tasks d limit /\ ms = rn_models run /\
        limits = bc_effective_max_output_tokens (rn_configuration run) /\ announced s d ids limit run
    | Raise _ => True
    end).
Proof.
  intros Hb Hr. unfold prepare. apply post_bind, post_lift.
  destruct (select_models b ids limit) as [ms|e] eqn:Em; [|done].
  apply post_bind, post_lift. destruct (check_overrides b d) as [[]|e]; [|done].
  apply post_bind, post_lift. destruct (effective_limits b _ ms) as [limits|e]; [|done].
  apply post_bind, post_lift. destruct (result_map _ _) as [features|e]; [|done].
  apply post_reading; [apply reading_uuid|]. intros id w1 Q1.
  apply post_reading; [apply reading_now|]. intros now w2 Q2. apply post_ret.
  split; [by apply (quiet_trans w w1)|]. do 3 (split; [done|]). split; [done|]. split; [done|].
  cbn [rn_models]. apply and_comm. by apply (select_models_ok s b _ limit).
Qed.
End Protocol.

(** ** What a whole run leaves: the log of storage and the calls *)

Definition finish_row (r : BenchmarkRun) (status : string) (ok : bool) : repo_op * bool :=
  (OpFinish (rn_run_id r) (py status), ok).

(** The run's pairs, in order, and its frozen output limits. *)
Definition run_pairs_of (r : BenchmarkRun) (d : BenchmarkDataset) (limit : option Z) :
    list (BenchmarkTask * ModelConfig) := list_prod (select_tasks d limit) (rn_models r).

Definition run_limits (r : BenchmarkRun) : list (list N * list (list N * Z)) :=
  bc_effective_max_output_tokens (rn_configuration r).

Definition completed_run (r : BenchmarkRun) d limit (log : list (repo_op * bool)) (calls : list provider_call) : Prop :=
  exists results, stored_all (rn_run_id r) (run_limits r) (run_pairs_of r d limit) results calls /\
    log = (OpStart r, true) :: results ++ [finish_row r "completed" true].

Definition aborted_run (r : BenchmarkRun) d limit (log : list (repo_op * bool)) (calls : list provider_call) : Prop :=
  exists results finish closed,
    (stopped (rn_run_id r) (run_limits r) (run_pairs_of r d limit) results calls /\ finish = [] \/
     stored_all (rn_run_id r) (run_limits r) (run_pairs_of r d limit) results calls /\
     finish = [finish_row r "completed" false]) /\
    log = (OpStart r, true) :: results ++ finish ++ [finish_row r "aborted" closed].

Definition run_left (s : InferenceService) d ids limit (r : result exn BenchmarkRun)
    (log : list (repo_op * bool)) (calls : list provider_call) : Prop :=
  match r with
  | Ok r => announced s d ids limit r /\ completed_run r d limit log calls
  | Raise _ =>
      calls = [] /\ log = [] \/
      exists r, announced s d ids limit r /\
        (calls = [] /\ log = [(OpStart r, false)] \/ aborted_run r d limit log calls)
  end.

Definition leaves (s : InferenceService) d ids limit (c : bench) (r : result exn BenchmarkRun) (c' : bench) : Prop :=
  same_writes (b_world c) (b_world c') /\
  exists log calls, b_log c' = b_log c ++ log /\ w_calls (b_world c') = w_calls (b_world c) ++ calls /\
    run_left s d ids limit r log calls.

Section RunFacts.
Context {E : Env} {R : BenchmarkRepository} {UD : UnicodeData}.
Context (s : InferenceService) (b : BenchmarkRunner).
Context (isolated : sv_telemetry (br_service b) = None) (wf : ModelRegistry.wf (sv_registry (br_service b))).

(** The loops and the final status of an announced run. *)
Lemma run_body_spec d limit r c :
  bpost (_ ← run_pairs b (rn_run_id r) (run_limits r) (run_pairs_of r d limit);
         store (OpFinish (rn_run_id r) (py "completed"))) c (fun x c' =>
    same_writes (b_world c) (b_world c') /\
    exists results finish calls, b_log c' = b_log c ++ results ++ finish /\
      w_calls (b_world c') = w_calls (b_world c) ++ calls /\
      match x with
      | Ok _ => stored_all (rn_run_id r) (run_limits r) (run_pairs_of r d limit) results calls /\
                finish = [finish_row r "completed" true]
      | Raise _ =>
          stopped (rn_run_id r) (run_limits r) (run_pairs_of r d limit) results calls /\ finish = [] \/
          stored_all (rn_run_id r) (run_limits r) (run_pairs_of r d limit) results calls /\
          finish = [finish_row r "completed" false]
      end).
Proof.
  apply bpost_bind. eapply bpost_mono; [apply (run_pairs_spec b isolated wf)|].
  intros x c1 (W1 & results & calls & L1 & C1 & H1). destruct x as [[]|e].
  2: { split; [done|]. exists results, [], calls. rewrite app_nil_r. auto. }
  apply bpost_store. intros x c2 [C2 W2] L2. unfold same_writes, same_calls in *. split; [congruence|].
  exists results, [finish_row r "completed" (is_ok x)], calls.
  split; [by rewrite L2, L1, app_assoc|]. split; [congruence|]. destruct x as [[]|e]; auto.
Qed.

Lemma run_spec d ids limit c :
  br_base_registry b = sv_registry s -> sv_resolver (br_service b) = sv_resolver s ->
  bpost (run b d ids limit) c (leaves s d ids limit c).
Proof.
  intros Hb Hr. unfold run. apply bpost_bind, bpost_in_world.
  eapply post_mono; [by apply (prepare_spec s)|]. intros x w1 [[C1 W1] H1].
  unfold leaves, same_writes, same_calls in *. destruct x as [[[[ts ms] limits] r]|e].
  2: { split; [done|]. exists [], []. rewrite !app_nil_r. split; [done|]. split; [done|by left]. }
  destruct H1 as (-> & -> & -> & A). apply bpost_bind, bpost_store. intros x c2 [C2 W2] L2.
  cbn [b_world b_log] in C2, W2, L2. unfold same_writes, same_calls in *. destruct x as [[]|e].
  2: { split; [congruence|]. exists [(OpStart r, false)], []. rewrite app_nil_r.
       split; [done|]. split; [congruence|]. right. exists r. split; [done|by left]. }
  apply bpost_bind, bpost_outcome. eapply bpost_mono; [apply run_body_spec|].
  intros x c3 (W3 & results & finish & calls & L3 & C3 & H3). unfold same_writes in *.
  assert (L : b_log c3 = b_log c ++ (OpStart r, true) :: results ++ finish).
  { rewrite L3, L2, <- app_assoc. done. }
  assert (C : w_calls (b_world c3) = w_calls (b_world c) ++ calls) by congruence.
  destruct x as [[]|e].
  { apply bpost_ret. split; [congruence|]. eexists _, _. split; [exact L|]. split; [exact C|].
    split; [done|]. exists results. destruct H3 as [H3 ->]. done. }
  apply bpost_bind, bpost_store. intros x c4 [C4 W4] L4. unfold same_writes, same_calls in *.
  assert (Q : w_writes (b_world c4) = w_writes (b_world c) /\
    exists log calls, b_log c4 = b_log c ++ log /\ w_calls (b_world c4) = w_calls (b_world c) ++ calls /\
      (calls = [] /\ log = [] \/
       exists r, announced s d ids limit r /\
         (calls = [] /\ log = [(OpStart r, false)] \/ aborted_run r d limit log calls))).
  { split; [congruence|]. exists ((OpStart r, true) :: results ++ finish ++ [finish_row r "aborted" (is_ok x)]), calls.
    split; [|split; [congruence|]].
    { rewrite L4, L, <- app_assoc. f_equal. cbn. f_equal. by rewrite <- app_assoc. }
    right. exists r. split; [done|]. right. by exists results, finish, (is_ok x). }
  by destruct x as [[]|e'].
Qed.
End RunFacts.

(** C18. The run protocol.  Nothing reaches the telemetry of the service.  When [run]
    returns, storage holds the announced run, then one result for every pair of
    selected task and requested model in task-then-model order, then
    "completed".  When it raises, either nothing was announced, or only the
    failed [start] was tried, and no call was made; or the run was announced and
    closed as "aborted" after a prefix of the results, and at most one call,
    that of the pair it stopped at, has no stored result.  Every call is the one
    planned and frozen for its pair, at most one per pair; stored results name
    their run, task and model, are consistent, and a success was paid for. *)
Theorem benchmark_run_protocol `{E : Env} `{R : BenchmarkRepository} `{UD : UnicodeData}
    s conf over configs runner d ids limit (c : bench) :
  new_BenchmarkRunner s conf over configs = Ok runner ->
  let out := run runner d ids limit c in
  same_writes (b_world c) (b_world out.2) /\
  exists log calls,
    b_log out.2 = b_log c ++ log /\ w_calls (b_world out.2) = w_calls (b_world c) ++ calls /\
    run_left s d ids limit out.1 log calls.
Proof.
  intros Hnew out. destruct (new_runner_ok _ _ _ _ _ Hnew) as (Hb & Hr & Ht & Hwf).
  by apply (run_spec s runner Ht Hwf).
Qed.

(** ** An example: two tasks, one model, storage that refuses the second result *)

Definition example_task (id : string) : BenchmarkTask :=
  mk_BenchmarkTask (py "Name a colour.") None 64 f_zero (py id) BC_QA EO_text [] None [] None None None None None None.

Definition example_dataset : BenchmarkDataset :=
  mk_BenchmarkDataset (py "demo") (py "1") [example_task "t1"; example_task "t2"] (py "00").

Definition full_disk : BenchmarkRepository :=
  {| repo_start := fun _ _ => Ok tt;
     repo_record := fun _ r => if bool_decide (br_task_id r = py "t2") then Raise (Exn C_RuntimeError) else Ok tt;
     repo_finish := fun _ _ _ => Ok tt |}.

Definition example_runner : BenchmarkRunner :=
  match new_BenchmarkRunner (example_service [example_small]) [] [] [] with
  | Ok b => b
  | Raise _ => mk_BenchmarkRunner [] ModelRegistry.empty (example_service []) [] []
  end.

Lemma benchmark_run_protocol_witness :
  new_BenchmarkRunner (example_service [example_small]) [] [] [] = Ok example_runner /\
  exists r log calls, aborted_run r example_dataset None log calls /\ length calls = 2 /\ length log = 4.
Proof.
  assert (N : new_BenchmarkRunner (example_service [example_small]) [] [] [] = Ok example_runner)
    by (vm_compute; reflexivity).
  split; [exact N|].
  pose proof (@benchmark_run_protocol still_env full_disk ascii_tables _ _ _ _ _ example_dataset
    [py "fake-small"] None (mk_bench initial_world []) N) as [_ (log & calls & L & C & H)].
  assert (Hl : length (b_log (@run still_env full_disk ascii_tables example_runner example_dataset
    [py "fake-small"] None (mk_bench initial_world [])).2) = 4) by (vm_compute; reflexivity).
  assert (Hc : length (w_calls (b_world (@run still_env full_disk ascii_tables example_runner example_dataset
    [py "fake-small"] None (mk_bench initial_world [])).2)) = 2) by (vm_compute; reflexivity).
  assert (Hr : is_ok (@run still_env full_disk ascii_tables example_runner example_dataset
    [py "fake-small"] None (mk_bench initial_world [])).1 = false) by (vm_compute; reflexivity).
  rewrite L in Hl. rewrite C in Hc. cbn [b_log b_world w_calls initial_world app] in Hl, Hc.
  destruct (@run _ _ _ _ _ _ _ _) as [[r|e] c']; [discriminate Hr|]. cbn [fst run_left] in H.
  destruct H as [[-> ->]|(r & _ & [[-> ->]|A])]; [discriminate Hc|discriminate Hc|].
  exists r, log, calls. split; [exact A|]. split; [exact Hc|exact Hl].
Defined.
