(* ===== verification/Aggregation.v ===== *)
(** * Evaluation results and their aggregation
    ([evaluation/models.py], [evaluation/aggregation.py])

    The records of an evaluation with their validators, the metrics of a group
    of results, and the summary of a run: overall, by model, by model and
    category, and pairwise comparisons. *)
From S2P Require Import Prelude PyStr PyFloat PyDecimal PyUuid Schemas Json PyRepr JsonText Errors BenchmarkModels BenchmarkRunner.

(** ** Evaluations *)

Inductive EvaluationStatus :=
| ES_evaluated | ES_partial | ES_requires_semantic_judge | ES_requires_functional_execution.

#[export] Instance EvaluationStatus_eq_dec : EqDecision EvaluationStatus.
Proof. solve_decision. Defined.

Record EvaluationResult := mk_EvaluationResult {
  ev_benchmark_result_id : uuid;
  ev_run_id : uuid;
  ev_task_id : pystr;
  ev_model_id : pystr;
  ev_evaluator_name : pystr;
  ev_evaluator_version : pystr;
  ev_evaluated_at : Z;
  evaluation_status : EvaluationStatus;
  quality_score : option float;
  ev_acceptable_threshold : float;
  acceptable : option bool;
  ev_reason : pystr;
  component_scores : list (list N * float);
  ev_details : py_dict;
  evaluation_call_made : bool;
  evaluation_input_tokens : Z;
  evaluation_output_tokens : Z;
  evaluation_latency_ms : float;
  evaluation_cost_usd : decimal
}.

(** [consistent_acceptability] *)
Definition consistent_acceptability (e : EvaluationResult) : result pystr unit :=
  _ ← match evaluation_status e, quality_score e with
      | ES_evaluated, Some q =>
          check (bool_decide (acceptable e = Some (f_leb (ev_acceptable_threshold e) q)))
            (py "Evaluated results require score-derived acceptability")
      | ES_evaluated, None => Raise (py "Evaluated results require score-derived acceptability")
      | _, _ => check (bool_decide (acceptable e = None)) (py "Incomplete evaluations cannot claim acceptability")
      end;
  check (forallb (fun c => f_leb f_zero c.2 && f_leb c.2 f_one) (component_scores e))
    (py "Component scores must be between zero and one").

Definition EvaluationResult_validate (e : EvaluationResult) : result pystr unit :=
  _ ← check (opt_all unit_interval (quality_score e) && unit_interval (ev_acceptable_threshold e)) field_error;
  _ ← check ((0 <=? evaluation_input_tokens e)%Z && (0 <=? evaluation_output_tokens e)%Z) field_error;
  _ ← check (nonneg_finite (evaluation_latency_ms e) && d_nonneg (evaluation_cost_usd e)) field_error;
  consistent_acceptability e.

Record MetricGroup := mk_MetricGroup {
  mg_model_id : option pystr;
  mg_category : option BenchmarkCategory;
  evaluated_tasks : Z;
  fully_evaluated_tasks : Z;
  incomplete_evaluations : Z;
  successful_responses : Z;
  acceptable_responses : Z;
  mean_quality_score : option float;
  acceptable_rate : option float;
  total_estimated_cost_usd : decimal;
  average_cost_per_task_usd : decimal;
  cost_per_acceptable_response_usd : option decimal;
  average_latency_ms : float
}.

(** [consistent_evaluation_counts], which completes a group that gives only the
    number of its tasks. *)
Definition consistent_evaluation_counts (g : MetricGroup) : result pystr MetricGroup :=
  let g := if negb (evaluated_tasks g =? 0)%Z && (fully_evaluated_tasks g =? 0)%Z && (incomplete_evaluations g =? 0)%Z
           then mk_MetricGroup (mg_model_id g) (mg_category g) (evaluated_tasks g) (evaluated_tasks g)
                  (incomplete_evaluations g) (successful_responses g) (acceptable_responses g) (mean_quality_score g)
                  (acceptable_rate g) (total_estimated_cost_usd g) (average_cost_per_task_usd g)
                  (cost_per_acceptable_response_usd g) (average_latency_ms g)
           else g in
  _ ← check (fully_evaluated_tasks g + incomplete_evaluations g =? evaluated_tasks g)%Z
        (py "Evaluation status counts must equal evaluated tasks");
  _ ← check (acceptable_responses g <=? fully_evaluated_tasks g)%Z
        (py "Acceptable responses cannot exceed fully evaluated tasks");
  Ok g.

Definition MetricGroup_validate (g : MetricGroup) : result pystr MetricGroup :=
  _ ← check (forallb (fun n => 0 <=? n)%Z
               [evaluated_tasks g; fully_evaluated_tasks g; incomplete_evaluations g;
                successful_responses g; acceptable_responses g]) field_error;
  _ ← check (opt_all unit_interval (mean_quality_score g) && opt_all unit_interval (acceptable_rate g)) field_error;
  _ ← check (d_nonneg (total_estimated_cost_usd g) && d_nonneg (average_cost_per_task_usd g) &&
             opt_all d_nonneg (cost_per_acceptable_response_usd g)) field_error;
  _ ← check (nonneg_finite (average_latency_ms g)) field_error;
  consistent_evaluation_counts g.

Record ModelComparison := mk_ModelComparison {
  left_model_id : pystr;
  right_model_id : pystr;
  mean_quality_difference : option float;
  total_cost_difference_usd : decimal;
  average_latency_difference_ms : float
}.

Definition ModelComparison_validate (c : ModelComparison) : result pystr unit :=
  _ ← check (opt_all (fun q => f_isfinite q && f_leb (f_neg f_one) q && f_leb q f_one)
               (mean_quality_difference c)) field_error;
  check (f_isfinite (average_latency_difference_ms c)) field_error.

Record EvaluationSummary := mk_EvaluationSummary {
  sm_run_id : uuid;
  sm_dataset_sha256 : pystr;
  sm_evaluation_version : pystr;
  generated_at : Z;
  overall : MetricGroup;
  by_model : list MetricGroup;
  by_model_category : list MetricGroup;
  comparisons : list ModelComparison;
  candidate_inference_cost_usd : decimal;
  judge_evaluation_cost_usd : decimal;
  judge_calls : Z;
  judge_input_tokens : Z;
  judge_output_tokens : Z;
  judge_latency_ms : float;
  evaluation_configuration : py_dict
}.

Definition EvaluationSummary_validate (s : EvaluationSummary) : result pystr unit :=
  _ ← check (d_nonneg (candidate_inference_cost_usd s) && d_nonneg (judge_evaluation_cost_usd s)) field_error;
  _ ← check ((0 <=? judge_calls s)%Z && (0 <=? judge_input_tokens s)%Z && (0 <=? judge_output_tokens s)%Z) field_error;
  check (nonneg_finite (judge_latency_ms s)) field_error.

(** ** Metrics *)

Definition EVALUATION_VERSION : pystr := py "1.1.0".

(** [Decimal(str(value))] of a JSON value, when it is finite. *)
Definition decimal_of_json `{UnicodeData} (v : pyjson) : option decimal :=
  match v with
  | PJInt z => if int_writable z then decimal_of_str (Z_to_str z) else None
  | PJFloat f => decimal_of_str (float_repr f)
  | PJStr s => decimal_of_str s
  | PJNull | PJBool _ | PJArr _ | PJObj _ => None
  end.

(** [_known_candidate_cost] *)
Definition known_candidate_cost `{UnicodeData} (r : BenchmarkResult) : decimal :=
  match br_response r with
  | Some x => estimated_cost_usd x
  | None =>
      match v ← dict_get (br_error_details r) (py "estimated_cost_usd"); decimal_of_json v with
      | Some cost => if d_nonneg cost then cost else d_zero
      | None => d_zero
      end
  end.

Definition count {A : Type} (p : A -> bool) (l : list A) : Z := Z.of_nat (length (List.filter p l)).

(** The true division of a count. *)
Definition ratio (n d : Z) : float := f_of_ratio n (Z.to_pos d).

Notation item := (BenchmarkResult * EvaluationResult)%type (only parsing).

Definition is_evaluated (i : item) : bool := bool_decide (evaluation_status i.2 = ES_evaluated).

Section Metrics.
Context {UD : UnicodeData}.

(** [_metric_group] *)
Definition metric_group (items : list item) (model_id : option pystr) (category : option BenchmarkCategory) :
    result exn MetricGroup :=
  let n := Z.of_nat (length items) in
  let full := List.filter is_evaluated items in
  let fully_count := Z.of_nat (length full) in
  let successful := count (fun i => br_success i.1) items in
  let accepted := count (fun i => default false (acceptable i.2)) full in
  total_cost ← decimal_error (d_sum default_prec (map (fun i => known_candidate_cost i.1) items));
  let mean_quality := if (fully_count =? 0)%Z then None
                      else Some (f_div (f_sum (map (fun i => default f_zero (quality_score i.2)) full))
                                  (f_of_Z fully_count)) in
  average_latency ← (if (n =? 0)%Z then Raise (Exn C_ArithmeticError)
                     else Ok (f_div (f_sum (map (fun i => br_latency_ms i.1) items)) (f_of_Z n)));
  average_cost ← decimal_error (d_div 50 total_cost (d_of_Z n));
  cost_per_acceptable ← (if (accepted =? 0)%Z then Ok None
                         else c ← decimal_error (d_div 50 total_cost (d_of_Z accepted)); Ok (Some c));
  validated (MetricGroup_validate
    (mk_MetricGroup model_id category n fully_count (n - fully_count) successful accepted mean_quality
       (if (fully_count =? 0)%Z then None else Some (ratio accepted fully_count))
       total_cost average_cost cost_per_acceptable average_latency)).

(** ** Groups *)

(** [d[key].append(x)] of a [defaultdict(list)]. *)
Definition group_add {K A : Type} `{EqDecision K} (key : A -> K) (d : list (K * list A)) (x : A) : list (K * list A) :=
  dict_set d (key x) (default [] (dict_get d (key x)) ++ [x]).

Definition group_by {K A : Type} `{EqDecision K} (key : A -> K) (l : list A) : list (K * list A) :=
  fold_left (group_add key) l [].

(** [combinations(l, 2)] *)
Fixpoint combinations2 {A : Type} (l : list A) : list (A * A) :=
  match l with
  | [] => []
  | x :: r => map (fun y => (x, y)) r ++ combinations2 r
  end.

Definition compare_models (p : MetricGroup * MetricGroup) : result exn ModelComparison :=
  let '(l, r) := p in
  cost ← decimal_error (d_add default_prec (total_estimated_cost_usd l)
           (mk_decimal (negb (d_neg (total_estimated_cost_usd r))) (d_coef (total_estimated_cost_usd r))
              (d_exp (total_estimated_cost_usd r))));
  let c := mk_ModelComparison (default [] (mg_model_id l)) (default [] (mg_model_id r))
             (match mean_quality_score l, mean_quality_score r with
              | Some a, Some b => Some (f_sub a b)
              | _, _ => None
              end) cost (f_sub (average_latency_ms l) (average_latency_ms r)) in
  _ ← validated (ModelComparison_validate c);
  Ok c.

Definition category_cmp (a b : BenchmarkCategory) : comparison :=
  str_cmp (BenchmarkCategory_value a) (BenchmarkCategory_value b).

Definition model_key (i : item) : pystr := br_model_id i.1.

(** [evaluation_by_result] *)
Definition evaluations_by_result (evaluations : list EvaluationResult) : list (N * EvaluationResult) :=
  dict_of ev_benchmark_result_id (fun e => e) evaluations.

(** The guards of [aggregate]. *)
Definition paired_evaluations (results : list BenchmarkResult) (evaluations : list EvaluationResult) :
    result exn (list item) :=
  _ ← guard_else (match results with [] => false | _ => true end) (Exn C_ValueError);
  let d := evaluations_by_result evaluations in
  _ ← guard_else (Nat.eqb (length d) (length evaluations) &&
                  same_elements (dict_keys d) (map br_result_id results)) (Exn C_ValueError);
  result_map (fun r => match dict_get d (br_result_id r) with
                       | Some e => Ok (r, e)
                       | None => Raise (Exn C_KeyError)
                       end) results.

Definition task_categories (ts : list BenchmarkTask) : list (list N * BenchmarkCategory) :=
  dict_of task_id bt_category ts.

(** The items with the category of their task. *)
Definition categorized (ts : list BenchmarkTask) (items : list item) :
    result exn (list (item * BenchmarkCategory)) :=
  result_map (fun i => match dict_get (task_categories ts) (br_task_id i.1) with
                       | Some c => Ok (i, c)
                       | None => Raise (Exn C_KeyError)
                       end) items.

(** [sorted(groups.items())]: the keys are distinct. *)
Definition sorted_groups {K A : Type} (cmp : K -> K -> comparison) (g : list (K * list A)) : list (K * list A) :=
  py_sorted (cmp_le (on_key fst cmp)) g.

Definition model_groups (items : list item) : result exn (list MetricGroup) :=
  result_map (fun g => metric_group g.2 (Some g.1) None) (sorted_groups str_cmp (group_by model_key items)).

Definition category_groups (items : list (item * BenchmarkCategory)) : result exn (list MetricGroup) :=
  result_map (fun g => metric_group (map fst g.2) (Some g.1.1) (Some g.1.2))
    (sorted_groups (lex_cmp (on_key fst str_cmp) (on_key snd category_cmp))
       (group_by (fun i => (model_key i.1, i.2)) items)).

(** [aggregate], with the time its summary is given *)
Definition aggregate (run : BenchmarkRun) (results : list BenchmarkResult) (evaluations : list EvaluationResult)
    (configuration : py_dict) (now : Z) : result exn EvaluationSummary :=
  items ← paired_evaluations results evaluations;
  with_category ← categorized (tasks (rn_dataset run)) items;
  models ← model_groups items;
  categories ← category_groups with_category;
  comps ← result_map compare_models (combinations2 models);
  all ← metric_group items None None;
  let judged := List.filter evaluation_call_made evaluations in
  judge_cost ← decimal_error (d_sum default_prec (map evaluation_cost_usd judged));
  let s := mk_EvaluationSummary (rn_run_id run) (rn_dataset_sha256 run) EVALUATION_VERSION now all models categories
             comps (total_estimated_cost_usd all) judge_cost (Z.of_nat (length judged))
             (foldr Z.add 0%Z (map evaluation_input_tokens judged))
             (foldr Z.add 0%Z (map evaluation_output_tokens judged))
             (f_sum (map evaluation_latency_ms judged)) configuration in
  _ ← validated (EvaluationSummary_validate s);
  Ok s.
End Metrics.

(** ** Grouping is a partition *)

Section Grouping.
Context {K A : Type} `{EqDecision K} (key : A -> K).

Lemma group_by_snoc l x : group_by key (l ++ [x]) = group_add key (group_by key l) x.
Proof. unfold group_by. by rewrite fold_left_app. Qed.

Lemma group_by_keys l : NoDup (dict_keys (group_by key l)).
Proof.
  induction l as [|x l IH] using rev_ind; [constructor|]. rewrite group_by_snoc. by apply dict_keys_set_nodup.
Qed.

(** A group holds the elements of its key, in their order. *)
Lemma group_by_get l k :
  default [] (dict_get (group_by key l) k) = List.filter (fun x => bool_decide (key x = k)) l.
Proof.
  induction l as [|x l IH] using rev_ind; [done|]. rewrite group_by_snoc, List.filter_app. unfold group_add.
  rewrite dict_get_set. cbn [List.filter]. case_decide as D.
  - subst k. rewrite bool_decide_eq_true_2 by done. cbn [from_option id]. by rewrite <- IH.
  - rewrite bool_decide_eq_false_2 by congruence. rewrite app_nil_r. exact IH.
Qed.

Lemma group_by_mem l k : k ∈ dict_keys (group_by key l) <-> exists x, x ∈ l /\ key x = k.
Proof.
  induction l as [|x l IH] using rev_ind.
  { split; [intros H; by apply elem_of_nil in H|intros (x & H & _); by apply elem_of_nil in H]. }
  rewrite group_by_snoc. unfold group_add. rewrite <- dict_mem_true. unfold dict_mem. rewrite dict_get_set.
  case_decide as D.
  - subst k. split; [|done]. intros _. exists x. split; [|done]. apply elem_of_app. right. by apply list_elem_of_singleton.
  - change (dict_mem (group_by key l) k = true <-> exists y, y ∈ l ++ [x] /\ key y = k).
    rewrite dict_mem_true, IH. split; intros (y & Hy & Hk); exists y; (split; [|done]).
    + apply elem_of_app. by left.
    + apply elem_of_app in Hy as [Hy|Hy]; [done|]. apply list_elem_of_singleton in Hy. congruence.
Qed.

Lemma concat_dict_set (d : list (K * list A)) k x :
  List.concat (map snd (dict_set d k (default [] (dict_get d k) ++ [x]))) ≡ₚ List.concat (map snd d) ++ [x].
Proof.
  induction d as [|[k' v] d IH]; [done|]. cbn [dict_get dict_set]. case_decide as D; cbn [map snd List.concat].
  - cbn [from_option id]. by rewrite <- !app_assoc, (Permutation_app_comm (List.concat _)).
  - rewrite IH. by rewrite app_assoc.
Qed.

Lemma group_by_partition l : List.concat (map snd (group_by key l)) ≡ₚ l.
Proof.
  induction l as [|x l IH] using rev_ind; [done|]. rewrite group_by_snoc. unfold group_add.
  rewrite concat_dict_set. by rewrite IH.
Qed.

Lemma sorted_groups_partition (cmp : K -> K -> comparison) l :
  List.concat (map snd (sorted_groups cmp (group_by key l))) ≡ₚ l.
Proof.
  rewrite <- (group_by_partition l) at 2. unfold sorted_groups.
  generalize (group_by key l). intros d. pose proof (py_sorted_perm (cmp_le (on_key fst cmp)) d) as P.
  apply (Permutation_map snd) in P.
  induction P as [|y a b P IH|y z a|a b c P1 IH1 P2 IH2]; cbn [List.concat];
    [done|by rewrite IH|by rewrite !app_assoc, (Permutation_app_comm y)|by rewrite IH1].
Qed.
End Grouping.

(** ** Counts are measures *)

(** A field of a group that measures its items, additively. *)
Record measured {UD : UnicodeData} (f : MetricGroup -> Z) (s : list item -> Z) : Prop := {
  measured_group : forall items m c g, metric_group items m c = Ok g -> f g = s items;
  measured_nil : s [] = 0%Z;
  measured_app : forall a b, s (a ++ b) = (s a + s b)%Z;
  measured_perm : forall a b, a ≡ₚ b -> s a = s b
}.

Lemma count_cons {A} (p : A -> bool) x l : count p (x :: l) = ((if p x then 1 else 0) + count p l)%Z.
Proof. unfold count. cbn [List.filter]. destruct (p x); cbn [length]; lia. Qed.

Lemma count_map {A B} (f : A -> B) p l : count p (map f l) = count (fun x => p (f x)) l.
Proof. unfold count. induction l as [|x l IH]; [done|]. cbn [map List.filter]. destruct (p (f x)); cbn [length]; lia. Qed.

Lemma count_ext {A} (p q : A -> bool) l : (forall x, x ∈ l -> p x = q x) -> count p l = count q l.
Proof.
  intros H. unfold count. f_equal. f_equal. apply filter_ext_in. intros x Hx. by apply H, list_elem_of_In.
Qed.

Lemma count_app {A} (p : A -> bool) a b : count p (a ++ b) = (count p a + count p b)%Z.
Proof. unfold count. rewrite List.filter_app, length_app. lia. Qed.

Lemma count_perm {A} (p : A -> bool) a b : a ≡ₚ b -> count p a = count p b.
Proof. intros H. unfold count. by rewrite (List_filter_perm p a b H). Qed.

Lemma count_le {A} (p : A -> bool) l : (0 <= count p l <= Z.of_nat (length l))%Z.
Proof.
  unfold count. induction l as [|x l IH]; [done|]. cbn [List.filter length].
  destruct (p x); cbn [length]; lia.
Qed.

Lemma count_split {A} (p : A -> bool) l : (count p l + count (fun x => negb (p x)) l = Z.of_nat (length l))%Z.
Proof.
  unfold count. induction l as [|x l IH]; [done|]. cbn [List.filter length].
  destruct (p x); cbn [negb length]; lia.
Qed.

Lemma filter_filter_count {A} (p q : A -> bool) l : count q (List.filter p l) = count (fun x => p x && q x) l.
Proof.
  unfold count. f_equal. induction l as [|x l IH]; [done|]. cbn [List.filter].
  destruct (p x); cbn [List.filter andb]; [|done]. destruct (q x); cbn [length]; by rewrite IH.
Qed.

Definition is_acceptable (i : item) : bool := is_evaluated i && default false (acceptable i.2).

(** What a group records of its items. *)
Record group_of (items : list item) (m : option pystr) (c : option BenchmarkCategory) (g : MetricGroup) : Prop := {
  go_model : mg_model_id g = m;
  go_category : mg_category g = c;
  go_tasks : evaluated_tasks g = Z.of_nat (length items);
  go_full : fully_evaluated_tasks g = count is_evaluated items;
  go_incomplete : incomplete_evaluations g = count (fun i => negb (is_evaluated i)) items;
  go_successful : successful_responses g = count (fun i => br_success i.1) items;
  go_acceptable : acceptable_responses g = count is_acceptable items
}.

Section Counting.
Context {UD : UnicodeData}.

Lemma metric_group_ok items m c g : metric_group items m c = Ok g -> group_of items m c g.
Proof.
  unfold metric_group. intros H. apply bind_ok in H as (total & _ & H).
  apply bind_ok in H as (latency & _ & H). apply bind_ok in H as (average & _ & H).
  apply bind_ok in H as (per & _ & H).
  match type of H with validated (MetricGroup_validate ?r) = _ => set (raw := r) in H end.
  assert (G : g = raw).
  { unfold MetricGroup_validate in H. unfold validated in H. destruct (mbind _ _) as [x|] eqn:V in H; [|discriminate].
    injection H as <-. apply bind_ok in V as ([] & _ & V). apply bind_ok in V as ([] & _ & V).
    apply bind_ok in V as ([] & _ & V). apply bind_ok in V as ([] & _ & V).
    unfold consistent_evaluation_counts in V. replace (_ && _ && _) with false in V.
    2: { symmetry. subst raw. cbn [evaluated_tasks fully_evaluated_tasks incomplete_evaluations].
         apply not_true_iff_false. intros X. bools. lia. }
    apply bind_ok in V as ([] & _ & V). apply bind_ok in V as ([] & _ & V). by injection V as <-. }
  subst g. subst raw. split; try done.
  - cbn [incomplete_evaluations]. pose proof (count_split is_evaluated items). unfold count in *. lia.
  - cbn [acceptable_responses]. apply filter_filter_count.
Qed.

Lemma count_measured f p : (forall items m c g, group_of items m c g -> f g = count p items) ->
  measured f (count p).
Proof.
  intros H. split; [|done|apply count_app|apply count_perm].
  intros items m c g G. by eapply H, metric_group_ok.
Qed.

Lemma length_measured : measured evaluated_tasks (fun items => Z.of_nat (length items)).
Proof.
  split; [|done|intros; rewrite length_app; lia|intros a b P; by rewrite (Permutation_length P)].
  intros items m c g G. by eapply go_tasks, metric_group_ok.
Qed.

(** The sum of a field over groups is the measure of all their items. *)
Definition field_sum (f : MetricGroup -> Z) (gs : list MetricGroup) : Z := foldr Z.add 0%Z (map f gs).

Lemma measured_concat f s (Hm : measured f s) (ls : list (list item)) gs :
  Forall2 (fun l g => exists m c, metric_group l m c = Ok g) ls gs -> field_sum f gs = s (List.concat ls).
Proof.
  destruct Hm as [Hg H0 Ha _]. induction 1 as [|l g ls gs (m & c & E) _ IH]; [done|].
  unfold field_sum in *. cbn [map foldr List.concat]. by rewrite Ha, IH, (Hg _ _ _ _ E).
Qed.

Lemma model_groups_sum f s (Hm : measured f s) items gs : model_groups items = Ok gs -> field_sum f gs = s items.
Proof.
  intros E. apply result_map_ok in E.
  rewrite (measured_concat f s Hm (map snd (sorted_groups str_cmp (group_by model_key items)))).
  - by apply Hm, sorted_groups_partition.
  - apply Forall2_fmap_l. eapply Forall2_impl; [exact E|]. intros g x Hx. exists (Some g.1), None. exact Hx.
Qed.

Lemma concat_map_fst {A B} (ls : list (list (A * B))) : List.concat (map (map fst) ls) = map fst (List.concat ls).
Proof. induction ls as [|l ls IH]; [done|]. cbn. by rewrite IH, map_app. Qed.

Lemma category_groups_sum f s (Hm : measured f s) items gs :
  category_groups items = Ok gs -> field_sum f gs = s (map fst items).
Proof.
  intros E. apply result_map_ok in E.
  rewrite (measured_concat f s Hm (map (map fst) (map snd (sorted_groups
    (lex_cmp (on_key fst str_cmp) (on_key snd category_cmp)) (group_by (fun i => (model_key i.1, i.2)) items))))).
  - apply Hm. rewrite concat_map_fst. apply Permutation_map, sorted_groups_partition.
  - rewrite map_map. apply Forall2_fmap_l. eapply Forall2_impl; [exact E|]. intros g x Hx. exists (Some g.1.1), (Some g.1.2). exact Hx.
Qed.
End Counting.

(** ** The guards *)

(** The evaluations match the results one to one. *)
Definition matching (results : list BenchmarkResult) (evaluations : list EvaluationResult) : Prop :=
  results <> [] /\ NoDup (map ev_benchmark_result_id evaluations) /\
  forall id, id ∈ map ev_benchmark_result_id evaluations <-> id ∈ map br_result_id results.

(** The pairs: each result with the evaluation that names it. *)
Definition pairing (results : list BenchmarkResult) (evaluations : list EvaluationResult) (items : list item) : Prop :=
  map fst items = results /\
  Forall (fun i => i.2 ∈ evaluations /\ ev_benchmark_result_id i.2 = br_result_id i.1) items.

Lemma paired_guard results evaluations :
  match paired_evaluations results evaluations with
  | Ok items => matching results evaluations /\ pairing results evaluations items
  | Raise e => ~ matching results evaluations /\ e = Exn C_ValueError
  end.
Proof.
  unfold paired_evaluations, guard_else, matching. destruct results as [|r0 rs]; [by split; [intros [H _]|]|].
  set (results := r0 :: rs). cbn [mbind result_mbind result_bind].
  set (d := evaluations_by_result evaluations).
  match goal with |- context [(?a && ?b)] => assert (Hs : b = true <->
    forall id, id ∈ map ev_benchmark_result_id evaluations <-> id ∈ map br_result_id results) end.
  { rewrite same_elements_true. subst d. unfold evaluations_by_result. by setoid_rewrite dict_of_mem. }
  assert (Hl : (length d =? length evaluations)%nat = true <-> NoDup (map ev_benchmark_result_id evaluations))
    by (rewrite Nat.eqb_eq; apply dict_of_length).
  match goal with |- context [(?a && ?b)] => destruct (a && b) eqn:G end.
  2: { split; [|done]. intros (_ & Hn & Hi). apply (proj2 Hl) in Hn. pose proof (proj2 Hs Hi) as Hi'. by rewrite Hn, Hi' in G. }
  apply andb_true_iff in G as [G1 G2]. apply (proj1 Hl) in G1. pose proof (proj1 Hs G2) as G3. clear G2. rename G3 into G2.
  assert (M : results <> [] /\ NoDup (map ev_benchmark_result_id evaluations) /\
    (forall id, id ∈ map ev_benchmark_result_id evaluations <-> id ∈ map br_result_id results)) by done.
  destruct (result_map _ results) as [items|e] eqn:R.
  - split; [exact M|]. apply result_map_ok in R. unfold pairing. clear M Hl Hs G1 G2. revert R.
    generalize results. clear results. intros results R.
    induction R as [|r i rs' is' Hi _ [IH1 IH2]]; [done|].
    destruct (dict_get d (br_result_id r)) as [e|] eqn:Eg; [|discriminate]. injection Hi as <-.
    cbn [map fst]. split; [by rewrite IH1|]. constructor; [|done]. cbn [fst snd].
    apply dict_of_get in Eg as (x & Hx & Hk & <-). done.
  - apply result_map_raise in R as (r & Hr & He). exfalso.
    assert (K : br_result_id r ∈ dict_keys d).
    { apply dict_of_mem, G2. by apply list_elem_of_fmap_2. }
    apply dict_mem_true in K. unfold dict_mem in K. by destruct (dict_get d (br_result_id r)).
Qed.

(** ** The summary *)

Section Summary.
Context {UD : UnicodeData}.

Lemma sorted_groups_keys {K A} (cmp : K -> K -> comparison) `{!TotalCmp cmp} (d : list (K * list A)) :
  StronglySorted (fun a b => cmp_le cmp a b = true) (map fst (sorted_groups cmp d)).
Proof.
  unfold sorted_groups.
  pose proof (py_sorted_sorted (on_key fst cmp) d) as S. induction S as [|g gs _ IH F]; [constructor|].
  cbn [map]. constructor; [done|]. by apply Forall_fmap.
Qed.

Lemma model_groups_spec items gs : model_groups items = Ok gs ->
  exists ids, NoDup ids /\ StronglySorted (fun a b => cmp_le str_cmp a b = true) ids /\
    (forall m, m ∈ ids <-> m ∈ map model_key items) /\
    Forall2 (fun m g => group_of (List.filter (fun i => bool_decide (model_key i = m)) items) (Some m) None g) ids gs.
Proof.
  intros E. apply result_map_ok in E. set (d := sorted_groups str_cmp (group_by model_key items)) in *.
  assert (P : d ≡ₚ group_by model_key items) by apply py_sorted_perm.
  exists (map fst d). split; [|split; [apply sorted_groups_keys, _|split]].
  - rewrite (Permutation_map fst P). apply group_by_keys.
  - intros m. rewrite (Permutation_map fst P). change (map fst ?x) with (dict_keys x). rewrite group_by_mem.
    rewrite list_elem_of_fmap. naive_solver.
  - assert (G : Forall (fun g => g ∈ group_by model_key items) d).
    { apply Forall_forall. intros g Hg. by rewrite P in Hg. }
    clearbody d. clear P. revert G. induction E as [|g x l gs Hx _ IH]; intros G; [constructor|].
    apply Forall_cons in G as [Hg G]. cbn [map]. constructor; [|by apply IH].
    destruct g as [m l0]. cbn [fst snd] in *. apply metric_group_ok in Hx.
    apply dict_get_nodup in Hg; [|apply group_by_keys].
    pose proof (group_by_get model_key items m) as F. rewrite Hg in F. cbn [from_option id] in F. by rewrite <- F.
Qed.
End Summary.

(** The counting fields of a group. *)
Definition count_fields : list (MetricGroup -> Z) :=
  [evaluated_tasks; fully_evaluated_tasks; incomplete_evaluations; successful_responses; acceptable_responses].

Lemma count_fields_measured {UD : UnicodeData} : Forall (fun f => exists s, measured f s) count_fields.
Proof.
  repeat constructor; eexists; [apply length_measured|..]; apply count_measured; intros ???? [];
    [apply go_full0|apply go_incomplete0|apply go_successful0|apply go_acceptable0].
Qed.

Lemma categorized_fst {UD : UnicodeData} ts items l : categorized ts items = Ok l -> map fst l = items.
Proof.
  intros E. apply result_map_ok in E. induction E as [|i x items l Hi _ IH]; [done|].
  cbn [map]. rewrite IH. f_equal. destruct (dict_get _ _); [by injection Hi as <-|discriminate].
Qed.

(** A summary accounts for every result exactly once.  Each result is paired
    with the evaluation that names it; the overall group counts all pairs,
    there is one group per model that has results, sorted by model, over the
    pairs of that model; and for tasks, full and incomplete evaluations,
    successes and acceptable responses, the sums over the models and over the
    models and categories are the overall number. *)
Theorem aggregate_accounts `{UD : UnicodeData} run results evaluations conf now s :
  aggregate run results evaluations conf now = Ok s ->
  exists items, pairing results evaluations items /\
    group_of items None None (overall s) /\
    Forall (fun f => field_sum f (by_model s) = f (overall s) /\ field_sum f (by_model_category s) = f (overall s))
      count_fields /\
    (exists ids, NoDup ids /\ StronglySorted (fun a b => cmp_le str_cmp a b = true) ids /\
      (forall m, m ∈ ids <-> m ∈ map br_model_id results) /\
      Forall2 (fun m g => group_of (List.filter (fun i => bool_decide (model_key i = m)) items) (Some m) None g)
        ids (by_model s)) /\
    candidate_inference_cost_usd s = total_estimated_cost_usd (overall s) /\
    judge_calls s = count evaluation_call_made evaluations.
Proof.
  unfold aggregate. intros H. apply bind_ok in H as (items & Hi & H).
  apply bind_ok in H as (cats & Hc & H). apply bind_ok in H as (models & Hm & H).
  apply bind_ok in H as (categories & Hg & H). apply bind_ok in H as (comps & _ & H).
  apply bind_ok in H as (all & Ha & H). apply bind_ok in H as (cost & _ & H).
  apply bind_ok in H as ([] & _ & H). injection H as <-.
  cbn [overall by_model by_model_category candidate_inference_cost_usd total_estimated_cost_usd judge_calls].
  pose proof (paired_guard results evaluations) as G. rewrite Hi in G. destruct G as [_ Hp].
  exists items. split; [exact Hp|]. split; [by apply metric_group_ok|].
  split; [|split; [|done]].
  - eapply Forall_impl; [exact count_fields_measured|]. intros f (m & Hf).
    rewrite (measured_group _ _ Hf _ _ _ _ Ha), (model_groups_sum f m Hf _ _ Hm).
    rewrite (category_groups_sum f m Hf _ _ Hg), (categorized_fst _ _ _ Hc). done.
  - destruct (model_groups_spec _ _ Hm) as (ids & Hn & Hs & He & HF). exists ids.
    split; [done|]. split; [done|]. split; [|done]. intros m. rewrite He. destruct Hp as [<- _].
    unfold model_key. by rewrite map_map.
Qed.

(** Aggregation refuses, with [ValueError], exactly the evaluations that do not
    match the results one to one: an empty run, two evaluations of one result,
    a result without evaluation, an evaluation of an unknown result. *)
Theorem aggregate_refuses_mismatch `{UD : UnicodeData} run results evaluations conf now :
  (~ matching results evaluations -> aggregate run results evaluations conf now = Raise (Exn C_ValueError)) /\
  (is_ok (aggregate run results evaluations conf now) = true -> matching results evaluations).
Proof.
  pose proof (paired_guard results evaluations) as G. unfold aggregate.
  destruct (paired_evaluations results evaluations) as [items|e].
  - destruct G as [M _]. split; [by intros []|done].
  - destruct G as [M ->]. split; done.
Qed.

(** ** An example: two models, one task *)

Definition example_result (id : N) (model : string) : BenchmarkResult :=
  mk_BenchmarkResult id 1%N (py "r") (py "t1") (py model) 0 false None (Some (py "gateway_timeout"))
    [(py "estimated_cost_usd", PJStr (py "0.25"))] f_one.

Definition example_evaluation (id : N) (model : string) (accepted : bool) : EvaluationResult :=
  let q := if accepted then f_one else f_zero in
  mk_EvaluationResult id 1%N (py "t1") (py model) (py "e") EVALUATION_VERSION 0 ES_evaluated (Some q) f_one
    (Some accepted) [] [] [] false 0 0 f_zero d_zero.

Definition example_aggregate_run : BenchmarkRun :=
  mk_BenchmarkRun 1%N 0 example_dataset (py "00") [py "t1"] []
    (mk_BenchmarkConfiguration [] [] [] [] [] [] [] [] [] [] false []).

Definition example_results : list BenchmarkResult := [example_result 7 "b"; example_result 8 "a"].
Definition example_evaluations : list EvaluationResult := [example_evaluation 8 "a" false; example_evaluation 7 "b" true].

Lemma aggregate_accounts_witness : exists s,
  @aggregate ascii_tables example_aggregate_run example_results example_evaluations [] 0 = Ok s /\
  candidate_inference_cost_usd s = mk_decimal false 50 (-2) /\ field_sum acceptable_responses (by_model s) = 1%Z.
Proof.
  assert (V : exists s, @aggregate ascii_tables example_aggregate_run example_results example_evaluations [] 0 = Ok s /\
    candidate_inference_cost_usd s = mk_decimal false 50 (-2) /\ acceptable_responses (overall s) = 1%Z).
  { eexists. split; [vm_compute; reflexivity|]. split; reflexivity. }
  destruct V as (s & E & C & A). exists s. split; [exact E|]. split; [exact C|].
  destruct (aggregate_accounts _ _ _ _ _ _ E) as (items & _ & _ & F & _).
  unfold count_fields in F. rewrite !Forall_cons in F.
  destruct F as (_ & _ & _ & _ & [F _] & _). rewrite F. exact A.
Defined.

Lemma aggregate_refuses_mismatch_witness :
  ~ matching example_results [example_evaluation 7 "b" true] /\
  @aggregate ascii_tables example_aggregate_run example_results [example_evaluation 7 "b" true] [] 0 =
    Raise (Exn C_ValueError).
Proof.
  assert (N : ~ matching example_results [example_evaluation 7 "b" true]).
  { intros (_ & _ & H). specialize (H 8%N). vm_compute in H.
    apply proj2 in H. specialize (H ltac:(apply list_elem_of_further, list_elem_of_here)).
    apply list_elem_of_singleton in H. discriminate H. }
  split; [exact N|]. exact (proj1 (@aggregate_refuses_mismatch ascii_tables example_aggregate_run example_results
    [example_evaluation 7 "b" true] [] 0%Z) N).
Defined.
