(* ===== verification/SummarySpec.v ===== *)
(** * Proposition specifications of summaries ([benchmarks/summarization_spec.py])

    What a summary must say: weighted propositions with the equivalences and
    derivations that are accepted for them, their validators, and the exact
    weighted coverage of a set of verdicts. *)
From Stdlib Require Import QArith Qreduction Qcanon Lqa.
From S2P Require Import Prelude PyStr Schemas Errors BenchmarkModels.

(** ** Enumerations *)

Inductive RequirementType := RT_ATOMIC | RT_COHESIVE_COMPOSITE.

Inductive EntailmentVerdict := ENTAILED | NOT_ENTAILED | AMBIGUOUS.

#[export] Instance EntailmentVerdict_eq_dec : EqDecision EntailmentVerdict.
Proof. solve_decision. Defined.

Inductive DerivationPolicy := DP_ALLOWED | DP_NOT_ALLOWED | DP_CONDITIONAL.

#[export] Instance DerivationPolicy_eq_dec : EqDecision DerivationPolicy.
Proof. solve_decision. Defined.

Inductive AnchorKind :=
| AK_NUMBER | AK_CURRENCY | AK_PERCENTAGE | AK_DATE | AK_TIME | AK_NAMED_ENTITY | AK_BOOLEAN_STATE | AK_EXPLICIT_LABEL.

Inductive MaterialErrorCategory :=
| UNSUPPORTED_MATERIAL_CLAIM | CONTRADICTION | UNSUPPORTED_CAUSATION | ATTRIBUTION_ERROR
| QUANTITY_OR_TIME_ERROR | CERTAINTY_DISTORTION.

#[export] Instance MaterialErrorCategory_eq_dec : EqDecision MaterialErrorCategory.
Proof. solve_decision. Defined.

Definition all_error_categories : list MaterialErrorCategory :=
  [UNSUPPORTED_MATERIAL_CLAIM; CONTRADICTION; UNSUPPORTED_CAUSATION; ATTRIBUTION_ERROR; QUANTITY_OR_TIME_ERROR;
   CERTAINTY_DISTORTION].

Inductive Materiality := M_material | M_borderline.

#[export] Instance Materiality_eq_dec : EqDecision Materiality.
Proof. solve_decision. Defined.

(** ** Records *)

Definition nonempty_str (s : pystr) : bool := Nat.leb 1 (length s).

Record RationalWeight := mk_RationalWeight { numerator : Z; denominator : Z }.

Definition RationalWeight_ok (w : RationalWeight) : bool := (0 <? numerator w)%Z && (0 <? denominator w)%Z.

(** [fraction] *)
Definition fraction (w : RationalWeight) : Q := Qmake (numerator w) (Z.to_pos (denominator w)).

Record DeterministicAnchor := mk_DeterministicAnchor {
  an_kind : AnchorKind;
  an_value : pystr;
  an_normalized_value : pystr;
  an_required_exactly : bool
}.

Definition DeterministicAnchor_ok (a : DeterministicAnchor) : bool :=
  nonempty_str (an_value a) && nonempty_str (an_normalized_value a).

(** The [direction] of an equivalence has one value. *)
Record DirectionalEquivalence := mk_DirectionalEquivalence {
  alternative : pystr;
  preserves_information : pystr
}.

Definition DirectionalEquivalence_ok (e : DirectionalEquivalence) : bool :=
  nonempty_str (alternative e) && nonempty_str (preserves_information e).

Record DerivationRule := mk_DerivationRule {
  derivation_id : pystr;
  dr_policy : DerivationPolicy;
  dr_expression : pystr;
  requires_proposition_ids : list pystr;
  dr_rationale : pystr
}.

(** [conditional_rules_declare_dependencies] *)
Definition conditional_rules_declare_dependencies (r : DerivationRule) : result pystr unit :=
  let conditional := bool_decide (dr_policy r = DP_CONDITIONAL) in
  let some := negb (match requires_proposition_ids r with [] => true | _ => false end) in
  _ ← check (negb conditional || some) (py "conditional derivations require proposition dependencies");
  check (conditional || negb some) (py "only conditional derivations may declare dependencies").

Definition DerivationRule_validate (r : DerivationRule) : result pystr unit :=
  _ ← check (slug (derivation_id r) && nonempty_str (dr_expression r) && nonempty_str (dr_rationale r)) field_error;
  conditional_rules_declare_dependencies r.

(** [source_evidence] is its [quote]. *)
Record SemanticProposition := mk_SemanticProposition {
  sp_proposition_id : pystr;
  legacy_requirement_index : Z;
  sp_description : pystr;
  requirement_type : RequirementType;
  sp_weight : RationalWeight;
  source_quote : pystr;
  deterministic_anchors : list DeterministicAnchor;
  accepted_equivalences : list DirectionalEquivalence;
  derivations : list DerivationRule;
  sp_notes : pystr
}.

Definition SemanticProposition_validate (p : SemanticProposition) : result pystr unit :=
  _ ← check (slug (sp_proposition_id p) && (1 <=? legacy_requirement_index p)%Z && nonempty_str (sp_description p))
        field_error;
  _ ← check (RationalWeight_ok (sp_weight p) && nonempty_str (source_quote p)) field_error;
  _ ← check (forallb DeterministicAnchor_ok (deterministic_anchors p) &&
             forallb DirectionalEquivalence_ok (accepted_equivalences p)) field_error;
  _ ← result_map DerivationRule_validate (derivations p);
  Ok tt.

Inductive ReviewDecision := RD_split | RD_retain.

Record CompositeReview := mk_CompositeReview {
  cr_legacy_requirement_index : Z;
  cr_old_requirement : pystr;
  cr_decision : ReviewDecision;
  cr_resulting_proposition_ids : list pystr;
  cr_rationale : pystr
}.

Definition CompositeReview_ok (r : CompositeReview) : bool :=
  (1 <=? cr_legacy_requirement_index r)%Z && nonempty_str (cr_old_requirement r) &&
  Nat.leb 1 (length (cr_resulting_proposition_ids r)) && nonempty_str (cr_rationale r).

Record AmbiguityResolution := mk_AmbiguityResolution {
  ar_old_requirement : pystr;
  ar_ambiguity : pystr;
  ar_resolution : pystr;
  ar_new_proposition_ids : list pystr;
  ar_rationale : pystr
}.

Definition AmbiguityResolution_ok (r : AmbiguityResolution) : bool :=
  nonempty_str (ar_old_requirement r) && nonempty_str (ar_ambiguity r) && nonempty_str (ar_resolution r) &&
  Nat.leb 1 (length (ar_new_proposition_ids r)) && nonempty_str (ar_rationale r).

Record SummarizationTaskSpecification := mk_SummarizationTaskSpecification {
  specification_id : pystr;
  canonical_task_id : pystr;
  applies_to : list pystr;
  source_text : pystr;
  legacy_requirements : list pystr;
  propositions : list SemanticProposition;
  composite_reviews : list CompositeReview;
  ambiguity_resolutions : list AmbiguityResolution;
  material_semantic_traps : list pystr
}.

Definition weight_of (p : SemanticProposition) : Q := fraction (sp_weight p).

(** [sum(..., Fraction())] *)
Definition sum_fractions (l : list Q) : Q := fold_left Qplus l 0%Q.

(** [stable_unique_weighted_propositions] *)
Definition stable_unique_weighted_propositions (t : SummarizationTaskSpecification) : result pystr unit :=
  _ ← check (all_distinct (map sp_proposition_id (propositions t)))
        (py "proposition IDs must be unique within a task");
  check (Qeq_bool (sum_fractions (map weight_of (propositions t)))
           (inject_Z (Z.of_nat (length (legacy_requirements t)))))
    (py "splits must preserve the legacy task's total semantic weight").

Definition SummarizationTaskSpecification_validate (t : SummarizationTaskSpecification) : result pystr unit :=
  _ ← check (slug (specification_id t) && Nat.leb 1 (length (applies_to t)) && nonempty_str (source_text t)) field_error;
  _ ← check (Nat.leb 1 (length (legacy_requirements t)) && Nat.leb 1 (length (propositions t))) field_error;
  _ ← result_map SemanticProposition_validate (propositions t);
  _ ← check (forallb CompositeReview_ok (composite_reviews t) &&
             forallb AmbiguityResolution_ok (ambiguity_resolutions t)) field_error;
  stable_unique_weighted_propositions t.

Record MaterialErrorFinding := mk_MaterialErrorFinding {
  candidate_claim : pystr;
  finding_evidence : pystr;
  finding_category : MaterialErrorCategory;
  materiality : Materiality;
  finding_reason : pystr
}.

#[export] Instance MaterialErrorFinding_eq_dec : EqDecision MaterialErrorFinding.
Proof. solve_decision. Defined.

Definition MaterialErrorFinding_ok (f : MaterialErrorFinding) : bool :=
  nonempty_str (candidate_claim f) && nonempty_str (finding_evidence f) && nonempty_str (finding_reason f).

Record MaterialErrorContract := mk_MaterialErrorContract {
  required_fields : list pystr;
  mc_categories : list MaterialErrorCategory;
  interpretive_policy : pystr
}.

(** The defaults of the contract. *)
Definition default_contract : MaterialErrorContract :=
  mk_MaterialErrorContract
    [py "candidate_claim"; py "source_evidence"; py "category"; py "materiality"; py "reason"]
    all_error_categories
    (py "Clearly supported characterizations are not errors; clearly unsupported substantive assertions are material errors; genuinely borderline interpretations are marked borderline and produce an AMBIGUOUS evaluation requiring review.").

Record PropositionSpecification := mk_PropositionSpecification {
  specification_version : pystr;
  source_benchmarks : list pystr;
  ps_tasks : list SummarizationTaskSpecification;
  material_error_categories : list MaterialErrorCategory;
  material_error_contract : MaterialErrorContract
}.

(** [unique_specification_and_proposition_ids] *)
Definition unique_specification_and_proposition_ids (s : PropositionSpecification) : result pystr unit :=
  check (all_distinct (map specification_id (ps_tasks s)) &&
         all_distinct (List.concat (map (fun t => map sp_proposition_id (propositions t)) (ps_tasks s))))
    (py "specification and proposition IDs must be globally unique").

Definition PropositionSpecification_validate (s : PropositionSpecification) : result pystr unit :=
  _ ← result_map SummarizationTaskSpecification_validate (ps_tasks s);
  unique_specification_and_proposition_ids s.

(** ** Coverage *)

Inductive CoverageResult :=
| Coverage_incomplete (ambiguous_proposition_ids : list pystr)
| Coverage_complete (coverage_numerator coverage_denominator : Z).

(** [weighted_coverage]: [verdicts] is a dictionary. *)
Definition weighted_coverage (t : SummarizationTaskSpecification) (verdicts : list (list N * EntailmentVerdict)) :
    result exn CoverageResult :=
  _ ← guard_else (same_elements (dict_keys verdicts) (map sp_proposition_id (propositions t))) (Exn C_ValueError);
  match List.filter (fun kv => bool_decide (kv.2 = AMBIGUOUS)) verdicts with
  | [] =>
      let weights := dict_of sp_proposition_id weight_of (propositions t) in
      earned ← result_map (fun kv => match dict_get weights kv.1 with Some w => Ok w | None => Raise (Exn C_KeyError) end)
                 (List.filter (fun kv => bool_decide (kv.2 = ENTAILED)) verdicts);
      let total := sum_fractions (dict_values weights) in
      if Qeq_bool total 0 then Raise (Exn C_ArithmeticError)
      else
        let coverage := Qred (sum_fractions earned / total) in
        Ok (Coverage_complete (Qnum coverage) (Z.pos (Qden coverage)))
  | ambiguous => Ok (Coverage_incomplete (py_sorted (cmp_le str_cmp) (map fst ambiguous)))
  end.

(** ** Sums of fractions *)

Lemma sum_from l : forall q, (fold_left Qplus l q == q + sum_fractions l)%Q.
Proof.
  unfold sum_fractions. induction l as [|x l IH]; intros q; cbn [fold_left]; [ring|].
  rewrite IH, (IH (0 + x)%Q). ring.
Qed.

Lemma sum_cons x l : (sum_fractions (x :: l) == x + sum_fractions l)%Q.
Proof. unfold sum_fractions at 1. cbn [fold_left]. rewrite sum_from. ring. Qed.

Lemma sum_perm l k : l ≡ₚ k -> (sum_fractions l == sum_fractions k)%Q.
Proof.
  induction 1 as [|x l k _ IH|x y l|l k m _ IH1 _ IH2]; [done| | |by rewrite IH1].
  - by rewrite !sum_cons, IH.
  - rewrite !sum_cons. ring.
Qed.

Lemma sum_nonneg l : Forall (fun q => 0 < q)%Q l -> (0 <= sum_fractions l)%Q.
Proof. induction 1 as [|x l Hx _ IH]; [apply Qle_refl|]. rewrite sum_cons. lra. Qed.

Lemma sum_pos l : l <> [] -> Forall (fun q => 0 < q)%Q l -> (0 < sum_fractions l)%Q.
Proof. intros Hn. destruct 1 as [|x l Hx Hl]; [done|]. rewrite sum_cons. pose proof (sum_nonneg l Hl). lra. Qed.

(** A part of a list of positive numbers sums to less, unless it is everything. *)
Lemma sum_filter {A} (f : A -> bool) (w : A -> Q) l : Forall (fun x => 0 < w x)%Q l ->
  (sum_fractions (map w (List.filter f l)) <= sum_fractions (map w l))%Q /\
  ((sum_fractions (map w (List.filter f l)) == sum_fractions (map w l))%Q <-> forallb f l = true).
Proof.
  induction 1 as [|x l Hx Hl [IH1 IH2]]; [split; [apply Qle_refl|by split]|]. cbn [List.filter forallb map].
  destruct (f x); cbn [andb map]; rewrite !sum_cons.
  - split; [lra|]. rewrite <- IH2. split; intros H; lra.
  - split; [lra|]. split; [intros H; lra|done].
Qed.

(** ** Coverage is exact *)

Section Coverage.
Context (t : SummarizationTaskSpecification) (verdicts : list (list N * EntailmentVerdict)).
Context (valid : SummarizationTaskSpecification_validate t = Ok tt) (dict : NoDup (dict_keys verdicts)).

Lemma task_facts : NoDup (map sp_proposition_id (propositions t)) /\ propositions t <> [] /\
  Forall (fun p => 0 < weight_of p)%Q (propositions t) /\
  (sum_fractions (map weight_of (propositions t)) == inject_Z (Z.of_nat (length (legacy_requirements t))))%Q.
Proof.
  unfold SummarizationTaskSpecification_validate, check, guard_else in valid.
  apply bind_ok in valid as ([] & _ & V). apply bind_ok in V as ([] & Hn & V).
  apply bind_ok in V as (us & Hp & V). apply bind_ok in V as ([] & _ & V).
  unfold stable_unique_weighted_propositions, check, guard_else in V. apply bind_ok in V as ([] & Hd & Hs).
  destruct (all_distinct _) eqn:D; [|discriminate]. destruct (Qeq_bool _ _) eqn:Q; [|discriminate].
  split; [by apply all_distinct_true|]. split.
  { intros E. rewrite E, andb_false_r in Hn. discriminate Hn. }
  split; [|by apply Qeq_bool_iff].
  apply result_map_ok in Hp. clear -Hp. induction Hp as [|p u l us H _ IH]; constructor; [|done].
  unfold SemanticProposition_validate, check, guard_else in H. apply bind_ok in H as ([] & _ & H).
  apply bind_ok in H as ([] & H & _). destruct (RationalWeight_ok _ && _) eqn:W; [|discriminate].
  unfold RationalWeight_ok in W. bools. unfold weight_of, fraction, Qlt. cbn [Qnum Qden]. lia.
Qed.

(** The verdict of a proposition. *)
Definition verdict_of (p : SemanticProposition) : option EntailmentVerdict := dict_get verdicts (sp_proposition_id p).

Definition is_entailed (p : SemanticProposition) : bool := bool_decide (verdict_of p = Some ENTAILED).

Definition covers : Prop := forall id, id ∈ dict_keys verdicts <-> id ∈ map sp_proposition_id (propositions t).

(** The entailed verdicts are those of the entailed propositions. *)
Lemma entailed_perm : covers ->
  map fst (List.filter (fun kv => bool_decide (kv.2 = ENTAILED)) verdicts) ≡ₚ
  map sp_proposition_id (List.filter is_entailed (propositions t)).
Proof.
  intros C. destruct task_facts as (Hn & _). apply NoDup_Permutation.
  - clear -dict. induction verdicts as [|[k v] l IH]; [constructor|]. unfold dict_keys in dict. cbn in dict.
    apply NoDup_cons in dict as [Hk Hl]. cbn [List.filter]. destruct (bool_decide _); [|by apply IH].
    cbn [map fst]. constructor; [|by apply IH]. intros K. apply Hk. apply list_elem_of_fmap in K as (x & -> & Hx).
    apply list_elem_of_In, filter_In in Hx as [Hx _]. apply list_elem_of_fmap. exists x. by rewrite list_elem_of_In.
  - clear -Hn. induction (propositions t) as [|p l IH]; [constructor|]. cbn [map] in Hn.
    apply NoDup_cons in Hn as [Hk Hl]. cbn [List.filter]. destruct (is_entailed p); [|by apply IH].
    cbn [map]. constructor; [|by apply IH]. intros K. apply Hk. apply list_elem_of_fmap in K as (x & -> & Hx).
    apply list_elem_of_In, filter_In in Hx as [Hx _]. apply list_elem_of_fmap. exists x. by rewrite list_elem_of_In.
  - intros id. rewrite !list_elem_of_fmap. setoid_rewrite list_elem_of_In. setoid_rewrite filter_In. split.
    + intros ([k v] & -> & Hin & Hv). cbn [fst snd] in *. bools. subst v. apply list_elem_of_In in Hin.
      pose proof (dict_get_nodup _ _ _ dict Hin) as G.
      assert (K : k ∈ map sp_proposition_id (propositions t)).
      { apply C. by apply (list_elem_of_fmap_2 fst) in Hin. }
      apply list_elem_of_fmap in K as (p & -> & Hp). exists p. split; [done|]. split; [by apply list_elem_of_In|].
      unfold is_entailed, verdict_of. by apply bool_decide_eq_true.
    + intros (p & -> & Hp & He). unfold is_entailed, verdict_of in He. bools.
      apply dict_get_some_in in He. eexists. split; [|split; [by apply list_elem_of_In|]]; [done|by apply bool_decide_eq_true].
Qed.

Lemma weight_lookup p : p ∈ propositions t ->
  dict_get (dict_of sp_proposition_id weight_of (propositions t)) (sp_proposition_id p) = Some (weight_of p).
Proof.
  intros Hp. destruct task_facts as (Hn & _). rewrite dict_of_distinct by done.
  apply dict_get_nodup; [unfold dict_keys; by rewrite <- list_fmap_compose|].
  apply list_elem_of_fmap. by exists p.
Qed.

Lemma earned_weights : covers ->
  exists ws, result_map (fun kv => match dict_get (dict_of sp_proposition_id weight_of (propositions t)) kv.1 with
                                   | Some w => Ok w
                                   | None => Raise (Exn C_KeyError)
                                   end) (List.filter (fun kv => bool_decide (kv.2 = ENTAILED)) verdicts) = Ok ws /\
  ws ≡ₚ map weight_of (List.filter is_entailed (propositions t)).
Proof.
  intros C. pose proof (entailed_perm C) as P.
  set (entailed := List.filter (fun kv => bool_decide (kv.2 = ENTAILED)) verdicts) in *.
  set (weights := dict_of sp_proposition_id weight_of (propositions t)).
  assert (F : Forall (fun k => exists p, p ∈ propositions t /\ sp_proposition_id p = k) (map fst entailed)).
  { rewrite P. apply Forall_fmap, Forall_forall. intros p Hp. exists p. split; [|done].
    apply list_elem_of_In, filter_In in Hp as [Hp _]. by apply list_elem_of_In. }
  assert (R : forall l, Forall (fun k => exists p, p ∈ propositions t /\ sp_proposition_id p = k) (map fst l) ->
    result_map (fun kv : list N * EntailmentVerdict => match dict_get weights kv.1 with
      | Some w => Ok w | None => Raise (Exn C_KeyError) end) l = Ok (map (fun k => default 0%Q (dict_get weights k)) (map fst l))).
  { induction l as [|[k v] l IH]; [done|]. cbn [map fst]. intros K. apply Forall_cons in K as [(p & Hp & <-) K].
    cbn [result_map fst]. subst weights. rewrite (weight_lookup p Hp). by rewrite IH. }
  eexists. split; [by apply R|]. rewrite P. rewrite map_map.
  erewrite map_ext_in; [reflexivity|]. intros p Hp. apply filter_In in Hp as [Hp _]. apply list_elem_of_In in Hp.
  subst weights. by rewrite (weight_lookup p Hp).
Qed.
End Coverage.

(** The weight of the propositions that are entailed. *)
Definition entailed_weight (t : SummarizationTaskSpecification) (verdicts : list (list N * EntailmentVerdict)) : Q :=
  sum_fractions (map weight_of (List.filter (is_entailed verdicts) (propositions t))).

(** Coverage is exact.  For a valid task, verdicts that do not name exactly its
    propositions are refused; if some are ambiguous, the coverage is incomplete
    and lists exactly those, sorted; otherwise it is a fraction in lowest terms
    between zero and one, which times the number of the task's requirements is
    the weight of the entailed propositions, and is one exactly when all are
    entailed. *)
Theorem weighted_coverage_exact t verdicts :
  SummarizationTaskSpecification_validate t = Ok tt -> NoDup (dict_keys verdicts) ->
  match weighted_coverage t verdicts with
  | Raise e => e = Exn C_ValueError /\ ~ covers t verdicts
  | Ok (Coverage_incomplete ids) => covers t verdicts /\ ids <> [] /\
      StronglySorted (fun a b => cmp_le str_cmp a b = true) ids /\ forall id, id ∈ ids <-> (id, AMBIGUOUS) ∈ verdicts
  | Ok (Coverage_complete n d) => covers t verdicts /\ (forall id, (id, AMBIGUOUS) ∉ verdicts) /\
      (0 <= n <= d)%Z /\ (0 < d)%Z /\ Z.gcd n d = 1%Z /\
      (Qmake n (Z.to_pos d) * inject_Z (Z.of_nat (length (legacy_requirements t))) == entailed_weight t verdicts)%Q /\
      (n = d <-> forallb (is_entailed verdicts) (propositions t) = true)
  end.
Proof.
  intros V D. unfold weighted_coverage, guard_else.
  destruct (same_elements _ _) eqn:S; cbn [mbind result_mbind result_bind].
  2: { split; [done|]. intros C. rewrite (proj2 (same_elements_true _ _) C) in S. discriminate. }
  pose proof (proj1 (same_elements_true _ _) S) as C. clear S. change (covers t verdicts) in C.
  assert (A : forall id, id ∈ map fst (List.filter (fun kv => bool_decide (kv.2 = AMBIGUOUS)) verdicts) <-> (id, AMBIGUOUS) ∈ verdicts).
  { intros id. rewrite list_elem_of_fmap. setoid_rewrite list_elem_of_In. setoid_rewrite filter_In. split.
    - intros ([k v] & -> & Hin & Hv). cbn [fst snd] in *. bools. by subst v.
    - intros Hin. exists (id, AMBIGUOUS). split; [done|]. split; [done|]. by apply bool_decide_eq_true. }
  destruct (List.filter (fun kv => bool_decide (kv.2 = AMBIGUOUS)) verdicts) as [|a l] eqn:F.
  2: { split; [done|]. split; [by intros E; apply (f_equal length) in E; rewrite length_py_sorted in E|].
       split; [apply (py_sorted_sorted str_cmp)|]. intros id. by rewrite elem_of_py_sorted, A. }
  destruct (earned_weights t verdicts V D C) as (ws & -> & P). cbn [mbind result_mbind result_bind].
  destruct (task_facts t V) as (Hn & Hne & Hpos & Htotal).
  assert (T : (sum_fractions (dict_values (dict_of sp_proposition_id weight_of (propositions t))) ==
    inject_Z (Z.of_nat (length (legacy_requirements t))))%Q).
  { rewrite dict_of_distinct by done. unfold dict_values. rewrite <- list_fmap_compose. exact Htotal. }
  set (total := sum_fractions (dict_values _)) in *.
  assert (W : (0 < total)%Q).
  { rewrite T, <- Htotal. apply sum_pos; [by destruct (propositions t)|by apply Forall_fmap]. }
  destruct (Qeq_bool total 0) eqn:Z0; [apply Qeq_bool_iff in Z0; rewrite Z0 in W; by apply Qlt_irrefl in W|].
  assert (E : (sum_fractions ws == entailed_weight t verdicts)%Q) by (by apply sum_perm).
  destruct (sum_filter (is_entailed verdicts) weight_of (propositions t) Hpos) as [Hle Heq].
  fold (entailed_weight t verdicts) in Hle, Heq. rewrite Htotal, <- T in Hle, Heq.
  assert (H0 : (0 <= entailed_weight t verdicts)%Q).
  { apply sum_nonneg. apply Forall_fmap. apply Forall_forall. intros p Hp. rewrite Forall_forall in Hpos. apply Hpos.
    apply list_elem_of_In, filter_In in Hp as [Hp _]. by apply list_elem_of_In. }
  set (c := (sum_fractions ws / total)%Q).
  assert (Hc : (c * total == entailed_weight t verdicts)%Q).
  { rewrite <- E. unfold c. field. intros X. rewrite X in W. by apply Qlt_irrefl in W. }
  assert (L0 : (0 <= c)%Q).
  { unfold c. apply Qle_shift_div_l; [exact W|]. rewrite E. lra. }
  assert (L1 : (c <= 1)%Q).
  { unfold c. apply Qle_shift_div_r; [exact W|]. rewrite E. lra. }
  rewrite <- (Qred_correct c) in L0, L1, Hc. pose proof (Qred_complete _ _ (Qred_correct c)) as G. apply Qred_iff in G.
  destruct (Qred c) as [n d]. cbn [Qnum Qden] in *.
  assert (N : forall id, (id, AMBIGUOUS) ∉ verdicts).
  { intros id Hin. apply A in Hin. by apply elem_of_nil in Hin. }
  split; [exact C|]. split; [exact N|]. unfold Qle in L0, L1. cbn [Qnum Qden] in L0, L1.
  split; [lia|]. split; [lia|]. split; [exact G|]. cbn [Z.to_pos]. split; [by rewrite <- T|]. rewrite <- Heq.
  split; intros H.
  - rewrite <- Hc. replace (n # d)%Q with (Z.pos d # d)%Q by congruence.
    assert (O : (Z.pos d # d == 1)%Q) by (unfold Qeq; cbn [Qnum Qden]; lia). rewrite O. ring.
  - rewrite <- Hc in H. assert (O : ((n # d) == 1)%Q).
    { apply (Qmult_inj_r _ _ total); [intros X; rewrite X in W; by apply Qlt_irrefl in W|]. rewrite H. ring. }
    unfold Qeq in O. cbn [Qnum Qden] in O. lia.
Qed.

Definition example_proposition (id : string) (n d : Z) : SemanticProposition :=
  mk_SemanticProposition (py id) 1 (py "x") RT_ATOMIC (mk_RationalWeight n d) (py "q") [] [] [] [].

Definition example_specification : SummarizationTaskSpecification :=
  mk_SummarizationTaskSpecification (py "s1") (py "t1") [py "t1"] (py "text") [py "r1"; py "r2"]
    [example_proposition "a" 1 1; example_proposition "b" 1 2; example_proposition "c" 1 2] [] [] [].

Lemma weighted_coverage_exact_witness :
  weighted_coverage example_specification
    [(py "c", NOT_ENTAILED); (py "a", ENTAILED); (py "b", ENTAILED)] = Ok (Coverage_complete 3 4) /\
  (Qmake 3 4 * 2 == entailed_weight example_specification
    [(py "c", NOT_ENTAILED); (py "a", ENTAILED); (py "b", ENTAILED)])%Q.
Proof.
  assert (D : NoDup (dict_keys [(py "c", NOT_ENTAILED); (py "a", ENTAILED); (py "b", ENTAILED)])).
  { apply all_distinct_true. vm_compute. reflexivity. }
  pose proof (weighted_coverage_exact example_specification _ ltac:(vm_compute; reflexivity) D) as H.
  assert (E : weighted_coverage example_specification
    [(py "c", NOT_ENTAILED); (py "a", ENTAILED); (py "b", ENTAILED)] = Ok (Coverage_complete 3 4)) by (vm_compute; reflexivity).
  split; [exact E|]. rewrite E in H. apply H.
Defined.
