(* ===== verification/Normalization.v ===== *)
(** * Normalization of answers ([evaluation/normalization.py])

    Sentence counting, answer normalization, the final answer and the fenced
    block of a response, and the flattening of JSON values to paths. *)
From S2P Require Import Prelude PyStr PyFloat PyDecimal Json JsonText PyRepr Regex.

(** ** Matches with their start *)

Section Finditer.
Context {UD : UnicodeData}.

(** [pattern.finditer(text)]: the start and the end of each match. *)
Fixpoint finditer_from (fuel : nat) (r : regex) (z : position) : list (position * position) :=
  match fuel with
  | O => []
  | S fuel' =>
      match re_match r z with
      | z' :: _ =>
          (z, z') :: (if advanced z z' then finditer_from fuel' r z'
                      else match z'.2 with
                           | c :: s => finditer_from fuel' r (c :: z'.1, s)
                           | [] => []
                           end)
      | [] =>
          match z.2 with
          | c :: s => finditer_from fuel' r (c :: z.1, s)
          | [] => []
          end
      end
  end.

Definition finditer (r : regex) (text : pystr) : list (position * position) :=
  finditer_from (S (length text)) r ([], text).

(** [match.group()] *)
Definition group (m : position * position) : pystr := firstn (length m.1.2 - length m.2.2) m.1.2.
End Finditer.

(** ** Patterns *)

Definition is_mark (c : N) : bool := in_chars (py ".!?") c.
Definition closer (c : N) : bool := in_chars ([34; 39; 41; 93; 125; 8217; 8221]%N) c.
Definition ascii_letter (c : N) : bool := is_ascii_upper c || is_ascii_lower c.

(** Terminal marks, then closing quotes and brackets, before a space or the end. *)
Definition SENTENCE_BOUNDARY : regex :=
  sequence [RPlus (RChar is_mark); RStar (RChar closer);
            RAhead (fun s => match s with c :: _ => is_space c || at_end s | [] => true end)].

(** [(?:(?:[A-Za-z]\.)+|[A-Za-z]+\.)$] *)
Definition PERIOD_TOKEN : regex :=
  RSeq (RAlt (RPlus (RSeq (RChar ascii_letter) (RChar (N.eqb 46)))) (RSeq (RPlus (RChar ascii_letter)) (RChar (N.eqb 46))))
    REnd.

Definition words (l : list string) : list pystr := map py l.

Definition HONORIFICS : list pystr := words ["mr."; "mrs."; "ms."; "dr."; "prof."; "sr."; "jr."]%string.
Definition ALWAYS_CONTINUING_ABBREVIATIONS : list pystr := words ["e.g."; "i.e."]%string.
Definition CLOCK_ABBREVIATIONS : list pystr := words ["a.m."; "p.m."]%string.
Definition CALENDAR_CONTINUATIONS : list pystr := words
  ["monday"; "tuesday"; "wednesday"; "thursday"; "friday"; "saturday"; "sunday"; "january"; "february"; "march"; "april";
   "may"; "june"; "july"; "august"; "september"; "october"; "november"; "december"; "today"; "tomorrow"; "tonight"]%string.
Definition STRONG_SENTENCE_STARTERS : list pystr := words
  ["a"; "an"; "the"; "he"; "she"; "it"; "they"; "we"; "i"; "this"; "that"; "these"; "those"; "however"; "nevertheless";
   "meanwhile"; "then"]%string.

Definition one_of (l : list pystr) (s : pystr) : bool := bool_decide (s ∈ l).

(** ** Sentences *)

Section Sentences.
Context {UD : UnicodeData}.

(** The first ASCII word at the front of [s]. *)
Fixpoint leading_word (s : pystr) : pystr :=
  match s with
  | c :: s' => if ascii_letter c then c :: leading_word s' else []
  | [] => []
  end.

(** What follows decides whether the period of a token ends a sentence. *)
Definition continues (token following : pystr) : bool :=
  let normalized := u_casefold token in
  let following := if one_of ALWAYS_CONTINUING_ABBREVIATIONS normalized
                   then lstrip (lstrip_by (in_chars (py ",;:")) following) else following in
  match leading_word following with
  | [] => false
  | (c :: _) as next_token =>
      let next_word := u_casefold next_token in
      if one_of HONORIFICS normalized || one_of ALWAYS_CONTINUING_ABBREVIATIONS normalized then true
      else if Nat.eqb (length token) 2 && (match token with t :: _ => is_ascii_upper t | [] => false end) then true
      else if one_of CLOCK_ABBREVIATIONS normalized then one_of CALENDAR_CONTINUATIONS next_word || is_ascii_lower c
      else if bool_decide (normalized = py "u.s.") then negb (one_of STRONG_SENTENCE_STARTERS next_word)
      else false
  end.

(** The marks at the front of a match. *)
Fixpoint leading_marks (s : pystr) : pystr :=
  match s with
  | c :: s' => if is_mark c then c :: leading_marks s' else []
  | [] => []
  end.

(** [_period_is_nonterminal]; a match is its start and its end in the text. *)
Definition period_is_nonterminal (m : position * position) : bool :=
  if negb (bool_decide (leading_marks (group m) = py ".")) then false
  else
    let before := m.1.1 in
    let inside := match before, skipn 1 m.1.2 with p :: _, n :: _ => u_digit p && u_digit n | _, _ => false end in
    if inside then true
    else
      match finditer PERIOD_TOKEN (rev before ++ firstn 1 m.1.2) with
      | [] => false
      | t :: _ => continues (group t) (lstrip m.2.2)
      end.

(** [count_sentences] *)
Definition count_sentences (value : pystr) : nat :=
  match strip value with
  | [] => 0
  | stripped =>
      let boundaries := List.filter (fun m => negb (period_is_nonterminal m)) (finditer SENTENCE_BOUNDARY stripped) in
      let tail := match last boundaries with Some m => m.2.2 | None => stripped end in
      length boundaries + (if is_blank tail then 0 else 1)
  end.

(** ** Answers *)

Definition decimal_digit (c : N) : bool := is_ascii_digit c || (match u_decimal c with Some _ => true | None => false end).

(** [\d\.\d[.!?]$] *)
Definition ends_in_decimal (value : pystr) : bool :=
  search (sequence [RChar decimal_digit; RChar (N.eqb 46); RChar decimal_digit; RChar is_mark; REnd]) value.

(** [value[1:-1]] *)
Definition inner (s : pystr) : pystr := removelast (skipn 1 s).

(** [normalize_answer] *)
Definition normalize_answer (value : pystr) (case_sensitive : bool) : pystr :=
  let value := join [32%N] (split_ws (strip value)) in
  let value := match value, last value with
               | c :: _ :: _, Some d => if (c =? d)%N && in_chars [34; 39; 96]%N c then strip (inner value) else value
               | _, _ => value
               end in
  let value := match last value with
               | Some c => if is_mark c && negb (ends_in_decimal value) then rstrip (removelast value) else value
               | None => value
               end in
  if case_sensitive then value else u_casefold value.

(** [str.splitlines()] *)
Definition line_break (c : N) : bool :=
  in_range 10 13 c || in_range 28 30 c || in_chars [133; 8232; 8233]%N c.

Fixpoint splitlines_from (cur : pystr) (s : pystr) : list pystr :=
  match s with
  | [] => match cur with [] => [] | _ => [cur] end
  | c :: s1 =>
      if line_break c then
        cur :: (match s1 with
                | d :: s2 => if (c =? 13)%N && (d =? 10)%N then splitlines_from [] s2 else splitlines_from [] s1
                | [] => []
                end)
      else splitlines_from (cur ++ [c]) s1
  end.

(** [^(?:final(?: answer)?|answer)\s*:\s*], without case *)
Definition FINAL_PREFIX : regex :=
  sequence [RAlt (RSeq (ci_literal (py "final")) (ROpt (ci_literal (py " answer")))) (ci_literal (py "answer"));
            RStar (RChar is_space); RChar (N.eqb 58); RStar (RChar is_space)].

(** [final_answer] *)
Definition final_answer (value : pystr) : pystr :=
  let lines := List.filter (fun l => negb (match l with [] => true | _ => false end)) (map strip (splitlines_from [] value)) in
  let candidate := default [] (last lines) in
  match re_match FINAL_PREFIX ([], candidate) with
  | z :: _ => z.2
  | [] => candidate
  end.

Definition FENCE : pystr := [96; 96; 96]%N.

(** [strip_code_fence].  The pattern matches when what follows the opening fence
    ends with another one; the optional language is taken when it is there,
    and the white space around the group is stripped afterwards. *)
Definition strip_code_fence (value : pystr) : pystr :=
  let stripped := strip value in
  let rest := skipn 3 stripped in
  if startswith stripped FENCE && startswith (rev rest) FENCE then
    let body := match re_match (RAlt (ci_literal (py "json")) (ci_literal (py "python"))) ([], rest) with
                | z :: _ => z.2
                | [] => rest
                end in
    strip (firstn (length body - 3) body)
  else stripped.

(** [parse_json_response] *)
Definition parse_json_response (room : nat) (value : pystr) : result json_error pyjson :=
  py_loads room (strip_code_fence value).
End Sentences.

(** [sub in s] *)
Fixpoint contains (sub s : pystr) : bool :=
  startswith s sub || match s with [] => false | _ :: s' => contains sub s' end.

(** ** Flattening *)

(** [d.update(e)] *)
Definition dict_update {V : Type} (d e : list (list N * V)) : list (list N * V) :=
  fold_left (fun d kv => dict_set d kv.1 kv.2) e d.

(** [flatten_json] *)
Fixpoint flatten_json (v : pyjson) (path : pystr) : list (list N * pyjson) :=
  match v with
  | PJObj l =>
      fold_left (fun acc kt => dict_update acc kt) (map (fun kv => flatten_json kv.2 (path ++ py "." ++ kv.1)) l) []
  | PJArr l =>
      (fix go (i : N) (acc : list (list N * pyjson)) (l : list pyjson) : list (list N * pyjson) :=
         match l with
         | [] => acc
         | x :: r => go (i + 1)%N (dict_update acc (flatten_json x (path ++ py "[" ++ N_to_str i ++ py "]"))) r
         end) 0%N [] l
  | _ => [(path, v)]
  end.

Definition ROOT : pystr := py "$".

Example sentences_1 : @count_sentences ascii_tables (py "Dr. Smith arrived at 5 p.m. today. He left! ") = 2.
Proof. vm_compute. reflexivity. Qed.
Example sentences_2 : @count_sentences ascii_tables (py "The U.S. economy grew 3.5 percent, e.g. in May") = 1.
Proof. vm_compute. reflexivity. Qed.
Example answer_1 : @normalize_answer ascii_tables (py "  'The  Answer'. ") false = py "'the answer'".
Proof. vm_compute. reflexivity. Qed.
Example answer_2 : @final_answer ascii_tables (py "so" ++ [10%N] ++ py " Final Answer : 42 ") = py "42".
Proof. vm_compute. reflexivity. Qed.
Example fence_1 : @strip_code_fence ascii_tables (FENCE ++ py "JSON" ++ [10%N] ++ py "{} " ++ FENCE) = py "{}".
Proof. vm_compute. reflexivity. Qed.

(** ** Counting *)

Lemma strip_spaces s : forallb is_space (strip s) = true -> strip s = [].
Proof.
  intros H. destruct (lstrip_by_suffix is_space s) as (pre & Es & Hp).
  destruct (lstrip_by_suffix is_space (rev (lstrip s))) as (post & Er & Hq).
  assert (El : lstrip s = strip s ++ rev post).
  { unfold strip, rstrip, rstrip_by. apply (f_equal (@rev N)) in Er. rewrite rev_involutive in Er.
    rewrite Er at 1. by rewrite rev_app_distr. }
  assert (B : forallb is_space s = true).
  { rewrite Es. fold (lstrip s). rewrite El, !forallb_app, Hp, H, forallb_rev, Hq. done. }
  apply is_blank_spec in B. unfold is_blank in B. by destruct (strip s).
Qed.

Lemma strip_not_blank s : strip s <> [] -> is_blank (strip s) = false.
Proof.
  intros H. apply not_true_iff_false. intros B. apply is_blank_spec in B. by apply H, strip_spaces.
Qed.

(** Only blank text has no sentence: every other text counts at least one, also
    when its last fragment has no terminal mark. *)
Theorem count_sentences_zero `{UD : UnicodeData} value : count_sentences value = 0 <-> is_blank value = true.
Proof.
  unfold count_sentences, is_blank at 2. pose proof (strip_not_blank value) as B.
  destruct (strip value) as [|c s]; [done|]. split; [|done]. specialize (B ltac:(done)).
  set (bs := List.filter _ _). destruct bs as [|m l]; cbn [length]; [|lia].
  cbn [last]. rewrite B. cbn [length]. lia.
Qed.

(** Parsing a response always ends.  Whatever a model answered, with a code fence
    or without, and whatever the recursion limit, [parse_json_response] returns a
    value nested no deeper than the limit, or raises [ValueError] or
    [RecursionError]; no response keeps it busy or makes it stop halfway. *)
Theorem parse_json_response_total `{UD : UnicodeData} room value :
  match parse_json_response room value with
  | Ok v => nesting v <= room
  | Raise e => e = JValueError \/ e = JRecursionError \/ e = JArithmeticError
  end.
Proof. exact (py_loads_total room (strip_code_fence value)). Qed.
