(* ===== verification/Evaluators.v ===== *)
(** * Deterministic evaluators ([evaluation/evaluators.py])

    One evaluator per category scores a response against the metadata of its
    task; [evaluate] turns a score into a validated evaluation.  Python's own
    parser, which the coding evaluator asks about a program, is an interface. *)
From S2P Require Import Prelude PyStr PyFloat PyDecimal PyUuid Schemas Json PyRepr JsonText Errors Regex BenchmarkModels Aggregation Normalization.

(** ** [str(value)] of a JSON value *)

Definition hex_text (width : nat) (c : N) : pystr :=
  map (fun k => hex_char (N.land (N.shiftr c (4 * N.of_nat k)) 15)) (rev (seq 0 width)).

Section Text.
Context {UD : UnicodeData}.

Definition repr_char (quote c : N) : pystr :=
  if (c =? quote)%N || (c =? BACKSLASH)%N then [BACKSLASH; c]
  else if (c =? 9)%N then [BACKSLASH; 116%N]
  else if (c =? 10)%N then [BACKSLASH; 110%N]
  else if (c =? 13)%N then [BACKSLASH; 114%N]
  else if (c <? 32)%N || (c =? 127)%N then BACKSLASH :: 120%N :: hex_text 2 c
  else if (c <? 127)%N || u_printable c then [c]
  else if (c <=? 255)%N then BACKSLASH :: 120%N :: hex_text 2 c
  else if (c <=? 65535)%N then BACKSLASH :: 117%N :: hex_text 4 c
  else BACKSLASH :: 85%N :: hex_text 8 c.

Definition str_repr (s : pystr) : pystr :=
  let quote := if in_chars s 39 && negb (in_chars s QUOTE) then QUOTE else 39%N in
  quote :: List.concat (map (repr_char quote) s) ++ [quote].

Fixpoint json_repr (v : pyjson) : pystr :=
  match v with
  | PJNull => py "None"
  | PJBool b => if b then py "True" else py "False"
  | PJInt z => Z_to_str z
  | PJFloat f => float_repr f
  | PJStr s => str_repr s
  | PJArr l => py "[" ++ join (py ", ") (map json_repr l) ++ py "]"
  | PJObj l => py "{" ++ join (py ", ") (map (fun kv => str_repr kv.1 ++ py ": " ++ json_repr kv.2) l) ++ py "}"
  end.

(** [str(value)]: integers of more than 4300 digits are refused. *)
Definition py_str (v : pyjson) : result exn pystr :=
  match v with
  | PJStr s => Ok s
  | _ => if json_writable v then Ok (json_repr v) else Raise (Exn C_ValueError)
  end.
End Text.

(** ** Scores *)

Record Score := mk_Score {
  sc_score : float;
  sc_reason : pystr;
  sc_components : list (list N * float);
  sc_details : py_dict
}.

Definition float_of_bool (b : bool) : float := if b then f_one else f_zero.
Definition nat_str (n : nat) : pystr := N_to_str (N.of_nat n).

(** [_f1] *)
Definition f1 (matched expected predicted : nat) : float :=
  if Nat.eqb expected 0 && Nat.eqb predicted 0 then f_one
  else
    let precision := if Nat.eqb predicted 0 then f_zero else ratio (Z.of_nat matched) (Z.of_nat predicted) in
    let recall := if Nat.eqb expected 0 then f_zero else ratio (Z.of_nat matched) (Z.of_nat expected) in
    let total := f_add precision recall in
    if f_eqb total f_zero then f_zero
    else f_div (f_mul (f_mul (f_of_Z 2) precision) recall) total.

Section Evaluators.
Context {UD : UnicodeData}.

(** [_json_equal], on the leaves of flattened values *)
Definition json_equal (l r : pyjson) : bool :=
  match l, r with
  | PJNull, PJNull => true
  | PJBool a, PJBool b => Bool.eqb a b
  | PJInt a, PJInt b => (a =? b)%Z
  | PJFloat a, PJFloat b => f_eqb a b
  | PJStr a, PJStr b => bool_decide (normalize_answer a false = normalize_answer b false)
  | _, _ => false
  end.

(** [type(l) is type(r)] *)
Definition same_type (l r : pyjson) : bool :=
  match l, r with
  | PJNull, PJNull | PJBool _, PJBool _ | PJInt _, PJInt _ | PJFloat _, PJFloat _ | PJStr _, PJStr _
  | PJArr _, PJArr _ | PJObj _, PJObj _ => true
  | _, _ => false
  end.

(** [metadata.get(k, metadata.get("reference"))] *)
Definition metadata_or_reference (t : BenchmarkTask) (k : string) : pyjson :=
  match dict_get (evaluation_metadata t) (py k) with
  | Some v => v
  | None => default PJNull (dict_get (evaluation_metadata t) (py "reference"))
  end.

(** *** Accepted answers *)

(** [AcceptedAnswerEvaluator.accepted] *)
Definition accepted_answers (t : BenchmarkTask) : result exn (list pystr) :=
  answers ← match metadata_or_reference t "accepted_answers" with
            | (PJStr _ | PJInt _ | PJFloat _) as v => s ← py_str v; Ok (PJArr [PJStr s])
            | v => Ok v
            end;
  match answers with
  | PJArr ((_ :: _) as l) =>
      if forallb (fun a => match a with PJStr _ | PJInt _ | PJFloat _ | PJBool _ => true | _ => false end) l
      then result_map py_str l
      else Raise (Exn C_ValueError)
  | _ => Raise (Exn C_ValueError)
  end.

(** [ClassificationEvaluator.accepted] *)
Definition expected_label (t : BenchmarkTask) : result exn (list pystr) :=
  match metadata_or_reference t "expected_label" with
  | PJStr s => Ok [s]
  | _ => Raise (Exn C_ValueError)
  end.

(** [AcceptedAnswerEvaluator.score] *)
Definition score_answer (accepted : list pystr) (candidate : pystr) : Score :=
  let predicted := normalize_answer candidate false in
  let matched := existsb (fun a => bool_decide (predicted = normalize_answer a false)) accepted in
  mk_Score (float_of_bool matched)
    (if matched then py "Matched an explicitly accepted answer." else py "Did not match an explicitly accepted answer.")
    [(py "exact_match", float_of_bool matched)]
    [(py "predicted", PJStr predicted); (py "accepted_answers", PJArr (map PJStr accepted))].

(** *** Structured responses *)

Context (room : nat).

(** The response as JSON; [None] is what the [except] clause catches. *)
Definition predicted_json (response : pystr) : result exn (option pyjson) :=
  match parse_json_response room response with
  | Ok v => Ok (Some v)
  | Raise (JValueError | JArithmeticError) => Ok None
  | Raise _ => Raise (Exn C_RecursionError)
  end.

Definition not_json (components : list string) : Score :=
  mk_Score f_zero (py "Response was not valid JSON.") (map (fun c => (py c, f_zero)) components)
    [(py "valid_json", PJBool false)].

Definition matching_fields (p : pyjson -> pyjson -> bool) (expected predicted : list (list N * pyjson)) : nat :=
  length (List.filter (fun kv => match dict_get predicted kv.1 with Some v => p kv.2 v | None => false end) expected).

(** [ExtractionEvaluator.score] *)
Definition score_extraction (t : BenchmarkTask) (response : pystr) : result exn Score :=
  let expected := metadata_or_reference t "expected" in
  v ← predicted_json response;
  match v with
  | None => Ok (not_json ["syntax"; "field_f1"]%string)
  | Some predicted =>
      let expected_fields := flatten_json expected ROOT in
      let predicted_fields := flatten_json predicted ROOT in
      let matched := matching_fields json_equal expected_fields predicted_fields in
      let score := f1 matched (length expected_fields) (length predicted_fields) in
      Ok (mk_Score score
            (py "Matched " ++ nat_str matched ++ py " of " ++ nat_str (length expected_fields) ++
             py " expected values with " ++ nat_str (length predicted_fields) ++ py " predicted values.")
            [(py "syntax", f_one); (py "field_f1", score)]
            [(py "matched_fields", PJInt (Z.of_nat matched));
             (py "expected_fields", PJInt (Z.of_nat (length expected_fields)));
             (py "predicted_fields", PJInt (Z.of_nat (length predicted_fields)))])
  end.

(** [JSONEvaluator.score] *)
Definition score_json (t : BenchmarkTask) (response : pystr) : result exn Score :=
  let expected := metadata_or_reference t "expected" in
  v ← predicted_json response;
  match v with
  | None => Ok (not_json ["syntax"; "schema"; "values"]%string)
  | Some predicted =>
      let expected_fields := flatten_json expected ROOT in
      let predicted_fields := flatten_json predicted ROOT in
      let n := length expected_fields in
      let structural := matching_fields same_type expected_fields predicted_fields in
      let values := matching_fields json_equal expected_fields predicted_fields in
      let schema_score := f1 structural n (length predicted_fields) in
      let value_score := if Nat.eqb n 0 then float_of_bool (Nat.eqb (length predicted_fields) 0)
                         else ratio (Z.of_nat values) (Z.of_nat n) in
      Ok (mk_Score (f_div (f_add (f_add f_one schema_score) value_score) (f_of_Z 3))
            (py "Combined JSON syntax, required structure, and expected-value scores.")
            [(py "syntax", f_one); (py "schema", schema_score); (py "values", value_score)]
            [(py "expected_fields", PJInt (Z.of_nat n)); (py "predicted_fields", PJInt (Z.of_nat (length predicted_fields)));
             (py "matched_values", PJInt (Z.of_nat values))])
  end.
End Evaluators.

(** *** Summaries *)

Section Summaries.
Context {UD : UnicodeData}.

Definition is_semantic (t : BenchmarkTask) : bool := dict_mem (evaluation_metadata t) (py "semantic_requirements").

Definition nonblank_str (v : pyjson) : option pystr :=
  match v with PJStr s => if is_blank s then None else Some s | _ => None end.

(** [_fact_groups] *)
Definition fact_group (v : pyjson) : result exn (list pystr) :=
  let group := match v with PJArr l => l | _ => [v] end in
  match group with
  | [] => Raise (Exn C_ValueError)
  | _ => result_map (fun x => match nonblank_str x with Some s => Ok s | None => Raise (Exn C_ValueError) end) group
  end.

Definition fact_groups (t : BenchmarkTask) : result exn (list (list pystr)) :=
  match metadata_or_reference t "required_facts" with
  | PJArr ((_ :: _) as l) => result_map fact_group l
  | _ => Raise (Exn C_ValueError)
  end.

Definition strings_of (v : pyjson) : option (list pystr) :=
  match v with
  | PJArr l => if forallb (fun x => match x with PJStr _ => true | _ => false end) l
               then Some (map (fun x => match x with PJStr s => s | _ => [] end) l) else None
  | _ => None
  end.

(** [SummarizationEvaluator.score] without semantic requirements *)
Definition score_facts (t : BenchmarkTask) (response : pystr) : result exn Score :=
  let normalized := normalize_answer response false in
  groups ← fact_groups t;
  let occurs s := contains (normalize_answer s false) normalized in
  let matched := length (List.filter (existsb occurs) groups) in
  let coverage := ratio (Z.of_nat matched) (Z.of_nat (length groups)) in
  let one := Nat.eqb (count_sentences response) 1 in
  let one_sentence := float_of_bool one in
  forbidden ← match dict_get (evaluation_metadata t) (py "forbidden_claims") with
              | None => Ok []
              | Some v => match strings_of v with Some l => Ok l | None => Raise (Exn C_ValueError) end
              end;
  let violations := List.filter occurs forbidden in
  let violated := negb (match violations with [] => true | _ => false end) in
  let score := f_add (f_mul (f_of_ratio 8 10) coverage) (f_mul (f_of_ratio 2 10) one_sentence) in
  Ok (mk_Score (if violated then f_zero else score)
        (py "Covered " ++ nat_str matched ++ py " of " ++ nat_str (length groups) ++
         py " required facts; one-sentence constraint " ++ (if one then py "met" else py "not met") ++ py "." ++
         (if violated then py " An explicitly forbidden claim was detected." else []))
        [(py "required_fact_coverage", coverage); (py "format_compliance", one_sentence);
         (py "forbidden_claim_compliance", float_of_bool (negb violated))]
        [(py "matched_facts", PJInt (Z.of_nat matched)); (py "required_facts", PJInt (Z.of_nat (length groups)));
         (py "forbidden_violations", PJArr (map PJStr violations))]).

(** [n <= limit] for a JSON [limit] *)
Definition at_most (n : nat) (limit : pyjson) : result exn bool :=
  match limit with
  | PJInt z => Ok (Z.of_nat n <=? z)%Z
  | PJBool b => Ok (Z.of_nat n <=? (if b then 1 else 0))%Z
  | PJFloat f => Ok (f_leb (f_of_Z (Z.of_nat n)) f)
  | _ => Raise (Exn C_TypeError)
  end.

(** A check that is made when its constraint is present. *)
Definition optional_check (constraints : list (list N * pyjson)) (key name : string)
    (f : pyjson -> result exn bool) : result exn (list (list N * float)) :=
  match dict_get constraints (py key) with
  | None => Ok []
  | Some v => b ← f v; Ok [(py name, float_of_bool b)]
  end.

(** The elements [any] iterates over. *)
Definition iterated (v : pyjson) : result exn (list pyjson) :=
  match v with
  | PJArr l => Ok l
  | PJStr s => Ok (map (fun c => PJStr [c]) s)
  | PJObj l => Ok (map (fun kv => PJStr kv.1) l)
  | _ => Raise (Exn C_TypeError)
  end.

(** [any(str(value).casefold() in folded for value in values)] *)
Fixpoint any_occurs (folded : pystr) (values : list pyjson) : result exn bool :=
  match values with
  | [] => Ok false
  | v :: r => s ← py_str v; if contains (u_casefold s) folded then Ok true else any_occurs folded r
  end.

(** [constraints] when it is a dictionary; what the other types raise. *)
Definition constraint_dict (v : pyjson) : result exn (list (list N * pyjson)) :=
  let names := [py "max_sentences"; py "max_words"; py "required_prefix"] in
  match v with
  | PJObj d => Ok d
  | PJArr l =>
      Raise (Exn (if existsb (fun x => match x with PJStr s => bool_decide (s ∈ names) | _ => false end) l
                  then C_TypeError else C_AttributeError))
  | PJStr s => Raise (Exn (if existsb (fun n => contains n s) names then C_TypeError else C_AttributeError))
  | _ => Raise (Exn C_TypeError)
  end.

(** [_score_constraints] *)
Definition score_constraints (t : BenchmarkTask) (response : pystr) : result exn Score :=
  constraints ← constraint_dict (default (PJObj []) (dict_get (evaluation_metadata t) (py "deterministic_constraints")));
  let words := length (split_ws response) in
  let sentences := count_sentences response in
  c1 ← optional_check constraints "max_sentences" "sentence_limit" (at_most sentences);
  c2 ← optional_check constraints "max_words" "word_limit" (at_most words);
  c3 ← optional_check constraints "required_prefix" "required_prefix"
         (fun v => s ← py_str v; Ok (startswith (u_casefold (strip response)) (u_casefold s)));
  forbidden ← iterated (default (PJArr []) (dict_get constraints (py "forbidden_strings")));
  found ← any_occurs (u_casefold response) forbidden;
  let checks := c1 ++ c2 ++ c3 ++ [(py "forbidden_string_compliance", float_of_bool (negb found))] in
  Ok (mk_Score (f_div (f_sum (map snd checks)) (f_of_Z (Z.of_nat (length checks))))
        (py "Deterministic format constraints checked; semantic summary quality requires a future judge.")
        checks
        [(py "word_count", PJInt (Z.of_nat words)); (py "sentence_count", PJInt (Z.of_nat sentences));
         (py "semantic_requirements_used_for_scoring", PJBool false)]).

Definition score_summary (t : BenchmarkTask) (response : pystr) : result exn Score :=
  if is_semantic t then score_constraints t response else score_facts t response.
End Summaries.

(** *** Programs *)

(** What [ast] tells the evaluator about a program; [ast_parse] gives [None] for a
    [SyntaxError], [ValueError] or [TypeError].  [known_node] holds for every
    attribute of the module; the tests for a construct fail for the attributes
    that are no node types. *)
Class PythonAst := {
  py_module : Type;
  py_function : Type;
  ast_parse : pystr -> result exn (option py_module);
  top_functions : py_module -> list py_function;
  fn_name : py_function -> pystr;
  fn_args : py_function -> Z;
  fn_vararg : py_function -> bool;
  fn_kwarg : py_function -> bool;
  has_forbidden_type : py_module -> bool;
  called_names : py_module -> list pystr;
  known_node : pystr -> bool;
  module_has : py_module -> pystr -> result exn bool;
  function_has : py_function -> pystr -> result exn bool
}.

Section Coding.
Context {UD : UnicodeData} {PA : PythonAst}.

Definition forbidden_calls : list pystr :=
  map py ["__import__"; "breakpoint"; "compile"; "eval"; "exec"; "input"; "open"]%string.

(** The metadata of a coding task: function, number of parameters, constructs. *)
Definition coding_metadata (t : BenchmarkTask) : result exn (pystr * Z * list pystr) :=
  let get k := dict_get (evaluation_metadata t) (py k) in
  let legacy := match get "reference"%string with Some (PJObj d) => dict_get d (py "function") | _ => None end in
  let name := match get "function_name"%string with Some v => Some v | None => legacy end in
  match name, default (PJInt 1) (get "parameters"%string), strings_of (default (PJArr []) (get "required_ast"%string)) with
  | Some (PJStr name), PJInt n, Some required => if (n <? 0)%Z then Raise (Exn C_ValueError) else Ok (name, n, required)
  | _, _, _ => Raise (Exn C_ValueError)
  end.

(** [CodingEvaluator.score] *)
Definition score_coding (t : BenchmarkTask) (response : pystr) : result exn Score :=
  md ← coding_metadata t;
  let '(name, parameters, required) := md in
  tree ← ast_parse (strip_code_fence response);
  match tree with
  | None =>
      Ok (mk_Score f_zero (py "Response was not valid Python syntax.")
            (map (fun c => (py c, f_zero)) ["syntax"; "function"; "signature"; "safety"; "required_constructs"]%string)
            [(py "executed", PJBool false)])
  | Some m =>
      let functions := List.filter (fun f => bool_decide (fn_name f = name)) (top_functions m) in
      let function := match functions with [f] => Some f | _ => None end in
      let function_score := float_of_bool (match function with Some _ => true | None => false end) in
      let signature_score := float_of_bool (match function with
        | Some f => (fn_args f =? parameters)%Z && negb (fn_vararg f) && negb (fn_kwarg f)
        | None => false
        end) in
      let called := remove_dups (List.filter (fun n => bool_decide (n ∈ forbidden_calls)) (called_names m)) in
      let safety_score := float_of_bool (negb (has_forbidden_type m) && (match called with [] => true | _ => false end)) in
      let names := dict_keys (dict_of (fun n => n) (fun n => n) required) in
      if negb (forallb known_node names) then Raise (Exn C_ValueError)
      else
        present ← result_map (fun n =>
          b ← match function with Some f => function_has f n | None => module_has m n end; Ok (n, b)) names;
        let required_score := match present with
          | [] => f_one
          | _ => ratio (count (fun p => p.2) present) (Z.of_nat (length present))
          end in
        let components := [(py "syntax", f_one); (py "function", function_score); (py "signature", signature_score);
                           (py "safety", safety_score); (py "required_constructs", required_score)] in
        Ok (mk_Score (f_div (f_sum (map snd components)) (f_of_Z (Z.of_nat (length components))))
              (py "Static validation only: syntax, named function, signature, restricted AST, and required constructs.")
              components
              [(py "executed", PJBool false); (py "function_name", PJStr name);
               (py "required_ast_present", PJObj (map (fun p => (p.1, PJBool p.2)) present));
               (py "forbidden_calls", PJArr (map PJStr (py_sorted (cmp_le str_cmp) called)));
               (py "limitation", PJStr (py "Generated code was not executed; behavioral correctness is not proven."))])
  end.

(** ** Dispatch *)

(** [EVALUATORS]: the name of the category's evaluator. *)
Definition evaluator_name (c : BenchmarkCategory) : pystr :=
  match c with
  | BC_QA => py "accepted_answer_exact_match"
  | BC_CLASSIFICATION => py "classification_label_match"
  | BC_REASONING => py "reasoning_final_answer_match"
  | BC_EXTRACTION => py "structured_extraction_f1"
  | BC_JSON => py "json_structure_and_value"
  | BC_SUMMARIZATION => py "required_fact_coverage"
  | BC_CODING => py "constrained_python_static_analysis"
  end.

(** The [score] of the category's evaluator. *)
Definition score_of (room : nat) (t : BenchmarkTask) (response : pystr) : result exn Score :=
  match bt_category t with
  | BC_QA => a ← accepted_answers t; Ok (score_answer a response)
  | BC_CLASSIFICATION => a ← expected_label t; Ok (score_answer a response)
  | BC_REASONING => a ← accepted_answers t; Ok (score_answer a (final_answer response))
  | BC_EXTRACTION => score_extraction room t response
  | BC_JSON => score_json room t response
  | BC_SUMMARIZATION => score_summary t response
  | BC_CODING => score_coding t response
  end.

(** The [status_for] of the category's evaluator. *)
Definition status_for (t : BenchmarkTask) : option EvaluationStatus :=
  match bt_category t with
  | BC_SUMMARIZATION => if is_semantic t then Some ES_requires_semantic_judge else None
  | BC_CODING =>
      match dict_get (evaluation_metadata t) (py "evaluation_mode") with
      | Some (PJStr s) => if bool_decide (s = py "static_pending_functional") then Some ES_requires_functional_execution else None
      | _ => None
      end
  | _ => None
  end.

(** [DEFAULT_THRESHOLDS] *)
Definition default_threshold (c : BenchmarkCategory) : float :=
  match c with BC_SUMMARIZATION => f_of_ratio 8 10 | _ => f_one end.

Definition task_threshold (t : BenchmarkTask) : float := default (default_threshold (bt_category t)) (acceptable_threshold t).

(** [min(1.0, max(0.0, score))] *)
Definition clamp (score : float) : float := f_min f_one (f_max f_zero score).

(** An evaluation without a call of a judge. *)
Definition plain_evaluation (t : BenchmarkTask) (r : BenchmarkResult) (now : Z) (name : pystr) (status : EvaluationStatus)
    (quality : option float) (threshold : float) (accepted : option bool) (reason : pystr)
    (components : list (list N * float)) (details : py_dict) : EvaluationResult :=
  mk_EvaluationResult (br_result_id r) (br_run_id r) (task_id t) (br_model_id r) name EVALUATION_VERSION now status quality
    threshold accepted reason components details false 0 0 f_zero d_zero.

Definition new_evaluation (e : EvaluationResult) : result exn EvaluationResult :=
  _ ← validated (EvaluationResult_validate e); Ok e.

(** [Evaluator.evaluate] *)
Definition evaluate_task (room : nat) (now : Z) (t : BenchmarkTask) (r : BenchmarkResult) : result exn EvaluationResult :=
  let threshold := task_threshold t in
  match (if br_success r then br_response r else None) with
  | None =>
      let category := match br_error_category r with Some ((_ :: _) as c) => c | _ => py "missing_response" end in
      new_evaluation (plain_evaluation t r now (py "call_failure") ES_partial None threshold None
        (py "Provider infrastructure failed; no candidate response was available to score.") []
        [(py "error_category", PJStr category)])
  | Some response =>
      s ← score_of room t (text response);
      let score := clamp (sc_score s) in
      let incomplete := status_for t in
      new_evaluation (plain_evaluation t r now (evaluator_name (bt_category t)) (default ES_evaluated incomplete) (Some score)
        threshold (match incomplete with Some _ => None | None => Some (f_leb threshold score) end)
        (sc_reason s) (sc_components s) (sc_details s))
  end.
End Coding.

(** ** What an evaluation says *)

Lemma f_max_cases a b : f_max a b = a \/ f_max a b = b.
Proof. unfold f_max. destruct (f_ltb a b); auto. Qed.

(** Every float is clamped into the unit interval; NaN becomes zero. *)
Lemma clamp_unit s : unit_interval (clamp s) = true.
Proof.
  unfold clamp, unit_interval.
  assert (L : f_leb f_zero (f_max f_zero s) = true).
  { unfold f_max. destruct (f_ltb f_zero s) eqn:E; [by apply f_ltb_leb|reflexivity]. }
  set (x := f_max f_zero s) in *. clearbody x. unfold f_min. destruct (f_ltb x f_one) eqn:E; [|reflexivity].
  rewrite L, (f_ltb_leb _ _ E), andb_true_r. cbn [andb]. rewrite andb_true_r.
  destruct x as [[]|[]| |[] m e]; try reflexivity; try discriminate.
Qed.

Section Facts.
Context {UD : UnicodeData} {PA : PythonAst}.

Lemma new_evaluation_ok e e' : new_evaluation e = Ok e' -> e' = e /\ EvaluationResult_validate e = Ok tt.
Proof.
  unfold new_evaluation. destruct (EvaluationResult_validate e) as [[]|m]; cbn; [|discriminate].
  intros H. injection H as <-. done.
Qed.

(** An evaluation with a score in the unit interval that claims exactly the
    comparison with its threshold is valid. *)
Lemma plain_evaluated t r now name q threshold reason key details :
  unit_interval threshold = true -> unit_interval q = true ->
  let e := plain_evaluation t r now name ES_evaluated (Some q) threshold (Some (f_leb threshold q)) reason
             [(key, q)] details in
  new_evaluation e = Ok e.
Proof.
  intros Ht Hq e. unfold new_evaluation.
  assert (V : EvaluationResult_validate e = Ok tt); [|by rewrite V].
  assert (Hc : consistent_acceptability e = Ok tt).
  { unfold consistent_acceptability, e, plain_evaluation.
    cbn [quality_score ev_acceptable_threshold evaluation_status acceptable component_scores forallb snd].
    unfold unit_interval in Hq. bools. rewrite bool_decide_eq_true_2 by done.
    unfold check. cbn [mbind result_mbind result_bind]. bools. by repeat match goal with H : f_leb _ _ = true |- _ => rewrite H; clear H end. }
  unfold EvaluationResult_validate. rewrite Hc. unfold e, plain_evaluation.
  cbn [quality_score ev_acceptable_threshold evaluation_input_tokens evaluation_output_tokens evaluation_latency_ms
       evaluation_cost_usd opt_all]. by rewrite Ht, Hq.
Qed.

(** The evaluation names its result. *)
Definition names (t : BenchmarkTask) (r : BenchmarkResult) (e : EvaluationResult) : Prop :=
  ev_benchmark_result_id e = br_result_id r /\ ev_run_id e = br_run_id r /\ ev_task_id e = task_id t /\
  ev_model_id e = br_model_id r /\ ev_acceptable_threshold e = task_threshold t /\ evaluation_call_made e = false.
End Facts.

(** What a deterministic evaluation claims.  It names its result and makes no
    call.  Without a response nothing is scored and nothing claimed.  With one,
    the quality is the clamped score of the category, in the unit interval even
    when the score is not a number; acceptability is the comparison with the
    threshold, and is claimed only when no judge or execution is still needed. *)
Theorem evaluation_claims `{UD : UnicodeData} `{PA : PythonAst} room now t r e :
  evaluate_task room now t r = Ok e ->
  names t r e /\ EvaluationResult_validate e = Ok tt /\
  match (if br_success r then br_response r else None) with
  | None => evaluation_status e = ES_partial /\ quality_score e = None /\ acceptable e = None
  | Some response => exists s, score_of room t (text response) = Ok s /\
      component_scores e = sc_components s /\ quality_score e = Some (clamp (sc_score s)) /\
      unit_interval (clamp (sc_score s)) = true /\
      match status_for t with
      | None => evaluation_status e = ES_evaluated /\ acceptable e = Some (f_leb (task_threshold t) (clamp (sc_score s)))
      | Some status => evaluation_status e = status /\ acceptable e = None
      end
  end.
Proof.
  unfold evaluate_task. cbv zeta. intros H.
  destruct (if br_success r then br_response r else None) as [response|].
  - apply bind_ok in H as (s & Hs & H). apply new_evaluation_ok in H as [-> V].
    split; [by repeat split|]. split; [exact V|]. exists s. split; [exact Hs|]. split; [done|]. split; [done|].
    split; [apply clamp_unit|]. by destruct (status_for t).
  - apply new_evaluation_ok in H as [-> V]. split; [by repeat split|]. split; [exact V|]. done.
Qed.

(** ** Exact answers *)

Definition exact_category (c : BenchmarkCategory) : bool :=
  match c with BC_QA | BC_CLASSIFICATION | BC_REASONING => true | _ => false end.

(** What the evaluators of these categories accept and look at. *)
Definition answers_of `{UD : UnicodeData} (t : BenchmarkTask) : result exn (list pystr) :=
  match bt_category t with BC_CLASSIFICATION => expected_label t | _ => accepted_answers t end.

Definition candidate_of `{UD : UnicodeData} (t : BenchmarkTask) (response : pystr) : pystr :=
  match bt_category t with BC_REASONING => final_answer response | _ => response end.

Definition same_answer `{UD : UnicodeData} (a b : pystr) : Prop := normalize_answer a false = normalize_answer b false.

Lemma score_answer_matched `{UD : UnicodeData} accepted candidate :
  (sc_score (score_answer accepted candidate) = f_one /\ exists a, a ∈ accepted /\ same_answer candidate a) \/
  (sc_score (score_answer accepted candidate) = f_zero /\ forall a, a ∈ accepted -> ~ same_answer candidate a).
Proof.
  unfold score_answer, same_answer. cbn [sc_score].
  destruct (existsb _ accepted) eqn:E; [left|right]; (split; [done|]).
  - apply existsb_exists in E as (a & Ha & Hb). bools. exists a. by rewrite list_elem_of_In.
  - intros a Ha Hs. apply not_true_iff_false in E. apply E. apply existsb_exists. exists a.
    split; [by apply list_elem_of_In|by apply bool_decide_eq_true].
Qed.

(** Exact answers decide.  For the answer, label and reasoning tasks, with a
    positive threshold, a response is evaluated whenever the task's metadata
    give accepted answers, and then it is acceptable exactly when the response,
    or its final answer for a reasoning task, equals an accepted answer up to
    normalization; without them the error of the metadata is raised. *)
Theorem exact_answer_decides `{UD : UnicodeData} `{PA : PythonAst} room now t r response :
  exact_category (bt_category t) = true -> br_success r = true -> br_response r = Some response ->
  unit_interval (task_threshold t) = true -> f_ltb f_zero (task_threshold t) = true ->
  match answers_of t with
  | Raise x => evaluate_task room now t r = Raise x
  | Ok accepted => exists e, evaluate_task room now t r = Ok e /\ evaluation_status e = ES_evaluated /\
      ((exists a, a ∈ accepted /\ same_answer (candidate_of t (text response)) a) /\ acceptable e = Some true \/
       (forall a, a ∈ accepted -> ~ same_answer (candidate_of t (text response)) a) /\ acceptable e = Some false)
  end.
Proof.
  intros Hc Hs Hr Hu Hp.
  assert (S : score_of room t (text response) =
    (a ← answers_of t; Ok (score_answer a (candidate_of t (text response))))).
  { unfold score_of, answers_of, candidate_of. by destruct (bt_category t). }
  assert (T : status_for t = None) by (unfold status_for; by destruct (bt_category t)).
  unfold evaluate_task. rewrite Hs, Hr, S, T. cbv zeta.
  destruct (answers_of t) as [accepted|x]; [|done]. cbn [mbind result_mbind result_bind].
  set (sc := score_answer accepted (candidate_of t (text response))).
  assert (Hsc : sc_components sc = [(py "exact_match", sc_score sc)]) by done.
  destruct (score_answer_matched accepted (candidate_of t (text response))) as [[E M]|[E M]]; fold sc in E;
    rewrite Hsc, E.
  - replace (clamp f_one) with f_one by reflexivity. cbn [default]. rewrite plain_evaluated by done.
    eexists. split; [reflexivity|]. split; [done|]. left. split; [done|]. cbn [acceptable plain_evaluation].
    f_equal. unfold unit_interval in Hu. bools. done.
  - replace (clamp f_zero) with f_zero by reflexivity. cbn [default]. rewrite plain_evaluated by done.
    eexists. split; [reflexivity|]. split; [done|]. right. split; [done|]. cbn [acceptable plain_evaluation].
    f_equal. unfold unit_interval in Hu. bools. apply not_true_iff_false. intros L.
    pose proof (f_lt_le_trans _ _ _ Hp L) as X. vm_compute in X. discriminate.
Qed.

(** ** An example: a question with two accepted answers *)

(** Without code to look at, any parser will do. *)
#[local] Instance no_code : PythonAst := {|
  py_module := unit;
  py_function := unit;
  ast_parse := fun _ => Ok None;
  top_functions := fun _ => [];
  fn_name := fun _ => [];
  fn_args := fun _ => 0%Z;
  fn_vararg := fun _ => false;
  fn_kwarg := fun _ => false;
  has_forbidden_type := fun _ => false;
  called_names := fun _ => [];
  known_node := fun _ => false;
  module_has := fun _ _ => Ok false;
  function_has := fun _ _ => Ok false
|}.

Definition example_question : BenchmarkTask :=
  mk_BenchmarkTask (py "Capital of France?") None 16 f_zero (py "t1") BC_QA EO_text
    [(py "accepted_answers", PJArr [PJStr (py "Paris"); PJStr (py "the city of Paris")])] None [] None None None None None None.

Definition example_answer (answer : string) : BenchmarkResult :=
  mk_BenchmarkResult 7%N 1%N (py "r") (py "t1") (py "m") 0 true
    (Some (mk_InferenceResponse (py answer) (py "m") (py "p") 5 2 f_one d_zero TR_COMPLETE None)) None [] f_one.

Lemma evaluation_claims_witness : exists e,
  @evaluate_task ascii_tables no_code 10 0 example_question (example_answer "Rome") = Ok e /\ acceptable e = Some false.
Proof.
  assert (V : exists e, @evaluate_task ascii_tables no_code 10 0 example_question (example_answer "Rome") = Ok e /\
    quality_score e = Some f_zero).
  { eexists. split; [vm_compute; reflexivity|reflexivity]. }
  destruct V as (e & E & Q). exists e. split; [exact E|].
  destruct (@evaluation_claims ascii_tables no_code _ _ _ _ _ E) as (_ & _ & s & _ & _ & Hq & _ & _ & Ha).
  rewrite Q in Hq. injection Hq as Hq. rewrite <- Hq in Ha. rewrite Ha. vm_compute. reflexivity.
Defined.

Lemma exact_answer_decides_witness : exists e,
  @evaluate_task ascii_tables no_code 10 0 example_question (example_answer " paris ") = Ok e /\
  evaluation_status e = ES_evaluated.
Proof.
  destruct (@exact_answer_decides ascii_tables no_code 10 0 example_question (example_answer " paris ")
    (mk_InferenceResponse (py " paris ") (py "m") (py "p") 5 2 f_one d_zero TR_COMPLETE None)
    eq_refl eq_refl eq_refl eq_refl eq_refl) as (e & E & S & _).
  exists e. split; [exact E|exact S].
Defined.
