(* ===== verification/DatasetValidation.v ===== *)
(** * Validation of the foundation datasets ([benchmarks/validation.py])

    What a frozen dataset must hold, and which changes the third version may
    make to the second: the metadata of every task fits its evaluator, and the
    two versions differ in the approved output limits only. *)
From S2P Require Import Prelude PyStr PyFloat PyDecimal PyUuid Schemas Json PyRepr JsonText Errors PyStats BenchmarkModels BenchmarkRunner Aggregation SummarySpec Normalization SemanticJudge Evaluators.

Definition V2_CATEGORIES : list BenchmarkCategory :=
  [BC_QA; BC_CLASSIFICATION; BC_EXTRACTION; BC_JSON; BC_REASONING; BC_CODING; BC_SUMMARIZATION].

#[export] Instance Difficulty_eq_dec : EqDecision Difficulty.
Proof. solve_decision. Defined.

(** [V2_DIFFICULTIES], with the tasks that have none *)
Definition V2_DIFFICULTIES : list (option Difficulty * Z) :=
  [(Some DF_easy, 2); (Some DF_medium, 3); (Some DF_hard, 3); (None, 0)]%Z.

Definition value_guard (c : bool) : result exn unit := guard_else c (Exn C_ValueError).

(** ** Equality of JSON values as Python compares them *)

(** [n == f]: exact, whatever the size of [n] *)
Definition int_equals_float (n : Z) (f : float) : bool := f_isfinite f && (f_units f =? n * 2 ^ 1074)%Z.

Definition int_of_bool (b : bool) : Z := if b then 1%Z else 0%Z.

Fixpoint py_equal (a b : pyjson) {struct a} : bool :=
  match a, b with
  | PJNull, PJNull => true
  | PJBool x, PJBool y => Bool.eqb x y
  | PJBool x, PJInt n | PJInt n, PJBool x => (int_of_bool x =? n)%Z
  | PJInt n, PJInt m => (n =? m)%Z
  | PJFloat f, PJFloat g => f_eqb f g
  | PJBool x, PJFloat f | PJFloat f, PJBool x => int_equals_float (int_of_bool x) f
  | PJInt n, PJFloat f | PJFloat f, PJInt n => int_equals_float n f
  | PJStr s, PJStr t => bool_decide (s = t)
  | PJArr l, PJArr k =>
      (fix all (l k : list pyjson) : bool :=
         match l, k with
         | [], [] => true
         | x :: l', y :: k' => py_equal x y && all l' k'
         | _, _ => false
         end) l k
  | PJObj d, PJObj e =>
      Nat.eqb (length d) (length e) &&
      (fix all (d : list (list N * pyjson)) : bool :=
         match d with
         | [] => true
         | (k, x) :: d' => match dict_get e k with Some y => py_equal x y | None => false end && all d'
         end) d
  | _, _ => false
  end.

(** ** A task *)

Definition nonempty_list (v : option pyjson) : option (list pyjson) :=
  match v with Some (PJArr ((_ :: _) as l)) => Some l | _ => None end.

(** Every element of a non-empty list passes. *)
Definition all_of (p : pyjson -> bool) (v : option pyjson) : bool :=
  match nonempty_list v with Some l => forallb p l | None => false end.

Definition is_answer (v : pyjson) : bool := match v with PJStr _ | PJInt _ | PJFloat _ => true | _ => false end.
Definition is_text (v : pyjson) : bool := match v with PJStr _ => true | _ => false end.
Definition is_nonblank (v : pyjson) : bool := match v with PJStr s => negb (is_blank s) | _ => false end.

Definition is_test_case (v : pyjson) : bool :=
  match v with
  | PJObj d => match dict_get d (py "args") with Some (PJArr _) => true | _ => false end && dict_mem d (py "expected")
  | _ => false
  end.

Definition Difficulty_text (d : option Difficulty) : pystr :=
  match d with
  | Some DF_easy => py "easy" | Some DF_medium => py "medium" | Some DF_hard => py "hard" | None => py "None"
  end.

(** [metadata.get("difficulty") == task.difficulty] *)
Definition difficulty_stated (md : py_dict) (d : option Difficulty) : bool :=
  match dict_get md (py "difficulty"), d with
  | Some (PJStr s), Some _ => bool_decide (s = Difficulty_text d)
  | (None | Some PJNull), None => true
  | _, _ => false
  end.

Definition is_category (t : BenchmarkTask) (cs : list BenchmarkCategory) : bool := existsb (fun c => bool_decide (bt_category t = c)) cs.

(** The constraints of a summary: at least one, limits positive, forbidden texts texts. *)
Definition positive_limit (d : py_dict) (key : string) : bool :=
  match dict_get d (py key) with None => true | Some (PJInt n) => (0 <? n)%Z | Some _ => false end.

Definition constraints_ok (d : py_dict) : bool :=
  existsb (fun k => dict_mem d (py k)) ["max_sentences"; "max_words"; "required_prefix"; "forbidden_strings"]%string &&
  (positive_limit d "max_sentences" && positive_limit d "max_words") &&
  match default (PJArr []) (dict_get d (py "forbidden_strings")) with PJArr l => forallb is_text l | _ => false end.

Section Validate.
Context {PA : PythonAst}.

Definition coding_ok (md : py_dict) : bool :=
  equals_str (dict_get md (py "evaluation_mode")) (py "static_pending_functional") &&
  (match dict_get md (py "function_name") with Some (PJStr _) => true | _ => false end &&
   match dict_get md (py "parameters") with Some (PJInt n) => (0 <=? n)%Z | _ => false end) &&
  match dict_get md (py "required_ast") with
  | Some (PJArr l) => forallb (fun v => match v with PJStr s => known_node s | _ => false end) l
  | _ => false
  end &&
  all_of is_test_case (dict_get md (py "functional_tests")).

(** [_validate_task] *)
Definition validate_task (t : BenchmarkTask) : result exn unit :=
  let md := evaluation_metadata t in
  d ← difficulty t;
  _ ← value_guard (startswith (task_id t) (BenchmarkCategory_value (bt_category t) ++ py "-" ++ Difficulty_text d ++ py "-"));
  _ ← value_guard (is_some (acceptable_threshold t));
  _ ← value_guard (difficulty_stated md d);
  _ ← value_guard (negb (is_category t [BC_QA; BC_REASONING]) || all_of is_answer (dict_get md (py "accepted_answers")));
  _ ← value_guard (negb (is_category t [BC_CLASSIFICATION]) ||
                   match dict_get md (py "expected_label") with Some v => is_nonblank v | None => false end);
  _ ← value_guard (negb (is_category t [BC_EXTRACTION; BC_JSON]) || dict_mem md (py "expected"));
  _ ← value_guard (negb (is_category t [BC_CODING]) || coding_ok md);
  value_guard (negb (is_category t [BC_SUMMARIZATION]) ||
               (all_of is_nonblank (dict_get md (py "semantic_requirements")) &&
                match dict_get md (py "deterministic_constraints") with Some (PJObj d) => constraints_ok d | _ => false end)).

(** ** Datasets *)

(** Eight tasks of each category. *)
Definition eight_per_category (ts : list BenchmarkTask) : bool :=
  forallb (fun c => (count (fun t => bool_decide (bt_category t = c)) ts =? 8)%Z) V2_CATEGORIES.

(** The difficulties of one category.  The source goes through the categories in
    the order of a set, which only matters for which error is raised first. *)
Definition difficulty_distribution (ts : list BenchmarkTask) (c : BenchmarkCategory) : result exn unit :=
  ds ← result_map difficulty (List.filter (fun t => bool_decide (bt_category t = c)) ts);
  value_guard (forallb (fun e => (count (fun d => bool_decide (d = e.1)) ds =? e.2)%Z) V2_DIFFICULTIES).

Definition identity_is (d : BenchmarkDataset) (name version : string) : bool :=
  bool_decide (ds_name d = py name) && bool_decide (ds_version d = py version).

(** The counts both versions must have. *)
Definition foundation_shape (d : BenchmarkDataset) : result exn unit :=
  _ ← value_guard (Nat.eqb (length (tasks d)) 56);
  _ ← value_guard (eight_per_category (tasks d));
  _ ← result_map (difficulty_distribution (tasks d)) V2_CATEGORIES;
  Ok tt.

Definition validate_foundation_v2 (d : BenchmarkDataset) : result exn unit :=
  _ ← value_guard (identity_is d "routellm-foundation-v2" "2.0.0");
  _ ← foundation_shape d;
  _ ← result_map validate_task (tasks d);
  Ok tt.

Definition FOUNDATION_V3_CHANGED_TASK_IDS : list pystr := map py
  ["classification-hard-02"; "classification-hard-03"; "classification-medium-01"; "classification-medium-02";
   "extraction-hard-03"; "extraction-medium-01"; "extraction-medium-03"; "json-easy-01";
   "qa-hard-01"; "qa-hard-02"; "qa-hard-03"; "qa-medium-01"; "qa-medium-02"; "qa-medium-03";
   "reasoning-easy-01"; "reasoning-easy-02"; "reasoning-hard-01"; "reasoning-hard-02"; "reasoning-hard-03";
   "reasoning-medium-01"; "reasoning-medium-02"; "reasoning-medium-03";
   "summarization-easy-01"; "summarization-hard-02"; "summarization-medium-01"; "summarization-medium-02"]%string.

Definition opt_equal {A : Type} (eq : A -> A -> bool) (a b : option A) : bool :=
  match a, b with None, None => true | Some x, Some y => eq x y | _, _ => false end.

Definition str_equal (a b : pystr) : bool := bool_decide (a = b).

Definition output_type_equal (a b : ExpectedOutputType) : bool :=
  match a, b with EO_text, EO_text | EO_json, EO_json | EO_code, EO_code => true | _, _ => false end.

Definition source_type_equal (a b : SourceType) : bool :=
  match a, b with
  | ST_human_authored, ST_human_authored | ST_deterministic_generator, ST_deterministic_generator
  | ST_controlled_programmatic_construction, ST_controlled_programmatic_construction => true
  | _, _ => false
  end.

(** The dumps without [max_output_tokens] are equal. *)
Definition same_content (a b : BenchmarkTask) : bool :=
  str_equal (bt_prompt a) (bt_prompt b) && opt_equal str_equal (bt_system_prompt a) (bt_system_prompt b) &&
  f_eqb (bt_temperature a) (bt_temperature b) && str_equal (task_id a) (task_id b) &&
  bool_decide (bt_category a = bt_category b) && output_type_equal (expected_output_type a) (expected_output_type b) &&
  py_equal (PJObj (evaluation_metadata a)) (PJObj (evaluation_metadata b)) &&
  opt_equal f_eqb (acceptable_threshold a) (acceptable_threshold b) &&
  bool_decide (tags a = tags b) && opt_equal str_equal (task_family_id a) (task_family_id b) &&
  opt_equal source_type_equal (source_type a) (source_type b) && opt_equal str_equal (source_id a) (source_id b) &&
  opt_equal Z.eqb (generation_seed a) (generation_seed b) && opt_equal str_equal (evaluator_type a) (evaluator_type b) &&
  opt_equal str_equal (family_variant a) (family_variant b).

Definition tasks_by_id (d : BenchmarkDataset) : list (pystr * BenchmarkTask) := dict_of task_id (fun t => t) (tasks d).

(** One round of the loop: whether the limit of the task was changed. *)
Definition check_revision (v2 : list (pystr * BenchmarkTask)) (entry : pystr * BenchmarkTask) : result exn bool :=
  let '(id, t) := entry in
  _ ← validate_task t;
  match dict_get v2 id with
  | None => Raise (Exn C_KeyError)
  | Some reference =>
      _ ← value_guard (same_content t reference);
      if (bt_max_output_tokens t =? bt_max_output_tokens reference)%Z then Ok false
      else
        _ ← value_guard (bool_decide (id ∈ FOUNDATION_V3_CHANGED_TASK_IDS) && (bt_max_output_tokens t =? 160)%Z);
        Ok true
  end.

Definition validate_foundation_v3 (d v2 : BenchmarkDataset) : result exn unit :=
  _ ← value_guard (identity_is d "routellm-foundation-v3" "3.0.0");
  _ ← validate_foundation_v2 v2;
  _ ← foundation_shape d;
  _ ← value_guard (same_elements (dict_keys (tasks_by_id d)) (dict_keys (tasks_by_id v2)));
  flags ← result_map (check_revision (tasks_by_id v2)) (tasks_by_id d);
  let changed := map fst (List.filter (fun p => p.2) (zip (dict_keys (tasks_by_id d)) flags)) in
  value_guard (same_elements changed FOUNDATION_V3_CHANGED_TASK_IDS).
End Validate.

(** ** The metadata of a validated task fits its evaluator *)

Lemma value_guard_ok c u : value_guard c = Ok u -> c = true.
Proof. apply guard_ok. Qed.

Lemma writable_value (d : py_dict) k v : json_writable (PJObj d) = true -> dict_get d k = Some v -> json_writable v = true.
Proof.
  cbn [json_writable]. intros W H. rewrite forallb_forall in W. apply dict_get_some_in in H.
  exact (W (k, v) (proj1 (list_elem_of_In _ _) H)).
Qed.

Section Fits.
Context {UD : UnicodeData} {PA : PythonAst}.

Lemma all_of_list p v : all_of p v = true -> exists x l, v = Some (PJArr (x :: l)) /\ forallb p (x :: l) = true.
Proof.
  unfold all_of, nonempty_list. destruct v as [[| | | | |[|x l]|]|]; try discriminate. intros H. by exists x, l.
Qed.

Lemma accepted_answers_fit t : json_writable (PJObj (evaluation_metadata t)) = true ->
  all_of is_answer (dict_get (evaluation_metadata t) (py "accepted_answers")) = true ->
  exists a, accepted_answers t = Ok a.
Proof.
  intros W H. apply all_of_list in H as (x & l & G & F). pose proof (writable_value _ _ _ W G) as Wl.
  unfold accepted_answers, metadata_or_reference. rewrite G. rsimpl.
  assert (A : forallb (fun a => match a with PJStr _ | PJInt _ | PJFloat _ | PJBool _ => true | _ => false end) (x :: l) = true).
  { rewrite forallb_forall in F |- *. intros y Hy. specialize (F y Hy). by destruct y. }
  rewrite A. apply result_map_total. intros y Hy. cbn [json_writable] in Wl. rewrite forallb_forall in Wl.
  specialize (Wl y (proj1 (list_elem_of_In _ _) Hy)). unfold py_str. destruct y; try rewrite Wl; by eexists.
Qed.

Lemma any_occurs_texts folded l : forallb is_text l = true -> exists b, any_occurs folded l = Ok b.
Proof.
  induction l as [|v l IH]; [by exists false|]. cbn [forallb any_occurs]. intros H. apply andb_prop in H as [Hv H].
  destruct v; try discriminate Hv. cbn [py_str]. rsimpl. destruct (contains _ _); [by exists true|by apply IH].
Qed.

Lemma limit_fits d key name n : positive_limit d key = true -> exists l, optional_check d key name (at_most n) = Ok l.
Proof.
  unfold positive_limit, optional_check. destruct (dict_get d (py key)) as [[]|]; try discriminate; intros _; by eexists.
Qed.

Lemma summary_fits t response : json_writable (PJObj (evaluation_metadata t)) = true ->
  dict_mem (evaluation_metadata t) (py "semantic_requirements") = true ->
  (exists d, dict_get (evaluation_metadata t) (py "deterministic_constraints") = Some (PJObj d) /\ constraints_ok d = true) ->
  exists s, score_summary t response = Ok s.
Proof.
  intros W S (d & G & C). unfold score_summary, is_semantic. rewrite S. unfold score_constraints. rewrite G.
  cbn [from_option id constraint_dict]. rsimpl. unfold constraints_ok in C. apply andb_prop in C as [C F].
  apply andb_prop in C as [_ C]. apply andb_prop in C as [C1 C2].
  destruct (limit_fits d _ "sentence_limit" (count_sentences response) C1) as [l1 ->]. rsimpl.
  destruct (limit_fits d _ "word_limit" (length (split_ws response)) C2) as [l2 ->]. rsimpl.
  assert (P : exists l3, optional_check d "required_prefix" "required_prefix"
    (fun v => s ← py_str v; Ok (startswith (u_casefold (strip response)) (u_casefold s))) = Ok l3).
  { unfold optional_check. destruct (dict_get d (py "required_prefix")) as [v|] eqn:V; [|by eexists].
    assert (Wv : json_writable v = true) by (apply (writable_value d (py "required_prefix")); [by apply (writable_value _ _ _ W G)|done]).
    unfold py_str. destruct v; try rewrite Wv; by eexists. }
  destruct P as [l3 ->]. rsimpl.
  destruct (default (PJArr []) (dict_get d (py "forbidden_strings"))) as [| | | | |l|]; try discriminate F.
  cbn [iterated]. rsimpl. destruct (any_occurs_texts (u_casefold response) l F) as [b ->]. rsimpl. by eexists.
Qed.

(** What Python's parser and nodes may raise of a program. *)
Definition parser_raises (response : pystr) (e : exn) : Prop :=
  ast_parse (strip_code_fence response) = Raise e \/
  exists m name, ast_parse (strip_code_fence response) = Ok (Some m) /\ known_node name = true /\
    (module_has m name = Raise e \/ exists f, function_has f name = Raise e).

Lemma coding_fits t response e : coding_ok (evaluation_metadata t) = true -> score_coding t response = Raise e ->
  parser_raises response e.
Proof.
  unfold coding_ok, score_coding, coding_metadata. intros C. apply andb_prop in C as [C _]. apply andb_prop in C as [C A].
  apply andb_prop in C as [_ C]. apply andb_prop in C as [C1 C2].
  destruct (dict_get _ (py "function_name")) as [[]|]; try discriminate C1.
  destruct (dict_get _ (py "parameters")) as [[]|]; try discriminate C2.
  destruct (dict_get _ (py "required_ast")) as [[| | | | |l|]|]; try discriminate A.
  cbn [from_option id]. unfold strings_of.
  assert (T : forallb (fun x => match x with PJStr _ => true | _ => false end) l = true).
  { rewrite forallb_forall in A |- *. intros x Hx. specialize (A x Hx). by destruct x. }
  rewrite T. assert (N : (z <? 0)%Z = false) by (apply Z.ltb_ge; by apply Z.leb_le). rewrite N. rsimpl.
  set (names := map _ l). assert (K : forall n, n ∈ names -> known_node n = true).
  { intros n Hn. apply list_elem_of_fmap in Hn as (x & -> & Hx). rewrite forallb_forall in A.
    specialize (A x (proj1 (list_elem_of_In _ _) Hx)). by destruct x. }
  intros H. unfold parser_raises. destruct (ast_parse (strip_code_fence response)) as [[m|]|e'] eqn:P; rsimpl_in H;
    [|discriminate H|injection H as ->; by left].
  assert (Kd : forall n, n ∈ dict_keys (dict_of (fun n : pystr => n) (fun n => n) names) -> known_node n = true).
  { intros n Hn. apply dict_of_mem in Hn. rewrite map_id in Hn. by apply K. }
  rewrite (proj2 (forallb_forall known_node _)) in H by (intros n Hn; apply Kd; by apply list_elem_of_In).
  cbn [negb] in H. destruct (result_map _ (dict_keys _)) as [present|e'] eqn:R; rsimpl_in H; [discriminate H|].
  injection H as ->. apply result_map_raise in R as (n & Hn & E0). right. exists m, n. split; [done|]. split; [by apply Kd|].
  destruct (match List.filter _ (top_functions m) with [f] => Some f | _ => None end) as [f|].
  - right. exists f. destruct (function_has f n); rsimpl_in E0; [discriminate E0|]. injection E0 as ->. done.
  - left. destruct (module_has m n); rsimpl_in E0; [discriminate E0|]. injection E0 as ->. done.
Qed.

Lemma structured_fits room response e : predicted_json room response = Raise e -> e = Exn C_RecursionError.
Proof. unfold predicted_json. destruct (parse_json_response room response) as [v|[]]; try discriminate; by intros [= <-]. Qed.
End Fits.

(** C22. Validated tasks are well typed for their evaluators.  Whatever a model
    answers to a task that passes the validation of the datasets, with metadata
    from a JSON text, its evaluator returns a score: the only errors left are
    the recursion limit on the JSON of a structured answer, and what Python's
    parser and its node types raise on the program of a coding answer. *)
Theorem validated_tasks_fit `{UD : UnicodeData} `{PA : PythonAst} room t response :
  validate_task t = Ok tt -> json_writable (PJObj (evaluation_metadata t)) = true ->
  match score_of room t response with
  | Ok _ => True
  | Raise e =>
      (bt_category t = BC_EXTRACTION \/ bt_category t = BC_JSON) /\ e = Exn C_RecursionError \/
      bt_category t = BC_CODING /\ parser_raises response e
  end.
Proof.
  unfold validate_task. intros V W. apply bind_ok in V as (d & _ & V). do 7 (apply bind_ok in V as (? & ? & V)).
  repeat match goal with H : value_guard _ = Ok _ |- _ => apply value_guard_ok in H end.
  unfold is_category, score_of in *. destruct (bt_category t) eqn:C; cbn [existsb] in *;
    repeat match goal with H : context [bool_decide (?a = ?b)] |- _ => 
      first [rewrite (bool_decide_eq_true_2 (a = b)) in H by done|rewrite (bool_decide_eq_false_2 (a = b)) in H by done] end;
    cbn [orb negb] in *.
  - destruct (accepted_answers_fit t W) as [a ->]; [done|]. done.
  - apply andb_prop in V as [S G]. apply all_of_list in S as (y & l & S & _).
    destruct (dict_get _ (py "deterministic_constraints")) as [[]|] eqn:G0; try discriminate G.
    destruct (summary_fits t response W) as [s ->]; [unfold dict_mem; by rewrite S|by eexists|done].
  - unfold score_extraction. destruct (predicted_json room response) as [[v|]|e] eqn:P; [done..|].
    left. split; [by left|]. by apply structured_fits in P.
  - match goal with H : match dict_get _ (py "expected_label") with _ => _ end = true |- _ => rename H into L end.
    unfold expected_label, metadata_or_reference. destruct (dict_get _ (py "expected_label")) as [v|]; [|discriminate L].
    by destruct v.
  - unfold score_json. destruct (predicted_json room response) as [[v|]|e] eqn:P; [done..|].
    left. split; [by right|]. by apply structured_fits in P.
  - destruct (accepted_answers_fit t W) as [a ->]; [done|]. done.
  - destruct (score_coding t response) as [s|e] eqn:S; [done|]. right. split; [done|]. by eapply coding_fits.
Qed.

(** ** The third version revises limits only *)

Lemma check_revision_ok `{PA : PythonAst} v2 id t b : check_revision v2 (id, t) = Ok b ->
  exists r, dict_get v2 id = Some r /\ same_content t r = true /\ validate_task t = Ok tt /\
    if b then id ∈ FOUNDATION_V3_CHANGED_TASK_IDS /\ bt_max_output_tokens t = 160%Z /\ bt_max_output_tokens r <> 160%Z
    else bt_max_output_tokens t = bt_max_output_tokens r.
Proof.
  unfold check_revision. intros H. apply bind_ok in H as ([] & V & H). destruct (dict_get v2 id) as [r|]; [|discriminate H].
  apply bind_ok in H as (u & S & H). apply value_guard_ok in S. exists r. do 3 (split; [done|]).
  destruct (Z.eqb_spec (bt_max_output_tokens t) (bt_max_output_tokens r)) as [E|E]; [by injection H as <-|].
  apply bind_ok in H as (u' & G & H). apply value_guard_ok in G. injection H as <-. bools. split; [done|]. split; [done|congruence].
Qed.

(** The keys flagged by a loop over a dictionary. *)
Definition flagged {A : Type} (d : list (pystr * A)) (flags : list bool) : list pystr :=
  map fst (List.filter (fun p => p.2) (zip (map fst d) flags)).

Lemma flagged_key {A} (d : list (pystr * A)) flags id : id ∈ flagged d flags -> id ∈ map fst d.
Proof.
  unfold flagged. intros H. apply list_elem_of_fmap in H as (p & -> & H). apply list_elem_of_In, filter_In in H as [H _].
  destruct p as [k b]. apply in_combine_l in H. by apply list_elem_of_In.
Qed.

Lemma flagged_spec {A} (f : pystr * A -> result exn bool) d flags id x :
  Forall2 (fun e b => f e = Ok b) d flags -> NoDup (map fst d) -> (id, x) ∈ d ->
  (id ∈ flagged d flags <-> f (id, x) = Ok true).
Proof.
  intros F. induction F as [|[k y] b d flags Hy _ IH]; intros N H; [by apply elem_of_nil in H|].
  cbn [map fst] in N. inversion N as [|? ? N1 N2]; subst.
  assert (D : flagged ((k, y) :: d) (b :: flags) = if b then k :: flagged d flags else flagged d flags) by (by destruct b).
  rewrite D. apply elem_of_cons in H as [E|H].
  - injection E as -> ->. rewrite Hy. destruct b; [split; [done|intros _; apply elem_of_cons; by left]|].
    split; [|discriminate]. intros X. by apply flagged_key in X.
  - rewrite <- (IH N2 H). destruct b; [|done]. rewrite elem_of_cons. split; [|by right]. intros [->|X]; [|done].
    exfalso. apply N1. apply list_elem_of_fmap. by exists (k, x).
Qed.

(** The third version revises limits only.  An accepted third version has the
    task identifiers of the second, each task with the content the second gives
    it, and its output limit is 160 for the 26 approved tasks, where it was
    another, and the limit of the second version for all others. *)
Theorem third_version_revises_limits `{PA : PythonAst} d v2 : validate_foundation_v3 d v2 = Ok tt ->
  (forall id, id ∈ dict_keys (tasks_by_id d) <-> id ∈ dict_keys (tasks_by_id v2)) /\
  FOUNDATION_V3_CHANGED_TASK_IDS ⊆ dict_keys (tasks_by_id d) /\
  forall id t, dict_get (tasks_by_id d) id = Some t -> exists r, dict_get (tasks_by_id v2) id = Some r /\
    same_content t r = true /\
    (id ∈ FOUNDATION_V3_CHANGED_TASK_IDS -> bt_max_output_tokens t = 160%Z /\ bt_max_output_tokens r <> 160%Z) /\
    (id ∉ FOUNDATION_V3_CHANGED_TASK_IDS -> bt_max_output_tokens t = bt_max_output_tokens r).
Proof.
  unfold validate_foundation_v3. intros H. do 3 apply bind_ok in H as (? & _ & H). apply bind_ok in H as (u & K & H).
  apply value_guard_ok in K. rewrite same_elements_true in K. apply bind_ok in H as (flags & F & H). apply value_guard_ok in H.
  rewrite same_elements_true in H. apply result_map_ok in F.
  change (forall x, x ∈ flagged (tasks_by_id d) flags <-> x ∈ FOUNDATION_V3_CHANGED_TASK_IDS) in H.
  assert (N : NoDup (map fst (tasks_by_id d))) by apply dict_of_nodup.
  split; [exact K|]. split; [intros id Hid; apply H in Hid; by apply flagged_key in Hid|].
  intros id t Ht. apply dict_get_some_in in Ht as Hin.
  pose proof (flagged_spec _ _ _ _ _ F N Hin) as S.
  assert (C : exists b, check_revision (tasks_by_id v2) (id, t) = Ok b).
  { clear -F Hin. induction F as [|e b l flags He _ IH]; [by apply elem_of_nil in Hin|].
    apply elem_of_cons in Hin as [<-|Hin]; [by exists b|by apply IH]. }
  destruct C as [b C]. destruct (check_revision_ok _ _ _ _ C) as (r & Hr & Hs & _ & Hb). exists r. do 2 (split; [done|]).
  rewrite C, H in S. destruct b; [split; [by destruct Hb|]|split; [|done]].
  - intros X. destruct X. by apply S.
  - intros X. apply S in X. discriminate X.
Qed.

(** ** An example: two versions that validate *)

(** The code of no task is looked at, so any parser will do. *)
#[local] Instance any_parser : PythonAst := {|
  py_module := unit;
  py_function := unit;
  ast_parse := fun _ => Ok (Some tt);
  top_functions := fun _ => [];
  fn_name := fun _ => [];
  fn_args := fun _ => 0%Z;
  fn_vararg := fun _ => false;
  fn_kwarg := fun _ => false;
  has_forbidden_type := fun _ => false;
  called_names := fun _ => [];
  known_node := fun s => bool_decide (s = py "Return");
  module_has := fun _ _ => Ok false;
  function_has := fun _ _ => Ok false
|}.

(** Metadata with what the evaluator of any category asks for. *)
Definition example_metadata (d : string) : py_dict :=
  [(py "difficulty", PJStr (py d)); (py "accepted_answers", PJArr [PJStr (py "Paris"); PJInt 7]);
   (py "expected_label", PJStr (py "yes")); (py "expected", PJInt 1);
   (py "evaluation_mode", PJStr (py "static_pending_functional")); (py "function_name", PJStr (py "f"));
   (py "parameters", PJInt 1); (py "required_ast", PJArr [PJStr (py "Return")]);
   (py "functional_tests", PJArr [PJObj [(py "args", PJArr [PJInt 1]); (py "expected", PJInt 2)]]);
   (py "semantic_requirements", PJArr [PJStr (py "names the city")]);
   (py "deterministic_constraints", PJObj [(py "max_words", PJInt 20)])].

Definition example_task (limit : pystr -> Z) (c : BenchmarkCategory) (dn : string * string) : BenchmarkTask :=
  let id := BenchmarkCategory_value c ++ py "-" ++ py dn.1 ++ py "-" ++ py dn.2 in
  mk_BenchmarkTask (py "Prompt") None (limit id) f_zero id c EO_text (example_metadata dn.1) (Some f_one) []
    None None None None None None.

Definition example_dataset (name version : string) (limit : pystr -> Z) : BenchmarkDataset :=
  mk_BenchmarkDataset (py name) (py version)
    (flat_map (fun c => map (example_task limit c)
       [("easy", "01"); ("easy", "02"); ("medium", "01"); ("medium", "02"); ("medium", "03");
        ("hard", "01"); ("hard", "02"); ("hard", "03")]%string) V2_CATEGORIES) [].

Definition example_v2 : BenchmarkDataset := example_dataset "routellm-foundation-v2" "2.0.0" (fun _ => 80%Z).
Definition example_v3 : BenchmarkDataset := example_dataset "routellm-foundation-v3" "3.0.0"
  (fun id => if bool_decide (id ∈ FOUNDATION_V3_CHANGED_TASK_IDS) then 160%Z else 80%Z).

Definition example_summary : BenchmarkTask := example_task (fun _ => 80%Z) BC_SUMMARIZATION ("easy", "01")%string.

Lemma validated_tasks_fit_witness :
  validate_task example_summary = Ok tt /\ forall room response, exists s, @score_of ascii_tables any_parser room example_summary response = Ok s.
Proof.
  assert (V : validate_task example_summary = Ok tt) by (vm_compute; reflexivity).
  split; [exact V|]. intros room response.
  pose proof (@validated_tasks_fit ascii_tables any_parser room example_summary response V eq_refl) as F.
  destruct (@score_of ascii_tables any_parser room example_summary response) as [s|e]; [by exists s|].
  destruct F as [[[X|X] _]|[X _]]; discriminate X.
Defined.

Lemma third_version_revises_limits_witness :
  validate_foundation_v3 example_v3 example_v2 = Ok tt /\
  exists r, dict_get (tasks_by_id example_v2) (py "qa-hard-01") = Some r /\ bt_max_output_tokens r <> 160%Z.
Proof.
  assert (V : validate_foundation_v3 example_v3 example_v2 = Ok tt) by (vm_compute; reflexivity).
  split; [exact V|]. destruct (third_version_revises_limits _ _ V) as (_ & _ & H).
  destruct (dict_get (tasks_by_id example_v3) (py "qa-hard-01")) as [t|] eqn:T; [|vm_compute in T; discriminate T].
  destruct (H _ _ T) as (r & R & _ & L & _). exists r. split; [exact R|].
  apply L. by apply (bool_decide_eq_true_1 (py "qa-hard-01" ∈ FOUNDATION_V3_CHANGED_TASK_IDS)).
Defined.

(** The validation accepts the name of any attribute of [ast] as a construct:
    with ["parse"], a function of the module, a task validates that its evaluator
    cannot score. *)
#[local] Instance parse_attribute : PythonAst := {|
  py_module := unit;
  py_function := unit;
  ast_parse := fun _ => Ok (Some tt);
  top_functions := fun _ => [];
  fn_name := fun _ => [];
  fn_args := fun _ => 0%Z;
  fn_vararg := fun _ => false;
  fn_kwarg := fun _ => false;
  has_forbidden_type := fun _ => false;
  called_names := fun _ => [];
  known_node := fun s => bool_decide (s = py "parse");
  module_has := fun _ _ => Raise (Exn C_TypeError);
  function_has := fun _ _ => Raise (Exn C_TypeError)
|}.

Lemma non_node_accepted : exists t,
  @validate_task parse_attribute t = Ok tt /\ forall room response, @score_of ascii_tables parse_attribute room t response = Raise (Exn C_TypeError).
Proof.
  exists (mk_BenchmarkTask (py "Prompt") None 80 f_zero (py "coding-easy-01") BC_CODING EO_code
    (map (fun e => if bool_decide (e.1 = py "required_ast") then (e.1, PJArr [PJStr (py "parse")]) else e) (example_metadata "easy"))
    (Some f_one) [] None None None None None None).
  split; [vm_compute; reflexivity|]. intros room response. reflexivity.
Qed.
