(* ===== verification/Sandbox.v ===== *)
(** * The functional sandbox ([evaluation/sandbox.py], host side)

    A request carries one candidate program and its hidden tests, a result the
    counts of one execution.  The host starts one container per request, waits
    for it under a timeout and decodes what it printed; what Docker answers is
    the record [DockerRun].  The harness is a program for the container and is
    not translated. *)
From S2P Require Import Prelude PyStr PyFloat PyDecimal PyUuid Schemas Json PyRepr JsonText Errors BenchmarkModels Aggregation Normalization.

Definition FUNCTIONAL_EVALUATOR_VERSION : pystr := py "1.0.0".

Definition DEFAULT_SANDBOX_IMAGE : pystr :=
  py "python:3.12.12-alpine3.22@sha256:848ba4413eb897e225159b8fc1b02094576cbae4aa73fc13142608ae2c8c0e32".

(** ** Data *)

Record FunctionalTestCase := mk_FunctionalTestCase {
  fc_args : list pyjson;
  fc_expected : pyjson
}.

(** [FunctionalTestCase.model_validate]: both fields and no other. *)
Definition functional_test_case (v : pyjson) : result exn FunctionalTestCase :=
  match v with
  | PJObj d =>
      match dict_get d (py "args"), dict_get d (py "expected") with
      | Some (PJArr args), Some expected =>
          if subset_of (dict_keys d) [py "args"; py "expected"] then Ok (mk_FunctionalTestCase args expected)
          else Raise (Exn C_ValidationError)
      | _, _ => Raise (Exn C_ValidationError)
      end
  | _ => Raise (Exn C_ValidationError)
  end.

Record FunctionalEvaluationRequest := mk_FunctionalEvaluationRequest {
  fr_source : pystr;
  fr_function_name : pystr;
  fr_parameter_count : Z;
  fr_tests : list FunctionalTestCase;
  fr_preserve_inputs : bool
}.

Definition is_nil {A : Type} (l : list A) : bool := match l with [] => true | _ => false end.

(** [^[A-Za-z_][A-Za-z0-9_]*$] *)
Definition identifier_start (c : N) : bool := ascii_letter c || (c =? 95)%N.

Definition identifier (s : pystr) : bool :=
  match s with
  | [] => false
  | c :: r => identifier_start c && forallb (fun c => identifier_start c || is_ascii_digit c) r
  end.

Definition FunctionalEvaluationRequest_validate (r : FunctionalEvaluationRequest) : result pystr unit :=
  check (negb (is_nil (fr_source r)) && identifier (fr_function_name r) && (0 <=? fr_parameter_count r)%Z &&
         negb (is_nil (fr_tests r))) field_error.

Inductive ExecutionStatus := XS_passed | XS_failed | XS_infrastructure_failure.

Inductive FunctionalErrorCategory :=
| FE_syntax_error | FE_missing_function | FE_wrong_signature | FE_runtime_exception | FE_timeout | FE_wrong_output
| FE_malformed_return | FE_restricted_behavior | FE_output_limit | FE_container_start_failure | FE_docker_unavailable
| FE_container_failure.

Definition FunctionalErrorCategory_value (c : FunctionalErrorCategory) : pystr :=
  match c with
  | FE_syntax_error => py "syntax_error" | FE_missing_function => py "missing_function"
  | FE_wrong_signature => py "wrong_signature" | FE_runtime_exception => py "runtime_exception"
  | FE_timeout => py "timeout" | FE_wrong_output => py "wrong_output" | FE_malformed_return => py "malformed_return"
  | FE_restricted_behavior => py "restricted_behavior" | FE_output_limit => py "output_limit"
  | FE_container_start_failure => py "container_start_failure" | FE_docker_unavailable => py "docker_unavailable"
  | FE_container_failure => py "container_failure"
  end.

Record FunctionalEvaluationResult := mk_FunctionalEvaluationResult {
  execution_status : ExecutionStatus;
  tests_attempted : Z;
  tests_passed : Z;
  tests_failed : Z;
  total_tests : Z;
  fx_quality_score : option float;
  fx_acceptable : option bool;
  timed_out : bool;
  fx_error_category : option FunctionalErrorCategory;
  fx_evaluator_version : pystr
}.

(** [consistent_result].  The division of two integers raises when its value is
    too large for a float. *)
Definition functional_consistent (r : FunctionalEvaluationResult) : result exn unit :=
  match execution_status r with
  | XS_infrastructure_failure =>
      guard_else (negb (is_some (fx_quality_score r)) && negb (is_some (fx_acceptable r)) &&
                  (tests_attempted r =? 0)%Z && (tests_passed r =? 0)%Z && (tests_failed r =? 0)%Z &&
                  is_some (fx_error_category r)) (Exn C_ValidationError)
  | status =>
      let expected_score := ratio (tests_passed r) (total_tests r) in
      _ ← guard_else (f_isfinite expected_score) (Exn C_OverflowError);
      guard_else (match fx_quality_score r with Some q => f_eqb q expected_score | None => false end &&
                  (tests_failed r =? total_tests r - tests_passed r)%Z &&
                  (tests_attempted r <=? total_tests r)%Z &&
                  bool_decide (fx_acceptable r = Some (tests_passed r =? total_tests r)%Z) &&
                  Bool.eqb (match status with XS_passed => true | _ => false end)
                           (bool_decide (fx_acceptable r = Some true))) (Exn C_ValidationError)
  end.

Definition FunctionalEvaluationResult_validate (r : FunctionalEvaluationResult) : result exn unit :=
  _ ← guard_else ((0 <=? tests_attempted r)%Z && (0 <=? tests_passed r)%Z && (0 <=? tests_failed r)%Z &&
                  (0 <? total_tests r)%Z && opt_all unit_interval (fx_quality_score r)) (Exn C_ValidationError);
  functional_consistent r.

Definition new_functional (r : FunctionalEvaluationResult) : result exn FunctionalEvaluationResult :=
  _ ← FunctionalEvaluationResult_validate r; Ok r.

(** ** [bytes.decode("utf-8", "replace")] *)

(** The number of continuation bytes, the range of the first one and the bits
    of the lead byte. *)
Definition utf8_lead (b : N) : option (nat * (N * N) * N) :=
  if (194 <=? b)%N && (b <=? 223)%N then Some (1%nat, (128, 191)%N, (b - 192)%N)
  else if (b =? 224)%N then Some (2%nat, (160, 191)%N, 0%N)
  else if (b =? 237)%N then Some (2%nat, (128, 159)%N, 13%N)
  else if (225 <=? b)%N && (b <=? 239)%N then Some (2%nat, (128, 191)%N, (b - 224)%N)
  else if (b =? 240)%N then Some (3%nat, (144, 191)%N, 0%N)
  else if (241 <=? b)%N && (b <=? 243)%N then Some (3%nat, (128, 191)%N, (b - 240)%N)
  else if (b =? 244)%N then Some (3%nat, (128, 143)%N, 4%N)
  else None.

(** Continuation bytes as long as they are valid: the value when complete, and
    what follows the valid ones. *)
Fixpoint utf8_continue (n : nat) (range : N * N) (acc : N) (s : list N) : option N * list N :=
  match n with
  | O => (Some acc, s)
  | S n' =>
      match s with
      | c :: s' => if (range.1 <=? c)%N && (c <=? range.2)%N
                   then utf8_continue n' (128, 191)%N (acc * 64 + (c - 128))%N s'
                   else (None, s)
      | [] => (None, s)
      end
  end.

Fixpoint utf8_replace (fuel : nat) (s : list N) : pystr :=
  match fuel, s with
  | S n, b :: r =>
      if (b <? 128)%N then b :: utf8_replace n r
      else match utf8_lead b with
           | None => 65533%N :: utf8_replace n r
           | Some (k, range, bits) =>
               let '(v, r') := utf8_continue k range bits r in
               default 65533%N v :: utf8_replace n r'
           end
  | _, _ => []
  end.

Definition decode_replace (s : list N) : pystr := utf8_replace (length s) s.

Example decode_1 : decode_replace [226; 132; 170; 255; 226; 132; 65]%N = [8490; 65533; 65533; 65]%N.
Proof. reflexivity. Qed.

(** ** [DockerPythonSandbox] *)

Record DockerPythonSandbox := mk_DockerPythonSandbox {
  dk_image : pystr;
  dk_timeout_seconds : float;
  dk_memory : pystr;
  dk_cpus : float;
  dk_pids_limit : Z
}.

Definition new_DockerPythonSandbox (image : pystr) (timeout_seconds : float) (memory : pystr) (cpus : float)
    (pids_limit : Z) : result exn DockerPythonSandbox :=
  if f_leb timeout_seconds f_zero || f_leb cpus f_zero || (pids_limit <=? 0)%Z then Raise (Exn C_ValueError)
  else Ok (mk_DockerPythonSandbox image timeout_seconds memory cpus pids_limit).

(** [command]; the harness is the last argument. *)
Definition command (d : DockerPythonSandbox) (harness name : pystr) : list pystr :=
  [ py "docker"; py "run"; py "--rm"; py "--pull=never"; py "--name"; name; py "--network=none";
    py "--memory=" ++ dk_memory d; py "--memory-swap=" ++ dk_memory d; py "--cpus=" ++ float_repr (dk_cpus d);
    py "--pids-limit=" ++ Z_to_str (dk_pids_limit d); py "--user=65534:65534"; py "--read-only"; py "--cap-drop=ALL";
    py "--security-opt=no-new-privileges:true"; py "--tmpfs=/tmp:rw,noexec,nosuid,nodev,size=16m";
    py "--env=PYTHONDONTWRITEBYTECODE=1"; py "--env=PYTHONHASHSEED=0"; py "-i"; dk_image d; py "python"; py "-I";
    py "-S"; py "-c"; harness ].

(** What Docker answers: to the start, to [communicate] (return code, output and
    errors), and whether the return code is known when the [finally] clause
    runs although [communicate] raised. *)
Record DockerRun := mk_DockerRun {
  dr_start : result exn unit;
  dr_communicate : result exn (Z * list N * list N);
  dr_exited : bool;
  dr_decode : list N -> result exn FunctionalEvaluationResult
}.

Inductive docker_op := OpRun (argv : list pystr) | OpKill | OpRemove (name : pystr).

#[export] Instance docker_op_eq_dec : EqDecision docker_op.
Proof. solve_decision. Defined.

(** [_infrastructure] *)
Definition infrastructure (total : Z) (c : FunctionalErrorCategory) : result exn FunctionalEvaluationResult :=
  new_functional (mk_FunctionalEvaluationResult XS_infrastructure_failure 0 0 0 total None None false (Some c)
                    FUNCTIONAL_EVALUATOR_VERSION).

(** A failed execution of all tests. *)
Definition all_failed (total : Z) (late : bool) (c : FunctionalErrorCategory) : result exn FunctionalEvaluationResult :=
  new_functional (mk_FunctionalEvaluationResult XS_failed total 0 total total (Some f_zero) (Some false) late (Some c)
                    FUNCTIONAL_EVALUATOR_VERSION).

Section Execution.
Context {UD : UnicodeData} (d : DockerPythonSandbox) (harness : pystr) (run : DockerRun).

(** What the output of a finished container means. *)
Definition read_output (total : Z) (returncode : Z) (stdout stderr : list N) : result exn FunctionalEvaluationResult :=
  if Nat.ltb 65536 (length stdout) || Nat.ltb 65536 (length stderr) then all_failed total false FE_output_limit
  else if negb (returncode =? 0)%Z then
    let lowered := u_casefold (decode_replace stderr) in
    if (returncode =? 137)%Z || (returncode =? 139)%Z then all_failed total false FE_runtime_exception
    else infrastructure total
           (if contains (py "cannot connect to the docker daemon") lowered || contains (py "permission denied") lowered
            then FE_docker_unavailable
            else if contains (py "unable to find image") lowered || contains (py "no such image") lowered
            then FE_container_start_failure else FE_container_failure)
  else match dr_decode run stdout with
       | Ok r => Ok r
       | Raise e => if isinstance e C_ValueError then infrastructure total FE_container_failure else Raise e
       end.

(** [evaluate]: the result and the operations on containers, in order.  [_remove]
    swallows every failure of its own. *)
Definition sandbox_evaluate (id : uuid) (request : FunctionalEvaluationRequest) :
    result exn FunctionalEvaluationResult * list docker_op :=
  let name := py "routellm-eval-" ++ uuid_hex id in
  let total := Z.of_nat (length (fr_tests request)) in
  match dr_start run with
  | Raise e =>
      (if isinstance e C_FileNotFoundError then infrastructure total FE_docker_unavailable
       else if isinstance e C_OSError then infrastructure total FE_container_start_failure
       else Raise e, [])
  | Ok _ =>
      let started := OpRun (command d harness name) in
      let last := if dr_exited run then [OpRemove name] else [] in
      match dr_communicate run with
      | Ok (returncode, stdout, stderr) => (read_output total returncode stdout stderr, [started; OpRemove name])
      | Raise e =>
          if isinstance e C_TimeoutError then (all_failed total true FE_timeout, started :: OpKill :: OpRemove name :: last)
          else if isinstance e C_CancelledError then (Raise e, started :: OpKill :: OpRemove name :: last)
          else if isinstance e C_OSError then
            (infrastructure total FE_container_failure, started :: OpKill :: OpRemove name :: last)
          else (Raise e, started :: last)
      end
  end.
End Execution.

(** ** What a result says *)

(** A scored result counts every test once, and passes exactly when all did. *)
Definition scored_result (r : FunctionalEvaluationResult) : Prop :=
  (0 <= tests_passed r)%Z /\ (tests_passed r + tests_failed r = total_tests r)%Z /\ (0 < total_tests r)%Z /\
  fx_acceptable r = Some (tests_passed r =? total_tests r)%Z /\
  (execution_status r = XS_passed <-> tests_passed r = total_tests r).

Definition unscored_result (r : FunctionalEvaluationResult) : Prop :=
  fx_quality_score r = None /\ fx_acceptable r = None /\ fx_error_category r <> None.

Lemma functional_result_sound r : FunctionalEvaluationResult_validate r = Ok tt ->
  match execution_status r with
  | XS_infrastructure_failure => unscored_result r
  | _ => scored_result r
  end.
Proof.
  unfold FunctionalEvaluationResult_validate, functional_consistent. intros H.
  apply bind_ok in H as (u & Hf & H). apply guard_ok in Hf. bools.
  destruct (execution_status r) eqn:S.
  3: { apply guard_ok in H. bools. unfold unscored_result.
       destruct (fx_quality_score r); [done|]. destruct (fx_acceptable r); [done|]. by destruct (fx_error_category r). }
  all: apply bind_ok in H as (u' & _ & H); apply guard_ok in H; bools; unfold scored_result.
  all: match goal with A : fx_acceptable _ = _, B : Bool.eqb _ _ = true |- _ =>
         rewrite A in *; apply eqb_prop in B; symmetry in B; bools end.
  all: rewrite S; split; [lia|]; split; [lia|]; split; [lia|]; split; [done|].
  - split; [intros _|done]. match goal with B : Some _ = Some true |- _ => injection B as B; by bools end.
  - split; [done|]. intros E. match goal with B : _ <> Some true |- _ => destruct B; f_equal; lia end.
Qed.

Lemma infrastructure_unscored total c r : infrastructure total c = Ok r ->
  FunctionalEvaluationResult_validate r = Ok tt /\ fx_acceptable r = None.
Proof.
  unfold infrastructure, new_functional. intros H. apply bind_ok in H as ([] & V & H). injection H as <-. done.
Qed.

Lemma all_failed_rejected total late c r : all_failed total late c = Ok r ->
  FunctionalEvaluationResult_validate r = Ok tt /\ fx_acceptable r = Some false.
Proof.
  unfold all_failed, new_functional. intros H. apply bind_ok in H as ([] & V & H). injection H as <-. done.
Qed.

(** What a container printed decides only when it ended by itself, in time, with
    return code zero and within the limit of its output. *)
Definition reported (run : DockerRun) (r : FunctionalEvaluationResult) : Prop :=
  exists stdout stderr, dr_communicate run = Ok (0%Z, stdout, stderr) /\ length stdout <= 65536 /\
    length stderr <= 65536 /\ dr_decode run stdout = Ok r.

(** Neither a report nor an acceptance. *)
Definition host_made (r : FunctionalEvaluationResult) : Prop :=
  FunctionalEvaluationResult_validate r = Ok tt /\ fx_acceptable r <> Some true.

Lemma infrastructure_host total c r : infrastructure total c = Ok r -> host_made r.
Proof. intros H. apply infrastructure_unscored in H as [V A]. split; [done|]. by rewrite A. Qed.

Lemma all_failed_host total late c r : all_failed total late c = Ok r -> host_made r.
Proof. intros H. apply all_failed_rejected in H as [V A]. split; [done|]. by rewrite A. Qed.

#[local] Hint Resolve infrastructure_host all_failed_host : core.

Lemma read_output_spec `{UD : UnicodeData} run total code stdout stderr r :
  dr_communicate run = Ok (code, stdout, stderr) -> read_output run total code stdout stderr = Ok r ->
  reported run r \/ host_made r.
Proof.
  intros Hc. unfold read_output.
  destruct (Nat.ltb 65536 (length stdout) || Nat.ltb 65536 (length stderr)) eqn:L; [eauto|]. cbv zeta.
  destruct (code =? 0)%Z eqn:Z; cbn [negb]; [|by destruct ((code =? 137)%Z || (code =? 139)%Z); eauto]. bools. subst code.
  destruct (dr_decode run stdout) as [r'|e] eqn:D; [|by destruct (isinstance _ _); eauto].
  intros X. injection X as <-. left. by exists stdout, stderr.
Qed.

(** Only a container's own report passes a program.  A result that accepts was
    printed by a container that ended by itself in time with return code zero
    and within the output limit; every other result the host made up, it is
    consistent and accepts nothing.  Nothing runs when Docker cannot start;
    otherwise exactly one container is started, under the fixed restrictions,
    and it is removed unless waiting for it raised something else than a
    timeout, a cancellation or an operating system error and it still runs. *)
Theorem sandbox_accounts `{UD : UnicodeData} d harness run id request :
  let name := py "routellm-eval-" ++ uuid_hex id in
  let out := sandbox_evaluate d harness run id request in
  (forall r, out.1 = Ok r -> reported run r \/ host_made r) /\
  match dr_start run with
  | Raise _ => out.2 = []
  | Ok _ => exists after, out.2 = OpRun (command d harness name) :: after /\
      Forall (fun op => op = OpKill \/ op = OpRemove name) after /\
      (OpRemove name ∈ after \/ dr_exited run = false /\ exists e, dr_communicate run = Raise e /\
         isinstance e C_OSError = false /\ isinstance e C_CancelledError = false)
  end.
Proof.
  intros name out. subst out. unfold sandbox_evaluate. fold name. cbv zeta.
  destruct (dr_start run) as [u|e].
  2: { cbn [fst snd]. split; [|done]. intros r.
       destruct (isinstance e C_FileNotFoundError); [eauto|]. by destruct (isinstance e C_OSError); eauto. }
  set (last := if dr_exited run then _ else _).
  assert (Hl : Forall (fun op => op = OpKill \/ op = OpRemove name) last).
  { subst last. destruct (dr_exited run); [constructor; [by right|constructor]|constructor]. }
  assert (Hk : exists after, OpRun (command d harness name) :: OpKill :: OpRemove name :: last =
      OpRun (command d harness name) :: after /\ Forall (fun op => op = OpKill \/ op = OpRemove name) after /\
      OpRemove name ∈ after).
  { eexists. split; [reflexivity|]. split; [|by right; left].
    constructor; [by left|]. constructor; [by right|done]. }
  destruct Hk as (after & Ek & Fk & Rk).
  destruct (dr_communicate run) as [[[code stdout] stderr]|e] eqn:C.
  { cbn [fst snd]. split; [intros r; by apply read_output_spec|]. exists [OpRemove name]. split; [done|].
    split; [constructor; [by right|constructor]|]. left. by left. }
  destruct (isinstance e C_TimeoutError) eqn:T; [|destruct (isinstance e C_CancelledError) eqn:K;
    [|destruct (isinstance e C_OSError) eqn:O]]; cbn [fst snd]; rewrite ?Ek.
  1-3: split; [by eauto|]; exists after; by eauto.
  split; [done|]. exists last. split; [done|]. split; [done|]. subst last.
  destruct (dr_exited run); [left; by left|]. right. split; [done|]. by exists e.
Qed.
