(* ===== verification/EvaluationService.v ===== *)
(** * The evaluation service ([evaluation/service.py], the checks of
    [evaluation/repository.py])

    Stored results of a completed run are evaluated one by one: by the
    deterministic evaluator of their category, then, where that one asks for
    it, by the sandbox or by a judge.  Sandbox and judges are collaborators
    with their configuration, as the protocols of the source.  Pydantic's
    serialization of records is the class [Dumps]. *)
From Stdlib Require Import QArith.
From S2P Require Import Prelude PyStr PyFloat PyDecimal PyUuid Schemas Json PyRepr JsonText Errors Registry Effects Inference BenchmarkModels BenchmarkRunner Aggregation SummarySpec Normalization SemanticJudge Evaluators Sandbox.

Class Dumps := {
  dump_evaluation : EvaluationResult -> pyjson;
  dump_functional : FunctionalEvaluationResult -> pyjson;
  dump_semantic : JudgeResult SemanticRubric -> pyjson;
  dump_hybrid : JudgeResult HybridSemanticRubric -> pyjson;
  dump_finding : MaterialErrorFinding -> pyjson
}.

(** ** The stored run *)

(** What the files of a run hold: manifest with status, and the results in the
    order of their names. *)
Record RunFiles := mk_RunFiles {
  rf_manifest : result exn (BenchmarkRun * pyjson);
  rf_results : result exn (list BenchmarkResult)
}.

(** The files of a run in a store: the manifest with the status, and the results
    in the order of their names, which are their identifiers. *)
Definition files_of (fs : file_store) (run_id : uuid) : RunFiles :=
  match dict_get fs run_id with
  | None => mk_RunFiles (Raise (Exn C_FileNotFoundError)) (Ok [])
  | Some d => mk_RunFiles (Ok (fd_manifest d, fd_status d))
                (Ok (map snd (py_sorted (cmp_le (on_key (fun x => uuid_str x.1) str_cmp)) (fd_results d))))
  end.

Definition artifact_error {A : Type} : result exn A := Raise (Exn C_EvaluationArtifactError).

Definition artifact_guard (c : bool) : result exn unit := guard_else c (Exn C_EvaluationArtifactError).

Definition catching {A : Type} (cs : list exn_class) (r : result exn A) : result exn A :=
  match r with
  | Ok a => Ok a
  | Raise e => if existsb (isinstance e) cs then artifact_error else Raise e
  end.

Definition pair_of (r : BenchmarkResult) : pystr * pystr := (br_task_id r, br_model_id r).

(** [_load_run] *)
Definition load_run (run_id : uuid) (f : RunFiles) : result exn (BenchmarkRun * list BenchmarkResult) :=
  '(run, status) ← match rf_manifest f with
                   | Raise e => if isinstance e C_FileNotFoundError then Raise (Exn C_EvaluationNotFoundError)
                                else catching [C_ValueError; C_TypeError] (Raise e)
                   | m => m
                   end;
  status ← match status with PJObj d => Ok d | _ => artifact_error end;
  _ ← artifact_guard (bool_decide (rn_run_id run = run_id));
  _ ← artifact_guard (match dict_get status (py "status") with
                      | Some (PJStr s) => bool_decide (s = py "completed")
                      | _ => false
                      end);
  results ← catching [C_OSError; C_ValueError; C_TypeError] (rf_results f);
  _ ← artifact_guard (negb (is_nil results));
  _ ← artifact_guard (all_distinct (map br_result_id results));
  let selected := rn_selected_task_ids run in
  let models := map model_id (rn_models run) in
  _ ← artifact_guard (negb (is_nil selected) && all_distinct selected &&
                      subset_of selected (map task_id (tasks (rn_dataset run))));
  _ ← artifact_guard (negb (is_nil models) && all_distinct models);
  let pairs := map pair_of results in
  _ ← artifact_guard (all_distinct pairs && same_elements pairs (list_prod selected models));
  _ ← artifact_guard (forallb (fun r => bool_decide (br_run_id r = run_id)) results);
  Ok (run, results).

(** [_load_summary], which is the service's [summary]. *)
Definition load_summary (run_id : uuid) (file : result exn EvaluationSummary) : result exn EvaluationSummary :=
  summary ← match file with
            | Raise e => if isinstance e C_FileNotFoundError then Raise (Exn C_EvaluationNotFoundError)
                         else catching [C_ValueError; C_TypeError] (Raise e)
            | s => s
            end;
  _ ← artifact_guard (bool_decide (sm_run_id summary = run_id));
  Ok summary.

(** ** The service *)

(** A sandbox or a judge, with the value of its [configuration]. *)
Record collaborator (Rq Rs : Type) := mk_collaborator {
  co_configuration : pyjson;
  co_call : Rq -> M Rs
}.
Arguments mk_collaborator {Rq Rs} _ _.
Arguments co_configuration {Rq Rs} _.
Arguments co_call {Rq Rs} _ _.

Record EvaluationService := mk_EvaluationService {
  es_functional_sandbox : option (collaborator FunctionalEvaluationRequest FunctionalEvaluationResult);
  es_semantic_judge : option (collaborator SemanticJudgeRequest (JudgeResult SemanticRubric));
  es_hybrid_judge : option (collaborator HybridJudgeRequest (JudgeResult HybridSemanticRubric));
  es_specification : option PropositionSpecification
}.

Definition configuration_of {Rq Rs : Type} (c : option (collaborator Rq Rs)) : pyjson :=
  match c with Some c => co_configuration c | None => PJNull end.

(** [configuration] *)
Definition service_configuration (s : EvaluationService) : py_dict :=
  [(py "functional_sandbox", configuration_of (es_functional_sandbox s));
   (py "semantic_judge", configuration_of (es_semantic_judge s));
   (py "hybrid_semantic_judge", configuration_of (es_hybrid_judge s))].

(** [model_copy(update=...)] of the fields the service changes; nothing is
    validated again. *)
Definition copy_outcome (e : EvaluationResult) (name version : pystr) (status : EvaluationStatus) (quality : option float)
    (accepted : option bool) (reason : pystr) (details : py_dict) : EvaluationResult :=
  mk_EvaluationResult (ev_benchmark_result_id e) (ev_run_id e) (ev_task_id e) (ev_model_id e) name version
    (ev_evaluated_at e) status quality (ev_acceptable_threshold e) accepted reason (component_scores e) details
    (evaluation_call_made e) (evaluation_input_tokens e) (evaluation_output_tokens e) (evaluation_latency_ms e)
    (evaluation_cost_usd e).

Definition copy_reason (e : EvaluationResult) (reason : pystr) (details : py_dict) : EvaluationResult :=
  copy_outcome e (ev_evaluator_name e) (ev_evaluator_version e) (evaluation_status e) (quality_score e) (acceptable e)
    reason details.

(** [**usage_fields] *)
Definition with_usage (u : option JudgeUsage) (e : EvaluationResult) : EvaluationResult :=
  mk_EvaluationResult (ev_benchmark_result_id e) (ev_run_id e) (ev_task_id e) (ev_model_id e) (ev_evaluator_name e)
    (ev_evaluator_version e) (ev_evaluated_at e) (evaluation_status e) (quality_score e) (ev_acceptable_threshold e)
    (acceptable e) (ev_reason e) (component_scores e) (ev_details e) true
    (match u with Some u => ju_input_tokens u | None => 0%Z end) (match u with Some u => ju_output_tokens u | None => 0%Z end)
    (match u with Some u => ju_latency_ms u | None => f_zero end)
    (match u with Some u => ju_estimated_cost_usd u | None => d_zero end).

Section Service.
Context {E : Env} {UD : UnicodeData} {PA : PythonAst} {DU : Dumps}.

(** A scored evaluation of the service, before its usage. *)
Definition scored (t : BenchmarkTask) (r : BenchmarkResult) (now : Z) (name version : pystr) (quality : option float)
    (threshold : float) (accepted : option bool) (reason : pystr) (components : list (list N * float))
    (details : py_dict) : EvaluationResult :=
  mk_EvaluationResult (br_result_id r) (br_run_id r) (task_id t) (br_model_id r) name version now ES_evaluated quality
    threshold accepted reason components details false 0 0 f_zero d_zero.

(** *** Execution *)

(** The request of [_evaluate_functionally].  The static evaluator has refused
    metadata whose name is no text or whose parameters are no integer. *)
Definition functional_request (t : BenchmarkTask) (response : pystr) : result exn FunctionalEvaluationRequest :=
  let metadata := evaluation_metadata t in
  tests ← match dict_get metadata (py "functional_tests") with
          | Some (PJArr l) => Ok l
          | _ => Raise (Exn C_ValueError)
          end;
  name ← match dict_get metadata (py "function_name") with
         | Some (PJStr s) => Ok s
         | Some _ => Raise (Exn C_ValidationError)
         | None => Raise (Exn C_KeyError)
         end;
  parameters ← match dict_get metadata (py "parameters") with
               | Some (PJInt n) => Ok n
               | Some _ => Raise (Exn C_ValidationError)
               | None => Raise (Exn C_KeyError)
               end;
  cases ← result_map functional_test_case tests;
  let rq := mk_FunctionalEvaluationRequest (strip_code_fence response) name parameters cases
              (contains (py "mutat") (u_casefold (bt_prompt t))) in
  _ ← validated (FunctionalEvaluationRequest_validate rq);
  Ok rq.

Definition functional_reason (o : FunctionalEvaluationResult) : pystr :=
  match execution_status o with
  | XS_passed => py "Passed " ++ Z_to_str (tests_passed o) ++ py " of " ++ Z_to_str (total_tests o) ++ py " hidden functional tests."
  | _ => py "Functional evaluation failed: " ++
         match fx_error_category o with Some c => FunctionalErrorCategory_value c | None => py "None" end ++ py "."
  end.

(** [_evaluate_functionally] *)
Definition evaluate_functionally (sandbox : collaborator FunctionalEvaluationRequest FunctionalEvaluationResult)
    (t : BenchmarkTask) (r : BenchmarkResult) (response : pystr) (static : EvaluationResult) : M EvaluationResult :=
  rq ← lift (functional_request t response);
  o ← co_call sandbox rq;
  let details := [(py "static_validation", dump_evaluation static); (py "functional_execution", dump_functional o)] in
  match execution_status o with
  | XS_infrastructure_failure =>
      mret (copy_reason static (py "Functional evaluation infrastructure failed; candidate quality was not scored.") details)
  | _ =>
      now ← read_now;
      let component := match fx_quality_score o with
                       | Some q => if f_eqb q f_zero then f_zero else q
                       | None => f_zero
                       end in
      lift (new_evaluation (scored t r now (py "docker_python_functional") (fx_evaluator_version o) (fx_quality_score o)
              f_one (fx_acceptable o) (functional_reason o) [(py "functional_tests", component)] details))
  end.

(** *** The older judge *)

(** [all(score == 1 for score in component_scores.values())] *)
Definition deterministic_passed (e : EvaluationResult) : bool := forallb (fun c => f_eqb c.2 f_one) (component_scores e).

Definition semantic_threshold (t : BenchmarkTask) : float := default (f_of_ratio 4 5) (acceptable_threshold t).

(** [{**{f"deterministic_{key}": value ...}, ...}] *)
Definition with_deterministic (e : EvaluationResult) (components : list (list N * float)) : list (list N * float) :=
  dict_update (dict_of (fun c => py "deterministic_" ++ c.1) snd (component_scores e)) components.

Definition text_item (v : pyjson) : result exn pystr :=
  match v with PJStr s => Ok s | _ => Raise (Exn C_ValidationError) end.

(** The request of [_evaluate_semantically]. *)
Definition semantic_request (t : BenchmarkTask) (response : pystr) : result exn SemanticJudgeRequest :=
  let metadata := evaluation_metadata t in
  required ← match dict_get metadata (py "semantic_requirements") with
             | Some v => iterated v
             | None => Raise (Exn C_KeyError)
             end;
  requirements ← result_map text_item required;
  constraints ← match default (PJObj []) (dict_get metadata (py "deterministic_constraints")) with
                | PJObj d => Ok d
                | _ => Raise (Exn C_ValidationError)
                end;
  let rq := mk_SemanticJudgeRequest (bt_prompt t) response requirements constraints in
  _ ← validated (SemanticJudgeRequest_validate rq);
  Ok rq.

Definition no_entry (l : list pystr) : float := float_of_bool (is_nil l).

Definition semantic_components (e : EvaluationResult) (b : SemanticRubric) : list (list N * float) :=
  with_deterministic e
    [(py "required_fact_coverage", required_fact_coverage b); (py "instruction_compliance", instruction_compliance b);
     (py "no_unsupported_claims", no_entry (unsupported_claims b)); (py "no_contradictions", no_entry (contradictions b));
     (py "no_causal_claim_errors", no_entry (causal_claim_errors b));
     (py "no_attribution_errors", no_entry (attribution_errors b));
     (py "no_quantity_or_time_errors", no_entry (quantity_or_time_errors b));
     (py "no_certainty_distortions", no_entry (certainty_distortions b))].

(** [_evaluate_semantically] *)
Definition evaluate_semantically (judge : collaborator SemanticJudgeRequest (JudgeResult SemanticRubric))
    (t : BenchmarkTask) (r : BenchmarkResult) (response : pystr) (deterministic : EvaluationResult) : M EvaluationResult :=
  rq ← lift (semantic_request t response);
  o ← co_call judge rq;
  let details := [(py "deterministic", dump_evaluation deterministic); (py "semantic_judge", dump_semantic o)] in
  match jr_status o, jr_rubric o with
  | JS_evaluated, Some b =>
      let threshold := semantic_threshold t in
      let quality := if deterministic_passed deterministic && negb (material_errors b)
                     then f_min (required_fact_coverage b) (instruction_compliance b) else f_zero in
      now ← read_now;
      lift (new_evaluation (with_usage (jr_usage o)
        (scored t r now (py "semantic_summary_judge") SEMANTIC_JUDGE_VERSION (Some quality) threshold
           (Some (f_leb threshold quality)) (sr_reason b) (semantic_components deterministic b) details)))
  | _, _ => mret (with_usage (jr_usage o)
              (copy_reason deterministic (py "Semantic judge infrastructure failed; candidate quality was not scored.") details))
  end.

(** *** The hybrid judge *)

(** The task's specification: the one its metadata name, else the only one for
    its canonical task. *)
Definition task_specification (p : PropositionSpecification) (t : BenchmarkTask) :
    result exn SummarizationTaskSpecification :=
  let by_id := dict_of specification_id (fun s => s) (ps_tasks p) in
  let named := match dict_get (evaluation_metadata t) (py "semantic_specification_id") with
               | Some (PJStr id) => dict_get by_id id
               | _ => None
               end in
  match named with
  | Some s => Ok s
  | None => match List.filter (fun s => bool_decide (canonical_task_id s = task_id t)) (ps_tasks p) with
            | [s] => Ok s
            | _ => Raise (Exn C_ValueError)
            end
  end.

(** [from_specification(...).model_copy(update={...})] *)
Definition specified_request (p : PropositionSpecification) (s : SummarizationTaskSpecification) (response : pystr) :
    result exn HybridJudgeRequest :=
  rq ← from_specification s response;
  Ok (mk_HybridJudgeRequest (source_material rq) (candidate_summary rq) (required_propositions rq)
        (material_error_contract p)).

(** [Fraction(str(threshold))] *)
Definition d_fraction (d : decimal) : Q :=
  let c := if d_neg d then Z.opp (Z.of_N (d_coef d)) else Z.of_N (d_coef d) in
  if (0 <=? d_exp d)%Z then inject_Z (c * 10 ^ d_exp d) else Qmake c (Z.to_pos (10 ^ (- d_exp d))).

Definition threshold_fraction (f : float) : result exn Q :=
  match decimal_of_str (float_repr f) with Some d => Ok (d_fraction d) | None => Raise (Exn C_ValueError) end.

Definition HYBRID_NAME : pystr := py "hybrid_proposition_semantic_summary".

(** The partial evaluation of [model_copy]. *)
Definition unscored (e : EvaluationResult) (reason : pystr) (details : py_dict) : EvaluationResult :=
  copy_outcome e HYBRID_NAME HYBRID_SEMANTIC_EVALUATOR_VERSION ES_partial None None reason details.

Definition judge_failure_type (c : option JudgeError) : pystr :=
  match c with Some (JE_provider_error | JE_timeout) => py "PROVIDER_FAILURE" | _ => py "MALFORMED_JUDGMENT" end.

Definition findings_of (m : Materiality) (b : HybridSemanticRubric) : list MaterialErrorFinding :=
  List.filter (fun f => bool_decide (materiality f = m)) (material_error_findings b).

Definition rubric_verdicts (b : HybridSemanticRubric) : list (list N * EntailmentVerdict) :=
  dict_of pj_proposition_id verdict (proposition_judgments b).

(** The score of a complete coverage and its failure type. *)
Definition hybrid_quality (passed : bool) (material : bool) (n d : Z) (threshold : float) : result exn (float * pystr) :=
  if negb passed then Ok (f_zero, py "DETERMINISTIC_TASK_FAILURE")
  else if material then Ok (f_zero, py "MATERIAL_SEMANTIC_FAILURE")
  else
    limit ← threshold_fraction threshold;
    Ok (ratio n d, if Qle_bool limit (Qmake n (Z.to_pos d)) then py "COMPLETE_SEMANTIC_RESULT" else py "COVERAGE_FAILURE").

(** The evaluation of a rubric that judges every proposition. *)
Definition hybrid_scored (t : BenchmarkTask) (r : BenchmarkResult) (deterministic : EvaluationResult)
    (o : JudgeResult HybridSemanticRubric) (b : HybridSemanticRubric) (n d : Z) (now : Z) : result exn EvaluationResult :=
  let material := findings_of M_material b in
  let threshold := semantic_threshold t in
  '(quality, failure_type) ← hybrid_quality (deterministic_passed deterministic) (negb (is_nil material)) n d threshold;
  new_evaluation (with_usage (jr_usage o)
    (scored t r now HYBRID_NAME HYBRID_SEMANTIC_EVALUATOR_VERSION (Some quality) threshold (Some (f_leb threshold quality))
      (failure_type ++ py ": weighted semantic coverage is " ++ Z_to_str n ++ py "/" ++ Z_to_str d ++ py ".")
      (with_deterministic deterministic
         [(py "weighted_proposition_coverage", ratio n d);
          (py "no_material_semantic_errors", float_of_bool (is_nil material))])
      [(py "failure_type", PJStr failure_type); (py "deterministic", dump_evaluation deterministic);
       (py "semantic_judge", dump_hybrid o);
       (py "coverage_fraction", PJObj [(py "numerator", PJInt n); (py "denominator", PJInt d)]);
       (py "material_error_veto_count", PJInt (Z.of_nat (length material)))])).

(** What the service makes of an answer of the judge. *)
Definition hybrid_outcome (s : SummarizationTaskSpecification) (t : BenchmarkTask) (r : BenchmarkResult)
    (deterministic : EvaluationResult) (o : JudgeResult HybridSemanticRubric) : M EvaluationResult :=
  let details failure_type := [(py "failure_type", PJStr failure_type); (py "deterministic", dump_evaluation deterministic);
                               (py "semantic_judge", dump_hybrid o)] in
  match jr_status o, jr_rubric o with
  | JS_evaluated, Some b =>
      c ← lift (weighted_coverage s (rubric_verdicts b));
      let borderline := findings_of M_borderline b in
      let ambiguous ids :=
        let failure_type := py "AMBIGUOUS_SEMANTIC_RESULT" in
        mret (with_usage (jr_usage o) (unscored deterministic (failure_type ++ py ": human review is required.")
          (details failure_type ++
           [(py "ambiguous_proposition_ids", PJArr (map PJStr ids));
            (py "borderline_material_findings", PJArr (map dump_finding borderline))]))) in
      match c with
      | Coverage_incomplete ids => ambiguous ids
      | Coverage_complete n d =>
          if negb (is_nil borderline) then ambiguous []
          else now ← read_now; lift (hybrid_scored t r deterministic o b n d now)
      end
  | _, _ =>
      let failure_type := judge_failure_type (jr_error_category o) in
      mret (with_usage (jr_usage o)
        (unscored deterministic (failure_type ++ py ": semantic quality was not scored.") (details failure_type)))
  end.

(** [_evaluate_hybrid_semantically] *)
Definition evaluate_hybrid (judge : collaborator HybridJudgeRequest (JudgeResult HybridSemanticRubric))
    (specification : option PropositionSpecification) (t : BenchmarkTask) (r : BenchmarkResult) (response : pystr)
    (deterministic : EvaluationResult) : M EvaluationResult :=
  p ← lift (match specification with Some p => Ok p | None => Raise (Exn C_ValueError) end);
  s ← lift (task_specification p t);
  rq ← lift (specified_request p s response);
  o ← co_call judge rq;
  hybrid_outcome s t r deterministic o.

(** *** A run *)

Context (s : EvaluationService) (room : nat).

(** The evaluation of one result of a known task. *)
Definition evaluate_result (t : BenchmarkTask) (r : BenchmarkResult) : M EvaluationResult :=
  now ← read_now;
  static ← lift (evaluate_task room now t r);
  e ← match evaluation_status static, es_functional_sandbox s, br_response r with
      | ES_requires_functional_execution, Some sandbox, Some x => evaluate_functionally sandbox t r (text x) static
      | _, _, _ => mret static
      end;
  match evaluation_status e, br_response r with
  | ES_requires_semantic_judge, Some x =>
      match es_hybrid_judge s, es_semantic_judge s with
      | Some judge, _ => evaluate_hybrid judge (es_specification s) t r (text x) e
      | None, Some judge => evaluate_semantically judge t r (text x) e
      | None, None => mret e
      end
  | _, _ => mret e
  end.

(** [except (KeyError, TypeError, ValueError)] *)
Definition metadata_errors : list exn_class := [C_KeyError; C_TypeError; C_ValueError].

Fixpoint evaluate_results (by_id : list (list N * BenchmarkTask)) (results : list BenchmarkResult) :
    M (list EvaluationResult) :=
  match results with
  | [] => mret []
  | r :: results' =>
      match dict_get by_id (br_task_id r) with
      | None => raise (Exn C_EvaluationArtifactError)
      | Some t =>
          x ← outcome (evaluate_result t r);
          e ← lift (catching metadata_errors x);
          es ← evaluate_results by_id results';
          mret (e :: es)
      end
  end.

(** [evaluate] up to the save. *)
Definition evaluate_run (run_id : uuid) (f : RunFiles) : M (list EvaluationResult * EvaluationSummary) :=
  '(run, results) ← lift (load_run run_id f);
  evaluations ← evaluate_results (dict_of task_id (fun t => t) (tasks (rn_dataset run))) results;
  now ← read_now;
  summary ← lift (catching metadata_errors (aggregate run results evaluations (service_configuration s) now));
  mret (evaluations, summary).

(** [evaluate]: with what was given to [save]. *)
Definition evaluate (save : uuid -> list EvaluationResult -> EvaluationSummary -> result exn unit) (run_id : uuid)
    (f : RunFiles) (w : world) : result exn EvaluationSummary * list (list EvaluationResult * EvaluationSummary) * world :=
  match evaluate_run run_id f w with
  | (Raise e, w') => (Raise e, [], w')
  | (Ok (evaluations, summary), w') =>
      ((_ ← save run_id evaluations summary; Ok summary), [(evaluations, summary)], w')
  end.
End Service.

(** ** Loading a run *)

Lemma artifact_guard_ok c u : artifact_guard c = Ok u -> c = true.
Proof. apply guard_ok. Qed.

Lemma artifact_guard_raise c e : artifact_guard c = Raise e -> e = Exn C_EvaluationArtifactError /\ c = false.
Proof. unfold artifact_guard, guard_else. destruct c; [discriminate|]. intros H. by injection H as <-. Qed.

Lemma is_nil_false {A} (l : list A) : is_nil l = false <-> l <> [].
Proof. by destruct l. Qed.

(** A completed run with exactly one result per selected task and model. *)
Definition complete_run (run_id : uuid) (run : BenchmarkRun) (status : pyjson) (results : list BenchmarkResult) : Prop :=
  rn_run_id run = run_id /\
  (exists d, status = PJObj d /\ dict_get d (py "status") = Some (PJStr (py "completed"))) /\
  results <> [] /\ NoDup (map br_result_id results) /\ Forall (fun r => br_run_id r = run_id) results /\
  NoDup (rn_selected_task_ids run) /\ rn_selected_task_ids run ⊆ map task_id (tasks (rn_dataset run)) /\
  NoDup (map model_id (rn_models run)) /\
  map pair_of results ≡ₚ list_prod (rn_selected_task_ids run) (map model_id (rn_models run)).

(** What the files hold amounts to a complete run. *)
Definition holds_run (run_id : uuid) (f : RunFiles) (run : BenchmarkRun) (results : list BenchmarkResult) : Prop :=
  exists status, rf_manifest f = Ok (run, status) /\ rf_results f = Ok results /\ complete_run run_id run status results.

Lemma elem_of_list_prod {A B} (l : list A) (k : list B) x y : (x, y) ∈ list_prod l k <-> x ∈ l /\ y ∈ k.
Proof. rewrite !list_elem_of_In. apply in_prod_iff. Qed.

Lemma list_prod_nil_l {A B} (l : list A) (k : list B) : l <> [] -> k <> [] -> list_prod l k <> [].
Proof. by destruct l, k. Qed.

Lemma NoDup_list_prod {A B} (l : list A) (k : list B) : NoDup l -> NoDup k -> NoDup (list_prod l k).
Proof.
  intros Hl Hk. induction Hl as [|x l Hx _ IH]; [constructor|]. cbn [list_prod]. apply NoDup_app. split; [|split; [|exact IH]].
  - apply NoDup_fmap; [|exact Hk]. intros a b E. by injection E.
  - intros [a b] Ha Hb. apply list_elem_of_fmap in Ha as (y & E & _). injection E as -> ->.
    apply elem_of_list_prod in Hb as [Hb _]. done.
Qed.

(** The checks of the pairs say that they are a permutation of the product. *)
Lemma pairs_checked (pairs : list (pystr * pystr)) l k : NoDup l -> NoDup k ->
  (all_distinct pairs && same_elements pairs (list_prod l k) = true <-> pairs ≡ₚ list_prod l k).
Proof.
  intros Hl Hk. rewrite andb_true_iff, all_distinct_true, same_elements_true. split.
  - intros [D S]. by apply NoDup_Permutation; [|apply NoDup_list_prod|].
  - intros P. split; [rewrite P; by apply NoDup_list_prod|]. intros x. by rewrite P.
Qed.

Lemma complete_selection run_id run status results : complete_run run_id run status results ->
  rn_selected_task_ids run <> [] /\ map model_id (rn_models run) <> [].
Proof.
  intros (_ & _ & Hn & _ & _ & _ & _ & _ & P).
  assert (N : list_prod (rn_selected_task_ids run) (map model_id (rn_models run)) <> []).
  { intros E. rewrite E in P. apply Permutation_nil_r in P. by destruct results. }
  split; intros E; rewrite E in N; [done|]. apply N. clear. induction (rn_selected_task_ids run) as [|x l IH]; [done|exact IH].
Qed.

(** The checks after reading, as one boolean. *)
Definition run_checks (run_id : uuid) (run : BenchmarkRun) (status : pyjson) (results : list BenchmarkResult) : bool :=
  let selected := rn_selected_task_ids run in
  let models := map model_id (rn_models run) in
  bool_decide (rn_run_id run = run_id) &&
  match status with
  | PJObj d => match dict_get d (py "status") with Some (PJStr s) => bool_decide (s = py "completed") | _ => false end
  | _ => false
  end &&
  (negb (is_nil results) && all_distinct (map br_result_id results) &&
   (negb (is_nil selected) && all_distinct selected && subset_of selected (map task_id (tasks (rn_dataset run)))) &&
   (negb (is_nil models) && all_distinct models) &&
   (all_distinct (map pair_of results) && same_elements (map pair_of results) (list_prod selected models)) &&
   forallb (fun r => bool_decide (br_run_id r = run_id)) results).

Lemma run_checks_spec run_id run status results :
  run_checks run_id run status results = true <-> complete_run run_id run status results.
Proof.
  unfold run_checks. split.
  - intros H. bools. destruct status as [| | | | | |d]; try discriminate.
    destruct (dict_get d (py "status")) as [[]|] eqn:S; try discriminate. bools. subst.
    split; [done|]. split; [by exists d|]. split; [by apply is_nil_false|]. split; [by apply all_distinct_true|].
    split; [apply Forall_forall; intros r Hr; match goal with F : forallb _ results = true |- _ => rewrite forallb_forall in F;
      apply list_elem_of_In in Hr; specialize (F r Hr); by bools end|].
    split; [by apply all_distinct_true|]. split; [by apply subset_of_true|]. split; [by apply all_distinct_true|].
    apply pairs_checked; [by apply all_distinct_true..|]. by apply andb_true_iff.
  - intros C. destruct (complete_selection _ _ _ _ C) as [Hs Hm].
    destruct C as (R & (d & -> & D) & Hn & Hd & F & Ds & S & Dm & P). rewrite D.
    rewrite !bool_decide_eq_true_2 by done. apply (pairs_checked _ _ _ Ds Dm) in P. rewrite P.
    apply is_nil_false in Hn, Hs, Hm. apply all_distinct_true in Hd, Ds, Dm. apply subset_of_true in S.
    rewrite Hn, Hs, Hm, Hd, Ds, Dm, S. cbn [negb andb]. apply forallb_forall. intros r Hr.
    rewrite Forall_forall in F. by apply bool_decide_eq_true, F, list_elem_of_In.
Qed.

(** Loading is reading, then the checks. *)
Lemma load_run_eq run_id f : load_run run_id f =
  '(run, status) ← match rf_manifest f with
                   | Raise e => if isinstance e C_FileNotFoundError then Raise (Exn C_EvaluationNotFoundError)
                                else catching [C_ValueError; C_TypeError] (Raise e)
                   | m => m
                   end;
  if match status with PJObj _ => true | _ => false end &&
     bool_decide (rn_run_id run = run_id) &&
     match status with
     | PJObj d => match dict_get d (py "status") with Some (PJStr s) => bool_decide (s = py "completed") | _ => false end
     | _ => false
     end
  then results ← catching [C_OSError; C_ValueError; C_TypeError] (rf_results f);
       if run_checks run_id run status results then Ok (run, results) else artifact_error
  else artifact_error.
Proof.
  unfold load_run. destruct (match rf_manifest f with Ok _ => _ | Raise _ => _ end) as [[run status]|e]; [|done].
  cbn [mbind result_mbind result_bind]. destruct status as [| | | | | |d]; try done. cbn [mbind result_mbind result_bind andb].
  unfold artifact_guard, guard_else, run_checks.
  destruct (bool_decide (rn_run_id run = run_id)); [|done]. cbn [mbind result_mbind result_bind andb].
  destruct (match dict_get d _ with Some _ => _ | None => _ end); [|done]. cbn [mbind result_mbind result_bind andb].
  destruct (catching _ _) as [results|e]; [|done]. cbn [mbind result_mbind result_bind].
  repeat match goal with |- context [if ?c then Ok tt else _] =>
    destruct c; cbn [mbind result_mbind result_bind andb]; [|done] end. done.
Qed.

Ltac unreadable := by intros (? & ? & ? & ? & ? & _).

(** Only completed, whole runs are evaluated.  A run is loaded exactly when its
    files can be read, its manifest bears its identifier, its status is
    "completed", and its results, with distinct identifiers and all of this
    run, are one for every pair of selected task and model, the selection being
    distinct tasks of the dataset and distinct models.  A missing manifest is
    reported as not found; any other file that holds something else as an
    artifact error; an unreadable file keeps its own error only where no
    clause catches it. *)
Theorem load_run_accepts run_id f :
  match load_run run_id f with
  | Ok (run, results) => holds_run run_id f run results
  | Raise e => ~ (exists run results, holds_run run_id f run results) /\
      (e = Exn C_EvaluationArtifactError \/
       e = Exn C_EvaluationNotFoundError /\ (exists x, rf_manifest f = Raise x /\ isinstance x C_FileNotFoundError = true) \/
       isinstance e C_ValueError = false /\ isinstance e C_TypeError = false /\
         (rf_manifest f = Raise e \/ rf_results f = Raise e))
  end.
Proof.
  rewrite load_run_eq. unfold holds_run.
  assert (B : forall run status results, rf_manifest f = Ok (run, status) -> rf_results f = Ok results ->
    run_checks run_id run status results = false -> ~ (exists run results, exists status, rf_manifest f = Ok (run, status) /\
      rf_results f = Ok results /\ complete_run run_id run status results)).
  { intros run status results M R H (run' & results' & status' & M' & R' & C). rewrite M in M'. rewrite R in R'.
    simplify_eq. apply run_checks_spec in C. congruence. }
  destruct (rf_manifest f) as [[run status]|e] eqn:M.
  2: { destruct (isinstance e C_FileNotFoundError) eqn:F.
       { split; [unreadable|]. right. left. split; [done|]. by exists e. }
       unfold catching. cbn [existsb orb]. destruct (isinstance e C_ValueError) eqn:V; [by split; [unreadable|left]|].
       destruct (isinstance e C_TypeError) eqn:T; cbn [orb]; [by split; [unreadable|left]|].
       split; [unreadable|]. right. right. auto. }
  cbn [mbind result_mbind result_bind]. destruct (_ && _ && _) eqn:S.
  2: { split; [|by left]. intros (run' & results & status' & E & _ & C). injection E as <- <-.
       destruct C as (<- & (d & -> & D) & _). rewrite D, !bool_decide_eq_true_2 in S by done. discriminate S. }
  clear S. destruct (rf_results f) as [results|e] eqn:R.
  2: { unfold catching. cbn [existsb orb]. destruct (isinstance e C_OSError); [by split; [unreadable|left]|].
       destruct (isinstance e C_ValueError) eqn:V; [by split; [unreadable|left]|].
       destruct (isinstance e C_TypeError) eqn:T; cbn [orb]; [by split; [unreadable|left]|].
       split; [unreadable|]. right. right. auto. }
  cbn [catching mbind result_mbind result_bind]. destruct (run_checks _ _ _ _) eqn:K.
  - exists status. split; [done|]. split; [done|]. by apply run_checks_spec.
  - split; [by apply (B run status results)|by left].
Qed.

(** ** What the runner stores is what the service loads *)

(** The results in a log of storage. *)
Definition stored_results (log : list (repo_op * bool)) : list BenchmarkResult :=
  omap (fun x => match x with (OpRecord r, true) => Some r | _ => None end) log.

Lemma stored_records steps rest : stored_results (records steps ++ rest) = map sp_result steps ++ stored_results rest.
Proof. unfold stored_results, records. induction steps as [|x steps IH]; [done|]. cbn. by f_equal. Qed.

Lemma map_list_prod {A B C D} (f : A -> C) (g : B -> D) l k :
  map (fun p => (f p.1, g p.2)) (list_prod l k) = list_prod (map f l) (map g k).
Proof.
  induction l as [|x l IH]; [done|]. cbn [list_prod map]. rewrite map_app, IH. f_equal. by rewrite !map_map.
Qed.

Lemma execution_ids s ids ms : ModelRegistry.wf (sv_registry s) -> Forall2 (execution_of s) ids ms -> map model_id ms = ids.
Proof.
  intros W. induction 1 as [|id m ids ms (reg & G & S & _) _ IH]; [done|]. cbn [map]. rewrite IH. f_equal.
  apply (ModelRegistry.get_in _ _ _ W) in G as [_ <-]. unfold same_identity in S. by bools.
Qed.

(** A run that starts was asked for models and, if limited, for some tasks. *)
Lemma run_selects `{E : Env} `{R : BenchmarkRepository} `{UD : UnicodeData} b d ids limit c r :
  (run b d ids limit c).1 = Ok r -> ids <> [] /\ match limit with Some n => (0 < n)%Z | None => True end.
Proof.
  intros H. assert (G : exists ms, select_models b ids limit = Ok ms).
  { destruct (select_models b ids limit) as [ms|e] eqn:S; [by exists ms|].
    unfold run, prepare, in_world, mbind, BM_bind, M_bind, lift in H. rewrite S in H. discriminate H. }
  destruct G as [ms G]. unfold select_models in G. apply bind_ok in G as (u & G1 & G). apply bind_ok in G as (u2 & G2 & _).
  apply guard_ok in G1, G2. bools. split; [by destruct ids|]. destruct limit; [by bools|done].
Qed.

Lemma select_tasks_facts d limit : BenchmarkDataset_validate d = Ok tt ->
  match limit with Some n => (0 < n)%Z | None => True end ->
  select_tasks d limit <> [] /\ NoDup (map task_id (select_tasks d limit)) /\ select_tasks d limit ⊆ tasks d.
Proof.
  unfold BenchmarkDataset_validate, check. intros V L. apply bind_ok in V as (u & _ & V). apply bind_ok in V as (u2 & V1 & V2).
  apply guard_ok in V1, V2. bools. apply all_distinct_true in V2. destruct limit as [n|]; cbn [select_tasks].
  - assert (N : Z.to_nat n <> 0) by lia. split; [destruct (Z.to_nat n); [done|by destruct (tasks d); [cbn in V1; lia|]]|].
    rewrite <- (firstn_skipn (Z.to_nat n) (tasks d)), map_app in V2. apply NoDup_app in V2 as [V2 _]. split; [done|].
    intros x Hx. rewrite <- (firstn_skipn (Z.to_nat n) (tasks d)). apply elem_of_app. by left.
  - split; [by destruct (tasks d); [cbn in V1; lia|]|]. done.
Qed.

Section Handover.
Context (s : InferenceService) (d : BenchmarkDataset) (ids : list pystr) (limit : option Z).
Context (wf : ModelRegistry.wf (sv_registry s)) (valid : BenchmarkDataset_validate d = Ok tt).
Context (some : ids <> []) (positive : match limit with Some n => (0 < n)%Z | None => True end).

Lemma completed_is_whole r log calls results finished_at : announced s d ids limit r -> completed_run r d limit log calls ->
  results ≡ₚ stored_results log -> NoDup (map br_result_id results) ->
  run_checks (rn_run_id r) r (status_finished (py "completed") finished_at) results = true.
Proof.
  intros (D & S & Dm & X) (recs & (steps & F & _ & ->) & ->) P N. apply run_checks_spec.
  destruct (select_tasks_facts d limit valid positive) as (Tn & Td & Ts).
  assert (Eids : map model_id (rn_models r) = ids) by (by apply (execution_ids s)).
  assert (P' : results ≡ₚ map sp_result steps).
  { rewrite P. change (stored_results (records steps ++ [finish_row r "completed" true]) ≡ₚ map sp_result steps).
    rewrite stored_records. by rewrite app_nil_r. }
  assert (Q : map pair_of (map sp_result steps) = list_prod (rn_selected_task_ids r) (map model_id (rn_models r))).
  { rewrite S, <- map_list_prod, map_map. unfold run_pairs_of in F. clear -F.
    induction F as [|p x ps xs H _ IH]; [done|]. cbn [map]. rewrite IH. f_equal.
    destruct H as (_ & _ & T & M & _). unfold pair_of. by rewrite T, M. }
  assert (A : Forall (fun x => br_run_id x = rn_run_id r) (map sp_result steps)).
  { clear -F. induction F as [|p x ps xs H _ IH]; constructor; [|done]. by destruct H as (_ & ? & _). }
  split; [done|]. split; [by eexists|].
  split. { intros E. rewrite E in P'. apply Permutation_nil_l in P'. rewrite <- P' in Q. symmetry in Q. revert Q.
           apply list_prod_nil_l; [|by rewrite Eids]. rewrite S. by destruct (select_tasks d limit). }
  split; [done|]. split; [by rewrite P'|]. split; [by rewrite S|]. split.
  { rewrite S, D. intros x Hx. apply list_elem_of_fmap in Hx as (t & -> & Ht). apply list_elem_of_fmap. exists t. split; [done|]. by apply Ts. }
  split; [by rewrite Eids|]. by rewrite P', Q.
Qed.
End Handover.

(** Sorted by name, where each result is stored under its identifier. *)
Lemma sorted_by_name named : (forall x, x ∈ named -> x.1 = br_result_id x.2) ->
  StronglySorted (fun a b => str_cmp (uuid_str (br_result_id a)) (uuid_str (br_result_id b)) <> Gt)
    (map snd (py_sorted (cmp_le (on_key (fun x : uuid * BenchmarkResult => uuid_str x.1) str_cmp)) named)).
Proof.
  intros Hn. pose proof (py_sorted_sorted (on_key (fun x : uuid * BenchmarkResult => uuid_str x.1) str_cmp) named) as S.
  assert (I : forall x, x ∈ py_sorted (cmp_le (on_key (fun x : uuid * BenchmarkResult => uuid_str x.1) str_cmp)) named -> x.1 = br_result_id x.2).
  { intros x. rewrite elem_of_py_sorted. apply Hn. }
  induction S as [|x l S IH F]; cbn [map]; constructor.
  - apply IH. intros y Hy. apply I, elem_of_cons. by right.
  - rewrite Forall_forall in F. apply Forall_forall. intros b Hb. apply list_elem_of_fmap in Hb as (y & -> & Hy).
    specialize (F y Hy). unfold cmp_le, on_key in F. rewrite (I x), (I y) in F by (apply elem_of_cons; auto).
    by destruct (str_cmp _ _).
Qed.

(** A run that returned did exactly this to its storage. *)
Lemma completed_ops r d limit log calls : completed_run r d limit log calls ->
  map fst log = OpStart r :: map OpRecord (stored_results log) ++ [OpFinish (rn_run_id r) (py "completed")] /\
  Forall (fun x => x.2 = true) log /\ Forall (fun x => br_run_id x = rn_run_id r) (stored_results log).
Proof.
  intros (recs & (steps & F & _ & ->) & ->).
  change (stored_results ((OpStart r, true) :: records steps ++ [finish_row r "completed" true]))
    with (stored_results (records steps ++ [finish_row r "completed" true])). rewrite stored_records.
  change (stored_results [finish_row r "completed" true]) with (@nil BenchmarkResult). rewrite app_nil_r. split; [|split].
  - cbn [map fst]. rewrite map_app. unfold records. by rewrite !map_map.
  - constructor; [done|]. apply Forall_app. split; [|by repeat constructor]. unfold records. apply Forall_map, Forall_true. done.
  - unfold run_pairs_of in F. clear -F. induction F as [|p x ps xs H _ IH]; constructor; [|done]. by destruct H as (_ & ? & _).
Qed.


(** ** Acceptance *)

Lemma m_bind_ok {A B} (m : M A) (f : A -> M B) w b w' : (x ← m; f x) w = (Ok b, w') ->
  exists a w1, m w = (Ok a, w1) /\ f a w1 = (Ok b, w').
Proof. unfold mbind, M_bind. destruct (m w) as [[a|e] w1]; [by exists a, w1|discriminate]. Qed.

Lemma lift_ok {A} (r : result exn A) w a w' : lift r w = (Ok a, w') -> r = Ok a /\ w' = w.
Proof. unfold lift. by intros [= -> ->]. Qed.

Lemma mret_ok {A} (a b : A) w w' : (mret a : M A) w = (Ok b, w') -> b = a /\ w' = w.
Proof. unfold mret, M_ret. by intros [= -> ->]. Qed.

Ltac m_ok H := repeat match type of H with
  | (mbind _ (lift _)) _ = (Ok _, _) =>
      let a := fresh "x" in let w := fresh "w" in let L := fresh "L" in
      apply m_bind_ok in H as (a & w & L & H); apply lift_ok in L as [L ->]
  end.

Section Accepted.
Context {E : Env} {UD : UnicodeData} {PA : PythonAst} {DU : Dumps} (s : EvaluationService) (room : nat).
Context (t : BenchmarkTask) (r : BenchmarkResult).

(** The answer [o] of a collaborator to [rq]. *)
Definition answered {Rq Rs : Type} (c : collaborator Rq Rs) (rq : Rq) (o : Rs) : Prop :=
  exists w w', co_call c rq w = (Ok o, w').

(** The evaluation is the deterministic one. *)
Definition accepted_statically (e : EvaluationResult) : Prop :=
  exists now, evaluate_task room now t r = Ok e /\ status_for t = None.

(** The sandbox ran the hidden tests and accepted. *)
Definition accepted_by_execution (e : EvaluationResult) : Prop :=
  exists sandbox response rq o, es_functional_sandbox s = Some sandbox /\ br_response r = Some response /\
    functional_request t (text response) = Ok rq /\ answered sandbox rq o /\
    execution_status o <> XS_infrastructure_failure /\ fx_acceptable o = Some true /\
    ev_acceptable_threshold e = f_one /\ quality_score e = fx_quality_score o.

(** Every deterministic check of the response passed. *)
Definition checks_passed : Prop :=
  exists static now, evaluate_task room now t r = Ok static /\ deterministic_passed static = true.

(** The older judge found no error, and both of its scores reach the threshold. *)
Definition accepted_by_judge (e : EvaluationResult) : Prop :=
  exists judge response rq o b, es_semantic_judge s = Some judge /\ br_response r = Some response /\
    semantic_request t (text response) = Ok rq /\ answered judge rq o /\ jr_status o = JS_evaluated /\
    jr_rubric o = Some b /\ checks_passed /\ material_errors b = false /\
    f_leb (semantic_threshold t) (f_min (required_fact_coverage b) (instruction_compliance b)) = true.

(** The hybrid judge gave a verdict for every proposition, none ambiguous, and no
    finding; the exact coverage, as a float, reaches the threshold. *)
Definition accepted_by_hybrid (e : EvaluationResult) : Prop :=
  exists judge p sp response rq o b n d, es_hybrid_judge s = Some judge /\ es_specification s = Some p /\
    task_specification p t = Ok sp /\ br_response r = Some response /\ specified_request p sp (text response) = Ok rq /\
    answered judge rq o /\ jr_status o = JS_evaluated /\ jr_rubric o = Some b /\ checks_passed /\
    material_error_findings b = [] /\ weighted_coverage sp (rubric_verdicts b) = Ok (Coverage_complete n d) /\
    f_leb (semantic_threshold t) (ratio n d) = true.

Lemma zero_below th : f_ltb f_zero th = true -> f_leb th f_zero = false.
Proof. intros H. apply not_true_iff_false. intros L. pose proof (f_lt_le_trans _ _ _ H L) as X. vm_compute in X. discriminate. Qed.

Lemma no_findings b : is_nil (findings_of M_material b) = true -> is_nil (findings_of M_borderline b) = true ->
  material_error_findings b = [].
Proof.
  unfold findings_of. induction (material_error_findings b) as [|x l IH]; [done|]. cbn [List.filter].
  by destruct (materiality x).
Qed.

Lemma functional_accepted sandbox response static e w w' :
  es_functional_sandbox s = Some sandbox -> br_response r = Some response -> acceptable static = None ->
  evaluate_functionally sandbox t r (text response) static w = (Ok e, w') ->
  acceptable e = None /\ evaluation_status e = evaluation_status static \/
  EvaluationResult_validate e = Ok tt /\ evaluation_status e = ES_evaluated /\
    (acceptable e = Some true -> accepted_by_execution e).
Proof.
  intros Hs Hr Hn H. unfold evaluate_functionally in H. m_ok H.
  apply m_bind_ok in H as (o & w1 & C & H). cbv zeta in H.
  destruct (execution_status o) eqn:X.
  3: { apply mret_ok in H as [-> _]. by left. }
  all: apply m_bind_ok in H as (now & w2 & _ & H); apply lift_ok in H as [H _]; apply new_evaluation_ok in H as [-> V].
  all: right; split; [exact V|]; split; [done|]; intros A; exists sandbox, response, x, o; rewrite X.
  all: do 3 (split; [done|]); split; [by eexists _, _|]; by repeat split.
Qed.

Lemma semantic_accepted judge response static now0 e w w' : f_ltb f_zero (semantic_threshold t) = true ->
  es_semantic_judge s = Some judge -> br_response r = Some response -> acceptable static = None ->
  evaluate_task room now0 t r = Ok static ->
  evaluate_semantically judge t r (text response) static w = (Ok e, w') ->
  acceptable e = Some true -> EvaluationResult_validate e = Ok tt /\ accepted_by_judge e.
Proof.
  intros Hp Hs Hr Hn Hd H A. unfold evaluate_semantically in H. m_ok H.
  apply m_bind_ok in H as (o & w1 & C & H). cbv zeta in H.
  destruct (jr_status o) eqn:X, (jr_rubric o) as [b|] eqn:B.
  2-4: apply mret_ok in H as [-> _]; cbn in A; congruence.
  apply m_bind_ok in H as (now & w2 & _ & H). apply lift_ok in H as [H _]. apply new_evaluation_ok in H as [-> V].
  cbn [acceptable with_usage scored] in A. injection A as A.
  destruct (deterministic_passed static && negb (material_errors b)) eqn:D; [|by rewrite zero_below in A].
  bools. split; [exact V|]. exists judge, response, x, o, b. do 3 (split; [done|]). split; [by eexists _, _|].
  do 2 (split; [done|]). split; [by exists static, now0|]. done.
Qed.

Lemma hybrid_accepted judge response static now0 e w w' : f_ltb f_zero (semantic_threshold t) = true ->
  es_hybrid_judge s = Some judge -> br_response r = Some response ->
  evaluate_task room now0 t r = Ok static ->
  evaluate_hybrid judge (es_specification s) t r (text response) static w = (Ok e, w') ->
  acceptable e = Some true -> EvaluationResult_validate e = Ok tt /\ accepted_by_hybrid e.
Proof.
  intros Hp Hs Hr Hd H A. unfold evaluate_hybrid in H. m_ok H. rename x into p, x0 into sp, x1 into rq.
  destruct (es_specification s) as [p'|] eqn:P; [|discriminate]. injection L as ->.
  apply m_bind_ok in H as (o & w1' & C & H). unfold hybrid_outcome in H. cbv zeta in H.
  destruct (jr_status o) eqn:X, (jr_rubric o) as [b|] eqn:B.
  2-4: apply mret_ok in H as [-> _]; discriminate A.
  m_ok H. destruct x as [ids|n d]; [apply mret_ok in H as [-> _]; discriminate A|].
  destruct (is_nil (findings_of M_borderline b)) eqn:Bo; cbn [negb] in H; [|apply mret_ok in H as [-> _]; discriminate A].
  apply m_bind_ok in H as (now & w5 & _ & H). apply lift_ok in H as [H _]. unfold hybrid_scored in H. cbv zeta in H.
  apply bind_ok in H as ([q ft] & Hq & H). apply new_evaluation_ok in H as [-> V].
  cbn [acceptable with_usage scored] in A. injection A as A. unfold hybrid_quality in Hq.
  destruct (deterministic_passed static) eqn:D; cbn [negb] in Hq; [|injection Hq as <- <-; by rewrite zero_below in A].
  destruct (is_nil (findings_of M_material b)) eqn:Ma; cbn [negb] in Hq; [|injection Hq as <- <-; by rewrite zero_below in A].
  apply bind_ok in Hq as (limit & _ & Hq). injection Hq as <- <-.
  split; [exact V|]. exists judge, p, sp, response, rq, o, b, n, d. do 5 (split; [done|]). split; [by eexists _, _|].
  do 2 (split; [done|]). split; [by exists static, now0|]. split; [by apply no_findings|]. done.
Qed.

(** A valid evaluation that is acceptable was scored, and its score reaches its
    threshold. *)
Lemma valid_acceptance e : EvaluationResult_validate e = Ok tt -> acceptable e = Some true ->
  evaluation_status e = ES_evaluated /\ exists q, quality_score e = Some q /\ f_leb (ev_acceptable_threshold e) q = true.
Proof.
  unfold EvaluationResult_validate, consistent_acceptability, check. intros H A.
  apply bind_ok in H as (u & _ & H). apply bind_ok in H as (u1 & _ & H). apply bind_ok in H as (u2 & _ & H).
  apply bind_ok in H as (u3 & H & _). rewrite A in H.
  destruct (evaluation_status e), (quality_score e) as [q|]; try discriminate H.
  apply guard_ok in H. bools. injection H as H. split; [done|]. by exists q.
Qed.

Lemma static_evaluation now e : evaluate_task room now t r = Ok e -> EvaluationResult_validate e = Ok tt /\
  (acceptable e = Some true -> status_for t = None) /\ (evaluation_status e <> ES_evaluated -> acceptable e = None).
Proof.
  intros H. assert (V : EvaluationResult_validate e = Ok tt).
  { unfold evaluate_task in H. cbv zeta in H. destruct (if br_success r then br_response r else None).
    - apply bind_ok in H as (sc & _ & H). by apply new_evaluation_ok in H as [-> V].
    - by apply new_evaluation_ok in H as [-> V]. }
  split; [exact V|]. split.
  - unfold evaluate_task in H. cbv zeta in H. destruct (if br_success r then br_response r else None).
    + apply bind_ok in H as (sc & _ & H). apply new_evaluation_ok in H as [-> _]. cbn. by destruct (status_for t).
    + by apply new_evaluation_ok in H as [-> _].
  - intros N. unfold EvaluationResult_validate, consistent_acceptability, check in V.
    apply bind_ok in V as (u & _ & V). apply bind_ok in V as (u1 & _ & V). apply bind_ok in V as (u2 & _ & V).
    apply bind_ok in V as (u3 & V & _). destruct (evaluation_status e); [done|..]; apply guard_ok in V; by bools.
Qed.

Definition earned (e : EvaluationResult) : Prop :=
  accepted_statically e \/ accepted_by_execution e \/ accepted_by_judge e \/ accepted_by_hybrid e.
End Accepted.

(** C17. Acceptance is earned.  With a positive threshold, an evaluation of the service
    that calls a response acceptable is a finished one whose score reaches its
    threshold, and it was earned in one of four ways: by the evaluator of a
    category that needs nothing more; by an execution that reported acceptance;
    by the older judge, without any error and with both scores at the
    threshold; or by the hybrid judge, with every deterministic check passed,
    no finding, no ambiguous verdict, and the weighted coverage at the
    threshold.  A failed call of a judge or sandbox never accepts. *)
Theorem acceptance_earned `{E : Env} `{UD : UnicodeData} `{PA : PythonAst} `{DU : Dumps} s room t r w e w' :
  evaluate_result s room t r w = (Ok e, w') -> f_ltb f_zero (semantic_threshold t) = true ->
  acceptable e = Some true ->
  evaluation_status e = ES_evaluated /\
  (exists q, quality_score e = Some q /\ f_leb (ev_acceptable_threshold e) q = true) /\ earned s room t r e.
Proof.
  intros H Hp A.
  assert (K : EvaluationResult_validate e = Ok tt /\ earned s room t r e).
  2: { destruct K as [V K]. by destruct (valid_acceptance e V A). }
  unfold evaluate_result in H. apply m_bind_ok in H as (now & w1 & _ & H). m_ok H.
  destruct (static_evaluation room t r now x L) as (V & S & N). apply m_bind_ok in H as (e1 & w2 & H1 & H).
  assert (K : EvaluationResult_validate e1 = Ok tt /\ (acceptable e1 = Some true -> earned s room t r e1) /\
              (evaluation_status e1 = ES_requires_semantic_judge -> e1 = x) \/ acceptable e1 = None /\ evaluation_status e1 = ES_requires_functional_execution).
  { assert (D : e1 = x -> EvaluationResult_validate e1 = Ok tt /\ (acceptable e1 = Some true -> earned s room t r e1) /\
      (evaluation_status e1 = ES_requires_semantic_judge -> e1 = x)).
    { intros ->. split; [exact V|]. split; [|done]. intros Ax. left. exists now. auto. }
    destruct (evaluation_status x) eqn:X; try (apply mret_ok in H1 as [H1 _]; left; by apply D).
    destruct (es_functional_sandbox s) as [sandbox|] eqn:Sb, (br_response r) as [resp|] eqn:R;
      try (apply mret_ok in H1 as [H1 _]; left; by apply D).
    destruct (functional_accepted s t r sandbox resp x e1 _ _ Sb R (N ltac:(congruence)) H1) as [[A1 S1]|(V1 & S1 & A1)].
    - right. split; congruence.
    - left. split; [exact V1|]. split; [intros Z; right; left; auto|congruence]. }
  destruct K as [(V1 & A1 & J)|[A1 S1]].
  2: { rewrite S1 in H. apply mret_ok in H as [-> _]. congruence. }
  destruct (evaluation_status e1) eqn:S1; try (apply mret_ok in H as [-> _]; by auto).
  destruct (br_response r) as [resp|] eqn:R; [|apply mret_ok in H as [-> _]; by auto].
  specialize (J eq_refl). subst e1.
  destruct (es_hybrid_judge s) as [judge|] eqn:Hy.
  { destruct (hybrid_accepted s room t r judge resp x now e _ _ Hp Hy R L H A). split; [done|]. by right; right; right. }
  destruct (es_semantic_judge s) as [judge|] eqn:Se; [|apply mret_ok in H as [-> _]; by auto].
  destruct (semantic_accepted s room t r judge resp x now e _ _ Hp Se R (N ltac:(congruence)) L H A). split; [done|]. by right; right; left.
Qed.

(** ** A whole run *)

(** The evaluation is the one of this result. *)
Definition identifies (r : BenchmarkResult) (e : EvaluationResult) : Prop :=
  ev_benchmark_result_id e = br_result_id r /\ ev_run_id e = br_run_id r /\ ev_task_id e = br_task_id r /\
  ev_model_id e = br_model_id r.

Section Runs.
Context {E : Env} {UD : UnicodeData} {PA : PythonAst} {DU : Dumps} (s : EvaluationService) (room : nat).

Lemma static_identifies now t r e : task_id t = br_task_id r -> evaluate_task room now t r = Ok e -> identifies r e.
Proof.
  intros T H. unfold evaluate_task in H. cbv zeta in H. destruct (if br_success r then br_response r else None).
  - apply bind_ok in H as (sc & _ & H). apply new_evaluation_ok in H as [-> _]. by repeat split.
  - apply new_evaluation_ok in H as [-> _]. by repeat split.
Qed.

Lemma functional_identifies sandbox t r resp static e w w' : task_id t = br_task_id r -> identifies r static ->
  evaluate_functionally sandbox t r resp static w = (Ok e, w') -> identifies r e.
Proof.
  intros T I H. unfold evaluate_functionally in H. m_ok H. apply m_bind_ok in H as (o & w1 & _ & H). cbv zeta in H.
  destruct (execution_status o); [..|by apply mret_ok in H as [-> _]].
  all: apply m_bind_ok in H as (now & w2 & _ & H); apply lift_ok in H as [H _]; apply new_evaluation_ok in H as [-> V]; by repeat split.
Qed.

Lemma semantic_identifies judge t r resp static e w w' : task_id t = br_task_id r -> identifies r static ->
  evaluate_semantically judge t r resp static w = (Ok e, w') -> identifies r e.
Proof.
  intros T I H. unfold evaluate_semantically in H. m_ok H. apply m_bind_ok in H as (o & w1 & _ & H). cbv zeta in H.
  destruct (jr_status o), (jr_rubric o); try by apply mret_ok in H as [-> _].
  apply m_bind_ok in H as (now & w2 & _ & H). apply lift_ok in H as [H _]. apply new_evaluation_ok in H as [-> _]. by repeat split.
Qed.

Lemma hybrid_identifies judge p t r resp static e w w' : task_id t = br_task_id r -> identifies r static ->
  evaluate_hybrid judge p t r resp static w = (Ok e, w') -> identifies r e.
Proof.
  intros T I H. unfold evaluate_hybrid in H. m_ok H. apply m_bind_ok in H as (o & w1 & _ & H).
  unfold hybrid_outcome in H. cbv zeta in H. destruct (jr_status o), (jr_rubric o) as [b|]; try by apply mret_ok in H as [-> _].
  m_ok H. destruct x2 as [ids|n d]; [by apply mret_ok in H as [-> _]|].
  destruct (negb _); [by apply mret_ok in H as [-> _]|].
  apply m_bind_ok in H as (now & w2 & _ & H). apply lift_ok in H as [H _]. unfold hybrid_scored in H. cbv zeta in H.
  apply bind_ok in H as ([q ft] & _ & H). apply new_evaluation_ok in H as [-> _]. by repeat split.
Qed.

Lemma evaluate_result_identifies t r e w w' : task_id t = br_task_id r ->
  evaluate_result s room t r w = (Ok e, w') -> identifies r e.
Proof.
  intros T H. unfold evaluate_result in H. apply m_bind_ok in H as (now & w1 & _ & H). m_ok H.
  pose proof (static_identifies now t r x T L) as I. apply m_bind_ok in H as (e1 & w2 & H1 & H).
  assert (I1 : identifies r e1).
  { destruct (evaluation_status x); try (by apply mret_ok in H1 as [-> _]).
    destruct (es_functional_sandbox s), (br_response r); try (by apply mret_ok in H1 as [-> _]).
    by eapply functional_identifies. }
  destruct (evaluation_status e1); try (by apply mret_ok in H as [-> _]).
  destruct (br_response r); [|by apply mret_ok in H as [-> _]].
  destruct (es_hybrid_judge s); [by eapply hybrid_identifies|].
  destruct (es_semantic_judge s); [by eapply semantic_identifies|by apply mret_ok in H as [-> _]].
Qed.

Lemma catching_ok {A} cs (x : result exn A) a : catching cs x = Ok a -> x = Ok a.
Proof. unfold catching, artifact_error. destruct x as [b|e]; [done|]. by destruct (existsb _ _). Qed.

Lemma outcome_ok {A} (m : M A) w x w' : outcome m w = (Ok x, w') -> m w = (x, w').
Proof. unfold outcome. destruct (m w) as [y v]. by intros [= -> ->]. Qed.

Lemma evaluate_results_identify ts results : forall es w w',
  evaluate_results s room (dict_of task_id (fun t => t) ts) results w = (Ok es, w') -> Forall2 identifies results es.
Proof.
  induction results as [|r results IH]; intros es w w' H; cbn [evaluate_results] in H.
  { apply mret_ok in H as [-> _]. constructor. }
  destruct (dict_get _ (br_task_id r)) as [t|] eqn:T; [|discriminate H].
  assert (Et : task_id t = br_task_id r) by (by apply dict_of_get in T as (t' & _ & <- & <-)).
  apply m_bind_ok in H as (x & w1 & Hx & H). apply outcome_ok in Hx. m_ok H. apply catching_ok in L. subst x.
  apply m_bind_ok in H as (es' & w2 & H2 & H). apply mret_ok in H as [-> _].
  constructor; [by apply (evaluate_result_identifies t r x0 w w1)|by apply (IH es' w1 w2)].
Qed.
End Runs.

(** An evaluation is all or nothing.  A returned summary aggregates exactly one
    evaluation per loaded result, in their order, each naming its result, run,
    task and model, and these evaluations were saved with it, once; when the
    run cannot be loaded, a result cannot be evaluated or the evaluations cannot
    be aggregated, nothing is saved. *)
Theorem evaluation_all_or_nothing `{E : Env} `{UD : UnicodeData} `{PA : PythonAst} `{DU : Dumps} s room save run_id f w :
  match evaluate s room save run_id f w with
  | (Ok summary, saved, _) => exists run results es now, load_run run_id f = Ok (run, results) /\
      Forall2 identifies results es /\ aggregate run results es (service_configuration s) now = Ok summary /\
      saved = [(es, summary)] /\ save run_id es summary = Ok tt
  | (Raise x, saved, _) => saved = [] \/ exists es summary, saved = [(es, summary)] /\ save run_id es summary = Raise x
  end.
Proof.
  unfold evaluate. destruct (evaluate_run s room run_id f w) as [[[es summary]|e] w'] eqn:H; [|by left].
  destruct (save run_id es summary) as [[]|x] eqn:S; cbn [mbind result_mbind result_bind]; [|right; by exists es, summary].
  unfold evaluate_run in H. m_ok H. destruct x as [run results].
  apply m_bind_ok in H as (es' & w1 & He & H). apply m_bind_ok in H as (now & w2 & _ & H). m_ok H.
  apply mret_ok in H as [H _]. injection H as <- <-. apply catching_ok in L0.
  exists run, results, es, now. split; [done|]. split; [by eapply evaluate_results_identify|]. done.
Qed.

(** ** Examples *)

#[local] Instance no_dumps : Dumps := {|
  dump_evaluation := fun _ => PJNull; dump_functional := fun _ => PJNull; dump_semantic := fun _ => PJNull;
  dump_hybrid := fun _ => PJNull; dump_finding := fun _ => PJNull |}.

Definition example_summary_task : BenchmarkTask :=
  mk_BenchmarkTask (py "Summarize.") None 64 f_zero (py "t1") BC_SUMMARIZATION EO_text
    [(py "semantic_requirements", PJArr [PJStr (py "r1"); PJStr (py "r2")]);
     (py "deterministic_constraints", PJObj [(py "max_sentences", PJInt 1)])] None [] None None None None None None.

Definition entailing_service : EvaluationService :=
  mk_EvaluationService None None
    (Some (mk_collaborator PJNull (fun rq w => ((fake_hybrid_judge 0 (mk_FakeHybridJudge None None []) rq).1, w))))
    (Some (mk_PropositionSpecification (py "1.0.0") [] [example_specification] all_error_categories default_contract)).

Lemma acceptance_earned_witness : exists e w',
  @evaluate_result still_env ascii_tables no_code no_dumps entailing_service 50 example_summary_task
    (example_answer "A short text.") initial_world = (Ok e, w') /\
  exists q, quality_score e = Some q /\ f_leb (ev_acceptable_threshold e) q = true.
Proof.
  assert (V : exists e w', @evaluate_result still_env ascii_tables no_code no_dumps entailing_service 50
    example_summary_task (example_answer "A short text.") initial_world = (Ok e, w') /\ acceptable e = Some true).
  { eexists _, _. split; [vm_compute; reflexivity|reflexivity]. }
  destruct V as (e & w' & H & A). exists e, w'. split; [exact H|].
  exact (proj1 (proj2 (@acceptance_earned still_env ascii_tables no_code no_dumps entailing_service 50
    example_summary_task (example_answer "A short text.") initial_world e w' H eq_refl A))).
Defined.

Definition roomy_disk : BenchmarkRepository :=
  {| repo_start := fun _ _ => Ok tt; repo_record := fun _ _ => Ok tt; repo_finish := fun _ _ _ => Ok tt |}.

(** Identifiers that differ at every reading. *)
Definition counting_env : Env :=
  {| monotonic := fun _ => f_zero; perf_counter := fun _ => f_zero; loop_time := fun _ => f_zero;
     uuid4 := fun n => N.of_nat n; utc_now := fun _ => 0%Z; telemetry_record := fun _ _ => Ok tt |}.


(** The failure type compares the coverage with the decimal text of the threshold,
    acceptability compares floats: with the threshold 5/6, a coverage of 5/6 is
    labelled a coverage failure and is acceptable. *)
Lemma coverage_failure_accepted :
  @hybrid_quality ascii_tables true false 5 6 (ratio 5 6) = Ok (ratio 5 6, py "COVERAGE_FAILURE") /\
  f_leb (ratio 5 6) (ratio 5 6) = true.
Proof. split; vm_compute; reflexivity. Qed.
