(* ===== verification/RoutingExport.v ===== *)
(** * The routing export ([benchmarks/routing_export.py])

    One row per result of an evaluated run: what the request shows before a
    model is chosen, the candidate, and after it the label with its costs.
    Pydantic's reading of a feature snapshot is the parameter [read_features]. *)
From S2P Require Import Prelude PyStr PyFloat PyDecimal PyUuid Schemas Json PyRepr JsonText Errors Registry Effects Inference GatewayConfig BenchmarkModels BenchmarkRunner Aggregation SummarySpec Normalization SemanticJudge Evaluators Sandbox EvaluationService.

(** ** Moments as text

    [datetime.isoformat] of a moment in UTC, given in microseconds. *)

(** Year, month and day of a number of days since 1970-01-01. *)
Definition civil_from_days (days : Z) : Z * Z * Z :=
  let z := (days + 719468)%Z in
  let era := (z / 146097)%Z in
  let doe := (z - era * 146097)%Z in
  let yoe := ((doe - doe / 1460 + doe / 36524 - doe / 146096) / 365)%Z in
  let doy := (doe - (365 * yoe + yoe / 4 - yoe / 100))%Z in
  let mp := ((5 * doy + 2) / 153)%Z in
  let m := (if mp <? 10 then mp + 3 else mp - 9)%Z in
  (yoe + era * 400 + (if m <=? 2 then 1 else 0), m, doy - (153 * mp + 2) / 5 + 1)%Z.

(** [n] in at least [width] digits. *)
Definition padded (width : nat) (n : Z) : pystr :=
  let s := Z_to_str n in repeat 48%N (width - length s) ++ s.

Definition utc_isoformat (t : Z) : pystr :=
  let seconds := (t / 1000000)%Z in
  let micros := (t mod 1000000)%Z in
  let '(y, m, d) := civil_from_days (seconds / 86400) in
  let s := (seconds mod 86400)%Z in
  padded 4 y ++ py "-" ++ padded 2 m ++ py "-" ++ padded 2 d ++ py "T" ++
  padded 2 (s / 3600) ++ py ":" ++ padded 2 (s / 60 mod 60) ++ py ":" ++ padded 2 (s mod 60) ++
  (if (micros =? 0)%Z then [] else py "." ++ padded 6 micros) ++ py "+00:00".

(** ** Rows *)

Definition ROUTING_DATASET_VERSION : pystr := py "1.1.0".

Record RoutingCandidateSnapshot := mk_RoutingCandidateSnapshot {
  internal_id : pystr;
  rc_provider : pystr;
  upstream_model_slug : pystr;
  upstream_provider_pin : pystr;
  service_tier : pystr;
  region : pystr;
  rc_input_cost_per_1m_tokens : decimal;
  rc_output_cost_per_1m_tokens : decimal;
  rc_context_window : Z;
  rc_capabilities : py_dict;
  rc_reasoning_effort : option pystr
}.

Inductive ProviderOutcome := PO_success | PO_failure.
Inductive LabelStatus := LS_valid | LS_missing.

#[export] Instance ProviderOutcome_eq_dec : EqDecision ProviderOutcome.
Proof. solve_decision. Defined.
#[export] Instance LabelStatus_eq_dec : EqDecision LabelStatus.
Proof. solve_decision. Defined.

Record RoutingDatasetRow := mk_RoutingDatasetRow {
  rd_artifact_version : pystr;
  rd_run_id : uuid;
  rd_benchmark_result_id : uuid;
  rd_request_id : pystr;
  rd_task_id : pystr;
  rd_dataset_name : pystr;
  rd_dataset_version : pystr;
  rd_dataset_sha256 : pystr;
  request_features : RequestFeatures;
  candidate : RoutingCandidateSnapshot;
  effective_max_output_tokens : Z;
  provider_outcome : ProviderOutcome;
  provider_error_category : option pystr;
  rd_generated_at : pystr;
  rd_input_tokens : option Z;
  rd_output_tokens : option Z;
  rd_reasoning_tokens : option Z;
  rd_latency_ms : float;
  candidate_cost_usd : option decimal;
  label_status : LabelStatus;
  rd_acceptable : option bool;
  missing_label_reason : option pystr;
  rd_quality_score : option float;
  rd_evaluator_name : pystr;
  rd_evaluator_version : pystr;
  rd_evaluation_status : EvaluationStatus;
  rd_evaluation_call_made : bool;
  rd_evaluation_input_tokens : Z;
  rd_evaluation_output_tokens : Z;
  rd_evaluation_latency_ms : float;
  rd_evaluation_cost_usd : decimal;
  analysis_difficulty : option Difficulty;
  raw_result_path : pystr;
  evaluation_path : pystr
}.

(** [Field(ge=0)] of a float. *)
Definition f_nonneg (f : float) : bool := f_leb f_zero f.

Definition RoutingCandidateSnapshot_validate (c : RoutingCandidateSnapshot) : result pystr unit :=
  check (d_nonneg (rc_input_cost_per_1m_tokens c) && d_nonneg (rc_output_cost_per_1m_tokens c) &&
         (0 <? rc_context_window c)%Z) field_error.

Definition nonblank (o : option pystr) : bool := match o with Some (_ :: _) => true | _ => false end.

(** [label_is_only_present_after_valid_evaluation] *)
Definition label_is_only_present_after_valid_evaluation (r : RoutingDatasetRow) : result pystr unit :=
  match label_status r with
  | LS_valid =>
      _ ← check (bool_decide (provider_outcome r = PO_success) && bool_decide (rd_evaluation_status r = ES_evaluated) &&
                 is_some (rd_acceptable r)) (py "Valid labels require successful, fully evaluated responses");
      check (negb (is_some (missing_label_reason r))) (py "Valid labels cannot have a missing-label reason")
  | LS_missing =>
      check (negb (is_some (rd_acceptable r)) && nonblank (missing_label_reason r))
        (py "Missing labels require no binary target and an explicit reason")
  end.

Definition RoutingDatasetRow_validate (r : RoutingDatasetRow) : result pystr unit :=
  _ ← check (0 <? effective_max_output_tokens r)%Z field_error;
  _ ← check (opt_all (fun n => 0 <=? n)%Z (rd_input_tokens r) && opt_all (fun n => 0 <=? n)%Z (rd_output_tokens r) &&
             opt_all (fun n => 0 <=? n)%Z (rd_reasoning_tokens r)) field_error;
  _ ← check (f_nonneg (rd_latency_ms r) && opt_all d_nonneg (candidate_cost_usd r)) field_error;
  _ ← check (opt_all (fun q => f_leb f_zero q && f_leb q f_one) (rd_quality_score r)) field_error;
  _ ← check ((0 <=? rd_evaluation_input_tokens r)%Z && (0 <=? rd_evaluation_output_tokens r)%Z) field_error;
  _ ← check (f_nonneg (rd_evaluation_latency_ms r) && d_nonneg (rd_evaluation_cost_usd r)) field_error;
  label_is_only_present_after_valid_evaluation r.

(** ** What a failed call reports *)

(** [_failure_metric(result, key, int)] *)
Definition failure_count (r : BenchmarkResult) (key : string) : option Z :=
  match dict_get (br_error_details r) (py key) with
  | Some (PJInt z) => if (0 <=? z)%Z then Some z else None
  | _ => None
  end.

(** [_failure_metric(result, key, float)] *)
Definition failure_time (r : BenchmarkResult) (key : string) : option float :=
  match dict_get (br_error_details r) (py key) with
  | Some (PJFloat f) => if f_leb f_zero f then Some f else None
  | _ => None
  end.

(** [_failure_cost] *)
Definition failure_cost `{UnicodeData} (r : BenchmarkResult) : option decimal :=
  match v ← dict_get (br_error_details r) (py "estimated_cost_usd"); decimal_of_json v with
  | Some cost => if d_nonneg cost then Some cost else None
  | None => None
  end.

Definition EvaluationStatus_value (s : EvaluationStatus) : pystr :=
  match s with
  | ES_evaluated => py "evaluated" | ES_partial => py "partial"
  | ES_requires_semantic_judge => py "requires_semantic_judge"
  | ES_requires_functional_execution => py "requires_functional_execution"
  end.

(** The label of a result with its evaluation: status, target and reason. *)
Definition label_of (r : BenchmarkResult) (e : EvaluationResult) : LabelStatus * option bool * option pystr :=
  if negb (br_success r) then
    (LS_missing, None,
     Some (py "provider_failure:" ++ match br_error_category r with Some ((_ :: _) as c) => c | _ => py "unknown" end))
  else if negb (bool_decide (evaluation_status e = ES_evaluated)) || negb (is_some (acceptable e)) then
    (LS_missing, None, Some (py "evaluation_incomplete:" ++ EvaluationStatus_value (evaluation_status e)))
  else (LS_valid, acceptable e, None).

(** ** The configuration of a run, as its manifest holds it *)

Definition ReasoningBehavior_value (b : ReasoningBehavior) : pystr :=
  match b with
  | RB_UNSUPPORTED => py "unsupported" | RB_PROVIDER_DEFAULT => py "provider_default" | RB_ADAPTIVE => py "adaptive"
  end.

Definition OutputTokenAccounting_value (a : OutputTokenAccounting) : pystr :=
  match a with VISIBLE_ONLY => py "visible_only" | REASONING_AND_VISIBLE => py "reasoning_and_visible" end.

(** [capabilities.model_dump(mode="json")] *)
Definition capabilities_json (c : ModelCapabilities) : py_dict :=
  [(py "supports_temperature", PJBool (supports_temperature c));
   (py "supports_structured_output", PJBool (supports_structured_output c));
   (py "reasoning", PJStr (ReasoningBehavior_value (reasoning c)));
   (py "output_token_accounting", PJStr (OutputTokenAccounting_value (output_token_accounting c)))].

(** [extract_request_features(task).model_dump(mode="json")] *)
Definition features_json (f : RequestFeatures) : py_dict :=
  [(py "category", or_null (PJStr <$> qf_category f));
   (py "prompt_characters", PJInt (qf_prompt_characters f));
   (py "system_prompt_characters", PJInt (qf_system_prompt_characters f));
   (py "approximate_input_tokens", PJInt (qf_approximate_input_tokens f));
   (py "contains_code", PJBool (qf_contains_code f));
   (py "requests_structured_output", PJBool (qf_requests_structured_output f));
   (py "max_output_tokens", PJInt (qf_max_output_tokens f));
   (py "constraint_indicator_count", PJInt (qf_constraint_indicator_count f));
   (py "reasoning_indicator_count", PJInt (qf_reasoning_indicator_count f))].

Definition ReasoningControlMechanism_value (c : ReasoningControlMechanism) : pystr :=
  match c with
  | GATEWAY_SHARED => py "gateway_shared" | GOOGLE_PROVIDER_NATIVE => py "google_provider_native"
  end.

(** [output_token_policy.model_dump(mode="json")] *)
Definition policy_json (p : OutputTokenPolicy) : py_dict :=
  [(py "category_overrides",
    PJArr (map (fun a => PJObj [(py "category", PJStr (al_category a));
                                (py "max_output_tokens", PJInt (al_max_output_tokens a))]) (category_overrides p)));
   (py "reasoning_headroom_tokens", PJInt (reasoning_headroom_tokens p));
   (py "expected_reasoning_tokens", PJInt (expected_reasoning_tokens p))].

(** An entry of [frozen_model_configuration] *)
Definition frozen_json (m : FrozenModel) : py_dict :=
  [(py "upstream_model_slug", PJStr (fm_upstream_model_slug m));
   (py "upstream_provider_pin", or_null (PJStr <$> fm_upstream_provider_pin m));
   (py "service_tier", PJStr (fm_service_tier m));
   (py "region", PJStr (fm_region m));
   (py "input_cost_per_1m_tokens", PJStr (fm_input_cost_per_1m_tokens m));
   (py "output_cost_per_1m_tokens", PJStr (fm_output_cost_per_1m_tokens m));
   (py "capabilities", PJObj (capabilities_json (fm_capabilities m)));
   (py "reasoning_effort", or_null (PJStr <$> fm_reasoning_effort m));
   (py "reasoning_control", PJStr (ReasoningControlMechanism_value (fm_reasoning_control m)));
   (py "output_token_policy", PJObj (policy_json (fm_output_token_policy m)))].

Definition json_values {A : Type} (f : A -> pyjson) (l : list (list N * A)) : pyjson :=
  PJObj (map (fun kv => (kv.1, f kv.2)) l).

Definition token_limits (l : list (list N * list (list N * Z))) : pyjson := json_values (json_values PJInt) l.

(** [{**self.configuration, "runner_version": "1", ...}] *)
Definition configuration_json (c : BenchmarkConfiguration) : py_dict :=
  dict_update (bc_caller c)
    ([(py "runner_version", PJStr (bc_runner_version c)); (py "execution", PJStr (bc_execution c))] ++
     zip [py "pricing_source"; py "pricing_verified"; py "catalog_verified_at"] (map PJStr (bc_pricing c)) ++
     [(py "upstream_allowlists", json_values PJStr (bc_upstream_allowlists c));
      (py "request_feature_schema_version", PJStr (bc_request_feature_schema_version c));
      (py "request_features", json_values (fun f => PJObj (features_json f)) (bc_request_features c));
      (py "task_visible_output_requirements", json_values PJInt (bc_task_visible_output_requirements c));
      (py "effective_max_output_tokens", token_limits (bc_effective_max_output_tokens c));
      (py "output_token_overrides", token_limits (bc_output_token_overrides c));
      (py "benchmark_model_configuration_override", PJBool (bc_model_configuration_override c));
      (py "frozen_model_configuration",
       json_values (fun m => PJObj (frozen_json m)) (bc_frozen_model_configuration c))]).

(** ** The export *)

Section Exporting.
Context {UD : UnicodeData}.

(** [RequestFeatures.model_validate] of a JSON object. *)
Variable read_features : py_dict -> option RequestFeatures.

Definition object (v : option pyjson) : option py_dict := match v with Some (PJObj d) => Some d | _ => None end.

(** [snapshot[key]] as text. *)
Definition snapshot_text (snapshot : py_dict) (key : string) : result exn pystr :=
  match dict_get snapshot (py key) with Some v => py_str v | None => Raise (Exn C_KeyError) end.

Definition candidate_snapshot (m : ModelConfig) (snapshot : py_dict) : result exn RoutingCandidateSnapshot :=
  pin ← snapshot_text snapshot "upstream_provider_pin";
  tier ← snapshot_text snapshot "service_tier";
  region ← snapshot_text snapshot "region";
  effort ← match dict_get snapshot (py "reasoning_effort") with
           | None | Some PJNull => Ok None
           | Some v => s ← py_str v; Ok (Some s)
           end;
  let c := mk_RoutingCandidateSnapshot (model_id m) (provider m) (provider_model_name m) pin tier region
             (input_cost_per_1m_tokens m) (output_cost_per_1m_tokens m) (context_window m)
             (capabilities_json (capabilities m)) effort in
  _ ← validated (RoutingCandidateSnapshot_validate c);
  Ok c.

(** The frozen limit of the call, or the task's own. *)
Definition effective_limit (limits : option pyjson) (t : BenchmarkTask) (model : pystr) : Z :=
  match (l ← object limits; tl ← object (dict_get l (task_id t)); dict_get tl model) with
  | Some (PJInt n) => if (0 <? n)%Z then n else bt_max_output_tokens t
  | _ => bt_max_output_tokens t
  end.

(** [a or b] of floats *)
Definition time_or (a : option float) (b : float) : float :=
  match a with Some f => if f_eqb f f_zero then b else f | None => b end.

Definition export_row (run : BenchmarkRun) (frozen features : py_dict) (limits : option pyjson)
    (evaluations : list (N * EvaluationResult)) (r : BenchmarkResult) : result exn RoutingDatasetRow :=
  match dict_get evaluations (br_result_id r), dict_get (dict_of task_id (fun t => t) (tasks (rn_dataset run))) (br_task_id r),
        dict_get (dict_of model_id (fun m => m) (rn_models run)) (br_model_id r) with
  | Some e, Some t, Some m =>
      match object (dict_get frozen (br_model_id r)), object (dict_get features (br_task_id r)) with
      | Some snapshot, Some feature_snapshot =>
          let '(status, target, reason) := label_of r e in
          f ← match read_features feature_snapshot with Some f => Ok f | None => Raise (Exn C_ValidationError) end;
          c ← candidate_snapshot m snapshot;
          d ← difficulty t;
          let response := br_response r in
          let row := mk_RoutingDatasetRow ROUTING_DATASET_VERSION (rn_run_id run) (br_result_id r) (br_request_id r)
            (br_task_id r) (ds_name (rn_dataset run)) (ds_version (rn_dataset run)) (rn_dataset_sha256 run) f c
            (effective_limit limits t (br_model_id r)) (if br_success r then PO_success else PO_failure)
            (br_error_category r) (utc_isoformat (br_created_at r))
            (match response with Some x => Some (input_tokens x) | None => failure_count r "input_tokens" end)
            (match response with Some x => Some (output_tokens x) | None => failure_count r "output_tokens" end)
            (match response with Some _ => None | None => failure_count r "reasoning_tokens" end)
            (match response with
             | Some x => latency_ms x
             | None => time_or (failure_time r "adapter_latency_ms") (br_latency_ms r)
             end)
            (match response with Some x => Some (estimated_cost_usd x) | None => failure_cost r end)
            status target reason (match status with LS_valid => quality_score e | LS_missing => None end)
            (ev_evaluator_name e) (ev_evaluator_version e) (evaluation_status e) (evaluation_call_made e)
            (evaluation_input_tokens e) (evaluation_output_tokens e) (evaluation_latency_ms e) (evaluation_cost_usd e)
            d (py "results/" ++ uuid_str (br_result_id r) ++ py ".json")
            (py "evaluations/" ++ uuid_str (br_result_id r) ++ py ".json") in
          _ ← validated (RoutingDatasetRow_validate row);
          Ok row
      | _, _ => Raise (Exn C_ValueError)
      end
  | _, _, _ => Raise (Exn C_KeyError)
  end.

(** The order of the rows. *)
Definition pair_cmp : BenchmarkResult -> BenchmarkResult -> comparison :=
  lex_cmp (on_key br_task_id str_cmp) (on_key br_model_id str_cmp).

(** [export_routing_dataset] up to the writing of its files: [configuration] is
    the run's, [evaluations] the parsed contents of its evaluation files. *)
Definition export_routing_dataset (run_id : uuid) (files : RunFiles) (configuration : py_dict)
    (evaluations : list EvaluationResult) : result exn (list RoutingDatasetRow) :=
  '(run, results) ← load_run run_id files;
  _ ← result_map (fun e => validated (EvaluationResult_validate e)) evaluations;
  let by_result := dict_of ev_benchmark_result_id (fun e => e) evaluations in
  _ ← guard_else (same_elements (dict_keys by_result) (map br_result_id results)) (Exn C_ValueError);
  match object (Some (default (PJObj []) (dict_get configuration (py "frozen_model_configuration")))),
        object (Some (default (PJObj []) (dict_get configuration (py "request_features")))) with
  | Some frozen, Some features =>
      result_map (export_row run frozen features (dict_get configuration (py "effective_max_output_tokens")) by_result)
        (py_sorted (cmp_le pair_cmp) results)
  | _, _ => Raise (Exn C_ValueError)
  end.
End Exporting.

(** ** Sorting a run's results *)

#[export] Instance total_cmp_pair : TotalCmp pair_cmp := _.

Lemma pair_cmp_eq a b : pair_cmp a b = Eq -> pair_of a = pair_of b.
Proof.
  unfold pair_cmp, lex_cmp, on_key, pair_of. destruct (str_cmp (br_task_id a) (br_task_id b)) eqn:E1; try discriminate.
  intros E2. apply str_cmp_eq in E1, E2. by rewrite E1, E2.
Qed.

(** ** What a row says of its result *)

(** The label of a row: present exactly for a successful response with a
    complete evaluation, and then the decision of that evaluation. *)
Definition labels (r : BenchmarkResult) (e : EvaluationResult) (row : RoutingDatasetRow) : Prop :=
  (label_status row = LS_valid <-> br_success r = true /\ evaluation_status e = ES_evaluated) /\
  (label_status row = LS_valid -> exists q, quality_score e = Some q /\ rd_quality_score row = Some q /\
     rd_acceptable row = Some (f_leb (ev_acceptable_threshold e) q) /\ missing_label_reason row = None) /\
  (label_status row = LS_missing -> rd_acceptable row = None /\ rd_quality_score row = None /\
     exists reason, missing_label_reason row = Some reason /\ reason <> []).

(** A row is the one of its result: its identifiers, its costs, its label. *)
Definition row_of `{UnicodeData} (evaluations : list EvaluationResult) (r : BenchmarkResult) (row : RoutingDatasetRow) : Prop :=
  (rd_benchmark_result_id row = br_result_id r /\ rd_run_id row = br_run_id r /\
   rd_task_id row = br_task_id r /\ internal_id (candidate row) = br_model_id r) /\
  candidate_cost_usd row = match br_response r with
                           | Some x => Some (estimated_cost_usd x)
                           | None => failure_cost r
                           end /\
  exists e, e ∈ evaluations /\ ev_benchmark_result_id e = br_result_id r /\ labels r e row.

Lemma label_of_spec r e row : EvaluationResult_validate e = Ok tt ->
  (label_status row, rd_acceptable row, missing_label_reason row) = label_of r e ->
  rd_quality_score row = match label_status row with LS_valid => quality_score e | LS_missing => None end ->
  labels r e row.
Proof.
  intros V L Q.
  assert (A : evaluation_status e = ES_evaluated ->
    exists q, quality_score e = Some q /\ acceptable e = Some (f_leb (ev_acceptable_threshold e) q)).
  { intros S. unfold EvaluationResult_validate, consistent_acceptability, check in V. rewrite S in V.
    apply bind_ok in V as (u1 & _ & V). apply bind_ok in V as (u2 & _ & V). apply bind_ok in V as (u3 & _ & V).
    apply bind_ok in V as (u4 & V & _). destruct (quality_score e) as [q|]; [|discriminate V].
    apply guard_ok in V. bools. by exists q. }
  unfold label_of in L. unfold labels. destruct (br_success r); cbn [negb] in L.
  - destruct (evaluation_status e) eqn:S; cbn [bool_decide negb orb] in L.
    1: { destruct (A eq_refl) as (q & Hq & Ha). rewrite Ha in L. cbn in L. injection L as L1 L2 L3. rewrite L1, L2, L3 in *.
         rewrite Hq in Q. split; [done|]. split; [|done]. intros _. by exists q. }
    all: injection L as L1 L2 L3; rewrite L1, L2, L3 in *; split; [by split; [|intros []]|]; split; [done|];
      intros _; split; [done|]; split; [done|]; by eexists.
  - injection L as L1 L2 L3. rewrite L1, L2, L3 in *. split; [by split; [|intros []]|]. split; [done|].
    intros _. split; [done|]. split; [done|]. by eexists.
Qed.

Lemma load_run_complete run_id f run results : load_run run_id f = Ok (run, results) ->
  exists status, complete_run run_id run status results.
Proof.
  rewrite load_run_eq. intros H. apply bind_ok in H as ([run' status] & _ & H). destruct (_ && _ && _); [|discriminate H].
  apply bind_ok in H as (results' & _ & H). destruct (run_checks _ _ _ _) eqn:K; [|discriminate H].
  injection H as -> ->. exists status. by apply run_checks_spec.
Qed.

Section Rows.
Context {UD : UnicodeData} (read_features : py_dict -> option RequestFeatures).

Lemma candidate_snapshot_id m snapshot c : candidate_snapshot m snapshot = Ok c -> internal_id c = model_id m.
Proof.
  unfold candidate_snapshot. intros H. do 5 apply bind_ok in H as (? & _ & H). by injection H as <-.
Qed.

Lemma export_row_ok run frozen features limits evaluations r row : br_run_id r = rn_run_id run ->
  Forall (fun e => EvaluationResult_validate e = Ok tt) evaluations ->
  export_row read_features run frozen features limits (dict_of ev_benchmark_result_id (fun e => e) evaluations) r = Ok row ->
  row_of evaluations r row.
Proof.
  intros R V H. unfold export_row in H.
  destruct (dict_get _ (br_result_id r)) as [e|] eqn:Ee; [|discriminate H].
  destruct (dict_get _ (br_task_id r)) as [t|] eqn:Et; [|discriminate H].
  destruct (dict_get _ (br_model_id r)) as [m|] eqn:Em; [|discriminate H].
  destruct (object _) as [snapshot|]; [|discriminate H]. destruct (object _) as [fs|]; [|discriminate H].
  apply dict_of_get in Ee as (e' & He & Hk & ->), Em as (m' & _ & Hm & ->).
  destruct (label_of r e) as [[status target] reason] eqn:L.
  apply bind_ok in H as (f & _ & H). apply bind_ok in H as (c & Hc & H). apply bind_ok in H as (d & _ & H). cbv zeta in H.
  apply bind_ok in H as (u & _ & H). injection H as <-. apply candidate_snapshot_id in Hc.
  split; [by rewrite <- Hm|]. split; [done|]. exists e. split; [done|]. split; [done|].
  apply label_of_spec; [by apply (proj1 (Forall_forall _ _) V)|by rewrite L|done].
Qed.

Lemma rows_of run frozen features limits evaluations results rows :
  Forall (fun r => br_run_id r = rn_run_id run) results ->
  Forall (fun e => EvaluationResult_validate e = Ok tt) evaluations ->
  result_map (export_row read_features run frozen features limits (dict_of ev_benchmark_result_id (fun e => e) evaluations))
    results = Ok rows -> Forall2 (row_of evaluations) results rows.
Proof.
  intros R V H. apply result_map_ok in H. induction H as [|r row rs rows H _ IH]; [constructor|].
  inversion R; subst. constructor; [by eapply export_row_ok|auto].
Qed.

Lemma result_map_check {A} (p : A -> result exn unit) l us : result_map p l = Ok us -> Forall (fun x => p x = Ok tt) l.
Proof.
  intros H. apply result_map_ok in H. induction H as [|x [] l us H _ IH]; constructor; auto.
Qed.
End Rows.

(** C20. The routing dataset is the evaluated run.  Rows come one per result of
    the completed run, ordered by task and model with no pair twice: together
    they are the product of the selected tasks and the models.  Each names its
    result, candidate and costs; its label is present exactly when the call
    succeeded and its evaluation is complete, and is then whether the score
    reaches the threshold; a row without label carries no target, no score and
    a reason. *)
Theorem export_is_the_evaluated_run `{UD : UnicodeData} read_features run_id files configuration evaluations rows :
  export_routing_dataset read_features run_id files configuration evaluations = Ok rows ->
  exists run results, load_run run_id files = Ok (run, results) /\
    exists sorted, sorted ≡ₚ results /\ StronglySorted (fun a b => pair_cmp a b = Lt) sorted /\
      Forall2 (row_of evaluations) sorted rows /\
      map (fun row => (rd_task_id row, internal_id (candidate row))) rows ≡ₚ
        list_prod (rn_selected_task_ids run) (map model_id (rn_models run)).
Proof.
  unfold export_routing_dataset. intros H. apply bind_ok in H as ([run results] & Hl & H).
  apply bind_ok in H as (us & V & H). apply bind_ok in H as (u & _ & H).
  destruct (object _) as [frozen|]; [|discriminate H]. destruct (object _) as [features|]; [|discriminate H].
  exists run, results. split; [done|]. destruct (load_run_complete _ _ _ _ Hl) as (status & C).
  destruct C as (Hid & _ & _ & _ & Hr & Hs & _ & Hm & P).
  exists (py_sorted (cmp_le pair_cmp) results). split; [apply py_sorted_perm|].
  assert (F : Forall2 (row_of evaluations) (py_sorted (cmp_le pair_cmp) results) rows).
  { eapply rows_of; [| |exact H].
    - rewrite py_sorted_perm. rewrite Hid. exact Hr.
    - apply result_map_check in V. eapply Forall_impl; [exact V|]. intros e. apply validated_ok. }
  split; [|split; [exact F|]].
  - assert (N : NoDup (map pair_of (py_sorted (cmp_le pair_cmp) results))).
    { rewrite py_sorted_perm, P. by apply NoDup_list_prod. }
    pose proof (py_sorted_sorted pair_cmp results) as S. clear -N S.
    induction S as [|r l S IH Hr]; [constructor|]. inversion N as [|? ? N1 N2]; subst. constructor; [by apply IH|].
    rewrite Forall_forall in Hr |- *. intros x Hx. specialize (Hr x Hx). unfold cmp_le in Hr.
    destruct (pair_cmp r x) eqn:E; [|done|done]. destruct N1. apply pair_cmp_eq in E. rewrite E. by apply list_elem_of_fmap_2.
  - rewrite <- P, <- (py_sorted_perm (cmp_le pair_cmp) results). clear -F.
    induction F as [|r row rs rows ((_ & _ & Ht & Hm) & _) _ IH]; [done|]. cbn [map]. rewrite IH. unfold pair_of. by rewrite Ht, Hm.
Qed.

(** ** The export of a run of the runner *)

(** The frozen entries of a configuration cover the models and the tasks. *)
Definition frozen_for (run : BenchmarkRun) : Prop :=
  (forall m, m ∈ rn_models run ->
     dict_get (bc_frozen_model_configuration (rn_configuration run)) (model_id m) = Some (freeze_model m)) /\
  (forall id, id ∈ rn_selected_task_ids run ->
     exists f, dict_get (bc_request_features (rn_configuration run)) id = Some f /\ RequestFeatures_ok f = true).

Lemma dict_get_json {A} (f : A -> pyjson) (l : list (list N * A)) k :
  dict_get (map (fun kv => (kv.1, f kv.2)) l) k = f <$> dict_get l k.
Proof. induction l as [|[k0 a] l IH]; [done|]. cbn. by destruct (decide _). Qed.

Lemma dict_get_first {A B} (key : A -> pystr) (value : A -> B) l x : NoDup (map key l) -> x ∈ l ->
  dict_get (map (fun y => (key y, value y)) l) (key x) = Some (value x).
Proof.
  intros N Hx. apply dict_get_nodup; [unfold dict_keys; rewrite <- list_fmap_compose; exact N|].
  apply list_elem_of_fmap. by exists x.
Qed.

(** Every run the runner starts has frozen what it uses. *)
Lemma prepared_frozen `{E : Env} `{UD : UnicodeData} s b d ids limit w ts ms limits run w' :
  br_base_registry b = sv_registry s -> sv_resolver (br_service b) = sv_resolver s -> ModelRegistry.wf (sv_registry s) ->
  prepare b d ids limit w = (Ok (ts, ms, limits, run), w') -> frozen_for run.
Proof.
  intros Hb Hr W H. pose proof (prepare_spec s b d ids limit w Hb Hr) as P. unfold post in P. rewrite H in P.
  destruct P as (_ & Hts & Hms & _ & (_ & Hsel & Nd & Ex)). unfold prepare in H. m_ok H.
  apply m_bind_ok in H as (id & w1 & _ & H). apply m_bind_ok in H as (now & w2 & _ & H). apply mret_ok in H as [H _].
  injection H as -> -> -> ->. cbn [rn_models rn_selected_task_ids] in *. split.
  - intros m Hm. cbn. apply (dict_get_first model_id freeze_model x m); [|done]. by rewrite (execution_ids s ids x W Ex).
  - intros tid Ht. cbn. apply list_elem_of_fmap in Ht as (t & -> & Ht).
    match goal with L : result_map _ _ = Ok ?fs |- _ => apply result_map_ok in L; clear -L Ht; induction L as [|t' y ts fs Hy _ IH]; [set_solver|] end.
    apply bind_ok in Hy as (f & Hf & Hy). injection Hy as <-. cbn [dict_get].
    destruct (decide (task_id t = task_id t')) as [_|n].
    + exists f. split; [done|]. unfold extract_request_features, check in Hf. apply bind_ok in Hf as (u & Hf & Hg).
      apply validated_ok, guard_ok in Hf. by injection Hg as <-.
    + apply IH. apply elem_of_cons in Ht as [->|Ht]; [done|exact Ht].
Qed.

Lemma configuration_json_get c :
  dict_get (configuration_json c) (py "frozen_model_configuration") =
    Some (json_values (fun m => PJObj (frozen_json m)) (bc_frozen_model_configuration c)) /\
  dict_get (configuration_json c) (py "request_features") =
    Some (json_values (fun f => PJObj (features_json f)) (bc_request_features c)).
Proof.
  unfold configuration_json, dict_update. rewrite !fold_left_app. cbn [fold_left].
  rewrite !dict_get_set. split; vm_compute (decide _); reflexivity.
Qed.

Lemma text_of_optional `{UnicodeData} (o : option pystr) : exists s, py_str (or_null (PJStr <$> o)) = Ok s.
Proof. destruct o as [x|]; by eexists. Qed.

Lemma frozen_json_get m :
  dict_get (frozen_json m) (py "upstream_provider_pin") = Some (or_null (PJStr <$> fm_upstream_provider_pin m)) /\
  dict_get (frozen_json m) (py "service_tier") = Some (PJStr (fm_service_tier m)) /\
  dict_get (frozen_json m) (py "region") = Some (PJStr (fm_region m)) /\
  dict_get (frozen_json m) (py "reasoning_effort") = Some (or_null (PJStr <$> fm_reasoning_effort m)).
Proof. repeat split. Qed.

Section Complete.
Context {UD : UnicodeData} (read_features : py_dict -> option RequestFeatures).

Lemma frozen_snapshot m : ModelConfig_validate m = Ok tt ->
  exists c, candidate_snapshot m (frozen_json (freeze_model m)) = Ok c.
Proof.
  unfold ModelConfig_validate, check. intros V. apply bind_ok in V as (u1 & _ & V). apply bind_ok in V as (u2 & V1 & V).
  apply bind_ok in V as (u3 & V2 & _). apply guard_ok in V1, V2. unfold Money_ok, PositiveTokenCount_ok in *.
  destruct (frozen_json_get (freeze_model m)) as (G1 & G2 & G3 & G4).
  unfold candidate_snapshot, snapshot_text. rewrite G1, G2, G3, G4.
  destruct (text_of_optional (fm_upstream_provider_pin (freeze_model m))) as [s Hs]. rewrite Hs. rsimpl.
  cbn [py_str]. rsimpl.
  destruct (fm_reasoning_effort (freeze_model m)); cbn [fmap option_fmap option_map or_null default py_str]; rsimpl;
    unfold RoutingCandidateSnapshot_validate, check;
    cbn [rc_input_cost_per_1m_tokens rc_output_cost_per_1m_tokens rc_context_window]; rewrite V1, V2; by eexists.
Qed.

Lemma result_fields_ok r : BenchmarkResult_validate r = Ok tt ->
  f_leb f_zero (br_latency_ms r) = true /\ (br_success r = true -> is_some (br_response r) = true).
Proof.
  unfold BenchmarkResult_validate, consistent_outcome, check. intros V.
  apply bind_ok in V as (u1 & V1 & V). apply bind_ok in V as (u2 & V2 & _). apply guard_ok in V1, V2.
  unfold nonneg_finite in V1. bools. split; [done|]. intros S. rewrite S in *. by destruct (br_response r).
Qed.

Lemma failure_fields r :
  (forall k, opt_all (fun n => 0 <=? n)%Z (failure_count r k) = true) /\
  opt_all d_nonneg (failure_cost r) = true /\
  (f_leb f_zero (br_latency_ms r) = true -> forall k, f_nonneg (time_or (failure_time r k) (br_latency_ms r)) = true).
Proof.
  unfold failure_count, failure_cost, failure_time, time_or, f_nonneg. split; [|split].
  - intros k. destruct (dict_get _ _) as [[]|]; try done. destruct (0 <=? z)%Z eqn:Z; [exact Z|done].
  - destruct (_ ≫= _) as [c|]; [|done]. destruct (d_nonneg c) eqn:N; [exact N|done].
  - intros L k. destruct (dict_get _ _) as [[]|]; try done. destruct (f_leb f_zero f) eqn:N; [|done].
    by destruct (f_eqb f f_zero).
Qed.

Lemma effective_limit_pos limits t model : BenchmarkTask_validate t = Ok tt -> (0 <? effective_limit limits t model)%Z = true.
Proof.
  unfold BenchmarkTask_validate. intros V. apply bind_ok in V as (u & V & _).
  assert (P : (0 <? bt_max_output_tokens t)%Z = true).
  { unfold InferenceRequest_validate, check in V. repeat (apply bind_ok in V as (? & ? & V)).
    repeat match goal with H : guard_else _ _ = Ok _ |- _ => apply guard_ok in H end. bools.
    unfold PositiveTokenCount_ok in *. cbn in *. done. }
  unfold effective_limit. destruct (_ ≫= _) as [[]|]; try done. destruct (0 <? z)%Z eqn:Z; [exact Z|done].
Qed.

(** The parts of a stored run hold values that were validated. *)
Record stored_values (run : BenchmarkRun) (results : list BenchmarkResult) (evaluations : list EvaluationResult) : Prop := {
  stored_models : Forall (fun m => ModelConfig_validate m = Ok tt) (rn_models run);
  stored_tasks : Forall (fun t => BenchmarkTask_validate t = Ok tt /\ is_ok (difficulty t) = true) (tasks (rn_dataset run));
  stored_outcomes : Forall (fun r => BenchmarkResult_validate r = Ok tt /\
    forall x, br_response r = Some x -> InferenceResponse_validate x = Ok tt) results;
  stored_evaluations : Forall (fun e => EvaluationResult_validate e = Ok tt) evaluations
}.

Lemma response_fields x : InferenceResponse_validate x = Ok tt ->
  (0 <=? input_tokens x)%Z = true /\ (0 <=? output_tokens x)%Z = true /\ f_nonneg (latency_ms x) = true /\
  d_nonneg (estimated_cost_usd x) = true.
Proof.
  unfold InferenceResponse_validate, check, f_nonneg, TokenCount_ok, nonneg_finite, Money_ok. intros V.
  repeat (apply bind_ok in V as (? & ? & V)).
  repeat match goal with H : guard_else _ _ = Ok _ |- _ => apply guard_ok in H end.
  repeat match goal with H : _ && _ = true |- _ => apply andb_prop in H as [? ?] end. auto.
Qed.

Lemma evaluation_fields e : EvaluationResult_validate e = Ok tt ->
  opt_all (fun q => f_leb f_zero q && f_leb q f_one) (quality_score e) = true /\
  ((0 <=? evaluation_input_tokens e) && (0 <=? evaluation_output_tokens e))%Z = true /\
  f_nonneg (evaluation_latency_ms e) && d_nonneg (evaluation_cost_usd e) = true.
Proof.
  unfold EvaluationResult_validate, check, f_nonneg, nonneg_finite. intros V.
  do 3 apply bind_ok in V as (? & ? & V).
  repeat match goal with H : guard_else _ _ = Ok _ |- _ => apply guard_ok in H end.
  repeat match goal with H : _ && _ = true |- _ => apply andb_prop in H as [? ?] end.
  unfold unit_interval in *. split; [|split; by apply andb_true_intro].
  destruct (quality_score e); cbn [opt_all] in *; [|done]. by bools; apply andb_true_intro.
Qed.

Lemma row_valid r e row : EvaluationResult_validate e = Ok tt -> BenchmarkResult_validate r = Ok tt ->
  (forall x, br_response r = Some x -> InferenceResponse_validate x = Ok tt) ->
  (0 <? effective_max_output_tokens row)%Z = true ->
  (label_status row, rd_acceptable row, missing_label_reason row) = label_of r e ->
  provider_outcome row = (if br_success r then PO_success else PO_failure) ->
  rd_evaluation_status row = evaluation_status e ->
  rd_quality_score row = match label_status row with LS_valid => quality_score e | LS_missing => None end ->
  (rd_input_tokens row, rd_output_tokens row, rd_reasoning_tokens row) =
    match br_response r with
    | Some x => (Some (input_tokens x), Some (output_tokens x), None)
    | None => (failure_count r "input_tokens", failure_count r "output_tokens", failure_count r "reasoning_tokens")
    end ->
  (rd_latency_ms row, candidate_cost_usd row) =
    match br_response r with
    | Some x => (latency_ms x, Some (estimated_cost_usd x))
    | None => (time_or (failure_time r "adapter_latency_ms") (br_latency_ms r), failure_cost r)
    end ->
  (rd_evaluation_input_tokens row, rd_evaluation_output_tokens row, rd_evaluation_latency_ms row, rd_evaluation_cost_usd row) =
    (evaluation_input_tokens e, evaluation_output_tokens e, evaluation_latency_ms e, evaluation_cost_usd e) ->
  RoutingDatasetRow_validate row = Ok tt.
Proof.
  intros Ve Vr Vx L Lab Out St Q Tok Cost Ev. destruct (evaluation_fields e Ve) as (Eq & Ec & El).
  destruct (result_fields_ok r Vr) as [Rl _]. destruct (failure_fields r) as (Fc & Fd & Ft).
  injection Ev as V1 V2 V3 V4. pose proof (label_of_spec r e row Ve Lab Q) as (L1 & L2 & L3).
  unfold RoutingDatasetRow_validate, check. rewrite L.
  assert (T : opt_all (fun n => 0 <=? n)%Z (rd_input_tokens row) && opt_all (fun n => 0 <=? n)%Z (rd_output_tokens row) &&
    opt_all (fun n => 0 <=? n)%Z (rd_reasoning_tokens row) = true /\
    f_nonneg (rd_latency_ms row) && opt_all d_nonneg (candidate_cost_usd row) = true).
  { destruct (br_response r) as [x|].
    - destruct (response_fields x (Vx x eq_refl)) as (I & O & La & Co). injection Tok as T1 T2 T3. injection Cost as C1 C2. rewrite T1, T2, T3, C1, C2.
      cbn [opt_all]. by rewrite I, O, La, Co.
    - injection Tok as T1 T2 T3. injection Cost as C1 C2. rewrite T1, T2, T3, C1, C2, !Fc, Fd, Ft by done. done. }
  destruct T as [-> ->]. rewrite V1, V2, V3, V4, Ec, El. cbn [guard_else]. rsimpl.
  assert (Qv : opt_all (fun q => f_leb f_zero q && f_leb q f_one) (rd_quality_score row) = true).
  { rewrite Q. by destruct (label_status row). }
  rewrite Qv. cbn [guard_else]. rsimpl. unfold label_is_only_present_after_valid_evaluation, check. rewrite Out, St.
  destruct (label_status row).
  - destruct (proj1 L1 eq_refl) as [-> ->]. destruct (L2 eq_refl) as (q & _ & _ & -> & ->). done.
  - destruct (L3 eq_refl) as (-> & _ & reason & -> & Hn). by destruct reason.
Qed.
End Complete.

(** Every evaluated run can be exported.  When a completed run, whose
    configuration holds the frozen entry of each of its models and the request
    features of each of its tasks, has exactly one evaluation per result, and
    what is stored was validated, the export returns: no row is refused. *)
Theorem evaluated_runs_export `{UD : UnicodeData} read_features run_id files run results evaluations :
  (forall f, RequestFeatures_ok f = true -> read_features (features_json f) = Some f) ->
  load_run run_id files = Ok (run, results) -> frozen_for run -> stored_values run results evaluations ->
  map ev_benchmark_result_id evaluations ≡ₚ map br_result_id results ->
  exists rows, export_routing_dataset read_features run_id files (configuration_json (rn_configuration run)) evaluations = Ok rows.
Proof.
  intros Rf Hl [Fm Ft] [Vm Vt Vr Ve] P. unfold export_routing_dataset. rewrite Hl. rsimpl.
  destruct (result_map_total (fun e => validated (EvaluationResult_validate e)) evaluations) as [us Hus].
  { intros e He. exists tt. by rewrite (proj1 (Forall_forall _ _) Ve e He). }
  rewrite Hus. rsimpl.
  assert (S : same_elements (dict_keys (dict_of ev_benchmark_result_id (fun e => e) evaluations)) (map br_result_id results) = true).
  { apply same_elements_true. intros x. rewrite dict_of_mem. by rewrite P. }
  rewrite S. cbn [guard_else]. rsimpl. destruct (configuration_json_get (rn_configuration run)) as [-> ->].
  cbn [default object json_values]. apply result_map_total. intros r Hr. apply elem_of_py_sorted in Hr.
  destruct (load_run_complete _ _ _ _ Hl) as (status & _ & _ & _ & _ & _ & _ & Hsub & _ & Q).
  assert (Hp : pair_of r ∈ list_prod (rn_selected_task_ids run) (map model_id (rn_models run))).
  { rewrite <- Q. by apply list_elem_of_fmap_2. }
  apply elem_of_list_prod in Hp as [Hts Hms].
  assert (He : br_result_id r ∈ dict_keys (dict_of ev_benchmark_result_id (fun e => e) evaluations)).
  { apply dict_of_mem. rewrite P. by apply list_elem_of_fmap_2. }
  assert (Ht : br_task_id r ∈ dict_keys (dict_of task_id (fun t => t) (tasks (rn_dataset run)))).
  { apply dict_of_mem. by apply Hsub. }
  assert (Hm : br_model_id r ∈ dict_keys (dict_of model_id (fun m => m) (rn_models run))) by (by apply dict_of_mem).
  unfold export_row.
  destruct (dict_get _ (br_result_id r)) as [e|] eqn:Ee; [|by apply dict_get_none in Ee].
  destruct (dict_get _ (br_task_id r)) as [t|] eqn:Et; [|by apply dict_get_none in Et].
  destruct (dict_get _ (br_model_id r)) as [m|] eqn:Em; [|by apply dict_get_none in Em].
  apply dict_of_get in Ee as (e' & Ie & _ & ->), Et as (t' & It & _ & ->), Em as (m' & Im & Km & ->).
  rewrite (dict_get_json (fun m => PJObj (frozen_json m))), (dict_get_json (fun f => PJObj (features_json f))), <- Km, (Fm m Im). destruct (Ft _ Hts) as (f & -> & Hf).
  cbn [fmap option_fmap option_map object]. destruct (label_of r e) as [[st target] reason] eqn:L.
  rewrite (Rf f Hf). rsimpl. destruct (frozen_snapshot m (proj1 (Forall_forall _ _) Vm m Im)) as [c ->]. rsimpl.
  destruct (proj1 (Forall_forall _ _) Vt t It) as [Bt Dt]. destruct (difficulty t) as [d|] eqn:D; [|discriminate Dt]. rsimpl.
  destruct (proj1 (Forall_forall _ _) Vr r Hr) as [Br Bx].
  erewrite (row_valid r e); [by eexists|..]; try done; try (by destruct (br_response r)).
  - by apply (proj1 (Forall_forall _ _) Ve).
  - by apply effective_limit_pos.
Qed.

(** ** An example: one task, a model that answered and one that failed *)

Definition json_text_of (v : option pyjson) : option pystr := match v with Some (PJStr s) => Some s | _ => None end.
Definition json_int_of (v : option pyjson) : Z := match v with Some (PJInt n) => n | _ => 0%Z end.

Definition read_back (d : py_dict) : option RequestFeatures :=
  let get k := dict_get d (py k) in
  Some (mk_RequestFeatures (json_text_of (get "category")) (json_int_of (get "prompt_characters"))
    (json_int_of (get "system_prompt_characters")) (json_int_of (get "approximate_input_tokens"))
    (is_true (get "contains_code")) (is_true (get "requests_structured_output")) (json_int_of (get "max_output_tokens"))
    (json_int_of (get "constraint_indicator_count")) (json_int_of (get "reasoning_indicator_count")))%string.

Definition export_features : RequestFeatures := mk_RequestFeatures (Some (py "qa")) 14 0 4 false false 64 0 0.

Definition export_models : list ModelConfig := firstn 2 CANDIDATE_MODELS.

Definition export_run : BenchmarkRun :=
  mk_BenchmarkRun 1%N 0 example_dataset (py "00") [py "t1"] export_models
    (mk_BenchmarkConfiguration [] (py "1") (py "sequential-task-then-model") [] [] (py "1.0.0") [(py "t1", export_features)] []
       [(py "t1", [(py "candidate-gpt-6-luna", 96%Z)])] [] false (map (fun m => (model_id m, freeze_model m)) export_models)).

Definition answered_result : BenchmarkResult :=
  mk_BenchmarkResult 7%N 1%N (py "r7") (py "t1") (py "candidate-gpt-6-luna") 1719835200123456 true
    (Some (mk_InferenceResponse (py "Red.") (py "candidate-gpt-6-luna") (py "vercel") 12 3 f_one (mk_decimal false 27 (-7))
             TR_COMPLETE None)) None [] f_one.

Definition failed_result : BenchmarkResult := example_result 8 "candidate-nemotron-3.5-lightning".

Definition export_files : RunFiles :=
  mk_RunFiles (Ok (export_run, PJObj [(py "status", PJStr (py "completed"))])) (Ok [failed_result; answered_result]).

Definition export_evaluations : list EvaluationResult :=
  [example_evaluation 7 "candidate-gpt-6-luna" true;
   mk_EvaluationResult 8 1%N (py "t1") (py "candidate-nemotron-3.5-lightning") (py "call_failure") EVALUATION_VERSION 0 ES_partial
     None f_one None [] [] [] false 0 0 f_zero d_zero].

Lemma evaluated_runs_export_witness : exists rows,
  @export_routing_dataset ascii_tables read_back 1%N export_files (configuration_json (rn_configuration export_run))
    export_evaluations = Ok rows.
Proof.
  apply (@evaluated_runs_export ascii_tables read_back 1%N export_files export_run [failed_result; answered_result]).
  - intros [[c|] ? ? ? ? ? ? ? ?] _; reflexivity.
  - vm_compute. reflexivity.
  - split.
    + intros m Hm. apply list_elem_of_In in Hm. destruct Hm as [<-|[<-|[]]]; vm_compute; reflexivity.
    + intros id Hid. apply list_elem_of_singleton in Hid as ->. exists export_features. split; vm_compute; reflexivity.
  - constructor.
    + apply Forall_forall. intros m Hm. apply list_elem_of_In in Hm. destruct Hm as [<-|[<-|[]]]; vm_compute; reflexivity.
    + apply Forall_forall. intros t Ht. apply list_elem_of_In in Ht. destruct Ht as [<-|[<-|[]]]; split; vm_compute; reflexivity.
    + apply Forall_forall. intros r Hr. apply list_elem_of_In in Hr. destruct Hr as [<-|[<-|[]]].
      * split; [vm_compute; reflexivity|discriminate].
      * split; [vm_compute; reflexivity|]. intros x Hx. injection Hx as <-. vm_compute. reflexivity.
    + apply Forall_forall. intros e He. apply list_elem_of_In in He. destruct He as [<-|[<-|[]]]; vm_compute; reflexivity.
  - cbn. apply perm_swap.
Defined.

Lemma export_is_the_evaluated_run_witness : exists rows,
  @export_routing_dataset ascii_tables read_back 1%N export_files (configuration_json (rn_configuration export_run))
    export_evaluations = Ok rows /\
  map label_status rows = [LS_valid; LS_missing] /\
  map rd_generated_at rows = [py "2024-07-01T12:00:00.123456+00:00"; py "1970-01-01T00:00:00+00:00"] /\
  map effective_max_output_tokens rows = [96; 64]%Z /\
  map (fun row => (rd_task_id row, internal_id (candidate row))) rows ≡ₚ
    list_prod [py "t1"] (map model_id export_models).
Proof.
  assert (V : exists rows, @export_routing_dataset ascii_tables read_back 1%N export_files
    (configuration_json (rn_configuration export_run)) export_evaluations = Ok rows /\
    map label_status rows = [LS_valid; LS_missing] /\
    map rd_generated_at rows = [py "2024-07-01T12:00:00.123456+00:00"; py "1970-01-01T00:00:00+00:00"] /\
    map effective_max_output_tokens rows = [96; 64]%Z).
  { eexists. split; [vm_compute; reflexivity|]. repeat split. }
  destruct V as (rows & E & A & B & C). exists rows. do 4 (split; [assumption|]).
  destruct (export_is_the_evaluated_run _ _ _ _ _ _ E) as (run & results & L & sorted & _ & _ & _ & P).
  assert (R : load_run 1%N export_files = Ok (export_run, [failed_result; answered_result])) by (vm_compute; reflexivity).
  rewrite R in L. injection L as <- _. exact P.
Defined.

(** A model without an upstream provider is exported as pinned to a provider of
    the name "None". *)
Lemma unpinned_is_exported_as_none :
  @snapshot_text ascii_tables (frozen_json (freeze_model (mk_ModelConfig (py "m") (py "fake") (py "m") d_zero d_zero 1 true
    default_capabilities None GATEWAY_SHARED default_output_token_policy))) "upstream_provider_pin" = Ok (py "None").
Proof. reflexivity. Qed.
