(* ===== verification/RoutingAnalysis.v ===== *)
(** * Offline routing baselines ([routing/analysis.py])

    Policies that choose from what is known before generation, applied to a
    frozen export of one evaluated run, and the retrospective evaluation of
    their decisions against the labels, with the oracle that sees them.  The
    artifacts and the report the analysis writes are not modelled; the digest
    of the seeded policy is the parameter [digest]. *)
From S2P Require Import Prelude PyStr PyFloat PyDecimal PyUuid Schemas Json PyRepr JsonText Errors Pricing PyStats PyNum BenchmarkModels Aggregation RoutingExport.

Definition FOUNDATION_V3_RUN_ID : uuid := 0x61707aba5ab24c168ec3eed74555d69c%N.
Definition FOUNDATION_V3_SHA256 : pystr := py "64eda8e7388233f645906412a2524982ebfb9c848c42ee24a468ba04c31d16e6".
Definition FOUNDATION_V3_PROTOCOL_SHA256 : pystr := py "973c46e2dfd7c5739f623ff1c7f2378dc3e77c80e5815e23c975816700d4b861".

Definition ALWAYS_CHEAPEST : pystr := py "ALWAYS_CHEAPEST".
Definition ALWAYS_STRONGEST : pystr := py "ALWAYS_STRONGEST".
Definition RANDOM_SEEDED : pystr := py "RANDOM_SEEDED".
Definition RULE_BASED_V1 : pystr := py "RULE_BASED_V1".
Definition ORACLE_CHEAPEST_ACCEPTABLE : pystr := py "ORACLE_CHEAPEST_ACCEPTABLE".
Definition RANDOM_SEED : Z := 20260924.

Definition NEMOTRON : pystr := py "candidate-nemotron-3.5-lightning".
Definition LUNA : pystr := py "candidate-gpt-6-luna".
Definition GEMINI : pystr := py "candidate-gemini-3-flash".
Definition SONNET : pystr := py "candidate-claude-sonnet-5".
Definition EXPECTED_CANDIDATES : list pystr := [NEMOTRON; LUNA; GEMINI; SONNET].

Definition RULE_1 : pystr := py "If category is coding or the prompt contains code, choose Sonnet.".
Definition RULE_2 : pystr := py "Else if category is reasoning or reasoning_indicator_count >= 3, choose Sonnet.".
Definition RULE_3 : pystr := py "Else if structured output is requested, choose Luna.".
Definition RULE_4 : pystr := py "Else if category is QA, choose Nemotron.".
Definition RULE_5 : pystr := py "Else choose Luna.".
Definition RULE_BASED_V1_RULES : list pystr := [RULE_1; RULE_2; RULE_3; RULE_4; RULE_5].

(** ** Data *)

Record CandidateOption := mk_CandidateOption {
  candidate_id : pystr;
  co_input_cost_per_1m_tokens : decimal;
  co_output_cost_per_1m_tokens : decimal;
  co_effective_max_output_tokens : Z
}.

Definition CandidateOption_validate (c : CandidateOption) : result pystr unit :=
  check (d_nonneg (co_input_cost_per_1m_tokens c) && d_nonneg (co_output_cost_per_1m_tokens c) &&
         (0 <? co_effective_max_output_tokens c)%Z) field_error.

Definition projected_max_cost (c : CandidateOption) (approximate_input_tokens : Z) : result exn decimal :=
  decimal_error
    (a ← d_mul 50 (d_of_Z approximate_input_tokens) (co_input_cost_per_1m_tokens c);
     b ← d_mul 50 (d_of_Z (co_effective_max_output_tokens c)) (co_output_cost_per_1m_tokens c);
     s ← d_add 50 a b;
     d_div 50 s (d_of_Z 1000000)).

Definition configured_cost_score (c : CandidateOption) : result exn decimal :=
  decimal_error (d_add default_prec (co_input_cost_per_1m_tokens c) (co_output_cost_per_1m_tokens c)).

Record PolicyRequest := mk_PolicyRequest {
  pr_task_id : pystr;
  pr_features : RequestFeatures;
  candidates : list CandidateOption
}.

Definition PolicyRequest_validate (r : PolicyRequest) : result pystr unit :=
  _ ← check (Nat.leb 1 (length (candidates r))) field_error;
  check (all_distinct (map candidate_id (candidates r))) (py "Policy request candidate IDs must be unique").

Record RoutingDecision := mk_RoutingDecision {
  dn_policy : pystr;
  dn_task_id : pystr;
  dn_candidate_id : option pystr;
  dn_reason : pystr
}.

Record RowObservation := mk_RowObservation {
  ob_task_id : pystr;
  ob_candidate_id : pystr;
  ob_features : RequestFeatures;
  ob_analysis_difficulty : option Difficulty;
  ob_option : CandidateOption;
  ob_label_status : LabelStatus;
  ob_acceptable : option bool;
  ob_quality_score : option float;
  realized_cost_usd : option decimal;
  ob_latency_ms : float
}.

(** [label_state_is_consistent] *)
Definition label_state_is_consistent (o : RowObservation) : result pystr unit :=
  match ob_label_status o with
  | LS_valid => check (is_some (ob_acceptable o) && is_some (ob_quality_score o))
                  (py "Valid observations require acceptable and quality")
  | LS_missing => check (negb (is_some (ob_acceptable o)) && negb (is_some (ob_quality_score o)))
                    (py "Missing observations cannot contain quality labels")
  end.

Definition RowObservation_validate (o : RowObservation) : result pystr unit :=
  _ ← check (opt_all (fun q => f_leb f_zero q && f_leb q f_one) (ob_quality_score o)) field_error;
  _ ← check (opt_all d_nonneg (realized_cost_usd o) && f_nonneg (ob_latency_ms o)) field_error;
  label_state_is_consistent o.

Record FrozenRoutingData := mk_FrozenRoutingData {
  fr_run_id : uuid;
  fr_dataset_sha256 : pystr;
  fr_protocol_sha256 : pystr;
  observations : list RowObservation;
  requests : list PolicyRequest
}.

(** ** Policies *)

(** The protocol [RoutingPolicy]. *)
Record RoutingPolicy := mk_RoutingPolicy {
  rp_name : pystr;
  rp_select : PolicyRequest -> result exn RoutingDecision
}.

(** The order of the pairs (projected cost, identifier). *)
Definition priced_cmp : decimal * CandidateOption -> decimal * CandidateOption -> comparison :=
  lex_cmp (on_key fst d_cmp) (on_key (fun p => candidate_id p.2) str_cmp).

Definition AlwaysCheapestPolicy : RoutingPolicy :=
  mk_RoutingPolicy ALWAYS_CHEAPEST (fun request =>
    priced ← result_map (fun c =>
        cost ← projected_max_cost c (qf_approximate_input_tokens (pr_features request)); Ok (cost, c))
      (candidates request);
    match priced with
    | [] => Raise (Exn C_ValueError)
    | p :: rest =>
        Ok (mk_RoutingDecision ALWAYS_CHEAPEST (pr_task_id request)
              (Some (candidate_id (min_from (cmp_lt priced_cmp) p rest).2))
              (py "lowest pre-generation projected maximum cost from configured prices"))
    end).

Definition eligible (id : pystr) (request : PolicyRequest) : bool :=
  bool_decide (id ∈ map candidate_id (candidates request)).

Definition FixedCandidatePolicy (id : pystr) : RoutingPolicy :=
  mk_RoutingPolicy ALWAYS_STRONGEST (fun request =>
    _ ← guard_else (eligible id request) (Exn C_ValueError);
    Ok (mk_RoutingDecision ALWAYS_STRONGEST (pr_task_id request) (Some id)
          (py "fixed candidate resolved from aggregate valid-label performance"))).

(** [int.from_bytes(bytes, "big")] *)
Definition from_bytes (bytes : list N) : N := fold_left (fun acc b => acc * 256 + b)%N bytes 0%N.

(** [digest]: [hashlib.sha256(text.encode()).digest()] *)
Definition RandomSeededPolicy (digest : pystr -> result exn (list N)) (seed : Z) : RoutingPolicy :=
  mk_RoutingPolicy RANDOM_SEEDED (fun request =>
    let ids := py_sorted (cmp_le str_cmp) (map candidate_id (candidates request)) in
    bytes ← digest (Z_to_str seed ++ py ":" ++ pr_task_id request);
    match ids !! N.to_nat (from_bytes (firstn 8 bytes) mod N.of_nat (length ids)) with
    | Some id => Ok (mk_RoutingDecision RANDOM_SEEDED (pr_task_id request) (Some id)
                       (py "deterministic uniform hash draw with seed " ++ Z_to_str seed))
    | None => Raise (Exn C_ArithmeticError)
    end).

Definition is_category (f : RequestFeatures) (c : string) : bool := bool_decide (qf_category f = Some (py c)).

(** The candidate of [RuleBasedV1Policy] and its rule. *)
Definition rule_choice (f : RequestFeatures) : pystr * pystr :=
  if is_category f "coding" || qf_contains_code f then (SONNET, RULE_1)
  else if is_category f "reasoning" || (3 <=? qf_reasoning_indicator_count f)%Z then (SONNET, RULE_2)
  else if qf_requests_structured_output f then (LUNA, RULE_3)
  else if is_category f "qa" then (NEMOTRON, RULE_4)
  else (LUNA, RULE_5).

Definition RuleBasedV1Policy : RoutingPolicy :=
  mk_RoutingPolicy RULE_BASED_V1 (fun request =>
    let '(id, rule) := rule_choice (pr_features request) in
    _ ← guard_else (eligible id request) (Exn C_ValueError);
    Ok (mk_RoutingDecision RULE_BASED_V1 (pr_task_id request) (Some id) rule)).

(** ** The frozen data *)

Definition row_pair (r : RoutingDatasetRow) : pystr * pystr := (rd_task_id r, internal_id (candidate r)).

(** [.get] of a value that must be a dictionary. *)
Definition json_get (v : pyjson) (key : string) : result exn (option pyjson) :=
  match v with PJObj d => Ok (dict_get d (py key)) | _ => Raise (Exn C_AttributeError) end.

Definition option_of_row (r : RoutingDatasetRow) : CandidateOption :=
  mk_CandidateOption (internal_id (candidate r)) (rc_input_cost_per_1m_tokens (candidate r))
    (rc_output_cost_per_1m_tokens (candidate r)) (effective_max_output_tokens r).

Definition observe (r : RoutingDatasetRow) : result exn RowObservation :=
  let o := option_of_row r in
  _ ← validated (CandidateOption_validate o);
  let ob := mk_RowObservation (rd_task_id r) (internal_id (candidate r)) (request_features r) (analysis_difficulty r) o
              (label_status r) (rd_acceptable r) (rd_quality_score r) (candidate_cost_usd r) (rd_latency_ms r) in
  _ ← validated (RowObservation_validate ob);
  Ok ob.

#[export] Instance RequestFeatures_eq_dec : EqDecision RequestFeatures.
Proof. solve_decision. Defined.

Definition option_cmp : CandidateOption -> CandidateOption -> comparison := on_key candidate_id str_cmp.

(** The request of a task, from its observations; equal dumps of features are
    equal features. *)
Definition request_of (g : pystr * list RowObservation) : result exn PolicyRequest :=
  match g.2 with
  | [] => Raise (Exn C_ValueError)
  | o :: _ =>
      _ ← guard_else (forallb (fun x => bool_decide (ob_features x = ob_features o)) g.2 && Nat.eqb (length g.2) 4)
            (Exn C_ValueError);
      let r := mk_PolicyRequest g.1 (ob_features o) (py_sorted (cmp_le option_cmp) (map ob_option g.2)) in
      _ ← validated (PolicyRequest_validate r);
      Ok r
  end.

Definition observation_cmp : RowObservation -> RowObservation -> comparison :=
  lex_cmp (on_key ob_task_id str_cmp) (on_key ob_candidate_id str_cmp).

Definition by_task (l : list RowObservation) : list (pystr * list RowObservation) := group_by ob_task_id l.

(** The parsed files of a run's directory: manifest and export. *)
Record FrozenFiles := mk_FrozenFiles {
  ff_manifest : option (result exn pyjson);
  ff_export : option (result exn (list RoutingDatasetRow))
}.

Definition count_rows (p : RoutingDatasetRow -> bool) (rows : list RoutingDatasetRow) : nat := length (List.filter p rows).

Definition has_label (s : LabelStatus) (r : RoutingDatasetRow) : bool := bool_decide (label_status r = s).

(** What [load_frozen_foundation_v3] demands of the rows. *)
Definition frozen_rows (run_id : uuid) (rows : list RoutingDatasetRow) : bool :=
  Nat.eqb (length rows) 224 && all_distinct (map row_pair rows) &&
  (Nat.eqb (length (remove_dups (map rd_task_id rows))) 56 &&
   same_elements (map (fun r => internal_id (candidate r)) rows) EXPECTED_CANDIDATES) &&
  (Nat.eqb (count_rows (has_label LS_valid) rows) 216 && Nat.eqb (count_rows (has_label LS_missing) rows) 8) &&
  forallb (fun r => bool_decide (rd_run_id r = run_id) && bool_decide (rd_dataset_sha256 r = FOUNDATION_V3_SHA256)) rows &&
  forallb (fun r => is_some (candidate_cost_usd r)) rows.

Definition load_frozen_foundation_v3 (files : FrozenFiles) (run_id : uuid) : result exn FrozenRoutingData :=
  match ff_export files, ff_manifest files with
  | Some export, Some manifest =>
      manifest ← manifest;
      id ← json_get manifest "run_id";
      _ ← guard_else (equals_str id (uuid_str run_id)) (Exn C_ValueError);
      sha ← json_get manifest "dataset_sha256";
      _ ← guard_else (equals_str sha FOUNDATION_V3_SHA256) (Exn C_ValueError);
      configuration ← json_get manifest "configuration";
      protocol ← json_get (default (PJObj []) configuration) "execution_protocol_sha256";
      _ ← guard_else (equals_str protocol FOUNDATION_V3_PROTOCOL_SHA256) (Exn C_ValueError);
      rows ← export;
      _ ← guard_else (frozen_rows run_id rows) (Exn C_ValueError);
      obs ← result_map observe rows;
      reqs ← result_map request_of (sorted_groups str_cmp (by_task obs));
      Ok (mk_FrozenRoutingData run_id FOUNDATION_V3_SHA256 FOUNDATION_V3_PROTOCOL_SHA256
            (py_sorted (cmp_le observation_cmp) obs) reqs)
  | _, _ => Raise (Exn C_FileNotFoundError)
  end.

(** ** The strongest candidate *)

Definition is_valid (o : RowObservation) : bool := bool_decide (ob_label_status o = LS_valid).

(** [bool(row.acceptable)] *)
Definition accepted (o : RowObservation) : bool := default false (ob_acceptable o).

Record CandidateMetrics := mk_CandidateMetrics {
  cm_valid_labels : Z;
  cm_acceptable : Z;
  cm_acceptable_rate : float;
  cm_mean_quality : float;
  cm_configured_cost_score : decimal
}.

Definition qualities (l : list RowObservation) : list float := omap ob_quality_score l.

Definition candidate_metrics (rows : list RowObservation) : result exn CandidateMetrics :=
  let valid := List.filter is_valid rows in
  match rows, valid with
  | first :: _, _ :: _ =>
      let n := Z.of_nat (length valid) in
      let good := count accepted valid in
      mean ← fmean (qualities valid);
      score ← configured_cost_score (ob_option first);
      Ok (mk_CandidateMetrics n good (ratio good n) mean score)
  | _, _ => Raise (Exn C_ValueError)
  end.

(** The order of [(-acceptable_rate, -mean_quality, cost_score, candidate_id)]. *)
Definition strength_cmp : pystr * CandidateMetrics -> pystr * CandidateMetrics -> comparison :=
  lex_cmp (on_key (fun x => f_neg (cm_acceptable_rate x.2)) f_cmp)
    (lex_cmp (on_key (fun x => f_neg (cm_mean_quality x.2)) f_cmp)
       (lex_cmp (on_key (fun x => cm_configured_cost_score x.2) d_cmp) (on_key fst str_cmp))).

Definition resolve_strongest (obs : list RowObservation) : result exn (pystr * list (pystr * CandidateMetrics)) :=
  details ← result_map (fun g => m ← candidate_metrics g.2; Ok (g.1, m))
              (sorted_groups str_cmp (group_by ob_candidate_id obs));
  match details with
  | [] => Raise (Exn C_ValueError)
  | x :: rest => Ok ((min_from (cmp_lt strength_cmp) x rest).1, details)
  end.

(** ** Statistics *)

(** [_percentile] *)
Definition percentile (values : list float) (p : float) : result exn (option float) :=
  match values with
  | [] => Ok None
  | _ =>
      let ordered := py_sorted f_leb values in
      let position := f_mul (f_of_Z (Z.of_nat (length ordered) - 1)) p in
      let lower := f_floor position in
      let upper := f_ceil position in
      a ← item_at ordered lower;
      if (lower =? upper)%Z then Ok (Some a)
      else
        b ← item_at ordered upper;
        Ok (Some (f_add a (f_mul (f_sub b a) (f_sub position (f_of_Z lower)))))
  end.

Definition P50 : float := f_of_ratio 1 2.
Definition P95 : float := f_of_ratio 95 100.

Record Rates := mk_Rates { rt_valid_labels : Z; rt_acceptable : Z; rt_acceptable_rate : float }.

(** [_rates_by], with the text of the attribute *)
Definition rates_by (attribute : RowObservation -> pystr) (rows : list RowObservation) : list (pystr * Rates) :=
  map (fun g => let n := Z.of_nat (length g.2) in
                let good := count accepted g.2 in (g.1, mk_Rates n good (ratio good n)))
    (sorted_groups str_cmp (group_by attribute rows)).

Definition category_text (o : RowObservation) : pystr := default (py "None") (qf_category (ob_features o)).

Definition Difficulty_value (d : Difficulty) : pystr :=
  match d with DF_easy => py "easy" | DF_medium => py "medium" | DF_hard => py "hard" end.

Definition difficulty_text (o : RowObservation) : pystr :=
  match ob_analysis_difficulty o with Some d => Difficulty_value d | None => py "None" end.

(** ** Retrospective evaluation *)

Record Retrospective := mk_Retrospective {
  re_label_status : LabelStatus;
  re_acceptable : option bool;
  re_quality_score : option float;
  re_realized_cost_usd : option pystr;
  re_latency_ms : float;
  re_analysis_difficulty : option Difficulty;
  re_category : option pystr
}.

Definition retrospective (o : RowObservation) : Retrospective :=
  mk_Retrospective (ob_label_status o) (ob_acceptable o) (ob_quality_score o) (d_str <$> realized_cost_usd o)
    (ob_latency_ms o) (ob_analysis_difficulty o) (qf_category (ob_features o)).

Definition record : Type := RoutingDecision * option Retrospective.

Record PolicySummary := mk_PolicySummary {
  ps_policy : pystr;
  ps_total_requests : Z;
  ps_selected_rows : Z;
  ps_valid_selected_labels : Z;
  ps_missing_selected_labels : Z;
  ps_valid_label_coverage : float;
  ps_acceptable : Z;
  ps_unacceptable : Z;
  ps_acceptable_rate_among_valid : option float;
  ps_mean_quality_among_valid : option float;
  ps_median_quality_among_valid : option float;
  ps_total_realized_cost_usd : pystr;
  ps_average_realized_cost_per_request_usd : pystr;
  ps_average_realized_cost_per_selected_request_usd : option pystr;
  ps_median_realized_cost_per_request_usd : pystr;
  ps_p95_realized_cost_per_request_usd : pystr;
  ps_missing_realized_costs : Z;
  ps_mean_latency_ms : option float;
  ps_p50_latency_ms : option float;
  ps_p95_latency_ms : option float;
  ps_model_distribution : list (pystr * (Z * float));
  ps_category_acceptable_rates : list (pystr * Rates);
  ps_difficulty_acceptable_rates : list (pystr * Rates)
}.

(** [f(l) if l else None] *)
Definition unless_empty {A B : Type} (f : list A -> result exn B) (l : list A) : result exn (option B) :=
  match l with [] => Ok None | _ => x ← f l; Ok (Some x) end.

(** [n / d] of integers, [d] not negative. *)
Definition true_division (n d : Z) : result exn float :=
  if (d =? 0)%Z then Raise (Exn C_ArithmeticError) else Ok (ratio n d).

(** [float(cost or 0)] *)
Definition cost_float (o : RowObservation) : float :=
  match realized_cost_usd o with
  | Some d => if (d_coef d =? 0)%N then f_zero else f_of_decimal d
  | None => f_zero
  end.

Definition task_count (obs : list RowObservation) : Z := Z.of_nat (length (remove_dups (map ob_task_id obs))).

(** [index.get((task, candidate))]: the last row of the pair *)
Definition row_at (obs : list RowObservation) (task candidate : pystr) : option RowObservation :=
  dict_get (dict_of (fun o => (ob_task_id o, ob_candidate_id o)) (fun o => o) obs) (task, candidate).

Definition NO_CANDIDATE : pystr := py "no_acceptable_candidate".

(** The row of one decision, if it selects. *)
Definition selected_row (obs : list RowObservation) (d : RoutingDecision) : result exn (RoutingDecision * option RowObservation) :=
  match dn_candidate_id d with
  | None => Ok (d, None)
  | Some id => match row_at obs (dn_task_id d) id with
               | Some o => Ok (d, Some o)
               | None => Raise (Exn C_ValueError)
               end
  end.

Definition decision_cmp : RoutingDecision -> RoutingDecision -> comparison := on_key dn_task_id str_cmp.

Section Evaluate.
Context {UD : UnicodeData}.

(** [str(Decimal(str(f)))] *)
Definition float_decimal_text (f : float) : result exn pystr :=
  match f with
  | S754_nan => Ok (py "NaN")
  | S754_infinity s => Ok (if s then py "-Infinity" else py "Infinity")
  | _ => match decimal_of_str (float_repr f) with Some d => Ok (d_str d) | None => Raise (Exn C_ArithmeticError) end
  end.

Definition model_distribution (total : Z) (joined : list (RoutingDecision * option RowObservation)) :
    result exn (list (pystr * (Z * float))) :=
  result_map (fun g => share ← true_division (Z.of_nat (length g.2)) total; Ok (g.1, (Z.of_nat (length g.2), share)))
    (sorted_groups str_cmp
       (group_by (fun j => match j.2 with Some o => ob_candidate_id o | None => NO_CANDIDATE end) joined)).

(** The summary of decisions joined with their rows. *)
Definition policy_summary (policy : pystr) (total : Z) (joined : list (RoutingDecision * option RowObservation)) :
    result exn PolicySummary :=
  let selected := omap snd joined in
  let valid := List.filter is_valid selected in
  let costs := omap realized_cost_usd selected in
  let chosen := Z.of_nat (length selected) in
  let labelled := Z.of_nat (length valid) in
  let cost_per_request := map cost_float selected ++ repeat f_zero (Z.to_nat (total - chosen)) in
  let latencies := map ob_latency_ms selected in
  let good := count accepted valid in
  total_cost ← decimal_error (d_sum default_prec costs);
  coverage ← true_division labelled total;
  mean_quality ← unless_empty fmean (qualities valid);
  median_quality ← unless_empty median (qualities valid);
  average ← decimal_error (d_div default_prec total_cost (d_of_Z total));
  per_selected ← unless_empty (fun _ => decimal_error (d_div default_prec total_cost (d_of_Z chosen))) selected;
  middle ← median cost_per_request;
  middle_text ← float_decimal_text middle;
  p95 ← percentile cost_per_request P95;
  p95_text ← match p95 with Some f => float_decimal_text f | None => Raise (Exn C_ArithmeticError) end;
  mean_latency ← unless_empty fmean latencies;
  p50_latency ← percentile latencies P50;
  p95_latency ← percentile latencies P95;
  distribution ← model_distribution total joined;
  Ok (mk_PolicySummary policy total chosen labelled (chosen - labelled) coverage good (labelled - good)
        (if (labelled =? 0)%Z then None else Some (ratio good labelled)) mean_quality median_quality
        (d_str total_cost) (d_str average) (d_str <$> per_selected) middle_text p95_text
        (chosen - Z.of_nat (length costs)) mean_latency p50_latency p95_latency distribution
        (rates_by category_text valid) (rates_by difficulty_text valid)).

Definition evaluate_decisions (obs : list RowObservation) (decisions : list RoutingDecision) :
    result exn (PolicySummary * list record) :=
  let ds := py_sorted (cmp_le decision_cmp) decisions in
  let total := task_count obs in
  _ ← guard_else ((Z.of_nat (length ds) =? total)%Z &&
                  (Z.of_nat (length (remove_dups (map dn_task_id ds))) =? total)%Z) (Exn C_ValueError);
  joined ← result_map (selected_row obs) ds;
  summary ← policy_summary (match ds with d :: _ => dn_policy d | [] => [] end) total joined;
  Ok (summary, map (fun j => (j.1, retrospective <$> j.2)) joined).

(** ** The oracle *)

(** [key(a) < key(b)] of the keys (cost, candidate), where a missing cost
    compares with another missing cost only. *)
Definition oracle_lt (a b : RowObservation) : result exn bool :=
  let ids := cmp_lt str_cmp (ob_candidate_id a) (ob_candidate_id b) in
  match realized_cost_usd a, realized_cost_usd b with
  | Some x, Some y => Ok (d_ltb x y || d_eqb x y && ids)
  | None, None => Ok ids
  | _, _ => Raise (Exn C_TypeError)
  end.

Fixpoint oracle_min (best : RowObservation) (l : list RowObservation) : result exn RowObservation :=
  match l with
  | [] => Ok best
  | o :: r => smaller ← oracle_lt o best; oracle_min (if smaller : bool then o else best) r
  end.

Inductive ObservationState := OS_none | OS_full | OS_partial.

#[export] Instance ObservationState_eq_dec : EqDecision ObservationState.
Proof. solve_decision. Defined.

Definition ObservationState_value (s : ObservationState) : pystr :=
  match s with OS_none => NO_CANDIDATE | OS_full => py "fully_observed" | OS_partial => py "partially_observed" end.

Definition good_row (o : RowObservation) : bool := is_valid o && accepted o.

Definition oracle_decision (g : pystr * list RowObservation) : result exn (RoutingDecision * ObservationState) :=
  match List.filter good_row g.2 with
  | [] => Ok (mk_RoutingDecision ORACLE_CHEAPEST_ACCEPTABLE g.1 None NO_CANDIDATE, OS_none)
  | o :: rest =>
      best ← oracle_min o rest;
      let state := if forallb is_valid g.2 then OS_full else OS_partial in
      Ok (mk_RoutingDecision ORACLE_CHEAPEST_ACCEPTABLE g.1 (Some (ob_candidate_id best))
            (py "lowest realized cost among valid acceptable rows; " ++ ObservationState_value state), state)
  end.

(** [oracle_cheapest_acceptable]: decisions, and how many tasks are in each state *)
Definition oracle_cheapest_acceptable (obs : list RowObservation) :
    result exn (list RoutingDecision * (ObservationState -> Z)) :=
  out ← result_map oracle_decision (sorted_groups str_cmp (by_task obs));
  Ok (map fst out, fun s => count (fun x => bool_decide (x.2 = s)) out).
End Evaluate.

(** ** The whole analysis *)

Record Comparison := mk_Comparison {
  cost_reduction_vs_always_strongest : float;
  acceptable_rate_difference_vs_always_strongest : float;
  acceptable_rate_retention_vs_always_strongest : float
}.

(** [float((a - b) / a)] *)
Definition reduction (a b : decimal) : result exn float :=
  decimal_error
    (saved ← d_add default_prec a (mk_decimal (negb (d_neg b)) (d_coef b) (d_exp b));
     share ← d_div default_prec saved a;
     Ok (f_of_decimal share)).

(** [float(x)] of an optional rate *)
Definition rate_of (s : PolicySummary) : result exn float :=
  match ps_acceptable_rate_among_valid s with Some r => Ok r | None => Raise (Exn C_TypeError) end.

Record Opportunity := mk_Opportunity {
  label_disagreement_tasks : Z;
  oracle_non_strongest_selections : Z;
  cost_reduction_vs_always_cheapest : float;
  acceptable_request_coverage : float
}.

Record Analysis := mk_Analysis {
  an_strongest : pystr;
  an_metrics : list (pystr * CandidateMetrics);
  an_summaries : list (pystr * PolicySummary);
  an_oracle_state : ObservationState -> Z;
  an_comparison : list (pystr * Comparison);
  an_opportunity : Opportunity;
  an_records : list record
}.

(** [len({row.acceptable for row in rows if ...}) > 1] *)
Definition labels_disagree (rows : list RowObservation) : bool :=
  Nat.ltb 1 (length (remove_dups (map ob_acceptable (List.filter is_valid rows)))).

Definition record_cmp : record -> record -> comparison :=
  lex_cmp (on_key (fun r => dn_policy r.1) str_cmp) (on_key (fun r => dn_task_id r.1) str_cmp).

Section Analyze.
Context {UD : UnicodeData}.

Definition cost_of (s : PolicySummary) : result exn decimal :=
  match decimal_of_str (ps_total_realized_cost_usd s) with Some d => Ok d | None => Raise (Exn C_ArithmeticError) end.

(** [_comparison] *)
Definition comparison_to (summaries : list (pystr * PolicySummary)) : result exn (list (pystr * Comparison)) :=
  match dict_get summaries ALWAYS_STRONGEST with
  | None => Raise (Exn C_KeyError)
  | Some reference =>
      reference_cost ← cost_of reference;
      reference_rate ← rate_of reference;
      result_map (fun ns =>
        cost ← cost_of ns.2;
        rate ← rate_of ns.2;
        saved ← reduction reference_cost cost;
        _ ← guard_else (negb (f_eqb reference_rate f_zero)) (Exn C_ArithmeticError);
        Ok (ns.1, mk_Comparison saved (f_sub rate reference_rate) (f_div rate reference_rate))) summaries
  end.

Definition evaluate_policy (data : FrozenRoutingData) (p : RoutingPolicy) : result exn (pystr * PolicySummary * list record) :=
  decisions ← result_map (rp_select p) (requests data);
  '(summary, records) ← evaluate_decisions (observations data) decisions;
  Ok (rp_name p, summary, records).

(** The policies of the study, the strongest candidate being resolved. *)
Definition baselines (digest : pystr -> result exn (list N)) (strongest : pystr) : list RoutingPolicy :=
  [AlwaysCheapestPolicy; FixedCandidatePolicy strongest; RandomSeededPolicy digest RANDOM_SEED; RuleBasedV1Policy].

(** [analyze_foundation_v3], up to the artifacts it writes *)
Definition analyze_foundation_v3 (digest : pystr -> result exn (list N)) (files : FrozenFiles) (run_id : uuid) :
    result exn Analysis :=
  data ← load_frozen_foundation_v3 files run_id;
  '(strongest, metrics) ← resolve_strongest (observations data);
  evaluated ← result_map (evaluate_policy data) (baselines digest strongest);
  '(oracle_decisions, oracle_state) ← oracle_cheapest_acceptable (observations data);
  '(oracle_summary, oracle_records) ← evaluate_decisions (observations data) oracle_decisions;
  let summaries := dict_set (dict_of (fun x => x.1.1) (fun x => x.1.2) evaluated) ORACLE_CHEAPEST_ACCEPTABLE oracle_summary in
  comparison ← comparison_to summaries;
  cheapest ← match dict_get summaries ALWAYS_CHEAPEST with Some s => Ok s | None => Raise (Exn C_KeyError) end;
  cheapest_cost ← cost_of cheapest;
  oracle_cost ← cost_of oracle_summary;
  saved ← reduction cheapest_cost oracle_cost;
  coverage ← true_division (ps_acceptable oracle_summary) (Z.of_nat (length (requests data)));
  let opportunity := mk_Opportunity
    (count (fun g => labels_disagree g.2) (by_task (observations data)))
    (count (fun c => match c with Some id => negb (bool_decide (id = strongest)) | None => false end)
       (dict_values (dict_of dn_task_id dn_candidate_id oracle_decisions)))
    saved coverage in
  Ok (mk_Analysis strongest metrics summaries oracle_state comparison opportunity
        (py_sorted (cmp_le record_cmp) (List.concat (map snd evaluated) ++ oracle_records))).
End Analyze.

(** ** Groups and rows *)

Lemma sorted_group_in {K A} `{EqDecision K} (key : A -> K) cmp l k g :
  (k, g) ∈ sorted_groups cmp (group_by key l) <-> (exists x, x ∈ l /\ key x = k) /\ g = List.filter (fun x => bool_decide (key x = k)) l.
Proof.
  unfold sorted_groups. rewrite elem_of_py_sorted, <- group_by_mem, <- group_by_get. split.
  - intros H. split; [apply list_elem_of_fmap; by exists (k, g)|].
    apply dict_get_nodup in H; [by rewrite H|apply group_by_keys].
  - intros [H ->]. unfold dict_keys in H. apply list_elem_of_fmap in H as ([k' g'] & -> & H). cbn [fst].
    pose proof (dict_get_nodup _ _ _ (group_by_keys key l) H) as G. by rewrite G.
Qed.

Lemma sorted_group_keys {K A} `{EqDecision K} (key : A -> K) cmp l :
  map fst (sorted_groups cmp (group_by key l)) ≡ₚ remove_dups (map key l).
Proof.
  unfold sorted_groups. rewrite (Permutation_map fst (py_sorted_perm _ _)).
  apply NoDup_Permutation; [apply group_by_keys|apply NoDup_remove_dups|].
  intros k. rewrite elem_of_remove_dups. change (map fst (group_by key l)) with (dict_keys (group_by key l)).
  rewrite group_by_mem, list_elem_of_fmap. split; intros (x & H1 & H2); exists x; auto.
Qed.

Lemma filter_in {A} (p : A -> bool) l x : x ∈ List.filter p l <-> x ∈ l /\ p x = true.
Proof. by rewrite !list_elem_of_In, filter_In. Qed.

Definition row_key (o : RowObservation) : pystr * pystr := (ob_task_id o, ob_candidate_id o).

Lemma row_at_some obs t c o : row_at obs t c = Some o -> o ∈ obs /\ ob_task_id o = t /\ ob_candidate_id o = c.
Proof.
  unfold row_at. intros H. apply dict_of_get in H as (x & Hx & Hk & ->). injection Hk as <- <-. auto.
Qed.

Lemma row_at_own obs o : NoDup (map row_key obs) -> o ∈ obs -> row_at obs (ob_task_id o) (ob_candidate_id o) = Some o.
Proof.
  intros N Ho. unfold row_at. rewrite (dict_of_distinct row_key); [|exact N].
  apply dict_get_nodup; [|by apply list_elem_of_fmap; exists o].
  unfold dict_keys. rewrite <- list_fmap_compose. exact N.
Qed.

(** ** The cheapest candidate *)

#[export] Instance total_cmp_priced : TotalCmp priced_cmp := _.

Lemma priced_le x y : cmp_le priced_cmp x y = true ->
  d_cmp x.1 y.1 = Lt \/ d_cmp x.1 y.1 = Eq /\ str_cmp (candidate_id x.2) (candidate_id y.2) <> Gt.
Proof.
  unfold cmp_le, priced_cmp, lex_cmp, on_key. destruct (d_cmp x.1 y.1); [|by left|done].
  intros L. right. split; [done|]. intros X. by rewrite X in L.
Qed.

(* The cheapest policy chooses the cheapest candidate.  Its decision names a
    candidate of the request; every candidate has a projected cost, and none
    has a smaller one, nor the same one and a smaller identifier. *)
Theorem cheapest_is_cheapest request d : rp_select AlwaysCheapestPolicy request = Ok d ->
  exists c cost, c ∈ candidates request /\ dn_candidate_id d = Some (candidate_id c) /\ dn_task_id d = pr_task_id request /\
    projected_max_cost c (qf_approximate_input_tokens (pr_features request)) = Ok cost /\
    forall c', c' ∈ candidates request -> exists cost',
      projected_max_cost c' (qf_approximate_input_tokens (pr_features request)) = Ok cost' /\
      (d_cmp cost cost' = Lt \/ d_cmp cost cost' = Eq /\ str_cmp (candidate_id c) (candidate_id c') <> Gt).
Proof.
  cbn [rp_select AlwaysCheapestPolicy]. intros H. apply bind_ok in H as (priced & Hp & H).
  destruct priced as [|p rest]; [discriminate H|]. injection H as <-.
  set (best := min_from (cmp_lt priced_cmp) p rest). apply result_map_ok in Hp.
  assert (F : forall x, x ∈ p :: rest -> x.2 ∈ candidates request /\
    projected_max_cost x.2 (qf_approximate_input_tokens (pr_features request)) = Ok x.1).
  { clear -Hp. intros x Hx. induction Hp as [|c y cs ys Hy _ IH]; [by apply elem_of_nil in Hx|].
    apply bind_ok in Hy as (cost & Hc & Hy). injection Hy as <-. apply elem_of_cons in Hx as [->|Hx].
    - split; [apply elem_of_cons; by left|done].
    - destruct (IH Hx). split; [apply elem_of_cons; by right|done]. }
  assert (B : best ∈ p :: rest) by (apply elem_of_cons, min_from_in). destruct (F best B) as [Bc Bk].
  exists best.2, best.1. do 4 (split; [done|]). intros c' Hc'.
  assert (G : exists y, y ∈ p :: rest /\ y.2 = c').
  { clear -Hp Hc'. induction Hp as [|c y cs ys Hy _ IH]; [by apply elem_of_nil in Hc'|].
    apply bind_ok in Hy as (cost & Hc & Hy). injection Hy as <-. apply elem_of_cons in Hc' as [->|Hc'].
    - exists (cost, c). split; [apply elem_of_cons; by left|done].
    - destruct (IH Hc') as (z & Hz & <-). exists z. split; [apply elem_of_cons; by right|done]. }
  destruct G as (y & Hy & <-). exists y.1. split; [by apply F|].
  exact (priced_le best y (min_from_le priced_cmp p rest y Hy)).
Qed.

(** ** Production and offline projections *)

Lemma d_mul_comm prec a b : d_mul prec a b = d_mul prec b a.
Proof. unfold d_mul, d_mul_exact. by rewrite xorb_comm, N.mul_comm, Z.add_comm. Qed.

(** The option of a model for an output limit. *)
Definition option_for (m : ModelConfig) (limit : Z) : CandidateOption :=
  mk_CandidateOption (model_id m) (input_cost_per_1m_tokens m) (output_cost_per_1m_tokens m) limit.

(** The study prices candidates as the gateway does.  For rates and counts whose
    digits fit fifty, the projected maximum cost of the offline policies and
    the projected cost of the pricing module both return and are the same
    amount, which is exact. *)
Theorem offline_projection_agrees m n limit :
  rates_ok m -> (0 <= n)%Z -> (0 <= limit)%Z -> (reserved_digits m n limit <= 50)%Z ->
  exists offline production, projected_max_cost (option_for m limit) n = Ok offline /\
    calculate_projected_cost n limit m = Ok production /\ d_eqb offline production = true /\
    forall e, (e + 6 <= d_exp (input_cost_per_1m_tokens m))%Z -> (e + 6 <= d_exp (output_cost_per_1m_tokens m))%Z ->
      d_scaled offline e = cost_units m n limit e.
Proof.
  intros Hm Hn Hl HR.
  destruct (cost_in_exact 50 n limit m Hm Hn Hl) as (a & Ha & _ & Va); [unfold Emax; lia|].
  destruct (reserved_printable m n limit Hn Hl) as [Pn Pl]; [unfold MAX_STR_DIGITS; lia|].
  destruct (calculate_cost_steps n limit m Hm Hn Hl Pn Pl) as (b & Hb & _ & Vb); [unfold Emax; lia|].
  exists a, b. unfold projected_max_cost, option_for, cost_in in *.
  cbn [co_input_cost_per_1m_tokens co_output_cost_per_1m_tokens co_effective_max_output_tokens].
  rewrite (d_mul_comm 50 (d_of_Z n)), (d_mul_comm 50 (d_of_Z limit)), Ha. split; [done|]. split; [exact Hb|].
  set (e0 := (Z.min (Z.min (d_exp (input_cost_per_1m_tokens m)) (d_exp (output_cost_per_1m_tokens m)) - 6)
                (Z.min (d_exp a) (d_exp b)))%Z).
  split; [|intros e He1 He2; by apply Va].
  destruct (Va e0) as [_ Ea]; [lia|lia|]. destruct (Vb e0) as [_ Eb]; [lia|lia|].
  apply (d_eqb_eq_at a b e0); lia.
Qed.

(** ** The oracle *)

Lemma oracle_min_in best l x : oracle_min best l = Ok x -> x ∈ best :: l.
Proof.
  revert best. induction l as [|o r IH]; intros best H; cbn [oracle_min] in H.
  { injection H as <-. by apply list_elem_of_singleton. }
  apply bind_ok in H as (s & _ & H). apply IH in H. destruct s; set_solver.
Qed.

(** The order of (realized cost, candidate), costs being known. *)
Definition oracle_cmp : RowObservation -> RowObservation -> comparison :=
  lex_cmp (on_key (fun o => default d_zero (realized_cost_usd o)) d_cmp) (on_key ob_candidate_id str_cmp).

#[export] Instance total_cmp_oracle : TotalCmp oracle_cmp := _.

Lemma oracle_min_known best l : (forall o, o ∈ best :: l -> is_some (realized_cost_usd o) = true) ->
  oracle_min best l = Ok (min_from (cmp_lt oracle_cmp) best l).
Proof.
  revert best. induction l as [|o r IH]; intros best K; [done|]. cbn [oracle_min min_from].
  assert (L : oracle_lt o best = Ok (cmp_lt oracle_cmp o best)).
  { pose proof (K o ltac:(set_solver)) as Ko. pose proof (K best ltac:(set_solver)) as Kb.
    unfold oracle_lt, cmp_lt, oracle_cmp, lex_cmp, on_key, d_ltb, d_eqb, cmp_lt.
    destruct (realized_cost_usd o) as [x|]; [|discriminate Ko]. destruct (realized_cost_usd best) as [y|]; [|discriminate Kb].
    cbn [from_option id]. cbv zeta. by destruct (d_cmp x y). }
  rewrite L. rsimpl. apply IH. intros z Hz. apply K. revert Hz. destruct (cmp_lt oracle_cmp o best); set_solver.
Qed.

Lemma result_map_keys {E A B K} (f : A -> result E B) (ka : A -> K) (kb : B -> K) l ys : result_map f l = Ok ys ->
  (forall x y, x ∈ l -> f x = Ok y -> kb y = ka x) -> map kb ys = map ka l.
Proof.
  intros H. apply result_map_ok in H. induction H as [|x y l ys Hx _ IH]; intros K0; [done|]. cbn [map].
  rewrite (K0 x y) by (done || apply elem_of_cons; by left). f_equal. apply IH. intros a b Ha. apply K0. apply elem_of_cons. by right.
Qed.

Lemma result_map_mem {E A B} (f : A -> result E B) l ys y : result_map f l = Ok ys -> y ∈ ys -> exists x, x ∈ l /\ f x = Ok y.
Proof.
  intros H. apply result_map_ok in H. induction H as [|x z l ys Hx _ IH]; intros Hy; [by apply elem_of_nil in Hy|].
  apply elem_of_cons in Hy as [->|Hy]; [exists x; split; [apply elem_of_cons; by left|done]|].
  destruct (IH Hy) as (x' & Hx' & E'). exists x'. split; [apply elem_of_cons; by right|done].
Qed.

Lemma result_map_image {E A B} (f : A -> result E B) l ys x : result_map f l = Ok ys -> x ∈ l -> exists y, y ∈ ys /\ f x = Ok y.
Proof.
  intros H. apply result_map_ok in H. induction H as [|z y l ys Hx _ IH]; intros Hy; [by apply elem_of_nil in Hy|].
  apply elem_of_cons in Hy as [->|Hy]; [exists y; split; [apply elem_of_cons; by left|done]|].
  destruct (IH Hy) as (x' & Hx' & E'). exists x'. split; [apply elem_of_cons; by right|done].
Qed.

(** What the oracle may say of a task: nothing when no row of it is labelled
    acceptable, else an acceptable row no acceptable row is cheaper than. *)
Definition oracle_choice (obs : list RowObservation) (d : RoutingDecision) : Prop :=
  match dn_candidate_id d with
  | None => forall o, o ∈ obs -> ob_task_id o = dn_task_id d -> good_row o = false
  | Some id => exists o cost, o ∈ obs /\ ob_task_id o = dn_task_id d /\ ob_candidate_id o = id /\ good_row o = true /\
      realized_cost_usd o = Some cost /\
      forall o' cost', o' ∈ obs -> ob_task_id o' = dn_task_id d -> good_row o' = true -> realized_cost_usd o' = Some cost' ->
        d_leb cost cost' = true
  end.

Lemma oracle_cmp_le a b x y : cmp_le oracle_cmp a b = true -> realized_cost_usd a = Some x -> realized_cost_usd b = Some y ->
  d_leb x y = true.
Proof.
  unfold cmp_le, oracle_cmp, lex_cmp, on_key, d_leb, cmp_le. intros L Ha Hb. rewrite Ha, Hb in L. cbn [from_option id] in L. by destruct (d_cmp x y).
Qed.

Lemma oracle_decision_choice obs g x : (forall o, o ∈ obs -> is_some (realized_cost_usd o) = true) ->
  g ∈ sorted_groups str_cmp (by_task obs) -> oracle_decision g = Ok x -> oracle_choice obs x.1 /\ dn_task_id x.1 = g.1.
Proof.
  intros K Hg H. destruct g as [t rows]. unfold by_task in Hg. apply sorted_group_in in Hg as [_ ->].
  unfold oracle_decision in H. cbn [fst snd] in H.
  assert (In : forall o, o ∈ List.filter good_row (List.filter (fun x => bool_decide (ob_task_id x = t)) obs) <->
    o ∈ obs /\ ob_task_id o = t /\ good_row o = true).
  { intros o. rewrite !filter_in, bool_decide_eq_true. tauto. }
  destruct (List.filter good_row _) as [|o rest] eqn:F.
  - injection H as <-. split; [|done]. intros o Ho Ht. cbn in Ht. destruct (good_row o) eqn:G; [|done].
    assert (N : o ∈ []) by (apply In; auto). by apply elem_of_nil in N.
  - assert (Ks : forall z, z ∈ o :: rest -> is_some (realized_cost_usd z) = true) by (intros z Hz; apply K; by apply In).
    rewrite (oracle_min_known o rest Ks) in H. rsimpl_in H. injection H as <-. split; [|done].
    set (best := min_from (cmp_lt oracle_cmp) o rest).
    assert (B : best ∈ o :: rest) by (apply elem_of_cons, min_from_in). destruct (proj1 (In best) B) as (B1 & B2 & B3).
    pose proof (Ks best B) as Kb. destruct (realized_cost_usd best) as [cost|] eqn:C; [|discriminate Kb].
    exists best, cost. do 5 (split; [done|]). intros o' cost' Ho' Ht' Hg' Hc'.
    apply (oracle_cmp_le best o'); [|done|done]. apply (min_from_le oracle_cmp o rest). by apply In.
Qed.

Lemma counts_by_state {A} (l : list (A * ObservationState)) :
  (count (fun x => bool_decide (x.2 = OS_none)) l + count (fun x => bool_decide (x.2 = OS_full)) l +
   count (fun x => bool_decide (x.2 = OS_partial)) l)%Z = Z.of_nat (length l).
Proof. unfold count. induction l as [|[a s] l IH]; [done|]. cbn [List.filter snd].
  destruct s; repeat first [rewrite bool_decide_eq_true_2 by done|rewrite bool_decide_eq_false_2 by done];
    cbn [length]; lia.
Qed.

(** The oracle is what its name says.  On observations whose costs are known
    it returns one decision per task, in the order of the tasks: no candidate
    exactly when no row of the task is labelled acceptable, and otherwise a
    candidate with an acceptable row that costs no more than any acceptable
    row of the task.  The three observation states count all tasks. *)
Theorem oracle_is_cheapest_acceptable obs :
  (forall o, o ∈ obs -> is_some (realized_cost_usd o) = true) ->
  exists ds state, oracle_cheapest_acceptable obs = Ok (ds, state) /\
    map dn_task_id ds ≡ₚ remove_dups (map ob_task_id obs) /\
    Forall (oracle_choice obs) ds /\
    (state OS_none + state OS_full + state OS_partial)%Z = Z.of_nat (length ds).
Proof.
  intros K. unfold oracle_cheapest_acceptable.
  destruct (result_map_total oracle_decision (sorted_groups str_cmp (by_task obs))) as [out Hout].
  { intros [t rows] Hg. apply sorted_group_in in Hg as [_ ->]. unfold oracle_decision. cbn [fst snd].
    destruct (List.filter good_row _) as [|o rest] eqn:F; [by eexists|]. rewrite oracle_min_known; [by eexists|].
    intros z Hz. apply K. rewrite <- F in Hz. apply filter_in in Hz as [Hz _]. by apply filter_in in Hz as [Hz _]. }
  rewrite Hout. rsimpl. eexists _, _. split; [done|]. rewrite length_map, counts_by_state. split; [|split; [|done]].
  - rewrite <- (sorted_group_keys ob_task_id str_cmp obs).
    assert (E : map dn_task_id (map fst out) = map fst (sorted_groups str_cmp (by_task obs))); [|by rewrite E].
    rewrite map_map. apply (result_map_keys oracle_decision _ _ _ _ Hout). intros g x Hg Hx.
    by apply (oracle_decision_choice obs g x K).
  - apply Forall_forall. intros d Hd. apply list_elem_of_fmap in Hd as (x & -> & Hx).
    destruct (result_map_mem oracle_decision _ _ x Hout Hx) as (g & Hg & E). by apply (oracle_decision_choice obs g x K).
Qed.

(** ** Evaluations *)

(** The row of a decision that is labelled acceptable. *)
Definition good_join (j : RoutingDecision * option RowObservation) : bool :=
  match j.2 with Some o => good_row o | None => false end.

Lemma count_good joined : count accepted (List.filter is_valid (omap snd joined)) = count good_join joined.
Proof.
  unfold count. induction joined as [|[d [o|]] l IH]; [done| |exact IH].
  cbn [omap list_omap snd List.filter]. unfold good_join at 1. cbn [snd]. unfold good_row.
  destruct (is_valid o); cbn [List.filter andb]; [|exact IH]. destruct (accepted o); cbn [length]; [lia|exact IH].
Qed.

Section Evaluations.
Context {UD : UnicodeData}.

(** What a summary counts, of the joined decisions. *)
Record summarizes (total : Z) (joined : list (RoutingDecision * option RowObservation)) (s : PolicySummary) : Prop := {
  sz_total : ps_total_requests s = total;
  sz_selected : ps_selected_rows s = Z.of_nat (length (omap snd joined));
  sz_valid : ps_valid_selected_labels s = Z.of_nat (length (List.filter is_valid (omap snd joined)));
  sz_missing : ps_missing_selected_labels s = (ps_selected_rows s - ps_valid_selected_labels s)%Z;
  sz_acceptable : ps_acceptable s = count good_join joined;
  sz_unacceptable : ps_unacceptable s = (ps_valid_selected_labels s - ps_acceptable s)%Z;
  sz_distribution : model_distribution total joined = Ok (ps_model_distribution s)
}.

Lemma policy_summary_ok policy total joined s : policy_summary policy total joined = Ok s -> summarizes total joined s.
Proof.
  unfold policy_summary. cbv zeta. intros H.
  do 13 apply bind_ok in H as (? & ? & H). apply bind_ok in H as (dist & Hd & H). injection H as <-.
  constructor; try done. apply count_good.
Qed.

Lemma evaluate_ok obs ds s records : evaluate_decisions obs ds = Ok (s, records) ->
  exists joined, result_map (selected_row obs) (py_sorted (cmp_le decision_cmp) ds) = Ok joined /\
    length joined = length ds /\ Z.of_nat (length ds) = task_count obs /\ NoDup (map dn_task_id ds) /\
    summarizes (task_count obs) joined s /\ records = map (fun j => (j.1, retrospective <$> j.2)) joined.
Proof.
  unfold evaluate_decisions. intros H. apply bind_ok in H as (u & G & H). apply guard_ok in G.
  apply bind_ok in H as (joined & Hj & H). apply bind_ok in H as (s' & Hs & H). injection H as -> <-.
  apply andb_prop in G as [G1 G2]. apply Z.eqb_eq in G1, G2. exists joined. split; [done|].
  pose proof (result_map_ok _ _ _ Hj) as F. apply Forall2_length in F. rewrite length_py_sorted in *.
  split; [done|]. split; [done|]. split; [|split; [by apply policy_summary_ok in Hs|done]].
  assert (N : NoDup (map dn_task_id (py_sorted (cmp_le decision_cmp) ds))).
  { apply all_distinct_true. unfold all_distinct. apply Nat.eqb_eq. rewrite length_map, length_py_sorted. lia. }
  by rewrite (py_sorted_perm (cmp_le decision_cmp) ds) in N.
Qed.

Lemma selected_row_ok obs d j : selected_row obs d = Ok j -> j.1 = d /\
  match dn_candidate_id d, j.2 with
  | None, None => True
  | Some id, Some o => row_at obs (dn_task_id d) id = Some o
  | _, _ => False
  end.
Proof.
  unfold selected_row. destruct (dn_candidate_id d) as [id|]; [|by intros [= <-]].
  destruct (row_at _ _ _) as [o|] eqn:R; [by intros [= <-]|discriminate].
Qed.

(** The tasks an evaluation counts as acceptable. *)
Definition acceptable_tasks (joined : list (RoutingDecision * option RowObservation)) : list pystr :=
  map (fun j => dn_task_id j.1) (List.filter good_join joined).

Definition solvable (obs : list RowObservation) : list pystr :=
  remove_dups (map ob_task_id (List.filter good_row obs)).

Lemma map_filter_NoDup {A B} (f : A -> B) p l : NoDup (map f l) -> NoDup (map f (List.filter p l)).
Proof.
  induction l as [|x l IH]; [constructor|]. cbn [map]. intros N. inversion N as [|? ? N1 N2]; subst.
  cbn [List.filter]. destruct (p x); [|by apply IH]. constructor; [|by apply IH]. intros X. apply N1.
  apply list_elem_of_fmap in X as (y & -> & Hy). apply filter_in in Hy as [Hy _]. by apply list_elem_of_fmap_2.
Qed.

Lemma acceptable_tasks_solvable obs ds joined :
  result_map (selected_row obs) (py_sorted (cmp_le decision_cmp) ds) = Ok joined -> NoDup (map dn_task_id ds) ->
  NoDup (acceptable_tasks joined) /\ acceptable_tasks joined ⊆ solvable obs.
Proof.
  intros Hj N. pose proof (result_map_ok _ _ _ Hj) as F. split.
  - apply map_filter_NoDup.
    assert (E : map (fun j => dn_task_id j.1) joined = map dn_task_id (py_sorted (cmp_le decision_cmp) ds)).
    { apply (result_map_keys (selected_row obs) _ _ _ _ Hj). intros d j _ E. by apply selected_row_ok in E as [-> _]. }
    rewrite E. by rewrite (py_sorted_perm (cmp_le decision_cmp) ds).
  - intros t Ht. apply list_elem_of_fmap in Ht as (j & -> & Hjn). apply filter_in in Hjn as [Hjn G].
    destruct (result_map_mem _ _ _ j Hj Hjn) as (d & _ & E). apply selected_row_ok in E as [-> E].
    unfold good_join in G. destruct j.2 as [o|]; [|discriminate G]. destruct (dn_candidate_id d) as [id|]; [|done].
    apply row_at_some in E as (Ho & <- & _). apply elem_of_remove_dups, list_elem_of_fmap_2, filter_in. done.
Qed.

Lemma length_subseteq {A} (l k : list A) : NoDup l -> l ⊆ k -> length l <= length k.
Proof. intros N S. by apply submseteq_length, NoDup_submseteq. Qed.

Lemma count_length {A B} (f : A -> B) p l : count p l = Z.of_nat (length (map f (List.filter p l))).
Proof. unfold count. by rewrite length_map. Qed.
End Evaluations.

(** C21. The oracle is an upper bound.  On observations with one row per task and
    candidate, no decisions that can be evaluated have more acceptable answers
    than the oracle's: the oracle's are the tasks some row of which is
    labelled acceptable. *)
Theorem oracle_bounds_every_policy `{UD : UnicodeData} obs ds s records ods state os orecords :
  NoDup (map row_key obs) -> evaluate_decisions obs ds = Ok (s, records) ->
  oracle_cheapest_acceptable obs = Ok (ods, state) -> evaluate_decisions obs ods = Ok (os, orecords) ->
  (ps_acceptable s <= ps_acceptable os)%Z /\
  ps_acceptable os = Z.of_nat (length (remove_dups (map ob_task_id (List.filter good_row obs)))).
Proof.
  intros N Hs Ho Hos.
  destruct (evaluate_ok _ _ _ _ Hs) as (j1 & J1 & _ & _ & N1 & S1 & _).
  destruct (evaluate_ok _ _ _ _ Hos) as (j2 & J2 & _ & _ & N2 & S2 & _).
  destruct (acceptable_tasks_solvable _ _ _ J1 N1) as [D1 I1]. destruct (acceptable_tasks_solvable _ _ _ J2 N2) as [D2 I2].
  rewrite (sz_acceptable _ _ _ S1), (sz_acceptable _ _ _ S2), !(count_length (fun j => dn_task_id j.1)).
  fold (acceptable_tasks j1). fold (acceptable_tasks j2). fold (solvable obs).
  assert (I3 : solvable obs ⊆ acceptable_tasks j2).
  { intros t Ht. apply elem_of_remove_dups, list_elem_of_fmap in Ht as (o & -> & Ht). apply filter_in in Ht as [Ho1 Go].
    unfold oracle_cheapest_acceptable in Ho. apply bind_ok in Ho as (out & Hout & E). injection E as <- _.
    assert (G : (ob_task_id o, List.filter (fun x => bool_decide (ob_task_id x = ob_task_id o)) obs)
      ∈ sorted_groups str_cmp (by_task obs)).
    { unfold by_task. apply sorted_group_in. split; [by exists o|done]. }
    destruct (result_map_image _ _ _ _ Hout G) as (x & Hx & E).
    unfold oracle_decision in E. cbn [fst snd] in E. destruct (List.filter good_row _) as [|o1 rest] eqn:F.
    { assert (X : o ∈ []); [rewrite <- F; rewrite !filter_in; by rewrite bool_decide_eq_true_2|by apply elem_of_nil in X]. }
    apply bind_ok in E as (best & Hb & E). injection E as <-. apply oracle_min_in in Hb. rewrite <- F in Hb.
    apply filter_in in Hb as [Hb Gb]. apply filter_in in Hb as [Hb Tb]. apply bool_decide_eq_true in Tb.
    set (d := mk_RoutingDecision _ _ _ _) in Hx.
    assert (Hd : d ∈ py_sorted (cmp_le decision_cmp) (map fst out)).
    { apply elem_of_py_sorted, list_elem_of_fmap. by eexists (d, _). }
    destruct (result_map_image _ _ _ _ J2 Hd) as (j & Hj & Ej).
    unfold selected_row in Ej. cbn [dn_candidate_id dn_task_id d] in Ej. rewrite <- Tb, (row_at_own obs best N Hb) in Ej.
    injection Ej as <-. apply list_elem_of_fmap. eexists. split; [|apply filter_in; split; [exact Hj|exact Gb]]. done. }
  assert (L1 : length (acceptable_tasks j1) <= length (acceptable_tasks j2)).
  { apply length_subseteq; [done|]. by transitivity (solvable obs). }
  split; [lia|]. f_equal. apply Nat.le_antisymm; [by apply length_subseteq|].
  apply length_subseteq; [apply NoDup_remove_dups|done].
Qed.

Lemma length_omap_le {A B} (f : A -> option B) l : length (omap f l) <= length l.
Proof. induction l as [|x l IH]; cbn; [done|]. destruct (f x); cbn; lia. Qed.

Lemma group_lengths {K A} `{EqDecision K} (key : A -> K) cmp l :
  foldr Z.add 0%Z (map (fun g => Z.of_nat (length g.2)) (sorted_groups cmp (group_by key l))) = Z.of_nat (length l).
Proof.
  rewrite <- (Permutation_length (sorted_groups_partition key cmp l)). generalize (sorted_groups cmp (group_by key l)).
  intros d. induction d as [|g d IH]; [done|]. cbn [map foldr List.concat]. rewrite IH, length_app. lia.
Qed.

(** An evaluation accounts for every decision.  A policy is evaluated only on
    one decision for each of as many tasks as the observations have, and its
    records are these decisions in the order of their tasks, each with the row
    of its task and candidate, or none when it chose no candidate.  Labelled and
    unlabelled rows make up the selected ones, acceptable and unacceptable the
    labelled ones, and the distribution over candidates adds up to the tasks. *)
Theorem evaluation_accounts `{UD : UnicodeData} obs ds s records : evaluate_decisions obs ds = Ok (s, records) ->
  map fst records = py_sorted (cmp_le decision_cmp) ds /\ NoDup (map dn_task_id ds) /\
  ps_total_requests s = task_count obs /\ ps_total_requests s = Z.of_nat (length ds) /\
  Forall (fun rec => match dn_candidate_id rec.1, rec.2 with
    | None, None => True
    | Some id, Some re => exists o, o ∈ obs /\ ob_task_id o = dn_task_id rec.1 /\ ob_candidate_id o = id /\ re = retrospective o
    | _, _ => False
    end) records /\
  (ps_valid_selected_labels s + ps_missing_selected_labels s = ps_selected_rows s)%Z /\
  (ps_acceptable s + ps_unacceptable s = ps_valid_selected_labels s)%Z /\
  (0 <= ps_acceptable s <= ps_valid_selected_labels s)%Z /\
  (ps_valid_selected_labels s <= ps_selected_rows s <= ps_total_requests s)%Z /\
  foldr Z.add 0%Z (map (fun d => d.2.1) (ps_model_distribution s)) = ps_total_requests s.
Proof.
  intros H. destruct (evaluate_ok _ _ _ _ H) as (joined & Hj & Hlen & Hc & N & S & ->). destruct S as [S1 S2 S3 S4 S5 S6 S7].
  split; [|split; [done|split; [done|split; [congruence|]]]].
  { rewrite map_map. cbn [fst]. rewrite <- (map_id (py_sorted _ ds)).
    apply (result_map_keys (selected_row obs) (fun d => d) (fun j => j.1) _ _ Hj).
    intros d j _ E. by apply selected_row_ok in E as [-> _]. }
  split.
  { apply Forall_forall. intros rec Hr. apply list_elem_of_fmap in Hr as (j & -> & Hjn). cbn [fst snd].
    destruct (result_map_mem _ _ _ j Hj Hjn) as (d & _ & E). apply selected_row_ok in E as [-> E].
    destruct (dn_candidate_id d), j.2 as [o|]; cbn; try done. apply row_at_some in E as (? & ? & ?). by exists o. }
  assert (V : (0 <= ps_acceptable s <= ps_valid_selected_labels s)%Z).
  { rewrite S5, <- count_good, S3. unfold count. pose proof (List.filter_length_le accepted (List.filter is_valid (omap snd joined))). lia. }
  assert (W : (ps_valid_selected_labels s <= ps_selected_rows s <= ps_total_requests s)%Z).
  { rewrite S1, S2, S3, <- Hc, <- Hlen. pose proof (List.filter_length_le is_valid (omap snd joined)).
    pose proof (length_omap_le snd joined). lia. }
  split; [lia|]. split; [lia|]. split; [done|]. split; [done|].
  unfold model_distribution in S7. rewrite S1, <- Hc, <- Hlen.
  rewrite <- (group_lengths (fun j => match j.2 with Some o => ob_candidate_id o | None => NO_CANDIDATE end) str_cmp joined).
  f_equal. apply (result_map_keys _ _ _ _ _ S7). intros g y _ E. apply bind_ok in E as (share & _ & E). by injection E as <-.
Qed.

(** ** The strongest candidate *)

#[export] Instance total_cmp_strength : TotalCmp strength_cmp := _.

(* The strongest candidate is resolved by the stated ranking.  It is a
    candidate of the observations, all of which have labelled rows, and no
    candidate ranks before it by acceptable rate, mean quality, configured
    price and identifier, in this order. *)
Theorem strongest_is_resolved obs strongest details : resolve_strongest obs = Ok (strongest, details) ->
  map fst details ≡ₚ remove_dups (map ob_candidate_id obs) /\
  (forall id m, (id, m) ∈ details ->
     candidate_metrics (List.filter (fun o => bool_decide (ob_candidate_id o = id)) obs) = Ok m) /\
  exists m, (strongest, m) ∈ details /\ forall x, x ∈ details -> cmp_le strength_cmp (strongest, m) x = true.
Proof.
  unfold resolve_strongest. intros H. apply bind_ok in H as (ds & Hd & H).
  assert (E : map fst ds = map fst (sorted_groups str_cmp (group_by ob_candidate_id obs))).
  { apply (result_map_keys _ _ _ _ _ Hd). intros g y _ E. apply bind_ok in E as (m & _ & E). by injection E as <-. }
  destruct ds as [|x rest]; [discriminate H|]. injection H as <- <-. split; [rewrite E; apply sorted_group_keys|]. split.
  - intros id m Hm. destruct (result_map_mem _ _ _ _ Hd Hm) as ([k rows] & Hg & Ex). apply bind_ok in Ex as (m' & Hm' & Ex).
    cbn [fst snd] in *. injection Ex as <- <-. apply sorted_group_in in Hg as [_ ->]. exact Hm'.
  - set (best := min_from (cmp_lt strength_cmp) x rest). exists best.2. rewrite <- surjective_pairing.
    split; [apply elem_of_cons, min_from_in|]. intros y Hy. by apply (min_from_le strength_cmp).
Qed.

(** ** The frozen data is closed under the policies *)

Lemma observe_ok r o : observe r = Ok o ->
  row_key o = row_pair r /\ realized_cost_usd o = candidate_cost_usd r /\ ob_option o = option_of_row r /\
  candidate_id (ob_option o) = ob_candidate_id o /\ ob_label_status o = label_status r.
Proof.
  unfold observe. cbv zeta. intros H. apply bind_ok in H as (u & _ & H). apply bind_ok in H as (u' & _ & H).
  by injection H as <-.
Qed.

Lemma request_of_ok g r : request_of g = Ok r ->
  pr_task_id r = g.1 /\ length g.2 = 4 /\ map candidate_id (candidates r) ≡ₚ map (fun o => candidate_id (ob_option o)) g.2.
Proof.
  unfold request_of. destruct g.2 as [|o l]; [discriminate|]. intros H. apply bind_ok in H as (u & G & H). apply guard_ok in G.
  apply andb_prop in G as [_ G]. apply Nat.eqb_eq in G. cbv zeta in H. apply bind_ok in H as (u' & _ & H). injection H as <-.
  split; [done|]. split; [done|]. cbn [candidates].
  rewrite (Permutation_map candidate_id (py_sorted_perm (cmp_le option_cmp) (map ob_option (o :: l)))). by rewrite map_map.
Qed.

Lemma four_candidates ids : NoDup ids -> length ids = 4 -> ids ⊆ EXPECTED_CANDIDATES -> ids ≡ₚ EXPECTED_CANDIDATES.
Proof.
  intros N L S. apply submseteq_length_Permutation; [by apply NoDup_submseteq|]. rewrite L. done.
Qed.

Lemma rule_choice_expected f : (rule_choice f).1 ∈ EXPECTED_CANDIDATES.
Proof.
  unfold rule_choice, EXPECTED_CANDIDATES.
  repeat match goal with |- context [if ?c then _ else _] => destruct c end; cbn [fst];
    rewrite !elem_of_cons; auto.
Qed.

(** What the frozen files give. *)
Lemma load_frozen_ok files run_id data : load_frozen_foundation_v3 files run_id = Ok data ->
  exists rows obs, frozen_rows run_id rows = true /\ result_map observe rows = Ok obs /\
    result_map request_of (sorted_groups str_cmp (by_task obs)) = Ok (requests data) /\
    observations data = py_sorted (cmp_le observation_cmp) obs.
Proof.
  unfold load_frozen_foundation_v3. destruct (ff_export files) as [export|]; [|discriminate].
  destruct (ff_manifest files) as [manifest|]; [|discriminate]. intros H.
  do 8 apply bind_ok in H as (? & _ & H). apply bind_ok in H as (rows & _ & H). apply bind_ok in H as (u & G & H). apply guard_ok in G.
  apply bind_ok in H as (obs & Ho & H). apply bind_ok in H as (reqs & Hq & H). injection H as <-. by exists rows, obs.
Qed.

Section Closed.
Context (run_id : uuid) (rows : list RoutingDatasetRow) (obs : list RowObservation).
Context (checked : frozen_rows run_id rows = true) (observed : result_map observe rows = Ok obs).

Lemma frozen_rows_facts : length rows = 224 /\ NoDup (map row_pair rows) /\
  length (remove_dups (map rd_task_id rows)) = 56 /\
  (forall r, r ∈ rows -> internal_id (candidate r) ∈ EXPECTED_CANDIDATES) /\
  (forall r, r ∈ rows -> is_some (candidate_cost_usd r) = true).
Proof.
  pose proof checked as K. unfold frozen_rows in K. rewrite !andb_true_iff in K.
  destruct K as [[[[[A B] [C D]] _] _] H].
  split; [by apply Nat.eqb_eq|]. split; [by apply all_distinct_true|]. split; [by apply Nat.eqb_eq|]. split.
  - intros r Hr. rewrite same_elements_true in D. apply D. apply list_elem_of_fmap. by exists r.
  - intros r Hr. rewrite forallb_forall in H. by apply H, list_elem_of_In.
Qed.

Lemma observed_keys : map row_key obs = map row_pair rows.
Proof. apply (result_map_keys observe _ _ _ _ observed). intros r o _ H. by apply observe_ok in H as [-> _]. Qed.

Lemma observed_tasks : map ob_task_id obs = map rd_task_id rows.
Proof.
  apply (result_map_keys observe _ _ _ _ observed). intros r o _ H. apply observe_ok in H as [H _].
  unfold row_key, row_pair in H. by injection H.
Qed.

Lemma observed_row o : o ∈ obs -> ob_candidate_id o ∈ EXPECTED_CANDIDATES /\ is_some (realized_cost_usd o) = true /\
  candidate_id (ob_option o) = ob_candidate_id o.
Proof.
  intros Ho. destruct frozen_rows_facts as (_ & _ & _ & C & K). destruct (result_map_mem _ _ _ _ observed Ho) as (r & Hr & E).
  apply observe_ok in E as (E1 & E2 & _ & E3 & _). unfold row_key, row_pair in E1. injection E1 as _ E1.
  rewrite E1, E2. split; [by apply C|]. split; [by apply K|congruence].
Qed.

(** The candidates of one task. *)
Lemma task_candidates t r : request_of (t, List.filter (fun o => bool_decide (ob_task_id o = t)) obs) = Ok r ->
  pr_task_id r = t /\ map candidate_id (candidates r) ≡ₚ EXPECTED_CANDIDATES.
Proof.
  intros H. apply request_of_ok in H as (Ht & L & P). cbn [fst snd] in *. split; [done|]. rewrite P.
  set (g := List.filter _ obs) in *. assert (G : forall o, o ∈ g -> o ∈ obs /\ ob_task_id o = t).
  { intros o Ho. apply filter_in in Ho as [Ho T]. by apply bool_decide_eq_true in T. }
  assert (E : map (fun o => candidate_id (ob_option o)) g = map ob_candidate_id g).
  { apply map_ext_in. intros o Ho. apply list_elem_of_In in Ho. by apply observed_row, G. }
  rewrite E. apply four_candidates; [|by rewrite length_map|].
  - assert (N : NoDup (map row_key g)).
    { apply map_filter_NoDup. rewrite observed_keys. apply frozen_rows_facts. }
    clear -N G. induction g as [|o l IH]; [constructor|]. inversion N as [|? ? N1 N2]; subst. constructor.
    + intros X. apply N1. apply list_elem_of_fmap in X as (o' & Eo & Ho'). apply list_elem_of_fmap. exists o'. split; [|done].
      unfold row_key. rewrite <- Eo. f_equal. transitivity t; [|symmetry]; apply G, elem_of_cons; [by left|by right].
    + apply IH; [intros x Hx; apply G, elem_of_cons; by right|done].
  - intros id Hid. apply list_elem_of_fmap in Hid as (o & -> & Ho). by apply observed_row, G.
Qed.
End Closed.

(** Every policy can decide on the frozen data, and be evaluated on it.
    Loaded data hold 56 requests of distinct tasks and 224 observations, one
    per task and candidate, all with their cost.  Each request offers exactly
    the four frozen candidates; so the rules, a fixed candidate and the seeded
    draw return a decision, and whichever of the candidates is decided has its
    observation. *)
Theorem frozen_data_is_closed files run_id data : load_frozen_foundation_v3 files run_id = Ok data ->
  length (requests data) = 56 /\ length (observations data) = 224 /\ task_count (observations data) = 56%Z /\
  NoDup (map pr_task_id (requests data)) /\ NoDup (map row_key (observations data)) /\
  (forall o, o ∈ observations data -> is_some (realized_cost_usd o) = true) /\
  forall r, r ∈ requests data ->
    map candidate_id (candidates r) ≡ₚ EXPECTED_CANDIDATES /\
    (exists d, rp_select RuleBasedV1Policy r = Ok d) /\
    (forall id, id ∈ EXPECTED_CANDIDATES -> (exists d, rp_select (FixedCandidatePolicy id) r = Ok d) /\
       exists o, row_at (observations data) (pr_task_id r) id = Some o) /\
    (forall digest seed bytes, digest (Z_to_str seed ++ py ":" ++ pr_task_id r) = Ok bytes ->
       exists d, rp_select (RandomSeededPolicy digest seed) r = Ok d).
Proof.
  intros H. destruct (load_frozen_ok _ _ _ H) as (rows & obs & C & Hobs & Hreq & Eo). rewrite Eo. clear H Eo.
  destruct (frozen_rows_facts run_id rows C) as (R1 & R2 & R3 & _).
  pose proof (observed_tasks rows obs Hobs) as T. pose proof (observed_keys rows obs Hobs) as K.
  assert (P : py_sorted (cmp_le observation_cmp) obs ≡ₚ obs) by apply py_sorted_perm.
  assert (Tasks : map pr_task_id (requests data) ≡ₚ remove_dups (map rd_task_id rows)).
  { rewrite <- T, <- (sorted_group_keys ob_task_id str_cmp obs).
    rewrite (result_map_keys request_of fst pr_task_id _ _ Hreq); [done|]. intros g r _ E. by apply request_of_ok in E as [-> _]. }
  assert (Keys : NoDup (map row_key (py_sorted (cmp_le observation_cmp) obs))).
  { rewrite (Permutation_map row_key P), K. exact R2. }
  split; [rewrite <- (length_map pr_task_id), (Permutation_length Tasks); exact R3|].
  split. { rewrite (Permutation_length P). pose proof (Forall2_length _ _ _ (result_map_ok _ _ _ Hobs)). lia. }
  split.
  { unfold task_count. transitivity (Z.of_nat 56); [|done]. f_equal. rewrite <- R3, <- T. apply Permutation_length, NoDup_Permutation; [apply NoDup_remove_dups..|].
    intros t. rewrite !elem_of_remove_dups. by rewrite (Permutation_map ob_task_id P). }
  split; [rewrite Tasks; apply NoDup_remove_dups|]. split; [exact Keys|].
  split; [intros o Ho; rewrite P in Ho; by apply (observed_row run_id rows obs C Hobs)|].
  intros r Hr. destruct (result_map_mem _ _ _ _ Hreq Hr) as ([t g] & Hg & E).
  unfold by_task in Hg. apply sorted_group_in in Hg as [_ ->].
  destruct (task_candidates run_id rows obs C Hobs t r E) as [Ht Hc]. pose proof (request_of_ok _ _ E) as (_ & Lg & Pg). cbn [fst snd] in *.
  assert (El : forall id, id ∈ EXPECTED_CANDIDATES -> eligible id r = true).
  { intros id Hid. unfold eligible. apply bool_decide_eq_true. by rewrite Hc. }
  split; [exact Hc|]. split; [|split].
  - cbn [rp_select RuleBasedV1Policy]. pose proof (rule_choice_expected (pr_features r)) as X.
    destruct (rule_choice (pr_features r)) as [id rule]. rewrite (El id X). by eexists.
  - intros id Hid. split; [cbn [rp_select FixedCandidatePolicy]; rewrite (El id Hid); by eexists|].
    rewrite <- Hc, Pg in Hid. apply list_elem_of_fmap in Hid as (o & -> & Ho). apply filter_in in Ho as [Ho To].
    apply bool_decide_eq_true in To. destruct (observed_row run_id rows obs C Hobs o Ho) as (_ & _ & ->).
    exists o. rewrite Ht, <- To. apply row_at_own; [exact Keys|by rewrite P].
  - intros digest seed bytes D. cbn [rp_select RandomSeededPolicy]. cbv zeta. rewrite D. rsimpl.
    set (ids := py_sorted (cmp_le str_cmp) (map candidate_id (candidates r))).
    assert (L : length ids = 4) by (unfold ids; rewrite length_py_sorted; apply Permutation_length in Hc; exact Hc).
    destruct (lookup_lt_is_Some_2 ids (N.to_nat (from_bytes (firstn 8 bytes) mod N.of_nat (length ids)))) as [id Hid].
    { rewrite L. pose proof (N.mod_lt (from_bytes (firstn 8 bytes)) (N.of_nat 4)). lia. }
    rewrite Hid. by eexists.
Qed.

(** ** Examples *)

Definition study_features (category : string) : RequestFeatures := mk_RequestFeatures (Some (py category)) 40 0 10 false false 64 0 0.

Definition study_row (run_id : uuid) (task : pystr) (category : string) (id : pystr) (price : N) (label : option bool) : RoutingDatasetRow :=
  mk_RoutingDatasetRow ROUTING_DATASET_VERSION run_id 0%N (py "r") task (py "d") (py "3") FOUNDATION_V3_SHA256 (study_features category)
    (mk_RoutingCandidateSnapshot id (py "vercel") id (py "p") (py "standard") (py "provider_default") (mk_decimal false price (-2))
       (mk_decimal false (5 * price) (-2)) 1000 [] None)
    64 PO_success None [] None None None f_one (Some (mk_decimal false price (-5)))
    (match label with Some _ => LS_valid | None => LS_missing end) label
    (match label with Some _ => None | None => Some (py "evaluation_incomplete:partial") end)
    (match label with Some b => Some (if b then f_one else f_zero) | None => None end)
    (py "e") (py "1") ES_evaluated false 0 0 f_zero d_zero None [] [].

(** Two tasks, two candidates: both answer the first task, neither the second. *)
Definition study_rows : list RoutingDatasetRow :=
  [study_row 1%N (py "t1") "qa" LUNA 10 (Some true); study_row 1%N (py "t1") "qa" SONNET 200 (Some true);
   study_row 1%N (py "t2") "coding" LUNA 10 (Some false); study_row 1%N (py "t2") "coding" SONNET 200 None].

Definition study_observations : list RowObservation := omap (fun r => match observe r with Ok o => Some o | Raise _ => None end) study_rows.

Definition study_request : PolicyRequest := mk_PolicyRequest (py "t1") (study_features "qa") (map option_of_row (firstn 2 study_rows)).

Lemma cheapest_is_cheapest_witness : exists d,
  rp_select AlwaysCheapestPolicy study_request = Ok d /\ dn_candidate_id d = Some LUNA /\
  exists c cost, c ∈ candidates study_request /\ candidate_id c = LUNA /\
    projected_max_cost c 10 = Ok cost.
Proof.
  assert (V : exists d, rp_select AlwaysCheapestPolicy study_request = Ok d /\ dn_candidate_id d = Some LUNA)
    by (eexists; split; [vm_compute; reflexivity|reflexivity]).
  destruct V as (d & H & L). exists d. split; [exact H|]. split; [exact L|].
  destruct (cheapest_is_cheapest study_request d H) as (c & cost & Hc & Hd & _ & Hp & _).
  exists c, cost. split; [exact Hc|]. split; [congruence|exact Hp].
Defined.

Lemma offline_projection_agrees_witness : exists offline production,
  projected_max_cost (option_for example_model 64) 10 = Ok offline /\
  calculate_projected_cost 10 64 example_model = Ok production /\ d_eqb offline production = true.
Proof.
  destruct (offline_projection_agrees example_model 10 64) as (a & b & Ha & Hb & E & _);
    [split; vm_compute; discriminate|vm_compute; discriminate..|].
  exists a, b. auto.
Defined.

Lemma study_costs o : o ∈ study_observations -> is_some (realized_cost_usd o) = true.
Proof.
  assert (F : forallb (fun o => is_some (realized_cost_usd o)) study_observations = true) by (vm_compute; reflexivity).
  rewrite forallb_forall in F. intros Ho. by apply F, list_elem_of_In.
Qed.

Lemma oracle_is_cheapest_acceptable_witness : exists ds state,
  oracle_cheapest_acceptable study_observations = Ok (ds, state) /\
  map dn_candidate_id ds = [Some LUNA; None] /\ (state OS_none + state OS_full + state OS_partial)%Z = Z.of_nat (length ds).
Proof.
  destruct (oracle_is_cheapest_acceptable study_observations study_costs) as (ds & state & H & _ & _ & S).
  exists ds, state. split; [exact H|]. split; [|exact S].
  assert (V : match oracle_cheapest_acceptable study_observations with Ok (ds, _) => map dn_candidate_id ds | _ => [] end
    = [Some LUNA; None]) by (vm_compute; reflexivity).
  rewrite H in V. exact V.
Defined.

Definition luna_everywhere : list RoutingDecision :=
  [mk_RoutingDecision ALWAYS_STRONGEST (py "t2") (Some LUNA) []; mk_RoutingDecision ALWAYS_STRONGEST (py "t1") (Some LUNA) []].

Lemma evaluation_accounts_witness : exists s records,
  @evaluate_decisions ascii_tables study_observations luna_everywhere = Ok (s, records) /\
  ps_acceptable s = 1%Z /\ ps_total_realized_cost_usd s = py "0.00020" /\
  (ps_acceptable s + ps_unacceptable s = ps_valid_selected_labels s)%Z.
Proof.
  assert (V : exists s records, @evaluate_decisions ascii_tables study_observations luna_everywhere = Ok (s, records) /\
    ps_acceptable s = 1%Z /\ ps_total_realized_cost_usd s = py "0.00020").
  { eexists _, _. split; [vm_compute; reflexivity|]. split; reflexivity. }
  destruct V as (s & records & H & A & C). exists s, records. do 3 (split; [assumption|]).
  by destruct (evaluation_accounts _ _ _ _ H) as (_ & _ & _ & _ & _ & _ & E & _).
Defined.

Lemma oracle_bounds_every_policy_witness : exists s records ods state os orecords,
  @evaluate_decisions ascii_tables study_observations luna_everywhere = Ok (s, records) /\
  oracle_cheapest_acceptable study_observations = Ok (ods, state) /\
  @evaluate_decisions ascii_tables study_observations ods = Ok (os, orecords) /\
  (ps_acceptable s <= ps_acceptable os)%Z.
Proof.
  assert (V : exists s records ods state os orecords,
    @evaluate_decisions ascii_tables study_observations luna_everywhere = Ok (s, records) /\
    oracle_cheapest_acceptable study_observations = Ok (ods, state) /\
    @evaluate_decisions ascii_tables study_observations ods = Ok (os, orecords)).
  { eexists _, _, _, _, _, _. split; [vm_compute; reflexivity|]. split; [vm_compute; reflexivity|vm_compute; reflexivity]. }
  destruct V as (s & records & ods & state & os & orecords & H1 & H2 & H3).
  exists s, records, ods, state, os, orecords. do 3 (split; [assumption|]).
  assert (N : NoDup (map row_key study_observations)) by (apply all_distinct_true; vm_compute; reflexivity).
  apply (oracle_bounds_every_policy study_observations luna_everywhere s records ods state os orecords N H1 H2 H3).
Defined.

Lemma strongest_is_resolved_witness : exists details,
  resolve_strongest study_observations = Ok (SONNET, details) /\ map fst details ≡ₚ [LUNA; SONNET].
Proof.
  assert (V : exists details, resolve_strongest study_observations = Ok (SONNET, details)) by (eexists; vm_compute; reflexivity).
  destruct V as (details & H). exists details. split; [exact H|].
  destruct (strongest_is_resolved _ _ _ H) as (P & _). rewrite P.
  assert (E : remove_dups (map ob_candidate_id study_observations) = [LUNA; SONNET]) by (vm_compute; reflexivity).
  by rewrite E.
Defined.

(** A frozen export of the size the study demands. *)
Definition frozen_example : FrozenFiles :=
  mk_FrozenFiles
    (Some (Ok (PJObj [(py "run_id", PJStr (uuid_str 1)); (py "dataset_sha256", PJStr FOUNDATION_V3_SHA256);
       (py "configuration", PJObj [(py "execution_protocol_sha256", PJStr FOUNDATION_V3_PROTOCOL_SHA256)])])))
    (Some (Ok (List.concat (map (fun n => map (fun c =>
        study_row 1%N (N_to_str (N.of_nat n)) "qa" c 10 (if Nat.ltb n 2 then None else Some true)) EXPECTED_CANDIDATES) (seq 0 56))))).

Lemma frozen_data_is_closed_witness : exists data, load_frozen_foundation_v3 frozen_example 1%N = Ok data /\
  task_count (observations data) = 56%Z.
Proof.
  assert (V : exists data, load_frozen_foundation_v3 frozen_example 1%N = Ok data) by (eexists; vm_compute; reflexivity).
  destruct V as [data H]. exists data. split; [exact H|]. by destruct (frozen_data_is_closed _ _ _ H) as (_ & _ & T & _).
Defined.

(** The evaluation counts the tasks of the decisions and compares numbers only:
    a decision without candidate for a task nobody observed takes the place of
    the decision for a task that was. *)
Lemma unknown_task_is_counted : exists s records,
  @evaluate_decisions ascii_tables study_observations
    [mk_RoutingDecision RULE_BASED_V1 (py "t1") (Some LUNA) []; mk_RoutingDecision RULE_BASED_V1 (py "t9") None []] = Ok (s, records) /\
  ps_total_requests s = 2%Z.
Proof. eexists _, _. split; [vm_compute; reflexivity|reflexivity]. Qed.
