(* ===== verification/MLFeatures.v ===== *)
(** * Feature rows and grouped folds ([routing/ml_features.py])

    The governed predictors of an exported row, and the assignment of the tasks
    to four outer folds that keeps the rows of a task together.  The pipeline of
    scikit-learn that the file configures is not modelled. *)
From S2P Require Import Prelude PyStr PyFloat PyDecimal PyUuid PyNum Schemas Json PyRepr Errors Providers BenchmarkModels Aggregation RoutingExport RoutingAnalysis.

Definition CATEGORICAL_FEATURES : list pystr :=
  map py ["category"; "candidate_id"; "upstream_provider_pin"; "reasoning_effort"]%string.

Definition NUMERIC_FEATURES : list pystr :=
  map py ["prompt_characters"; "approximate_input_tokens"; "requested_max_output_tokens"; "constraint_indicator_count";
          "reasoning_indicator_count"; "configured_input_cost_per_1m_tokens"; "configured_output_cost_per_1m_tokens";
          "context_window"; "effective_max_output_tokens"]%string.

Definition BOOLEAN_FEATURES : list pystr :=
  map py ["contains_code"; "requests_structured_output"; "supports_temperature"]%string.

Definition PREDICTIVE_FEATURES : list pystr := CATEGORICAL_FEATURES ++ NUMERIC_FEATURES ++ BOOLEAN_FEATURES.

Definition FORBIDDEN_PREDICTIVE_FIELDS : list pystr :=
  map py ["acceptable"; "quality_score"; "analysis_difficulty"; "provider_outcome"; "provider_error_category"; "latency_ms";
          "candidate_cost_usd"; "input_tokens"; "output_tokens"; "reasoning_tokens"; "evaluator_name"; "evaluator_version";
          "evaluation_status"; "evaluation_call_made"; "evaluation_input_tokens"; "evaluation_output_tokens";
          "evaluation_latency_ms"; "evaluation_cost_usd"; "task_id"; "request_id"; "benchmark_result_id"; "raw_result_path";
          "evaluation_path"; "missing_label_reason"; "generated_at"; "ground_truth"; "response_text"; "run_id";
          "dataset_sha256"]%string.

Definition OUTER_FOLDS : nat := 4.

(** ** Rows *)

(** [str | float | bool] *)
Inductive feature_value := FV_str (s : pystr) | FV_float (f : float) | FV_bool (b : bool).

Definition feature_dict : Type := list (pystr * feature_value).

Record MLExperimentRow := mk_MLExperimentRow {
  ml_task_id : pystr;
  ml_candidate_id : pystr;
  ml_category : pystr;
  features : feature_dict;
  ml_label_status : LabelStatus;
  ml_acceptable : option bool;
  ml_quality_score : option float;
  ml_analysis_difficulty : option Difficulty;
  ml_realized_cost_usd : option decimal;
  ml_latency_ms : float
}.

Definition feature_is (f : feature_dict) (name : string) (s : pystr) : bool :=
  match dict_get f (py name) with Some (FV_str t) => bool_decide (t = s) | _ => false end.

(** [governed_feature_boundary] *)
Definition governed_feature_boundary (r : MLExperimentRow) : result pystr unit :=
  _ ← check (same_elements (dict_keys (features r)) PREDICTIVE_FEATURES)
        (py "Predictive row must contain exactly the governed feature set");
  _ ← check (forallb (fun k => negb (bool_decide (k ∈ FORBIDDEN_PREDICTIVE_FIELDS))) (dict_keys (features r)))
        (py "Predictive row contains a forbidden leakage field");
  _ ← check (feature_is (features r) "candidate_id" (ml_candidate_id r))
        (py "Candidate predictor must match the row candidate");
  _ ← check (feature_is (features r) "category" (ml_category r))
        (py "Category predictor must match the request category");
  match ml_label_status r with
  | LS_valid => check (is_some (ml_acceptable r)) (py "Valid ML rows require a target")
  | LS_missing => check (negb (is_some (ml_acceptable r))) (py "Missing targets must remain missing")
  end.

Definition MLExperimentRow_validate (r : MLExperimentRow) : result pystr unit :=
  _ ← check (opt_all (fun q => f_leb f_zero q && f_leb q f_one) (ml_quality_score r)) field_error;
  _ ← check (opt_all d_nonneg (ml_realized_cost_usd r) && f_nonneg (ml_latency_ms r)) field_error;
  governed_feature_boundary r.

(** [str] of a feature *)
Definition feature_text (v : feature_value) : pystr :=
  match v with
  | FV_str s => s
  | FV_float f => float_repr f
  | FV_bool b => if b then py "True" else py "False"
  end.

Section Rows.
Context {UD : UnicodeData}.

(** [Decimal(str(self.features[name]))]; the infinities of [Decimal] are not
    modelled, so that an infinite feature is an error here. *)
Definition feature_decimal (r : MLExperimentRow) (name : string) : result exn decimal :=
  match dict_get (features r) (py name) with
  | None => Raise (Exn C_KeyError)
  | Some v => match decimal_of_str (feature_text v) with Some d => Ok d | None => Raise (Exn C_ArithmeticError) end
  end.

(** [MLExperimentRow.projected_cost_usd] *)
Definition projected_cost_usd (r : MLExperimentRow) : result exn decimal :=
  input_tokens ← feature_decimal r "approximate_input_tokens";
  input_cost ← feature_decimal r "configured_input_cost_per_1m_tokens";
  a ← decimal_error (d_mul 50 input_tokens input_cost);
  output_tokens ← feature_decimal r "effective_max_output_tokens";
  output_cost ← feature_decimal r "configured_output_cost_per_1m_tokens";
  b ← decimal_error (d_mul 50 output_tokens output_cost);
  decimal_error (s ← d_add 50 a b; d_div 50 s (d_of_Z 1000000)).
End Rows.

Record MLExperimentDataset := mk_MLExperimentDataset {
  md_run_id : uuid;
  rows : list MLExperimentRow
}.

Record FoldAssignment := mk_FoldAssignment {
  fold : nat;
  task_ids : list pystr;
  category_counts : list (pystr * Z);
  positive_labels : Z;
  negative_labels : Z;
  missing_labels : Z
}.

(** [value or other] *)
Definition or_text (o : option pystr) (other : string) : pystr :=
  match o with Some ((_ :: _) as s) => s | _ => py other end.

Definition row_category (r : RoutingDatasetRow) : pystr := or_text (qf_category (request_features r)) "unknown".

(** [_feature_values] *)
Definition feature_values (r : RoutingDatasetRow) : result exn feature_dict :=
  let f := request_features r in
  let c := candidate r in
  prompt ← f_of_int (qf_prompt_characters f);
  input ← f_of_int (qf_approximate_input_tokens f);
  output ← f_of_int (qf_max_output_tokens f);
  constraints ← f_of_int (qf_constraint_indicator_count f);
  reasoning ← f_of_int (qf_reasoning_indicator_count f);
  window ← f_of_int (rc_context_window c);
  limit ← f_of_int (effective_max_output_tokens r);
  Ok (zip PREDICTIVE_FEATURES
        [FV_str (row_category r); FV_str (internal_id c); FV_str (upstream_provider_pin c);
         FV_str (or_text (rc_reasoning_effort c) "none");
         FV_float prompt; FV_float input; FV_float output; FV_float constraints; FV_float reasoning;
         FV_float (f_of_decimal (rc_input_cost_per_1m_tokens c)); FV_float (f_of_decimal (rc_output_cost_per_1m_tokens c));
         FV_float window; FV_float limit;
         FV_bool (qf_contains_code f); FV_bool (qf_requests_structured_output f);
         FV_bool (Vercel.truthy (dict_get (rc_capabilities c) (py "supports_temperature")))]).

Definition ml_row (r : RoutingDatasetRow) : result exn MLExperimentRow :=
  f ← feature_values r;
  let m := mk_MLExperimentRow (rd_task_id r) (internal_id (candidate r)) (row_category r) f (label_status r) (rd_acceptable r)
             (rd_quality_score r) (analysis_difficulty r) (candidate_cost_usd r) (rd_latency_ms r) in
  _ ← validated (MLExperimentRow_validate m);
  Ok m.

Definition export_cmp : RoutingDatasetRow -> RoutingDatasetRow -> comparison :=
  lex_cmp (on_key rd_task_id str_cmp) (on_key (fun r => internal_id (candidate r)) str_cmp).

Definition ml_row_key (r : MLExperimentRow) : pystr * pystr := (ml_task_id r, ml_candidate_id r).

Definition ml_has_label (s : LabelStatus) (r : MLExperimentRow) : bool := bool_decide (ml_label_status r = s).

(** [load_ml_dataset] *)
Definition load_ml_dataset (files : FrozenFiles) (run_id : uuid) : result exn MLExperimentDataset :=
  frozen ← load_frozen_foundation_v3 files run_id;
  exported ← default (Raise (Exn C_FileNotFoundError)) (ff_export files);
  rows ← result_map ml_row (py_sorted (cmp_le export_cmp) exported);
  _ ← guard_else (Nat.eqb (length rows) 224 && Nat.eqb (length (remove_dups (map ml_row_key rows))) 224) (Exn C_ValueError);
  _ ← guard_else (same_elements (map ml_task_id rows) (map pr_task_id (requests frozen))) (Exn C_ValueError);
  _ ← guard_else ((count (ml_has_label LS_valid) rows =? 216)%Z && (count (ml_has_label LS_missing) rows =? 8)%Z)
        (Exn C_ValueError);
  Ok (mk_MLExperimentDataset run_id rows).

(** ** Outer folds *)

Record Profile := mk_Profile {
  pf_category : pystr;
  positive : Z;
  negative : Z;
  missing : Z
}.

(** A task with its profile. *)
Definition entry : Type := pystr * Profile.

Definition is_target (b : bool) (r : MLExperimentRow) : bool := bool_decide (ml_acceptable r = Some b).

Definition ml_by_task (l : list MLExperimentRow) : list (pystr * list MLExperimentRow) := group_by ml_task_id l.

Definition profile_of (g : pystr * list MLExperimentRow) : result exn entry :=
  match g.2 with
  | [] => Raise (Exn C_ValueError)
  | r :: _ =>
      _ ← guard_else (Nat.eqb (length g.2) 4 && Nat.eqb (length (remove_dups (map ml_category g.2))) 1) (Exn C_ValueError);
      Ok (g.1, mk_Profile (ml_category r) (count (is_target true) g.2) (count (is_target false) g.2)
                 (count (ml_has_label LS_missing) g.2))
  end.

(** The order of (positive, missing, task). *)
Definition entry_cmp : entry -> entry -> comparison :=
  lex_cmp (on_key (fun e => positive e.2) Z.compare)
    (lex_cmp (on_key (fun e => missing e.2) Z.compare) (on_key fst str_cmp)).

Definition pair_total (f : Profile -> Z) (p : entry * entry) : Z := (f p.1.2 + f p.2.2)%Z.

(** The order of (- missing, - positive, pair of tasks). *)
Definition fold_pair_cmp : entry * entry -> entry * entry -> comparison :=
  lex_cmp (on_key (fun p => - pair_total missing p)%Z Z.compare)
    (lex_cmp (on_key (fun p => - pair_total positive p)%Z Z.compare)
       (lex_cmp (on_key (fun p => p.1.1) str_cmp) (on_key (fun p => p.2.1) str_cmp))).

(** What the loop keeps of a fold: [fold_tasks], [fold_positive], [fold_missing]. *)
Record Fold := mk_Fold { fd_tasks : list entry; fd_positive : Z; fd_missing : Z }.

Definition empty_fold : Fold := mk_Fold [] 0 0.

Definition add_pair (p : entry * entry) (f : Fold) : Fold :=
  mk_Fold (fd_tasks f ++ [p.1; p.2]) (fd_positive f + pair_total positive p)%Z (fd_missing f + pair_total missing p)%Z.

(** The order of (missing, positive, index) of the folds. *)
Definition fold_cmp (folds : list Fold) : nat -> nat -> comparison :=
  lex_cmp (on_key (fun i => fd_missing (default empty_fold (folds !! i))) Z.compare)
    (lex_cmp (on_key (fun i => fd_positive (default empty_fold (folds !! i))) Z.compare) (on_key Z.of_nat Z.compare)).

(** The pairs of a category, each to the best fold that is left. *)
Fixpoint assign_pairs (folds : list Fold) (available : list nat) (pairs : list (entry * entry)) : result exn (list Fold) :=
  match pairs with
  | [] => Ok folds
  | p :: pairs =>
      match available with
      | [] => Raise (Exn C_ValueError)
      | i :: rest =>
          let best := min_from (cmp_lt (fold_cmp folds)) i rest in
          assign_pairs (alter (add_pair p) best folds) (List.filter (fun j => negb (Nat.eqb j best)) available) pairs
      end
  end.

(** The strongest task of a category with its weakest, and so on. *)
Definition pairs_of (ts : list entry) : list (entry * entry) := zip (firstn 4 ts) (firstn 4 (rev ts)).

Definition in_category (c : pystr) (e : entry) : bool := bool_decide (pf_category e.2 = c).

Definition assign_category (profiles : list entry) (folds : list Fold) (c : pystr) : result exn (list Fold) :=
  let ts := py_sorted (cmp_le entry_cmp) (List.filter (in_category c) profiles) in
  _ ← guard_else (Nat.eqb (length ts) 8) (Exn C_ValueError);
  assign_pairs folds (seq 0 OUTER_FOLDS) (py_sorted (cmp_le fold_pair_cmp) (pairs_of ts)).

(** The loop over the categories. *)
Fixpoint for_categories (step : list Fold -> pystr -> result exn (list Fold)) (folds : list Fold) (categories : list pystr) :
    result exn (list Fold) :=
  match categories with
  | [] => Ok folds
  | c :: categories => folds ← step folds c; for_categories step folds categories
  end.

Definition assign_categories (profiles : list entry) : list Fold -> list pystr -> result exn (list Fold) :=
  for_categories (assign_category profiles).

Definition categories_of (profiles : list entry) : list pystr :=
  py_sorted (cmp_le str_cmp) (remove_dups (map (fun e => pf_category e.2) profiles)).

Definition profile_sum (f : Profile -> Z) (es : list entry) : Z := foldr Z.add 0%Z (map (fun e => f e.2) es).

Definition assignment_of (i : nat) (f : Fold) : result exn FoldAssignment :=
  let es := fd_tasks f in
  let counts := map (fun g => (g.1, Z.of_nat (length g.2))) (sorted_groups str_cmp (group_by (fun e => pf_category e.2) es)) in
  let a := mk_FoldAssignment i (py_sorted (cmp_le str_cmp) (map fst es)) counts
             (profile_sum positive es) (profile_sum negative es) (profile_sum missing es) in
  _ ← guard_else (Nat.eqb (length (task_ids a)) 14 && same_elements (map snd counts) [2%Z]) (Exn C_ValueError);
  Ok a.

(** [build_outer_folds] *)
Definition build_outer_folds (ds : MLExperimentDataset) : result exn (list FoldAssignment) :=
  profiles ← result_map profile_of (ml_by_task (rows ds));
  folds ← assign_categories profiles (repeat empty_fold OUTER_FOLDS) (categories_of profiles);
  assignments ← result_map (fun p => assignment_of p.1 p.2) (zip (seq 0 OUTER_FOLDS) folds);
  let all_test_tasks := concat (map task_ids assignments) in
  _ ← guard_else (Nat.eqb (length all_test_tasks) 56 && Nat.eqb (length (remove_dups all_test_tasks)) 56) (Exn C_ValueError);
  Ok assignments.

(** [feature_matrix]; a missing feature is a [KeyError]. *)
Definition feature_matrix (rows : list MLExperimentRow) : result exn (list (list feature_value)) :=
  result_map (fun r => result_map (fun name => default (Raise (Exn C_KeyError)) (Ok <$> dict_get (features r) name))
                         PREDICTIVE_FEATURES) rows.

(** ** Lists split by a key *)

Section Partition.
Context {A K : Type} `{EqDecision K} (key : A -> K).

Definition with_key (k : K) (x : A) : bool := bool_decide (key x = k).

Lemma partition_cons x l ks : NoDup ks -> key x ∈ ks ->
  concat (map (fun k => List.filter (with_key k) (x :: l)) ks) ≡ₚ x :: concat (map (fun k => List.filter (with_key k) l) ks).
Proof.
  intros N. induction N as [|k ks Hk N IH]; intros H; [by apply elem_of_nil in H|].
  cbn [map concat]. cbn [List.filter]. unfold with_key at 1 3. case_bool_decide as D.
  - subst k. cbn [app]. constructor. apply Permutation_app_head.
    rewrite (map_ext_in (fun k => List.filter (with_key k) (x :: l)) (fun k => List.filter (with_key k) l)); [done|].
    intros k' Hk'. cbn [List.filter]. unfold with_key at 1. rewrite bool_decide_eq_false_2; [done|]. intros E. apply Hk.
    rewrite E. by apply list_elem_of_In.
  - apply elem_of_cons in H as [H|H]; [congruence|]. cbn [List.filter] in IH. rewrite (IH H). by rewrite Permutation_middle.
Qed.

(** The elements of each key, for all keys, are all elements. *)
Lemma key_partition ks l : NoDup ks -> (forall x, x ∈ l -> key x ∈ ks) ->
  concat (map (fun k => List.filter (with_key k) l) ks) ≡ₚ l.
Proof.
  intros N. induction l as [|x l IH]; intros H.
  - clear H N. induction ks as [|k ks IH]; [done|]. cbn [map List.filter concat app]. exact IH.
  - rewrite partition_cons; [|done|apply H, elem_of_cons; by left].
    f_equiv. apply IH. intros y Hy. apply H, elem_of_cons. by right.
Qed.

Lemma filter_with_key l k : default [] (dict_get (group_by key l) k) = List.filter (with_key k) l.
Proof. apply group_by_get. Qed.

Lemma group_by_in l g : g ∈ group_by key l -> g.2 = List.filter (with_key g.1) l /\ g.2 <> [].
Proof.
  intros H. destruct g as [k v]. assert (G : dict_get (group_by key l) k = Some v).
  { apply dict_get_nodup; [apply group_by_keys|exact H]. }
  pose proof (filter_with_key l k) as F. rewrite G in F. cbn [from_option id fst snd] in *. split; [exact F|].
  assert (M : k ∈ dict_keys (group_by key l)) by (apply list_elem_of_fmap; by exists (k, v)).
  apply group_by_mem in M as (x & Hx & E). intros ->.
  assert (X : x ∈ List.filter (with_key k) l).
  { apply list_elem_of_In, filter_In. split; [by apply list_elem_of_In|by apply bool_decide_eq_true_2]. }
  rewrite <- F in X. by apply elem_of_nil in X.
Qed.
End Partition.

Lemma elem_of_map {A B} (f : A -> B) l y : y ∈ map f l <-> exists x, y = f x /\ x ∈ l.
Proof. exact (list_elem_of_fmap f l y). Qed.

(** Lists without repetitions and with the same elements have one length. *)
Lemma same_length {A} (a b : list A) : NoDup a -> NoDup b -> (forall x, x ∈ a <-> x ∈ b) -> length a = length b.
Proof. intros Na Nb H. apply Permutation_length, NoDup_Permutation; done. Qed.

Lemma remove_dups_distinct {A} `{EqDecision A} (l : list A) : NoDup l -> remove_dups l ≡ₚ l.
Proof. intros N. apply NoDup_Permutation; [apply NoDup_remove_dups|done|]. intros x. apply elem_of_remove_dups. Qed.

Lemma NoDup_remove_one (l : list nat) x : NoDup l -> x ∈ l -> l ≡ₚ x :: List.filter (fun j => negb (Nat.eqb j x)) l.
Proof.
  intros N. induction N as [|y l Hy N IH]; intros H; [by apply elem_of_nil in H|].
  cbn [List.filter]. destruct (Nat.eqb_spec y x) as [->|D]; cbn [negb].
  - f_equiv. rewrite List_filter_all; [done|]. intros z Hz. destruct (Nat.eqb_spec z x) as [->|]; done.
  - apply elem_of_cons in H as [H|H]; [congruence|]. rewrite (IH H) at 1. apply perm_swap.
Qed.

(** ** The loop over pairs and categories *)

Definition both (p : entry * entry) : list entry := [p.1; p.2].

Definition all_tasks (folds : list Fold) : list entry := concat (map fd_tasks folds).

Lemma all_tasks_alter p i folds f : folds !! i = Some f ->
  all_tasks (alter (add_pair p) i folds) ≡ₚ all_tasks folds ++ both p.
Proof.
  revert i. induction folds as [|g folds IH]; intros [|i] H; [discriminate H..| |].
  - cbn. rewrite <- !app_assoc. apply Permutation_app_head, Permutation_app_comm.
  - cbn in H |- *. unfold all_tasks in IH. rewrite (IH i H). by rewrite app_assoc.
Qed.

(** Each fold that is left receives exactly one of the pairs. *)
Lemma assign_pairs_total pairs : forall folds available,
  NoDup available -> length available = length pairs -> (forall i, i ∈ available -> i < length folds) ->
  exists folds', assign_pairs folds available pairs = Ok folds' /\ length folds' = length folds /\
    (forall i, i ∉ available -> folds' !! i = folds !! i) /\
    (forall i f, i ∈ available -> folds !! i = Some f -> exists p, p ∈ pairs /\ folds' !! i = Some (add_pair p f)) /\
    all_tasks folds' ≡ₚ all_tasks folds ++ concat (map both pairs).
Proof.
  induction pairs as [|p pairs IH]; intros folds available N L B.
  - destruct available; [|discriminate L]. exists folds. cbn [map concat]. rewrite app_nil_r.
    do 3 (split; [done|]). split; [|done]. intros i f H. by apply elem_of_nil in H.
  - destruct available as [|i rest]; [discriminate L|]. cbn [assign_pairs].
    set (best := min_from _ i rest). set (left_ := List.filter _ _).
    assert (I : best ∈ i :: rest) by (destruct (min_from_in (cmp_lt (fold_cmp folds)) i rest) as [E|E];
      [unfold best; rewrite E; apply elem_of_cons; by left|apply elem_of_cons; by right]).
    pose proof (NoDup_remove_one _ best N I) as P. fold left_ in P.
    assert (N' : NoDup (best :: left_)) by (by rewrite <- P).
    inversion N' as [|? ? Hb Nl]; subst. destruct (lookup_lt_is_Some_2 folds best (B _ I)) as [fb Fb].
    assert (S : forall j, j ∈ left_ -> j <> best /\ j ∈ i :: rest).
    { intros j Hj. split; [by intros ->|]. rewrite P. apply elem_of_cons. by right. }
    destruct (IH (alter (add_pair p) best folds) left_ Nl) as (folds' & E & Ln & Out & In & Al).
    { apply Permutation_length in P. cbn [length] in P, L |- *. lia. }
    { intros j Hj. rewrite length_alter. apply B. by apply S. }
    exists folds'. split; [exact E|]. split; [by rewrite Ln, length_alter|]. split; [|split].
    + intros j Hj. rewrite Out by (intros X; apply Hj; by apply S). apply list_lookup_alter_ne.
      intros ->. by apply Hj.
    + intros j f Hj Hf. rewrite P in Hj. apply elem_of_cons in Hj as [->|Hj].
      * exists p. split; [apply elem_of_cons; by left|]. rewrite Out by done. rewrite list_lookup_alter_eq. by rewrite Hf.
      * destruct (In j f Hj) as (q & Hq & Eq); [rewrite list_lookup_alter_ne; [done|intros ->; by apply (proj1 (S _ Hj))]|].
        exists q. split; [apply elem_of_cons; by right|exact Eq].
    + rewrite Al, (all_tasks_alter p best folds fb Fb). cbn [map concat]. by rewrite app_assoc.
Qed.

Lemma concat_zip (a b : list entry) : length a = length b -> concat (map both (zip a b)) ≡ₚ a ++ b.
Proof.
  revert b. induction a as [|x a IH]; intros [|y b] L; try discriminate L; [done|].
  cbn [zip zip_with map concat both fst snd app]. rewrite IH by (cbn in L; lia). by rewrite Permutation_middle.
Qed.

Lemma concat_perm {A B} (f : A -> list B) a b : a ≡ₚ b -> concat (map f a) ≡ₚ concat (map f b).
Proof.
  intros P. induction P as [|x a b P IH|x y a|a b c P1 IH1 P2 IH2]; cbn [map concat];
    [done|by rewrite IH|by rewrite !app_assoc, (Permutation_app_comm (f y))|by rewrite IH1].
Qed.

Lemma pairs_of_perm ts : length ts = 8 -> concat (map both (pairs_of ts)) ≡ₚ ts.
Proof.
  intros L. unfold pairs_of.
  rewrite concat_zip by (rewrite !length_take; rewrite length_rev; lia).
  rewrite <- (take_drop 4 ts) at 3. apply Permutation_app_head.
  change (take 4 (rev ts) ≡ₚ drop 4 ts). rewrite <- (take_drop 4 ts) at 1. rewrite rev_app_distr, take_app_length'.
  - symmetry. apply Permutation_rev.
  - rewrite length_rev, length_drop. lia.
Qed.

Lemma pairs_of_in ts p : p ∈ pairs_of ts -> p.1 ∈ ts /\ p.2 ∈ ts.
Proof.
  intros H. destruct p as [a b]. apply list_elem_of_In in H. unfold pairs_of in H. cbn [fst snd]. split.
  - apply in_combine_l in H. apply list_elem_of_In in H. by apply (elem_of_take _ 4) in H as (i & H & _); apply list_elem_of_lookup_2 in H.
  - apply in_combine_r in H. apply list_elem_of_In in H. apply elem_of_take in H as (i & H & _).
    apply list_elem_of_lookup_2 in H. by apply list_elem_of_In, in_rev, list_elem_of_In in H.
Qed.

(** What a fold receives for some categories: [k] tasks of each. *)
Definition balanced (k : nat) (cats : list pystr) (es : list entry) : Prop :=
  length es = k * length cats /\
  (forall e, e ∈ es -> pf_category e.2 ∈ cats) /\
  forall c, c ∈ cats -> length (List.filter (in_category c) es) = k.

Lemma in_category_true c e : in_category c e = true <-> pf_category e.2 = c.
Proof. apply bool_decide_eq_true. Qed.

Lemma assign_category_total profiles folds c : length folds = OUTER_FOLDS ->
  length (List.filter (in_category c) profiles) = 8 ->
  exists folds', assign_category profiles folds c = Ok folds' /\ length folds' = OUTER_FOLDS /\
    (forall i f, folds !! i = Some f -> exists f' es, folds' !! i = Some f' /\ fd_tasks f' = fd_tasks f ++ es /\ balanced 2 [c] es) /\
    all_tasks folds' ≡ₚ all_tasks folds ++ List.filter (in_category c) profiles.
Proof.
  intros Lf L. unfold assign_category. set (ts := py_sorted (cmp_le entry_cmp) _).
  assert (P : ts ≡ₚ List.filter (in_category c) profiles) by apply py_sorted_perm.
  assert (Lt : length ts = 8) by (by rewrite P). rewrite (proj2 (Nat.eqb_eq _ _) Lt). unfold guard_else. rsimpl.
  set (ps := py_sorted (cmp_le fold_pair_cmp) _). assert (Pp : ps ≡ₚ pairs_of ts) by apply py_sorted_perm.
  destruct (assign_pairs_total ps folds (seq 0 OUTER_FOLDS)) as (folds' & E & Ln & _ & In & Al).
  { apply NoDup_ListNoDup, seq_NoDup. }
  { rewrite length_seq, Pp. unfold pairs_of. rewrite length_zip, !length_take, length_rev, Lt. done. }
  { intros i Hi. rewrite Lf. apply list_elem_of_In, in_seq in Hi. lia. }
  exists folds'. split; [exact E|]. split; [by rewrite Ln|]. split.
  - intros i f Hf. assert (Hi : i ∈ seq 0 OUTER_FOLDS).
    { apply list_elem_of_In, in_seq. apply lookup_lt_Some in Hf. lia. }
    destruct (In i f Hi Hf) as (p & Hp & Ep). exists (add_pair p f), (both p). split; [exact Ep|]. split; [done|].
    rewrite Pp in Hp. apply pairs_of_in in Hp as [Ha Hb].
    assert (C : forall e, e ∈ ts -> pf_category e.2 = c).
    { intros e He. rewrite P in He. apply filter_in in He as [_ He]. by apply in_category_true. }
    apply C in Ha, Hb. split; [done|]. split.
    + intros e He. apply list_elem_of_singleton. unfold both in He. set_solver.
    + intros c' Hc. apply list_elem_of_singleton in Hc as ->. unfold both. cbn [List.filter].
      by rewrite (proj2 (in_category_true c p.1) Ha), (proj2 (in_category_true c p.2) Hb).
  - rewrite Al. apply Permutation_app_head. rewrite (concat_perm both _ _ Pp), pairs_of_perm by done. exact P.
Qed.

Lemma balanced_app k cats c es fs : c ∉ cats -> balanced k [c] es -> balanced k cats fs -> balanced k (c :: cats) (es ++ fs).
Proof.
  intros Hc (L1 & I1 & C1) (L2 & I2 & C2).
  assert (Z1 : forall c', c' ∈ cats -> List.filter (in_category c') es = []).
  { intros c' H. apply List_filter_none. intros e He. apply I1, list_elem_of_singleton in He.
    apply not_true_iff_false. rewrite in_category_true. congruence. }
  assert (Z2 : List.filter (in_category c) fs = []).
  { apply List_filter_none. intros e He. apply I2 in He. apply not_true_iff_false. rewrite in_category_true. congruence. }
  split; [rewrite length_app; cbn [length] in *; nia|]. split.
  - intros e He. apply elem_of_app in He as [He|He]; apply elem_of_cons; [left|right; by apply I2].
    apply I1 in He. by apply list_elem_of_singleton.
  - intros c' H. rewrite List.filter_app, length_app. apply elem_of_cons in H as [->|H].
    + rewrite C1 by (by apply list_elem_of_singleton). by rewrite Z2.
    + rewrite Z1 by done. by rewrite C2.
Qed.

(** Every fold has [k] more tasks of the category, all of [part] is assigned. *)
Definition shares (k : nat) (c : pystr) (part : list entry) (folds folds' : list Fold) : Prop :=
  length folds' = length folds /\
  (forall i f, folds !! i = Some f -> exists f' es, folds' !! i = Some f' /\ fd_tasks f' = fd_tasks f ++ es /\ balanced k [c] es) /\
  all_tasks folds' ≡ₚ all_tasks folds ++ part.

Lemma for_categories_total k step part cats : NoDup cats -> forall folds,
  (forall c folds', c ∈ cats -> length folds' = length folds -> exists folds'', step folds' c = Ok folds'' /\ shares k c (part c) folds' folds'') ->
  exists folds', for_categories step folds cats = Ok folds' /\ length folds' = length folds /\
    (forall i f, folds !! i = Some f -> exists f' es, folds' !! i = Some f' /\ fd_tasks f' = fd_tasks f ++ es /\ balanced k cats es) /\
    all_tasks folds' ≡ₚ all_tasks folds ++ concat (map part cats).
Proof.
  intros N. induction N as [|c cats Hc N IH]; intros folds H.
  - exists folds. cbn [for_categories map concat]. rewrite app_nil_r. do 2 (split; [done|]). split; [|done].
    intros i f Hf. exists f, []. rewrite app_nil_r. do 2 (split; [done|]). split; [cbn; lia|].
    split; intros x Hx; by apply elem_of_nil in Hx.
  - cbn [for_categories]. destruct (H c folds) as (f1 & E1 & L1 & I1 & A1); [apply elem_of_cons; by left|done|].
    rewrite E1. rsimpl. destruct (IH f1) as (f2 & E2 & L2 & I2 & A2).
    { intros c' folds' Hc' L. apply H; [apply elem_of_cons; by right|congruence]. }
    exists f2. split; [exact E2|]. split; [congruence|]. split.
    + intros i f Hf. destruct (I1 i f Hf) as (g & es & Hg & Eg & Bg). destruct (I2 i g Hg) as (g' & fs & Hg' & Eg' & Bg').
      exists g', (es ++ fs). split; [done|]. split; [by rewrite Eg', Eg, app_assoc|by apply balanced_app].
    + rewrite A2, A1. cbn [map concat]. by rewrite app_assoc.
Qed.

(** Each category has had its step. *)
Lemma for_categories_each step cats : forall folds folds', for_categories step folds cats = Ok folds' ->
  forall c, c ∈ cats -> exists f1 f2, step f1 c = Ok f2.
Proof.
  induction cats as [|c cats IH]; intros folds folds' H c' Hc; [by apply elem_of_nil in Hc|].
  cbn [for_categories] in H. apply bind_ok in H as (f1 & H1 & H). apply elem_of_cons in Hc as [->|Hc]; [by exists folds, f1|by eapply IH].
Qed.

(** A category without eight tasks is refused. *)
Lemma assign_categories_eight profiles cats folds folds' : assign_categories profiles folds cats = Ok folds' ->
  forall c, c ∈ cats -> length (List.filter (in_category c) profiles) = 8.
Proof.
  intros H c Hc. destruct (for_categories_each _ _ _ _ H c Hc) as (f1 & f2 & S).
  unfold assign_category in S. apply bind_ok in S as (u & G & _). apply guard_ok, Nat.eqb_eq in G. by rewrite length_py_sorted in G.
Qed.

(** ** Profiles *)

Definition of_task (t : pystr) (l : list MLExperimentRow) : list MLExperimentRow := List.filter (with_key ml_task_id t) l.

(** The profile of a task, as the rows give it. *)
Definition profiled (l : list MLExperimentRow) (e : entry) : Prop :=
  length (of_task e.1 l) = 4 /\ (forall r, r ∈ of_task e.1 l -> ml_category r = pf_category e.2) /\
  positive e.2 = count (is_target true) (of_task e.1 l) /\ negative e.2 = count (is_target false) (of_task e.1 l) /\
  missing e.2 = count (ml_has_label LS_missing) (of_task e.1 l).

Lemma one_category (l : list MLExperimentRow) r : r ∈ l -> length (remove_dups (map ml_category l)) = 1 ->
  forall s, s ∈ l -> ml_category s = ml_category r.
Proof.
  intros Hr H s Hs. destruct (remove_dups (map ml_category l)) as [|c [|]] eqn:E; try discriminate H.
  assert (C : forall x, x ∈ l -> ml_category x = c).
  { intros x Hx. apply list_elem_of_singleton. rewrite <- E. apply elem_of_remove_dups, elem_of_map. by exists x. }
  by rewrite (C s Hs), (C r Hr).
Qed.

Lemma one_category_total (l : list MLExperimentRow) r : r ∈ l -> (forall s, s ∈ l -> ml_category s = ml_category r) ->
  length (remove_dups (map ml_category l)) = 1.
Proof.
  intros Hr H. rewrite (same_length _ [ml_category r]); [done|apply NoDup_remove_dups|apply NoDup_singleton|].
  intros c. rewrite elem_of_remove_dups, elem_of_map, list_elem_of_singleton. split; [|intros ->; by exists r].
  intros (s & -> & Hs). by apply H.
Qed.

Lemma profile_of_ok l g e : g ∈ ml_by_task l -> profile_of g = Ok e -> e.1 = g.1 /\ profiled l e.
Proof.
  intros Hg. apply (group_by_in ml_task_id) in Hg as [Eg _]. unfold profile_of. destruct g as [t [|r rest]]; [discriminate|].
  cbn [fst snd] in *. intros H. apply bind_ok in H as (u & G & H). injection H as <-. split; [done|].
  apply guard_ok in G. bools. unfold profiled, of_task. cbn [fst snd pf_category positive negative missing]. rewrite <- Eg.
  split; [done|]. split; [|done]. apply one_category; [apply elem_of_cons; by left|done].
Qed.

Lemma profiles_ok l ps : result_map profile_of (ml_by_task l) = Ok ps ->
  NoDup (map fst ps) /\ (forall t, t ∈ map fst ps <-> t ∈ map ml_task_id l) /\ (forall e, e ∈ ps -> profiled l e).
Proof.
  intros H. apply result_map_ok in H.
  assert (K : map fst ps = dict_keys (ml_by_task l) /\ forall e, e ∈ ps -> profiled l e).
  { enough (forall d, (forall g, g ∈ d -> g ∈ ml_by_task l) -> forall ps, Forall2 (fun g e => profile_of g = Ok e) d ps ->
      map fst ps = dict_keys d /\ forall e, e ∈ ps -> profiled l e) as X by by apply X.
    clear ps H. intros d S. induction d as [|g d IH]; intros ps H.
    - inversion H; subst. split; [done|]. intros e He. by apply elem_of_nil in He.
    - inversion H as [|? e ? es He Hes]; subst. destruct (profile_of_ok l g e (S g (proj2 (elem_of_cons _ _ _) (or_introl eq_refl))) He) as [E P].
      destruct (IH (fun x Hx => S x (proj2 (elem_of_cons _ _ _) (or_intror Hx))) es Hes) as [K Q].
      split; [cbn; unfold dict_keys in K; by rewrite E, K|]. intros x Hx. apply elem_of_cons in Hx as [->|Hx]; [done|by apply Q]. }
  destruct K as [K Q]. rewrite K. split; [apply group_by_keys|]. split; [|exact Q].
  intros t. unfold ml_by_task. rewrite group_by_mem, elem_of_map. split; intros (r & A & B); by exists r.
Qed.

(** Four rows of one category for every task. *)
Definition four_rows (l : list MLExperimentRow) : Prop := forall r, r ∈ l ->
  length (of_task (ml_task_id r) l) = 4 /\ forall s, s ∈ of_task (ml_task_id r) l -> ml_category s = ml_category r.

Lemma profiles_total l : four_rows l -> exists ps, result_map profile_of (ml_by_task l) = Ok ps.
Proof.
  intros F. apply result_map_total. intros g Hg. apply (group_by_in ml_task_id) in Hg as [Eg Ne]. unfold profile_of.
  destruct g as [t [|r rest]]; [done|]. cbn [fst snd] in *.
  assert (Hr : r ∈ of_task t l) by (unfold of_task; rewrite <- Eg; apply elem_of_cons; by left).
  apply filter_in in Hr as [Hr Ht]. apply bool_decide_eq_true in Ht. destruct (F r Hr) as [L C].
  rewrite Ht in L, C. unfold of_task in L, C. rewrite <- Eg in L, C. rewrite (proj2 (Nat.eqb_eq _ _) L).
  rewrite (one_category_total _ r) by (try done; apply elem_of_cons; by left). rsimpl. by eexists.
Qed.

Lemma profiled_four_rows l ps : NoDup (map fst ps) -> (forall t, t ∈ map fst ps <-> t ∈ map ml_task_id l) ->
  (forall e, e ∈ ps -> profiled l e) -> four_rows l.
Proof.
  intros N K P r Hr. assert (T : ml_task_id r ∈ map fst ps) by (apply K, elem_of_map; by exists r).
  apply elem_of_map in T as (e & E & He). destruct (P e He) as (L & C & _). rewrite <- E in L, C. split; [done|].
  intros s Hs. rewrite (C s Hs). symmetry. apply C. apply filter_in. split; [done|by apply bool_decide_eq_true].
Qed.

Section Counted.
Context (l : list MLExperimentRow) (ps : list entry).
Hypothesis (Hn : NoDup (map fst ps)) (Hk : forall t, t ∈ map fst ps <-> t ∈ map ml_task_id l) (Hp : forall e, e ∈ ps -> profiled l e).

Lemma entry_of_row r : r ∈ l -> exists e, e ∈ ps /\ e.1 = ml_task_id r /\ pf_category e.2 = ml_category r.
Proof.
  intros Hr. assert (T : ml_task_id r ∈ map fst ps) by (apply Hk, elem_of_map; by exists r).
  apply elem_of_map in T as (e & E & He). exists e. split; [done|]. split; [done|]. destruct (Hp e He) as (_ & C & _).
  symmetry. apply C, filter_in. split; [done|by apply bool_decide_eq_true].
Qed.

Lemma row_of_entry e : e ∈ ps -> exists r, r ∈ l /\ ml_task_id r = e.1 /\ ml_category r = pf_category e.2.
Proof.
  intros He. assert (T : e.1 ∈ map ml_task_id l) by (apply Hk, elem_of_map; by exists e).
  apply elem_of_map in T as (r & E & Hr). exists r. split; [done|]. split; [done|]. destruct (Hp e He) as (_ & C & _).
  apply C, filter_in. split; [done|by apply bool_decide_eq_true].
Qed.

(** The tasks of a category, counted in the profiles and in the rows. *)
Lemma category_size c : length (List.filter (in_category c) ps) =
  length (remove_dups (map ml_task_id (List.filter (with_key ml_category c) l))).
Proof.
  etransitivity; [symmetry; apply (length_map fst)|]. apply same_length; [|apply NoDup_remove_dups|].
  - clear -Hn. induction ps as [|e es IH]; [constructor|]. cbn [map] in Hn. inversion Hn as [|? ? A B]; subst.
    cbn [List.filter]. destruct (in_category c e); [|by apply IH]. cbn [map]. constructor; [|by apply IH].
    intros X. apply A. apply elem_of_map in X as (y & E & Hy). apply elem_of_map. exists y. split; [done|].
    by apply filter_in in Hy as [Hy _].
  - intros t. rewrite elem_of_remove_dups, !elem_of_map. split.
    + intros (e & -> & He). apply filter_in in He as [He C]. apply in_category_true in C.
      destruct (row_of_entry e He) as (r & Hr & T & Cr). exists r. split; [done|]. apply filter_in.
      split; [done|]. apply bool_decide_eq_true. congruence.
    + intros (r & -> & Hr). apply filter_in in Hr as [Hr C]. apply bool_decide_eq_true in C.
      destruct (entry_of_row r Hr) as (e & He & T & Ce). exists e. split; [done|]. apply filter_in.
      split; [done|]. apply in_category_true. congruence.
Qed.

Lemma categories_of_mem c : c ∈ categories_of ps <-> c ∈ map ml_category l.
Proof.
  unfold categories_of. rewrite elem_of_py_sorted, elem_of_remove_dups, !elem_of_map. split.
  - intros (e & -> & He). destruct (row_of_entry e He) as (r & Hr & _ & Cr). by exists r.
  - intros (r & -> & Hr). destruct (entry_of_row r Hr) as (e & He & _ & Ce). by exists e.
Qed.

Lemma categories_of_distinct : NoDup (categories_of ps).
Proof. unfold categories_of. rewrite py_sorted_perm. apply NoDup_remove_dups. Qed.

Lemma categories_of_length : length (categories_of ps) = length (remove_dups (map ml_category l)).
Proof.
  apply same_length; [exact categories_of_distinct|apply NoDup_remove_dups|]. intros c.
  by rewrite elem_of_remove_dups, categories_of_mem.
Qed.
End Counted.

(** ** Assignments *)

Lemma group_counts k cats es : k <> 0 -> NoDup cats -> balanced k cats es ->
  map (fun g => (g.1, Z.of_nat (length g.2))) (sorted_groups str_cmp (group_by (fun e : entry => pf_category e.2) es)) =
  map (fun c => (c, Z.of_nat k)) (py_sorted (cmp_le str_cmp) cats).
Proof.
  intros Hk N (_ & I & C). set (gs := sorted_groups _ _).
  assert (G : forall g, g ∈ gs -> g.1 ∈ cats /\ length g.2 = k).
  { intros g Hg. unfold gs, sorted_groups in Hg. rewrite elem_of_py_sorted in Hg. apply group_by_in in Hg as [Eg Ne].
    assert (Hc : g.1 ∈ cats).
    { destruct g.2 as [|e rest] eqn:E; [done|]. assert (X : e ∈ e :: rest) by (apply elem_of_cons; by left).
      rewrite Eg in X. apply filter_in in X as [X K]. apply bool_decide_eq_true in K. rewrite <- K. by apply I. }
    split; [done|]. rewrite Eg. exact (C _ Hc). }
  assert (K : map fst gs = py_sorted (cmp_le str_cmp) cats).
  { apply (strongly_sorted_unique str_cmp).
    - apply sorted_groups_keys, _.
    - apply py_sorted_sorted, _.
    - rewrite py_sorted_perm. unfold gs, sorted_groups. rewrite (Permutation_map fst (py_sorted_perm _ _)).
      apply NoDup_Permutation; [apply group_by_keys|done|]. intros c. etransitivity; [apply group_by_mem|]. split.
      + intros (e & He & <-). by apply I.
      + intros Hc. specialize (C c Hc). destruct (List.filter (in_category c) es) as [|e rest] eqn:E; [by rewrite <- C in Hk|].
        assert (X : e ∈ e :: rest) by (apply elem_of_cons; by left). rewrite <- E in X.
        apply filter_in in X as [X Y]. exists e. split; [done|]. by apply in_category_true.
    - intros x y _ _. by apply str_cmp_eq. }
  rewrite <- K, map_map. apply map_ext_in. intros g Hg. apply list_elem_of_In, G in Hg as [_ L]. by rewrite L.
Qed.

Lemma count_concat {A} (p : A -> bool) ls : count p (concat ls) = foldr Z.add 0%Z (map (count p) ls).
Proof. induction ls as [|l ls IH]; [done|]. cbn [concat map foldr]. by rewrite count_app, IH. Qed.

Definition row_in (ts : list pystr) (r : MLExperimentRow) : bool := bool_decide (ml_task_id r ∈ ts).

Lemma of_task_row_in t ts l : t ∈ ts -> of_task t (List.filter (row_in ts) l) = of_task t l.
Proof.
  intros T. unfold of_task. induction l as [|r l IH]; [done|]. cbn [List.filter]. unfold with_key at 2. case_bool_decide as D.
  - unfold row_in at 1. rewrite bool_decide_eq_true_2 by congruence. cbn [List.filter]. unfold with_key at 1.
    rewrite bool_decide_eq_true_2 by done. by rewrite IH.
  - destruct (row_in ts r); [|exact IH]. cbn [List.filter]. unfold with_key at 1. by rewrite bool_decide_eq_false_2 by done.
Qed.

(** A sum over profiles counts the rows of their tasks. *)
Lemma profile_sum_count f p l es : NoDup (map fst es) -> (forall e, e ∈ es -> f e.2 = count p (of_task e.1 l)) ->
  profile_sum f es = count p (List.filter (row_in (map fst es)) l).
Proof.
  intros N H.
  assert (R : forall r, r ∈ List.filter (row_in (map fst es)) l -> ml_task_id r ∈ map fst es).
  { intros r Hr. apply filter_in in Hr as [_ Hr]. by apply bool_decide_eq_true in Hr. }
  rewrite <- (count_perm p _ _ (key_partition ml_task_id _ _ N R)), count_concat. unfold profile_sum. f_equal.
  rewrite !map_map. apply map_ext_in. intros e He. apply list_elem_of_In in He. rewrite (H e He). f_equal. symmetry.
  apply of_task_row_in, elem_of_map. by exists e.
Qed.

(** The fold assignment of balanced tasks. *)
Definition assignment_value (i : nat) (cats : list pystr) (es : list entry) : FoldAssignment :=
  mk_FoldAssignment i (py_sorted (cmp_le str_cmp) (map fst es)) (map (fun c => (c, 2%Z)) (py_sorted (cmp_le str_cmp) cats))
    (profile_sum positive es) (profile_sum negative es) (profile_sum missing es).

Lemma assignment_of_balanced i cats f : NoDup cats -> balanced 2 cats (fd_tasks f) ->
  assignment_of i f = if Nat.eqb (length cats) 7 then Ok (assignment_value i cats (fd_tasks f)) else Raise (Exn C_ValueError).
Proof.
  intros N B. unfold assignment_of. cbv zeta. set (counts := map _ (sorted_groups _ _)).
  assert (E : counts = map (fun c => (c, 2%Z)) (py_sorted (cmp_le str_cmp) cats)) by exact (group_counts 2 cats _ ltac:(done) N B).
  rewrite E. clear counts E. fold (assignment_value i cats (fd_tasks f)).
  assert (L : length (task_ids (assignment_value i cats (fd_tasks f))) = 2 * length cats).
  { cbn [task_ids assignment_value]. rewrite length_py_sorted. etransitivity; [apply (length_map fst)|apply B]. }
  rewrite L.
  destruct (Nat.eqb_spec (length cats) 7) as [E|E].
  - rewrite E. cbn [Nat.mul Nat.add Nat.eqb]. rewrite map_map. cbn [snd].
    replace (same_elements _ [2%Z]) with true; [done|]. symmetry. apply same_elements_true. intros x.
    rewrite list_elem_of_singleton, elem_of_map. split; [by intros (c & -> & _)|]. intros ->.
    destruct cats as [|c cats]; [discriminate E|]. exists c. split; [done|]. rewrite elem_of_py_sorted. apply elem_of_cons. by left.
  - destruct (Nat.eqb_spec (2 * length cats) 14) as [D|D]; [lia|]. done.
Qed.

(** ** The folds of a dataset *)

(** Four rows of one category for every task, seven categories, eight tasks for
    each of them. *)
Definition foldable (l : list MLExperimentRow) : Prop :=
  four_rows l /\ length (remove_dups (map ml_category l)) = 7 /\
  forall c, c ∈ map ml_category l -> length (remove_dups (map ml_task_id (List.filter (with_key ml_category c) l))) = 8.

Lemma result_map_map {E A B} (f : A -> result E B) (g : A -> B) l : (forall x, x ∈ l -> f x = Ok (g x)) ->
  result_map f l = Ok (map g l).
Proof.
  intros H. induction l as [|x l IH]; [done|]. cbn [result_map map]. rewrite H by (apply elem_of_cons; by left).
  by rewrite IH by (intros y Hy; apply H, elem_of_cons; by right).
Qed.

Definition assignments_of (cats : list pystr) (folds : list Fold) : list FoldAssignment :=
  map (fun p => assignment_value p.1 cats (fd_tasks p.2)) (zip (seq 0 OUTER_FOLDS) folds).

Lemma assignments_tasks cats folds : length folds = OUTER_FOLDS ->
  concat (map task_ids (assignments_of cats folds)) ≡ₚ map fst (all_tasks folds).
Proof.
  intros L. unfold assignments_of, all_tasks. rewrite map_map. cbn [task_ids assignment_value].
  assert (G : forall k n, length folds = n -> concat (map (fun p : nat * Fold => py_sorted (cmp_le str_cmp) (map fst (fd_tasks p.2))) (zip (seq k n) folds))
    ≡ₚ map fst (concat (map fd_tasks folds))); [|by apply G].
  clear L. induction folds as [|f folds IH]; intros k [|n] L; try discriminate L; [done|].
  cbn [seq zip zip_with map concat]. rewrite map_app. cbn [snd]. rewrite (IH (S k) n) by (cbn in L; lia).
  by rewrite py_sorted_perm.
Qed.

(** From empty folds, a loop that shares every category shares all entries. *)
Lemma for_categories_of k n step ps :
  (forall c folds, c ∈ categories_of ps -> length folds = n ->
    exists folds', step folds c = Ok folds' /\ shares k c (List.filter (in_category c) ps) folds folds') ->
  exists folds, for_categories step (repeat empty_fold n) (categories_of ps) = Ok folds /\
    length folds = n /\ (forall f, f ∈ folds -> balanced k (categories_of ps) (fd_tasks f)) /\ all_tasks folds ≡ₚ ps.
Proof.
  intros E. destruct (for_categories_total k step (fun c => List.filter (in_category c) ps) (categories_of ps) (categories_of_distinct ps)
    (repeat empty_fold n)) as (folds & H & L & I & A); [by rewrite repeat_length|].
  rewrite repeat_length in L. exists folds. split; [done|]. split; [done|]. split.
  - intros f Hf. apply list_elem_of_lookup in Hf as (i & Hi).
    destruct (lookup_lt_is_Some_2 (repeat empty_fold n) i) as [g Hg].
    { rewrite repeat_length, <- L. by apply lookup_lt_Some in Hi. }
    destruct (I i g Hg) as (f' & es & Hf' & Ef & B). rewrite Hi in Hf'. injection Hf' as <-.
    apply list_elem_of_lookup_2, list_elem_of_In, repeat_spec in Hg as ->. rewrite Ef. exact B.
  - rewrite A. replace (all_tasks (repeat empty_fold n)) with (@nil entry) by (clear; induction n; done).
    apply (key_partition (fun e : entry => pf_category e.2)); [apply categories_of_distinct|].
    intros e He. unfold categories_of. rewrite elem_of_py_sorted, elem_of_remove_dups. apply elem_of_map. by exists e.
Qed.

Lemma folds_of_profiles ps : (forall c, c ∈ categories_of ps -> length (List.filter (in_category c) ps) = 8) ->
  exists folds, assign_categories ps (repeat empty_fold OUTER_FOLDS) (categories_of ps) = Ok folds /\
    length folds = OUTER_FOLDS /\ (forall f, f ∈ folds -> balanced 2 (categories_of ps) (fd_tasks f)) /\ all_tasks folds ≡ₚ ps.
Proof.
  intros E. apply for_categories_of. intros c folds Hc L.
  destruct (assign_category_total ps folds c L (E c Hc)) as (folds' & H & L' & I & A). exists folds'. split; [done|].
  split; [congruence|done].
Qed.

Lemma all_tasks_length k cats folds : (forall f, f ∈ folds -> balanced k cats (fd_tasks f)) ->
  length (all_tasks folds) = length folds * (k * length cats).
Proof.
  unfold all_tasks. induction folds as [|f folds IH]; intros B; [done|]. cbn [map concat length]. rewrite length_app.
  rewrite IH by (intros g Hg; apply B, elem_of_cons; by right). destruct (B f) as [L _]; [apply elem_of_cons; by left|]. rewrite L. lia.
Qed.

(** What the loops leave to the last guards. *)
Lemma build_outer_folds_steps ds ps : result_map profile_of (ml_by_task (rows ds)) = Ok ps -> NoDup (map fst ps) ->
  (forall c, c ∈ categories_of ps -> length (List.filter (in_category c) ps) = 8) ->
  exists folds, length folds = OUTER_FOLDS /\ (forall f, f ∈ folds -> balanced 2 (categories_of ps) (fd_tasks f)) /\
    all_tasks folds ≡ₚ ps /\
    build_outer_folds ds = if Nat.eqb (length (categories_of ps)) 7 then Ok (assignments_of (categories_of ps) folds)
                           else Raise (Exn C_ValueError).
Proof.
  intros Hps N E. destruct (folds_of_profiles ps E) as (folds & H & L & B & A). exists folds. do 3 (split; [done|]).
  unfold build_outer_folds. rewrite Hps. rsimpl. rewrite H. rsimpl. pose proof (categories_of_distinct ps) as D.
  assert (V : forall p, p ∈ zip (seq 0 OUTER_FOLDS) folds -> balanced 2 (categories_of ps) (fd_tasks p.2)).
  { intros [i f] Hp. apply B. apply list_elem_of_In in Hp. apply in_combine_r in Hp. by apply list_elem_of_In. }
  destruct (Nat.eqb_spec (length (categories_of ps)) 7) as [S|S].
  - rewrite (result_map_map _ (fun p => assignment_value p.1 (categories_of ps) (fd_tasks p.2))).
    2:{ intros p Hp. rewrite (assignment_of_balanced _ _ _ D (V p Hp)). by rewrite S. }
    fold (assignments_of (categories_of ps) folds). rsimpl. set (ts := concat _).
    assert (P : ts ≡ₚ map fst ps) by (unfold ts; rewrite (assignments_tasks _ _ L); by apply Permutation_map).
    assert (Lt : length ts = 56).
    { rewrite (Permutation_length P). etransitivity; [apply (length_map fst)|]. transitivity (length (all_tasks folds)).
      - symmetry. by apply Permutation_length.
      - rewrite (all_tasks_length 2 _ _ B). by rewrite L, S. }
    rewrite (remove_dups_distinct ts) by (by rewrite P). by rewrite Lt.
  - destruct folds as [|f folds]; [discriminate L|]. cbn [seq OUTER_FOLDS zip zip_with result_map fst snd].
    rewrite (assignment_of_balanced 0 _ f D) by (apply B, elem_of_cons; by left).
    by rewrite (proj2 (Nat.eqb_neq _ _) S).
Qed.

(** C34. Folds exist for exactly the balanced data: the assignment succeeds if and
    only if every task has four rows of one category, there are seven categories
    and each has eight tasks. *)
Theorem outer_folds_exist ds : (exists fs, build_outer_folds ds = Ok fs) <-> foldable (rows ds).
Proof.
  split.
  - intros [fs H]. pose proof H as B. unfold build_outer_folds in H. apply bind_ok in H as (ps & Hps & H).
    apply bind_ok in H as (folds & Hf & _). destruct (profiles_ok _ _ Hps) as (N & K & P).
    pose proof (assign_categories_eight _ _ _ _ Hf) as E.
    destruct (build_outer_folds_steps ds ps Hps N E) as (folds' & _ & _ & _ & S).
    split; [by apply (profiled_four_rows _ ps)|]. rewrite <- (categories_of_length (rows ds) ps K P). split.
    + destruct (Nat.eqb_spec (length (categories_of ps)) 7) as [L|L]; [done|]. rewrite B in S. discriminate S.
    + intros c Hc. rewrite <- (category_size (rows ds) ps N K P). apply E. by apply (categories_of_mem (rows ds) ps K P).
  - intros (F & S & E). destruct (profiles_total _ F) as [ps Hps]. destruct (profiles_ok _ _ Hps) as (N & K & P).
    rewrite <- (categories_of_length (rows ds) ps K P) in S.
    destruct (build_outer_folds_steps ds ps Hps N) as (folds & _ & _ & _ & B).
    { intros c Hc. rewrite (category_size (rows ds) ps N K P). apply E. by apply (categories_of_mem (rows ds) ps K P) in Hc. }
    rewrite S in B. cbn [Nat.eqb] in B. by eexists.
Qed.

Lemma length_concat_const {A} (ls : list (list A)) n : (forall l, l ∈ ls -> length l = n) -> length (concat ls) = length ls * n.
Proof.
  induction ls as [|l ls IH]; intros H; [done|]. cbn [concat length]. rewrite length_app, IH.
  - rewrite (H l) by (apply elem_of_cons; by left). lia.
  - intros k Hk. apply H, elem_of_cons. by right.
Qed.

Lemma folded_rows ds fs : build_outer_folds ds = Ok fs -> length (rows ds) = 224.
Proof.
  intros H. pose proof H as B. unfold build_outer_folds in H. apply bind_ok in H as (ps & Hps & H).
  apply bind_ok in H as (f0 & Hf & _). destruct (profiles_ok _ _ Hps) as (N & K & P).
  destruct (build_outer_folds_steps ds ps Hps N (assign_categories_eight _ _ _ _ Hf)) as (folds & L & Bal & A & S).
  rewrite B in S. destruct (Nat.eqb_spec (length (categories_of ps)) 7) as [L7|]; [|discriminate S].
  assert (Lp : length (map fst ps) = 56).
  { etransitivity; [apply (length_map fst)|]. transitivity (length (all_tasks folds)); [symmetry; by apply Permutation_length|].
    rewrite (all_tasks_length 2 _ _ Bal). by rewrite L, L7. }
  rewrite <- (key_partition ml_task_id (map fst ps) (rows ds) N) by (intros r Hr; apply K, elem_of_map; by exists r).
  rewrite (length_concat_const _ 4); [by rewrite length_map, Lp|].
  intros g Hg. apply elem_of_map in Hg as (t & -> & Ht). apply elem_of_map in Ht as (e & -> & He). by apply P.
Qed.

(** The rows of the tasks of a fold. *)
Definition fold_rows (a : FoldAssignment) (l : list MLExperimentRow) : list MLExperimentRow := List.filter (row_in (task_ids a)) l.

(** What an assignment says of its fold is what the rows say. *)
Lemma assignment_counts l ps i cats es : (forall e, e ∈ ps -> profiled l e) -> NoDup (map fst es) -> es ⊆ ps ->
  let a := assignment_value i cats es in
  positive_labels a = count (is_target true) (fold_rows a l) /\ negative_labels a = count (is_target false) (fold_rows a l) /\
  missing_labels a = count (ml_has_label LS_missing) (fold_rows a l).
Proof.
  intros P N S. cbv zeta. unfold fold_rows. cbn [positive_labels negative_labels missing_labels task_ids assignment_value].
  assert (R : List.filter (row_in (py_sorted (cmp_le str_cmp) (map fst es))) l = List.filter (row_in (map fst es)) l).
  { apply filter_ext. intros r. apply bool_decide_ext. apply elem_of_py_sorted. }
  rewrite R. split; [|split]; apply profile_sum_count; try done; intros e He; by apply P, S.
Qed.

(** The folds partition the data.  The folds are numbered in order, every
    task is in exactly one, a fold holds fourteen tasks, two of each category,
    and its label counts are those of the rows of its tasks. *)
Theorem outer_folds_partition ds fs : build_outer_folds ds = Ok fs ->
  map fold fs = seq 0 OUTER_FOLDS /\
  concat (map task_ids fs) ≡ₚ remove_dups (map ml_task_id (rows ds)) /\
  forall a, a ∈ fs ->
    length (task_ids a) = 14 /\
    category_counts a = map (fun c => (c, 2%Z)) (py_sorted (cmp_le str_cmp) (remove_dups (map ml_category (rows ds)))) /\
    positive_labels a = count (is_target true) (fold_rows a (rows ds)) /\
    negative_labels a = count (is_target false) (fold_rows a (rows ds)) /\
    missing_labels a = count (ml_has_label LS_missing) (fold_rows a (rows ds)).
Proof.
  intros H. pose proof H as B. unfold build_outer_folds in H. apply bind_ok in H as (ps & Hps & H).
  apply bind_ok in H as (f0 & Hf & _). destruct (profiles_ok _ _ Hps) as (N & K & P).
  destruct (build_outer_folds_steps ds ps Hps N (assign_categories_eight _ _ _ _ Hf)) as (folds & L & Bal & A & S).
  rewrite B in S. destruct (Nat.eqb_spec (length (categories_of ps)) 7) as [L7|]; [|discriminate S]. injection S as ->.
  assert (T : concat (map task_ids (assignments_of (categories_of ps) folds)) ≡ₚ map fst ps).
  { rewrite (assignments_tasks _ _ L). by apply Permutation_map. }
  split; [|split].
  - unfold assignments_of. rewrite map_map. cbn [fold assignment_value]. apply (fst_zip (seq 0 OUTER_FOLDS) folds). by rewrite L.
  - rewrite T. apply NoDup_Permutation; [done|apply NoDup_remove_dups|]. intros t. by rewrite elem_of_remove_dups.
  - intros a Ha. apply elem_of_map in Ha as ([i f] & -> & Hz). cbn [fst snd].
    assert (Hf' : f ∈ folds) by (apply list_elem_of_In in Hz; apply in_combine_r in Hz; by apply list_elem_of_In).
    assert (Sub : fd_tasks f ⊆ ps).
    { intros e He. rewrite <- A. unfold all_tasks. apply list_elem_of_In, in_concat. exists (fd_tasks f).
      split; [apply in_map; by apply list_elem_of_In|by apply list_elem_of_In]. }
    assert (Nf : NoDup (map fst (fd_tasks f))).
    { assert (X : NoDup (map fst (all_tasks folds))) by (rewrite (Permutation_map fst A); exact N).
      clear -Hf' X. unfold all_tasks in X. induction folds as [|g folds IH]; [by apply elem_of_nil in Hf'|].
      cbn [map concat] in X. rewrite map_app in X. apply NoDup_app in X as (X1 & _ & X2).
      apply elem_of_cons in Hf' as [->|Hf']; [done|by apply IH]. }
    split; [|split; [|by apply (assignment_counts _ ps)]].
    + cbn [task_ids assignment_value]. rewrite length_py_sorted. etransitivity; [apply (length_map fst)|].
      etransitivity; [apply (Bal f Hf')|]. by rewrite L7.
    + cbn [category_counts assignment_value]. f_equal. apply (py_sorted_perm_eq str_cmp); [|intros x y _ _; by apply str_cmp_eq].
      apply NoDup_Permutation; [apply categories_of_distinct|apply NoDup_remove_dups|]. intros c.
      rewrite elem_of_remove_dups. exact (categories_of_mem _ _ K P c).
Qed.

(** ** An example: fifty-six tasks of four rows *)

Definition example_features (c candidate : pystr) (price : Z) : feature_dict :=
  zip PREDICTIVE_FEATURES
    ([FV_str c; FV_str candidate; FV_str (py "pin"); FV_str (py "none")] ++
     map (fun z => FV_float (f_of_Z z)) [120; 30; 80; 1; 0; price; 4 * price; 128000; 80]%Z ++
     [FV_bool false; FV_bool true; FV_bool true]).

Definition example_row (c : string) (i : nat) (m : nat) : MLExperimentRow :=
  let t := py c ++ py "-" ++ N_to_str (N.of_nat i) in
  let candidate := N_to_str (N.of_nat m) in
  mk_MLExperimentRow t candidate (py c) (example_features (py c) candidate (Z.of_nat m + 1))
    (if Nat.eqb (i * m) 21 then LS_missing else LS_valid)
    (if Nat.eqb (i * m) 21 then None else Some (Nat.leb m (i / 2))) None None None f_zero.

Definition example_rows : list MLExperimentRow :=
  flat_map (fun c => flat_map (fun i => map (example_row c i) (seq 0 4)) (seq 1 8))
    ["qa"; "coding"; "json"; "reasoning"; "extraction"; "classification"; "summarization"]%string.

Definition example_ml_dataset : MLExperimentDataset := mk_MLExperimentDataset FOUNDATION_V3_RUN_ID example_rows.

Example example_rows_governed : forallb (fun r => is_ok (MLExperimentRow_validate r)) example_rows = true.
Proof. vm_compute. reflexivity. Qed.

Lemma outer_folds_partition_witness : exists fs, build_outer_folds example_ml_dataset = Ok fs /\
  map fold fs = seq 0 OUTER_FOLDS /\ map missing_labels fs = [2; 2; 1; 2]%Z.
Proof.
  assert (V : exists fs, build_outer_folds example_ml_dataset = Ok fs /\ map missing_labels fs = [2; 2; 1; 2]%Z).
  { eexists. split; vm_compute; reflexivity. }
  destruct V as (fs & H & M). exists fs. split; [exact H|]. split; [|exact M].
  exact (proj1 (outer_folds_partition _ _ H)).
Defined.
