(* ===== verification/MLExperiment.v ===== *)
(** * The learned router, out of fold ([routing/ml_experiment.py])

    Predictions for every row from a pipeline that was fitted without the row's
    task, the choice of a candidate from them, and the baselines whose strongest
    candidate is resolved without the task as well.  The pipelines of
    scikit-learn are the class [Pipelines]; the metrics scikit-learn computes,
    the coefficients it reports and the files the experiment writes are not
    modelled. *)
From S2P Require Import Prelude PyStr PyFloat PyDecimal PyUuid PyNum Schemas Json PyRepr Errors Policy PyStats Aggregation RoutingExport RoutingAnalysis MLFeatures.

Definition LOGREG_UNWEIGHTED : pystr := py "LOGREG_UNWEIGHTED".
Definition LOGREG_BALANCED : pystr := py "LOGREG_BALANCED".
Definition FOLD_LOCAL_ALWAYS_STRONGEST : pystr := py "FOLD_LOCAL_ALWAYS_STRONGEST".

(** The variants with their class weights. *)
Definition VARIANTS : list (pystr * option pystr) :=
  [(LOGREG_UNWEIGHTED, None); (LOGREG_BALANCED, Some (py "balanced"))].

(** The thresholds with their texts. *)
Definition THRESHOLDS : list (pystr * float) :=
  [(py "0.50", f_of_ratio 1 2); (py "0.60", f_of_ratio 6 10); (py "0.70", f_of_ratio 7 10);
   (py "0.80", f_of_ratio 8 10); (py "0.90", f_of_ratio 9 10); (py "0.95", f_of_ratio 95 100)].

Definition CALIBRATION_EDGES : list float :=
  [f_zero; f_of_ratio 2 10; f_of_ratio 4 10; f_of_ratio 6 10; f_of_ratio 8 10; f_one].

(** ** Predictions *)

(** [build_pipeline(class_weight).fit(X, y)] and [predict_proba(X)[:, 1]] *)
Class Pipelines := {
  pipeline : Type;
  fit : option pystr -> list (list feature_value) -> list Z -> result exn pipeline;
  predict_proba : pipeline -> list (list feature_value) -> result exn (list float)
}.

Record Prediction := mk_Prediction {
  pn_variant : pystr;
  pn_task_id : pystr;
  pn_candidate_id : pystr;
  pn_fold : nat;
  predicted_probability : float;
  pn_label_status : LabelStatus;
  target : option bool
}.

Record FitAudit := mk_FitAudit {
  fa_fold : nat;
  train_groups : Z;
  test_groups : Z;
  valid_fit_rows : Z;
  missing_rows_excluded_from_fit : Z;
  test_rows_predicted : Z;
  train_task_ids : list pystr;
  test_task_ids : list pystr
}.

Definition ml_valid (r : MLExperimentRow) : bool := ml_has_label LS_valid r.

(** [int(bool(row.acceptable))] *)
Definition label_number (r : MLExperimentRow) : Z := if default false (ml_acceptable r) then 1 else 0.

(** [train_rows_all], [train_rows] and [test_rows] of a fold. *)
Definition train_rows_all (a : FoldAssignment) (l : list MLExperimentRow) : list MLExperimentRow :=
  List.filter (fun r => negb (row_in (task_ids a) r)) l.

Definition train_rows (a : FoldAssignment) (l : list MLExperimentRow) : list MLExperimentRow :=
  List.filter ml_valid (train_rows_all a l).

Definition test_rows (a : FoldAssignment) (l : list MLExperimentRow) : list MLExperimentRow := fold_rows a l.

Definition prediction_of (variant : pystr) (a : FoldAssignment) (r : MLExperimentRow) (p : float) : Prediction :=
  mk_Prediction variant (ml_task_id r) (ml_candidate_id r) (fold a) p (ml_label_status r) (ml_acceptable r).

Definition audit_of (a : FoldAssignment) (l : list MLExperimentRow) : FitAudit :=
  let train_tasks := remove_dups (map ml_task_id (train_rows_all a l)) in
  let test_tasks := remove_dups (task_ids a) in
  mk_FitAudit (fold a) (Z.of_nat (length train_tasks)) (Z.of_nat (length test_tasks)) (Z.of_nat (length (train_rows a l)))
    (Z.of_nat (length (train_rows_all a l)) - Z.of_nat (length (train_rows a l))) (Z.of_nat (length (test_rows a l)))
    (py_sorted (cmp_le str_cmp) train_tasks) (py_sorted (cmp_le str_cmp) test_tasks).

Definition prediction_key (p : Prediction) : pystr * pystr := (pn_task_id p, pn_candidate_id p).

Definition prediction_cmp : Prediction -> Prediction -> comparison :=
  lex_cmp (on_key pn_task_id str_cmp) (on_key pn_candidate_id str_cmp).

(** [task_to_fold] *)
Definition task_to_fold (folds : list FoldAssignment) : list (pystr * nat) :=
  dict_of fst snd (flat_map (fun a => map (fun t => (t, fold a)) (task_ids a)) folds).

Section Predict.
Context {PL : Pipelines}.

(** The pipeline of a fold: fitted on the valid rows of the other tasks. *)
Definition fitted (weight : option pystr) (l : list MLExperimentRow) (a : FoldAssignment) : result exn pipeline :=
  X ← feature_matrix (train_rows a l);
  fit weight X (map label_number (train_rows a l)).

(** One round of the loop over the folds. *)
Definition fold_predictions (v : pystr * option pystr) (l : list MLExperimentRow) (a : FoldAssignment) :
    result exn (list Prediction * FitAudit) :=
  _ ← guard_else (forallb (fun r => negb (row_in (task_ids a) r)) (train_rows_all a l)) (Exn C_ValueError);
  m ← fitted v.2 l a;
  X ← feature_matrix (test_rows a l);
  probabilities ← predict_proba m X;
  Ok (map (fun rp => prediction_of v.1 a rp.1 rp.2) (zip (test_rows a l) probabilities), audit_of a l).

Definition variant_predictions (l : list MLExperimentRow) (folds : list FoldAssignment) (v : pystr * option pystr) :
    result exn (list Prediction * (pystr * list FitAudit)) :=
  out ← result_map (fold_predictions v l) folds;
  let records := py_sorted (cmp_le prediction_cmp) (concat (map fst out)) in
  _ ← guard_else (Nat.eqb (length records) 224 && Nat.eqb (length (remove_dups (map prediction_key records))) 224)
        (Exn C_ValueError);
  _ ← guard_else (forallb (fun p => bool_decide (dict_get (task_to_fold folds) (pn_task_id p) = Some (pn_fold p))) records)
        (Exn C_ValueError);
  Ok (records, (v.1, map snd out)).

(** [generate_oof_predictions] *)
Definition generate_oof_predictions (ds : MLExperimentDataset) :
    result exn (list Prediction * list (pystr * list FitAudit) * list FoldAssignment) :=
  folds ← build_outer_folds ds;
  out ← result_map (variant_predictions (rows ds) folds) VARIANTS;
  Ok (concat (map fst out), map snd out, folds).
End Predict.

(** ** Calibration *)

Record Bin := mk_Bin {
  lower : float;
  upper : float;
  bin_count : Z;
  mean_predicted_probability : option float;
  observed_positive_rate : option float
}.

Definition pn_valid (p : Prediction) : bool := bool_decide (pn_label_status p = LS_valid).

(** The last bin holds its upper edge too. *)
Definition in_bin (last : bool) (lo hi : float) (p : Prediction) : bool :=
  f_leb lo (predicted_probability p) &&
  (if last then f_leb (predicted_probability p) hi else f_ltb (predicted_probability p) hi).

(** [float(bool(item["target"]))] *)
Definition target_float (p : Prediction) : float := if default false (target p) then f_one else f_zero.

Definition bin_of (last : bool) (lo hi : float) (valid : list Prediction) : result exn Bin :=
  let members := List.filter (in_bin last lo hi) valid in
  mean ← unless_empty fmean (map predicted_probability members);
  rate ← unless_empty fmean (map target_float members);
  Ok (mk_Bin lo hi (Z.of_nat (length members)) mean rate).

Fixpoint bins_from (edges : list float) (valid : list Prediction) : result exn (list Bin) :=
  match edges with
  | lo :: ((hi :: rest) as edges') =>
      b ← bin_of (match rest with [] => true | _ => false end) lo hi valid;
      bs ← bins_from edges' valid;
      Ok (b :: bs)
  | _ => Ok []
  end.

(** [_calibration] *)
Definition calibration (records : list Prediction) : result exn (list Bin) :=
  bins_from CALIBRATION_EDGES (List.filter pn_valid records).

(** ** Cost-aware selection *)

Section Select.
Context {UD : UnicodeData}.

Definition row_index (ds : MLExperimentDataset) : list ((pystr * pystr) * MLExperimentRow) :=
  dict_of ml_row_key (fun r => r) (rows ds).

(** [row_index[(task_id, candidate_id)].projected_cost_usd] *)
Definition indexed_cost (index : list ((pystr * pystr) * MLExperimentRow)) (task candidate : pystr) : result exn decimal :=
  match dict_get index (task, candidate) with
  | Some r => projected_cost_usd r
  | None => Raise (Exn C_KeyError)
  end.

(** A prediction with its projected cost, as the production policy sees it. *)
Definition as_candidate (pc : Prediction * decimal) : CandidatePrediction :=
  mk_CandidatePrediction (pn_candidate_id pc.1) (predicted_probability pc.1) pc.2.

Definition priced (task : pystr) (index : list ((pystr * pystr) * MLExperimentRow)) (p : Prediction) :
    result exn (Prediction * decimal) :=
  cost ← indexed_cost index task (pn_candidate_id p); Ok (p, cost).

Definition meets (threshold : float) (p : Prediction) : bool := f_leb threshold (predicted_probability p).

(** [select_cost_aware_candidate]; the keys of the two [min] calls are those of
    the production policy. *)
Definition select_cost_aware_candidate (task : pystr) (candidates : list Prediction)
    (index : list ((pystr * pystr) * MLExperimentRow)) (threshold : float) : result exn (Prediction * bool) :=
  match List.filter (meets threshold) candidates with
  | q :: qs =>
      keyed ← result_map (priced task index) (q :: qs);
      match keyed with
      | k :: ks => Ok ((min_from (fun a b => cost_key_lt (as_candidate a) (as_candidate b)) k ks).1, false)
      | [] => Raise (Exn C_ValueError)
      end
  | [] =>
      keyed ← result_map (priced task index) candidates;
      match keyed with
      | k :: ks => Ok ((min_from (fun a b => fallback_key_lt (as_candidate a) (as_candidate b)) k ks).1, true)
      | [] => Raise (Exn C_ValueError)
      end
  end.

(** ** Sensitivity to the threshold *)

Record Selection := mk_Selection {
  se_task_id : pystr;
  se_candidate_id : pystr;
  se_predicted_probability : float;
  se_projected_cost_usd : pystr;
  se_fallback_used : bool
}.

(** The selection of one task with its predictions. *)
Definition select_task (ds : MLExperimentDataset) (threshold : float) (g : pystr * list Prediction) : result exn Selection :=
  '(selected, fallback) ← select_cost_aware_candidate g.1 g.2 (row_index ds) threshold;
  cost ← indexed_cost (row_index ds) g.1 (pn_candidate_id selected);
  Ok (mk_Selection g.1 (pn_candidate_id selected) (predicted_probability selected) (d_str cost) fallback).

Definition selection_decision (policy : pystr) (above fallback : pystr) (s : Selection) : RoutingDecision :=
  mk_RoutingDecision policy (se_task_id s) (Some (se_candidate_id s)) (if se_fallback_used s then fallback else above).

Record Sensitivity := mk_Sensitivity {
  sy_summary : PolicySummary;
  sy_threshold : float;
  sy_fallback_count : Z;
  sy_fallback_rate : float;
  sy_cost_reduction_vs_fold_local_strongest : float;
  sy_selections : list (Selection * LabelStatus)
}.

(** One threshold of one variant in [routing_sensitivity]. *)
Definition sensitivity_at (ds : MLExperimentDataset) (obs : list RowObservation) (reference_cost : decimal)
    (predictions : list Prediction) (variant : pystr) (threshold : pystr * float) : result exn Sensitivity :=
  selections ← result_map (fun g =>
      s ← select_task ds threshold.2 g;
      match row_at obs (se_task_id s) (se_candidate_id s) with
      | Some o => Ok (s, ob_label_status o)
      | None => Raise (Exn C_KeyError)
      end) (sorted_groups str_cmp (group_by pn_task_id predictions));
  '(summary, _) ← evaluate_decisions obs
    (map (fun s => selection_decision (variant ++ py "@" ++ threshold.1) (py "lowest projected cost above threshold")
                     (py "highest predicted probability fallback") s.1) selections);
  let fallbacks := count (fun s => se_fallback_used s.1) selections in
  selected_cost ← cost_of summary;
  saved ← reduction reference_cost selected_cost;
  Ok (mk_Sensitivity summary threshold.2 fallbacks (ratio fallbacks 56) saved selections).

(** The strongest candidate of each fold, from the labels of the other folds. *)
Definition fold_local_strongest (obs : list RowObservation) (a : FoldAssignment) :
    result exn (pystr * list (pystr * CandidateMetrics)) :=
  resolve_strongest (List.filter (fun o => negb (bool_decide (ob_task_id o ∈ task_ids a))) obs).

Definition strongest_decision (candidate task : pystr) : RoutingDecision :=
  mk_RoutingDecision FOLD_LOCAL_ALWAYS_STRONGEST task (Some candidate)
    (py "strongest candidate resolved from outer-training labels only").

(** [fold_local_strongest_decisions] *)
Definition fold_local_strongest_decisions (obs : list RowObservation) (folds : list FoldAssignment) :
    result exn (list RoutingDecision * list (nat * (pystr * list (pystr * CandidateMetrics)))) :=
  resolved ← result_map (fun a => s ← fold_local_strongest obs a; Ok (a, s)) folds;
  Ok (flat_map (fun r => map (strongest_decision r.2.1) (task_ids r.1)) resolved, map (fun r => (fold r.1, r.2)) resolved).

Record Baselines := mk_Baselines {
  request_count : Z;
  full_data_strongest : pystr;
  fold_local_resolution : list (nat * (pystr * list (pystr * CandidateMetrics)));
  oracle_observation_state : ObservationState -> Z;
  baseline_policies : list (pystr * PolicySummary)
}.

(** [_baseline_evaluation] *)
Definition baseline_evaluation (digest : pystr -> result exn (list N)) (frozen : FrozenRoutingData) (folds : list FoldAssignment) :
    result exn Baselines :=
  '(strongest, _) ← resolve_strongest (observations frozen);
  evaluated ← result_map (evaluate_policy frozen) (baselines digest strongest);
  '(oracle, oracle_state) ← oracle_cheapest_acceptable (observations frozen);
  '(oracle_summary, _) ← evaluate_decisions (observations frozen) oracle;
  '(decisions, resolved) ← fold_local_strongest_decisions (observations frozen) folds;
  '(fold_summary, _) ← evaluate_decisions (observations frozen) decisions;
  Ok (mk_Baselines (Z.of_nat (length (remove_dups (map pr_task_id (requests frozen))))) strongest resolved oracle_state
        (dict_set (dict_set (dict_of (fun x => x.1.1) (fun x => x.1.2) evaluated) ORACLE_CHEAPEST_ACCEPTABLE oracle_summary)
           FOLD_LOCAL_ALWAYS_STRONGEST fold_summary)).

(** [routing_sensitivity] *)
Definition routing_sensitivity (frozen : FrozenRoutingData) (ds : MLExperimentDataset) (records : list Prediction) (b : Baselines) :
    result exn (list (pystr * list (pystr * Sensitivity))) :=
  match dict_get (baseline_policies b) FOLD_LOCAL_ALWAYS_STRONGEST with
  | None => Raise (Exn C_KeyError)
  | Some reference =>
      reference_cost ← cost_of reference;
      result_map (fun v =>
        let predictions := List.filter (fun p => bool_decide (pn_variant p = v.1)) records in
        results ← result_map (fun t => s ← sensitivity_at ds (observations frozen) reference_cost predictions v.1 t; Ok (t.1, s))
                    THRESHOLDS;
        Ok (v.1, results)) VARIANTS
  end.

Record Experiment := mk_Experiment {
  ex_predictions : list Prediction;
  ex_audit : list (pystr * list FitAudit);
  ex_folds : list FoldAssignment;
  ex_calibration : list (pystr * list Bin);
  ex_baselines : Baselines;
  ex_sensitivity : list (pystr * list (pystr * Sensitivity))
}.

(** [run_experiment], after the check of the design file and up to the metrics
    and files. *)
Definition run_experiment {PL : Pipelines} (digest : pystr -> result exn (list N)) (files : FrozenFiles) (run_id : uuid) :
    result exn Experiment :=
  ds ← load_ml_dataset files run_id;
  '(records, audit, folds) ← generate_oof_predictions ds;
  calibrations ← result_map (fun v =>
    bins ← calibration (List.filter (fun p => bool_decide (pn_variant p = v.1)) records); Ok (v.1, bins)) VARIANTS;
  frozen ← load_frozen_foundation_v3 files run_id;
  b ← baseline_evaluation digest frozen folds;
  s ← routing_sensitivity frozen ds records b;
  Ok (mk_Experiment records audit folds calibrations b s).
End Select.

(** ** Predictions do not see the outcomes they predict *)

(** Two rows that may differ in their outcome, if their task is in the fold. *)
Definition same_inputs (r r' : MLExperimentRow) : Prop :=
  ml_task_id r = ml_task_id r' /\ ml_candidate_id r = ml_candidate_id r' /\ features r = features r'.

Definition unseen (a : FoldAssignment) (r r' : MLExperimentRow) : Prop :=
  r = r' \/ row_in (task_ids a) r = true /\ same_inputs r r'.

(** A prediction without the outcome it is compared with. *)
Definition forecast (p : Prediction) : pystr * pystr * nat * float :=
  (pn_task_id p, pn_candidate_id p, pn_fold p, predicted_probability p).

Lemma unseen_row_in a r r' : unseen a r r' -> row_in (task_ids a) r = row_in (task_ids a) r'.
Proof. intros [->|(_ & E & _)]; [done|]. unfold row_in. by rewrite E. Qed.

Lemma unseen_train a l l' : Forall2 (unseen a) l l' -> train_rows_all a l = train_rows_all a l'.
Proof.
  intros F. induction F as [|r r' l l' H _ IH]; [done|]. unfold train_rows_all in *. cbn [List.filter].
  rewrite <- (unseen_row_in _ _ _ H). destruct H as [->|(R & _)]; [by destruct (negb _); rewrite IH|]. by rewrite R.
Qed.

Lemma unseen_test a l l' : Forall2 (unseen a) l l' -> Forall2 same_inputs (test_rows a l) (test_rows a l').
Proof.
  intros F. induction F as [|r r' l l' H _ IH]; [constructor|]. unfold test_rows, fold_rows in *. cbn [List.filter].
  rewrite <- (unseen_row_in _ _ _ H). destruct (row_in _ r); [|exact IH]. constructor; [|exact IH].
  by destruct H as [->|(_ & S)].
Qed.

Lemma feature_matrix_inputs l l' : Forall2 same_inputs l l' -> feature_matrix l = feature_matrix l'.
Proof.
  intros F. unfold feature_matrix. induction F as [|r r' l l' (_ & _ & H) _ IH]; [done|]. cbn [result_map]. by rewrite H, IH.
Qed.

Lemma forecasts_same v a l l' ps : Forall2 same_inputs l l' ->
  map forecast (map (fun rp => prediction_of v a rp.1 rp.2) (zip l ps)) =
  map forecast (map (fun rp => prediction_of v a rp.1 rp.2) (zip l' ps)).
Proof.
  intros F. revert ps. induction F as [|r r' l l' (T & C & _) _ IH]; intros [|p ps]; try done.
  cbn [zip zip_with map]. rewrite IH. unfold forecast at 1 3. cbn. by rewrite T, C.
Qed.

(** Outcomes do not leak.  Whatever happens to the labels, qualities, costs and
    latencies of the rows of a fold's tasks, the fold's predictions stay the
    same, and so do its errors: they come from a pipeline that was fitted on
    other tasks, applied to the governed features. *)
Theorem outcomes_do_not_leak `{PL : Pipelines} v a l l' : Forall2 (unseen a) l l' ->
  match fold_predictions v l a, fold_predictions v l' a with
  | Ok (ps, _), Ok (ps', _) => map forecast ps = map forecast ps'
  | Raise e, Raise e' => e = e'
  | _, _ => False
  end.
Proof.
  intros F. pose proof (unseen_train _ _ _ F) as T. pose proof (unseen_test _ _ _ F) as S.
  unfold fold_predictions, fitted, train_rows. rewrite <- T, <- (feature_matrix_inputs _ _ S).
  destruct (guard_else _ _) as [u|e]; rsimpl; [|done]. destruct (feature_matrix (List.filter _ _)) as [X|e]; rsimpl; [|done].
  destruct (fit _ _ _) as [m|e]; rsimpl; [|done]. destruct (feature_matrix (test_rows a l)) as [Xt|e]; rsimpl; [|done].
  destruct (predict_proba m Xt) as [ps|e]; rsimpl; [|done]. by apply forecasts_same.
Qed.

(** ** Every row is predicted once, out of fold *)

(** The governed features of rows, one row of the matrix each. *)
Definition features_of (l : list MLExperimentRow) (X : list (list feature_value)) : Prop :=
  Forall2 (fun r xs => Forall2 (fun name x => dict_get (features r) name = Some x) PREDICTIVE_FEATURES xs) l X.

(** The rows a fold learns from: those of other tasks whose label is valid. *)
Definition learned_from (l : list MLExperimentRow) (a : FoldAssignment) (train : list MLExperimentRow) : Prop :=
  sublist train l /\
  forall x, x ∈ train <-> x ∈ l /\ ml_task_id x ∉ task_ids a /\ ml_label_status x = LS_valid.

(** The rows a fold predicts: those of its tasks. *)
Definition held_out (l : list MLExperimentRow) (a : FoldAssignment) (test : list MLExperimentRow) : Prop :=
  sublist test l /\ forall x, x ∈ test <-> x ∈ l /\ ml_task_id x ∈ task_ids a.

(** The label of a row as the pipelines see it. *)
Definition is_label (r : MLExperimentRow) (y : Z) : Prop := y = if decide (ml_acceptable r = Some true) then 1%Z else 0%Z.

(** A pipeline fitted on rows and their labels. *)
Definition fitted_on `{PL : Pipelines} (weight : option pystr) (train : list MLExperimentRow) (m : pipeline) : Prop :=
  exists X y, features_of train X /\ Forall2 is_label train y /\ fit weight X y = Ok m.

(** [p] is what a pipeline that learned from the other tasks gives for [r]. *)
Definition predicted `{PL : Pipelines} (v : pystr * option pystr) (l : list MLExperimentRow) (a : FoldAssignment)
    (r : MLExperimentRow) (p : Prediction) : Prop :=
  r ∈ l /\ ml_task_id r ∈ task_ids a /\
  exists train test m X probabilities i,
    learned_from l a train /\ held_out l a test /\ (forall x, x ∈ train -> ml_task_id x <> ml_task_id r) /\
    fitted_on v.2 train m /\ features_of test X /\ predict_proba m X = Ok probabilities /\
    test !! i = Some r /\ probabilities !! i = Some (predicted_probability p) /\
    p = mk_Prediction v.1 (ml_task_id r) (ml_candidate_id r) (fold a) (predicted_probability p) (ml_label_status r) (ml_acceptable r).

Lemma predicted_named `{PL : Pipelines} v l a r p : predicted v l a r p ->
  pn_variant p = v.1 /\ prediction_key p = ml_row_key r.
Proof. intros (_ & _ & ? & ? & ? & ? & ? & ? & _ & _ & _ & _ & _ & _ & _ & _ & ->). done. Qed.

Lemma feature_matrix_of l X : feature_matrix l = Ok X -> features_of l X.
Proof.
  unfold feature_matrix, features_of. intros H%result_map_ok. induction H as [|r xs l X H _ IH]; constructor; [|exact IH].
  apply result_map_ok in H. clear IH. induction H as [|name x names xs H _ IH]; constructor; [|exact IH].
  by destruct (dict_get (features r) name); cbn in H; inv_result.
Qed.

Lemma filter_sublist_of {A} (f : A -> bool) (l : list A) : sublist (List.filter f l) l.
Proof. induction l as [|x l IH]; cbn [List.filter]; [constructor|]. destruct (f x); by constructor. Qed.

Lemma train_rows_learned l a : learned_from l a (train_rows a l).
Proof.
  unfold learned_from, train_rows, train_rows_all. split.
  - etransitivity; apply filter_sublist_of.
  - intros x. rewrite !filter_in. unfold row_in, ml_valid, ml_has_label. rewrite negb_true_iff, bool_decide_eq_false, bool_decide_eq_true.
    tauto.
Qed.

Lemma test_rows_held l a : held_out l a (test_rows a l).
Proof.
  unfold held_out, test_rows, fold_rows. split; [apply filter_sublist_of|]. intros x. rewrite filter_in. unfold row_in.
  by rewrite bool_decide_eq_true.
Qed.

Lemma labels_read l : Forall2 is_label l (map label_number l).
Proof.
  induction l as [|r l IH]; constructor; [|exact IH]. unfold is_label, label_number.
  by destruct (ml_acceptable r) as [[]|].
Qed.

Lemma fitted_rows `{PL : Pipelines} weight l a m : fitted weight l a = Ok m -> fitted_on weight (train_rows a l) m.
Proof.
  unfold fitted. intros (X & HX & F)%bind_ok. exists X, (map label_number (train_rows a l)).
  split; [by apply feature_matrix_of|]. split; [apply labels_read|exact F].
Qed.

Lemma fold_predictions_ok `{PL : Pipelines} v l a ps audit p : fold_predictions v l a = Ok (ps, audit) -> p ∈ ps ->
  exists r, predicted v l a r p.
Proof.
  unfold fold_predictions. intros H Hp. apply bind_ok in H as (u & _ & H). apply bind_ok in H as (m & M & H).
  apply bind_ok in H as (X & HX & H). apply bind_ok in H as (pr & Hpr & H). injection H as <- <-.
  apply elem_of_map in Hp as ([r x] & -> & Hz). exists r. cbn [fst snd].
  apply list_elem_of_lookup in Hz as [i Hi]. apply lookup_zip_with_Some in Hi as (r' & x' & [= <- <-] & Hr & Hx).
  pose proof (proj2 (test_rows_held l a) r) as T. apply list_elem_of_lookup_2 in Hr as Hin. apply T in Hin as [Hl Ht].
  split; [exact Hl|]. split; [exact Ht|].
  exists (train_rows a l), (test_rows a l), m, X, pr, i. split; [apply train_rows_learned|]. split; [apply test_rows_held|].
  split; [|split; [by apply fitted_rows|split; [by apply feature_matrix_of|done]]].
  intros y Hy E. apply (proj2 (train_rows_learned l a)) in Hy as (_ & N & _). by rewrite E in N.
Qed.

Lemma variant_predictions_ok `{PL : Pipelines} l folds v records audit :
  variant_predictions l folds v = Ok (records, audit) ->
  length records = 224 /\ NoDup (map prediction_key records) /\
  forall p, p ∈ records -> exists a r, a ∈ folds /\ predicted v l a r p.
Proof.
  unfold variant_predictions. intros H. apply bind_ok in H as (out & O & H). cbv zeta in H.
  apply bind_ok in H as (u & G & H). apply bind_ok in H as (u' & _ & H). injection H as <- _.
  apply guard_ok in G. apply andb_prop in G as [G1 G2]. apply Nat.eqb_eq in G1, G2. split; [exact G1|]. split.
  - apply all_distinct_true. unfold all_distinct. apply Nat.eqb_eq. rewrite G2. etransitivity; [symmetry; exact G1|].
    symmetry. apply (length_map prediction_key).
  - intros p Hp. rewrite elem_of_py_sorted in Hp. apply list_elem_of_In, in_concat in Hp as (ps & Hps & Hp).
    apply list_elem_of_In, elem_of_map in Hps as ([ps' au] & -> & Hout). apply list_elem_of_In in Hp.
    destruct (result_map_mem _ _ _ _ O Hout) as (a & Ha & E). destruct (fold_predictions_ok _ _ _ _ _ _ E Hp) as (r & R).
    by exists a, r.
Qed.

(** C30. Every row is predicted out of fold.  For each variant the experiment holds
    one prediction for each of the dataset's 224 rows, read off the
    probabilities of a pipeline for the rows of the fold of its task; that
    pipeline was fitted on the governed features and labels of exactly the rows
    of the dataset whose task is not in the fold and whose label is valid, so
    no training row has the task of the predicted one. *)
Theorem predictions_are_out_of_fold `{PL : Pipelines} ds records audit folds :
  generate_oof_predictions ds = Ok (records, audit, folds) ->
  build_outer_folds ds = Ok folds /\
  exists parts, records = concat parts /\
    Forall2 (fun v ps => map prediction_key ps ≡ₚ map ml_row_key (rows ds) /\
      forall p, p ∈ ps -> pn_variant p = v.1 /\ exists a r, a ∈ folds /\ predicted v (rows ds) a r p) VARIANTS parts.
Proof.
  unfold generate_oof_predictions. intros H. apply bind_ok in H as (fs & F & H). pose proof (folded_rows _ _ F) as L. apply bind_ok in H as (out & O & H).
  injection H as <- _ <-. split; [exact F|]. exists (map fst out). split; [done|]. apply result_map_ok in O.
  generalize dependent out. generalize VARIANTS. intros vs out O. induction O as [|v [ps au] vs out Hv _ IH]; [constructor|].
  cbn [map fst]. constructor; [|exact IH]. apply variant_predictions_ok in Hv as (L' & N' & P). split.
  - apply submseteq_length_Permutation; [|unfold ml_row_key, prediction_key; rewrite !length_map; lia].
    apply NoDup_submseteq; [exact N'|]. intros k Hk. apply elem_of_map in Hk as (p & -> & Hp).
    destruct (P p Hp) as (a & r & _ & R). apply elem_of_map. exists r. split; [|exact (proj1 R)].
    exact (proj2 (predicted_named _ _ _ _ _ R)).
  - intros p Hp. destruct (P p Hp) as (a & r & Ha & R). split; [|by exists a, r].
    exact (proj1 (predicted_named _ _ _ _ _ R)).
Qed.

(** ** Offline selection and the production policy *)

Lemma min_from_map {A B} (f : A -> B) (lt : B -> B -> bool) k ks :
  f (min_from (fun a b => lt (f a) (f b)) k ks) = min_from lt (f k) (map f ks).
Proof. revert k. induction ks as [|y ks IH]; intros k; [done|]. cbn [min_from map]. rewrite IH. by destruct (lt (f y) (f k)). Qed.

Lemma filter_map {A B} (f : A -> B) p l : List.filter p (map f l) = map f (List.filter (fun x => p (f x)) l).
Proof. induction l as [|x l IH]; [done|]. cbn [map List.filter]. destruct (p (f x)); cbn [map]; by rewrite IH. Qed.

Section Selection.
Context {UD : UnicodeData} (task : pystr) (index : list ((pystr * pystr) * MLExperimentRow)).

Definition has_cost (pc : Prediction * decimal) : Prop := indexed_cost index task (pn_candidate_id pc.1) = Ok pc.2.

Lemma priced_all l : (forall pc, pc ∈ l -> has_cost pc) -> result_map (priced task index) (map fst l) = Ok l.
Proof.
  induction l as [|[p c] l IH]; intros H; [done|]. cbn [map result_map fst]. unfold priced at 1.
  pose proof (H (p, c) (proj2 (elem_of_cons _ _ _) (or_introl eq_refl))) as Hc. unfold has_cost in Hc. cbn [fst snd] in Hc.
  rewrite Hc. rsimpl. by rewrite IH by (intros x Hx; apply H, elem_of_cons; by right).
Qed.

(** Both [min] calls, on the candidates as the policy sees them. *)
Lemma select_as_policy k ks t : (forall pc, pc ∈ k :: ks -> has_cost pc) ->
  forallb CandidatePrediction_ok (map as_candidate (k :: ks)) = true ->
  exists pc fallback, pc ∈ k :: ks /\ select_cost_aware_candidate task (map fst (k :: ks)) index t = Ok (pc.1, fallback) /\
    as_candidate pc = Policy.select t (as_candidate k) (map as_candidate ks) /\
    fallback = match List.filter (qualifies t) (map as_candidate (k :: ks)) with [] => true | _ => false end.
Proof.
  intros H V. unfold select_cost_aware_candidate, Policy.select.
  change (as_candidate k :: map as_candidate ks) with (map as_candidate (k :: ks)).
  rewrite !filter_map. change (fun x => qualifies t (as_candidate x)) with (fun pc : Prediction * decimal => meets t pc.1).
  destruct (List.filter (fun pc => meets t pc.1) (k :: ks)) as [|q qs] eqn:E; cbn [map].
  - rewrite (priced_all (k :: ks) H : result_map _ (fst k :: map fst ks) = _). rsimpl.
    eexists _, true. split; [|split; [reflexivity|split; [|done]]].
    + apply elem_of_cons. apply min_from_in.
    + rewrite (min_from_map as_candidate fallback_key_lt). apply min_from_lt_ext.
      intros x y Hx Hy. apply fallback_key_lt_cmp; by apply (candidates_ok_in _ _ V).
  - rewrite (priced_all (q :: qs) : _ -> result_map _ (fst q :: map fst qs) = _).
    2:{ intros pc Hpc. apply H. rewrite <- E in Hpc. by apply filter_in in Hpc as [Hpc _]. }
    rsimpl. eexists _, false. split; [|split; [reflexivity|split; [|done]]].
    + set (best := min_from _ q qs). assert (B : best ∈ q :: qs) by (apply elem_of_cons, min_from_in).
      rewrite <- E in B. by apply filter_in in B as [B _].
    + rewrite (min_from_map as_candidate cost_key_lt). apply min_from_lt_ext. intros x y _ _. apply cost_key_lt_cmp.
Qed.
End Selection.

(** C31. The experiment selects as production routes.  On predictions with projected
    costs, the offline selection returns the candidate that the routing policy
    of the gateway selects at that threshold, and reports a fallback exactly
    when the policy does. *)
Theorem offline_selection_is_the_policy `{UD : UnicodeData} task index k ks t :
  (forall pc, pc ∈ k :: ks -> has_cost task index pc) ->
  forallb CandidatePrediction_ok (map as_candidate (k :: ks)) = true ->
  NoDup (map (fun pc => pn_candidate_id pc.1) (k :: ks)) -> Probability_ok t = true ->
  exists pc d, pc ∈ k :: ks /\ route (map as_candidate (k :: ks)) (PyFloat t) = Ok d /\
    select_cost_aware_candidate task (map fst (k :: ks)) index t = Ok (pc.1, fallback_used d) /\
    selected_model_id d = pn_candidate_id pc.1 /\ selected_predicted_acceptability d = predicted_probability pc.1 /\
    selected_projected_cost_usd d = pc.2.
Proof.
  intros H V N T. destruct (select_as_policy task index k ks t H V) as (pc & fb & Hpc & S & E & F).
  exists pc, (decision_of t (as_candidate k) (map as_candidate ks)). split; [exact Hpc|].
  assert (VT : validate_quality_threshold (PyFloat t) = Ok t).
  { unfold validate_quality_threshold. rewrite validated_probability_spec. cbn [py_float]. rsimpl. by rewrite T. }
  split; [|split; [|unfold decision_of; cbn; rewrite <- E; done]].
  - cbn [map]. rewrite (route_steps _ _ _ V), VT. rsimpl.
    rewrite (proj2 (all_distinct_true _)); [done|]. change (NoDup (map cp_model_id (map as_candidate (k :: ks)))).
    rewrite map_map. exact N.
  - rewrite S, F. unfold decision_of. cbn [fallback_used]. change (as_candidate k :: map as_candidate ks) with (map as_candidate (k :: ks)).
    by destruct (List.filter (qualifies t) _).
Qed.

(** ** Calibration bins *)

Lemma count_split_at {A} (p q r : A -> bool) l : (forall x, x ∈ l -> r x = p x || q x) -> (forall x, x ∈ l -> p x && q x = false) ->
  count r l = (count p l + count q l)%Z.
Proof.
  unfold count. induction l as [|x l IH]; intros H D; [done|]. cbn [List.filter].
  specialize (IH (fun y Hy => H y (proj2 (elem_of_cons _ _ _) (or_intror Hy))) (fun y Hy => D y (proj2 (elem_of_cons _ _ _) (or_intror Hy)))).
  pose proof (H x (proj2 (elem_of_cons _ _ _) (or_introl eq_refl))) as E.
  pose proof (D x (proj2 (elem_of_cons _ _ _) (or_introl eq_refl))) as F. rewrite E.
  destruct (p x), (q x); try discriminate F; cbn [orb length]; lia.
Qed.

(** Between the first edge and the last. *)
Definition in_edges (lo hi : float) (p : Prediction) : bool := f_leb lo (predicted_probability p) && f_leb (predicted_probability p) hi.

Lemma f_between lo hi top x : f_leb lo hi = true -> f_leb hi top = true ->
  f_leb lo x && f_leb x top = f_leb lo x && f_ltb x hi || f_leb hi x && f_leb x top.
Proof.
  intros L T. destruct (f_leb_not_nan _ _ L) as [_ Nh]. destruct (is_nan x) eqn:Nx.
  { assert (Q : forall a b, is_nan b = true -> f_leb a b = false).
    { intros a b Nb. apply not_true_iff_false. intros X. apply f_leb_not_nan in X as [_ X]. congruence. }
    rewrite (Q lo x Nx), (Q hi x Nx). done. }
  rewrite (f_ltb_nleb x hi) by done. destruct (f_leb hi x) eqn:H; cbn [negb].
  - rewrite (f_leb_trans _ _ _ L H). by destruct (f_leb x top).
  - rewrite andb_true_r, orb_false_r. destruct (f_leb_total x hi Nx Nh) as [X|X]; [|congruence].
    rewrite (f_leb_trans _ _ _ X T). apply andb_true_r.
Qed.

Lemma bins_from_count edges : forall lo valid bs, StronglySorted (fun a b => f_leb a b = true) (lo :: edges) -> edges <> [] ->
  bins_from (lo :: edges) valid = Ok bs ->
  foldr Z.add 0%Z (map bin_count bs) = count (in_edges lo (List.last edges lo)) valid.
Proof.
  induction edges as [|hi rest IH]; intros lo valid bs S Ne H; [done|].
  cbn [bins_from] in H. apply bind_ok in H as (b & Hb & H). apply bind_ok in H as (bs' & Hbs & H). injection H as <-.
  unfold bin_of in Hb. apply bind_ok in Hb as (m & _ & Hb). apply bind_ok in Hb as (o & _ & Hb). injection Hb as <-.
  inversion S as [|? ? S' F]; subst. cbn [map foldr bin_count].
  destruct rest as [|hi' rest].
  - cbn [bins_from] in Hbs. injection Hbs as <-. cbn [map foldr List.last]. rewrite Z.add_0_r. reflexivity.
  - rewrite (IH hi valid bs' S' ltac:(done) Hbs).
    assert (L : List.last (hi :: hi' :: rest) lo = List.last (hi' :: rest) hi).
    { clear. generalize hi'. induction rest as [|x rest IH]; intros y; [done|]. cbn [List.last] in *. apply IH. }
    rewrite L. set (top := List.last (hi' :: rest) hi).
    assert (Hlo : f_leb lo hi = true) by (rewrite Forall_forall in F; apply F, elem_of_cons; by left).
    assert (Htop : f_leb hi top = true).
    { inversion S' as [|? ? _ F']; subst. rewrite Forall_forall in F'. apply F'. apply list_elem_of_In.
      destruct (@exists_last _ (hi' :: rest) ltac:(done)) as (m' & x & E). unfold top. rewrite E, last_last. apply in_app_iff. right. by left. }
    symmetry. apply count_split_at; intros p _; unfold in_edges, in_bin; set (x := predicted_probability p).
    + by apply f_between.
    + destruct (f_ltb x hi) eqn:X; [|by rewrite andb_false_r]. destruct (f_leb hi x) eqn:Y; [|by rewrite andb_false_r].
      pose proof (f_lt_le_trans _ _ _ X Y) as Z. apply f_ltb_not_nan in X as [Nx _]. rewrite f_ltb_nleb in Z by done.
      by rewrite f_leb_refl in Z.
Qed.

(** Calibration loses nothing.  The bins count every valid prediction between
    0 and 1 exactly once. *)
Theorem calibration_counts_all records bs : calibration records = Ok bs ->
  foldr Z.add 0%Z (map bin_count bs) = count (in_edges f_zero f_one) (List.filter pn_valid records).
Proof.
  intros H. change f_one with (List.last (tail CALIBRATION_EDGES) f_zero). apply bins_from_count; [|done|exact H].
  repeat constructor.
Qed.

(** ** An example: a pipeline that predicts the share of positive labels *)

#[local] Instance share_pipeline : Pipelines := {|
  pipeline := float;
  fit := fun _ _ y => Ok (ratio (foldr Z.add 0%Z y) (Z.of_nat (length y)));
  predict_proba := fun m X => Ok (map (fun _ => m) X)
|}.

Lemma predictions_are_out_of_fold_witness : exists records audit folds,
  generate_oof_predictions example_ml_dataset = Ok (records, audit, folds) /\ build_outer_folds example_ml_dataset = Ok folds.
Proof.
  assert (V : is_ok (generate_oof_predictions example_ml_dataset) = true) by (vm_compute; reflexivity).
  destruct (generate_oof_predictions example_ml_dataset) as [[[records audit] folds]|e] eqn:E; [|discriminate V].
  exists records, audit, folds. split; [reflexivity|]. exact (proj1 (predictions_are_out_of_fold _ _ _ _ E)).
Defined.

Definition example_fold : FoldAssignment := mk_FoldAssignment 0 [py "qa-1"] [] 0 0 0.

(** The first row with the other label. *)
Definition relabelled : MLExperimentRow :=
  let r := example_row "qa" 1 0 in
  mk_MLExperimentRow (ml_task_id r) (ml_candidate_id r) (ml_category r) (features r) (ml_label_status r) (Some false)
    (Some f_one) None (Some d_zero) f_one.

Lemma outcomes_do_not_leak_witness : exists ps ps' audit audit',
  fold_predictions (py "v", None) [example_row "qa" 1 0; example_row "qa" 2 0] example_fold = Ok (ps, audit) /\
  fold_predictions (py "v", None) [relabelled; example_row "qa" 2 0] example_fold = Ok (ps', audit') /\
  map target ps <> map target ps' /\ map forecast ps = map forecast ps'.
Proof.
  assert (F : Forall2 (unseen example_fold) [example_row "qa" 1 0; example_row "qa" 2 0] [relabelled; example_row "qa" 2 0]).
  { constructor; [right; by repeat split|]. constructor; [by left|constructor]. }
  pose proof (outcomes_do_not_leak (py "v", None) example_fold _ _ F) as H.
  destruct (fold_predictions _ [example_row "qa" 1 0; example_row "qa" 2 0] _) as [[ps audit]|e] eqn:E; [|vm_compute in E; discriminate E].
  destruct (fold_predictions _ [relabelled; _] _) as [[ps' audit']|e] eqn:E'; [|vm_compute in E'; discriminate E'].
  exists ps, ps', audit, audit'. do 2 (split; [reflexivity|]). split; [|exact H].
  vm_compute in E, E'. injection E as <- _. injection E' as <- _. discriminate.
Defined.

Definition example_prediction (candidate : string) (p : Z) : Prediction :=
  mk_Prediction LOGREG_UNWEIGHTED (py "qa-1") (py candidate) 0 (f_of_ratio p 100) LS_valid (Some true).

Definition example_priced (candidate : string) (p : Z) : Prediction * decimal :=
  (example_prediction candidate p,
   match @indexed_cost ascii_tables (row_index example_ml_dataset) (py "qa-1") (py candidate) with Ok c => c | Raise _ => d_zero end).

Lemma offline_selection_is_the_policy_witness : exists pc d,
  route (map as_candidate [example_priced "2" 90; example_priced "1" 80; example_priced "0" 40]) (PyFloat (f_of_ratio 7 10)) = Ok d /\
  @select_cost_aware_candidate ascii_tables (py "qa-1") [example_prediction "2" 90; example_prediction "1" 80; example_prediction "0" 40]
    (row_index example_ml_dataset) (f_of_ratio 7 10) = Ok (pc, fallback_used d) /\ selected_model_id d = py "1".
Proof.
  destruct (@offline_selection_is_the_policy ascii_tables (py "qa-1") (row_index example_ml_dataset) (example_priced "2" 90)
    [example_priced "1" 80; example_priced "0" 40] (f_of_ratio 7 10)) as (pc & d & _ & R & S & _).
  - assert (A : forallb (fun pc => bool_decide (@indexed_cost ascii_tables (row_index example_ml_dataset) (py "qa-1") (pn_candidate_id pc.1) = Ok pc.2))
      [example_priced "2" 90; example_priced "1" 80; example_priced "0" 40] = true) by (vm_compute; reflexivity).
    intros pc Hpc. rewrite forallb_forall in A. apply list_elem_of_In, A in Hpc. by apply bool_decide_eq_true in Hpc.
  - vm_compute. reflexivity.
  - apply (bool_decide_eq_true_1 (NoDup _)). vm_compute. reflexivity.
  - vm_compute. reflexivity.
  - exists pc.1, d. split; [exact R|]. split; [exact S|]. clear S. vm_compute in R. injection R as <-. reflexivity.
Defined.

Lemma calibration_counts_all_witness : exists bs,
  calibration [example_prediction "0" 40; example_prediction "1" 80; example_prediction "2" 100] = Ok bs /\
  foldr Z.add 0%Z (map bin_count bs) = 3%Z.
Proof.
  destruct (calibration [example_prediction "0" 40; example_prediction "1" 80; example_prediction "2" 100]) as [bs|e] eqn:E;
    [|vm_compute in E; discriminate E].
  exists bs. split; [reflexivity|]. rewrite (calibration_counts_all _ _ E). vm_compute. reflexivity.
Defined.
