(* ===== verification/ProductionPath.v ===== *)
(** * The check of the production path ([routing/validate_production_path.py])

    The composed routing service, with the predictor of a trusted artifact, is
    compared with a direct evaluation of the pipeline and the policy, on every
    task of a dataset and at every threshold.  The last part shows that the two
    cannot disagree while the pipeline scores row by row.  Writing the report is
    not modelled. *)
From S2P Require Import Prelude RoutingAnalysis MLFeatures MLExperiment PyStr PyFloat PyDecimal Schemas Json PyRepr Errors Pricing PyNum Regex Features QualityFeatures Policy Routing Predictor GatewayConfig BenchmarkModels.

(** The messages of the four errors that report a disagreement; all of them are
    [ValueError]s. *)
Inductive disagreement := CANDIDATE_ASSOCIATION | QUALIFYING_SET_GREW | DECISION_DIFFERS | OUTSIDE_ELIGIBLE_SET.

Inductive path_error := Raised (e : exn) | Disagrees (d : disagreement).

Definition path_exn (e : path_error) : exn := match e with Raised e => e | Disagrees _ => Exn C_ValueError end.

Definition on_error {E F A : Type} (f : E -> F) (r : result E A) : result F A :=
  match r with Ok a => Ok a | Raise e => Raise (f e) end.

Definition call {A : Type} (r : result exn A) : result path_error A := on_error Raised r.

(** ** What is counted *)

Record PredictionParity := mk_PredictionParity {
  prediction_count : Z;
  prediction_parity : Z;
  maximum_probability_difference : float
}.

Record DecisionParity := mk_DecisionParity {
  decision_count : Z;
  decision_parity : Z;
  selected_model_parity : Z;
  projected_cost_parity : Z;
  reason_parity : Z;
  qualifying_count_parity : Z;
  fallback_state_parity : Z;
  repeated_deterministic : bool;
  candidate_order_independent : bool
}.

Record ThresholdDiagnostics := mk_ThresholdDiagnostics {
  selected_model_distribution : list (pystr * Z);
  td_fallback_count : Z;
  td_total_projected_cost_usd : decimal
}.

Record PathState := mk_PathState {
  ps_predictions : PredictionParity;
  ps_decisions : DecisionParity;
  ps_thresholds : list (pystr * ThresholdDiagnostics)
}.

Definition initial_state : PathState :=
  mk_PathState (mk_PredictionParity 0 0 f_zero) (mk_DecisionParity 0 0 0 0 0 0 0 true true)
    (map (fun t => (t.1, mk_ThresholdDiagnostics [] 0 d_zero)) THRESHOLDS).

(** A truth value as a number. *)
Definition as_number (b : bool) : Z := if b then 1 else 0.

Definition TOLERANCE : float := f_of_ratio 1 1000000000000000.

(** One round of the loop over both predictions. *)
Definition compare_prediction (s : PredictionParity) (p : ModelAcceptabilityPrediction * CandidatePrediction) : PredictionParity :=
  let difference := f_abs (f_sub (mp_predicted_acceptability p.1) (cp_predicted_acceptability p.2)) in
  mk_PredictionParity (prediction_count s + 1) (prediction_parity s + as_number (f_leb difference TOLERANCE))
    (f_max (maximum_probability_difference s) difference).

(** [actual == expected] *)
Definition decision_equal (a b : RoutingDecision) : bool :=
  bool_decide (selected_model_id a = selected_model_id b) &&
  f_eqb (selected_predicted_acceptability a) (selected_predicted_acceptability b) &&
  d_eqb (selected_projected_cost_usd a) (selected_projected_cost_usd b) &&
  f_eqb (quality_threshold a) (quality_threshold b) && Bool.eqb (threshold_satisfied a) (threshold_satisfied b) &&
  Bool.eqb (fallback_used a) (fallback_used b) && (eligible_candidate_count a =? eligible_candidate_count b)%Z &&
  (qualifying_candidate_count a =? qualifying_candidate_count b)%Z && bool_decide (reason a = reason b).

(** The parities, updated before a difference raises. *)
Definition compare_decision (s : DecisionParity) (actual expected : RoutingDecision) : DecisionParity :=
  mk_DecisionParity (decision_count s + 1) (decision_parity s)
    (selected_model_parity s + as_number (bool_decide (selected_model_id actual = selected_model_id expected)))
    (projected_cost_parity s + as_number (d_eqb (selected_projected_cost_usd actual) (selected_projected_cost_usd expected)))
    (reason_parity s + as_number (bool_decide (reason actual = reason expected)))
    (qualifying_count_parity s + as_number (qualifying_candidate_count actual =? qualifying_candidate_count expected)%Z)
    (fallback_state_parity s + as_number (Bool.eqb (fallback_used actual) (fallback_used expected) &&
                                          Bool.eqb (threshold_satisfied actual) (threshold_satisfied expected)))
    (repeated_deterministic s) (candidate_order_independent s).

(** What follows when it does not. *)
Definition confirm_decision (s : DecisionParity) (actual repeated reordered : RoutingDecision) : DecisionParity :=
  mk_DecisionParity (decision_count s) (decision_parity s + 1) (selected_model_parity s) (projected_cost_parity s)
    (reason_parity s) (qualifying_count_parity s) (fallback_state_parity s)
    (repeated_deterministic s && decision_equal repeated actual)
    (candidate_order_independent s && decision_equal reordered actual).

(** [counter[key] += 1] *)
Definition increment (d : list (pystr * Z)) (k : pystr) : list (pystr * Z) := dict_set d k (default 0%Z (dict_get d k) + 1)%Z.

(** The summary of a threshold after one more decision. *)
Definition add_decision (thresholds : list (pystr * ThresholdDiagnostics)) (key : pystr) (d : RoutingDecision) :
    result exn (list (pystr * ThresholdDiagnostics)) :=
  match dict_get thresholds key with
  | None => Raise (Exn C_KeyError)
  | Some s =>
      total ← decimal_error (d_add default_prec (td_total_projected_cost_usd s) (selected_projected_cost_usd d));
      Ok (dict_set thresholds key
            (mk_ThresholdDiagnostics (increment (selected_model_distribution s) (selected_model_id d))
               (td_fallback_count s + as_number (fallback_used d)) total))
  end.

(** ** The composed path and its reference *)

Section Path.
Context {R : PredictorRuntime} {UD : UnicodeData}.

(** The predictions the pipeline makes directly, priced. *)
Definition reference_prediction (f : RoutingRequestFeatures) (cp : ModelConfig * float) : result exn CandidatePrediction :=
  allowance ← resolve_effective_output_allowance f cp.1;
  cost ← calculate_projected_cost (rf_approximate_input_tokens f) allowance cp.1;
  new_CandidatePrediction (model_id cp.1) cp.2 cost.

Definition reference_predictions (p : Pipeline) (f : RoutingRequestFeatures) (candidates : list ModelConfig) :
    result exn (list CandidatePrediction) :=
  canonical ← result_map (canonical_from_production f) candidates;
  matrix ← canonical_feature_matrix canonical;
  rows ← predict_proba p matrix;
  probabilities ← second_column rows;
  result_map (reference_prediction f) (zip candidates probabilities).

(** The models that reach a threshold. *)
Definition qualifying_models (refs : list CandidatePrediction) (threshold : float) : list pystr :=
  map cp_model_id (List.filter (qualifies threshold) refs).

Section Service.
Context (s : SklearnQualityPredictor).
Local Instance path_predictor : QualityPredictor := sklearn_quality_predictor s.

Definition composed_route (r : InferenceRequest) (category : RoutingCategory) (structured : bool)
    (candidates : list ModelConfig) (threshold : float) : result path_error RoutingDecision :=
  call (Routing.route None r candidates (PyFloat threshold) (Some (RoutingCategory_value category)) structured).

(** One threshold: the new state. *)
Definition check_threshold (r : InferenceRequest) (category : RoutingCategory) (structured : bool)
    (refs : list CandidatePrediction) (st : PathState) (t : pystr * float) : result path_error PathState :=
  actual ← composed_route r category structured CANDIDATE_MODELS t.2;
  expected ← call (Policy.route refs (PyFloat t.2));
  repeated ← composed_route r category structured CANDIDATE_MODELS t.2;
  reordered ← composed_route r category structured (rev CANDIDATE_MODELS) t.2;
  let compared := compare_decision (ps_decisions st) actual expected in
  _ ← guard_else (decision_equal actual expected) (Disagrees DECISION_DIFFERS);
  let confirmed := confirm_decision compared actual repeated reordered in
  _ ← guard_else (bool_decide (selected_model_id actual ∈ map model_id CANDIDATE_MODELS)) (Disagrees OUTSIDE_ELIGIBLE_SET);
  thresholds ← call (add_decision (ps_thresholds st) t.1 actual);
  Ok (mk_PathState (ps_predictions st) confirmed thresholds).

(** The thresholds in turn, with the qualifying set of the one before. *)
Fixpoint check_thresholds (r : InferenceRequest) (category : RoutingCategory) (structured : bool)
    (refs : list CandidatePrediction) (previous : option (list pystr)) (ts : list (pystr * float)) (st : PathState) :
    result path_error PathState :=
  match ts with
  | [] => Ok st
  | t :: ts =>
      let qualifying := qualifying_models refs t.2 in
      _ ← guard_else (match previous with None => true | Some q => subset_of qualifying q end) (Disagrees QUALIFYING_SET_GREW);
      st ← check_threshold r category structured refs st t;
      check_thresholds r category structured refs (Some qualifying) ts st
  end.

(** [task.expected_output_type in {"json", "code"}] *)
Definition is_structured (e : ExpectedOutputType) : bool := match e with EO_json | EO_code => true | EO_text => false end.

(** One task. *)
Definition check_task (p : Pipeline) (st : PathState) (t : BenchmarkTask) : result path_error PathState :=
  request ← call (to_request t);
  category ← call (canonicalize_category (BenchmarkCategory_value (bt_category t)));
  let structured := is_structured (expected_output_type t) in
  f ← call (extract request (Some (RoutingCategory_value category)) structured);
  production ← call (sklearn_predict s f CANDIDATE_MODELS);
  refs ← call (reference_predictions p f CANDIDATE_MODELS);
  _ ← guard_else (bool_decide (map mp_model_id production = map cp_model_id refs)) (Disagrees CANDIDATE_ASSOCIATION);
  let predictions := fold_left compare_prediction (zip production refs) (ps_predictions st) in
  check_thresholds request category structured refs None THRESHOLDS
    (mk_PathState predictions (ps_decisions st) (ps_thresholds st)).

Fixpoint check_tasks (p : Pipeline) (ts : list BenchmarkTask) (st : PathState) : result path_error PathState :=
  match ts with
  | [] => Ok st
  | t :: ts => st ← check_task p st t; check_tasks p ts st
  end.
End Service.

Record PathReport := mk_PathReport {
  artifact_model_sha256 : pystr;
  reference_requests : Z;
  candidate_predictions : PredictionParity;
  routing_decisions : DecisionParity;
  per_threshold : list (pystr * (list (pystr * Z) * Z * pystr * pystr))
}.

(** The texts of a threshold's costs. *)
Definition threshold_report (n : Z) (e : pystr * ThresholdDiagnostics) :
    result exn (pystr * (list (pystr * Z) * Z * pystr * pystr)) :=
  let d := e.2 in
  average ← decimal_error (d_div default_prec (td_total_projected_cost_usd d) (d_of_Z n));
  Ok (e.1, (py_sorted (cmp_le (on_key fst str_cmp)) (selected_model_distribution d), td_fallback_count d,
            d_str (td_total_projected_cost_usd d), d_str average)).

(** [SklearnQualityPredictor.from_trusted_artifact] without a service. *)
Definition sklearn_from_artifact (d : artifact_directory) : result exn SklearnQualityPredictor :=
  pm ← snd (load_trusted_quality_artifact d);
  new_SklearnQualityPredictor pm.1 pm.2.

(** [metadata.model_sha256]: the metadata of a production artifact has no such field. *)
Definition metadata_model_sha256 (m : artifact_metadata) : result exn pystr :=
  match m with LegacyMetadata m => Ok (qa_model_sha256 m) | ProductionMetadata _ => Raise (Exn C_AttributeError) end.

Definition path_report (d : artifact_directory) (dataset : result exn BenchmarkDataset) : result path_error PathReport :=
  pm ← call (snd (load_trusted_quality_artifact d));
  predictor ← call (sklearn_from_artifact d);
  ds ← call dataset;
  st ← check_tasks predictor pm.1 (tasks ds) initial_state;
  let n := Z.of_nat (length (tasks ds)) in
  thresholds ← call (result_map (threshold_report n) (ps_thresholds st));
  digest ← call (metadata_model_sha256 pm.2);
  Ok (mk_PathReport digest n (ps_predictions st) (ps_decisions st) thresholds).

(** [validate_production_routing_path], from the loaded dataset *)
Definition validate_production_routing_path (d : artifact_directory) (dataset : result exn BenchmarkDataset) :
    result exn PathReport := on_error path_exn (path_report d dataset).
End Path.

(** ** Runs that never disagree *)

(** What holds of a result unless something else raised. *)
Definition agrees {A : Type} (Q : A -> Prop) (r : result path_error A) : Prop :=
  match r with Ok a => Q a | Raise e => exists x, e = Raised x end.

Lemma agrees_bind {A B} (Q : A -> Prop) (T : B -> Prop) r (k : A -> result path_error B) :
  agrees Q r -> (forall a, Q a -> agrees T (k a)) -> agrees T (x ← r; k x).
Proof. destruct r as [a|e]; cbn; [auto|done]. Qed.

Lemma agrees_call {A} (r : result exn A) : agrees (fun a => r = Ok a) (call r).
Proof. destruct r; cbn; eauto. Qed.

Lemma agrees_guard (c : bool) d : c = true -> agrees (fun _ => True) (guard_else c (Disagrees d)).
Proof. by intros ->. Qed.

(** Two readings of a finite number do not differ. *)
Lemma no_difference x : f_isfinite x = true -> f_abs (f_sub x x) = f_zero.
Proof.
  destruct x as [s| | |s m e]; try done; intros _; [by destruct s|].
  unfold f_sub, SFsub. cbv zeta. by rewrite Z.sub_diag.
Qed.

Lemma decision_equal_refl d : RoutingDecision_ok d = true -> decision_equal d d = true.
Proof.
  unfold RoutingDecision_ok. intros H. bools. unfold decision_equal.
  rewrite !bool_decide_eq_true_2, !Z.eqb_refl, !Bool.eqb_reflx by done.
  rewrite !f_eqb_cmp, !(tc_refl f_cmp) by (by apply Probability_ok_not_nan). unfold d_eqb. by rewrite (tc_refl d_cmp).
Qed.

(** A higher threshold qualifies no other model. *)
Lemma qualifying_shrinks refs a b : f_leb a b = true -> qualifying_models refs b ⊆ qualifying_models refs a.
Proof.
  intros L x. unfold qualifying_models. rewrite !elem_of_map. intros (c & -> & Hc). exists c. split; [done|].
  apply filter_in in Hc as [Hc Q]. apply filter_in. split; [done|]. by apply (f_leb_trans a b).
Qed.

Lemma Forall2_members {A B} (P : A -> B -> Prop) l k : Forall2 P l k -> Forall2 (fun x y => x ∈ l /\ P x y) l k.
Proof.
  induction 1 as [|x y l k H F IH]; constructor; [split; [apply elem_of_cons; by left|done]|].
  eapply Forall2_impl; [exact IH|]. intros a b [Ha Hb]. split; [apply elem_of_cons; by right|done].
Qed.

Section Agreement.
Context {R : PredictorRuntime} {UD : UnicodeData}.

(** The pipeline scores its rows one by one, as [predict_proba] documents: one
    row of probabilities for each, whatever the other rows are. *)
Definition row_wise (p : Pipeline) : Prop := exists g, forall m, predict_proba p m = result_map g m.

Section Pipeline.
Context (p : Pipeline) (g : list cell -> result exn (list float)).
Context (G : forall m, predict_proba p m = result_map g m).

(** What it says of one candidate. *)
Definition probability_of (f : RoutingRequestFeatures) (m : ModelConfig) : result exn float :=
  c ← canonical_from_production f m;
  x ← canonical_feature_row c;
  row ← g x;
  match nth_error row 1 with Some q => Ok q | None => Raise (Exn C_IndexError) end.

Lemma probabilities_ok f cs canonical matrix rows qs :
  result_map (canonical_from_production f) cs = Ok canonical -> canonical_feature_matrix canonical = Ok matrix ->
  predict_proba p matrix = Ok rows -> second_column rows = Ok qs -> Forall2 (fun m q => probability_of f m = Ok q) cs qs.
Proof.
  unfold canonical_feature_matrix, second_column. rewrite G. intros C M P Q. apply result_map_ok in C, M, P, Q.
  revert matrix rows qs M P Q. induction C as [|m c cs canonical Hc _ IH]; intros matrix rows qs M P Q;
    inversion M as [|? x ? matrix' Hx M']; subst; inversion P as [|? row ? rows' Hr P']; subst; inversion Q as [|? q ? qs' Hq Q']; subst;
    constructor; [|by apply (IH matrix' rows')].
  unfold probability_of. rewrite Hc. rsimpl. rewrite Hx. rsimpl. rewrite Hr. rsimpl. exact Hq.
Qed.

(** A candidate as it is priced, on either path. *)
Definition priced_by (f : RoutingRequestFeatures) (m : ModelConfig) (c : CandidatePrediction) : Prop :=
  cp_model_id c = model_id m /\ CandidatePrediction_ok c = true /\ probability_of f m = Ok (cp_predicted_acceptability c) /\
  exists a, resolve_effective_output_allowance f m = Ok a /\
    calculate_projected_cost (rf_approximate_input_tokens f) a m = Ok (cp_projected_cost_usd c).

Lemma priced_by_unique f cs : forall l l', Forall2 (priced_by f) cs l -> Forall2 (priced_by f) cs l' -> l = l'.
Proof.
  induction cs as [|m cs IH]; intros l l' H H'; inversion H as [|? [i q k] ? ? Hc T]; subst; inversion H' as [|? [i' q' k'] ? ? Hc' T']; subst; [done|].
  f_equal; [|by apply IH]. destruct Hc as (I & _ & Q & a & A & K), Hc' as (I' & _ & Q' & a' & A' & K'). cbn in *.
  assert (a' = a) as -> by congruence. f_equal; congruence.
Qed.

Lemma priced_valid f cs l : Forall2 (priced_by f) cs l -> map cp_model_id l = map model_id cs /\ forallb CandidatePrediction_ok l = true.
Proof. induction 1 as [|m c cs l (I & V & _) _ [IH1 IH2]]; [done|]. cbn [map forallb]. by rewrite I, V, IH1. Qed.

Lemma reference_priced f cs refs : reference_predictions p f cs = Ok refs -> Forall2 (priced_by f) cs refs.
Proof.
  unfold reference_predictions. intros H. apply bind_ok in H as (canonical & C & H). apply bind_ok in H as (matrix & M & H).
  apply bind_ok in H as (rows & P & H). apply bind_ok in H as (qs & Q & H).
  pose proof (probabilities_ok _ _ _ _ _ _ C M P Q) as F. clear C M P Q. apply result_map_ok in H. revert refs H.
  induction F as [|m q cs qs Hq _ IH]; intros refs H; cbn in H; inversion H as [|? c ? refs' Hc T]; subst; constructor; [|by apply IH].
  unfold reference_prediction, new_CandidatePrediction in Hc. cbn [fst snd] in Hc. apply bind_ok in Hc as (a & A & Hc).
  apply bind_ok in Hc as (k & K & Hc). apply bind_ok in Hc as (u & V & Hc). apply validated_ok, check_ok in V. injection Hc as <-.
  split; [done|]. split; [done|]. split; [done|]. by exists a.
Qed.

Lemma new_prediction_value id q r : new_ModelAcceptabilityPrediction id (PyFloat q) = Ok r ->
  r = mk_ModelAcceptabilityPrediction id q /\ Probability_ok q = true.
Proof.
  unfold new_ModelAcceptabilityPrediction. rewrite validated_probability_spec. cbn [py_float]. rsimpl.
  destruct (Probability_ok q) eqn:V; [|by destruct (isinstance _ _)]. intros H. apply bind_ok in H as (u & _ & H). by injection H as <-.
Qed.

(** What the predictor says is what the pipeline says. *)
Definition predicted_by (f : RoutingRequestFeatures) (m : ModelConfig) (q : ModelAcceptabilityPrediction) : Prop :=
  mp_model_id q = model_id m /\ probability_of f m = Ok (mp_predicted_acceptability q) /\ Probability_ok (mp_predicted_acceptability q) = true.

Context (s : SklearnQualityPredictor) (S : sk_pipeline s = p).

Lemma predictor_predicts f cs ps : sklearn_predict s f cs = Ok ps -> Forall2 (predicted_by f) cs ps.
Proof.
  unfold sklearn_predict. intros H. destruct (rf_category f) as [c|]; [|done]. do 3 apply bind_ok in H as (? & _ & H).
  apply bind_ok in H as (canonical & C & H).
  assert (X : exists qs, Forall2 (fun m q => probability_of f m = Ok q) cs qs /\
    result_map (fun cp => new_ModelAcceptabilityPrediction (model_id cp.1) (PyFloat cp.2)) (zip cs qs) = Ok ps).
  { destruct canonical as [|c0 canonical].
    - apply result_map_ok in C. inversion C; subst. injection H as <-. by exists [].
    - apply bind_ok in H as (matrix & M & H). apply bind_ok in H as (rows & P & H). apply bind_ok in H as (qs & Q & H).
      rewrite S in P. exists qs. split; [|done]. by apply (probabilities_ok f cs _ _ _ _ C M P Q). }
  destruct X as (qs & F & X). apply result_map_ok in X. clear -F X. revert ps X.
  induction F as [|m q cs qs Hq _ IH]; intros ps X; cbn in X; inversion X as [|? r ? ps' Hr T]; subst; constructor; [|by apply IH].
  apply new_prediction_value in Hr as [-> V]. done.
Qed.

Lemma service_priced f cs v res : @route_features_with_snapshot (sklearn_quality_predictor s) None f cs v = Ok res ->
  exists priced, Forall2 (priced_by f) cs priced /\ Policy.route priced v = Ok (rr_decision res).
Proof.
  intros H. apply route_features_ok in H as (el & ps & priced & -> & N & P & C & F & D & _). exists priced. split; [|done].
  apply check_predictions_ok in C as (Np & _ & _). apply predictor_predicts in P.
  eapply Forall2_impl; [exact (Forall2_members _ _ _ F)|]. intros m c [Hm Hc]. apply price_candidate_ok in Hc as (I & V & Q & A).
  split; [done|]. split; [done|]. split; [|done]. apply prediction_for_unique in Q; [|done].
  apply list_elem_of_lookup in Q as (i & Q). destruct (Forall2_lookup_r _ _ _ _ _ P Q) as (m' & M & I' & Pr & _). cbn in I', Pr.
  rewrite <- Pr. f_equal. apply (NoDup_fmap_inj_on model_id cs); [done..|by apply list_elem_of_lookup_2 in M|done].
Qed.

(** The service, on the candidates in any order, decides as the policy does on
    the reference predictions. *)
Lemma service_is_reference f cs cs' refs v d : Forall2 (priced_by f) cs refs -> cs ≡ₚ cs' ->
  @route_features (sklearn_quality_predictor s) None f cs' v = Ok d -> Policy.route refs v = Ok d.
Proof.
  intros F E H. unfold route_features in H. apply bind_ok in H as (res & H & D). injection D as <-.
  apply service_priced in H as (priced & Fp & D). destruct (Permutation_Forall2 E F) as (refs' & E' & F').
  rewrite <- (priced_by_unique _ _ _ _ F' Fp) in D. rewrite <- D. apply route_permutation; [|done]. by apply (priced_valid f cs).
Qed.

(** ** The counters *)

(** After [k] decisions that agreed. *)
Definition parities (k : Z) (d : DecisionParity) : Prop := d = mk_DecisionParity k k k k k k k true true.

Definition compared (k : Z) (s : PredictionParity) : Prop := s = mk_PredictionParity k k f_zero.

Lemma parities_next k st d : RoutingDecision_ok d = true -> parities k st ->
  parities (k + 1) (confirm_decision (compare_decision st d d) d d d).
Proof.
  intros V ->. unfold parities, confirm_decision, compare_decision. cbn -[Z.add decision_equal d_eqb].
  rewrite !bool_decide_eq_true_2, Z.eqb_refl, !Bool.eqb_reflx, decision_equal_refl by done.
  unfold RoutingDecision_ok in V. unfold d_eqb. by rewrite (tc_refl d_cmp).
Qed.

Lemma compared_next f cs : forall ps refs k st, Forall2 (predicted_by f) cs ps -> Forall2 (priced_by f) cs refs -> compared k st ->
  compared (k + Z.of_nat (length cs)) (fold_left compare_prediction (zip ps refs) st).
Proof.
  induction cs as [|m cs IH]; intros ps refs k st P F C; inversion P as [|? q ? ps' Hq P']; subst; inversion F as [|? c ? refs' Hc F']; subst.
  - cbn. by rewrite Z.add_0_r.
  - cbn [zip zip_with fold_left length]. replace (k + Z.of_nat (Datatypes.S (length cs)))%Z with (k + 1 + Z.of_nat (length cs))%Z by lia.
    apply IH; [done..|]. destruct Hq as (_ & Q & V), Hc as (_ & _ & Q' & _). rewrite Q in Q'. injection Q' as Q'.
    unfold compare_prediction, compared. cbn [fst snd]. rewrite <- Q', no_difference by (unfold Probability_ok in V; by bools).
    rewrite C. reflexivity.
Qed.

(** ** One threshold, one task, all tasks *)

Section Run.
Context (r : InferenceRequest) (category : RoutingCategory) (structured : bool) (f : RoutingRequestFeatures) (refs : list CandidatePrediction).
Context (X : extract r (Some (RoutingCategory_value category)) structured = Ok f).
Context (F : Forall2 (priced_by f) CANDIDATE_MODELS refs).

Lemma composed_decides cs t : CANDIDATE_MODELS ≡ₚ cs ->
  agrees (fun d => Policy.route refs (PyFloat t) = Ok d) (composed_route s r category structured cs t).
Proof.
  intros E. unfold composed_route, Routing.route, route_with_snapshot. rewrite X. rsimpl.
  change (path_predictor s) with (sklearn_quality_predictor s).
  destruct (@route_features_with_snapshot (sklearn_quality_predictor s) None f cs (PyFloat t)) as [res|e] eqn:D; cbn; [|by eexists].
  apply (service_is_reference f CANDIDATE_MODELS cs refs); [done..|]. unfold route_features. by rewrite D.
Qed.

Lemma check_threshold_agrees st t k : parities k (ps_decisions st) ->
  agrees (fun st' => ps_predictions st' = ps_predictions st /\ parities (k + 1) (ps_decisions st'))
    (check_threshold s r category structured refs st t).
Proof.
  intros K. unfold check_threshold. destruct (priced_valid _ _ _ F) as [I V].
  eapply agrees_bind; [by apply composed_decides|]. intros d D. cbv beta in D.
  pose proof (route_outcomes refs (PyFloat t.2) V) as O. rewrite D in O. destruct O as (_ & _ & _ & Vd & Id & _).
  rewrite D. cbn [call on_error]. rsimpl.
  eapply agrees_bind; [by apply composed_decides|]. intros d1 D1. cbv beta in D1. assert (d1 = d) as -> by congruence.
  eapply agrees_bind; [by apply composed_decides, Permutation_rev|]. intros d2 D2. cbv beta in D2. assert (d2 = d) as -> by congruence.
  eapply agrees_bind; [apply agrees_guard; by apply decision_equal_refl|]. intros [] _.
  eapply agrees_bind; [apply agrees_guard; apply bool_decide_eq_true; by rewrite <- I|]. intros [] _.
  eapply agrees_bind; [apply agrees_call|]. intros thresholds _. cbn [agrees ps_predictions ps_decisions]. split; [done|].
  by apply parities_next.
Qed.

Lemma check_thresholds_agrees ts : StronglySorted (fun a b : pystr * float => f_leb a.2 b.2 = true) ts -> forall previous st k,
  (forall q t, previous = Some q -> t ∈ ts -> qualifying_models refs t.2 ⊆ q) -> parities k (ps_decisions st) ->
  agrees (fun st' => ps_predictions st' = ps_predictions st /\ parities (k + Z.of_nat (length ts)) (ps_decisions st'))
    (check_thresholds s r category structured refs previous ts st).
Proof.
  induction 1 as [|t ts _ IH L]; intros previous st k P K; cbn [check_thresholds length].
  - cbn. by rewrite Z.add_0_r.
  - cbv zeta. eapply agrees_bind; [apply agrees_guard|].
    + destruct previous as [q|]; [|done]. apply subset_of_true. apply (P q t); [done|apply elem_of_cons; by left].
    + intros [] _. eapply agrees_bind; [by apply check_threshold_agrees|]. intros st' [E K'].
      replace (k + Z.of_nat (Datatypes.S (length ts)))%Z with (k + 1 + Z.of_nat (length ts))%Z by lia.
      rewrite <- E. apply IH; [|done]. intros q u [= <-] Hu. apply qualifying_shrinks. rewrite Forall_forall in L. by apply L.
Qed.
End Run.

Lemma thresholds_ascend : StronglySorted (fun a b : pystr * float => f_leb a.2 b.2 = true) THRESHOLDS.
Proof. repeat constructor. Qed.

(** After [n] tasks. *)
Definition state_agrees (n : Z) (st : PathState) : Prop :=
  compared (n * Z.of_nat (length CANDIDATE_MODELS)) (ps_predictions st) /\
  parities (n * Z.of_nat (length THRESHOLDS)) (ps_decisions st).

Lemma check_task_agrees n st t : state_agrees n st -> agrees (state_agrees (n + 1)) (check_task s p st t).
Proof.
  intros [C K]. unfold check_task. eapply agrees_bind; [apply agrees_call|]. intros request _.
  eapply agrees_bind; [apply agrees_call|]. intros category _. cbv zeta.
  eapply agrees_bind; [apply agrees_call|]. intros f X. cbv beta in X.
  eapply agrees_bind; [apply agrees_call|]. intros production P%predictor_predicts.
  eapply agrees_bind; [apply agrees_call|]. intros refs F%reference_priced.
  eapply agrees_bind; [apply agrees_guard, bool_decide_eq_true|].
  { destruct (priced_valid _ _ _ F) as [-> _]. clear -P. induction P as [|m q cs ps (I & _) _ IH]; [done|]. cbn [map]. by rewrite I, IH. }
  intros [] _. pose proof (check_thresholds_agrees request category _ f refs X F THRESHOLDS thresholds_ascend None
    (mk_PathState (fold_left compare_prediction (zip production refs) (ps_predictions st)) (ps_decisions st) (ps_thresholds st)) _
    ltac:(done) K) as A.
  destruct (check_thresholds _ _ _ _ _ _ _ _) as [st'|e]; [|exact A]. cbn in A |- *. destruct A as [E K'].
  split; [rewrite E|]; rewrite Z.mul_add_distr_r, Z.mul_1_l; [by apply (compared_next f)|exact K'].
Qed.

Lemma check_tasks_agrees ts : forall n st, state_agrees n st ->
  agrees (state_agrees (n + Z.of_nat (length ts))) (check_tasks s p ts st).
Proof.
  induction ts as [|t ts IH]; intros n st A; cbn [check_tasks length].
  - cbn. by rewrite Z.add_0_r.
  - eapply agrees_bind; [by apply check_task_agrees|]. intros st' A'.
    replace (n + Z.of_nat (Datatypes.S (length ts)))%Z with (n + 1 + Z.of_nat (length ts))%Z by lia. by apply IH.
Qed.
End Pipeline.
End Agreement.

(** C39. The composed routing path never disagrees with its reference.  While the
    pipeline of the artifact scores row by row, the check of the production path
    raises none of its four errors: whatever it raises, one of its parts raised.
    If it reports, every prediction and every decision agreed, no probability
    differed, decisions were repeated exactly and did not depend on the order of
    the candidates.  It reports on artifacts of the first format only, with the
    digest their metadata has; for a production artifact, whose metadata has no
    such field, it always raises. *)
Theorem production_path_agrees `{R : PredictorRuntime} `{UD : UnicodeData} d dataset :
  (forall p m, snd (load_trusted_quality_artifact d) = Ok (p, m) -> row_wise p) ->
  match path_report d dataset with
  | Raise e => (exists x, e = Raised x)
  | Ok rp =>
      let n := reference_requests rp in
      candidate_predictions rp = mk_PredictionParity (n * 4) (n * 4) f_zero /\
      routing_decisions rp = mk_DecisionParity (n * 6) (n * 6) (n * 6) (n * 6) (n * 6) (n * 6) (n * 6) true true /\
      exists p md, snd (load_trusted_quality_artifact d) = Ok (p, LegacyMetadata md) /\
        artifact_model_sha256 rp = qa_model_sha256 md
  end.
Proof.
  intros W.
  change (agrees (fun rp => let n := reference_requests rp in
    candidate_predictions rp = mk_PredictionParity (n * 4) (n * 4) f_zero /\
    routing_decisions rp = mk_DecisionParity (n * 6) (n * 6) (n * 6) (n * 6) (n * 6) (n * 6) (n * 6) true true /\
    exists p md, snd (load_trusted_quality_artifact d) = Ok (p, LegacyMetadata md) /\
      artifact_model_sha256 rp = qa_model_sha256 md) (path_report d dataset)).
  unfold path_report. eapply agrees_bind; [apply agrees_call|]. intros [p m] L. cbv beta in L.
  eapply agrees_bind; [apply agrees_call|]. intros s S. cbv beta in S. cbn [fst snd].
  assert (Sp : sk_pipeline s = p).
  { unfold sklearn_from_artifact, new_SklearnQualityPredictor in S. rewrite L in S. cbn in S. apply bind_ok in S as (u & _ & S). by injection S as <-. }
  destruct (W p m L) as [g G]. eapply agrees_bind; [apply agrees_call|]. intros ds _.
  eapply agrees_bind; [apply (check_tasks_agrees p g G s Sp (tasks ds) 0); split; reflexivity|]. intros st [C K]. cbv zeta.
  eapply agrees_bind; [apply agrees_call|]. intros thresholds _.
  eapply agrees_bind; [apply agrees_call|]. intros digest D. cbv beta in D.
  cbn [agrees reference_requests candidate_predictions routing_decisions artifact_model_sha256].
  split; [exact C|]. split; [exact K|]. destruct m as [md|md]; [|discriminate D]. injection D as <-. by exists p, md.
Qed.

(** ** Examples *)

Lemma example_row_wise (p : Pipeline (PredictorRuntime := example_runtime)) : row_wise p.
Proof.
  exists (fun _ => Ok [f_of_ratio 1 10; f_of_ratio 9 10]). intros m. cbn. induction m as [|x m IH]; [done|]. cbn. by rewrite <- IH.
Qed.

Definition path_task : BenchmarkTask :=
  mk_BenchmarkTask (py "Is 7 prime? Explain.") None 64 f_zero (py "qa-001") BC_QA EO_text [] None [] None None None None None None.

Definition path_dataset : result exn BenchmarkDataset := Ok (mk_BenchmarkDataset (py "d") (py "3") [path_task] []).

(** An artifact of the first format, as it is written, and one for production. *)
Definition legacy_artifact : list N * QualityPredictorArtifactMetadata :=
  written_artifact (R := example_runtime) tt FOUNDATION_V3_CANDIDATE_IDS all_categories 216 8.

Definition legacy_directory : artifact_directory :=
  mk_artifact_directory (fun _ => true) (Ok (Some (Ok (LegacyMetadata legacy_artifact.2)))) (fun _ => Ok legacy_artifact.1).

Lemma production_path_agrees_witness :
  (exists rp, path_report (R := example_runtime) (UD := ascii_tables) legacy_directory path_dataset = Ok rp /\
    decision_parity (routing_decisions rp) = 6%Z /\ prediction_parity (candidate_predictions rp) = 4%Z /\
    artifact_model_sha256 rp = qa_model_sha256 legacy_artifact.2) /\
  path_report (R := example_runtime) (UD := ascii_tables) production_directory path_dataset =
    Raise (Raised (Exn C_AttributeError)).
Proof.
  split; [|vm_compute; reflexivity].
  pose proof (production_path_agrees (R := example_runtime) (UD := ascii_tables) legacy_directory path_dataset
    (fun p m _ => example_row_wise p)) as H.
  destruct (path_report (R := example_runtime) (UD := ascii_tables) legacy_directory path_dataset) as [rp|e] eqn:E;
    [|vm_compute in E; discriminate E].
  exists rp. split; [reflexivity|]. destruct H as (C & D & _). rewrite C, D.
  assert (N : reference_requests rp = 1%Z) by (vm_compute in E; injection E as <-; reflexivity).
  assert (S : artifact_model_sha256 rp = qa_model_sha256 legacy_artifact.2) by (vm_compute in E |- *; injection E as <-; reflexivity).
  rewrite N. split; [reflexivity|]. split; [reflexivity|exact S].
Defined.
