(* ===== verification/MLDiagnostics.v ===== *)
(** * Diagnostics of the learned router ([routing/ml_diagnostics.py])

    How predictions rank the candidates of a request, where labels disagree, and
    how a learned choice compares with the rules.  The four pipelines, their
    metrics, the probability statistics of numpy and the reports are not
    modelled; probabilities are numbers. *)
From S2P Require Import Prelude PyStr PyFloat PyDecimal PyNum Schemas Json PyRepr Errors PyStats BenchmarkModels Aggregation RoutingExport RoutingAnalysis MLFeatures MLExperiment.

Definition CANDIDATE_ONLY : pystr := py "CANDIDATE_ONLY".
Definition REQUEST_ONLY : pystr := py "REQUEST_ONLY".
Definition FULL_ADDITIVE : pystr := py "FULL_ADDITIVE".
Definition CATEGORY_CANDIDATE_INTERACTION : pystr := py "CATEGORY_CANDIDATE_INTERACTION".
Definition DIAGNOSTIC_VARIANTS : list pystr := [CANDIDATE_ONLY; REQUEST_ONLY; FULL_ADDITIVE; CATEGORY_CANDIDATE_INTERACTION].
Definition INTERACTION_FEATURE : pystr := py "category_candidate".

Definition REQUEST_NUMERIC_FEATURES : list pystr :=
  map py ["prompt_characters"; "approximate_input_tokens"; "requested_max_output_tokens"; "constraint_indicator_count";
          "reasoning_indicator_count"]%string.
Definition REQUEST_BOOLEAN_FEATURES : list pystr := map py ["contains_code"; "requests_structured_output"]%string.

(** ** Representations *)

Record FeatureRepresentation := mk_FeatureRepresentation {
  categorical : list pystr;
  numeric : list pystr;
  boolean : list pystr
}.

(** [FeatureRepresentation.features] *)
Definition representation_features (r : FeatureRepresentation) : list pystr := categorical r ++ numeric r ++ boolean r.

Definition REPRESENTATIONS : list (pystr * FeatureRepresentation) :=
  [(CANDIDATE_ONLY, mk_FeatureRepresentation [py "candidate_id"] [] []);
   (REQUEST_ONLY, mk_FeatureRepresentation [py "category"] REQUEST_NUMERIC_FEATURES REQUEST_BOOLEAN_FEATURES);
   (FULL_ADDITIVE, mk_FeatureRepresentation CATEGORICAL_FEATURES NUMERIC_FEATURES BOOLEAN_FEATURES);
   (CATEGORY_CANDIDATE_INTERACTION,
    mk_FeatureRepresentation (CATEGORICAL_FEATURES ++ [INTERACTION_FEATURE]) NUMERIC_FEATURES BOOLEAN_FEATURES)].

(** [_feature_value] *)
Definition feature_value_of (r : MLExperimentRow) (name : pystr) : result exn feature_value :=
  if bool_decide (name = INTERACTION_FEATURE) then Ok (FV_str (ml_category r ++ py "::" ++ ml_candidate_id r))
  else match dict_get (features r) name with Some v => Ok v | None => Raise (Exn C_KeyError) end.

Definition diagnostic_feature_matrix (l : list MLExperimentRow) (variant : pystr) : result exn (list (list feature_value)) :=
  match dict_get REPRESENTATIONS variant with
  | None => Raise (Exn C_KeyError)
  | Some r => result_map (fun row => result_map (feature_value_of row) (representation_features r)) l
  end.

(** ** Requests whose labels disagree *)

(** [disagreement_tasks] *)
Definition disagreement_tasks (ds : MLExperimentDataset) : list pystr :=
  py_sorted (cmp_le str_cmp)
    (map fst (List.filter (fun g => same_elements (map ml_acceptable (List.filter ml_valid g.2)) [Some false; Some true])
                (ml_by_task (rows ds)))).

(** ** Rankings *)

(** [math.isclose(a, b, abs_tol=1e-12)] *)
Definition REL_TOL : float := f_of_ratio 1 1000000000.
Definition ABS_TOL : float := f_of_ratio 1 1000000000000.

Definition isclose (a b : float) : bool :=
  f_eqb a b ||
  f_isfinite a && f_isfinite b &&
  (let diff := f_abs (f_sub b a) in
   f_leb diff (f_abs (f_mul REL_TOL b)) || f_leb diff (f_abs (f_mul REL_TOL a)) || f_leb diff ABS_TOL).

(** The order of (- probability, candidate). *)
Definition rank_cmp : Prediction -> Prediction -> comparison :=
  lex_cmp (on_key (fun p => f_neg (predicted_probability p)) f_cmp) (on_key pn_candidate_id str_cmp).

Inductive PairOutcome := PO_tie | PO_correct | PO_incorrect.

#[export] Instance PairOutcome_eq_dec : EqDecision PairOutcome.
Proof. solve_decision. Defined.

Definition pair_outcome (pn : Prediction * Prediction) : PairOutcome :=
  let delta := f_sub (predicted_probability pn.1) (predicted_probability pn.2) in
  if isclose delta f_zero then PO_tie else if f_ltb f_zero delta then PO_correct else PO_incorrect.

Definition pn_target (b : bool) (p : Prediction) : bool := bool_decide (target p = Some b).

(** The pairs of an acceptable and an unacceptable candidate of a request. *)
Definition label_pairs (candidates : list Prediction) : list (Prediction * Prediction) :=
  let valid := List.filter pn_valid candidates in
  flat_map (fun p => map (pair p) (List.filter (pn_target false) valid)) (List.filter (pn_target true) valid).

Record TopRecord := mk_TopRecord {
  tr_task_id : pystr;
  tr_candidate_id : pystr;
  tr_predicted_probability : float;
  top_probability_tie_count : Z;
  tr_label_status : LabelStatus;
  tr_acceptable : option bool;
  tr_quality_score : option float
}.

(** What one request contributes. *)
Record RankedRequest := mk_RankedRequest {
  rq_top : TopRecord;
  rq_size : Z;
  rq_gap : float;
  rq_outcomes : list PairOutcome;
  rq_agrees : bool;
  rq_qualities : option (float * float)
}.

(** [max] of a list of floats *)
Definition f_max_of (l : list float) : result exn float :=
  match l with [] => Raise (Exn C_ValueError) | x :: r => Ok (min_from (fun a b => f_ltb b a) x r) end.

Definition row_lookup (index : list ((pystr * pystr) * MLExperimentRow)) (task candidate : pystr) : result exn MLExperimentRow :=
  match dict_get index (task, candidate) with Some r => Ok r | None => Raise (Exn C_KeyError) end.

(** The selected quality and the best one, when the selected row has one. *)
Definition quality_pair (index : list ((pystr * pystr) * MLExperimentRow)) (task : pystr) (candidates : list Prediction)
    (observed : MLExperimentRow) : result exn (option (float * float)) :=
  match ml_label_status observed, ml_quality_score observed with
  | LS_valid, Some quality =>
      valid ← result_map (fun p => row_lookup index task (pn_candidate_id p)) (List.filter pn_valid candidates);
      best ← f_max_of (omap ml_quality_score valid);
      Ok (Some (quality, best))
  | _, _ => Ok None
  end.

(** One round of the loop of [_rank_variant]. *)
Definition rank_request (index : list ((pystr * pystr) * MLExperimentRow)) (g : pystr * list Prediction) : result exn RankedRequest :=
  match py_sorted (cmp_le rank_cmp) g.2 with
  | selected :: second :: _ =>
      let highest := predicted_probability selected in
      observed ← row_lookup index g.1 (pn_candidate_id selected);
      let outcomes := map pair_outcome (label_pairs g.2) in
      let valid := List.filter pn_valid g.2 in
      let one_sided := negb (existsb (pn_target true) valid && existsb (pn_target false) valid) in
      qualities ← quality_pair index g.1 g.2 observed;
      Ok (mk_RankedRequest
            (mk_TopRecord g.1 (pn_candidate_id selected) highest
               (count (fun p => isclose (predicted_probability p) highest) g.2)
               (ml_label_status observed) (ml_acceptable observed) (ml_quality_score observed))
            (Z.of_nat (length g.2)) (f_sub highest (predicted_probability second)) outcomes one_sided qualities)
  | _ => Raise (Exn C_IndexError)
  end.

Record Ranking := mk_Ranking {
  rk_request_count : Z;
  top_1_valid_labels : Z;
  top_1_valid_label_coverage : option float;
  top_1_acceptable : Z;
  top_1_acceptable_rate : option float;
  top_1_tied_requests : Z;
  candidate_ranking_informative : bool;
  top_1_distribution : list (pystr * Z);
  mean_best_second_probability_gap : float;
  rk_pairs : Z;
  rk_correct : Z;
  rk_ties : Z;
  rk_incorrect : Z;
  strict_accuracy : option float;
  tie_adjusted_accuracy : option float;
  requests_without_valid_label_disagreement : Z;
  rk_valid_top_1 : Z;
  exact_best_quality_count : Z;
  exact_best_quality_rate : option float;
  mean_selected_quality : option float;
  mean_best_available_quality : option float;
  mean_quality_regret : option float;
  top_1_records : list TopRecord
}.

(** [n / d if d else None] *)
Definition share (n d : Z) : option float := if (d =? 0)%Z then None else Some (ratio n d).

Definition top_valid (t : TopRecord) : bool := bool_decide (tr_label_status t = LS_valid).
Definition top_accepted (t : TopRecord) : bool := top_valid t && bool_decide (tr_acceptable t = Some true).

Definition outcome_count (o : PairOutcome) (qs : list RankedRequest) : Z :=
  count (fun x => bool_decide (x = o)) (concat (map rq_outcomes qs)).

(** [(correct + 0.5 * ties) / pairs] *)
Definition adjusted_accuracy (correct ties pairs : Z) : option float :=
  if (pairs =? 0)%Z then None
  else Some (f_div (f_add (f_of_Z correct) (f_mul (f_of_ratio 1 2) (f_of_Z ties))) (f_of_Z pairs)).

(** [_rank_variant] *)
Definition rank_variant (records : list Prediction) (index : list ((pystr * pystr) * MLExperimentRow))
    (task_filter : option (list pystr)) : result exn Ranking :=
  let kept := match task_filter with
              | None => records
              | Some ts => List.filter (fun p => bool_decide (pn_task_id p ∈ ts)) records
              end in
  qs ← result_map (rank_request index) (sorted_groups str_cmp (group_by pn_task_id kept));
  let tops := map rq_top qs in
  let requests := Z.of_nat (length qs) in
  let valid := count top_valid tops in
  let good := count top_accepted tops in
  gap ← fmean (map rq_gap qs);
  let pairs := Z.of_nat (length (concat (map rq_outcomes qs))) in
  let qualities := omap rq_qualities qs in
  let exact := count (fun sb => f_eqb sb.1 sb.2) qualities in
  mean_selected ← unless_empty fmean (map fst qualities);
  mean_best ← unless_empty fmean (map snd qualities);
  regret ← unless_empty fmean (map (fun sb => f_sub sb.2 sb.1) qualities);
  Ok (mk_Ranking requests valid (share valid requests) good (share good valid)
        (count (fun t => (1 <? top_probability_tie_count t)%Z) tops)
        (negb (forallb (fun q => (top_probability_tie_count (rq_top q) =? rq_size q)%Z) qs))
        (map (fun g => (g.1, Z.of_nat (length g.2))) (sorted_groups str_cmp (group_by tr_candidate_id tops)))
        gap pairs (outcome_count PO_correct qs) (outcome_count PO_tie qs) (outcome_count PO_incorrect qs)
        (share (outcome_count PO_correct qs) pairs) (adjusted_accuracy (outcome_count PO_correct qs) (outcome_count PO_tie qs) pairs)
        (count rq_agrees qs) (Z.of_nat (length qualities)) exact (share exact (Z.of_nat (length qualities)))
        mean_selected mean_best regret tops).

(** [within_request_diagnostics] *)
Record WithinRequest := mk_WithinRequest {
  wr_disagreement_task_ids : list pystr;
  no_disagreement_request_count : Z;
  wr_variants : list (pystr * (Ranking * Ranking))
}.

Definition within_request_diagnostics (ds : MLExperimentDataset) (records : list Prediction) : result exn WithinRequest :=
  let disagreement := disagreement_tasks ds in
  variants ← result_map (fun v =>
    let selected := List.filter (fun p => bool_decide (pn_variant p = v)) records in
    a ← rank_variant selected (row_index ds) None;
    d ← rank_variant selected (row_index ds) (Some disagreement);
    Ok (v, (a, d))) DIAGNOSTIC_VARIANTS;
  Ok (mk_WithinRequest (py_sorted (cmp_le str_cmp) disagreement) (56 - Z.of_nat (length disagreement)) variants).

(** ** Learned choices and the rules *)

(** [_rule_branch] *)
Definition rule_branch (f : RequestFeatures) : pystr * pystr :=
  if is_category f "coding" || qf_contains_code f then (py "1_coding_or_code", RULE_1)
  else if is_category f "reasoning" || (3 <=? qf_reasoning_indicator_count f)%Z then (py "2_reasoning", RULE_2)
  else if qf_requests_structured_output f then (py "3_structured_output", RULE_3)
  else if is_category f "qa" then (py "4_qa", RULE_4)
  else (py "5_default", RULE_5).

Inductive ChoiceOutcome := CH_rule_only | CH_ml_only | CH_both | CH_neither | CH_missing.

#[export] Instance ChoiceOutcome_eq_dec : EqDecision ChoiceOutcome.
Proof. solve_decision. Defined.

Definition ChoiceOutcome_value (o : ChoiceOutcome) : pystr :=
  match o with
  | CH_rule_only => py "rule_acceptable_ml_unacceptable"
  | CH_ml_only => py "ml_acceptable_rule_unacceptable"
  | CH_both => py "both_acceptable"
  | CH_neither => py "neither_acceptable"
  | CH_missing => py "one_or_both_labels_missing"
  end.

Definition CHOICE_OUTCOMES : list ChoiceOutcome := [CH_rule_only; CH_ml_only; CH_both; CH_neither; CH_missing].

Definition choice_outcome (rule ml : RowObservation) : ChoiceOutcome :=
  if negb (is_valid rule) || negb (is_valid ml) then CH_missing
  else match accepted rule, accepted ml with
       | true, false => CH_rule_only
       | false, true => CH_ml_only
       | true, true => CH_both
       | false, false => CH_neither
       end.

Record ChoiceDetail := mk_ChoiceDetail {
  cd_task_id : pystr;
  rule_candidate_id : pystr;
  ml_choice_id : pystr;
  outcome_bucket : ChoiceOutcome
}.

Record ChoiceComparison := mk_ChoiceComparison {
  cc_requests : Z;
  agreement_count : Z;
  disagreement_count : Z;
  disagreement_outcomes : list (pystr * Z);
  disagreements : list ChoiceDetail
}.

(** [str(decision.candidate_id)] *)
Definition chosen_text (d : RoutingDecision) : pystr := default (py "None") (dn_candidate_id d).

Definition decisions_by_task (ds : list RoutingDecision) : list (pystr * RoutingDecision) := dict_of dn_task_id (fun d => d) ds.

(** One task of the comparison: nothing when the choices agree. *)
Definition compare_choice (ml : list (pystr * RoutingDecision)) (obs : list RowObservation) (entry : pystr * RoutingDecision) :
    result exn (option ChoiceDetail) :=
  let '(task, d) := entry in
  m ← match dict_get ml task with Some m => Ok m | None => Raise (Exn C_KeyError) end;
  if bool_decide (chosen_text d = chosen_text m) then Ok None
  else
    rule ← match row_at obs task (chosen_text d) with Some o => Ok o | None => Raise (Exn C_KeyError) end;
    other ← match row_at obs task (chosen_text m) with Some o => Ok o | None => Raise (Exn C_KeyError) end;
    Ok (Some (mk_ChoiceDetail task (chosen_text d) (chosen_text m) (choice_outcome rule other))).

(** [_compare_choices] *)
Definition compare_choices (rule_decisions ml_decisions : list RoutingDecision) (obs : list RowObservation) :
    result exn ChoiceComparison :=
  let by_rule := decisions_by_task rule_decisions in
  let by_ml := decisions_by_task ml_decisions in
  _ ← guard_else (same_elements (dict_keys by_rule) (dict_keys by_ml)) (Exn C_ValueError);
  compared ← result_map (compare_choice by_ml obs) (py_sorted (cmp_le (on_key fst str_cmp)) by_rule);
  let details := omap (fun c => c) compared in
  let agreement := count (fun c => negb (is_some c)) compared in
  let n := Z.of_nat (length by_rule) in
  Ok (mk_ChoiceComparison n agreement (n - agreement)
        (py_sorted (cmp_le (on_key fst str_cmp))
           (map (fun o => (ChoiceOutcome_value o, count (fun c => bool_decide (outcome_bucket c = o)) details)) CHOICE_OUTCOMES))
        details).

(** The decision for the prediction that ranks first. *)
Definition top_decision (variant : pystr) (g : pystr * list Prediction) : result exn RoutingDecision :=
  match g.2 with
  | [] => Raise (Exn C_ValueError)
  | p :: ps =>
      let best := min_from (cmp_lt rank_cmp) p ps in
      Ok (mk_RoutingDecision (variant ++ py ":TOP_1") g.1 (Some (pn_candidate_id best)) (py "highest OOF probability"))
  end.

Section Routing.
Context {UD : UnicodeData}.

Definition of_variant (v : pystr) (records : list Prediction) : list Prediction := List.filter (fun p => bool_decide (pn_variant p = v)) records.

(** The decisions of a variant at a threshold, one for each task it predicts. *)
Definition threshold_decisions (ds : MLExperimentDataset) (policy above fallback : pystr) (threshold : float)
    (records : list Prediction) : result exn (list RoutingDecision * Z) :=
  selections ← result_map (select_task ds threshold) (sorted_groups str_cmp (group_by pn_task_id records));
  Ok (map (selection_decision policy above fallback) selections, count se_fallback_used selections).

Record ThresholdSummary := mk_ThresholdSummary { ts_summary : PolicySummary; ts_fallback_count : Z; ts_fallback_rate : float }.

(** [disagreement_routing_diagnostics] *)
Definition disagreement_routing_diagnostics (frozen : FrozenRoutingData) (ds : MLExperimentDataset) (records : list Prediction) :
    result exn (list (pystr * list (pystr * ThresholdSummary))) :=
  let tasks := disagreement_tasks ds in
  let obs := List.filter (fun o => bool_decide (ob_task_id o ∈ tasks)) (observations frozen) in
  result_map (fun v =>
    let kept := List.filter (fun p => bool_decide (pn_task_id p ∈ tasks)) (of_variant v records) in
    thresholds ← result_map (fun t =>
      '(ds', fallbacks) ← threshold_decisions ds (v ++ py "@" ++ t.1 ++ py ":DISAGREEMENT")
                            (py "lowest projected cost above threshold") (py "highest probability fallback") t.2 kept;
      '(summary, _) ← evaluate_decisions obs ds';
      rate ← true_division fallbacks (Z.of_nat (length tasks));
      Ok (t.1, mk_ThresholdSummary summary fallbacks rate)) THRESHOLDS;
    Ok (v, thresholds)) [FULL_ADDITIVE; CATEGORY_CANDIDATE_INTERACTION].

Record Branch := mk_Branch {
  br_rule : pystr;
  br_request_count : Z;
  selected_candidate : option pystr;
  br_summary : PolicySummary
}.

(** The branch of the rules that some requests take. *)
Definition branch_of (frozen : FrozenRoutingData) (decisions : list (pystr * RoutingDecision)) (g : pystr * list PolicyRequest) :
    result exn (pystr * Branch) :=
  let ids := map pr_task_id g.2 in
  let obs := List.filter (fun o => bool_decide (ob_task_id o ∈ ids)) (observations frozen) in
  chosen ← result_map (fun t => match dict_get decisions t with Some d => Ok d | None => Raise (Exn C_KeyError) end)
             (py_sorted (cmp_le str_cmp) ids);
  '(summary, _) ← evaluate_decisions obs chosen;
  match last g.2, chosen with
  | Some r, d :: _ =>
      Ok (g.1, mk_Branch (rule_branch (pr_features r)).2 (Z.of_nat (length ids)) (dn_candidate_id d) summary)
  | _, _ => Raise (Exn C_IndexError)
  end.

Record RuleComparison := mk_RuleComparison {
  branch_analysis : list (pystr * Branch);
  ml_vs_rule : list (pystr * (ChoiceComparison * list (pystr * ChoiceComparison)));
  rc_request_count : Z
}.

(** [rule_based_comparison] *)
Definition rule_based_comparison (frozen : FrozenRoutingData) (ds : MLExperimentDataset) (records : list Prediction) :
    result exn RuleComparison :=
  rule_decisions ← result_map (rp_select RuleBasedV1Policy) (requests frozen);
  branches ← result_map (branch_of frozen (decisions_by_task rule_decisions))
               (sorted_groups str_cmp (group_by (fun r => (rule_branch (pr_features r)).1) (requests frozen)));
  comparisons ← result_map (fun v =>
    let kept := of_variant v records in
    tops ← result_map (top_decision v) (sorted_groups str_cmp (group_by pn_task_id kept));
    ranked ← compare_choices rule_decisions tops (observations frozen);
    thresholds ← result_map (fun t =>
      '(chosen, _) ← threshold_decisions ds (v ++ py "@" ++ t.1) (py "qualified projected-cost choice") (py "fallback") t.2 kept;
      c ← compare_choices rule_decisions chosen (observations frozen);
      Ok (t.1, c)) THRESHOLDS;
    Ok (v, (ranked, thresholds))) [FULL_ADDITIVE; CATEGORY_CANDIDATE_INTERACTION];
  Ok (mk_RuleComparison branches comparisons (Z.of_nat (length (remove_dups (map pr_task_id (requests frozen)))))).
End Routing.

(** ** Rankings account for every request and pair *)

(** Decisions between constructors. *)
Ltac decide_constructors :=
  repeat match goal with
  | |- context [bool_decide (?a = ?b)] =>
      let r := eval vm_compute in (bool_decide (a = b)) in
      match r with true => idtac | false => idtac end; change (bool_decide (a = b)) with r
  end.

Lemma outcome_counts (l : list PairOutcome) :
  (count (fun x => bool_decide (x = PO_correct)) l + count (fun x => bool_decide (x = PO_tie)) l +
   count (fun x => bool_decide (x = PO_incorrect)) l = Z.of_nat (length l))%Z.
Proof. unfold count. induction l as [|[] l IH]; [done|..]; cbn [List.filter]; decide_constructors; cbn [length]; lia. Qed.

Lemma group_counts_sum {K A} `{EqDecision K} (key : A -> K) cmp l :
  foldr Z.add 0%Z (map snd (map (fun g => (g.1, Z.of_nat (length g.2))) (sorted_groups cmp (group_by key l)))) = Z.of_nat (length l).
Proof. rewrite map_map. cbn [snd]. apply group_lengths. Qed.

(** The ranking is an account: the candidates that rank first add up to the
    requests, acceptable ones are among the valid ones, and every pair of an
    acceptable and an unacceptable candidate is correct, tied or incorrect. *)
Theorem ranking_accounts records index filter k : rank_variant records index filter = Ok k ->
  foldr Z.add 0%Z (map snd (top_1_distribution k)) = rk_request_count k /\
  (top_1_acceptable k <= top_1_valid_labels k <= rk_request_count k)%Z /\
  (rk_correct k + rk_ties k + rk_incorrect k = rk_pairs k)%Z /\ Z.of_nat (length (top_1_records k)) = rk_request_count k.
Proof.
  unfold rank_variant. intros H. apply bind_ok in H as (qs & _ & H). cbv zeta in H.
  do 4 apply bind_ok in H as (? & _ & H). injection H as <-.
  cbn [top_1_distribution rk_request_count top_1_acceptable top_1_valid_labels rk_correct rk_ties rk_incorrect rk_pairs top_1_records].
  rewrite group_counts_sum, length_map. split; [done|]. split; [|split; [apply outcome_counts|done]].
  pose proof (count_le top_valid (map rq_top qs)) as [_ L]. rewrite length_map in L. split; [|exact L].
  unfold top_accepted. rewrite <- filter_filter_count. apply count_le.
Qed.

(** A branch of the rules is one rule and one candidate. *)
Theorem branches_are_rules f f' :
  (rule_branch f).2 = (rule_choice f).2 /\
  ((rule_branch f).1 = (rule_branch f').1 -> rule_choice f = rule_choice f').
Proof.
  unfold rule_branch, rule_choice. split; [by repeat case_match|].
  repeat case_match; cbn [fst]; try done; intros X; vm_compute in X; discriminate X.
Qed.

(** ** The comparison with the rules accounts for every request *)

Lemma omap_some {A} (l : list (option A)) :
  (Z.of_nat (length (omap (fun c => c) l)) + count (fun c => negb (is_some c)) l = Z.of_nat (length l))%Z.
Proof. unfold count. induction l as [|[x|] l IH]; [done|..]; cbn [omap list_omap List.filter is_some negb length]; cbn in *; lia. Qed.

Lemma bucket_counts (l : list ChoiceDetail) :
  foldr Z.add 0%Z (map (fun o => count (fun c => bool_decide (outcome_bucket c = o)) l) CHOICE_OUTCOMES) = Z.of_nat (length l).
Proof.
  unfold CHOICE_OUTCOMES, count. cbn [map foldr]. induction l as [|[t a b o] l IH]; [done|]. cbn [List.filter outcome_bucket].
  destruct o; decide_constructors; cbn [length] in *; lia.
Qed.

(** Every request of the comparison agrees or falls in one bucket. *)
Theorem comparison_accounts rules ml obs c : compare_choices rules ml obs = Ok c ->
  (agreement_count c + disagreement_count c = cc_requests c)%Z /\
  Z.of_nat (length (disagreements c)) = disagreement_count c /\
  foldr Z.add 0%Z (map snd (disagreement_outcomes c)) = disagreement_count c.
Proof.
  unfold compare_choices. intros H. apply bind_ok in H as (u & _ & H). apply bind_ok in H as (l & L & H). cbv zeta in H.
  injection H as <-. cbn [agreement_count disagreement_count cc_requests disagreements disagreement_outcomes].
  apply result_map_ok, Forall2_length in L. rewrite length_py_sorted in L. pose proof (omap_some l) as O.
  split; [lia|]. split; [lia|].
  pose proof (bucket_counts (omap (fun c => c) l)) as B. cbn [CHOICE_OUTCOMES map foldr snd] in B |- *. lia.
Qed.
