(* ===== verification/PolicyValidation.v ===== *)
(** * Policy validation ([routing/ml_policy_validation.py])

    Routing by predictions over any set of tasks, the comparison of policies by
    cost and acceptable rate, the Pareto classification of the learned points
    and what of the oracle's opportunity a policy captures.  The fold statistics,
    the category ablation's pipeline and the reports are not modelled. *)
From S2P Require Import Prelude PyStr PyFloat PyDecimal PyNum Schemas Json PyRepr Errors PyStats Aggregation RoutingExport RoutingAnalysis MLFeatures MLExperiment MLDiagnostics.

Section Validation.
Context {UD : UnicodeData}.

(** ** Routing by predictions *)

Record RoutedSummary := mk_RoutedSummary {
  ro_summary : PolicySummary;
  ro_threshold : float;
  ro_fallback_count : Z;
  ro_fallback_rate : float;
  ro_selections : list Selection
}.

(** [task_ids or {row.task_id for row in dataset.rows}] *)
Definition requested_tasks (ds : MLExperimentDataset) (task_ids : option (list pystr)) : list pystr :=
  match task_ids with
  | Some ((_ :: _) as ts) => remove_dups ts
  | _ => remove_dups (map ml_task_id (rows ds))
  end.

(** [route_predictions] *)
Definition route_predictions (ds : MLExperimentDataset) (obs : list RowObservation) (records : list Prediction)
    (threshold : float) (policy : pystr) (task_ids : option (list pystr)) : result exn (RoutedSummary * list RoutingDecision) :=
  let tasks := requested_tasks ds task_ids in
  let grouped := group_by pn_task_id (List.filter (fun p => bool_decide (pn_task_id p ∈ tasks)) records) in
  _ ← guard_else (same_elements (dict_keys grouped) tasks) (Exn C_ValueError);
  selections ← result_map (select_task ds threshold) (sorted_groups str_cmp grouped);
  let decisions := map (selection_decision policy (py "lowest projected pre-generation cost above threshold")
                          (py "highest probability fallback")) selections in
  '(summary, _) ← evaluate_decisions (List.filter (fun o => bool_decide (ob_task_id o ∈ tasks)) obs) decisions;
  let fallbacks := count se_fallback_used selections in
  rate ← true_division fallbacks (Z.of_nat (length tasks));
  Ok (mk_RoutedSummary summary threshold fallbacks rate selections, decisions).

(** ** Comparing policies *)

(** [100 * (a - b)] *)
Definition percentage_points (a b : float) : float := f_mul (f_of_Z 100) (f_sub a b).

(** [a - b] of costs *)
Definition d_minus (a b : decimal) : result exn decimal :=
  decimal_error (d_add default_prec a (mk_decimal (negb (d_neg b)) (d_coef b) (d_exp b))).

Record BaselineDifferences := mk_BaselineDifferences {
  rule_coverage_matches : bool;
  realized_cost_difference_usd : pystr;
  realized_cost_percentage_difference : float;
  rule_rate_difference : float;
  strongest_coverage_matches : bool;
  cost_reduction_usd : pystr;
  cost_reduction_fraction : float;
  strongest_rate_difference : float
}.

Definition policy_named (policies : list (pystr * PolicySummary)) (name : pystr) : result exn PolicySummary :=
  match dict_get policies name with Some s => Ok s | None => Raise (Exn C_KeyError) end.

(** [_difference_vs_baselines] *)
Definition difference_vs_baselines (s : PolicySummary) (policies : list (pystr * PolicySummary)) : result exn BaselineDifferences :=
  learned_cost ← cost_of s;
  learned_rate ← rate_of s;
  rule ← policy_named policies RULE_BASED_V1;
  rule_cost ← cost_of rule;
  rule_rate ← rate_of rule;
  strongest ← policy_named policies FOLD_LOCAL_ALWAYS_STRONGEST;
  strongest_cost ← cost_of strongest;
  strongest_rate ← rate_of strongest;
  more ← d_minus learned_cost rule_cost;
  more_share ← decimal_error (d_div default_prec more rule_cost);
  saved ← d_minus strongest_cost learned_cost;
  saved_share ← decimal_error (d_div default_prec saved strongest_cost);
  Ok (mk_BaselineDifferences (ps_valid_selected_labels s =? ps_valid_selected_labels rule)%Z (d_str more) (f_of_decimal more_share)
        (percentage_points learned_rate rule_rate) (ps_valid_selected_labels s =? ps_valid_selected_labels strongest)%Z
        (d_str saved) (f_of_decimal saved_share) (percentage_points learned_rate strongest_rate)).

Inductive PointRelation := PR_incomparable | PR_first | PR_second | PR_equivalent | PR_tradeoff.

#[export] Instance PointRelation_eq_dec : EqDecision PointRelation.
Proof using. solve_decision. Defined.

(** At least as good in both respects, and better in one. *)
Definition dominates (rate cost : float * decimal) : bool :=
  f_leb cost.1 rate.1 && d_leb rate.2 cost.2 && (f_ltb cost.1 rate.1 || d_ltb rate.2 cost.2).

(** [compare_policy_points] *)
Definition compare_policy_points (a b : PolicySummary) : result exn PointRelation :=
  if negb (ps_valid_selected_labels a =? ps_valid_selected_labels b)%Z then Ok PR_incomparable
  else
    first_rate ← rate_of a;
    second_rate ← rate_of b;
    first_cost ← cost_of a;
    second_cost ← cost_of b;
    if dominates (first_rate, first_cost) (second_rate, second_cost) then Ok PR_first
    else if dominates (second_rate, second_cost) (first_rate, first_cost) then Ok PR_second
    else if f_eqb first_rate second_rate && d_eqb first_cost second_cost then Ok PR_equivalent
    else Ok PR_tradeoff.

Inductive PointClass := PC_dominated | PC_incomparable | PC_non_dominated.

#[export] Instance PointClass_eq_dec : EqDecision PointClass.
Proof using. solve_decision. Defined.

Record LearnedPoint := mk_LearnedPoint {
  classification : PointClass;
  dominated_by : list pystr;
  lp_comparisons : list (pystr * PointRelation)
}.

(** The classification of one point among all. *)
Definition classify (points : list (pystr * PolicySummary)) (name : pystr) (point : PolicySummary) : result exn LearnedPoint :=
  comparisons ← result_map (fun e => r ← compare_policy_points point e.2; Ok (e.1, r))
                  (List.filter (fun e => negb (bool_decide (e.1 = name))) points);
  let dominators := map fst (List.filter (fun c => bool_decide (c.2 = PR_second)) comparisons) in
  let comparable := existsb (fun c => negb (bool_decide (c.2 = PR_incomparable))) comparisons in
  Ok (mk_LearnedPoint (match dominators with _ :: _ => PC_dominated | [] => if comparable then PC_non_dominated else PC_incomparable end)
        (py_sorted (cmp_le str_cmp) dominators) comparisons).

(** [{**baselines, **learned}] *)
Definition all_deployable (baselines learned : list (pystr * PolicySummary)) : list (pystr * PolicySummary) :=
  fold_left (fun d e => dict_set d e.1 e.2) learned (dict_of fst snd baselines).

Definition comparison_baselines (policies : list (pystr * PolicySummary)) : result exn (list (pystr * PolicySummary)) :=
  result_map (fun n => s ← policy_named policies n; Ok (n, s)) [ALWAYS_CHEAPEST; FOLD_LOCAL_ALWAYS_STRONGEST; RULE_BASED_V1].

(** [pareto_classification], from the baselines and the learned points by name *)
Definition pareto_classification (policies learned : list (pystr * PolicySummary)) : result exn (list (pystr * LearnedPoint)) :=
  baselines ← comparison_baselines policies;
  result_map (fun e => p ← classify (all_deployable baselines learned) e.1 e.2; Ok (e.1, p)) learned.

(** ** The oracle's opportunity *)

Inductive CaptureOutcome := CO_abstention | CO_missing | CO_oracle | CO_other | CO_unacceptable.

#[export] Instance CaptureOutcome_eq_dec : EqDecision CaptureOutcome.
Proof using. solve_decision. Defined.

Definition CaptureOutcome_value (o : CaptureOutcome) : pystr :=
  match o with
  | CO_abstention => py "oracle_abstention_no_acceptable_candidate"
  | CO_missing => py "interaction_selected_label_missing"
  | CO_oracle => py "selected_oracle_cheapest_acceptable"
  | CO_other => py "selected_another_acceptable_candidate"
  | CO_unacceptable => py "selected_unacceptable_candidate"
  end.

Definition CAPTURE_OUTCOMES : list CaptureOutcome := [CO_oracle; CO_other; CO_unacceptable; CO_missing; CO_abstention].

(** The outcome of one decision against the oracle's. *)
Definition capture_outcome (oracle : list (pystr * RoutingDecision)) (obs : list RowObservation) (d : RoutingDecision) :
    result exn (pystr * CaptureOutcome) :=
  match dict_get oracle (dn_task_id d) with
  | None => Raise (Exn C_KeyError)
  | Some o =>
      match dn_candidate_id o with
      | None => Ok (dn_task_id d, CO_abstention)
      | Some best =>
          match row_at obs (dn_task_id d) (chosen_text d) with
          | None => Raise (Exn C_KeyError)
          | Some selected =>
              Ok (dn_task_id d,
                  if negb (is_valid selected) then CO_missing
                  else if bool_decide (dn_candidate_id d = Some best) then CO_oracle
                  else if accepted selected then CO_other else CO_unacceptable)
          end
      end
  end.

Record Capture := mk_Capture { capture_counts : list (pystr * Z); capture_details : list (pystr * CaptureOutcome) }.

(** One threshold of [oracle_opportunity_capture]. *)
Definition opportunity_capture (oracle : list RoutingDecision) (obs : list RowObservation) (decisions : list RoutingDecision) :
    result exn Capture :=
  details ← result_map (capture_outcome (decisions_by_task oracle) obs) decisions;
  Ok (mk_Capture
        (py_sorted (cmp_le (on_key fst str_cmp))
           (map (fun o => (CaptureOutcome_value o, count (fun x => bool_decide (x.2 = o)) details)) CAPTURE_OUTCOMES)) details).

(** [oracle_opportunity_capture] *)
Definition oracle_opportunity_capture (frozen : FrozenRoutingData) (decisions : list (pystr * list RoutingDecision)) :
    result exn ((ObservationState -> Z) * list (pystr * Capture)) :=
  '(oracle, states) ← oracle_cheapest_acceptable (observations frozen);
  captured ← result_map (fun t =>
    ds ← match dict_get decisions t.1 with Some ds => Ok ds | None => Raise (Exn C_KeyError) end;
    c ← opportunity_capture oracle (observations frozen) ds;
    Ok (t.1, c)) THRESHOLDS;
  Ok (states, captured).

(** ** The frontier *)

(** One variant of [full_frontier]: summaries with their differences, and decisions. *)
Definition variant_frontier (ds : MLExperimentDataset) (frozen : FrozenRoutingData) (b : Baselines) (records : list Prediction) (v : pystr) :
    result exn (list (pystr * (RoutedSummary * BaselineDifferences * list RoutingDecision))) :=
  result_map (fun t =>
    '(s, routed) ← route_predictions ds (observations frozen) (of_variant v records) t.2 (v ++ py "@" ++ t.1) None;
    diff ← difference_vs_baselines (ro_summary s) (baseline_policies b);
    Ok (t.1, (s, diff, routed))) THRESHOLDS.

Definition full_frontier (digest : pystr -> result exn (list N)) (ds : MLExperimentDataset) (frozen : FrozenRoutingData)
    (records : list Prediction) (folds : list FoldAssignment) :
    result exn (Baselines * list (pystr * list (pystr * (RoutedSummary * BaselineDifferences * list RoutingDecision)))) :=
  b ← baseline_evaluation digest frozen folds;
  variants ← result_map (fun v => f ← variant_frontier ds frozen b records v; Ok (v, f)) [FULL_ADDITIVE; CATEGORY_CANDIDATE_INTERACTION];
  Ok (b, variants).

(** The learned points of a frontier, named [variant@threshold]. *)
Definition learned_points (variants : list (pystr * list (pystr * (RoutedSummary * BaselineDifferences * list RoutingDecision)))) :
    list (pystr * PolicySummary) :=
  dict_of fst snd (flat_map (fun v => map (fun t => (v.1 ++ py "@" ++ t.1, ro_summary t.2.1.1)) v.2) variants).

(** ** Categories *)

Record CategoryThreshold := mk_CategoryThreshold {
  ct_distribution : list (pystr * (Z * float));
  ct_coverage : float;
  ct_acceptable_rate : option float;
  ct_mean_quality : option float;
  ct_realized_cost_usd : pystr;
  ct_fallback_count : Z;
  rule_agreement_count : Z
}.

Definition request_named (frozen : FrozenRoutingData) (task : pystr) : result exn PolicyRequest :=
  match dict_get (dict_of pr_task_id (fun r => r) (requests frozen)) task with Some r => Ok r | None => Raise (Exn C_KeyError) end.

(** One threshold of a category. *)
Definition category_threshold (ds : MLExperimentDataset) (frozen : FrozenRoutingData) (records : list Prediction)
    (rules : list RoutingDecision) (category : pystr) (tasks : list pystr) (t : pystr * float) : result exn (pystr * CategoryThreshold) :=
  '(s, decisions) ← route_predictions ds (observations frozen) records t.2
                      (CATEGORY_CANDIDATE_INTERACTION ++ py "@" ++ t.1 ++ py ":" ++ category) (Some tasks);
  agreed ← result_map (fun d => match dict_get (decisions_by_task rules) (dn_task_id d) with
                                | Some r => Ok (bool_decide (dn_candidate_id d = dn_candidate_id r))
                                | None => Raise (Exn C_KeyError) end) decisions;
  let p := ro_summary s in
  Ok (t.1, mk_CategoryThreshold (ps_model_distribution p) (ps_valid_label_coverage p) (ps_acceptable_rate_among_valid p)
             (ps_mean_quality_among_valid p) (ps_total_realized_cost_usd p) (ro_fallback_count s) (count (fun b => b) agreed)).

(** [category_routing] *)
Definition category_routing (frozen : FrozenRoutingData) (ds : MLExperimentDataset) (records : list Prediction) :
    result exn (list (pystr * (PolicySummary * list (pystr * CategoryThreshold)))) :=
  result_map (fun g =>
    let tasks := remove_dups (map ml_task_id g.2) in
    _ ← guard_else (Nat.eqb (length tasks) 8) (Exn C_ValueError);
    rules ← result_map (fun t => r ← request_named frozen t; rp_select RuleBasedV1Policy r) (py_sorted (cmp_le str_cmp) tasks);
    '(summary, _) ← evaluate_decisions (List.filter (fun o => bool_decide (ob_task_id o ∈ tasks)) (observations frozen)) rules;
    thresholds ← result_map (category_threshold ds frozen records rules g.1 tasks) THRESHOLDS;
    Ok (g.1, (summary, thresholds))) (sorted_groups str_cmp (group_by ml_category (rows ds))).
End Validation.

(** ** Dominance *)

Section Dominance.
Context {UD : UnicodeData}.

(** The first point dominates the second. *)
Definition beats (a b : PolicySummary) : bool := bool_decide (compare_policy_points a b = Ok PR_first).

Lemma dominates_trans x y z : dominates x y = true -> dominates y z = true -> dominates x z = true.
Proof.
  unfold dominates. destruct x as [r1 c1], y as [r2 c2], z as [r3 c3]. cbn [fst snd]. intros A B.
  apply andb_prop in A as [A S1], B as [B S2]. apply andb_prop in A as [R1 C1], B as [R2 C2].
  rewrite (f_leb_trans _ _ _ R2 R1). unfold d_leb in *. rewrite (cmp_le_trans d_cmp _ _ _ C1 C2). cbn [andb].
  apply orb_true_iff. apply orb_true_iff in S1 as [S1|S1]; [left|right].
  - destruct (f_leb_not_nan _ _ R1) as [N2 N1], (f_leb_not_nan _ _ R2) as [N3 _].
    rewrite (f_ltb_nleb r2 r1) in S1 by done. rewrite (f_ltb_nleb r3 r1) by done. apply negb_true_iff in S1. apply negb_true_iff, not_true_iff_false. intros X.
    by rewrite (f_leb_trans _ _ _ X R2) in S1.
  - unfold d_ltb in *. rewrite (cmp_lt_not_le d_cmp) in S1. rewrite (cmp_lt_not_le d_cmp). apply negb_true_iff in S1. apply negb_true_iff, not_true_iff_false.
    intros X. by rewrite (cmp_le_trans d_cmp _ _ _ C2 X) in S1.
Qed.

Lemma dominates_irrefl x : dominates x x = false.
Proof.
  unfold dominates. destruct x as [r c]. cbn [fst snd]. unfold d_ltb. rewrite (cmp_lt_not_le d_cmp). unfold d_leb.
  rewrite (cmp_le_refl d_cmp). cbn [negb]. rewrite orb_false_r, andb_true_r. destruct (f_leb r r) eqn:L; [|done]. cbn [andb].
  destruct (f_leb_not_nan _ _ L) as [N _]. rewrite f_ltb_nleb by done. by rewrite L.
Qed.

(** Both points are comparable and the first dominates. *)
Lemma compare_first a b : compare_policy_points a b = Ok PR_first <->
  ps_valid_selected_labels a = ps_valid_selected_labels b /\ exists ra rb ca cb,
    rate_of a = Ok ra /\ rate_of b = Ok rb /\ cost_of a = Ok ca /\ cost_of b = Ok cb /\ dominates (ra, ca) (rb, cb) = true.
Proof.
  unfold compare_policy_points. destruct (Z.eqb_spec (ps_valid_selected_labels a) (ps_valid_selected_labels b)) as [E|E]; cbn [negb].
  - split.
    + intros H. split; [done|]. apply bind_ok in H as (ra & Ra & H). apply bind_ok in H as (rb & Rb & H).
      apply bind_ok in H as (ca & Ca & H). apply bind_ok in H as (cb & Cb & H). exists ra, rb, ca, cb. do 4 (split; [done|]).
      destruct (dominates (ra, ca) (rb, cb)); [done|]. destruct (dominates _ _); [discriminate H|]. by destruct (_ && _).
    + intros (_ & ra & rb & ca & cb & -> & -> & -> & -> & D). rsimpl. by rewrite D.
  - split; [discriminate|]. by intros [X _].
Qed.

Lemma compare_second a b : compare_policy_points a b = Ok PR_second <-> compare_policy_points b a = Ok PR_first.
Proof.
  rewrite compare_first. unfold compare_policy_points.
  destruct (Z.eqb_spec (ps_valid_selected_labels a) (ps_valid_selected_labels b)) as [E|E]; cbn [negb].
  - split.
    + intros H. split; [done|]. apply bind_ok in H as (ra & Ra & H). apply bind_ok in H as (rb & Rb & H).
      apply bind_ok in H as (ca & Ca & H). apply bind_ok in H as (cb & Cb & H). exists rb, ra, cb, ca. do 4 (split; [done|]).
      destruct (dominates (ra, ca) (rb, cb)); [discriminate H|]. destruct (dominates _ _); [done|]. by destruct (_ && _).
    + intros (_ & rb & ra & cb & ca & -> & -> & -> & -> & D). rsimpl. rewrite D.
      destruct (dominates (ra, ca) (rb, cb)) eqn:D'; [|done]. pose proof (dominates_trans _ _ _ D D') as X.
      by rewrite dominates_irrefl in X.
  - split; [discriminate|]. intros [X _]. congruence.
Qed.

Lemma beats_trans a b c : beats a b = true -> beats b c = true -> beats a c = true.
Proof.
  unfold beats. rewrite !bool_decide_eq_true, !compare_first.
  intros (E & ra & rb & ca & cb & Ra & Rb & Ca & Cb & D) (E' & rb' & rc & cb' & cc & Rb' & Rc & Cb' & Cc & D').
  split; [congruence|]. exists ra, rc, ca, cc. do 4 (split; [done|]). rewrite Rb in Rb'. injection Rb' as <-.
  rewrite Cb in Cb'. injection Cb' as <-. by apply (dominates_trans _ _ _ D).
Qed.

Lemma beats_irrefl a : beats a a = false.
Proof.
  unfold beats. apply bool_decide_eq_false_2. rewrite compare_first. intros (_ & r & r' & c & c' & R & R' & C & C' & D).
  rewrite R in R'. injection R' as <-. rewrite C in C'. injection C' as <-. by rewrite dominates_irrefl in D.
Qed.

(** ** The Pareto classification *)

(** Whoever is beaten is beaten by someone nobody beats. *)
Lemma undominated_above (points : list (pystr * PolicySummary)) s : (exists m, m ∈ points /\ beats m.2 s = true) ->
  exists m, m ∈ points /\ beats m.2 s = true /\ forall k, k ∈ points -> beats k.2 m.2 = false.
Proof.
  intros (m & Hm & B).
  destruct (maximal_above (fun a b : pystr * PolicySummary => beats a.2 b.2)) with (l := points) (x := (m.1, s)) as (t & H);
    [intros a b c; apply beats_trans|intros a; apply beats_irrefl|by exists m|by exists t].
Qed.

Lemma classify_ok points name s p : classify points name s = Ok p ->
  (forall m, m ∈ dominated_by p <-> exists t, (m, t) ∈ points /\ m <> name /\ beats t s = true) /\
  (classification p = PC_dominated <-> dominated_by p <> []).
Proof.
  unfold classify. intros H. apply bind_ok in H as (cs & C & H). cbv zeta in H. injection H as <-.
  set (dominators := map fst (List.filter (fun c => bool_decide (c.2 = PR_second)) cs)).
  cbn [dominated_by classification]. split.
  - intros m. rewrite elem_of_py_sorted. unfold dominators. rewrite elem_of_map. split.
    + intros ([m' r] & -> & Hc). apply filter_in in Hc as [Hc R]. apply bool_decide_eq_true in R. cbn [fst snd] in *. subst r.
      destruct (result_map_mem _ _ _ _ C Hc) as ([k t] & Hk & E). apply filter_in in Hk as [Hk N]. cbn [fst snd] in *.
      apply bind_ok in E as (r & E & F). injection F as <- ->. exists t. split; [done|]. apply negb_true_iff, bool_decide_eq_false in N.
      split; [done|]. apply bool_decide_eq_true. by apply compare_second.
    + intros (t & Ht & N & B). apply bool_decide_eq_true, compare_second in B.
      destruct (result_map_image _ _ _ (m, t) C) as ([m' r] & Hy & E).
      { apply filter_in. split; [done|]. by apply negb_true_iff, bool_decide_eq_false_2. }
      cbn [fst snd] in E. rewrite B in E. rsimpl_in E. injection E as <- <-. exists (m, PR_second). split; [done|].
      apply filter_in. split; [done|]. by apply bool_decide_eq_true_2.
  - assert (P : py_sorted (cmp_le str_cmp) dominators = [] <-> dominators = []).
    { split; intros E; [|by rewrite E]. apply length_zero_iff_nil. rewrite <- (length_py_sorted (cmp_le str_cmp)), E. done. }
    rewrite P. destruct dominators; [|by split]. split; [|done]. by destruct (existsb _ cs).
Qed.

(** The Pareto classification is sound.  A learned point is dominated exactly by
    the deployable points that cost no more, are acceptable no less often, and
    are better in one of the two, on the same number of labels; it is called
    dominated exactly when there is one, and then one of those that dominate it
    is itself dominated by no deployable point. *)
Theorem pareto_is_sound policies learned out : pareto_classification policies learned = Ok out ->
  exists baselines, comparison_baselines policies = Ok baselines /\
  Forall2 (fun e o => o.1 = e.1 /\
    (forall m, m ∈ dominated_by o.2 <-> exists t, (m, t) ∈ all_deployable baselines learned /\ m <> e.1 /\ beats t e.2 = true) /\
    (classification o.2 = PC_dominated <-> dominated_by o.2 <> []) /\
    (classification o.2 = PC_dominated -> exists m, m ∈ all_deployable baselines learned /\ beats m.2 e.2 = true /\
       forall k, k ∈ all_deployable baselines learned -> beats k.2 m.2 = false)) learned out.
Proof.
  unfold pareto_classification. intros H. apply bind_ok in H as (baselines & B & H). exists baselines. split; [exact B|].
  apply result_map_ok in H. revert H. generalize (all_deployable baselines learned). intros points H.
  induction H as [|e o l out He _ IH]; constructor; [|exact IH].
  apply bind_ok in He as (p & P & He). injection He as <-. cbn [fst snd]. destruct (classify_ok _ _ _ _ P) as [D K].
  do 3 (split; [done|]). intros X. apply K in X. destruct (dominated_by p) as [|m ms] eqn:E; [done|].
  destruct (proj1 (D m) ltac:(apply elem_of_cons; by left)) as (t & Ht & _ & Bt).
  apply undominated_above. by exists (m, t).
Qed.

(** ** Routing *)

Lemma priced_fst task index l ks : result_map (priced task index) l = Ok ks -> map fst ks = l.
Proof.
  intros H. apply result_map_ok in H. induction H as [|p k l ks Hk _ IH]; [done|]. apply bind_ok in Hk as (c & _ & Hk).
  injection Hk as <-. cbn [map fst]. by rewrite IH.
Qed.

Lemma selected_among task candidates index threshold p fb :
  select_cost_aware_candidate task candidates index threshold = Ok (p, fb) -> p ∈ candidates.
Proof.
  assert (M : forall lt l k ks, result_map (priced task index) l = Ok (k :: ks) -> (min_from lt k ks).1 ∈ l).
  { intros lt l k ks H. apply priced_fst in H. rewrite <- H. apply elem_of_map. exists (min_from lt k ks). split; [done|].
    apply elem_of_cons, min_from_in. }
  unfold select_cost_aware_candidate. destruct (List.filter (meets threshold) candidates) as [|q qs] eqn:E; intros H;
    apply bind_ok in H as ([|k ks] & K & H); try discriminate H; injection H as <- _.
  - exact (M _ _ _ _ K).
  - assert (I : forall x, x ∈ q :: qs -> x ∈ candidates) by (intros x; rewrite <- E; intros X; by apply filter_in in X as [X _]).
    apply I. exact (M _ _ _ _ K).
Qed.

(** Every requested task is routed exactly once, by the offline selection among
    its predictions, and the fallbacks are counted. *)
Theorem tasks_are_routed_once ds obs records threshold policy task_ids s decisions :
  route_predictions ds obs records threshold policy task_ids = Ok (s, decisions) ->
  let tasks := requested_tasks ds task_ids in
  map dn_task_id decisions ≡ₚ tasks /\ ro_fallback_count s = count se_fallback_used (ro_selections s) /\
  forall d, d ∈ decisions -> exists p fallback, dn_candidate_id d = Some (pn_candidate_id p) /\ p ∈ records /\ pn_task_id p = dn_task_id d /\
    select_cost_aware_candidate (dn_task_id d)
      (List.filter (with_key pn_task_id (dn_task_id d)) (List.filter (fun p => bool_decide (pn_task_id p ∈ tasks)) records))
      (row_index ds) threshold = Ok (p, fallback).
Proof.
  unfold route_predictions. cbv zeta. set (tasks := requested_tasks ds task_ids). intros H.
  apply bind_ok in H as (u & G & H). apply guard_ok in G. rewrite same_elements_true in G.
  apply bind_ok in H as (sel & S & H). apply bind_ok in H as ([summary rc] & _ & H). apply bind_ok in H as (rate & _ & H).
  injection H as <- <-. cbn [ro_fallback_count ro_selections].
  assert (K : forall g x, g ∈ sorted_groups str_cmp (group_by pn_task_id (List.filter (fun p => bool_decide (pn_task_id p ∈ tasks)) records)) ->
    select_task ds threshold g = Ok x -> se_task_id x = g.1 /\ exists p fb, se_candidate_id x = pn_candidate_id p /\
      select_cost_aware_candidate g.1 g.2 (row_index ds) threshold = Ok (p, fb)).
  { intros g x _ Hx. unfold select_task in Hx. apply bind_ok in Hx as ([p fb] & Hp & Hx). apply bind_ok in Hx as (c & _ & Hx).
    injection Hx as <-. split; [done|]. by exists p, fb. }
  split; [|split; [done|]].
  - rewrite map_map. change (map se_task_id sel ≡ₚ tasks).
    assert (E : map se_task_id sel = map fst (sorted_groups str_cmp (group_by pn_task_id (List.filter (fun p => bool_decide (pn_task_id p ∈ tasks)) records)))).
    { apply (result_map_keys (select_task ds threshold) _ _ _ _ S). intros g x Hg Hx. by apply K. }
    rewrite E, sorted_group_keys. apply NoDup_Permutation; [apply NoDup_remove_dups| |].
    { unfold tasks, requested_tasks. destruct task_ids as [[|]|]; apply NoDup_remove_dups. }
    intros t. rewrite <- G, elem_of_remove_dups, elem_of_map. unfold dict_keys. etransitivity; [|symmetry; apply group_by_mem].
    split; intros (p & A & B); exists p; auto.
  - intros d Hd. apply elem_of_map in Hd as (x & -> & Hx). destruct (result_map_mem _ _ _ _ S Hx) as (g & Hg & Eg).
    destruct (K g x Hg Eg) as (T & p & fb & C & Sel). destruct g as [t g]. apply sorted_group_in in Hg as [_ ->]. cbn [fst snd] in *.
    exists p, fb. cbn [selection_decision dn_candidate_id dn_task_id]. rewrite T, C. split; [done|].
    assert (P : p ∈ List.filter (with_key pn_task_id t) (List.filter (fun p => bool_decide (pn_task_id p ∈ tasks)) records)) by by eapply selected_among.
    apply filter_in in P as [P Pt]. apply filter_in in P as [P _]. apply bool_decide_eq_true in Pt. done.
Qed.

(** ** The oracle's opportunity *)

Lemma capture_counts_sum (l : list (pystr * CaptureOutcome)) :
  foldr Z.add 0%Z (map (fun o => count (fun x => bool_decide (x.2 = o)) l) CAPTURE_OUTCOMES) = Z.of_nat (length l).
Proof.
  unfold CAPTURE_OUTCOMES, count. cbn [map foldr]. induction l as [|[t o] l IH]; [done|]. cbn [List.filter snd].
  destruct o; decide_constructors; cbn [length] in *; lia.
Qed.

(** What an outcome says of the rows of a decision. *)
Definition outcome_holds (obs : list RowObservation) (d : RoutingDecision) (o : CaptureOutcome) : Prop :=
  let chosen r := r ∈ obs /\ ob_task_id r = dn_task_id d /\ ob_candidate_id r = chosen_text d in
  let solvable := exists r, r ∈ obs /\ ob_task_id r = dn_task_id d /\ good_row r = true in
  match o with
  | CO_abstention => ~ solvable
  | CO_missing => solvable /\ exists r, chosen r /\ is_valid r = false
  | CO_oracle | CO_other => exists r, chosen r /\ good_row r = true
  | CO_unacceptable => solvable /\ exists r, chosen r /\ is_valid r = true /\ accepted r = false
  end.

(** The opportunity is measured against the labels.  With the oracle's
    decisions, every decision of a policy has one outcome and the outcomes add
    up: an abstention means that no row of the task is acceptable, the two
    successes that the chosen row is acceptable, the others that it is
    unlabelled or unacceptable although an acceptable one exists. *)
Theorem opportunity_is_measured obs oracle decisions c :
  NoDup (map row_key obs) -> Forall (oracle_choice obs) oracle -> opportunity_capture oracle obs decisions = Ok c ->
  foldr Z.add 0%Z (map snd (capture_counts c)) = Z.of_nat (length decisions) /\
  Forall2 (fun d x => x.1 = dn_task_id d /\ outcome_holds obs d x.2) decisions (capture_details c).
Proof.
  intros N O H. unfold opportunity_capture in H. apply bind_ok in H as (details & D & H). apply result_map_ok in D. split.
  - pose proof (capture_counts_sum details) as S. rewrite (Forall2_length _ _ _ D). injection H as <-.
    cbn [CAPTURE_OUTCOMES map foldr] in S. cbn [capture_counts map foldr snd]. lia.
  - injection H as <-. cbn [capture_details]. induction D as [|d x ds xs Hx _ IH]; constructor; [|exact IH]. clear IH.
    unfold capture_outcome in Hx. destruct (dict_get _ _) as [o|] eqn:G; [|discriminate Hx].
    apply dict_of_get in G as (o' & Ho & Et & <-). rewrite Forall_forall in O. specialize (O o' Ho). unfold oracle_choice in O.
    rewrite Et in O. destruct (dn_candidate_id o') as [best|].
    2:{ injection Hx as <-. split; [done|]. intros (r & Hr & Tr & Gr). rewrite (O r Hr Tr) in Gr. discriminate Gr. }
    destruct O as (r & cost & Hr & Tr & Cr & Gr & _). destruct (row_at _ _ _) as [sel|] eqn:R; [|discriminate Hx].
    injection Hx as <-. cbn [fst snd]. split; [done|]. apply row_at_some in R as Rs. destruct Rs as (S1 & S2 & S3).
    assert (Sol : exists r, r ∈ obs /\ ob_task_id r = dn_task_id d /\ good_row r = true) by by exists r.
    destruct (is_valid sel) eqn:V; cbn [negb]; [|split; [done|by exists sel]]. case_bool_decide as E.
    + exists r. split; [|done]. split; [done|]. split; [done|]. unfold chosen_text. by rewrite E.
    + destruct (accepted sel) eqn:A; [exists sel; split; [done|]; unfold good_row; by rewrite V, A|split; [done|by exists sel]].
Qed.
End Dominance.

(** ** Examples *)

(** A summary with what the comparison reads. *)
Definition example_point (rate : Z) (cost : string) : PolicySummary :=
  mk_PolicySummary [] 10 10 10 0 f_one rate (10 - rate) (Some (ratio rate 10)) None None (py cost) [] None [] [] 0 None None None [] [] [].

Definition example_baselines : list (pystr * PolicySummary) :=
  [(ALWAYS_CHEAPEST, example_point 4 "0.10"); (FOLD_LOCAL_ALWAYS_STRONGEST, example_point 9 "2.00"); (RULE_BASED_V1, example_point 7 "0.90")].

Definition example_learned : list (pystr * PolicySummary) := [(py "a@0.50", example_point 6 "0.95"); (py "a@0.90", example_point 8 "0.80")].

Lemma pareto_is_sound_witness : exists out, @pareto_classification ascii_tables example_baselines example_learned = Ok out /\
  map (fun e => (e.1, classification e.2)) out = [(py "a@0.50", PC_dominated); (py "a@0.90", PC_non_dominated)] /\
  exists m, m ∈ all_deployable example_baselines example_learned /\ @beats ascii_tables m.2 (example_point 6 "0.95") = true /\
    forall k, k ∈ all_deployable example_baselines example_learned -> @beats ascii_tables k.2 m.2 = false.
Proof.
  assert (V : exists out, @pareto_classification ascii_tables example_baselines example_learned = Ok out /\
    map (fun e => (e.1, classification e.2)) out = [(py "a@0.50", PC_dominated); (py "a@0.90", PC_non_dominated)]).
  { eexists. split; [vm_compute; reflexivity|reflexivity]. }
  destruct V as (out & H & C). exists out. split; [exact H|]. split; [exact C|].
  destruct (@pareto_is_sound ascii_tables _ _ _ H) as (baselines & B & F).
  assert (E : baselines = example_baselines) by (vm_compute in B; injection B as <-; reflexivity). subst baselines.
  inversion F as [|e o l k (_ & _ & _ & D) _ E1 E2]; subst. apply D. injection C as _ C _. exact C.
Defined.

Lemma opportunity_is_measured_witness : exists oracle state c,
  oracle_cheapest_acceptable study_observations = Ok (oracle, state) /\
  opportunity_capture oracle study_observations luna_everywhere = Ok c /\
  map snd (capture_details c) = [CO_abstention; CO_oracle] /\ foldr Z.add 0%Z (map snd (capture_counts c)) = 2%Z.
Proof.
  destruct (oracle_is_cheapest_acceptable study_observations study_costs) as (oracle & state & H & _ & O & _).
  assert (N : NoDup (map row_key study_observations)) by (apply all_distinct_true; vm_compute; reflexivity).
  assert (V : match oracle_cheapest_acceptable study_observations with
              | Ok (ds, _) => match opportunity_capture ds study_observations luna_everywhere with
                              | Ok c => map snd (capture_details c) | Raise _ => [] end
              | Raise _ => [] end = [CO_abstention; CO_oracle]) by (vm_compute; reflexivity).
  rewrite H in V. destruct (opportunity_capture oracle study_observations luna_everywhere) as [c|e] eqn:C; [|discriminate V].
  exists oracle, state, c. split; [exact H|]. split; [exact C|]. split; [exact V|].
  exact (proj1 (opportunity_is_measured _ _ _ _ N O C)).
Defined.
