(* ===== verification/Sklearn.v ===== *)
(** * numpy and scikit-learn, as interfaces

    What the offline routing studies ask of the numerical libraries: a class of
    operations each, and the documented behaviour of those operations that a
    theorem relies on.  An implementation of them for examples closes the file. *)
From S2P Require Import Prelude PyStr PyFloat Errors PyStats Aggregation RoutingAnalysis MLFeatures MLDiagnostics.

(** Operations on vectors of [float64]; [np_linspace_unit n] is
    [np.linspace(0, 1, n)], [np_clip lo hi x] is [np.clip(x, lo, hi)]. *)
Class Numpy := {
  np_mean : list float -> float;
  np_min : list float -> float;
  np_max : list float -> float;
  np_clip : float -> float -> float -> float;
  np_log : float -> float;
  np_linspace_unit : nat -> list float;
  np_searchsorted_right : list float -> float -> nat;
  np_argsort : list float -> list nat;
  np_array_split : list nat -> nat -> list (list nat);
  np_percentile : list float -> float -> result exn float
}.

(** The edges of [n] intervals from zero on, in order. *)
Definition unit_edges (n : nat) (edges : list float) : Prop :=
  StronglySorted (fun a b => f_leb a b = true) edges /\ length edges = S n /\ head edges = Some f_zero.

(** The place of a value among sorted edges, behind equal ones; the order of the
    indexes; contiguous chunks of nearly one size. *)
Class NumpyLaws (NP : Numpy) : Prop := {
  searchsorted_counts : forall edges x, StronglySorted (fun a b => f_leb a b = true) edges -> is_nan x = false ->
    np_searchsorted_right edges x = length (List.filter (fun e => f_leb e x) edges);
  argsort_permutes : forall l, np_argsort l ≡ₚ seq 0 (length l);
  array_split_concat : forall l k, 0 < k -> concat (np_array_split l k) = l;
  array_split_sizes : forall l k c, 0 < k -> c ∈ np_array_split l k ->
    length c = length l / k \/ length c = S (length l / k) /\ length l mod k <> 0
}.

(** The metrics of a binary target, from probabilities or from predicted classes. *)
Class BinaryMetrics := {
  log_loss : list Z -> list float -> result exn float;
  brier_score_loss : list Z -> list float -> result exn float;
  roc_auc_score : list Z -> list float -> result exn float;
  average_precision_score : list Z -> list float -> result exn float;
  accuracy_score : list Z -> list Z -> result exn float;
  precision_score : list Z -> list Z -> result exn float;
  recall_score : list Z -> list Z -> result exn float;
  f1_score : list Z -> list Z -> result exn float
}.

(** A pipeline built for a representation of the features. *)
Class RepresentationPipelines := {
  rp_pipeline : Type;
  rp_fit : FeatureRepresentation -> list (list feature_value) -> list Z -> result exn rp_pipeline;
  rp_proba : rp_pipeline -> list (list feature_value) -> result exn (list float);
  rp_coefficients : rp_pipeline -> list pystr -> list (pystr * float)
}.

(** A logistic regression on one predictor. *)
Class Calibrators := {
  calibrator : Type;
  fit_calibrator : list float -> list Z -> result exn calibrator;
  calibrated_proba : calibrator -> list float -> list float;
  intercept_slope : calibrator -> float * float
}.

Class CalibratorLaws (CB : Calibrators) : Prop := {
  proba_length : forall m l, length (calibrated_proba m l) = length l
}.

(** ** An implementation for examples *)

(** [k] chunks of sizes [n / k] and, for the first [n mod k], one more. *)
Fixpoint chunks (small extra : nat) (k : nat) (l : list nat) : list (list nat) :=
  match k with
  | O => []
  | S k => let n := if Nat.ltb 0 extra then S small else small in firstn n l :: chunks small (pred extra) k (skipn n l)
  end.

Definition sum_floats (l : list float) : float := fold_left f_add l f_zero.

#[local] Instance example_numpy : Numpy := {|
  np_mean := fun l => f_div (sum_floats l) (f_of_Z (Z.of_nat (length l)));
  np_min := fun l => match l with x :: r => fold_left f_min r x | [] => f_zero end;
  np_max := fun l => match l with x :: r => fold_left f_max r x | [] => f_zero end;
  np_clip := fun lo hi x => f_min (f_max x lo) hi;
  np_log := fun x => f_sub x f_one;
  np_linspace_unit := fun n => map (fun i => ratio (Z.of_nat i) (Z.of_nat (n - 1))) (seq 0 n);
  np_searchsorted_right := fun edges x => length (List.filter (fun e => f_leb e x) edges);
  np_argsort := fun l => map snd (py_sorted (cmp_le (on_key fst f_cmp)) (combine l (seq 0 (length l))));
  np_array_split := fun l k => chunks (length l / k) (length l mod k) k l;
  np_percentile := fun l p => match l with [] => Raise (Exn C_IndexError) | x :: _ => Ok x end
|}.

Lemma chunks_concat small k : forall extra l, extra <= k -> length l = k * small + extra -> concat (chunks small extra k l) = l.
Proof.
  induction k as [|k IH]; intros extra l E L.
  - destruct l; [done|]. cbn in L. lia.
  - cbn [chunks concat]. destruct extra as [|extra]; cbn [Nat.ltb Nat.leb pred].
    + rewrite IH; [apply firstn_skipn|lia|]. rewrite length_skipn. nia.
    + rewrite IH; [apply firstn_skipn|lia|]. rewrite length_skipn. nia.
Qed.

Lemma chunks_sizes small k c : forall extra l, extra <= k -> length l = k * small + extra -> c ∈ chunks small extra k l ->
  length c = small \/ length c = S small /\ extra <> 0.
Proof.
  induction k as [|k IH]; intros extra l E L H; [by apply elem_of_nil in H|]. cbn [chunks] in H.
  destruct extra as [|extra]; cbn [Nat.ltb Nat.leb pred] in H; apply elem_of_cons in H as [->|H].
  - left. rewrite length_firstn. nia.
  - apply IH in H as [H|[_ H]]; [by left|done|lia|]. rewrite length_skipn. nia.
  - right. split; [|done]. rewrite length_firstn. nia.
  - apply IH in H as [H|[H _]]; [by left|by right|lia|]. rewrite length_skipn. nia.
Qed.

Lemma combine_seq_snd {A} (l : list A) : forall k, map snd (combine l (seq k (length l))) = seq k (length l).
Proof. induction l as [|x l IH]; intros k; [done|]. cbn. by rewrite IH. Qed.

#[local] Instance example_numpy_laws : NumpyLaws example_numpy.
Proof.
  split; cbn.
  - done.
  - intros l. rewrite (Permutation_map snd (py_sorted_perm _ _)). by rewrite combine_seq_snd.
  - intros l k K. apply chunks_concat; [apply Nat.lt_le_incl, Nat.mod_upper_bound; lia|apply Nat.div_mod_eq].
  - intros l k c K. apply chunks_sizes; [apply Nat.lt_le_incl, Nat.mod_upper_bound; lia|apply Nat.div_mod_eq].
Qed.
