(* ===== verification/PinAblation.v ===== *)
(** * The provider-pin ablation ([routing/provider_pin_ablation.py])

    The interaction representation with and without the pinned provider: which
    pins the candidates have, the predictions out of fold of both variants, how
    they rank and route, and the thresholds that no other dominates.  The
    reproduction of stored predictions, the fold statistics and the written
    report are not modelled. *)
From S2P Require Import Prelude PyStr PyFloat PyDecimal PyNum Schemas Json PyRepr Errors PyStats Aggregation RoutingExport RoutingAnalysis MLFeatures MLExperiment MLDiagnostics PolicyValidation Sklearn.

Definition ACCEPTED_INTERACTION : pystr := CATEGORY_CANDIDATE_INTERACTION.
Definition INTERACTION_NO_PROVIDER_PIN : pystr := py "INTERACTION_NO_PROVIDER_PIN".
Definition PIN_VARIANTS : list pystr := [ACCEPTED_INTERACTION; INTERACTION_NO_PROVIDER_PIN].
Definition PIN_FEATURE : pystr := py "upstream_provider_pin".

(** [REPRESENTATIONS[ACCEPTED_INTERACTION]] *)
Definition interaction_representation : FeatureRepresentation :=
  default (mk_FeatureRepresentation [] [] []) (dict_get REPRESENTATIONS ACCEPTED_INTERACTION).

Definition NO_PIN_REPRESENTATION : FeatureRepresentation :=
  mk_FeatureRepresentation
    (List.filter (fun name => negb (bool_decide (name = PIN_FEATURE))) (categorical interaction_representation))
    (numeric interaction_representation) (boolean interaction_representation).

(** [representations] *)
Definition representations : list (pystr * FeatureRepresentation) :=
  [(ACCEPTED_INTERACTION, interaction_representation); (INTERACTION_NO_PROVIDER_PIN, NO_PIN_REPRESENTATION)].

(** ** The pins of the candidates *)

Record PinMapping := mk_PinMapping {
  pm_candidate_ids : list pystr;
  pm_provider_pins : list pystr;
  candidate_to_provider_pin : list (pystr * list pystr);
  each_candidate_has_exactly_one_pin : bool;
  within_candidate_provider_variation : bool;
  one_to_one : bool;
  frequency_table : list ((pystr * pystr) * Z)
}.

Definition pair_cmp : pystr * pystr -> pystr * pystr -> comparison := lex_cmp (on_key fst str_cmp) (on_key snd str_cmp).

Section Mapping.
Context {UD : UnicodeData}.

(** [(row.candidate_id, str(row.features["upstream_provider_pin"]))] *)
Definition pin_pair (r : MLExperimentRow) : result exn (pystr * pystr) :=
  match dict_get (features r) PIN_FEATURE with
  | Some v => Ok (ml_candidate_id r, feature_text v)
  | None => Raise (Exn C_KeyError)
  end.

(** The sets of a [defaultdict(set)], from pairs of a key and a value. *)
Definition value_sets (pairs : list (pystr * pystr)) : list (pystr * list pystr) :=
  map (fun g => (g.1, remove_dups (map snd g.2))) (group_by fst pairs).

Definition swap (p : pystr * pystr) : pystr * pystr := (p.2, p.1).
Definition single (g : pystr * list pystr) : bool := Nat.eqb (length g.2) 1.
Definition several (g : pystr * list pystr) : bool := Nat.ltb 1 (length g.2).

(** [provider_pin_mapping] *)
Definition provider_pin_mapping (ds : MLExperimentDataset) : result exn PinMapping :=
  pairs ← result_map pin_pair (rows ds);
  let counter := group_by (fun p => p) pairs in
  let mapping := value_sets (dict_keys counter) in
  let reverse := value_sets (map swap (dict_keys counter)) in
  Ok (mk_PinMapping (py_sorted (cmp_le str_cmp) (dict_keys mapping)) (py_sorted (cmp_le str_cmp) (dict_keys reverse))
        (map (fun g => (g.1, py_sorted (cmp_le str_cmp) g.2)) (sorted_groups str_cmp mapping))
        (forallb single mapping) (existsb several mapping) (forallb single mapping && forallb single reverse)
        (map (fun g => (g.1, Z.of_nat (length g.2))) (sorted_groups pair_cmp counter))).
End Mapping.

(** ** Predictions out of fold *)

(** [_matrix]: without the pin, a feature is read from the row, except the
    interaction. *)
Definition pin_matrix (l : list MLExperimentRow) (variant : pystr) : result exn (list (list feature_value)) :=
  if bool_decide (variant = ACCEPTED_INTERACTION) then diagnostic_feature_matrix l variant
  else result_map (fun r => result_map (feature_value_of r) (representation_features NO_PIN_REPRESENTATION)) l.

Definition registry : Type := list (pystr * FeatureRepresentation).

(** [REPRESENTATIONS.pop(variant, None)] *)
Definition registry_pop (reg : registry) (variant : pystr) : registry :=
  List.filter (fun e => negb (bool_decide (e.1 = variant))) reg.

(** The pipeline of a variant, from the registry that holds the new
    representation during the call. *)
Definition build_variant_pipeline (reg : registry) (variant : pystr) : result exn FeatureRepresentation * registry :=
  let ablated := bool_decide (variant = INTERACTION_NO_PROVIDER_PIN) in
  let reg := if ablated then dict_set reg variant NO_PIN_REPRESENTATION else reg in
  (match dict_get reg variant with Some r => Ok r | None => Raise (Exn C_KeyError) end,
   if ablated then registry_pop reg variant else reg).

(** [part in text] *)
Fixpoint str_contains (part text : pystr) {struct text} : bool :=
  startswith text part || match text with [] => false | _ :: r => str_contains part r end.

(** The terms of a fitted pipeline that the report keeps. *)
Definition reported_term (name : pystr) : bool :=
  str_contains (py "candidate_id") name || str_contains PIN_FEATURE name || str_contains INTERACTION_FEATURE name.

Section Predictions.
Context {RP : RepresentationPipelines}.

(** One round of the loop over the folds. *)
Definition pin_fold (variant : pystr) (l : list MLExperimentRow) (a : FoldAssignment) :
    result exn (list Prediction * (FitAudit * list (pystr * float))) :=
  representation ← (build_variant_pipeline REPRESENTATIONS variant).1;
  X ← pin_matrix (train_rows a l) variant;
  m ← rp_fit representation X (map label_number (train_rows a l));
  T ← pin_matrix (test_rows a l) variant;
  probabilities ← rp_proba m T;
  Ok (map (fun rp => prediction_of variant a rp.1 rp.2) (zip (test_rows a l) probabilities),
      (audit_of a l,
       List.filter (fun c => reported_term c.1)
         (rp_coefficients m (representation_features (default interaction_representation (dict_get representations variant)))))).

Definition pin_variant (l : list MLExperimentRow) (folds : list FoldAssignment) (variant : pystr) :
    result exn (list Prediction * (pystr * list (FitAudit * list (pystr * float)))) :=
  out ← result_map (pin_fold variant l) folds;
  let records := py_sorted (cmp_le prediction_cmp) (concat (map fst out)) in
  _ ← guard_else (Nat.eqb (length records) 224) (Exn C_ValueError);
  Ok (records, (variant, map snd out)).

(** [generate_predictions] *)
Definition generate_predictions (ds : MLExperimentDataset) :
    result exn (list Prediction * list (pystr * list (FitAudit * list (pystr * float))) * list FoldAssignment) :=
  folds ← build_outer_folds ds;
  out ← result_map (pin_variant (rows ds) folds) PIN_VARIANTS;
  Ok (concat (map fst out), map snd out, folds).
End Predictions.

(** ** Rankings *)

Record PinRanking := mk_PinRanking {
  disagreement_request_count : Z;
  pr_variants : list (pystr * (Ranking * Ranking));
  top_ranked_candidate_agreement : Z;
  top_ranked_candidate_disagreement : Z
}.

Definition tops_of (k : Ranking) : list (pystr * pystr) := dict_of tr_task_id tr_candidate_id (top_1_records k).

(** How often the second dictionary agrees with the first. *)
Definition top_agreement (a b : list (pystr * pystr)) : result exn Z :=
  agreed ← result_map (fun t => match dict_get b t.1 with Some c => Ok (bool_decide (t.2 = c)) | None => Raise (Exn C_KeyError) end) a;
  Ok (count (fun b => b) agreed).

(** [_ranking] *)
Definition pin_ranking (ds : MLExperimentDataset) (records : list Prediction) : result exn PinRanking :=
  let disagreements := disagreement_tasks ds in
  let index := dict_of ml_row_key (fun r => r) (rows ds) in
  variants ← result_map (fun v =>
    a ← rank_variant (of_variant v records) index None;
    d ← rank_variant (of_variant v records) index (Some disagreements);
    Ok (v, (a, d))) PIN_VARIANTS;
  agreement ← match map (fun v => tops_of v.2.1) variants with
              | [a; b] => top_agreement a b
              | _ => Raise (Exn C_IndexError)
              end;
  Ok (mk_PinRanking (Z.of_nat (length disagreements)) variants agreement (56 - agreement)).

(** ** Routing *)

Record PinSummary := mk_PinSummary {
  pn_routed : RoutedSummary;
  pn_total_projected_cost_usd : pystr;
  pn_average_projected_cost_per_request_usd : pystr;
  pn_p50_latency_ms : float;
  pn_p95_latency_ms : float
}.

Record PinDelta := mk_PinDelta {
  acceptable_rate_delta : float;
  mean_quality_delta : float;
  total_projected_cost_delta_usd : pystr;
  fallback_rate_delta : float;
  coverage_delta : float;
  distribution_accepted : list (pystr * (Z * float));
  distribution_no_pin : list (pystr * (Z * float))
}.

Record PinRouting := mk_PinRouting {
  strongest_total_projected_cost_usd : pystr;
  strongest_audit : list (nat * (pystr * list (pystr * CandidateMetrics)));
  pin_variants : list (pystr * list (pystr * (PinSummary * pystr)));
  pin_disagreement : list (pystr * list (pystr * PinSummary));
  pin_categories : list (pystr * list (pystr * list (pystr * PinSummary)));
  deltas_no_pin_minus_accepted : list (pystr * PinDelta)
}.

Section Routing.
Context {UD : UnicodeData} {NP : Numpy}.

(** [Decimal(text)] *)
Definition decimal_text (s : pystr) : result exn decimal :=
  match decimal_of_str s with Some d => Ok d | None => Raise (Exn C_ArithmeticError) end.

Definition indexed_latency (index : list ((pystr * pystr) * MLExperimentRow)) (task candidate : pystr) : result exn float :=
  r ← row_lookup index task candidate; Ok (ml_latency_ms r).

(** [_enrich_routing] *)
Definition enrich_routing (ds : MLExperimentDataset) (s : RoutedSummary) : result exn PinSummary :=
  let index := row_index ds in
  projected ← result_map (fun x => indexed_cost index (se_task_id x) (se_candidate_id x)) (ro_selections s);
  latencies ← result_map (fun x => indexed_latency index (se_task_id x) (se_candidate_id x)) (ro_selections s);
  total ← decimal_error (d_sum default_prec projected);
  average ← decimal_error (d_div default_prec total (d_of_Z (Z.of_nat (length (ro_selections s)))));
  p50 ← np_percentile latencies (f_of_Z 50);
  p95 ← np_percentile latencies (f_of_Z 95);
  Ok (mk_PinSummary s (d_str total) (d_str average) p50 p95).

(** The routing of some tasks at a threshold. *)
Definition routed_at (ds : MLExperimentDataset) (obs : list RowObservation) (records : list Prediction) (policy : pystr)
    (tasks : option (list pystr)) (t : pystr * float) : result exn PinSummary :=
  '(s, _) ← route_predictions ds obs records t.2 policy tasks;
  enrich_routing ds s.

(** One threshold of a variant: over all tasks with what is saved, and over
    those whose labels disagree. *)
Definition variant_threshold (ds : MLExperimentDataset) (obs : list RowObservation) (strongest : decimal) (records : list Prediction)
    (variant : pystr) (t : pystr * float) : result exn ((pystr * (PinSummary * pystr)) * (pystr * PinSummary)) :=
  s ← routed_at ds obs records (variant ++ py "@" ++ t.1) None t;
  total ← decimal_text (pn_total_projected_cost_usd s);
  saved ← d_minus strongest total;
  d ← routed_at ds obs records (variant ++ py "@" ++ t.1 ++ py ":DISAGREEMENT") (Some (disagreement_tasks ds)) t;
  Ok ((t.1, (s, d_str saved)), (t.1, d)).

Definition category_names (ds : MLExperimentDataset) : list pystr :=
  py_sorted (cmp_le str_cmp) (remove_dups (map ml_category (rows ds))).

Definition category_tasks (ds : MLExperimentDataset) (c : pystr) : list pystr :=
  remove_dups (map ml_task_id (List.filter (with_key ml_category c) (rows ds))).

(** [a - b] of two rates, neither of them [None] *)
Definition rate_delta (a b : option float) : result exn float :=
  match a, b with Some x, Some y => Ok (f_sub x y) | _, _ => Raise (Exn C_TypeError) end.

Definition delta_at (routed : list (pystr * list (pystr * (PinSummary * pystr)))) (t : pystr * float) : result exn (pystr * PinDelta) :=
  match dict_get routed ACCEPTED_INTERACTION ≫= (fun l => dict_get l t.1),
        dict_get routed INTERACTION_NO_PROVIDER_PIN ≫= (fun l => dict_get l t.1) with
  | Some (a, _), Some (b, _) =>
      let pa := ro_summary (pn_routed a) in
      let pb := ro_summary (pn_routed b) in
      rate ← rate_delta (ps_acceptable_rate_among_valid pb) (ps_acceptable_rate_among_valid pa);
      quality ← rate_delta (ps_mean_quality_among_valid pb) (ps_mean_quality_among_valid pa);
      cb ← decimal_text (pn_total_projected_cost_usd b);
      ca ← decimal_text (pn_total_projected_cost_usd a);
      cost ← d_minus cb ca;
      Ok (t.1, mk_PinDelta rate quality (d_str cost) (f_sub (ro_fallback_rate (pn_routed b)) (ro_fallback_rate (pn_routed a)))
                 (f_sub (ps_valid_label_coverage pb) (ps_valid_label_coverage pa))
                 (ps_model_distribution pa) (ps_model_distribution pb))
  | _, _ => Raise (Exn C_KeyError)
  end.

(** [_routing], from the frozen data *)
Definition pin_routing (frozen : FrozenRoutingData) (ds : MLExperimentDataset) (records : list Prediction)
    (folds : list FoldAssignment) : result exn PinRouting :=
  '(decisions, audit) ← fold_local_strongest_decisions (observations frozen) folds;
  costs ← result_map (fun d => indexed_cost (row_index ds) (dn_task_id d) (chosen_text d)) decisions;
  strongest ← decimal_error (d_sum default_prec costs);
  out ← result_map (fun v =>
    let selected := of_variant v records in
    thresholds ← result_map (variant_threshold ds (observations frozen) strongest selected v) THRESHOLDS;
    categories ← result_map (fun c =>
      by_threshold ← result_map (fun t =>
        s ← routed_at ds (observations frozen) selected (v ++ py "@" ++ t.1 ++ py ":" ++ c) (Some (category_tasks ds c)) t;
        Ok (t.1, s)) THRESHOLDS;
      Ok (c, by_threshold)) (category_names ds);
    Ok (v, (thresholds, categories))) PIN_VARIANTS;
  let routed := map (fun v => (v.1, map fst v.2.1)) out in
  deltas ← result_map (delta_at routed) THRESHOLDS;
  Ok (mk_PinRouting (d_str strongest) audit routed (map (fun v => (v.1, map snd v.2.1)) out) (map (fun v => (v.1, v.2.2)) out) deltas).

(** ** Thresholds that no other dominates *)

(** The condition under which [other] dominates [s]. *)
Definition pin_dominates (other s : PinSummary) : result exn bool :=
  let po := ro_summary (pn_routed other) in
  let ps := ro_summary (pn_routed s) in
  if negb (ps_valid_selected_labels po =? ps_valid_selected_labels ps)%Z then Ok false
  else
    ro ← rate_of po;
    rs ← rate_of ps;
    if negb (f_leb rs ro) then Ok false
    else
      co ← decimal_text (pn_total_projected_cost_usd other);
      cs ← decimal_text (pn_total_projected_cost_usd s);
      Ok (d_leb co cs && (f_ltb rs ro || d_ltb co cs)).

Definition undominated (points : list (pystr * PinSummary)) (p : pystr * PinSummary) : result exn bool :=
  dominated ← any_result (fun o => pin_dominates o.2 p.2) (List.filter (fun o => negb (bool_decide (o.1 = p.1))) points);
  Ok (negb dominated).

Definition undominated_thresholds (points : list (pystr * PinSummary)) : result exn (list pystr) :=
  kept ← result_filter (undominated points) points;
  Ok (map fst kept).

(** [_pareto] *)
Definition pareto (routing : PinRouting) : result exn (list (pystr * list pystr)) :=
  result_map (fun v =>
    match dict_get (pin_variants routing) v with
    | Some points => ts ← undominated_thresholds (map (fun p => (p.1, p.2.1)) points); Ok (v, ts)
    | None => Raise (Exn C_KeyError)
    end) PIN_VARIANTS.
End Routing.

(** ** The pins, as sets *)

Lemma value_sets_in pairs g : g ∈ value_sets pairs ->
  g.2 <> [] /\ NoDup g.2 /\ forall v, v ∈ g.2 <-> (g.1, v) ∈ pairs.
Proof.
  unfold value_sets. rewrite elem_of_map. intros (h & -> & Hh). cbn [fst snd]. apply (group_by_in fst) in Hh as [E Ne].
  split; [|split; [apply NoDup_remove_dups|]].
  - destruct h.2 as [|p l] eqn:El; [done|]. intros X. assert (Y : p.2 ∈ remove_dups (map snd (p :: l))); [|rewrite X in Y; by apply elem_of_nil in Y].
    apply elem_of_remove_dups, elem_of_map. exists p. split; [done|apply elem_of_cons; by left].
  - intros v. rewrite elem_of_remove_dups, elem_of_map, E. split.
    + intros ([k w] & -> & Hp). apply filter_in in Hp as [Hp K]. apply bool_decide_eq_true in K. cbn [fst snd] in *. by subst k.
    + intros Hp. exists (h.1, v). split; [done|]. apply filter_in. split; [done|by apply bool_decide_eq_true].
Qed.

Lemma value_sets_key pairs p : p ∈ pairs -> exists g, g ∈ value_sets pairs /\ g.1 = p.1.
Proof.
  intros Hp. assert (K : p.1 ∈ dict_keys (group_by fst pairs)) by (apply group_by_mem; by exists p).
  apply elem_of_map in K as (h & E & Hh). exists (h.1, remove_dups (map snd h.2)). split; [|by cbn].
  unfold value_sets. apply elem_of_map. by exists h.
Qed.

(** All sets have one element: the pairs are a function of the first component. *)
Lemma value_sets_single pairs : forallb single (value_sets pairs) = true <->
  forall p q, p ∈ pairs -> q ∈ pairs -> p.1 = q.1 -> p.2 = q.2.
Proof.
  rewrite forallb_forall. split.
  - intros H p q Hp Hq E. destruct (value_sets_key pairs p Hp) as (g & Hg & Eg).
    pose proof (H g (proj1 (list_elem_of_In _ _) Hg)) as S. apply Nat.eqb_eq in S. destruct (value_sets_in pairs g Hg) as (_ & _ & V).
    assert (Eg0 := eq_sym Eg). destruct g as [k [|v [|]]]; try discriminate S. cbn [fst snd] in *.
    assert (X : forall r : pystr * pystr, r ∈ pairs -> r.1 = k -> r.2 = v).
    { intros [a b] Hr E'. cbn [fst snd] in *. subst a. apply V in Hr. by apply list_elem_of_singleton in Hr. }
    rewrite (X p Hp Eg0). rewrite (X q Hq); [done|]. by rewrite <- E.
  - intros H g Hg. apply list_elem_of_In in Hg. destruct (value_sets_in pairs g Hg) as (Ne & N & V). unfold single.
    destruct g as [k [|v [|w l]]]; cbn [fst snd] in *; [done|done|]. exfalso.
    inversion N as [|? ? A _]; subst. apply A, elem_of_cons. left.
    apply (H (k, v) (k, w)); [apply V, elem_of_cons; by left|apply V; do 2 (apply elem_of_cons; try (by left); right)|done].
Qed.

Lemma single_or_several pairs : existsb several (value_sets pairs) = negb (forallb single (value_sets pairs)).
Proof.
  assert (H : forall g, g ∈ value_sets pairs -> g.2 <> []) by (intros g Hg; by destruct (value_sets_in _ _ Hg)).
  induction (value_sets pairs) as [|g l IH]; [done|]. cbn [existsb forallb].
  rewrite IH by (intros k Hk; apply H, elem_of_cons; by right).
  pose proof (H g (proj2 (elem_of_cons _ _ _) (or_introl eq_refl))) as Ne. unfold several, single.
  by destruct g as [k [|v [|w m]]].
Qed.

Lemma counted_pairs {A} `{EqDecision A} (l : list A) x : x ∈ dict_keys (group_by (fun y => y) l) <-> x ∈ l.
Proof. rewrite group_by_mem. split; [by intros (y & Hy & <-)|intros H; by exists x]. Qed.

Lemma swap_mem pairs p : p ∈ map swap pairs <-> swap p ∈ pairs.
Proof.
  rewrite elem_of_map. split; [by intros ([a b] & -> & H)|]. intros H. exists (swap p). by destruct p.
Qed.

(** The pin report is exact.  It says that each candidate has exactly one pin
    if and only if no two rows of a candidate differ in their pin, that there is
    variation in the other case only, that the relation is one to one if and only
    if no pin serves two candidates as well, and its frequencies add up to the
    rows: what the ablation removes is a function of the candidate. *)
Theorem pins_are_reported `{UD : UnicodeData} ds m : provider_pin_mapping ds = Ok m ->
  let pinned p := exists r, r ∈ rows ds /\ pin_pair r = Ok p in
  (each_candidate_has_exactly_one_pin m = true <-> forall p q, pinned p -> pinned q -> p.1 = q.1 -> p.2 = q.2) /\
  within_candidate_provider_variation m = negb (each_candidate_has_exactly_one_pin m) /\
  (one_to_one m = true <-> forall p q, pinned p -> pinned q -> (p.1 = q.1 <-> p.2 = q.2)) /\
  foldr Z.add 0%Z (map snd (frequency_table m)) = Z.of_nat (length (rows ds)).
Proof.
  unfold provider_pin_mapping. intros H. apply bind_ok in H as (pairs & P & H). cbv zeta in H. injection H as <-. cbv zeta.
  cbn [each_candidate_has_exactly_one_pin within_candidate_provider_variation one_to_one frequency_table].
  assert (M : forall p, p ∈ dict_keys (group_by (fun q => q) pairs) <-> exists r, r ∈ rows ds /\ pin_pair r = Ok p).
  { intros p. rewrite counted_pairs. split.
    - intros Hp. by apply (result_map_mem _ _ _ _ P) in Hp.
    - intros (r & Hr & Er). destruct (result_map_image _ _ _ _ P Hr) as (q & Hq & Eq). congruence. }
  set (keys := dict_keys (group_by (fun q => q) pairs)) in *.
  assert (F : forallb single (value_sets keys) = true <-> forall p q, (exists r, r ∈ rows ds /\ pin_pair r = Ok p) ->
    (exists r, r ∈ rows ds /\ pin_pair r = Ok q) -> p.1 = q.1 -> p.2 = q.2).
  { rewrite value_sets_single. split; intros X p q Hp Hq; apply X; by apply M. }
  split; [exact F|]. split; [apply single_or_several|]. split.
  - rewrite andb_true_iff, F, value_sets_single. split.
    + intros [A B] p q Hp Hq. split; [by apply A|]. intros E. apply (B (swap p) (swap q)); [..|exact E]; apply swap_mem; rewrite <- M in *; by destruct p, q.
    + intros A. split; [intros p q Hp Hq; by apply A|]. intros p q Hp Hq E. apply swap_mem, M in Hp, Hq. by apply (A _ _ Hp Hq).
  - rewrite group_counts_sum. apply result_map_ok in P. by rewrite (Forall2_length _ _ _ P).
Qed.

(** ** Both variants predict every row once *)

(** The temporary entry is gone after the call. *)
Lemma registry_restored variant : (build_variant_pipeline REPRESENTATIONS variant).2 = REPRESENTATIONS.
Proof. unfold build_variant_pipeline. cbn [snd]. case_bool_decide as D; [|done]. rewrite D. vm_compute. reflexivity. Qed.

Lemma concat_perm_map {A B} (f g : A -> list B) l : (forall x, x ∈ l -> f x ≡ₚ g x) -> concat (map f l) ≡ₚ concat (map g l).
Proof.
  induction l as [|x l IH]; intros H; [done|]. cbn [map concat]. rewrite (H x) by (apply elem_of_cons; by left).
  by rewrite IH by (intros y Hy; apply H, elem_of_cons; by right).
Qed.

Lemma concat_concat_map {A B C} (f : B -> list C) (g : A -> list B) l :
  concat (map (fun x => concat (map f (g x))) l) = concat (map f (concat (map g l))).
Proof. induction l as [|x l IH]; [done|]. cbn [map concat]. by rewrite IH, map_app, concat_app. Qed.

(** The rows of the tasks of a fold, task by task. *)
Lemma fold_rows_by_task ts l : NoDup ts -> List.filter (row_in ts) l ≡ₚ concat (map (fun t => of_task t l) ts).
Proof.
  intros N. rewrite <- (key_partition ml_task_id ts (List.filter (row_in ts) l) N).
  - apply eq_subrelation; [apply _|]. f_equal. apply map_ext_in. intros t Ht. apply of_task_row_in. by apply list_elem_of_In.
  - intros r Hr. apply filter_in in Hr as [_ Hr]. by apply bool_decide_eq_true in Hr.
Qed.

Lemma NoDup_concat_in {A} (ls : list (list A)) l : NoDup (concat ls) -> l ∈ ls -> NoDup l.
Proof.
  induction ls as [|k ls IH]; intros N H; [by apply elem_of_nil in H|]. cbn [concat] in N. apply NoDup_app in N as (A1 & _ & A2).
  apply elem_of_cons in H as [->|H]; [done|by apply IH].
Qed.

(** If the folds share out the tasks, their test rows share out the rows. *)
Lemma test_rows_partition fs l : concat (map task_ids fs) ≡ₚ remove_dups (map ml_task_id l) ->
  concat (map (fun a => test_rows a l) fs) ≡ₚ l.
Proof.
  intros P. assert (N : NoDup (concat (map task_ids fs))) by (rewrite P; apply NoDup_remove_dups).
  transitivity (concat (map (fun a => concat (map (fun t => of_task t l) (task_ids a))) fs)).
  - apply concat_perm_map. intros a Ha. apply fold_rows_by_task. apply (NoDup_concat_in _ _ N), elem_of_map. by exists a.
  - rewrite concat_concat_map. apply (key_partition ml_task_id); [done|].
    intros r Hr. rewrite P, elem_of_remove_dups. apply elem_of_map. by exists r.
Qed.

Lemma zip_sublist {A B C} (f : A -> C) (l : list A) (m : list B) : map f (map fst (zip l m)) `sublist_of` map f l.
Proof.
  revert m. induction l as [|x l IH]; intros [|y m]; cbn; [constructor|constructor| |].
  - apply sublist_nil_l.
  - apply sublist_skip, IH.
Qed.

Lemma concat_sublist {A B} (f : A -> list B) l ls : Forall2 (fun x k => k `sublist_of` f x) l ls -> concat ls `sublist_of` concat (map f l).
Proof. intros F. induction F as [|x k l ls H _ IH]; [constructor|]. cbn [map concat]. by apply sublist_app. Qed.

(** What a prediction of the ablation is: the row's, by a pipeline of the
    variant's representation that was fitted on the valid rows of other tasks. *)
Definition pin_predicted `{RP : RepresentationPipelines} (v : pystr) (l : list MLExperimentRow) (a : FoldAssignment) (p : Prediction) : Prop :=
  exists r representation X m T ps, r ∈ l /\ ml_task_id r ∈ task_ids a /\ dict_get representations v = Some representation /\
    pin_matrix (train_rows a l) v = Ok X /\ rp_fit representation X (map label_number (train_rows a l)) = Ok m /\
    pin_matrix (test_rows a l) v = Ok T /\ rp_proba m T = Ok ps /\
    (r, predicted_probability p) ∈ zip (test_rows a l) ps /\ p = prediction_of v a r (predicted_probability p).

Lemma variant_representation v representation : v ∈ PIN_VARIANTS ->
  (build_variant_pipeline REPRESENTATIONS v).1 = Ok representation -> dict_get representations v = Some representation.
Proof.
  unfold PIN_VARIANTS. rewrite !elem_of_cons. intros [->|[->|H]]; [..|by apply elem_of_nil in H]; vm_compute; intros [= <-]; reflexivity.
Qed.

Lemma pin_fold_ok `{RP : RepresentationPipelines} v l a ps x : v ∈ PIN_VARIANTS -> pin_fold v l a = Ok (ps, x) ->
  map prediction_key ps `sublist_of` map ml_row_key (test_rows a l) /\ forall p, p ∈ ps -> pin_predicted v l a p.
Proof.
  intros V. unfold pin_fold. intros H. apply bind_ok in H as (rep & R & H). apply bind_ok in H as (X & HX & H).
  apply bind_ok in H as (m & M & H). apply bind_ok in H as (T & HT & H). apply bind_ok in H as (pr & Hpr & H). injection H as <- _.
  split.
  - rewrite map_map. pose proof (zip_sublist ml_row_key (test_rows a l) pr) as Z. by rewrite map_map in Z.
  - intros p Hp. apply elem_of_map in Hp as ([r y] & -> & Hz). cbn [fst snd].
    assert (Hr : r ∈ test_rows a l) by (apply list_elem_of_In in Hz; apply in_combine_l in Hz; by apply list_elem_of_In).
    apply filter_in in Hr as [Hr Ht]. exists r, rep, X, m, T, pr. split; [done|]. split; [by apply bool_decide_eq_true in Ht|].
    split; [by apply variant_representation|]. done.
Qed.

Lemma pin_variant_ok `{RP : RepresentationPipelines} l folds v ps x : v ∈ PIN_VARIANTS -> length l = 224 ->
  concat (map task_ids folds) ≡ₚ remove_dups (map ml_task_id l) -> pin_variant l folds v = Ok (ps, x) ->
  map prediction_key ps ≡ₚ map ml_row_key l /\ forall p, p ∈ ps -> exists a, a ∈ folds /\ pin_predicted v l a p.
Proof.
  intros V L P. unfold pin_variant. intros H. apply bind_ok in H as (out & O & H). cbv zeta in H.
  apply bind_ok in H as (u & G & H). apply guard_ok, Nat.eqb_eq in G. injection H as <- _. rewrite length_py_sorted in G.
  assert (F : Forall2 (fun a k => k `sublist_of` map ml_row_key (test_rows a l)) folds (map (map prediction_key) (map fst out))).
  { apply result_map_ok in O. clear -O V. induction O as [|a [qs y] folds out Ha _ IH]; [constructor|]. cbn [map fst].
    constructor; [|exact IH]. by apply pin_fold_ok in Ha as [S _]. }
  split.
  - rewrite (Permutation_map prediction_key (py_sorted_perm _ _)). apply submseteq_length_Permutation.
    + rewrite concat_map. transitivity (concat (map (fun a => map ml_row_key (test_rows a l)) folds)).
      * by apply sublist_submseteq, concat_sublist.
      * apply Permutation_submseteq. rewrite <- (map_map (fun a => test_rows a l) (map ml_row_key)), <- concat_map.
        by apply Permutation_map, test_rows_partition.
    + rewrite !length_map, L, G. done.
  - intros p Hp. rewrite elem_of_py_sorted in Hp. apply list_elem_of_In, in_concat in Hp as (qs & Hqs & Hp).
    apply list_elem_of_In, elem_of_map in Hqs as ([qs' y] & -> & Ho). destruct (result_map_mem _ _ _ _ O Ho) as (a & Ha & E).
    exists a. split; [done|]. apply pin_fold_ok in E as [_ E]; [|done]. by apply E, list_elem_of_In.
Qed.

(** What the fold assignment says of the tasks. *)
Lemma folds_share_tasks ds fs : build_outer_folds ds = Ok fs -> concat (map task_ids fs) ≡ₚ remove_dups (map ml_task_id (rows ds)).
Proof.
  intros H. pose proof H as B. unfold build_outer_folds in H. apply bind_ok in H as (ps & Hps & H).
  apply bind_ok in H as (f0 & Hf & _). destruct (profiles_ok _ _ Hps) as (N & K & P).
  destruct (build_outer_folds_steps ds ps Hps N (assign_categories_eight _ _ _ _ Hf)) as (folds & L & _ & A & S).
  rewrite B in S. destruct (Nat.eqb _ 7); [|discriminate S]. injection S as ->.
  rewrite (assignments_tasks _ _ L), A. apply NoDup_Permutation; [done|apply NoDup_remove_dups|]. intros t. by rewrite elem_of_remove_dups.
Qed.

(** Both variants predict every row once, out of fold.  Each has one
    prediction for each row, by a pipeline of its own representation that was
    fitted on the valid rows of the tasks of the other folds. *)
Theorem ablation_is_out_of_fold `{RP : RepresentationPipelines} ds records audits folds :
  generate_predictions ds = Ok (records, audits, folds) ->
  exists parts, records = concat parts /\
    Forall2 (fun v ps => map prediction_key ps ≡ₚ map ml_row_key (rows ds) /\
      forall p, p ∈ ps -> exists a, a ∈ folds /\ pin_predicted v (rows ds) a p) PIN_VARIANTS parts.
Proof.
  unfold generate_predictions. intros H. apply bind_ok in H as (fs & F & H). apply bind_ok in H as (out & O & H).
  injection H as <- _ <-. exists (map fst out). split; [done|]. pose proof (folded_rows _ _ F) as L. pose proof (folds_share_tasks _ _ F) as P.
  apply result_map_ok in O. assert (V : PIN_VARIANTS ⊆ PIN_VARIANTS) by done. revert V O. generalize PIN_VARIANTS at 1 3 4. intros vs V O.
  induction O as [|v [ps y] vs out Hv _ IH]; [constructor|]. cbn [map fst]. constructor; [|apply IH; set_solver].
  apply (pin_variant_ok _ _ _ _ _ (V v (proj2 (elem_of_cons _ _ _) (or_introl eq_refl))) L P Hv).
Qed.
