(* ===== verification/Calibration.v ===== *)
(** * Calibration and thresholds ([routing/calibration_analysis.py])

    Predictions out of fold as probabilities: reliability tables, a calibration
    fitted across folds, the production policy applied to them at every
    threshold, summaries with costs, baselines, the bootstrap over requests, the
    thresholds that no other dominates and how far neighbours differ.  The
    reproduction of stored predictions and the report are not modelled. *)
From S2P Require Import Prelude PyStr PyFloat PyDecimal PyNum Schemas Json PyRepr Errors Policy PyStats BenchmarkModels Aggregation RoutingExport RoutingAnalysis MLFeatures MLExperiment MLDiagnostics PolicyValidation Sklearn PinAblation.

(** The thresholds in percent. *)
Definition FINE_PERCENT : list Z := [50; 55; 60; 65; 70; 75; 80; 85; 90; 95]%Z.
Definition FINE_THRESHOLDS : list (pystr * float) := map (fun v => (py "0." ++ Z_to_str v, f_of_ratio v 100)) FINE_PERCENT.

Definition EQUAL_WIDTH : pystr := py "equal_width".
Definition EQUAL_FREQUENCY : pystr := py "equal_frequency".

(** ** Metrics *)

(** [int(bool(item["target"]))] *)
Definition target_number (p : Prediction) : Z := if default false (target p) then 1 else 0.

Definition targets (l : list Prediction) : list Z := map target_number l.
Definition probabilities_of (l : list Prediction) : list float := map predicted_probability l.
Definition sum_Z (l : list Z) : Z := foldr Z.add 0%Z l.

Record PredictiveMetrics := mk_PredictiveMetrics {
  pm_rows : Z;
  pm_positive : Z;
  pm_negative : Z;
  pm_log_loss : float;
  pm_brier_score : float;
  pm_roc_auc : float;
  pm_average_precision : float
}.

Section Calibration.
Context {UD : UnicodeData} {NP : Numpy} {BM : BinaryMetrics} {CB : Calibrators}.

(** [predictive_metrics] *)
Definition predictive_metrics (records : list Prediction) : result exn PredictiveMetrics :=
  let valid := List.filter pn_valid records in
  let y := targets valid in
  let p := probabilities_of valid in
  loss ← log_loss y p;
  brier ← brier_score_loss y p;
  auc ← roc_auc_score y p;
  precision ← average_precision_score y p;
  Ok (mk_PredictiveMetrics (Z.of_nat (length valid)) (sum_Z y) (Z.of_nat (length y) - sum_Z y) loss brier auc precision).

(** ** Reliability *)

Record ReliabilityBin := mk_ReliabilityBin {
  rb_bin : nat;
  rb_lower_bound : float;
  rb_upper_bound : float;
  rb_count : Z;
  rb_mean_predicted_probability : option float;
  rb_observed_acceptable_fraction : option float;
  rb_absolute_calibration_gap : option float
}.

Record ReliabilityTable := mk_ReliabilityTable {
  rl_strategy : pystr;
  rl_requested_bins : nat;
  rl_reported_bins : nat;
  rl_empty_bins : Z;
  ece : float;
  mce : float;
  rl_bins : list ReliabilityBin
}.

(** [np.minimum(np.searchsorted(edges, p, side="right") - 1, bins - 1)] *)
Definition width_index (edges : list float) (bins : nat) (p : float) : Z :=
  Z.min (Z.of_nat (np_searchsorted_right edges p) - 1) (Z.of_nat bins - 1).

(** The members of a bin: positions among the valid predictions. *)
Definition width_members (edges : list float) (bins : nat) (ps : list float) (index : nat) : list nat :=
  List.filter (fun j => match ps !! j with Some p => (width_index edges bins p =? Z.of_nat index)%Z | None => false end)
    (seq 0 (length ps)).

Definition width_bounds (edges : list float) (index : nat) : result exn (float * float) :=
  match edges !! index, edges !! S index with Some lo, Some hi => Ok (lo, hi) | _, _ => Raise (Exn C_IndexError) end.

(** [values[members]] *)
Definition gather {A : Type} (values : list A) (members : list nat) : list A := omap (fun j => values !! j) members.

Definition memberships (strategy : pystr) (bins : nat) (ps : list float) : result exn (list (list nat * (float * float))) :=
  if bool_decide (strategy = EQUAL_WIDTH) then
    let edges := np_linspace_unit (S bins) in
    bounds ← result_map (width_bounds edges) (seq 0 bins);
    Ok (zip (map (width_members edges bins ps) (seq 0 bins)) bounds)
  else if bool_decide (strategy = EQUAL_FREQUENCY) then
    let order := np_argsort ps in
    let sections := Nat.min bins (length order) in
    _ ← guard_else (Nat.ltb 0 sections) (Exn C_ValueError);
    Ok (map (fun chunk => (chunk, (np_min (gather ps chunk), np_max (gather ps chunk)))) (np_array_split order sections))
  else Raise (Exn C_ValueError).

Definition reliability_bin (valid : list Prediction) (index : nat) (m : list nat * (float * float)) : ReliabilityBin :=
  let members := gather valid m.1 in
  let empty := Nat.eqb (length m.1) 0 in
  let predicted := np_mean (probabilities_of members) in
  let observed := np_mean (map f_of_Z (targets members)) in
  mk_ReliabilityBin (S index) m.2.1 m.2.2 (Z.of_nat (length m.1)) (if empty then None else Some predicted)
    (if empty then None else Some observed) (if empty then None else Some (f_abs (f_sub predicted observed))).

(** [weighted_gap] and [maximum_gap] *)
Definition add_gap (n : Z) (acc : float * float) (b : ReliabilityBin) : float * float :=
  match rb_absolute_calibration_gap b with
  | Some gap => (f_add acc.1 (f_mul (ratio (rb_count b) n) gap), f_max acc.2 gap)
  | None => acc
  end.

Definition is_empty_bin (b : ReliabilityBin) : bool := (rb_count b =? 0)%Z.

(** [reliability_table] *)
Definition reliability_table (records : list Prediction) (bins : nat) (strategy : pystr) : result exn ReliabilityTable :=
  let valid := List.filter pn_valid records in
  ms ← memberships strategy bins (probabilities_of valid);
  let table := map (fun im => reliability_bin valid im.1 im.2) (combine (seq 0 (length ms)) ms) in
  let gaps := fold_left (add_gap (Z.of_nat (length valid))) table (f_zero, f_zero) in
  Ok (mk_ReliabilityTable strategy bins (length table) (count is_empty_bin table) gaps.1 gaps.2 table).

(** ** Calibration across folds *)

Definition CLIP : float := f_of_ratio 1 1000000000000.

(** The logits of clipped probabilities. *)
Definition logits (l : list Prediction) : list float :=
  map (fun p => let q := np_clip CLIP (f_sub f_one CLIP) (predicted_probability p) in np_log (f_div q (f_sub f_one q))) l.

(** [calibration_slope_intercept] *)
Definition calibration_slope_intercept (records : list Prediction) : result exn (float * float) :=
  let valid := List.filter pn_valid records in
  m ← fit_calibrator (logits valid) (targets valid);
  Ok (intercept_slope m).

Record CalibrationAudit := mk_CalibrationAudit {
  ca_fold : nat;
  ca_train_request_groups : Z;
  ca_evaluation_request_groups : Z;
  ca_train_valid_rows : Z;
  ca_evaluation_rows : Z
}.

Definition in_fold (f : nat) (p : Prediction) : bool := Nat.eqb (pn_fold p) f.

Definition with_probability (p : Prediction) (x : float) : Prediction :=
  mk_Prediction (pn_variant p) (pn_task_id p) (pn_candidate_id p) (pn_fold p) x (pn_label_status p) (target p).

Definition calibration_train (records : list Prediction) (f : nat) : list Prediction :=
  List.filter (fun p => negb (in_fold f p) && pn_valid p) records.

Definition calibration_test (records : list Prediction) (f : nat) : list Prediction := List.filter (in_fold f) records.

(** One round of the loop of [cross_fitted_platt]. *)
Definition calibrate_fold (records : list Prediction) (f : nat) : result exn (list Prediction * CalibrationAudit) :=
  let train := calibration_train records f in
  let test := calibration_test records f in
  let train_tasks := remove_dups (map pn_task_id train) in
  let test_tasks := remove_dups (map pn_task_id test) in
  _ ← guard_else (forallb (fun t => negb (bool_decide (t ∈ test_tasks))) train_tasks) (Exn C_ValueError);
  m ← fit_calibrator (logits train) (targets train);
  Ok (map (fun px => with_probability px.1 px.2) (zip test (calibrated_proba m (logits test))),
      mk_CalibrationAudit f (Z.of_nat (length train_tasks)) (Z.of_nat (length test_tasks)) (Z.of_nat (length train))
        (Z.of_nat (length test))).

(** [sorted({int(item["fold"]) for item in records})] *)
Definition folds_of (records : list Prediction) : list nat :=
  py_sorted Nat.leb (remove_dups (map pn_fold records)).

(** [cross_fitted_platt] *)
Definition cross_fitted_platt (records : list Prediction) : result exn (list Prediction * list CalibrationAudit) :=
  out ← result_map (calibrate_fold records) (folds_of records);
  Ok (py_sorted (cmp_le prediction_cmp) (concat (map fst out)), map snd out).

(** ** Routing at a threshold *)

(** A selection as the summaries read it; baselines have no flags, and only the
    retraining study adds the realized cost. *)
Record RoutedSelection := mk_RoutedSelection {
  rs_task_id : pystr;
  rs_candidate_id : pystr;
  rs_projected_cost_usd : decimal;
  rs_realized_cost_usd : option decimal;
  rs_label_status : LabelStatus;
  rs_acceptable : option bool;
  rs_quality_score : option float;
  rs_fallback_used : option bool;
  rs_threshold_satisfied : option bool
}.

(** [CandidatePrediction(...)] of a prediction, with the cost of its row. *)
Definition candidate_prediction (index : list ((pystr * pystr) * MLExperimentRow)) (task : pystr) (p : Prediction) :
    result exn CandidatePrediction :=
  cost ← indexed_cost index task (pn_candidate_id p);
  let c := mk_CandidatePrediction (pn_candidate_id p) (predicted_probability p) cost in
  _ ← validated (check (CandidatePrediction_ok c) field_error);
  Ok c.

(** One round of the loop of [route_at_threshold]. *)
Definition route_task (index : list ((pystr * pystr) * MLExperimentRow)) (threshold : float) (g : pystr * list Prediction) :
    result exn RoutedSelection :=
  candidates ← result_map (candidate_prediction index g.1) g.2;
  d ← route candidates (PyFloat threshold);
  r ← row_lookup index g.1 (selected_model_id d);
  cost ← projected_cost_usd r;
  Ok (mk_RoutedSelection g.1 (selected_model_id d) cost None (ml_label_status r) (ml_acceptable r) (ml_quality_score r)
        (Some (fallback_used d)) (Some (threshold_satisfied d))).

(** [route_at_threshold] *)
Definition route_at_threshold (ds : MLExperimentDataset) (records : list Prediction) (threshold : float) :
    result exn (list RoutedSelection) :=
  result_map (route_task (row_index ds) threshold) (sorted_groups str_cmp (group_by pn_task_id records)).

Record SelectionSummary := mk_SelectionSummary {
  sm_requests_routed : Z;
  sm_valid_selected_labels : Z;
  sm_missing_selected_labels : Z;
  sm_acceptable_selections : Z;
  sm_unacceptable_selections : Z;
  sm_observed_acceptable_rate : option float;
  sm_mean_observed_quality : option float;
  sm_total_projected_cost_usd : pystr;
  sm_average_projected_cost : option pystr;
  sm_fallback_count : Z;
  sm_fallback_rate : option float;
  sm_threshold_met_count : Z;
  sm_threshold_met_rate : option float;
  sm_model_distribution : list (pystr * Z);
  sm_cost_reduction : option (pystr * float)
}.

Definition rs_valid (s : RoutedSelection) : bool := bool_decide (rs_label_status s = LS_valid).
Definition rs_accepted (s : RoutedSelection) : bool := bool_decide (rs_acceptable s = Some true).

(** [bool(item.get(...))] *)
Definition flag (o : option bool) : bool := default false o.

(** [np.mean] of a list that may hold [None] *)
Definition mean_quality (valid : list RoutedSelection) : result exn (option float) :=
  match valid with
  | [] => Ok None
  | _ =>
      qs ← result_map (fun s => match rs_quality_score s with Some q => Ok q | None => Raise (Exn C_TypeError) end) valid;
      Ok (Some (np_mean qs))
  end.

(** [summarize_selections] *)
Definition summarize_selections (selections : list RoutedSelection) (reference_cost : option decimal) : result exn SelectionSummary :=
  let valid := List.filter rs_valid selections in
  let n := Z.of_nat (length selections) in
  let labelled := Z.of_nat (length valid) in
  let good := count rs_accepted valid in
  let fallbacks := count (fun s => flag (rs_fallback_used s)) selections in
  let met := count (fun s => flag (rs_threshold_satisfied s)) selections in
  total ← decimal_error (d_sum default_prec (map rs_projected_cost_usd selections));
  quality ← mean_quality valid;
  average ← (if (n =? 0)%Z then Ok None else a ← decimal_error (d_div default_prec total (d_of_Z n)); Ok (Some (d_str a)));
  saved ← match reference_cost with
          | None => Ok None
          | Some r => d ← d_minus r total; f ← reduction r total; Ok (Some (d_str d, f))
          end;
  Ok (mk_SelectionSummary n labelled (n - labelled) good (labelled - good) (share good labelled) quality (d_str total) average
        fallbacks (share fallbacks n) met (share met n)
        (map (fun g => (g.1, Z.of_nat (length g.2))) (sorted_groups str_cmp (group_by rs_candidate_id selections))) saved).

(** ** Baselines *)

(** The values that are not [None]. *)
Definition present {A : Type} (l : list (option A)) : list A := omap (fun o => o) l.

Definition baseline_selection (index : list ((pystr * pystr) * MLExperimentRow)) (d : RoutingAnalysis.RoutingDecision) :
    result exn (option RoutedSelection) :=
  match dn_candidate_id d with
  | None => Ok None
  | Some c =>
      r ← row_lookup index (dn_task_id d) c;
      cost ← projected_cost_usd r;
      Ok (Some (mk_RoutedSelection (dn_task_id d) c cost None (ml_label_status r) (ml_acceptable r) (ml_quality_score r) None None))
  end.

(** [selections_from_decisions] *)
Definition selections_from_decisions (index : list ((pystr * pystr) * MLExperimentRow)) (ds : list RoutingAnalysis.RoutingDecision) :
    result exn (list RoutedSelection) :=
  out ← result_map (baseline_selection index) ds;
  Ok (present out).

(** The rows of a task that are acceptable. *)
Definition acceptable_rows (ds : MLExperimentDataset) (task : pystr) : list MLExperimentRow :=
  List.filter (fun r => bool_decide (ml_task_id r = task) && ml_valid r && default false (ml_acceptable r)) (rows ds).

(** The order of (projected cost, candidate). *)
Definition costed_cmp : decimal * MLExperimentRow -> decimal * MLExperimentRow -> comparison :=
  lex_cmp (on_key fst d_cmp) (on_key (fun x => ml_candidate_id x.2) str_cmp).

(** The acceptable row with the lowest projected cost, if there is one. *)
Definition cheapest_acceptable (ds : MLExperimentDataset) (task : pystr) : result exn (option MLExperimentRow) :=
  costed ← result_map (fun r => c ← projected_cost_usd r; Ok (c, r)) (acceptable_rows ds task);
  Ok (match costed with [] => None | x :: xs => Some (min_from (cmp_lt costed_cmp) x xs).2 end).

Definition ORACLE_REASON : pystr := py "retrospective lowest projected cost among observed acceptable candidates".

(** [type(strongest[0])(...)] needs a first decision of the strongest baseline. *)
Definition projected_oracle (ds : MLExperimentDataset) (strongest : list RoutingAnalysis.RoutingDecision) (task : pystr) :
    result exn (option RoutingAnalysis.RoutingDecision) :=
  best ← cheapest_acceptable ds task;
  match best, strongest with
  | None, _ => Ok None
  | Some _, [] => Raise (Exn C_IndexError)
  | Some r, _ :: _ => Ok (Some (RoutingAnalysis.mk_RoutingDecision ORACLE_CHEAPEST_ACCEPTABLE task (Some (ml_candidate_id r)) ORACLE_REASON))
  end.

Record BaselineAnalysis := mk_BaselineAnalysis {
  ba_summaries : list (pystr * SelectionSummary);
  ba_without_acceptable : Z;
  ba_strongest_cost : decimal;
  ba_strongest_audit : list (nat * (pystr * list (pystr * CandidateMetrics)))
}.

(** [baseline_analysis], from the frozen data *)
Definition baseline_analysis (frozen : FrozenRoutingData) (ds : MLExperimentDataset) (folds : list FoldAssignment) :
    result exn BaselineAnalysis :=
  let summary decisions := s ← selections_from_decisions (row_index ds) decisions; summarize_selections s None in
  cheapest ← result_map (rp_select AlwaysCheapestPolicy) (requests frozen);
  rule ← result_map (rp_select RuleBasedV1Policy) (requests frozen);
  '(strongest, audit) ← fold_local_strongest_decisions (observations frozen) folds;
  oracle ← result_map (projected_oracle ds strongest)
             (py_sorted (cmp_le str_cmp) (remove_dups (map pr_task_id (requests frozen))));
  sc ← summary cheapest;
  sr ← summary rule;
  ss ← summary strongest;
  so ← summary (present oracle);
  cost ← decimal_text (sm_total_projected_cost_usd ss);
  Ok (mk_BaselineAnalysis [(ALWAYS_CHEAPEST, sc); (RULE_BASED_V1, sr); (FOLD_LOCAL_ALWAYS_STRONGEST, ss); (ORACLE_CHEAPEST_ACCEPTABLE, so)]
        (56 - Z.of_nat (length (present oracle))) cost audit).

(** ** The bootstrap over requests *)

Record Intervals := mk_Intervals {
  acceptable_rate_interval : float * float;
  average_cost_interval : float * float;
  fallback_rate_interval : float * float
}.

(** [np.percentile(values, [2.5, 97.5])] *)
Definition interval (values : list float) : result exn (float * float) :=
  lo ← np_percentile values (f_of_ratio 5 2);
  hi ← np_percentile values (f_of_ratio 195 2);
  Ok (lo, hi).

(** [item["fallback_used"]] *)
Definition required_flag (s : RoutedSelection) : result exn bool :=
  match rs_fallback_used s with Some b => Ok b | None => Raise (Exn C_KeyError) end.

Record Replicate := mk_Replicate { rp_rate : float; rp_cost : float; rp_fallback : float }.

(** The statistics of one sample of requests. *)
Definition replicate_of (index : list (pystr * RoutedSelection)) (sampled : list pystr) : result exn Replicate :=
  rows ← result_map (fun t => match dict_get index t with Some s => Ok s | None => Raise (Exn C_KeyError) end) sampled;
  let valid := List.filter rs_valid rows in
  let n := Z.of_nat (length rows) in
  rate ← true_division (count rs_accepted valid) (Z.of_nat (length valid));
  total ← decimal_error (d_sum default_prec (map rs_projected_cost_usd rows));
  average ← decimal_error (d_div default_prec total (d_of_Z n));
  flags ← result_map required_flag rows;
  fallback ← true_division (count (fun b => b) flags) n;
  Ok (mk_Replicate rate (f_of_decimal average) fallback).

Section Bootstrap.
(** [choice rng l] is [rng.choice(l, size=len(l), replace=True)]. *)
Context {Rng : Type} (choice : Rng -> list pystr -> list pystr * Rng).

Fixpoint replicates_of (n : nat) (index : list (pystr * RoutedSelection)) (ids : list pystr) (rng : Rng) :
    result exn (list Replicate * Rng) :=
  match n with
  | O => Ok ([], rng)
  | S n =>
      let '(sampled, rng) := choice rng ids in
      r ← replicate_of index sampled;
      '(rs, rng) ← replicates_of n index ids rng;
      Ok (r :: rs, rng)
  end.

(** The thresholds in turn, with one generator. *)
Fixpoint bootstrap_from (n : nat) (selections : list (pystr * list RoutedSelection)) (rng : Rng) :
    result exn (list (pystr * Intervals)) :=
  match selections with
  | [] => Ok []
  | (key, l) :: rest =>
      let index := dict_of rs_task_id (fun s => s) l in
      '(rs, rng) ← replicates_of n index (py_sorted (cmp_le str_cmp) (dict_keys index)) rng;
      rates ← interval (map rp_rate rs);
      costs ← interval (map rp_cost rs);
      fallbacks ← interval (map rp_fallback rs);
      others ← bootstrap_from n rest rng;
      Ok ((key, mk_Intervals rates costs fallbacks) :: others)
  end.

(** [grouped_bootstrap], from [np.random.default_rng(seed)] *)
Definition grouped_bootstrap (rng : Rng) (replicates : nat) (selections : list (pystr * list RoutedSelection)) :
    result exn (list (pystr * Intervals)) := bootstrap_from replicates selections rng.
End Bootstrap.

(** ** The frontier *)

(** [Decimal(summary["average_projected_cost_per_request_usd"])] *)
Definition average_cost (s : SelectionSummary) : result exn decimal :=
  match sm_average_projected_cost s with Some t => decimal_text t | None => Raise (Exn C_TypeError) end.

(** [other >= mine] and [other > mine], which [None] refuses. *)
Definition rates_of (other mine : option float) : result exn (float * float) :=
  match other, mine with Some x, Some y => Ok (x, y) | _, _ => Raise (Exn C_TypeError) end.

(** The condition of the loop: [other] dominates a point of this cost, rate and
    coverage. *)
Definition dominates_point (cost : decimal) (quality : option float) (coverage : Z) (other : SelectionSummary) : result exn bool :=
  if negb (sm_valid_selected_labels other =? coverage)%Z then Ok false
  else
    c ← average_cost other;
    if negb (d_leb c cost) then Ok false
    else
      '(theirs, mine) ← rates_of (sm_observed_acceptable_rate other) quality;
      Ok (f_leb mine theirs && (d_ltb c cost || f_ltb mine theirs)).

Definition on_frontier (points : list (pystr * SelectionSummary)) (p : pystr * SelectionSummary) : result exn bool :=
  cost ← average_cost p.2;
  dominated ← any_result (fun o => if bool_decide (o.1 = p.1) then Ok false
                                   else dominates_point cost (sm_observed_acceptable_rate p.2) (sm_valid_selected_labels p.2) o.2) points;
  Ok (negb dominated).

(** [frontier]: the non-dominated thresholds *)
Definition frontier (points : list (pystr * SelectionSummary)) : result exn (list pystr) :=
  kept ← result_filter (on_frontier points) points;
  Ok (map fst kept).

(** ** Neighbouring thresholds *)

Record Stability := mk_Stability {
  st_from : pystr;
  st_to : pystr;
  st_changes : Z;
  st_change_rate : float;
  st_acceptable_rate_change : float;
  st_fallback_rate_change : float;
  st_relative_cost_change : float;
  st_brittle : bool
}.

Definition choices_of (l : list RoutedSelection) : list (pystr * pystr) := dict_of rs_task_id rs_candidate_id l.

(** [sum(left_index[t] != right_index[t] for t in left_index)] *)
Definition changed_choices (left right : list (pystr * pystr)) : result exn Z :=
  changes ← result_map (fun t => match dict_get right t.1 with Some c => Ok (negb (bool_decide (t.2 = c))) | None => Raise (Exn C_KeyError) end) left;
  Ok (count (fun b => b) changes).

Definition entry_of {A : Type} (d : list (pystr * A)) (k : pystr) : result exn A :=
  match dict_get d k with Some x => Ok x | None => Raise (Exn C_KeyError) end.

(** [float(summary["average_projected_cost_per_request_usd"])]; the text of a
    [Decimal] is read as the number it denotes. *)
Definition average_cost_float (s : SelectionSummary) : result exn float := c ← average_cost s; Ok (f_of_decimal c).

Definition at_least (bound x : float) : bool := f_leb bound (f_abs x).

Definition stability_of (selections : list (pystr * list RoutedSelection)) (summaries : list (pystr * SelectionSummary))
    (ab : pystr * pystr) : result exn Stability :=
  left ← entry_of selections ab.1;
  right ← entry_of selections ab.2;
  changed ← changed_choices (choices_of left) (choices_of right);
  sa ← entry_of summaries ab.1;
  sb ← entry_of summaries ab.2;
  acceptance ← rate_delta (sm_observed_acceptable_rate sb) (sm_observed_acceptable_rate sa);
  fallback ← rate_delta (sm_fallback_rate sb) (sm_fallback_rate sa);
  ca ← average_cost_float sa;
  cb ← average_cost_float sb;
  let relative := if f_eqb ca f_zero then f_zero else f_div (f_sub cb ca) ca in
  let rate := ratio changed 56 in
  Ok (mk_Stability ab.1 ab.2 changed rate acceptance fallback relative
        (f_leb (f_of_ratio 1 5) rate || at_least (f_of_ratio 1 10) acceptance || at_least (f_of_ratio 15 100) fallback ||
         at_least (f_of_ratio 1 4) relative)).

(** [threshold_stability]: the comparisons and the brittle intervals *)
Definition threshold_stability (selections : list (pystr * list RoutedSelection)) (summaries : list (pystr * SelectionSummary)) :
    result exn (list Stability * list pystr) :=
  let keys := dict_keys selections in
  comparisons ← result_map (stability_of selections summaries) (zip keys (tail keys));
  Ok (comparisons, map (fun s => st_from s ++ py "->" ++ st_to s) (List.filter st_brittle comparisons)).

(** ** Subgroups *)

Record CandidateDiagnostics := mk_CandidateDiagnostics {
  cd_metrics : PredictiveMetrics;
  cd_mean_predicted_probability : float;
  cd_observed_positive_rate : float;
  cd_ece : float;
  cd_reliability : ReliabilityTable
}.

Record CategoryDiagnostics := mk_CategoryDiagnostics {
  cg_valid_candidate_labels : Z;
  cg_positive : Z;
  cg_positive_rate : float;
  cg_mean_predicted_probability : float;
  cg_brier_score : float;
  cg_absolute_gap : float
}.

Definition candidate_diagnostics (records : list Prediction) (c : pystr) : result exn (pystr * CandidateDiagnostics) :=
  let valid := List.filter pn_valid (List.filter (fun p => bool_decide (pn_candidate_id p = c)) records) in
  m ← predictive_metrics valid;
  t ← reliability_table valid 5 EQUAL_FREQUENCY;
  rate ← true_division (pm_positive m) (pm_rows m);
  Ok (c, mk_CandidateDiagnostics m (np_mean (probabilities_of valid)) rate (ece t) t).

Definition canonical_name (category : pystr) : pystr := if bool_decide (category = py "json") then py "structured_json" else category.

(** The valid records of a category; every record's row is looked up. *)
Definition of_category (index : list ((pystr * pystr) * MLExperimentRow)) (category : pystr) (p : Prediction) : result exn bool :=
  r ← row_lookup index (pn_task_id p) (pn_candidate_id p);
  Ok (bool_decide (ml_category r = category) && pn_valid p).

Definition category_diagnostics (records : list Prediction) (index : list ((pystr * pystr) * MLExperimentRow)) (category : pystr) :
    result exn (pystr * CategoryDiagnostics) :=
  selected ← result_filter (of_category index category) records;
  let y := targets selected in
  let mean := np_mean (probabilities_of selected) in
  rate ← true_division (sum_Z y) (Z.of_nat (length y));
  brier ← brier_score_loss y (probabilities_of selected);
  Ok (canonical_name category,
      mk_CategoryDiagnostics (Z.of_nat (length selected)) (sum_Z y) rate mean brier (f_abs (f_sub mean rate))).

(** [subgroup_diagnostics] *)
Definition subgroup_diagnostics (records : list Prediction) (ds : MLExperimentDataset) :
    result exn (list (pystr * CandidateDiagnostics) * list (pystr * CategoryDiagnostics)) :=
  candidates ← result_map (candidate_diagnostics records) (py_sorted (cmp_le str_cmp) (remove_dups (map pn_candidate_id records)));
  categories ← result_map (category_diagnostics records (row_index ds)) (category_names ds);
  Ok (candidates, dict_of fst snd categories).
End Calibration.

(** ** The frontier *)

Section Frontier.
Context {UD : UnicodeData}.

(** With the same coverage, no dearer, acceptable no less often, and better in
    one of both. *)
Definition outclasses (a b : SelectionSummary) : bool :=
  (sm_valid_selected_labels a =? sm_valid_selected_labels b)%Z &&
  match average_cost a, sm_observed_acceptable_rate a, average_cost b, sm_observed_acceptable_rate b with
  | Ok ca, Some ra, Ok cb, Some rb => dominates (ra, ca) (rb, cb)
  | _, _, _, _ => false
  end.

Lemma outclasses_trans a b c : outclasses a b = true -> outclasses b c = true -> outclasses a c = true.
Proof.
  unfold outclasses. rewrite !andb_true_iff, !Z.eqb_eq. intros [E A] [E' B]. split; [congruence|].
  destruct (average_cost a), (sm_observed_acceptable_rate a), (average_cost b), (sm_observed_acceptable_rate b); try done.
  destruct (average_cost c), (sm_observed_acceptable_rate c); try done. by apply (dominates_trans _ _ _ A).
Qed.

Lemma outclasses_irrefl a : outclasses a a = false.
Proof.
  unfold outclasses. destruct (average_cost a), (sm_observed_acceptable_rate a); rewrite ?andb_false_r; try done.
  by rewrite dominates_irrefl, andb_false_r.
Qed.

Lemma dominates_point_ok p o cost b : average_cost p = Ok cost ->
  dominates_point cost (sm_observed_acceptable_rate p) (sm_valid_selected_labels p) o = Ok b -> b = outclasses o p.
Proof.
  unfold dominates_point, outclasses. intros ->. destruct (_ =? _)%Z; cbn [negb andb]; [|by intros [= <-]].
  intros H. apply bind_ok in H as (c & -> & H). destruct (d_leb c cost) eqn:L; cbn [negb] in H.
  - apply bind_ok in H as ([theirs mine] & R & H). destruct (sm_observed_acceptable_rate o), (sm_observed_acceptable_rate p); try discriminate R.
    injection R as <- <-. injection H as <-. unfold dominates. cbn [fst snd]. rewrite L, andb_true_r. f_equal. apply orb_comm.
  - injection H as <-. destruct (sm_observed_acceptable_rate o), (sm_observed_acceptable_rate p); try done.
    unfold dominates. cbn [fst snd]. by rewrite L, andb_false_r.
Qed.

Lemma on_frontier_ok points p b : NoDup (dict_keys points) -> p ∈ points -> on_frontier points p = Ok b ->
  b = true <-> forall o, o ∈ points -> outclasses o.2 p.2 = false.
Proof.
  intros N Hp. unfold on_frontier. intros H. apply bind_ok in H as (cost & C & H). apply bind_ok in H as ([|] & D & H); injection H as <-; cbn [negb].
  - apply any_result_some in D as (o & Ho & D). case_bool_decide as K; [discriminate D|]. apply (dominates_point_ok _ _ _ _ C) in D.
    split; [done|]. intros X. by rewrite (X o Ho) in D.
  - split; [|done]. intros _ o Ho. pose proof (any_result_none _ _ D o Ho) as Q. cbv beta in Q. case_bool_decide as K.
    + rewrite (NoDup_fmap_inj_on fst points o p N Ho Hp K). apply outclasses_irrefl.
    + by apply (dominates_point_ok _ _ _ _ C) in Q.
Qed.

(** C33. The frontier is what nothing outclasses, and it is enough.  Among
    thresholds with distinct names, exactly those are kept that no other
    outclasses at the same coverage; each of the rest is outclassed by one that is
    kept; so the frontier is empty only if there was no threshold. *)
Theorem frontier_is_enough points keys : frontier points = Ok keys -> NoDup (dict_keys points) ->
  (forall p, p ∈ points -> p.1 ∈ keys <-> forall o, o ∈ points -> outclasses o.2 p.2 = false) /\
  (forall p, p ∈ points -> p.1 ∉ keys -> exists o, o ∈ points /\ o.1 ∈ keys /\ outclasses o.2 p.2 = true) /\
  (keys = [] -> points = []) /\ keys ⊆ dict_keys points.
Proof.
  unfold frontier. intros H N. apply bind_ok in H as (kept & K & H). injection H as <-.
  assert (I : forall p, p ∈ points -> p.1 ∈ map fst kept <-> forall o, o ∈ points -> outclasses o.2 p.2 = false).
  { intros p Hp. rewrite elem_of_map. destruct (result_filter_decides _ _ _ _ K Hp) as (b & B & M).
    rewrite <- (on_frontier_ok _ _ _ N Hp B), <- M. split; [|by exists p].
    intros (q & E & Hq). destruct (result_filter_ok _ _ _ _ K Hq) as [Hq' _]. by rewrite (NoDup_fmap_inj_on fst points p q N Hp Hq' E). }
  assert (J : forall p, p ∈ points -> p.1 ∉ map fst kept -> exists o, o ∈ points /\ o.1 ∈ map fst kept /\ outclasses o.2 p.2 = true).
  { intros p Hp X. destruct (existsb (fun o => outclasses o.2 p.2) points) eqn:D.
    - apply existsb_exists in D as (o & Ho & Do). apply list_elem_of_In in Ho.
      destruct (maximal_above (fun a b : pystr * SelectionSummary => outclasses a.2 b.2)) with (l := points) (x := p) as (t & Ht & Dt & U);
        [intros a b c; apply outclasses_trans|intros a; apply outclasses_irrefl|by exists o|].
      exists t. split; [done|]. split; [by apply I|done].
    - destruct X. apply I; [done|]. intros o Ho. apply not_true_iff_false. intros Y. apply not_true_iff_false in D. apply D.
      apply existsb_exists. exists o. split; [by apply list_elem_of_In|done]. }
  split; [exact I|]. split; [exact J|]. split.
  - intros E. destruct points as [|p points]; [done|]. destruct (J p) as (o & _ & X & _); [apply elem_of_cons; by left| |].
    + rewrite E. apply not_elem_of_nil.
    + rewrite E in X. by apply elem_of_nil in X.
  - intros k X. apply elem_of_map in X as (q & -> & Hq). apply (result_filter_ok _ _ _ _ K) in Hq as [Hq _].
    unfold dict_keys. apply list_elem_of_fmap. by exists q.
Qed.
End Frontier.

(** ** Reliability *)

Lemma sum_counts_concat {A} (ls : list (list A)) : foldr Z.add 0%Z (map (fun l => Z.of_nat (length l)) ls) = Z.of_nat (length (concat ls)).
Proof. induction ls as [|l ls IH]; [done|]. cbn [map foldr concat]. rewrite IH, length_app. lia. Qed.

Section Reliability.
Context {UD : UnicodeData} {NP : Numpy} {L : NumpyLaws NP}.

(** A value from zero on belongs to one of the bins. *)
Lemma width_index_range edges bins x : unit_edges bins edges -> 1 <= bins -> f_leb f_zero x = true ->
  exists i, i < bins /\ width_index edges bins x = Z.of_nat i.
Proof.
  intros (S & Le & Hd) B X. unfold width_index. destruct (f_leb_not_nan _ _ X) as [_ Nx]. rewrite searchsorted_counts by done.
  destruct edges as [|e edges]; [discriminate Hd|]. injection Hd as ->. cbn [List.filter]. rewrite X. cbn [length].
  exists (Nat.min (length (List.filter (fun e => f_leb e x) edges)) (bins - 1)). lia.
Qed.

Lemma width_members_share edges bins ps : unit_edges bins edges -> 1 <= bins -> Forall (fun x => f_leb f_zero x = true) ps ->
  concat (map (width_members edges bins ps) (seq 0 bins)) ≡ₚ seq 0 (length ps).
Proof.
  intros U B F. set (key := fun j => match ps !! j with Some p => Z.to_nat (width_index edges bins p) | None => 0 end).
  rewrite <- (key_partition key (seq 0 bins) (seq 0 (length ps))); [..|].
  - apply eq_subrelation; [apply _|]. f_equal. apply map_ext_in. intros i Hi. apply filter_ext_in. intros j Hj. apply in_seq in Hi, Hj.
    unfold with_key, key. destruct (lookup_lt_is_Some_2 ps j) as [x E]; [lia|]. rewrite E.
    rewrite Forall_forall in F. destruct (width_index_range edges bins x U B (F x (list_elem_of_lookup_2 _ _ _ E))) as (k & _ & ->).
    rewrite Nat2Z.id. apply eq_iff_eq_true. rewrite Z.eqb_eq, bool_decide_eq_true. lia.
  - apply NoDup_ListNoDup, seq_NoDup.
  - intros j Hj. apply list_elem_of_In, in_seq in Hj. unfold key. destruct (lookup_lt_is_Some_2 ps j) as [x E]; [lia|]. rewrite E.
    rewrite Forall_forall in F. destruct (width_index_range edges bins x U B (F x (list_elem_of_lookup_2 _ _ _ E))) as (k & K & ->).
    rewrite Nat2Z.id. apply list_elem_of_In, in_seq. lia.
Qed.

(** The bins of either strategy share out the positions. *)
Lemma memberships_share strategy bins ps ms : memberships strategy bins ps = Ok ms -> 1 <= bins ->
  unit_edges bins (np_linspace_unit (S bins)) -> Forall (fun x => f_leb f_zero x = true) ps ->
  concat (map fst ms) ≡ₚ seq 0 (length ps) /\
  (strategy = EQUAL_WIDTH -> length ms = bins) /\
  (strategy = EQUAL_FREQUENCY -> forall a b, a ∈ map fst ms -> b ∈ map fst ms -> 0 < length a <= S (length b)).
Proof.
  unfold memberships. intros H B U F. case_bool_decide as W; [|case_bool_decide as Q; [|discriminate H]].
  - apply bind_ok in H as (bs & Hb & H). injection H as <-. apply result_map_ok, Forall2_length in Hb. rewrite length_seq in Hb.
    set (xs := map (width_members _ _ _) _). assert (Lx : length xs = length bs) by (unfold xs; by rewrite length_map, length_seq).
    change (map fst (zip xs bs)) with ((zip xs bs).*1). rewrite fst_zip by lia.
    split; [by apply width_members_share|]. split; [|by intros ->]. intros _. rewrite length_zip. unfold xs. rewrite length_map, length_seq. lia.
  - cbv zeta in H. apply bind_ok in H as (u & G & H). apply guard_ok, Nat.ltb_lt in G. injection H as <-. rewrite map_map. cbn [fst]. rewrite map_id.
    split; [|split; [intros ->; done|]].
    + rewrite array_split_concat by done. apply argsort_permutes.
    + intros _ a b Ha Hb. apply array_split_sizes in Ha, Hb; [|done..]. set (n := length (np_argsort ps)) in *. set (k := Nat.min bins n) in *.
      assert (0 < n / k) by (apply Nat.div_str_pos; lia). lia.
Qed.

Lemma reliability_counts valid ms : map rb_count (map (fun im => reliability_bin valid im.1 im.2) (combine (seq 0 (length ms)) ms)) =
  map (fun m : list nat * (float * float) => Z.of_nat (length m.1)) ms.
Proof.
  rewrite map_map. cbn [rb_count reliability_bin]. generalize 0. induction ms as [|m ms IH]; intros k; [done|]. cbn [length seq combine map snd].
  f_equal. apply IH.
Qed.

(** A reliability table counts every valid prediction once.  Whatever the
    strategy, the counts of its bins add up to the valid predictions, each bin
    has a mean exactly if it is not empty; bins of equal width are as many as
    requested, and bins of equal frequency are not empty and differ by at most
    one in size. *)
Theorem reliability_counts_all records bins strategy t : reliability_table records bins strategy = Ok t -> 1 <= bins ->
  unit_edges bins (np_linspace_unit (S bins)) ->
  (forall p, p ∈ records -> pn_valid p = true -> f_leb f_zero (predicted_probability p) = true) ->
  foldr Z.add 0%Z (map rb_count (rl_bins t)) = count pn_valid records /\ rl_reported_bins t = length (rl_bins t) /\
  (forall b, b ∈ rl_bins t -> (is_some (rb_absolute_calibration_gap b) = true <-> rb_count b <> 0%Z)) /\
  (strategy = EQUAL_WIDTH -> length (rl_bins t) = bins) /\
  (strategy = EQUAL_FREQUENCY -> rl_empty_bins t = 0%Z /\
    forall b c, b ∈ rl_bins t -> c ∈ rl_bins t -> (rb_count b <= rb_count c + 1)%Z).
Proof.
  unfold reliability_table. set (valid := List.filter pn_valid records). intros H B U F. apply bind_ok in H as (ms & M & H). cbv zeta in H. injection H as <-.
  cbn [rl_bins rl_reported_bins rl_empty_bins].
  destruct (memberships_share _ _ _ _ M B U) as (P & W & Q).
  { apply Forall_forall. intros x Hx. apply elem_of_map in Hx as (p & -> & Hp). apply filter_in in Hp as [Hp Vp]. by apply F. }
  set (table := map _ (combine _ _)). pose proof (reliability_counts valid ms : map rb_count table = _) as C.
  assert (X : forall b, b ∈ table -> exists m, m ∈ map fst ms /\ rb_count b = Z.of_nat (length m)).
  { intros b Hb. assert (Y : rb_count b ∈ map rb_count table) by (apply elem_of_map; by exists b). rewrite C in Y.
    apply elem_of_map in Y as (m & E & Hm). exists m.1. split; [|done]. apply elem_of_map. by exists m. }
  split; [|split; [done|split; [|split]]].
  - rewrite C, <- (map_map fst (fun m : list nat => Z.of_nat (length m))), sum_counts_concat, P, length_seq. unfold probabilities_of. rewrite length_map. done.
  - intros b Hb. apply elem_of_map in Hb as ([i m] & -> & _). cbn [reliability_bin rb_absolute_calibration_gap rb_count snd].
    destruct (Nat.eqb_spec (length m.1) 0) as [E|E]; cbn [is_some]; split; [done|lia|lia|done].
  - intros S. unfold table. rewrite length_map, length_combine, length_seq, Nat.min_id. by apply W.
  - intros S. split.
    + unfold count. rewrite List_filter_none; [done|]. intros b Hb. destruct (X b Hb) as (m & Hm & E). pose proof (Q S m m Hm Hm).
      unfold is_empty_bin. apply Z.eqb_neq. lia.
    + intros b c Hb Hc. destruct (X b Hb) as (m & Hm & ->), (X c Hc) as (k & Hk & ->). pose proof (Q S m k Hm Hk). lia.
Qed.
End Reliability.

(** ** Calibration across folds *)

Section CrossFitted.
Context {NP : Numpy} {CB : Calibrators} {CL : CalibratorLaws CB}.

(** A prediction without its probability. *)
Definition uncalibrated (p : Prediction) : Prediction := with_probability p f_zero.

Lemma calibrated_same (f : Prediction -> float) test : forall xs, length xs = length test ->
  map uncalibrated (map (fun px => with_probability px.1 px.2) (zip test xs)) = map uncalibrated test.
Proof.
  induction test as [|p test IH]; intros [|x xs] E; try discriminate E; [done|]. cbn [zip zip_with map]. f_equal. apply IH. by injection E.
Qed.

Lemma calibrate_fold_ok records f ps audit : calibrate_fold records f = Ok (ps, audit) ->
  map uncalibrated ps = map uncalibrated (calibration_test records f) /\
  (forall q, q ∈ ps -> pn_fold q = f /\ pn_task_id q ∈ map pn_task_id (calibration_test records f)) /\
  (forall p, p ∈ calibration_train records f -> pn_task_id p ∉ map pn_task_id (calibration_test records f)) /\
  exists m, fit_calibrator (logits (calibration_train records f)) (targets (calibration_train records f)) = Ok m.
Proof.
  unfold calibrate_fold. intros H. apply bind_ok in H as (u & G & H). apply guard_ok in G. apply bind_ok in H as (m & M & H). injection H as <- _.
  split; [|split; [|split; [|by exists m]]].
  - apply (calibrated_same predicted_probability). rewrite proba_length. unfold logits. apply length_map.
  - intros q Hq. apply elem_of_map in Hq as ([p x] & -> & Hp). cbn [fst snd with_probability pn_fold pn_task_id].
    assert (T : p ∈ calibration_test records f) by (apply list_elem_of_In in Hp; apply in_combine_l in Hp; by apply list_elem_of_In).
    pose proof T as T'. apply filter_in in T' as [_ T']. apply Nat.eqb_eq in T'. split; [done|]. apply elem_of_map. by exists p.
  - intros p Hp Hin. rewrite forallb_forall in G. specialize (G (pn_task_id p)). rewrite negb_true_iff, bool_decide_eq_false in G.
    apply G; [apply list_elem_of_In|]; apply elem_of_remove_dups; [apply elem_of_map; by exists p|exact Hin].
Qed.

Lemma tests_share_records records : concat (map (calibration_test records) (folds_of records)) ≡ₚ records.
Proof.
  etransitivity; [|apply (key_partition pn_fold (folds_of records) records)].
  - apply eq_subrelation; [apply _|]. f_equal. apply map_ext_in. intros f _. apply filter_ext. intros p. unfold in_fold, with_key.
    apply eq_iff_eq_true. by rewrite Nat.eqb_eq, bool_decide_eq_true.
  - unfold folds_of. rewrite py_sorted_perm. apply NoDup_remove_dups.
  - intros p Hp. unfold folds_of. rewrite elem_of_py_sorted, elem_of_remove_dups. apply elem_of_map. by exists p.
Qed.

(** Calibration is cross-fitted.  The calibrated predictions are the given
    ones but for their probabilities, each exactly once, and the calibrator of a
    prediction was fitted on valid predictions of other folds, none of them of
    the prediction's request. *)
Theorem calibration_is_cross_fitted records out audits : cross_fitted_platt records = Ok (out, audits) ->
  map uncalibrated out ≡ₚ map uncalibrated records /\
  forall q, q ∈ out -> let train := calibration_train records (pn_fold q) in
    (exists m, fit_calibrator (logits train) (targets train) = Ok m) /\
    forall p, p ∈ train -> pn_task_id p <> pn_task_id q /\ pn_fold p <> pn_fold q.
Proof.
  unfold cross_fitted_platt. intros H. apply bind_ok in H as (parts & P & H). injection H as <- _. split.
  - rewrite (Permutation_map uncalibrated (py_sorted_perm _ _)). etransitivity; [|apply Permutation_map, tests_share_records].
    rewrite !concat_map, !map_map. apply eq_subrelation; [apply _|]. f_equal. apply result_map_ok in P.
    induction P as [|f [ps a] fs parts Hf _ IH]; [done|]. cbn [map fst]. f_equal; [|exact IH]. by apply calibrate_fold_ok in Hf as (E & _).
  - intros q Hq. rewrite elem_of_py_sorted in Hq. apply list_elem_of_In, in_concat in Hq as (ps & Hps & Hq).
    apply list_elem_of_In, elem_of_map in Hps as ([ps' a] & -> & Ho). apply list_elem_of_In in Hq. cbn [fst] in Hq.
    destruct (result_map_mem _ _ _ _ P Ho) as (f & _ & E). apply calibrate_fold_ok in E as (_ & I & T & M). destruct (I q Hq) as [F Tq]. cbv zeta.
    rewrite F. split; [exact M|]. intros p Hp. split.
    + intros X. apply (T p Hp). by rewrite X.
    + apply filter_in in Hp as [_ Hp]. apply andb_prop in Hp as [Hp _]. unfold in_fold in Hp. by apply negb_true_iff, Nat.eqb_neq in Hp.
Qed.
End CrossFitted.

(** ** Routing at a threshold *)

Section Routed.
Context {UD : UnicodeData}.

Lemma candidate_predictions_ok index task ps cs : result_map (candidate_prediction index task) ps = Ok cs ->
  forallb CandidatePrediction_ok cs = true /\
  Forall2 (fun p c => cp_model_id c = pn_candidate_id p /\ cp_predicted_acceptability c = predicted_probability p /\
    indexed_cost index task (pn_candidate_id p) = Ok (cp_projected_cost_usd c)) ps cs.
Proof.
  intros H. apply result_map_ok in H. induction H as [|p c ps cs Hp _ [IH F]]; [by split|].
  unfold candidate_prediction in Hp. apply bind_ok in Hp as (cost & C & Hp). cbv zeta in Hp. apply bind_ok in Hp as (u & V & Hp). injection Hp as <-.
  split; [|by constructor]. cbn [forallb]. rewrite IH, andb_true_r. unfold validated, check in V. by destruct (CandidatePrediction_ok _).
Qed.

(** A routed task: the policy's choice among its candidates, at the cost the
    policy saw. *)
Lemma route_task_ok index t g s : route_task index t g = Ok s ->
  exists c0 cs, result_map (candidate_prediction index g.1) g.2 = Ok (c0 :: cs) /\ rs_task_id s = g.1 /\
    let c := select t c0 cs in let met := match List.filter (qualifies t) (c0 :: cs) with [] => false | _ => true end in
    rs_candidate_id s = cp_model_id c /\ rs_projected_cost_usd s = cp_projected_cost_usd c /\
    rs_fallback_used s = Some (negb met) /\ rs_threshold_satisfied s = Some met.
Proof.
  unfold route_task. intros H. apply bind_ok in H as (cs & C & H). apply bind_ok in H as (d & D & H). apply bind_ok in H as (r & R & H).
  apply bind_ok in H as (cost & K & H). injection H as <-. destruct cs as [|c0 cs]; [discriminate D|].
  destruct (candidate_predictions_ok _ _ _ _ C) as [V F]. rewrite (route_steps _ _ _ V) in D. apply bind_ok in D as (t' & T & D).
  assert (E : t' = t).
  { unfold validate_quality_threshold in T. rewrite validated_probability_spec in T. cbn [py_float] in T. rsimpl_in T.
    destruct (Probability_ok t); [by injection T|]. cbn in T. discriminate T. }
  subst t'. destruct (all_distinct _); [|discriminate D]. injection D as <-. exists c0, cs. split; [done|]. split; [done|]. cbv zeta.
  cbn [decision_of selected_model_id fallback_used threshold_satisfied rs_candidate_id rs_projected_cost_usd rs_fallback_used rs_threshold_satisfied] in *.
  split; [done|]. split; [|done]. pose proof (select_in t c0 cs) as I. apply list_elem_of_lookup in I as (i & I).
  destruct (Forall2_lookup_r _ _ _ _ _ F I) as (p & _ & M & _ & X). unfold indexed_cost in X. rewrite <- M in X. unfold row_lookup in R.
  destruct (dict_get index _) as [r'|]; [|discriminate R]. injection R as ->. congruence.
Qed.
(** One selection for each request. *)
Lemma routed_tasks ds records threshold ss : route_at_threshold ds records threshold = Ok ss ->
  map rs_task_id ss ≡ₚ remove_dups (map pn_task_id records).
Proof.
  unfold route_at_threshold. intros H.
  assert (E : map rs_task_id ss = map fst (sorted_groups str_cmp (group_by pn_task_id records))).
  { apply (result_map_keys (route_task (row_index ds) threshold) _ _ _ _ H). intros g s _ Hs. by apply route_task_ok in Hs as (c0 & cs & _ & E & _). }
  by rewrite E, sorted_group_keys.
Qed.

Lemma cheaper_or_first_leb a b : cmp_le cost_cmp a b = true -> d_leb (cp_projected_cost_usd a) (cp_projected_cost_usd b) = true.
Proof. unfold cmp_le, cost_cmp, lex_cmp, on_key, d_leb. unfold cmp_le. by destruct (d_cmp _ _). Qed.

Lemma fallback_cmp_leb a b : CandidatePrediction_ok a = true -> CandidatePrediction_ok b = true -> cmp_le fallback_cmp a b = true ->
  f_leb (cp_predicted_acceptability b) (cp_predicted_acceptability a) = true.
Proof. intros A B H. by destruct (fallback_cmp_le a b A B H). Qed.

(** C32. Every threshold is met at the lowest cost.  Routing at a threshold gives
    one selection for each request that has predictions.  If the selection is
    marked as satisfying the threshold, its prediction does and no prediction of
    the request that does is cheaper; otherwise it is marked as a fallback, no
    prediction of the request meets the threshold and none is higher. *)
Theorem thresholds_are_met_cheaply ds records threshold ss : route_at_threshold ds records threshold = Ok ss ->
  map rs_task_id ss ≡ₚ remove_dups (map pn_task_id records) /\
  forall s, s ∈ ss -> let same q := q ∈ records /\ pn_task_id q = rs_task_id s in
    exists p met, same p /\ pn_candidate_id p = rs_candidate_id s /\
      indexed_cost (row_index ds) (rs_task_id s) (pn_candidate_id p) = Ok (rs_projected_cost_usd s) /\
      rs_threshold_satisfied s = Some met /\ rs_fallback_used s = Some (negb met) /\
      if met : bool
      then meets threshold p = true /\ forall q, same q -> meets threshold q = true ->
        exists c, indexed_cost (row_index ds) (rs_task_id s) (pn_candidate_id q) = Ok c /\ d_leb (rs_projected_cost_usd s) c = true
      else forall q, same q -> meets threshold q = false /\ f_leb (predicted_probability q) (predicted_probability p) = true.
Proof.
  intros H. split; [by apply routed_tasks in H|]. unfold route_at_threshold in H.
  intros s Hs. destruct (result_map_mem _ _ _ _ H Hs) as ([t g] & Hg & Eg). apply sorted_group_in in Hg as [_ Hg].
  apply route_task_ok in Eg as (c0 & cs & C & T & K). cbv zeta in *. cbn [fst snd] in *. destruct K as (Kc & Kp & Kf & Kt).
  destruct (candidate_predictions_ok _ _ _ _ C) as [V F].
  assert (M : forall q, q ∈ g <-> q ∈ records /\ pn_task_id q = rs_task_id s).
  { intros q. rewrite Hg, filter_in, bool_decide_eq_true, T. done. }
  pose proof (select_in threshold c0 cs) as I. apply list_elem_of_lookup in I as (i & I).
  destruct (Forall2_lookup_r _ _ _ _ _ F I) as (p & Hp & Mp & Pp & Xp). exists p, (match List.filter (qualifies threshold) (c0 :: cs) with [] => false | _ => true end).
  split; [by apply M, (list_elem_of_lookup_2 _ _ _ Hp)|]. split; [congruence|]. split; [by rewrite T, Xp, Kp|]. do 2 (split; [done|]).
  assert (Q : forall q, q ∈ g -> exists c, c ∈ c0 :: cs /\ cp_predicted_acceptability c = predicted_probability q /\
    indexed_cost (row_index ds) t (pn_candidate_id q) = Ok (cp_projected_cost_usd c)).
  { intros q Hq. apply list_elem_of_lookup in Hq as (j & Hq). destruct (Forall2_lookup_l _ _ _ _ _ F Hq) as (c & Hc & _ & A & B).
    exists c. split; [by apply list_elem_of_lookup_2 in Hc|done]. }
  pose proof (select_spec threshold c0 cs) as S. cbv zeta in S. unfold qualifies, meets in *. destruct (List.filter _ (c0 :: cs)) as [|x xs] eqn:E.
  - intros q Hq. apply M, Q in Hq as (c & Hc & A & _). rewrite <- A. split.
    + apply not_true_iff_false. intros X. assert (Y : c ∈ []); [|by apply elem_of_nil in Y]. rewrite <- E. by apply filter_in.
    + rewrite <- Pp. apply fallback_cmp_leb; [apply (candidates_ok_in _ _ V)..|by apply S]; [|done]. apply select_in.
  - destruct S as [S1 S2]. split; [by rewrite <- Pp|]. intros q Hq X. apply M, Q in Hq as (c & Hc & A & B). exists (cp_projected_cost_usd c).
    rewrite T. split; [done|]. rewrite Kp. apply cheaper_or_first_leb, S2; [done|by rewrite A].
Qed.

(** The summary of a threshold accounts for every request: labels are valid or
    missing, valid ones acceptable or not, a request is a fallback or meets the
    threshold, and the distribution adds up. *)
Theorem threshold_summary_accounts `{NP : Numpy} ds records threshold ss reference s :
  route_at_threshold ds records threshold = Ok ss -> summarize_selections ss reference = Ok s ->
  sm_requests_routed s = Z.of_nat (length (remove_dups (map pn_task_id records))) /\
  (sm_valid_selected_labels s + sm_missing_selected_labels s = sm_requests_routed s)%Z /\
  (sm_acceptable_selections s + sm_unacceptable_selections s = sm_valid_selected_labels s)%Z /\
  (0 <= sm_acceptable_selections s <= sm_valid_selected_labels s)%Z /\ (sm_valid_selected_labels s <= sm_requests_routed s)%Z /\
  (sm_fallback_count s + sm_threshold_met_count s = sm_requests_routed s)%Z /\
  foldr Z.add 0%Z (map snd (sm_model_distribution s)) = sm_requests_routed s.
Proof.
  intros R H. assert (F : forall x, x ∈ ss -> flag (rs_threshold_satisfied x) = negb (flag (rs_fallback_used x))).
  { intros x Hx. destruct (result_map_mem _ _ _ _ R Hx) as (g & _ & Eg). apply route_task_ok in Eg as (c0 & cs & _ & _ & K). cbv zeta in K.
    destruct K as (_ & _ & -> & ->). unfold flag. cbn [default from_option id]. by rewrite negb_involutive. }
  unfold summarize_selections in H. cbv zeta in H. do 4 apply bind_ok in H as (? & _ & H). injection H as <-.
  cbn [sm_requests_routed sm_valid_selected_labels sm_missing_selected_labels sm_acceptable_selections sm_unacceptable_selections
       sm_fallback_count sm_threshold_met_count sm_model_distribution].
  split; [|split; [lia|split; [lia|split; [apply count_le|split; [|split; [|apply group_counts_sum]]]]]].
  - f_equal. etransitivity; [symmetry; apply (length_map rs_task_id)|]. apply Permutation_length.
    by apply routed_tasks in R.
  - pose proof (List.filter_length_le rs_valid ss). lia.
  - rewrite <- (count_split (fun x => flag (rs_fallback_used x)) ss). f_equal. apply count_ext. exact F.
Qed.
End Routed.

(** ** Examples *)

Definition example_summary (rate : option Z) (cost : string) : SelectionSummary :=
  mk_SelectionSummary 4 4 0 2 2 (option_map (fun r => f_of_ratio r 100) rate) None (py cost) (Some (py cost)) 0 None 0 None [] None.

Definition example_points : list (pystr * SelectionSummary) :=
  [(py "0.50", example_summary (Some 50%Z) "1.5"); (py "0.60", example_summary (Some 75%Z) "1.5"); (py "0.70", example_summary (Some 75%Z) "2")].

Lemma frontier_is_enough_witness : @frontier ascii_tables example_points = Ok [py "0.60"] /\
  exists o, o ∈ example_points /\ o.1 ∈ [py "0.60"] /\ @outclasses ascii_tables o.2 (example_summary (Some 75%Z) "2") = true.
Proof.
  assert (F : @frontier ascii_tables example_points = Ok [py "0.60"]) by (vm_compute; reflexivity). split; [exact F|].
  apply (proj1 (proj2 (frontier_is_enough example_points _ F ltac:(apply (bool_decide_eq_true_1 (NoDup _)); vm_compute; reflexivity)))
    (py "0.70", example_summary (Some 75%Z) "2")).
  - unfold example_points. set_solver.
  - apply (bool_decide_eq_true_1 _). vm_compute. reflexivity.
Defined.

#[local] Existing Instances example_numpy example_numpy_laws.

Definition example_records : list Prediction :=
  [example_prediction "0" 40; example_prediction "1" 80; example_prediction "2" 100; example_prediction "3" 80].

Lemma example_edges : unit_edges 5 (np_linspace_unit 6).
Proof. split; [|split; [|vm_compute]; reflexivity]. vm_compute. repeat constructor. Qed.

Lemma example_probabilities p : p ∈ example_records -> pn_valid p = true -> f_leb f_zero (predicted_probability p) = true.
Proof. intros H _. revert p H. apply (Forall_forall (fun p => f_leb f_zero (predicted_probability p) = true)). by repeat constructor. Qed.

Lemma reliability_counts_all_witness : exists t, reliability_table example_records 5 EQUAL_WIDTH = Ok t /\
  map rb_count (rl_bins t) = [0; 0; 1; 0; 3]%Z /\ foldr Z.add 0%Z (map rb_count (rl_bins t)) = 4%Z.
Proof.
  destruct (reliability_table example_records 5 EQUAL_WIDTH) as [t|e] eqn:E; [|vm_compute in E; discriminate E].
  exists t. split; [reflexivity|]. split; [vm_compute in E; injection E as <-; reflexivity|].
  rewrite (proj1 (reliability_counts_all _ _ _ _ E ltac:(lia) example_edges example_probabilities)). reflexivity.
Defined.

Lemma thresholds_are_met_cheaply_witness : exists ss,
  @route_at_threshold ascii_tables example_ml_dataset example_records (f_of_ratio 7 10) = Ok ss /\
  map rs_task_id ss ≡ₚ [py "qa-1"] /\ map rs_candidate_id ss = [py "1"].
Proof.
  destruct (@route_at_threshold ascii_tables example_ml_dataset example_records (f_of_ratio 7 10)) as [ss|e] eqn:E; [|vm_compute in E; discriminate E].
  exists ss. split; [reflexivity|]. split; [|vm_compute in E; injection E as <-; reflexivity].
  exact (proj1 (thresholds_are_met_cheaply _ _ _ _ E)).
Defined.
