(* ===== verification/BenchmarkSplits.v ===== *)
(** * Splits of the routing benchmark ([benchmarks/routing_benchmark_v1.py])

    The rules of the benchmark, the manifest that assigns its tasks to train,
    development and final, the pilot chosen from the train tasks, and the
    selection of a split for execution, which gates the final one. *)
From S2P Require Import Prelude PyStr PyFloat PyDecimal Schemas Json PyRepr JsonText Errors PyStats GatewayConfig BenchmarkModels BenchmarkRunner Aggregation Normalization SemanticJudge Evaluators DatasetValidation RoutingExport RoutingAnalysis MLFeatures.

Definition BENCHMARK_NAME : pystr := py "routellm-routing-benchmark-v1".
Definition BENCHMARK_VERSION : pystr := py "1.1.0".
Definition ROUTING_V12_DATASET_VERSION : pystr := py "1.2.0".
Definition SPLIT_SEED : Z := 20260926.

Definition CATEGORIES : list BenchmarkCategory :=
  [BC_CLASSIFICATION; BC_CODING; BC_EXTRACTION; BC_JSON; BC_QA; BC_REASONING; BC_SUMMARIZATION].

(** [DISPLAY_CATEGORY.get(category, category)] *)
Definition display_category (c : BenchmarkCategory) : pystr :=
  match c with BC_JSON => py "structured_json" | _ => BenchmarkCategory_value c end.

Definition DIFFICULTY_COUNTS : list (option Difficulty * Z) :=
  [(Some DF_easy, 8); (Some DF_medium, 13); (Some DF_hard, 11)]%Z.

Inductive Split := Train | Development | Final.

#[export] Instance Split_eq_dec : EqDecision Split.
Proof. solve_decision. Defined.

Definition Split_value (s : Split) : pystr :=
  match s with Train => py "train" | Development => py "development" | Final => py "final" end.

Definition SPLITS : list Split := [Train; Development; Final].

Definition SPLIT_COUNTS (s : Split) : Z := match s with Train => 20 | Development => 6 | Final => 6 end.

Definition FAMILY_SPLITS : list Split := repeat Train 10 ++ repeat Development 3 ++ repeat Final 3.

Definition EVALUATOR_TYPES (c : BenchmarkCategory) : pystr :=
  match c with
  | BC_CLASSIFICATION => py "classification_label_match"
  | BC_CODING => py "docker_python_functional"
  | BC_EXTRACTION => py "structured_extraction_f1"
  | BC_JSON => py "json_structure_and_value"
  | BC_QA => py "accepted_answer_exact_match"
  | BC_REASONING => py "reasoning_final_answer_match"
  | BC_SUMMARIZATION => py "semantic_summary_judge"
  end.

Definition TOKEN_RANGES (c : BenchmarkCategory) : Z * Z :=
  match c with
  | BC_CLASSIFICATION => (32, 32) | BC_CODING => (128, 256) | BC_EXTRACTION => (64, 192) | BC_JSON => (64, 192)
  | BC_QA => (64, 160) | BC_REASONING => (160, 160) | BC_SUMMARIZATION => (64, 192)
  end%Z.

(** [SUPPORTED_BENCHMARK_DATASETS]: the digest of the dump of a known dataset. *)
Definition SUPPORTED_BENCHMARK_DATASETS : list (pystr * pystr * pystr) :=
  [ (BENCHMARK_NAME, BENCHMARK_VERSION, py "761c10b4fc9898977109412386015874d1b31c53cb710e514250c8eed8fb9839");
    (BENCHMARK_NAME, ROUTING_V12_DATASET_VERSION, py "dcc95c9330d40881d216bbedf4bf0ac709fc5aa76c19b1f3fce71b7f0df43c99") ].

(** ** Keys of sets and dictionaries read from JSON

    Two scalars are one key when Python finds them equal: [1], [True] and [1.0]
    are; numbers are kept in units of [2 ^ -1074].  A NaN of the json module is
    always the same object. *)
Inductive json_key := KNone | KNum (units : Z) | KInf (negative : bool) | KNan | KStr (s : pystr).

#[export] Instance json_key_eq_dec : EqDecision json_key.
Proof. solve_decision. Defined.

Definition int_key (n : Z) : json_key := KNum (n * 2 ^ 1074)%Z.

(** [hash(value)]: lists and dictionaries have none. *)
Definition hashed (v : pyjson) : result exn json_key :=
  match v with
  | PJNull => Ok KNone
  | PJBool b => Ok (int_key (int_of_bool b))
  | PJInt n => Ok (int_key n)
  | PJFloat (S754_infinity s) => Ok (KInf s)
  | PJFloat S754_nan => Ok KNan
  | PJFloat f => Ok (KNum (f_units f))
  | PJStr s => Ok (KStr s)
  | PJArr _ | PJObj _ => Raise (Exn C_TypeError)
  end.

(** [value[key]] of what should be an object. *)
Definition item (v : pyjson) (key : string) : result exn pyjson :=
  match v with
  | PJObj d => match dict_get d (py key) with Some x => Ok x | None => Raise (Exn C_KeyError) end
  | _ => Raise (Exn C_TypeError)
  end.

Definition key_at (key : string) (v : pyjson) : result exn json_key := x ← item v key; hashed x.

(** The tuple of two entries, as a key. *)
Definition keys_at (key1 key2 : string) (v : pyjson) : result exn (json_key * json_key) :=
  x ← item v key1; y ← item v key2; k ← hashed x; l ← hashed y; Ok (k, l).

(** [Counter(l) == Counter(expected)] for counts that are positive. *)
Definition counter_is {A : Type} `{EqDecision A} (expected : list (A * Z)) (l : list A) : bool :=
  forallb (fun e => (count (fun x => bool_decide (x = e.1)) l =? e.2)%Z) expected &&
  forallb (fun x => bool_decide (x ∈ map fst expected)) l.

(** [for x in value] *)
Definition iterate (v : pyjson) : result exn (list pyjson) :=
  match v with
  | PJArr l => Ok l
  | PJObj d => Ok (map (fun kv => PJStr kv.1) d)
  | PJStr s => Ok (map (fun c => PJStr [c]) s)
  | _ => Raise (Exn C_TypeError)
  end.

(** ** The dump of a dataset *)

(** [json.dumps] with its default [ensure_ascii]; characters outside the basic
    plane are written as surrogate pairs. *)
Definition u_escape (c : N) : pystr :=
  [BACKSLASH; 117%N; hex_char (c / 4096); hex_char (c / 256 mod 16); hex_char (c / 16 mod 16); hex_char (c mod 16)].

Definition ascii_char (c : N) : pystr :=
  if (c <? 127)%N then escape_char c
  else if (c <=? 65535)%N then u_escape c
  else u_escape (55296 + (c - 65536) / 1024) ++ u_escape (56320 + (c - 65536) mod 1024).

Definition ascii_string (s : pystr) : pystr := QUOTE :: List.concat (map ascii_char s) ++ [QUOTE].

(** [sort_keys=True] with the separators [comma] and [colon]. *)
Fixpoint dump_text (quoted : pystr -> pystr) (comma colon : pystr) (v : pyjson) : pystr :=
  match v with
  | PJStr s => quoted s
  | PJArr l => py "[" ++ join comma (map (dump_text quoted comma colon) l) ++ py "]"
  | PJObj l =>
      py "{" ++
      join comma (map (fun kt => quoted kt.1 ++ colon ++ kt.2)
                    (py_sorted key_le (map (fun kv => (kv.1, dump_text quoted comma colon kv.2)) l))) ++
      py "}"
  | _ => json_text v
  end.

Definition ascii_dumps (comma colon : string) (v : pyjson) : result exn pystr :=
  if json_writable v then Ok (dump_text ascii_string (py comma) (py colon) v) else Raise (Exn C_ValueError).

Definition opt_text (o : option pystr) : pyjson := or_null (PJStr <$> o).

Definition ExpectedOutputType_value (e : ExpectedOutputType) : pystr :=
  match e with EO_text => py "text" | EO_json => py "json" | EO_code => py "code" end.

Definition SourceType_value (s : SourceType) : pystr :=
  match s with
  | ST_human_authored => py "human_authored"
  | ST_deterministic_generator => py "deterministic_generator"
  | ST_controlled_programmatic_construction => py "controlled_programmatic_construction"
  end.

(** [task.model_dump(mode="json")] *)
Definition task_json (t : BenchmarkTask) : pyjson :=
  PJObj [ (py "prompt", PJStr (bt_prompt t)); (py "system_prompt", opt_text (bt_system_prompt t));
    (py "max_output_tokens", PJInt (bt_max_output_tokens t)); (py "temperature", PJFloat (bt_temperature t));
    (py "task_id", PJStr (task_id t)); (py "category", PJStr (BenchmarkCategory_value (bt_category t)));
    (py "expected_output_type", PJStr (ExpectedOutputType_value (expected_output_type t)));
    (py "evaluation_metadata", PJObj (evaluation_metadata t));
    (py "acceptable_threshold", or_null (PJFloat <$> acceptable_threshold t));
    (py "tags", PJArr (map PJStr (tags t))); (py "task_family_id", opt_text (task_family_id t));
    (py "source_type", opt_text (SourceType_value <$> source_type t)); (py "source_id", opt_text (source_id t));
    (py "generation_seed", or_null (PJInt <$> generation_seed t)); (py "evaluator_type", opt_text (evaluator_type t));
    (py "family_variant", opt_text (family_variant t)) ].

Definition dataset_json (name version : pystr) (ts : list BenchmarkTask) : pyjson :=
  PJObj [ (py "name", PJStr name); (py "version", PJStr version); (py "tasks", PJArr (map task_json ts)) ].

Section Splits.
Context {UD : UnicodeData} (sha256 : list N -> pystr).

(** The digest of the canonical dump, whose text is its own encoding. *)
Definition canonical_sha256 (name version : pystr) (ts : list BenchmarkTask) : result exn pystr :=
  s ← ascii_dumps "," ":" (dataset_json name version ts); Ok (sha256 s).

(** ** [validate_routing_benchmark] *)

Definition of_category (c : BenchmarkCategory) (ts : list BenchmarkTask) : list BenchmarkTask :=
  List.filter (fun t => bool_decide (bt_category t = c)) ts.

Definition category_rules (ts : list BenchmarkTask) (c : BenchmarkCategory) : result exn unit :=
  ds ← result_map difficulty (of_category c ts);
  _ ← value_guard (counter_is DIFFICULTY_COUNTS ds);
  let families := map task_family_id (of_category c ts) in
  _ ← value_guard (negb (bool_decide (None ∈ families)) && Nat.leb 16 (length (remove_dups families)));
  value_guard (forallb (fun f => count (fun g => bool_decide (g = f)) families <=? 2)%Z families).

(** [int(n * 0.8)] *)
Definition four_fifths (n : Z) : Z := f_floor (f_mul (f_of_Z n) (f_of_ratio 8 10)).

Definition task_rules (t : BenchmarkTask) : result exn unit :=
  d ← difficulty t;
  _ ← value_guard (nonblank (task_family_id t) && is_some (source_type t) && nonblank (source_id t) &&
                   nonblank (evaluator_type t) && nonblank (family_variant t) && is_some d);
  _ ← value_guard (bool_decide (evaluator_type t = Some (EVALUATOR_TYPES (bt_category t))));
  let range := TOKEN_RANGES (bt_category t) in
  _ ← value_guard ((range.1 <=? bt_max_output_tokens t) && (bt_max_output_tokens t <=? range.2))%Z;
  canonical ← py_str (default (PJStr []) (dict_get (evaluation_metadata t) (py "canonical_response")));
  _ ← value_guard (Nat.eqb (length canonical) 0 ||
                   ((Z.of_nat (length canonical) + 3) / 4 <=? four_fifths (bt_max_output_tokens t))%Z);
  serialized ← ascii_dumps ", " ": " (task_json t);
  value_guard (negb (existsb (fun m => contains (u_casefold (model_id m)) (u_casefold serialized)) CANDIDATE_MODELS)).

Definition validate_routing_benchmark (d : BenchmarkDataset) : result exn unit :=
  match dict_get SUPPORTED_BENCHMARK_DATASETS (ds_name d, ds_version d) with
  | None => Raise (Exn C_ValueError)
  | Some expected =>
      _ ← value_guard (Nat.eqb (length (tasks d)) 224);
      _ ← value_guard (counter_is (map (fun c => (c, 32%Z)) CATEGORIES) (map bt_category (tasks d)));
      _ ← result_map (category_rules (tasks d)) CATEGORIES;
      _ ← result_map task_rules (tasks d);
      digest ← canonical_sha256 (ds_name d) (ds_version d) (tasks d);
      value_guard (bool_decide (digest = expected))
  end.

(** ** The split manifest *)

(** [re.fullmatch(r"rbv1-[a-z]+-(\d{2})-[a-z0-9_-]+", family_id)]: the two
    digits, of any script. *)
Definition digit_of (c : N) : option N := if is_ascii_digit c then Some (c - 48)%N else u_decimal c.

Definition family_number (family_id : pystr) : option N :=
  if startswith family_id (py "rbv1-") then
    let rest := skipn 5 family_id in
    match lstrip_by is_ascii_lower rest with
    | dash :: a :: b :: dash' :: slug_ =>
        if negb (Nat.eqb (length (lstrip_by is_ascii_lower rest)) (length rest)) &&
           (dash =? 45)%N && (dash' =? 45)%N && negb (Nat.eqb (length slug_) 0) &&
           forallb (fun c => is_ascii_lower c || is_ascii_digit c || in_chars (py "_-") c) slug_
        then match digit_of a, digit_of b with Some x, Some y => Some (10 * x + y)%N | _, _ => None end
        else None
    | _ => None
    end
  else None.

Definition split_for_family (family_id : pystr) : result exn Split :=
  match family_number family_id with
  | None => Raise (Exn C_ValueError)
  | Some n =>
      if (1 <=? n)%N && (n <=? N.of_nat (length FAMILY_SPLITS))%N
      then match FAMILY_SPLITS !! N.to_nat (n - 1) with Some s => Ok s | None => Raise (Exn C_IndexError) end
      else Raise (Exn C_ValueError)
  end.

Definition difficulty_json (d : option Difficulty) : pyjson :=
  match d with None => PJNull | Some _ => PJStr (Difficulty_text d) end.

Definition manifest_entry (t : BenchmarkTask) (category : BenchmarkCategory) (d : option Difficulty) (s : Split) : pyjson :=
  PJObj [ (py "task_id", PJStr (task_id t)); (py "category", PJStr (display_category category));
    (py "internal_category", PJStr (BenchmarkCategory_value category)); (py "difficulty", difficulty_json d);
    (py "task_family_id", opt_text (task_family_id t)); (py "split", PJStr (Split_value s)) ].

Definition build_split_manifest (d : BenchmarkDataset) : result exn py_dict :=
  entries ← result_map (fun t =>
      df ← difficulty t;
      s ← split_for_family (default [] (task_family_id t));
      Ok (manifest_entry t (bt_category t) df s)) (tasks d);
  Ok [ (py "benchmark", PJStr BENCHMARK_NAME); (py "version", PJStr BENCHMARK_VERSION);
       (py "assignment_seed", PJInt SPLIT_SEED); (py "grouping_key", PJStr (py "task_family_id"));
       (py "outcome_features_used", PJBool false); (py "entries", PJArr entries) ].

(** ** [validate_split_manifest] *)

Definition split_key (s : Split) : json_key := KStr (Split_value s).
Definition category_key (c : BenchmarkCategory) : json_key := KStr (BenchmarkCategory_value c).

Definition SPLIT_TOTALS : list (json_key * Z) :=
  [(split_key Train, 140); (split_key Development, 42); (split_key Final, 42)]%Z.

Definition CATEGORY_SPLIT_COUNTS : list (json_key * json_key * Z) :=
  List.flat_map (fun c => map (fun s => (category_key c, split_key s, SPLIT_COUNTS s)) SPLITS) CATEGORIES.

(** The families whose entries name more than one split. *)
Definition leaked_families (pairs : list (json_key * json_key)) : list json_key :=
  map fst (List.filter (fun g => negb (Nat.eqb (length (remove_dups (map snd g.2))) 1)) (group_by fst pairs)).

Definition is_number_key (k : json_key) : bool := match k with KNum _ | KInf _ | KNan => true | _ => false end.
Definition is_text_key (k : json_key) : bool := match k with KStr _ => true | _ => false end.

(** [sorted] raises on keys that cannot be compared. *)
Definition sortable (l : list json_key) : bool :=
  Nat.leb (length l) 1 || forallb is_text_key l || forallb is_number_key l.

Definition family_and_split (e : pyjson) : result exn (json_key * json_key) :=
  f ← key_at "task_family_id" e; s ← key_at "split" e; Ok (f, s).

Definition list_of (n : nat) (v : option pyjson) : result exn (list pyjson) :=
  match v with Some (PJArr l) => if Nat.eqb (length l) n then Ok l else Raise (Exn C_ValueError) | _ => Raise (Exn C_ValueError) end.

Definition validate_split_manifest (d : BenchmarkDataset) (manifest : py_dict) : result exn unit :=
  entries ← list_of 224 (dict_get manifest (py "entries"));
  ids ← result_map (key_at "task_id") entries;
  _ ← value_guard (same_elements ids (map (fun t => KStr (task_id t)) (tasks d)));
  splits ← result_map (key_at "split") entries;
  _ ← value_guard (counter_is SPLIT_TOTALS splits);
  pairs ← result_map (keys_at "internal_category" "split") entries;
  _ ← value_guard (counter_is CATEGORY_SPLIT_COUNTS pairs);
  families ← result_map family_and_split entries;
  let leaked := leaked_families families in
  _ ← match leaked with
      | [] => Ok tt
      | _ => Raise (Exn (if sortable leaked then C_ValueError else C_TypeError))
      end;
  value_guard (match dict_get manifest (py "outcome_features_used") with Some (PJBool false) => true | _ => false end).

(** ** Selecting a split *)

(** [re.fullmatch(r"[0-9a-f]{64}", value)] *)
Definition valid_identity (value : option pystr) : bool :=
  match value with
  | Some s => Nat.eqb (length s) 64 && forallb (fun c => is_ascii_digit c || in_range 97 102 c) s
  | None => false
  end.

Definition entries_of (manifest : py_dict) : result exn (list pyjson) :=
  match dict_get manifest (py "entries") with Some v => iterate v | None => Raise (Exn C_KeyError) end.

(** [entry[key] for entry in l if entry[test] == value], as keys *)
Definition key_where (test : string) (value : pystr) (key : string) (e : pyjson) : result exn (option json_key) :=
  x ← item e test;
  if equals_str (Some x) value then k ← key_at key e; Ok (Some k) else Ok None.

Definition somes {A : Type} (l : list (option A)) : list A := omap (fun x => x) l.

Definition keys_where (test : string) (value : pystr) (key : string) (l : list pyjson) : result exn (list json_key) :=
  ks ← result_map (key_where test value key) l; Ok (somes ks).

Definition select_execution_dataset (d : BenchmarkDataset) (manifest : py_dict) (s : Split)
    (allow_final_evaluation : bool) (predictor_sha256 policy_sha256 : option pystr) : result exn BenchmarkDataset :=
  _ ← validate_routing_benchmark d;
  _ ← validate_split_manifest d manifest;
  _ ← value_guard (negb (bool_decide (s = Final)) || allow_final_evaluation);
  _ ← value_guard (negb (bool_decide (s = Final)) || (valid_identity predictor_sha256 && valid_identity policy_sha256));
  entries ← entries_of manifest;
  ids ← keys_where "split" (Split_value s) "task_id" entries;
  let selected := List.filter (fun t => bool_decide (KStr (task_id t) ∈ ids)) (tasks d) in
  let name := BENCHMARK_NAME ++ py "-" ++ Split_value s in
  digest ← canonical_sha256 name BENCHMARK_VERSION selected;
  let chosen := mk_BenchmarkDataset name BENCHMARK_VERSION selected digest in
  _ ← validated (BenchmarkDataset_validate chosen);
  Ok chosen.

(** ** The pilot *)

Definition DIFFICULTIES : list Difficulty := [DF_easy; DF_medium; DF_hard].

(** [{entry["task_id"]: value(entry) for entry in entries}] *)
Definition by_task_id {A : Type} (value : pyjson -> result exn A) (entries : list pyjson) : result exn (list (json_key * A)) :=
  kvs ← result_map (fun e => x ← item e "task_id"; v ← value e; k ← hashed x; Ok (k, v)) entries;
  Ok (dict_of fst snd kvs).

Definition entry_at {A : Type} (m : list (json_key * A)) (k : json_key) : result exn A :=
  match dict_get m k with Some v => Ok v | None => Raise (Exn C_KeyError) end.

(** [next(x for x in l if p(x))] *)
Fixpoint next {A : Type} (p : A -> result exn bool) (l : list A) : result exn A :=
  match l with
  | [] => Raise (Exn C_StopIteration)
  | x :: l' => b ← p x; if (b : bool) then Ok x else next p l'
  end.

Definition is_train (split_by_id : list (json_key * pyjson)) (c : BenchmarkCategory) (t : BenchmarkTask) : result exn bool :=
  if bool_decide (bt_category t = c)
  then e ← entry_at split_by_id (KStr (task_id t)); x ← item e "split"; Ok (equals_str (Some x) (Split_value Train))
  else Ok false.

Definition fits (df : Difficulty) (used : list pystr) (t : BenchmarkTask) : result exn bool :=
  d ← difficulty t;
  Ok (bool_decide (d = Some df) && match task_family_id t with Some f => negb (bool_decide (f ∈ used)) | None => true end).

(** One task of each difficulty from families not used so far. *)
Fixpoint choose (c : BenchmarkCategory) (ts : list BenchmarkTask) (used : list pystr) (dfs : list Difficulty) :
    result exn (list pyjson) :=
  match dfs with
  | [] => Ok []
  | df :: rest =>
      t ← next (fits df used) ts;
      more ← choose c ts (default [] (task_family_id t) :: used) rest;
      Ok (manifest_entry t c (Some df) Train :: more)
  end.

Definition choose_category (d : BenchmarkDataset) (split_by_id : list (json_key * pyjson)) (c : BenchmarkCategory) :
    result exn (list pyjson) :=
  ts ← result_filter (is_train split_by_id c) (tasks d);
  choose c ts [] DIFFICULTIES.

Definition build_pilot_manifest (d : BenchmarkDataset) (split_manifest : py_dict) : result exn py_dict :=
  entries ← entries_of split_manifest;
  split_by_id ← by_task_id (fun e => Ok e) entries;
  groups ← result_map (choose_category d split_by_id) CATEGORIES;
  let selected := List.concat groups in
  Ok [ (py "benchmark", PJStr BENCHMARK_NAME); (py "version", PJStr BENCHMARK_VERSION);
       (py "selection_rule", PJStr (py "reviewed train task per category/difficulty using distinct families and no trivial-only signal"));
       (py "expected_candidate_calls", PJInt (Z.of_nat (length selected) * 4));
       (py "maximum_expected_semantic_judge_calls", PJInt 12); (py "tasks", PJArr selected) ].

(** ** [validate_pilot_manifest] *)

Definition difficulty_key (df : Difficulty) : json_key := KStr (Difficulty_text (Some df)).

Definition pilot_category (l : list pyjson) (c : BenchmarkCategory) : result exn unit :=
  ds ← keys_where "internal_category" (BenchmarkCategory_value c) "difficulty" l;
  _ ← value_guard (counter_is (map (fun df => (difficulty_key df, 1%Z)) DIFFICULTIES) ds);
  fs ← keys_where "internal_category" (BenchmarkCategory_value c) "task_family_id" l;
  value_guard (Nat.eqb (length (remove_dups fs)) 3).

(** [item["split"] != "train" or split_by_id[item["task_id"]] != "train"] *)
Definition outside_train (split_by_id : list (json_key * pyjson)) (e : pyjson) : result exn bool :=
  x ← item e "split";
  if negb (equals_str (Some x) (Split_value Train)) then Ok true
  else k ← key_at "task_id" e; y ← entry_at split_by_id k; Ok (negb (equals_str (Some y) (Split_value Train))).

Definition validate_pilot_manifest (manifest split_manifest : py_dict) : result exn unit :=
  l ← list_of 21 (dict_get manifest (py "tasks"));
  cs ← result_map (key_at "internal_category") l;
  _ ← value_guard (counter_is (map (fun c => (category_key c, 3%Z)) CATEGORIES) cs);
  _ ← result_map (pilot_category l) CATEGORIES;
  entries ← entries_of split_manifest;
  split_by_id ← by_task_id (fun e => item e "split") entries;
  outside ← any_result (outside_train split_by_id) l;
  _ ← value_guard (negb outside);
  value_guard (equals_int (dict_get manifest (py "expected_candidate_calls")) 84 &&
               equals_int (dict_get manifest (py "maximum_expected_semantic_judge_calls")) 12).
End Splits.

(** Closes a decidable goal by evaluation. *)
Ltac decided := by apply (bool_decide_unpack _); vm_compute.

(** ** Keys read from entries *)

Lemma result_map_Ok {E A B} (f : A -> result E B) l ys : result_map f l = Ok ys -> forall x, x ∈ l -> exists y, f x = Ok y /\ y ∈ ys.
Proof.
  intros H%result_map_ok. induction H as [|x y l ys H F IH]; intros z Hz; [by apply elem_of_nil in Hz|].
  apply elem_of_cons in Hz as [->|Hz]; [exists y; split; [done|apply elem_of_cons; by left]|].
  destruct (IH z Hz) as (w & ? & ?). exists w. split; [done|]. apply elem_of_cons. by right.
Qed.

(** The value where it exists. *)
Definition the {A : Type} (other : A) (r : result exn A) : A := match r with Ok x => x | Raise _ => other end.

Lemma result_map_the {A B} (f : A -> result exn B) other l ys : result_map f l = Ok ys ->
  ys = map (fun x => the other (f x)) l /\ forall x, x ∈ l -> f x = Ok (the other (f x)).
Proof.
  intros H. split; [|intros x Hx; by destruct (result_map_Ok f l ys H x Hx) as (y & -> & _)].
  apply result_map_ok in H. induction H as [|x y l ys Hxy F IH]; [done|]. cbn [map]. by rewrite Hxy, IH.
Qed.

Definition key_of (key : string) (e : pyjson) : json_key := the KNone (key_at key e).

Definition keyed (key : string) (l : list pyjson) : Prop := forall e, e ∈ l -> key_at key e = Ok (key_of key e).

Lemma keys_read key l ks : result_map (key_at key) l = Ok ks -> ks = map (key_of key) l /\ keyed key l.
Proof. apply result_map_the. Qed.

Lemma keys_at_both key1 key2 e k : keys_at key1 key2 e = Ok k -> key_at key1 e = Ok k.1 /\ key_at key2 e = Ok k.2.
Proof.
  unfold keys_at, key_at. destruct (item e key1) as [x|]; [|done]. destruct (item e key2) as [y|]; [|done]. rsimpl.
  destruct (hashed x) as [a|]; [|done]. destruct (hashed y) as [b|]; [|done]. rsimpl. intros H. by inv_result.
Qed.

Lemma family_and_split_both e k : family_and_split e = Ok k -> key_at "task_family_id" e = Ok k.1 /\ key_at "split" e = Ok k.2.
Proof.
  unfold family_and_split. destruct (key_at "task_family_id" e) as [a|]; [|done]. destruct (key_at "split" e) as [b|]; [|done].
  rsimpl. intros H. by inv_result.
Qed.

(** Readings of two keys per entry. *)
Lemma pairs_read (f : pyjson -> result exn (json_key * json_key)) key1 key2 l ps : (forall e k, f e = Ok k -> key_at key1 e = Ok k.1 /\ key_at key2 e = Ok k.2) ->
  result_map f l = Ok ps -> ps = map (fun e => (key_of key1 e, key_of key2 e)) l /\ keyed key1 l /\ keyed key2 l.
Proof.
  intros F H. destruct (result_map_the f (KNone, KNone) l ps H) as [-> R].
  assert (B : forall e, e ∈ l -> the (KNone, KNone) (f e) = (key_of key1 e, key_of key2 e) /\
                           key_at key1 e = Ok (key_of key1 e) /\ key_at key2 e = Ok (key_of key2 e)).
  { intros e He. specialize (R e He). destruct (F e _ R) as [K1 K2]. unfold key_of. rewrite K1, K2. cbn [the].
    split; [by destruct (the _ (f e))|done]. }
  split; [|split; intros e He; apply (B e He)].
  apply map_ext_in. intros e He. apply list_elem_of_In in He. apply (B e He).
Qed.

(** Comparing an entry with a text. *)
Lemma item_is_text e key v k : key_at key e = Ok k ->
  exists x, item e key = Ok x /\ equals_str (Some x) v = bool_decide (k = KStr v).
Proof.
  unfold key_at. destruct (item e key) as [x|]; [|done]. rsimpl. intros H. exists x. split; [done|].
  destruct x as [| | |f| | |]; cbn [hashed equals_str] in *; inv_result; try (by rewrite bool_decide_eq_false_2).
  - destruct f; inv_result; by rewrite bool_decide_eq_false_2.
  - apply bool_decide_ext. split; congruence.
Qed.

Lemma keys_where_read test v key l : keyed test l -> keyed key l ->
  keys_where test v key l = Ok (map (key_of key) (List.filter (fun e => bool_decide (key_of test e = KStr v)) l)).
Proof.
  intros T K. unfold keys_where. induction l as [|e l IH]; [done|]. cbn [result_map]. unfold key_where at 1.
  destruct (item_is_text e test v _ (T e ltac:(apply elem_of_cons; by left))) as (x & -> & Q). rsimpl. rewrite Q.
  specialize (IH ltac:(intros f Hf; apply T, elem_of_cons; by right) ltac:(intros f Hf; apply K, elem_of_cons; by right)).
  destruct (result_map (key_where test v key) l) as [ks|]; [|done]. rsimpl_in IH. injection IH as IH.
  cbn [List.filter]. case_bool_decide as D.
  - rewrite (K e) by (apply elem_of_cons; by left). rsimpl. cbn [map somes omap list_omap]. f_equal. f_equal. exact IH.
  - rsimpl. cbn [somes omap list_omap]. f_equal. exact IH.
Qed.

(** ** What a validated manifest holds *)

Definition id_key (t : BenchmarkTask) : json_key := KStr (task_id t).
Definition entry_pair (key1 key2 : string) (e : pyjson) : json_key * json_key := (key_of key1 e, key_of key2 e).

Record sound_manifest (d : BenchmarkDataset) (m : py_dict) (l : list pyjson) : Prop := {
  sm_entries : dict_get m (py "entries") = Some (PJArr l);
  sm_length : length l = 224;
  sm_ids : keyed "task_id" l;
  sm_split : keyed "split" l;
  sm_category : keyed "internal_category" l;
  sm_family : keyed "task_family_id" l;
  sm_same : forall k, k ∈ map (key_of "task_id") l <-> k ∈ map id_key (tasks d);
  sm_totals : counter_is SPLIT_TOTALS (map (key_of "split") l) = true;
  sm_categories : counter_is CATEGORY_SPLIT_COUNTS (map (entry_pair "internal_category" "split") l) = true;
  sm_families : leaked_families (map (entry_pair "task_family_id" "split") l) = [];
  sm_outcomes : dict_get m (py "outcome_features_used") = Some (PJBool false)
}.

Lemma keyed_both key1 key2 l : keyed key1 l -> keyed key2 l ->
  result_map (keys_at key1 key2) l = Ok (map (entry_pair key1 key2) l).
Proof.
  intros K1 K2. apply result_map_map. intros e He. specialize (K1 e He). specialize (K2 e He). unfold keys_at, entry_pair, key_at in *.
  destruct (item e key1) as [x|]; [|done]. destruct (item e key2) as [y|]; [|done]. rsimpl_in K1. rsimpl_in K2. rsimpl.
  rewrite K1. rsimpl. by rewrite K2.
Qed.

Lemma validate_split_manifest_iff d m : validate_split_manifest d m = Ok tt <-> exists l, sound_manifest d m l.
Proof.
  unfold validate_split_manifest, list_of. split.
  - intros H. destruct (dict_get m (py "entries")) as [[]|] eqn:E; try discriminate H.
    destruct (Nat.eqb (length l) 224) eqn:L; [|discriminate H]. rsimpl_in H.
    apply bind_ok in H as (ids & I & H). apply keys_read in I as [-> I].
    apply bind_ok in H as (? & S%value_guard_ok & H). rewrite same_elements_true in S.
    apply bind_ok in H as (sp & Q & H). apply keys_read in Q as [-> Q].
    apply bind_ok in H as (? & T%value_guard_ok & H).
    apply bind_ok in H as (ps & P & H). apply (pairs_read _ _ _ _ _ (keys_at_both _ _)) in P as (-> & C & _).
    apply bind_ok in H as (? & D%value_guard_ok & H).
    apply bind_ok in H as (fs & F & H). apply (pairs_read _ _ _ _ _ family_and_split_both) in F as (-> & F & _).
    apply bind_ok in H as (? & K & H%value_guard_ok).
    exists l. split; try done.
    + by apply Nat.eqb_eq.
    + unfold entry_pair. by destruct (leaked_families _).
    + by destruct (dict_get m (py "outcome_features_used")) as [[| [] | | | | |]|].
  - intros [l R]. rewrite (sm_entries _ _ _ R), (sm_length _ _ _ R), Nat.eqb_refl. rsimpl.
    rewrite (result_map_map _ _ _ (sm_ids _ _ _ R)). rsimpl.
    rewrite (proj2 (same_elements_true _ _) (sm_same _ _ _ R)). cbn [value_guard guard_else]. unfold value_guard, guard_else. rsimpl.
    rewrite (result_map_map _ _ _ (sm_split _ _ _ R)). rsimpl. rewrite (sm_totals _ _ _ R). rsimpl.
    rewrite (keyed_both _ _ _ (sm_category _ _ _ R) (sm_split _ _ _ R)). rsimpl. rewrite (sm_categories _ _ _ R). rsimpl.
    rewrite (result_map_map family_and_split (entry_pair "task_family_id" "split")); [|].
    2: { intros e He. unfold family_and_split. by rewrite (sm_family _ _ _ R e He), (sm_split _ _ _ R e He). }
    rsimpl. rewrite (sm_families _ _ _ R). rsimpl. by rewrite (sm_outcomes _ _ _ R).
Qed.

(** All elements of a list are one. *)
Lemma one_value {A} `{EqDecision A} (l : list A) x : x ∈ l -> length (remove_dups l) = 1 <-> forall y, y ∈ l -> y = x.
Proof.
  intros X. split.
  - intros L y Y. apply elem_of_remove_dups in X, Y. destruct (remove_dups l) as [|a [|]]; try discriminate L.
    apply list_elem_of_singleton in X, Y. congruence.
  - intros H. rewrite (same_length (remove_dups l) [x]); [done|apply NoDup_remove_dups|apply NoDup_singleton|].
    intros y. rewrite elem_of_remove_dups, list_elem_of_singleton. split; [apply H|by intros ->].
Qed.

(** Entries of one family have one split. *)
Lemma no_leak (l : list (json_key * json_key)) : leaked_families l = [] <->
  forall x y, x ∈ l -> y ∈ l -> x.1 = y.1 -> x.2 = y.2.
Proof.
  unfold leaked_families.
  assert (G : forall g, g ∈ group_by fst l -> length (remove_dups (map snd g.2)) = 1 <->
                forall x y, x ∈ l -> y ∈ l -> x.1 = g.1 -> y.1 = g.1 -> x.2 = y.2).
  { intros g Hg. destruct (group_by_in fst l g Hg) as [E N]. rewrite E in *.
    destruct (List.filter (with_key fst g.1) l) as [|z r] eqn:F; [done|]. rewrite (one_value _ z.2) by (apply elem_of_cons; by left).
    assert (M : forall x, x ∈ z :: r <-> x ∈ l /\ x.1 = g.1).
    { intros x. rewrite <- F. unfold with_key. split.
      - intros Hx. apply filter_in in Hx as [Hx D]. by apply bool_decide_eq_true in D.
      - intros [Hx D]. apply filter_in. split; [done|by apply bool_decide_eq_true]. }
    split.
    - intros H x y Hx Hy Ex Ey. rewrite (H x.2), (H y.2); [done|apply elem_of_map; exists y; split; [done|by apply M]|
        apply elem_of_map; exists x; split; [done|by apply M]].
    - intros H v Hv. apply elem_of_map in Hv as (x & -> & Hx). apply M in Hx as [Hx Ex].
      destruct (proj1 (M z) ltac:(apply elem_of_cons; by left)) as [Hz Ez]. by apply H. }
  split.
  - intros H x y Hx Hy E.
    destruct (dict_get (group_by fst l) x.1) as [v|] eqn:D.
    + apply dict_get_some_in in D. apply (proj1 (G _ D)); try done. destruct (Nat.eqb (length (remove_dups (map snd v))) 1) eqn:L; [by apply Nat.eqb_eq|].
      assert (C : x.1 ∈ map fst (List.filter (fun g => negb (Nat.eqb (length (remove_dups (map snd g.2))) 1)) (group_by fst l))).
      { apply elem_of_map. exists (x.1, v). split; [done|]. apply filter_in. split; [done|cbn [snd]; by rewrite L]. }
      rewrite H in C. by apply elem_of_nil in C.
    + apply dict_get_none in D. exfalso. apply D, group_by_mem. by exists x.
  - intros H. destruct (List.filter _ (group_by fst l)) as [|g r] eqn:F; [done|]. exfalso.
    assert (I : g ∈ List.filter (fun g => negb (Nat.eqb (length (remove_dups (map snd g.2))) 1)) (group_by fst l)) by (rewrite F; apply elem_of_cons; by left).
    apply filter_in in I as [I D]. rewrite (proj2 (G g I)) in D; [done|]. intros x y Hx Hy Ex Ey. apply H; congruence.
Qed.

(** ** Tasks and entries correspond *)

Lemma value_guard_true c : c = true -> value_guard c = Ok tt.
Proof. by intros ->. Qed.

Lemma counter_is_count {A} `{EqDecision A} expected (l : list A) k n : counter_is expected l = true -> (k, n) ∈ expected ->
  count (fun x => bool_decide (x = k)) l = n.
Proof.
  unfold counter_is. intros H K. bools. rewrite forallb_forall in H. apply list_elem_of_In in K.
  specialize (H _ K). by apply Z.eqb_eq in H.
Qed.

Lemma counter_is_mem {A} `{EqDecision A} expected (l : list A) x : counter_is expected l = true -> x ∈ l -> x ∈ map fst expected.
Proof.
  unfold counter_is. intros H X. bools. rewrite forallb_forall in H0. apply list_elem_of_In in X.
  by specialize (H0 _ X); apply bool_decide_eq_true in H0.
Qed.

Lemma split_key_inj s s' : split_key s = split_key s' -> s = s'.
Proof. by destruct s, s'. Qed.

Section Sound.
Context (d : BenchmarkDataset) (m : py_dict) (l : list pyjson) (R : sound_manifest d m l).
Context (V : BenchmarkDataset_validate d = Ok tt) (N : length (tasks d) = 224).

Lemma task_ids_distinct : NoDup (map task_id (tasks d)).
Proof. unfold BenchmarkDataset_validate in V. inv_checks. by apply all_distinct_true. Qed.

Lemma id_keys_distinct : NoDup (map id_key (tasks d)).
Proof.
  unfold id_key. rewrite <- (map_map task_id KStr). apply (NoDup_fmap_2_strong KStr); [|apply task_ids_distinct].
  intros x y _ _ E. by injection E.
Qed.

Lemma ids_permuted : map (key_of "task_id") l ≡ₚ map id_key (tasks d).
Proof.
  symmetry. apply submseteq_length_Permutation.
  - apply NoDup_submseteq; [apply id_keys_distinct|]. intros x. apply (sm_same _ _ _ R).
  - rewrite !length_map, (sm_length _ _ _ R), N. done.
Qed.

Definition split_table : list (json_key * json_key) := map (entry_pair "task_id" "split") l.

Lemma table_keys : map fst split_table = map (key_of "task_id") l.
Proof. unfold split_table. by rewrite map_map. Qed.

(** The split of the entry of a task. *)
Definition split_of (t : BenchmarkTask) : json_key := default KNone (dict_get split_table (id_key t)).

Lemma table_distinct : NoDup (dict_keys split_table).
Proof.
  change (NoDup (map fst split_table)). rewrite table_keys, ids_permuted. apply id_keys_distinct.
Qed.

Lemma table_entry e : e ∈ l -> dict_get split_table (key_of "task_id" e) = Some (key_of "split" e).
Proof. intros H. apply dict_get_nodup; [apply table_distinct|]. apply elem_of_map. by exists e. Qed.

Lemma entry_of_task t : t ∈ tasks d -> exists e, e ∈ l /\ key_of "task_id" e = id_key t /\ key_of "split" e = split_of t.
Proof.
  intros T. assert (I : id_key t ∈ map (key_of "task_id") l) by (apply (sm_same _ _ _ R), elem_of_map; by exists t).
  apply elem_of_map in I as (e & E & H). exists e. split; [done|]. split; [done|]. unfold split_of. by rewrite E, table_entry.
Qed.

Lemma splits_permuted : map (key_of "split") l ≡ₚ map split_of (tasks d).
Proof.
  unfold split_of. rewrite <- (map_map id_key (fun k => default KNone (dict_get split_table k))), <- ids_permuted, map_map.
  erewrite (map_ext_in (fun e => default KNone _)); [reflexivity|]. intros e He. apply list_elem_of_In in He. cbv beta. by rewrite table_entry.
Qed.

Lemma split_of_mem t : t ∈ tasks d -> split_of t ∈ map split_key SPLITS.
Proof.
  intros T. destruct (entry_of_task t T) as (e & He & _ & <-).
  change (map split_key SPLITS) with (map fst SPLIT_TOTALS). apply (counter_is_mem _ _ _ (sm_totals _ _ _ R)), elem_of_map. by exists e.
Qed.

Definition in_split (s : Split) : list BenchmarkTask := List.filter (with_key split_of (split_key s)) (tasks d).

Definition split_total (s : Split) : nat := match s with Train => 140 | _ => 42 end.

Lemma in_split_length s : length (in_split s) = split_total s.
Proof.
  assert (C : count (fun k => bool_decide (k = split_key s)) (map split_of (tasks d)) = Z.of_nat (split_total s)).
  { rewrite <- (count_perm _ _ _ splits_permuted). apply (counter_is_count SPLIT_TOTALS); [apply (sm_totals _ _ _ R)|].
    apply list_elem_of_In. destruct s; cbn; auto. }
  rewrite count_map in C. unfold count, in_split, with_key in *. lia.
Qed.

(** The selections are those of the entries, and make up the dataset. *)
Lemma selected_tasks s :
  List.filter (fun t => bool_decide (KStr (task_id t) ∈
    map (key_of "task_id") (List.filter (fun e => bool_decide (key_of "split" e = split_key s)) l))) (tasks d) = in_split s.
Proof.
  apply filter_ext_in. intros t T. apply list_elem_of_In in T. apply bool_decide_ext.
  destruct (entry_of_task t T) as (e & He & Ie & Se). rewrite elem_of_map. split.
  - intros (f & If & Hf). apply filter_in in Hf as [Hf Sf]. bools.
    pose proof (table_entry e He) as Te. pose proof (table_entry f Hf) as Tf. rewrite Ie in Te. unfold id_key in Te. rewrite If in Te. congruence.
  - intros S. exists e. split; [by rewrite Ie|]. apply filter_in. split; [done|]. by rewrite Se, S, bool_decide_eq_true_2.
Qed.

Lemma in_split_partition : in_split Train ++ in_split Development ++ in_split Final ≡ₚ tasks d.
Proof.
  transitivity (concat (map (fun k => List.filter (with_key split_of k) (tasks d)) (map split_key SPLITS))).
  - unfold SPLITS. cbn [map concat]. by rewrite app_nil_r.
  - apply key_partition; [|apply split_of_mem]. decided.
Qed.
End Sound.

(** ** Selecting *)

Section Select.
Context {UD : UnicodeData} (sha256 : list N -> pystr).

Lemma task_writable t : task_rules t = Ok tt -> json_writable (task_json t) = true.
Proof.
  unfold task_rules, ascii_dumps. intros H.
  do 4 (apply bind_ok in H as (? & _ & H)). apply bind_ok in H as (c & _ & H). apply bind_ok in H as (? & _ & H).
  by destruct (json_writable (task_json t)).
Qed.

Lemma routing_benchmark_tasks d : validate_routing_benchmark sha256 d = Ok tt ->
  length (tasks d) = 224 /\ forall t, t ∈ tasks d -> task_rules t = Ok tt.
Proof.
  unfold validate_routing_benchmark. destruct (dict_get _ _); [|done]. intros H.
  apply bind_ok in H as (? & L%value_guard_ok & H). apply bind_ok in H as (? & _ & H). apply bind_ok in H as (? & _ & H).
  apply bind_ok in H as (us & T & _). split; [by apply Nat.eqb_eq|]. intros t Ht.
  destruct (result_map_Ok _ _ _ T t Ht) as ([] & E & _). done.
Qed.

Lemma canonical_total name version ts : (forall t, t ∈ ts -> json_writable (task_json t) = true) ->
  exists digest, canonical_sha256 sha256 name version ts = Ok digest.
Proof.
  intros H. unfold canonical_sha256, ascii_dumps, dataset_json. cbn [json_writable forallb snd].
  assert (W : forallb json_writable (map task_json ts) = true).
  { apply forallb_forall. intros v Hv. apply list_elem_of_In, elem_of_map in Hv as (t & -> & Ht). by apply H. }
  rewrite W. rsimpl. by eexists.
Qed.

(** The gate of the final split. *)
Definition gated (s : Split) (allow : bool) (p q : option pystr) : bool :=
  negb (bool_decide (s = Final)) || (allow && valid_identity p && valid_identity q).

Context (d : BenchmarkDataset) (m : py_dict) (l : list pyjson) (R : sound_manifest d m l).
Context (V : BenchmarkDataset_validate d = Ok tt) (B : validate_routing_benchmark sha256 d = Ok tt).

Lemma chosen_valid s digest :
  BenchmarkDataset_validate (mk_BenchmarkDataset (BENCHMARK_NAME ++ py "-" ++ Split_value s) BENCHMARK_VERSION (in_split d l s) digest) = Ok tt.
Proof.
  destruct (routing_benchmark_tasks d B) as [N _]. unfold BenchmarkDataset_validate. cbn [ds_name ds_version tasks].
  replace (Nat.leb 1 (length (BENCHMARK_NAME ++ py "-" ++ Split_value s)) && _) with true by done. cbn [check guard_else]. unfold check, guard_else. rsimpl.
  rewrite (in_split_length d m l R V N). replace (Nat.leb 1 (split_total s)) with true by (by destruct s). rsimpl.
  rewrite (proj2 (all_distinct_true _)); [done|].
  assert (P : sublist (map task_id (in_split d l s)) (map task_id (tasks d))).
  { unfold in_split. clear. induction (tasks d) as [|t ts IH]; [constructor|]. cbn [List.filter]. destruct (with_key _ _ t); cbn [map]; by constructor. }
  eapply sublist_NoDup; [apply (task_ids_distinct d V)|exact P].
Qed.

(** What a selection is. *)
Lemma select_ok s allow p q : 
  if gated s allow p q
  then exists x, select_execution_dataset sha256 d m s allow p q = Ok x /\ tasks x = in_split d l s /\ BenchmarkDataset_validate x = Ok tt
  else select_execution_dataset sha256 d m s allow p q = Raise (Exn C_ValueError).
Proof.
  destruct (routing_benchmark_tasks d B) as [N T]. unfold select_execution_dataset, gated. rewrite B. rsimpl.
  rewrite (proj2 (validate_split_manifest_iff d m) (ex_intro _ l R)). rsimpl.
  assert (C : forall r, r = (entries ← entries_of m;
      ids ← keys_where "split" (Split_value s) "task_id" entries;
      let selected := List.filter (fun t => bool_decide (KStr (task_id t) ∈ ids)) (tasks d) in
      let name := BENCHMARK_NAME ++ py "-" ++ Split_value s in
      digest ← canonical_sha256 sha256 name BENCHMARK_VERSION selected;
      let chosen := mk_BenchmarkDataset name BENCHMARK_VERSION selected digest in
      _ ← validated (BenchmarkDataset_validate chosen);
      Ok chosen) -> exists x, r = Ok x /\ tasks x = in_split d l s /\ BenchmarkDataset_validate x = Ok tt).
  { intros r ->. unfold entries_of. rewrite (sm_entries _ _ _ R). cbn [iterate]. rsimpl.
    rewrite (keys_where_read _ _ _ _ (sm_split _ _ _ R) (sm_ids _ _ _ R)). rsimpl. cbv zeta.
    change (KStr (Split_value s)) with (split_key s). rewrite (selected_tasks d m l R V N s).
    destruct (canonical_total (BENCHMARK_NAME ++ py "-" ++ Split_value s) BENCHMARK_VERSION (in_split d l s)) as [h Hh].
    { intros t Ht. apply task_writable, T. by apply filter_in in Ht as [Ht _]. }
    rewrite Hh. rsimpl. rewrite chosen_valid. cbn [validated]. rsimpl. eexists. split; [reflexivity|]. split; [done|]. apply chosen_valid. }
  destruct (negb (bool_decide (s = Final))); [by apply C|]. cbn [orb]. destruct allow; [|done]. cbn [andb].
  destruct (valid_identity p), (valid_identity q); try done. by apply C.
Qed.
End Select.

(** ** Built manifests *)

Section Built.
Context {UD : UnicodeData} (d : BenchmarkDataset).

Definition family_split (t : BenchmarkTask) : result exn Split := split_for_family (default [] (task_family_id t)).

Definition has_split (s : Split) (t : BenchmarkTask) : bool := bool_decide (family_split t = Ok s).

(** The tasks of a category and split. *)
Definition cell (c : BenchmarkCategory) (s : Split) : Z :=
  count (fun t => bool_decide (bt_category t = c) && has_split s t) (tasks d).

Definition is_entry (t : BenchmarkTask) (e : pyjson) : Prop := exists df s,
  family_split t = Ok s /\ e = manifest_entry t (bt_category t) df s.

Lemma entry_keys t c df s :
  let e := manifest_entry t c df s in
  key_at "task_id" e = Ok (id_key t) /\ key_at "internal_category" e = Ok (category_key c) /\
  key_at "split" e = Ok (split_key s) /\ key_at "task_family_id" e = Ok (match task_family_id t with Some f => KStr f | None => KNone end) /\
  key_at "difficulty" e = Ok (match df with Some x => difficulty_key x | None => KNone end).
Proof. cbv zeta. unfold key_at, item, manifest_entry. destruct (task_family_id t), df; repeat split; reflexivity. Qed.

Lemma entry_key_of t c df s :
  let e := manifest_entry t c df s in
  key_of "task_id" e = id_key t /\ key_of "internal_category" e = category_key c /\ key_of "split" e = split_key s /\
  key_of "task_family_id" e = match task_family_id t with Some f => KStr f | None => KNone end /\
  key_of "difficulty" e = match df with Some x => difficulty_key x | None => KNone end.
Proof.
  cbv zeta. destruct (entry_keys t c df s) as (E1 & E2 & E3 & E4 & E5). unfold key_of. by rewrite E1, E2, E3, E4, E5.
Qed.

Context (m : py_dict) (built : build_split_manifest d = Ok m).

Lemma built_entries : exists l, dict_get m (py "entries") = Some (PJArr l) /\
  dict_get m (py "outcome_features_used") = Some (PJBool false) /\ Forall2 is_entry (tasks d) l.
Proof.
  pose proof built as H. unfold build_split_manifest in H. apply bind_ok in H as (l & F & H). inv_result.
  exists l. split; [done|]. split; [done|]. apply result_map_ok in F. eapply Forall2_impl; [exact F|]. intros t e H. cbv beta in H.
  apply bind_ok in H as (df & _ & H). apply bind_ok in H as (s & S & H). inv_result. by exists df, s.
Qed.

Lemma entries_keyed key ts l : Forall2 is_entry ts l ->
  key ∈ ["task_id"; "internal_category"; "split"; "task_family_id"]%string -> keyed key l.
Proof.
  intros F K e He. apply list_elem_of_lookup in He as [i Hi]. destruct (Forall2_lookup_r _ _ _ _ _ F Hi) as (t & _ & df & s & _ & ->).
  destruct (entry_keys t (bt_category t) df s) as (E1 & E2 & E3 & E4 & _). unfold key_of.
  repeat (apply elem_of_cons in K as [->|K]; [by rewrite ?E1, ?E2, ?E3, ?E4|]). by apply elem_of_nil in K.
Qed.

Definition split_key_of (t : BenchmarkTask) : json_key := the KNone (split_key <$> family_split t).

Lemma entries_map {B} (f : pyjson -> B) (g : BenchmarkTask -> B) ts l : Forall2 is_entry ts l ->
  (forall t df s, family_split t = Ok s -> f (manifest_entry t (bt_category t) df s) = g t) -> map f l = map g ts.
Proof. intros F H. induction F as [|t e ts l (df & s & S & ->) F IH]; [done|]. cbn [map]. by rewrite IH, (H t df s S). Qed.

Lemma split_key_of_eq t s : has_split s t = bool_decide (split_key_of t = split_key s).
Proof.
  unfold has_split, split_key_of. apply bool_decide_ext. destruct (family_split t) as [u|e]; cbn [fmap result_fmap result_bind the].
  - split; [congruence|]. intros E%split_key_inj. congruence.
  - split; [done|]. by destruct s.
Qed.

Lemma cell_entries l c s : Forall2 is_entry (tasks d) l ->
  count (fun k => bool_decide (k = (category_key c, split_key s))) (map (entry_pair "internal_category" "split") l) = cell c s.
Proof.
  intros F. rewrite (entries_map _ (fun t => (category_key (bt_category t), split_key_of t)) _ _ F).
  2: { intros t df u U. destruct (entry_key_of t (bt_category t) df u) as (_ & E & S & _). unfold entry_pair, split_key_of. by rewrite E, S, U. }
  rewrite count_map. apply count_ext. intros t _. rewrite split_key_of_eq. apply eq_iff_eq_true.
  rewrite andb_true_iff, !bool_decide_eq_true. split.
  - intros E. injection E as E1 E2. split; [|done]. by destruct (bt_category t), c.
  - by intros [-> ->].
Qed.
End Built.

Section BuiltValid.
Context {UD : UnicodeData} (d : BenchmarkDataset) (N : length (tasks d) = 224).
Context (m : py_dict) (built : build_split_manifest d = Ok m).

(** Every category has its number of tasks in every split. *)
Definition balanced_splits : Prop := forall c s, cell d c s = SPLIT_COUNTS s.

Lemma in_categories c : c ∈ CATEGORIES.
Proof. destruct c; decided. Qed.

Lemma split_total_cells s : count (has_split s) (tasks d) = foldr Z.add 0%Z (map (fun c => cell d c s) CATEGORIES).
Proof.
  rewrite <- (count_perm _ _ _ (key_partition bt_category CATEGORIES (tasks d) ltac:(decided)
    (fun t _ => in_categories (bt_category t)))), count_concat, map_map. f_equal. apply map_ext. intros c. apply filter_filter_count.
Qed.

Lemma balanced_sound l : Forall2 is_entry (tasks d) l -> dict_get m (py "entries") = Some (PJArr l) ->
  dict_get m (py "outcome_features_used") = Some (PJBool false) -> balanced_splits -> sound_manifest d m l.
Proof.
  intros F E O B.
  assert (S : map (key_of "split") l = map split_key_of (tasks d)).
  { apply entries_map with (1 := F). intros t df s H. destruct (entry_key_of t (bt_category t) df s) as (_ & _ & X & _).
    unfold split_key_of. by rewrite X, H. }
  assert (K : forall t, t ∈ tasks d -> exists s, family_split t = Ok s).
  { intros t [i Hi]%list_elem_of_lookup. destruct (Forall2_lookup_l _ _ _ _ _ F Hi) as (e & _ & df & s & H & _). by exists s. }
  split; try done; try (apply entries_keyed with (1 := F); decided).
  - rewrite <- N. symmetry. by apply Forall2_length in F.
  - intros k. rewrite (entries_map _ id_key _ _ F); [done|]. intros t df s _. apply entry_key_of.
  - rewrite S. unfold counter_is. apply andb_true_iff. split.
    + assert (T : forall s, count (fun k => bool_decide (k = split_key s)) (map split_key_of (tasks d)) = (7 * SPLIT_COUNTS s)%Z).
      { intros s. rewrite count_map, (count_ext _ (has_split s)) by (intros t _; by rewrite split_key_of_eq).
        rewrite split_total_cells. unfold CATEGORIES. cbn [map foldr]. rewrite !B. lia. }
      unfold SPLIT_TOTALS. cbn [forallb fst snd]. by rewrite !T.
    + apply forallb_forall. intros k Hk. apply list_elem_of_In, elem_of_map in Hk as (t & -> & Ht). apply bool_decide_eq_true.
      destruct (K t Ht) as [s Hs]. unfold split_key_of. rewrite Hs. cbn [fmap result_fmap result_bind the].
      destruct s; decided.
  - unfold counter_is. apply andb_true_iff. split.
    + apply forallb_forall. intros [[a b] n] H. cbn [fst snd]. apply in_flat_map in H as (c & _ & H). apply in_map_iff in H as (s & H & _).
      injection H as <- <- <-. rewrite (cell_entries d l c s F). apply Z.eqb_eq, B.
    + apply forallb_forall. intros k Hk. apply list_elem_of_In, elem_of_map in Hk as (e & -> & He). apply bool_decide_eq_true.
      apply list_elem_of_lookup in He as [i Hi]. destruct (Forall2_lookup_r _ _ _ _ _ F Hi) as (t & _ & df & s & _ & ->).
      unfold entry_pair. destruct (entry_key_of t (bt_category t) df s) as (_ & -> & -> & _).
      destruct (bt_category t), s; decided.
  - apply no_leak. intros x y Hx Hy Exy. apply elem_of_map in Hx as (e & -> & He), Hy as (e' & -> & He').
    apply list_elem_of_lookup in He as [i Hi], He' as [j Hj].
    destruct (Forall2_lookup_r _ _ _ _ _ F Hi) as (t & _ & df & s & Hs & ->), (Forall2_lookup_r _ _ _ _ _ F Hj) as (t' & _ & df' & s' & Hs' & ->).
    unfold entry_pair in *. cbn [fst snd] in *.
    destruct (entry_key_of t (bt_category t) df s) as (_ & _ & -> & Ft & _), (entry_key_of t' (bt_category t') df' s') as (_ & _ & -> & Ft' & _).
    rewrite Ft, Ft' in Exy. unfold family_split in Hs, Hs'.
    destruct (task_family_id t), (task_family_id t'); try discriminate Exy; [injection Exy as ->|]; congruence.
Qed.

Lemma built_valid_iff : validate_split_manifest d m = Ok tt <-> balanced_splits.
Proof.
  destruct (built_entries d m built) as (l & E & O & F). rewrite validate_split_manifest_iff. split.
  - intros [l' R] c s. pose proof (sm_entries _ _ _ R) as E'. rewrite E in E'. injection E' as <-.
    rewrite <- (cell_entries d l c s F). apply (counter_is_count CATEGORY_SPLIT_COUNTS); [apply (sm_categories _ _ _ R)|].
    apply list_elem_of_In. destruct c, s; cbn; tauto.
  - intros B. exists l. by apply balanced_sound.
Qed.

(** The entry of a task names the split of its family. *)
Lemma built_split_of l t : Forall2 is_entry (tasks d) l -> sound_manifest d m l -> BenchmarkDataset_validate d = Ok tt ->
  t ∈ tasks d -> split_of l t = split_key_of t.
Proof.
  intros F R V T. destruct (entry_of_task d m l R V N t T) as (e & He & I & <-).
  apply list_elem_of_lookup in He as [i Hi]. destruct (Forall2_lookup_r _ _ _ _ _ F Hi) as (t' & Ht' & df & s & Hs & ->).
  destruct (entry_key_of t' (bt_category t') df s) as (It & _ & -> & _). rewrite It in I. injection I as I.
  assert (t' = t) as -> by (apply (NoDup_map_same task_id (tasks d)); [by apply task_ids_distinct|by eapply list_elem_of_lookup_2|done|done]).
  unfold split_key_of. by rewrite Hs.
Qed.
End BuiltValid.

(** ** The pilot *)

Lemma next_ok {A} (p : A -> result exn bool) l x : next p l = Ok x -> x ∈ l /\ p x = Ok true.
Proof.
  induction l as [|y l IH]; [done|]. cbn [next]. intros H. apply bind_ok in H as ([|] & P & H).
  - inv_result. split; [apply elem_of_cons; by left|done].
  - destruct (IH H). split; [apply elem_of_cons; by right|done].
Qed.

Definition ENTRY_KEYS : list string := ["task_id"; "internal_category"; "split"; "task_family_id"; "difficulty"]%string.

(** What is chosen: one task of each difficulty, of families all different. *)
Definition chosen_for (c : BenchmarkCategory) (ts : list BenchmarkTask) (df : Difficulty) (e : pyjson) : Prop :=
  exists t f, t ∈ ts /\ task_family_id t = Some f /\ difficulty t = Ok (Some df) /\ e = manifest_entry t c (Some df) Train.

Lemma chosen_keys c ts df e : chosen_for c ts df e -> exists t f, t ∈ ts /\ difficulty t = Ok (Some df) /\
  task_family_id t = Some f /\ key_of "task_id" e = id_key t /\
  key_of "internal_category" e = category_key c /\ key_of "difficulty" e = difficulty_key df /\ key_of "task_family_id" e = KStr f /\
  key_of "split" e = split_key Train /\
  (forall key, key ∈ ENTRY_KEYS -> key_at key e = Ok (key_of key e)).
Proof.
  intros (t & f & T & F & D & ->). exists t, f. do 3 (split; [done|]).
  destruct (entry_key_of t c (Some df) Train) as (K1 & K2 & K3 & K4 & K5). rewrite F in K4. do 5 (split; [done|]).
  destruct (entry_keys t c (Some df) Train) as (E1 & E2 & E3 & E4 & E5). rewrite F in E4. intros key K.
  repeat (apply elem_of_cons in K as [->|K]; [congruence|]). by apply elem_of_nil in K.
Qed.

Lemma choose_ok c ts dfs : (forall t, t ∈ ts -> task_family_id t <> None) -> forall used out, choose c ts used dfs = Ok out ->
  Forall2 (chosen_for c ts) dfs out /\ NoDup (map (key_of "task_family_id") out) /\
  forall f, f ∈ used -> KStr f ∉ map (key_of "task_family_id") out.
Proof.
  intros S. induction dfs as [|df dfs IH]; intros used out H; cbn [choose] in H.
  { inv_result. split; [constructor|]. split; [constructor|]. intros f _ C. by apply elem_of_nil in C. }
  apply bind_ok in H as (t & X & H). apply bind_ok in H as (more & M & H). inv_result.
  apply next_ok in X as [T X]. unfold fits in X. apply bind_ok in X as (od & D & X). inv_result.
  destruct (task_family_id t) as [f|] eqn:F; [|by apply S in F]. bools. subst od.
  destruct (IH _ _ M) as (Q & N & U). cbn [map].
  destruct (entry_key_of t c (Some df) Train) as (_ & _ & _ & -> & _). rewrite F. cbn [default from_option] in U. split.
  { constructor; [by exists t, f|done]. }
  split; [constructor; [|done]|].
  - apply U, elem_of_cons. by left.
  - intros g G [C|C]%elem_of_cons; [injection C as ->; contradiction|]. revert C. apply U, elem_of_cons. by right.
Qed.

Lemma by_task_id_read {A} (value : pyjson -> result exn A) other l :
  keyed "task_id" l -> (forall e, e ∈ l -> value e = Ok (the other (value e))) -> NoDup (map (key_of "task_id") l) ->
  by_task_id value l = Ok (map (fun e => (key_of "task_id" e, the other (value e))) l).
Proof.
  intros K W D. unfold by_task_id.
  rewrite (result_map_map _ (fun e => (key_of "task_id" e, the other (value e)))).
  - rsimpl. rewrite dict_of_distinct; [|by rewrite map_map]. by rewrite map_map.
  - intros e He. specialize (K e He). unfold key_at in K. destruct (item e "task_id") as [x|]; [|done]. rsimpl_in K. rsimpl.
    rewrite (W e He). rsimpl. by rewrite K.
Qed.

Lemma key_at_item key e k : key_at key e = Ok k -> item e key = Ok (the PJNull (item e key)).
Proof. unfold key_at. by destruct (item e key). Qed.

Lemma filter_all_true {A} (p : A -> bool) l : (forall x, x ∈ l -> p x = true) -> List.filter p l = l.
Proof.
  intros H. induction l as [|x l IH]; [done|]. cbn [List.filter]. rewrite (H x) by (apply elem_of_cons; by left).
  f_equal. apply IH. intros y Y. apply H, elem_of_cons. by right.
Qed.

Lemma filter_all_false {A} (p : A -> bool) l : (forall x, x ∈ l -> p x = false) -> List.filter p l = [].
Proof.
  intros H. destruct (List.filter p l) as [|x r] eqn:F; [done|]. assert (X : x ∈ List.filter p l) by (rewrite F; apply elem_of_cons; by left).
  apply filter_in in X as [X P]. by rewrite H in P.
Qed.

Lemma elem_of_concat_map {A K} (g : K -> list A) ks x : x ∈ concat (map g ks) -> exists k, k ∈ ks /\ x ∈ g k.
Proof. intros (y & Y & X)%list_elem_of_In%in_concat. apply list_elem_of_In, elem_of_map in Y as (k & -> & K'). exists k. split; [done|]. by apply list_elem_of_In. Qed.

(** The elements of one group of tagged groups. *)
Lemma filter_groups {A K J} `{EqDecision J} (tag : A -> J) (f : K -> J) (g : K -> list A) ks k :
  (forall i j, f i = f j -> i = j) -> NoDup ks -> k ∈ ks -> (forall j x, x ∈ g j -> tag x = f j) ->
  List.filter (fun x => bool_decide (tag x = f k)) (concat (map g ks)) = g k.
Proof.
  intros Inj N I T. induction N as [|j ks J' N IH]; [by apply elem_of_nil in I|]. cbn [map concat]. rewrite List.filter_app.
  assert (Other : forall i, i <> k -> forall x, x ∈ g i -> bool_decide (tag x = f k) = false).
  { intros i D x Hx. apply bool_decide_eq_false. rewrite (T i x Hx). by intros E%Inj. }
  apply elem_of_cons in I as [->|I].
  - rewrite (filter_all_true _ (g j)), (filter_all_false _ (concat _)); [by rewrite app_nil_r| |].
    + intros x [i [Hi Hx]]%elem_of_concat_map. apply (Other i); [by intros ->|done].
    + intros x Hx. apply bool_decide_eq_true. by apply T.
  - rewrite (filter_all_false _ (g j)); [by apply IH|]. apply Other. by intros ->.
Qed.

Section Pilot.
Context {UD : UnicodeData} (sha256 : list N -> pystr).
Context (d : BenchmarkDataset) (m : py_dict) (l : list pyjson) (R : sound_manifest d m l).
Context (V : BenchmarkDataset_validate d = Ok tt) (B : validate_routing_benchmark sha256 d = Ok tt).

Definition id_table : list (json_key * pyjson) := map (fun e => (key_of "task_id" e, e)) l.

Lemma ids_distinct : NoDup (map (key_of "task_id") l).
Proof. rewrite (ids_permuted d m l R V (proj1 (routing_benchmark_tasks sha256 d B))). by apply id_keys_distinct. Qed.

Lemma id_table_read : by_task_id (fun e => Ok e) l = Ok id_table.
Proof. exact (by_task_id_read (fun e => Ok e) PJNull l (sm_ids _ _ _ R) (fun _ _ => eq_refl) ids_distinct). Qed.

Lemma family_some t : t ∈ tasks d -> task_family_id t <> None.
Proof.
  intros T. pose proof (proj2 (routing_benchmark_tasks sha256 d B) t T) as H. unfold task_rules in H.
  apply bind_ok in H as (? & _ & H). apply bind_ok in H as (? & H%value_guard_ok & _). bools. by destruct (task_family_id t).
Qed.

Lemma is_train_ok c t : t ∈ tasks d -> is_train id_table c t = Ok true -> bt_category t = c /\ t ∈ in_split d l Train.
Proof.
  intros T. unfold is_train. case_bool_decide as C; [|done]. intros H. split; [done|].
  apply bind_ok in H as (e & E & H). apply bind_ok in H as (x & X & H).
  assert (H' : equals_str (Some x) (Split_value Train) = true) by congruence. clear H.
  unfold entry_at in E. destruct (dict_get id_table (KStr (task_id t))) as [e'|] eqn:G; inv_result.
  apply dict_get_some_in in G. apply elem_of_map in G as (e' & E' & He). injection E' as I ->.
  destruct (item_is_text e' "split" (Split_value Train) _ (sm_split _ _ _ R e' He)) as (y & Y & Q). rewrite X in Y. injection Y as <-.
  rewrite Q in H'. bools. apply filter_in. split; [done|]. apply bool_decide_eq_true.
  pose proof (table_entry d m l R V (proj1 (routing_benchmark_tasks sha256 d B)) e' He) as D.
  unfold split_of, id_key. by rewrite I, D.
Qed.

Definition train_of (c : BenchmarkCategory) : list BenchmarkTask := List.filter (with_key bt_category c) (in_split d l Train).

Lemma group_ok c out : choose_category d id_table c = Ok out ->
  Forall2 (chosen_for c (train_of c)) DIFFICULTIES out /\ NoDup (map (key_of "task_family_id") out).
Proof.
  unfold choose_category. intros H. apply bind_ok in H as (ts & T & H).
  assert (S : forall t, t ∈ ts -> t ∈ train_of c /\ t ∈ tasks d).
  { intros t Ht. destruct (result_filter_ok _ _ _ _ T Ht) as [Hd P]. destruct (is_train_ok c t Hd P) as [C I].
    split; [|done]. apply filter_in. split; [done|]. by apply bool_decide_eq_true. }
  destruct (choose_ok c ts DIFFICULTIES (fun t Ht => family_some t (proj2 (S t Ht))) [] out H) as (F & N & _). split; [|done].
  eapply Forall2_impl; [exact F|]. intros df e (t & f & Ht & Q). exists t, f. split; [apply (S t Ht)|done].
Qed.

(** The pilot of a validated manifest. *)
Definition is_pilot (p : py_dict) (g : BenchmarkCategory -> list pyjson) : Prop :=
  dict_get p (py "tasks") = Some (PJArr (concat (map g CATEGORIES))) /\
  dict_get p (py "expected_candidate_calls") = Some (PJInt (Z.of_nat (length (concat (map g CATEGORIES))) * 4)) /\
  dict_get p (py "maximum_expected_semantic_judge_calls") = Some (PJInt 12) /\
  forall c, Forall2 (chosen_for c (train_of c)) DIFFICULTIES (g c) /\ NoDup (map (key_of "task_family_id") (g c)).

Lemma built_pilot p : build_pilot_manifest d m = Ok p -> exists g, is_pilot p g.
Proof.
  unfold build_pilot_manifest, entries_of. rewrite (sm_entries _ _ _ R). cbn [iterate]. rsimpl. rewrite id_table_read. rsimpl.
  intros H. apply bind_ok in H as (groups & G & H). inv_result. apply (result_map_the _ []) in G as [-> G].
  exists (fun c => the [] (choose_category d id_table c)). split; [done|]. split; [done|]. split; [done|].
  intros c. apply group_ok, G, in_categories.
Qed.

Context (p : py_dict) (g : BenchmarkCategory -> list pyjson) (P : is_pilot p g).

Lemma group_length c : length (g c) = 3.
Proof. destruct P as (_ & _ & _ & Q). destruct (Q c) as [F _]. symmetry. exact (Forall2_length _ _ _ F). Qed.

Lemma group_keys c e : e ∈ g c -> exists df t f, t ∈ train_of c /\ df ∈ DIFFICULTIES /\ difficulty t = Ok (Some df) /\
  task_family_id t = Some f /\ key_of "task_id" e = id_key t /\
  key_of "internal_category" e = category_key c /\ key_of "difficulty" e = difficulty_key df /\ key_of "task_family_id" e = KStr f /\
  key_of "split" e = split_key Train /\
  (forall key, key ∈ ENTRY_KEYS -> key_at key e = Ok (key_of key e)).
Proof.
  intros [i Hi]%list_elem_of_lookup. destruct P as (_ & _ & _ & Q). destruct (Q c) as [F _].
  destruct (Forall2_lookup_r _ _ _ _ _ F Hi) as (df & Hd & C). destruct (chosen_keys _ _ _ _ C) as (t & f & T & D & K).
  exists df, t, f. split; [done|]. split; [by eapply list_elem_of_lookup_2|]. by split.
Qed.

Lemma pilot_keyed key : key ∈ ENTRY_KEYS ->
  keyed key (concat (map g CATEGORIES)).
Proof.
  intros K e (c & _ & He)%elem_of_concat_map. destruct (group_keys c e He) as (? & ? & ? & _ & _ & _ & _ & _ & _ & _ & _ & _ & A). by apply A.
Qed.

Lemma category_key_inj c c' : category_key c = category_key c' -> c = c'.
Proof. by destruct c, c'. Qed.

Lemma pilot_group c : List.filter (fun e => bool_decide (key_of "internal_category" e = category_key c)) (concat (map g CATEGORIES)) = g c.
Proof.
  apply (filter_groups _ category_key); [apply category_key_inj|decided|apply in_categories|].
  intros j x Hx. by destruct (group_keys j x Hx) as (? & ? & ? & _ & _ & _ & _ & _ & C & _).
Qed.

Lemma pilot_keys_where key c : key ∈ ENTRY_KEYS ->
  keys_where "internal_category" (BenchmarkCategory_value c) key (concat (map g CATEGORIES)) = Ok (map (key_of key) (g c)).
Proof.
  intros K. rewrite keys_where_read; [|apply pilot_keyed; decided|by apply pilot_keyed].
  f_equal. f_equal. apply pilot_group.
Qed.

Lemma pilot_category_ok c : pilot_category (concat (map g CATEGORIES)) c = Ok tt.
Proof.
  unfold pilot_category. rewrite !pilot_keys_where by decided. rsimpl.
  destruct P as (_ & _ & _ & Q). destruct (Q c) as [F N].
  assert (D : map (key_of "difficulty") (g c) = map difficulty_key DIFFICULTIES).
  { clear N Q. induction F as [|df e dfs es H F IH]; [done|]. cbn [map]. rewrite IH. f_equal.
    by destruct (chosen_keys _ _ _ _ H) as (? & ? & _ & _ & _ & _ & _ & -> & _). }
  rewrite D. unfold value_guard, guard_else. replace (counter_is _ _) with true by (by vm_compute). rsimpl.
  apply all_distinct_true in N. unfold all_distinct in N. rewrite length_map, group_length in N. by rewrite N.
Qed.

Lemma pilot_length : length (concat (map g CATEGORIES)) = 21.
Proof.
  rewrite (length_concat_const _ 3), length_map; [done|]. intros x Hx. apply elem_of_map in Hx as (c & -> & _). apply group_length.
Qed.

Lemma pilot_counts : counter_is (map (fun c => (category_key c, 3%Z)) CATEGORIES)
  (map (key_of "internal_category") (concat (map g CATEGORIES))) = true.
Proof.
  unfold counter_is. apply andb_true_iff. split.
  - apply forallb_forall. intros x Hx. apply in_map_iff in Hx as (c & <- & _). cbn [fst snd]. rewrite count_map. unfold count.
    by rewrite pilot_group, group_length.
  - apply forallb_forall. intros k Hk. apply list_elem_of_In, elem_of_map in Hk as (e & -> & (c & Hc & He)%elem_of_concat_map).
    apply bool_decide_eq_true. destruct (group_keys c e He) as (? & ? & ? & _ & _ & _ & _ & _ & -> & _).
    rewrite map_map. apply elem_of_map. by exists c.
Qed.

Lemma pilot_in_train e : e ∈ concat (map g CATEGORIES) -> exists t df, t ∈ in_split d l Train /\ difficulty t = Ok (Some df) /\
  key_of "task_id" e = id_key t /\ key_of "internal_category" e = category_key (bt_category t) /\ key_of "difficulty" e = difficulty_key df.
Proof.
  intros (c & _ & He)%elem_of_concat_map. destruct (group_keys c e He) as (df & t & f & T & _ & D & _ & I & C & K & _).
  apply filter_in in T as [T E]. apply bool_decide_eq_true in E. subst c. by exists t, df.
Qed.

Lemma pilot_inside : forall e, e ∈ concat (map g CATEGORIES) ->
  outside_train (map (fun e => (key_of "task_id" e, the PJNull (item e "split"))) l) e = Ok false.
Proof.
  intros e He. pose proof (pilot_keyed "split" ltac:(decided) e He) as S.
  pose proof (pilot_keyed "task_id" ltac:(decided) e He) as I.
  unfold outside_train. destruct (item_is_text e "split" (Split_value Train) _ S) as (x & X & Q). rewrite X. rsimpl. rewrite Q.
  destruct (elem_of_concat_map _ _ _ He) as (c & _ & Hc). destruct (group_keys c e Hc) as (? & t & ? & T & _ & _ & _ & E & _ & _ & _ & K & _).
  rewrite K, bool_decide_eq_true_2 by done. cbn [negb]. rewrite I. rsimpl. unfold entry_at.
  apply filter_in in T as [T _]. apply filter_in in T as [T W]. apply bool_decide_eq_true in W.
  destruct (entry_of_task d m l R V (proj1 (routing_benchmark_tasks sha256 d B)) t T) as (f & Hf & If & Sf).
  rewrite (dict_get_nodup _ _ (the PJNull (item f "split"))).
  - rsimpl. destruct (item_is_text f "split" (Split_value Train) _ (sm_split _ _ _ R f Hf)) as (y & -> & Qy). cbn [the].
    rewrite Qy, Sf, W, bool_decide_eq_true_2 by done. done.
  - change (NoDup (map fst (map (fun e => (key_of "task_id" e, the PJNull (item e "split"))) l))). rewrite map_map. apply ids_distinct.
  - apply elem_of_map. exists f. split; [|done]. by rewrite E, If.
Qed.

Lemma pilot_valid : validate_pilot_manifest p m = Ok tt.
Proof.
  destruct P as (E & C & J & _). unfold validate_pilot_manifest, list_of. rewrite E, pilot_length, Nat.eqb_refl. rsimpl.
  rewrite (result_map_map _ _ _ (pilot_keyed "internal_category" ltac:(decided))). rsimpl.
  rewrite (value_guard_true _ pilot_counts). rsimpl.
  rewrite (result_map_map _ (fun _ => tt)) by (intros; apply pilot_category_ok). rsimpl.
  unfold entries_of. rewrite (sm_entries _ _ _ R). cbn [iterate]. rsimpl.
  rewrite (by_task_id_read _ PJNull l (sm_ids _ _ _ R)); [|intros e He; exact (key_at_item _ _ _ (sm_split _ _ _ R e He))|apply ids_distinct].
  rsimpl. rewrite (any_result_false _ _ pilot_inside). rsimpl. rewrite C, J, pilot_length. done.
Qed.
End Pilot.

(** ** What the splits guarantee *)

(** The shape of a SHA-256 digest: 64 lower-case hexadecimal digits. *)
Definition digest_shaped (o : option pystr) : Prop :=
  exists text, o = Some text /\ length text = 64 /\
    forall c, c ∈ text -> (48 <= c <= 57)%N \/ (97 <= c <= 102)%N.

(** An entry of the manifest names the task and the split. *)
Definition assigned (m : py_dict) (t : BenchmarkTask) (s : Split) : Prop :=
  exists l fields, dict_get m (py "entries") = Some (PJArr l) /\ PJObj fields ∈ l /\
    dict_get fields (py "task_id") = Some (PJStr (task_id t)) /\
    dict_get fields (py "split") = Some (PJStr (Split_value s)).

Lemma valid_identity_iff o : valid_identity o = true <-> digest_shaped o.
Proof.
  unfold valid_identity, digest_shaped. destruct o as [text|]; [|split; [done|by intros (? & ? & _)]].
  rewrite andb_true_iff, Nat.eqb_eq, forallb_forall. unfold is_ascii_digit, in_range. split.
  - intros [L F]. exists text. split; [done|]. split; [done|]. intros c Hc. apply list_elem_of_In, F in Hc. by rewrite orb_true_iff, !andb_true_iff, !N.leb_le in Hc.
  - intros (? & [= <-] & L & F). split; [done|]. intros c Hc. rewrite orb_true_iff, !andb_true_iff, !N.leb_le. by apply list_elem_of_In, F in Hc.
Qed.

Lemma gated_iff s allow p q :
  gated s allow p q = true <-> s <> Final \/ allow = true /\ digest_shaped p /\ digest_shaped q.
Proof.
  unfold gated. rewrite orb_true_iff, !andb_true_iff, negb_true_iff, bool_decide_eq_false, !valid_identity_iff. tauto.
Qed.

Lemma filter_sublist {A} (f : A -> bool) (l : list A) : sublist (List.filter f l) l.
Proof. induction l as [|x l IH]; cbn [List.filter]; [constructor|]. destruct (f x); by constructor. Qed.

Lemma hashed_text v s : hashed v = Ok (KStr s) -> v = PJStr s.
Proof. by destruct v as [|[]|?|[| | |]|?|?|?]; cbn; intros [= ->]. Qed.

(** A key that is a text was read from an object's string. *)
Lemma text_field key e s : key_at key e = Ok (KStr s) ->
  exists fields, e = PJObj fields /\ dict_get fields (py key) = Some (PJStr s).
Proof.
  unfold key_at. intros H. apply bind_ok in H as (x & X & H). apply hashed_text in H. subst x.
  unfold item in X. destruct e as [| | | | | |fields]; try done. exists fields. split; [done|].
  by destruct (dict_get fields (py key)); inv_result.
Qed.

Lemma assigned_in_split d m l : sound_manifest d m l -> BenchmarkDataset_validate d = Ok tt -> length (tasks d) = 224 ->
  forall t s, t ∈ tasks d -> assigned m t s <-> t ∈ in_split d l s.
Proof.
  intros R V N t s T. unfold in_split. rewrite filter_in. unfold with_key. rewrite bool_decide_eq_true. split.
  - intros (l' & fields & L & F & I & S). split; [done|].
    rewrite (sm_entries _ _ _ R) in L. injection L as <-.
    assert (Ki : key_of "task_id" (PJObj fields) = id_key t) by (unfold key_of, key_at, item; by rewrite I).
    assert (Ks : key_of "split" (PJObj fields) = split_key s) by (unfold key_of, key_at, item; by rewrite S).
    unfold split_of. rewrite <- Ki, (table_entry d m l R V N _ F). exact Ks.
  - intros [_ E]. destruct (entry_of_task d m l R V N t T) as (e & He & Ie & Se). rewrite E in Se.
    pose proof (sm_ids _ _ _ R e He) as Ki. pose proof (sm_split _ _ _ R e He) as Ks. rewrite Ie in Ki. rewrite Se in Ks.
    destruct (text_field _ _ _ Ki) as (fields & -> & I). destruct (text_field _ _ _ Ks) as (fields' & [= <-] & S).
    exists l, fields. split; [apply (sm_entries _ _ _ R)|done].
Qed.

Section Guarantees.
Context {UD : UnicodeData} (sha256 : list N -> pystr) (d : BenchmarkDataset) (m : py_dict).

(** C23. A dataset and a manifest that validate can be executed split by split,
    and the three selections make up the dataset: every task is selected for
    exactly one split, 140 to train, 42 to development and 42 to final. *)
Theorem selections_partition p q : BenchmarkDataset_validate d = Ok tt -> validate_routing_benchmark sha256 d = Ok tt ->
  validate_split_manifest d m = Ok tt -> valid_identity p = true -> valid_identity q = true ->
  exists train development final,
    select_execution_dataset sha256 d m Train false None None = Ok train /\
    select_execution_dataset sha256 d m Development false None None = Ok development /\
    select_execution_dataset sha256 d m Final true p q = Ok final /\
    tasks train ++ tasks development ++ tasks final ≡ₚ tasks d /\ NoDup (map task_id (tasks train ++ tasks development ++ tasks final)) /\
    length (tasks train) = 140 /\ length (tasks development) = 42 /\ length (tasks final) = 42.
Proof.
  intros V B S P Q. apply validate_split_manifest_iff in S as [l R].
  pose proof (proj1 (routing_benchmark_tasks sha256 d B)) as N.
  destruct (select_ok sha256 d m l R V B Train false None None) as (t & T & Et & _).
  destruct (select_ok sha256 d m l R V B Development false None None) as (v & D & Ev & _).
  pose proof (select_ok sha256 d m l R V B Final true p q) as F. unfold gated in F. rewrite P, Q in F. destruct F as (f & F & Ef & _).
  exists t, v, f. rewrite Et, Ev, Ef, !(in_split_length d m l R V N), (in_split_partition d m l R V N).
  repeat split; try done. by apply task_ids_distinct.
Qed.

(** C24. For a validated benchmark, the final tasks can be selected exactly when
    final evaluation is allowed explicitly and both the predictor and the policy
    are identified by a string of the shape of a SHA-256 digest, 64 lower-case
    hexadecimal digits (that it is the digest of a frozen file is not looked
    at here); otherwise the request fails with a [ValueError].  The other
    splits need none of this.  What is selected are the dataset's tasks, in
    its order, that an entry of the manifest assigns to the requested split, and
    no task assigned to the final split is handed out for another one. *)
Theorem final_split_is_gated s allow p q : BenchmarkDataset_validate d = Ok tt -> validate_routing_benchmark sha256 d = Ok tt ->
  validate_split_manifest d m = Ok tt ->
  (s <> Final \/ allow = true /\ digest_shaped p /\ digest_shaped q ->
   exists x, select_execution_dataset sha256 d m s allow p q = Ok x /\ sublist (tasks x) (tasks d) /\
     forall t, t ∈ tasks x <-> t ∈ tasks d /\ assigned m t s) /\
  (~ (s <> Final \/ allow = true /\ digest_shaped p /\ digest_shaped q) ->
   select_execution_dataset sha256 d m s allow p q = Raise (Exn C_ValueError)) /\
  (forall x t, select_execution_dataset sha256 d m s allow p q = Ok x -> t ∈ tasks x -> assigned m t Final -> s = Final).
Proof.
  intros V B S. apply validate_split_manifest_iff in S as [l R].
  pose proof (proj1 (routing_benchmark_tasks sha256 d B)) as N.
  pose proof (select_ok sha256 d m l R V B s allow p q) as K. rewrite <- gated_iff.
  assert (In : forall t s', t ∈ tasks d -> assigned m t s' <-> t ∈ in_split d l s').
  { intros t s' T. rewrite (assigned_in_split d m l R V N t s' T). split; [done|by intros H]. }
  destruct (gated s allow p q).
  - destruct K as (x & X & Tx & _). split; [|split].
    + intros _. exists x. split; [done|]. rewrite Tx. split; [apply filter_sublist|]. intros t. split.
      * intros H. pose proof (proj1 (filter_in _ _ _) H) as [T _]. split; [done|]. by apply In.
      * intros [T A]. by apply In.
    + done.
    + intros y t Y Ht A. rewrite X in Y. injection Y as <-. rewrite Tx in Ht.
      pose proof (proj1 (filter_in _ _ _) Ht) as [T E]. apply In in A; [|done]. apply filter_in in A as [_ A].
      apply bool_decide_eq_true in E, A. apply split_key_inj. by rewrite <- E, <- A.
  - split; [done|]. split; [done|]. intros x t X. congruence.
Qed.

(** C25. The manifest built for a dataset of the benchmark validates exactly
    when the numbers of its families give every category its 20, 6 and 6 tasks;
    the selections are then those of the families, so that no family of the
    dataset is in two of them. *)
Theorem built_manifest_keeps_families : BenchmarkDataset_validate d = Ok tt -> validate_routing_benchmark sha256 d = Ok tt ->
  build_split_manifest d = Ok m ->
  (validate_split_manifest d m = Ok tt <-> forall c s, cell d c s = SPLIT_COUNTS s) /\
  (forall s allow p q x, select_execution_dataset sha256 d m s allow p q = Ok x ->
   forall t, t ∈ tasks x <-> t ∈ tasks d /\ split_for_family (default [] (task_family_id t)) = Ok s).
Proof.
  intros V B M. pose proof (proj1 (routing_benchmark_tasks sha256 d B)) as N. split; [by apply built_valid_iff|].
  intros s allow p q x X t.
  assert (S : validate_split_manifest d m = Ok tt).
  { unfold select_execution_dataset in X. apply bind_ok in X as (? & _ & X). by apply bind_ok in X as ([] & S & _). }
  apply validate_split_manifest_iff in S as [l R].
  destruct (built_entries d m M) as (l' & E & _ & F). pose proof (sm_entries _ _ _ R) as E'. rewrite E in E'. injection E' as ->.
  pose proof (select_ok sha256 d m l R V B s allow p q) as K. destruct (gated s allow p q); [|congruence].
  destruct K as (y & Y & Ty & _). rewrite X in Y. injection Y as <-. rewrite Ty. unfold in_split. rewrite filter_in. split.
  - intros [T W]. split; [done|]. unfold with_key in W. rewrite (built_split_of d N m l t F R V T), <- split_key_of_eq in W.
    by apply bool_decide_eq_true in W.
  - intros [T W]. split; [done|]. unfold with_key. rewrite (built_split_of d N m l t F R V T), <- split_key_of_eq.
    by apply bool_decide_eq_true.
Qed.

(** A pilot that can be chosen for a validated manifest validates against
    it, and every entry is a task of the training selection with its category
    and difficulty: the pilot never touches development or final tasks. *)
Theorem pilot_is_training p : BenchmarkDataset_validate d = Ok tt -> validate_routing_benchmark sha256 d = Ok tt ->
  validate_split_manifest d m = Ok tt -> build_pilot_manifest d m = Ok p ->
  validate_pilot_manifest p m = Ok tt /\
  exists train entries, select_execution_dataset sha256 d m Train false None None = Ok train /\
    dict_get p (py "tasks") = Some (PJArr entries) /\ length entries = 21 /\
    forall e, e ∈ entries -> exists t df, t ∈ tasks train /\ difficulty t = Ok (Some df) /\
      key_at "task_id" e = Ok (KStr (task_id t)) /\ key_at "internal_category" e = Ok (category_key (bt_category t)) /\
      key_at "difficulty" e = Ok (difficulty_key df).
Proof.
  intros V B S M. apply validate_split_manifest_iff in S as [l R].
  destruct (built_pilot sha256 d m l R V B p M) as [g P]. split; [by apply (pilot_valid sha256 d m l R V B p g)|].
  destruct (select_ok sha256 d m l R V B Train false None None) as (x & X & Tx & _).
  exists x, (concat (map g CATEGORIES)). split; [done|]. split; [apply P|]. split; [by apply (pilot_length d l p g)|].
  intros e He. rewrite Tx. destruct (pilot_in_train d l p g P e He) as (t & df & T & D & I & C & K). exists t, df.
  pose proof (fun key K => pilot_keyed d l p g P key K e He) as A.
  rewrite (A "task_id"%string), (A "internal_category"%string), (A "difficulty"%string) by decided. by rewrite I, C, K.
Qed.
End Guarantees.

(** ** A dataset of the right shape *)

(** The [k]-th task of a category: two tasks per family, difficulties spread
    over the splits. *)
Definition sample_difficulty (k : nat) : Difficulty :=
  if Nat.ltb k 4 then DF_hard else if Nat.ltb k 12 then DF_easy else if Nat.ltb k 25 then DF_medium else DF_hard.

Definition sample_task (c : BenchmarkCategory) (k : nat) : BenchmarkTask :=
  mk_BenchmarkTask (py "p") None (TOKEN_RANGES c).1 f_zero (BenchmarkCategory_value c ++ py "-" ++ nat_str k) c EO_text
    [(py "difficulty", PJStr (Difficulty_text (Some (sample_difficulty k))))] None []
    (Some (py "rbv1-" ++ BenchmarkCategory_value c ++ py "-" ++ padded 2 (Z.of_nat (S (Nat.div2 k))) ++ py "-f"))
    (Some ST_human_authored) (Some (py "s")) None (Some (EVALUATOR_TYPES c)) (Some (py "a")).

Definition sample_dataset : BenchmarkDataset :=
  mk_BenchmarkDataset BENCHMARK_NAME BENCHMARK_VERSION
    (List.flat_map (fun c => map (sample_task c) (seq 0 32)) CATEGORIES) [].

Definition sample_sha256 (data : list N) : pystr := py "761c10b4fc9898977109412386015874d1b31c53cb710e514250c8eed8fb9839".

Definition sample_manifest : py_dict :=
  the [] (build_split_manifest (UD := ascii_tables) sample_dataset).

Definition sample_pilot : py_dict :=
  the [] (build_pilot_manifest sample_dataset sample_manifest).

Definition frozen_identity : option pystr := Some (repeat 48%N 64).

Lemma sample_dataset_valid : BenchmarkDataset_validate sample_dataset = Ok tt.
Proof. vm_compute. reflexivity. Qed.

Lemma sample_benchmark_valid : validate_routing_benchmark (UD := ascii_tables) sample_sha256 sample_dataset = Ok tt.
Proof. vm_compute. reflexivity. Qed.

Lemma sample_manifest_built : build_split_manifest (UD := ascii_tables) sample_dataset = Ok sample_manifest.
Proof. vm_compute. reflexivity. Qed.

Lemma sample_manifest_valid : validate_split_manifest sample_dataset sample_manifest = Ok tt.
Proof. vm_compute. reflexivity. Qed.

Lemma sample_pilot_built : build_pilot_manifest sample_dataset sample_manifest = Ok sample_pilot.
Proof. vm_compute. reflexivity. Qed.

Lemma selections_partition_witness : exists train development final,
  select_execution_dataset (UD := ascii_tables) sample_sha256 sample_dataset sample_manifest Train false None None = Ok train /\
  select_execution_dataset (UD := ascii_tables) sample_sha256 sample_dataset sample_manifest Development false None None = Ok development /\
  select_execution_dataset (UD := ascii_tables) sample_sha256 sample_dataset sample_manifest Final true frozen_identity frozen_identity = Ok final /\
  tasks train ++ tasks development ++ tasks final ≡ₚ tasks sample_dataset /\
  NoDup (map task_id (tasks train ++ tasks development ++ tasks final)) /\
  length (tasks train) = 140 /\ length (tasks development) = 42 /\ length (tasks final) = 42.
Proof.
  apply (selections_partition (UD := ascii_tables) sample_sha256 sample_dataset sample_manifest frozen_identity frozen_identity
    sample_dataset_valid sample_benchmark_valid sample_manifest_valid); vm_compute; reflexivity.
Defined.

Lemma final_split_is_gated_witness :
  select_execution_dataset (UD := ascii_tables) sample_sha256 sample_dataset sample_manifest Final true frozen_identity None =
    Raise (Exn C_ValueError) /\
  exists x, select_execution_dataset (UD := ascii_tables) sample_sha256 sample_dataset sample_manifest Final true
    frozen_identity frozen_identity = Ok x /\ forall t, t ∈ tasks x -> assigned sample_manifest t Final.
Proof.
  assert (I : digest_shaped frozen_identity) by (apply valid_identity_iff; vm_compute; reflexivity).
  pose proof (final_split_is_gated (UD := ascii_tables) sample_sha256 sample_dataset sample_manifest Final true frozen_identity None
    sample_dataset_valid sample_benchmark_valid sample_manifest_valid) as (_ & Refused & _).
  pose proof (final_split_is_gated (UD := ascii_tables) sample_sha256 sample_dataset sample_manifest Final true frozen_identity frozen_identity
    sample_dataset_valid sample_benchmark_valid sample_manifest_valid) as (Open & _).
  split.
  - apply Refused. intros [F|(_ & _ & (text & X & _))]; [by destruct F|discriminate X].
  - destruct Open as (x & X & _ & T); [right; split; [reflexivity|split; exact I]|].
    exists x. split; [exact X|]. intros t Ht. exact (proj2 (proj1 (T t) Ht)).
Defined.

Lemma built_manifest_keeps_families_witness : validate_split_manifest sample_dataset sample_manifest = Ok tt /\
  cell (UD := ascii_tables) sample_dataset BC_CODING Train = 20%Z /\ cell (UD := ascii_tables) sample_dataset BC_QA Final = 6%Z.
Proof.
  pose proof (proj1 (proj1 (built_manifest_keeps_families (UD := ascii_tables) sample_sha256 sample_dataset sample_manifest
    sample_dataset_valid sample_benchmark_valid sample_manifest_built)) sample_manifest_valid) as B.
  split; [exact sample_manifest_valid|]. split; [exact (B BC_CODING Train)|exact (B BC_QA Final)].
Defined.

Lemma pilot_is_training_witness : validate_pilot_manifest sample_pilot sample_manifest = Ok tt.
Proof.
  apply (pilot_is_training (UD := ascii_tables) sample_sha256 sample_dataset sample_manifest sample_pilot
    sample_dataset_valid sample_benchmark_valid sample_manifest_valid sample_pilot_built).
Defined.

(** The validation of a manifest believes the families the manifest names: with
    the entries of another dataset with the same task identifiers it passes
    although a family of the dataset is in train and in final. *)
Definition shifted_task (c : BenchmarkCategory) (k : nat) : BenchmarkTask :=
  let t := sample_task c k in
  mk_BenchmarkTask (bt_prompt t) (bt_system_prompt t) (bt_max_output_tokens t) (bt_temperature t) (task_id t) (bt_category t)
    (expected_output_type t) (evaluation_metadata t) (acceptable_threshold t) (tags t)
    (task_family_id (sample_task c (Nat.modulo (k + 1) 32))) (source_type t) (source_id t) (generation_seed t) (evaluator_type t) (family_variant t).

Definition shifted_dataset : BenchmarkDataset :=
  mk_BenchmarkDataset BENCHMARK_NAME BENCHMARK_VERSION (List.flat_map (fun c => map (shifted_task c) (seq 0 32)) CATEGORIES) [].

Lemma claimed_families_are_believed :
  validate_routing_benchmark (UD := ascii_tables) sample_sha256 shifted_dataset = Ok tt /\
  validate_split_manifest shifted_dataset sample_manifest = Ok tt /\
  exists t t', t ∈ tasks shifted_dataset /\ t' ∈ tasks shifted_dataset /\ task_family_id t = task_family_id t' /\
    split_of (match dict_get sample_manifest (py "entries") with Some (PJArr l) => l | _ => [] end) t = split_key Train /\
    split_of (match dict_get sample_manifest (py "entries") with Some (PJArr l) => l | _ => [] end) t' = split_key Final.
Proof.
  split; [vm_compute; reflexivity|]. split; [vm_compute; reflexivity|].
  exists (shifted_task BC_QA 0), (shifted_task BC_QA 31).
  split; [by apply (list_elem_of_lookup_2 _ 128)|]. split; [by apply (list_elem_of_lookup_2 _ 159)|].
  split; [reflexivity|]. split; vm_compute; reflexivity.
Qed.
