(* ===== verification/Retraining.v ===== *)
(** * Retraining on the routing benchmark ([routing/phase9_retraining.py])

    The rows of the training run as the predictor sees them, which is as the
    gateway does ([canonical_from_training_row] of [routing/quality_features.py]);
    five folds of whole requests, balanced by category; predictions out of fold;
    baselines and routing with realized costs.  The constants of the report and
    the fitted artifact's file are not modelled. *)
From S2P Require Import Prelude BenchmarkSplits PyStr PyFloat PyDecimal PyUuid PyNum Schemas Errors Json PyRepr Features QualityFeatures Providers BenchmarkModels Aggregation RoutingExport RoutingAnalysis MLFeatures MLExperiment MLDiagnostics PolicyValidation Sklearn PinAblation Calibration.

(** ** The canonical features of a training row *)

Section Canonical.
Context {UD : UnicodeData}.

Definition row_feature (r : MLExperimentRow) (name : string) : result exn feature_value :=
  match dict_get (features r) (py name) with Some v => Ok v | None => Raise (Exn C_KeyError) end.

(** Underscores stand between digits only, as [int] and [float] ask. *)
Fixpoint underscores_between (after_digit : bool) (s : pystr) : bool :=
  let digit c := ((48 <=? c) && (c <=? 57))%N || match u_decimal c with Some _ => true | None => false end in
  match s with
  | [] => true
  | c :: r =>
      if (c =? 95)%N then after_digit && (match r with d :: _ => digit d | [] => false end) && underscores_between false r
      else underscores_between (digit c) r
  end.

(** [float(v)]; a text is read as the decimal numeral it is.  The texts of an
    infinity and of a nan, which no feature may be, are refused here. *)
Definition float_of_feature (v : feature_value) : result exn float :=
  match v with
  | FV_float f => Ok f
  | FV_bool b => Ok (if b then f_one else f_zero)
  | FV_str s =>
      _ ← guard_else (underscores_between false s) (Exn C_ValueError);
      match decimal_of_str s with Some d => Ok (f_of_decimal d) | None => Raise (Exn C_ValueError) end
  end.

Definition number (r : MLExperimentRow) (name : string) : result exn float := v ← row_feature r name; float_of_feature v.

(** [bool(v)] *)
Definition truth (r : MLExperimentRow) (name : string) : result exn bool :=
  v ← row_feature r name;
  Ok (match v with FV_bool b => b | FV_str s => negb (bool_decide (s = [])) | FV_float f => negb (f_eqb f f_zero) end).

Definition EFFORTS : list ReasoningEffort := [RE_NONE; RE_MINIMAL; RE_LOW; RE_MEDIUM; RE_HIGH; RE_XHIGH].

(** [ReasoningEffort(value)] *)
Definition effort_of_feature (v : feature_value) : result exn ReasoningEffort :=
  match v with
  | FV_str s => match List.find (fun e => bool_decide (ReasoningEffort_value e = s)) EFFORTS with
                | Some e => Ok e
                | None => Raise (Exn C_ValueError)
                end
  | _ => Raise (Exn C_ValueError)
  end.

(** [canonicalize_category(value)]; only a text can be stripped. *)
Definition category_of_feature (v : feature_value) : result exn RoutingCategory :=
  match v with FV_str s => canonicalize_category s | _ => Raise (Exn C_AttributeError) end.

(** [canonical_from_training_row] *)
Definition canonical_from_training_row (r : MLExperimentRow) : result exn CanonicalQualityFeatures :=
  c ← row_feature r "category";
  category ← category_of_feature c;
  e ← row_feature r "reasoning_effort";
  effort ← effort_of_feature e;
  prompt ← number r "prompt_characters";
  approximate ← number r "approximate_input_tokens";
  requested ← number r "requested_max_output_tokens";
  constraints ← number r "constraint_indicator_count";
  reasonings ← number r "reasoning_indicator_count";
  input_cost ← number r "configured_input_cost_per_1m_tokens";
  output_cost ← number r "configured_output_cost_per_1m_tokens";
  window ← number r "context_window";
  effective ← number r "effective_max_output_tokens";
  code ← truth r "contains_code";
  structured ← truth r "requests_structured_output";
  temperature ← truth r "supports_temperature";
  let q := mk_CanonicalQualityFeatures CANONICAL_QUALITY_FEATURE_SCHEMA_VERSION category (ml_candidate_id r) effort
             prompt approximate requested constraints reasonings input_cost output_cost window effective code structured temperature in
  _ ← validated (CanonicalQualityFeatures_validate q);
  Ok q.
End Canonical.

(** ** The training run *)

Definition PROTOCOL_SHA256 : pystr := py "b4cde3954a8ccd1b54684dcb62da303e7bc806248306464ae536b9ff717a0bd8".
Definition DATASET_SHA256 : pystr := py "1a9cadc2d557eacb4a7dce450100cdb495a2659c2862845ce9894cf0a7791005".
Definition SPLIT_SHA256 : pystr := py "98c639be29da4e11fdf48073d74e83805f16fdfb72b0102b5f5543213ab4960b".
Definition EVALUATOR_SHA256 : pystr := py "7dfb5c29426520edcb2c64491c1d5f62fddfc3bdbb3869599378da781f35d413".
Definition SPECIFICATION_SHA256 : pystr := py "b5568b26d7fdce018e3cfef9020780645e12e02f488ab495b14a1e621dd62c1e".
Definition DEV_SHA256 : pystr := py "93daa569d7149666328ffad28eb2db5fbd1342700235d47be06bf001fef61c0e".
Definition FINAL_SHA256 : pystr := py "cca8f7f57df723f6f92624394c382544f972165d4087c69d4f3b1e402b43ef65".
Definition FOLDS : nat := 5.

(** The files of the run, parsed, and the digests of the protected manifests. *)
Record TrainingFiles := mk_TrainingFiles {
  tf_manifest : result exn pyjson;
  tf_rows : result exn (list RoutingDatasetRow);
  tf_split_sha256 : pystr;
  tf_dev_sha256 : pystr;
  tf_final_sha256 : pystr
}.

(** [object[key] != text] *)
Definition differs_str (v : pyjson) (key : string) (s : pystr) : result exn bool := x ← BenchmarkSplits.item v key; Ok (negb (equals_str (Some x) s)).
Definition differs_int (v : pyjson) (key : string) (n : Z) : result exn bool := x ← BenchmarkSplits.item v key; Ok (negb (equals_int (Some x) n)).

(** The chain of [or]: the first comparison that differs ends it. *)
Definition run_differs (run_id : uuid) (manifest configuration : pyjson) : result exn bool :=
  any_result (fun f => f tt)
    [fun _ => differs_str manifest "run_id" (uuid_str run_id);
     fun _ => differs_str configuration "execution_protocol_sha256" PROTOCOL_SHA256;
     fun _ => differs_str configuration "source_dataset_sha256" DATASET_SHA256;
     fun _ => differs_str configuration "evaluator_manifest_sha256" EVALUATOR_SHA256;
     fun _ => differs_str configuration "proposition_specification_sha256" SPECIFICATION_SHA256;
     fun _ => differs_str configuration "execution_split" (py "train");
     fun _ => differs_int configuration "development_selected" 0;
     fun _ => differs_int configuration "final_selected" 0].

Definition protected_match (f : TrainingFiles) : bool :=
  bool_decide (tf_split_sha256 f = SPLIT_SHA256) && bool_decide (tf_dev_sha256 f = DEV_SHA256) &&
  bool_decide (tf_final_sha256 f = FINAL_SHA256).

(** Rows, pairs and requests; and the labels. *)
Definition training_shape (l : list RoutingDatasetRow) : bool :=
  Nat.eqb (length l) 560 && Nat.eqb (length (remove_dups (map row_pair l))) 560 && Nat.eqb (length (remove_dups (map rd_task_id l))) 140.

Definition training_labels (l : list RoutingDatasetRow) : bool :=
  Nat.eqb (count_rows (has_label LS_valid) l) 557 && Nat.eqb (count_rows (has_label LS_missing) l) 3.

Definition not_imputed (l : list RoutingDatasetRow) : bool :=
  forallb (fun r => negb (has_label LS_missing r && is_some (rd_acceptable r))) l.

(** [load_training_evidence]: the dataset and the exported rows *)
Definition load_training_evidence (files : TrainingFiles) (run_id : uuid) : result exn (MLExperimentDataset * list RoutingDatasetRow) :=
  manifest ← tf_manifest files;
  exported ← tf_rows files;
  configuration ← BenchmarkSplits.item manifest "configuration";
  differs ← run_differs run_id manifest configuration;
  _ ← guard_else (negb differs) (Exn C_ValueError);
  _ ← guard_else (protected_match files) (Exn C_ValueError);
  _ ← guard_else (training_shape exported) (Exn C_ValueError);
  _ ← guard_else (training_labels exported) (Exn C_ValueError);
  _ ← guard_else (not_imputed exported) (Exn C_ValueError);
  rows ← result_map ml_row (py_sorted (cmp_le export_cmp) exported);
  Ok (mk_MLExperimentDataset run_id rows, exported).

(** ** Five folds of whole requests *)

(** A task with the category of its first row and its labels. *)
Definition group_entry (g : pystr * list MLExperimentRow) : result exn entry :=
  match g.2 with
  | [] => Raise (Exn C_IndexError)
  | r :: _ => Ok (g.1, mk_Profile (ml_category r) (count (is_target true) g.2) (count (is_target false) g.2)
                         (count (ml_has_label LS_missing) g.2))
  end.

(** The order of (- missing, - positive, task). *)
Definition group_cmp : entry -> entry -> comparison :=
  lex_cmp (on_key (fun e => - missing e.2)%Z Z.compare)
    (lex_cmp (on_key (fun e => - positive e.2)%Z Z.compare) (on_key fst str_cmp)).

Definition add_task (e : entry) (f : Fold) : Fold :=
  mk_Fold (fd_tasks f ++ [e]) (fd_positive f + positive e.2)%Z (fd_missing f + missing e.2)%Z.

(** The order of (category count, missing, positive, index) of the folds. *)
Definition group_fold_cmp (folds : list Fold) (counts : list nat) : nat -> nat -> comparison :=
  lex_cmp (on_key (fun i => Z.of_nat (default 0 (counts !! i))) Z.compare) (fold_cmp folds).

Definition eligible_folds (counts : list nat) : list nat :=
  List.filter (fun i => Nat.ltb (default 0 (counts !! i)) 4) (seq 0 FOLDS).

(** The tasks of a category, each to the best fold with room. *)
Fixpoint assign_tasks (folds : list Fold) (counts : list nat) (ts : list entry) : result exn (list Fold) :=
  match ts with
  | [] => Ok folds
  | e :: ts =>
      match eligible_folds counts with
      | [] => Raise (Exn C_ValueError)
      | i :: rest =>
          let best := min_from (cmp_lt (group_fold_cmp folds counts)) i rest in
          assign_tasks (alter (add_task e) best folds) (alter S best counts) ts
      end
  end.

Definition assign_group_category (entries : list entry) (folds : list Fold) (c : pystr) : result exn (list Fold) :=
  let ts := List.filter (in_category c) entries in
  _ ← guard_else (Nat.eqb (length ts) 20) (Exn C_ValueError);
  assign_tasks folds (repeat 0 FOLDS) (py_sorted (cmp_le group_cmp) ts).

Definition assign_group_categories (entries : list entry) : list Fold -> list pystr -> result exn (list Fold) :=
  for_categories (assign_group_category entries).

Record GroupedFold := mk_GroupedFold {
  gf_fold : nat;
  gf_task_ids : list pystr;
  gf_request_count : nat;
  gf_category_counts : list (pystr * Z);
  gf_valid_rows : Z;
  gf_positive : Z;
  gf_negative : Z;
  gf_missing : Z
}.

(** [sum(p(row) for task in tasks for row in by_task[task])] *)
Definition fold_count (p : MLExperimentRow -> bool) (l : list MLExperimentRow) (ts : list pystr) : Z :=
  foldr Z.add 0%Z (map (fun t => count p (of_task t l)) ts).

Definition grouped_fold (l : list MLExperimentRow) (i : nat) (f : Fold) : result exn GroupedFold :=
  let es := fd_tasks f in
  let ts := map fst es in
  let counts := map (fun g => (g.1, Z.of_nat (length g.2))) (sorted_groups str_cmp (group_by (fun e => pf_category e.2) es)) in
  _ ← guard_else (Nat.eqb (length es) 28 && same_elements (map snd counts) [4%Z]) (Exn C_ValueError);
  Ok (mk_GroupedFold i (py_sorted (cmp_le str_cmp) ts) (length es) counts (fold_count (ml_has_label LS_valid) l ts)
        (fold_count (is_target true) l ts) (fold_count (is_target false) l ts) (fold_count (ml_has_label LS_missing) l ts)).

(** [build_grouped_folds] *)
Definition build_grouped_folds (ds : MLExperimentDataset) : result exn (list GroupedFold) :=
  entries ← result_map group_entry (ml_by_task (rows ds));
  folds ← assign_group_categories entries (repeat empty_fold FOLDS) (categories_of entries);
  assignments ← result_map (fun p => grouped_fold (rows ds) p.1 p.2) (zip (seq 0 FOLDS) folds);
  _ ← guard_else (Nat.eqb (length (remove_dups (concat (map gf_task_ids assignments)))) 140) (Exn C_ValueError);
  Ok assignments.

(** ** Predictions out of fold *)

(** [build_quality_pipeline().fit(X, y)] and [predict_proba(X)[:, 1]] *)
Class QualityPipelines := {
  quality_pipeline : Type;
  quality_fit : list (list cell) -> list Z -> result exn quality_pipeline;
  quality_proba : quality_pipeline -> list (list cell) -> result exn (list float)
}.

Record OofAudit := mk_OofAudit {
  oa_fold : nat;
  oa_train_request_groups : nat;
  oa_test_request_groups : nat;
  oa_valid_fit_rows : nat;
  oa_test_rows : nat
}.

Definition OOF_VARIANT : pystr := py "".

Definition group_train (a : GroupedFold) (l : list MLExperimentRow) : list MLExperimentRow :=
  List.filter (fun r => negb (row_in (gf_task_ids a) r) && ml_valid r) l.

Definition group_test (a : GroupedFold) (l : list MLExperimentRow) : list MLExperimentRow := List.filter (row_in (gf_task_ids a)) l.

(** A record of the study, which has no variant. *)
Definition oof_record (a : GroupedFold) (r : MLExperimentRow) (p : float) : Prediction :=
  mk_Prediction OOF_VARIANT (ml_task_id r) (ml_candidate_id r) (gf_fold a) p (ml_label_status r) (ml_acceptable r).

Definition canonical_index : Type := list ((pystr * pystr) * CanonicalQualityFeatures).

(** [canonical_feature_matrix(canonical[...] for row in rows)] *)
Definition indexed_matrix (index : canonical_index) (l : list MLExperimentRow) : result exn (list (list cell)) :=
  cs ← result_map (fun r => match dict_get index (ml_row_key r) with Some c => Ok c | None => Raise (Exn C_KeyError) end) l;
  canonical_feature_matrix cs.

Section Oof.
Context {UD : UnicodeData} {QP : QualityPipelines}.

(** One round of the loop over the folds. *)
Definition oof_fold (index : canonical_index) (l : list MLExperimentRow) (a : GroupedFold) : result exn (list Prediction * OofAudit) :=
  let train := group_train a l in
  let test := group_test a l in
  _ ← guard_else (forallb (fun r => negb (row_in (gf_task_ids a) r)) train) (Exn C_ValueError);
  X ← indexed_matrix index train;
  m ← quality_fit X (map label_number train);
  T ← indexed_matrix index test;
  ps ← quality_proba m T;
  Ok (map (fun rp => oof_record a rp.1 rp.2) (zip test ps),
      mk_OofAudit (gf_fold a) (length (remove_dups (map ml_task_id train))) (length (remove_dups (gf_task_ids a)))
        (length train) (length test)).

(** [generate_oof] *)
Definition generate_oof (ds : MLExperimentDataset) (folds : list GroupedFold) : result exn (list Prediction * list OofAudit) :=
  canonical ← result_map (fun r => c ← canonical_from_training_row r; Ok (ml_row_key r, c)) (rows ds);
  out ← result_map (oof_fold (dict_of fst snd canonical) (rows ds)) folds;
  let records := py_sorted (cmp_le prediction_cmp) (concat (map fst out)) in
  _ ← guard_else (Nat.eqb (length records) 560 && Nat.eqb (length (remove_dups (map prediction_key records))) 560) (Exn C_ValueError);
  Ok (records, map snd out).
End Oof.

(** ** Metrics and routing with realized costs *)

Record OptionalMetrics := mk_OptionalMetrics {
  om_rows : Z;
  om_positive : Z;
  om_negative : Z;
  om_log_loss : float;
  om_brier_score : float;
  om_roc_auc : option float;
  om_average_precision : option float
}.

Record RealizedCosts := mk_RealizedCosts {
  rz_observations : Z;
  rz_total_usd : pystr;
  rz_average_per_request_usd : option pystr;
  rz_reduction : option (pystr * float)
}.

Section Study.
Context {UD : UnicodeData} {NP : Numpy} {BM : BinaryMetrics}.

(** [predictive_metrics]: two metrics need both classes. *)
Definition optional_metrics (records : list Prediction) : result exn OptionalMetrics :=
  let valid := List.filter pn_valid records in
  let y := targets valid in
  let p := probabilities_of valid in
  let both_classes := Nat.eqb (length (remove_dups y)) 2 in
  loss ← log_loss y p;
  brier ← brier_score_loss y p;
  auc ← (if both_classes then x ← roc_auc_score y p; Ok (Some x) else Ok None);
  precision ← (if both_classes then x ← average_precision_score y p; Ok (Some x) else Ok None);
  Ok (mk_OptionalMetrics (Z.of_nat (length valid)) (sum_Z y) (Z.of_nat (length y) - sum_Z y) loss brier auc precision).

(** [_frozen_data]: the export as the baselines read it *)
Definition exported_observation (r : RoutingDatasetRow) : result exn RowObservation := observe r.

Definition exported_request (g : pystr * list RowObservation) : result exn PolicyRequest :=
  match g.2 with
  | [] => Raise (Exn C_IndexError)
  | o :: _ =>
      let r := mk_PolicyRequest g.1 (ob_features o) (py_sorted (cmp_le option_cmp) (map ob_option g.2)) in
      _ ← validated (PolicyRequest_validate r);
      Ok r
  end.

Definition frozen_data (ds : MLExperimentDataset) (exported : list RoutingDatasetRow) : result exn FrozenRoutingData :=
  obs ← result_map exported_observation exported;
  reqs ← result_map exported_request (sorted_groups str_cmp (by_task obs));
  Ok (mk_FrozenRoutingData (md_run_id ds) DATASET_SHA256 PROTOCOL_SHA256 obs reqs).

(** One decision as a selection, if it selects. *)
Definition study_selection (index : list ((pystr * pystr) * MLExperimentRow)) (d : RoutingAnalysis.RoutingDecision) :
    result exn (option RoutedSelection) :=
  match dn_candidate_id d with
  | None => Ok None
  | Some c =>
      r ← row_lookup index (dn_task_id d) c;
      cost ← projected_cost_usd r;
      Ok (Some (mk_RoutedSelection (ml_task_id r) (ml_candidate_id r) cost (ml_realized_cost_usd r) (ml_label_status r) (ml_acceptable r)
                  (ml_quality_score r) (Some false) (Some true)))
  end.

(** [_selections] *)
Definition study_selections (ds : MLExperimentDataset) (decisions : list RoutingAnalysis.RoutingDecision) : result exn (list RoutedSelection) :=
  out ← result_map (study_selection (row_index ds)) decisions;
  Ok (present out).

(** What [_with_realized_costs] adds to a summary *)
Definition realized_costs (selections : list RoutedSelection) (reference_cost : option decimal) : result exn RealizedCosts :=
  let known := omap rs_realized_cost_usd selections in
  let n := Z.of_nat (length selections) in
  total ← decimal_error (d_sum default_prec known);
  average ← (if (n =? 0)%Z then Ok None else a ← decimal_error (d_div default_prec total (d_of_Z n)); Ok (Some (d_str a)));
  saved ← match reference_cost with
          | None => Ok None
          | Some r => d ← d_minus r total; f ← reduction r total; Ok (Some (d_str d, f))
          end;
  Ok (mk_RealizedCosts (Z.of_nat (length known)) (d_str total) average saved).

(** [_enrich_realized_costs] *)
Definition enrich_realized_costs (ds : MLExperimentDataset) (selections : list RoutedSelection) : result exn (list RoutedSelection) :=
  result_map (fun s =>
    r ← row_lookup (row_index ds) (rs_task_id s) (rs_candidate_id s);
    Ok (mk_RoutedSelection (rs_task_id s) (rs_candidate_id s) (rs_projected_cost_usd s) (ml_realized_cost_usd r) (rs_label_status s)
          (rs_acceptable s) (rs_quality_score s) (rs_fallback_used s) (rs_threshold_satisfied s))) selections.

Record StudySummary := mk_StudySummary {
  su_selections : SelectionSummary;
  su_realized : RealizedCosts;
  su_cost_reduction : float;
  su_realized_cost_reduction : float
}.

Definition summarized (ds : MLExperimentDataset) (decisions : list RoutingAnalysis.RoutingDecision) : result exn (SelectionSummary * RealizedCosts) :=
  selections ← study_selections ds decisions;
  s ← summarize_selections selections None;
  z ← realized_costs selections None;
  Ok (s, z).

(** The decision of the oracle on a task, if one of its rows is acceptable; it
    has a task and a candidate only. *)
Definition study_oracle (ds : MLExperimentDataset) (task : pystr) : result exn (option RoutingAnalysis.RoutingDecision) :=
  best ← cheapest_acceptable ds task;
  Ok (match best with
      | Some r => Some (RoutingAnalysis.mk_RoutingDecision ORACLE_CHEAPEST_ACCEPTABLE task (Some (ml_candidate_id r)) [])
      | None => None
      end).

Definition study_policies (digest : pystr -> result exn (list N)) : list RoutingPolicy :=
  [AlwaysCheapestPolicy; FixedCandidatePolicy SONNET; RandomSeededPolicy digest RANDOM_SEED; RuleBasedV1Policy].

(** [baselines]: the summaries, the oracle's abstentions and the reference cost *)
Definition study_baselines (digest : pystr -> result exn (list N)) (frozen : FrozenRoutingData) (ds : MLExperimentDataset) :
    result exn (list (pystr * StudySummary) * Z * decimal) :=
  policies ← result_map (fun p =>
    decisions ← result_map (rp_select p) (requests frozen);
    s ← summarized ds decisions;
    Ok (rp_name p, s)) (study_policies digest);
  oracle ← result_map (study_oracle ds) (py_sorted (cmp_le str_cmp) (remove_dups (map ml_task_id (rows ds))));
  o ← summarized ds (present oracle);
  let output := dict_set (dict_of fst snd policies) ORACLE_CHEAPEST_ACCEPTABLE o in
  strongest ← entry_of output ALWAYS_STRONGEST;
  reference ← decimal_text (sm_total_projected_cost_usd strongest.1);
  realized_reference ← decimal_text (rz_total_usd strongest.2);
  summaries ← result_map (fun e =>
    cost ← decimal_text (sm_total_projected_cost_usd e.2.1);
    f ← reduction reference cost;
    realized ← decimal_text (rz_total_usd e.2.2);
    g ← reduction realized_reference realized;
    Ok (e.1, mk_StudySummary e.2.1 e.2.2 f g)) output;
  Ok (summaries, (Z.of_nat (length (remove_dups (map ml_task_id (rows ds)))) - Z.of_nat (length (present oracle)))%Z, reference).

Record Change := mk_Change {
  ch_interval : pystr;
  ch_changed_requests : Z;
  ch_changed_fraction : float;
  ch_acceptability_delta : float;
  ch_fallback_delta : float;
  ch_cost_delta_usd : pystr
}.

Definition change_between (selections : list (pystr * list RoutedSelection)) (summaries : list (pystr * SelectionSummary))
    (ab : pystr * pystr) : result exn Change :=
  left ← entry_of selections ab.1;
  right ← entry_of selections ab.2;
  let a := choices_of left in
  changed ← changed_choices a (choices_of right);
  fraction ← true_division changed (Z.of_nat (length a));
  sa ← entry_of summaries ab.1;
  sb ← entry_of summaries ab.2;
  acceptance ← rate_delta (sm_observed_acceptable_rate sb) (sm_observed_acceptable_rate sa);
  fallback ← rate_delta (sm_fallback_rate sb) (sm_fallback_rate sa);
  cb ← decimal_text (sm_total_projected_cost_usd sb);
  ca ← decimal_text (sm_total_projected_cost_usd sa);
  cost ← d_minus cb ca;
  Ok (mk_Change (ab.1 ++ py "->" ++ ab.2) changed fraction acceptance fallback (d_str cost)).

(** [_stability] *)
Definition study_stability (selections : list (pystr * list RoutedSelection)) (summaries : list (pystr * SelectionSummary)) :
    result exn (list Change) :=
  result_map (change_between selections summaries) (zip (dict_keys selections) (tail (dict_keys selections))).
End Study.

(** ** Training and serving *)

(** A row of the export that describes the request and the candidate of the
    gateway: the same indicators, configuration and prices, its category and
    effort written as the benchmark writes them, and the allowance the gateway
    resolves. *)
Record describes (r : RoutingDatasetRow) (f : RoutingRequestFeatures) (m : ModelConfig) : Prop := {
  d_category : exists c, rf_category f = Some c /\ canonicalize_category (row_category r) = Ok c;
  d_prompt : qf_prompt_characters (request_features r) = rf_prompt_characters f;
  d_input : qf_approximate_input_tokens (request_features r) = rf_approximate_input_tokens f;
  d_output : qf_max_output_tokens (request_features r) = rf_max_output_tokens f;
  d_constraints : qf_constraint_indicator_count (request_features r) = rf_constraint_indicator_count f;
  d_reasoning : qf_reasoning_indicator_count (request_features r) = rf_reasoning_indicator_count f;
  d_code : qf_contains_code (request_features r) = rf_contains_code f;
  d_structured : qf_requests_structured_output (request_features r) = rf_requests_structured_output f;
  d_id : internal_id (candidate r) = model_id m;
  d_effort : or_text (rc_reasoning_effort (candidate r)) "none" = ReasoningEffort_value (canonicalize_reasoning_effort (reasoning_effort m));
  d_input_cost : rc_input_cost_per_1m_tokens (candidate r) = input_cost_per_1m_tokens m;
  d_output_cost : rc_output_cost_per_1m_tokens (candidate r) = output_cost_per_1m_tokens m;
  d_window : rc_context_window (candidate r) = context_window m;
  d_temperature : Vercel.truthy (dict_get (rc_capabilities (candidate r)) (py "supports_temperature")) = supports_temperature (capabilities m);
  d_allowance : resolve_effective_output_allowance f m = Ok (effective_max_output_tokens r)
}.

Lemma effort_of_value e : effort_of_feature (FV_str (ReasoningEffort_value e)) = Ok e.
Proof. destruct e; vm_compute; reflexivity. Qed.

(** C9. The predictor is trained on what it is served.  The canonical features of
    a training row are those the gateway computes from the request and the
    candidate that the row describes: the same record, or the same error. *)
Theorem training_is_serving `{UD : UnicodeData} r f m row : describes r f m -> ml_row r = Ok row ->
  canonical_from_training_row row = canonical_from_production f m.
Proof.
  intros [(c & Fc & Cc) P I O K R Co St Id Ef Ic Oc W T A] H. unfold ml_row in H. apply bind_ok in H as (fs & Fs & H).
  apply bind_ok in H as (u & _ & H). injection H as <-. unfold feature_values in Fs.
  apply bind_ok in Fs as (prompt & P' & Fs). apply bind_ok in Fs as (input & I' & Fs). apply bind_ok in Fs as (output & O' & Fs).
  apply bind_ok in Fs as (constraints & K' & Fs). apply bind_ok in Fs as (reasonings & R' & Fs). apply bind_ok in Fs as (window & W' & Fs).
  apply bind_ok in Fs as (limit & L' & Fs). injection Fs as <-.
  unfold canonical_from_production. rewrite Fc, <- P, <- I, <- O, <- K, <- R, <- W, A, P', I', O', K', R', W', canonicalize_category_value. rsimpl.
  rewrite L'. rsimpl. rewrite <- Id, <- Ic, <- Oc, <- Co, <- St, <- T.
  set (row := mk_MLExperimentRow _ _ _ _ _ _ _ _ _ _).
  assert (E1 : row_feature row "category" = Ok (FV_str (row_category r))) by reflexivity.
  assert (E2 : row_feature row "reasoning_effort" = Ok (FV_str (or_text (rc_reasoning_effort (candidate r)) "none"))) by reflexivity.
  unfold canonical_from_training_row. rewrite E1, E2, Ef. rsimpl. rewrite effort_of_value. cbn [category_of_feature]. rewrite Cc. rsimpl.
  reflexivity.
Qed.

(** ** The loop over the tasks of a category *)

Lemma all_tasks_add e i folds f : folds !! i = Some f ->
  all_tasks (alter (add_task e) i folds) ≡ₚ all_tasks folds ++ [e].
Proof.
  revert i. induction folds as [|g folds IH]; intros [|i] H; [discriminate H..| |].
  - cbn. rewrite <- !app_assoc. apply Permutation_app_head, Permutation_app_comm.
  - cbn in H |- *. unfold all_tasks in IH. rewrite (IH i H). by rewrite app_assoc.
Qed.

Definition total (counts : list nat) : nat := foldr Nat.add 0 counts.

Lemma total_alter counts i n : counts !! i = Some n -> total (alter S i counts) = S (total counts).
Proof.
  revert i. induction counts as [|c counts IH]; intros [|i] H; [discriminate H..|done|]. cbn in H |- *. unfold total in IH. rewrite (IH i H). lia.
Qed.

Lemma total_bound counts m : Forall (fun n => n <= m) counts -> total counts <= m * length counts.
Proof. intros F. induction F as [|n counts H _ IH]; unfold total in *; cbn [foldr length]; nia. Qed.

(** Full folds, or one with room. *)
Lemma total_full counts m : Forall (fun n => n <= m) counts -> total counts = m * length counts -> Forall (fun n => n = m) counts.
Proof.
  intros F. induction F as [|n counts H F IH]; intros E; [constructor|]. pose proof (total_bound _ _ F). cbn [total foldr length] in *.
  unfold total in *. constructor; [lia|]. apply IH. lia.
Qed.

Lemma total_room counts m : Forall (fun n => n <= m) counts -> total counts < m * length counts -> exists i n, counts !! i = Some n /\ n < m.
Proof.
  intros F. induction F as [|n counts H F IH]; intros E; [cbn in E; lia|]. destruct (decide (n < m)) as [D|D]; [by exists 0, n|].
  cbn [total foldr length] in E. destruct IH as (i & k & Hi & K); [unfold total; lia|]. by exists (S i), k.
Qed.

Lemma eligible_room counts i : length counts = FOLDS -> i ∈ eligible_folds counts <-> exists n, counts !! i = Some n /\ n < 4.
Proof.
  intros L. unfold eligible_folds. rewrite filter_in, Nat.ltb_lt, list_elem_of_In, in_seq. split.
  - intros [I B]. destruct (lookup_lt_is_Some_2 counts i) as [n E]; [lia|]. exists n. rewrite E in B. done.
  - intros (n & E & B). rewrite E. split; [|done]. apply lookup_lt_Some in E. lia.
Qed.

(** Every fold is filled up to four tasks. *)
Lemma assign_tasks_total ts : forall folds counts, length folds = FOLDS -> length counts = FOLDS ->
  Forall (fun n => n <= 4) counts -> total counts + length ts = 4 * FOLDS ->
  exists folds', assign_tasks folds counts ts = Ok folds' /\ length folds' = FOLDS /\
    (forall i f n, folds !! i = Some f -> counts !! i = Some n ->
      exists f' es, folds' !! i = Some f' /\ fd_tasks f' = fd_tasks f ++ es /\ length es + n = 4 /\ forall e, e ∈ es -> e ∈ ts) /\
    all_tasks folds' ≡ₚ all_tasks folds ++ ts.
Proof.
  induction ts as [|e ts IH]; intros folds counts Lf Lc F T.
  - exists folds. rewrite app_nil_r. do 2 (split; [done|]). split; [|done]. intros i f n Hf Hn. exists f, []. rewrite app_nil_r.
    do 2 (split; [done|]). assert (Full : Forall (fun n => n = 4) counts) by (apply total_full; [done|rewrite Lc; cbn [length] in T; lia]).
    rewrite Forall_lookup in Full. split; [exact (Full i n Hn)|]. intros x Hx. by apply elem_of_nil in Hx.
  - cbn [assign_tasks length] in T |- *. destruct (total_room _ _ F) as (j & m & Hj & Hm); [rewrite Lc; lia|].
    destruct (eligible_folds counts) as [|i rest] eqn:El.
    { assert (X : j ∈ eligible_folds counts) by (apply eligible_room; [done|by exists m]). rewrite El in X. by apply elem_of_nil in X. }
    set (best := min_from _ i rest). assert (I : best ∈ eligible_folds counts) by (rewrite El; apply elem_of_cons, min_from_in).
    apply (eligible_room _ _ Lc) in I as (n & Hn & B). destruct (lookup_lt_is_Some_2 folds best) as [fb Fb]; [apply lookup_lt_Some in Hn; lia|].
    destruct (IH (alter (add_task e) best folds) (alter S best counts)) as (folds' & E & L & Each & All).
    { by rewrite length_alter. }
    { by rewrite length_alter. }
    { apply Forall_lookup. intros k x Hx. rewrite Forall_lookup in F. destruct (decide (k = best)) as [->|D].
      - rewrite list_lookup_alter_eq, Hn in Hx. injection Hx as <-. lia.
      - rewrite list_lookup_alter_ne in Hx by done. by apply (F k). }
    { rewrite (total_alter _ _ _ Hn). lia. }
    exists folds'. split; [exact E|]. split; [done|]. split.
    + intros k f x Hf Hx. destruct (decide (k = best)) as [->|D].
      * rewrite Fb in Hf. injection Hf as <-. rewrite Hn in Hx. injection Hx as <-.
        destruct (Each best (add_task e fb) (S n)) as (f' & es & Hf' & Ef & Le & In_); [by rewrite list_lookup_alter_eq, Fb|by rewrite list_lookup_alter_eq, Hn|].
        exists f', (e :: es). split; [done|]. split; [by rewrite Ef; cbn; rewrite <- app_assoc|]. split; [cbn; lia|].
        intros y Hy. apply elem_of_cons. apply elem_of_cons in Hy as [->|Hy]; [by left|right; by apply In_].
      * destruct (Each k f x) as (f' & es & Hf' & Ef & Le & In_); [by rewrite list_lookup_alter_ne|by rewrite list_lookup_alter_ne|].
        exists f', es. do 3 (split; [done|]). intros y Hy. apply elem_of_cons. right. by apply In_.
    + rewrite All, (all_tasks_add e best folds fb Fb), <- app_assoc. done.
Qed.

Lemma assign_group_category_total entries folds c : length folds = FOLDS -> length (List.filter (in_category c) entries) = 20 ->
  exists folds', assign_group_category entries folds c = Ok folds' /\ shares 4 c (List.filter (in_category c) entries) folds folds'.
Proof.
  intros Lf L. unfold assign_group_category. rewrite L. cbn [Nat.eqb]. unfold guard_else. rsimpl. set (ts := List.filter _ _) in *.
  destruct (assign_tasks_total (py_sorted (cmp_le group_cmp) ts) folds (repeat 0 FOLDS)) as (folds' & E & Ln & Each & All);
    [done|done|repeat constructor; lia|rewrite length_py_sorted, L; done|].
  exists folds'. split; [exact E|]. split; [congruence|]. split; [|by rewrite All, py_sorted_perm].
  intros i f Hf. assert (Hn : repeat 0 FOLDS !! i = Some 0).
  { apply lookup_lt_Some in Hf. rewrite Lf in Hf. do 5 (destruct i as [|i]; [done|]). unfold FOLDS in Hf. lia. }
  destruct (Each i f 0 Hf Hn) as (f' & es & Hf' & Ef & Le & In_). exists f', es. do 2 (split; [done|]).
  assert (C : forall e, e ∈ es -> in_category c e = true) by (intros e He; apply In_ in He; rewrite elem_of_py_sorted in He; by apply filter_in in He as [_ He]).
  split; [cbn; lia|]. split.
  - intros e He. apply list_elem_of_singleton. by apply in_category_true, C.
  - intros c' Hc. apply list_elem_of_singleton in Hc as ->. rewrite List_filter_all by done. lia.
Qed.

(** ** The folds of a dataset *)

(** The entry of a task, which has rows. *)
Definition first_category (g : pystr * list MLExperimentRow) : pystr := match g.2 with r :: _ => ml_category r | [] => [] end.

Definition entry_value (g : pystr * list MLExperimentRow) : entry :=
  (g.1, mk_Profile (first_category g) (count (is_target true) g.2) (count (is_target false) g.2) (count (ml_has_label LS_missing) g.2)).

Definition entries_of (l : list MLExperimentRow) : list entry := map entry_value (ml_by_task l).

Lemma entries_total l : result_map group_entry (ml_by_task l) = Ok (entries_of l).
Proof.
  apply result_map_map. intros g Hg. apply (group_by_in ml_task_id) in Hg as [_ Ne]. unfold group_entry, entry_value, first_category.
  by destruct g as [t [|r rest]].
Qed.

Lemma entries_keys l : map fst (entries_of l) = dict_keys (ml_by_task l).
Proof. unfold entries_of. by rewrite map_map. Qed.

Definition group_tasks (l : list MLExperimentRow) (c : pystr) : list (pystr * list MLExperimentRow) :=
  List.filter (fun g => bool_decide (first_category g = c)) (ml_by_task l).

(** Seven categories of twenty tasks each, a task being in the category of its
    first row. *)
Definition groupable (l : list MLExperimentRow) : Prop :=
  length (remove_dups (map first_category (ml_by_task l))) = 7 /\
  forall c, c ∈ map first_category (ml_by_task l) -> length (group_tasks l c) = 20.

Lemma category_entries l c : length (List.filter (in_category c) (entries_of l)) = length (group_tasks l c).
Proof. unfold entries_of. rewrite filter_map, length_map. done. Qed.

Lemma entry_categories l : categories_of (entries_of l) = py_sorted (cmp_le str_cmp) (remove_dups (map first_category (ml_by_task l))).
Proof. unfold categories_of, entries_of. by rewrite map_map. Qed.

Definition grouped_value (l : list MLExperimentRow) (cats : list pystr) (i : nat) (es : list entry) : GroupedFold :=
  let ts := map fst es in
  mk_GroupedFold i (py_sorted (cmp_le str_cmp) ts) (length es) (map (fun c => (c, 4%Z)) (py_sorted (cmp_le str_cmp) cats))
    (fold_count (ml_has_label LS_valid) l ts) (fold_count (is_target true) l ts) (fold_count (is_target false) l ts)
    (fold_count (ml_has_label LS_missing) l ts).

Lemma grouped_fold_balanced l i cats f : NoDup cats -> balanced 4 cats (fd_tasks f) ->
  grouped_fold l i f = if Nat.eqb (length cats) 7 then Ok (grouped_value l cats i (fd_tasks f)) else Raise (Exn C_ValueError).
Proof.
  intros N B. unfold grouped_fold. cbv zeta. set (counts := map _ (sorted_groups _ _)).
  assert (E : counts = map (fun c => (c, 4%Z)) (py_sorted (cmp_le str_cmp) cats)) by exact (group_counts 4 cats _ ltac:(done) N B).
  rewrite E. clear counts E. fold (grouped_value l cats i (fd_tasks f)). assert (L : length (fd_tasks f) = 4 * length cats) by apply B. rewrite L.
  destruct (Nat.eqb_spec (length cats) 7) as [S|S].
  - rewrite S. cbn [Nat.mul Nat.add Nat.eqb]. rewrite map_map. cbn [snd].
    replace (same_elements _ [4%Z]) with true; [done|]. symmetry. apply same_elements_true. intros x.
    rewrite list_elem_of_singleton, elem_of_map. split; [by intros (c & -> & _)|]. intros ->.
    destruct cats as [|c cats]; [discriminate S|]. exists c. split; [done|]. rewrite elem_of_py_sorted. apply elem_of_cons. by left.
  - destruct (Nat.eqb_spec (4 * length cats) 28) as [D|D]; [lia|]. done.
Qed.

Definition grouped_values (l : list MLExperimentRow) (cats : list pystr) (folds : list Fold) : list GroupedFold :=
  map (fun p => grouped_value l cats p.1 (fd_tasks p.2)) (zip (seq 0 FOLDS) folds).

Lemma grouped_values_tasks l cats folds : length folds = FOLDS ->
  concat (map gf_task_ids (grouped_values l cats folds)) ≡ₚ map fst (all_tasks folds).
Proof.
  intros L. unfold grouped_values, all_tasks. rewrite map_map. cbn [gf_task_ids grouped_value].
  assert (G : forall k n, length folds = n -> concat (map (fun p : nat * Fold => py_sorted (cmp_le str_cmp) (map fst (fd_tasks p.2))) (zip (seq k n) folds))
    ≡ₚ map fst (concat (map fd_tasks folds))); [|by apply G].
  clear L. induction folds as [|f folds IH]; intros k [|n] L; try discriminate L; [done|].
  cbn [seq zip zip_with map concat]. rewrite map_app. cbn [snd]. rewrite (IH (S k) n) by (cbn in L; lia).
  by rewrite py_sorted_perm.
Qed.

(** What the loops leave to the last guards. *)
Lemma build_grouped_folds_steps ds : let l := rows ds in
  (forall c, c ∈ categories_of (entries_of l) -> length (List.filter (in_category c) (entries_of l)) = 20) ->
  exists folds, length folds = FOLDS /\ (forall f, f ∈ folds -> balanced 4 (categories_of (entries_of l)) (fd_tasks f)) /\
    all_tasks folds ≡ₚ entries_of l /\
    build_grouped_folds ds = if Nat.eqb (length (categories_of (entries_of l))) 7 then Ok (grouped_values l (categories_of (entries_of l)) folds)
                             else Raise (Exn C_ValueError).
Proof.
  cbv zeta. intros E. set (es := entries_of (rows ds)) in *. set (cats := categories_of es) in *.
  destruct (for_categories_of 4 FOLDS (assign_group_category es) es) as (folds & H & L & B & A).
  { intros c folds Hc Lf. by apply assign_group_category_total; [|apply E]. }
  exists folds. do 3 (split; [done|]). unfold build_grouped_folds. rewrite entries_total. rsimpl.
  fold es cats. fold cats in H, B. unfold assign_group_categories. rewrite H. rsimpl. pose proof (categories_of_distinct es : NoDup cats) as D.
  assert (V : forall p, p ∈ zip (seq 0 FOLDS) folds -> balanced 4 cats (fd_tasks p.2)).
  { intros [i f] Hp. apply B. apply list_elem_of_In in Hp. apply in_combine_r in Hp. by apply list_elem_of_In. }
  destruct (Nat.eqb_spec (length cats) 7) as [S|S].
  - rewrite (result_map_map _ (fun p => grouped_value (rows ds) cats p.1 (fd_tasks p.2))).
    2:{ intros p Hp. rewrite (grouped_fold_balanced _ _ _ _ D (V p Hp)). by rewrite S. }
    fold (grouped_values (rows ds) cats folds). rsimpl. set (ts := concat _).
    assert (P : ts ≡ₚ map fst es) by (unfold ts; rewrite (grouped_values_tasks _ _ _ L); by apply Permutation_map).
    assert (N : NoDup ts) by (rewrite P; unfold es; rewrite entries_keys; apply group_by_keys).
    rewrite (remove_dups_distinct ts N). rewrite P. replace (length (map fst es)) with 140; [done|]. symmetry.
    etransitivity; [apply (length_map fst)|]. transitivity (length (all_tasks folds)); [symmetry; by apply Permutation_length|].
    rewrite (all_tasks_length 4 _ _ B). by rewrite L, S.
  - destruct folds as [|f folds]; [discriminate L|]. cbn [seq FOLDS zip zip_with result_map fst snd].
    rewrite (grouped_fold_balanced _ 0 _ f D) by (apply B, elem_of_cons; by left).
    by rewrite (proj2 (Nat.eqb_neq _ _) S).
Qed.

Lemma grouped_folds_each ds fs : build_grouped_folds ds = Ok fs ->
  forall c, c ∈ categories_of (entries_of (rows ds)) -> length (List.filter (in_category c) (entries_of (rows ds))) = 20.
Proof.
  unfold build_grouped_folds. rewrite entries_total. rsimpl. intros H c Hc. apply bind_ok in H as (folds & H & _).
  destruct (for_categories_each _ _ _ _ H c Hc) as (f1 & f2 & S). unfold assign_group_category in S. apply bind_ok in S as (u & G & _).
  by apply guard_ok, Nat.eqb_eq in G.
Qed.

(** Grouped folds exist for exactly the balanced data. *)
Theorem grouped_folds_exist ds : (exists fs, build_grouped_folds ds = Ok fs) <-> groupable (rows ds).
Proof.
  assert (M : forall c, c ∈ categories_of (entries_of (rows ds)) <-> c ∈ map first_category (ml_by_task (rows ds))).
  { intros c. by rewrite entry_categories, elem_of_py_sorted, elem_of_remove_dups. }
  assert (Len : length (categories_of (entries_of (rows ds))) = length (remove_dups (map first_category (ml_by_task (rows ds))))).
  { by rewrite entry_categories, length_py_sorted. }
  unfold groupable. rewrite <- Len. split.
  - intros [fs H]. pose proof (grouped_folds_each _ _ H) as E. destruct (build_grouped_folds_steps ds E) as (folds & _ & _ & _ & S).
    rewrite H in S. destruct (Nat.eqb_spec (length (categories_of (entries_of (rows ds)))) 7) as [L7|]; [|discriminate S]. split; [done|].
    intros c Hc. rewrite <- category_entries. by apply E, M.
  - intros [L7 E]. destruct (build_grouped_folds_steps ds) as (folds & _ & _ & _ & S).
    { intros c Hc. rewrite category_entries. apply E. by apply (proj1 (M c)). }
    cbv zeta in S. rewrite L7 in S. cbn [Nat.eqb] in S. by eexists.
Qed.

Lemma fold_count_rows p l ts : NoDup ts -> fold_count p l ts = count p (List.filter (row_in ts) l).
Proof.
  intros N. unfold fold_count. rewrite (count_perm p _ _ (fold_rows_by_task ts l N)), count_concat, map_map. done.
Qed.

(** The five folds partition the training run.  If they are built, they are
    numbered in order, every request is in exactly one of them, each holds
    twenty-eight requests, four of every category, and reports the label counts of
    the rows of its requests, missing ones apart from negative ones. *)
Theorem grouped_folds_partition ds fs : build_grouped_folds ds = Ok fs ->
  map gf_fold fs = seq 0 FOLDS /\
  concat (map gf_task_ids fs) ≡ₚ remove_dups (map ml_task_id (rows ds)) /\
  forall a, a ∈ fs -> let own := group_test a (rows ds) in
    length (gf_task_ids a) = 28 /\ Forall (fun c => c.2 = 4%Z) (gf_category_counts a) /\
    length (gf_category_counts a) = 7 /\
    gf_valid_rows a = count (ml_has_label LS_valid) own /\ gf_missing a = count (ml_has_label LS_missing) own /\
    gf_positive a = count (is_target true) own /\ gf_negative a = count (is_target false) own /\
    (gf_valid_rows a + gf_missing a = Z.of_nat (length own))%Z.
Proof.
  intros H. destruct (build_grouped_folds_steps ds (grouped_folds_each _ _ H)) as (folds & L & B & A & S). cbv zeta in S.
  rewrite H in S. destruct (Nat.eqb_spec (length (categories_of (entries_of (rows ds)))) 7) as [L7|]; [|discriminate S]. injection S as ->.
  assert (T : concat (map gf_task_ids (grouped_values (rows ds) (categories_of (entries_of (rows ds))) folds)) ≡ₚ dict_keys (ml_by_task (rows ds))).
  { rewrite (grouped_values_tasks _ _ _ L), <- entries_keys. by apply Permutation_map. }
  split; [|split].
  - unfold grouped_values. rewrite map_map. cbn [gf_fold grouped_value]. apply (fst_zip (seq 0 FOLDS) folds). by rewrite L.
  - rewrite T. apply NoDup_Permutation; [apply group_by_keys|apply NoDup_remove_dups|]. intros t. rewrite elem_of_remove_dups, elem_of_map.
    etransitivity; [apply group_by_mem|]. split; intros (r & X & Y); by exists r.
  - intros a Ha. assert (N : NoDup (gf_task_ids a)).
    { apply (NoDup_concat_in (map gf_task_ids (grouped_values (rows ds) (categories_of (entries_of (rows ds))) folds))); [rewrite T; apply group_by_keys|].
      apply elem_of_map. by exists a. }
    apply elem_of_map in Ha as ([i f] & -> & Hz). cbn [fst snd] in *.
    assert (Hf : f ∈ folds) by (apply list_elem_of_In in Hz; apply in_combine_r in Hz; by apply list_elem_of_In).
    cbv zeta. unfold group_test. cbn [grouped_value gf_task_ids gf_category_counts gf_valid_rows gf_missing gf_positive gf_negative] in *.
    assert (N' : NoDup (map fst (fd_tasks f))) by (by rewrite py_sorted_perm in N).
    assert (R : List.filter (row_in (py_sorted (cmp_le str_cmp) (map fst (fd_tasks f)))) (rows ds) = List.filter (row_in (map fst (fd_tasks f))) (rows ds)).
    { apply filter_ext. intros r. apply bool_decide_ext. apply elem_of_py_sorted. }
    rewrite R, !fold_count_rows by done. destruct (B f Hf) as [Lf _]. rewrite L7 in Lf.
    split; [by rewrite length_py_sorted, length_map|]. split.
    { apply Forall_forall. intros c Hc. by apply elem_of_map in Hc as (k & -> & _). }
    split; [by rewrite length_map, length_py_sorted|]. do 4 (split; [done|]).
    rewrite <- (count_split (ml_has_label LS_valid)). f_equal. apply count_ext. intros r _. unfold ml_has_label. by destruct (ml_label_status r).
Qed.

(** ** The run and its predictions *)

Lemma ml_rows_keys l ms : result_map ml_row l = Ok ms -> map ml_row_key ms = map row_pair l.
Proof.
  intros H. apply result_map_ok in H. induction H as [|r m l ms Hr _ IH]; [done|]. cbn [map]. rewrite IH. f_equal. clear -Hr.
  unfold ml_row in Hr. apply bind_ok in Hr as (f & _ & Hr). apply bind_ok in Hr as (u & _ & Hr). by injection Hr as <-.
Qed.

Lemma training_rows files run_id ds exported : load_training_evidence files run_id = Ok (ds, exported) ->
  length (rows ds) = 560 /\ NoDup (map ml_row_key (rows ds)).
Proof.
  unfold load_training_evidence. intros H. do 6 apply bind_ok in H as (? & _ & H).
  apply bind_ok in H as (u & G & H). do 2 apply bind_ok in H as (? & _ & H). apply bind_ok in H as (ms & R & H). injection H as <- <-.
  apply guard_ok in G. apply andb_prop in G as [G _]. apply andb_prop in G as [G1 G2]. apply Nat.eqb_eq in G1, G2. cbn [rows].
  assert (K : map ml_row_key ms ≡ₚ map row_pair x0).
  { rewrite (ml_rows_keys _ _ R). apply Permutation_map, py_sorted_perm. }
  split.
  - rewrite <- G1, <- (length_map ml_row_key), <- (length_map row_pair). by rewrite K.
  - rewrite K. apply all_distinct_true. unfold all_distinct. apply Nat.eqb_eq. by rewrite G2, length_map.
Qed.

(** What a prediction of the study is: of a row of the fold, by the pipeline
    fitted on the valid rows of the requests of the other folds. *)
Definition out_of_fold `{QP : QualityPipelines} (index : canonical_index) (l : list MLExperimentRow) (a : GroupedFold) (p : Prediction) : Prop :=
  exists r m X T ps q, r ∈ group_test a l /\ indexed_matrix index (group_train a l) = Ok X /\
    quality_fit X (map label_number (group_train a l)) = Ok m /\
    indexed_matrix index (group_test a l) = Ok T /\ quality_proba m T = Ok ps /\ q ∈ ps /\ p = oof_record a r q.

Lemma oof_fold_ok `{QP : QualityPipelines} index l a ps au p : oof_fold index l a = Ok (ps, au) -> p ∈ ps -> out_of_fold index l a p.
Proof.
  unfold oof_fold. intros H Hp. apply bind_ok in H as (u & _ & H). apply bind_ok in H as (X & HX & H). apply bind_ok in H as (m & Hm & H).
  apply bind_ok in H as (T & HT & H). apply bind_ok in H as (qs & Hq & H). injection H as <- _.
  apply elem_of_map in Hp as ([r q] & -> & Hz). apply list_elem_of_In in Hz.
  exists r, m, X, T, qs, q. split; [apply list_elem_of_In; by apply in_combine_l in Hz|]. do 4 (split; [done|]).
  split; [apply list_elem_of_In; by apply in_combine_r in Hz|done].
Qed.

Lemma generated_records `{UD : UnicodeData} `{QP : QualityPipelines} ds folds records audit : generate_oof ds folds = Ok (records, audit) ->
  length records = 560 /\ NoDup (map prediction_key records) /\
  exists canonical, result_map (fun r => c ← canonical_from_training_row r; Ok (ml_row_key r, c)) (rows ds) = Ok canonical /\
    forall p, p ∈ records -> exists a, a ∈ folds /\ out_of_fold (dict_of fst snd canonical) (rows ds) a p.
Proof.
  unfold generate_oof. intros H. apply bind_ok in H as (canonical & C & H). apply bind_ok in H as (out & O & H). cbv zeta in H.
  apply bind_ok in H as (u & G & H). injection H as <- _. apply guard_ok in G. apply andb_prop in G as [G1 G2].
  apply Nat.eqb_eq in G1, G2. split; [done|]. split.
  - apply all_distinct_true. unfold all_distinct. apply Nat.eqb_eq. rewrite G2. by rewrite length_map.
  - exists canonical. split; [done|]. intros p Hp. rewrite elem_of_py_sorted in Hp. apply list_elem_of_In, in_concat in Hp as (ps & Hps & Hp).
    apply list_elem_of_In, elem_of_map in Hps as ([ps' au] & -> & Hout). apply list_elem_of_In in Hp.
    destruct (result_map_mem _ _ _ _ O Hout) as (a & Ha & E). exists a. split; [done|]. by eapply oof_fold_ok.
Qed.

(** The study predicts its training run out of fold.  If the run is accepted and
    predicted, there is exactly one prediction for each of its 560 rows, made
    from the row's canonical features by the pipeline of the fold that holds its
    request, which was fitted on the valid rows of the requests of the other
    folds. *)
Theorem retraining_is_out_of_fold `{UD : UnicodeData} `{QP : QualityPipelines} files run_id ds exported folds records audit :
  load_training_evidence files run_id = Ok (ds, exported) -> generate_oof ds folds = Ok (records, audit) ->
  map prediction_key records ≡ₚ map ml_row_key (rows ds) /\
  exists canonical, result_map (fun r => c ← canonical_from_training_row r; Ok (ml_row_key r, c)) (rows ds) = Ok canonical /\
    forall p, p ∈ records -> exists a, a ∈ folds /\ out_of_fold (dict_of fst snd canonical) (rows ds) a p.
Proof.
  intros L G. destruct (training_rows _ _ _ _ L) as [N _]. destruct (generated_records _ _ _ _ G) as (M & D & canonical & C & P).
  split; [|by exists canonical]. apply submseteq_length_Permutation; [|rewrite !length_map; lia].
  apply NoDup_submseteq; [exact D|]. intros k Hk. apply elem_of_map in Hk as (p & -> & Hp).
  destruct (P p Hp) as (a & _ & r & m & X & T & ps & q & Hr & _ & _ & _ & _ & _ & ->).
  unfold group_test in Hr. apply filter_in in Hr as [Hr _]. apply elem_of_map. by exists r.
Qed.

(** ** Examples *)

(** The request and the candidate that the first row of the routing study's
    example describes. *)
Definition served_features : RoutingRequestFeatures :=
  mk_RoutingRequestFeatures (Some QA) PV_CLIENT_HINT 40 0 1 false 10 false false 64 0 0.

Definition served_model : ModelConfig :=
  mk_ModelConfig LUNA (py "vercel") LUNA (mk_decimal false 10 (-2)) (mk_decimal false 50 (-2)) 1000 true
    (mk_ModelCapabilities false false (reasoning default_capabilities) (output_token_accounting default_capabilities))
    None GATEWAY_SHARED default_output_token_policy.

Definition trained_row : RoutingDatasetRow := study_row 1%N (py "t1") "qa" LUNA 10 (Some true).

Lemma training_is_serving_witness : exists row q,
  describes trained_row served_features served_model /\ ml_row trained_row = Ok row /\
  @canonical_from_training_row ascii_tables row = Ok q /\ canonical_from_production served_features served_model = Ok q.
Proof.
  destruct (ml_row trained_row) as [row|e] eqn:R; [|vm_compute in R; discriminate R].
  assert (D : describes trained_row served_features served_model) by (split; first [vm_compute; reflexivity | eexists; split; reflexivity]).
  destruct (canonical_from_production served_features served_model) as [q|e] eqn:Q; [|vm_compute in Q; discriminate Q].
  exists row, q. split; [exact D|]. split; [reflexivity|]. split; [|reflexivity]. rewrite <- Q.
  exact (@training_is_serving ascii_tables _ _ _ _ D R).
Defined.

(** Seven categories of twenty requests with two candidates each. *)
Definition retraining_rows : list MLExperimentRow :=
  flat_map (fun c => flat_map (fun i => map (example_row c i) (seq 0 2)) (seq 1 20))
    ["qa"; "coding"; "json"; "reasoning"; "extraction"; "classification"; "summarization"]%string.

Lemma grouped_folds_partition_witness : exists fs,
  build_grouped_folds (mk_MLExperimentDataset 1%N retraining_rows) = Ok fs /\
  map gf_fold fs = [0; 1; 2; 3; 4] /\ concat (map gf_task_ids fs) ≡ₚ remove_dups (map ml_task_id retraining_rows).
Proof.
  destruct (build_grouped_folds (mk_MLExperimentDataset 1%N retraining_rows)) as [fs|e] eqn:E; [|vm_compute in E; discriminate E].
  exists fs. split; [reflexivity|]. destruct (grouped_folds_partition _ _ E) as (F & T & _). split; [exact F|exact T].
Defined.
