(* ===== verification/PredictorBuild.v ===== *)
(** * Building the quality predictor ([routing/train_predictor.py])

    The training rows are put next to the requests the gateway would serve for
    them; the pipeline is fitted on the rows with labels, written as an artifact
    and loaded again.  Fitting, the fitted preprocessing and the file system are
    an interface. *)
From S2P Require Import Prelude BenchmarkModels Aggregation RoutingExport RoutingAnalysis MLFeatures MLExperiment MLDiagnostics PolicyValidation Sklearn PinAblation Calibration PyStr PyFloat PyDecimal PyUuid Schemas Json PyRepr Errors PyNum Features QualityFeatures Policy Routing Predictor GatewayConfig ProductionPath Retraining.

(** ** Requests for training rows *)

(** [int(f)], towards zero *)
Definition f_trunc (f : float) : result exn Z :=
  match f with
  | S754_zero _ => Ok 0%Z
  | S754_finite s m e =>
      let n := if (0 <=? e)%Z then (Zpos m * 2 ^ e)%Z else (Zpos m / 2 ^ (- e))%Z in
      Ok (if s then - n else n)%Z
  | S754_infinity _ => Raise (Exn C_OverflowError)
  | S754_nan => Raise (Exn C_ValueError)
  end.

Section Pairs.
Context {UD : UnicodeData}.

(** [int(s)] of decimal digits with a sign. *)
Definition int_of_text (s : pystr) : result exn Z :=
  _ ← guard_else (underscores_between false s) (Exn C_ValueError);
  match ascii_number (strip s) with
  | None => Raise (Exn C_ValueError)
  | Some t =>
      let '(negative, r) := take_sign t in
      match take_digits r with
      | ((_ :: _) as ds, []) => Ok (if negative then - Z.of_N (digits_value ds) else Z.of_N (digits_value ds))%Z
      | _ => Raise (Exn C_ValueError)
      end
  end.

Definition int_of_feature (v : feature_value) : result exn Z :=
  match v with FV_bool b => Ok (if b then 1 else 0)%Z | FV_float f => f_trunc f | FV_str s => int_of_text s end.

Definition whole (r : MLExperimentRow) (name : string) : result exn Z := v ← row_feature r name; int_of_feature v.

(** [_production_features_for_training_row] *)
Definition production_features_for_training_row (r : MLExperimentRow) : result exn RoutingRequestFeatures :=
  c ← row_feature r "category";
  category ← category_of_feature c;
  prompt ← whole r "prompt_characters";
  approximate ← whole r "approximate_input_tokens";
  code ← truth r "contains_code";
  structured ← truth r "requests_structured_output";
  requested ← whole r "requested_max_output_tokens";
  constraints ← whole r "constraint_indicator_count";
  reasonings ← whole r "reasoning_indicator_count";
  new_RoutingRequestFeatures
    (mk_RawRoutingFeatures (Some (RoutingCategory_value category)) (Some PV_CLIENT_HINT) prompt 0 (Some 1%Z) (Some false) approximate
       code structured requested constraints reasonings).

(** [candidates[row.candidate_id]] *)
Definition configured (id : pystr) : result exn ModelConfig :=
  match dict_get (dict_of model_id (fun m => m) CANDIDATE_MODELS) id with Some m => Ok m | None => Raise (Exn C_KeyError) end.

Definition training_serving_pair (r : MLExperimentRow) : result exn (CanonicalQualityFeatures * CanonicalQualityFeatures) :=
  training ← canonical_from_training_row r;
  f ← production_features_for_training_row r;
  m ← configured (ml_candidate_id r);
  production ← canonical_from_production f m;
  Ok (training, production).

(** [canonical_training_serving_pairs] *)
Definition canonical_training_serving_pairs (ds : MLExperimentDataset) :
    result exn (list (CanonicalQualityFeatures * CanonicalQualityFeatures)) :=
  _ ← guard_else (same_elements (map model_id CANDIDATE_MODELS) (map ml_candidate_id (rows ds))) (Exn C_ValueError);
  result_map training_serving_pair (rows ds).

(** [training == production] *)
Definition canonical_equal (a b : CanonicalQualityFeatures) : bool :=
  bool_decide (cq_schema_version a = cq_schema_version b) && bool_decide (cq_category a = cq_category b) &&
  bool_decide (cq_candidate_id a = cq_candidate_id b) && bool_decide (cq_reasoning_effort a = cq_reasoning_effort b) &&
  forallb (fun g : CanonicalQualityFeatures -> float => f_eqb (g a) (g b))
    [cq_prompt_characters; cq_approximate_input_tokens; cq_requested_max_output_tokens; cq_constraint_indicator_count;
     cq_reasoning_indicator_count; cq_configured_input_cost_per_1m_tokens; cq_configured_output_cost_per_1m_tokens;
     cq_context_window; cq_effective_max_output_tokens] &&
  Bool.eqb (cq_contains_code a) (cq_contains_code b) &&
  Bool.eqb (cq_requests_structured_output a) (cq_requests_structured_output b) &&
  Bool.eqb (cq_supports_temperature a) (cq_supports_temperature b).

(** [==] of two cells of an object array; [True] is [1.0]. *)
Definition cell_equal (a b : cell) : bool :=
  let number c := match c with CNum f => Some f | CBool b => Some (if b : bool then f_one else f_zero) | CStr _ => None end in
  match a, b with
  | CStr s, CStr t => bool_decide (s = t)
  | _, _ => match number a, number b with Some x, Some y => f_eqb x y | _, _ => false end
  end.

Fixpoint all_equal {A : Type} (eq : A -> A -> bool) (l k : list A) : bool :=
  match l, k with
  | [], [] => true
  | x :: l, y :: k => eq x y && all_equal eq l k
  | _, _ => false
  end.

(** [np.array_equal] *)
Definition matrix_equal (a b : list (list cell)) : bool := all_equal (all_equal cell_equal) a b.

(** [validate_training_serving_parity] *)
Definition validate_training_serving_parity (ds : MLExperimentDataset) : result exn (list CanonicalQualityFeatures) :=
  pairs ← canonical_training_serving_pairs ds;
  _ ← guard_else (forallb (fun p => canonical_equal p.1 p.2) pairs) (Exn C_ValueError);
  a ← canonical_feature_matrix (map fst pairs);
  b ← canonical_feature_matrix (map snd pairs);
  _ ← guard_else (matrix_equal a b) (Exn C_ValueError);
  Ok (map fst pairs).
End Pairs.

(** ** The build *)

(** What the build asks of scikit-learn and of the file system:
    [build_quality_pipeline().fit(X, y)], whether the fitted preprocessing maps
    two matrices to close ones, and the directory after both files are written. *)
Class PredictorBuild {R : PredictorRuntime} := {
  fit_quality_pipeline : list (list cell) -> list Z -> result exn Pipeline;
  preprocessed_close : Pipeline -> list (list cell) -> list (list cell) -> result exn bool;
  store_artifact : list N * QualityPredictorArtifactMetadata -> result exn artifact_directory
}.

(** The digests of the frozen dataset and of its protocol. *)
Record TrainingInputs := mk_TrainingInputs {
  ti_dataset_sha256 : result exn pystr;
  ti_protocol_sha256 : result exn pystr
}.

(** [verify_frozen_training_inputs] *)
Definition verify_frozen_training_inputs (i : TrainingInputs) : result exn unit :=
  d ← ti_dataset_sha256 i;
  _ ← guard_else (bool_decide (d = FOUNDATION_V3_SHA256)) (Exn C_ValueError);
  p ← ti_protocol_sha256 i;
  guard_else (bool_decide (p = FOUNDATION_V3_PROTOCOL_SHA256)) (Exn C_ValueError).

(** [tuple(sorted({row.candidate_id for row in canonical_rows}))] *)
Definition known_candidates (l : list CanonicalQualityFeatures) : list pystr :=
  py_sorted (cmp_le str_cmp) (remove_dups (map cq_candidate_id l)).

Definition known_categories (l : list CanonicalQualityFeatures) : list RoutingCategory :=
  py_sorted (cmp_le (on_key RoutingCategory_value str_cmp)) (remove_dups (map cq_category l)).

(** [int(row.acceptable is True)] *)
Definition fit_target (r : MLExperimentRow) : Z := if bool_decide (ml_acceptable r = Some true) then 1 else 0.

Record BuiltPredictor `{R : PredictorRuntime} := mk_BuiltPredictor {
  bp_metadata : QualityPredictorArtifactMetadata;
  bp_pipeline : Pipeline;
  bp_audit_counts : list (list N * nat);
  bp_parity_rows : Z;
  bp_smoke_prediction : ModelAcceptabilityPrediction
}.

Arguments mk_BuiltPredictor {R}.

Section Build.
Context {UD : UnicodeData} {R : PredictorRuntime} {B : PredictorBuild}.

(** The rows with labels, as the fit takes them. *)
Definition labelled (ds : MLExperimentDataset) (canonical : list CanonicalQualityFeatures) : list (MLExperimentRow * CanonicalQualityFeatures) :=
  List.filter (fun rc => ml_valid rc.1) (zip (rows ds) canonical).

(** The prediction of the reloaded predictor for the first row. *)
Definition smoke_prediction (ds : MLExperimentDataset) (loaded : SklearnQualityPredictor) : result exn ModelAcceptabilityPrediction :=
  match rows ds with
  | [] => Raise (Exn C_IndexError)
  | r :: _ =>
      f ← production_features_for_training_row r;
      match List.find (fun m => bool_decide (model_id m = ml_candidate_id r)) CANDIDATE_MODELS with
      | None => Raise (Exn C_StopIteration)
      | Some m =>
          ps ← sklearn_predict loaded f [m];
          match ps with [] => Raise (Exn C_IndexError) | p :: _ => Ok p end
      end
  end.

(** [build_predictor_artifact] *)
Definition build_predictor_artifact (i : TrainingInputs) (files : FrozenFiles) (run_id : uuid) : result exn BuiltPredictor :=
  _ ← verify_frozen_training_inputs i;
  audit ← validate_canonical_skew_audit CANONICAL_TRAINING_SERVING_AUDIT;
  _ ← guard_else (bool_decide (representation_features NO_PIN_REPRESENTATION = CANONICAL_PREDICTIVE_FEATURES)) (Exn C_ValueError);
  ds ← load_ml_dataset files run_id;
  canonical ← validate_training_serving_parity ds;
  let fitted := labelled ds canonical in
  let missing := (Z.of_nat (length (rows ds)) - Z.of_nat (length fitted))%Z in
  _ ← guard_else (Nat.eqb (length fitted) 216 && (missing =? 8)%Z) (Exn C_ValueError);
  let targets := map (fun rc => fit_target rc.1) fitted in
  _ ← guard_else (same_elements targets [0; 1]%Z) (Exn C_ValueError);
  matrix ← canonical_feature_matrix (map snd fitted);
  p ← fit_quality_pipeline matrix targets;
  pairs ← canonical_training_serving_pairs ds;
  a ← canonical_feature_matrix canonical;
  b ← canonical_feature_matrix (map snd pairs);
  close ← preprocessed_close p a b;
  _ ← guard_else close (Exn C_ValueError);
  scores ← predict_proba p matrix;
  probabilities ← second_column scores;
  _ ← guard_else (forallb Probability_ok probabilities) (Exn C_ValueError);
  let artifact := written_artifact p (known_candidates canonical) (known_categories canonical) (Z.of_nat (length fitted)) missing in
  d ← store_artifact artifact;
  loaded ← sklearn_from_artifact d;
  smoke ← smoke_prediction ds loaded;
  _ ← guard_else (f_leb f_zero (mp_predicted_acceptability smoke) && f_leb (mp_predicted_acceptability smoke) f_one) (Exn C_ValueError);
  Ok (mk_BuiltPredictor artifact.2 p audit (Z.of_nat (length canonical)) smoke).
End Build.

(** ** The vector contract *)

(** The approved ablation is the canonical vector, and the audit passes: the
    build never stops at either check. *)
Example ablation_is_canonical : representation_features NO_PIN_REPRESENTATION = CANONICAL_PREDICTIVE_FEATURES.
Proof. vm_compute. reflexivity. Qed.

Example audit_passes : is_ok (validate_canonical_skew_audit CANONICAL_TRAINING_SERVING_AUDIT) = true.
Proof. vm_compute. reflexivity. Qed.

Definition canonical_cells (c : CanonicalQualityFeatures) : list cell :=
  [CStr (RoutingCategory_value (cq_category c)); CStr (cq_candidate_id c); CStr (ReasoningEffort_value (cq_reasoning_effort c));
   CStr (category_candidate c); CNum (cq_prompt_characters c); CNum (cq_approximate_input_tokens c);
   CNum (cq_requested_max_output_tokens c); CNum (cq_constraint_indicator_count c); CNum (cq_reasoning_indicator_count c);
   CNum (cq_configured_input_cost_per_1m_tokens c); CNum (cq_configured_output_cost_per_1m_tokens c); CNum (cq_context_window c);
   CNum (cq_effective_max_output_tokens c); CBool (cq_contains_code c); CBool (cq_requests_structured_output c);
   CBool (cq_supports_temperature c)].

Lemma canonical_row_cells c : canonical_feature_row c = Ok (canonical_cells c).
Proof. reflexivity. Qed.

Lemma canonical_matrix_cells l : canonical_feature_matrix l = Ok (map canonical_cells l).
Proof. unfold canonical_feature_matrix. induction l as [|c l IH]; [done|]. cbn [result_map map]. rewrite canonical_row_cells. rsimpl. by rewrite IH. Qed.

Lemma text_cells s t : s = t -> cell_equal (CStr s) (CStr t) = true.
Proof. intros ->. by apply bool_decide_eq_true. Qed.

Lemma truth_cells a b : Bool.eqb a b = true -> cell_equal (CBool a) (CBool b) = true.
Proof. by destruct a, b. Qed.

Lemma equal_features_equal_cells a b : canonical_equal a b = true -> all_equal cell_equal (canonical_cells a) (canonical_cells b) = true.
Proof.
  unfold canonical_equal. cbn [forallb]. rewrite !andb_true_iff, !bool_decide_eq_true. intros H. destruct_and! H.
  unfold canonical_cells, category_candidate. cbn [all_equal].
  repeat (apply andb_true_intro; split); try done; first [apply text_cells; congruence | by apply truth_cells | assumption].
Qed.

(** Equal features are equal vectors: the second check of the parity never fails. *)
Theorem parity_of_features_is_parity_of_vectors `{UD : UnicodeData} ds :
  validate_training_serving_parity ds =
  (pairs ← canonical_training_serving_pairs ds;
   _ ← guard_else (forallb (fun p => canonical_equal p.1 p.2) pairs) (Exn C_ValueError);
   Ok (map fst pairs)).
Proof.
  unfold validate_training_serving_parity. destruct (canonical_training_serving_pairs ds) as [pairs|e]; rsimpl; [|done].
  destruct (forallb _ pairs) eqn:F; cbn [guard_else]; rsimpl; [|done]. rewrite !canonical_matrix_cells. rsimpl.
  replace (matrix_equal _ _) with true; [done|]. symmetry. unfold matrix_equal.
  induction pairs as [|q pairs IH]; [done|]. cbn [forallb] in F. apply andb_prop in F as [E F]. cbn [map all_equal].
  by rewrite (equal_features_equal_cells _ _ E), IH.
Qed.

(** ** What is built can be loaded *)

Section Loads.
Context {UD : UnicodeData} {R : PredictorRuntime}.

Lemma canonical_candidate r c : canonical_from_training_row r = Ok c -> cq_candidate_id c = ml_candidate_id r.
Proof. unfold canonical_from_training_row. intros H. do 17 apply bind_ok in H as (? & _ & H). by injection H as <-. Qed.

Lemma parity_rows ds canonical : validate_training_serving_parity ds = Ok canonical ->
  map cq_candidate_id canonical = map ml_candidate_id (rows ds) /\
  forall x, x ∈ map model_id CANDIDATE_MODELS <-> x ∈ map ml_candidate_id (rows ds).
Proof.
  rewrite parity_of_features_is_parity_of_vectors. intros H. apply bind_ok in H as (pairs & P & H). apply bind_ok in H as (u & _ & H). injection H as <-.
  unfold canonical_training_serving_pairs in P. apply bind_ok in P as (v & G%guard_ok & P). split; [|exact (proj1 (same_elements_true _ _) G)].
  apply result_map_ok in P. clear G. induction P as [|r q l pairs Hq _ IH]; [done|]. cbn [map]. rewrite IH. f_equal.
  unfold training_serving_pair in Hq. apply bind_ok in Hq as (c & C & Hq). do 3 apply bind_ok in Hq as (? & _ & Hq). injection Hq as <-.
  by apply canonical_candidate.
Qed.

(** Rows that pass the parity have exactly the candidates the loader knows. *)
Lemma built_candidates ds canonical : validate_training_serving_parity ds = Ok canonical ->
  known_candidates canonical = FOUNDATION_V3_CANDIDATE_IDS.
Proof.
  intros P. apply parity_rows in P as [E C]. unfold known_candidates. rewrite E.
  rewrite (py_sorted_perm_eq str_cmp _ (map model_id CANDIDATE_MODELS)); [vm_compute; reflexivity| |by intros x y _ _; apply str_cmp_eq].
  apply NoDup_Permutation; [apply NoDup_remove_dups|apply all_distinct_true; vm_compute; reflexivity|].
  intros x. by rewrite elem_of_remove_dups, C.
Qed.

Lemma built_categories canonical : (forall c, c ∈ map cq_category canonical) -> same_elements (known_categories canonical) all_categories = true.
Proof.
  intros A. apply same_elements_true. intros c. unfold known_categories. rewrite elem_of_py_sorted, elem_of_remove_dups.
  split; intros _; [|apply A]. by destruct c; apply (bool_decide_eq_true_1 _); vm_compute.
Qed.

Lemma loaded_is_valid d p m : snd (load_trusted_quality_artifact d) = Ok (p, m) -> validate_any m = Ok tt.
Proof.
  unfold load_trusted_quality_artifact. destruct (negb _); [done|]. cbv zeta.
  destruct (raw ← ad_metadata d; _) as [m'|e] eqn:T; [|by cbn; destruct (_ || _)].
  assert (V : validate_any m' = Ok tt).
  { apply bind_ok in T as ([parsed|] & _ & T); [|done]. apply bind_ok in T as (m0 & _ & T). apply bind_ok in T as ([] & V & T). by injection T as <-. }
  destruct (negb _); [done|]. destruct (ad_read_bytes d _) as [bytes|e]; cbn [snd]; [|by destruct (isinstance _ _)].
  destruct (negb _); cbn [snd]; [done|]. destruct (pickle_loads bytes) as [[q|]|e]; [|done|by destruct (is_exception e)]. by intros [= _ <-].
Qed.

(** The directory holds what was written. *)
Definition holds (d : artifact_directory) (artifact : list N * QualityPredictorArtifactMetadata) : Prop :=
  ad_is_file d ARTIFACT_METADATA_FILENAME = true /\ ad_is_file d ARTIFACT_MODEL_FILENAME = true /\
  ad_metadata d = Ok (Some (Ok (LegacyMetadata artifact.2))) /\ ad_read_bytes d ARTIFACT_MODEL_FILENAME = Ok artifact.1.

(** A built predictor can be loaded.  If training and serving agree on rows of
    every category, 216 of them with labels and 8 without, then the artifact
    written for the fitted pipeline is one the loader accepts: from a directory
    that holds it, the same pipeline is loaded, with the metadata that was
    written and the frozen candidates. *)
Theorem built_artifact_loads ds canonical p d :
  validate_training_serving_parity ds = Ok canonical -> (forall c, c ∈ map cq_category canonical) ->
  let artifact := written_artifact p (known_candidates canonical) (known_categories canonical) 216 8 in
  length (sha256_hexdigest artifact.1) = 64%nat -> forallb is_hex_lower (sha256_hexdigest artifact.1) = true ->
  pickle_loads artifact.1 = Ok (Some p) -> holds d artifact ->
  sklearn_from_artifact d = Ok (mk_SklearnQualityPredictor p (LegacyMetadata artifact.2)) /\
  metadata_candidates (LegacyMetadata artifact.2) = map model_id (py_sorted (cmp_le (on_key model_id str_cmp)) CANDIDATE_MODELS).
Proof.
  intros P A. cbv zeta. rewrite (built_candidates _ _ P). intros L H U (F1 & F2 & M & D).
  pose proof (written_artifact_loads p _ 216 8 d (built_categories _ A) L H U F1 F2 M D) as W. cbn [andb Z.eqb Pos.eqb] in W.
  split; [|vm_compute; reflexivity]. unfold sklearn_from_artifact. rewrite W. rsimpl. unfold new_SklearnQualityPredictor. cbn [fst snd].
  by rewrite (loaded_is_valid _ _ _ W).
Qed.
End Loads.

(** ** Examples *)

(** A row for a category and a configured candidate. *)
Definition parity_row (c : RoutingCategory) (m : ModelConfig) : MLExperimentRow :=
  let f := mk_RoutingRequestFeatures (Some c) PV_CLIENT_HINT 40 0 1 false 10 false false 64 0 0 in
  let number z := FV_float (f_of_Z z) in
  mk_MLExperimentRow (RoutingCategory_value c) (model_id m) (RoutingCategory_value c)
    [(py "category", FV_str (RoutingCategory_value c)); (py "candidate_id", FV_str (model_id m));
     (py "reasoning_effort", FV_str (ReasoningEffort_value (canonicalize_reasoning_effort (reasoning_effort m))));
     (py "prompt_characters", number 40%Z); (py "approximate_input_tokens", number 10%Z); (py "requested_max_output_tokens", number 64%Z);
     (py "constraint_indicator_count", number 0%Z); (py "reasoning_indicator_count", number 0%Z);
     (py "configured_input_cost_per_1m_tokens", FV_float (f_of_decimal (input_cost_per_1m_tokens m)));
     (py "configured_output_cost_per_1m_tokens", FV_float (f_of_decimal (output_cost_per_1m_tokens m)));
     (py "context_window", number (context_window m));
     (py "effective_max_output_tokens", number (match resolve_effective_output_allowance f m with Ok n => n | Raise _ => 0%Z end));
     (py "contains_code", FV_bool false); (py "requests_structured_output", FV_bool false);
     (py "supports_temperature", FV_bool (supports_temperature (capabilities m)))]
    LS_valid (Some true) None None None f_one.

Definition parity_dataset : MLExperimentDataset :=
  mk_MLExperimentDataset 1%N (flat_map (fun c => map (parity_row c) CANDIDATE_MODELS) all_categories).

Definition example_artifact (canonical : list CanonicalQualityFeatures) : list N * QualityPredictorArtifactMetadata :=
  @written_artifact example_runtime tt (known_candidates canonical) (known_categories canonical) 216 8.

Definition example_directory (canonical : list CanonicalQualityFeatures) : artifact_directory :=
  mk_artifact_directory (fun _ => true) (Ok (Some (Ok (LegacyMetadata (example_artifact canonical).2))))
    (fun _ => Ok (example_artifact canonical).1).

Lemma built_artifact_loads_witness : exists canonical,
  @validate_training_serving_parity ascii_tables parity_dataset = Ok canonical /\ length canonical = 28 /\
  @sklearn_from_artifact example_runtime (example_directory canonical) =
    Ok (@mk_SklearnQualityPredictor example_runtime tt (LegacyMetadata (example_artifact canonical).2)).
Proof.
  destruct (@validate_training_serving_parity ascii_tables parity_dataset) as [canonical|e] eqn:P; [|vm_compute in P; discriminate P].
  exists canonical. split; [reflexivity|]. split; [vm_compute in P; injection P as <-; reflexivity|].
  refine (proj1 (@built_artifact_loads ascii_tables example_runtime parity_dataset canonical tt (example_directory canonical) P _ _ _ _ _)).
  - intros c. vm_compute in P. injection P as <-. destruct c; apply (bool_decide_eq_true_1 _); vm_compute; reflexivity.
  - reflexivity.
  - reflexivity.
  - reflexivity.
  - repeat split.
Defined.
