(* ===== verification/BenchmarkProtocol.v ===== *)
(** * Execution protocols of the routing benchmark ([benchmarks/routing_benchmark_v1.py])

    The frozen protocols that may be executed, the model snapshots they
    promise, and the loading of a protocol file, which fails closed on any
    difference. *)
From S2P Require Import Prelude PyStr PyFloat PyDecimal Schemas Json Errors GatewayConfig BenchmarkModels DatasetValidation BenchmarkSplits.

Inductive ModelContract := gemini_256 | gemini_384 | gemini_minimal_384 | gemini_native_minimal_384.

Record ExecutionProtocolContract := mk_ExecutionProtocolContract {
  pc_protocol : pystr;
  pc_version : pystr;
  pc_dataset_sha256 : pystr;
  pc_manifest_sha256 : pystr;
  pc_requires_pricing_readiness : bool;
  pc_model_contract : ModelContract
}.

Definition PROTOCOL_VERSION : pystr := py "1.3.0".
Definition ROUTING_V12_PROTOCOL_NAME : pystr := py "routellm-routing-benchmark-v1.2".
Definition V12_DATASET_SHA256 : pystr := py "1a9cadc2d557eacb4a7dce450100cdb495a2659c2862845ce9894cf0a7791005".

(** [SUPPORTED_EXECUTION_PROTOCOLS]: the key of each is its name and version. *)
Definition SUPPORTED_EXECUTION_PROTOCOLS : list ExecutionProtocolContract :=
  [ mk_ExecutionProtocolContract BENCHMARK_NAME PROTOCOL_VERSION
      (py "70152d1ac15e827a0ff940cf5becf76701578d0a62d773b4ad6e3823c3fa27ca")
      (py "8a569e225734c52480d5b31d11db9d78a8b2c0417d621b6d7234d696b0859204") false gemini_256;
    mk_ExecutionProtocolContract ROUTING_V12_PROTOCOL_NAME (py "1.4.0") V12_DATASET_SHA256
      (py "f132c1eec6b1a231f6ce5ea50702b59a03e76af7d44359ba614fa0ed4ae6e565") true gemini_256;
    mk_ExecutionProtocolContract ROUTING_V12_PROTOCOL_NAME (py "1.5.0") V12_DATASET_SHA256
      (py "fd9f60ca01e912418ba9b54804ea9a6f92cd3b326fc17d489bb7e9e51cd5521d") true gemini_384;
    mk_ExecutionProtocolContract ROUTING_V12_PROTOCOL_NAME (py "1.6.0") V12_DATASET_SHA256
      (py "10ca97aafd313c29778103fe0f6f7145243a3e8795d745e1b51a9b0a582c42b3") true gemini_minimal_384;
    mk_ExecutionProtocolContract ROUTING_V12_PROTOCOL_NAME (py "1.7.0") V12_DATASET_SHA256
      (py "b4cde3954a8ccd1b54684dcb62da303e7bc806248306464ae536b9ff717a0bd8") true gemini_native_minimal_384 ].

(** ** Snapshots *)

(** [_benchmark_execution_model]: a copy with combined accounting when there is
    headroom. *)
Definition benchmark_execution_model (m : ModelConfig) (headroom expected_reasoning : Z) : ModelConfig :=
  let caps := capabilities m in
  mk_ModelConfig (model_id m) (provider m) (provider_model_name m) (input_cost_per_1m_tokens m) (output_cost_per_1m_tokens m)
    (context_window m) (enabled m)
    (mk_ModelCapabilities (supports_temperature caps) (supports_structured_output caps) (reasoning caps)
       (if (headroom =? 0)%Z then VISIBLE_ONLY else REASONING_AND_VISIBLE))
    (reasoning_effort m) (reasoning_control m) (mk_OutputTokenPolicy [] headroom expected_reasoning).

Definition snapshots (headrooms expected : list Z) : list ModelConfig :=
  map (fun p => benchmark_execution_model p.1.1 p.1.2 p.2) (zip (zip CANDIDATE_MODELS headrooms) expected).

Definition ROUTING_BENCHMARK_MODELS : list ModelConfig := snapshots [0; 128; 256; 128]%Z [0; 32; 160; 32]%Z.
Definition ROUTING_BENCHMARK_MODELS_V15 : list ModelConfig := snapshots [0; 128; 384; 128]%Z [0; 32; 256; 32]%Z.

(** [model.model_copy(update=...) if model.model_id == "candidate-gemini-3-flash" else model] *)
Definition on_gemini (effort : option ReasoningEffort) (control : option ReasoningControlMechanism) (m : ModelConfig) : ModelConfig :=
  if bool_decide (model_id m = py "candidate-gemini-3-flash")
  then mk_ModelConfig (model_id m) (provider m) (provider_model_name m) (input_cost_per_1m_tokens m) (output_cost_per_1m_tokens m)
         (context_window m) (enabled m) (capabilities m)
         (match effort with Some e => Some e | None => reasoning_effort m end)
         (default (reasoning_control m) control) (output_token_policy m)
  else m.

Definition ROUTING_BENCHMARK_MODELS_V16 : list ModelConfig :=
  map (on_gemini (Some RE_MINIMAL) None) ROUTING_BENCHMARK_MODELS_V15.
Definition ROUTING_BENCHMARK_MODELS_V17 : list ModelConfig :=
  map (on_gemini None (Some GOOGLE_PROVIDER_NATIVE)) ROUTING_BENCHMARK_MODELS_V16.

Definition EXECUTION_MODEL_CONTRACTS (c : ModelContract) : list ModelConfig :=
  match c with
  | gemini_256 => ROUTING_BENCHMARK_MODELS
  | gemini_384 => ROUTING_BENCHMARK_MODELS_V15
  | gemini_minimal_384 => ROUTING_BENCHMARK_MODELS_V16
  | gemini_native_minimal_384 => ROUTING_BENCHMARK_MODELS_V17
  end.

(** [==] of models: prices are compared as numbers. *)
Definition model_equal (a b : ModelConfig) : bool :=
  bool_decide (model_id a = model_id b) && bool_decide (provider a = provider b) &&
  bool_decide (provider_model_name a = provider_model_name b) &&
  d_eqb (input_cost_per_1m_tokens a) (input_cost_per_1m_tokens b) &&
  d_eqb (output_cost_per_1m_tokens a) (output_cost_per_1m_tokens b) &&
  (context_window a =? context_window b)%Z && Bool.eqb (enabled a) (enabled b) &&
  bool_decide (capabilities a = capabilities b) && bool_decide (reasoning_effort a = reasoning_effort b) &&
  bool_decide (reasoning_control a = reasoning_control b) && bool_decide (output_token_policy a = output_token_policy b).

Fixpoint models_equal (a b : list ModelConfig) : bool :=
  match a, b with
  | [], [] => true
  | x :: a', y :: b' => model_equal x y && models_equal a' b'
  | _, _ => false
  end.

(** ** Loading *)

(** [protocol.get(key)] as part of a tuple, hashed for the lookup. *)
Definition get_key (d : py_dict) (key : string) : result exn json_key := hashed (or_null (dict_get d (py key))).

Definition find_contract (protocol : py_dict) : result exn ExecutionProtocolContract :=
  name ← get_key protocol "protocol";
  version ← get_key protocol "version";
  match List.find (fun c => bool_decide (name = KStr (pc_protocol c)) && bool_decide (version = KStr (pc_version c)))
          SUPPORTED_EXECUTION_PROTOCOLS with
  | Some c => Ok c
  | None => Raise (Exn C_ValueError)
  end.

Section Load.
(** What [ModelConfig.model_validate] makes of a mapping, [hashlib.sha256] and
    [json.loads] of bytes. *)
Context (model_validate : py_dict -> result exn ModelConfig) (sha256 : list N -> pystr) (loads : list N -> result exn pyjson).

Definition read_candidate (v : pyjson) : result exn ModelConfig :=
  id ← item v "candidate_id"; provider_ ← item v "provider"; name ← item v "upstream_model_slug";
  input ← item v "input_cost_per_1m_tokens"; output ← item v "output_cost_per_1m_tokens"; window ← item v "context_window";
  caps ← item v "capabilities"; effort ← item v "reasoning_effort";
  let control := match v with
    | PJObj d => default (PJStr (py "gateway_shared")) (dict_get d (py "reasoning_control")) | _ => PJNull end in
  policy ← item v "output_token_policy";
  model_validate [ (py "model_id", id); (py "provider", provider_); (py "provider_model_name", name);
    (py "input_cost_per_1m_tokens", input); (py "output_cost_per_1m_tokens", output); (py "context_window", window);
    (py "capabilities", caps); (py "reasoning_effort", effort); (py "reasoning_control", control);
    (py "output_token_policy", policy) ].

Definition execution_models_from_protocol (protocol : py_dict) : result exn (list ModelConfig) :=
  contract ← find_contract protocol;
  _ ← value_guard (equals_str (dict_get protocol (py "dataset_sha256")) (pc_dataset_sha256 contract));
  candidates ← list_of 4 (dict_get protocol (py "candidates"));
  models ← result_map read_candidate candidates;
  _ ← value_guard (Nat.eqb (length (remove_dups (map model_id models))) 4);
  _ ← value_guard (models_equal models (EXECUTION_MODEL_CONTRACTS (pc_model_contract contract)));
  Ok models.

Definition load_execution_protocol (raw : list N) : result exn (py_dict * list ModelConfig * pystr) :=
  let digest := sha256 raw in
  value ← loads raw;
  match value with
  | PJObj protocol =>
      contract ← find_contract protocol;
      _ ← value_guard (bool_decide (digest = pc_manifest_sha256 contract));
      models ← execution_models_from_protocol protocol;
      Ok (protocol, models, digest)
  | _ => Raise (Exn C_AttributeError)
  end.
End Load.

(** ** What a loaded protocol promises *)

Definition headroom (c : ModelContract) (i : nat) : Z :=
  match i with 1%nat | 3%nat => 128 | 2%nat => match c with gemini_256 => 256 | _ => 384 end | _ => 0 end%Z.

Lemma model_equal_fields a b : model_equal a b = true ->
  model_id a = model_id b /\ provider_model_name a = provider_model_name b /\
  d_eqb (input_cost_per_1m_tokens a) (input_cost_per_1m_tokens b) = true /\
  d_eqb (output_cost_per_1m_tokens a) (output_cost_per_1m_tokens b) = true /\
  capabilities a = capabilities b /\ output_token_policy a = output_token_policy b.
Proof. unfold model_equal. intros H. bools. done. Qed.

Lemma models_equal_lookup a b : models_equal a b = true -> length a = length b /\
  forall i x, a !! i = Some x -> exists y, b !! i = Some y /\ model_equal x y = true.
Proof.
  revert b. induction a as [|x a IH]; intros [|y b] H; try discriminate H; [done|]. cbn [models_equal] in H. bools.
  destruct (IH b H0) as [L E]. split; [cbn [length]; lia|]. intros [|i] z Z; [injection Z as <-; by exists y|by apply E].
Qed.

(** A snapshot is its candidate, except for accounting, headroom and Gemini's
    reasoning. *)
Lemma snapshot_candidate c i m : EXECUTION_MODEL_CONTRACTS c !! i = Some m -> exists k, CANDIDATE_MODELS !! i = Some k /\
  model_id m = model_id k /\ provider_model_name m = provider_model_name k /\
  input_cost_per_1m_tokens m = input_cost_per_1m_tokens k /\ output_cost_per_1m_tokens m = output_cost_per_1m_tokens k /\
  category_overrides (output_token_policy m) = [] /\ reasoning_headroom_tokens (output_token_policy m) = headroom c i /\
  output_token_accounting (capabilities m) = (if (headroom c i =? 0)%Z then VISIBLE_ONLY else REASONING_AND_VISIBLE) /\
  ModelConfig_validate m = Ok tt.
Proof.
  intros H. destruct c; do 4 (destruct i as [|i]; [vm_compute in H; injection H as <-; eexists; repeat split; vm_compute; reflexivity|]);
    by destruct i.
Qed.

Lemma allowance m n cat h : category_overrides (output_token_policy m) = [] -> reasoning_headroom_tokens (output_token_policy m) = h ->
  output_token_accounting (capabilities m) = (if (h =? 0)%Z then VISIBLE_ONLY else REASONING_AND_VISIBLE) -> (0 < n)%Z ->
  provider_output_allowance m n cat = Ok (n + h)%Z.
Proof.
  intros O H A P. unfold provider_output_allowance. rewrite O, A, H. cbn [map List.filter length Nat.leb].
  unfold check, guard_else. rewrite (proj2 (Z.ltb_lt 0 n) P). rsimpl. destruct (Z.eqb_spec h 0) as [->|]; [by rewrite Z.add_0_r|done].
Qed.

(** What a protocol that loads is: the shared content of the theorem below. *)
Lemma loaded_protocol model_validate sha256 loads raw protocol models digest :
  load_execution_protocol model_validate sha256 loads raw = Ok (protocol, models, digest) ->
  exists contract, find_contract protocol = Ok contract /\
    contract ∈ SUPPORTED_EXECUTION_PROTOCOLS /\ sha256 raw = pc_manifest_sha256 contract /\ digest = sha256 raw /\
    map model_id models = map model_id CANDIDATE_MODELS /\
    forall i m k, models !! i = Some m -> CANDIDATE_MODELS !! i = Some k ->
      provider_model_name m = provider_model_name k /\
      d_eqb (input_cost_per_1m_tokens m) (input_cost_per_1m_tokens k) = true /\
      d_eqb (output_cost_per_1m_tokens m) (output_cost_per_1m_tokens k) = true /\
      forall n cat, (0 < n)%Z -> provider_output_allowance m n cat = Ok (n + headroom (pc_model_contract contract) i)%Z.
Proof.
  unfold load_execution_protocol. intros H. apply bind_ok in H as (v & _ & H). destruct v as [| | | | | |p]; try discriminate H.
  apply bind_ok in H as (c & C & H). apply bind_ok in H as (? & D%value_guard_ok & H). apply bind_ok in H as (ms & M & H). inv_result.
  unfold execution_models_from_protocol in M. rewrite C in M. rsimpl_in M.
  apply bind_ok in M as (? & _ & M). apply bind_ok in M as (l & _ & M). apply bind_ok in M as (ms' & _ & M).
  apply bind_ok in M as (? & _ & M). apply bind_ok in M as (? & E%value_guard_ok & M). inv_result.
  exists c. split; [done|]. split.
  { unfold find_contract in C. apply bind_ok in C as (a & _ & C). apply bind_ok in C as (b & _ & C).
    destruct (List.find _ _) as [c'|] eqn:F; [|discriminate C]. inv_result. apply find_some in F as [F _]. by apply list_elem_of_In. }
  split; [by bools|]. split; [done|]. destruct (models_equal_lookup _ _ E) as [L Q].
  assert (K : forall i m, models !! i = Some m -> exists k, CANDIDATE_MODELS !! i = Some k /\ model_id m = model_id k /\
    provider_model_name m = provider_model_name k /\
    d_eqb (input_cost_per_1m_tokens m) (input_cost_per_1m_tokens k) = true /\
    d_eqb (output_cost_per_1m_tokens m) (output_cost_per_1m_tokens k) = true /\
    forall n cat, (0 < n)%Z -> provider_output_allowance m n cat = Ok (n + headroom (pc_model_contract c) i)%Z).
  { intros i m Hm. destruct (Q i m Hm) as (y & Y & Em). destruct (snapshot_candidate _ _ _ Y) as (k & Hk & S1 & S2 & S3 & S4 & S5 & S6 & S7 & _).
    destruct (model_equal_fields _ _ Em) as (F1 & F2 & F3 & F4 & F5 & F6). exists k. split; [done|].
    split; [congruence|]. split; [congruence|]. split; [congruence|]. split; [congruence|]. intros n cat P. apply allowance; congruence. }
  split.
  - apply list_eq. intros i. rewrite !list_lookup_fmap. destruct (models !! i) as [m|] eqn:Hm.
    + destruct (K i m Hm) as (k & -> & I & _). change (Some (model_id m) = Some (model_id k)). by rewrite I.
    + apply lookup_ge_None in Hm. rewrite L in Hm. rewrite (lookup_ge_None_2 CANDIDATE_MODELS i); [done|]. by destruct (pc_model_contract c).
  - intros i m k Hm Hk. destruct (K i m Hm) as (k' & Hk' & _ & R). rewrite Hk in Hk'. by injection Hk' as <-.
Qed.

(** A protocol file is executed only when its bytes have the frozen digest
    of a supported protocol; its four models are then the reviewed candidates
    in order, at the reviewed prices, and each may produce exactly the visible
    tokens of the task and its reserved headroom, in every category. *)
Theorem protocol_fixes_models model_validate sha256 loads raw protocol models digest :
  load_execution_protocol model_validate sha256 loads raw = Ok (protocol, models, digest) ->
  exists contract, contract ∈ SUPPORTED_EXECUTION_PROTOCOLS /\ sha256 raw = pc_manifest_sha256 contract /\ digest = sha256 raw /\
    map model_id models = map model_id CANDIDATE_MODELS /\
    forall i m k, models !! i = Some m -> CANDIDATE_MODELS !! i = Some k ->
      provider_model_name m = provider_model_name k /\
      d_eqb (input_cost_per_1m_tokens m) (input_cost_per_1m_tokens k) = true /\
      d_eqb (output_cost_per_1m_tokens m) (output_cost_per_1m_tokens k) = true /\
      forall n cat, (0 < n)%Z -> provider_output_allowance m n cat = Ok (n + headroom (pc_model_contract contract) i)%Z.
Proof.
  intros H. destruct (loaded_protocol _ _ _ _ _ _ _ H) as (c & _ & R). by exists c.
Qed.

(** ** A protocol that loads *)

Definition sample_candidate (m : ModelConfig) : pyjson :=
  PJObj [ (py "candidate_id", PJStr (model_id m)); (py "provider", PJStr (provider m));
    (py "upstream_model_slug", PJStr (provider_model_name m));
    (py "input_cost_per_1m_tokens", PJStr (d_str (input_cost_per_1m_tokens m)));
    (py "output_cost_per_1m_tokens", PJStr (d_str (output_cost_per_1m_tokens m)));
    (py "context_window", PJInt (context_window m)); (py "capabilities", PJObj []); (py "reasoning_effort", PJNull);
    (py "output_token_policy", PJObj []) ].

Definition sample_protocol : py_dict :=
  [ (py "protocol", PJStr ROUTING_V12_PROTOCOL_NAME); (py "version", PJStr (py "1.7.0"));
    (py "dataset_sha256", PJStr V12_DATASET_SHA256);
    (py "candidates", PJArr (map sample_candidate ROUTING_BENCHMARK_MODELS_V17)) ].

(** A validation that knows the snapshots by their identifiers. *)
Definition sample_validate (d : py_dict) : result exn ModelConfig :=
  match List.find (fun m => equals_str (dict_get d (py "model_id")) (model_id m)) ROUTING_BENCHMARK_MODELS_V17 with
  | Some m => Ok m
  | None => Raise (Exn C_ValidationError)
  end.

Definition sample_digest (raw : list N) : pystr := py "b4cde3954a8ccd1b54684dcb62da303e7bc806248306464ae536b9ff717a0bd8".

Lemma protocol_fixes_models_witness : exists contract, contract ∈ SUPPORTED_EXECUTION_PROTOCOLS /\
  map model_id ROUTING_BENCHMARK_MODELS_V17 = map model_id CANDIDATE_MODELS /\
  sample_digest [] = pc_manifest_sha256 contract.
Proof.
  destruct (protocol_fixes_models sample_validate sample_digest (fun _ => Ok (PJObj sample_protocol)) []
    sample_protocol ROUTING_BENCHMARK_MODELS_V17 (sample_digest []) ltac:(vm_compute; reflexivity)) as (c & I & D & _ & M & _).
  exists c. split; [exact I|]. split; [exact M|exact D].
Defined.
