(* ===== verification/BenchmarkConstruction.v ===== *)
(** * Construction of the routing benchmark ([benchmarks/routing_benchmark_v1.py])

    From the authored families of each category to the tasks of the dataset:
    difficulties from content scores, budgets, metadata and provenance.  The
    families, whose text is authored content, are a parameter. *)
From S2P Require Import Prelude PyStr PyFloat PyDecimal Schemas Json PyRepr JsonText Errors PyStats BenchmarkModels BenchmarkRunner Aggregation SemanticJudge Evaluators DatasetValidation RoutingExport RoutingAnalysis MLFeatures BenchmarkSplits.

Record FamilySpec := mk_FamilySpec {
  slug_ : pystr;
  variants : py_dict * py_dict
}.

(** [enumerate(family.variants)] *)
Definition indexed_variants (f : FamilySpec) : list (nat * py_dict) := [(0, (variants f).1); (1, (variants f).2)].

Definition CONTENT_COMPLEXITY (c : BenchmarkCategory) : list (string * Z) :=
  match c with
  | BC_CLASSIFICATION =>
      [ ("direct-material", 1); ("numeric-band", 2); ("document-routing", 2); ("priority-precedence", 4); 
        ("refund-exception", 4); ("risk-matrix", 5); ("inventory-state", 3); ("access-policy", 6); 
        ("sla-clock", 4); ("travel-policy", 6); ("retention-rule", 4); ("subscription-eligibility", 6); 
        ("incident-cause", 7); ("shipping-service", 5); ("support-escalation", 6); 
        ("compliance-hierarchy", 7) ]
  | BC_CODING =>
      [ ("clamp-sequence", 2); ("collapse-whitespace", 2); ("initial-histogram", 3); ("key-value-parser", 5); 
        ("cyclic-rotation", 4); ("stable-score-ranking", 3); ("merge-adjacent-intervals", 6); 
        ("balanced-delimiters", 6); ("unweighted-shortest-path", 8); ("nested-group-total", 2); 
        ("longest-nondecreasing", 8); ("slug-validation", 5); ("run-length-encoding", 4); 
        ("rolling-window-sums", 4); ("transaction-state", 5); ("dependency-readiness", 7) ]
  | BC_EXTRACTION =>
      [ ("contact-prose", 1); ("invoice-header", 2); ("latest-error-log", 4); ("text-table-filter", 4); 
        ("optional-field", 3); ("repeated-entity-total", 5); ("nested-shipment", 4); 
        ("section-precedence", 7); ("unit-bearing-measurement", 4); ("multi-party-action", 6); 
        ("keyed-list-order", 5); ("event-window", 6); ("cross-line-record", 6); 
        ("conditional-record-selection", 7); ("paired-source-join", 8); ("exception-aware-roles", 8) ]
  | BC_JSON =>
      [ ("flat-profile", 1); ("filter-array", 3); ("nested-address", 2); ("enum-mapping", 4); 
        ("nullable-field", 3); ("sorted-ranking", 5); ("grouped-counts", 5); ("conditional-field", 5); 
        ("deduplicated-array", 4); ("joined-records", 7); ("cross-field-status", 6); ("hierarchy-tree", 8); 
        ("schedule-slots", 7); ("invoice-aggregation", 6); ("permission-matrix", 8); 
        ("rule-derived-summary", 8) ]
  | BC_QA =>
      [ ("direct-location", 1); ("attribute-lookup", 1); ("two-fact-sum", 2); ("temporal-latest", 4); 
        ("difference-comparison", 2); ("exception-owner", 6); ("multi-passage-link", 5); 
        ("schedule-intersection", 5); ("conditional-count", 4); ("state-after-updates", 3); 
        ("rank-with-tie-rule", 4); ("dependency-question", 6); ("policy-date-window", 5); 
        ("multi-step-rate", 3); ("role-chain", 5); ("rule-and-fact-synthesis", 7) ]
  | BC_REASONING =>
      [ ("net-change", 1); ("weighted-total", 2); ("ordered-middle", 2); ("set-intersection", 3); 
        ("state-machine", 5); ("conditional-elimination", 7); ("capacity-allocation", 5); 
        ("cyclic-schedule", 3); ("transitive-implication", 4); ("meeting-slot", 4); 
        ("assignment-enumeration", 5); ("multi-rate-time", 3); ("exclusive-rules", 6); ("bounded-path", 6); 
        ("constraint-ordering", 8); ("resource-sequence", 6) ]
  | BC_SUMMARIZATION =>
      [ ("chronology", 3); ("ownership", 3); ("incident", 4); ("quantitative", 5); ("policy-exception", 5); 
        ("change-over-time", 5); ("causal", 4); ("multi-party-decision", 7); ("process", 6); 
        ("comparison", 5); ("uncertainty", 7); ("nested-exception", 7); ("milestones", 6); ("tradeoff", 6); 
        ("handoff", 6); ("mixed-signal", 8) ]
  end%string%Z.

(** [variant[key]] *)
Definition field (d : py_dict) (key : string) : result exn pyjson :=
  match dict_get d (py key) with Some v => Ok v | None => Raise (Exn C_KeyError) end.

(** ** Difficulties *)

(** A score with the family and the variant it ranks. *)
Definition rank : Type := Z * (pystr * nat).

Definition rank_cmp : rank -> rank -> comparison :=
  lex_cmp (on_key fst Z.compare) (lex_cmp (on_key (fun r => r.2.1) str_cmp) (on_key (fun r => Z.of_nat r.2.2) Z.compare)).

(** [len(variant["prompt"].split())] of a text. *)
Definition prompt_words (v : py_dict) : result exn Z :=
  p ← field v "prompt";
  match p with PJStr s => Ok (Z.of_nat (length (split_ws s))) | _ => Raise (Exn C_AttributeError) end.

Definition rank_of (c : BenchmarkCategory) (f : FamilySpec) (v : nat * py_dict) : result exn rank :=
  score ← match dict_get (map (fun p => (py p.1, p.2)) (CONTENT_COMPLEXITY c)) (slug_ f) with
          | Some n => Ok n | None => Raise (Exn C_KeyError) end;
  words ← prompt_words v.2;
  let harder := if Nat.eqb v.1 1 && existsb (fun x => bool_decide (c = x)) [BC_CODING; BC_SUMMARIZATION] then 1%Z else 0%Z in
  Ok ((score + harder + Z.min 2 (Z.max 0 (words - 35) / 25))%Z, (slug_ f, v.1)).

Definition labels : list Difficulty := repeat DF_easy 8 ++ repeat DF_medium 13 ++ repeat DF_hard 11.

Definition slots (families : list FamilySpec) : list (FamilySpec * (nat * py_dict)) :=
  List.flat_map (fun f => map (pair f) (indexed_variants f)) families.

(** [_difficulty_assignments] *)
Definition difficulty_assignments (c : BenchmarkCategory) (families : list FamilySpec) :
    result exn (list ((pystr * nat) * Difficulty)) :=
  scored ← result_map (fun s => rank_of c s.1 s.2) (slots families);
  let sorted := py_sorted (cmp_le rank_cmp) scored in
  _ ← value_guard (Nat.eqb (length labels) (length sorted));
  Ok (dict_of fst snd (map (fun p => (p.2.2, p.1)) (zip labels sorted))).

(** ** Budgets and metadata *)

(** [_budget] *)
Definition budget (c : BenchmarkCategory) (df : Difficulty) : Z :=
  match c, df with
  | BC_CLASSIFICATION, _ => 32
  | BC_CODING, DF_easy => 128 | BC_CODING, DF_medium => 192 | BC_CODING, DF_hard => 256
  | (BC_EXTRACTION | BC_JSON), DF_easy => 64 | (BC_EXTRACTION | BC_JSON), DF_medium => 128 | (BC_EXTRACTION | BC_JSON), DF_hard => 192
  | BC_QA, DF_easy => 64 | BC_QA, DF_medium => 128 | BC_QA, DF_hard => 160
  | BC_REASONING, _ => 160
  | BC_SUMMARIZATION, DF_easy => 96 | BC_SUMMARIZATION, DF_medium => 128 | BC_SUMMARIZATION, DF_hard => 192
  end%Z.

(** [bool(value)] and [len(value)] *)
Definition truthy (v : pyjson) : bool :=
  match v with
  | PJNull => false | PJBool b => b | PJInt n => negb (n =? 0)%Z | PJFloat f => negb (f_eqb f f_zero)
  | PJStr s => negb (Nat.eqb (length s) 0) | PJArr l => negb (Nat.eqb (length l) 0) | PJObj d => negb (Nat.eqb (length d) 0)
  end.

Definition length_of (v : pyjson) : result exn Z :=
  match v with
  | PJStr s => Ok (Z.of_nat (length s)) | PJArr l => Ok (Z.of_nat (length l)) | PJObj d => Ok (Z.of_nat (length d))
  | _ => Raise (Exn C_TypeError)
  end.

(** [value[0]] *)
Definition first_of (v : pyjson) : result exn pyjson :=
  match v with
  | PJArr (x :: _) => Ok x
  | PJStr (c :: _) => Ok (PJStr [c])
  | PJArr [] | PJStr [] => Raise (Exn C_IndexError)
  | PJObj _ => Raise (Exn C_KeyError)
  | _ => Raise (Exn C_TypeError)
  end.

(** Metadata, output type, canonical answer and threshold of a task. *)
Record TaskContent := mk_TaskContent {
  tc_metadata : py_dict;
  tc_output_type : ExpectedOutputType;
  tc_canonical : pyjson;
  tc_threshold : float
}.

Definition EXECUTION_LIMITS : pyjson :=
  PJObj [(py "timeout_seconds", PJInt 3); (py "memory", PJStr (py "64m")); (py "cpus", PJFloat (f_of_ratio 1 2));
         (py "pids_limit", PJInt 32); (py "network", PJStr (py "none"))].

Definition JUDGE_CONTRACT : pyjson :=
  PJObj [(py "judge_version", PJStr (py "1.0.0")); (py "prompt_version", PJStr (py "summary-rubric-1.0.0"));
         (py "factual_consistency_veto", PJBool true)].

Section Construct.
Context {UD : UnicodeData}.

(** [_task_metadata] *)
Definition task_metadata (c : BenchmarkCategory) (v : py_dict) (df : Difficulty) : result exn TaskContent :=
  let base := (py "difficulty", PJStr (Difficulty_text (Some df))) in
  match c with
  | BC_CLASSIFICATION =>
      e ← field v "expected";
      Ok (mk_TaskContent [base; (py "expected_label", e); (py "canonical_response", e);
            (py "incorrect_response", PJStr (py "NOT_THE_LABEL"))] EO_text e f_one)
  | BC_CODING =>
      name ← field v "function_name"; parameters ← field v "parameters"; ast ← field v "required_ast"; tests ← field v "tests";
      canonical ← field v "canonical"; incorrect ← field v "incorrect";
      Ok (mk_TaskContent [base; (py "evaluation_mode", PJStr (py "static_pending_functional")); (py "function_name", name);
            (py "parameters", parameters); (py "required_ast", ast); (py "functional_tests", tests);
            (py "execution_limits", EXECUTION_LIMITS); (py "canonical_response", canonical); (py "incorrect_response", incorrect)]
            EO_code canonical f_one)
  | BC_EXTRACTION | BC_JSON =>
      e ← field v "expected";
      text_ ← (if json_writable e then Ok (dump_text json_string (py ", ") (py ": ") e) else Raise (Exn C_ValueError));
      Ok (mk_TaskContent [base; (py "expected", e); (py "canonical_response", PJStr text_);
            (py "incorrect_response", PJStr (py "{}"))] EO_json (PJStr text_) f_one)
  | BC_QA =>
      a ← field v "accepted"; x ← first_of a; s ← py_str x;
      Ok (mk_TaskContent [base; (py "accepted_answers", a); (py "canonical_response", PJStr s);
            (py "incorrect_response", PJStr (py "incorrect"))] EO_text (PJStr s) f_one)
  | BC_REASONING =>
      a ← field v "answer"; o ← field v "oracle";
      Ok (mk_TaskContent [base; (py "accepted_answers", PJArr [a]); (py "oracle_spec", o); (py "canonical_response", a);
            (py "incorrect_response", PJStr (py "incorrect"))] EO_text a f_one)
  | BC_SUMMARIZATION =>
      facts ← field v "facts"; forbidden ← field v "forbidden"; requirements ← field v "requirements"; constraints ← field v "constraints";
      Ok (mk_TaskContent [base; (py "required_facts", facts); (py "forbidden_claims", forbidden);
            (py "semantic_requirements", requirements); (py "deterministic_constraints", constraints);
            (py "judge_contract", JUDGE_CONTRACT)] EO_text (PJStr []) (f_of_ratio 8 10))
  end.

(** ** [construct_dataset] *)

Definition counters : Type := list ((BenchmarkCategory * Difficulty) * Z).

Definition SYSTEM_PROMPT : pystr := py "Follow the requested output format exactly. Use only the supplied task information.".

Definition family_id_of (c : BenchmarkCategory) (i : nat) (f : FamilySpec) : pystr :=
  py "rbv1-" ++ BenchmarkCategory_value c ++ py "-" ++ padded 2 (Z.of_nat i) ++ py "-" ++ slug_ f.

(** One task of the family number [i], with the counters it leaves. *)
Definition construct_task (c : BenchmarkCategory) (difficulties : list ((pystr * nat) * Difficulty)) (i : nat) (f : FamilySpec)
    (v : nat * py_dict) (ns : counters) : result exn (BenchmarkTask * counters) :=
  df ← match dict_get difficulties (slug_ f, v.1) with Some df => Ok df | None => Raise (Exn C_KeyError) end;
  let n := (default 0 (dict_get ns (c, df)) + 1)%Z in
  let id := BenchmarkCategory_value c ++ py "-" ++ Difficulty_text (Some df) ++ py "-" ++ padded 3 n in
  content ← task_metadata c v.2 df;
  let limit := budget c df in
  _ ← (if truthy (tc_canonical content)
       then size ← length_of (tc_canonical content); value_guard (Z.max 1 ((size + 3) / 4) <=? four_fifths limit)%Z
       else Ok tt);
  p ← field v.2 "prompt";
  t ← match p with
      | PJStr s => Ok (mk_BenchmarkTask s (Some SYSTEM_PROMPT) limit f_zero id c (tc_output_type content) (tc_metadata content)
                         (Some (tc_threshold content)) (map py ["routing-benchmark-v1"; "new"; "evaluation-only-metadata"]%string)
                         (Some (family_id_of c i f)) (Some ST_controlled_programmatic_construction)
                         (Some (py "routing-benchmark-v1/" ++ BenchmarkCategory_value c ++ py "/" ++ slug_ f ++ py "@1"))
                         (Some (SPLIT_SEED + Z.of_nat i * 10 + Z.of_nat v.1 + 1)%Z) (Some (EVALUATOR_TYPES c))
                         (Some (py (if Nat.eqb v.1 0 then "a" else "b"))))
      | _ => Raise (Exn C_ValidationError)
      end;
  _ ← validated (BenchmarkTask_validate t);
  Ok (t, dict_set ns (c, df) n).

(** Left to right with the counters. *)
Fixpoint construct_all {A : Type} (build : A -> counters -> result exn (list BenchmarkTask * counters)) (l : list A) (ns : counters) :
    result exn (list BenchmarkTask * counters) :=
  match l with
  | [] => Ok ([], ns)
  | x :: l' =>
      r ← build x ns;
      s ← construct_all build l' r.2;
      Ok (r.1 ++ s.1, s.2)
  end.

Definition construct_family (c : BenchmarkCategory) (difficulties : list ((pystr * nat) * Difficulty)) (e : nat * FamilySpec) :
    counters -> result exn (list BenchmarkTask * counters) :=
  construct_all (fun v ns => r ← construct_task c difficulties e.1 e.2 v ns; Ok ([r.1], r.2)) (indexed_variants e.2).

Definition enumerate_from_1 (families : list FamilySpec) : list (nat * FamilySpec) := zip (seq 1 (length families)) families.

Definition construct_category (families : list FamilySpec) (c : BenchmarkCategory) (ns : counters) :
    result exn (list BenchmarkTask * counters) :=
  difficulties ← difficulty_assignments c families;
  _ ← value_guard (Nat.eqb (length families) 16 && Nat.eqb (length (remove_dups (map slug_ families))) 16);
  construct_all (construct_family c difficulties) (enumerate_from_1 families) ns.

(** The families of each category are those of its builder, as redesigned. *)
Definition construct_dataset (sha256 : list N -> pystr) (families : BenchmarkCategory -> list FamilySpec) : result exn BenchmarkDataset :=
  r ← construct_all (fun c => construct_category (families c) c) CATEGORIES [];
  digest ← canonical_sha256 sha256 BENCHMARK_NAME BENCHMARK_VERSION r.1;
  let d := mk_BenchmarkDataset BENCHMARK_NAME BENCHMARK_VERSION r.1 digest in
  _ ← validated (BenchmarkDataset_validate d);
  Ok d.
End Construct.

(** ** What construction builds *)

Lemma Forall2_flat_map {A B C} (Q : B -> C -> Prop) (g : A -> list B) l cs : Forall2 (fun x ys => Forall2 Q (g x) ys) l cs ->
  Forall2 Q (List.flat_map g l) (List.concat cs).
Proof. intros F. induction F as [|x ys l cs H F IH]; [constructor|]. cbn [List.flat_map List.concat]. by apply Forall2_app. Qed.


Section Shape.
Context {UD : UnicodeData}.

(** A task of the family number [i], its variant and the difficulties. *)
Definition slot : Type := (nat * FamilySpec) * (nat * py_dict).

Definition slot_key (s : slot) : pystr * nat := (slug_ s.1.2, s.2.1).

Record task_of (c : BenchmarkCategory) (difficulties : list ((pystr * nat) * Difficulty)) (s : slot) (t : BenchmarkTask) : Prop := {
  to_category : bt_category t = c;
  to_difficulty : difficulty t = Ok (dict_get difficulties (slot_key s));
  to_known : is_Some (dict_get difficulties (slot_key s));
  to_family : task_family_id t = Some (family_id_of c s.1.1 s.1.2);
  to_valid : BenchmarkTask_validate t = Ok tt;
  to_evaluator : evaluator_type t = Some (EVALUATOR_TYPES c);
  to_budget : ((TOKEN_RANGES c).1 <= bt_max_output_tokens t <= (TOKEN_RANGES c).2)%Z
}.

Lemma budget_in_range c df : ((TOKEN_RANGES c).1 <= budget c df <= (TOKEN_RANGES c).2)%Z.
Proof. destruct c, df; cbn; lia. Qed.

Lemma metadata_difficulty c v df content : task_metadata c v df = Ok content ->
  exists rest, tc_metadata content = (py "difficulty", PJStr (Difficulty_text (Some df))) :: rest.
Proof.
  unfold task_metadata. intros H. destruct c;
    repeat (apply bind_ok in H as (? & _ & H)); inv_result; by eexists.
Qed.

Lemma difficulty_text t df rest : evaluation_metadata t = (py "difficulty", PJStr (Difficulty_text (Some df))) :: rest ->
  difficulty t = Ok (Some df).
Proof.
  intros E. unfold difficulty. rewrite E.
  replace (dict_get _ _) with (Some (PJStr (Difficulty_text (Some df)))) by (cbn [dict_get]; by rewrite decide_True).
  by destruct df.
Qed.

Lemma construct_task_ok c ds i f v ns t ns' : construct_task c ds i f v ns = Ok (t, ns') -> task_of c ds ((i, f), v) t.
Proof.
  unfold construct_task. intros H. apply bind_ok in H as (df & D & H). destruct (dict_get ds (slug_ f, v.1)) as [df'|] eqn:E; [|discriminate D].
  inv_result. apply bind_ok in H as (content & M & H). apply bind_ok in H as (? & _ & H). apply bind_ok in H as (p & _ & H).
  apply bind_ok in H as (t' & T & H). apply bind_ok in H as ([] & V & H). inv_result.
  destruct p as [| | | |s| |]; try discriminate T. inv_result. destruct (metadata_difficulty _ _ _ _ M) as [rest R].
  split; try done.
  - unfold slot_key. cbn [fst snd]. rewrite E. by apply (difficulty_text _ df rest).
  - unfold validated in V. by destruct (BenchmarkTask_validate _) as [[]|].
  - apply budget_in_range.
Qed.

Lemma construct_all_ok {A} (build : A -> counters -> result exn (list BenchmarkTask * counters)) (P : A -> list BenchmarkTask -> Prop) :
  (forall x ns r, build x ns = Ok r -> P x r.1) -> forall l ns r, construct_all build l ns = Ok r ->
  exists groups, r.1 = List.concat groups /\ Forall2 P l groups.
Proof.
  intros B l. induction l as [|x l IH]; intros ns r H; cbn [construct_all] in H.
  - inv_result. exists []. split; [done|constructor].
  - apply bind_ok in H as (a & X & H). apply bind_ok in H as (b & Y & H). inv_result.
    destruct (IH _ _ Y) as (groups & G & F). exists (a.1 :: groups). cbn [fst List.concat]. rewrite G. split; [done|].
    constructor; [by apply (B x ns)|done].
Qed.

Definition family_slots (e : nat * FamilySpec) : list slot := map (pair e) (indexed_variants e.2).
Definition category_slots (families : list FamilySpec) : list slot := List.flat_map family_slots (enumerate_from_1 families).

Lemma construct_category_ok families c ns r : construct_category families c ns = Ok r ->
  exists ds, difficulty_assignments c families = Ok ds /\ length families = 16 /\ NoDup (map slug_ families) /\
    Forall2 (task_of c ds) (category_slots families) r.1.
Proof.
  unfold construct_category. intros H. apply bind_ok in H as (ds & D & H). apply bind_ok in H as (? & G%value_guard_ok & H). bools.
  exists ds. split; [done|]. split; [done|]. split.
  { apply all_distinct_true. unfold all_distinct. rewrite length_map. apply Nat.eqb_eq. congruence. }
  assert (Family : forall e ns' r', construct_family c ds e ns' = Ok r' -> Forall2 (task_of c ds) (family_slots e) r'.1).
  { intros e ns' r' R.
    assert (Variant : forall v ns2 r2, (q ← construct_task c ds e.1 e.2 v ns2; Ok ([q.1], q.2)) = Ok r2 ->
              exists t, r2.1 = [t] /\ task_of c ds (e, v) t).
    { intros v ns2 r2 R2. apply bind_ok in R2 as ([t ns3] & T & R2). inv_result. exists t. split; [done|].
      destruct e as [i f]. by apply (construct_task_ok c ds i f v ns2 t ns3). }
    destruct (construct_all_ok _ (fun v ts => exists t, ts = [t] /\ task_of c ds (e, v) t) Variant _ _ _ R) as (gs & -> & F).
    unfold family_slots. clear R. induction F as [|v ts l gs (t & -> & T) F IH]; [constructor|]. cbn [map List.concat app]. by constructor. }
  destruct (construct_all_ok (construct_family c ds) (fun e ts => Forall2 (task_of c ds) (family_slots e) ts) Family _ _ _ H) as (groups & -> & F). by apply Forall2_flat_map.
Qed.
End Shape.

(** ** Difficulties of a category *)

Lemma counter_is_perm {A} `{EqDecision A} expected (l k : list A) : l ≡ₚ k -> counter_is expected l = true -> counter_is expected k = true.
Proof.
  unfold counter_is. intros P H. bools. apply andb_true_iff. rewrite !forallb_forall in *. split.
  - intros e E. rewrite <- (count_perm _ _ _ P). by apply H.
  - intros x X. apply H0, list_elem_of_In. rewrite P. by apply list_elem_of_In.
Qed.

Lemma map_fst_zip {A B} (a : list A) (b : list B) : length a = length b -> map fst (zip a b) = a /\ map snd (zip a b) = b.
Proof.
  revert b. induction a as [|x a IH]; intros [|y b] L; try discriminate L; [done|]. cbn [zip zip_with map fst snd].
  destruct (IH b) as [-> ->]; [by injection L|done].
Qed.

Lemma scored_keys c l ranks : result_map (fun s => rank_of c s.1 s.2) l = Ok ranks ->
  map snd ranks = map (fun s : FamilySpec * (nat * py_dict) => (slug_ s.1, s.2.1)) l.
Proof.
  intros H%result_map_ok. induction H as [|s r l ranks H F IH]; [done|]. cbn [map]. rewrite IH. f_equal.
  unfold rank_of in H. apply bind_ok in H as (? & _ & H). apply bind_ok in H as (? & _ & H). by inv_result.
Qed.

Lemma slots_keys families : map (fun s : FamilySpec * (nat * py_dict) => (slug_ s.1, s.2.1)) (slots families) =
  map slot_key (category_slots families).
Proof.
  unfold slots, category_slots, enumerate_from_1. generalize 1. induction families as [|f l IH]; intros n; [done|].
  cbn [length seq zip zip_with List.flat_map map]. rewrite !map_app, (IH (S n)). reflexivity.
Qed.

Lemma slot_keys_distinct families : NoDup (map slug_ families) ->
  NoDup (map (fun s : FamilySpec * (nat * py_dict) => (slug_ s.1, s.2.1)) (slots families)).
Proof.
  intros N. induction families as [|f l IH]; [constructor|]. cbn [map] in N. inversion N as [|? ? Nf Nl]; subst.
  unfold slots. cbn [List.flat_map]. rewrite map_app. apply NoDup_app. split; [|split; [|by apply IH]].
  - cbn. apply NoDup_cons. split; [|apply NoDup_singleton]. intros H. apply list_elem_of_singleton in H. discriminate H.
  - intros k K K'. apply Nf. apply list_elem_of_In, in_map_iff in K' as ([g v] & <- & K'). apply in_flat_map in K' as (g' & G & K').
    apply in_map_iff in K' as (v' & E & _). injection E as -> ->. cbn [fst snd] in K.
    cbn in K. apply elem_of_cons in K as [K|K]; [|apply list_elem_of_singleton in K]; injection K as K _;
      apply list_elem_of_In, in_map_iff; by exists g.
Qed.

(** The difficulties of the slots are the labels. *)
Lemma slot_difficulties c families ds : difficulty_assignments c families = Ok ds -> NoDup (map slug_ families) ->
  map (dict_get ds) (map slot_key (category_slots families)) ≡ₚ map Some labels.
Proof.
  unfold difficulty_assignments. intros H N. apply bind_ok in H as (ranks & R & H). apply bind_ok in H as (? & L%value_guard_ok & H). injection H as H.
  set (sorted := py_sorted (cmp_le rank_cmp) ranks) in *.
  destruct (map_fst_zip labels sorted (proj1 (Nat.eqb_eq _ _) L)) as [Z1 Z2].
  set (table := map (fun p : Difficulty * rank => (p.2.2, p.1)) (zip labels sorted)) in *.
  assert (K : map fst table = map snd sorted) by (transitivity (map snd (map snd (zip labels sorted))); [unfold table; by rewrite !map_map|by rewrite Z2]).
  assert (V : map snd table = labels) by (unfold table; rewrite map_map; exact Z1).
  assert (P : map fst table ≡ₚ map slot_key (category_slots families)).
  { rewrite K, <- slots_keys, <- (scored_keys c _ _ R). apply Permutation_map, py_sorted_perm. }
  assert (D : NoDup (map fst table)) by (rewrite P, <- slots_keys; by apply slot_keys_distinct).
  assert (E : dict_of fst snd table = table).
  { rewrite dict_of_distinct by done. rewrite <- (map_id table) at 2. apply map_ext. by intros []. }
  assert (T : ds = table) by (rewrite <- H; exact E). rewrite T, <- V, <- P, !map_map.
  apply Permutation_refl', map_ext_in. intros [k v] I. cbn [fst snd]. apply dict_get_nodup; [exact D|by apply list_elem_of_In].
Qed.

(** ** Families of a category *)

Lemma lstrip_by_stop p a x r : forallb p a = true -> p x = false -> lstrip_by p (a ++ x :: r) = x :: r.
Proof.
  intros A X. induction a as [|y a IH]; cbn [app lstrip_by].
  - by rewrite X.
  - cbn [forallb] in A. bools. rewrite H. by apply IH.
Qed.

Definition slug_char (c : N) : bool := is_ascii_lower c || is_ascii_digit c || in_chars (py "_-") c.

Section Families.
Context {UD : UnicodeData}.

Lemma family_number_parts cat a b s : cat <> [] -> forallb is_ascii_lower cat = true -> s <> [] -> forallb slug_char s = true ->
  family_number (py "rbv1-" ++ cat ++ py "-" ++ [a; b] ++ py "-" ++ s) =
  match digit_of a, digit_of b with Some x, Some y => Some (10 * x + y)%N | _, _ => None end.
Proof.
  intros C L S F. unfold family_number. rewrite (proj2 (startswith_app _ _)) by (by eexists).
  change (skipn 5 (py "rbv1-" ++ ?x)) with x. cbn [skipn].
  change (py "-") with [45%N]. cbn [app]. rewrite (lstrip_by_stop is_ascii_lower cat 45) by done.
  rewrite length_app. replace (negb (Nat.eqb _ _)) with true.
  - destruct s; [done|]. cbn [length Nat.eqb negb andb N.eqb]. change (forallb _ (n :: s)) with (forallb slug_char (n :: s)). by rewrite F.
  - symmetry. apply negb_true_iff, Nat.eqb_neq. destruct cat; [done|]. cbn [length]. lia.
Qed.

(** The sixteen numbers of the families, in two digits. *)
Lemma padded_digits i : i ∈ seq 1 16 -> exists a b x y, padded 2 (Z.of_nat i) = [a; b] /\ digit_of a = Some x /\ digit_of b = Some y /\
  (10 * x + y)%N = N.of_nat i.
Proof.
  intros H. apply elem_of_seq in H. destruct H as [L U].
  do 17 (destruct i as [|i]; [try lia; by do 4 eexists; repeat split|]). lia.
Qed.

Lemma category_letters c : BenchmarkCategory_value c <> [] /\ forallb is_ascii_lower (BenchmarkCategory_value c) = true.
Proof. by destruct c. Qed.

Lemma family_number_of c i f : i ∈ seq 1 16 -> slug_ f <> [] -> slug (family_id_of c i f) = true ->
  family_number (family_id_of c i f) = Some (N.of_nat i).
Proof.
  intros I S V. destruct (padded_digits i I) as (a & b & x & y & P & A & B & E). destruct (category_letters c) as [C L].
  unfold family_id_of in *. rewrite P in *. rewrite family_number_parts; [by rewrite A, B, E|done|done|done|].
  change (forallb slug_char (py "bv1-" ++ BenchmarkCategory_value c ++ py "-" ++ [a; b] ++ py "-" ++ slug_ f) = true) in V || unfold slug in V.
  rewrite !forallb_app in V. by bools.
Qed.

Lemma family_split_of c i f : i ∈ seq 1 16 -> slug_ f <> [] -> slug (family_id_of c i f) = true ->
  split_for_family (family_id_of c i f) = match FAMILY_SPLITS !! (i - 1) with Some s => Ok s | None => Raise (Exn C_IndexError) end.
Proof.
  intros I S V. unfold split_for_family. rewrite family_number_of by done. apply elem_of_seq in I.
  replace ((1 <=? N.of_nat i)%N && _) with true.
  - by replace (N.to_nat (N.of_nat i - 1)) with (i - 1) by lia.
  - symmetry. apply andb_true_iff. split; apply N.leb_le; [lia|]. change (length FAMILY_SPLITS) with 16. lia.
Qed.
End Families.

(** ** One category *)

Lemma count_Forall2 {A B} (R : A -> B -> Prop) p q l k : Forall2 R l k -> (forall x y, R x y -> p x = q y) -> count p l = count q k.
Proof.
  intros F H. unfold count. induction F as [|x y l k X F IH]; [done|]. cbn [List.filter]. rewrite (H x y X). destruct (q y); cbn [length]; lia.
Qed.

Lemma Forall2_same_in {A B} (R : A -> B -> Prop) l k : Forall2 R l k -> Forall2 (fun x y => x ∈ l /\ R x y) l k.
Proof.
  intros F. induction F as [|x y l k X F IH]; [constructor|]. constructor; [split; [apply elem_of_cons; by left|done]|].
  eapply Forall2_impl; [exact IH|]. intros a b [A_ B_]. split; [apply elem_of_cons; by right|done].
Qed.

Lemma map_Forall2 {A B C} (R : A -> B -> Prop) (f : A -> C) g l k : Forall2 R l k -> (forall x y, R x y -> f x = g y) -> map f l = map g k.
Proof. intros F H. induction F as [|x y l k X F IH]; [done|]. cbn [map]. by rewrite (H x y X), IH. Qed.

Lemma slots_count q families : count (fun s : slot => q s.1) (category_slots families) = (2 * count q (enumerate_from_1 families))%Z.
Proof.
  unfold category_slots. induction (enumerate_from_1 families) as [|e l IH]; [done|]. cbn [List.flat_map]. rewrite count_app, IH.
  unfold family_slots, indexed_variants, count. cbn [map List.filter fst]. destruct (q e); cbn [length]; lia.
Qed.

Lemma slots_in e families v : ((e, v) : slot) ∈ category_slots families -> e ∈ enumerate_from_1 families.
Proof.
  unfold category_slots. intros H. apply list_elem_of_In, in_flat_map in H as (x & X & H). unfold family_slots in H.
  apply in_map_iff in H as (w & E & _). injection E as <- _. by apply list_elem_of_In.
Qed.

Lemma slots_all e families : e ∈ enumerate_from_1 families -> ((e, (0, (variants e.2).1)) : slot) ∈ category_slots families.
Proof.
  intros H. unfold category_slots. apply list_elem_of_In, in_flat_map. exists e. split; [by apply list_elem_of_In|]. cbn. by left.
Qed.

Lemma enumerate_fst families : map fst (enumerate_from_1 families) = seq 1 (length families).
Proof. unfold enumerate_from_1. apply map_fst_zip. by rewrite length_seq. Qed.

Lemma enumerate_snd families : map snd (enumerate_from_1 families) = families.
Proof. unfold enumerate_from_1. apply map_fst_zip. by rewrite length_seq. Qed.

(** A value occurs once among distinct ones. *)
Lemma count_distinct {A} `{EqDecision A} (l : list A) x : NoDup l -> (count (fun y => bool_decide (y = x)) l <= 1)%Z.
Proof.
  intros N. unfold count. induction N as [|y l Y N IH]; [done|]. cbn [List.filter]. case_bool_decide as E; [|done].
  subst y. rewrite (filter_all_false _ l); [done|]. intros z Z. apply bool_decide_eq_false. by intros ->.
Qed.

Section Category.
Context {UD : UnicodeData} (c : BenchmarkCategory) (families : list FamilySpec) (ds : list ((pystr * nat) * Difficulty)) (ts : list BenchmarkTask).
Context (D : difficulty_assignments c families = Ok ds) (L : length families = 16) (N : NoDup (map slug_ families)).
Context (S_ : forall f, f ∈ families -> slug_ f <> []) (F : Forall2 (task_of c ds) (category_slots families) ts).

Lemma category_length : length ts = 32.
Proof.
  rewrite <- (Forall2_length _ _ _ F). pose proof (slots_count (fun _ => true) families) as C. unfold count in C.
  rewrite !(filter_all_true (fun _ => true)) in C by done.
  rewrite <- (length_map fst (enumerate_from_1 families)), enumerate_fst, length_seq, L in C. lia.
Qed.

Lemma category_all t : t ∈ ts -> exists s, s ∈ category_slots families /\ task_of c ds s t.
Proof.
  intros [i Hi]%list_elem_of_lookup. destruct (Forall2_lookup_r _ _ _ _ _ F Hi) as (s & Hs & T). exists s. split; [|done].
  by eapply list_elem_of_lookup_2.
Qed.

Lemma category_difficulties : exists l, result_map difficulty ts = Ok l /\ counter_is DIFFICULTY_COUNTS l = true.
Proof.
  exists (map (fun t => the None (difficulty t)) ts). split.
  - apply result_map_map. intros t T. destruct (category_all t T) as (s & _ & K). by rewrite (to_difficulty _ _ _ _ K).
  - rewrite <- (map_Forall2 _ (fun s => dict_get ds (slot_key s)) _ _ _ F).
    + rewrite <- map_map. eapply counter_is_perm; [symmetry; by apply (slot_difficulties c families ds D N)|]. by vm_compute.
    + intros s t K. by rewrite (to_difficulty _ _ _ _ K).
Qed.

(** The identifiers of the families and their splits. *)
Definition fid (e : nat * FamilySpec) : pystr := family_id_of c e.1 e.2.

Lemma enumerated e : e ∈ enumerate_from_1 families -> e.1 ∈ seq 1 16 /\ slug_ e.2 <> [] /\ slug (fid e) = true.
Proof.
  intros E. split; [rewrite <- L, <- enumerate_fst; apply elem_of_map; by exists e|]. split.
  - apply S_. rewrite <- (enumerate_snd families). apply elem_of_map. by exists e.
  - pose proof (slots_all e families E) as [i Hi]%list_elem_of_lookup. destruct (Forall2_lookup_l _ _ _ _ _ F Hi) as (t & _ & K).
    pose proof (to_valid _ _ _ _ K) as V. unfold BenchmarkTask_validate in V.
    apply bind_ok in V as (? & _ & V). inv_checks. rewrite (to_family _ _ _ _ K) in *. done.
Qed.

Lemma fid_number e : e ∈ enumerate_from_1 families -> family_number (fid e) = Some (N.of_nat e.1).
Proof. intros E. destruct (enumerated e E) as (I & S & V). by apply family_number_of. Qed.

Lemma fid_distinct : NoDup (map fid (enumerate_from_1 families)).
Proof.
  assert (M : map (fun x => default 0%N (family_number x)) (map fid (enumerate_from_1 families)) = map N.of_nat (seq 1 16)).
  { rewrite map_map, <- L, <- enumerate_fst, map_map. apply map_ext_in. intros e E. apply list_elem_of_In in E. by rewrite fid_number. }
  apply (NoDup_fmap_1 (fun x => default 0%N (family_number x))). change (NoDup (map (fun x => default 0%N (family_number x)) (map fid (enumerate_from_1 families)))).
  rewrite M. decided.
Qed.

Lemma category_families : map task_family_id ts = map (fun s : slot => Some (fid s.1)) (category_slots families).
Proof. symmetry. apply (map_Forall2 _ _ _ _ _ F). intros s t K. by rewrite (to_family _ _ _ _ K). Qed.

Lemma category_rules_hold l : of_category c l = ts -> category_rules l c = Ok tt.
Proof.
  intros E. unfold category_rules. rewrite E. destruct category_difficulties as (k & -> & K). rsimpl.
  rewrite (value_guard_true _ K). rsimpl. rewrite category_families.
  set (fs := map (fun s : slot => Some (fid s.1)) (category_slots families)).
  assert (M : forall x, x ∈ fs <-> x ∈ map Some (map fid (enumerate_from_1 families))).
  { intros x. unfold fs. rewrite map_map, !elem_of_map. split.
    - intros ([e v] & -> & H). exists e. split; [done|]. by apply slots_in in H.
    - intros (e & -> & H). exists (e, (0, (variants e.2).1)). split; [done|]. by apply slots_all. }
  assert (Nd : NoDup (map Some (map fid (enumerate_from_1 families)))) by (apply (NoDup_fmap_2 Some), fid_distinct).
  rewrite (value_guard_true (_ && _)).
  - rsimpl. apply value_guard_true, forallb_forall. intros x X. apply Z.leb_le. unfold fs. rewrite count_map.
    set (q := fun e => bool_decide (Some (fid e) = x)). change (count (fun s : slot => q s.1) (category_slots families) <= 2)%Z.
    rewrite slots_count. enough (count q (enumerate_from_1 families) <= 1)%Z by lia.
    assert (Q : count q (enumerate_from_1 families) = count (fun y => bool_decide (y = x)) (map Some (map fid (enumerate_from_1 families))))
      by (rewrite !count_map; done).
    rewrite Q. by apply count_distinct.
  - apply andb_true_iff. split.
    + apply negb_true_iff, bool_decide_eq_false. rewrite M, elem_of_map. by intros (y & ? & _).
    + apply Nat.leb_le. rewrite (same_length (remove_dups fs) _ (NoDup_remove_dups fs) Nd).
      * rewrite !length_map, <- (length_map fst (enumerate_from_1 families)), enumerate_fst, length_seq, L. done.
      * intros x. rewrite elem_of_remove_dups. apply M.
Qed.

Lemma category_split t : t ∈ ts -> exists s, family_split t = Ok s.
Proof.
  intros T. destruct (category_all t T) as ([e v] & H & K). apply slots_in in H. destruct (enumerated e H) as (I & S & V).
  unfold family_split. rewrite (to_family _ _ _ _ K). cbn [from_option id fst]. rewrite family_split_of by done.
  apply elem_of_seq in I. destruct (lookup_lt_is_Some_2 FAMILY_SPLITS (e.1 - 1)) as [s ->]; [change (length FAMILY_SPLITS) with 16; lia|by exists s].
Qed.

Lemma category_split_count s : count (has_split s) ts = SPLIT_COUNTS s.
Proof.
  set (q := fun e : nat * FamilySpec => bool_decide (FAMILY_SPLITS !! (e.1 - 1) = Some s)).
  rewrite <- (count_Forall2 (fun x t => x ∈ category_slots families /\ task_of c ds x t) (fun x : slot => q x.1) _ (category_slots families)).
  - rewrite slots_count.
    assert (Q : count q (enumerate_from_1 families) =
                count (fun i => bool_decide (FAMILY_SPLITS !! (i - 1) = Some s)) (map fst (enumerate_from_1 families))) by (rewrite count_map; done).
    rewrite Q, enumerate_fst, L. by destruct s.
  - apply Forall2_same_in. done.
  - intros [e v] t [H K]. apply slots_in in H. destruct (enumerated e H) as (I & S & V). unfold q, has_split, family_split.
    rewrite (to_family _ _ _ _ K). cbn [from_option id fst]. rewrite family_split_of by done. apply bool_decide_ext.
    destruct (FAMILY_SPLITS !! (e.1 - 1)); split; congruence.
Qed.
End Category.

(** ** The dataset *)

Section Dataset.
Context {UD : UnicodeData} (sha256 : list N -> pystr) (families : BenchmarkCategory -> list FamilySpec).
Context (named : forall c f, f ∈ families c -> slug_ f <> []).
Context (d : BenchmarkDataset) (built : construct_dataset sha256 families = Ok d).

(** The tasks of one category. *)
Definition group_of (c : BenchmarkCategory) (ts : list BenchmarkTask) : Prop := exists ds,
  difficulty_assignments c (families c) = Ok ds /\ length (families c) = 16 /\ NoDup (map slug_ (families c)) /\
  Forall2 (task_of c ds) (category_slots (families c)) ts.

Lemma dataset_groups : BenchmarkDataset_validate d = Ok tt /\
  exists g, tasks d = concat (map g CATEGORIES) /\ forall c, group_of c (g c).
Proof.
  pose proof built as H. unfold construct_dataset in H. apply bind_ok in H as (r & R & H). apply bind_ok in H as (digest & _ & H).
  apply bind_ok in H as ([] & V & H). inv_result. split.
  { unfold validated in V. by destruct (BenchmarkDataset_validate _) as [[]|]. }
  destruct (construct_all_ok (fun c => construct_category (families c) c) group_of) with (2 := R) as (groups & G & F).
  { intros c ns q Q. by apply (construct_category_ok (families c) c ns q). }
  exists (fun c => default [] (dict_get (zip CATEGORIES groups) c)). cbn [tasks]. rewrite G. clear G V R.
  unfold CATEGORIES in *. repeat match goal with H : Forall2 _ (_ :: _) _ |- _ => inversion H; clear H; subst end.
  match goal with H : Forall2 _ [] _ |- _ => inversion H; subst end. split; [reflexivity|]. by intros [].
Qed.

Lemma group_in_category c ts t : group_of c ts -> t ∈ ts -> bt_category t = c.
Proof. intros (ds & _ & _ & _ & F) T. destruct (category_all c _ ds ts F t T) as (s & _ & K). exact (to_category _ _ _ _ K). Qed.

Lemma group_tasks g c : tasks d = concat (map g CATEGORIES) -> (forall c, group_of c (g c)) -> of_category c (tasks d) = g c.
Proof.
  intros -> G. unfold of_category. apply (filter_groups bt_category (fun c => c)); [done|decided|apply in_categories|].
  intros j t T. by apply (group_in_category j (g j)).
Qed.

Lemma constructed_cells c s : cell d c s = SPLIT_COUNTS s.
Proof.
  destruct dataset_groups as (_ & g & E & G). destruct (G c) as (ds & D & L & N & F).
  rewrite <- (category_split_count c (families c) ds (g c) L (named c) F s), <- (group_tasks g c E G).
  symmetry. apply filter_filter_count.
Qed.

Lemma constructed_length : length (tasks d) = 224.
Proof.
  destruct dataset_groups as (_ & g & -> & G). rewrite (length_concat_const _ 32), length_map; [done|].
  intros ts T. apply elem_of_map in T as (c & -> & _). destruct (G c) as (ds & D & L & N & F). by apply (category_length c (families c) ds).
Qed.

Lemma constructed_task t : t ∈ tasks d -> (exists df, difficulty t = Ok df) /\ (exists s, family_split t = Ok s) /\
  BenchmarkTask_validate t = Ok tt /\ evaluator_type t = Some (EVALUATOR_TYPES (bt_category t)) /\
  ((TOKEN_RANGES (bt_category t)).1 <= bt_max_output_tokens t <= (TOKEN_RANGES (bt_category t)).2)%Z.
Proof.
  destruct dataset_groups as (_ & g & -> & G). intros (c & _ & T)%elem_of_concat_map. destruct (G c) as (ds & D & L & N & F).
  destruct (category_all c _ ds (g c) F t T) as (s & _ & K). split; [eexists; exact (to_difficulty _ _ _ _ K)|].
  split; [by apply (category_split c (families c) ds (g c) L (named c) F)|]. rewrite (to_category _ _ _ _ K).
  split; [exact (to_valid _ _ _ _ K)|]. split; [exact (to_evaluator _ _ _ _ K)|exact (to_budget _ _ _ _ K)].
Qed.
End Dataset.

(** C27. Whatever the authored families, a dataset that is constructed has the
    shape the benchmark demands: 32 tasks of each category, 8 easy, 13 medium
    and 11 hard, in 16 families of two, each task with its evaluator and a
    budget in its range; and its split manifest can be built and validates. *)
Theorem constructed_dataset_is_balanced `{UD : UnicodeData} sha256 families d :
  (forall c f, f ∈ families c -> slug_ f <> []) -> construct_dataset sha256 families = Ok d ->
  counter_is (map (fun c => (c, 32%Z)) CATEGORIES) (map bt_category (tasks d)) = true /\
  (forall c, category_rules (tasks d) c = Ok tt) /\
  (forall t, t ∈ tasks d -> evaluator_type t = Some (EVALUATOR_TYPES (bt_category t)) /\
     ((TOKEN_RANGES (bt_category t)).1 <= bt_max_output_tokens t <= (TOKEN_RANGES (bt_category t)).2)%Z) /\
  exists m, build_split_manifest d = Ok m /\ validate_split_manifest d m = Ok tt.
Proof.
  intros Nm B. pose proof (constructed_length sha256 families d B) as L.
  destruct (dataset_groups sha256 families d B) as (_ & g & E & G). split; [|split; [|split]].
  - unfold counter_is. apply andb_true_iff. split; apply forallb_forall.
    + intros x X. apply in_map_iff in X as (c & <- & _). cbn [fst snd]. rewrite count_map. apply Z.eqb_eq.
      destruct (G c) as (ds & D & Lc & N & F). unfold count. change (List.filter _ (tasks d)) with (of_category c (tasks d)).
      rewrite (group_tasks families d g c E G). by rewrite (category_length c (families c) ds (g c) Lc F).
    + intros c _. apply bool_decide_eq_true. rewrite map_map, map_id. apply in_categories.
  - intros c. destruct (G c) as (ds & D & Lc & N & F). apply (category_rules_hold c (families c) ds (g c) D Lc N (Nm c) F).
    by apply (group_tasks families d g c E G).
  - intros t T. by apply (constructed_task sha256 families Nm d B).
  - destruct (result_map_total (fun t => df ← difficulty t; s ← split_for_family (default [] (task_family_id t));
      Ok (manifest_entry t (bt_category t) df s)) (tasks d)) as [entries H].
    + intros t T. destruct (constructed_task sha256 families Nm d B t T) as ((df & ->) & (s & S) & _). rsimpl.
      unfold family_split in S. rewrite S. rsimpl. by eexists.
    + assert (M : exists m, build_split_manifest d = Ok m) by (unfold build_split_manifest; rewrite H; rsimpl; by eexists).
      destruct M as [m M]. exists m. split; [done|]. apply (built_valid_iff d L m M). intros c s. by apply (constructed_cells sha256 families).
Qed.

(** Families with every field a builder may read. *)
Definition sample_variant : py_dict :=
  map (fun p => (py p.1, p.2))
  [ ("prompt", PJStr (py "p")); ("expected", PJStr (py "A")); ("function_name", PJStr (py "f")); ("parameters", PJInt 1);
    ("required_ast", PJArr []); ("tests", PJArr []); ("canonical", PJStr (py "c")); ("incorrect", PJStr (py "i"));
    ("accepted", PJArr [PJStr (py "a")]); ("answer", PJStr (py "b")); ("oracle", PJObj []); ("facts", PJArr []);
    ("forbidden", PJArr []); ("requirements", PJArr []); ("constraints", PJObj []) ]%string.

Definition sample_families (c : BenchmarkCategory) : list FamilySpec :=
  map (fun p => mk_FamilySpec (py p.1) (sample_variant, sample_variant)) (CONTENT_COMPLEXITY c).

Definition sample_construction : result exn BenchmarkDataset := construct_dataset (UD := ascii_tables) (fun _ => []) sample_families.

Lemma sample_constructed : is_ok sample_construction = true.
Proof. vm_compute. reflexivity. Qed.

Lemma constructed_dataset_is_balanced_witness : exists d m, sample_construction = Ok d /\
  build_split_manifest (UD := ascii_tables) d = Ok m /\ validate_split_manifest d m = Ok tt.
Proof.
  pose proof sample_constructed as S. unfold sample_construction in *. destruct (construct_dataset _ _) as [d|] eqn:E; [|discriminate S].
  destruct (constructed_dataset_is_balanced (UD := ascii_tables) (fun _ => []) sample_families d) as (_ & _ & _ & m & M & V).
  - intros c f H. apply list_elem_of_In, in_map_iff in H as (p & <- & H). revert p H. apply List.Forall_forall.
    destruct c; repeat constructor; discriminate.
  - exact E.
  - exists d, m. split; [reflexivity|]. split; [exact M|exact V].
Defined.
