(* ===== verification/FrozenValidation.v ===== *)
(** * Validation of the frozen router ([routing/phase9_dev_validation.py])

    The evidence of the development split with its checks, the predictions of
    the frozen predictor, the routing at the frozen threshold and its account by
    category and candidate.  The report's constants and its text are not
    modelled. *)
From S2P Require Import Prelude BenchmarkSplits BenchmarkConstruction PyStr PyFloat PyDecimal PyUuid PyNum Schemas Errors Json PyRepr Features QualityFeatures Predictor BenchmarkModels Aggregation RoutingExport RoutingAnalysis MLFeatures MLExperiment MLDiagnostics PolicyValidation Sklearn PinAblation Calibration Retraining.

Definition FROZEN_PREDICTOR_SHA256 : pystr := py "502db83a54c4072c9741a8e4c406498ad88ec97e03bce1ddaf3e0a1b0001c0aa".
Definition FROZEN_THRESHOLD : float := f_of_ratio 8 10.

(** The files of the run, parsed. *)
Record DevFiles := mk_DevFiles {
  dv_manifest : result exn pyjson;
  dv_summary : result exn pyjson;
  dv_rows : result exn (list RoutingDatasetRow)
}.

(** [object[key] is not False] *)
Definition not_false (v : pyjson) (key : string) : result exn bool :=
  x ← BenchmarkSplits.item v key; Ok (match x with PJBool false => false | _ => true end).

(** The chain of [or]. *)
Definition dev_differs (run_id : uuid) (manifest configuration : pyjson) : result exn bool :=
  any_result (fun f => f tt)
    [fun _ => differs_str manifest "run_id" (uuid_str run_id);
     fun _ => differs_str configuration "execution_protocol_sha256" PROTOCOL_SHA256;
     fun _ => differs_str configuration "source_dataset_sha256" DATASET_SHA256;
     fun _ => differs_str configuration "execution_split" (py "development");
     fun _ => not_false configuration "final_evaluation_explicitly_unlocked"].

Definition dev_shape (l : list RoutingDatasetRow) : bool :=
  Nat.eqb (length l) 168 && Nat.eqb (length (remove_dups (map row_pair l))) 168 && Nat.eqb (length (remove_dups (map rd_task_id l))) 42.

Definition dev_labels (l : list RoutingDatasetRow) : bool :=
  Nat.eqb (count_rows (has_label LS_valid) l) 140 && Nat.eqb (count_rows (has_label LS_missing) l) 28.

Record DevEvidence := mk_DevEvidence {
  de_dataset : MLExperimentDataset;
  de_exported : list RoutingDatasetRow;
  de_manifest : pyjson;
  de_summary : pyjson
}.

(** [load_dev_evidence] *)
Definition load_dev_evidence (files : DevFiles) (run_id : uuid) : result exn DevEvidence :=
  manifest ← dv_manifest files;
  summary ← dv_summary files;
  exported ← dv_rows files;
  configuration ← BenchmarkSplits.item manifest "configuration";
  differs ← dev_differs run_id manifest configuration;
  _ ← guard_else (negb differs) (Exn C_ValueError);
  selected ← BenchmarkSplits.item manifest "selected_task_ids";
  n ← length_of selected;
  _ ← guard_else (n =? 42)%Z (Exn C_ValueError);
  _ ← guard_else (dev_shape exported) (Exn C_ValueError);
  _ ← guard_else (dev_labels exported) (Exn C_ValueError);
  _ ← guard_else (not_imputed exported) (Exn C_ValueError);
  rows ← result_map ml_row (py_sorted (cmp_le export_cmp) exported);
  Ok (mk_DevEvidence (mk_MLExperimentDataset run_id rows) exported manifest summary).

(** ** The predictions of the frozen predictor *)

Section Predictions.
Context {R : PredictorRuntime} {UD : UnicodeData}.

(** A record of the validation, which has neither variant nor fold. *)
Definition frozen_record (r : MLExperimentRow) (p : float) : Prediction :=
  mk_Prediction OOF_VARIANT (ml_task_id r) (ml_candidate_id r) 0 p (ml_label_status r) (ml_acceptable r).

(** [_predict], from the bytes of the predictor's file: what is read and
    unpickled, and the records.  An object that is no pipeline has no
    [predict_proba]. *)
Definition predict_frozen (ds : MLExperimentDataset) (file : result exn (list N)) : list load_event * result exn (list Prediction) :=
  match file with
  | Raise e => ([EvReadBytes ARTIFACT_MODEL_FILENAME], Raise e)
  | Ok bytes =>
      if negb (str_eqb (sha256_hexdigest bytes) FROZEN_PREDICTOR_SHA256)
      then ([EvReadBytes ARTIFACT_MODEL_FILENAME], Raise (Exn C_ValueError))
      else
        ([EvReadBytes ARTIFACT_MODEL_FILENAME; EvReadBytes ARTIFACT_MODEL_FILENAME; EvUnpickle bytes],
         object ← pickle_loads bytes;
         canonical ← result_map canonical_from_training_row (rows ds);
         match object with
         | None => Raise (Exn C_AttributeError)
         | Some p =>
             matrix ← canonical_feature_matrix canonical;
             scores ← Predictor.predict_proba p matrix;
             ps ← second_column scores;
             _ ← guard_else (Nat.eqb (length (rows ds)) (length ps)) (Exn C_ValueError);
             Ok (map (fun rp => frozen_record rp.1 rp.2) (zip (rows ds) ps))
         end)
  end.
End Predictions.

(** ** The account of the routing *)

Section Account.
Context {UD : UnicodeData} {NP : Numpy} {BM : BinaryMetrics} {CB : Calibrators}.

(** [_candidate_diagnostics] *)
Definition frozen_candidate_diagnostics (records : list Prediction) : result exn (list (pystr * OptionalMetrics)) :=
  result_map (fun c => m ← optional_metrics (List.filter (fun p => bool_decide (pn_candidate_id p = c)) records); Ok (c, m))
    (py_sorted (cmp_le str_cmp) (remove_dups (map pn_candidate_id records))).

Record CategoryRouting := mk_CategoryRouting {
  cr_request_count : Z;
  cr_valid_selected_labels : Z;
  cr_acceptable : Z;
  cr_acceptability : option float;
  cr_mean_quality : option float;
  cr_selected_model_distribution : list (pystr * Z);
  cr_fallback_count : Z
}.

(** Whether a selection's row has the category. *)
Definition selected_in (index : list ((pystr * pystr) * MLExperimentRow)) (category : pystr) (x : RoutedSelection) : result exn bool :=
  r ← row_lookup index (rs_task_id x) (rs_candidate_id x); Ok (bool_decide (ml_category r = category)).

Definition category_account (l : list RoutedSelection) : result exn CategoryRouting :=
  let valid := List.filter rs_valid l in
  let labelled := Z.of_nat (length valid) in
  let good := count rs_accepted valid in
  quality ← mean_quality valid;
  Ok (mk_CategoryRouting (Z.of_nat (length l)) labelled good (share good labelled) quality
        (map (fun g => (g.1, Z.of_nat (length g.2))) (sorted_groups str_cmp (group_by rs_candidate_id l)))
        (count (fun x => flag (rs_fallback_used x)) l)).

(** [_category_routing] *)
Definition frozen_category_routing (ds : MLExperimentDataset) (selections : list RoutedSelection) : result exn (list (pystr * CategoryRouting)) :=
  result_map (fun c =>
    own ← result_filter (selected_in (row_index ds) c) selections;
    a ← category_account own;
    Ok (c, a)) (category_names ds).

(** ** The analysis *)

Record FrozenAnalysis := mk_FrozenAnalysis {
  fa_metrics : OptionalMetrics;
  fa_ranking : Ranking;
  fa_slope : float * float;
  fa_reliability : ReliabilityTable;
  fa_routing : SelectionSummary * RealizedCosts;
  fa_baselines : list (pystr * StudySummary) * Z * decimal;
  fa_categories : list (pystr * CategoryRouting);
  fa_candidates : list (pystr * OptionalMetrics);
  fa_missing_by_candidate : list (pystr * Z);
  fa_missing_by_category : list (pystr * Z);
  fa_missing_by_reason : list (option pystr * Z)
}.

(** [dict(sorted(Counter(key(x) for x in l).items()))] *)
Definition counted {K A : Type} `{EqDecision K} (cmp : K -> K -> comparison) (key : A -> K) (l : list A) : list (K * Z) :=
  map (fun g => (g.1, Z.of_nat (length g.2))) (sorted_groups cmp (group_by key l)).

(** [next(item.missing_label_reason for item in exported if ...)]; inside a
    generator the end of the search is a [RuntimeError]. *)
Definition missing_reason (exported : list RoutingDatasetRow) (r : MLExperimentRow) : result exn (option pystr) :=
  match List.find (fun x => bool_decide (row_pair x = ml_row_key r)) exported with
  | Some x => Ok (missing_label_reason x)
  | None => Raise (Exn C_RuntimeError)
  end.

(** The rows of an export give a reason for every missing label. *)
Definition reason_cmp (a b : option pystr) : comparison := str_cmp (default [] a) (default [] b).

(** [analyze], from the loaded evidence; the figures that the report copies from
    the evaluation summary and the manifest are left out. *)
Definition analyze_frozen `{R : PredictorRuntime} (digest : pystr -> result exn (list N)) (e : DevEvidence) (file : result exn (list N)) :
    result exn FrozenAnalysis :=
  let ds := de_dataset e in
  records ← snd (predict_frozen ds file);
  metrics ← optional_metrics records;
  ranking ← rank_variant records (row_index ds) None;
  slope ← calibration_slope_intercept records;
  reliability ← reliability_table records 10 EQUAL_FREQUENCY;
  frozen ← frozen_data ds (de_exported e);
  baseline ← study_baselines digest frozen ds;
  routed ← route_at_threshold ds records FROZEN_THRESHOLD;
  selections ← enrich_realized_costs ds routed;
  strongest ← entry_of baseline.1.1 ALWAYS_STRONGEST;
  realized_reference ← decimal_text (rz_total_usd (su_realized strongest));
  summary ← summarize_selections selections (Some baseline.2);
  realized ← realized_costs selections (Some realized_reference);
  let missing := List.filter (ml_has_label LS_missing) (rows ds) in
  categories ← frozen_category_routing ds selections;
  candidates ← frozen_candidate_diagnostics records;
  reasons ← result_map (missing_reason (de_exported e)) missing;
  Ok (mk_FrozenAnalysis metrics ranking slope reliability (summary, realized) baseline categories candidates
        (counted str_cmp ml_candidate_id missing) (counted str_cmp ml_category missing) (counted reason_cmp (fun x => x) reasons)).
End Account.

(** ** The predictor is the frozen one *)

Lemma unpickled f g b bytes : EvUnpickle b ∈ [EvReadBytes f; EvReadBytes g; EvUnpickle bytes] -> b = bytes.
Proof. rewrite !elem_of_cons, elem_of_nil. intros [H|[H|[H|[]]]]; [discriminate H..|by injection H]. Qed.

(** Nothing is unpickled but bytes with the frozen digest, and if there are
    predictions, they are those of the pipeline in these bytes: one for each row,
    in the order of the rows. *)
Lemma frozen_predictions `{R : PredictorRuntime} `{UD : UnicodeData} ds file tr r : predict_frozen ds file = (tr, r) ->
  (forall b, EvUnpickle b ∈ tr -> file = Ok b /\ sha256_hexdigest b = FROZEN_PREDICTOR_SHA256) /\
  forall records, r = Ok records -> map prediction_key records = map ml_row_key (rows ds) /\
    exists bytes p canonical matrix scores ps, EvUnpickle bytes ∈ tr /\ pickle_loads bytes = Ok (Some p) /\
      result_map canonical_from_training_row (rows ds) = Ok canonical /\ canonical_feature_matrix canonical = Ok matrix /\
      Predictor.predict_proba p matrix = Ok scores /\ second_column scores = Ok ps /\ map predicted_probability records = ps.
Proof.
  unfold predict_frozen. destruct file as [bytes|e]; [|intros [= <- <-]; split; [intros b Hb; set_solver|done]].
  destruct (str_eqb _ _) eqn:D; cbn [negb]; [apply str_eqb_true in D|intros [= <- <-]; split; [intros b Hb; set_solver|done]].
  intros [= <- <-]. split; [intros b Hb; apply unpickled in Hb as ->; done|]. intros records H.
  apply bind_ok in H as (object & O & H). apply bind_ok in H as (canonical & C & H). destruct object as [p|]; [|done].
  apply bind_ok in H as (matrix & M & H). apply bind_ok in H as (scores & P & H). apply bind_ok in H as (ps & Q & H).
  apply bind_ok in H as (u & L%guard_ok & H). apply Nat.eqb_eq in L. injection H as <-. split.
  - rewrite map_map. change (map (fun x : MLExperimentRow * float => ml_row_key x.1) (zip (rows ds) ps) = map ml_row_key (rows ds)).
    rewrite <- (map_map fst ml_row_key). f_equal. apply fst_zip. lia.
  - exists bytes, p, canonical, matrix, scores, ps. split; [set_solver|]. do 5 (split; [done|]).
    rewrite map_map. change (map (fun x : MLExperimentRow * float => x.2) (zip (rows ds) ps) = ps). apply snd_zip. lia.
Qed.

(** ** Categories account for the selections *)

Lemma result_filter_pure {E A} (p : A -> result E bool) l r : result_filter p l = Ok r ->
  r = List.filter (fun x => match p x with Ok b => b | Raise _ => false end) l /\ forall x, x ∈ l -> is_ok (p x) = true.
Proof.
  revert r. induction l as [|y l IH]; intros r H; cbn [result_filter] in H.
  - injection H as <-. split; [done|]. intros x Hx. by apply elem_of_nil in Hx.
  - apply bind_ok in H as (b & P & H). apply bind_ok in H as (r' & F & H). injection H as <-. destruct (IH r' F) as [-> I].
    cbn [List.filter]. rewrite P. split; [by destruct b|]. intros x Hx. apply elem_of_cons in Hx as [->|Hx]; [by rewrite P|by apply I].
Qed.

Lemma count_by_class {A} (f : A -> pystr) (q : A -> bool) cs : NoDup cs -> forall l, (forall x, x ∈ l -> f x ∈ cs) ->
  foldr Z.add 0%Z (map (fun c => count q (List.filter (fun x => bool_decide (f x = c)) l)) cs) = count q l.
Proof.
  induction 1 as [|c cs Hc N IH]; intros l I.
  - destruct l as [|x l]; [done|]. destruct (not_elem_of_nil (f x)). apply I, elem_of_cons. by left.
  - cbn [map foldr]. set (rest := List.filter (fun x => negb (bool_decide (f x = c))) l).
    assert (R : foldr Z.add 0%Z (map (fun c => count q (List.filter (fun x => bool_decide (f x = c)) rest)) cs) = count q rest).
    { apply IH. intros x Hx. apply filter_in in Hx as [Hx D]. apply negb_true_iff, bool_decide_eq_false in D.
      apply I, elem_of_cons in Hx as [E|Hx]; done. }
    rewrite (map_ext_in _ (fun c => count q (List.filter (fun x => bool_decide (f x = c)) rest))).
    + rewrite R. unfold rest. clear. unfold count. induction l as [|x l IH]; [done|]. cbn [List.filter].
      destruct (bool_decide (f x = c)) eqn:D; cbn [negb List.filter]; destruct (q x); cbn [length]; lia.
    + intros d Hd. f_equal. unfold rest. clear -Hc Hd. induction l as [|x l IH]; [done|]. cbn [List.filter].
      destruct (bool_decide (f x = c)) eqn:D; cbn [negb List.filter].
      * apply bool_decide_eq_true in D. rewrite bool_decide_eq_false_2, IH; [done|]. intros E. apply Hc. apply list_elem_of_In. congruence.
      * by rewrite IH.
Qed.

Lemma count_everything {A} (l : list A) : count (fun _ => true) l = Z.of_nat (length l).
Proof. unfold count. f_equal. induction l as [|x l IH]; [done|]. cbn. by rewrite IH. Qed.

Lemma count_within {A} (p q : A -> bool) l : count p (List.filter q l) = count (fun x => q x && p x) l.
Proof. unfold count. f_equal. induction l as [|x l IH]; [done|]. cbn [List.filter]. destruct (q x); cbn [andb List.filter]; [destruct (p x)|]; cbn [length]; lia. Qed.

Section Categories.
Context {NP : Numpy}.

(** The category of a selection's row. *)
Definition selection_category (ds : MLExperimentDataset) (x : RoutedSelection) : pystr :=
  match row_lookup (row_index ds) (rs_task_id x) (rs_candidate_id x) with Ok r => ml_category r | Raise _ => [] end.

Lemma category_accounts ds ss c own : result_filter (selected_in (row_index ds) c) ss = Ok own ->
  own = List.filter (fun x => bool_decide (selection_category ds x = c)) ss /\
  forall x, x ∈ ss -> selection_category ds x ∈ category_names ds.
Proof.
  intros H. apply result_filter_pure in H as [-> I]. split.
  - apply filter_ext_in. intros x Hx. apply list_elem_of_In, I in Hx. unfold selected_in, selection_category in *.
    by destruct (row_lookup _ _ _).
  - intros x Hx. apply I in Hx. unfold selected_in, selection_category in *. unfold row_lookup in *.
    destruct (dict_get _ _) as [r|] eqn:D; [|done]. cbn. unfold category_names. apply elem_of_py_sorted, elem_of_remove_dups, elem_of_map.
    exists r. split; [done|]. apply dict_of_get in D as (x' & Hx' & _ & ->). done.
Qed.

(** The categories account for all selections: by their requests, valid labels,
    acceptable ones and fallbacks. *)
Theorem frozen_categories_account ds ss cs : rows ds <> [] -> frozen_category_routing ds ss = Ok cs ->
  let total (g : CategoryRouting -> Z) := foldr Z.add 0%Z (map (fun e => g e.2) cs) in
  map fst cs = category_names ds /\ total cr_request_count = Z.of_nat (length ss) /\
  total cr_valid_selected_labels = count rs_valid ss /\
  total cr_acceptable = count (fun x => rs_valid x && rs_accepted x) ss /\
  total cr_fallback_count = count (fun x => flag (rs_fallback_used x)) ss.
Proof.
  intros Ne H. cbv zeta. unfold frozen_category_routing in H.
  assert (N : NoDup (category_names ds)) by (unfold category_names; rewrite py_sorted_perm; apply NoDup_remove_dups).
  assert (I : forall x, x ∈ ss -> selection_category ds x ∈ category_names ds).
  { destruct (category_names ds) as [|c names] eqn:E.
    - destruct (rows ds) as [|r l] eqn:El; [done|]. assert (X : ml_category r ∈ category_names ds); [|rewrite E in X; by apply elem_of_nil in X].
      unfold category_names. apply elem_of_py_sorted, elem_of_remove_dups, elem_of_map. exists r. split; [done|rewrite El; apply elem_of_cons; by left].
    - rewrite <- E. cbn [result_map] in H. destruct (own ← _; _) as [x|e] eqn:F; [|discriminate H].
      apply bind_ok in F as (own & F & _). by apply (category_accounts ds ss c own). }
  apply result_map_ok in H.
  assert (T : forall (g : CategoryRouting -> Z) q, (forall l a, category_account l = Ok a -> g a = count q l) ->
    foldr Z.add 0%Z (map (fun e => g e.2) cs) = count q ss).
  { intros g q A. rewrite <- (count_by_class (selection_category ds) q (category_names ds) N ss I). f_equal. clear -H A.
    induction H as [|c e names cs He _ IH]; [done|]. cbn [map]. rewrite IH. f_equal.
    apply bind_ok in He as (own & O & He). apply bind_ok in He as (a & Ha & He). injection He as <-. cbn [snd].
    rewrite (A _ _ Ha). by apply category_accounts in O as [-> _]. }
  split.
  - clear -H. induction H as [|c e names cs He _ IH]; [done|]. cbn [map]. rewrite IH. f_equal.
    apply bind_ok in He as (own & _ & He). apply bind_ok in He as (a & _ & He). by injection He as <-.
  - repeat split; [rewrite (T _ (fun _ => true))|apply T|apply T|apply T].
    all: try (intros l a A; unfold category_account in A; apply bind_ok in A as (u & _ & A); injection A as <-; cbn).
    + by rewrite count_everything.
    + by rewrite count_everything.
    + done.
    + apply count_within.
    + done.
Qed.
End Categories.

(** ** The validation covers the split *)

(** The frozen router is validated on every request of the split: accepted
    evidence that is predicted and routed has one selection for each of its
    forty-two requests, from predictions of the frozen predictor. *)
Theorem frozen_router_covers_the_split `{R : PredictorRuntime} `{UD : UnicodeData} files run_id e file tr records ss :
  load_dev_evidence files run_id = Ok e -> predict_frozen (de_dataset e) file = (tr, Ok records) ->
  route_at_threshold (de_dataset e) records FROZEN_THRESHOLD = Ok ss ->
  map rs_task_id ss ≡ₚ remove_dups (map rd_task_id (de_exported e)) /\ length ss = 42 /\
  length records = 168 /\ NoDup (map prediction_key records) /\
  exists bytes, file = Ok bytes /\ sha256_hexdigest bytes = FROZEN_PREDICTOR_SHA256.
Proof.
  intros L P Q. destruct (frozen_predictions _ _ _ _ P) as [Tr K]. destruct (K records eq_refl) as (Keys & bytes & p & _ & _ & _ & _ & U & _).
  unfold load_dev_evidence in L. do 5 apply bind_ok in L as (? & _ & L). do 4 apply bind_ok in L as (? & _ & L).
  apply bind_ok in L as (u & S%guard_ok & L). do 2 apply bind_ok in L as (? & _ & L). apply bind_ok in L as (ms & M & L). injection L as <-.
  cbn [de_dataset de_exported rows] in *. apply andb_prop in S as [S S3]. apply andb_prop in S as [S1 S2]. apply Nat.eqb_eq in S1, S2, S3.
  pose proof (ml_rows_keys _ _ M) as Rk. rewrite Rk in Keys.
  assert (Kp : map prediction_key records ≡ₚ map row_pair x1) by (rewrite Keys; apply Permutation_map, py_sorted_perm).
  assert (T : remove_dups (map pn_task_id records) ≡ₚ remove_dups (map rd_task_id x1)).
  { apply NoDup_Permutation; [apply NoDup_remove_dups..|]. intros t. rewrite !elem_of_remove_dups.
    change (map pn_task_id records) with (map (fun q => (prediction_key q).1) records).
    change (map rd_task_id x1) with (map (fun r => (row_pair r).1) x1). rewrite <- (map_map prediction_key fst), <- (map_map row_pair fst). by rewrite Kp. }
  apply routed_tasks in Q. rewrite T in Q. split; [exact Q|]. split; [rewrite <- (length_map rs_task_id), Q; exact S3|].
  split; [rewrite <- (length_map prediction_key), Kp, length_map; exact S1|]. split.
  - rewrite Kp. apply all_distinct_true. unfold all_distinct. apply Nat.eqb_eq. by rewrite S2, length_map.
  - exists bytes. by apply Tr.
Qed.
