(* ===== verification/ReasoningOracle.v ===== *)
(** * The oracle of the reasoning tasks ([benchmarks/routing_benchmark_v1.py], [_oracle])

    The ground truth of a reasoning task is computed from a specification of
    its answer: sums, automata, shortest paths, orderings.  The specifications
    are typed as the authored tasks write them. *)
From S2P Require Import Prelude PyStr PyDecimal Errors Evaluators.

(** A specification; [spec["op"]] is the constructor. *)
Inductive OracleSpec :=
| O_literal (answer : pystr)
| O_net (start : Z) (changes : list Z)
| O_weighted (items : list (Z * Z))
| O_middle (order : list pystr)
| O_intersection (sets : list (list pystr))
| O_transitions (start : pystr) (events : list pystr) (table : list (pystr * pystr))
| O_best_pair (weights : list (pystr * Z)) (capacity : Z)
| O_cycle (values : list pystr) (index : Z)
| O_chain (start : pystr) (edges : list (pystr * pystr))
| O_earliest_intersection (sets : list (list Z))
| O_shortest (edges : list (pystr * pystr)) (start goal : pystr)
| O_permutation (items : list pystr) (before adjacent : list (pystr * pystr))
| O_unknown (operation : pystr).

Definition value_error_ {A : Type} : result exn A := Raise (Exn C_ValueError).

Definition z_sum (l : list Z) : Z := foldr Z.add 0%Z l.

(** [set(sets[0]).intersection(...)], each element once. *)
Definition common {A : Type} `{EqDecision A} (sets : list (list A)) : result exn (list A) :=
  match sets with
  | [] => Raise (Exn C_IndexError)
  | s :: rest => Ok (remove_dups (List.filter (fun x => forallb (fun t => bool_decide (x ∈ t)) rest) s))
  end.

(** The only element of a list. *)
Definition only {A : Type} (l : list A) : result exn A := match l with [x] => Ok x | _ => value_error_ end.

(** [state = table.get(f"{state}|{event}", state)] *)
Definition step (table : list (pystr * pystr)) (state event : pystr) : pystr :=
  default state (dict_get table (state ++ py "|" ++ event)).

(** [itertools.combinations(l, 2)] *)
Fixpoint pairs_from {A : Type} (l : list A) : list (A * A) :=
  match l with [] => [] | x :: l' => map (fun y => (x, y)) l' ++ pairs_from l' end.

Definition str_le : pystr -> pystr -> bool := cmp_le str_cmp.

(** [("A", 6), ("B", 4)] with its weight and its name. *)
Definition scored (p : (pystr * Z) * (pystr * Z)) : Z * pystr :=
  ((p.1.2 + p.2.2)%Z, List.concat (py_sorted str_le [p.1.1; p.2.1])).

Definition best_pair (weights : list (pystr * Z)) (capacity : Z) : result exn pystr :=
  match List.filter (fun s => (s.1 <=? capacity)%Z) (map scored (pairs_from weights)) with
  | [] => value_error_
  | s :: rest =>
      let best := foldr Z.max s.1 (map fst rest) in
      only (py_sorted str_le (map snd (List.filter (fun t => (t.1 =? best)%Z) (s :: rest))))
  end.

(** [while current in mapping and current not in seen]; the keys of the mapping
    bound the rounds. *)
Fixpoint follow (mapping : list (pystr * pystr)) (fuel : nat) (current : pystr) (seen : list pystr) : option pystr :=
  match fuel with
  | O => None
  | S fuel' =>
      match dict_get mapping current with
      | Some next_ => if bool_decide (current ∈ seen) then Some current else follow mapping fuel' next_ (current :: seen)
      | None => Some current
      end
  end.

(** The edges out of [node]: new nodes enter the queue and [seen]. *)
Fixpoint expand (node : pystr) (distance : nat) (edges : list (pystr * pystr)) (seen : list pystr) :
    list (pystr * nat) * list pystr :=
  match edges with
  | [] => ([], seen)
  | (left_, right_) :: rest =>
      if bool_decide (left_ = node) && negb (bool_decide (right_ ∈ seen))
      then let r := expand node distance rest (right_ :: seen) in ((right_, S distance) :: r.1, r.2)
      else expand node distance rest seen
  end.

(** [for node, distance in queue], which grows while it is read. *)
Fixpoint search_queue (edges : list (pystr * pystr)) (goal : pystr) (fuel : nat) (queue : list (pystr * nat)) (seen : list pystr) :
    option pystr :=
  match fuel with
  | O => None
  | S fuel' =>
      match queue with
      | [] => Some (py "-1")
      | (node, distance) :: rest =>
          if bool_decide (node = goal) then Some (nat_str distance)
          else let r := expand node distance edges seen in search_queue edges goal fuel' (rest ++ r.1) r.2
      end
  end.

(** [itertools.permutations(items)], in its order. *)
Fixpoint picks {A : Type} (l : list A) : list (A * list A) :=
  match l with [] => [] | x :: l' => (x, l') :: map (fun p => (p.1, x :: p.2)) (picks l') end.

Fixpoint permutations_of {A : Type} (n : nat) (l : list A) : list (list A) :=
  match n with
  | O => [[]]
  | S n' => List.flat_map (fun p => map (cons p.1) (permutations_of n' p.2)) (picks l)
  end.

(** [ordering.index(item)] *)
Fixpoint index_of (x : pystr) (l : list pystr) : nat :=
  match l with [] => 0 | y :: l' => if bool_decide (x = y) then 0 else S (index_of x l') end.

(** [positions[item]] *)
Definition position (ordering : list pystr) (x : pystr) : result exn nat :=
  if bool_decide (x ∈ ordering) then Ok (index_of x ordering) else Raise (Exn C_KeyError).

Definition precedes (ordering : list pystr) (p : pystr * pystr) : result exn bool :=
  a ← position ordering p.1; b ← position ordering p.2; Ok (Nat.ltb a b).

(** The right side of [==] is read second. *)
Definition follows_at_once (ordering : list pystr) (p : pystr * pystr) : result exn bool :=
  b ← position ordering p.2; a ← position ordering p.1; Ok (Nat.eqb b (S a)).

Definition admissible (before adjacent : list (pystr * pystr)) (ordering : list pystr) : result exn bool :=
  b ← all_result (precedes ordering) before;
  if (b : bool) then all_result (follows_at_once ordering) adjacent else Ok false.

(** The orderings that pass, in order. *)
Fixpoint winners (before adjacent : list (pystr * pystr)) (orderings : list (list pystr)) : result exn (list (list pystr)) :=
  match orderings with
  | [] => Ok []
  | o :: rest =>
      b ← admissible before adjacent o;
      r ← winners before adjacent rest;
      Ok (if (b : bool) then o :: r else r)
  end.

(** A result of a loop that ran to its end. *)
Definition finished {A : Type} (o : option A) : result exn A := match o with Some x => Ok x | None => Raise (Exn C_RuntimeError) end.

(** [_oracle] *)
Definition oracle (spec : OracleSpec) : result exn pystr :=
  match spec with
  | O_literal answer => Ok answer
  | O_net start changes => Ok (Z_to_str (start + z_sum changes))
  | O_weighted items => Ok (Z_to_str (z_sum (map (fun p => (p.1 * p.2)%Z) items)))
  | O_middle order => match order !! Nat.div (length order) 2 with Some x => Ok x | None => Raise (Exn C_IndexError) end
  | O_intersection sets => l ← common sets; only l
  | O_transitions start events table => Ok (fold_left (step table) events start)
  | O_best_pair weights capacity => best_pair weights capacity
  | O_cycle values index =>
      if Nat.eqb (length values) 0 then Raise (Exn C_ArithmeticError)
      else match values !! Z.to_nat ((index - 1) mod Z.of_nat (length values)) with
           | Some x => Ok x | None => Raise (Exn C_IndexError) end
  | O_chain start edges =>
      let mapping := dict_of fst snd edges in
      finished (follow mapping (S (S (length mapping))) start [])
  | O_earliest_intersection sets =>
      l ← common sets;
      match l with [] => value_error_ | z :: rest => Ok (Z_to_str (foldr Z.min z rest)) end
  | O_shortest edges start goal => finished (search_queue edges goal (S (S (length edges))) [(start, 0)] [start])
  | O_permutation items before adjacent =>
      l ← winners before adjacent (permutations_of (length items) items);
      o ← only l;
      Ok (List.concat o)
  | O_unknown _ => value_error_
  end.

(** ** Shortest paths *)

Section Search.
Context (edges : list (pystr * pystr)) (start goal : pystr).

(** A walk of [n] edges from [start]. *)
Inductive walk : nat -> pystr -> Prop :=
| walk_start : walk 0 start
| walk_edge n v w : walk n v -> (v, w) ∈ edges -> walk (S n) w.

Definition distance (v : pystr) (n : nat) : Prop := walk n v /\ forall k, walk k v -> n <= k.

Lemma distance_unique v n k : distance v n -> distance v k -> n = k.
Proof. intros [W L] [W' L']. specialize (L k W'). specialize (L' n W). lia. Qed.

(** A walk that ends outside of [S] leaves it. *)
Lemma walk_leaves (S_ : list pystr) n w : start ∈ S_ -> walk n w -> w ∉ S_ ->
  exists k u x, k < n /\ walk k u /\ u ∈ S_ /\ (u, x) ∈ edges /\ x ∉ S_.
Proof.
  intros S W. induction W as [|n v w W IH E]; [done|]. intros O.
  destruct (decide (v ∈ S_)) as [I|I]; [exists n, v, w; repeat split; auto|].
  destruct (IH I) as (k & u & x & K & R). exists k, u, x. split; [lia|done].
Qed.

(** The state of the loop: the queue holds distances in order, from one level
    and the next, and whatever was taken from it is not the goal and has all
    its neighbours seen. *)
Record searching (queue : list (pystr * nat)) (seen : list pystr) : Prop := {
  se_start : start ∈ seen;
  se_nodup : NoDup (map fst queue);
  se_queue : forall v n, (v, n) ∈ queue -> v ∈ seen /\ distance v n;
  se_done : forall v, v ∈ seen -> v ∉ map fst queue -> v <> goal /\ forall w, (v, w) ∈ edges -> w ∈ seen;
  se_sorted : StronglySorted le (map snd queue);
  se_levels : forall v n rest u k, queue = (v, n) :: rest -> (u, k) ∈ rest -> k <= S n
}.

(** What the edges of one node add. *)
Lemma expand_spec node d es seen : let r := expand node d es seen in
  (forall w n, (w, n) ∈ r.1 -> n = S d /\ w ∉ seen /\ (node, w) ∈ es) /\ NoDup (map fst r.1) /\
  (forall w, w ∈ r.2 <-> w ∈ seen \/ w ∈ map fst r.1) /\ (forall w, (node, w) ∈ es -> w ∈ r.2).
Proof.
  cbv zeta. revert seen. induction es as [|[l r] es IH]; intros seen.
  - cbn [expand fst snd map]. split; [intros w n H; by apply elem_of_nil in H|]. split; [constructor|].
    split; [intros w; rewrite elem_of_nil; tauto|]. intros w H. by apply elem_of_nil in H.
  - cbn [expand]. destruct (bool_decide (l = node)) eqn:L; [destruct (bool_decide (r ∈ seen)) eqn:M|]; cbn [andb negb]; bools.
    + destruct (IH seen) as (A & B & C & D). split; [intros w n H; destruct (A w n H) as (? & ? & ?); repeat split; try done; apply elem_of_cons; by right|].
      split; [done|]. split; [done|]. intros w [H|H]%elem_of_cons; [|by apply D]. injection H as _ ->. apply C. by left.
    + destruct (IH (r :: seen)) as (A & B & C & D). subst l. cbn [fst snd map].
      split; [|split; [|split]].
      * intros w n [H|H]%elem_of_cons; [injection H as -> ->; repeat split; try done; apply elem_of_cons; by left|].
        destruct (A w n H) as (? & O & ?). repeat split; try done; [intros I; apply O, elem_of_cons; by right|apply elem_of_cons; by right].
      * constructor; [|done]. intros I. apply list_elem_of_In, in_map_iff in I as ([w n] & <- & I). apply list_elem_of_In in I.
        destruct (A w n I) as (_ & O & _). apply O, elem_of_cons. by left.
      * intros w. rewrite C, !elem_of_cons. tauto.
      * intros w [H|H]%elem_of_cons; [|by apply D]. injection H as <-. apply C. left. apply elem_of_cons. by left.
    + destruct (IH seen) as (A & B & C & D). split; [intros w n H; destruct (A w n H) as (? & ? & ?); repeat split; try done; apply elem_of_cons; by right|].
      split; [done|]. split; [done|]. intros w [H|H]%elem_of_cons; [|by apply D]. injection H as <- _. done.
Qed.

Lemma in_fst {A B} (l : list (A * B)) a : a ∈ map fst l <-> exists b, (a, b) ∈ l.
Proof.
  rewrite list_elem_of_In, in_map_iff. split.
  - intros ([x b] & <- & H). exists b. by apply list_elem_of_In.
  - intros (b & H). exists (a, b). split; [done|]. by apply list_elem_of_In.
Qed.

Lemma in_snd {A B} (l : list (A * B)) b : b ∈ map snd l <-> exists a, (a, b) ∈ l.
Proof.
  rewrite list_elem_of_In, in_map_iff. split.
  - intros ([a x] & <- & H). exists a. by apply list_elem_of_In.
  - intros (a & H). exists (a, b). split; [done|]. by apply list_elem_of_In.
Qed.

(** A new neighbour of the head is one level further: no shorter walk leaves
    what has been seen. *)
Lemma new_distance node d rest seen w : searching ((node, d) :: rest) seen ->
  (node, w) ∈ edges -> w ∉ seen -> distance w (S d).
Proof.
  intros I E O. destruct (se_queue _ _ I node d ltac:(apply elem_of_cons; by left)) as [_ [W _]].
  split; [by apply walk_edge with node|]. intros k K.
  destruct (walk_leaves seen k w (se_start _ _ I) K O) as (i & u & x & L & Wu & Su & Eu & Ox).
  assert (Q : u ∈ map fst ((node, d) :: rest)).
  { destruct (decide (u ∈ map fst ((node, d) :: rest))) as [Q|Q]; [done|]. destruct (se_done _ _ I u Su Q) as [_ N].
    destruct (Ox (N x Eu)). }
  apply in_fst in Q as [n Q]. destruct (se_queue _ _ I u n Q) as [_ [_ M]]. specialize (M i Wu).
  assert (d <= n); [|lia]. apply elem_of_cons in Q as [Q|Q]; [injection Q as _ ->; lia|].
  pose proof (se_sorted _ _ I) as S. cbn [map snd] in S. apply StronglySorted_inv in S as [_ S]. rewrite Forall_forall in S.
  apply S, in_snd. by exists u.
Qed.

Lemma StronglySorted_app_le (l : list nat) k : StronglySorted le l -> (forall n, n ∈ l -> n <= k) ->
  forall r, (forall n, n ∈ r -> n = k) -> StronglySorted le (l ++ r).
Proof.
  intros S B r R. induction S as [|a l S IH F].
  - cbn [app]. induction r as [|b r IH]; [constructor|]. constructor.
    + apply IH. intros n N. apply R, elem_of_cons. by right.
    + apply Forall_forall. intros n N. rewrite (R b), (R n); [lia|apply elem_of_cons; by right|apply elem_of_cons; by left].
  - cbn [app]. constructor; [apply IH; intros n N; apply B, elem_of_cons; by right|].
    apply Forall_app. split; [done|]. apply Forall_forall. intros n N. rewrite (R n N). apply B, elem_of_cons. by left.
Qed.

Lemma searching_step node d rest seen : searching ((node, d) :: rest) seen -> node <> goal ->
  let r := expand node d edges seen in searching (rest ++ r.1) r.2.
Proof.
  intros I G. cbv zeta. destruct (expand_spec node d edges seen) as (A & B & C & D).
  set (new := (expand node d edges seen).1) in *. set (seen' := (expand node d edges seen).2) in *.
  pose proof (se_nodup _ _ I) as N. cbn [map fst] in N. inversion N as [|? ? Nh Nr]; subst.
  pose proof (se_sorted _ _ I) as S. cbn [map snd] in S. apply StronglySorted_inv in S as [Sr Sh]. rewrite Forall_forall in Sh.
  assert (L : forall u k, (u, k) ∈ rest -> d <= k <= Datatypes.S d).
  { intros u k K. split; [apply Sh, in_snd; by exists u|]. by apply (se_levels _ _ I node d rest u k). }
  assert (Q : forall v n, (v, n) ∈ rest -> v ∈ seen /\ distance v n) by (intros v n H; apply (se_queue _ _ I), elem_of_cons; by right).
  split.
  - apply C. left. apply (se_start _ _ I).
  - rewrite map_app. apply NoDup_app. split; [done|]. split; [|done]. intros v V V'.
    apply in_fst in V as [n V], V' as [k V']. destruct (A v k V') as (_ & O & _). by apply O, (Q v n).
  - intros v n [H|H]%elem_of_app.
    + destruct (Q v n H). split; [apply C; by left|done].
    + destruct (A v n H) as (-> & O & E). split; [apply C; right; apply in_fst; by exists (Datatypes.S d)|].
      by apply (new_distance node d rest seen v I).
  - intros v V O. rewrite map_app in O. apply not_elem_of_app in O as [O O']. apply C in V as [V|V]; [|done].
    destruct (decide (v = node)) as [->|Nv]; [by split|].
    destruct (se_done _ _ I v V) as [F E].
    { cbn [map fst]. intros [H|H]%elem_of_cons; done. }
    split; [done|]. intros w W. apply C. left. by apply E.
  - rewrite map_app. apply (StronglySorted_app_le _ (Datatypes.S d)); [done| |].
    + intros n (u & H)%in_snd. destruct (L u n H). lia.
    + intros n (u & H)%in_snd. by destruct (A u n H).
  - intros v n rest' u k E K. destruct rest as [|[v' n'] rest0].
    + cbn [app] in E. rewrite E in A. destruct (A v n ltac:(apply elem_of_cons; by left)) as [-> _].
      destruct (A u k ltac:(apply elem_of_cons; by right)) as [-> _]. lia.
    + cbn [app] in E. injection E as -> -> <-. pose proof (L v n ltac:(apply elem_of_cons; by left)).
      apply elem_of_app in K as [K|K]; [pose proof (L u k ltac:(apply elem_of_cons; by right)); lia|].
      destruct (A u k K) as [-> _]. lia.
Qed.

(** Every node enters the queue once: its length and the nodes not seen bound
    the rounds. *)
Definition unseen (nodes seen : list pystr) : nat := length (List.filter (fun v => negb (bool_decide (v ∈ seen))) nodes).

Lemma unseen_cons nodes seen w : w ∈ nodes -> w ∉ seen -> S (unseen nodes (w :: seen)) <= unseen nodes seen.
Proof.
  unfold unseen. intros W O.
  assert (M : forall v, negb (bool_decide (v ∈ w :: seen)) = negb (bool_decide (v = w)) && negb (bool_decide (v ∈ seen))).
  { intros v. rewrite <- negb_orb. f_equal. apply eq_iff_eq_true. rewrite orb_true_iff, !bool_decide_eq_true. apply elem_of_cons. }
  induction nodes as [|v nodes IH]; [by apply elem_of_nil in W|]. cbn [List.filter]. rewrite M.
  assert (Le : length (List.filter (fun v => negb (bool_decide (v ∈ w :: seen))) nodes) <=
               length (List.filter (fun v => negb (bool_decide (v ∈ seen))) nodes)).
  { clear. induction nodes as [|v nodes IH]; [done|]. cbn [List.filter]. destruct (bool_decide (v ∈ seen)) eqn:B.
    - rewrite (bool_decide_eq_true_2 (v ∈ w :: seen)); [done|]. apply elem_of_cons. right. by apply bool_decide_eq_true in B.
    - cbn [negb length]. destruct (negb _); cbn [length]; lia. }
  apply elem_of_cons in W as [->|W].
  - rewrite bool_decide_eq_true_2 by done. rewrite bool_decide_eq_false_2 by done. cbn [negb andb length]. lia.
  - specialize (IH W). destruct (bool_decide (v = w)) eqn:E; bools.
    + subst v. rewrite bool_decide_eq_false_2 by done. cbn [negb andb length]. lia.
    + destruct (bool_decide (v ∈ seen)); cbn [negb andb length]; lia.
Qed.

Lemma expand_unseen node d es seen nodes : (forall e, e ∈ es -> e.2 ∈ nodes) ->
  length (expand node d es seen).1 + unseen nodes (expand node d es seen).2 <= unseen nodes seen.
Proof.
  revert seen. induction es as [|[l r] es IH]; intros seen H; [done|]. cbn [expand].
  assert (H' : forall e, e ∈ es -> e.2 ∈ nodes) by (intros e E; apply H, elem_of_cons; by right).
  destruct (bool_decide (l = node) && negb (bool_decide (r ∈ seen))) eqn:B; [|by apply IH]. bools.
  cbn [fst snd length]. specialize (IH (r :: seen) H'). pose proof (unseen_cons nodes seen r (H (l, r) ltac:(apply elem_of_cons; by left)) H1). lia.
Qed.

Lemma search_total fuel : forall queue seen nodes, (forall e, e ∈ edges -> e.2 ∈ nodes) ->
  length queue + unseen nodes seen < fuel -> searching queue seen ->
  (exists n, search_queue edges goal fuel queue seen = Some (nat_str n) /\ distance goal n) \/
  (search_queue edges goal fuel queue seen = Some (py "-1") /\ forall n, ~ walk n goal).
Proof.
  induction fuel as [|fuel IH]; intros queue seen nodes H F I; [lia|]. cbn [search_queue].
  destruct queue as [|[node d] rest].
  - right. split; [done|]. intros n W.
    assert (C : forall k v, walk k v -> v ∈ seen).
    { intros k v K. induction K as [|k v w K IHK E]; [apply (se_start _ _ I)|].
      by apply (proj2 (se_done _ _ I v IHK ltac:(intros X; by apply elem_of_nil in X))). }
    by destruct (se_done _ _ I goal (C n goal W) ltac:(intros X; by apply elem_of_nil in X)).
  - case_bool_decide as E.
    + subst node. left. exists d. split; [done|]. apply (se_queue _ _ I), elem_of_cons. by left.
    + apply (IH _ _ nodes H); [|by apply searching_step]. rewrite length_app.
      pose proof (expand_unseen node d edges seen nodes H). cbn [length] in F. lia.
Qed.

Lemma searching_start : searching [(start, 0)] [start].
Proof.
  split.
  - by apply list_elem_of_singleton.
  - apply NoDup_singleton.
  - intros v n H. apply list_elem_of_singleton in H. injection H as -> ->. split; [by apply list_elem_of_singleton|].
    split; [constructor|]. lia.
  - intros v H O. done.
  - repeat constructor.
  - intros v n rest u k E K. injection E as _ _ <-. by apply elem_of_nil in K.
Qed.
End Search.

(** C28. The path oracle is breadth-first search done right: it always ends, and
    its answer is the least number of edges from start to goal, or -1 exactly
    when the goal cannot be reached. *)
Theorem shortest_is_distance edges start goal :
  (exists n, oracle (O_shortest edges start goal) = Ok (nat_str n) /\ distance edges start goal n) \/
  (oracle (O_shortest edges start goal) = Ok (py "-1") /\ forall n, ~ walk edges start n goal).
Proof.
  cbn [oracle].
  destruct (search_total edges start goal (S (S (length edges))) [(start, 0)] [start] (map snd edges)) as [(n & -> & D)|[-> N]].
  - intros e E. apply in_snd. exists e.1. by destruct e.
  - cbn [length]. unfold unseen. pose proof (filter_length_le (fun v => negb (bool_decide (v ∈ [start]))) (map snd edges)) as L.
    rewrite length_map in L. lia.
  - apply searching_start.
  - left. by exists n.
  - by right.
Qed.

(** ** Chains *)

Section Chain.
Context (mapping : list (pystr * pystr)) (start : pystr).

Definition link (v w : pystr) : Prop := dict_get mapping v = Some w.

Lemma follow_ends fuel : forall current seen, NoDup seen -> seen ⊆ map fst mapping -> length mapping < fuel + length seen ->
  rtc link start current -> (forall v, v ∈ seen -> tc link v current) ->
  exists s, follow mapping fuel current seen = Some s /\ rtc link start s /\ (dict_get mapping s = None \/ tc link s s).
Proof.
  induction fuel as [|fuel IH]; intros current seen N S L R T.
  - apply NoDup_submseteq in S; [|done]. apply submseteq_length in S. rewrite length_map in S. lia.
  - cbn [follow]. destruct (dict_get mapping current) as [next_|] eqn:E; [|exists current; auto].
    case_bool_decide as C; [exists current; auto|]. apply IH.
    + by constructor.
    + intros v [->|V]%elem_of_cons; [|by apply S]. apply dict_get_some_in in E. apply list_elem_of_In, in_map_iff. exists (current, next_).
      split; [done|]. by apply list_elem_of_In.
    + cbn [length]. lia.
    + by apply rtc_r with current.
    + intros v [->|V]%elem_of_cons; [by apply tc_once|]. by apply tc_r with current, E; apply T.
Qed.
End Chain.

(** The chain oracle always ends: where nothing follows, or where the chain has
    come round. *)
Theorem chain_ends start edges : exists s, oracle (O_chain start edges) = Ok s /\
  rtc (link (dict_of fst snd edges)) start s /\
  (dict_get (dict_of fst snd edges) s = None \/ tc (link (dict_of fst snd edges)) s s).
Proof.
  cbn [oracle]. destruct (follow_ends (dict_of fst snd edges) start (S (S (length (dict_of fst snd edges)))) start [])
    as (s & -> & R).
  - constructor.
  - intros v V. by apply elem_of_nil in V.
  - cbn [length]. lia.
  - constructor.
  - intros v V. by apply elem_of_nil in V.
  - by exists s.
Qed.

(** ** Orderings *)

Lemma elem_of_picks {A} (l : list A) x r : (x, r) ∈ picks l -> l ≡ₚ x :: r.
Proof.
  revert x r. induction l as [|y l IH]; intros x r H; [by apply elem_of_nil in H|]. cbn [picks] in H.
  apply elem_of_cons in H as [H|H]; [by injection H as -> ->|].
  apply list_elem_of_In, in_map_iff in H as ([z t] & E & H). apply list_elem_of_In in H. injection E as <- <-. cbn [fst snd].
  rewrite (IH z t H). apply Permutation_swap.
Qed.

Lemma picks_complete {A} (l : list A) x : x ∈ l -> exists r, (x, r) ∈ picks l.
Proof.
  induction l as [|y l IH]; intros H; [by apply elem_of_nil in H|]. cbn [picks]. apply elem_of_cons in H as [->|H].
  - exists l. apply elem_of_cons. by left.
  - destruct (IH H) as [r R]. exists (y :: r). apply elem_of_cons. right. apply list_elem_of_In, in_map_iff. exists (x, r). split; [done|].
    by apply list_elem_of_In.
Qed.

Lemma elem_of_permutations {A} n (l o : list A) : length l = n -> o ∈ permutations_of n l <-> o ≡ₚ l.
Proof.
  revert l o. induction n as [|n IH]; intros l o L.
  - destruct l; [|done]. cbn [permutations_of]. rewrite list_elem_of_singleton. split; [by intros ->|].
    intros P. by apply Permutation_nil_r in P.
  - cbn [permutations_of]. rewrite list_elem_of_In, in_flat_map. split.
    + intros ([x r] & P & H). apply list_elem_of_In in P. apply elem_of_picks in P. apply in_map_iff in H as (t & <- & H).
      apply list_elem_of_In, IH in H; [|by apply Permutation_length in P; cbn [length fst snd] in *; lia]. cbn [fst snd] in *. by rewrite P, H.
    + intros P. destruct o as [|x t]; [apply Permutation_length in P; cbn [length] in P; lia|].
      destruct (picks_complete l x) as [r R]; [rewrite <- P; apply elem_of_cons; by left|]. exists (x, r). split; [by apply list_elem_of_In|].
      apply in_map_iff. exists t. split; [done|]. apply list_elem_of_In, IH.
      * apply elem_of_picks, Permutation_length in R. cbn [length snd] in *. lia.
      * apply elem_of_picks in R. cbn [snd]. rewrite R in P. by apply Permutation_cons_inv in P.
Qed.

Lemma picks_heads {A} (l : list A) : map fst (picks l) = l.
Proof. induction l as [|x l IH]; [done|]. cbn [picks map fst]. f_equal. rewrite map_map. exact IH. Qed.

Lemma NoDup_flat_map_tagged {A B K} (f : A -> list B) (tag : A -> K) (tag' : B -> option K) l : NoDup (map tag l) ->
  (forall a, a ∈ l -> NoDup (f a)) -> (forall a b, a ∈ l -> b ∈ f a -> tag' b = Some (tag a)) -> NoDup (List.flat_map f l).
Proof.
  induction l as [|a l IH]; intros N F T; [constructor|]. cbn [map] in N. inversion N as [|? ? Na Nl]; subst. cbn [List.flat_map].
  apply NoDup_app. split; [apply F, elem_of_cons; by left|]. split.
  - intros b Ba C. apply list_elem_of_In, in_flat_map in C as (c & C & Bc). apply list_elem_of_In in C, Bc.
    pose proof (T a b ltac:(apply elem_of_cons; by left) Ba) as Ta. pose proof (T c b ltac:(apply elem_of_cons; by right) Bc) as Tc.
    rewrite Ta in Tc. injection Tc as E. apply Na, list_elem_of_In, in_map_iff. exists c. split; [done|]. by apply list_elem_of_In.
  - apply IH; [done|intros c C; apply F, elem_of_cons; by right|]. intros c b C. apply T, elem_of_cons. by right.
Qed.

Lemma permutations_distinct {A} n (l : list A) : length l = n -> NoDup l -> NoDup (permutations_of n l).
Proof.
  revert l. induction n as [|n IH]; intros l L N; [apply NoDup_singleton|]. cbn [permutations_of].
  apply (NoDup_flat_map_tagged _ fst head); [by rewrite picks_heads| |].
  - intros [x r] P. apply elem_of_picks in P. cbn [fst snd]. rewrite P in N. inversion N; subst.
    apply (NoDup_fmap_2 (cons x)), IH; [|done]. apply Permutation_length in P. cbn [length] in P. lia.
  - intros [x r] b P B. apply list_elem_of_In, in_map_iff in B as (t & <- & _). done.
Qed.

Lemma index_of_lookup x o i : NoDup o -> o !! i = Some x <-> x ∈ o /\ index_of x o = i.
Proof.
  intros N. revert i. induction N as [|y o Y N IH]; intros i.
  - rewrite lookup_nil, elem_of_nil. by split; [|intros [[] _]].
  - cbn [index_of]. rewrite elem_of_cons. case_bool_decide as E.
    + subst y. split.
      * intros H. destruct i as [|i]; [split; [by left|done]|]. cbn in H. by apply list_elem_of_lookup_2 in H.
      * by intros [_ <-].
    + destruct i as [|i]; cbn [lookup list_lookup].
      * split; [intros H; congruence|intros [_ H]; discriminate H].
      * change (o !! i = Some x <-> (x = y \/ x ∈ o) /\ S (index_of x o) = S i). rewrite IH. split.
        -- intros [H ->]. auto.
        -- intros [[H|H] I]; [done|]. injection I as I. auto.
Qed.

Section Ordering.
Context (items : list pystr) (before adjacent : list (pystr * pystr)) (N : NoDup items).
Context (named : forall p, p ∈ before ++ adjacent -> p.1 ∈ items /\ p.2 ∈ items).

(** What an ordering must satisfy. *)
Definition satisfies (o : list pystr) : Prop :=
  o ≡ₚ items /\
  (forall p, p ∈ before -> exists i j, o !! i = Some p.1 /\ o !! j = Some p.2 /\ i < j) /\
  (forall p, p ∈ adjacent -> exists i, o !! i = Some p.1 /\ o !! S i = Some p.2).

Definition passes (o : list pystr) : bool :=
  forallb (fun p => Nat.ltb (index_of p.1 o) (index_of p.2 o)) before &&
  forallb (fun p => Nat.eqb (index_of p.2 o) (S (index_of p.1 o))) adjacent.

Lemma admissible_passes o : o ≡ₚ items -> admissible before adjacent o = Ok (passes o).
Proof.
  intros P. assert (I : forall x, x ∈ items -> position o x = Ok (index_of x o)).
  { intros x X. unfold position. rewrite bool_decide_eq_true_2; [done|]. by rewrite P. }
  unfold admissible, passes.
  rewrite (all_result_true (precedes o) (fun p => Nat.ltb (index_of p.1 o) (index_of p.2 o))).
  - rsimpl. destruct (forallb _ before); [|done]. apply all_result_true. intros p Q. destruct (named p) as [A B]; [apply elem_of_app; by right|].
    unfold follows_at_once. rewrite (I _ B). rsimpl. by rewrite (I _ A).
  - intros p Q. destruct (named p) as [A B]; [apply elem_of_app; by left|]. unfold precedes. rewrite (I _ A). rsimpl. by rewrite (I _ B).
Qed.

Lemma passes_satisfies o : o ≡ₚ items -> passes o = true <-> satisfies o.
Proof.
  intros P. assert (No : NoDup o) by by rewrite P.
  assert (I : forall x i, x ∈ items -> o !! i = Some x <-> index_of x o = i).
  { intros x i X. rewrite index_of_lookup by done. rewrite <- P in X. tauto. }
  unfold passes, satisfies. rewrite andb_true_iff, !forallb_forall. split.
  - intros [B A]. split; [done|]. split; intros p Q.
    + destruct (named p) as [X Y]; [apply elem_of_app; by left|]. exists (index_of p.1 o), (index_of p.2 o).
      split; [by apply I|]. split; [by apply I|]. apply list_elem_of_In in Q. by apply Nat.ltb_lt, (B p).
    + destruct (named p) as [X Y]; [apply elem_of_app; by right|]. exists (index_of p.1 o). split; [by apply I|].
      apply I; [done|]. apply list_elem_of_In in Q. by apply Nat.eqb_eq, (A p).
  - intros (_ & B & A). split; intros p Q; apply list_elem_of_In in Q.
    + destruct (named p) as [X Y]; [apply elem_of_app; by left|]. destruct (B p Q) as (i & j & Hi & Hj & L). apply I in Hi; [|done]. apply I in Hj; [|done].
      apply Nat.ltb_lt. lia.
    + destruct (named p) as [X Y]; [apply elem_of_app; by right|]. destruct (A p Q) as (i & Hi & Hj). apply I in Hi; [|done]. apply I in Hj; [|done].
      apply Nat.eqb_eq. lia.
Qed.

Lemma winners_filter l : (forall o, o ∈ l -> o ≡ₚ items) -> winners before adjacent l = Ok (List.filter passes l).
Proof.
  induction l as [|o l IH]; intros H; [done|]. cbn [winners List.filter]. rewrite admissible_passes by (apply H, elem_of_cons; by left). rsimpl.
  rewrite IH by (intros x X; apply H, elem_of_cons; by right). rsimpl. done.
Qed.
End Ordering.

(** C29. The ordering oracle answers exactly when the constraints determine the
    order: its answer is the concatenation of the one arrangement of the items
    that satisfies every precedence and adjacency, and it refuses a task with
    no arrangement or with several. *)
Theorem ordering_is_determined items before adjacent s : NoDup items ->
  (forall p, p ∈ before ++ adjacent -> p.1 ∈ items /\ p.2 ∈ items) ->
  oracle (O_permutation items before adjacent) = Ok s <->
  exists o, s = List.concat o /\ satisfies items before adjacent o /\ forall o', satisfies items before adjacent o' -> o' = o.
Proof.
  intros N named. cbn [oracle].
  rewrite (winners_filter items before adjacent named) by (intros o; by apply elem_of_permutations). rsimpl.
  set (W := List.filter (passes before adjacent) (permutations_of (length items) items)).
  assert (M : forall o, o ∈ W <-> satisfies items before adjacent o).
  { intros o. unfold W. rewrite list_elem_of_In, filter_In, <- list_elem_of_In, elem_of_permutations by done. split.
    - intros [P Q]. by apply passes_satisfies.
    - intros Q. pose proof (proj1 Q) as P. split; [done|]. by apply (passes_satisfies items). }
  assert (D : NoDup W) by (apply NoDup_ListNoDup, List.NoDup_filter, NoDup_ListNoDup, permutations_distinct; done).
  split.
  - intros H. destruct W as [|o [|]]; try discriminate H. cbn [only] in H. rsimpl_in H. inv_result. exists o.
    split; [done|]. split; [apply M; by apply list_elem_of_singleton|]. intros o' Q. apply M in Q. by apply list_elem_of_singleton in Q.
  - intros (o & -> & Q & U). assert (E : W = [o]); [|by rewrite E].
    apply M in Q. destruct W as [|a [|b W]]; [by apply elem_of_nil in Q|apply list_elem_of_singleton in Q; by subst|].
    exfalso. inversion D as [|? ? Da _]; subst. apply Da, elem_of_cons. left.
    rewrite (U a), (U b); [done|apply M, elem_of_cons; right; apply elem_of_cons; by left|apply M, elem_of_cons; by left].
Qed.

Lemma ordering_is_determined_witness : exists o,
  py "ACDB" = List.concat o /\ satisfies [py "A"; py "B"; py "C"; py "D"] [(py "A", py "C"); (py "D", py "B")] [(py "C", py "D")] o /\
  forall o', satisfies [py "A"; py "B"; py "C"; py "D"] [(py "A", py "C"); (py "D", py "B")] [(py "C", py "D")] o' -> o' = o.
Proof.
  apply (ordering_is_determined [py "A"; py "B"; py "C"; py "D"] [(py "A", py "C"); (py "D", py "B")] [(py "C", py "D")] (py "ACDB")).
  - apply all_distinct_true. vm_compute. reflexivity.
  - apply Forall_forall. repeat constructor; vm_compute; auto.
  - vm_compute. reflexivity.
Defined.
