(* ===== verification/HybridValidation.v ===== *)
(** * Validation of the hybrid judge ([evaluation/hybrid_validation.py])

    A frozen set of cases, each a proposition with a candidate text and an
    expected verdict, is put to a hybrid judge case by case, and the answers are
    counted.  A judge that is not the deterministic one of the tests is asked
    only under an explicit authorization. *)
From S2P Require Import Prelude PyStr PyFloat PyRatio PyDecimal Schemas Json JsonText Errors Effects BenchmarkModels SummarySpec Aggregation SemanticJudge DatasetValidation BenchmarkSplits.

(** ** Cases *)

Record PropositionJudgeInput := mk_PropositionJudgeInput {
  case_id : pystr;
  pi_source_evidence : pystr;
  required_proposition : pystr;
  candidate_text : pystr
}.

(** [^prop-live-[0-9]{2}$] *)
Definition is_case_id (s : pystr) : bool :=
  startswith s (py "prop-live-") && Nat.eqb (length s) 12 && forallb is_ascii_digit (skipn 10 s).

Definition PropositionJudgeInput_validate (i : PropositionJudgeInput) : result pystr unit :=
  check (is_case_id (case_id i) && nonempty_str (pi_source_evidence i) && nonempty_str (required_proposition i) &&
         nonempty_str (candidate_text i)) field_error.

Record ValidationExpectation := mk_ValidationExpectation {
  expected_verdict : EntailmentVerdict;
  phenomenon : pystr;
  ve_rationale : pystr
}.

Definition ValidationExpectation_validate (e : ValidationExpectation) : result pystr unit :=
  check (nonempty_str (phenomenon e) && nonempty_str (ve_rationale e)) field_error.

Definition labels : Type := list (list N * ValidationExpectation).

(** The identifiers of the inputs and of the labels are the same. *)
Definition aligned (inputs : list PropositionJudgeInput) (ls : labels) : bool :=
  same_elements (map case_id inputs) (dict_keys ls).

Section Load.
(** [json.loads] and [model_validate] of the two models. *)
Context (loads : pystr -> result exn pyjson).
Context (validate_input : pyjson -> result exn PropositionJudgeInput).
Context (validate_label : pyjson -> result exn ValidationExpectation).

Definition read_label (kv : list N * pyjson) : result exn (list N * ValidationExpectation) :=
  e ← validate_label kv.2; Ok (kv.1, e).

(** [load_validation_cases], from the texts of its two files. *)
Definition load_validation_cases (input_text label_text : pystr) : result exn (list PropositionJudgeInput * labels) :=
  inputs_raw ← loads input_text;
  labels_raw ← loads label_text;
  listed ← item inputs_raw "judge_inputs";
  items ← iterate listed;
  inputs ← result_map validate_input items;
  expected ← item labels_raw "expected_labels";
  ls ← match expected with PJObj d => result_map read_label d | _ => Raise (Exn C_AttributeError) end;
  _ ← value_guard (aligned inputs ls);
  Ok (inputs, ls).
End Load.

(** ** Results *)

Record ValidationCaseResult := mk_ValidationCaseResult {
  vr_case_id : pystr;
  vr_expected : EntailmentVerdict;
  vr_actual : option EntailmentVerdict;
  vr_phenomenon : pystr;
  structured_output_valid : bool;
  vr_error_category : option JudgeError;
  vr_input_tokens : Z;
  vr_output_tokens : Z;
  vr_latency_ms : float;
  vr_cost_usd : decimal
}.

Definition ValidationCaseResult_validate (r : ValidationCaseResult) : result pystr unit :=
  check ((0 <=? vr_input_tokens r)%Z && (0 <=? vr_output_tokens r)%Z && nonneg_finite (vr_latency_ms r) &&
         d_nonneg (vr_cost_usd r)) field_error.

Record ValidationReport := mk_ValidationReport {
  total_cases : Z;
  exact_agreement : float;
  accuracy_by_label : list (list N * float);
  accuracy_by_phenomenon : list (list N * float);
  structured_output_validity : float;
  malformed_rate : float;
  provider_failure_rate : float;
  total_input_tokens : Z;
  total_output_tokens : Z;
  total_latency_ms : float;
  vp_total_cost_usd : decimal;
  vp_results : list ValidationCaseResult
}.

(** [Field(ge=0, le=1)] *)
Definition in_range_01 (f : float) : bool := f_leb f_zero f && f_leb f f_one.

Definition ValidationReport_validate (r : ValidationReport) : result pystr unit :=
  check (in_range_01 (exact_agreement r) && in_range_01 (structured_output_validity r) && in_range_01 (malformed_rate r) &&
         in_range_01 (provider_failure_rate r) && (0 <=? total_input_tokens r)%Z && (0 <=? total_output_tokens r)%Z &&
         f_leb f_zero (total_latency_ms r) && d_nonneg (vp_total_cost_usd r)) field_error.

Definition agrees (r : ValidationCaseResult) : bool := bool_decide (vr_actual r = Some (vr_expected r)).

Definition is_malformed (r : ValidationCaseResult) : bool :=
  match vr_error_category r with
  | Some (JE_malformed_json | JE_invalid_schema | JE_proposition_id_mismatch | JE_invalid_rule_use) => true
  | _ => false
  end.

Definition is_provider_failure (r : ValidationCaseResult) : bool :=
  match vr_error_category r with Some (JE_provider_error | JE_timeout) => true | _ => false end.

Definition verdict_label (r : ValidationCaseResult) : pystr := EntailmentVerdict_value (vr_expected r).

(** [Counter(key(x) for x in l)] *)
Definition counter {A : Type} (key : A -> pystr) (l : list A) : list (list N * Z) :=
  map (fun g => (g.1, Z.of_nat (length g.2))) (group_by key l).

(** [{key: correct[key] / value for key, value in sorted(totals.items())}] *)
Definition accuracy (key : ValidationCaseResult -> pystr) (rs : list ValidationCaseResult) : list (list N * float) :=
  let correct := counter key (List.filter agrees rs) in
  map (fun kv => (kv.1, ratio (default 0%Z (dict_get correct kv.1)) kv.2)) (py_sorted key_le (counter key rs)).

Definition sum_Z (l : list Z) : Z := fold_left Z.add l 0%Z.

(** [HybridValidationRunner._report] *)
Definition report (rs : list ValidationCaseResult) : result exn ValidationReport :=
  let total := Z.of_nat (length rs) in
  _ ← guard_else (negb (total =? 0)%Z) (Exn C_ArithmeticError);
  cost ← decimal_error (d_sum default_prec (map vr_cost_usd rs));
  let r := mk_ValidationReport total (ratio (count agrees rs) total) (accuracy verdict_label rs) (accuracy vr_phenomenon rs)
             (ratio (count structured_output_valid rs) total) (ratio (count is_malformed rs) total)
             (ratio (count is_provider_failure rs) total) (sum_Z (map vr_input_tokens rs)) (sum_Z (map vr_output_tokens rs))
             (f_sum (map vr_latency_ms rs)) cost rs in
  _ ← validated (ValidationReport_validate r);
  Ok r.

(** ** The run *)

(** [HybridSemanticJudge] with the state it advances, and whether it is a
    [FakeHybridJudge]. *)
Record HybridSemanticJudge (S : Type) := mk_HybridSemanticJudge {
  is_fake : bool;
  judge : HybridJudgeRequest -> S -> result exn (JudgeResult HybridSemanticRubric) * S
}.
Arguments mk_HybridSemanticJudge {S} _ _.
Arguments is_fake {S} _.
Arguments judge {S} _ _ _.

Definition LIVE_VALIDATION_AUTHORIZATION : pystr := py "AUTHORIZE_24_CASE_PAID_VALIDATION".

(** The request of a case: its one proposition and nothing else. *)
Definition case_request (i : PropositionJudgeInput) : result exn HybridJudgeRequest :=
  let r := mk_HybridJudgeRequest (pi_source_evidence i) (candidate_text i)
             [mk_JudgeProposition (case_id i) (required_proposition i) (pi_source_evidence i) [] [] []] default_contract in
  _ ← validated (HybridJudgeRequest_validate r);
  Ok r.

(** The verdict of the first judgment, when there is a rubric. *)
Definition first_verdict (o : JudgeResult HybridSemanticRubric) : result exn (option EntailmentVerdict) :=
  if bool_decide (jr_status o = JS_evaluated) then
    match jr_rubric o with
    | None => Ok None
    | Some rubric => match proposition_judgments rubric with
                     | [] => Raise (Exn C_IndexError)
                     | j :: _ => Ok (Some (verdict j))
                     end
    end
  else Ok None.

Definition case_result (ls : labels) (i : PropositionJudgeInput) (o : JudgeResult HybridSemanticRubric) :
    result exn ValidationCaseResult :=
  actual ← first_verdict o;
  match dict_get ls (case_id i) with
  | None => Raise (Exn C_KeyError)
  | Some e =>
      let usage {A : Type} (f : JudgeUsage -> A) (zero : A) := match jr_usage o with Some u => f u | None => zero end in
      let r := mk_ValidationCaseResult (case_id i) (expected_verdict e) actual (phenomenon e)
                 (bool_decide (jr_status o = JS_evaluated)) (jr_error_category o) (usage ju_input_tokens 0%Z)
                 (usage ju_output_tokens 0%Z) (usage ju_latency_ms f_zero) (usage ju_estimated_cost_usd d_zero) in
      _ ← validated (ValidationCaseResult_validate r);
      Ok r
  end.

Section Run.
Context {S : Type} (j : HybridSemanticJudge S) (ls : labels).

(** One pass of the loop. *)
Definition run_case (i : PropositionJudgeInput) (s : S) : result exn ValidationCaseResult * S :=
  match case_request i with
  | Raise e => (Raise e, s)
  | Ok request => let '(o, s') := judge j request s in (o ≫= case_result ls i, s')
  end.

Fixpoint run_cases (inputs : list PropositionJudgeInput) (s : S) : result exn (list ValidationCaseResult) * S :=
  match inputs with
  | [] => (Ok [], s)
  | i :: rest =>
      match run_case i s with
      | (Raise e, s') => (Raise e, s')
      | (Ok r, s') => let '(rs, s'') := run_cases rest s' in (cons r <$> rs, s'')
      end
  end.

(** [HybridValidationRunner.run] *)
Definition run (inputs : list PropositionJudgeInput) (authorization : option pystr) (s : S) :
    result exn ValidationReport * S :=
  if negb (is_fake j) && negb (bool_decide (authorization = Some LIVE_VALIDATION_AUTHORIZATION))
  then (Raise (Exn C_PermissionError), s)
  else if negb (aligned inputs ls) then (Raise (Exn C_ValueError), s)
  else let '(rs, s') := run_cases inputs s in (rs ≫= report, s').
End Run.

(** The two judges of the code. *)
Definition live_judge `{E : Env} `{UD : UnicodeData} `{J : JudgeTexts} (j : LLMJudge) : HybridSemanticJudge world :=
  mk_HybridSemanticJudge false (fun r w => hybrid_judge j r w).

Definition test_judge (now : Z) : HybridSemanticJudge FakeHybridJudge :=
  mk_HybridSemanticJudge true (fun r f => fake_hybrid_judge now f r).

(** ** The loop *)

Lemma case_request_shape i q : case_request i = Ok q ->
  q = mk_HybridJudgeRequest (pi_source_evidence i) (candidate_text i)
        [mk_JudgeProposition (case_id i) (required_proposition i) (pi_source_evidence i) [] [] []] default_contract /\
  HybridJudgeRequest_validate q = Ok tt.
Proof.
  unfold case_request. cbv zeta. intros H. apply bind_ok in H as ([] & V & H). injection H as <-.
  split; [done|by apply validated_ok].
Qed.

Lemma case_request_valid i : PropositionJudgeInput_validate i = Ok tt -> exists q, case_request i = Ok q.
Proof.
  intros V. apply check_ok in V. bools. unfold case_request. cbv zeta. unfold HybridJudgeRequest_validate.
  cbn [source_material required_propositions length Nat.leb forallb]. unfold JudgeProposition_ok.
  cbn [jp_proposition_id jp_description jp_source_evidence].
  assert (C : nonempty_str (case_id i) = true).
  { unfold nonempty_str. unfold is_case_id in *. bools. apply Nat.leb_le. lia. }
  repeat match goal with H : nonempty_str _ = true |- _ => rewrite H end. cbn. by eexists.
Qed.

Lemma case_request_distinct i q : case_request i = Ok q -> NoDup (map jp_proposition_id (required_propositions q)).
Proof. intros H. apply case_request_shape in H as [-> _]. apply NoDup_singleton. Qed.

Section RunFacts.
Context {S : Type} (j : HybridSemanticJudge S) (ls : labels).

(** The judge answered the request of the case, and the result is made of the answer. *)
Definition answered (i : PropositionJudgeInput) (r : ValidationCaseResult) : Prop :=
  exists q o s s', case_request i = Ok q /\ judge j q s = (Ok o, s') /\ case_result ls i o = Ok r.

Lemma run_cases_answered inputs : forall s rs s', run_cases j ls inputs s = (Ok rs, s') -> Forall2 answered inputs rs.
Proof.
  induction inputs as [|i inputs IH]; intros s rs s' H; cbn [run_cases] in H.
  { injection H as <- _. constructor. }
  destruct (run_case j ls i s) as [[r|e] s1] eqn:C; [|discriminate].
  destruct (run_cases j ls inputs s1) as [[rs'|e] s2] eqn:R; [|discriminate].
  injection H as <- _. constructor; [|by eapply IH]. unfold run_case in C.
  destruct (case_request i) as [q|e] eqn:Q; [|discriminate]. destruct (judge j q s) as [[o|e] s3] eqn:G; [|discriminate].
  injection C as C _. by exists q, o, s, s3.
Qed.

Lemma case_result_ok i o r : case_result ls i o = Ok r ->
  exists actual e, first_verdict o = Ok actual /\ dict_get ls (case_id i) = Some e /\
    vr_case_id r = case_id i /\ vr_expected r = expected_verdict e /\ vr_phenomenon r = phenomenon e /\ vr_actual r = actual /\
    structured_output_valid r = bool_decide (jr_status o = JS_evaluated) /\ vr_error_category r = jr_error_category o /\
    ValidationCaseResult_validate r = Ok tt.
Proof.
  unfold case_result. intros H. apply bind_ok in H as (a & A & H).
  destruct (dict_get ls (case_id i)) as [e|]; [|discriminate]. cbv zeta in H.
  apply bind_ok in H as ([] & V & H). injection H as <-. exists a, e. by apply validated_ok in V.
Qed.

Lemma answered_ids inputs rs : Forall2 answered inputs rs -> map vr_case_id rs = map case_id inputs.
Proof.
  induction 1 as [|i r inputs rs (q & o & s & s' & _ & _ & H) _ IH]; [done|]. cbn [map]. rewrite IH. f_equal.
  by apply case_result_ok in H as (a & e & _ & _ & -> & _).
Qed.

(** Every answer is a consistent result of the hybrid judge's own errors. *)
Definition consistent_answers : Prop := forall q s o s', NoDup (map jp_proposition_id (required_propositions q)) ->
  judge j q s = (Ok o, s') -> consistent_result o = Ok tt /\ jr_error_category o <> Some JE_invalid_rubric.

Lemma answered_counted i r : consistent_answers -> answered i r ->
  match structured_output_valid r, is_malformed r, is_provider_failure r with
  | true, false, false | false, true, false | false, false, true => True
  | _, _, _ => False
  end.
Proof.
  intros K (q & o & s & s' & Q & G & H). apply (K _ _ _ _ (case_request_distinct i q Q)) in G as [C N]. apply case_result_ok in H as (a & e & _ & _ & _ & _ & _ & _ & -> & E & _).
  unfold is_malformed, is_provider_failure. rewrite E. unfold consistent_result in C.
  destruct (jr_status o).
  - apply check_ok in C. bools. destruct (jr_error_category o); [discriminate|]. by rewrite bool_decide_eq_true_2.
  - apply check_ok in C. bools. rewrite bool_decide_eq_false_2 by done. by destruct (jr_error_category o) as [[]|].
Qed.

Lemma counted_once inputs rs : consistent_answers -> Forall2 answered inputs rs ->
  (count structured_output_valid rs + count is_malformed rs + count is_provider_failure rs = Z.of_nat (length rs))%Z.
Proof.
  intros K. induction 1 as [|i r inputs rs H _ IH]; [done|]. rewrite !count_cons. apply (answered_counted i r K) in H.
  cbn [length]. destruct (structured_output_valid r), (is_malformed r), (is_provider_failure r); lia.
Qed.
End RunFacts.

(** ** Rates *)

Lemma ratio_unit n d : (0 <= n <= d)%Z -> (0 < d)%Z -> in_unit (ratio n d).
Proof. intros H D. apply ratio_in_unit. rewrite Z2Pos.id; lia. Qed.

Lemma in_unit_range f : in_unit f -> in_range_01 f = true.
Proof. intros (_ & A & B). unfold in_range_01. by rewrite A, B. Qed.

Lemma counter_get {A} (key : A -> pystr) l k :
  default 0%Z (dict_get (counter key l) k) = count (fun x => bool_decide (key x = k)) l.
Proof.
  unfold count. rewrite <- (group_by_get key l k). unfold counter.
  induction (group_by key l) as [|[k' v] d IH]; [done|]. cbn [map dict_get fst snd].
  case_decide; [done|]. exact IH.
Qed.

Lemma counter_keys {A} (key : A -> pystr) l : dict_keys (counter key l) = dict_keys (group_by key l).
Proof. unfold counter, dict_keys. by rewrite <- list_fmap_compose. Qed.

(** The cases of a key, and those of them with the expected verdict. *)
Definition of_key (key : ValidationCaseResult -> pystr) (k : pystr) (r : ValidationCaseResult) : bool := bool_decide (key r = k).

Lemma accuracy_entry key rs k f : (k, f) ∈ accuracy key rs <->
  (exists r, r ∈ rs /\ key r = k) /\ f = ratio (count (of_key key k) (List.filter agrees rs)) (count (of_key key k) rs).
Proof.
  unfold accuracy. cbv zeta. rewrite list_elem_of_fmap. rewrite <- (group_by_mem key rs k), <- counter_keys.
  assert (N : NoDup (dict_keys (counter key rs))) by (rewrite counter_keys; apply group_by_keys).
  assert (G : forall v, (k, v) ∈ counter key rs -> v = count (of_key key k) rs).
  { intros v H. apply (dict_get_nodup _ _ _ N) in H. pose proof (counter_get key rs k) as C. by rewrite H in C. }
  split.
  - intros ([k' v] & E & H). cbn [fst snd] in E. injection E as <- ->. rewrite elem_of_py_sorted in H.
    split; [apply list_elem_of_fmap; by exists (k, v)|]. rewrite counter_get. by rewrite (G v H).
  - intros [H ->]. apply list_elem_of_fmap in H as ([k' v] & E & H). cbn [fst] in E. subst k'.
    exists (k, v). cbn [fst snd]. rewrite elem_of_py_sorted, counter_get. split; [by rewrite (G v H)|exact H].
Qed.

Lemma filter_swap {A} (p q : A -> bool) l : List.filter p (List.filter q l) = List.filter q (List.filter p l).
Proof.
  induction l as [|x l IH]; [done|]. cbn [List.filter]. destruct (p x) eqn:P, (q x) eqn:Q; cbn [List.filter]; rewrite ?P, ?Q, IH; done.
Qed.

Lemma count_filter_le {A} (p q : A -> bool) l : (0 <= count p (List.filter q l) <= count p l)%Z.
Proof.
  unfold count. rewrite filter_swap. pose proof (List.filter_length_le q (List.filter p l)). lia.
Qed.

Lemma count_positive {A} (p : A -> bool) l x : x ∈ l -> p x = true -> (0 < count p l)%Z.
Proof.
  intros H P. unfold count. assert (I : In x (List.filter p l)) by (apply filter_In; split; [by apply list_elem_of_In|done]).
  destruct (List.filter p l); [destruct I|cbn; lia].
Qed.

Lemma accuracy_in_unit key rs k f : (k, f) ∈ accuracy key rs -> in_unit f.
Proof.
  rewrite accuracy_entry. intros [(r & R & K) ->]. apply ratio_unit; [apply count_filter_le|].
  apply (count_positive _ _ r R). unfold of_key. by apply bool_decide_eq_true_2.
Qed.

(** ** What the report says *)

Lemma report_ok rs r : report rs = Ok r ->
  vp_results r = rs /\ total_cases r = Z.of_nat (length rs) /\ rs <> [] /\
  exact_agreement r = ratio (count agrees rs) (total_cases r) /\
  structured_output_validity r = ratio (count structured_output_valid rs) (total_cases r) /\
  malformed_rate r = ratio (count is_malformed rs) (total_cases r) /\
  provider_failure_rate r = ratio (count is_provider_failure rs) (total_cases r) /\
  accuracy_by_label r = accuracy verdict_label rs /\ accuracy_by_phenomenon r = accuracy vr_phenomenon rs.
Proof.
  unfold report. cbv zeta. intros H. apply bind_ok in H as ([] & N & H). apply bind_ok in H as (c & _ & H).
  apply bind_ok in H as (u & _ & H). injection H as <-. cbn. repeat split. intros ->. discriminate.
Qed.

Lemma sum_Z_nonneg l : Forall (fun z => 0 <= z)%Z l -> forall acc, (0 <= acc)%Z -> (0 <= fold_left Z.add l acc)%Z.
Proof. induction 1 as [|z l Hz _ IH]; intros acc Ha; [done|]. cbn [fold_left]. apply IH. lia. Qed.

(** Only the sums of costs and latencies can make a report fail. *)
Lemma report_total rs cost : rs <> [] -> Forall (fun r => ValidationCaseResult_validate r = Ok tt) rs ->
  d_sum default_prec (map vr_cost_usd rs) = Ok cost -> d_nonneg cost = true ->
  f_leb f_zero (f_sum (map vr_latency_ms rs)) = true -> exists r, report rs = Ok r.
Proof.
  intros N V C D F. assert (L : (0 < Z.of_nat (length rs))%Z) by (destruct rs; [done|cbn [length]; lia]).
  unfold report. cbv zeta. unfold guard_else. rewrite (proj2 (Z.eqb_neq _ _)) by lia. cbn [negb]. rsimpl.
  rewrite C. cbn [decimal_error]. rsimpl. unfold ValidationReport_validate. cbn.
  assert (U : forall p, in_range_01 (ratio (count p rs) (Z.of_nat (length rs))) = true).
  { intros p. apply in_unit_range, ratio_unit; [apply count_le|done]. }
  rewrite !U, F, D. cbn [andb].
  assert (T : forall f, (forall r, r ∈ rs -> (0 <= f r)%Z) -> (0 <=? sum_Z (map f rs))%Z = true).
  { intros f Hf. apply Z.leb_le, sum_Z_nonneg; [|done]. apply Forall_fmap, Forall_forall. exact Hf. }
  rewrite !T; [by eexists|..]; intros r Hr; rewrite Forall_forall in V; specialize (V r Hr); apply check_ok in V; bools; lia.
Qed.

(** A report of a run whose judge answers consistently: it is authorized or of
    the deterministic judge, has one result per case in their order, with the
    verdict the label expects, counts every case once as valid, malformed or a
    failure of the provider, and all its rates are in the unit interval. *)
Record sound_report (ls : labels) (inputs : list PropositionJudgeInput) (r : ValidationReport) : Prop := {
  sr_total : total_cases r = Z.of_nat (length inputs);
  sr_order : map vr_case_id (vp_results r) = map case_id inputs;
  sr_expected : Forall (fun x => exists e, dict_get ls (vr_case_id x) = Some e /\
    vr_expected x = expected_verdict e /\ vr_phenomenon x = phenomenon e) (vp_results r);
  sr_agreement : exact_agreement r = ratio (count agrees (vp_results r)) (total_cases r);
  sr_once : (count structured_output_valid (vp_results r) + count is_malformed (vp_results r) +
             count is_provider_failure (vp_results r) = total_cases r)%Z;
  sr_rates : Forall in_unit (exact_agreement r :: structured_output_validity r :: malformed_rate r :: provider_failure_rate r ::
    map snd (accuracy_by_label r) ++ map snd (accuracy_by_phenomenon r))
}.

Lemma run_ok {S} (j : HybridSemanticJudge S) ls inputs auth s r s' : run j ls inputs auth s = (Ok r, s') ->
  (is_fake j = true \/ auth = Some LIVE_VALIDATION_AUTHORIZATION) /\ aligned inputs ls = true /\
  exists rs, run_cases j ls inputs s = (Ok rs, s') /\ report rs = Ok r.
Proof.
  unfold run. destruct (negb (is_fake j) && _) eqn:A; [discriminate|]. destruct (aligned inputs ls); [cbn [negb]|discriminate].
  destruct (run_cases j ls inputs s) as [[rs|e] s1]; [|discriminate]. intros H. injection H as H <-.
  split; [|split; [done|by exists rs]]. apply andb_false_iff in A as [A|A]; bools; auto.
Qed.

Lemma rates_in_unit rs r : report rs = Ok r ->
  Forall in_unit (exact_agreement r :: structured_output_validity r :: malformed_rate r :: provider_failure_rate r ::
    map snd (accuracy_by_label r) ++ map snd (accuracy_by_phenomenon r)).
Proof.
  intros H. apply report_ok in H as (_ & T & N & -> & -> & -> & -> & -> & ->). rewrite T.
  assert (L : (0 < Z.of_nat (length rs))%Z) by (destruct rs; [done|cbn [length]; lia]).
  repeat (apply Forall_cons; split; [apply ratio_unit; [apply count_le|done]|]).
  apply Forall_app. split; apply Forall_fmap, Forall_forall; intros [k f] Hk; by eapply accuracy_in_unit.
Qed.

(** A validation report comes only from an authorized run, or one of the
    deterministic judge, on aligned inputs and labels.  It has one result per case
    in the order of the inputs, with the verdict its label expects; every case is
    counted exactly once as valid, malformed or a failure of the provider; and every
    rate and accuracy is a finite number of the unit interval, so that the float
    divisions never make a report fail. *)
Theorem validation_report_accounts {S} (j : HybridSemanticJudge S) ls inputs auth s r s' :
  consistent_answers j -> run j ls inputs auth s = (Ok r, s') ->
  (is_fake j = true \/ auth = Some LIVE_VALIDATION_AUTHORIZATION) /\ aligned inputs ls = true /\ sound_report ls inputs r.
Proof.
  intros K H. apply run_ok in H as (A & L & rs & R & P). split; [done|]. split; [done|].
  apply run_cases_answered in R. pose proof (Forall2_length _ _ _ R) as N. pose proof (rates_in_unit rs r P) as U.
  apply report_ok in P as (E & T & _ & G & _). split.
  - by rewrite T, N.
  - rewrite E. by eapply answered_ids.
  - rewrite E. clear - R. induction R as [|i x inputs' rs' (q & o & s1 & s2 & _ & _ & H) _ IH]; constructor; [|exact IH].
    apply case_result_ok in H as (a & e & _ & D & -> & -> & -> & _). by exists e.
  - by rewrite E.
  - rewrite E, T. by eapply counted_once.
  - exact U.
Qed.

(** ** The judges of the code *)

Section Live.
Context {E : Env} {UD : UnicodeData} {J : JudgeTexts} (j : LLMJudge).

Definition own_error (r : result exn (option JudgeError)) : Prop := r <> Ok (Some JE_invalid_rubric).

Lemma judgment_own_error by_id vs x : own_error (judgment_error by_id vs x).
Proof.
  unfold judgment_error, own_error. destruct (equivalence_or_derivation_used x) as [used|]; [|done].
  destruct (negb _); [done|]. destruct (dict_get by_id _) as [p|]; [|done]. destruct (bool_decide _); [done|].
  destruct (dict_get (rules_of p) used) as [rule|]; [|done]. destruct (dr_policy rule); [done..|]. by destruct (forallb _ _).
Qed.

Lemma rubric_own_error q rubric : own_error (validate_rubric q rubric).
Proof.
  unfold validate_rubric. destruct (_ || _); [done|].
  induction (proposition_judgments rubric) as [|x js IH] at 2; [done|]. cbn [judgments_error]. unfold own_error.
  pose proof (judgment_own_error (dict_of jp_proposition_id (fun p => p) (required_propositions q))
    (dict_of pj_proposition_id verdict (proposition_judgments rubric)) x) as H.
  destruct (judgment_error _ _ x) as [[e|]|e]; rsimpl; [exact H|exact IH|done].
Qed.

Lemma judge_own_error q w : post (hybrid_judge j q) w (fun r _ =>
  match r with Ok o => jr_error_category o <> Some JE_invalid_rubric | Raise _ => True end).
Proof.
  unfold hybrid_judge. apply post_bind, post_outcome. unfold post at 1. destruct (ask j (hybrid_prompt q) _ w) as [[response|e] w1].
  2: { cbn [fst snd]. apply post_bind, post_lift. unfold call_error. destruct (isinstance e _); [done|].
       destruct (isinstance e _); [|done]. match goal with |- context [if ?b then JE_timeout else _] => by destruct b end. }
  cbn [fst snd]. apply post_bind. unfold post at 1. destruct (judge_usage j _ response w1) as [[usage|e] w2]; [|done].
  cbn [fst snd]. apply post_bind, post_lift. destruct (load_answer (text response)) as [[v|]|e]; [|done..].
  destruct (model_validate_hybrid v) as [rubric|]; [|done]. apply post_bind, post_lift.
  pose proof (rubric_own_error q rubric) as H. destruct (validate_rubric q rubric) as [[x|]|x]; [|done..].
  apply post_lift. cbn. intros X. apply H. congruence.
Qed.

Lemma live_consistent : consistent_answers (live_judge j).
Proof.
  intros q w o w' D G. cbn [live_judge judge] in G. split.
  - pose proof (hybrid_judge_spec j q D w) as H. unfold post in H. rewrite G in H. exact (judgment_consistent _ _ _ _ _ H).
  - pose proof (judge_own_error q w) as H. unfold post in H. by rewrite G in H.
Qed.

(** The calls of each case that was reached: none or one, with its prompt. *)
Definition case_calls (calls : list provider_call) (i : PropositionJudgeInput) : Prop :=
  exists q, case_request i = Ok q /\ one_judge_call j q calls.

Lemma live_cases_calls ls inputs : forall w, exists css done_inputs rest,
  inputs = done_inputs ++ rest /\ same_writes w (run_cases (live_judge j) ls inputs w).2 /\
  w_calls (run_cases (live_judge j) ls inputs w).2 = w_calls w ++ List.concat css /\ Forall2 case_calls css done_inputs /\
  (is_ok (run_cases (live_judge j) ls inputs w).1 = true -> rest = []).
Proof.
  induction inputs as [|i inputs IH]; intros w; cbn [run_cases].
  { exists [], [], []. cbn [fst snd List.concat app]. rewrite app_nil_r. split; [done|]. split; [done|]. split; [done|]. split; [constructor|done]. }
  unfold run_case. destruct (case_request i) as [q|e] eqn:Q.
  2: { exists [], [], (i :: inputs). cbn [fst snd List.concat app]. rewrite app_nil_r. split; [done|]. split; [done|]. split; [done|]. split; [constructor|done]. }
  cbn [live_judge judge]. destruct (judgment_calls _ _ _ _ _ (hybrid_judge_spec j q (case_request_distinct i q Q) w)) as (W & calls & C & O).
  destruct (hybrid_judge j q w) as [o w1]. cbn [fst snd] in W, C.
  assert (K : case_calls calls i) by (by exists q).
  destruct (o ≫= case_result ls i) as [r|e].
  2: { exists [calls], [i], inputs. cbn [fst snd List.concat]. rewrite app_nil_r. split; [done|]. split; [done|]. split; [done|].
       split; [by constructor; [done|constructor]|done]. }
  destruct (IH w1) as (css & di & rest & -> & W' & C' & F & N).
  destruct (run_cases (live_judge j) ls (di ++ rest) w1) as [rs w2]. cbn [fst snd] in *.
  exists (calls :: css), (i :: di), rest. split; [done|]. split; [unfold same_writes in *; congruence|].
  split; [rewrite C', C; cbn [List.concat]; by rewrite app_assoc|]. split; [by constructor|].
  intros K'. apply N. by destruct rs.
Qed.
End Live.

(** Without the authorization, or with inputs that do not match the labels,
    a live validation raises and the world is as before: nothing is asked.  With
    them the calls are, in the order of the cases and for a first part of them, none
    or one call per case with the prompt of its request alone; a report means that
    every case was reached.  No telemetry is written. *)
Theorem live_validation_is_gated `{E : Env} `{UD : UnicodeData} `{J : JudgeTexts} (j : LLMJudge) ls inputs auth w :
  let r := (run (live_judge j) ls inputs auth w).1 in
  let w' := (run (live_judge j) ls inputs auth w).2 in
  (auth <> Some LIVE_VALIDATION_AUTHORIZATION -> r = Raise (Exn C_PermissionError) /\ w' = w) /\
  (auth = Some LIVE_VALIDATION_AUTHORIZATION -> aligned inputs ls = false -> r = Raise (Exn C_ValueError) /\ w' = w) /\
  exists css asked rest, inputs = asked ++ rest /\ same_writes w w' /\ w_calls w' = w_calls w ++ List.concat css /\
    Forall2 (case_calls j) css asked /\ (is_ok r = true -> rest = []).
Proof.
  cbv zeta. unfold run. cbn [live_judge is_fake negb andb]. case_bool_decide as A; cbn [negb].
  - split; [done|]. destruct (aligned inputs ls); cbn [negb].
    + split; [done|]. destruct (live_cases_calls j ls inputs w) as (css & asked & rest & E1 & W & C & F & N).
      destruct (run_cases (live_judge j) ls inputs w) as [rs w']. cbn [fst snd] in *. exists css, asked, rest.
      split; [done|]. split; [done|]. split; [done|]. split; [done|]. intros K. apply N. by destruct rs.
    + split; [done|]. exists [], [], inputs. cbn [fst snd List.concat]. cbn [fst snd List.concat app]. rewrite app_nil_r. split; [done|]. split; [done|]. split; [done|]. split; [constructor|done].
  - split; [done|]. split; [done|]. exists [], [], inputs. cbn [fst snd List.concat]. cbn [fst snd List.concat app]. rewrite app_nil_r. split; [done|]. split; [done|]. split; [done|]. split; [constructor|done].
Qed.

(** *** The judge of the tests *)

Definition test_usage (now : Z) : JudgeUsage :=
  mk_JudgeUsage (py "fake") (py "fake-hybrid-judge") HYBRID_JUDGE_PROMPT_VERSION now 0 0 f_zero d_zero.

Definition asked_of (f : FakeHybridJudge) (qs : list HybridJudgeRequest) : FakeHybridJudge :=
  mk_FakeHybridJudge (fj_rubric f) (fj_result f) (fj_requests f ++ qs).

Definition plain_fake (f : FakeHybridJudge) : Prop := fj_rubric f = None /\ fj_result f = None.

Lemma fake_entails now f i q : plain_fake f -> case_request i = Ok q ->
  fake_hybrid_judge now f q = (Ok (judge_success (all_entailed q) (test_usage now)), asked_of f [q]).
Proof.
  intros [F R] Q. apply case_request_shape in Q as [-> V]. apply check_ok in V. cbn [source_material required_propositions forallb] in V.
  unfold JudgeProposition_ok in V. cbn [jp_proposition_id jp_description jp_source_evidence] in V. bools.
  set (q := mk_HybridJudgeRequest _ _ _ _).
  assert (V' : HybridSemanticRubric_validate (all_entailed q) = Ok tt).
  { unfold HybridSemanticRubric_validate, all_entailed, reject_duplicate_entries, q.
    cbn [proposition_judgments material_error_findings required_propositions map forallb length Nat.leb jp_proposition_id
      jp_source_evidence pj_proposition_id].
    unfold PropositionJudgment_ok. cbn [pj_proposition_id source_evidence_reference pj_reason].
    rewrite (proj2 (all_distinct_true [case_id i])) by apply NoDup_singleton.
    repeat match goal with H : nonempty_str _ = true |- _ => rewrite H end. reflexivity. }
  assert (M : validate_rubric q (all_entailed q) = Ok None).
  { unfold validate_rubric, all_entailed, q. cbn [proposition_judgments required_propositions map pj_proposition_id jp_proposition_id length].
    by rewrite (proj2 (same_elements_true [case_id i] [case_id i])). }
  unfold fake_hybrid_judge, asked_of. rewrite F, R. cbv zeta. rewrite V'. cbn [validated]. rsimpl. by rewrite M.
Qed.

Definition entailed_result (i : PropositionJudgeInput) (e : ValidationExpectation) : ValidationCaseResult :=
  mk_ValidationCaseResult (case_id i) (expected_verdict e) (Some ENTAILED) (phenomenon e) true None 0 0 f_zero d_zero.

Definition expects (ls : labels) (v : EntailmentVerdict) (i : PropositionJudgeInput) : bool :=
  bool_decide (expected_verdict <$> dict_get ls (case_id i) = Some v).

Lemma fake_cases now ls inputs : forall f, plain_fake f ->
  Forall (fun i => PropositionJudgeInput_validate i = Ok tt /\ dict_get ls (case_id i) <> None) inputs ->
  exists rs qs, run_cases (test_judge now) ls inputs f = (Ok rs, asked_of f qs) /\
    Forall2 (fun i q => case_request i = Ok q) inputs qs /\
    Forall2 (fun i r => exists e, dict_get ls (case_id i) = Some e /\ r = entailed_result i e) inputs rs.
Proof.
  induction inputs as [|i inputs IH]; intros f P H.
  { exists [], []. unfold asked_of. rewrite app_nil_r. destruct f. split; [done|]. split; constructor. }
  apply Forall_cons in H as [[V D] H]. destruct (case_request_valid i V) as [q Q].
  destruct (dict_get ls (case_id i)) as [e|] eqn:L; [|done].
  destruct (IH (asked_of f [q]) P H) as (rs & qs & R & FQ & FR).
  exists (entailed_result i e :: rs), (q :: qs).
  split; [|split; [by constructor|constructor; [by exists e|done]]].
  cbn [run_cases]. unfold run_case. rewrite Q. cbn [test_judge judge]. rewrite (fake_entails now f i q P Q). rsimpl.
  assert (K : case_result ls i (judge_success (all_entailed q) (test_usage now)) = Ok (entailed_result i e)).
  { unfold case_result. apply case_request_shape in Q as [-> _]. cbn. rewrite L. reflexivity. }
  rewrite K. rewrite R. unfold asked_of. cbn [fj_rubric fj_result fj_requests]. by rewrite <- app_assoc.
Qed.

Lemma zero_costs {A} (l : list A) : d_sum default_prec (map (fun _ => d_zero) l) = Ok d_zero.
Proof. unfold d_sum. induction l as [|x l IH]; [done|]. exact IH. Qed.

Lemma zero_latencies {A} (l : list A) : f_sum (map (fun _ => f_zero) l) = f_zero.
Proof. unfold f_sum. induction l as [|x l IH]; [done|]. exact IH. Qed.

Lemma constant_map {A B} (f : A -> B) c l : Forall (fun x => f x = c) l -> map f l = map (fun _ => c) l.
Proof. induction 1 as [|x l E _ IH]; [done|]. cbn. by rewrite E, IH. Qed.

Lemma aligned_label ls inputs i : aligned inputs ls = true -> i ∈ inputs -> dict_get ls (case_id i) <> None.
Proof.
  unfold aligned. rewrite same_elements_true. intros H I N. apply dict_get_none in N. apply N, H.
  by apply list_elem_of_fmap_2.
Qed.

(** With the deterministic judge a validation of well-formed, aligned cases
    needs no authorization and always returns a report: the judge was asked exactly
    the requests of the cases, every output is valid, and the agreement is the share
    of the cases whose label expects entailment. *)
Theorem fake_validation_report now ls inputs auth f :
  inputs <> [] -> Forall (fun i => PropositionJudgeInput_validate i = Ok tt) inputs -> aligned inputs ls = true ->
  fj_rubric f = None -> fj_result f = None ->
  exists r qs, run (test_judge now) ls inputs auth f = (Ok r, asked_of f qs) /\
    Forall2 (fun i q => case_request i = Ok q) inputs qs /\
    exact_agreement r = ratio (count (expects ls ENTAILED) inputs) (Z.of_nat (length inputs)) /\
    structured_output_validity r = ratio (Z.of_nat (length inputs)) (Z.of_nat (length inputs)).
Proof.
  intros N V L F R. destruct (fake_cases now ls inputs f (conj F R)) as (rs & qs & C & FQ & FR).
  { apply Forall_forall. intros i I. rewrite Forall_forall in V. split; [by apply V|by eapply aligned_label]. }
  assert (K : count agrees rs = count (expects ls ENTAILED) inputs /\ count structured_output_valid rs = Z.of_nat (length inputs) /\
    length rs = length inputs /\ Forall (fun r => vr_cost_usd r = d_zero) rs /\ Forall (fun r => vr_latency_ms r = f_zero) rs /\
    Forall (fun r => ValidationCaseResult_validate r = Ok tt) rs).
  { clear - FR. induction FR as [|i r inputs' rs' (e & D & ->) _ (A & B & G & H1 & H2 & H3)]; [by repeat constructor|].
    rewrite !count_cons, A, B. cbn [length structured_output_valid entailed_result].
    split; [|split; [lia|split; [lia|by repeat constructor]]]. f_equal. unfold agrees, expects. rewrite D.
    cbn [fmap option_fmap option_map vr_actual vr_expected entailed_result]. destruct (expected_verdict e); reflexivity. }
  destruct K as (A & B & G & H1 & H2 & H3).
  destruct (report_total rs d_zero) as [r Hr].
  { intros ->. destruct inputs; [done|discriminate]. }
  { done. } { rewrite (constant_map _ _ _ H1). apply zero_costs. } { done. }
  { rewrite (constant_map _ _ _ H2), zero_latencies. reflexivity. }
  exists r, qs. unfold run. cbn [test_judge is_fake negb andb]. rewrite L. cbn [negb]. rewrite C. rsimpl. rewrite Hr.
  split; [done|]. split; [done|]. apply report_ok in Hr as (_ & T & _ & -> & -> & _). rewrite T, A, B, G. done.
Qed.

(** ** Examples *)

Definition sample_input (n : string) : PropositionJudgeInput :=
  mk_PropositionJudgeInput (py n) (py "The fan failed.") (py "A fan failed.") (py "A fan broke.").

Definition sample_inputs : list PropositionJudgeInput := [sample_input "prop-live-01"; sample_input "prop-live-02"].

Definition sample_labels : labels :=
  [(py "prop-live-02", mk_ValidationExpectation NOT_ENTAILED (py "negation") (py "r"));
   (py "prop-live-01", mk_ValidationExpectation ENTAILED (py "paraphrase") (py "r"))].

(** A judge that always answers for the first case. *)
Definition sample_texts : JudgeTexts :=
  {| message_of := fun _ => py "down";
     model_validate_hybrid := fun _ => Some (mk_HybridSemanticRubric [judgment_of "prop-live-01" ENTAILED None] []);
     model_validate_semantic := fun _ => None; recursion_room := 100 |}.

Definition sample_run : result exn ValidationReport * world :=
  @run world (@live_judge still_env ascii_tables sample_texts example_judge) sample_labels sample_inputs
    (Some LIVE_VALIDATION_AUTHORIZATION) initial_world.

Lemma validation_report_accounts_witness : exists r w, sample_run = (Ok r, w) /\
  (count structured_output_valid (vp_results r) + count is_malformed (vp_results r) +
   count is_provider_failure (vp_results r) = 2)%Z /\ count is_malformed (vp_results r) = 1%Z.
Proof.
  assert (K : match sample_run.1 with Ok r => count is_malformed (vp_results r) = 1%Z | Raise _ => False end)
    by (vm_compute; reflexivity).
  destruct sample_run as [[r|e] w] eqn:R; [|destruct K]. exists r, w. split; [reflexivity|]. split; [|exact K].
  destruct (validation_report_accounts (@live_judge still_env ascii_tables sample_texts example_judge) sample_labels sample_inputs
    (Some LIVE_VALIDATION_AUTHORIZATION) initial_world r w (live_consistent example_judge) R) as (_ & _ & A).
  rewrite (sr_once _ _ _ A). exact (sr_total _ _ _ A).
Defined.

Lemma live_validation_is_gated_witness :
  (@run world (@live_judge still_env ascii_tables sample_texts example_judge) sample_labels sample_inputs None initial_world).1 =
  Raise (Exn C_PermissionError).
Proof.
  destruct (@live_validation_is_gated still_env ascii_tables sample_texts example_judge sample_labels sample_inputs None
    initial_world) as [H _].
  exact (proj1 (H ltac:(discriminate))).
Defined.

Lemma fake_validation_report_witness : exists r qs,
  run (test_judge 0) sample_labels sample_inputs None (mk_FakeHybridJudge None None []) = (Ok r, mk_FakeHybridJudge None None qs) /\
  exact_agreement r = f_of_ratio 1 2.
Proof.
  destruct (fake_validation_report 0 sample_labels sample_inputs None (mk_FakeHybridJudge None None [])) as (r & qs & R & _ & A & _).
  - discriminate.
  - repeat constructor; vm_compute; reflexivity.
  - vm_compute. reflexivity.
  - reflexivity.
  - reflexivity.
  - exists r, qs. split; [exact R|]. rewrite A. vm_compute. reflexivity.
Defined.
