(* ===== verification/HybridPlanning.v ===== *)
(** * Planning of the hybrid studies ([evaluation/hybrid_costs.py], [evaluation/hybrid_replay.py])

    The requests that stored summaries would put to the hybrid judge, prepared
    without asking it, and the tokens and costs that requests would take. *)
From S2P Require Import Prelude PyStr PyFloat PyDecimal PyUuid Schemas Json JsonText PyRepr Errors Pricing Regex GatewayConfig BenchmarkModels BenchmarkRunner SummarySpec Normalization SemanticJudge EvaluationService DatasetValidation HybridValidation.

(** ** Costs *)

Definition ASTRA_INPUT_USD_PER_MILLION : decimal := mk_decimal false 10 0.
Definition ASTRA_OUTPUT_USD_PER_MILLION : decimal := mk_decimal false 50 0.
Definition EXPECTED_OUTPUT_BASE_TOKENS : Z := 96.
Definition EXPECTED_OUTPUT_TOKENS_PER_PROPOSITION : Z := 56.
Definition WORST_CASE_OUTPUT_TOKENS : Z := 768.

(** The bytes of a character in UTF-8; surrogates have none. *)
Definition utf8_width (c : N) : result exn Z :=
  if (c <? 128)%N then Ok 1%Z
  else if (c <? 2048)%N then Ok 2%Z
  else if in_range 55296 57343 c then Raise (Exn C_UnicodeError)
  else if (c <? 65536)%N then Ok 3%Z
  else Ok 4%Z.

Definition utf8_length (s : pystr) : result exn Z := widths ← result_map utf8_width s; Ok (sum_Z widths).

Definition estimated_tokens (text : pystr) : result exn Z := n ← utf8_length text; Ok ((n + 3) / 4)%Z.

Definition expected_output_tokens (proposition_count : nat) : Z :=
  (EXPECTED_OUTPUT_BASE_TOKENS + EXPECTED_OUTPUT_TOKENS_PER_PROPOSITION * Z.of_nat proposition_count)%Z.

(** [cost], under the default precision. *)
Definition cost (input_tokens output_tokens : Z) : result exn decimal :=
  decimal_error
    (a ← d_mul default_prec (d_of_Z input_tokens) ASTRA_INPUT_USD_PER_MILLION;
     b ← d_mul default_prec (d_of_Z output_tokens) ASTRA_OUTPUT_USD_PER_MILLION;
     s ← d_add default_prec a b;
     d_div default_prec s (d_of_Z 1000000)).

Definition request_input_tokens (r : HybridJudgeRequest) : result exn Z :=
  p ← hybrid_prompt r;
  estimated_tokens (HYBRID_JUDGE_SYSTEM_PROMPT ++ [NEWLINE] ++ p).

Definition expected_outputs (rs : list HybridJudgeRequest) : Z :=
  sum_Z (map (fun r => expected_output_tokens (length (required_propositions r))) rs).

Definition worst_outputs (rs : list HybridJudgeRequest) : Z := (WORST_CASE_OUTPUT_TOKENS * Z.of_nat (length rs))%Z.

Definition decimal_text (d : decimal) : pyjson := PJStr (d_str d).

Definition estimate_requests (rs : list HybridJudgeRequest) : result exn py_dict :=
  inputs ← result_map request_input_tokens rs;
  let input_tokens := sum_Z inputs in
  expected ← cost input_tokens (expected_outputs rs);
  worst ← cost input_tokens (worst_outputs rs);
  Ok [ (py "calls", PJInt (Z.of_nat (length rs))); (py "estimated_input_tokens", PJInt input_tokens);
       (py "expected_output_tokens", PJInt (expected_outputs rs)); (py "worst_case_output_tokens", PJInt (worst_outputs rs));
       (py "expected_cost_usd", decimal_text expected); (py "worst_case_cost_usd", decimal_text worst) ].

Definition validation_requests (inputs : list PropositionJudgeInput) : result exn (list HybridJudgeRequest) :=
  result_map case_request inputs.

Definition RB12 : pystr := py "rb12-".
Definition FOUNDATION : pystr := py "foundation-".

(** ["summary " * 40] *)
Definition placeholder : pystr := List.concat (repeat (py "summary ") 40).

Definition routing_tasks (p : PropositionSpecification) : list SummarizationTaskSpecification :=
  List.filter (fun t => startswith (specification_id t) RB12) (ps_tasks p).

Definition routing_full_requests (p : PropositionSpecification) (candidate_count : nat) : result exn (list HybridJudgeRequest) :=
  requests ← result_map (fun t => r ← specified_request p t placeholder; Ok (repeat r candidate_count)) (routing_tasks p);
  Ok (List.concat requests).

(** ** Replay *)

Record HistoricalReplayItem := mk_HistoricalReplayItem {
  hi_run_id : pystr;
  hi_result_id : pystr;
  hi_task_id : pystr;
  hi_model_id : pystr;
  blind_judge_request : HybridJudgeRequest
}.

(** A stored run: its manifest and its result files in the order of their
    paths, as reading and validating each turns out. *)
Record stored_run := mk_stored_run {
  st_manifest : result exn BenchmarkRun;
  st_results : list (result exn BenchmarkResult)
}.

(** [{item.canonical_task_id: item for item in tasks if ...}] *)
Definition specifications (prefix : pystr) (p : PropositionSpecification) : list (list N * SummarizationTaskSpecification) :=
  dict_of canonical_task_id (fun t => t) (List.filter (fun t => startswith (specification_id t) prefix) (ps_tasks p)).

(** The text of a result that is replayed: a successful summary. *)
Definition replayed_text (t : BenchmarkTask) (r : BenchmarkResult) : option pystr :=
  if bool_decide (bt_category t = BC_SUMMARIZATION) && br_success r then text <$> br_response r else None.

Definition replay_result (p : PropositionSpecification) (lookup : list (list N * SummarizationTaskSpecification))
    (run : BenchmarkRun) (read : result exn BenchmarkResult) : result exn (list HistoricalReplayItem) :=
  r ← read;
  match dict_get (dict_of task_id (fun t => t) (tasks (rn_dataset run))) (br_task_id r) with
  | None => Raise (Exn C_KeyError)
  | Some t =>
      match replayed_text t r with
      | None => Ok []
      | Some summary =>
          match dict_get lookup (br_task_id r) with
          | None => Raise (Exn C_ValueError)
          | Some s =>
              q ← specified_request p s summary;
              Ok [mk_HistoricalReplayItem (uuid_str (rn_run_id run)) (uuid_str (br_result_id r)) (br_task_id r) (br_model_id r) q]
          end
      end
  end.

Definition replay_run (p : PropositionSpecification) (root : stored_run) : result exn (list HistoricalReplayItem) :=
  run ← st_manifest root;
  let lookup := specifications (if contains (py "foundation") (ds_name (rn_dataset run)) then FOUNDATION else RB12) p in
  items ← result_map (replay_result p lookup run) (st_results root);
  Ok (List.concat items).

(** [prepare_historical_replay] *)
Definition prepare_historical_replay (p : PropositionSpecification) (roots : list stored_run) :
    result exn (list HistoricalReplayItem) :=
  items ← result_map (replay_run p) roots;
  Ok (List.concat items).

(** ** The plan *)

Section Plan.
Context {UD : UnicodeData}.

Definition pilot_candidates : decimal := mk_decimal false 3213190 (-8).
Definition full_candidates : decimal := mk_decimal false 34830600 (-8).
Definition contingency : decimal := mk_decimal false 10 (-2).

(** [Decimal(estimate["expected_cost_usd"])] *)
Definition read_cost (estimate : py_dict) : result exn decimal :=
  match dict_get estimate (py "expected_cost_usd") with
  | Some (PJStr s) => match decimal_of_str s with Some d => Ok d | None => Raise (Exn C_ArithmeticError) end
  | Some _ => Raise (Exn C_TypeError)
  | None => Raise (Exn C_KeyError)
  end.

(** The estimate of a study with the costs of its candidates. *)
Definition with_candidates (estimate : py_dict) (candidates : decimal) : result exn py_dict :=
  expected ← read_cost estimate;
  base ← decimal_error (d_add default_prec candidates expected);
  factor ← decimal_error (d_add default_prec (d_of_Z 1) contingency);
  total ← decimal_error (d_mul default_prec base factor);
  Ok (dict_update estimate [(py "candidate_cost_usd", decimal_text candidates); (py "expected_total_cost_usd", decimal_text total)]).

(** [build_cost_plan] *)
Definition build_cost_plan (validation_inputs : list PropositionJudgeInput) (pilot_replay : list HistoricalReplayItem)
    (p : PropositionSpecification) : result exn py_dict :=
  validation ← (requests ← validation_requests validation_inputs; estimate_requests requests);
  pilot ← estimate_requests (map blind_judge_request (List.filter (fun i => contains (py "1aa850f6") (hi_run_id i)) pilot_replay));
  full ← (requests ← routing_full_requests p 4; estimate_requests requests);
  corrected_pilot ← with_candidates pilot pilot_candidates;
  full_benchmark ← with_candidates full full_candidates;
  Ok [ (py "version", PJStr (py "1.3.0"));
       (py "pricing_status", PJStr (py "FROZEN_REPOSITORY_ASSUMPTION_REQUIRES_LIVE_REVERIFICATION"));
       (py "pricing_usd_per_million_tokens", PJObj
         [(py "astra_input", decimal_text ASTRA_INPUT_USD_PER_MILLION); (py "astra_output", decimal_text ASTRA_OUTPUT_USD_PER_MILLION)]);
       (py "method", PJObj
         [ (py "input_token_approximation", PJStr (py "ceil((system prompt + exact request prompt) UTF-8 bytes / 4)"));
           (py "expected_output_tokens", PJStr (py "96 + 56 * proposition_count"));
           (py "worst_case_output_tokens_per_call", PJInt WORST_CASE_OUTPUT_TOKENS);
           (py "full_candidate_placeholder", PJStr (py "40 words per stored task source"));
           (py "candidate_costs", PJStr (py "unchanged frozen routing cost estimate v1.1.0"));
           (py "total_contingency_fraction", decimal_text contingency) ]);
       (py "validation", PJObj validation); (py "corrected_pilot", PJObj corrected_pilot);
       (py "full_benchmark", PJObj full_benchmark) ].
End Plan.

(** ** The price of a plan *)

Lemma exact_product_comm a b : d_mul_exact a b = d_mul_exact b a.
Proof. unfold d_mul_exact. f_equal; [apply xorb_comm|lia|lia]. Qed.

Lemma product_comm prec a b : d_mul prec a b = d_mul prec b a.
Proof. unfold d_mul. by rewrite exact_product_comm. Qed.

(** Counts of tokens with at most fourteen digits. *)
Definition countable (n : Z) : Prop := (0 <= n < 10 ^ 14)%Z.

Lemma countable_digits n : countable n -> (length (Z_to_str n) <= 14)%nat.
Proof.
  intros [H0 H]. rewrite <- ndigits_of_Z by done. change 14%nat with (ndigits 99999999999999).
  apply ndigits_mono. cbn [d_of_Z d_coef]. lia.
Qed.

(** A model at the rates of the plan. *)
Definition at_rates (m : ModelConfig) (ri ro : decimal) : ModelConfig :=
  mk_ModelConfig (model_id m) (provider m) (provider_model_name m) ri ro (context_window m) (enabled m) (capabilities m)
    (reasoning_effort m) (reasoning_control m) (output_token_policy m).

Definition astra : ModelConfig :=
  default (vercel_model "" "" 0 0 0 (mk_ModelCapabilities false false RB_PROVIDER_DEFAULT VISIBLE_ONLY) None default_output_token_policy)
    (List.find (fun m => bool_decide (model_id m = py "judge-gpt-6-astra")) JUDGE_SELECTION_MODELS).

Definition planned : ModelConfig := at_rates astra ASTRA_INPUT_USD_PER_MILLION ASTRA_OUTPUT_USD_PER_MILLION.

Lemma cost_value i o : countable i -> countable o -> exists c, cost i o = Ok c /\ (0 <= d_int c)%Z /\ (-8 <= d_exp c)%Z /\
  d_scaled c (-8) = (1000 * i + 5000 * o)%Z.
Proof.
  intros Hi Ho. pose proof (countable_digits i Hi). pose proof (countable_digits o Ho). destruct Hi, Ho.
  destruct (cost_in_exact default_prec i o planned) as (c & C & N & V); [done|done|done| |].
  { unfold reserved_digits, digits_for. change (ndigits (d_coef (input_cost_per_1m_tokens planned))) with 2%nat.
    change (ndigits (d_coef (output_cost_per_1m_tokens planned))) with 2%nat. cbn [planned at_rates input_cost_per_1m_tokens
      output_cost_per_1m_tokens d_exp ASTRA_INPUT_USD_PER_MILLION ASTRA_OUTPUT_USD_PER_MILLION]. unfold default_prec, Emax. lia. }
  exists c. destruct (V (-8)%Z) as [E S]; [done|done|]. split; [|split; [done|split; [done|]]].
  - unfold cost. rewrite (product_comm _ (d_of_Z i)), (product_comm _ (d_of_Z o)). unfold cost_in in C.
    cbn [planned at_rates input_cost_per_1m_tokens output_cost_per_1m_tokens] in C. by rewrite C.
  - rewrite S. unfold cost_units. change (d_scaled (input_cost_per_1m_tokens planned) (-8 + 6)) with 1000%Z.
    change (d_scaled (output_cost_per_1m_tokens planned) (-8 + 6)) with 5000%Z. lia.
Qed.

Lemma scaled_leb a b : (-8 <= d_exp a)%Z -> (-8 <= d_exp b)%Z -> (d_scaled a (-8) <= d_scaled b (-8))%Z -> d_leb a b = true.
Proof.
  intros Ha Hb H. unfold d_leb, cmp_le. rewrite (d_cmp_at a b (-8) Ha Hb). by destruct (Z.compare_spec (d_scaled a (-8)) (d_scaled b (-8))); [..|lia].
Qed.

(** The price of the plan is the price of the catalogue: for counts of up to
    fourteen digits the cost of the plan and the cost that the pricing of the
    gateway computes for the judge model are the same number; neither is rounded. *)
Theorem planned_cost_is_the_judges i o : countable i -> countable o ->
  exists c c', cost i o = Ok c /\ calculate_cost i o astra = Ok c' /\ d_eqb c c' = true.
Proof.
  intros Hi Ho. destruct (cost_value i o Hi Ho) as (c & C & _ & E & S).
  pose proof (countable_digits i Hi). pose proof (countable_digits o Ho). destruct Hi, Ho.
  destruct (calculate_cost_steps i o astra) as (c' & C' & _ & V).
  - split; vm_compute; discriminate.
  - done.
  - done.
  - rewrite printable_text by done. apply Z.leb_le. unfold MAX_STR_DIGITS. lia.
  - rewrite printable_text by done. apply Z.leb_le. unfold MAX_STR_DIGITS. lia.
  - unfold reserved_digits, digits_for. change (ndigits (d_coef (input_cost_per_1m_tokens astra))) with 4%nat.
    change (ndigits (d_coef (output_cost_per_1m_tokens astra))) with 4%nat.
    change (d_exp (input_cost_per_1m_tokens astra)) with (-2)%Z. change (d_exp (output_cost_per_1m_tokens astra)) with (-2)%Z.
    unfold Emax. lia.
  - exists c, c'. split; [done|]. split; [done|]. destruct (V (-8)%Z) as [E' S']; [done|done|].
    apply (d_eqb_eq_at c c' (-8) E E'). rewrite S, S'. unfold cost_units.
    change (d_scaled (input_cost_per_1m_tokens astra) (-8 + 6)) with 1000%Z.
    change (d_scaled (output_cost_per_1m_tokens astra) (-8 + 6)) with 5000%Z. lia.
Qed.

(** ** Worst cases *)

Lemma fold_add_from l : forall a, fold_left Z.add l a = (a + sum_Z l)%Z.
Proof.
  unfold sum_Z. induction l as [|x l IH]; intros a; cbn [fold_left]; [lia|]. rewrite IH, (IH (0 + x)%Z). lia.
Qed.

Lemma sum_Z_cons z l : sum_Z (z :: l) = (z + sum_Z l)%Z.
Proof. unfold sum_Z at 1. cbn [fold_left]. rewrite fold_add_from. lia. Qed.

(** A call is within the worst case exactly when it has at most twelve propositions. *)
Lemma expected_within_worst n : (expected_output_tokens n <= WORST_CASE_OUTPUT_TOKENS)%Z <-> n <= 12.
Proof. unfold expected_output_tokens, EXPECTED_OUTPUT_BASE_TOKENS, EXPECTED_OUTPUT_TOKENS_PER_PROPOSITION, WORST_CASE_OUTPUT_TOKENS. lia. Qed.

Definition small_requests (rs : list HybridJudgeRequest) : Prop := Forall (fun r => length (required_propositions r) <= 12) rs.

Lemma outputs_bound rs : small_requests rs -> (0 <= expected_outputs rs <= worst_outputs rs)%Z.
Proof.
  unfold expected_outputs, worst_outputs. induction 1 as [|r rs H _ IH]; [done|]. cbn [map length]. rewrite sum_Z_cons.
  apply expected_within_worst in H. assert (0 <= expected_output_tokens (length (required_propositions r)))%Z
    by (unfold expected_output_tokens, EXPECTED_OUTPUT_BASE_TOKENS, EXPECTED_OUTPUT_TOKENS_PER_PROPOSITION; lia). lia.
Qed.

Definition worst_field : pystr := py "worst_case_cost_usd".
Definition expected_field : pystr := py "expected_cost_usd".

(** For requests of at most twelve propositions each, the estimate exists and
    its expected cost is not negative and at most its worst-case cost. *)
Theorem worst_case_dominates rs inputs : small_requests rs -> result_map request_input_tokens rs = Ok inputs ->
  countable (sum_Z inputs) -> countable (worst_outputs rs) ->
  exists d expected worst, estimate_requests rs = Ok d /\
    dict_get d expected_field = Some (decimal_text expected) /\ dict_get d worst_field = Some (decimal_text worst) /\
    d_leb d_zero expected = true /\ d_leb expected worst = true.
Proof.
  intros S I CI CW. pose proof (outputs_bound rs S) as B.
  assert (CE : countable (expected_outputs rs)) by (unfold countable in *; lia).
  destruct (cost_value _ _ CI CE) as (e & E & _ & Ee & Ve). destruct (cost_value _ _ CI CW) as (w & W & _ & Ew & Vw).
  unfold estimate_requests. rewrite I. rsimpl. cbv zeta. rewrite E, W. rsimpl. eexists _, e, w. split; [reflexivity|].
  split; [vm_compute; reflexivity|]. split; [vm_compute; reflexivity|].
  destruct CI as [CI _]. split.
  - apply scaled_leb; [done|done|]. rewrite Ve. change (d_scaled d_zero (-8)) with 0%Z. lia.
  - apply scaled_leb; [done|done|]. rewrite Ve, Vw. lia.
Qed.

(** ** What is replayed *)

(** A replayed result of a run: its names are copied, and its request is the
    one of its task's specification for the text alone. *)
Definition replays (p : PropositionSpecification) (run : BenchmarkRun) (r : BenchmarkResult) (x : HistoricalReplayItem) : Prop :=
  exists t s summary, dict_get (dict_of task_id (fun t => t) (tasks (rn_dataset run))) (br_task_id r) = Some t /\
    replayed_text t r = Some summary /\
    s ∈ ps_tasks p /\ canonical_task_id s = br_task_id r /\
    startswith (specification_id s) (if contains (py "foundation") (ds_name (rn_dataset run)) then FOUNDATION else RB12) = true /\
    specified_request p s summary = Ok (blind_judge_request x) /\
    hi_run_id x = uuid_str (rn_run_id run) /\ hi_result_id x = uuid_str (br_result_id r) /\
    hi_task_id x = br_task_id r /\ hi_model_id x = br_model_id r.

(** Whether a result of a run is a summary to replay. *)
Definition is_replayed (run : BenchmarkRun) (r : BenchmarkResult) : bool :=
  match dict_get (dict_of task_id (fun t => t) (tasks (rn_dataset run))) (br_task_id r) with
  | Some t => is_some (replayed_text t r)
  | None => false
  end.

Lemma replay_result_ok p run x items :
  replay_result p (specifications (if contains (py "foundation") (ds_name (rn_dataset run)) then FOUNDATION else RB12) p) run x = Ok items ->
  exists r, x = Ok r /\ Forall2 (replays p run) (List.filter (is_replayed run) [r]) items.
Proof.
  unfold replay_result. intros H. apply bind_ok in H as (r & -> & H). exists r. split; [done|].
  cbn [List.filter]. unfold is_replayed at 1. destruct (dict_get (dict_of task_id _ _) _) as [t|] eqn:T; [|discriminate].
  destruct (replayed_text t r) as [summary|] eqn:X; cbn [is_some].
  2: { injection H as <-. constructor. }
  destruct (dict_get (specifications _ p) (br_task_id r)) as [s|] eqn:L; [|discriminate].
  apply bind_ok in H as (q & Q & H). injection H as <-. constructor; [|constructor].
  unfold specifications in L. apply dict_of_get in L as (s' & I & K & E). subst s'.
  apply list_elem_of_In, filter_In in I as [I P]. exists t, s, summary. cbn.
  repeat split; [done|done|by apply list_elem_of_In|done|done|done].
Qed.

Lemma concat_Forall2 {A B C} (R : B -> C -> Prop) (f : A -> list B) (l : list A) (ys : list (list C)) :
  Forall2 (fun a y => Forall2 R (f a) y) l ys -> Forall2 R (List.concat (map f l)) (List.concat ys).
Proof. induction 1 as [|a y l ys H _ IH]; [constructor|]. cbn. by apply Forall2_app. Qed.

(** The results of a run that were read. *)
Definition read_results (root : stored_run) : list BenchmarkResult :=
  omap (fun x => match x with Ok r => Some r | Raise _ => None end) (st_results root).

Lemma replay_run_ok p root items : replay_run p root = Ok items ->
  exists run, st_manifest root = Ok run /\ map Ok (read_results root) = st_results root /\
    Forall2 (replays p run) (List.filter (is_replayed run) (read_results root)) items.
Proof.
  unfold replay_run. intros H. apply bind_ok in H as (run & M & H). cbv zeta in H. apply bind_ok in H as (ys & Y & H).
  injection H as <-. exists run. split; [done|]. apply result_map_ok in Y. unfold read_results.
  induction Y as [|x y l ys R _ IH]; [split; [done|constructor]|]. apply replay_result_ok in R as (r & -> & F).
  destruct IH as [IH1 IH2]. cbn [omap list_omap map]. split; [by rewrite IH1|].
  cbn [List.filter List.concat] in *. destruct (is_replayed run r).
  - inversion F as [|? z ? y' R1 R2]; subst. inversion R2; subst. by constructor.
  - inversion F. done.
Qed.

(** The replay of stored runs has exactly one item per successful summary, in
    the order of the runs and of their results; the request of an item is made of
    the specification of its task and the text of the response, and so does not
    depend on the model that wrote it. *)
Theorem replay_is_complete p roots items : prepare_historical_replay p roots = Ok items ->
  exists parts, items = List.concat parts /\ Forall2 (fun root part => exists run, st_manifest root = Ok run /\
    map Ok (read_results root) = st_results root /\
    Forall2 (replays p run) (List.filter (is_replayed run) (read_results root)) part) roots parts.
Proof.
  unfold prepare_historical_replay. intros H. apply bind_ok in H as (parts & P & H). injection H as <-. exists parts.
  split; [done|]. apply result_map_ok in P. eapply Forall2_impl; [exact P|]. intros root part. apply replay_run_ok.
Qed.

(** ** Examples *)

Lemma planned_cost_is_the_judges_witness : exists c c',
  cost 1000 200 = Ok c /\ calculate_cost 1000 200 astra = Ok c' /\ d_eqb c c' = true /\ model_id astra = py "judge-gpt-6-astra".
Proof.
  destruct (planned_cost_is_the_judges 1000 200) as (c & c' & C & C' & E); [split; lia|split; lia|].
  exists c, c'. split; [exact C|]. split; [exact C'|]. split; [exact E|reflexivity].
Defined.

Lemma worst_case_dominates_witness : exists d e w, estimate_requests [example_judge_request] = Ok d /\
  dict_get d expected_field = Some (decimal_text e) /\ dict_get d worst_field = Some (decimal_text w) /\ d_leb e w = true.
Proof.
  assert (I : exists n, result_map request_input_tokens [example_judge_request] = Ok [n] /\ (0 <=? n)%Z && (n <? 10 ^ 14)%Z = true).
  { eexists. split; [vm_compute; reflexivity|vm_compute; reflexivity]. }
  destruct I as (n & I & B). apply andb_true_iff in B as [B1 B2]. apply Z.leb_le in B1. apply Z.ltb_lt in B2.
  destruct (worst_case_dominates [example_judge_request] [n]) as (d & e & w & D & E & W & _ & L).
  - constructor; [cbn; lia|constructor].
  - exact I.
  - rewrite sum_Z_cons. split; cbn; lia.
  - split; vm_compute; [discriminate|reflexivity].
  - exists d, e, w. split; [exact D|]. split; [exact E|]. split; [exact W|exact L].
Defined.

Definition replay_specification : PropositionSpecification :=
  mk_PropositionSpecification (py "1.0.0") [] [mk_SummarizationTaskSpecification (py "rb12-s1") (py "t1") [py "t1"] (py "text")
    [py "r1"] [example_proposition "a" 1 1] [] [] []] [] default_contract.

Definition replay_task (id : string) (c : BenchmarkCategory) : BenchmarkTask :=
  mk_BenchmarkTask (py "p") None 64 f_zero (py id) c EO_text [] None [] None None None None None None.

Definition replay_runs : list stored_run :=
  let answer := mk_InferenceResponse (py "a summary") (py "m") (py "vercel") 9 9 f_one d_zero TR_COMPLETE None in
  let stored (id : N) (task : string) (success : bool) := Ok (mk_BenchmarkResult id 1%N (py "r") (py task) (py "m") 0%Z success
    (if success then Some answer else None) None [] f_one) in
  [mk_stored_run (Ok (mk_BenchmarkRun 1%N 0 (mk_BenchmarkDataset (py "routing") (py "1.2.0")
      [replay_task "t1"%string BC_SUMMARIZATION; replay_task "t2"%string BC_QA] (py "00")) (py "00") [] []
      (mk_BenchmarkConfiguration [] [] [] [] [] [] [] [] [] [] false [])))
    [stored 7%N "t1"%string true; stored 8%N "t2"%string true; stored 9%N "t1"%string false]].

Lemma replay_is_complete_witness : exists items, prepare_historical_replay replay_specification replay_runs = Ok items /\
  map hi_result_id items = [uuid_str 7].
Proof.
  destruct (prepare_historical_replay replay_specification replay_runs) as [items|e] eqn:R; [|vm_compute in R; discriminate].
  exists items. split; [reflexivity|].
  destruct (replay_is_complete replay_specification replay_runs items R) as (parts & -> & F).
  apply Forall2_cons_inv_l in F as (part & rest & (run & M & _ & F) & E & ->). injection M as <-.
  apply Forall2_nil_inv_l in E as ->. cbn [List.concat]. rewrite app_nil_r.
  match type of F with Forall2 _ ?l _ => let v := eval vm_compute in (map br_result_id l) in
    assert (L : map br_result_id l = v) by (vm_compute; reflexivity) end.
  revert L. induction F as [|r x l part' H _ IH]; intros L; [discriminate|].
  destruct H as (? & ? & ? & _ & _ & _ & _ & _ & _ & _ & Hx & _). destruct l; [|discriminate].
  injection L as L. cbn [map]. rewrite Hx, L. by destruct part'.
Defined.
