(* ===== verification/CategoryDetector.v ===== *)
(** * Category detector experiment ([experiments/category_detector.py])

    An offline detector of the routing category of a prompt: frozen rules, the
    combination with a learned model, the bounded correction of one confusable
    pair, the metrics of each and the effect of a detected category on routing.
    The learned model and the metrics of scikit-learn are parameters. *)
From S2P Require Import Prelude PyStr PyFloat PyRatio PyDecimal Schemas Errors Registry Pricing PyNum Regex Features QualityFeatures Policy Routing Predictor GatewayConfig Json PyRepr JsonText Validation Observability PyUuid Telemetry Effects BenchmarkModels Aggregation Evaluators DatasetValidation SummarySpec SemanticJudge HybridValidation HybridPlanning.

Definition CATEGORIES : list pystr :=
  map py ["classification"; "coding"; "extraction"; "structured_json"; "qa"; "reasoning"; "summarization"]%string.

(** A prompt of a split with its manifest entry. *)
Record DetectorRecord := mk_DetectorRecord {
  dr_task_id : pystr;
  dr_category : pystr;
  dr_prompt : pystr;
  dr_normalized_text : pystr;
  dr_task_family_id : pystr;
  dr_difficulty : pystr
}.

(** [zip(a, b, strict=True)], consumed to its end. *)
Definition zip_strict {A B : Type} (a : list A) (b : list B) : result exn (list (A * B)) :=
  if Nat.eqb (length a) (length b) then Ok (combine a b) else Raise (Exn C_ValueError).

(** ** Rules *)

Section Rules.
Context {UD : UnicodeData}.

(** [re.compile(r"\s+").sub(" ", text)] *)
Fixpoint collapse_spaces (in_space : bool) (s : pystr) : pystr :=
  match s with
  | [] => []
  | c :: s' =>
      if is_space c then (if in_space then collapse_spaces true s' else 32%N :: collapse_spaces true s')
      else c :: collapse_spaces false s'
  end.

Definition normalize_text (text : pystr) : pystr := u_casefold (strip (collapse_spaces false text)).

(** [.{0,n}] with [re.S]: as many characters as possible first. *)
Fixpoint up_to (n : nat) : regex :=
  match n with
  | O => REps
  | S n' => ROpt (RSeq (RChar (fun _ => true)) (up_to n'))
  end.

(** [\b(?:a|b|...)\b] *)
Definition any_word (ws : list string) : regex := sequence [RBoundary; alternatives (map keyword ws); RBoundary].

(** [\b(?:...)\b.{0,n}\b(?:...)\b] *)
Definition near (a : list string) (n : nat) (b : list string) : regex := sequence [any_word a; up_to n; any_word b].

Definition CLASSIFICATION_RULE : regex :=
  RAlt (near ["classify"; "assign"]%string 100 ["label"; "category"; "class"]%string)
       (near ["label"; "category"]%string 80 ["choose"; "select"; "return"]%string).

Definition CODING_RULE : regex :=
  RAlt (near ["write"; "implement"; "define"; "debug"; "fix"; "modify"; "validate"]%string 100
          ["python"; "function"; "code"; "class"; "executable"]%string)
       (any_word ["return only the function definition"]%string).

Definition EXTRACTION_RULE : regex :=
  RAlt (near ["extract"]%string 120 ["field"; "fields"; "value"; "values"; "record"; "records"; "from"]%string)
       (near ["recover"]%string 100 ["field"; "fields"; "fact"; "facts"]%string).

Definition STRUCTURED_JSON_RULE : regex :=
  RAlt (near ["construct"; "transform"; "filter"; "aggregate"; "validate"; "convert"]%string 120 ["json"]%string)
       (near ["json"]%string 100 ["object"; "array"; "schema"]%string).

Definition SUMMARIZATION_RULE : regex :=
  RAlt (near ["summarize"]%string 100 ["source"; "following"; "report"; "passage"; "text"; "document"]%string)
       (near ["source"; "report"; "passage"; "document"]%string 100 ["summary"]%string).

Definition REASONING_RULE : regex :=
  RAlt (near ["solve"; "calculate"; "compute"]%string 160 ["return"; "answer"; "result"]%string)
       (near ["earliest common"; "constraint"; "allocation"; "ordering"; "schedule"]%string 160
          ["return"; "which"; "what"]%string).

(** The order in which [rule_predict] asks the rules. *)
Definition rule_predict (prompt : pystr) : option pystr :=
  let text := normalize_text prompt in
  if search CLASSIFICATION_RULE text then Some (py "classification")
  else if search CODING_RULE text then Some (py "coding")
  else if search EXTRACTION_RULE text then Some (py "extraction")
  else if search STRUCTURED_JSON_RULE text then Some (py "structured_json")
  else if search SUMMARIZATION_RULE text then Some (py "summarization")
  else if search REASONING_RULE text then Some (py "reasoning")
  else None.

(** [_TRANSFORMATION_OPERATION] *)
Definition TRANSFORMATION_OPERATION : regex :=
  sequence [RBoundary;
    alternatives (map keyword ["map"; "mapping"; "sort"; "sorted"; "group"; "count"; "counting"]%string ++
      [RSeq (keyword "deduplicat") (RStar (RChar is_word));
       sequence [keyword "duplicate"; ROpt (keyword "s"); keyword " removed"]] ++
      map keyword ["join"; "joining"; "filter"; "aggregate"; "reorder"; "first-occurrence"; "only when";
                   "otherwise null"]%string);
    RBoundary].

(** [_DIRECT_RECOVERY_SOURCE] *)
Definition DIRECT_RECOVERY_SOURCE : regex :=
  sequence [RBoundary;
    alternatives ([keyword "contact"; RSeq (keyword "log") (ROpt (keyword "s")); keyword "table";
                   RSeq (keyword "row") (ROpt (keyword "s"))] ++
      map keyword ["entries"; "section"; "draft"; "final"; "approved"; "target customer"; "approver";
                   "requester"]%string);
    RBoundary].

Definition EXTRACTION_PREDICTION : pystr := py "extraction".
Definition STRUCTURED_PREDICTION : pystr := py "structured_json".

(** [prediction in {"extraction", "structured_json"}] *)
Definition eligible_pair (prediction : pystr) : bool :=
  bool_decide (prediction = EXTRACTION_PREDICTION) || bool_decide (prediction = STRUCTURED_PREDICTION).

Definition correct_extraction_json_boundary (prompt prediction : pystr) : pystr :=
  if negb (eligible_pair prediction) then prediction
  else
    let text := normalize_text prompt in
    if search TRANSFORMATION_OPERATION text then STRUCTURED_PREDICTION
    else if search DIRECT_RECOVERY_SOURCE text then EXTRACTION_PREDICTION
    else prediction.

(** [_hybrid_predictions] *)
Definition hybrid_predictions (records : list DetectorRecord) (learned : list pystr) :
    result exn (list pystr * list (option pystr)) :=
  let rules := map (fun r => rule_predict (dr_prompt r)) records in
  pairs ← zip_strict rules learned;
  Ok (map (fun p => default p.2 p.1) pairs, rules).

(** [_revised_predictions] *)
Definition revised_predictions (records : list DetectorRecord) (predictions : list pystr) : result exn (list pystr) :=
  hybrid ← hybrid_predictions records predictions;
  pairs ← zip_strict records hybrid.1;
  Ok (map (fun p => correct_extraction_json_boundary (dr_prompt p.1) p.2) pairs).

(** ** Metrics *)

Record CategoryCoverage := mk_CategoryCoverage { cc_covered : Z; cc_correct : Z; cc_total : Z }.

Record CategoryPrecision := mk_CategoryPrecision { cp_predicted : Z; cp_correct : Z; cp_precision : option float }.

Record RuleMetrics := mk_RuleMetrics {
  rm_coverage_count : Z;
  rm_coverage : float;
  rm_correct_covered : Z;
  rm_precision_when_fired : option float;
  rm_unresolved_count : Z;
  rm_unresolved_rate : float;
  rm_per_true_category : list (list N * CategoryCoverage);
  rm_per_predicted_category : list (list N * CategoryPrecision)
}.

(** [n / d if d else None], for counts. *)
Definition rate (n d : Z) : option float := if (d =? 0)%Z then None else Some (ratio n d).

Definition is_category (category : pystr) (r : DetectorRecord) : bool := bool_decide (dr_category r = category).

(** The covered records with the prediction of their rule. *)
Definition covered_by (pairs : list (DetectorRecord * option pystr)) : list (DetectorRecord * pystr) :=
  omap (fun p => (fun c => (p.1, c)) <$> p.2) pairs.

Definition hit (p : DetectorRecord * pystr) : bool := bool_decide (dr_category p.1 = p.2).

(** [_rule_metrics] *)
Definition rule_metrics (records : list DetectorRecord) (rules : list (option pystr)) : result exn RuleMetrics :=
  pairs ← zip_strict records rules;
  let covered := covered_by pairs in
  let n := Z.of_nat (length covered) in
  let total := Z.of_nat (length records) in
  _ ← guard_else (negb (total =? 0)%Z) (Exn C_ArithmeticError);
  Ok (mk_RuleMetrics n (ratio n total) (count hit covered) (rate (count hit covered) n) (total - n)
        (f_sub f_one (ratio n total))
        (map (fun category =>
           let rows := List.filter (fun p => is_category category p.1) covered in
           (category, mk_CategoryCoverage (Z.of_nat (length rows)) (count hit rows) (count (is_category category) records)))
           CATEGORIES)
        (map (fun category =>
           let predicted := List.filter (fun p => bool_decide (p.2 = category)) covered in
           let correct := count (fun p => is_category category p.1) predicted in
           (category, mk_CategoryPrecision (Z.of_nat (length predicted)) correct (rate correct (Z.of_nat (length predicted)))))
           CATEGORIES)).

(** ** Abstention *)

Record AbstentionPolicy := mk_AbstentionPolicy {
  ap_name : pystr;
  ap_minimum_top_score : float;
  ap_minimum_margin : float
}.

Definition ABSTENTION_POLICIES : list AbstentionPolicy :=
  [ mk_AbstentionPolicy (py "top_0.50") (f_of_ratio 50 100) f_zero;
    mk_AbstentionPolicy (py "margin_0.20") f_zero (f_of_ratio 20 100);
    mk_AbstentionPolicy (py "top_0.50_margin_0.15") (f_of_ratio 50 100) (f_of_ratio 15 100) ].

Record CategoryEffect := mk_CategoryEffect { ce_accepted : Z; ce_total : Z; ce_correct_accepted : Z }.

Record AbstentionResult := mk_AbstentionResult {
  ab_policy : AbstentionPolicy;
  ab_accepted : Z;
  ab_coverage : float;
  ab_abstained : Z;
  ab_abstention_rate : float;
  ab_correct_accepted : Z;
  ab_errors_accepted : Z;
  ab_accuracy_accepted : option float;
  ab_category_effects : list (list N * CategoryEffect)
}.

(** [np.sort] of a row of numbers, its last entry and its distance from the one
    before; a shorter row has no such entry. *)
Definition score_of (row : list float) : result exn (float * float) :=
  match rev (py_sorted (cmp_le f_cmp) row) with
  | top :: second :: _ => Ok (top, f_sub top second)
  | _ => Raise (Exn C_IndexError)
  end.

Definition score_summary (probabilities : list (list float)) : result exn (list (float * float)) :=
  result_map score_of probabilities.

(** The rule fired, or the learned scores meet both minima. *)
Definition accepts (policy : AbstentionPolicy) (scores : list (float * float)) (p : nat * option pystr) : result exn bool :=
  match p.2 with
  | Some _ => Ok true
  | None =>
      match scores !! p.1 with
      | Some (top, margin) => Ok (f_leb (ap_minimum_top_score policy) top && f_leb (ap_minimum_margin policy) margin)
      | None => Raise (Exn C_IndexError)
      end
  end.

(** One record in the masks: its category, whether the prediction is correct
    and whether it is accepted. *)
Record Judged := mk_Judged { jd_category : pystr; jd_correct : bool; jd_accepted : bool }.

Definition abstention_result (policy : AbstentionPolicy) (js : list Judged) : AbstentionResult :=
  let total := Z.of_nat (length js) in
  let accepted := count jd_accepted js in
  let correct := count (fun j => jd_correct j && jd_accepted j) js in
  mk_AbstentionResult policy accepted (ratio accepted total) (total - accepted) (f_sub f_one (ratio accepted total))
    correct (accepted - correct) (rate correct accepted)
    (map (fun category =>
       let mask := fun j => bool_decide (jd_category j = category) in
       (category, mk_CategoryEffect (count (fun j => jd_accepted j && mask j) js) (count mask js)
                    (count (fun j => jd_correct j && (jd_accepted j && mask j)) js)))
       CATEGORIES).

(** One round of the loop of [_abstention_metrics]: arrays of other lengths do
    not combine, and empty ones are not boolean. *)
Definition apply_policy (records : list DetectorRecord) (predictions : list pystr) (rules : list (option pystr))
    (scores : list (float * float)) (policy : AbstentionPolicy) : result exn AbstentionResult :=
  accepted ← result_map (accepts policy scores) (combine (seq 0 (length rules)) rules);
  labelled ← zip_strict records predictions;
  _ ← guard_else (negb (Nat.eqb (length records) 0)) (Exn C_TypeError);
  judged ← zip_strict labelled accepted;
  Ok (abstention_result policy
        (map (fun q => mk_Judged (dr_category q.1.1) (bool_decide (dr_category q.1.1 = q.1.2)) q.2) judged)).

Definition abstention_metrics (records : list DetectorRecord) (predictions : list pystr) (rules : list (option pystr))
    (probabilities : list (list float)) : result exn (list AbstentionResult) :=
  scores ← score_summary probabilities;
  result_map (apply_policy records predictions rules scores) ABSTENTION_POLICIES.

(** ** The correction of one boundary *)

Record PredictionChange := mk_PredictionChange {
  pc_task_id : pystr;
  pc_true_category : pystr;
  pc_before : pystr;
  pc_after : pystr;
  pc_before_correct : bool;
  pc_after_correct : bool
}.

Record BoundaryMetrics := mk_BoundaryMetrics {
  bm_signal_coverage_count : Z;
  bm_prediction_changes : Z;
  bm_corrected_errors : Z;
  bm_introduced_errors : Z;
  bm_changes : list PredictionChange
}.

(** A prediction of the pair on a text with a signal. *)
Definition fires (q : (DetectorRecord * pystr) * pystr) : bool :=
  eligible_pair q.1.2 &&
  (search TRANSFORMATION_OPERATION (dr_normalized_text q.1.1) ||
   search DIRECT_RECOVERY_SOURCE (dr_normalized_text q.1.1)).

Definition change_of (q : (DetectorRecord * pystr) * pystr) : option PredictionChange :=
  let '((r, previous), revised) := q in
  if bool_decide (previous = revised) then None
  else Some (mk_PredictionChange (dr_task_id r) (dr_category r) previous revised
               (bool_decide (previous = dr_category r)) (bool_decide (revised = dr_category r))).

(** [_boundary_correction_metrics] *)
Definition boundary_correction_metrics (records : list DetectorRecord) (before after : list pystr) :
    result exn BoundaryMetrics :=
  pairs ← zip_strict records before;
  triples ← zip_strict pairs after;
  let changes := omap change_of triples in
  Ok (mk_BoundaryMetrics (count fires triples) (Z.of_nat (length changes))
        (count (fun c => negb (pc_before_correct c) && pc_after_correct c) changes)
        (count (fun c => pc_before_correct c && negb (pc_after_correct c)) changes) changes).

(** ** The effect on routing *)

Record RouteComparison := mk_RouteComparison {
  rt_task_id : pystr;
  rt_true_category : pystr;
  rt_detected_category : pystr;
  rt_category_correct : bool;
  rt_true_selected_model : pystr;
  rt_detected_selected_model : pystr;
  rt_selected_model_changed : bool;
  rt_true_fallback : bool;
  rt_detected_fallback : bool;
  rt_fallback_changed : bool;
  rt_true_projected_cost_usd : decimal;
  rt_detected_projected_cost_usd : decimal;
  rt_projected_cost_delta_usd : decimal
}.

Record RouteImpact := mk_RouteImpact {
  ri_requests : Z;
  ri_correct_detected_category : Z;
  ri_incorrect_detected_category : Z;
  ri_same_selected_model : Z;
  ri_changed_selected_model : Z;
  ri_same_fallback_state : Z;
  ri_changed_fallback_state : Z;
  ri_true_total_projected_cost_usd : decimal;
  ri_detected_total_projected_cost_usd : decimal;
  ri_projected_cost_delta_usd : decimal;
  ri_route_changing_confusions : list (list N * Z);
  ri_category_errors_that_changed_model : list RouteComparison;
  ri_comparisons : list RouteComparison
}.

(** [a - b]: the sum with the negation of [b]. *)
Definition d_sub (prec : nat) (a b : decimal) : result decimal_exn decimal :=
  d_add prec a (mk_decimal (negb (d_neg b)) (d_coef b) (d_exp b)).

Definition BENCHMARK_MAX_OUTPUT_TOKENS : list (list N * list (list N * Z)) :=
  let by_difficulty (category : string) (easy medium hard : Z) :=
    (py category, [(py "easy", easy); (py "medium", medium); (py "hard", hard)]) in
  [ by_difficulty "classification" 32 32 32; by_difficulty "coding" 128 192 256;
    by_difficulty "extraction" 64 128 192; by_difficulty "structured_json" 64 128 192;
    by_difficulty "qa" 64 128 160; by_difficulty "reasoning" 160 160 160;
    by_difficulty "summarization" 96 128 192 ]%string%Z.

(** [d[key]] *)
Definition subscript {V : Type} (d : list (list N * V)) (key : pystr) : result exn V :=
  match dict_get d key with Some v => Ok v | None => Raise (Exn C_KeyError) end.

(** An entry of a split manifest, as far as it is read. *)
Record ManifestEntry := mk_ManifestEntry {
  me_task_id : pystr;
  me_task_family_id : pystr;
  me_difficulty : pystr
}.

(** [_manifest_records] on the tasks of the manifest of a split. *)
Definition manifest_records (entries : list ManifestEntry) : result exn (list (list N * ManifestEntry)) :=
  let by_id := fold_left (fun d e => dict_set d (me_task_id e) e) entries [] in
  if Nat.eqb (length by_id) (length entries) then Ok by_id else Raise (Exn C_ValueError).

(** One round of the loop of [_projected_records] on an exported prompt: its
    task, category and text. *)
Definition projected_record (manifest : list (list N * ManifestEntry)) (p : (pystr * pystr) * pystr) :
    result exn DetectorRecord :=
  e ← subscript manifest p.1.1;
  Ok (mk_DetectorRecord p.1.1 p.1.2 p.2 (normalize_text p.2) (me_task_family_id e) (me_difficulty e)).

Definition projected_records (prompts : list ((pystr * pystr) * pystr)) (entries : list ManifestEntry) :
    result exn (list DetectorRecord) :=
  manifest ← manifest_records entries;
  result_map (projected_record manifest) prompts.

Section RouteImpact.
(** The trusted predictor. *)
Context {P : QualityPredictor}.

(** The request a benchmark record stands for. *)
Definition benchmark_request (manifest : list (list N * ManifestEntry)) (r : DetectorRecord) : result exn InferenceRequest :=
  e ← subscript manifest (dr_task_id r);
  row ← subscript BENCHMARK_MAX_OUTPUT_TOKENS (dr_category r);
  max_tokens ← subscript row (me_difficulty e);
  let request := mk_InferenceRequest (dr_prompt r) None max_tokens f_zero in
  _ ← validated (InferenceRequest_validate request);
  Ok request.

(** One round of the loop of [_route_impact]. *)
Definition compare_routes (manifest : list (list N * ManifestEntry)) (p : DetectorRecord * pystr) :
    result exn RouteComparison :=
  let '(r, predicted) := p in
  request ← benchmark_request manifest r;
  let structured := eligible_pair (dr_category r) in
  true_features ← extract request (Some (dr_category r)) structured;
  detected_features ← extract request (Some predicted) structured;
  true_decision ← route_features None true_features CANDIDATE_MODELS (PyFloat PRODUCTION_QUALITY_THRESHOLD);
  detected_decision ← route_features None detected_features CANDIDATE_MODELS (PyFloat PRODUCTION_QUALITY_THRESHOLD);
  let true_cost := selected_projected_cost_usd true_decision in
  let detected_cost := selected_projected_cost_usd detected_decision in
  delta ← decimal_error (d_sub default_prec detected_cost true_cost);
  Ok (mk_RouteComparison (dr_task_id r) (dr_category r) predicted (bool_decide (dr_category r = predicted))
        (selected_model_id true_decision) (selected_model_id detected_decision)
        (negb (bool_decide (selected_model_id true_decision = selected_model_id detected_decision)))
        (fallback_used true_decision) (fallback_used detected_decision)
        (negb (Bool.eqb (fallback_used true_decision) (fallback_used detected_decision)))
        true_cost detected_cost delta).

Definition confusion_key (c : RouteComparison) : pystr := rt_true_category c ++ py "->" ++ rt_detected_category c.

(** A wrong category that changed the selected model. *)
Definition changed_error (c : RouteComparison) : bool := negb (rt_category_correct c) && rt_selected_model_changed c.

(** The totals over the comparisons; costs read back from their texts. *)
Definition route_summary (comparisons : list RouteComparison) : result exn RouteImpact :=
  let changed_errors := List.filter changed_error comparisons in
  true_cost ← decimal_error (d_sum default_prec (map rt_true_projected_cost_usd comparisons));
  detected_cost ← decimal_error (d_sum default_prec (map rt_detected_projected_cost_usd comparisons));
  delta ← decimal_error (d_sub default_prec detected_cost true_cost);
  Ok (mk_RouteImpact (Z.of_nat (length comparisons)) (count rt_category_correct comparisons)
        (count (fun c => negb (rt_category_correct c)) comparisons)
        (count (fun c => negb (rt_selected_model_changed c)) comparisons) (count rt_selected_model_changed comparisons)
        (count (fun c => negb (rt_fallback_changed c)) comparisons) (count rt_fallback_changed comparisons)
        true_cost detected_cost delta (py_sorted key_le (counter confusion_key changed_errors)) changed_errors comparisons).

(** [_route_impact] *)
Definition route_impact (entries : list ManifestEntry) (records : list DetectorRecord) (detected : list pystr) :
    result exn RouteImpact :=
  manifest ← manifest_records entries;
  comparisons ← result_map (compare_routes manifest) (combine records detected);
  _ ← guard_else (Nat.eqb (length records) (length detected)) (Exn C_ValueError);
  route_summary comparisons.
End RouteImpact.

(** ** Identities and the freeze *)

(** A row of [json.dumps(..., sort_keys=True, ensure_ascii=False)]. *)
Definition identity_row (r : DetectorRecord) : pystr :=
  py "{" ++ join (py ", ") (map (fun kv => json_string (py kv.1) ++ py ": " ++ json_string kv.2)
    [("category", dr_category r); ("prompt", dr_prompt r); ("task_id", dr_task_id r)]%string) ++ py "}".

Definition identity_text (records : list DetectorRecord) : pystr :=
  py "[" ++ join (py ", ") (map identity_row records) ++ py "]".

(** [_identity]; [sha256] is the digest of the text in UTF-8. *)
Definition identity (sha256 : pystr -> pystr) (records : list DetectorRecord) : pyjson :=
  PJObj [ (py "count", PJInt (Z.of_nat (length records)));
          (py "unique_task_ids", PJInt (Z.of_nat (length (remove_dups (map dr_task_id records)))));
          (py "per_category", PJObj (map (fun kv => (kv.1, PJInt kv.2)) (py_sorted key_le (counter dr_category records))));
          (py "prompt_projection_sha256", PJStr (sha256 (identity_text records)));
          (py "task_ids", PJArr (map (fun r => PJStr (dr_task_id r)) records)) ].

Definition RULES_VERSION : pystr := py "phase12.2b.1-high-precision-v2".
Definition NORMALIZATION : pystr := py "unicode-preserving whitespace collapse plus casefold".

Definition WORD_TFIDF : pyjson :=
  PJObj [ (py "analyzer", PJStr (py "word")); (py "ngram_range", PJArr [PJInt 1; PJInt 2]); (py "min_df", PJInt 1);
          (py "sublinear_tf", PJBool true) ].

Definition CHAR_TFIDF : pyjson :=
  PJObj [ (py "analyzer", PJStr (py "char_wb")); (py "ngram_range", PJArr [PJInt 3; PJInt 5]); (py "min_df", PJInt 1);
          (py "sublinear_tf", PJBool true); (py "max_features", PJInt 30000) ].

Definition policies_json : pyjson :=
  PJArr (map (fun a => PJObj [ (py "name", PJStr (ap_name a)); (py "minimum_top_score", PJFloat (ap_minimum_top_score a));
                               (py "minimum_margin", PJFloat (ap_minimum_margin a)) ]) ABSTENTION_POLICIES).

(** [frozen.get(key) != value] for a value that is not [None]. *)
Definition frozen_is (frozen : py_dict) (key : string) (value : pyjson) : bool :=
  match dict_get frozen (py key) with Some v => py_equal v value | None => false end.

(** [_validate_freeze] *)
Definition validate_freeze (sha256 : pystr -> pystr) (frozen : py_dict) (records : list DetectorRecord) : result exn unit :=
  _ ← guard_else
        (forallb (fun kv => frozen_is frozen kv.1 kv.2)
           [ ("rules_version", PJStr RULES_VERSION); ("normalization", PJStr NORMALIZATION); ("word_tfidf", WORD_TFIDF);
             ("character_tfidf", CHAR_TFIDF); ("abstention_policies", policies_json) ]%string) (Exn C_ValueError);
  guard_else (frozen_is frozen "training_identity" (identity sha256 records)) (Exn C_ValueError).

(** ** Training *)

Record ModelConfiguration := mk_ModelConfiguration { lc_name : pystr; lc_C : float }.

Definition MODEL_CONFIGS : list ModelConfiguration :=
  [ mk_ModelConfiguration (py "logreg-c1") f_one; mk_ModelConfiguration (py "logreg-c4") (f_of_Z 4) ].

(** The scores of scikit-learn that a report holds. *)
Record Metrics := mk_Metrics {
  mt_total : Z;
  mt_correct : Z;
  mt_accuracy : float;
  mt_macro_f1 : float;
  mt_details : pyjson
}.

(** Pipelines of scikit-learn, their scores and the splits of
    [StratifiedGroupKFold] by texts, labels and groups. *)
Class TextPipelines := {
  text_pipeline : Type;
  fit_pipeline : ModelConfiguration -> list (pystr * pystr) -> result exn text_pipeline;
  text_proba : text_pipeline -> list pystr -> result exn (list (list float));
  classes_ : text_pipeline -> list pystr;
  group_splits : list pystr -> list pystr -> list pystr -> list (list nat * list nat);
  sk_scores : list pystr -> list pystr -> result exn (float * float * pyjson)
}.

Section Training.
Context {TP : TextPipelines}.

(** [classes.index(category)] *)
Definition index_of (classes : list pystr) (category : pystr) : result exn nat :=
  match list_find (fun c => c = category) classes with Some (i, _) => Ok i | None => Raise (Exn C_ValueError) end.

Definition entry_at_index (row : list float) (i : nat) : result exn float :=
  match row !! i with Some x => Ok x | None => Raise (Exn C_IndexError) end.

(** [_aligned_probabilities] *)
Definition aligned_probabilities (m : text_pipeline) (texts : list pystr) : result exn (list (list float)) :=
  raw ← text_proba m texts;
  indexes ← result_map (index_of (classes_ m)) CATEGORIES;
  result_map (fun row => result_map (entry_at_index row) indexes) raw.

(** [texts[indexes]] *)
Definition taken {A : Type} (l : list A) (indexes : list nat) : result exn (list A) :=
  result_map (fun i => match l !! i with Some x => Ok x | None => Raise (Exn C_IndexError) end) indexes.

(** [probabilities[indexes] = rows]; a row that was not assigned is [None]. *)
Fixpoint assign_rows {A : Type} (indexed : list (nat * A)) (l : list (option A)) : list (option A) :=
  match indexed with
  | [] => l
  | (i, x) :: r => assign_rows r (<[i := Some x]> l)
  end.

(** One round of the loop of [cross_validated_probabilities]. *)
Definition validate_fold (records : list DetectorRecord) (config : ModelConfiguration)
    (probabilities : list (option (list float))) (split : list nat * list nat) : result exn (list (option (list float))) :=
  train ← taken records split.1;
  m ← fit_pipeline config (map (fun r => (dr_normalized_text r, dr_category r)) train);
  test ← taken records split.2;
  rows ← aligned_probabilities m (map dr_normalized_text test);
  indexed ← zip_strict split.2 rows;
  Ok (assign_rows indexed probabilities).

Fixpoint validate_folds (records : list DetectorRecord) (config : ModelConfiguration)
    (probabilities : list (option (list float))) (splits : list (list nat * list nat)) :
    result exn (list (option (list float))) :=
  match splits with
  | [] => Ok probabilities
  | split :: rest => probabilities ← validate_fold records config probabilities split; validate_folds records config probabilities rest
  end.

(** [cross_validated_probabilities] *)
Definition cross_validated_probabilities (records : list DetectorRecord) (config : ModelConfiguration) :
    result exn (list (list float)) :=
  probabilities ← validate_folds records config (replicate (length records) None)
    (group_splits (map dr_normalized_text records) (map dr_category records) (map dr_task_family_id records));
  result_map (fun row => match row with Some p => Ok p | None => Raise (Exn C_RuntimeError) end) probabilities.

(** [argmax]: the first of the largest entries. *)
Fixpoint argmax_from (best : nat) (value : float) (i : nat) (row : list float) : nat :=
  match row with
  | [] => best
  | x :: row' => if f_ltb value x then argmax_from i x (S i) row' else argmax_from best value (S i) row'
  end.

Definition argmax (row : list float) : result exn nat :=
  match row with [] => Raise (Exn C_ValueError) | x :: row' => Ok (argmax_from 0 x 1 row') end.

(** [_predictions] *)
Definition predictions_of (probabilities : list (list float)) : result exn (list pystr) :=
  result_map (fun row => i ← argmax row;
    match CATEGORIES !! i with Some c => Ok c | None => Raise (Exn C_IndexError) end) probabilities.

(** [_metrics] *)
Definition metrics_of (labels predictions : list pystr) : result exn Metrics :=
  scores ← sk_scores labels predictions;
  pairs ← zip_strict labels predictions;
  Ok (mk_Metrics (Z.of_nat (length labels)) (count (fun p => bool_decide (p.1 = p.2)) pairs) scores.1.1 scores.1.2 scores.2).

(** Comparison of tuples of numbers: the first unequal entries decide. *)
Fixpoint tuple_gt (a b : list float) : bool :=
  match a, b with
  | x :: a', y :: b' => if f_eqb x y then tuple_gt a' b' else f_ltb y x
  | _, _ => false
  end.

Record CandidateResult := mk_CandidateResult {
  cd_configuration : ModelConfiguration;
  cd_probabilities : list (list float);
  cd_learned : Metrics;
  cd_hybrid : Metrics
}.

(** The key by which a configuration is selected. *)
Definition selection_key (c : CandidateResult) : list float :=
  [mt_macro_f1 (cd_learned c); mt_accuracy (cd_learned c); f_neg (lc_C (cd_configuration c))].

Definition evaluate_configuration (records : list DetectorRecord) (config : ModelConfiguration) : result exn CandidateResult :=
  probabilities ← cross_validated_probabilities records config;
  learned ← predictions_of probabilities;
  hybrid ← hybrid_predictions records learned;
  let labels := map dr_category records in
  learned_metrics ← metrics_of labels learned;
  hybrid_metrics ← metrics_of labels hybrid.1;
  Ok (mk_CandidateResult config probabilities learned_metrics hybrid_metrics).

(** [max] by [selection_key]: the first of the largest. *)
Definition select_candidate (cs : list CandidateResult) : result exn CandidateResult :=
  match cs with
  | [] => Raise (Exn C_ValueError)
  | c :: cs' => Ok (min_from (fun a b => tuple_gt (selection_key a) (selection_key b)) c cs')
  end.

(** The primary detector: the learned one wins ties. *)
Definition primary_is_hybrid (learned hybrid : Metrics) : bool :=
  tuple_gt [mt_macro_f1 hybrid; mt_accuracy hybrid; f_zero] [mt_macro_f1 learned; mt_accuracy learned; f_one].

Record TrainResults := mk_TrainResults {
  tr_identity : pyjson;
  tr_rules : RuleMetrics;
  tr_candidates : list CandidateResult;
  tr_selected : CandidateResult;
  tr_learned : Metrics;
  tr_hybrid : Metrics;
  tr_abstention : list AbstentionResult;
  tr_hybrid_is_primary : bool
}.

(** [run_train_stage] on the projected records of the training split. *)
Definition run_train_stage (sha256 : pystr -> pystr) (records : list DetectorRecord) : result exn TrainResults :=
  let labels := map dr_category records in
  candidates ← result_map (evaluate_configuration records) MODEL_CONFIGS;
  selected ← select_candidate candidates;
  learned ← predictions_of (cd_probabilities selected);
  hybrid ← hybrid_predictions records learned;
  learned_metrics ← metrics_of labels learned;
  hybrid_metrics ← metrics_of labels hybrid.1;
  rules ← rule_metrics records hybrid.2;
  abstention ← abstention_metrics records hybrid.1 hybrid.2 (cd_probabilities selected);
  Ok (mk_TrainResults (identity sha256 records) rules candidates selected learned_metrics hybrid_metrics abstention
        (primary_is_hybrid learned_metrics hybrid_metrics)).

(** The frozen configuration it writes. *)
Definition frozen_configuration (t : TrainResults) : py_dict :=
  let config := cd_configuration (tr_selected t) in
  [ (py "schema_version", PJStr (py "phase12.2b.1-freeze-v1")); (py "rules_version", PJStr RULES_VERSION);
    (py "rule_precedence", PJArr (map (fun c => PJStr (py c))
      ["classification"; "coding"; "extraction"; "structured_json"; "summarization"; "reasoning"; "abstain"]%string));
    (py "normalization", PJStr NORMALIZATION); (py "word_tfidf", WORD_TFIDF); (py "character_tfidf", CHAR_TFIDF);
    (py "logistic_regression", PJObj [ (py "name", PJStr (lc_name config)); (py "C", PJFloat (lc_C config));
       (py "solver", PJStr (py "lbfgs")); (py "max_iter", PJInt 3000); (py "random_state", PJInt 20260929) ]);
    (py "training_identity", tr_identity t);
    (py "cv", PJObj [ (py "type", PJStr (py "StratifiedGroupKFold")); (py "splits", PJInt 5);
       (py "group", PJStr (py "task_family_id")); (py "random_state", PJInt 20260929) ]);
    (py "hybrid_behavior", PJStr (py "rule prediction when present; otherwise logistic-regression prediction"));
    (py "abstention_behavior",
       PJStr (py "rule predictions accepted; learned predictions use top-score/margin policy"));
    (py "abstention_policies", policies_json);
    (py "primary_detector", PJStr (if tr_hybrid_is_primary t then py "hybrid" else py "learned")) ].

(** ** Evaluation on the development split *)

(** [float(config["C"])] of the frozen configuration. *)
Definition frozen_model (frozen : py_dict) : result exn ModelConfiguration :=
  config ← subscript frozen (py "logistic_regression");
  match config with
  | PJObj d =>
      c ← subscript d (py "C");
      match c with
      | PJFloat f => Ok (mk_ModelConfiguration [] f)
      | PJInt n => Ok (mk_ModelConfiguration [] (f_of_Z n))
      | _ => Raise (Exn C_TypeError)
      end
  | _ => Raise (Exn C_TypeError)
  end.

(** [_fit_frozen_model] *)
Definition fit_frozen_model (records : list DetectorRecord) (frozen : py_dict) : result exn text_pipeline :=
  config ← frozen_model frozen;
  fit_pipeline config (map (fun r => (dr_normalized_text r, dr_category r)) records).

Record DevReport := mk_DevReport {
  dv_identity : pyjson;
  dv_rules : RuleMetrics;
  dv_learned : Metrics;
  dv_hybrid : Metrics;
  dv_primary : list pystr;
  dv_abstention : list AbstentionResult;
  dv_routing_impact : RouteImpact
}.

(** [run_dev_stage] on the projected records of both splits. *)
Definition run_dev_stage {P : QualityPredictor} (sha256 : pystr -> pystr) (frozen : py_dict)
    (train_records dev_records : list DetectorRecord) (dev_manifest : list ManifestEntry) : result exn DevReport :=
  _ ← validate_freeze sha256 frozen train_records;
  m ← fit_frozen_model train_records frozen;
  let labels := map dr_category dev_records in
  probabilities ← aligned_probabilities m (map dr_normalized_text dev_records);
  learned ← predictions_of probabilities;
  hybrid ← hybrid_predictions dev_records learned;
  detector ← subscript frozen (py "primary_detector");
  let primary := if equals_str (Some detector) (py "learned") then learned else hybrid.1 in
  rules ← rule_metrics dev_records hybrid.2;
  learned_metrics ← metrics_of labels learned;
  hybrid_metrics ← metrics_of labels hybrid.1;
  abstention ← abstention_metrics dev_records hybrid.1 hybrid.2 probabilities;
  routing ← route_impact dev_manifest dev_records primary;
  Ok (mk_DevReport (identity sha256 dev_records) rules learned_metrics hybrid_metrics primary abstention routing).

(** ** The correction stages *)

Definition BOUNDARY_CORRECTION_VERSION : pystr := py "phase12.2b.1b-extraction-json-v1".

Definition TRANSFORMATION_PATTERN : pystr :=
  py "\b(?:map|mapping|sort|sorted|group|count|counting|deduplicat\w*|" ++
  py "duplicates? removed|join|joining|filter|aggregate|reorder|" ++
  py "first-occurrence|only when|otherwise null)\b".

Definition RECOVERY_PATTERN : pystr :=
  py "\b(?:contact|logs?|table|rows?|entries|section|draft|final|approved|" ++
  py "target customer|approver|requester)\b".

Definition strings (l : list string) : pyjson := PJArr (map (fun s => PJStr (py s)) l).

Definition PRECEDENCE : pyjson := strings ["transformation_operation"; "direct_recovery_source"; "unchanged"]%string.

Record CorrectionResults := mk_CorrectionResults {
  cr_identity : pyjson;
  cr_base_configuration : py_dict;
  cr_before : Metrics;
  cr_after : Metrics;
  cr_existing_rules : RuleMetrics;
  cr_boundary_correction : BoundaryMetrics
}.

(** [run_correction_train_stage] *)
Definition run_correction_train_stage (sha256 : pystr -> pystr) (previous_freeze : py_dict)
    (records : list DetectorRecord) : result exn CorrectionResults :=
  _ ← validate_freeze sha256 previous_freeze records;
  config ← frozen_model previous_freeze;
  probabilities ← cross_validated_probabilities records config;
  before ← predictions_of probabilities;
  after ← revised_predictions records before;
  let labels := map dr_category records in
  before_metrics ← metrics_of labels before;
  after_metrics ← metrics_of labels after;
  rules ← rule_metrics records (map (fun r => rule_predict (dr_prompt r)) records);
  boundary ← boundary_correction_metrics records before after;
  Ok (mk_CorrectionResults (identity sha256 records) previous_freeze before_metrics after_metrics rules boundary).

(** What [_validate_correction_freeze] reads of the frozen correction, as
    [run_correction_train_stage] writes it; the metrics it also holds are not read. *)
Definition frozen_correction (r : CorrectionResults) : py_dict :=
  [ (py "schema_version", PJStr (py "phase12.2b.1b-freeze-v1"));
    (py "base_configuration", PJObj (cr_base_configuration r));
    (py "boundary_correction_version", PJStr BOUNDARY_CORRECTION_VERSION);
    (py "eligible_predictions", strings ["extraction"; "structured_json"]%string); (py "precedence", PRECEDENCE);
    (py "transformation_operation_pattern", PJStr TRANSFORMATION_PATTERN);
    (py "direct_recovery_source_pattern", PJStr RECOVERY_PATTERN);
    (py "training_identity", cr_identity r);
    (py "primary_detector", PJStr (py "learned_plus_boundary_correction")) ].

(** [_validate_correction_freeze] *)
Definition validate_correction_freeze (sha256 : pystr -> pystr) (frozen : py_dict) (records : list DetectorRecord) :
    result exn py_dict :=
  _ ← guard_else
        (forallb (fun kv => frozen_is frozen kv.1 kv.2)
           [ ("boundary_correction_version", PJStr BOUNDARY_CORRECTION_VERSION);
             ("eligible_predictions", strings ["extraction"; "structured_json"]); ("precedence", PRECEDENCE);
             ("transformation_operation_pattern", PJStr TRANSFORMATION_PATTERN);
             ("direct_recovery_source_pattern", PJStr RECOVERY_PATTERN);
             ("training_identity", identity sha256 records) ]%string) (Exn C_ValueError);
  base ← subscript frozen (py "base_configuration");
  match base with
  | PJObj d => _ ← validate_freeze sha256 d records; Ok d
  | _ => Raise (Exn C_AttributeError)
  end.

Record RegressionReport := mk_RegressionReport {
  rr_identity : pyjson;
  rr_before : Metrics;
  rr_after : Metrics;
  rr_boundary_correction : BoundaryMetrics;
  rr_routing_impact : RouteImpact
}.

(** [run_correction_dev_regression]; [previous] holds the categories the frozen
    evaluation detected, by task. *)
Definition run_correction_dev_regression {P : QualityPredictor} (sha256 : pystr -> pystr) (frozen : py_dict)
    (train_records dev_records : list DetectorRecord) (dev_manifest : list ManifestEntry)
    (previous : list (pystr * pystr)) : result exn RegressionReport :=
  base ← validate_correction_freeze sha256 frozen train_records;
  m ← fit_frozen_model train_records base;
  let labels := map dr_category dev_records in
  probabilities ← aligned_probabilities m (map dr_normalized_text dev_records);
  before ← predictions_of probabilities;
  let previous_predictions := fold_left (fun d p => dict_set d p.1 p.2) previous [] in
  pairs ← zip_strict dev_records before;
  _ ← guard_else (forallb (fun p => bool_decide (dict_get previous_predictions (dr_task_id p.1) = Some p.2)) pairs)
        (Exn C_ValueError);
  after ← revised_predictions dev_records before;
  routing ← route_impact dev_manifest dev_records after;
  before_metrics ← metrics_of labels before;
  after_metrics ← metrics_of labels after;
  boundary ← boundary_correction_metrics dev_records before after;
  Ok (mk_RegressionReport (identity sha256 dev_records) before_metrics after_metrics boundary routing).
End Training.
End Rules.

(** ** Lemmas *)

Lemma zip_strict_ok {A B} (a : list A) (b : list B) l : zip_strict a b = Ok l ->
  l = combine a b /\ length a = length b.
Proof. unfold zip_strict. destruct (Nat.eqb_spec (length a) (length b)); [|done]. by intros [= <-]. Qed.

Lemma count_mono {A} (p q : A -> bool) l : (forall x, x ∈ l -> p x = true -> q x = true) -> (count p l <= count q l)%Z.
Proof.
  induction l as [|x l IH]; intros H; [done|]. rewrite !count_cons.
  assert (count p l <= count q l)%Z by (apply IH; set_solver).
  destruct (p x) eqn:E; [rewrite (H x) by set_solver; lia|destruct (q x); lia].
Qed.

(** The sum over keys that are distinct counts each entry with such a key once. *)
Lemma sum_counts {A} (key : A -> pystr) (keys : list pystr) (p : A -> bool) l : NoDup keys ->
  sum_Z (map (fun k => count (fun x => p x && bool_decide (key x = k)) l) keys) =
  count (fun x => p x && bool_decide (key x ∈ keys)) l.
Proof.
  intros N. induction N as [|k keys Hk N IH]; cbn [map].
  - induction l as [|x l IHl]; [done|]. rewrite count_cons, <- IHl.
    rewrite bool_decide_eq_false_2 by set_solver. by rewrite andb_false_r.
  - rewrite sum_Z_cons, IH. clear IH. induction l as [|x l IHl]; [done|]. rewrite !count_cons, <- IHl.
    destruct (decide (key x = k)) as [E|E].
    + rewrite (bool_decide_eq_true_2 (key x = k)), (bool_decide_eq_false_2 (key x ∈ keys)),
        (bool_decide_eq_true_2 (key x ∈ k :: keys)) by (subst; set_solver).
      rewrite andb_true_r, andb_false_r. destruct (p x); lia.
    + rewrite (bool_decide_eq_false_2 (key x = k)) by done.
      rewrite (bool_decide_ext (key x ∈ k :: keys) (key x ∈ keys)) by set_solver.
      rewrite andb_false_r. destruct (p x && _); lia.
Qed.

Lemma Ok_inj {X A} (a b : A) : Ok (E := X) a = Ok b -> b = a.
Proof. by intros [= ->]. Qed.

Section Theorems.
Context {UD : UnicodeData}.

(** A correction moves a prediction only within the pair, and settles it. *)
Theorem correction_stays_in_pair prompt prediction :
  let corrected := correct_extraction_json_boundary prompt prediction in
  eligible_pair corrected = eligible_pair prediction /\
  (eligible_pair prediction = false -> corrected = prediction) /\
  correct_extraction_json_boundary prompt corrected = corrected.
Proof.
  cbv zeta. unfold correct_extraction_json_boundary.
  destruct (eligible_pair prediction) eqn:E; cbn [negb]; [|by rewrite E].
  destruct (search TRANSFORMATION_OPERATION _); [by vm_compute|].
  destruct (search DIRECT_RECOVERY_SOURCE _); [by vm_compute|]. by rewrite E.
Qed.

Lemma covered_length {A} (pairs : list (A * option pystr)) :
  length (omap (fun q => (fun c => (q.1, c)) <$> q.2) pairs) <= length pairs.
Proof. induction pairs as [|[r [c|]] pairs IH]; cbn in *; lia. Qed.

(** Counting by the categories counts every entry with a known category once. *)
Lemma by_category {A} (key : A -> pystr) (p : A -> bool) l : (forall x, x ∈ l -> key x ∈ CATEGORIES) ->
  sum_Z (map (fun c => count (fun x => p x && bool_decide (key x = c)) l) CATEGORIES) = count p l.
Proof.
  intros H. rewrite sum_counts by (by apply all_distinct_true). apply count_ext. intros x Hx.
  rewrite bool_decide_eq_true_2 by auto. apply andb_true_r.
Qed.

Lemma by_category_all {A} (key : A -> pystr) l : (forall x, x ∈ l -> key x ∈ CATEGORIES) ->
  sum_Z (map (fun c => count (fun x => bool_decide (key x = c)) l) CATEGORIES) = Z.of_nat (length l).
Proof.
  intros H. etrans; [exact (by_category key (fun _ => true) l H)|]. unfold count. by rewrite List_filter_all.
Qed.

(** The metrics of the rules account for every record: fired and unresolved
    rules are all of them, what fired for known categories is split by true and
    by predicted category, and its correct part is the same whichever way it is
    counted; a rate is a share between zero and one. *)
Theorem rule_metrics_account records rules m :
  rule_metrics records rules = Ok m ->
  (forall r, r ∈ records -> dr_category r ∈ CATEGORIES) -> (forall c, Some c ∈ rules -> c ∈ CATEGORIES) ->
  (rm_coverage_count m + rm_unresolved_count m = Z.of_nat (length records))%Z /\
  (0 <= rm_correct_covered m <= rm_coverage_count m)%Z /\
  sum_Z (map (fun e => cc_covered e.2) (rm_per_true_category m)) = rm_coverage_count m /\
  sum_Z (map (fun e => cc_correct e.2) (rm_per_true_category m)) = rm_correct_covered m /\
  sum_Z (map (fun e => cc_total e.2) (rm_per_true_category m)) = Z.of_nat (length records) /\
  sum_Z (map (fun e => cp_predicted e.2) (rm_per_predicted_category m)) = rm_coverage_count m /\
  sum_Z (map (fun e => cp_correct e.2) (rm_per_predicted_category m)) = rm_correct_covered m /\
  in_unit (rm_coverage m).
Proof.
  unfold rule_metrics. intros (pairs & Hz & ([] & Hg & Hm)%bind_ok)%bind_ok Hr Hc. apply zip_strict_ok in Hz as [-> Hl].
  apply guard_ok, negb_true_iff, Z.eqb_neq in Hg. apply Ok_inj in Hm. subst m.
  set (covered := covered_by (combine records rules)).
  assert (N : NoDup CATEGORIES) by (by apply all_distinct_true).
  assert (Hcov : forall q, q ∈ covered -> dr_category q.1 ∈ CATEGORIES /\ q.2 ∈ CATEGORIES).
  { intros q Hq. apply list_elem_of_omap in Hq as ([r [c|]] & Hin & [= <-]). cbn [fst snd].
    apply list_elem_of_In in Hin. split; [apply Hr|apply Hc]; apply list_elem_of_In;
      [exact (in_combine_l _ _ _ _ Hin)|exact (in_combine_r _ _ _ _ Hin)]. }
  assert (Hn : length covered <= length records).
  { etrans; [apply covered_length|]. rewrite length_combine. lia. }
  assert (Hcat : forall q, q ∈ covered -> dr_category q.1 ∈ CATEGORIES) by (intros; by apply Hcov).
  assert (Hpred : forall q, q ∈ covered -> q.2 ∈ CATEGORIES) by (intros; by apply Hcov).
  pose proof (count_le hit covered).
  with_strategy opaque [CATEGORIES] cbn [rm_coverage_count rm_unresolved_count rm_correct_covered rm_per_true_category rm_per_predicted_category rm_coverage].
  rewrite !map_map. with_strategy opaque [CATEGORIES] cbn [fst snd cc_covered cc_correct cc_total cp_predicted cp_correct].
  split_and!; [lia..| | | | | |apply ratio_unit; lia].
  - exact (by_category_all (fun q => dr_category q.1) covered Hcat).
  - rewrite <- (by_category (fun q => dr_category q.1) hit covered Hcat). f_equal. apply map_ext. intros c.
    rewrite filter_filter_count. apply count_ext. intros q _. apply andb_comm.
  - by apply (by_category_all dr_category).
  - exact (by_category_all snd covered Hpred).
  - rewrite <- (by_category snd hit covered Hpred). f_equal. apply map_ext. intros c.
    rewrite filter_filter_count. apply count_ext. intros q _. unfold hit, is_category.
    destruct (decide (q.2 = c)) as [<-|E]; [by rewrite !(bool_decide_eq_true_2 (q.2 = q.2)), andb_true_l, andb_true_r by done|].
    by rewrite (bool_decide_eq_false_2 (q.2 = c)), andb_false_r.
Qed.

(** The balance of the bounded correction: the errors it corrects less the
    errors it introduces are exactly the gain in correct predictions, every
    change is listed, and there are at most as many as predictions. *)
Theorem correction_balances records before after m :
  boundary_correction_metrics records before after = Ok m ->
  (bm_corrected_errors m - bm_introduced_errors m =
    count (fun p => bool_decide (dr_category p.1 = p.2)) (combine records after) -
    count (fun p => bool_decide (dr_category p.1 = p.2)) (combine records before))%Z /\
  (bm_prediction_changes m = Z.of_nat (length (bm_changes m)))%Z /\
  (0 <= bm_prediction_changes m <= Z.of_nat (length records))%Z.
Proof.
  unfold boundary_correction_metrics. intros (pairs & Hp & (triples & Ht & H)%bind_ok)%bind_ok.
  apply zip_strict_ok in Hp as [-> Hb], Ht as [-> Ha]. injection H as <-.
  cbn [bm_corrected_errors bm_introduced_errors bm_prediction_changes bm_changes].
  rewrite length_combine, <- Hb, Nat.min_id in Ha. 
  revert before after Hb Ha. induction records as [|r records IH]; intros [|x before] [|y after] Hb Ha; try done.
  cbn [length] in Hb, Ha. cbn [combine omap list_omap]. destruct (IH before after ltac:(lia) ltac:(lia)) as (E & _ & B).
  cbn [change_of]. rewrite !(count_cons _ (r, _)). cbn [fst snd].
  case_bool_decide as Hxy.
  - subst y. split; [lia|]. split; [done|]. cbn [length]. lia.
  - cbn [length]. split; [|split; [done|lia]]. rewrite !count_cons. cbn [pc_before_correct pc_after_correct].
    repeat case_bool_decide; subst; try done; cbn [negb andb]; try congruence; lia.
Qed.

(** ** The effect on routing *)

Lemma d_sub_self prec d z : d_sub prec d d = Ok z -> d_int z = 0%Z.
Proof.
  unfold d_sub, d_add, d_add_exact. cbn [d_exp]. intros H.
  assert (E : (d_scaled d (Z.min (d_exp d) (d_exp d)) +
               d_scaled (mk_decimal (negb (d_neg d)) (d_coef d) (d_exp d)) (Z.min (d_exp d) (d_exp d)) = 0)%Z).
  { unfold d_scaled, d_int. cbn [d_neg d_coef d_exp]. destruct (d_neg d); cbn [negb]; lia. }
  rewrite E in H. cbn [Z.eqb Z.abs_N] in H. unfold d_fix in H. cbn [d_coef d_neg d_exp N.eqb] in H.
  injection H as <-. unfold d_int. cbn. by destruct (d_neg d && _).
Qed.

Lemma counter_total {A} (key : A -> pystr) l : sum_Z (map snd (counter key l)) = Z.of_nat (length l).
Proof.
  rewrite <- (Permutation_length (group_by_partition key l)). unfold counter. rewrite map_map. cbn [snd].
  induction (group_by key l) as [|g gs IH]; [done|]. cbn [map List.concat]. rewrite sum_Z_cons, IH, length_app. lia.
Qed.

Lemma sum_Z_perm l k : l ≡ₚ k -> sum_Z l = sum_Z k.
Proof. induction 1; rewrite ?sum_Z_cons in *; lia. Qed.

(** A right category routes as it does. *)
Lemma right_category_routes {P : QualityPredictor} manifest p c : compare_routes manifest p = Ok c ->
  rt_category_correct c = true ->
  rt_selected_model_changed c = false /\ rt_fallback_changed c = false /\
  rt_detected_projected_cost_usd c = rt_true_projected_cost_usd c /\ d_int (rt_projected_cost_delta_usd c) = 0%Z.
Proof.
  destruct p as [r predicted]. unfold compare_routes.
  intros (request & _ & (tf & Et & (df & Ed & (td & Rt & (dd & Rd & (delta & Hd & H)%bind_ok)%bind_ok)%bind_ok)%bind_ok)%bind_ok)%bind_ok Hc.
  apply Ok_inj in H. subst c. cbn [rt_category_correct rt_selected_model_changed rt_fallback_changed
    rt_detected_projected_cost_usd rt_true_projected_cost_usd rt_projected_cost_delta_usd] in *.
  apply bool_decide_eq_true_1 in Hc. subst predicted. rewrite Et in Ed. apply Ok_inj in Ed. subst df.
  rewrite Rt in Rd. apply Ok_inj in Rd. subst dd.
  rewrite bool_decide_eq_true_2 by done. rewrite Bool.eqb_reflx. split_and!; [done..|].
  apply (d_sub_self default_prec (selected_projected_cost_usd td)). destruct (d_sub _ _ _); [|done]. by injection Hd as ->.
Qed.

(** The report on routing accounts for every request: right and wrong
    categories, same and changed models, same and changed fallbacks are each all
    the requests.  A right category changes neither the model nor the fallback
    nor the cost, so every changed model is a listed error and the confusions
    count exactly those. *)
Theorem route_impact_accounts {P : QualityPredictor} entries records detected i :
  route_impact entries records detected = Ok i ->
  ri_requests i = Z.of_nat (length records) /\
  (ri_correct_detected_category i + ri_incorrect_detected_category i = ri_requests i)%Z /\
  (ri_same_selected_model i + ri_changed_selected_model i = ri_requests i)%Z /\
  (ri_same_fallback_state i + ri_changed_fallback_state i = ri_requests i)%Z /\
  (forall c, c ∈ ri_comparisons i -> rt_category_correct c = true ->
     rt_selected_model_changed c = false /\ rt_fallback_changed c = false /\ d_int (rt_projected_cost_delta_usd c) = 0%Z) /\
  ri_category_errors_that_changed_model i = List.filter rt_selected_model_changed (ri_comparisons i) /\
  sum_Z (map snd (ri_route_changing_confusions i)) = ri_changed_selected_model i /\
  (ri_changed_selected_model i <= ri_incorrect_detected_category i)%Z /\
  (ri_changed_fallback_state i <= ri_incorrect_detected_category i)%Z.
Proof.
  unfold route_impact. intros (manifest & _ & (cs & Hcs & ([] & Hg & Hs)%bind_ok)%bind_ok)%bind_ok.
  apply guard_ok, Nat.eqb_eq in Hg. apply result_map_ok in Hcs.
  unfold route_summary in Hs. apply bind_ok in Hs as (tc & _ & (dc & _ & (delta & _ & Hs)%bind_ok)%bind_ok).
  apply Ok_inj in Hs. subst i. cbn [ri_requests ri_correct_detected_category ri_incorrect_detected_category
    ri_same_selected_model ri_changed_selected_model ri_same_fallback_state ri_changed_fallback_state ri_comparisons
    ri_category_errors_that_changed_model ri_route_changing_confusions].
  assert (Hright : forall c, c ∈ cs -> rt_category_correct c = true ->
    rt_selected_model_changed c = false /\ rt_fallback_changed c = false /\ d_int (rt_projected_cost_delta_usd c) = 0%Z).
  { intros c Hc Hok. apply list_elem_of_lookup in Hc as [k Hk].
    destruct (Forall2_lookup_r _ _ _ _ _ Hcs Hk) as (p & _ & Hp).
    destruct (right_category_routes manifest p c Hp Hok) as (A & B & _ & D). done. }
  assert (Herr : List.filter changed_error cs = List.filter rt_selected_model_changed cs).
  { apply filter_ext_in. intros c Hc. apply list_elem_of_In in Hc. unfold changed_error.
    destruct (rt_category_correct c) eqn:E; [|done]. by rewrite (proj1 (Hright c Hc E)). }
  apply Forall2_length in Hcs. rewrite length_combine in Hcs.
  split_and!.
  - lia.
  - apply count_split.
  - rewrite Z.add_comm. apply count_split.
  - rewrite Z.add_comm. apply count_split.
  - exact Hright.
  - exact Herr.
  - rewrite (sum_Z_perm _ (map snd (counter confusion_key (List.filter changed_error cs))))
      by (by rewrite (py_sorted_perm key_le)).
    rewrite counter_total, Herr. done.
  - apply count_mono. intros c Hc Hch. destruct (rt_category_correct c) eqn:E; [|done].
    by rewrite (proj1 (Hright c Hc E)) in Hch.
  - apply count_mono. intros c Hc Hch. destruct (rt_category_correct c) eqn:E; [|done].
    by rewrite (proj1 (proj2 (Hright c Hc E))) in Hch.
Qed.

(** ** Abstention *)

Lemma abstention_result_accounts policy js : (forall j, j ∈ js -> jd_category j ∈ CATEGORIES) ->
  let a := abstention_result policy js in
  (ab_accepted a + ab_abstained a = Z.of_nat (length js))%Z /\
  (ab_correct_accepted a + ab_errors_accepted a = ab_accepted a)%Z /\
  (0 <= ab_correct_accepted a <= ab_accepted a)%Z /\
  sum_Z (map (fun e => ce_accepted e.2) (ab_category_effects a)) = ab_accepted a /\
  sum_Z (map (fun e => ce_total e.2) (ab_category_effects a)) = Z.of_nat (length js) /\
  sum_Z (map (fun e => ce_correct_accepted e.2) (ab_category_effects a)) = ab_correct_accepted a.
Proof.
  intros H. cbv zeta. unfold abstention_result. with_strategy opaque [CATEGORIES] cbn [ab_accepted ab_abstained
    ab_correct_accepted ab_errors_accepted ab_category_effects].
  rewrite !map_map. with_strategy opaque [CATEGORIES] cbn [fst snd ce_accepted ce_total ce_correct_accepted].
  assert (count (fun j => jd_correct j && jd_accepted j) js <= count jd_accepted js)%Z
    by (apply count_mono; intros j _ Hj; by apply andb_prop in Hj as [_ Hj]).
  pose proof (count_le (fun j => jd_correct j && jd_accepted j) js).
  split; [lia|]. split; [lia|]. split; [lia|]. split_and!.
  - by apply (by_category jd_category).
  - by apply (by_category_all jd_category).
  - rewrite <- (by_category jd_category (fun j => jd_correct j && jd_accepted j) js H). f_equal. apply map_ext. intros c.
    apply count_ext. intros j _. apply andb_assoc.
Qed.

(** What a policy judges of each record. *)
Lemma apply_policy_ok records predictions rules scores policy a :
  apply_policy records predictions rules scores policy = Ok a ->
  exists accepted, Forall2 (fun p b => accepts policy scores p = Ok b) (combine (seq 0 (length rules)) rules) accepted /\
    length records = length predictions /\ length records = length accepted /\ length rules = length accepted /\
    records <> [] /\
    a = abstention_result policy (map (fun q => mk_Judged (dr_category q.1.1) (bool_decide (dr_category q.1.1 = q.1.2)) q.2)
          (combine (combine records predictions) accepted)).
Proof.
  unfold apply_policy. intros (accepted & Ha & (labelled & Hl & ([] & Hg & (judged & Hj & H)%bind_ok)%bind_ok)%bind_ok)%bind_ok.
  apply result_map_ok in Ha. apply zip_strict_ok in Hl as [-> Hlen], Hj as [-> Hlen2]. apply Ok_inj in H. subst a.
  apply guard_ok, negb_true_iff, Nat.eqb_neq in Hg. rewrite length_combine, <- Hlen, Nat.min_id in Hlen2.
  exists accepted. split_and!; [done|done|done| |by destruct records|done].
  apply Forall2_length in Ha. rewrite length_combine, length_seq, Nat.min_id in Ha. done.
Qed.

(** A policy with smaller minima accepts at least as much. *)
Lemma accepts_weaker p1 p2 scores q : f_leb (ap_minimum_top_score p1) (ap_minimum_top_score p2) = true ->
  f_leb (ap_minimum_margin p1) (ap_minimum_margin p2) = true ->
  accepts p2 scores q = Ok true -> accepts p1 scores q = Ok true.
Proof.
  intros Ht Hm. unfold accepts. destruct q.2; [done|]. destruct (scores !! q.1) as [[top margin]|]; [|done].
  intros H. apply Ok_inj in H. symmetry in H. apply andb_prop in H as [H1 H2].
  by rewrite (f_leb_trans _ _ _ Ht H1), (f_leb_trans _ _ _ Hm H2).
Qed.

Lemma accepted_masks p1 p2 scores qs m1 m2 :
  f_leb (ap_minimum_top_score p1) (ap_minimum_top_score p2) = true ->
  f_leb (ap_minimum_margin p1) (ap_minimum_margin p2) = true ->
  Forall2 (fun p b => accepts p1 scores p = Ok b) qs m1 -> Forall2 (fun p b => accepts p2 scores p = Ok b) qs m2 ->
  (count id m2 <= count id m1)%Z.
Proof.
  intros Ht Hm F1. revert m2. induction F1 as [|q b1 qs m1 H1 F1 IH]; intros m2 F2; inversion F2 as [|? b2 ? m2' H2 F2']; subst; [done|].
  rewrite !count_cons. specialize (IH _ F2'). destruct b2; [|destruct b1; cbn [id]; lia].
  rewrite (accepts_weaker p1 p2 scores q Ht Hm H2) in H1. apply Ok_inj in H1. subst b1. cbn [id]. lia.
Qed.

Lemma count_accepted {A} (g : A * bool -> pystr) (h : A * bool -> bool) (l : list A) (m : list bool) :
  length l = length m -> count jd_accepted (map (fun q => mk_Judged (g q) (h q) q.2) (combine l m)) = count id m.
Proof.
  revert m. induction l as [|x l IH]; intros [|b m] H; try done. cbn [combine map]. rewrite !count_cons, IH by (by injection H).
  done.
Qed.

Definition fired (rule : option pystr) : bool := match rule with Some _ => true | None => false end.

Lemma fired_accepted policy scores n rules m :
  Forall2 (fun p b => accepts policy scores p = Ok b) (combine (seq n (length rules)) rules) m ->
  (count fired rules <= count id m)%Z.
Proof.
  revert n m. induction rules as [|r rules IH]; intros n m F; cbn [length seq combine] in F;
    inversion F as [|? b ? m' H F']; subst; [done|].
  rewrite !count_cons. specialize (IH _ _ F'). destruct r as [c|]; [|destruct b; cbn [fired id]; lia].
  apply Ok_inj in H. subst b. cbn [fired id]. lia.
Qed.

Lemma accepted_count records predictions rules scores policy a m :
  apply_policy records predictions rules scores policy = Ok a ->
  Forall2 (fun p b => accepts policy scores p = Ok b) (combine (seq 0 (length rules)) rules) m ->
  ab_accepted a = count id m.
Proof.
  intros Ha F. destruct (apply_policy_ok _ _ _ _ _ _ Ha) as (m' & F' & Hp & Hm & _ & _ & ->).
  assert (m' = m) as ->.
  { clear -F F'. revert m F. induction F' as [|q b qs m' Hq F' IH]; intros m F; inversion F as [|? b2 ? m2 Hq2 F2]; subst; [done|].
    rewrite Hq in Hq2. apply Ok_inj in Hq2. subst. f_equal. by apply IH. }
  unfold abstention_result. cbn [ab_accepted].
  apply (count_accepted (fun q => dr_category q.1.1) (fun q => bool_decide (dr_category q.1.1 = q.1.2))).
  rewrite length_combine. lia.
Qed.

(** Each abstention policy accounts for every record, in total and by category;
    it accepts whatever a rule decided, and the policy with both minima accepts
    no more than the one with the score alone. *)
Theorem abstention_accounts records predictions rules probabilities rs :
  abstention_metrics records predictions rules probabilities = Ok rs ->
  (forall r, r ∈ records -> dr_category r ∈ CATEGORIES) ->
  map ab_policy rs = ABSTENTION_POLICIES /\
  (forall a, a ∈ rs ->
    (ab_accepted a + ab_abstained a = Z.of_nat (length records))%Z /\
    (ab_correct_accepted a + ab_errors_accepted a = ab_accepted a)%Z /\
    (0 <= ab_correct_accepted a <= ab_accepted a)%Z /\
    (count fired rules <= ab_accepted a)%Z /\
    sum_Z (map (fun e => ce_accepted e.2) (ab_category_effects a)) = ab_accepted a /\
    sum_Z (map (fun e => ce_total e.2) (ab_category_effects a)) = Z.of_nat (length records) /\
    sum_Z (map (fun e => ce_correct_accepted e.2) (ab_category_effects a)) = ab_correct_accepted a) /\
  exists score margin both, rs = [score; margin; both] /\ (ab_accepted both <= ab_accepted score)%Z.
Proof.
  unfold abstention_metrics. intros (scores & _ & H)%bind_ok Hr. apply result_map_ok in H.
  split_and!.
  - assert (Hpol : forall policy a, apply_policy records predictions rules scores policy = Ok a -> ab_policy a = policy).
    { intros policy a Ha. by destruct (apply_policy_ok _ _ _ _ _ _ Ha) as (m & _ & _ & _ & _ & _ & ->). }
    induction H as [|policy a ps rs Ha _ IH]; [done|]. cbn [map]. by rewrite (Hpol _ _ Ha), IH.
  - intros a Ha. apply list_elem_of_lookup in Ha as [k Hk].
    destruct (Forall2_lookup_r _ _ _ _ _ H Hk) as (policy & _ & Hp).
    destruct (apply_policy_ok _ _ _ _ _ _ Hp) as (m & F & Hlp & Hlm & _ & _ & E).
    pose proof (fired_accepted _ _ _ _ _ F) as Hf. rewrite <- (accepted_count _ _ _ _ _ _ _ Hp F) in Hf.
    destruct (abstention_result_accounts policy (map (fun q => mk_Judged (dr_category q.1.1)
      (bool_decide (dr_category q.1.1 = q.1.2)) q.2) (combine (combine records predictions) m))) as (A & B & C & D & G & I).
    { intros j Hj. apply list_elem_of_fmap in Hj as ([[r p] b] & -> & Hin). cbn [jd_category fst].
      apply Hr, list_elem_of_In. apply list_elem_of_In in Hin.
      apply in_combine_l in Hin. exact (in_combine_l _ _ _ _ Hin). }
    rewrite <- E in *. rewrite length_map, !length_combine, <- Hlp, <- Hlm, !Nat.min_id in *. done.
  - unfold ABSTENTION_POLICIES in H. inversion H as [|? score ? l1 H1 F1]; subst.
    inversion F1 as [|? margin ? l2 H2 F2]; subst. inversion F2 as [|? both ? l3 H3 F3]; subst. inversion F3; subst.
    exists score, margin, both. split; [done|].
    destruct (apply_policy_ok _ _ _ _ _ _ H1) as (m1 & M1 & _). destruct (apply_policy_ok _ _ _ _ _ _ H3) as (m3 & M3 & _).
    rewrite (accepted_count _ _ _ _ _ _ _ H1 M1), (accepted_count _ _ _ _ _ _ _ H3 M3).
    eapply accepted_masks; [| |exact M1|exact M3]; vm_compute; reflexivity.
Qed.

(** ** The freeze *)

(** A value without floats and with distinct keys equals itself. *)
Lemma py_equal_refl v : plain_json v = true -> py_equal v v = true.
Proof.
  induction v as [| b | z | f | s | l IH | l IH] using pyjson_nested_ind; intros H; cbn [plain_json] in H; try done.
  - by destruct b.
  - apply Z.eqb_refl.
  - by apply bool_decide_eq_true_2.
  - cbn [py_equal]. induction IH as [|x l Hx IH IHl]; [done|]. cbn [forallb] in H. apply andb_prop in H as [H1 H2].
    by rewrite Hx, IHl.
  - cbn [py_equal]. rewrite Nat.eqb_refl. cbn [andb]. apply andb_prop in H as [N H]. apply all_distinct_true in N.
    assert (G : forall k x, (k, x) ∈ l -> dict_get l k = Some x /\ py_equal x x = true).
    { intros k x Hin. split; [by apply dict_get_nodup|]. rewrite Forall_forall in IH. apply (IH (k, x) Hin).
      rewrite forallb_forall in H. apply (H (k, x)). by apply list_elem_of_In. }
    match goal with |- ?f _ = true => assert (A : forall d, (forall k x, (k, x) ∈ d -> (k, x) ∈ l) -> f d = true) end.
    { induction d as [|[k x] d IHd]; intros Hd; [done|]. destruct (G k x) as [-> ->]; [apply Hd; set_solver|].
      cbn [andb]. apply IHd. intros k' x' Hin. apply Hd. set_solver. }
    by apply A.
Qed.

Lemma counter_nodup {A} (key : A -> pystr) l : NoDup (map fst (py_sorted key_le (counter key l))).
Proof.
  rewrite (py_sorted_perm key_le). change (NoDup (dict_keys (counter key l))). rewrite counter_keys. apply group_by_keys.
Qed.

Lemma identity_plain sha256 records : plain_json (identity sha256 records) = true.
Proof.
  unfold identity. cbn [plain_json]. apply andb_true_intro. split; [by vm_compute|].
  cbn [forallb fst snd plain_json]. rewrite !andb_true_r. cbn [andb]. apply andb_true_intro. split; [apply andb_true_intro; split|].
  - apply all_distinct_true. rewrite map_map. cbn [fst]. apply counter_nodup.
  - apply forallb_forall. intros kv Hin. apply in_map_iff in Hin as (kv' & <- & _). done.
  - apply forallb_forall. intros v Hin. apply in_map_iff in Hin as (r & <- & _). done.
Qed.

(** Two identities that Python finds equal have the same digest and tasks. *)
Lemma equal_strings l k : py_equal (PJArr (map PJStr l)) (PJArr (map PJStr k)) = true -> l = k.
Proof.
  cbn [py_equal]. revert k. induction l as [|x l IH]; intros [|y k]; try done. cbn [map]. intros H.
  apply andb_prop in H as [H1 H2]. apply bool_decide_eq_true_1 in H1 as ->. f_equal. by apply IH.
Qed.

Lemma equal_field d e k x : py_equal (PJObj d) (PJObj e) = true -> (k, x) ∈ d ->
  exists y, dict_get e k = Some y /\ py_equal x y = true.
Proof.
  cbn [py_equal]. intros [_ H]%andb_prop. revert H. induction d as [|[k0 x0] d IH]; intros H Hin; [set_solver|].
  apply andb_prop in H as [H1 H2]. apply elem_of_cons in Hin as [[= -> ->]|Hin]; [|by apply IH].
  destruct (dict_get e k0) as [y|]; [|done]. by exists y.
Qed.

Lemma equal_identities sha256 rs rs' : py_equal (identity sha256 rs) (identity sha256 rs') = true ->
  sha256 (identity_text rs) = sha256 (identity_text rs') /\ map dr_task_id rs = map dr_task_id rs'.
Proof.
  intros H. split.
  - destruct (equal_field _ _ (py "prompt_projection_sha256") (PJStr (sha256 (identity_text rs))) H) as (y & Hy & E);
      [do 3 apply list_elem_of_further; apply list_elem_of_here|].
    assert (Ey : y = PJStr (sha256 (identity_text rs'))) by (injection Hy as <-; reflexivity). subst y.
    by apply bool_decide_eq_true_1 in E.
  - destruct (equal_field _ _ (py "task_ids") (PJArr (map (fun r => PJStr (dr_task_id r)) rs)) H) as (y & Hy & E);
      [do 4 apply list_elem_of_further; apply list_elem_of_here|].
    assert (Ey : y = PJArr (map (fun r => PJStr (dr_task_id r)) rs')) by (injection Hy as <-; reflexivity). subst y.
    apply equal_strings. by rewrite !map_map.
Qed.

(** The configuration a training run freezes is accepted with the records it was
    trained on, and with no records of another digest or of other tasks. *)
Theorem freeze_identifies_training {TP : TextPipelines} sha256 records t :
  run_train_stage sha256 records = Ok t ->
  validate_freeze sha256 (frozen_configuration t) records = Ok tt /\
  (forall records', validate_freeze sha256 (frozen_configuration t) records' = Ok tt ->
     sha256 (identity_text records') = sha256 (identity_text records) /\
     map dr_task_id records' = map dr_task_id records).
Proof.
  intros H.
  assert (Hid : tr_identity t = identity sha256 records).
  { unfold run_train_stage in H. apply bind_ok in H as (cs & _ & (sel & _ & (le & _ & (hy & _ & (lm & _ & (hm & _ & (ru & _ & (ab & _ & H)
      %bind_ok)%bind_ok)%bind_ok)%bind_ok)%bind_ok)%bind_ok)%bind_ok). apply Ok_inj in H. by subst t. }
  assert (Hfix : forall rs, validate_freeze sha256 (frozen_configuration t) rs =
    guard_else (py_equal (identity sha256 records) (identity sha256 rs)) (Exn C_ValueError)).
  { intros rs. rewrite <- Hid. unfold validate_freeze.
    change (frozen_is (frozen_configuration t) "training_identity" (identity sha256 rs))
      with (py_equal (tr_identity t) (identity sha256 rs)).
    generalize (identity sha256 rs). generalize (tr_identity t). intros. reflexivity. }
  split; [rewrite Hfix, py_equal_refl by apply identity_plain; done|].
  intros rs Hrs. rewrite Hfix in Hrs. apply guard_ok in Hrs. destruct (equal_identities _ _ _ Hrs) as [E1 E2]. done.
Qed.

(** ** Cross-validation *)

(** [StratifiedGroupKFold]: no group is on both sides of a split. *)
Class GroupSplitLaws (TP : TextPipelines) : Prop := {
  splits_separate : forall texts labels groups split i j g, split ∈ group_splits texts labels groups ->
    i ∈ split.1 -> j ∈ split.2 -> groups !! i = Some g -> groups !! j <> Some g
}.

Section Folds.
Context {TP : TextPipelines} (records : list DetectorRecord) (config : ModelConfiguration).

Lemma taken_lookup {A} (l : list A) indexes xs x : taken l indexes = Ok xs -> x ∈ xs ->
  exists i, i ∈ indexes /\ l !! i = Some x.
Proof.
  unfold taken. intros H%result_map_ok Hx. apply list_elem_of_lookup in Hx as [k Hk].
  destruct (Forall2_lookup_r _ _ _ _ _ H Hk) as (i & Hi & E). exists i. split; [by apply list_elem_of_lookup; exists k|].
  destruct (l !! i); [|done]. by apply Ok_inj in E as ->.
Qed.

(** The row of the record at [i] comes from a pipeline of one of [splits] that
    tests [i]. *)
Definition from_fold (splits : list (list nat * list nat)) (i : nat) (p : list float) : Prop :=
  exists split train m texts rows, split ∈ splits /\ i ∈ split.2 /\ taken records split.1 = Ok train /\
    fit_pipeline config (map (fun r => (dr_normalized_text r, dr_category r)) train) = Ok m /\
    aligned_probabilities m texts = Ok rows /\ p ∈ rows.

Lemma assign_rows_lookup {A} indexed (l : list (option A)) i p : assign_rows indexed l !! i = Some (Some p) ->
  l !! i = Some (Some p) \/ (i, p) ∈ indexed.
Proof.
  revert l. induction indexed as [|[j x] r IH]; intros l H; [by left|]. cbn [assign_rows] in H.
  destruct (IH _ H) as [Hl|Hr]; [|right; set_solver].
  destruct (decide (i = j)) as [->|Hne].
  - apply list_lookup_insert_Some in Hl as [(_ & [= <-] & _)|[Hne _]]; [right; set_solver|done].
  - rewrite list_lookup_insert_ne in Hl by done. by left.
Qed.

Lemma assign_rows_length {A} indexed (l : list (option A)) : length (assign_rows indexed l) = length l.
Proof. revert l. induction indexed as [|[j x] r IH]; intros l; [done|]. cbn [assign_rows]. by rewrite IH, length_insert. Qed.

Lemma validate_folds_from splits all acc out :
  validate_folds records config acc splits = Ok out -> (forall s, s ∈ splits -> s ∈ all) ->
  (forall i p, acc !! i = Some (Some p) -> from_fold all i p) ->
  length out = length acc /\ forall i p, out !! i = Some (Some p) -> from_fold all i p.
Proof.
  revert acc. induction splits as [|split splits IH]; intros acc H Hs Hacc; cbn [validate_folds] in H.
  - apply Ok_inj in H. by subst.
  - apply bind_ok in H as (acc' & Hf & H). unfold validate_fold in Hf.
    apply bind_ok in Hf as (train & Ht & (m & Hm & (test & _ & (rows & Hr & (indexed & Hz & Hf)%bind_ok)%bind_ok)%bind_ok)%bind_ok).
    apply Ok_inj in Hf. subst acc'. apply zip_strict_ok in Hz as [-> _].
    destruct (IH _ H) as [Hl Hout]; [set_solver| |split; [by rewrite Hl, assign_rows_length|done]].
    intros i p Hi. destruct (assign_rows_lookup _ _ _ _ Hi) as [Ha|Hin]; [by apply Hacc|].
    apply list_elem_of_In in Hin. exists split, train, m, (map dr_normalized_text test), rows.
    split_and!; [apply Hs; set_solver| |done..|]; apply list_elem_of_In;
      [exact (in_combine_l _ _ _ _ Hin)|exact (in_combine_r _ _ _ _ Hin)].
Qed.

(** Every training record is scored by a pipeline that was fitted without
    any record of its task family. *)
Theorem families_do_not_leak {GL : GroupSplitLaws TP} ps :
  cross_validated_probabilities records config = Ok ps ->
  length ps = length records /\
  forall i r p, records !! i = Some r -> ps !! i = Some p ->
    exists train m texts rows,
      fit_pipeline config (map (fun r => (dr_normalized_text r, dr_category r)) train) = Ok m /\
      aligned_probabilities m texts = Ok rows /\ p ∈ rows /\
      (forall r', r' ∈ train -> r' ∈ records /\ dr_task_family_id r' <> dr_task_family_id r).
Proof.
  unfold cross_validated_probabilities. intros (out & Hf & Hps)%bind_ok.
  set (groups := map dr_task_family_id records) in *.
  destruct (validate_folds_from _ _ _ _ Hf (fun s H => H)) as [Hl Hout].
  { intros i p Hi. by apply lookup_replicate in Hi as [[=] _]. }
  apply result_map_ok in Hps. split.
  - apply Forall2_length in Hps. rewrite <- Hps, Hl. apply length_replicate.
  - intros i r p Hr Hp. destruct (Forall2_lookup_r _ _ _ _ _ Hps Hp) as ([p'|] & Hi & E); [|done].
    apply Ok_inj in E. subst p'.
    destruct (Hout i p Hi) as (split & train & m & texts & rows & Hs & Ht & Htr & Hm & Ha & Hin).
    exists train, m, texts, rows. split_and!; [done..|]. intros r' Hr'.
    destruct (taken_lookup _ _ _ _ Htr Hr') as (j & Hj & Hj').
    split; [by apply list_elem_of_lookup; exists j|]. intros Hfam.
    apply (splits_separate _ _ groups split j i (dr_task_family_id r) Hs Hj Ht).
    + unfold groups. rewrite list_lookup_fmap, Hj'. cbn. by rewrite Hfam.
    + unfold groups. rewrite list_lookup_fmap, Hr. done.
Qed.
End Folds.
End Theorems.

(** ** Witnesses *)

(** The cases of the source's own tests. *)
Example rules_follow_the_deliverable :
  map (rule_predict (UD := ascii_tables)) (map py
    ["Classify this Python request into one declared label."; "Write a Python function that returns a JSON object.";
     "Extract the requested fields from this JSON source and return JSON.";
     "Transform the supplied records and output a JSON object.";
     "Summarize the following source document in two sentences.";
     "Calculate the schedule allocation and return the result."; "What city is named in the context?"]%string) =
  [Some (py "classification"); Some (py "coding"); Some (py "extraction"); Some (py "structured_json");
   Some (py "summarization"); Some (py "reasoning"); None].
Proof. vm_compute. reflexivity. Qed.

Example corrections_use_the_operation :
  map (fun p => correct_extraction_json_boundary (UD := ascii_tables) (py p.1) (py p.2))
    [("Return JSON for these rows, sorted by score.", "extraction");
     ("Return JSON with name and email. Contact: Mira Chen.", "structured_json");
     ("Return JSON for these rows, sorted by score.", "qa");
     ("Return a JSON object with these supplied values.", "structured_json")]%string =
  map py ["structured_json"; "extraction"; "qa"; "structured_json"]%string.
Proof. vm_compute. reflexivity. Qed.

Definition sample_record (id category prompt family : string) : DetectorRecord :=
  mk_DetectorRecord (py id) (py category) (py prompt) (normalize_text (UD := ascii_tables) (py prompt)) (py family) (py "easy").

Definition coding_record : DetectorRecord :=
  sample_record "task-1" "coding" "Write a Python function that adds two numbers." "family-1".

Definition json_record : DetectorRecord :=
  sample_record "task-2" "structured_json" "Return the rows as a list, sorted by score." "family-2".

Definition sample_entries : list ManifestEntry :=
  [ mk_ManifestEntry (py "task-1") (py "family-1") (py "easy"); mk_ManifestEntry (py "task-2") (py "family-2") (py "easy") ].

(** The metrics of the boundary count what the rules changed: the prediction
    [qa] is not of the pair and no signal fires, yet its override by a rule is
    listed as a corrected error. *)
Example rule_overrides_are_counted : exists after m,
  revised_predictions (UD := ascii_tables) [coding_record] [py "qa"] = Ok after /\
  boundary_correction_metrics (UD := ascii_tables) [coding_record] [py "qa"] after = Ok m /\
  eligible_pair (py "qa") = false /\ bm_signal_coverage_count m = 0%Z /\ bm_prediction_changes m = 1%Z /\
  bm_corrected_errors m = 1%Z.
Proof. eexists _, _. split; [vm_compute; reflexivity|]. split; [vm_compute; reflexivity|]. by split_and!. Qed.

Lemma correction_balances_witness : exists m,
  boundary_correction_metrics (UD := ascii_tables) [coding_record; json_record] [py "coding"; py "extraction"]
    [py "coding"; py "structured_json"] = Ok m /\
  (bm_corrected_errors m - bm_introduced_errors m = 2 - 1)%Z.
Proof.
  destruct (boundary_correction_metrics (UD := ascii_tables) [coding_record; json_record] [py "coding"; py "extraction"]
    [py "coding"; py "structured_json"]) as [m|e] eqn:E; [|vm_compute in E; discriminate E].
  exists m. split; [reflexivity|]. exact (proj1 (correction_balances _ _ _ m E)).
Defined.

Lemma rule_metrics_account_witness : exists m,
  rule_metrics [coding_record; json_record] [Some (py "coding"); None] = Ok m /\
  (rm_coverage_count m + rm_unresolved_count m = 2)%Z.
Proof.
  destruct (rule_metrics [coding_record; json_record] [Some (py "coding"); None]) as [m|e] eqn:E;
    [|vm_compute in E; discriminate E].
  exists m. split; [reflexivity|]. refine (proj1 (rule_metrics_account _ _ m E _ _)).
  - intros r Hr. repeat (apply elem_of_cons in Hr as [->|Hr]; [vm_compute; set_solver|]). set_solver.
  - intros c Hc. repeat (apply elem_of_cons in Hc as [Hc|Hc]; [try discriminate Hc; injection Hc as ->; vm_compute; set_solver|]).
    set_solver.
Defined.

Definition sample_impact : result exn RouteImpact :=
  route_impact (UD := ascii_tables) (P := uniform_predictor) sample_entries [coding_record; json_record]
    [py "coding"; py "extraction"].

Lemma route_impact_accounts_witness : exists i, sample_impact = Ok i /\ ri_requests i = 2%Z /\
  (ri_correct_detected_category i + ri_incorrect_detected_category i = ri_requests i)%Z.
Proof.
  destruct sample_impact as [i|e] eqn:E; [|vm_compute in E; discriminate E]. exists i. split; [reflexivity|].
  destruct (@route_impact_accounts ascii_tables uniform_predictor _ _ _ i E) as (A & B & _). by split.
Defined.

(** A learned model that answers with the first category, and the split of two
    records of different groups. *)
Definition sample_pipelines : TextPipelines :=
  {| text_pipeline := unit; fit_pipeline := fun _ _ => Ok tt;
     text_proba := fun _ texts => Ok (map (fun _ => [f_one; f_zero; f_zero; f_zero; f_zero; f_zero; f_zero]) texts);
     classes_ := fun _ => CATEGORIES;
     group_splits := fun _ _ groups => match groups with
                                       | [a; b] => if decide (a = b) then [] else [([0], [1]); ([1], [0])]
                                       | _ => []
                                       end;
     sk_scores := fun _ _ => Ok (f_one, f_one, PJNull) |}.

#[export] Instance sample_pipelines_separate : GroupSplitLaws sample_pipelines.
Proof.
  split. intros texts labels groups split i j g Hs Hi Hj Hg Hg'. cbn in Hs.
  destruct groups as [|a [|b [|c groups]]]; try set_solver. destruct (decide (a = b)) as [|Hne]; [set_solver|].
  repeat (apply elem_of_cons in Hs as [->|Hs]; [cbn in Hi, Hj; apply list_elem_of_singleton in Hi as ->, Hj as ->; cbn in *; congruence|]).
  set_solver.
Qed.

Lemma families_do_not_leak_witness : exists ps,
  cross_validated_probabilities (TP := sample_pipelines) [coding_record; json_record] (mk_ModelConfiguration (py "c") f_one) = Ok ps /\
  length ps = 2.
Proof.
  destruct (cross_validated_probabilities (TP := sample_pipelines) [coding_record; json_record]
    (mk_ModelConfiguration (py "c") f_one)) as [ps|e] eqn:E; [|vm_compute in E; discriminate E].
  exists ps. split; [reflexivity|]. exact (proj1 (families_do_not_leak _ _ ps E)).
Defined.

Lemma freeze_identifies_training_witness : exists t,
  run_train_stage (UD := ascii_tables) (TP := sample_pipelines) (fun s => s) [coding_record; json_record] = Ok t /\
  validate_freeze (fun s => s) (frozen_configuration t) [coding_record; json_record] = Ok tt.
Proof.
  destruct (run_train_stage (UD := ascii_tables) (TP := sample_pipelines) (fun s => s) [coding_record; json_record])
    as [t|e] eqn:E; [|vm_compute in E; discriminate E].
  exists t. split; [reflexivity|]. exact (proj1 (freeze_identifies_training _ _ t E)).
Defined.

Lemma abstention_accounts_witness : exists rs,
  abstention_metrics [coding_record; json_record] [py "coding"; py "classification"] [Some (py "coding"); None]
    [[f_one; f_zero]; [f_one; f_zero]] = Ok rs /\ map ab_policy rs = ABSTENTION_POLICIES.
Proof.
  destruct (abstention_metrics [coding_record; json_record] [py "coding"; py "classification"] [Some (py "coding"); None]
    [[f_one; f_zero]; [f_one; f_zero]]) as [rs|e] eqn:E; [|vm_compute in E; discriminate E].
  exists rs. split; [reflexivity|]. refine (proj1 (abstention_accounts _ _ _ _ rs E _)).
  intros r Hr. repeat (apply elem_of_cons in Hr as [->|Hr]; [vm_compute; set_solver|]). set_solver.
Defined.
