(* ===== verification/PromptProjection.v ===== *)
(** * Prompts for the category detector ([benchmarks/routing_benchmark_v1.py])

    The export of the prompts of the train or development split, built from the
    families of that split alone and matched against its manifest.  The authored
    families, as redesigned, and the file of the manifest are parameters. *)
From S2P Require Import Prelude PyStr PyFloat PyDecimal Schemas Json PyRepr JsonText Errors PyStats BenchmarkModels BenchmarkRunner Aggregation SemanticJudge Evaluators DatasetValidation RoutingExport RoutingAnalysis MLFeatures BenchmarkSplits BenchmarkConstruction HybridValidation.

(** The keys of [_CATEGORY_DETECTOR_SPLITS]. *)
Inductive DetectorSplit := DS_train | DS_dev.

Definition DetectorSplit_value (s : DetectorSplit) : pystr := match s with DS_train => py "train" | DS_dev => py "dev" end.

Definition detector_split (s : pystr) : option DetectorSplit :=
  if decide (s = py "train") then Some DS_train else if decide (s = py "dev") then Some DS_dev else None.

(** The indexes of its families and the name of the split in its manifest. *)
Definition family_indexes (s : DetectorSplit) : list nat := match s with DS_train => seq 0 10 | DS_dev => seq 10 3 end.
Definition manifest_split (s : DetectorSplit) : Split := match s with DS_train => Train | DS_dev => Development end.
Definition manifest_name (s : DetectorSplit) : pystr :=
  match s with DS_train => py "train-manifest.json" | DS_dev => py "development-manifest.json" end.
Definition expected_per_category (s : DetectorSplit) : Z := match s with DS_train => 20 | DS_dev => 6 end.

Record PromptRecord := mk_PromptRecord {
  pp_task_id : pystr;
  pp_split : pystr;
  pp_category : pyjson;
  pp_prompt : pystr
}.

(** [CategoryDetectorProjectionError], a [ValueError] *)
Definition ensure (c : bool) : result exn unit := guard_else c (Exn C_ValueError).

Definition as_dict (v : pyjson) : result exn py_dict :=
  match v with PJObj d => Ok d | _ => Raise (Exn C_AttributeError) end.

(** A non-empty string under [key]. *)
Definition text_of (key : string) (d : py_dict) : option pystr :=
  match dict_get d (py key) with Some (PJStr ((_ :: _) as s)) => Some s | _ => None end.

Definition has_text (key : string) (d : py_dict) : bool := match text_of key d with Some _ => true | None => false end.
Definition text_or_empty (key : string) (d : py_dict) : pystr := default [] (text_of key d).

(** The checks on the entries of the manifest. *)
Definition manifest_entries (s : DetectorSplit) (manifest : py_dict) : result exn (list py_dict) :=
  entries ← match dict_get manifest (py "tasks") with
            | Some (PJArr l) => Ok l
            | _ => Raise (Exn C_ValueError)
            end;
  ds ← result_map as_dict entries;
  _ ← ensure (forallb (has_text "task_id") ds);
  _ ← ensure (all_distinct (map (text_or_empty "task_id") ds));
  _ ← ensure (forallb (fun d => equals_str (dict_get d (py "split")) (Split_value (manifest_split s))) ds);
  _ ← ensure (forallb (has_text "task_family_id") ds);
  Ok ds.

(** One entry with its variant. *)
Definition project_entry (split : pystr) (c : BenchmarkCategory) (p : py_dict * py_dict) : result exn PromptRecord :=
  let '(entry, variant) := p in
  _ ← ensure (equals_str (dict_get entry (py "internal_category")) (BenchmarkCategory_value c));
  prompt ← match text_of "prompt" variant with Some s => Ok s | None => Raise (Exn C_ValueError) end;
  category ← match dict_get entry (py "category") with Some v => Ok v | None => Raise (Exn C_KeyError) end;
  Ok (mk_PromptRecord (text_or_empty "task_id" entry) split category prompt).

(** One family: its identifier and its records. *)
Definition project_family (split : pystr) (by_family : list (pystr * list py_dict)) (c : BenchmarkCategory)
    (e : nat * FamilySpec) : result exn (pystr * list PromptRecord) :=
  let family_id := family_id_of c (e.1 + 1) e.2 in
  let entries := default [] (dict_get by_family family_id) in
  _ ← ensure (Nat.eqb (length entries) 2);
  records ← result_map (project_entry split c) (combine entries (map snd (indexed_variants e.2)));
  Ok (family_id, records).

Definition project_category (s : DetectorSplit) (by_family : list (pystr * list py_dict))
    (families : BenchmarkCategory -> list nat -> list FamilySpec) (c : BenchmarkCategory) :
    result exn (list (pystr * list PromptRecord)) :=
  let indexes := family_indexes s in
  let fs := families c indexes in
  _ ← ensure (Nat.eqb (length fs) (length indexes));
  result_map (project_family (DetectorSplit_value s) by_family c) (combine indexes fs).

(** [Counter(record["category"] for record in records)]: unhashable values raise. *)
Definition hashable (v : pyjson) : bool := match v with PJArr _ | PJObj _ => false | _ => true end.

Definition balanced (s : DetectorSplit) (records : list PromptRecord) : result exn unit :=
  _ ← guard_else (forallb (fun r => hashable (pp_category r)) records) (Exn C_TypeError);
  _ ← ensure (forallb (fun r => existsb (fun c => equals_str (Some (pp_category r)) (display_category c)) CATEGORIES) records &&
              forallb (fun c => (count (fun r => equals_str (Some (pp_category r)) (display_category c)) records =?
                                 expected_per_category s)%Z) CATEGORIES);
  ensure (Z.of_nat (length records) =? expected_per_category s * 7)%Z.

(** What is made of the manifest of a split. *)
Definition project_manifest (s : DetectorSplit) (families : BenchmarkCategory -> list nat -> list FamilySpec)
    (manifest : py_dict) : result exn (list PromptRecord) :=
  entries ← manifest_entries s manifest;
  let by_family := group_by (text_or_empty "task_family_id") entries in
  projected ← result_map (project_category s by_family families) CATEGORIES;
  let consumed := List.concat projected in
  let records := List.concat (map snd consumed) in
  _ ← ensure (same_elements (map fst consumed) (dict_keys by_family));
  _ ← balanced s records;
  Ok records.

(** [export_category_detector_prompts]: the files it reads under the root of the
    artifacts, in order, and its outcome; [read_file] is the content of a file. *)
Definition export_category_detector_prompts (read_file : pystr -> result exn py_dict)
    (families : BenchmarkCategory -> list nat -> list FamilySpec) (split : pystr) :
    list pystr * result exn (list PromptRecord) :=
  match detector_split split with
  | None => ([], Raise (Exn C_ValueError))
  | Some s => ([manifest_name s], manifest ← read_file (manifest_name s); project_manifest s families manifest)
  end.

(** ** Lemmas *)

Lemma detector_split_value s ds : detector_split s = Some ds -> s = DetectorSplit_value ds.
Proof. unfold detector_split. destruct (decide (s = py "train")); [by intros [= <-]|]. destruct (decide (s = py "dev")); [by intros [= <-]|done]. Qed.

Lemma detector_split_of ds : detector_split (DetectorSplit_value ds) = Some ds.
Proof. by destruct ds. Qed.

(** Families of different categories or numbers have different identifiers. *)
Lemma family_id_injective c c' i i' f f' : i ∈ seq 1 16 -> i' ∈ seq 1 16 ->
  family_id_of c i f = family_id_of c' i' f' -> c = c' /\ i = i'.
Proof.
  intros Hi Hi' H. assert (c = c') as <-.
  { apply (f_equal (firstn 8)) in H. unfold family_id_of in H. destruct c, c'; try reflexivity; vm_compute in H; discriminate H. }
  split; [done|]. unfold family_id_of in H. apply app_inv_head, app_inv_head, app_inv_head in H.
  apply (f_equal (firstn 2)) in H.
  assert (P : forall j g, j ∈ seq 1 16 -> firstn 2 (padded 2 (Z.of_nat j) ++ g) = padded 2 (Z.of_nat j)).
  { intros j g Hj. destruct (padded_digits (UD := ascii_tables) j Hj) as (a & b & x & y & -> & _). done. }
  rewrite !P in H by done.
  assert (N : NoDup (map (fun j => padded 2 (Z.of_nat j)) (seq 1 16))) by (apply all_distinct_true; by vm_compute).
  apply list_elem_of_lookup in Hi as [k Hk], Hi' as [k' Hk'].
  assert (k = k') as ->.
  { apply (NoDup_lookup _ _ _ (padded 2 (Z.of_nat i)) N); rewrite list_lookup_fmap; [by rewrite Hk|rewrite Hk'; cbn; by rewrite H]. }
  congruence.
Qed.

(** Selecting the groups of all keys once is all of the list. *)
Lemma groups_partition {A} (key : A -> pystr) l ks : NoDup ks -> (forall k, k ∈ ks <-> k ∈ dict_keys (group_by key l)) ->
  List.concat (map (fun k => default [] (dict_get (group_by key l) k)) ks) ≡ₚ l.
Proof.
  intros N H. etransitivity; [|exact (group_by_partition key l)].
  assert (P : ks ≡ₚ dict_keys (group_by key l)) by (apply NoDup_Permutation; [done|exact (group_by_keys key l)|done]).
  assert (E : map (fun k => default [] (dict_get (group_by key l) k)) (dict_keys (group_by key l)) = map snd (group_by key l)).
  { unfold dict_keys. rewrite map_map. apply map_ext_in. intros [k v] Hin. apply list_elem_of_In in Hin. cbn [fst snd].
    by rewrite (dict_get_nodup _ k v (group_by_keys key l) Hin). }
  rewrite <- E. clear E N H. induction P as [|k ks ks' P IH|k k' ks|]; cbn [map List.concat]; [done|by rewrite IH| |by etransitivity].
  rewrite !app_assoc. by rewrite (Permutation_app_comm (default _ _)).
Qed.

Lemma map_fst_combine {A B} (l : list A) (k : list B) : length l = length k -> map fst (combine l k) = l.
Proof. revert k. induction l as [|x l IH]; intros [|y k] H; try done. cbn [combine map fst]. f_equal. apply IH. by injection H. Qed.

(** What a record of the export comes from. *)
Record exported (s : DetectorSplit) (families : BenchmarkCategory -> list nat -> list FamilySpec) (entries : list py_dict)
    (r : PromptRecord) : Prop := mk_exported {
  ex_split : pp_split r = DetectorSplit_value s;
  ex_source : exists c i f v e, i ∈ family_indexes s /\ f ∈ families c (family_indexes s) /\ v ∈ [(variants f).1; (variants f).2] /\
    text_of "prompt" v = Some (pp_prompt r) /\ e ∈ entries /\ pp_task_id r = text_or_empty "task_id" e /\
    text_or_empty "task_family_id" e = family_id_of c (i + 1) f
}.

Lemma project_entry_ok split c p r : project_entry split c p = Ok r ->
  pp_split r = split /\ pp_task_id r = text_or_empty "task_id" p.1 /\ text_of "prompt" p.2 = Some (pp_prompt r).
Proof.
  destruct p as [entry variant]. unfold project_entry. intros ([] & _ & (prompt & Hp & (category & _ & H)%bind_ok)%bind_ok)%bind_ok.
  injection H as <-. cbn. destruct (text_of "prompt" variant); [|done]. by injection Hp as ->.
Qed.

Lemma project_family_ok split by_family c e p : project_family split by_family c e = Ok p ->
  p.1 = family_id_of c (e.1 + 1) e.2 /\
  map pp_task_id p.2 = map (text_or_empty "task_id") (default [] (dict_get by_family p.1)) /\
  (forall r, r ∈ p.2 -> pp_split r = split /\ exists v d, v ∈ [(variants e.2).1; (variants e.2).2] /\
     text_of "prompt" v = Some (pp_prompt r) /\ d ∈ default [] (dict_get by_family p.1) /\ pp_task_id r = text_or_empty "task_id" d).
Proof.
  unfold project_family. intros ([] & Hl & (records & Hr & H)%bind_ok)%bind_ok. injection H as <-. cbn [fst snd].
  apply guard_ok, Nat.eqb_eq in Hl. apply result_map_ok in Hr. split; [done|].
  set (entries := default [] (dict_get by_family (family_id_of c (e.1 + 1) e.2))) in *.
  assert (Hc : map fst (combine entries (map snd (indexed_variants e.2))) = entries) by (apply map_fst_combine; by rewrite Hl).
  split.
  - rewrite <- Hc, map_map. clear -Hr. induction Hr as [|p r ps rs Hp _ IH]; [done|]. cbn [map].
    destruct (project_entry_ok _ _ _ _ Hp) as (_ & -> & _). by rewrite IH.
  - intros r Hin. apply list_elem_of_lookup in Hin as [k Hk]. destruct (Forall2_lookup_r _ _ _ _ _ Hr Hk) as ([d v] & Hi & Hp).
    destruct (project_entry_ok _ _ _ _ Hp) as (-> & -> & Ht). cbn [fst snd] in Ht. split; [done|].
    assert (Hin : (d, v) ∈ combine entries (map snd (indexed_variants e.2))) by (apply list_elem_of_lookup; by exists k).
    apply list_elem_of_In in Hin. exists v, d. split_and!; [|done| |done]; apply list_elem_of_In;
      [exact (in_combine_r _ _ _ _ Hin)|exact (in_combine_l _ _ _ _ Hin)].
Qed.

(** Mapped entries are distinct when what tells them apart is. *)
Lemma NoDup_map_through {A B C} (f : A -> B) (g : A -> C) l : NoDup (map g l) ->
  (forall x y, x ∈ l -> y ∈ l -> f x = f y -> g x = g y) -> NoDup (map f l).
Proof.
  induction l as [|x l IH]; intros N H; [constructor|]. cbn [map] in *. apply NoDup_cons in N as [Hx N]. apply NoDup_cons. split.
  - intros Hin. apply list_elem_of_fmap in Hin as (y & E & Hy). apply Hx. apply list_elem_of_fmap. exists y.
    split; [|done]. apply (H x y); [set_solver|set_solver|done].
  - apply IH; [done|]. intros a b Ha Hb. apply H; set_solver.
Qed.

Section Exporting.
Context (s : DetectorSplit) (families : BenchmarkCategory -> list nat -> list FamilySpec) (entries : list py_dict).

Definition by_family : list (pystr * list py_dict) := group_by (text_or_empty "task_family_id") entries.

(** Every family the export visits, with its category and index. *)
Definition visited : list (BenchmarkCategory * (nat * FamilySpec)) :=
  flat_map (fun c => map (pair c) (combine (family_indexes s) (families c (family_indexes s)))) CATEGORIES.

Definition visited_id (x : BenchmarkCategory * (nat * FamilySpec)) : pystr := family_id_of x.1 (x.2.1 + 1) x.2.2.

Lemma projected_visited projected : result_map (project_category s by_family families) CATEGORIES = Ok projected ->
  (forall c, c ∈ CATEGORIES -> length (families c (family_indexes s)) = length (family_indexes s)) /\
  Forall2 (fun x p => project_family (DetectorSplit_value s) by_family x.1 x.2 = Ok p) visited (List.concat projected).
Proof.
  unfold visited. intros H%result_map_ok. induction H as [|c ps cs projected Hc _ IH]; [split; [set_solver|constructor]|].
  destruct IH as [Hl HF]. unfold project_category in Hc. apply bind_ok in Hc as ([] & Hlen & Hc).
  apply guard_ok, Nat.eqb_eq in Hlen. apply result_map_ok in Hc. split.
  - intros c' [->|Hin]%elem_of_cons; [done|by apply Hl].
  - cbn [flat_map List.concat]. apply Forall2_app; [|done]. clear -Hc.
    induction Hc as [|e p es ps Hp _ IH]; [constructor|]. cbn [map]. by constructor.
Qed.

Lemma visited_index x : x ∈ visited -> x.2.1 ∈ family_indexes s /\ x.2.2 ∈ families x.1 (family_indexes s).
Proof.
  unfold visited. intros Hx. apply list_elem_of_In, in_flat_map in Hx as (c & _ & Hx). apply in_map_iff in Hx as ([i f] & <- & Hin).
  cbn [fst snd]. split; apply list_elem_of_In; [exact (in_combine_l _ _ _ _ Hin)|exact (in_combine_r _ _ _ _ Hin)].
Qed.

Lemma index_bound i : i ∈ family_indexes s -> i + 1 ∈ seq 1 16 /\ i < 13.
Proof. destruct s; cbn [family_indexes]; rewrite !elem_of_seq; lia. Qed.

Lemma visited_distinct : (forall c, c ∈ CATEGORIES -> length (families c (family_indexes s)) = length (family_indexes s)) ->
  NoDup (map visited_id visited).
Proof.
  intros Hl. apply (NoDup_map_through visited_id (fun x => (x.1, x.2.1))).
  - assert (E : map (fun x => (x.1, x.2.1)) visited = flat_map (fun c => map (pair c) (family_indexes s)) CATEGORIES).
    { unfold visited. revert Hl. generalize CATEGORIES. intros cs. induction cs as [|c cs IH]; intros Hl; [done|].
      cbn [flat_map]. rewrite map_app, IH by (intros c' Hc'; apply Hl; set_solver). f_equal.
      transitivity (map (pair c) (map fst (combine (family_indexes s) (families c (family_indexes s)))));
        [by rewrite !map_map|]. f_equal. apply map_fst_combine. symmetry. apply Hl. set_solver. }
    rewrite E. destruct s; apply all_distinct_true; by vm_compute.
  - intros x y Hx%visited_index Hy%visited_index H. destruct Hx as [Hx _], Hy as [Hy _].
    destruct (family_id_injective _ _ _ _ _ _ (proj1 (index_bound _ Hx)) (proj1 (index_bound _ Hy)) H) as [E1 E2].
    f_equal; [done|lia].
Qed.

(** The tasks of the records are those of the manifest. *)
Lemma exported_ids projected : result_map (project_category s by_family families) CATEGORIES = Ok projected ->
  same_elements (map fst (List.concat projected)) (dict_keys by_family) = true ->
  map pp_task_id (List.concat (map snd (List.concat projected))) ≡ₚ map (text_or_empty "task_id") entries.
Proof.
  intros H Hs. destruct (projected_visited _ H) as [Hl HF].
  assert (Hfst : map fst (List.concat projected) = map visited_id visited).
  { clear -HF. induction HF as [|x p xs ps Hp _ IH]; [done|]. cbn [map].
    destruct (project_family_ok _ _ _ _ _ Hp) as (-> & _ & _). by rewrite IH. }
  assert (Hids : map pp_task_id (List.concat (map snd (List.concat projected))) =
    map (text_or_empty "task_id") (List.concat (map (fun k => default [] (dict_get by_family k)) (map fst (List.concat projected))))).
  { clear -HF. induction HF as [|x p xs ps Hp _ IH]; [done|]. cbn [map List.concat]. rewrite !map_app, IH.
    by destruct (project_family_ok _ _ _ _ _ Hp) as (_ & -> & _). }
  rewrite Hids. apply Permutation_map, groups_partition.
  - rewrite Hfst. by apply visited_distinct.
  - by apply same_elements_true.
Qed.
End Exporting.

Lemma text_of_field key d text : text_of key d = Some text -> dict_get d (py key) = Some (PJStr text).
Proof. unfold text_of. by destruct (dict_get d (py key)) as [[| | | |[]| |]|]; intros [= <-]. Qed.

Lemma has_text_field key d : has_text key d = true -> dict_get d (py key) = Some (PJStr (text_or_empty key d)).
Proof. unfold has_text, text_or_empty. destruct (text_of key d) as [text|] eqn:E; [|done]. intros _. by apply text_of_field. Qed.

Lemma as_dicts l ds : result_map as_dict l = Ok ds -> l = map PJObj ds.
Proof.
  intros H%result_map_ok. induction H as [|v d l ds Hv _ IH]; [done|]. cbn [map]. rewrite <- IH. f_equal.
  by destruct v; cbn [as_dict] in Hv; inv_result.
Qed.

Lemma manifest_entries_ok s manifest ds : manifest_entries s manifest = Ok ds ->
  dict_get manifest (py "tasks") = Some (PJArr (map PJObj ds)) /\
  NoDup (map (text_or_empty "task_id") ds) /\
  forall d, d ∈ ds -> dict_get d (py "task_id") = Some (PJStr (text_or_empty "task_id" d)) /\
                    dict_get d (py "split") = Some (PJStr (Split_value (manifest_split s))).
Proof.
  unfold manifest_entries. intros (entries & El & (ds' & Ed & ([] & Ht & ([] & Hd & ([] & Hs & ([] & _ & H)
    %bind_ok)%bind_ok)%bind_ok)%bind_ok)%bind_ok)%bind_ok. injection H as <-.
  apply guard_ok in Ht. apply guard_ok, all_distinct_true in Hd. apply guard_ok in Hs. rewrite forallb_forall in Ht, Hs. split; [|split; [done|]].
  - rewrite <- (as_dicts _ _ Ed). destruct (dict_get _ _) as [[]|]; by inv_result.
  - intros d Hin. apply list_elem_of_In in Hin. pose proof (has_text_field _ _ (Ht _ Hin)) as I. apply Hs in Hin. unfold equals_str in Hin.
    destruct (dict_get d (py "split")) as [[]|]; try done. apply bool_decide_eq_true_1 in Hin. by rewrite Hin.
Qed.

(** The indexes of a split are of families of that split. *)
Lemma family_indexes_split s i : i ∈ family_indexes s -> FAMILY_SPLITS !! i = Some (manifest_split s).
Proof.
  destruct s; cbn [family_indexes]; intros Hi; apply elem_of_seq in Hi;
    do 13 (destruct i as [|i]; [try reflexivity; lia|]); lia.
Qed.

(** What a successful projection of a manifest exports. *)
Definition faithful_export (s : DetectorSplit) (families : BenchmarkCategory -> list nat -> list FamilySpec)
    (manifest : py_dict) (records : list PromptRecord) : Prop :=
  exists entries, dict_get manifest (py "tasks") = Some (PJArr (map PJObj entries)) /\
    NoDup (map pp_task_id records) /\
    map (fun r => Some (PJStr (pp_task_id r))) records ≡ₚ map (fun d => dict_get d (py "task_id")) entries /\
    (forall d, d ∈ entries -> dict_get d (py "split") = Some (PJStr (Split_value (manifest_split s)))) /\
    (forall c, count (fun r => equals_str (Some (pp_category r)) (display_category c)) records = expected_per_category s) /\
    (forall r, r ∈ records -> exported s families entries r).

Lemma record_exported s families entries projected r :
  result_map (project_category s (by_family entries) families) CATEGORIES = Ok projected ->
  r ∈ List.concat (map snd (List.concat projected)) -> exported s families entries r.
Proof.
  intros Hp Hr. apply list_elem_of_In, in_concat in Hr as (rs & Hrs & Hr). apply in_map_iff in Hrs as (p & <- & Hin).
  apply list_elem_of_In, list_elem_of_lookup in Hin as [k Hk].
  destruct (projected_visited s families entries projected Hp) as [_ HF].
  destruct (Forall2_lookup_r _ _ _ _ _ HF Hk) as (x & Hx & Hpf). apply list_elem_of_lookup_2 in Hx.
  destruct (visited_index s families x Hx) as [Hi Hf].
  destruct (project_family_ok _ _ _ _ _ Hpf) as (Hid & _ & Hrec). apply list_elem_of_In in Hr.
  destruct (Hrec r Hr) as (Hsp & v & d & Hv & Ht & Hd & Htask). constructor; [done|].
  assert (Hfid : d ∈ entries /\ text_or_empty "task_family_id" d = p.1).
  { unfold by_family in Hd. rewrite group_by_get in Hd. apply list_elem_of_In, filter_In in Hd as [Hd Hk'].
    split; [by apply list_elem_of_In|]. by apply bool_decide_eq_true_1 in Hk'. }
  destruct Hfid as [Hd' Hfid]. exists x.1, x.2.1, x.2.2, v, d. rewrite <- Hid. by split_and!.
Qed.

Lemma balanced_count s records c : balanced s records = Ok tt ->
  count (fun r => equals_str (Some (pp_category r)) (display_category c)) records = expected_per_category s.
Proof.
  unfold balanced. intros ([] & _ & ([] & Hb & _)%bind_ok)%bind_ok.
  apply guard_ok, andb_prop in Hb as [_ Hb]. rewrite forallb_forall in Hb. apply Z.eqb_eq, Hb. by destruct c; cbn; tauto.
Qed.

Lemma project_manifest_ok s families manifest records :
  project_manifest s families manifest = Ok records -> faithful_export s families manifest records.
Proof.
  unfold project_manifest. intros (entries & He & (projected & Hp & ([] & Hc & ([] & Hb & H)
    %bind_ok)%bind_ok)%bind_ok)%bind_ok. injection H as <-. apply guard_ok in Hc.
  destruct (manifest_entries_ok _ _ _ He) as (Ht & Hnd & Hsplit).
  pose proof (exported_ids s families entries projected Hp Hc) as Hids.
  exists entries. split; [done|]. split; [by rewrite Hids|]. split; [|split; [intros d Hd; apply (proj2 (Hsplit d Hd))|split]].
  - rewrite <- (map_map pp_task_id (fun t => Some (PJStr t))), Hids, map_map. erewrite map_ext_in; [reflexivity|].
    intros d Hd. apply list_elem_of_In in Hd. cbv beta. by rewrite (proj1 (Hsplit d Hd)).
  - intros c. by apply balanced_count.
  - intros r. by apply record_exported.
Qed.

(** C26. The export answers for the train and the development split only; for any
    other it is refused before a file is read, and for these it reads the
    manifest of the split and nothing else.  What it exports is balanced over the
    categories and has each task of that manifest once, every one of them of the
    split; each prompt is a variant of a family that was built at an index of
    the split, and none of these indexes is that of a family of another split. *)
Theorem exported_prompts_are_of_the_split read_file families split :
  ((forall s, split <> DetectorSplit_value s) ->
   export_category_detector_prompts read_file families split = ([], Raise (Exn C_ValueError))) /\
  (forall s, split = DetectorSplit_value s ->
   (export_category_detector_prompts read_file families split).1 = [manifest_name s] /\
   (forall records, (export_category_detector_prompts read_file families split).2 = Ok records ->
    exists manifest, read_file (manifest_name s) = Ok manifest /\ faithful_export s families manifest records) /\
   (forall i, i ∈ family_indexes s -> FAMILY_SPLITS !! i = Some (manifest_split s))).
Proof.
  unfold export_category_detector_prompts. split.
  - intros N. destruct (detector_split split) as [s|] eqn:E; [|done]. by apply detector_split_value, N in E.
  - intros s ->. rewrite detector_split_of. cbn [fst snd]. split; [done|]. split; [|apply family_indexes_split].
    intros records (manifest & Hm & H)%bind_ok. exists manifest. split; [done|]. by apply project_manifest_ok.
Qed.

(** ** Witness *)

Definition sample_family (c : BenchmarkCategory) (i : nat) : FamilySpec :=
  mk_FamilySpec (py "family") ([(py "prompt", PJStr (py "first"))], [(py "prompt", PJStr (py "second"))]).

Definition sample_entry (c : BenchmarkCategory) (i : nat) (variant : string) : pyjson :=
  PJObj [ (py "task_id", PJStr (BenchmarkCategory_value c ++ Z_to_str (Z.of_nat i) ++ py variant));
          (py "category", PJStr (display_category c)); (py "internal_category", PJStr (BenchmarkCategory_value c));
          (py "split", PJStr (py "development"));
          (py "task_family_id", PJStr (family_id_of c (i + 1) (sample_family c i))) ].

Definition sample_manifest : py_dict :=
  [ (py "tasks", PJArr (flat_map (fun c => flat_map (fun i => [sample_entry c i "a"; sample_entry c i "b"]) (seq 10 3)) CATEGORIES)) ].

Definition sample_files (name : pystr) : result exn py_dict :=
  if decide (name = py "development-manifest.json") then Ok sample_manifest else Raise (Exn C_FileNotFoundError).

Definition sample_export : list pystr * result exn (list PromptRecord) :=
  export_category_detector_prompts sample_files (fun c => map (sample_family c)) (py "dev").

Lemma exported_prompts_are_of_the_split_witness :
  (exists records, sample_export = ([py "development-manifest.json"], Ok records) /\
   length records = 42 /\ NoDup (map pp_task_id records)) /\
  export_category_detector_prompts sample_files (fun c => map (sample_family c)) (py "final") = ([], Raise (Exn C_ValueError)).
Proof.
  split.
  - assert (B : match sample_export.2 with Ok rs => length rs | Raise _ => 0 end = 42) by (vm_compute; reflexivity).
    destruct (proj2 (exported_prompts_are_of_the_split sample_files (fun c => map (sample_family c)) (py "dev")) DS_dev eq_refl)
      as (Reads & Faithful & _).
    change (export_category_detector_prompts sample_files (fun c => map (sample_family c)) (py "dev")) with sample_export in *.
    destruct sample_export as [reads [records|e]]; [|discriminate B]. cbn [fst snd] in *. subst reads.
    exists records. split; [reflexivity|]. split; [exact B|].
    destruct (Faithful records eq_refl) as (m & _ & es & _ & N & _). exact N.
  - apply (proj1 (exported_prompts_are_of_the_split sample_files (fun c => map (sample_family c)) (py "final"))).
    intros []; discriminate.
Defined.
