(* ===== verification/ExecutionReadiness.v ===== *)
(** * Execution readiness ([benchmarks/execution_readiness.py])

    Before a paid run of a frozen protocol the evidence for it is checked
    offline: reviewed prices for every paid model, the digests of every frozen
    file, tasks of the train split alone and a projected cost below a ceiling.
    The dry runs return what the paid run may do; nothing is called. *)
From S2P Require Import Prelude PyStr PyFloat PyDecimal Schemas Json PyRepr Errors GatewayConfig BenchmarkModels RoutingExport DatasetValidation BenchmarkSplits BenchmarkProtocol.

(** ** Pricing evidence *)

Inductive Verification := HUMAN_WEB_VERIFIED | REPOSITORY_CATALOG_VERIFIED.
Inductive ReadinessStatus := READY_FOR_PAID_EXECUTION | REQUIRES_REVERIFICATION.

#[export] Instance ReadinessStatus_eq_dec : EqDecision ReadinessStatus.
Proof. solve_decision. Defined.

(** Dates are day numbers. *)
Record ModelPricingEvidence := mk_ModelPricingEvidence {
  me_model_id : pystr;
  me_upstream_model_slug : pystr;
  me_input_cost : decimal;
  me_output_cost : decimal;
  me_verification : Verification;
  me_verified_on : Z;
  me_evidence : list pystr
}.

Definition ModelPricingEvidence_ok (e : ModelPricingEvidence) : bool :=
  Nat.leb 1 (length (me_model_id e)) && Nat.leb 1 (length (me_upstream_model_slug e)) && d_nonneg (me_input_cost e) &&
  d_nonneg (me_output_cost e) && Nat.leb 1 (length (me_evidence e)).

Record PricingReadinessRecord := mk_PricingReadinessRecord {
  pr_version : pystr;
  pr_status : ReadinessStatus;
  pr_protocol : pystr;
  pr_protocol_version : pystr;
  pr_protocol_sha256 : pystr;
  pr_recorded_on : Z;
  pr_models : list ModelPricingEvidence
}.

(** [unique_models] *)
Definition unique_models (r : PricingReadinessRecord) : result pystr unit :=
  check (all_distinct (map me_model_id (pr_models r)) && all_distinct (map me_upstream_model_slug (pr_models r)))
    (py "pricing evidence model identities must be unique").

Definition PricingReadinessRecord_validate (r : PricingReadinessRecord) : result pystr unit :=
  _ ← check (valid_identity (Some (pr_protocol_sha256 r)) && Nat.leb 1 (length (pr_models r)) &&
             forallb ModelPricingEvidence_ok (pr_models r)) field_error;
  unique_models r.

Definition READY_STATUS : pystr := py "READY_FOR_PAID_EXECUTION".

(** [next(model for model in JUDGE_SELECTION_MODELS if ...)] *)
Definition astra_model : result exn ModelConfig :=
  match List.find (fun m => bool_decide (model_id m = py "judge-gpt-6-astra")) JUDGE_SELECTION_MODELS with
  | Some m => Ok m
  | None => Raise (Exn C_StopIteration)
  end.

(** The evidence states the model's slug and, as numbers, its prices. *)
Definition evidence_matches (e : ModelPricingEvidence) (m : ModelConfig) : bool :=
  bool_decide (me_upstream_model_slug e = provider_model_name m) && d_eqb (me_input_cost e) (input_cost_per_1m_tokens m) &&
  d_eqb (me_output_cost e) (output_cost_per_1m_tokens m).

Definition evidence_agrees (actual : list (list N * ModelPricingEvidence)) (entry : list N * ModelConfig) : result exn unit :=
  match dict_get actual entry.1 with
  | None => Raise (Exn C_KeyError)
  | Some e => value_guard (evidence_matches e entry.2)
  end.

Section Readiness.
(** [hashlib.sha256], [json.loads] of bytes, and what pydantic makes of the JSON
    of a record, a dataset and a candidate model before their validators. *)
Context {UD : UnicodeData} (sha256 : list N -> pystr) (loads : list N -> result exn pyjson).
Context (parse_readiness : list N -> result exn PricingReadinessRecord) (parse_dataset : list N -> result exn BenchmarkDataset).
Context (model_validate : py_dict -> result exn ModelConfig).

Definition read_readiness (raw : list N) : result exn PricingReadinessRecord :=
  r ← parse_readiness raw;
  _ ← validated (PricingReadinessRecord_validate r);
  Ok r.

(** [load_dataset] *)
Definition load_dataset (raw : list N) : result exn BenchmarkDataset :=
  d ← parse_dataset raw;
  _ ← validated (BenchmarkDataset_validate d);
  Ok (mk_BenchmarkDataset (ds_name d) (ds_version d) (tasks d) (sha256 raw)).

Definition load_pricing_readiness (raw : list N) (protocol : py_dict) (protocol_sha256 : pystr)
    (candidate_models : list ModelConfig) : result exn PricingReadinessRecord :=
  record ← read_readiness raw;
  contract ← find_contract protocol;
  _ ← value_guard (bool_decide (pr_status record = READY_FOR_PAID_EXECUTION));
  _ ← value_guard (bool_decide (pr_protocol record = pc_protocol contract) &&
                   bool_decide (pr_protocol_version record = pc_version contract) &&
                   bool_decide (pr_protocol_sha256 record = protocol_sha256));
  astra ← astra_model;
  let expected := dict_of model_id (fun m => m) (candidate_models ++ [astra]) in
  let actual := dict_of me_model_id (fun e => e) (pr_models record) in
  _ ← value_guard (same_elements (dict_keys actual) (dict_keys expected));
  _ ← result_map (evidence_agrees actual) expected;
  Ok record.

(** ** Shared steps of the dry runs *)

(** [protocol[key]], compared with a digest. *)
Definition digest_matches (protocol : py_dict) (key : string) (digest : pystr) : result exn unit :=
  match dict_get protocol (py key) with
  | None => Raise (Exn C_KeyError)
  | v => value_guard (equals_str v digest)
  end.

Definition object (v : pyjson) : result exn py_dict :=
  match v with PJObj d => Ok d | _ => Raise (Exn C_AttributeError) end.

(** [Decimal(value)]; the infinities of [Decimal] are refused here. *)
Definition as_decimal (v : pyjson) : result exn decimal :=
  match v with
  | PJStr s => match decimal_of_str s with Some d => Ok d | None => Raise (Exn C_ArithmeticError) end
  | PJInt z => Ok (d_of_Z z)
  | PJBool b => Ok (d_of_Z (if b then 1 else 0))
  | PJFloat (S754_zero s) => Ok (mk_decimal s 0 0)
  | PJFloat (S754_finite s m e) =>
      Ok (if (0 <=? e)%Z then mk_decimal s (Npos m * 2 ^ Z.to_N e) 0 else mk_decimal s (Npos m * 5 ^ Z.to_N (- e)) e)
  | PJFloat _ => Raise (Exn C_ArithmeticError)
  | _ => Raise (Exn C_TypeError)
  end.

Definition task_allowance (d : BenchmarkTask) (m : ModelConfig) : result exn Z :=
  value_error (provider_output_allowance m (bt_max_output_tokens d) (BenchmarkCategory_value (bt_category d))).

Definition dataset_by_task (d : BenchmarkDataset) : list (json_key * BenchmarkTask) :=
  dict_of (fun t => KStr (task_id t)) (fun t => t) (tasks d).

(** ** The corrected pilot *)

(** [split_by_task[item["task_id"]]["split"] != "train"] *)
Definition not_train (split_by_task : list (json_key * pyjson)) (e : pyjson) : result exn bool :=
  k ← key_at "task_id" e;
  entry ← entry_at split_by_task k;
  x ← item entry "split";
  Ok (negb (equals_str (Some x) (Split_value Train))).

Definition unknown_task (by_task : list (json_key * BenchmarkTask)) (e : pyjson) : result exn bool :=
  k ← key_at "task_id" e; Ok (negb (dict_mem by_task k)).

(** The allowances of a task, by candidate. *)
Definition pilot_allowances (by_task : list (json_key * BenchmarkTask)) (candidates : list ModelConfig) (e : pyjson) :
    result exn (json_key * list (list N * Z)) :=
  k ← key_at "task_id" e;
  t ← entry_at by_task k;
  entries ← result_map (fun m => n ← task_allowance t m; Ok (model_id m, n)) candidates;
  Ok (k, dict_of fst snd entries).

Definition CEILING : decimal := mk_decimal false 60 (-2).

Definition is_summary (e : pyjson) : result exn bool :=
  x ← item e "internal_category"; Ok (equals_str (Some x) (BenchmarkCategory_value BC_SUMMARIZATION)).

(** The report, with the allowances kept as a table. *)
Record PilotReport := mk_PilotReport {
  rp_protocol : pyjson;
  rp_protocol_version : pyjson;
  rp_protocol_sha256 : pystr;
  rp_pricing_readiness_version : pystr;
  rp_pricing_readiness_sha256 : pystr;
  rp_dataset_sha256 : pystr;
  rp_split_manifest_sha256 : pystr;
  rp_specification_sha256 : pystr;
  rp_evaluator_version : pyjson;
  rp_evaluator_manifest_sha256 : pystr;
  rp_pilot_tasks : Z;
  rp_candidate_count : Z;
  rp_maximum_candidate_attempts : Z;
  rp_maximum_astra_calls : Z;
  rp_effective_max_output_tokens : list (json_key * list (list N * Z));
  rp_projected_candidate_cost : pyjson;
  rp_projected_astra_cost : pyjson;
  rp_projected_total_cost : pyjson;
  rp_projected_worst_case_cost : pyjson;
  rp_provider_calls_made : Z
}.

(** The files of the pilot, as bytes. *)
Record PilotFiles := mk_PilotFiles {
  pf_protocol : list N;
  pf_readiness : list N;
  pf_dataset : list N;
  pf_split : list N;
  pf_evaluator : list N;
  pf_specification : list N;
  pf_pilot : list N;
  pf_cost : list N
}.

Definition corrected_pilot_dry_run (f : PilotFiles) : result exn PilotReport :=
  loaded ← load_execution_protocol model_validate sha256 loads (pf_protocol f);
  let '(protocol, candidates, protocol_sha) := loaded in
  contract ← find_contract protocol;
  _ ← value_guard (pc_requires_pricing_readiness contract);
  readiness ← load_pricing_readiness (pf_readiness f) protocol protocol_sha candidates;
  dataset ← load_dataset (pf_dataset f);
  _ ← value_guard (bool_decide (ds_sha256 dataset = pc_dataset_sha256 contract));
  let split_digest := sha256 (pf_split f) in
  _ ← digest_matches protocol "split_manifest_sha256" split_digest;
  let evaluator_digest := sha256 (pf_evaluator f) in
  _ ← digest_matches protocol "evaluator_manifest_sha256" evaluator_digest;
  evaluator ← (v ← loads (pf_evaluator f); object v);
  _ ← value_guard (equals_str (dict_get evaluator (py "version")) (py "1.3.0"));
  let specification_digest := sha256 (pf_specification f) in
  _ ← digest_matches protocol "summarization_specification_sha256" specification_digest;
  split ← loads (pf_split f);
  pilot ← loads (pf_pilot f);
  entries ← (v ← item split "entries"; iterate v);
  split_by_task ← by_task_id (fun e => Ok e) entries;
  ts ← (v ← item pilot "tasks"; iterate v);
  _ ← value_guard (Nat.eqb (length ts) 21);
  ids ← result_map (key_at "task_id") ts;
  _ ← value_guard (Nat.eqb (length (remove_dups ids)) 21);
  outside ← any_result (not_train split_by_task) ts;
  _ ← value_guard (negb outside);
  let by_task := dataset_by_task dataset in
  unknown ← any_result (unknown_task by_task) ts;
  _ ← value_guard (negb unknown);
  allowances ← result_map (pilot_allowances by_task candidates) ts;
  costs ← (v ← loads (pf_cost f); item v "corrected_pilot");
  total_text ← item costs "expected_total_cost_usd";
  total ← as_decimal total_text;
  worst_text ← item costs "worst_case_cost_usd";
  worst_case ← as_decimal worst_text;
  _ ← value_guard (d_leb total CEILING && d_leb worst_case CEILING);
  summaries ← result_map is_summary ts;
  candidate_cost ← item costs "candidate_cost_usd";
  astra_cost ← item costs "expected_cost_usd";
  let n := Z.of_nat (length ts) in
  let k := Z.of_nat (length candidates) in
  Ok (mk_PilotReport (or_null (dict_get protocol (py "protocol"))) (or_null (dict_get protocol (py "version"))) protocol_sha (pr_version readiness)
        (sha256 (pf_readiness f)) (ds_sha256 dataset) split_digest specification_digest (or_null (dict_get evaluator (py "version")))
        evaluator_digest n k (n * k) (Z.of_nat (length (List.filter (fun b => b) summaries)) * k) (dict_of fst snd allowances)
        candidate_cost astra_cost total_text worst_text 0).
End Readiness.

(** ** The Gemini confirmation *)

Record ConfirmationFiles := mk_ConfirmationFiles {
  cf_protocol : list N;
  cf_readiness : list N;
  cf_dataset : list N;
  cf_split : list N;
  cf_confirmation : list N
}.

Record ConfirmationReport := mk_ConfirmationReport {
  cr_protocol_sha256 : pystr;
  cr_pricing_readiness_version : pystr;
  cr_case_ids : list pystr;
  cr_candidate_id : pystr;
  cr_reasoning_effort : pystr;
  cr_reasoning_reserve_tokens : Z;
  cr_maximum_candidate_calls : Z;
  cr_astra_calls : Z;
  cr_provider_calls_made : Z;
  cr_reasoning_control : option pystr
}.

Definition CONFIRMATION_IDS : list pystr :=
  map py ["coding-easy-001"; "coding-hard-001"; "coding-medium-001"; "summarization-easy-001"; "summarization-medium-001"]%string.

Definition CONFIRMATION_VERSIONS : list pystr := map py ["1.5.0"; "1.6.0"; "1.7.0"]%string.

Definition GEMINI : pystr := py "candidate-gemini-3-flash".

Definition is_false (v : option pyjson) : bool := match v with Some (PJBool b) => negb b | _ => false end.

Definition find_gemini (candidates : list ModelConfig) : result exn ModelConfig :=
  next (fun m => Ok (bool_decide (model_id m = GEMINI))) candidates.

(** The conditions of the manifest, evaluated from left to right. *)
Definition confirmation_contract (m : py_dict) (protocol_sha readiness_sha : pystr) (gemini : ModelConfig) : result exn pystr :=
  let get k := dict_get m (py k) in
  _ ← value_guard (equals_str (get "protocol_sha256"%string) protocol_sha &&
                   equals_str (get "execution_readiness_sha256"%string) readiness_sha &&
                   equals_str (get "candidate_id"%string) (model_id gemini));
  effort ← match reasoning_effort gemini with Some e => Ok (ReasoningEffort_value e) | None => Raise (Exn C_AttributeError) end;
  _ ← value_guard (equals_str (get "reasoning_effort"%string) effort &&
                   equals_str (Some (default (PJStr (py "gateway_shared")) (get "reasoning_control"%string)))
                     (ReasoningControlMechanism_value (reasoning_control gemini)) &&
                   equals_int (get "maximum_candidate_calls"%string) 5 && equals_int (get "candidate_retries"%string) 0 &&
                   equals_int (get "astra_calls"%string) 0 && is_false (get "quality_evaluation"%string));
  Ok effort.

Definition optional_id (e : pyjson) : result exn json_key := d ← object e; hashed (or_null (dict_get d (py "task_id"))).

Definition case_allowance (by_task : list (json_key * BenchmarkTask)) (gemini : ModelConfig) (e : pyjson) : result exn unit :=
  k ← key_at "task_id" e;
  t ← entry_at by_task k;
  expected ← task_allowance t gemini;
  d ← object e;
  value_guard (equals_int (dict_get d (py "visible_output_requirement")) (bt_max_output_tokens t) &&
               equals_int (dict_get d (py "provider_output_allowance")) expected).

Section Confirmation.
Context (sha256 : list N -> pystr) (loads : list N -> result exn pyjson).
Context (parse_readiness : list N -> result exn PricingReadinessRecord) (parse_dataset : list N -> result exn BenchmarkDataset).
Context (model_validate : py_dict -> result exn ModelConfig).

Definition gemini_confirmation_dry_run (f : ConfirmationFiles) : result exn ConfirmationReport :=
  loaded ← load_execution_protocol model_validate sha256 loads (cf_protocol f);
  let '(protocol, candidates, protocol_sha) := loaded in
  _ ← value_guard (equals_str (dict_get protocol (py "protocol")) ROUTING_V12_PROTOCOL_NAME &&
                   existsb (equals_str (dict_get protocol (py "version"))) CONFIRMATION_VERSIONS);
  readiness ← load_pricing_readiness parse_readiness (cf_readiness f) protocol protocol_sha candidates;
  dataset ← load_dataset sha256 parse_dataset (cf_dataset f);
  contract ← find_contract protocol;
  _ ← value_guard (bool_decide (ds_sha256 dataset = pc_dataset_sha256 contract));
  _ ← digest_matches protocol "split_manifest_sha256" (sha256 (cf_split f));
  split ← loads (cf_split f);
  entries ← (v ← item split "entries"; iterate v);
  train_ids ← keys_where "split" (Split_value Train) "task_id" entries;
  manifest ← (v ← loads (cf_confirmation f); object v);
  cases ← match dict_get manifest (py "cases") with Some (PJArr l) => Ok l | _ => Raise (Exn C_ValueError) end;
  ids ← result_map optional_id cases;
  _ ← value_guard (same_elements ids (map KStr CONFIRMATION_IDS));
  gemini ← find_gemini candidates;
  effort ← confirmation_contract manifest protocol_sha (sha256 (cf_readiness f)) gemini;
  _ ← value_guard (subset_of (map KStr CONFIRMATION_IDS) train_ids);
  _ ← result_map (case_allowance (dataset_by_task dataset) gemini) cases;
  Ok (mk_ConfirmationReport protocol_sha (pr_version readiness) CONFIRMATION_IDS (model_id gemini) effort
        (reasoning_headroom_tokens (output_token_policy gemini)) 5 0 0
        (if equals_str (dict_get protocol (py "version")) (py "1.7.0")
         then Some (ReasoningControlMechanism_value (reasoning_control gemini)) else None)).
End Confirmation.

(** ** Priced as reviewed *)

(** Every paid model, a candidate or the judge, has evidence at its slug and
    prices, and nothing else has. *)
Definition priced_as_reviewed (record : PricingReadinessRecord) (candidates : list ModelConfig) : Prop :=
  exists judge, astra_model = Ok judge /\
    (forall m, m ∈ candidates ++ [judge] -> exists e, e ∈ pr_models record /\ me_model_id e = model_id m /\ evidence_matches e m = true) /\
    (forall e, e ∈ pr_models record -> me_model_id e ∈ map model_id (candidates ++ [judge])).

Lemma readiness_ok parse raw protocol digest candidates record :
  load_pricing_readiness parse raw protocol digest candidates = Ok record -> map model_id candidates = map model_id CANDIDATE_MODELS ->
  exists contract, find_contract protocol = Ok contract /\ pr_status record = READY_FOR_PAID_EXECUTION /\
    pr_protocol record = pc_protocol contract /\ pr_protocol_version record = pc_version contract /\
    pr_protocol_sha256 record = digest /\ PricingReadinessRecord_validate record = Ok tt /\ priced_as_reviewed record candidates.
Proof.
  unfold load_pricing_readiness. intros H I. apply bind_ok in H as (r & R & H). apply bind_ok in H as (c & C & H).
  apply bind_ok in H as (? & S%value_guard_ok & H). apply bind_ok in H as (? & P%value_guard_ok & H).
  apply bind_ok in H as (j & J & H). cbv zeta in H. apply bind_ok in H as (? & A%value_guard_ok & H).
  apply bind_ok in H as (us & F & H). injection H as ->. exists c. bools. split; [done|]. split; [done|].
  split; [done|]. split; [done|]. split; [done|].
  assert (V : PricingReadinessRecord_validate record = Ok tt).
  { unfold read_readiness in R. apply bind_ok in R as (r' & _ & R). apply bind_ok in R as ([] & V & R). injection R as ->.
    by apply validated_ok. }
  split; [done|]. exists j. split; [done|].
  assert (D : NoDup (map model_id (candidates ++ [j]))).
  { rewrite map_app, I. unfold astra_model in J. vm_compute in J. injection J as <-. apply all_distinct_true. vm_compute. reflexivity. }
  rewrite same_elements_true in A. split.
  - intros m M. assert (E : (model_id m, m) ∈ dict_of model_id (fun m => m) (candidates ++ [j])).
    { rewrite dict_of_distinct by done. apply list_elem_of_fmap. by exists m. }
    destruct (result_map_Ok _ _ _ F _ E) as (u & U & _). unfold evidence_agrees in U. cbn [fst snd] in U.
    destruct (dict_get (dict_of me_model_id _ _) (model_id m)) as [e|] eqn:G; [|discriminate].
    apply value_guard_ok in U. apply dict_of_get in G as (e' & Ie & K & <-). by exists e'.
  - intros e Ie. apply (dict_of_mem model_id (fun m => m)). apply A. apply (dict_of_mem me_model_id (fun e => e)). by apply list_elem_of_fmap_2.
Qed.

(** ** Tables *)

Lemma entry_in entries table k e : by_task_id (fun e => Ok e) entries = Ok table -> entry_at table k = Ok e ->
  e ∈ entries /\ key_at "task_id" e = Ok k.
Proof.
  unfold by_task_id, entry_at. intros T E. apply bind_ok in T as (kvs & K & T). injection T as <-.
  destruct (dict_get _ k) as [x|] eqn:G; [|discriminate]. injection E as ->. apply dict_of_get in G as ([k' x] & I & <- & <-).
  cbn [fst snd] in *. apply result_map_ok in K. apply list_elem_of_lookup in I as [i I].
  destruct (Forall2_lookup_r _ _ _ _ _ K I) as (y & Y & H). apply list_elem_of_lookup_2 in Y.
  apply bind_ok in H as (v & V & H). rsimpl_in H. apply bind_ok in H as (k2 & K2 & H). injection H as <- <-.
  split; [done|]. unfold key_at. by rewrite V.
Qed.

Lemma known_task d k t : entry_at (dataset_by_task d) k = Ok t -> t ∈ tasks d /\ k = KStr (task_id t).
Proof.
  unfold entry_at, dataset_by_task. intros H. destruct (dict_get _ k) as [x|] eqn:G; [|discriminate]. injection H as ->.
  apply dict_of_get in G as (x & I & <- & <-). done.
Qed.

Lemma allowance_positive t m n : task_allowance t m = Ok n -> (0 < bt_max_output_tokens t)%Z.
Proof.
  unfold task_allowance, value_error, provider_output_allowance. intros H. unfold check, guard_else in H.
  destruct (Z.ltb_spec 0 (bt_max_output_tokens t)) as [|L]; [done|discriminate].
Qed.

Lemma pilot_row by_task candidates e k row : pilot_allowances by_task candidates e = Ok (k, row) ->
  NoDup (map model_id candidates) ->
  key_at "task_id" e = Ok k /\ exists t, entry_at by_task k = Ok t /\
    forall m, m ∈ candidates -> exists n, task_allowance t m = Ok n /\ dict_get row (model_id m) = Some n.
Proof.
  unfold pilot_allowances. intros H D. apply bind_ok in H as (k' & K & H). apply bind_ok in H as (t & T & H).
  apply bind_ok in H as (ns & N & H). injection H as <- <-. split; [done|]. exists t. split; [done|]. intros m M.
  assert (F : Forall2 (fun m p => p.1 = model_id m /\ task_allowance t m = Ok p.2) candidates ns).
  { apply result_map_ok in N. eapply Forall2_impl; [exact N|]. intros x p P. apply bind_ok in P as (n & P & Q). by injection Q as <-. }
  assert (I : map fst ns = map model_id candidates).
  { clear - F. induction F as [|x p c' n' [E _] _ IH]; [done|]. cbn [map]. by rewrite E, IH. }
  apply list_elem_of_lookup in M as [i M]. destruct (Forall2_lookup_l _ _ _ _ _ F M) as (p & P & [E A]).
  exists p.2. split; [done|]. rewrite dict_of_distinct by by rewrite I. rewrite <- E.
  apply dict_get_nodup; [unfold dict_keys; rewrite <- list_fmap_compose; by change (NoDup (map fst ns)); rewrite I|].
  apply list_elem_of_fmap. exists p. split; [done|]. by eapply list_elem_of_lookup_2.
Qed.

Lemma equals_str_eq v s : equals_str v s = true -> v = Some (PJStr s).
Proof. destruct v as [[]|]; try discriminate. cbn. intros H. bools. by subst. Qed.

(** An entry of the split manifest puts a task in the train split. *)
Definition in_train (entries : list pyjson) (k : json_key) : Prop :=
  exists e, e ∈ entries /\ key_at "task_id" e = Ok k /\ item e "split" = Ok (PJStr (Split_value Train)).

Lemma train_entry entries table e : by_task_id (fun e => Ok e) entries = Ok table -> not_train table e = Ok false ->
  exists k, key_at "task_id" e = Ok k /\ in_train entries k.
Proof.
  unfold not_train. intros T H. apply bind_ok in H as (k & K & H). apply bind_ok in H as (entry & E & H).
  apply bind_ok in H as (x & X & H). destruct (equals_str (Some x) (Split_value Train)) eqn:Q; [|discriminate].
  apply equals_str_eq in Q. injection Q as ->.
  exists k. split; [done|]. destruct (entry_in _ _ _ _ T E) as [I K']. by exists entry.
Qed.

(** ** What a ready pilot may do *)

Section ReadyPilot.
Context {UD : UnicodeData} (sha256 : list N -> pystr) (loads : list N -> result exn pyjson).
Context (parse_readiness : list N -> result exn PricingReadinessRecord) (parse_dataset : list N -> result exn BenchmarkDataset).
Context (model_validate : py_dict -> result exn ModelConfig).

(** A task of the pilot: of the dataset, in the train split, and allowed for
    each candidate its visible tokens and the reserved headroom. *)
Definition pilot_task (contract : ExecutionProtocolContract) (candidates : list ModelConfig) (d : BenchmarkDataset)
    (entries : list pyjson) (r : PilotReport) (e : pyjson) : Prop :=
  exists t row, t ∈ tasks d /\ key_at "task_id" e = Ok (KStr (task_id t)) /\ in_train entries (KStr (task_id t)) /\
    (KStr (task_id t), row) ∈ rp_effective_max_output_tokens r /\
    forall i m, candidates !! i = Some m ->
      dict_get row (model_id m) = Some (bt_max_output_tokens t + headroom (pc_model_contract contract) i)%Z.

Record frozen_pilot (f : PilotFiles) (r : PilotReport) (contract : ExecutionProtocolContract) (candidates : list ModelConfig)
    (record : PricingReadinessRecord) (d : BenchmarkDataset) (entries ts : list pyjson) : Prop := {
  fp_supported : contract ∈ SUPPORTED_EXECUTION_PROTOCOLS;
  fp_paid : pc_requires_pricing_readiness contract = true;
  fp_protocol : sha256 (pf_protocol f) = pc_manifest_sha256 contract;
  fp_dataset : load_dataset sha256 parse_dataset (pf_dataset f) = Ok d /\ sha256 (pf_dataset f) = pc_dataset_sha256 contract;
  fp_candidates : map model_id candidates = map model_id CANDIDATE_MODELS;
  fp_record : pr_protocol_sha256 record = sha256 (pf_protocol f) /\ pr_status record = READY_FOR_PAID_EXECUTION;
  fp_prices : priced_as_reviewed record candidates;
  fp_split : (split ← loads (pf_split f); v ← item split "entries"; iterate v) = Ok entries;
  fp_tasks : length ts = 21 /\ NoDup (map (key_of "task_id") ts) /\ Forall (pilot_task contract candidates d entries r) ts;
  fp_costs : exists total worst, as_decimal (rp_projected_total_cost r) = Ok total /\
    as_decimal (rp_projected_worst_case_cost r) = Ok worst /\ d_leb total CEILING = true /\ d_leb worst CEILING = true;
  fp_attempts : rp_maximum_candidate_attempts r = 84%Z /\ (0 <= rp_maximum_astra_calls r <= 84)%Z /\ rp_provider_calls_made r = 0%Z
}.

Lemma pilot_task_ok contract candidates d entries table ts allowances r e :
  (forall i m, candidates !! i = Some m -> forall n cat, (0 < n)%Z ->
     provider_output_allowance m n cat = Ok (n + headroom (pc_model_contract contract) i)%Z) ->
  NoDup (map model_id candidates) -> NoDup (map (key_of "task_id") ts) ->
  by_task_id (fun e => Ok e) entries = Ok table -> any_result (not_train table) ts = Ok false ->
  result_map (pilot_allowances (dataset_by_task d) candidates) ts = Ok allowances ->
  rp_effective_max_output_tokens r = dict_of fst snd allowances -> candidates <> [] ->
  e ∈ ts -> pilot_task contract candidates d entries r e.
Proof.
  intros H D N T O A R NE I. destruct (result_map_Ok _ _ _ A e I) as ([k row] & P & J).
  destruct (pilot_row _ _ _ _ _ P D) as (K & t & E & Q). destruct (known_task _ _ _ E) as [It ->].
  destruct (train_entry _ _ _ T (any_result_none _ _ O e I)) as (k' & K' & Tr). rewrite K in K'. injection K' as <-.
  exists t, row. split; [done|]. split; [done|]. split; [done|]. split.
  - rewrite R. rewrite dict_of_distinct.
    + apply list_elem_of_fmap. by exists (KStr (task_id t), row).
    + replace (map fst allowances) with (map (key_of "task_id") ts); [done|].
      apply result_map_ok in A. clear - A. induction A as [|x [k v] l ys Hx _ IH]; [done|]. cbn [map fst]. rewrite IH. f_equal.
      unfold pilot_allowances in Hx. apply bind_ok in Hx as (k' & K & Hx). apply bind_ok in Hx as (? & _ & Hx).
      apply bind_ok in Hx as (? & _ & Hx). injection Hx as <- _. unfold key_of. by rewrite K.
  - intros i m M. destruct (Q m ltac:(by eapply list_elem_of_lookup_2)) as (n & An & G). rewrite G. f_equal.
    pose proof (allowance_positive _ _ _ An) as Pos. unfold task_allowance in An. rewrite (H i m M _ _ Pos) in An.
    by injection An as <-.
Qed.

Lemma summaries_bound (l : list bool) : length (List.filter (fun b => b) l) <= length l.
Proof. apply List.filter_length_le. Qed.

(** A pilot that is ready is the frozen one: its protocol and dataset have
    the digests of a supported contract for paid execution; its candidates are the
    reviewed ones and every paid model, the judge included, has evidence at exactly
    its slug and prices; its 21 distinct tasks are tasks of the dataset that the
    split manifest puts in train, each candidate being allowed the visible tokens of
    the task and its reserved headroom; the projected costs are at most the ceiling;
    and it makes at most 84 attempts and 84 judge calls, none by the dry run itself.
    *)
Theorem ready_pilot_is_frozen f r :
  corrected_pilot_dry_run sha256 loads parse_readiness parse_dataset model_validate f = Ok r ->
  exists contract candidates record d entries ts, frozen_pilot f r contract candidates record d entries ts.
Proof.
  unfold corrected_pilot_dry_run. intros H. apply bind_ok in H as ([[protocol candidates] digest] & L & H).
  destruct (loaded_protocol _ _ _ _ _ _ _ L) as (c & C & IC & DC & -> & IDS & AL).
  rewrite C in H. rsimpl_in H. apply bind_ok in H as (? & RQ%value_guard_ok & H).
  apply bind_ok in H as (record & RD & H). apply readiness_ok in RD as (c' & C' & ST & _ & _ & PS & _ & PR); [|done].
  apply bind_ok in H as (d & LD & H). apply bind_ok in H as (? & DS%value_guard_ok & H). cbv zeta in H.
  do 2 apply bind_ok in H as (? & _ & H). apply bind_ok in H as (ev & _ & H). do 2 apply bind_ok in H as (? & _ & H).
  apply bind_ok in H as (split_ & LS & H). apply bind_ok in H as (pilot & LP & H). apply bind_ok in H as (entries & ES & H).
  apply bind_ok in H as (table & TB & H). apply bind_ok in H as (ts & _ & H). apply bind_ok in H as (? & N21%value_guard_ok & H).
  apply bind_ok in H as (ids & KI & H). apply bind_ok in H as (? & D21%value_guard_ok & H).
  apply bind_ok in H as (outside & OT & H). apply bind_ok in H as (? & OF%value_guard_ok & H).
  apply bind_ok in H as (unknown & _ & H). apply bind_ok in H as (? & _ & H). apply bind_ok in H as (allowances & AW & H).
  apply bind_ok in H as (costs & _ & H). apply bind_ok in H as (tt_ & _ & H). apply bind_ok in H as (total & TD & H).
  apply bind_ok in H as (wt & _ & H). apply bind_ok in H as (worst & WD & H). apply bind_ok in H as (? & CE%value_guard_ok & H).
  apply bind_ok in H as (summaries & SM & H). do 2 apply bind_ok in H as (? & _ & H). injection H as <-.
  destruct outside; [discriminate|]. apply Nat.eqb_eq in N21, D21. destruct (keys_read _ _ _ KI) as [-> KE].
  assert (ND : NoDup (map (key_of "task_id") ts)).
  { apply all_distinct_true. unfold all_distinct. apply Nat.eqb_eq. rewrite length_map. congruence. }
  assert (LC : length candidates = 4) by (apply (f_equal length) in IDS; rewrite !length_map in IDS; exact IDS).
  assert (DC' : NoDup (map model_id candidates)).
  { rewrite IDS. apply all_distinct_true. vm_compute. reflexivity. }
  exists c, candidates, record, d, entries, ts. split; try done.
  - split; [done|]. bools. rewrite <- DS. unfold load_dataset in LD. apply bind_ok in LD as (d' & _ & LD).
    apply bind_ok in LD as (? & _ & LD). by injection LD as <-.
  - rewrite LS. exact ES.
  - split; [done|]. split; [done|]. apply Forall_forall. intros e I.
    eapply (pilot_task_ok c candidates d entries table ts allowances); try done.
    + intros i m M n cat P. destruct (CANDIDATE_MODELS !! i) as [k|] eqn:CK.
      * by apply (AL i m k M CK).
      * apply lookup_ge_None in CK. apply lookup_lt_Some in M. rewrite LC in M. change (length CANDIDATE_MODELS) with 4 in CK. lia.
    + by intros ->.
  - exists total, worst. bools. done.
  - cbn. rewrite N21, LC. pose proof (summaries_bound summaries) as B. apply result_map_ok, Forall2_length in SM.
    split; [done|]. split; [|done]. lia.
Qed.
End ReadyPilot.

(** ** What a ready confirmation may do *)

Section ReadyConfirmation.
Context (sha256 : list N -> pystr) (loads : list N -> result exn pyjson).
Context (parse_readiness : list N -> result exn PricingReadinessRecord) (parse_dataset : list N -> result exn BenchmarkDataset).
Context (model_validate : py_dict -> result exn ModelConfig).

(** A case: one of the five tasks, in the train split, whose manifest states its
    visible tokens and the allowance with Gemini's headroom of 384 tokens. *)
Definition confirmation_case (d : BenchmarkDataset) (entries : list pyjson) (e : pyjson) : Prop :=
  exists fields t, e = PJObj fields /\ t ∈ tasks d /\ key_at "task_id" e = Ok (KStr (task_id t)) /\
    task_id t ∈ CONFIRMATION_IDS /\ in_train entries (KStr (task_id t)) /\
    equals_int (dict_get fields (py "visible_output_requirement")) (bt_max_output_tokens t) = true /\
    equals_int (dict_get fields (py "provider_output_allowance")) (bt_max_output_tokens t + 384) = true.

Lemma train_keys entries ks k : keys_where "split" (Split_value Train) "task_id" entries = Ok ks -> k ∈ ks -> in_train entries k.
Proof.
  unfold keys_where. intros H K. apply bind_ok in H as (os & O & H). injection H as <-. unfold somes in K.
  apply list_elem_of_omap in K as (o & I & ->). apply result_map_ok in O. apply list_elem_of_lookup in I as [i I].
  destruct (Forall2_lookup_r _ _ _ _ _ O I) as (e & Y & E). apply list_elem_of_lookup_2 in Y.
  unfold key_where in E. apply bind_ok in E as (x & X & E). destruct (equals_str (Some x) _) eqn:Q; [|discriminate].
  apply bind_ok in E as (k' & K & E). injection E as <-. apply equals_str_eq in Q. injection Q as ->. by exists e.
Qed.

Lemma gemini_found candidates g : find_gemini candidates = Ok g -> g ∈ candidates /\ model_id g = GEMINI.
Proof.
  unfold find_gemini. induction candidates as [|m l IH]; cbn [next]; [discriminate|]. rsimpl. case_bool_decide as B.
  - intros H. injection H as <-. split; [by left|done].
  - intros H. destruct (IH H) as [I E]. split; [by right|done].
Qed.

Lemma confirmed_version protocol c : find_contract protocol = Ok c ->
  existsb (equals_str (dict_get protocol (py "version"))) CONFIRMATION_VERSIONS = true ->
  equals_str (dict_get protocol (py "protocol")) ROUTING_V12_PROTOCOL_NAME = true -> headroom (pc_model_contract c) 2 = 384%Z.
Proof.
  unfold find_contract, get_key. intros F V P. apply equals_str_eq in P. rewrite P in F. cbn [default or_null hashed] in F. rsimpl_in F.
  apply existsb_exists in V as (v & I & V). apply equals_str_eq in V. rewrite V in F. cbn [default or_null hashed from_option id] in F. rsimpl_in F.
  unfold CONFIRMATION_VERSIONS in I. cbn [map In] in I. destruct I as [<-|[<-|[<-|[]]]]; vm_compute in F; by injection F as <-.
Qed.

(** A case whose manifest states its tokens and its allowance. *)
Definition stated_case (d : BenchmarkDataset) (e : pyjson) : Prop :=
  exists fields t, e = PJObj fields /\ t ∈ tasks d /\ key_at "task_id" e = Ok (KStr (task_id t)) /\
    equals_int (dict_get fields (py "visible_output_requirement")) (bt_max_output_tokens t) = true /\
    equals_int (dict_get fields (py "provider_output_allowance")) (bt_max_output_tokens t + 384) = true.

Lemma case_stated d g us cases : (forall n cat, (0 < n)%Z -> provider_output_allowance g n cat = Ok (n + 384)%Z) ->
  result_map (case_allowance (dataset_by_task d) g) cases = Ok us -> Forall (stated_case d) cases.
Proof.
  intros GH CA. apply Forall_forall. intros e I. destruct (result_map_Ok _ _ _ CA e I) as (u & U & _). unfold case_allowance in U.
  apply bind_ok in U as (k & K & U). apply bind_ok in U as (t & T & U). apply bind_ok in U as (n & A & U).
  apply bind_ok in U as (fields & F & U). apply value_guard_ok, andb_true_iff in U as [U1 U2].
  destruct e as [| | | | | |l]; try discriminate F. injection F as ->. destruct (known_task _ _ _ T) as [IT ->].
  exists fields, t. split; [done|]. split; [done|]. split; [done|]. split; [done|].
  pose proof (allowance_positive _ _ _ A) as P. unfold task_allowance in A. rewrite (GH _ _ P) in A. by injection A as <-.
Qed.

Lemma stated_ids d cases ids : Forall (stated_case d) cases -> result_map optional_id cases = Ok ids ->
  ids = map (key_of "task_id") cases.
Proof.
  intros K KI. apply result_map_ok in KI. induction KI as [|e k l ks E _ IH]; [done|]. apply Forall_cons in K as [K KS].
  cbn [map]. rewrite (IH KS). f_equal. destruct K as (fields & t & -> & _ & KA & _).
  unfold optional_id, object in E. rsimpl_in E. unfold key_of. rewrite KA. unfold key_at, item in KA.
  destruct (dict_get fields (py "task_id")) as [v|]; [|discriminate]. rsimpl_in KA. cbn [or_null default from_option id] in E.
  cbn [the]. congruence.
Qed.

(** Gemini is the third candidate. *)
Lemma gemini_index candidates g : map model_id candidates = map model_id CANDIDATE_MODELS -> g ∈ candidates ->
  model_id g = GEMINI -> candidates !! 2 = Some g.
Proof.
  intros IDS GI GE. apply list_elem_of_lookup in GI as [i GI].
  assert (E : map model_id CANDIDATE_MODELS !! i = Some GEMINI) by (rewrite <- IDS, list_lookup_fmap, GI; cbn; by rewrite GE).
  do 4 (destruct i as [|i]; [try done; vm_compute in E; discriminate|]). by destruct i.
Qed.

(** A Gemini confirmation that is ready runs a supported protocol with its
    dataset and reviewed prices; its cases are tasks of the dataset in the train
    split, their identifiers are exactly the five, and each case states the visible
    tokens of its task and the allowance with the headroom of 384 tokens; at most
    five calls are allowed, none to the judge. *)
Theorem ready_confirmation_is_bounded f r :
  gemini_confirmation_dry_run sha256 loads parse_readiness parse_dataset model_validate f = Ok r ->
  exists contract candidates record d entries cases,
    contract ∈ SUPPORTED_EXECUTION_PROTOCOLS /\ sha256 (cf_protocol f) = pc_manifest_sha256 contract /\
    sha256 (cf_dataset f) = pc_dataset_sha256 contract /\ priced_as_reviewed record candidates /\
    Forall (confirmation_case d entries) cases /\
    (forall id, id ∈ CONFIRMATION_IDS <-> KStr id ∈ map (key_of "task_id") cases) /\
    cr_maximum_candidate_calls r = 5%Z /\ cr_astra_calls r = 0%Z /\ cr_provider_calls_made r = 0%Z /\ cr_candidate_id r = GEMINI.
Proof.
  unfold gemini_confirmation_dry_run. intros H. apply bind_ok in H as ([[protocol candidates] digest] & L & H).
  destruct (loaded_protocol _ _ _ _ _ _ _ L) as (c & C & IC & DC & -> & IDS & AL).
  apply bind_ok in H as (? & V%value_guard_ok & H). apply andb_true_iff in V as [VP VV].
  apply bind_ok in H as (record & RD & H). apply readiness_ok in RD as (c' & C' & ST & _ & _ & PS & _ & PR); [|done].
  apply bind_ok in H as (d & LD & H). rewrite C in H. rsimpl_in H. apply bind_ok in H as (? & DS%value_guard_ok & H).
  apply bind_ok in H as (? & _ & H). apply bind_ok in H as (split_ & _ & H). apply bind_ok in H as (entries & _ & H).
  apply bind_ok in H as (train & TR & H). apply bind_ok in H as (manifest & _ & H). apply bind_ok in H as (cases & _ & H).
  apply bind_ok in H as (ids & KI & H). apply bind_ok in H as (? & SE%value_guard_ok & H).
  apply bind_ok in H as (g & G & H). apply bind_ok in H as (effort & _ & H). apply bind_ok in H as (? & SU%value_guard_ok & H).
  apply bind_ok in H as (us & CA & H). injection H as <-. destruct (gemini_found _ _ G) as [GI GE].
  exists c, candidates, record, d, entries, cases. split; [done|]. split; [done|].
  split. { bools. rewrite <- DS. unfold load_dataset in LD. apply bind_ok in LD as (d' & _ & LD).
           apply bind_ok in LD as (? & _ & LD). by injection LD as <-. }
  split; [done|]. rewrite same_elements_true in SE. rewrite subset_of_true in SU.
  pose proof (gemini_index candidates g IDS GI GE) as GX.
  assert (K : Forall (stated_case d) cases).
  { eapply case_stated; [|exact CA]. intros n cat P. rewrite <- (confirmed_version _ _ C VV VP).
    eapply AL; [exact GX|vm_compute; reflexivity|done]. }
  pose proof (stated_ids d cases ids K KI) as IDK. rewrite Forall_forall in K.
  split.
  - apply Forall_forall. intros e I. destruct (K e I) as (fields & t & -> & IT & KA & A1 & A2).
    assert (Q : task_id t ∈ CONFIRMATION_IDS).
    { assert (J : KStr (task_id t) ∈ ids) by (rewrite IDK; apply list_elem_of_fmap; exists (PJObj fields); split; [unfold key_of; by rewrite KA|done]).
      apply SE, list_elem_of_fmap in J as (id & E & J). by injection E as ->. }
    exists fields, t. split; [done|]. split; [done|]. split; [done|]. split; [done|]. split; [|by split].
    apply (train_keys entries train); [done|]. apply SU. by apply list_elem_of_fmap_2.
  - split; [|split; [done|split; [done|split; [done|exact GE]]]]. intros id. rewrite <- IDK, SE. split.
    + intros J. by apply list_elem_of_fmap_2.
    + intros J. apply list_elem_of_fmap in J as (y & E & J). by injection E as ->.
Qed.
End ReadyConfirmation.

(** ** A study that is ready *)

Definition V17 : string := "b4cde3954a8ccd1b54684dcb62da303e7bc806248306464ae536b9ff717a0bd8"%string.

(** Files are named by one byte, and their digests are made up except for the
    frozen ones. *)
Definition PROTOCOL_FILE : list N := [0%N].
Definition READINESS_FILE : list N := [1%N].
Definition DATASET_FILE : list N := [2%N].
Definition SPLIT_FILE : list N := [3%N].
Definition EVALUATOR_FILE : list N := [4%N].
Definition SPECIFICATION_FILE : list N := [5%N].
Definition PILOT_FILE : list N := [6%N].
Definition COST_FILE : list N := [7%N].
Definition CONFIRMATION_FILE : list N := [8%N].
Definition REPEATED_FILE : list N := [9%N].

Definition ready_sha256 (raw : list N) : pystr :=
  match raw with
  | [0%N] => py V17
  | [2%N] => V12_DATASET_SHA256
  | _ => repeat (48 + default 0 (head raw))%N 64
  end.

Definition ready_task (c : BenchmarkCategory) (id : pystr) : BenchmarkTask :=
  mk_BenchmarkTask (py "p") None 100 f_zero id c EO_text [] None [] None None None None None None.

(** The five tasks of the confirmation and sixteen more. *)
Definition ready_tasks : list BenchmarkTask :=
  map (fun id => ready_task (if startswith id (py "coding") then BC_CODING else BC_SUMMARIZATION) id) CONFIRMATION_IDS ++
  map (fun i => ready_task BC_QA (py "qa-" ++ N_to_str (N.of_nat i))) (seq 1 16).

Definition id_field (t : BenchmarkTask) : list N * pyjson := (py "task_id", PJStr (task_id t)).

Definition ready_protocol : py_dict :=
  sample_protocol ++
  [ (py "split_manifest_sha256", PJStr (ready_sha256 SPLIT_FILE)); (py "evaluator_manifest_sha256", PJStr (ready_sha256 EVALUATOR_FILE));
    (py "summarization_specification_sha256", PJStr (ready_sha256 SPECIFICATION_FILE)) ].

Definition confirmation_fields (t : BenchmarkTask) : pyjson :=
  PJObj [id_field t; (py "visible_output_requirement", PJInt 100); (py "provider_output_allowance", PJInt 484)].

Definition confirmation_manifest (cases : list pyjson) : pyjson :=
  PJObj [ (py "cases", PJArr cases); (py "protocol_sha256", PJStr (py V17));
    (py "execution_readiness_sha256", PJStr (ready_sha256 READINESS_FILE)); (py "candidate_id", PJStr GEMINI);
    (py "reasoning_effort", PJStr (py "minimal")); (py "reasoning_control", PJStr (py "google_provider_native"));
    (py "maximum_candidate_calls", PJInt 5); (py "candidate_retries", PJInt 0); (py "astra_calls", PJInt 0);
    (py "quality_evaluation", PJBool false) ].

Definition five_cases : list pyjson := map confirmation_fields (firstn 5 ready_tasks).

Definition ready_loads (raw : list N) : result exn pyjson :=
  match raw with
  | [0%N] => Ok (PJObj ready_protocol)
  | [3%N] => Ok (PJObj [(py "entries", PJArr (map (fun t => PJObj [id_field t; (py "split", PJStr (py "train"))]) ready_tasks))])
  | [4%N] => Ok (PJObj [(py "version", PJStr (py "1.3.0"))])
  | [6%N] => Ok (PJObj [(py "tasks", PJArr (map (fun t => PJObj [id_field t;
               (py "internal_category", PJStr (BenchmarkCategory_value (bt_category t)))]) ready_tasks))])
  | [7%N] => Ok (PJObj [(py "corrected_pilot", PJObj [ (py "expected_total_cost_usd", PJStr (py "0.41"));
               (py "worst_case_cost_usd", PJStr (py "0.59")); (py "candidate_cost_usd", PJStr (py "0.03"));
               (py "expected_cost_usd", PJStr (py "0.34")) ])])
  | [8%N] => Ok (confirmation_manifest five_cases)
  | [9%N] => Ok (confirmation_manifest (five_cases ++ five_cases))
  | _ => Raise (Exn C_ValueError)
  end.

Definition evidence_of (m : ModelConfig) : ModelPricingEvidence :=
  mk_ModelPricingEvidence (model_id m) (provider_model_name m) (input_cost_per_1m_tokens m) (output_cost_per_1m_tokens m)
    HUMAN_WEB_VERIFIED 739526 [py "https://example.org/pricing"].

Definition ready_record (raw : list N) : result exn PricingReadinessRecord :=
  a ← astra_model;
  Ok (mk_PricingReadinessRecord (py "1.0.0") READY_FOR_PAID_EXECUTION ROUTING_V12_PROTOCOL_NAME (py "1.7.0") (py V17) 739526
        (map evidence_of (a :: ROUTING_BENCHMARK_MODELS_V17))).

Definition ready_dataset (raw : list N) : result exn BenchmarkDataset :=
  Ok (mk_BenchmarkDataset (py "routing") (py "1.2.0") ready_tasks []).

Definition ready_pilot : result exn PilotReport :=
  corrected_pilot_dry_run (UD := ascii_tables) ready_sha256 ready_loads ready_record ready_dataset sample_validate
    (mk_PilotFiles PROTOCOL_FILE READINESS_FILE DATASET_FILE SPLIT_FILE EVALUATOR_FILE SPECIFICATION_FILE PILOT_FILE COST_FILE).

Definition ready_confirmation (manifest : list N) : result exn ConfirmationReport :=
  gemini_confirmation_dry_run ready_sha256 ready_loads ready_record ready_dataset sample_validate
    (mk_ConfirmationFiles PROTOCOL_FILE READINESS_FILE DATASET_FILE SPLIT_FILE manifest).

Lemma ready_pilot_is_frozen_witness : exists r, ready_pilot = Ok r /\ rp_maximum_candidate_attempts r = 84%Z /\
  rp_maximum_astra_calls r = 8%Z.
Proof.
  assert (K : match ready_pilot with Ok r => rp_maximum_astra_calls r = 8%Z | Raise _ => False end) by (vm_compute; reflexivity).
  destruct ready_pilot as [r|e] eqn:E; [|destruct K]. exists r. split; [reflexivity|].
  destruct (ready_pilot_is_frozen (UD := ascii_tables) _ _ _ _ _ _ _ E) as (c & ms & rec & d & es & ts & F).
  destruct F as [_ _ _ _ _ _ _ _ _ _ [A _]]. split; [exact A|exact K].
Defined.

Lemma ready_confirmation_is_bounded_witness : exists r, ready_confirmation CONFIRMATION_FILE = Ok r /\
  cr_maximum_candidate_calls r = 5%Z /\ cr_reasoning_reserve_tokens r = 384%Z.
Proof.
  assert (K : match ready_confirmation CONFIRMATION_FILE with Ok r => cr_reasoning_reserve_tokens r = 384%Z | Raise _ => False end)
    by (vm_compute; reflexivity).
  destruct (ready_confirmation CONFIRMATION_FILE) as [r|e] eqn:E; [|destruct K]. exists r. split; [reflexivity|].
  destruct (ready_confirmation_is_bounded _ _ _ _ _ _ _ E) as (c & ms & rec & d & es & cs & _ & _ & _ & _ & _ & _ & M & _).
  split; [exact M|exact K].
Defined.

(** The identifiers of the cases are compared as a set: a manifest that lists
    each of the five cases twice is ready for confirmation too. *)
Lemma repeated_cases_are_ready : exists r, ready_confirmation REPEATED_FILE = Ok r /\ length (five_cases ++ five_cases) = 10.
Proof.
  assert (K : is_ok (ready_confirmation REPEATED_FILE) = true) by (vm_compute; reflexivity).
  destruct (ready_confirmation REPEATED_FILE) as [r|e]; [|discriminate K]. by exists r.
Qed.
